(* ===== verification/_CoqProject ===== *)
-Q . S2P
Prelude.v
JsValue.v
JsonText.v
CalendarDates.v
Money.v
CancellationTerms.v
BookedCancellation.v
CancellationPolicy.v
PolicyGuarantees.v
ReplacementPricing.v
PricingConfiguration.v
PricingCalculator.v
PricingFacts.v
PricingGuarantees.v
PricingConversion.v
PublicPricing.v
RoomSelection.v
RoomCombination.v
CombinationAllocation.v
CombinationPlans.v
CombinationStates.v
CombinationGuarantees.v
RoomAssignment.v
AssignmentIntervals.v
AssignmentSearch.v
AssignmentComplete.v
AssignmentGuarantees.v
AssignmentReport.v
OperatingSchedule.v
OperatingCalendar.v
InventoryPlanner.v
CalendarAutoOpen.v
ReservationLifecycle.v
ReservationRows.v
ReservationStore.v
LaunchReadiness.v
LinkedInventory.v
ReservationRepository.v
ReservationBooking.v
ReservationRuns.v
ReservationLedger.v
ReservationBalance.v
ReservationReadBack.v
ReservationGuarantees.v
QuoteReservation.v
Identity.v
Authorization.v
AuthorizationGuarantees.v
AccountTransfer.v
FolioDecimals.v
FinanceFolios.v
FolioCsv.v
FolioGuarantees.v
FinanceExpenses.v
GeneratedExpenses.v
FolioWrites.v
PaymentWindows.v
InventoryRules.v
BookingAmounts.v
OtaCommission.v
ConversionFunnel.v
CalendarStays.v
FinanceReporting.v
ProfitLoss.v
ProfitLossGuarantees.v
ProfitLossCsv.v
RevenueReport.v
Dashboard.v
DashboardGuarantees.v
RevenueCsv.v
WorkedExamples.v
ReservationExamples.v
CancellationExamples.v
AssignmentExamples.v
PricingExamples.v
AuthorizationExamples.v
FolioExamples.v
BookingExamples.v
ReportingExamples.v
FinanceExamples.v
