(* ===== verification/Prelude.v ===== *)
(** * Verification of the vayada hospitality platform: root file

    Vayada runs the operations of hotels: a property management system (PMS)
    that owns rooms, inventory and prices, a booking site, a channel manager,
    finance and back-office applications.  This library models the pure core of
    the PMS, of booking, of finance and of authorization, and the transactions
    that reserve inventory, as Rocq functions translated from the TypeScript under
    src/, with the theorems that make them correct.

    ** How the parts work together

    - A property has an _operating calendar_ (which days it is open) and per-room
      limits.  From these the _inventory planner_ derives one inventory row per
      room type and night; _launch readiness_ checks that the rows cover what may
      be sold; the _automatic opening_ moves the horizon of a calendar on.
    - A booking _reserves_ rooms on the nights of its stay in one transaction:
      the reservation lifecycle contract says what a command and an answer are,
      the repository reads, checks and writes the tables, and linked inventory is
      reconciled and announced.  A _quote_ reserves all its rooms together: one
      reservation per room type, or none.
    - _Pricing_ evaluates a stay from a room type's configuration: calendars,
      links between offers, restrictions, children and meals; the channels are
      sent single nights of the same evaluation; a property that changes its
      currency has its configurations converted.  The stay a guest asks a price
      for is bound to the offers of the property, and priced evidence is current
      for that stay only.
    - A _room combination search_ finds the cheapest selections of room types
      that accommodate a party; a room selection is what the guest submits; the
      _stays of a calendar_ are the check-outs a guest is offered for an arrival.
    - _Cancellation_ terms are fixed when the guest books; a cancellation is
      resolved from them, and the policy page must say what it will refund.
    - _Room assignment_ distributes booked stays over physical rooms.
    - _Payment windows_, _inventory rules_ of channels and _booking amounts_ are
      small contracts of booking and distribution; the _conversion funnel_ reports
      how visits of a booking page end.
    - _Finance_ keeps folios of guests and expenses (written by hand or generated
      from bookings by an automation, commissions among them) and reports them:
      profit and loss, revenue and a dashboard, each with an exported document.
    - _Identity and authorization_ decide who may do what: roles, their ceilings
      and overrides, entitlements, properties, and the transfer of an account.

    ** Files and sources

    Shared by all:
    - Prelude: exceptions, options, sorting by a comparator, insertion-ordered
      maps ([Map], plain objects), sums, tactics.
    - JsValue, JsonText: the values a parser receives ([unknown]), own
      properties and prototypes, [Object.keys], string helpers, regular
      expressions as character classes, [JSON.stringify] and that it is injective
      on plain values.
    - CalendarDates: [Date.UTC], [Date.parse], ISO dates and instants
      (inventoryReservationLifecycle.ts, inventoryMaterializationPlanner.ts,
      [pricingDate] of replacementPricingConfiguration.ts).
    - Money: minor amounts as decimal texts and [BigInt] (replacementPricing.ts).

    packages/domain-pms/src:
    - OperatingSchedule, OperatingCalendar: operatingCalendar.ts.
    - InventoryPlanner: inventoryMaterializationPlanner.ts (and the row type of
      inventoryMaterialization.ts); LaunchReadiness: inventoryMaterialization.ts
      and [readLaunchReadiness] of apps/api's
      pmsInventoryMaterializationRepository.ts; CalendarAutoOpen:
      calendarAutoOpen.ts.
    - ReservationLifecycle: inventoryReservationLifecycle.ts.
    - RoomAssignment: roomAssignmentOptimization.ts; its proofs in
      AssignmentIntervals, AssignmentSearch, AssignmentComplete,
      AssignmentGuarantees, AssignmentReport.
    - CancellationTerms: the flexible terms of pricing.ts.
    - ReplacementPricing, PricingConfiguration, PricingCalculator,
      PricingConversion: replacementPricing.ts, replacementPricingConfiguration.ts,
      replacementPricingCalculator.ts, replacementPricingConversion.ts; proofs of
      the first three in PricingFacts and PricingGuarantees.

    packages/domain-booking/src, domain-distribution/src, domain-pms-channex/src:
    - BookedCancellation: bookedCancellationOutcome.ts; CancellationPolicy:
      cancellationPolicy.ts; that they agree is in PolicyGuarantees.
    - RoomSelection: roomSelection.ts; RoomCombination:
      roomCombinationSearch.ts; its proofs in CombinationAllocation (one type),
      CombinationPlans, CombinationStates, CombinationGuarantees.
    - PaymentWindows: paymentMethodWindows.ts; BookingAmounts:
      bookingPriceCalculation.ts; ConversionFunnel: conversionFunnel.ts.
    - PublicPricing: publicPricingSelection.ts, pricingAddonSelection.ts,
      pricingPaymentMethods.ts, replacementPricingEvidence.ts.
    - CalendarStays: calendarStays.ts; InventoryRules: inventoryRules.ts.

    packages/domain-finance/src and its composers in apps/api/src/domains:
    - FolioDecimals, FinanceFolios, FolioCsv: financialFolios.ts; proofs in
      FolioWrites and FolioGuarantees.
    - FinanceExpenses: financialExpenses.ts; GeneratedExpenses:
      generatedExpenses.ts; OtaCommission: otaCommissionRules.ts.
    - FinanceReporting: financialReporting.ts; ProfitLoss:
      financeProfitLossResponse.ts; ProfitLossCsv: financialCsv.ts and
      financialProfitLossCsv.ts; RevenueReport: financeRevenueResponse.ts;
      RevenueCsv: financialRevenueCsv.ts; Dashboard: financeDashboardResponse.ts
      and financialDashboardCsv.ts; proofs also in ProfitLossGuarantees and
      DashboardGuarantees.

    packages/backend-auth/src and backend-authorization/src:
    - Identity: types.ts, lifecycle.ts, teamRolePolicy.ts; Authorization:
      backend-authorization's index.ts, with proofs in AuthorizationGuarantees;
      AccountTransfer: accountAdminTransferValidation.ts.

    apps/api/src/domains and the migrations:
    - ReservationRows, ReservationRepository:
      pmsInventoryReservationLifecycleRepository.ts; ReservationStore: the tables,
      constraints and triggers the commands meet (migrations 0006, 0057, 0175,
      0176); LinkedInventory: pmsLinkedInventoryReconciler.ts and
      pmsLinkedInventorySideEffects.ts.  Their proofs are in ReservationBooking,
      ReservationRuns, ReservationLedger, ReservationBalance, ReservationReadBack
      and ReservationGuarantees.
    - QuoteReservation: [reservePmsQuoteInventory] of the same repository and
      domain-pms' inventoryReservationBundle.ts.

    The Examples files evaluate the definitions on concrete inputs and apply each
    theorem that has hypotheses.

    ** What is shown

    - Reservations: over any sequence of reserve and release commands the rooms
      assigned on a night stay in balance with the receipts held on it
      ([commands_keep_balance]); a granted command changes exactly its nights,
      never past capacity, and passes every database constraint; a release undoes
      a reservation; a repeated command is answered from its idempotency key, a
      refused one changes nothing; statuses read back and terminal ones stay.  A
      quote holds exactly its rooms, type by type, and is answered alike when it
      is asked again.
    - Planning: planned days are consistent, cover the horizon, keep what the
      owner and the bookings wrote, and planning again changes nothing; a
      property is ready to launch exactly when its stored days cover the required
      range at the calendar's revision; an automatic horizon is bounded.
      Schedules: the canonical periods are open on exactly the submitted days.
    - Room assignment refines its contract: a result is a placement without
      overlaps, infeasible means there is none as long as the ids of the movable
      stays are not empty and hold neither a comma nor a bar (the memo keys of
      other ids can collide, [colliding_ids_infeasible]), the search terminates
      within its budget, a failed one restores what it found, and its report is
      true.
    - Room combinations refine theirs: every option can be booked, the search
      finds an option whenever a plan exists and a cheapest one first, and its
      budget only decides whether it completes.  The stays of a calendar are
      exactly those that one offer covers.
    - Prices: an accepted configuration answers every request; a priced stay adds
      up, night by night and without overflow; a night shown to a channel is the
      night the guest pays; the walk over linked offers computes the recursive
      reading of derived rates; percentages round half up to the price step.  A
      conversion converts every amount to the nearest multiple of the step and
      keeps everything else, and a completed one has converted all rooms there
      were.  A public selection is bound whenever its offers are unambiguous, the
      text a stay's key is taken of identifies it up to order, and current evidence
      adds up.
    - Cancellations: shares, refunds and retained amounts add up to what the
      guest accepted, fairly to a minor unit, and the policy page agrees with the
      refund route.
    - Payments and channels: the gaps between payment windows, and the meeting of
      two inventory rules, are exactly what they are defined to be; the funnel
      counts each session as if it were alone and narrows from step to step.
    - Finance: folios, statements, revenue reports and dashboards add up, and the
      share of a channel is the nearest part of the whole; every exported document
      reads back as its rows, without formulas; composed statements pass the checks
      of their exports, and composed dashboards exactly when what the composition
      leaves open holds ([dashboard_exportable]); source and job keys of generated
      expenses identify what they book; one commission rule applies at a time.
    - Authorization: a member holds exactly what its role, overrides and products
      configure; what is configured stays within the ceiling of its role, what the
      database grants a role is not limited; invalid configurations are audited and
      refused; properties are touched by active members over active links only; a
      validated transfer is the one asked for and leaves the former administrator
      the role that was named.
    - Contracts: parsers accept only well-formed values and are inverted by their
      printers.

    ** Conventions

    - A parser [value => T | null] is a function [jsval -> option T]; a literal
      field with one value is left out of the records.  [throw new Error] is
      [Throw] in [exn]; the evaluator of prices returns [option (result Reason A)],
      where [None] stands for a [TypeError], which is shown not to happen.
      Transactions are functions on the store ([Tx]), rolled back as a whole; a
      savepoint rolls back its part.  A quote whose rooms are sold out throws an
      error that names the room types; here that is an outcome.
    - Numbers that the source checks with [Number.isSafeInteger] are [Z] with the
      check; [BigInt] is [Z]; the shares of the funnel are binary64 numbers of the
      Standard Library's SpecFloat.  Strings are byte strings: characters beyond
      the Latin-1 range are not modelled, and [length], order and escapes are
      those of that range.  Instants are as [toISOString] prints them, or read to
      the millisecond, further digits being cut off.
    - Loops over a list are structural.  Fuel is used where the source walks
      links or searches: the links of price offers (one more than the offers,
      [follow_links_fuel], and [reaches] for the evaluator), the assignment search
      (one more than the movable stays, [search_terminates]), the periods of a
      schedule (one more than the days of a year), the days shared by two
      inventory rules (seven, since only the weekday matters), and the reader of
      exported documents (the length of the text).  In each case the fuel is shown
      to be enough.  Budgets ([maxWork], the search budget) are the source's own.

    ** What is assumed of the environment

    - [Collation]: [String.prototype.localeCompare]; [CollationLaws] say that it
      orders ISO dates, and [UuidCollation] that it orders UUIDs, as texts.
    - [Currencies]: the currency vocabulary and default digits of [Intl].
    - [TimeZoneRegistry], [ZoneCatalogue]: the canonical time zones of the
      runtime; [LocalClock], [ZonedDays]: the day of an instant in a zone;
      [DateReader], [date_ms]: what [Date.parse] reads beyond the standard format.
    - [Environment] of the repository: the clock, hashing, authorization, the
      calendar, profile evidence, room capacity and the linked work list, which
      are read from tables of other components.  The callback that checks a quote
      only reads.
    - Digests are functions on texts; theorems that a fingerprint identifies what
      it was made of say it of the digested text, for every digest, and of the
      digest up to an explicit collision: two different texts with one digest.
    - The repositories of authorization: what their queries return.

    ** What is not modelled

    - Of the modelled packages: export snapshots of the three reports as they are
      stored, manual settlements, payouts, subscriptions and payment readiness
      (finance); design, guest policies, launch evidence, promotions and the
      storage of quotes (booking); room facts, physical units, publication,
      media, recurring pricing, charge confirmations and impact previews (PMS);
      the publication documents (distribution); messages to the channel manager;
      invitations, sign-up and sessions (identity).  Most of these are parsers of
      snapshots, or transactions around SQL.  The calculators of booking prices
      and promotions are stubs that throw in this version of the source.
    - HTTP routes, jobs, SQL that only reads, hotel set-up, user interfaces, fonts,
      locale data, deployment and tests: glue and presentation, or services whose
      code is not in the repository. *)

From Stdlib Require Export ZArith Lia String Ascii.
From stdpp Require Export base decidable list list_numbers option sets gmap strings sorting.

#[global] Open Scope string_scope.
#[global] Open Scope list_scope.
#[global] Open Scope Z_scope.

(** ** Fallible computations

    The TypeScript code signals failure by returning [null]; a parser
    [value => T | null] is a function [jsval -> option T].  The sequencing
    notation below reads like the early returns of the source. *)

Declare Scope vayada_scope.
Delimit Scope vayada_scope with vayada.

Notation "'let?' x ':=' e 'in' k" :=
  (match e with Some x => k | None => None end)
  (at level 10, x pattern, e at level 100, k at level 200)
  : vayada_scope.

Notation "'guard?' b 'in' k" :=
  (if b then k else None)
  (at level 10, b at level 100, k at level 200)
  : vayada_scope.

#[global] Open Scope vayada_scope.

(** A function that may throw: [Throw] carries the error's class. *)
Inductive exn (A : Type) :=
| Ret (a : A)
| Throw (error : string).
Arguments Ret {A} _.
Arguments Throw {A} _.

Definition exn_bind {A B} (x : exn A) (k : A -> exn B) : exn B :=
  match x with Ret a => k a | Throw e => Throw e end.

Notation "'try!' x ':=' e 'in' k" :=
  (exn_bind e (fun x => k))
  (at level 10, x pattern, e at level 100, k at level 200)
  : vayada_scope.

(** A function that returns a value or reports an error value. *)
Inductive result (E A : Type) :=
| Ok (a : A)
| Err (e : E).
Arguments Ok {E A} _.
Arguments Err {E A} _.

Notation "'do?' x ':=' e 'in' k" :=
  (match e with Ok x => k | Err err => Err err end)
  (at level 10, x pattern, e at level 100, k at level 200)
  : vayada_scope.

(** ** Tactics *)

(** Splits every boolean conjunction, disjunction, negation and comparison in
    the context into propositions. *)
Ltac bool_to_prop :=
  repeat match goal with
  | H : context [andb _ _ = true] |- _ => rewrite andb_true_iff in H
  | H : context [orb _ _ = true] |- _ => rewrite orb_true_iff in H
  | H : context [orb _ _ = false] |- _ => rewrite orb_false_iff in H
  | H : context [negb _ = true] |- _ => rewrite negb_true_iff in H
  | H : context [negb _ = false] |- _ => rewrite negb_false_iff in H
  | H : context [Z.eqb _ _ = true] |- _ => rewrite Z.eqb_eq in H
  | H : context [Z.eqb _ _ = false] |- _ => rewrite Z.eqb_neq in H
  | H : context [Z.leb _ _ = true] |- _ => rewrite Z.leb_le in H
  | H : context [Z.leb _ _ = false] |- _ => rewrite Z.leb_gt in H
  | H : context [Z.ltb _ _ = true] |- _ => rewrite Z.ltb_lt in H
  | H : context [Z.ltb _ _ = false] |- _ => rewrite Z.ltb_ge in H
  | H : context [String.eqb _ _ = true] |- _ => rewrite String.eqb_eq in H
  | H : context [String.eqb _ _ = false] |- _ => rewrite String.eqb_neq in H
  | H : _ /\ _ |- _ => destruct H
  end.

(** Case analysis on the scrutinee of a [match] or an [if] in a hypothesis or
    in the goal, keeping the equation. *)
Ltac break_match_in H :=
  let E := fresh "E" in
  match type of H with
  | context [match ?x with _ => _ end] =>
      lazymatch x with
      | context [match _ with _ => _ end] => fail
      | _ => destruct x eqn:E
      end
  end.

Ltac break_match :=
  let E := fresh "E" in
  match goal with
  | |- context [match ?x with _ => _ end] =>
      lazymatch x with
      | context [match _ with _ => _ end] => fail
      | _ => destruct x eqn:E
      end
  end.

(** Follows a computation that returned [Some]: every early return is
    impossible. *)
Ltac follow H :=
  repeat (break_match_in H; try discriminate H; try congruence);
  try (injection H as H); subst.

(** Arithmetic with integer division: [lia] after the quotients and remainders
    have been given their defining equations. *)
Ltac div_lia := Z.div_mod_to_equations; lia.

(** ** Hints *)

Create HintDb vayada.

(** ** Lists *)

Section Lists.
Context {A B : Type}.

(** [mapM]-style traversal: the source maps a parser over an array and fails
    if one element failed. *)
Fixpoint traverse (f : A -> option B) (l : list A) : option (list B) :=
  match l with
  | [] => Some []
  | x :: r =>
      match f x, traverse f r with
      | Some y, Some ys => Some (y :: ys)
      | _, _ => None
      end
  end.

Lemma traverse_Some f l k :
  traverse f l = Some k <-> Forall2 (fun x y => f x = Some y) l k.
Proof.
  revert k; induction l as [|x r IH]; intros k; cbn.
  - split; [intros [= <-]; constructor | inversion 1; reflexivity].
  - split.
    + destruct (f x) eqn:E; [|discriminate].
      destruct (traverse f r) eqn:E'; [|discriminate].
      intros [= <-]. constructor; [assumption | by apply IH].
    + inversion 1 as [|? ? ? ? Hx Hr]; subst. rewrite Hx.
      apply IH in Hr. by rewrite Hr.
Qed.

Lemma traverse_length f l k : traverse f l = Some k -> length k = length l.
Proof. rewrite traverse_Some. intros H. by apply Forall2_length in H. Qed.

Lemma traverse_fmap (f : A -> option B) (g : B -> A) l :
  (forall y, f (g y) = Some y) -> traverse f (g <$> l) = Some l.
Proof.
  intros H. rewrite traverse_Some. induction l; cbn; constructor; auto.
Qed.

Lemma traverse_fmap_Forall (P : B -> Prop) (f : A -> option B) (g : B -> A) l :
  (forall y, P y -> f (g y) = Some y) -> Forall P l ->
  traverse f (g <$> l) = Some l.
Proof.
  intros H HP. rewrite traverse_Some. induction HP; cbn; constructor; auto.
Qed.

Lemma traverse_Forall (P : B -> Prop) (f : A -> option B) l k :
  (forall x y, f x = Some y -> P y) -> traverse f l = Some k -> Forall P k.
Proof.
  intros H. rewrite traverse_Some. induction 1; constructor; eauto.
Qed.
Lemma fmap_id_Forall (h : A -> A) l : Forall (fun x => h x = x) l -> h <$> l = l.
Proof. induction 1 as [|x r Hx _ IH]; cbn; [done|]. by rewrite Hx, IH. Qed.

Lemma NoDup_key_eq (f : A -> B) l x y : NoDup (f <$> l) -> x ∈ l -> y ∈ l -> f x = f y -> x = y.
Proof.
  intros Hnd Hx Hy Hf. apply list_elem_of_lookup in Hx as [i Hi].
  apply list_elem_of_lookup in Hy as [j Hj].
  assert (i = j) as ->; [|congruence].
  eapply NoDup_lookup; [exact Hnd | rewrite list_lookup_fmap, Hi; reflexivity
                       | rewrite list_lookup_fmap, Hj; cbn; by rewrite Hf].
Qed.

Lemma Forall2_chain {C} (R : A -> B -> Prop) (P : A -> Prop) (Q : B -> C -> Prop)
    (S : A -> B -> Prop) (l : list A) (k : list B) (m : list C) :
  Forall2 R l k -> Forall P l -> Forall2 Q k m ->
  (forall x y z, R x y -> P x -> Q y z -> S x y) -> Forall2 S l k.
Proof.
  intros HR HP HQ HS. revert m HP HQ. induction HR as [|x y l k Hx _ IH]; intros m HP HQ;
    [constructor|]. apply Forall_cons in HP as [Hp HP]. inversion HQ as [|? ? ? m' Hq HQ']; subst.
  constructor; eauto.
Qed.

Lemma omap_nothing (f : A -> option B) l : (forall y, y ∈ l -> f y = None) -> omap f l = [].
Proof.
  induction l as [|y l IH]; intros H; [done|]. cbn. rewrite (H y) by set_solver.
  apply IH. set_solver.
Qed.

Lemma omap_unique (f : A -> option B) l x z :
  NoDup l -> x ∈ l -> f x = Some z -> (forall y, y ∈ l -> y <> x -> f y = None) -> omap f l = [z].
Proof.
  induction 1 as [|y l Hy Hnd IH]; intros Hx Hf Ho; [by apply elem_of_nil in Hx|].
  apply elem_of_cons in Hx as [->|Hx]; cbn.
  - rewrite Hf, omap_nothing; [done|]. intros y' Hy'. apply Ho; [set_solver|]. by intros ->.
  - rewrite (Ho y); [|set_solver | by intros ->]. apply IH; [done..|]. intros. apply Ho; set_solver.
Qed.
End Lists.

(** [values.every((v, i) => i === 0 || values[i-1] < v)]: strictly increasing. *)
Fixpoint sorted_by {A} (lt : A -> A -> bool) (l : list A) : bool :=
  match l with
  | x :: ((y :: _) as r) => lt x y && sorted_by lt r
  | _ => true
  end.

(** [new Set(values).size === values.length] *)
Fixpoint all_distinct {A} (eqb : A -> A -> bool) (l : list A) : bool :=
  match l with
  | [] => true
  | x :: r => negb (existsb (eqb x) r) && all_distinct eqb r
  end.

Lemma all_distinct_NoDup {A} (eqb : A -> A -> bool) (l : list A) :
  (forall x y, eqb x y = true <-> x = y) ->
  all_distinct eqb l = true <-> NoDup l.
Proof.
  intros Heq. induction l as [|x r IH]; cbn.
  - split; [intros _; constructor | reflexivity].
  - rewrite andb_true_iff, negb_true_iff, NoDup_cons, IH.
    assert (existsb (eqb x) r = false <-> x ∉ r) as ->; [|tauto].
    rewrite <- not_true_iff_false, existsb_exists.
    setoid_rewrite <- list_elem_of_In. setoid_rewrite Heq.
    split; [intros H Hx; apply H; eauto | intros H (y & Hy & <-); auto].
Qed.

(** ** Sorting

    [Array.prototype.sort] is a stable sort; [stable_sort le] is its result for
    a comparator [c] with [le a b := c a b <= 0]. *)
Section StableSort.
Context {A : Type} (le : A -> A -> bool).

Fixpoint insert_by (x : A) (l : list A) : list A :=
  match l with
  | [] => [x]
  | y :: r => if le x y then x :: y :: r else y :: insert_by x r
  end.

Definition stable_sort (l : list A) : list A := foldr insert_by [] l.

Lemma insert_by_perm x l : insert_by x l ≡ₚ x :: l.
Proof.
  induction l as [|y r IH]; cbn; [done|]. destruct (le x y); [done|].
  rewrite IH. by constructor.
Qed.

Lemma stable_sort_perm l : stable_sort l ≡ₚ l.
Proof.
  unfold stable_sort. induction l as [|x r IH]; cbn; [done|].
  by rewrite insert_by_perm, IH.
Qed.

Lemma stable_sort_length l : length (stable_sort l) = length l.
Proof. by rewrite stable_sort_perm. Qed.

Lemma elem_of_stable_sort x l : x ∈ stable_sort l <-> x ∈ l.
Proof. by rewrite stable_sort_perm. Qed.

Lemma Forall_stable_sort P l : Forall P l -> Forall P (stable_sort l).
Proof. by rewrite stable_sort_perm. Qed.

Definition le_rel : relation A := fun x y => le x y = true.

Lemma insert_by_sorted x l :
  (forall a b, le a b = false -> le b a = true) ->
  Sorted le_rel l -> Sorted le_rel (insert_by x l).
Proof.
  intros Htot. induction 1 as [|y r Hr IH Hd]; cbn; [repeat constructor|].
  destruct (le x y) eqn:E; [repeat constructor; auto|].
  constructor; [done|]. destruct r as [|z r]; cbn in *.
  - constructor. by apply Htot.
  - destruct (le x z); constructor; [by apply Htot | by inversion Hd].
Qed.

Lemma stable_sort_sorted l :
  (forall a b, le a b = false -> le b a = true) -> Sorted le_rel (stable_sort l).
Proof. intros Htot. induction l; cbn; [constructor | by apply insert_by_sorted]. Qed.

(** Sorting a list that is already in order changes nothing. *)
Lemma stable_sort_id l : Sorted le_rel l -> stable_sort l = l.
Proof.
  unfold stable_sort. induction 1 as [|x r Hr IH Hd]; cbn; [done|]. rewrite IH.
  destruct Hd as [|y r Hxy]; cbn; [done|]. unfold le_rel in Hxy. by rewrite Hxy.
Qed.
End StableSort.

(** Two comparators that agree on the elements sort them alike. *)
Lemma stable_sort_ext {A} (P : A -> Prop) (le le' : A -> A -> bool) l :
  (forall a b, P a -> P b -> le a b = le' a b) -> Forall P l ->
  stable_sort le l = stable_sort le' l.
Proof.
  intros Hle. unfold stable_sort. induction 1 as [|x l Hx HP IH]; cbn; [done|]. rewrite IH.
  assert (HPs : Forall P (foldr (insert_by le') [] l)) by exact (Forall_stable_sort le' P l HP).
  clear IH HP. induction HPs as [|y s Hy HPs IH]; cbn; [done|].
  rewrite (Hle x y) by done. by rewrite IH.
Qed.

(** Filtering commutes with sorting. *)
Section SortFilter.
Context {A : Type} (le : A -> A -> bool) (P : A -> Prop) `{forall x, Decision (P x)}.
Hypothesis le_total : forall a b, le a b = false -> le b a = true.
Hypothesis le_trans : forall a b c, le a b = true -> le b c = true -> le a c = true.

Lemma insert_by_filter x l : StronglySorted (le_rel le) l ->
  filter P (insert_by le x l) = if decide (P x) then insert_by le x (filter P l) else filter P l.
Proof using le_trans.
  clear le_total. induction 1 as [|y l Hs IH HF]; cbn [insert_by]; [rewrite filter_cons; by case_decide|].
  destruct (le x y) eqn:E.
  - rewrite filter_cons. case_decide; [|done]. rewrite filter_cons. case_decide; cbn [insert_by].
    + by rewrite E.
    + assert (Hall : Forall (fun z => le x z = true) (filter P l)).
      { apply Forall_forall. intros z [_ Hz]%list_elem_of_filter. rewrite Forall_forall in HF.
        eapply le_trans; [exact E | by apply HF]. }
      destruct Hall as [|z k Hz _]; cbn; [done | by rewrite Hz].
  - rewrite !filter_cons, IH. case_decide; case_decide; cbn [insert_by]; rewrite ?E; done.
Qed.

Lemma stable_sort_filter l : stable_sort le (filter P l) = filter P (stable_sort le l).
Proof using le_total le_trans.
  induction l as [|x l IH]; [done|]. rewrite filter_cons.
  change (stable_sort le (x :: l)) with (insert_by le x (stable_sort le l)).
  rewrite insert_by_filter.
  - case_decide; [|done]. by rewrite <- IH.
  - apply Sorted_StronglySorted; [intros a b c; apply le_trans | by apply stable_sort_sorted].
Qed.
End SortFilter.

Lemma StronglySorted_weaken {A} (R R' : relation A) l :
  (forall x y, R x y -> R' x y) -> StronglySorted R l -> StronglySorted R' l.
Proof.
  intros HR. induction 1 as [|x l _ IH HF]; constructor; [done|].
  eapply Forall_impl; [exact HF | intros; by apply HR].
Qed.

(** Sorting by an integer measure *)
Lemma stable_sort_measure {A} (m : A -> Z) l :
  StronglySorted (fun a b => m a <= m b) (stable_sort (fun a b => m a <=? m b) l).
Proof.
  apply (StronglySorted_weaken (le_rel (fun a b => m a <=? m b))); [unfold le_rel; intros; lia|].
  apply Sorted_StronglySorted; [unfold le_rel; intros x y z ? ?; lia|].
  apply stable_sort_sorted. intros; lia.
Qed.

(** ** Sets of strings

    [array.includes(x)], [new Set(array)] in insertion order, and its size *)
Definition includes (l : list string) (x : string) : bool := existsb (String.eqb x) l.

Lemma existsb_elem x (l : list string) : existsb (String.eqb x) l = true <-> x ∈ l.
Proof.
  rewrite existsb_exists. setoid_rewrite String.eqb_eq. setoid_rewrite <- list_elem_of_In.
  split; [by intros (y & Hy & <-) | eauto].
Qed.

Lemma includes_elem l x : includes l x = true <-> x ∈ l.
Proof. apply existsb_elem. Qed.

Lemma includes_false l x : includes l x = false <-> x ∉ l.
Proof. rewrite <- includes_elem. by destruct (includes l x). Qed.

(** [[...new Set(l)]]: the first occurrences *)
Fixpoint first_occurrences (seen l : list string) : list string :=
  match l with
  | [] => []
  | x :: r => if existsb (String.eqb x) seen then first_occurrences seen r
              else x :: first_occurrences (x :: seen) r
  end.

Lemma first_occurrences_spec l : forall seen,
  NoDup (first_occurrences seen l) /\ forall x, x ∈ first_occurrences seen l <-> x ∈ l /\ x ∉ seen.
Proof.
  induction l as [|y l IH]; intros seen; cbn [first_occurrences].
  - split; [constructor|]. intros x. set_solver.
  - destruct (existsb (String.eqb y) seen) eqn:E.
    + apply existsb_elem in E. destruct (IH seen) as [Hn Hx]. split; [done|]. intros x. rewrite Hx. set_solver.
    + assert (Hy : y ∉ seen) by (rewrite <- existsb_elem; by rewrite E).
      destruct (IH (y :: seen)) as [Hn Hx]. split; [apply NoDup_cons; split; [rewrite Hx; set_solver | done]|].
      intros x. rewrite elem_of_cons, Hx. destruct (decide (x = y)) as [->|]; set_solver.
Qed.

Definition set_of (l : list string) : list string := first_occurrences [] l.

Lemma elem_of_set_of l x : x ∈ set_of l <-> x ∈ l.
Proof. unfold set_of. destruct (first_occurrences_spec l []) as [_ H]. rewrite H. set_solver. Qed.

Lemma NoDup_set_of l : NoDup (set_of l).
Proof. unfold set_of. by destruct (first_occurrences_spec l []). Qed.

Definition no_repeats (l : list string) : bool := all_distinct String.eqb l.

Lemma no_repeats_NoDup l : no_repeats l = true <-> NoDup l.
Proof. apply all_distinct_NoDup, String.eqb_eq. Qed.

Lemma elem_of_bfilter {A} (f : A -> bool) l x : x ∈ List.filter f l <-> x ∈ l /\ f x = true.
Proof. by rewrite !list_elem_of_In, filter_In. Qed.

Lemma filter_sorted {A} (R : A -> A -> Prop) (f : A -> bool) l : StronglySorted R l -> StronglySorted R (List.filter f l).
Proof.
  induction 1 as [|x l Hs IH Hf]; cbn [List.filter]; [constructor|]. destruct (f x); [|done]. constructor; [done|].
  apply Forall_forall. intros y [Hy _]%elem_of_bfilter. rewrite Forall_forall in Hf. by apply Hf.
Qed.

(** Distinct measures in order are strictly in order. *)
Lemma strictly_sorted {A} (m : A -> Z) l : NoDup (m <$> l) -> StronglySorted (fun a b => m a <= m b) l -> StronglySorted (fun a b => m a < m b) l.
Proof.
  intros Hnd. induction 1 as [|x l Hl IH Hx]; [constructor|]. cbn [fmap list_fmap] in Hnd. apply NoDup_cons in Hnd as [Hn Hnd].
  constructor; [by apply IH|]. apply Forall_forall. intros y Hy. rewrite Forall_forall in Hx. specialize (Hx y Hy). cbn in Hx.
  enough (m x <> m y) by lia. intros E. apply Hn. rewrite E. by apply list_elem_of_fmap_2.
Qed.

Lemma filter_all {A} (f : A -> bool) l : Forall (fun x => f x = true) l -> List.filter f l = l.
Proof. induction 1 as [|x l Hx _ IH]; cbn; [done|]. by rewrite Hx, IH. Qed.

Lemma forallb_elem {A} (f : A -> bool) l x : forallb f l = true -> x ∈ l -> f x = true.
Proof. rewrite forallb_forall. intros H Hx. by apply H, list_elem_of_In. Qed.

Lemma existsb_none_iff {A} (f : A -> bool) l : existsb f l = false <-> forall x, x ∈ l -> f x = false.
Proof.
  rewrite <- not_true_iff_false, existsb_exists. setoid_rewrite <- list_elem_of_In. split.
  - intros H x Hx. destruct (f x) eqn:E; [|done]. exfalso. apply H. by exists x.
  - intros H (x & Hx & E). rewrite H in E by done. discriminate.
Qed.

(** ** Sums over lists *)

Definition sum_of {A} (f : A -> Z) (l : list A) : Z := foldr (fun x n => f x + n) 0 l.

Lemma sum_of_cons {A} (f : A -> Z) x l : sum_of f (x :: l) = f x + sum_of f l.
Proof. done. Qed.

Lemma sum_of_app {A} (f : A -> Z) l k : sum_of f (l ++ k) = sum_of f l + sum_of f k.
Proof. unfold sum_of. induction l as [|x l IH]; cbn; [done | lia]. Qed.

Lemma sum_of_perm {A} (f : A -> Z) l k : l ≡ₚ k -> sum_of f l = sum_of f k.
Proof. unfold sum_of. induction 1; cbn; lia. Qed.

Lemma sum_of_fmap {A B} (f : B -> Z) (g : A -> B) l : sum_of f (g <$> l) = sum_of (fun x => f (g x)) l.
Proof. induction l as [|x l IH]; [done|]. cbn [fmap list_fmap]. rewrite !sum_of_cons. by f_equal. Qed.

Lemma sum_of_ext {A} (f g : A -> Z) l : (forall x, x ∈ l -> f x = g x) -> sum_of f l = sum_of g l.
Proof.
  unfold sum_of. induction l as [|x l IH]; intros H; cbn; [done|].
  rewrite (H x), IH by set_solver. done.
Qed.

(** ** Comparators *)

(** [a || b] on numbers: a comparator falls through on [0] and on [NaN]. *)
Definition or_else (a b : Z) : Z := if a =? 0 then b else a.

(** [array.sort(compare)] *)
Definition sort_by {A} (compare : A -> A -> Z) (l : list A) : list A :=
  stable_sort (fun a b => compare a b <=? 0) l.

Lemma sort_by_perm {A} (compare : A -> A -> Z) l : sort_by compare l ≡ₚ l.
Proof. apply stable_sort_perm. Qed.

Lemma elem_of_sort_by {A} (compare : A -> A -> Z) x l : x ∈ sort_by compare l <-> x ∈ l.
Proof. apply elem_of_stable_sort. Qed.

(** A comparator that can always be swapped and composed sorts. *)
Lemma sort_by_sorted {A} (compare : A -> A -> Z) l :
  (forall a b, 0 < compare a b -> compare b a <= 0) ->
  (forall a b c, compare a b <= 0 -> compare b c <= 0 -> compare a c <= 0) ->
  StronglySorted (fun a b => compare a b <= 0) (sort_by compare l).
Proof.
  intros Ht Htr. eapply StronglySorted_weaken with (R := le_rel (fun a b => compare a b <=? 0)).
  - intros x y H. by apply Z.leb_le.
  - apply Sorted_StronglySorted.
    + intros a b c H1 H2. apply Z.leb_le in H1, H2. apply Z.leb_le. by eapply Htr.
    + apply stable_sort_sorted. intros a b H. apply Z.leb_gt in H. apply Z.leb_le. by apply Ht.
Qed.

(** ** Maps in insertion order

    A JavaScript [Map] keeps its keys in the order of their first insertion. *)

Section OrderedMap.
Context {V : Type}.
Implicit Types (m : list (string * V)) (k : string) (v : V).

Fixpoint map_get m k : option V :=
  match m with
  | [] => None
  | (k', v) :: m => if String.eqb k' k then Some v else map_get m k
  end.

Fixpoint map_set m k v : list (string * V) :=
  match m with
  | [] => [(k, v)]
  | (k', v') :: m => if String.eqb k' k then (k, v) :: m else (k', v') :: map_set m k v
  end.

Definition map_values m : list V := snd <$> m.

Lemma map_get_set m k v k' : map_get (map_set m k v) k' = if String.eqb k k' then Some v else map_get m k'.
Proof.
  induction m as [|[k0 v0] m IH]; cbn [map_set map_get]; [done|].
  destruct (String.eqb_spec k0 k) as [->|Hk]; cbn [map_get]; [by destruct (String.eqb k k')|].
  rewrite IH. destruct (String.eqb_spec k0 k') as [->|Hk']; [|done].
  destruct (String.eqb_spec k k') as [->|]; done.
Qed.

Lemma map_get_elem m k v : map_get m k = Some v -> (k, v) ∈ m.
Proof.
  induction m as [|[k0 v0] m IH]; cbn [map_get]; [done|].
  destruct (String.eqb_spec k0 k) as [->|]; [intros [= ->]; by left | right; auto].
Qed.

Lemma map_get_None m k : map_get m k = None <-> k ∉ m.*1.
Proof.
  induction m as [|[k0 v0] m IH]; cbn [map_get]; [split; [intros _ []%elem_of_nil | done]|].
  cbn. rewrite not_elem_of_cons. destruct (String.eqb_spec k0 k) as [->|Hne].
  - split; [done | by intros []].
  - rewrite IH. split; [done | by intros []].
Qed.

Lemma map_set_keys m k v :
  (map_set m k v).*1 = if decide (k ∈ m.*1) then m.*1 else m.*1 ++ [k].
Proof.
  induction m as [|[k0 v0] m IH]; cbn [map_set]; [by rewrite decide_False by apply not_elem_of_nil|].
  destruct (String.eqb_spec k0 k) as [->|Hne]; cbn.
  - by rewrite decide_True by left.
  - rewrite IH. destruct (decide (k ∈ m.*1)) as [Hin|Hin].
    + by rewrite decide_True by (by right).
    + by rewrite decide_False by (by rewrite not_elem_of_cons).
Qed.

Lemma map_set_NoDup m k v : NoDup m.*1 -> NoDup (map_set m k v).*1.
Proof.
  rewrite map_set_keys. case_decide; [done|]. intros Hn. apply NoDup_app. split; [done|].
  split; [|apply NoDup_singleton]. intros x Hx ->%list_elem_of_singleton. done.
Qed.

Lemma elem_of_map_set m k v x : NoDup m.*1 -> x ∈ map_set m k v <-> x = (k, v) \/ (x ∈ m /\ x.1 <> k).
Proof.
  induction m as [|[k0 v0] m IH]; cbn [map_set]; intros Hn.
  - rewrite list_elem_of_singleton. split; [by left | by intros [?|[?%elem_of_nil ?]]].
  - cbn in Hn. apply NoDup_cons in Hn as [Hk Hn].
    destruct (String.eqb_spec k0 k) as [->|Hne]; rewrite !elem_of_cons.
    + split; [intros [?|Hx]; [by left|right] | intros [?|[[->|?] ?]]; auto; done].
      split; [by right|]. intros <-. apply Hk. by apply list_elem_of_fmap_2 with (f := fst) in Hx.
    + rewrite (IH Hn). split; [intros [->|[?|[??]]]; auto | intros [?|[[?|?] ?]]; auto].
Qed.

Lemma map_get_spec m k v : NoDup m.*1 -> map_get m k = Some v <-> (k, v) ∈ m.
Proof.
  intros Hn. split; [apply map_get_elem|]. induction m as [|[k0 v0] m IH]; cbn [map_get]; [by intros ?%elem_of_nil|].
  cbn in Hn. apply NoDup_cons in Hn as [Hk Hn]. intros [[= -> ->]|Hx]%elem_of_cons; [by rewrite String.eqb_refl|].
  destruct (String.eqb_spec k0 k) as [->|]; [|auto].
  exfalso. apply Hk. by apply list_elem_of_fmap_2 with (f := fst) in Hx.
Qed.
End OrderedMap.

(** ** Computations that may throw, over a list *)

Lemma Ret_inj {A} (a b : A) : Ret a = Ret b -> a = b.
Proof. by intros [=]. Qed.

Lemma exn_bind_Ret {A B} (x : exn A) (k : A -> exn B) b : exn_bind x k = Ret b -> exists a, x = Ret a /\ k a = Ret b.
Proof. destruct x as [a|e]; [by exists a | done]. Qed.

Section Throwing.
Context {A B : Type}.

Fixpoint exn_traverse (f : A -> exn B) (l : list A) : exn (list B) :=
  match l with
  | [] => Ret []
  | x :: r => try! y := f x in try! ys := exn_traverse f r in Ret (y :: ys)
  end.

(** [l.reduce((total, x) => total + f(x), total)] *)
Fixpoint exn_sum (f : A -> exn Z) (l : list A) (total : Z) : exn Z :=
  match l with
  | [] => Ret total
  | x :: r => try! n := f x in exn_sum f r (total + n)
  end.

Lemma exn_traverse_Ret (f : A -> exn B) (g : A -> B) l :
  (forall x, x ∈ l -> f x = Ret (g x)) -> exn_traverse f l = Ret (g <$> l).
Proof.
  induction l as [|x l IH]; intros H; cbn [exn_traverse fmap list_fmap]; [done|].
  rewrite (H x) by by left. cbn [exn_bind]. rewrite IH by (intros y Hy; apply H; by right). done.
Qed.

Lemma exn_traverse_inv (f : A -> exn B) l k : exn_traverse f l = Ret k -> Forall2 (fun x y => f x = Ret y) l k.
Proof.
  revert k. induction l as [|x l IH]; intros k; cbn [exn_traverse]; [intros [= <-]; constructor|].
  intros (y & Hy & (ys & Hys & Hk)%exn_bind_Ret)%exn_bind_Ret. apply Ret_inj in Hk as <-. constructor; auto.
Qed.

Lemma exn_traverse_over {K} (f : A -> exn B) (g : K -> A) (h : K -> B) l :
  (forall k, f (g k) = Ret (h k)) -> exn_traverse f (g <$> l) = Ret (h <$> l).
Proof. intros H. induction l as [|k l IH]; [done|]. rewrite !fmap_cons. cbn [exn_traverse]. by rewrite H, IH. Qed.

Lemma exn_sum_Ret (f : A -> exn Z) (g : A -> Z) l total :
  (forall x, x ∈ l -> f x = Ret (g x)) -> exn_sum f l total = Ret (total + sum_of g l).
Proof.
  revert total. induction l as [|x l IH]; intros total H; cbn [exn_sum]; [by rewrite Z.add_0_r|].
  rewrite (H x) by by left. cbn [exn_bind]. rewrite IH by (intros y Hy; apply H; by right).
  rewrite sum_of_cons. f_equal. lia.
Qed.
End Throwing.

(** ** Digests *)

Section Digests.
Context {A B : Type} (digest : A -> B).

(** Two different inputs with one digest *)
Definition collide (s t : A) : Prop := s <> t /\ digest s = digest t.

(** The digested inputs are equal exactly when [P] holds; so are the digests, unless
    the two inputs are a collision. *)
Definition tells_apart (s t : A) (P : Prop) : Prop :=
  (s = t <-> P) /\ (P -> digest s = digest t) /\ (digest s = digest t -> P \/ collide s t).

Lemma tells_apart_iff `{EqDecision A} s t P : (s = t <-> P) -> tells_apart s t P.
Proof.
  intros H. split_and!; [exact H | by intros ->%H|]. intros E.
  destruct (decide (s = t)) as [Ht|Hn]; [left; by apply H | by right].
Qed.
End Digests.
