(* ===== verification/JsValue.v ===== *)
(** * JavaScript values, strings and numbers

    The TypeScript boundary functions take a value of type [unknown].  This file
    models what such a function can observe of one:

    - a primitive, a plain or exotic object with its prototype and own property
      descriptors (enumerable or not, data or accessor), or an array;
    - strings as sequences of code units below 256 ([string]); [trim] and
      [toLowerCase] on that range;
    - numbers: [VInt] for integral ones (below 10^21 in absolute value, where
      JavaScript prints them positionally; [-0] is not told from [0], which
      [===], [<] and [JSON.stringify] do not either), [VFrac] for every other
      number, by its [String()] text;
    - [JSON.stringify] on such values.

    Not represented: proxies, getters with effects, arrays with holes, inherited
    properties, and object identity. *)

From S2P Require Import Prelude.
From Stdlib Require Import DecimalString DecimalN DecimalFacts.

(** ** Values *)

Inductive jsproto := ProtoObject | ProtoNull | ProtoArray | ProtoOther.

Inductive jskey := KString (s : string) | KSymbol (n : nat).

(** A property descriptor without its value. *)
Record propkind := PropKind { pk_enumerable : bool; pk_data : bool }.

Definition plain_prop : propkind := PropKind true true.

#[local] Set Warnings "-register-all".

Inductive jsval :=
| VUndefined
| VNull
| VBool (b : bool)
| VInt (z : Z)
| VFrac (repr : string)
| VString (s : string)
| VObject (p : jsproto) (props : list (jskey * (propkind * jsval)))
| VArray (p : jsproto) (elems : list (propkind * jsval)) (extra : nat)
| VOpaque.

(** Object and array literals. *)
Definition obj (fields : list (string * jsval)) : jsval :=
  VObject ProtoObject
    (List.map (fun f => (KString (fst f), (plain_prop, snd f))) fields).

Definition arr (elems : list jsval) : jsval :=
  VArray ProtoArray (List.map (fun v => (plain_prop, v)) elems) 0.

(** ** Own properties *)

Definition key_is (k : string) (k' : jskey) : bool :=
  match k' with KString s => String.eqb k s | KSymbol _ => false end.

Fixpoint lookup_prop (k : string) (props : list (jskey * (propkind * jsval)))
    : option (propkind * jsval) :=
  match props with
  | [] => None
  | (k', d) :: r => if key_is k k' then Some d else lookup_prop k r
  end.

Definition props_of (v : jsval) : list (jskey * (propkind * jsval)) :=
  match v with VObject _ props => props | _ => [] end.

Definition own_prop (v : jsval) (k : string) : option (propkind * jsval) :=
  lookup_prop k (props_of v).

(** [Object.hasOwn(value, k)] *)
Definition has_own (v : jsval) (k : string) : bool :=
  match own_prop v k with Some _ => true | None => false end.

(** [value[k]] *)
Definition get (v : jsval) (k : string) : jsval :=
  match own_prop v k with Some (_, w) => w | None => VUndefined end.

(** [Object.keys(value)]: the enumerable own string keys *)
Definition keys_of (v : jsval) : list string :=
  omap (fun p => match p with
                 | (KString k, (pk, _)) => if pk_enumerable pk then Some k else None
                 | _ => None
                 end) (props_of v).

(** [Reflect.ownKeys(value).length] of an object *)
Definition own_keys_length (v : jsval) : nat := length (props_of v).

(** [typeof value === "object" && value !== null && !Array.isArray(value)] *)
Definition is_object (v : jsval) : bool :=
  match v with VObject _ _ => true | _ => false end.

(** [Array.isArray(value)], with the elements *)
Definition as_array (v : jsval) : option (list jsval) :=
  match v with VArray _ elems _ => Some (List.map snd elems) | _ => None end.

Definition is_array (v : jsval) : bool :=
  match v with VArray _ _ _ => true | _ => false end.

(** ** Primitives *)

Definition as_string (v : jsval) : option string :=
  match v with VString s => Some s | _ => None end.

Definition as_bool (v : jsval) : option bool :=
  match v with VBool b => Some b | _ => None end.

(** [v === "s"] *)
Definition is_str (v : jsval) (s : string) : bool :=
  match v with VString s' => String.eqb s' s | _ => false end.

Definition is_null (v : jsval) : bool :=
  match v with VNull => true | _ => false end.

Definition is_undefined (v : jsval) : bool :=
  match v with VUndefined => true | _ => false end.

(** [Number.isSafeInteger] *)
Definition MAX_SAFE_INTEGER : Z := 9007199254740991.

Definition safe_integer (z : Z) : bool :=
  (- MAX_SAFE_INTEGER <=? z) && (z <=? MAX_SAFE_INTEGER).

(** A safe integer in a range: the [integer(value, min, max)] guard every
    module of the source defines. *)
Definition as_integer (v : jsval) (min max : Z) : option Z :=
  match v with
  | VInt z => if safe_integer z && (min <=? z) && (z <=? max) then Some z else None
  | _ => None
  end.

(** A value or [null]. *)
Definition as_nullable {A} (f : jsval -> option A) (v : jsval) : option (option A) :=
  if is_null v then Some None else option_map Some (f v).

Definition of_nullable {A} (f : A -> jsval) (o : option A) : jsval :=
  match o with Some x => f x | None => VNull end.

(** ** Characters and strings *)

Definition code (c : ascii) : Z := Z.of_N (N_of_ascii c).

Definition char_between (lo hi : ascii) (c : ascii) : bool :=
  (code lo <=? code c) && (code c <=? code hi).

Definition is_digit (c : ascii) : bool := char_between "0" "9" c.

(** [0-9a-f] *)
Definition is_lower_hex (c : ascii) : bool := is_digit c || char_between "a" "f" c.

(** [0-9a-fA-F]: the class with the [i] flag *)
Definition is_hex (c : ascii) : bool := is_lower_hex c || char_between "A" "F" c.

Definition is_char (x : ascii) (c : ascii) : bool := Ascii.eqb x c.

(** A string whose characters match a list of classes, one each. *)
Fixpoint matches (classes : list (ascii -> bool)) (s : string) : bool :=
  match classes, s with
  | [], EmptyString => true
  | f :: r, String c s' => f c && matches r s'
  | _, _ => false
  end.

Fixpoint all_chars (f : ascii -> bool) (s : string) : bool :=
  match s with
  | EmptyString => true
  | String c r => f c && all_chars f r
  end.

(** White space and line terminators below 256: tab, line feed, vertical tab,
    form feed, carriage return, space and the no-break space. *)
Definition is_space (c : ascii) : bool :=
  char_between "009" "013" c || is_char " " c || is_char "160" c.

Fixpoint trim_start (s : string) : string :=
  match s with
  | EmptyString => EmptyString
  | String c r => if is_space c then trim_start r else s
  end.

Fixpoint trim_end (s : string) : string :=
  match s with
  | EmptyString => EmptyString
  | String c r =>
      match trim_end r with
      | EmptyString => if is_space c then EmptyString else String c EmptyString
      | r' => String c r'
      end
  end.

(** Control characters, the class [Cc]; the other classes the patterns name lie
    outside the character set of the model. *)
Definition is_control (c : ascii) : bool := (code c <? 32) || ((127 <=? code c) && (code c <? 160)).

(** [String.prototype.trim] *)
Definition trim (s : string) : string := trim_end (trim_start s).

Definition str_length (s : string) : Z := Z.of_nat (String.length s).

(** [typeof v === "string" && v.trim() === v && min <= v.length <= max] *)
Definition trimmed (min max : Z) (s : string) : bool :=
  (min <=? str_length s) && (str_length s <=? max) && String.eqb (trim s) s.

Definition as_trimmed (min max : Z) (v : jsval) : option string :=
  match v with
  | VString s => if trimmed min max s then Some s else None
  | _ => None
  end.

(** [toLowerCase] on code units below 256. *)
Definition lower_char (c : ascii) : ascii :=
  if char_between "A" "Z" c || (char_between "192" "222" c && negb (is_char "215" c))
  then ascii_of_N (N_of_ascii c + 32)
  else c.

Fixpoint to_lower (s : string) : string :=
  match s with
  | EmptyString => EmptyString
  | String c r => String (lower_char c) (to_lower r)
  end.

(** [/^[0-9a-f]{8}-[0-9a-f]{4}-[0-9a-f]{4}-[89ab][0-9a-f]{3}-[0-9a-f]{12}$/i] *)
Definition uuid_variant (c : ascii) : bool :=
  char_between "8" "9" c || char_between "a" "b" c || char_between "A" "B" c.

Definition uuid_classes : list (ascii -> bool) :=
  repeat is_hex 8 ++ [is_char "-"] ++ repeat is_hex 4 ++ [is_char "-"] ++
  repeat is_hex 4 ++ [is_char "-"] ++ [uuid_variant] ++ repeat is_hex 3 ++
  [is_char "-"] ++ repeat is_hex 12.

Definition uuid_string (s : string) : bool := matches uuid_classes s.

(** The guard followed by [toLowerCase()]. *)
Definition as_uuid (v : jsval) : option string :=
  match v with
  | VString s => if uuid_string s then Some (to_lower s) else None
  | _ => None
  end.

(** A UUID in the canonical form the parsers return. *)
Definition canonical_uuid (s : string) : bool := uuid_string s && String.eqb (to_lower s) s.

(** Code unit order, [left < right] on strings. *)
Definition str_lt (a b : string) : bool :=
  match String.compare a b with Lt => true | _ => false end.

Definition str_le (a b : string) : bool :=
  match String.compare a b with Gt => false | _ => true end.

(** [String.prototype.localeCompare] depends on the host's locale data, so it is
    an interface; its laws are stated where it is used. *)
Class Collation := localeCompare : string -> string -> Z.

(** The digits at the start of a text, and the rest *)
Fixpoint span_digits (s : string) : string * string :=
  match s with
  | String c r => if is_digit c then let '(d, rest) := span_digits r in (String c d, rest) else (EmptyString, s)
  | EmptyString => (EmptyString, EmptyString)
  end.

(** ** Decimal text *)

(** [String(n)] of a natural number *)
Definition N_to_string (n : N) : string := NilZero.string_of_uint (N.to_uint n).

(** [String(z)] of an integer: [Number] below 10^21 or [BigInt] *)
Definition Z_to_string (z : Z) : string :=
  match z with
  | Zneg p => String "-" (N_to_string (Npos p))
  | _ => N_to_string (Z.to_N z)
  end.

(** [Number(s)] or [BigInt(s)] of a non-empty string of digits *)
Definition string_to_N (s : string) : option N :=
  option_map N.of_uint (NilZero.uint_of_string s).

Definition starts_nonzero (s : string) : bool :=
  match s with String c _ => char_between "1" "9" c | EmptyString => false end.

(** [/^[1-9][0-9]*$/] *)
Definition positive_decimal (s : string) : bool := starts_nonzero s && all_chars is_digit s.

(** [/^(0|[1-9]\d{0,})$/]: no leading zero *)
Definition canonical_decimal (s : string) : bool := String.eqb s "0" || positive_decimal s.

(** ** JSON.stringify *)

Definition hex_digit (n : N) : ascii :=
  ascii_of_N (if (n <? 10)%N then 48 + n else 87 + n).

Definition json_char (c : ascii) : string :=
  if is_char "034" c then String "\" (String "034" EmptyString)
  else if is_char "\" c then "\\"
  else if is_char "008" c then "\b"
  else if is_char "009" c then "\t"
  else if is_char "010" c then "\n"
  else if is_char "012" c then "\f"
  else if is_char "013" c then "\r"
  else if code c <? 32 then
    "\u00" +:+ String (hex_digit (N_of_ascii c / 16)) (String (hex_digit (N_of_ascii c mod 16)) EmptyString)
  else String c EmptyString.

Fixpoint json_escape (s : string) : string :=
  match s with
  | EmptyString => EmptyString
  | String c r => json_char c +:+ json_escape r
  end.

Definition quote_char : string := String "034" EmptyString.

Definition json_string (s : string) : string := quote_char +:+ json_escape s +:+ quote_char.

Fixpoint join (sep : string) (l : list string) : string :=
  match l with
  | [] => EmptyString
  | [x] => x
  | x :: r => x +:+ sep +:+ join sep r
  end.

Definition json_field (k t : string) : string := json_string k +:+ ":" +:+ t.

(** [JSON.stringify(v)]; [None] is [undefined]. *)
Fixpoint json_stringify (v : jsval) : option string :=
  match v with
  | VUndefined | VOpaque => None
  | VNull => Some "null"
  | VBool b => Some (if b then "true" else "false")
  | VInt z => Some (Z_to_string z)
  | VFrac r =>
      Some (if existsb (String.eqb r) ["NaN"; "Infinity"; "-Infinity"] then "null" else r)
  | VString s => Some (json_string s)
  | VArray _ elems _ =>
      let fix go (l : list (propkind * jsval)) : list string :=
        match l with
        | [] => []
        | (_, w) :: r => default "null" (json_stringify w) :: go r
        end in
      Some ("[" +:+ join "," (go elems) +:+ "]")
  | VObject _ props =>
      let fix go (l : list (jskey * (propkind * jsval))) : list string :=
        match l with
        | [] => []
        | (KString k, (pk, w)) :: r =>
            match (if pk_enumerable pk then json_stringify w else None) with
            | Some t => json_field k t :: go r
            | None => go r
            end
        | (KSymbol _, _) :: r => go r
        end in
      Some ("{" +:+ join "," (go props) +:+ "}")
  end.

(** [JSON.stringify(a) === JSON.stringify(b)] *)
Definition same_json (a b : jsval) : bool :=
  match json_stringify a, json_stringify b with
  | Some s, Some t => String.eqb s t
  | None, None => true
  | _, _ => false
  end.

#[global] Arguments uuid_string : simpl never.
#[global] Arguments canonical_uuid : simpl never.
#[global] Arguments trimmed : simpl never.
#[global] Arguments safe_integer : simpl never.
#[global] Arguments Z_to_string : simpl never.
#[global] Arguments N_to_string : simpl never.
#[global] Arguments json_string : simpl never.

(** ** Lemmas *)

Lemma string_app_assoc a b c : (a +:+ b) +:+ c = a +:+ (b +:+ c).
Proof. induction a as [|x a IH]; [done|]. cbv [String.append] in *. by rewrite IH. Qed.

Lemma string_app_nil_r a : a +:+ EmptyString = a.
Proof. induction a as [|x a IH]; [done|]. cbv [String.append] in *. by rewrite IH. Qed.

Lemma as_integer_Some v lo hi z :
  as_integer v lo hi = Some z <-> v = VInt z /\ safe_integer z = true /\ lo <= z <= hi.
Proof.
  destruct v as [| | |n| | | | |]; cbn; try (split; [discriminate | intros [[=] _]]).
  destruct (safe_integer n && (lo <=? n) && (n <=? hi)) eqn:E.
  - bool_to_prop. split; [intros [= <-]; auto | intros [[= ->] _]; done].
  - split; [discriminate | intros ([= ->] & Hs & Hr)]. exfalso.
    apply not_true_iff_false in E. apply E. rewrite !andb_true_iff, !Z.leb_le. split_and!; [done | lia | lia].
Qed.

Lemma safe_integer_bound z : 0 <= z <= 2147483647 -> safe_integer z = true.
Proof. unfold safe_integer, MAX_SAFE_INTEGER. lia. Qed.

Lemma as_integer_VInt lo hi z :
  0 <= lo -> hi <= 2147483647 -> lo <= z <= hi -> as_integer (VInt z) lo hi = Some z.
Proof. intros. apply as_integer_Some. split; [done|]. split; [apply safe_integer_bound|]; lia. Qed.

Lemma as_trimmed_Some v lo hi s :
  as_trimmed lo hi v = Some s <-> v = VString s /\ trimmed lo hi s = true.
Proof.
  destruct v as [| | | | |t| | |]; cbn; try (split; [discriminate | intros [[=] _]]).
  destruct (trimmed lo hi t) eqn:E; split; try discriminate;
    [intros [= ->]; done | intros [[= ->] _]; done | intros [[= ->] Ht]; congruence].
Qed.

Lemma lower_char_idem c : lower_char (lower_char c) = lower_char c.
Proof. destruct c as [[] [] [] [] [] [] [] []]; vm_compute; reflexivity. Qed.

Lemma to_lower_idem s : to_lower (to_lower s) = to_lower s.
Proof. induction s as [|c r IH]; cbn; [done|]. by rewrite lower_char_idem, IH. Qed.

Lemma lower_char_hex c : is_hex c = true -> is_hex (lower_char c) = true.
Proof. destruct c as [[] [] [] [] [] [] [] []]; vm_compute; auto. Qed.

Lemma lower_char_dash c : is_char "-" c = true -> is_char "-" (lower_char c) = true.
Proof. destruct c as [[] [] [] [] [] [] [] []]; vm_compute; auto. Qed.

Lemma lower_char_variant c : uuid_variant c = true -> uuid_variant (lower_char c) = true.
Proof. destruct c as [[] [] [] [] [] [] [] []]; vm_compute; auto. Qed.

Lemma matches_lower classes s :
  Forall (fun f : ascii -> bool => forall c, f c = true -> f (lower_char c) = true) classes ->
  matches classes s = true -> matches classes (to_lower s) = true.
Proof.
  intros HF. revert s. induction HF as [|f r Hf _ IH]; intros [|c s]; cbn; try done.
  rewrite !andb_true_iff. intros [H1 H2]. auto.
Qed.

Lemma matches_length classes s : matches classes s = true -> String.length s = length classes.
Proof.
  revert s. induction classes as [|f r IH]; intros [|c s]; cbn; try done.
  rewrite andb_true_iff. intros [_ H]. by rewrite IH.
Qed.

Lemma uuid_lower s : uuid_string s = true -> canonical_uuid (to_lower s) = true.
Proof.
  intros H. unfold canonical_uuid. rewrite to_lower_idem, String.eqb_refl, andb_true_r.
  apply matches_lower; [|done]. unfold uuid_classes.
  repeat first
    [ apply Forall_app; split
    | apply Forall_cons; split
    | apply Forall_nil; exact I ];
    first [apply lower_char_hex | apply lower_char_dash | apply lower_char_variant].
Qed.

Lemma as_uuid_Some v s : as_uuid v = Some s -> canonical_uuid s = true.
Proof.
  destruct v as [| | | | |t| | |]; cbn; try discriminate.
  destruct (uuid_string t) eqn:E; [|discriminate]. intros [= <-]. by apply uuid_lower.
Qed.

Lemma as_uuid_canonical s : canonical_uuid s = true -> as_uuid (VString s) = Some s.
Proof.
  unfold canonical_uuid. rewrite andb_true_iff, String.eqb_eq. intros [H1 H2].
  cbn. by rewrite H1, H2.
Qed.

(** ** Decimal text prints and reads back *)

Lemma to_uint_unorm n : Decimal.unorm (N.to_uint n) = N.to_uint n.
Proof. by rewrite <- DecimalN.Unsigned.to_of, DecimalN.Unsigned.of_to. Qed.

Lemma to_uint_not_nil n : N.to_uint n <> Decimal.Nil.
Proof. rewrite <- to_uint_unorm. unfold Decimal.unorm. by destruct (Decimal.nzhead _). Qed.

Lemma string_to_N_print n : string_to_N (N_to_string n) = Some n.
Proof.
  unfold string_to_N, N_to_string. rewrite NilZero.usu by apply to_uint_not_nil.
  cbn. by rewrite DecimalN.Unsigned.of_to.
Qed.

Lemma N_to_string_inj a b : N_to_string a = N_to_string b -> a = b.
Proof. intros H. apply (f_equal string_to_N) in H. rewrite !string_to_N_print in H. congruence. Qed.

Lemma string_of_uint_digits d : all_chars is_digit (NilEmpty.string_of_uint d) = true.
Proof. by induction d. Qed.

Lemma uint_of_string_digits s :
  all_chars is_digit s = true -> exists d, NilEmpty.uint_of_string s = Some d.
Proof.
  induction s as [|c r IH]; cbn [all_chars]; [by eexists|]. rewrite andb_true_iff.
  intros [Hc Hr]. destruct (IH Hr) as [d Hd]. cbn [NilEmpty.uint_of_string]. rewrite Hd. clear -Hc.
  destruct c as [[] [] [] [] [] [] [] []]; try discriminate Hc; eexists; reflexivity.
Qed.

Lemma nzhead_starts d : Decimal.unorm d = d -> d <> Decimal.zero ->
  starts_nonzero (NilZero.string_of_uint d) = true.
Proof.
  intros Hd Hz. unfold Decimal.unorm in Hd. pose proof (nzhead_nonzero d) as Hn.
  destruct (Decimal.nzhead d) eqn:E; subst; try done.
  exfalso. by eapply Hn.
Qed.

Lemma positive_decimal_print n : (0 < n)%N -> positive_decimal (N_to_string n) = true.
Proof.
  intros Hn. unfold positive_decimal, N_to_string. rewrite andb_true_iff. split.
  - apply nzhead_starts; [apply to_uint_unorm|]. intros H.
    apply (f_equal N.of_uint) in H. rewrite DecimalN.Unsigned.of_to in H. cbn in H. lia.
  - pose proof (string_of_uint_digits (N.to_uint n)) as Hs.
    pose proof (to_uint_not_nil n). by destruct (N.to_uint n).
Qed.

Lemma positive_decimal_parse s : positive_decimal s = true ->
  exists n, (0 < n)%N /\ string_to_N s = Some n /\ N_to_string n = s.
Proof.
  unfold positive_decimal. rewrite andb_true_iff. intros [Hs Hd].
  destruct (uint_of_string_digits s Hd) as [d Hp].
  assert (Hz : NilZero.uint_of_string s = Some d) by (destruct s; [discriminate | exact Hp]).
  pose proof (NilZero.sus _ _ Hz) as Hprint.
  assert (Hnil : d <> Decimal.Nil) by (intros ->; cbn in Hprint; subst s; discriminate).
  assert (Hu : Decimal.unorm d = d).
  { destruct d; cbn in Hprint; subst s; try discriminate; reflexivity. }
  exists (N.of_uint d). unfold string_to_N, N_to_string. rewrite Hz. split_and!; [|done|].
  - assert (N.of_uint d <> 0)%N; [|lia]. intros H0. apply (f_equal N.to_uint) in H0.
    rewrite DecimalN.Unsigned.to_of, Hu in H0. cbn in H0. subst d. cbn in Hprint. by subst s.
  - by rewrite DecimalN.Unsigned.to_of, Hu.
Qed.

Lemma Z_to_string_pos z : 0 <= z -> Z_to_string z = N_to_string (Z.to_N z).
Proof. intros. destruct z; [done.. | lia]. Qed.

(** ** Prefixed text *)

(** The rest of a text after a literal prefix *)
Fixpoint strip_prefix (p s : string) : option string :=
  match p, s with
  | EmptyString, _ => Some s
  | String a p', String b s' => if Ascii.eqb a b then strip_prefix p' s' else None
  | String _ _, EmptyString => None
  end.

Lemma strip_prefix_app p s : strip_prefix p (p +:+ s) = Some s.
Proof.
  induction p as [|a p IH]; [done|]. cbv [String.append] in *. cbn [strip_prefix].
  by rewrite Ascii.eqb_refl.
Qed.

Lemma strip_prefix_Some p s r : strip_prefix p s = Some r -> s = p +:+ r.
Proof.
  revert s. induction p as [|a p IH]; intros s; cbn [strip_prefix]; [by intros [= <-]|].
  destruct s as [|b s]; [discriminate|].
  destruct (Ascii.eqb_spec a b) as [->|]; [|discriminate]. intros H. by rewrite (IH s H).
Qed.

(** [integer(Number(m), 1, 2147483647)] of the digits after a prefix: what
    [CALENDAR_REVISION] and [PROFILE_REVISION] capture.  A number too long for a double is out of
    the range either way. *)
Definition prefixed_revision (p s : string) : option Z :=
  let? r := strip_prefix p s in
  if positive_decimal r then
    let? n := string_to_N r in
    as_integer (VInt (Z.of_N n)) 1 2147483647
  else None.

Definition revision_text (p : string) (n : Z) : string := p +:+ Z_to_string n.

Lemma prefixed_revision_print p n :
  1 <= n <= 2147483647 -> prefixed_revision p (revision_text p n) = Some n.
Proof.
  intros Hn. unfold prefixed_revision, revision_text.
  rewrite strip_prefix_app, Z_to_string_pos by lia.
  rewrite positive_decimal_print, string_to_N_print by lia.
  rewrite Z2N.id by lia. apply as_integer_VInt; lia.
Qed.

Lemma prefixed_revision_Some p s n :
  prefixed_revision p s = Some n -> s = revision_text p n /\ 1 <= n <= 2147483647.
Proof.
  unfold prefixed_revision. destruct (strip_prefix p s) as [r|] eqn:Er; [|discriminate].
  destruct (positive_decimal r) eqn:Ep; [|discriminate].
  apply positive_decimal_parse in Ep as (k & Hk & -> & <-).
  intros ([= <-] & _ & Hr)%as_integer_Some. split; [|done].
  apply strip_prefix_Some in Er as ->. unfold revision_text.
  by rewrite Z_to_string_pos, N2Z.id by lia.
Qed.

(** [/^[0-9a-f]{64}$/] *)
Definition as_sha256 (v : jsval) : option string :=
  match v with
  | VString s => if (str_length s =? 64) && all_chars is_lower_hex s then Some s else None
  | _ => None
  end.

(** [v === expected] on a string literal, as a parser step *)
Definition as_literal (expected : string) (v : jsval) : option unit :=
  if is_str v expected then Some tt else None.

(** ** Strict shapes

    [dataRecord(value, keys)]: a plain object whose own properties are exactly
    the named ones, all enumerable data properties. *)
Definition dataRecord (v : jsval) (keys : list string) : bool :=
  match v with
  | VObject ProtoObject props =>
      Nat.eqb (length props) (length keys) &&
      forallb (fun k =>
        match lookup_prop k props with
        | Some (pk, _) => pk_data pk && pk_enumerable pk
        | None => false
        end) keys
  | _ => false
  end.

(** [denseArray(value)]: a plain array without holes or extra properties *)
Definition denseArray (v : jsval) : option (list jsval) :=
  match v with
  | VArray ProtoArray elems extra =>
      if Nat.eqb extra 0 && forallb (fun e => pk_data (fst e) && pk_enumerable (fst e)) elems
      then Some (List.map snd elems) else None
  | _ => None
  end.

Lemma denseArray_arr l : denseArray (arr l) = Some l.
Proof.
  unfold denseArray, arr. cbn [Nat.eqb].
  replace (forallb _ _) with true.
  - cbn. f_equal. rewrite List.map_map. apply List.map_id.
  - symmetry. apply forallb_forall. by intros x (y & <- & _)%in_map_iff.
Qed.

Lemma denseArray_as_array v l : denseArray v = Some l -> as_array v = Some l.
Proof.
  destruct v as [| | | | | | |p elems extra|]; try discriminate. cbn.
  destruct p; try discriminate. destruct (_ && _); [|discriminate]. done.
Qed.

#[global] Arguments denseArray : simpl never.

(** ** Reading a parsed value again

    A leaf parser accepts the value it returned. *)

Lemma as_uuid_reparse v s : as_uuid v = Some s -> as_uuid (VString s) = Some s.
Proof. intros H. by eapply as_uuid_canonical, as_uuid_Some. Qed.

Lemma as_trimmed_reparse lo hi v s :
  as_trimmed lo hi v = Some s -> as_trimmed lo hi (VString s) = Some s.
Proof. rewrite !as_trimmed_Some. tauto. Qed.

Lemma as_integer_reparse v lo hi z :
  as_integer v lo hi = Some z -> as_integer (VInt z) lo hi = Some z.
Proof. rewrite !as_integer_Some. tauto. Qed.

Lemma as_sha256_reparse v s : as_sha256 v = Some s -> as_sha256 (VString s) = Some s.
Proof.
  destruct v; cbn; try discriminate. destruct (_ && _) eqn:E; [|discriminate].
  intros [= <-]. by rewrite E.
Qed.

Lemma as_bool_reparse v b : as_bool v = Some b -> as_bool (VBool b) = Some b.
Proof. done. Qed.

Lemma as_nullable_reparse {A} (f : jsval -> option A) (g : A -> jsval) v o :
  (forall w x, f w = Some x -> f (g x) = Some x) -> (forall x, is_null (g x) = false) ->
  as_nullable f v = Some o -> as_nullable f (of_nullable g o) = Some o.
Proof.
  unfold as_nullable. intros Hf Hg. destruct (is_null v); [by intros [= <-]|].
  destruct (f v) as [x|] eqn:E; cbn; [|discriminate]. intros [= <-]. cbn.
  by rewrite Hg, (Hf v x E).
Qed.

Lemma is_str_refl s : is_str (VString s) s = true.
Proof. apply String.eqb_refl. Qed.

Lemma is_str_true v s : is_str v s = true -> v = VString s.
Proof. destruct v; cbn; try discriminate. rewrite String.eqb_eq. by intros ->. Qed.

Lemma as_literal_Some k v u : as_literal k v = Some u -> v = VString k.
Proof. unfold as_literal. destruct (is_str v k) eqn:E; [|done]. intros _. by apply is_str_true. Qed.

Lemma as_literal_refl k : as_literal k (VString k) = Some tt.
Proof. unfold as_literal. by rewrite is_str_refl. Qed.

Lemma same_json_refl v : same_json v v = true.
Proof. unfold same_json. destruct (json_stringify v); [apply String.eqb_refl | done]. Qed.

Lemma as_array_arr l : as_array (arr l) = Some l.
Proof.
  cbn. f_equal. rewrite List.map_map. apply List.map_id.
Qed.

#[global] Arguments as_uuid : simpl never.
#[global] Arguments as_trimmed : simpl never.
#[global] Arguments as_integer : simpl never.
#[global] Arguments as_sha256 : simpl never.
#[global] Arguments as_literal : simpl never.
#[global] Arguments as_nullable : simpl never.
#[global] Arguments as_array : simpl never.
#[global] Arguments arr : simpl never.
#[global] Arguments same_json : simpl never.
#[global] Arguments is_str : simpl never.

(** ** Parts of strings *)

Lemma app_inj_length p q s t : String.length p = String.length q -> p +:+ s = q +:+ t -> p = q.
Proof.
  revert q. induction p as [|a p IH]; intros [|b q] Hl; try discriminate Hl; [done|].
  change (String a p +:+ s) with (String a (p +:+ s)). change (String b q +:+ t) with (String b (q +:+ t)).
  intros [= -> H]. f_equal. apply IH; [by injection Hl | done].
Qed.

Lemma substring_prefix w t : substring 0 (String.length w) (w +:+ t) = w.
Proof. induction w as [|c w IH]; [by destruct t|].
  change (String c w +:+ t) with (String c (w +:+ t)). cbn [String.length substring]. by rewrite IH. Qed.

Lemma substring_suffix w t n : substring (String.length w) n (w +:+ t) = substring 0 n t.
Proof. induction w as [|c w IH]; [done | apply IH]. Qed.

(** ** Order on strings *)

Lemma str_le_total a b : str_le a b = false -> str_le b a = true.
Proof.
  unfold str_le. rewrite (String.compare_antisym b a). by destruct (String.compare a b).
Qed.

Lemma str_lt_le a b : str_le a b = true -> a <> b -> str_lt a b = true.
Proof.
  unfold str_le, str_lt. intros H Hne. destruct (String.compare a b) eqn:E; try done.
  by apply String.compare_eq_iff in E.
Qed.

Lemma str_lt_le_weaken a b : str_lt a b = true -> str_le a b = true.
Proof. unfold str_lt, str_le. by destruct (String.compare a b). Qed.

Lemma str_lt_irrefl a : str_lt a a = false.
Proof.
  unfold str_lt. pose proof (String.compare_antisym a a) as H.
  by destruct (String.compare a a).
Qed.

Lemma str_lt_cons a b s t :
  str_lt (String a s) (String b t) = (code a <? code b) || ((code a =? code b) && str_lt s t).
Proof.
  unfold str_lt, code. cbn [String.compare]. unfold Ascii.compare.
  destruct (N.compare_spec (N_of_ascii a) (N_of_ascii b)).
  - rewrite H, Z.ltb_irrefl, Z.eqb_refl. done.
  - replace (_ <? _) with true by lia. done.
  - replace (_ <? _) with false by lia. replace (_ =? _) with false by lia. done.
Qed.

Lemma str_lt_trans a b c : str_lt a b = true -> str_lt b c = true -> str_lt a c = true.
Proof.
  revert b c. induction a as [|x a IH]; intros [|y b] [|z c]; try done.
  rewrite !str_lt_cons, !orb_true_iff, !andb_true_iff, !Z.ltb_lt, !Z.eqb_eq.
  intros [H1|[H1 H1']] [H2|[H2 H2']]; try (left; lia).
  right. split; [lia|]. by apply (IH b c).
Qed.

(** ** Strictly sorted keys *)

Section SortedKeys.
Context {A : Type} (key : A -> string).

Definition key_le (a b : A) : bool := str_le (key a) (key b).

Lemma sorted_by_Sorted l :
  sorted_by str_lt (key <$> l) = true -> Sorted (le_rel key_le) l.
Proof.
  induction l as [|x [|y r] IH]; intros H; [constructor | repeat constructor|].
  cbn in H. apply andb_true_iff in H as [H1 H2]. constructor; [by apply IH|].
  constructor. by apply str_lt_le_weaken.
Qed.

Lemma Sorted_sorted_by l :
  Sorted (le_rel key_le) l -> NoDup (key <$> l) -> sorted_by str_lt (key <$> l) = true.
Proof.
  induction 1 as [|x r Hr IH Hd]; [done|]. cbn. rewrite NoDup_cons. intros [Hx Hn].
  destruct Hd as [|y r Hxy]; [done|]. cbn in *. rewrite andb_true_iff. split; [|by apply IH].
  apply str_lt_le; [exact Hxy|]. intros E. apply Hx. rewrite E. left.
Qed.

Lemma sorted_by_tail x l : sorted_by str_lt (x :: l) = true -> sorted_by str_lt l = true.
Proof. destruct l as [|y r]; [done|]. cbn. by rewrite andb_true_iff; intros [_ ?]. Qed.

Lemma sorted_by_lt_all x l :
  sorted_by str_lt (x :: l) = true -> Forall (fun y => str_lt x y = true) l.
Proof.
  revert x. induction l as [|y r IH]; intros x H; [constructor|].
  pose proof (sorted_by_tail _ _ H) as Ht. cbn in H. apply andb_true_iff in H as [H1 _].
  constructor; [done|]. eapply Forall_impl; [by apply IH|]. cbn. intros z Hz.
  by eapply str_lt_trans.
Qed.

Lemma sorted_by_NoDup l : sorted_by str_lt l = true -> NoDup l.
Proof.
  induction l as [|x r IH]; intros H; [constructor|].
  constructor; [|apply IH; by eapply sorted_by_tail].
  intros Hx. apply sorted_by_lt_all in H. rewrite Forall_forall in H. apply H in Hx.
  by rewrite str_lt_irrefl in Hx.
Qed.

Lemma stable_sort_key_sorted l :
  NoDup (key <$> l) -> sorted_by str_lt (key <$> stable_sort key_le l) = true.
Proof.
  intros Hn. apply Sorted_sorted_by.
  - apply stable_sort_sorted. intros a b. apply str_le_total.
  - by rewrite (fmap_Permutation _ _ _ (stable_sort_perm key_le l)).
Qed.

Lemma stable_sort_key_id l :
  sorted_by str_lt (key <$> l) = true -> stable_sort key_le l = l.
Proof. intros H. by apply stable_sort_id, sorted_by_Sorted. Qed.

(** Two lists in strict order of their keys with the same elements are equal. *)
Lemma sorted_keys_unique l l' :
  sorted_by str_lt (key <$> l) = true -> sorted_by str_lt (key <$> l') = true ->
  l ≡ₚ l' -> l = l'.
Proof.
  revert l'. induction l as [|x r IH]; intros l' Hs Hs' Hp.
  { by apply Permutation_nil in Hp as ->. }
  destruct l' as [|y r']; [symmetry in Hp; by apply Permutation_nil in Hp|].
  cbn [fmap list_fmap] in Hs, Hs'.
  pose proof (sorted_by_lt_all _ _ Hs) as Hx. pose proof (sorted_by_lt_all _ _ Hs') as Hy.
  rewrite Forall_fmap, Forall_forall in Hx, Hy.
  assert (x = y) as ->.
  { assert (Hxy : x ∈ y :: r') by (rewrite <- Hp; left).
    assert (Hyx : y ∈ x :: r) by (rewrite Hp; left).
    apply elem_of_cons in Hxy as [->|Hxr]; [done|].
    apply elem_of_cons in Hyx as [->|Hyr]; [done|].
    pose proof (str_lt_trans _ _ _ (Hy _ Hxr) (Hx _ Hyr)) as Hc. cbn in Hc.
    by rewrite str_lt_irrefl in Hc. }
  f_equal. apply IH; [by eapply sorted_by_tail..|]. by apply Permutation_cons_inv in Hp.
Qed.

(** Sorting by distinct keys does not depend on the order of the list. *)
Lemma stable_sort_key_perm l l' :
  NoDup (key <$> l) -> l ≡ₚ l' -> stable_sort key_le l = stable_sort key_le l'.
Proof.
  intros Hn Hp. apply sorted_keys_unique.
  - by apply stable_sort_key_sorted.
  - apply stable_sort_key_sorted. by rewrite <- Hp.
  - by rewrite !stable_sort_perm.
Qed.
End SortedKeys.

Lemma all_distinct_strings l : all_distinct String.eqb l = true <-> NoDup l.
Proof. apply all_distinct_NoDup, String.eqb_eq. Qed.

(** Rewrites the leaf parsers on the values they returned; a file that defines
    a parser adds its own lemma by redefining [reparse_leaf]. *)
Ltac reparse_leaf :=
  first
    [ rewrite as_literal_refl
    | erewrite as_uuid_reparse by eassumption
    | erewrite as_integer_reparse by eassumption
    | erewrite as_trimmed_reparse by eassumption
    | erewrite as_sha256_reparse by eassumption
    | rewrite as_array_arr
    | rewrite same_json_refl
    | rewrite String.eqb_refl ].

Ltac reparse := cbn; repeat (reparse_leaf; cbn).

(** Reading an array of parsed elements again. *)
Lemma traverse_reparse {A} (f : jsval -> option A) (g : A -> jsval) raws l :
  (forall v x, f v = Some x -> f (g x) = Some x) ->
  traverse f raws = Some l -> traverse f (g <$> l) = Some l.
Proof.
  intros Hf H. apply (traverse_fmap_Forall (fun x => f (g x) = Some x)); [done|].
  by eapply traverse_Forall.
Qed.

#[global] Arguments Nat.leb : simpl never.
#[global] Arguments Nat.ltb : simpl never.
#[global] Arguments Nat.eqb : simpl nomatch.
