(* ===== verification/JsonText.v ===== *)
(** * JSON text is injective

    The source compares values and commands by their [JSON.stringify] text.  On
    plain values (null, booleans, integers, strings, and arrays and objects of
    them) the text determines the value, so the comparison is equality. *)

From S2P Require Import Prelude JsValue.

(** ** Strings *)

Definition unhex (c : ascii) : N :=
  let n := N_of_ascii c in if (n <? 58)%N then n - 48 else n - 87.

(** Reads one character of a JSON string literal. *)
Definition json_read_char (s : string) : option (ascii * string) :=
  match s with
  | String "\" (String e r) =>
      if is_char "b" e then Some ("008"%char, r)
      else if is_char "t" e then Some ("009"%char, r)
      else if is_char "n" e then Some ("010"%char, r)
      else if is_char "f" e then Some ("012"%char, r)
      else if is_char "r" e then Some ("013"%char, r)
      else if is_char "u" e then
        match r with
        | String _ (String _ (String h (String l r'))) => Some (ascii_of_N (16 * unhex h + unhex l), r')
        | _ => None
        end
      else Some (e, r)
  | String c r => Some (c, r)
  | EmptyString => None
  end.

Lemma json_read_char_print c r : json_read_char (json_char c +:+ r) = Some (c, r).
Proof. destruct c as [[] [] [] [] [] [] [] []]; reflexivity. Qed.

Lemma json_char_not_quote c r r' : json_char c +:+ r <> String "034" r'.
Proof. destruct c as [[] [] [] [] [] [] [] []]; discriminate. Qed.

Lemma json_string_app_inj s t r r' :
  json_string s +:+ r = json_string t +:+ r' -> s = t /\ r = r'.
Proof.
  unfold json_string, quote_char. rewrite !string_app_assoc. intros H. injection H as H.
  change (json_escape s +:+ String "034" r = json_escape t +:+ String "034" r') in H.
  revert t H. induction s as [|c s IH]; intros [|d t] H; cbn [json_escape] in H.
  - by injection H as ->.
  - exfalso. symmetry in H. rewrite string_app_assoc in H. by eapply json_char_not_quote.
  - exfalso. rewrite string_app_assoc in H. by eapply json_char_not_quote.
  - rewrite !string_app_assoc in H. apply (f_equal json_read_char) in H.
    rewrite !json_read_char_print in H. injection H as -> H.
    by destruct (IH t H) as [-> ->].
Qed.


(** ** Numbers *)

Definition number_char (c : ascii) : bool := is_digit c || is_char "-" c.

Lemma all_chars_weaken (f g : ascii -> bool) s :
  (forall c, f c = true -> g c = true) -> all_chars f s = true -> all_chars g s = true.
Proof.
  intros Hfg. induction s as [|c r IH]; [done|]. cbn. rewrite !andb_true_iff. intros [? ?]. auto.
Qed.

Lemma N_to_string_digits n : all_chars is_digit (N_to_string n) = true.
Proof.
  unfold N_to_string. pose proof (string_of_uint_digits (N.to_uint n)).
  pose proof (to_uint_not_nil n). by destruct (N.to_uint n).
Qed.

Lemma Z_to_string_chars z : all_chars number_char (Z_to_string z) = true.
Proof.
  assert (H : forall n, all_chars number_char (N_to_string n) = true).
  { intros n. eapply all_chars_weaken; [|apply N_to_string_digits]. unfold number_char.
    intros c ->. done. }
  destruct z; unfold Z_to_string; [apply H | apply H|]. cbn [all_chars]. by rewrite H.
Qed.

Lemma N_to_string_cons n : exists c r, N_to_string n = String c r /\ is_digit c = true.
Proof.
  pose proof (N_to_string_digits n) as H. destruct (N_to_string n) as [|c r] eqn:E.
  - exfalso. apply (f_equal string_to_N) in E. rewrite string_to_N_print in E. discriminate.
  - cbn in H. apply andb_true_iff in H as [H _]. eauto.
Qed.

Lemma Z_to_string_cons z : exists c r, Z_to_string z = String c r /\ number_char c = true.
Proof.
  unfold number_char. destruct z as [|p|p]; unfold Z_to_string; [| |eauto].
  - destruct (N_to_string_cons (Z.to_N 0)) as (c & r & -> & Hc). exists c, r. by rewrite Hc.
  - destruct (N_to_string_cons (Z.to_N (Zpos p))) as (c & r & -> & Hc). exists c, r. by rewrite Hc.
Qed.

Lemma Z_to_string_inj a b : Z_to_string a = Z_to_string b -> a = b.
Proof.
  assert (Hneg : forall p n, String "-" (N_to_string (Npos p)) <> N_to_string n).
  { intros p n H. destruct (N_to_string_cons n) as (c & r & E & Hc). rewrite E in H.
    injection H as <- _. discriminate. }
  destruct a as [|p|p], b as [|q|q]; unfold Z_to_string; intros H; try done;
    try (by apply N_to_string_inj in H); try (by apply Hneg in H); try (symmetry in H; by apply Hneg in H).
  - apply N_to_string_inj in H. lia.
  - injection H as H. apply N_to_string_inj in H. congruence.
Qed.

(** What may follow a value: the end, a comma or a closing bracket. *)
Definition delimited (r : string) : Prop :=
  match r with
  | EmptyString => True
  | String c _ => c = ","%char \/ c = "]"%char \/ c = "}"%char
  end.

Lemma span_inj (f : ascii -> bool) a b r r' :
  all_chars f a = true -> all_chars f b = true ->
  (forall c t, r = String c t -> f c = false) -> (forall c t, r' = String c t -> f c = false) ->
  a +:+ r = b +:+ r' -> a = b /\ r = r'.
Proof.
  intros Ha Hb Hr Hr'. revert b Hb. induction a as [|x a IH]; intros [|y b] Hb H.
  - done.
  - exfalso. cbn in H, Hb. apply andb_true_iff in Hb as [Hy _].
    by rewrite (Hr y (b +:+ r') H) in Hy.
  - exfalso. cbn in H, Ha. apply andb_true_iff in Ha as [Hx _].
    by rewrite (Hr' x (a +:+ r) (eq_sym H)) in Hx.
  - cbn in Ha, Hb. apply andb_true_iff in Ha as [_ Ha], Hb as [_ Hb].
    injection H as -> H. destruct (IH Ha b Hb H) as [-> ->]. done.
Qed.

Lemma number_inj a b r r' :
  delimited r -> delimited r' -> Z_to_string a +:+ r = Z_to_string b +:+ r' -> a = b /\ r = r'.
Proof.
  intros Hr Hr' H.
  assert (Hd : forall s, delimited s -> forall c t, s = String c t -> number_char c = false).
  { intros s Hs c t ->. by destruct Hs as [->|[->| ->]]. }
  destruct (span_inj number_char _ _ _ _ (Z_to_string_chars a) (Z_to_string_chars b)
    (Hd r Hr) (Hd r' Hr') H) as [E ->]. by apply Z_to_string_inj in E.
Qed.

(** ** Plain values *)

#[local] Set Warnings "-register-all".

Inductive plain_json : jsval -> Prop :=
| plain_null : plain_json VNull
| plain_bool b : plain_json (VBool b)
| plain_int z : plain_json (VInt z)
| plain_string s : plain_json (VString s)
| plain_arr l : Forall plain_json l -> plain_json (arr l)
| plain_obj fields : Forall (fun f => plain_json (snd f)) fields -> plain_json (obj fields).

#[export] Hint Constructors plain_json : vayada.

(** The text of a plain value. *)
Definition json_text (v : jsval) : string := default EmptyString (json_stringify v).

Definition field_text (f : string * jsval) : string := json_field (fst f) (json_text (snd f)).

Lemma json_text_arr l :
  Forall (fun v => json_stringify v <> None) l ->
  json_stringify (arr l) = Some ("[" +:+ join "," (json_text <$> l) +:+ "]").
Proof.
  intros Hl. unfold arr. cbn [json_stringify]. do 2 f_equal. f_equal. f_equal.
  induction Hl as [|x l Hx _ IH]; [done|]. cbn [fmap list_fmap List.map]. f_equal; [|exact IH].
  unfold json_text. by destruct (json_stringify x).
Qed.

Lemma json_text_obj fields :
  Forall (fun f => json_stringify (snd f) <> None) fields ->
  json_stringify (obj fields) = Some ("{" +:+ join "," (field_text <$> fields) +:+ "}").
Proof.
  intros Hl. unfold obj. cbn [json_stringify]. do 2 f_equal. f_equal. f_equal.
  induction Hl as [|[k x] l Hx _ IH]; [done|]. cbn [fmap list_fmap List.map fst snd].
  cbn [plain_prop pk_enumerable]. unfold field_text at 1, json_text at 1. cbn [fst snd] in *.
  destruct (json_stringify x); [|done]. cbn [default]. f_equal. exact IH.
Qed.

Lemma plain_json_text v : plain_json v -> json_stringify v = Some (json_text v).
Proof.
  unfold json_text. intros H. assert (Hne : json_stringify v <> None).
  { destruct H as [| | | |l Hl|fields Hf]; try discriminate; unfold arr, obj; discriminate. }
  by destruct (json_stringify v).
Qed.

Lemma plain_stringify v : plain_json v -> json_stringify v <> None.
Proof. intros H. by rewrite (plain_json_text v H). Qed.

Lemma arr_text l : Forall plain_json l -> json_text (arr l) = "[" +:+ join "," (json_text <$> l) +:+ "]".
Proof.
  intros Hl. unfold json_text at 1. rewrite json_text_arr; [done|].
  eapply Forall_impl; [exact Hl|]. exact plain_stringify.
Qed.

Lemma obj_text fields : Forall (fun f => plain_json (snd f)) fields ->
  json_text (obj fields) = "{" +:+ join "," (field_text <$> fields) +:+ "}".
Proof.
  intros Hl. unfold json_text at 1. rewrite json_text_obj; [done|].
  eapply Forall_impl; [exact Hl|]. intros f. apply plain_stringify.
Qed.

Lemma arr_inj l l' : arr l = arr l' -> l = l'.
Proof.
  intros H. apply (f_equal as_array) in H. rewrite !as_array_arr in H. congruence.
Qed.

Lemma elements_inj {A} (f : A -> jsval) (Hf : Inj (=) (=) f) l l' :
  map (fun v => (plain_prop, v)) (f <$> l) = map (fun v => (plain_prop, v)) (f <$> l') -> l = l'.
Proof. intros H. apply (inj (fmap f)), arr_inj. unfold arr. by rewrite H. Qed.

Lemma obj_inj fields fields' : obj fields = obj fields' -> fields = fields'.
Proof.
  unfold obj. intros H. injection H as H. revert fields' H.
  induction fields as [|[k v] r IH]; intros [|[k' v'] r']; try discriminate; [done|].
  cbn. intros [= -> -> H]. f_equal. by apply IH.
Qed.

(** A plain value's text is not empty and does not start like a delimiter. *)
Lemma plain_text_cons v : plain_json v ->
  exists c r, json_text v = String c r /\ ~ delimited (String c r).
Proof.
  intros H. destruct H as [|b|z|s|l Hl|fields Hf].
  - do 2 eexists. split; [reflexivity|]. intros [?|[?|?]]; discriminate.
  - destruct b; (do 2 eexists; split; [reflexivity|]; intros [?|[?|?]]; discriminate).
  - destruct (Z_to_string_cons z) as (c & r & E & Hc). exists c, r.
    split; [exact E|]. intros [->|[->| ->]]; discriminate.
  - do 2 eexists. split; [reflexivity|]. intros [?|[?|?]]; discriminate.
  - rewrite arr_text by done. do 2 eexists. split; [reflexivity|]. intros [?|[?|?]]; discriminate.
  - rewrite obj_text by done. do 2 eexists. split; [reflexivity|]. intros [?|[?|?]]; discriminate.
Qed.

(** ** Separated items *)

Lemma string_length_app a b : String.length (a +:+ b) = (String.length a + String.length b)%nat.
Proof. induction a as [|c a IH]; [done|]. cbv [String.append] in *. cbn. by rewrite IH. Qed.

Section Items.
Context {A : Type} (t : A -> string) (close : ascii).
Hypothesis close_delimited : forall r, delimited (String close r).
Hypothesis close_not_comma : close <> ","%char.

(** What follows the first item. *)
Definition items_tail (l : list A) (r : string) : string :=
  match l with
  | [] => String close r
  | _ => String "," (join "," (t <$> l) +:+ String close r)
  end.

Lemma join_cons x l r : join "," (t <$> x :: l) +:+ String close r = t x +:+ items_tail l r.
Proof.
  destruct l as [|y l]; [done|]. cbn [fmap list_fmap join items_tail].
  rewrite !string_app_assoc. done.
Qed.

Lemma items_tail_delimited l r : delimited (items_tail l r).
Proof. destruct l; [apply close_delimited | by left]. Qed.

Lemma items_inj l l' r r' :
  (forall x, x ∈ l -> exists c s, t x = String c s /\ ~ delimited (String c s)) ->
  (forall x, x ∈ l' -> exists c s, t x = String c s /\ ~ delimited (String c s)) ->
  (forall x x' s s', x ∈ l -> x' ∈ l' -> delimited s -> delimited s' ->
    t x +:+ s = t x' +:+ s' -> x = x' /\ s = s') ->
  join "," (t <$> l) +:+ String close r = join "," (t <$> l') +:+ String close r' ->
  l = l' /\ r = r'.
Proof.
  revert l'. induction l as [|x l IH]; intros [|x' l'] Hh Hh' Hi H.
  - by injection H as ->.
  - exfalso. rewrite join_cons in H. destruct (Hh' x') as (c & s & E & Hd); [left|].
    rewrite E in H. injection H as <- _. apply Hd. apply (close_delimited s).
  - exfalso. rewrite join_cons in H. destruct (Hh x) as (c & s & E & Hd); [left|].
    rewrite E in H. injection H as -> _. apply Hd. apply (close_delimited s).
  - rewrite !join_cons in H. apply Hi in H as [-> H]; [|by left|by left|apply items_tail_delimited..].
    destruct l as [|y l], l' as [|y' l']; cbn [items_tail] in H.
    + by injection H as ->.
    + exfalso. injection H as H _. by apply close_not_comma.
    + exfalso. injection H as H _. by apply close_not_comma.
    + injection H as H. destruct (IH (y' :: l')) as [-> ->]; auto.
      * intros z Hz. apply Hh. by right.
      * intros z Hz. apply Hh'. by right.
      * intros z z' s s' Hz Hz'. apply Hi; by right.
Qed.

Lemma item_length x l : x ∈ l -> (String.length (t x) <= String.length (join "," (t <$> l)))%nat.
Proof.
  induction l as [|y l IH]; [by intros ?%not_elem_of_nil|]. destruct l as [|z l].
  - intros ->%list_elem_of_singleton. done.
  - intros [->|Hx]%elem_of_cons; cbn [fmap list_fmap join]; rewrite !string_length_app; [lia|].
    specialize (IH Hx). cbn [fmap list_fmap join] in IH. cbn. lia.
Qed.
End Items.

Lemma string_app_cancel a r r' : a +:+ r = a +:+ r' -> r = r'.
Proof. induction a as [|c a IH]; [done|]. intros H. injection H as H. exact (IH H). Qed.

(** ** Injectivity *)

Definition first_char (s : string) : option ascii :=
  match s with String c _ => Some c | EmptyString => None end.

Lemma number_first z r : exists c, first_char (json_text (VInt z) +:+ r) = Some c /\ number_char c = true.
Proof.
  destruct (Z_to_string_cons z) as (c & s & E & Hc). exists c.
  change (json_text (VInt z)) with (Z_to_string z). by rewrite E.
Qed.

(** A number's text does not start like another value's. *)
Ltac kill_number H :=
  match type of H with
  | context [json_text (VInt ?z) +:+ ?r] =>
      let c := fresh in let E := fresh in let Hc := fresh in
      destruct (number_first z r) as (c & E & Hc); rewrite <- H in E || rewrite H in E;
      repeat match goal with b : bool |- _ => destruct b end;
      cbn in E; injection E as <-; discriminate Hc
  end.

Lemma json_text_inj_fuel n : forall v v' r r',
  plain_json v -> plain_json v' -> (String.length (json_text v) <= n)%nat ->
  delimited r -> delimited r' -> json_text v +:+ r = json_text v' +:+ r' -> v = v' /\ r = r'.
Proof.
  induction n as [|n IH]; intros v v' r r' Hv Hv' Hn Hr Hr' H.
  { exfalso. destruct (plain_text_cons v Hv) as (c & s & E & _). rewrite E in Hn. cbn in Hn. lia. }
  destruct Hv as [|b|z|s|l Hl|fields Hf], Hv' as [|b'|z'|s'|l' Hl'|fields' Hf'];
    rewrite ?arr_text, ?obj_text in H by assumption; try discriminate H;
    try (destruct b; discriminate H); try (destruct b'; discriminate H); try (solve [kill_number H]).
  - by apply string_app_cancel in H.
  - destruct b, b'; try discriminate H; by apply string_app_cancel in H.
  - by destruct (number_inj _ _ _ _ Hr Hr' H) as [-> ->].
  - by destruct (json_string_app_inj _ _ _ _ H) as [-> ->].
  - rewrite arr_text in Hn by done. rewrite !string_length_app in Hn. cbn in Hn.
    rewrite !string_app_assoc in H. apply string_app_cancel in H.
    destruct (items_inj json_text "]" ltac:(intros; right; by left) ltac:(discriminate) l l' r r')
      as [-> ->]; auto.
    + intros x Hx. rewrite Forall_forall in Hl. by apply plain_text_cons, Hl.
    + intros x Hx. rewrite Forall_forall in Hl'. by apply plain_text_cons, Hl'.
    + rewrite Forall_forall in Hl, Hl'. intros x x' t t' Hx Hx' Ht Ht'. apply IH; auto.
      pose proof (item_length json_text x l Hx). lia.
  - rewrite obj_text in Hn by done. rewrite !string_length_app in Hn. cbn in Hn.
    rewrite !string_app_assoc in H. apply string_app_cancel in H.
    assert (Hhead : forall f, exists c s, field_text f = String c s /\ ~ delimited (String c s)).
    { intros f. do 2 eexists. split; [reflexivity|]. intros [?|[?|?]]; discriminate. }
    destruct (items_inj field_text "}" ltac:(intros; right; by right) ltac:(discriminate)
      fields fields' r r') as [-> ->]; auto.
    rewrite Forall_forall in Hf, Hf'. intros [k x] [k' x'] t t' Hx Hx' Ht Ht' E.
    unfold field_text, json_field in E. cbn [fst snd] in E. rewrite !string_app_assoc in E.
    apply json_string_app_inj in E as [-> E]. apply string_app_cancel in E.
    apply IH in E as [-> ->]; auto; [exact (Hf _ Hx) | exact (Hf' _ Hx')|].
    pose proof (item_length field_text (k', x) fields Hx) as Hle.
    change (field_text (k', x)) with (json_string k' +:+ (":" +:+ json_text x)) in Hle.
    rewrite !string_length_app in Hle. cbn [String.length] in Hle.
    lia.
Qed.

(** Two plain values with the same JSON text are the same value. *)
Theorem json_stringify_inj v v' :
  plain_json v -> plain_json v' -> json_stringify v = json_stringify v' -> v = v'.
Proof.
  intros Hv Hv' H. rewrite (plain_json_text v Hv), (plain_json_text v' Hv') in H.
  injection H as H. apply (f_equal (fun s => s +:+ EmptyString)) in H.
  by apply (json_text_inj_fuel _ _ _ _ _ Hv Hv' (le_n _)) in H as [-> _].
Qed.

Lemma same_json_inj v v' : same_json v v' = true -> plain_json v -> plain_json v' -> v = v'.
Proof.
  unfold same_json. intros H Hv Hv'. apply json_stringify_inj; [done..|].
  rewrite (plain_json_text v Hv), (plain_json_text v' Hv') in *. apply String.eqb_eq in H. by rewrite H.
Qed.

Lemma plain_strings (l : list string) : plain_json (arr (VString <$> l)).
Proof. constructor. apply Forall_fmap, Forall_forall. intros x _. constructor. Qed.

Lemma plain_fmap {A} (f : A -> jsval) l : (forall x, plain_json (f x)) -> plain_json (arr (f <$> l)).
Proof. intros Hf. constructor. apply Forall_fmap, Forall_forall. intros x _. apply Hf. Qed.

Lemma plain_nullable {A} (f : A -> jsval) o : (forall x, plain_json (f x)) -> plain_json (of_nullable f o).
Proof. intros Hf. destruct o; [apply Hf | constructor]. Qed.

Lemma strings_inj (l l' : list string) : VString <$> l = VString <$> l' -> l = l'.
Proof. intros H. by apply list_fmap_eq_inj in H; [|intros ? ? [= ->]]. Qed.
