(* ===== verification/CalendarDates.v ===== *)
(** * Calendar dates

    The source handles a stay date as the text ["YYYY-MM-DD"] and computes on it
    through JavaScript's [Date].  This file gives [Date]'s calendar (the
    proleptic Gregorian calendar of ECMAScript, [DayFromYear] and [MakeDay]),
    the date text [toISOString().slice(0, 10)] prints, and the three date
    readers of the source, which accept different years:

    - [isoDateEpochDay] (inventoryReservationLifecycle.ts): years from 1;
    - [isoDateTimestamp] (inventoryMaterializationPlanner.ts and
      inventoryMaterialization.ts): [Date.UTC] reads the years 0 to 99 as 1900 to
      1999, so the round trip through [toISOString] refuses them;
    - [pricingDate] (replacementPricingConfiguration.ts) and the optimizer's
      [validDate]: every year of four digits.

    A midnight is given by its day number; the source's millisecond value is
    86 400 000 times it. *)

From S2P Require Import Prelude JsValue.

(** ** The calendar *)

Definition leap_year (y : Z) : bool :=
  (y mod 4 =? 0) && (negb (y mod 100 =? 0) || (y mod 400 =? 0)).

(** ECMAScript's [DayFromYear]: the day number of 1 January. *)
Definition day_from_year (y : Z) : Z :=
  365 * (y - 1970) + (y - 1969) / 4 - (y - 1901) / 100 + (y - 1601) / 400.

(** Days before month [m] (1 to 12) in the year. *)
Definition days_before_month (leap : bool) (m : Z) : Z :=
  let k := if leap then 1 else 0 in
  match m with
  | 1 => 0 | 2 => 31 | 3 => 59 + k | 4 => 90 + k | 5 => 120 + k | 6 => 151 + k
  | 7 => 181 + k | 8 => 212 + k | 9 => 243 + k | 10 => 273 + k | 11 => 304 + k
  | _ => 334 + k
  end.

Definition days_in_month (leap : bool) (m : Z) : Z :=
  match m with
  | 2 => if leap then 29 else 28
  | 4 | 6 | 9 | 11 => 30
  | _ => 31
  end.

Definition valid_civil (y m d : Z) : bool :=
  (1 <=? m) && (m <=? 12) && (1 <=? d) && (d <=? days_in_month (leap_year y) m).

(** ECMAScript's [MakeDay]: months from 0, out of range months and days carry. *)
Definition make_day (y m0 d : Z) : Z :=
  let y' := y + m0 / 12 in
  day_from_year y' + days_before_month (leap_year y') (m0 mod 12 + 1) + d - 1.

(** [Date.UTC(y, m0, d)]: a year from 0 to 99 is one of the twentieth century. *)
Definition date_utc (y m0 d : Z) : Z :=
  make_day (if (0 <=? y) && (y <=? 99) then 1900 + y else y) m0 d.

(** [getUTCFullYear] of a day number *)
Definition year_of_day (n : Z) : Z :=
  let y := 1970 + (400 * n) / 146097 in
  if n <? day_from_year y then y - 1
  else if day_from_year (y + 1) <=? n then y + 1 else y.

Definition month_of_yday (leap : bool) (k : Z) : Z :=
  if k <? days_before_month leap 2 then 1
  else if k <? days_before_month leap 3 then 2
  else if k <? days_before_month leap 4 then 3
  else if k <? days_before_month leap 5 then 4
  else if k <? days_before_month leap 6 then 5
  else if k <? days_before_month leap 7 then 6
  else if k <? days_before_month leap 8 then 7
  else if k <? days_before_month leap 9 then 8
  else if k <? days_before_month leap 10 then 9
  else if k <? days_before_month leap 11 then 10
  else if k <? days_before_month leap 12 then 11
  else 12.

(** Year, month (from 1) and day of the month of a day number *)
Definition civil_of_day (n : Z) : Z * Z * Z :=
  let y := year_of_day n in
  let k := n - day_from_year y in
  let m := month_of_yday (leap_year y) k in
  (y, m, k - days_before_month (leap_year y) m + 1).

(** ** Date text *)

Definition digit_val (c : ascii) : Z := code c - 48.
Definition digit_char (z : Z) : ascii := ascii_of_N (Z.to_N (48 + z)).

Definition pad2 (n : Z) : string :=
  String (digit_char (n / 10)) (String (digit_char (n mod 10)) EmptyString).

Definition pad4 (n : Z) : string := pad2 (n / 100) +:+ pad2 (n mod 100).

Definition pad6 (n : Z) : string := pad2 (n / 10000) +:+ pad4 (n mod 10000).

Definition date_text (y m d : Z) : string :=
  pad4 y +:+ String "-" (pad2 m) +:+ String "-" (pad2 d).

(** [new Date(86400000 * n).toISOString().slice(0, 10)]: a year outside 0 to 9999
    prints with a sign and six digits, and the cut removes the day. *)
Definition iso_date (n : Z) : string :=
  let '(y, m, d) := civil_of_day n in
  if (0 <=? y) && (y <=? 9999) then date_text y m d
  else String (if y <? 0 then "-" else "+") (pad6 (Z.abs y)) +:+ String "-" (pad2 m).

(** The match of [/^\d{4}-\d{2}-\d{2}$/] and [value.split("-").map(Number)]. *)
Definition parse_ymd (s : string) : option (Z * Z * Z) :=
  match s with
  | String y1 (String y2 (String y3 (String y4 (String s1 (String m1 (String m2
      (String s2 (String d1 (String d2 EmptyString))))))))) =>
      if is_digit y1 && is_digit y2 && is_digit y3 && is_digit y4 && is_char "-" s1 &&
         is_digit m1 && is_digit m2 && is_char "-" s2 && is_digit d1 && is_digit d2
      then Some (1000 * digit_val y1 + 100 * digit_val y2 + 10 * digit_val y3 + digit_val y4,
                 10 * digit_val m1 + digit_val m2, 10 * digit_val d1 + digit_val d2)
      else None
  | _ => None
  end.

(** ** The three readers *)

(** [isoDateEpochDay] of inventoryReservationLifecycle.ts *)
Definition isoDateEpochDay (v : jsval) : option Z :=
  let? s := as_string v in
  let? (y, m, d) := parse_ymd s in
  if (y <? 1) || (m <? 1) || (12 <? m) || (d <? 1) || (31 <? d) then None
  else
    let n := make_day y (m - 1) d in
    let '(y', m', d') := civil_of_day n in
    if (y' =? y) && (m' =? m) && (d' =? d) then Some n else None.

Definition isoDateFromEpochDay (n : Z) : string := iso_date n.

(** [isoDateTimestamp] of inventoryMaterializationPlanner.ts, by day number *)
Definition isoDateTimestamp (v : jsval) : option Z :=
  let? s := as_string v in
  let? (y, m, d) := parse_ymd s in
  let n := date_utc y (m - 1) d in
  if String.eqb (iso_date n) s then Some n else None.

(** [pricingDate] of replacementPricingConfiguration.ts: the ISO text with
    ["T00:00:00Z"] appended is an instant exactly on calendar dates. *)
Definition pricingDate (v : jsval) : bool :=
  match as_string v with
  | Some s =>
      match parse_ymd s with
      | Some (y, m, d) =>
          valid_civil y m d && String.eqb (iso_date (make_day y (m - 1) d)) s
      | None => false
      end
  | None => false
  end.

(** [Date.parse] of a date text [pricingDate] accepts, by day number *)
Definition date_parse (s : string) : Z :=
  match parse_ymd s with
  | Some (y, m, d) => make_day y (m - 1) d
  | None => 0
  end.

(** ** The calendar is a bijection *)

Lemma day_from_year_succ y :
  day_from_year (y + 1) = day_from_year y + 365 + (if leap_year y then 1 else 0).
Proof.
  unfold day_from_year, leap_year.
  destruct (y mod 4 =? 0) eqn:E4, (y mod 100 =? 0) eqn:E100, (y mod 400 =? 0) eqn:E400;
    cbn [andb orb negb]; rewrite ?Z.eqb_eq, ?Z.eqb_neq in *; div_lia.
Qed.

Lemma day_from_year_mono y y' : y <= y' -> day_from_year y <= day_from_year y'.
Proof.
  intros H. replace y' with (y + Z.of_nat (Z.to_nat (y' - y))) by lia.
  induction (Z.to_nat (y' - y)) as [|n IH]; [rewrite Z.add_0_r; lia|].
  replace (y + Z.of_nat (S n)) with (y + Z.of_nat n + 1) by lia.
  rewrite day_from_year_succ. destruct (leap_year _); lia.
Qed.

Lemma year_of_day_spec n :
  day_from_year (year_of_day n) <= n < day_from_year (year_of_day n + 1).
Proof.
  unfold year_of_day. set (y := 1970 + 400 * n / 146097).
  assert (Hlo : day_from_year (y - 1) <= n) by (unfold day_from_year, y; div_lia).
  assert (Hhi : n < day_from_year (y + 2)) by (unfold day_from_year, y; div_lia).
  destruct (n <? day_from_year y) eqn:E1.
  - bool_to_prop. replace (y - 1 + 1) with y by lia. lia.
  - destruct (day_from_year (y + 1) <=? n) eqn:E2; bool_to_prop.
    + replace (y + 1 + 1) with (y + 2) by lia. lia.
    + lia.
Qed.

Lemma year_of_day_unique n y :
  day_from_year y <= n < day_from_year (y + 1) -> year_of_day n = y.
Proof.
  intros H. pose proof (year_of_day_spec n) as H'. set (z := year_of_day n) in *.
  destruct (Z.lt_trichotomy z y) as [Hlt|[Heq|Hlt]]; [|done|].
  - pose proof (day_from_year_mono (z + 1) y ltac:(lia)). lia.
  - pose proof (day_from_year_mono (y + 1) z ltac:(lia)). lia.
Qed.

Lemma valid_civil_spec y m d :
  valid_civil y m d = true <->
  1 <= m <= 12 /\ 1 <= d <= days_in_month (leap_year y) m.
Proof. unfold valid_civil. rewrite !andb_true_iff, !Z.leb_le. lia. Qed.

(** Case analysis on a month number. *)
Lemma month_cases m : 1 <= m <= 12 ->
  m = 1 \/ m = 2 \/ m = 3 \/ m = 4 \/ m = 5 \/ m = 6 \/
  m = 7 \/ m = 8 \/ m = 9 \/ m = 10 \/ m = 11 \/ m = 12.
Proof. lia. Qed.

Ltac month_cases H :=
  apply month_cases in H;
  destruct H as [->|[->|[->|[->|[->|[->|[->|[->|[->|[->|[-> | ->]]]]]]]]]]].

(** Decides [month_of_yday] on a day in a known range. *)
Ltac yday_months :=
  repeat match goal with
  | |- context [Z.ltb ?a ?b] => destruct (Z.ltb_spec a b); try lia
  end.

Lemma month_of_yday_eq leap m d :
  1 <= m <= 12 -> 1 <= d <= days_in_month leap m ->
  month_of_yday leap (days_before_month leap m + d - 1) = m.
Proof.
  intros Hm Hd. month_cases Hm; destruct leap; cbn in Hd |- *; unfold month_of_yday;
    cbn [days_before_month]; yday_months.
Qed.

Lemma month_of_yday_spec (leap : bool) k :
  0 <= k < 365 + (if leap then 1 else 0) ->
  let m := month_of_yday leap k in
  1 <= m <= 12 /\ 1 <= k - days_before_month leap m + 1 <= days_in_month leap m.
Proof.
  intros Hk. cbv zeta. unfold month_of_yday.
  destruct leap; cbn [days_before_month]; cbn in Hk;
    repeat match goal with
    | |- context [Z.ltb ?a ?b] => destruct (Z.ltb_spec a b)
    end; cbn; lia.
Qed.

Lemma make_day_civil y m d :
  1 <= m <= 12 ->
  make_day y (m - 1) d = day_from_year y + days_before_month (leap_year y) m + d - 1.
Proof.
  intros Hm. unfold make_day.
  replace ((m - 1) / 12) with 0 by div_lia.
  replace ((m - 1) mod 12 + 1) with m by div_lia.
  by rewrite Z.add_0_r.
Qed.

Lemma yday_bound (leap : bool) m d :
  1 <= m <= 12 -> 1 <= d <= days_in_month leap m ->
  0 <= days_before_month leap m + d - 1 < 365 + (if leap then 1 else 0).
Proof. intros Hm Hd. month_cases Hm; destruct leap; cbn in *; lia. Qed.

Theorem civil_of_make_day y m d :
  valid_civil y m d = true -> civil_of_day (make_day y (m - 1) d) = (y, m, d).
Proof.
  intros [Hm Hd]%valid_civil_spec. rewrite make_day_civil by done.
  pose proof (yday_bound _ _ _ Hm Hd) as Hb.
  assert (Hy : year_of_day (day_from_year y + days_before_month (leap_year y) m + d - 1) = y).
  { apply year_of_day_unique. rewrite day_from_year_succ. lia. }
  unfold civil_of_day. cbv zeta. rewrite Hy.
  replace (day_from_year y + days_before_month (leap_year y) m + d - 1 - day_from_year y)
    with (days_before_month (leap_year y) m + d - 1) by lia.
  rewrite month_of_yday_eq by done. f_equal. lia.
Qed.

Theorem make_day_of_civil n :
  let '(y, m, d) := civil_of_day n in
  valid_civil y m d = true /\ make_day y (m - 1) d = n.
Proof.
  unfold civil_of_day. cbv zeta.
  pose proof (year_of_day_spec n) as Hy. rewrite day_from_year_succ in Hy.
  set (y := year_of_day n) in *.
  destruct (month_of_yday_spec (leap_year y) (n - day_from_year y)) as [Hm Hd]; [lia|].
  split; [by apply valid_civil_spec|].
  rewrite make_day_civil by done. lia.
Qed.

Lemma civil_of_day_inj a b : civil_of_day a = civil_of_day b -> a = b.
Proof.
  intros H. pose proof (make_day_of_civil a) as Ha. pose proof (make_day_of_civil b) as Hb.
  rewrite H in Ha. destruct (civil_of_day b) as [[y m] d]. destruct Ha, Hb. congruence.
Qed.

(** ** Digits and text *)

Lemma digit_char_val c : is_digit c = true -> digit_char (digit_val c) = c.
Proof. destruct c as [[] [] [] [] [] [] [] []]; vm_compute; intros [=]; reflexivity. Qed.

Lemma digit_val_bound c : is_digit c = true -> 0 <= digit_val c <= 9.
Proof.
  unfold is_digit, char_between, digit_val. rewrite andb_true_iff, !Z.leb_le.
  change (code "0") with 48. change (code "9") with 57. lia.
Qed.

Lemma digit_cases z : 0 <= z <= 9 ->
  z = 0 \/ z = 1 \/ z = 2 \/ z = 3 \/ z = 4 \/ z = 5 \/ z = 6 \/ z = 7 \/ z = 8 \/ z = 9.
Proof. lia. Qed.

Ltac digit_cases H :=
  apply digit_cases in H;
  destruct H as [->|[->|[->|[->|[->|[->|[->|[->|[-> | ->]]]]]]]]].

Lemma is_digit_char z : 0 <= z <= 9 -> is_digit (digit_char z) = true.
Proof. intros H. digit_cases H; reflexivity. Qed.

Lemma digit_val_char z : 0 <= z <= 9 -> digit_val (digit_char z) = z.
Proof. intros H. digit_cases H; reflexivity. Qed.

Lemma date_text_parse y m d :
  0 <= y <= 9999 -> 0 <= m <= 99 -> 0 <= d <= 99 ->
  parse_ymd (date_text y m d) = Some (y, m, d).
Proof.
  intros Hy Hm Hd. cbv [date_text pad4 pad2 String.append parse_ymd].
  change (is_char "-" "-") with true.
  rewrite !is_digit_char by div_lia. cbn [andb].
  rewrite !digit_val_char by div_lia. do 2 f_equal; [f_equal|]; div_lia.
Qed.

Lemma parse_ymd_text s y m d :
  parse_ymd s = Some (y, m, d) ->
  s = date_text y m d /\ 0 <= y <= 9999 /\ 0 <= m <= 99 /\ 0 <= d <= 99.
Proof.
  unfold parse_ymd. intros H.
  destruct s as [|y1 [|y2 [|y3 [|y4 [|s1 [|m1 [|m2 [|s2 [|d1 [|d2 [|? ?]]]]]]]]]]];
    try discriminate.
  match type of H with (if ?b then _ else _) = _ => destruct b eqn:E; [|discriminate] end.
  rewrite !andb_true_iff in E. destruct_and!.
  repeat match goal with
  | H : is_char "-" ?c = true |- _ => apply Ascii.eqb_eq in H; subst c
  end.
  repeat match goal with
  | H : is_digit ?c = true |- _ =>
      pose proof (digit_val_bound c H);
      pose proof (digit_char_val c H); clear H
  end.
  injection H as <- <- <-. split; [|lia].
  cbv [date_text pad4 pad2 String.append].
  repeat first [reflexivity | f_equal];
    (etransitivity; [symmetry; eassumption | f_equal; div_lia]).
Qed.

Lemma date_text_inj y m d y' m' d' :
  0 <= y <= 9999 -> 0 <= m <= 99 -> 0 <= d <= 99 ->
  0 <= y' <= 9999 -> 0 <= m' <= 99 -> 0 <= d' <= 99 ->
  date_text y m d = date_text y' m' d' -> (y, m, d) = (y', m', d').
Proof.
  intros ?????? H. apply (f_equal parse_ymd) in H. rewrite !date_text_parse in H by done.
  congruence.
Qed.

Lemma days_before_next (leap : bool) m : 1 <= m <= 11 ->
  days_before_month leap (m + 1) = days_before_month leap m + days_in_month leap m.
Proof. intros Hm. assert (Hm' : 1 <= m <= 12) by lia. revert Hm. month_cases Hm'; destruct leap; intros; done || lia. Qed.

(** [Date.UTC(y, m, 0)] with [m] from 1 is the last day of the month [m]. *)
Lemma last_of_month y m : 1 <= m <= 12 -> make_day y m 0 = make_day y (m - 1) (days_in_month (leap_year y) m).
Proof.
  intros Hm. rewrite make_day_civil by done. destruct (decide (m = 12)) as [->|Hn].
  - unfold make_day. change (12 / 12) with 1. change (12 mod 12) with 0. rewrite day_from_year_succ.
    change (0 + 1) with 1. destruct (leap_year y), (leap_year (y + 1)); cbn [days_before_month days_in_month]; lia.
  - replace (make_day y m 0) with (make_day y (m + 1 - 1) 0) by (f_equal; lia). rewrite make_day_civil by lia.
    rewrite days_before_next by lia. lia.
Qed.

Lemma date_text_month y m d : date_text y m d = (pad4 y +:+ String "-" (pad2 m)) +:+ String "-" (pad2 d).
Proof. unfold date_text. by rewrite string_app_assoc. Qed.

(** ** The readers *)

(** Days whose year has four digits. *)
Definition four_digit_day (n : Z) : Prop :=
  day_from_year 0 <= n < day_from_year 10000.

Lemma valid_civil_small y m d : valid_civil y m d = true -> 1 <= m <= 12 /\ 1 <= d <= 31.
Proof.
  intros [Hm Hd]%valid_civil_spec. split; [done|].
  month_cases Hm; destruct (leap_year y); cbn in Hd; lia.
Qed.

Lemma year_of_day_range n a b :
  day_from_year a <= n < day_from_year b -> a <= year_of_day n < b.
Proof.
  intros H. pose proof (year_of_day_spec n) as Hy. set (y := year_of_day n) in *.
  split.
  - destruct (Z.le_gt_cases a y); [done|].
    pose proof (day_from_year_mono (y + 1) a ltac:(lia)). lia.
  - destruct (Z.lt_ge_cases y b); [done|].
    pose proof (day_from_year_mono b y ltac:(lia)). lia.
Qed.

Lemma iso_date_civil n y m d :
  civil_of_day n = (y, m, d) -> 0 <= y <= 9999 -> iso_date n = date_text y m d.
Proof.
  intros H Hy. unfold iso_date. rewrite H.
  replace ((0 <=? y) && (y <=? 9999)) with true; [done|].
  symmetry. rewrite andb_true_iff, !Z.leb_le. lia.
Qed.

Lemma iso_date_make_day y m d :
  0 <= y <= 9999 -> valid_civil y m d = true ->
  iso_date (make_day y (m - 1) d) = date_text y m d.
Proof. intros Hy Hv. apply iso_date_civil; [by apply civil_of_make_day | done]. Qed.

(** The text of a four digit day, read back. *)
Lemma iso_date_text n : four_digit_day n ->
  exists y m d, civil_of_day n = (y, m, d) /\ valid_civil y m d = true /\
    0 <= y <= 9999 /\ make_day y (m - 1) d = n /\ iso_date n = date_text y m d /\
    parse_ymd (iso_date n) = Some (y, m, d).
Proof.
  intros Hn. pose proof (year_of_day_range n 0 10000 Hn) as Hy.
  pose proof (make_day_of_civil n) as Hc.
  destruct (civil_of_day n) as [[y m] d] eqn:E. destruct Hc as [Hv Hm].
  assert (year_of_day n = y) as <- by (unfold civil_of_day in E; congruence).
  pose proof (valid_civil_small _ _ _ Hv).
  exists (year_of_day n), m, d. rewrite (iso_date_civil n _ _ _ E) by lia.
  rewrite date_text_parse by lia. split_and!; auto; lia.
Qed.

Lemma isoDateEpochDay_spec v n :
  isoDateEpochDay v = Some n <->
  exists y m d, v = VString (date_text y m d) /\ 1 <= y <= 9999 /\
    valid_civil y m d = true /\ n = make_day y (m - 1) d.
Proof.
  unfold isoDateEpochDay. split.
  - intros H. destruct (as_string v) as [s|] eqn:Es; [|discriminate].
    destruct v; try discriminate. injection Es as ->.
    destruct (parse_ymd s) as [[[y m] d]|] eqn:E; [|discriminate].
    apply parse_ymd_text in E as (-> & Hy & Hm & Hd).
    match type of H with (if ?b then _ else _) = _ => destruct b eqn:Eb; [discriminate|] end.
    pose proof (make_day_of_civil (make_day y (m - 1) d)) as Hc.
    destruct (civil_of_day _) as [[y' m'] d'] eqn:Ec. destruct Hc as [Hv _].
    destruct ((y' =? y) && (m' =? m) && (d' =? d)) eqn:Eq; [|discriminate].
    bool_to_prop. subst. injection H as <-.
    exists y, m, d. split_and!; auto; lia.
  - intros (y & m & d & -> & Hy & Hv & ->). pose proof (valid_civil_small _ _ _ Hv).
    cbn [as_string]. rewrite date_text_parse by lia.
    replace (_ || _) with false by (symmetry; rewrite !orb_false_iff, !Z.ltb_ge; lia).
    rewrite civil_of_make_day by done. by rewrite !Z.eqb_refl.
Qed.

Lemma date_utc_make_day y m0 d : 100 <= y -> date_utc y m0 d = make_day y m0 d.
Proof.
  intros Hy. unfold date_utc.
  replace ((0 <=? y) && (y <=? 99)) with false; [done|].
  symmetry. rewrite andb_false_iff, !Z.leb_gt. lia.
Qed.

(** A day number prints in only one way. *)
Lemma iso_date_text_inv n y m d :
  0 <= y <= 9999 -> 0 <= m <= 99 -> 0 <= d <= 99 ->
  iso_date n = date_text y m d -> civil_of_day n = (y, m, d).
Proof.
  intros Hy Hm Hd H. unfold iso_date in H.
  pose proof (make_day_of_civil n) as Hc.
  destruct (civil_of_day n) as [[y' m'] d'] eqn:E. destruct Hc as [Hv _].
  apply valid_civil_small in Hv.
  destruct ((0 <=? y') && (y' <=? 9999)) eqn:Ey.
  - bool_to_prop. by apply date_text_inj in H; [|lia..].
  - exfalso. unfold date_text, pad4, pad2 in H. cbv [String.append] in H.
    destruct (y' <? 0); cbv [String.append pad6 pad4 pad2] in H; injection H as H _.
    + pose proof (is_digit_char (y / 100 / 10) ltac:(div_lia)) as Hd'.
      rewrite <- H in Hd'. discriminate.
    + pose proof (is_digit_char (y / 100 / 10) ltac:(div_lia)) as Hd'.
      rewrite <- H in Hd'. discriminate.
Qed.

Lemma isoDateTimestamp_spec v n :
  isoDateTimestamp v = Some n <->
  exists y m d, v = VString (date_text y m d) /\ 100 <= y <= 9999 /\
    valid_civil y m d = true /\ n = make_day y (m - 1) d.
Proof.
  unfold isoDateTimestamp. split.
  - intros H. destruct (as_string v) as [s|] eqn:Es; [|discriminate].
    destruct v; try discriminate. injection Es as ->.
    destruct (parse_ymd s) as [[[y m] d]|] eqn:E; [|discriminate].
    apply parse_ymd_text in E as (-> & Hy & Hm & Hd).
    destruct (String.eqb _ _) eqn:Eq; [|discriminate]. bool_to_prop. injection H as <-.
    apply iso_date_text_inv in Eq; [|lia..].
    pose proof (make_day_of_civil (date_utc y (m - 1) d)) as Hc. rewrite Eq in Hc.
    destruct Hc as [Hv Hn]. pose proof (valid_civil_small _ _ _ Hv).
    assert (100 <= y).
    { destruct (Z.le_gt_cases 100 y); [done|]. exfalso. unfold date_utc in Hn.
      replace ((0 <=? y) && (y <=? 99)) with true in Hn by lia.
      rewrite !make_day_civil in Hn by lia.
      pose proof (day_from_year_mono (y + 1) (1900 + y - 1) ltac:(lia)) as Hmono.
      pose proof (day_from_year_succ y). pose proof (day_from_year_succ (1900 + y - 1)).
      replace (1900 + y - 1 + 1) with (1900 + y) in * by lia.
      apply valid_civil_spec in Hv as [Hm1 Hd1].
      pose proof (yday_bound _ _ _ Hm1 Hd1).
      destruct (leap_year (1900 + y - 1)), (leap_year y), (leap_year (1900 + y));
        month_cases Hm1; cbn [days_before_month days_in_month] in *; lia. }
    exists y, m, d. split_and!; auto; lia.
  - intros (y & m & d & -> & Hy & Hv & ->). pose proof (valid_civil_small _ _ _ Hv).
    cbn [as_string]. rewrite date_text_parse, date_utc_make_day by lia.
    by rewrite iso_date_make_day, String.eqb_refl by (done || lia).
Qed.

Lemma pricingDate_spec v :
  pricingDate v = true <->
  exists y m d, v = VString (date_text y m d) /\ 0 <= y <= 9999 /\ valid_civil y m d = true.
Proof.
  unfold pricingDate. split.
  - intros H. destruct (as_string v) as [s|] eqn:Es; [|discriminate].
    destruct v; try discriminate. injection Es as ->.
    destruct (parse_ymd s) as [[[y m] d]|] eqn:E; [|discriminate].
    apply parse_ymd_text in E as (-> & Hy & Hm & Hd). bool_to_prop. eauto 10.
  - intros (y & m & d & -> & Hy & Hv). pose proof (valid_civil_small _ _ _ Hv).
    cbn [as_string]. rewrite date_text_parse by lia.
    by rewrite Hv, iso_date_make_day, String.eqb_refl.
Qed.

(** The planner's reader accepts only dates the contract's reader accepts, and
    both give the same day. *)
Lemma timestamp_epoch_day v n : isoDateTimestamp v = Some n -> isoDateEpochDay v = Some n.
Proof.
  rewrite isoDateTimestamp_spec, isoDateEpochDay_spec.
  intros (y & m & d & -> & Hy & Hv & ->). exists y, m, d. split_and!; auto; lia.
Qed.

Lemma epoch_day_pricing_date v n : isoDateEpochDay v = Some n -> pricingDate v = true.
Proof.
  rewrite isoDateEpochDay_spec, pricingDate_spec.
  intros (y & m & d & -> & Hy & Hv & ->). exists y, m, d. split_and!; auto; lia.
Qed.

Lemma epoch_day_parse s n : isoDateEpochDay (VString s) = Some n -> date_parse s = n.
Proof.
  rewrite isoDateEpochDay_spec. intros (y & m & d & [= ->] & Hy & Hv & ->).
  pose proof (valid_civil_small _ _ _ Hv). unfold date_parse.
  by rewrite date_text_parse by lia.
Qed.

(** Printing a read date gives its text back. *)
Lemma epoch_day_print s n :
  isoDateEpochDay (VString s) = Some n -> isoDateFromEpochDay n = s.
Proof.
  rewrite isoDateEpochDay_spec. intros (y & m & d & [= ->] & Hy & Hv & ->).
  apply iso_date_make_day; [lia | done].
Qed.

Lemma timestamp_print s n : isoDateTimestamp (VString s) = Some n -> iso_date n = s.
Proof. intros H. by apply epoch_day_print, timestamp_epoch_day. Qed.

Lemma pricing_date_print s : pricingDate (VString s) = true -> iso_date (date_parse s) = s.
Proof.
  rewrite pricingDate_spec. intros (y & m & d & [= ->] & Hy & Hv).
  pose proof (valid_civil_small _ _ _ Hv). unfold date_parse.
  rewrite date_text_parse by lia. by apply iso_date_make_day.
Qed.

Lemma make_day_year_range y m d :
  valid_civil y m d = true ->
  day_from_year y <= make_day y (m - 1) d < day_from_year (y + 1).
Proof.
  intros Hv. pose proof (valid_civil_small _ _ _ Hv) as [Hm _].
  apply valid_civil_spec in Hv as [_ Hd]. rewrite make_day_civil by done.
  pose proof (yday_bound _ _ _ Hm Hd). rewrite day_from_year_succ. lia.
Qed.

Lemma epoch_day_four_digit v n : isoDateEpochDay v = Some n -> four_digit_day n.
Proof.
  rewrite isoDateEpochDay_spec. intros (y & m & d & _ & Hy & Hv & ->).
  pose proof (make_day_year_range _ _ _ Hv).
  pose proof (day_from_year_mono 0 y ltac:(lia)).
  pose proof (day_from_year_mono (y + 1) 10000 ltac:(lia)). unfold four_digit_day. lia.
Qed.

Lemma pricing_date_four_digit s :
  pricingDate (VString s) = true -> four_digit_day (date_parse s).
Proof.
  rewrite pricingDate_spec. intros (y & m & d & [= ->] & Hy & Hv).
  pose proof (valid_civil_small _ _ _ Hv). unfold date_parse.
  rewrite date_text_parse by lia. pose proof (make_day_year_range _ _ _ Hv).
  pose proof (day_from_year_mono 0 y ltac:(lia)).
  pose proof (day_from_year_mono (y + 1) 10000 ltac:(lia)). unfold four_digit_day. lia.
Qed.

(** Every later day up to the year 9999 reads back. *)
Lemma epoch_day_iso_date n :
  day_from_year 1 <= n < day_from_year 10000 -> isoDateEpochDay (VString (iso_date n)) = Some n.
Proof.
  intros Hn. pose proof (day_from_year_mono 0 1 ltac:(lia)).
  destruct (iso_date_text n) as (y & m & d & E & Hv & Hy & Hm & Ht & _);
    [unfold four_digit_day; lia|].
  pose proof (year_of_day_range n 1 10000 Hn). unfold civil_of_day in E.
  apply isoDateEpochDay_spec. exists y, m, d. rewrite Ht.
  split_and!; auto; try lia. all: injection E as <- _ _; lia.
Qed.

Lemma timestamp_iso_date n :
  day_from_year 100 <= n < day_from_year 10000 -> isoDateTimestamp (VString (iso_date n)) = Some n.
Proof.
  intros Hn. pose proof (day_from_year_mono 0 100 ltac:(lia)).
  destruct (iso_date_text n) as (y & m & d & E & Hv & Hy & Hm & Ht & _);
    [unfold four_digit_day; lia|].
  pose proof (year_of_day_range n 100 10000 Hn). unfold civil_of_day in E.
  apply isoDateTimestamp_spec. exists y, m, d. rewrite Ht.
  split_and!; auto; try lia. all: injection E as <- _ _; lia.
Qed.

Lemma pricing_date_iso_date n : four_digit_day n -> pricingDate (VString (iso_date n)) = true.
Proof.
  intros Hn. destruct (iso_date_text n) as (y & m & d & E & Hv & Hy & Hm & Ht & _); [done|].
  apply pricingDate_spec. exists y, m, d. rewrite Ht. split_and!; auto; lia.
Qed.

Lemma date_parse_iso_date n : four_digit_day n -> date_parse (iso_date n) = n.
Proof.
  intros Hn. destruct (iso_date_text n) as (y & m & d & E & Hv & Hy & Hm & Ht & Hp); [done|].
  unfold date_parse. by rewrite Hp.
Qed.

(** ** Text order is day order

    The source compares date texts with [<] (by code unit). *)

Definition then_compare (c c' : comparison) : comparison :=
  match c with Eq => c' | _ => c end.

Lemma string_compare_cons a b s t :
  String.compare (String a s) (String b t) =
  then_compare (code a ?= code b) (String.compare s t).
Proof.
  cbn [String.compare]. unfold Ascii.compare, code. rewrite N2Z.inj_compare.
  by destruct (N_of_ascii a ?= N_of_ascii b)%N.
Qed.

Lemma code_digit_char z : 0 <= z <= 9 -> code (digit_char z) = 48 + z.
Proof. intros H. digit_cases H; reflexivity. Qed.

Lemma compare_pad2 a b s t :
  0 <= a <= 99 -> 0 <= b <= 99 ->
  String.compare (pad2 a +:+ s) (pad2 b +:+ t) = then_compare (a ?= b) (String.compare s t).
Proof.
  intros Ha Hb. unfold pad2. cbv [String.append]. fold String.append.
  rewrite !string_compare_cons, !code_digit_char by div_lia.
  destruct (Z.compare_spec (48 + a / 10) (48 + b / 10));
  destruct (Z.compare_spec (48 + a mod 10) (48 + b mod 10));
  destruct (Z.compare_spec a b); cbn; try reflexivity; exfalso; div_lia.
Qed.

Lemma compare_pad4 a b s t :
  0 <= a <= 9999 -> 0 <= b <= 9999 ->
  String.compare (pad4 a +:+ s) (pad4 b +:+ t) = then_compare (a ?= b) (String.compare s t).
Proof.
  intros Ha Hb. unfold pad4. rewrite !string_app_assoc.
  rewrite !compare_pad2 by div_lia.
  destruct (Z.compare_spec (a / 100) (b / 100));
  destruct (Z.compare_spec (a mod 100) (b mod 100));
  destruct (Z.compare_spec a b); cbn; try reflexivity; exfalso; div_lia.
Qed.

Lemma compare_date_text y m d y' m' d' :
  0 <= y <= 9999 -> 0 <= m <= 99 -> 0 <= d <= 99 ->
  0 <= y' <= 9999 -> 0 <= m' <= 99 -> 0 <= d' <= 99 ->
  String.compare (date_text y m d) (date_text y' m' d') =
  then_compare (y ?= y') (then_compare (m ?= m') (d ?= d')).
Proof.
  intros. unfold date_text. rewrite compare_pad4 by lia. f_equal.
  change (String "-" (pad2 m) +:+ ?r) with (String "-" (pad2 m +:+ r)).
  change (String "-" (pad2 m') +:+ ?r) with (String "-" (pad2 m' +:+ r)).
  rewrite string_compare_cons, Z.compare_refl. cbn [then_compare].
  rewrite compare_pad2 by lia. f_equal.
  rewrite string_compare_cons, Z.compare_refl. cbn [then_compare].
  pose proof (compare_pad2 d d' EmptyString EmptyString ltac:(lia) ltac:(lia)) as H'.
  unfold pad2 in *. cbv [String.append] in H'. rewrite H'.
  by destruct (d ?= d').
Qed.

Lemma make_day_compare y m d y' m' d' :
  valid_civil y m d = true -> valid_civil y' m' d' = true ->
  (make_day y (m - 1) d ?= make_day y' (m' - 1) d') =
  then_compare (y ?= y') (then_compare (m ?= m') (d ?= d')).
Proof.
  intros Hv Hv'.
  pose proof (make_day_year_range _ _ _ Hv). pose proof (make_day_year_range _ _ _ Hv').
  destruct (Z.compare_spec y y') as [<-|Hlt|Hlt]; cbn [then_compare].
  - apply valid_civil_spec in Hv as [Hm Hd], Hv' as [Hm' Hd'].
    rewrite !make_day_civil by done.
    assert (Hmono : forall leap a b e, 1 <= a <= 12 -> 1 <= b <= 12 -> a < b ->
      e <= days_in_month leap a ->
      days_before_month leap a + e <= days_before_month leap b).
    { intros leap a b e Ha Hb Hab He. month_cases Ha; month_cases Hb; try lia;
        destruct leap; cbn in *; lia. }
    destruct (Z.compare_spec m m') as [<-|Hlt|Hlt]; cbn [then_compare].
    + destruct (Z.compare_spec d d') as [<-|Hlt|Hlt];
        [apply Z.compare_refl | apply Z.compare_lt_iff | apply Z.compare_gt_iff]; lia.
    + apply Z.compare_lt_iff. pose proof (Hmono (leap_year y) m m' d). lia.
    + apply Z.compare_gt_iff. pose proof (Hmono (leap_year y) m' m d'). lia.
  - apply Z.compare_lt_iff. pose proof (day_from_year_mono (y + 1) y' ltac:(lia)). lia.
  - apply Z.compare_gt_iff. pose proof (day_from_year_mono (y' + 1) y ltac:(lia)). lia.
Qed.

(** On date texts, the order of the code units is the order of the days. *)
Lemma date_text_order s t :
  pricingDate (VString s) = true -> pricingDate (VString t) = true ->
  String.compare s t = (date_parse s ?= date_parse t).
Proof.
  rewrite !pricingDate_spec. intros (y & m & d & [= ->] & Hy & Hv) (y' & m' & d' & [= ->] & Hy' & Hv').
  pose proof (valid_civil_small _ _ _ Hv). pose proof (valid_civil_small _ _ _ Hv').
  unfold date_parse. rewrite !date_text_parse by lia.
  rewrite make_day_compare by done. apply compare_date_text; lia.
Qed.

Lemma str_lt_dates s t :
  pricingDate (VString s) = true -> pricingDate (VString t) = true ->
  str_lt s t = (date_parse s <? date_parse t).
Proof.
  intros Hs Ht. unfold str_lt, Z.ltb. by rewrite date_text_order.
Qed.

Lemma str_lt_iso_date a b :
  four_digit_day a -> four_digit_day b -> str_lt (iso_date a) (iso_date b) = (a <? b).
Proof.
  intros Ha Hb. rewrite str_lt_dates by (by apply pricing_date_iso_date).
  by rewrite !date_parse_iso_date.
Qed.

Lemma iso_date_inj a b : four_digit_day a -> four_digit_day b -> iso_date a = iso_date b -> a = b.
Proof.
  intros Ha Hb H. apply (f_equal date_parse) in H. by rewrite !date_parse_iso_date in H.
Qed.

(** ** Instants

    An instant is a time value: milliseconds since the epoch.  [toISOString]
    prints it; a text is accepted by the source's [isoDateTime] and [isoDate]
    guards when it reads as an instant that prints back as the same text. *)

Definition DAY_MS : Z := 86400000.

Definition pad3 (n : Z) : string := String (digit_char (n / 100)) (pad2 (n mod 100)).

(** The date part of [toISOString()] *)
Definition iso_day_text (n : Z) : string :=
  let '(y, m, d) := civil_of_day n in
  if (0 <=? y) && (y <=? 9999) then date_text y m d
  else String (if y <? 0 then "-" else "+") (pad6 (Z.abs y)) +:+
       String "-" (pad2 m) +:+ String "-" (pad2 d).

Definition time_text (t : Z) : string :=
  pad2 (t / 3600000) +:+ String ":" (pad2 (t / 60000 mod 60)) +:+
  String ":" (pad2 (t / 1000 mod 60)) +:+ String "." (pad3 (t mod 1000)) +:+ "Z".

(** [new Date(t).toISOString()] *)
Definition to_iso_string (t : Z) : string :=
  iso_day_text (t / DAY_MS) +:+ String "T" (time_text (t mod DAY_MS)).

Fixpoint split_at (n : nat) (s : string) : option (string * string) :=
  match n, s with
  | O, _ => Some (EmptyString, s)
  | S k, String c r =>
      match split_at k r with Some (p, q) => Some (String c p, q) | None => None end
  | S _, EmptyString => None
  end.

(** [Thh:mm:ss.sssZ], as milliseconds of the day *)
Definition parse_time (s : string) : option Z :=
  match s with
  | String t (String h1 (String h2 (String p1 (String m1 (String m2 (String p2
      (String s1 (String s2 (String p3 (String f1 (String f2 (String f3
      (String z EmptyString))))))))))))) =>
      if is_char "T" t && is_digit h1 && is_digit h2 && is_char ":" p1 && is_digit m1 &&
         is_digit m2 && is_char ":" p2 && is_digit s1 && is_digit s2 && is_char "." p3 &&
         is_digit f1 && is_digit f2 && is_digit f3 && is_char "Z" z
      then
        let h := 10 * digit_val h1 + digit_val h2 in
        let m := 10 * digit_val m1 + digit_val m2 in
        let sec := 10 * digit_val s1 + digit_val s2 in
        let ms := 100 * digit_val f1 + 10 * digit_val f2 + digit_val f3 in
        let t := ((h * 60 + m) * 60 + sec) * 1000 + ms in
        if (m <=? 59) && (sec <=? 59) && (t <=? DAY_MS) then Some t else None
      else None
  | _ => None
  end.

(** [Date.parse] of a text of the form [YYYY-MM-DDThh:mm:ss.sssZ] *)
Definition parse_instant (s : string) : option Z :=
  let? (p, q) := split_at 10 s in
  let? (y, m, d) := parse_ymd p in
  let? t := parse_time q in
  if valid_civil y m d then Some (make_day y (m - 1) d * DAY_MS + t) else None.

(** [Date.parse] of a text with a signed year of six digits *)
Definition parse_instant_ext (s : string) : option Z :=
  match s with
  | String sg (String c1 (String c2 r)) =>
      let? (p, q) := split_at 10 r in
      let? (y, m, d) := parse_ymd p in
      let? t := parse_time q in
      if (is_char "+" sg || is_char "-" sg) && is_digit c1 && is_digit c2 then
        let a := 100000 * digit_val c1 + 10000 * digit_val c2 + y in
        let y' := if is_char "-" sg then - a else a in
        if valid_civil y' m d then
          let n := make_day y' (m - 1) d * DAY_MS + t in
          if Z.abs n <=? 8640000000000000 then Some n else None
        else None
      else None
  | _ => None
  end.

(** [isoDateTime] of inventoryReservationLifecycle.ts *)
Definition isoDateTime (v : jsval) : option string :=
  let? s := as_string v in
  let? t := parse_instant s in
  if String.eqb (to_iso_string t) s then Some s else None.

(** [isoDate] of operatingCalendar.ts: any text that [toISOString] prints *)
Definition isoInstant (v : jsval) : option string :=
  let? s := as_string v in
  match parse_instant s with
  | Some t => if String.eqb (to_iso_string t) s then Some s else None
  | None =>
      let? t := parse_instant_ext s in
      if String.eqb (to_iso_string t) s then Some s else None
  end.

(** [Date.parse] of an accepted text *)
Definition instant_of (s : string) : Z :=
  match parse_instant s with
  | Some t => t
  | None => default 0 (parse_instant_ext s)
  end.

(** Instants of the years 0 to 9999. *)
Definition four_digit_instant (t : Z) : Prop := four_digit_day (t / DAY_MS).

Lemma split_at_app p q : split_at (String.length p) (p +:+ q) = Some (p, q).
Proof.
  induction p as [|c p IH]; [done|]. cbv [String.append] in *. cbn. by rewrite IH.
Qed.

Lemma parse_time_text t : 0 <= t < DAY_MS -> parse_time (String "T" (time_text t)) = Some t.
Proof.
  unfold DAY_MS. intros Ht. cbv [time_text pad3 pad2 String.append parse_time].
  change (is_char "T" "T") with true. change (is_char ":" ":") with true.
  change (is_char "." ".") with true. change (is_char "Z" "Z") with true.
  rewrite !is_digit_char by div_lia. cbn [andb].
  rewrite !digit_val_char by div_lia.
  replace (10 * (t / 60000 mod 60 / 10) + t / 60000 mod 60 mod 10) with (t / 60000 mod 60)
    by div_lia.
  replace (10 * (t / 1000 mod 60 / 10) + t / 1000 mod 60 mod 10) with (t / 1000 mod 60)
    by div_lia.
  replace (10 * (t / 3600000 / 10) + t / 3600000 mod 10) with (t / 3600000) by div_lia.
  replace (100 * (t mod 1000 / 100) + 10 * (t mod 1000 mod 100 / 10) + t mod 1000 mod 100 mod 10)
    with (t mod 1000) by div_lia.
  replace (((t / 3600000 * 60 + t / 60000 mod 60) * 60 + t / 1000 mod 60) * 1000 + t mod 1000)
    with t by div_lia.
  unfold DAY_MS. by replace (_ && _ && _) with true by (symmetry; rewrite !andb_true_iff, !Z.leb_le; div_lia).
Qed.

Lemma to_iso_string_text t : four_digit_instant t ->
  exists y m d, valid_civil y m d = true /\ 0 <= y <= 9999 /\
    t / DAY_MS = make_day y (m - 1) d /\
    to_iso_string t = date_text y m d +:+ String "T" (time_text (t mod DAY_MS)).
Proof.
  intros Ht. destruct (iso_date_text _ Ht) as (y & m & d & E & Hv & Hy & Hm & _ & _).
  exists y, m, d. split_and!; auto; try lia. unfold to_iso_string, iso_day_text. rewrite E.
  by replace ((0 <=? y) && (y <=? 9999)) with true
    by (symmetry; rewrite andb_true_iff, !Z.leb_le; lia).
Qed.

(** Printing an instant and reading it back. *)
Theorem parse_instant_print t :
  four_digit_instant t -> parse_instant (to_iso_string t) = Some t.
Proof.
  intros Ht. destruct (to_iso_string_text t Ht) as (y & m & d & Hv & Hy & Hn & ->).
  pose proof (valid_civil_small _ _ _ Hv).
  unfold parse_instant. change 10%nat with (String.length (date_text y m d)).
  rewrite split_at_app, date_text_parse by lia.
  rewrite parse_time_text by (unfold DAY_MS; apply Z.mod_pos_bound; lia).
  rewrite Hv, <- Hn. f_equal. unfold DAY_MS. div_lia.
Qed.

(** The seconds of a printed instant are nineteen characters. *)
Lemma iso_string_parts t : four_digit_instant t -> exists head k, 0 <= k < 1000 /\ String.length head = 19%nat /\
  to_iso_string t = head +:+ String "." (pad3 k +:+ "Z").
Proof.
  intros Ht. destruct (to_iso_string_text t Ht) as (y & m & d & _ & _ & _ & E). set (k := t mod DAY_MS) in *.
  exists (date_text y m d +:+ String "T" (pad2 (k / 3600000) +:+ String ":" (pad2 (k / 60000 mod 60)) +:+ String ":" (pad2 (k / 1000 mod 60)))), (k mod 1000).
  split; [by apply Z.mod_pos_bound|]. split; [done|]. rewrite E. unfold time_text. by rewrite !string_app_assoc.
Qed.

Lemma isoDateTime_print t :
  four_digit_instant t -> isoDateTime (VString (to_iso_string t)) = Some (to_iso_string t).
Proof.
  intros Ht. unfold isoDateTime. cbn [as_string].
  by rewrite parse_instant_print, String.eqb_refl.
Qed.

Lemma instant_of_print t : four_digit_instant t -> instant_of (to_iso_string t) = t.
Proof. intros Ht. unfold instant_of. by rewrite parse_instant_print. Qed.

Lemma isoDateTime_Some v s :
  isoDateTime v = Some s -> v = VString s /\ isoDateTime (VString s) = Some s.
Proof.
  unfold isoDateTime. intros H. destruct (as_string v) as [r|] eqn:E; [|discriminate].
  destruct v; try discriminate. injection E as ->. cbn [as_string].
  destruct (parse_instant r) eqn:Ep; [|discriminate].
  destruct (String.eqb _ r) eqn:Eq; [|discriminate]. injection H as <-.
  by rewrite Ep, Eq.
Qed.

Lemma isoInstant_Some v s :
  isoInstant v = Some s -> v = VString s /\ isoInstant (VString s) = Some s.
Proof.
  unfold isoInstant. intros H. destruct (as_string v) as [r|] eqn:E; [|discriminate].
  destruct v; try discriminate. injection E as ->. cbn [as_string].
  destruct (parse_instant r) eqn:Ep.
  - destruct (String.eqb _ r) eqn:Eq; [|discriminate]. injection H as <-. by rewrite Ep, Eq.
  - destruct (parse_instant_ext r) eqn:Ex; [|discriminate].
    destruct (String.eqb _ r) eqn:Eq; [|discriminate]. injection H as <-. by rewrite Ep, Ex, Eq.
Qed.

(** ** Runs of dates *)

Definition timestamp_day (n : Z) : Prop := day_from_year 100 <= n < day_from_year 10000.

Lemma timestamp_range v n : isoDateTimestamp v = Some n -> timestamp_day n.
Proof.
  rewrite isoDateTimestamp_spec. intros (y & m & d & _ & Hy & Hv & ->).
  pose proof (make_day_year_range _ _ _ Hv). unfold timestamp_day.
  pose proof (day_from_year_mono 100 y ltac:(lia)).
  pose proof (day_from_year_mono (y + 1) 10000 ltac:(lia)). lia.
Qed.

Lemma timestamp_four_digit n : timestamp_day n -> four_digit_day n.
Proof.
  unfold timestamp_day, four_digit_day. pose proof (day_from_year_mono 0 100 ltac:(lia)). lia.
Qed.

(** [Array.from({ length: n }, (_, k) => new Date(from + k * DAY_MS)...)] *)
Definition dates_from (from n : Z) : list string := iso_date <$> seqZ from n.

Lemma elem_of_dates_from from n s :
  s ∈ dates_from from n <-> exists k, s = iso_date k /\ from <= k < from + n.
Proof.
  unfold dates_from. rewrite list_elem_of_fmap. setoid_rewrite elem_of_seqZ. done.
Qed.

Lemma dates_from_length from n : 0 <= n -> Z.of_nat (length (dates_from from n)) = n.
Proof. intros. unfold dates_from. rewrite length_fmap, length_seqZ. lia. Qed.

(** The dates of a run are in strict text order. *)
Lemma dates_from_sorted from (n : nat) :
  (forall k, from <= k < from + Z.of_nat n -> four_digit_day k) ->
  sorted_by str_lt (dates_from from (Z.of_nat n)) = true.
Proof.
  revert from. induction n as [|n IH]; intros from H; [done|].
  unfold dates_from in *. rewrite seqZ_cons by lia.
  replace (Z.pred (Z.of_nat (S n))) with (Z.of_nat n) by lia.
  cbn [fmap list_fmap]. specialize (IH (Z.succ from)). destruct n as [|n]; [done|].
  rewrite seqZ_cons in IH |- * by lia. cbn [fmap list_fmap sorted_by] in *.
  rewrite andb_true_iff. split; [|apply IH; intros; apply H; lia].
  rewrite str_lt_iso_date by (apply H; lia). apply Z.ltb_lt. lia.
Qed.
