(* ===== verification/Money.v ===== *)
(** * Amounts of money

    Prices travel as decimal texts of minor units and are computed as [BigInt]s:
    the guards of packages/domain-pms/src/replacementPricing.ts on amounts,
    [BigInt] and its text, and [BigInt] division, which truncates. *)

From S2P Require Import Prelude JsValue.

(** [/^(0|[1-9][0-9]{0,17})$/] *)
Definition minor_text (s : string) : bool :=
  String.eqb s "0" || (positive_decimal s && (str_length s <=? 18)).

Definition isMinorAmount (value : jsval) : bool :=
  match value with
  | VString s => String.eqb (trim s) s && minor_text s
  | _ => false
  end.

Definition isPositiveMinor (value : jsval) : bool := isMinorAmount value && negb (is_str value "0").

(** [BigInt(text)] of a text the guards accept, or of one with a minus sign *)
Definition digits_value (s : string) : Z := Z.of_N (default 0%N (string_to_N s)).

Definition BigInt (s : string) : Z :=
  match s with
  | String c r => if is_char "-" c then - digits_value r else digits_value s
  | EmptyString => 0
  end.

(** [n.toString()] is [Z_to_string n]; [a / b] and [a % b] on [BigInt]s are
    [Z.quot a b] and [Z.rem a b]. *)
Definition sumZ (l : list Z) : Z := fold_left Z.add l 0.

(** ** Text and value *)

Lemma positive_text_value s : positive_decimal s = true ->
  0 < BigInt s /\ Z_to_string (BigInt s) = s.
Proof.
  intros H. pose proof H as H'. apply positive_decimal_parse in H' as (n & Hn & Hp & Hs).
  assert (E : BigInt s = Z.of_N n).
  { unfold BigInt, digits_value. rewrite Hp. destruct s as [|c r]; [discriminate H|].
    unfold positive_decimal in H. apply andb_true_iff in H as [H _].
    unfold starts_nonzero, char_between, is_char in *. destruct (Ascii.eqb_spec "-" c) as [<-|]; [done | done]. }
  rewrite E. split; [lia|]. by rewrite Z_to_string_pos, N2Z.id by lia.
Qed.

Lemma print_value n : 0 <= n -> BigInt (Z_to_string n) = n.
Proof.
  intros Hn. rewrite Z_to_string_pos by done. destruct (decide (n = 0)) as [->|]; [done|].
  pose proof (positive_decimal_print (Z.to_N n) ltac:(lia)) as Hp.
  destruct (positive_text_value _ Hp) as [_ E].
  rewrite Z_to_string_pos in E by (pose proof (positive_text_value _ Hp); lia).
  apply N_to_string_inj in E. pose proof (positive_text_value _ Hp) as [Hpos _]. lia.
Qed.

Lemma positive_minor_value s : isPositiveMinor (VString s) = true ->
  0 < BigInt s /\ Z_to_string (BigInt s) = s.
Proof.
  unfold isPositiveMinor, isMinorAmount, minor_text. rewrite !andb_true_iff, orb_true_iff, negb_true_iff.
  intros [[_ [Hz|Hp]] Hn].
  - apply String.eqb_eq in Hz as ->. unfold is_str in Hn. discriminate Hn.
  - apply andb_true_iff in Hp as [Hp _]. by apply positive_text_value.
Qed.

Lemma sumZ_nil : sumZ [] = 0.
Proof. done. Qed.

Lemma sumZ_cons x l : sumZ (x :: l) = x + sumZ l.
Proof.
  unfold sumZ. cbn. assert (Hgen : forall l a, fold_left Z.add l a = a + fold_left Z.add l 0); [|apply Hgen].
  clear. induction l as [|y l IH]; intros a; cbn; [lia|]. rewrite IH, (IH (0 + y)). lia.
Qed.

Lemma sumZ_perm l k : l ≡ₚ k -> sumZ l = sumZ k.
Proof. induction 1; rewrite ?sumZ_cons in *; lia. Qed.

Lemma sumZ_app l k : sumZ (l ++ k) = sumZ l + sumZ k.
Proof. induction l as [|x l IH]; [done|]. rewrite <- app_comm_cons, !sumZ_cons, IH. lia. Qed.

Lemma sumZ_replicate n x : sumZ (replicate n x) = x * Z.of_nat n.
Proof. induction n as [|n IH]; cbn [replicate]; [rewrite sumZ_nil; lia|]. rewrite sumZ_cons, IH. lia. Qed.

Lemma sumZ_nonneg l : Forall (fun x => 0 <= x) l -> 0 <= sumZ l.
Proof. induction 1; [done|]. rewrite sumZ_cons. lia. Qed.

Lemma sumZ_pos l : Forall (fun x => 0 < x) l -> l <> [] -> 0 < sumZ l.
Proof.
  intros H. destruct H as [|x l Hx H]; [done|]. intros _. rewrite sumZ_cons.
  assert (0 <= sumZ l); [|lia]. apply sumZ_nonneg. eapply Forall_impl; [exact H|]. cbn. lia.
Qed.

#[global] Arguments sumZ : simpl never.
#[global] Arguments BigInt : simpl never.
#[global] Arguments isMinorAmount : simpl never.
#[global] Arguments isPositiveMinor : simpl never.
