(* ===== verification/CancellationTerms.v ===== *)
(** * Flexible cancellation terms

    [parseFlexibleCancellationTerms] of packages/domain-pms/src/pricing.ts: the
    terms of a flexible rate, read from an untrusted value. *)

From S2P Require Import Prelude JsValue.

Record Tier := { minDaysBeforeCheckIn : Z; refundPercent : Z }.

Inductive FlexibleCancellationType := free | partial_refund.

#[export] Instance FlexibleCancellationType_eq_dec : EqDecision FlexibleCancellationType.
Proof. solve_decision. Defined.

(** The literal fields ["type"], ["afterDeadlinePenalty"] and ["noShowPenalty"]
    have one value each and are left out. *)
Record FlexibleCancellationTerms := {
  freeCancellationDeadlineDays : Z;
  termsText : option string;
  flexibleCancellationType : option FlexibleCancellationType;
  partialRefundCancelWindowDays : option Z;
  partialRefundAmountPercent : option Z;
  partialRefundTiers : option (list Tier)
}.

Definition isIntegerInRange (v : jsval) (minimum maximum : Z) : option Z := as_integer v minimum maximum.

Definition isExactRecord (v : jsval) (keys : list string) : bool :=
  is_object v &&
  bool_decide (stable_sort str_le (keys_of v) = stable_sort str_le keys).

(** A field that may be absent: [value[k] !== undefined && !check(...)] fails. *)
Definition optional {A} (f : jsval -> option A) (v : jsval) : option (option A) :=
  if is_undefined v then Some None else option_map Some (f v).

Definition parse_type (v : jsval) : option FlexibleCancellationType :=
  if is_str v "free" then Some free
  else if is_str v "partial_refund" then Some partial_refund else None.

Definition nonblank_text (v : jsval) : option string :=
  let? s := as_string v in
  if String.eqb (trim s) "" then None else Some s.

(** The [map] over the raw tiers, with the days seen so far *)
Fixpoint parse_tiers (seenDays : list Z) (raw : list jsval) : option (list Tier) :=
  match raw with
  | [] => Some []
  | tier :: rest =>
      guard? isExactRecord tier ["minDaysBeforeCheckIn"; "refundPercent"] in
      let? days := isIntegerInRange (get tier "minDaysBeforeCheckIn") 0 365 in
      let? percent := isIntegerInRange (get tier "refundPercent") 0 100 in
      guard? negb (existsb (Z.eqb days) seenDays) in
      let? tiers := parse_tiers (days :: seenDays) rest in
      Some ({| minDaysBeforeCheckIn := days; refundPercent := percent |} :: tiers)
  end.

Definition parse_raw_tiers (v : jsval) : option (list Tier) :=
  let? raw := as_array v in
  guard? Nat.leb (length raw) 10 in
  parse_tiers [] raw.

Definition required_keys : list string :=
  ["type"; "freeCancellationDeadlineDays"; "afterDeadlinePenalty"; "noShowPenalty"].

Definition extension_keys : list string :=
  ["text"; "flexibleCancellationType"; "partialRefundCancelWindowDays";
   "partialRefundAmountPercent"; "partialRefundTiers"].

Definition parseFlexibleCancellationTerms (value : jsval) : option FlexibleCancellationTerms :=
  guard? is_object value && forallb (has_own value) required_keys &&
         forallb (fun k => existsb (String.eqb k) (required_keys ++ extension_keys)) (keys_of value) &&
         is_str (get value "type") "free_until_days_before_arrival" in
  let? days := isIntegerInRange (get value "freeCancellationDeadlineDays") 0 365 in
  guard? is_str (get value "afterDeadlinePenalty") "full_booking_amount" &&
         is_str (get value "noShowPenalty") "full_booking_amount" in
  let? cancellationType := optional parse_type (get value "flexibleCancellationType") in
  let? text := optional nonblank_text (get value "text") in
  let? windowDays := optional (fun v => isIntegerInRange v 1 365) (get value "partialRefundCancelWindowDays") in
  let? amountPercent := optional (fun v => isIntegerInRange v 1 99) (get value "partialRefundAmountPercent") in
  let? rawTiers := optional parse_raw_tiers (get value "partialRefundTiers") in
  guard? negb (bool_decide (cancellationType = Some partial_refund) &&
               Nat.eqb (length (default [] rawTiers)) 0) in
  Some {| freeCancellationDeadlineDays := days; termsText := text;
          flexibleCancellationType := cancellationType;
          partialRefundCancelWindowDays := windowDays; partialRefundAmountPercent := amountPercent;
          partialRefundTiers := rawTiers |}.

(** ** What the parser guarantees *)

Record tier_ok (t : Tier) : Prop := {
  tier_days : 0 <= minDaysBeforeCheckIn t <= 365;
  tier_percent : 0 <= refundPercent t <= 100
}.

Record terms_ok (t : FlexibleCancellationTerms) : Prop := {
  terms_deadline : 0 <= freeCancellationDeadlineDays t <= 365;
  terms_tiers : Forall tier_ok (default [] (partialRefundTiers t));
  terms_days : NoDup (minDaysBeforeCheckIn <$> default [] (partialRefundTiers t));
  terms_partial : flexibleCancellationType t = Some partial_refund ->
    default [] (partialRefundTiers t) <> []
}.

Lemma parse_tiers_ok raw : forall seenDays tiers, parse_tiers seenDays raw = Some tiers ->
  Forall tier_ok tiers /\ NoDup (minDaysBeforeCheckIn <$> tiers) /\
  forall d, d ∈ (minDaysBeforeCheckIn <$> tiers) -> existsb (Z.eqb d) seenDays = false.
Proof.
  induction raw as [|v raw IH]; intros seenDays tiers; cbn [parse_tiers].
  - intros [= <-]. split; [constructor|]. split; [constructor|]. intros d Hd. by apply elem_of_nil in Hd.
  - destruct (isExactRecord _ _); [|done].
    destruct (isIntegerInRange _ _ _) as [days|] eqn:E1; [|done].
    destruct (isIntegerInRange (get v "refundPercent") _ _) as [percent|] eqn:E2; [|done].
    destruct (existsb (Z.eqb days) seenDays) eqn:E3; cbn [negb]; [done|].
    destruct (parse_tiers (days :: seenDays) raw) as [rest|] eqn:E4; [|done]. intros [= <-].
    apply as_integer_Some in E1 as (_ & _ & H1). apply as_integer_Some in E2 as (_ & _ & H2).
    destruct (IH _ _ E4) as (Hok & Hnd & Hfresh). cbn. split; [|split].
    + apply Forall_cons. split; [split; cbn; lia | done].
    + apply NoDup_cons. split; [|done]. intros Hin. specialize (Hfresh _ Hin). cbn in Hfresh.
      by rewrite Z.eqb_refl in Hfresh.
    + intros d [->|Hd]%elem_of_cons; [done|]. specialize (Hfresh _ Hd). cbn in Hfresh.
      apply orb_false_iff in Hfresh as [_ Hfresh]. done.
Qed.

Lemma parse_terms_ok v t : parseFlexibleCancellationTerms v = Some t -> terms_ok t.
Proof.
  unfold parseFlexibleCancellationTerms. intros H. follow H.
  match goal with E : isIntegerInRange _ 0 365 = Some _ |- _ => apply as_integer_Some in E as (_ & _ & E) end.
  assert (Htiers : Forall tier_ok (default [] o3) /\ NoDup (minDaysBeforeCheckIn <$> default [] o3)).
  { match goal with E : optional parse_raw_tiers _ = Some o3 |- _ => unfold optional in E; rename E into Et end.
    destruct (is_undefined _); [injection Et as <-; split; constructor|].
    destruct (parse_raw_tiers _) as [tiers|] eqn:E'; [|done]. injection Et as <-.
    unfold parse_raw_tiers in E'. follow E'. by apply parse_tiers_ok in E' as (? & ? & _). }
  destruct Htiers. split; cbn; [lia|done|done|]. intros Hp Hn.
  match goal with E : negb _ = true |- _ => rewrite Hn in E; cbn in E; apply negb_true_iff in E;
    rewrite andb_true_r in E; by apply bool_decide_eq_false in E end.
Qed.
