(* ===== verification/BookedCancellation.v ===== *)
(** * What a booked stay refunds

    packages/domain-booking/src/bookedCancellationOutcome.ts: the refund of a
    booking cancelled on a given day, from the terms frozen at acceptance.  The
    accepted total is shared across the rooms in proportion to their lines
    (largest remainder), and each room's share is refunded by its own rule. *)

From S2P Require Import Prelude JsValue CalendarDates Money CancellationTerms.

(** ** Sharing a total *)

(** [.map((subtotal, index) => ({ index, remainder }))], sorted: the largest
    remainder first, ties by position *)
Definition remainder_le (a b : nat * Z) : bool :=
  if snd a =? snd b then Nat.leb (fst a) (fst b) else snd b <? snd a.

Definition remainder_order (total sum : Z) (subtotals : list Z) : list nat :=
  fst <$> stable_sort remainder_le
    (zip (seq 0 (length subtotals)) ((fun subtotal => Z.rem (total * subtotal) sum) <$> subtotals)).

(** The loop that hands out the [left] units: [shares[index] += 1n; left -= 1n] *)
Fixpoint hand_out (order : list nat) (shares : list Z) (left : Z) : list Z :=
  match order with
  | [] => shares
  | index :: rest =>
      if left =? 0 then shares else hand_out rest (alter (fun s => s + 1) index shares) (left - 1)
  end.

(** The largest remainder method both modules write out *)
Definition largest_remainder (total sum : Z) (subtotals : list Z) : list Z :=
  let shares := (fun subtotal => Z.quot (total * subtotal) sum) <$> subtotals in
  hand_out (remainder_order total sum subtotals) shares (total - sumZ shares).

(** ** The outcome *)

(** One booked room; [cancellation] is stored data, read again here. *)
Record BookedCancellationRoom := {
  selectionId : string;
  roomTypeId : option string;
  cancellation : jsval;
  subtotalMinor : string
}.

Inductive RoomRule := non_refundable | free_until_deadline | partial_refund_rule.

Record RuleOutcome := {
  rule : RoomRule;
  rulePercent : Z;
  matchedTierMinDays : option Z
}.

Record BookedCancellationRoomOutcome := {
  outcomeSelectionId : string;
  outcomeRoomTypeId : option string;
  outcomeRule : RuleOutcome;
  baseMinor : string;
  roomRefundMinor : string;
  roomRetainedMinor : string
}.

Record BookedCancellationOutcome := {
  daysBeforeCheckIn : Z;
  outcomeTotalMinor : string;
  refundMinor : string;
  retainedMinor : string;
  outcomeRooms : list BookedCancellationRoomOutcome
}.

(** The tier with the most notice the guest still meets *)
Definition matched_tier (tiers : list Tier) (days : Z) : option Tier :=
  head (stable_sort (fun a b => minDaysBeforeCheckIn b - minDaysBeforeCheckIn a <=? 0)
          (filter (fun t => minDaysBeforeCheckIn t <= days) tiers)).

Definition terms_rule (terms : FlexibleCancellationTerms) (days : Z) : RuleOutcome :=
  if bool_decide (flexibleCancellationType terms <> Some partial_refund)
  then {| rule := free_until_deadline;
          rulePercent := if freeCancellationDeadlineDays terms <=? days then 100 else 0;
          matchedTierMinDays := None |}
  else
    let tier := matched_tier (default [] (partialRefundTiers terms)) days in
    {| rule := partial_refund_rule; rulePercent := default 0 (refundPercent <$> tier);
       matchedTierMinDays := minDaysBeforeCheckIn <$> tier |}.

Definition roomRule (cancellation : jsval) (days : Z) : option RuleOutcome :=
  if is_str (get cancellation "kind") "non_refundable"
  then Some {| rule := non_refundable; rulePercent := 0; matchedTierMinDays := None |}
  else
    let? terms :=
      if is_str (get cancellation "kind") "flexible"
      then parseFlexibleCancellationTerms (get cancellation "terms") else None in
    Some (terms_rule terms days).

(** [(base * BigInt(percent) + 50n) / 100n]: half-up *)
Definition refund_of (base percent : Z) : Z := Z.quot (base * percent + 50) 100.

Definition room_outcome (room : BookedCancellationRoom) (rule : RuleOutcome) (base : Z)
    : BookedCancellationRoomOutcome :=
  let refund := refund_of base (rulePercent rule) in
  {| outcomeSelectionId := selectionId room; outcomeRoomTypeId := roomTypeId room;
     outcomeRule := rule; baseMinor := Z_to_string base;
     roomRefundMinor := Z_to_string refund; roomRetainedMinor := Z_to_string (base - refund) |}.

Fixpoint room_outcomes (rooms : list BookedCancellationRoom) (rules : list RuleOutcome)
    (bases : list Z) : list BookedCancellationRoomOutcome :=
  match rooms, rules, bases with
  | room :: rooms, rule :: rules, base :: bases =>
      room_outcome room rule base :: room_outcomes rooms rules bases
  | _, _, _ => []
  end.

Definition trusted_input (checkIn cancelledOn totalMinor : string)
    (rooms : list BookedCancellationRoom) : bool :=
  pricingDate (VString checkIn) && pricingDate (VString cancelledOn) &&
  isPositiveMinor (VString totalMinor) &&
  negb (Nat.eqb (length rooms) 0) &&
  all_distinct String.eqb (selectionId <$> rooms) &&
  forallb (fun room => negb (String.eqb (selectionId room) "") &&
                       isPositiveMinor (VString (subtotalMinor room))) rooms.

Definition resolveBookedCancellationOutcome (checkIn cancelledOn totalMinor : string)
    (rooms : list BookedCancellationRoom) : option BookedCancellationOutcome :=
  guard? trusted_input checkIn cancelledOn totalMinor rooms in
  let days := date_parse checkIn - date_parse cancelledOn in
  let? rules := traverse (fun room => roomRule (cancellation room) days) rooms in
  let total := BigInt totalMinor in
  let subtotals := (fun room => BigInt (subtotalMinor room)) <$> rooms in
  let bases := largest_remainder total (sumZ subtotals) subtotals in
  let outcomes := room_outcomes rooms rules bases in
  let refund := sumZ ((fun room => BigInt (roomRefundMinor room)) <$> outcomes) in
  Some {| daysBeforeCheckIn := days; outcomeTotalMinor := Z_to_string total;
          refundMinor := Z_to_string refund; retainedMinor := Z_to_string (total - refund);
          outcomeRooms := outcomes |}.

(** ** The shares add up *)

Section Shares.
Variables (total : Z) (subtotals : list Z).
Hypothesis total_nonneg : 0 <= total.
Hypothesis subtotals_nonneg : Forall (fun s => 0 <= s) subtotals.
Hypothesis sum_positive : 0 < sumZ subtotals.

Definition floors : list Z := (fun s => Z.quot (total * s) (sumZ subtotals)) <$> subtotals.
Definition remainders : list Z := (fun s => Z.rem (total * s) (sumZ subtotals)) <$> subtotals.

Lemma floors_remainders l d : 0 < d ->
  sumZ ((fun s => Z.quot (total * s) d) <$> l) * d + sumZ ((fun s => Z.rem (total * s) d) <$> l) =
  total * sumZ l.
Proof.
  clear. intros Hd. induction l as [|s l IH]; cbn [fmap list_fmap]; [rewrite !sumZ_nil; lia|].
  rewrite !sumZ_cons. pose proof (Z.quot_rem' (total * s) d). nia.
Qed.

Lemma remainders_bound : sumZ remainders < Z.of_nat (length subtotals) * sumZ subtotals /\ 0 <= sumZ remainders.
Proof using total_nonneg subtotals_nonneg sum_positive.
  unfold remainders. set (d := sumZ subtotals) in *.
  assert (Hne : subtotals <> []) by (intros E; unfold d in sum_positive; rewrite E, sumZ_nil in sum_positive; lia).
  assert (Hgen : forall l, Forall (fun s => 0 <= s) l -> l <> [] ->
            sumZ ((fun s => Z.rem (total * s) d) <$> l) < Z.of_nat (length l) * d).
  { induction 1 as [|s l Hs Hl IH]; intros Hn; [done|]. cbn [fmap list_fmap length]. rewrite sumZ_cons.
    pose proof (Z.rem_bound_pos (total * s) d (Z.mul_nonneg_nonneg _ _ total_nonneg Hs) sum_positive).
    destruct (decide (l = [])) as [->|Hln]; [cbn; rewrite sumZ_nil; lia|]. specialize (IH Hln). unfold fmap in *. lia. }
  split; [by apply Hgen|]. apply sumZ_nonneg, Forall_fmap. eapply Forall_impl; [exact subtotals_nonneg|].
  intros s Hs. apply Z.rem_bound_pos; [by apply Z.mul_nonneg_nonneg | done].
Qed.

Lemma left_bound : 0 <= total - sumZ floors < Z.of_nat (length subtotals).
Proof using total_nonneg subtotals_nonneg sum_positive.
  pose proof (floors_remainders subtotals (sumZ subtotals) sum_positive) as E.
  fold floors remainders in E. pose proof remainders_bound. nia.
Qed.

Lemma alter_sum l i : (i < length l)%nat -> sumZ (alter (fun s => s + 1) i l) = sumZ l + 1.
Proof.
  clear. revert i. induction l as [|x l IH]; intros i Hi; cbn in Hi; [lia|].
  destruct i as [|i]; cbn; rewrite !sumZ_cons; [lia|]. rewrite IH by lia. lia.
Qed.

(** Each share gains at most one unit. *)
Lemma hand_out_spec order : forall shares left, NoDup order ->
  Forall (fun i => (i < length shares)%nat) order -> 0 <= left <= Z.of_nat (length order) ->
  sumZ (hand_out order shares left) = sumZ shares + left /\
  forall i x, shares !! i = Some x ->
    exists y, hand_out order shares left !! i = Some y /\ x <= y <= x + 1 /\ (i ∉ order -> y = x).
Proof.
  clear. induction order as [|j order IH]; intros shares left Hnd Hb Hl; cbn [hand_out].
  - cbn in Hl. split; [lia|]. intros i x Hi. exists x. split; [done|]. split; [lia|done].
  - apply NoDup_cons in Hnd as [Hj Hnd]. apply Forall_cons in Hb as [Hjb Hb]. cbn [length] in Hl.
    destruct (Z.eqb_spec left 0) as [->|Hne].
    { split; [lia|]. intros i x Hi. exists x. split; [done|]. split; [lia|done]. }
    destruct (IH (alter (fun s => s + 1) j shares) (left - 1) Hnd) as [Hsum Hall].
    + eapply Forall_impl; [exact Hb|]. intros i. by rewrite length_alter.
    + lia.
    + rewrite alter_sum in Hsum by done. split; [lia|]. intros i x Hi.
      destruct (decide (i = j)) as [->|Hij].
      * destruct (Hall j (x + 1)) as (y & Hy & Hr & Hn); [by rewrite list_lookup_alter_eq, Hi|].
        exists y. split; [done|]. specialize (Hn Hj). split; [lia|]. intros Hnj. exfalso. apply Hnj. by left.
      * destruct (Hall i x) as (y & Hy & Hr & Hn); [by rewrite list_lookup_alter_ne by congruence|].
        exists y. split; [done|]. split; [lia|]. intros Hni. apply Hn. intros Hin. apply Hni. by right.
Qed.

Lemma order_perm : remainder_order total (sumZ subtotals) subtotals ≡ₚ seq 0 (length subtotals).
Proof.
  clear. unfold remainder_order. rewrite stable_sort_perm, fst_zip; [done|].
  by rewrite length_seq, length_fmap.
Qed.

(** The shares add up to the total, and each is its exact share rounded down or
    up. *)
Lemma largest_remainder_spec :
  sumZ (largest_remainder total (sumZ subtotals) subtotals) = total /\
  forall i s, subtotals !! i = Some s ->
    exists y, largest_remainder total (sumZ subtotals) subtotals !! i = Some y /\
      Z.quot (total * s) (sumZ subtotals) <= y <= Z.quot (total * s) (sumZ subtotals) + 1.
Proof using total_nonneg subtotals_nonneg sum_positive.
  unfold largest_remainder. fold floors. pose proof left_bound as Hl.
  destruct (hand_out_spec (remainder_order total (sumZ subtotals) subtotals) floors (total - sumZ floors))
    as [Hsum Hall].
  - rewrite order_perm. apply NoDup_seq.
  - rewrite order_perm. apply Forall_forall. intros i Hi%elem_of_seq. unfold floors. rewrite length_fmap. lia.
  - rewrite order_perm, length_seq. lia.
  - split; [lia|]. intros i s Hi.
    destruct (Hall i (Z.quot (total * s) (sumZ subtotals))) as (y & Hy & Hr & _).
    + unfold floors. by rewrite list_lookup_fmap, Hi.
    + exists y. split; [done | lia].
Qed.
End Shares.

(** * Refunds add up

    What [resolveBookedCancellationOutcome] guarantees of the amounts it returns. *)

(** ** One room *)

Lemma refund_of_spec base percent : 0 <= base -> 0 <= percent <= 100 ->
  0 <= refund_of base percent <= base /\
  100 * refund_of base percent <= base * percent + 50 < 100 * refund_of base percent + 100.
Proof.
  intros Hb Hp. unfold refund_of. pose proof (Z.quot_rem' (base * percent + 50) 100) as E.
  pose proof (Z.rem_bound_pos (base * percent + 50) 100 ltac:(nia) ltac:(lia)). nia.
Qed.

Lemma refund_of_all base : 0 <= base -> refund_of base 100 = base.
Proof. intros Hb. pose proof (refund_of_spec base 100 Hb ltac:(lia)). lia. Qed.

Lemma refund_of_nothing base : 0 <= base -> refund_of base 0 = 0.
Proof. intros Hb. unfold refund_of. by rewrite Z.mul_0_r. Qed.

Lemma terms_rule_percent t days : terms_ok t -> 0 <= rulePercent (terms_rule t days) <= 100.
Proof.
  intros [_ Ht _ _]. unfold terms_rule. destruct (bool_decide _); cbn; [destruct (_ <=? _); lia|].
  unfold matched_tier. destruct (head _) as [tier|] eqn:E; cbn; [|lia].
  apply head_Some_elem_of in E. rewrite elem_of_stable_sort in E.
  apply list_elem_of_filter in E as [_ E]. rewrite Forall_forall in Ht. by apply tier_percent, Ht.
Qed.

Lemma room_rule_percent v days r : roomRule v days = Some r -> 0 <= rulePercent r <= 100.
Proof.
  unfold roomRule. destruct (is_str _ _); [intros [= <-]; cbn; lia|]. destruct (is_str _ _); [|done].
  destruct (parseFlexibleCancellationTerms _) as [t|] eqn:E; [|done]. intros [= <-].
  by apply terms_rule_percent, (parse_terms_ok _ _ E).
Qed.

(** ** All rooms *)

Lemma rules_percent rooms days rules :
  traverse (fun room => roomRule (cancellation room) days) rooms = Some rules ->
  Forall (fun r => 0 <= rulePercent r <= 100) rules.
Proof. apply traverse_Forall. intros x r. apply room_rule_percent. Qed.

(** An outcome's numbers *)
Definition base_of (o : BookedCancellationRoomOutcome) : Z := BigInt (baseMinor o).
Definition refunded (o : BookedCancellationRoomOutcome) : Z := BigInt (roomRefundMinor o).
Definition retained (o : BookedCancellationRoomOutcome) : Z := BigInt (roomRetainedMinor o).
Definition percent_of (o : BookedCancellationRoomOutcome) : Z := rulePercent (outcomeRule o).

(** The refund of one room: a part of its share, rounded half up *)
Record room_refund_ok (o : BookedCancellationRoomOutcome) : Prop := {
  rr_base : 0 <= base_of o;
  rr_refund : 0 <= refunded o <= base_of o;
  rr_retained : refunded o + retained o = base_of o;
  rr_rounding : 100 * refunded o <= base_of o * percent_of o + 50 < 100 * refunded o + 100
}.

Lemma room_outcome_numbers room r base : 0 <= base -> 0 <= rulePercent r <= 100 ->
  base_of (room_outcome room r base) = base /\
  refunded (room_outcome room r base) = refund_of base (rulePercent r) /\
  room_refund_ok (room_outcome room r base).
Proof.
  intros Hb Hp. pose proof (refund_of_spec base (rulePercent r) Hb Hp) as [Hr Hround].
  assert (E1 : base_of (room_outcome room r base) = base) by (by apply print_value).
  assert (E2 : refunded (room_outcome room r base) = refund_of base (rulePercent r)) by (apply print_value; lia).
  assert (E3 : retained (room_outcome room r base) = base - refund_of base (rulePercent r)) by (apply print_value; lia).
  split; [done|]. split; [done|]. split; rewrite ?E1, ?E2, ?E3; unfold percent_of; cbn; lia.
Qed.

Lemma room_outcomes_ok rooms : forall rules bases, length rules = length rooms -> length bases = length rooms ->
  Forall (fun r => 0 <= rulePercent r <= 100) rules -> Forall (fun b => 0 <= b) bases ->
  base_of <$> room_outcomes rooms rules bases = bases /\
  refunded <$> room_outcomes rooms rules bases =
    zip_with (fun r base => refund_of base (rulePercent r)) rules bases /\
  Forall room_refund_ok (room_outcomes rooms rules bases).
Proof.
  induction rooms as [|room rooms IH]; intros [|r rules] [|base bases] Hr Hb Hp Hn; try (cbn in Hr, Hb; lia); cbn.
  - split_and!; [done | done | constructor].
  - apply Forall_cons in Hp as [Hp1 Hp]. apply Forall_cons in Hn as [Hn1 Hn].
    destruct (room_outcome_numbers room r base Hn1 Hp1) as (-> & -> & Hok).
    destruct (IH rules bases) as (E1 & E2 & Hall); [cbn in *; lia | cbn in *; lia | done | done |].
    unfold fmap in *. rewrite E1, E2. split_and!; [done | done | by apply Forall_cons].
Qed.

Lemma hand_out_length order : forall shares left, length (hand_out order shares left) = length shares.
Proof.
  induction order as [|i order IH]; intros shares left; cbn; [done|].
  destruct (_ =? _); [done|]. by rewrite IH, length_alter.
Qed.

Lemma largest_remainder_length total sum l : length (largest_remainder total sum l) = length l.
Proof. unfold largest_remainder. by rewrite hand_out_length, length_fmap. Qed.

Lemma shares_nonneg total l : 0 <= total -> Forall (fun s => 0 <= s) l -> 0 < sumZ l ->
  Forall (fun b => 0 <= b) (largest_remainder total (sumZ l) l).
Proof.
  intros Ht Hl Hs. apply Forall_lookup. intros i y Hy.
  destruct (lookup_lt_is_Some_2 l i) as [s Es].
  { apply lookup_lt_Some in Hy. by rewrite largest_remainder_length in Hy. }
  destruct (largest_remainder_spec total l Ht Hl Hs) as [_ Hq].
  destruct (Hq i s Es) as (y' & Hy' & Hr). simplify_eq.
  rewrite Forall_lookup in Hl. specialize (Hl i s Es).
  pose proof (Z.quot_pos (total * s) (sumZ l) ltac:(nia) ltac:(lia)). lia.
Qed.

Lemma sumZ_zip_le (rules : list RuleOutcome) : forall bases,
  Forall (fun r => 0 <= rulePercent r <= 100) rules -> Forall (fun b => 0 <= b) bases ->
  length rules = length bases ->
  0 <= sumZ (zip_with (fun r base => refund_of base (rulePercent r)) rules bases) <= sumZ bases.
Proof.
  induction rules as [|r rules IH]; intros [|b bases] Hp Hb Hl; try (cbn in Hl; lia); cbn [zip_with];
    [rewrite sumZ_nil; lia|].
  apply Forall_cons in Hp as [Hp1 Hp]. apply Forall_cons in Hb as [Hb1 Hb].
  rewrite !sumZ_cons. pose proof (refund_of_spec b (rulePercent r) Hb1 Hp1).
  specialize (IH bases Hp Hb ltac:(cbn in *; lia)). lia.
Qed.

(** What a resolved outcome is made of *)
Record resolved (checkIn cancelledOn totalMinor : string) (rooms : list BookedCancellationRoom)
    (out : BookedCancellationOutcome) (rules : list RuleOutcome) (bases : list Z) : Prop := {
  rs_rules : traverse (fun room => roomRule (cancellation room) (date_parse checkIn - date_parse cancelledOn))
               rooms = Some rules;
  rs_bases : bases = largest_remainder (BigInt totalMinor)
               (sumZ ((fun room => BigInt (subtotalMinor room)) <$> rooms))
               ((fun room => BigInt (subtotalMinor room)) <$> rooms);
  rs_rooms : outcomeRooms out = room_outcomes rooms rules bases;
  rs_lengths : length rules = length rooms /\ length bases = length rooms;
  rs_percents : Forall (fun r => 0 <= rulePercent r <= 100) rules;
  rs_total_pos : 0 < BigInt totalMinor;
  rs_subtotals : Forall (fun room => 0 < BigInt (subtotalMinor room)) rooms;
  rs_sum : 0 < sumZ ((fun room => BigInt (subtotalMinor room)) <$> rooms);
  rs_nonneg : Forall (fun b => 0 <= b) bases;
  rs_base_sum : sumZ bases = BigInt totalMinor;
  rs_total : BigInt (outcomeTotalMinor out) = BigInt totalMinor;
  rs_refund : BigInt (refundMinor out) =
    sumZ (zip_with (fun r base => refund_of base (rulePercent r)) rules bases);
  rs_retained : BigInt (retainedMinor out) = BigInt totalMinor - BigInt (refundMinor out);
  rs_dates : pricingDate (VString checkIn) = true /\ pricingDate (VString cancelledOn) = true
}.

Lemma resolve_inv checkIn cancelledOn totalMinor rooms out :
  resolveBookedCancellationOutcome checkIn cancelledOn totalMinor rooms = Some out ->
  exists rules bases, resolved checkIn cancelledOn totalMinor rooms out rules bases.
Proof.
  unfold resolveBookedCancellationOutcome. destruct (trusted_input _ _ _ _) eqn:Et; [|done].
  destruct (traverse _ rooms) as [rules|] eqn:Er; [|done]. intros [= <-].
  set (subs := (fun room => BigInt (subtotalMinor room)) <$> rooms).
  set (bases := largest_remainder (BigInt totalMinor) (sumZ subs) subs). exists rules, bases.
  unfold trusted_input in Et. rewrite !andb_true_iff in Et.
  destruct Et as [[[[[Hci Hca] Htot] Hne] _] Hrooms].
  apply positive_minor_value in Htot as [Htot _]. rewrite forallb_forall in Hrooms.
  assert (Hpos : Forall (fun room => 0 < BigInt (subtotalMinor room)) rooms).
  { apply Forall_forall. intros room Hr%list_elem_of_In. specialize (Hrooms room Hr).
    apply andb_true_iff in Hrooms as [_ Hm]. apply positive_minor_value in Hm as [Hm _]. done. }
  assert (Hsubs : Forall (fun s => 0 < s) subs) by (by apply Forall_fmap).
  assert (Hsum : 0 < sumZ subs).
  { apply sumZ_pos; [done|]. unfold subs. by destruct rooms. }
  assert (Hsubs' : Forall (fun s => 0 <= s) subs) by (eapply Forall_impl; [exact Hsubs | cbn; lia]).
  pose proof (rules_percent _ _ _ Er) as Hp. pose proof (traverse_length _ _ _ Er) as Hlr.
  assert (Hlb : length bases = length rooms) by (unfold bases, subs; by rewrite largest_remainder_length, length_fmap).
  assert (Hnn : Forall (fun b => 0 <= b) bases) by (apply shares_nonneg; [lia | done | done]).
  assert (Hbsum : sumZ bases = BigInt totalMinor) by (apply largest_remainder_spec; [lia | done | done]).
  destruct (room_outcomes_ok rooms rules bases Hlr Hlb Hp Hnn) as (_ & Eref & _).
  pose proof (sumZ_zip_le rules bases Hp Hnn ltac:(lia)) as Hle.
  fold (refunded <$> room_outcomes rooms rules bases) in *.
  change ((fun room => BigInt (roomRefundMinor room)) <$> room_outcomes rooms rules bases)
    with (refunded <$> room_outcomes rooms rules bases). rewrite Eref.
  split; cbn; try done; rewrite ?print_value by lia; lia.
Qed.

(** C8: a cancellation refund adds up.  The rooms' shares add up to the accepted
    total and the rooms' refunds to the refund; refund and retained amount make
    the total, and each room is refunded its rule's percentage of its share,
    rounded half up, so never more than the share. *)
Theorem refund_adds_up checkIn cancelledOn totalMinor rooms out :
  resolveBookedCancellationOutcome checkIn cancelledOn totalMinor rooms = Some out ->
  length (outcomeRooms out) = length rooms /\
  sumZ (base_of <$> outcomeRooms out) = BigInt totalMinor /\
  sumZ (refunded <$> outcomeRooms out) = BigInt (refundMinor out) /\
  BigInt (refundMinor out) + BigInt (retainedMinor out) = BigInt totalMinor /\
  0 <= BigInt (refundMinor out) <= BigInt totalMinor /\
  Forall room_refund_ok (outcomeRooms out).
Proof.
  intros (rules & bases & [])%resolve_inv. destruct rs_lengths0 as [Hlr Hlb].
  destruct (room_outcomes_ok rooms rules bases Hlr Hlb rs_percents0 rs_nonneg0) as (E1 & E2 & Hok).
  pose proof (sumZ_zip_le rules bases rs_percents0 rs_nonneg0 ltac:(lia)).
  rewrite rs_rooms0, E1, E2. split_and!; try done; try lia.
  by rewrite <- (length_fmap base_of), E1.
Qed.

(** Rooms share the total fairly.  Every room's share of the accepted total
    is its exact proportional share rounded down or up to a minor unit. *)
Theorem rooms_share_fairly checkIn cancelledOn totalMinor rooms out :
  resolveBookedCancellationOutcome checkIn cancelledOn totalMinor rooms = Some out ->
  let sum := sumZ ((fun room => BigInt (subtotalMinor room)) <$> rooms) in
  forall i room o, rooms !! i = Some room -> outcomeRooms out !! i = Some o ->
    BigInt totalMinor * BigInt (subtotalMinor room) - sum < base_of o * sum <=
    BigInt totalMinor * BigInt (subtotalMinor room) + sum.
Proof.
  intros (rules & bases & [])%resolve_inv sum i room o Hi Ho. destruct rs_lengths0 as [Hlr Hlb].
  destruct (room_outcomes_ok rooms rules bases Hlr Hlb rs_percents0 rs_nonneg0) as (E1 & _ & _).
  assert (Hb : bases !! i = Some (base_of o)).
  { rewrite <- E1, <- rs_rooms0, list_lookup_fmap. by rewrite Ho. }
  rewrite rs_bases0 in Hb.
  destruct (largest_remainder_spec (BigInt totalMinor) ((fun room => BigInt (subtotalMinor room)) <$> rooms))
    as [_ Hq]; [lia | | done |].
  { apply Forall_fmap. eapply Forall_impl; [exact rs_subtotals0 | cbn; lia]. }
  destruct (Hq i (BigInt (subtotalMinor room))) as (y & Hy & Hr); [by rewrite list_lookup_fmap, Hi|].
  fold sum in Hy, Hr, rs_sum0, Hb. simplify_eq.
  pose proof (Z.quot_rem' (BigInt totalMinor * BigInt (subtotalMinor room)) sum).
  rewrite Forall_lookup in rs_subtotals0. specialize (rs_subtotals0 i room Hi).
  pose proof (Z.rem_bound_pos (BigInt totalMinor * BigInt (subtotalMinor room)) sum ltac:(nia) rs_sum0). nia.
Qed.
