(* ===== verification/CancellationPolicy.v ===== *)
(** * The cancellation policy a guest reads

    packages/domain-booking/src/cancellationPolicy.ts: a rate's terms worded for
    a stay, row by row, and grouped into one block per distinct policy. *)

From S2P Require Import Prelude JsValue CalendarDates Money CancellationTerms BookedCancellation.

(** ** Data *)

Inductive Cancellation :=
| non_refundable_rate
| flexible_rate (terms : FlexibleCancellationTerms).

Record TermsStay := { checkIn : string; today : string; bookedOn : option string }.

Inductive PolicyWhen :=
| untilEnd (date : string)
| until_day (date : string)
| between (from until : string)
| from_day (date : string)
| fromNow
| fromBooking
| beforeAccept
| afterAccept
| beforeTransfer
| noTransfer
| paidUntilEnd (date : string)
| afterTransfer
| noShow_row.

Inductive PolicyPay :=
| pay_free
| freeNothingCharged
| freeHoldReleased
| freeNothingPaid
| releasedNothingCharged
| fullRefund
| part (percent : Z) (amountMinor : string)
| full (amountMinor : string).

Record PolicyRow := { when : PolicyWhen; pay : PolicyPay; now : bool; ended : bool }.

Inductive PolicyBadge :=
| badge_freeUntil (date : string)
| badge_refundsUntil (date : string)
| badge_freeEnded
| badge_nonRefundable
| badge_noRefund
| badge_notRefundableOnceAccepted
| badge_notRefundableOncePaid.

Inductive PolicyNote :=
| lateBooking (date : string) (days : Z)
| paidLateBooking (date : string) (days : Z)
| note_freeUntil (date : string)
| note_freeEnded (date : string)
| note_partial (date : string)
| note_partialEnded (date : string)
| paidFreeUntil (date : string)
| paidFreeEnded (date : string)
| paidPartialEnded (date : string)
| note_nonRefundable.

Inductive Tone := tone_ok | tone_amber.

Record Policy := {
  badge : PolicyBadge;
  tone : Tone;
  rows : list PolicyRow;
  note : PolicyNote;
  policyRequest : bool;
  policyBankTransfer : bool
}.

Record PolicyBlock := {
  key : string;
  blockRooms : list string;
  policy : Policy;
  blockToday : string
}.

Record PolicyMode := { request : bool; card : bool; bankTransfer : bool }.

(** [string | readonly bigint[]] *)
Inductive Amount := price_text (text : string) | share_list (shares : list Z).

(** ** Dates *)

(** [setUTCDate] moves by whole days; [toISOString().slice(0, 10)] prints. *)
Definition freeCancellationUntil (checkIn : string) (days : Z) : string :=
  iso_date (date_parse checkIn - days).

Definition dayAfter (date : string) : string := freeCancellationUntil date (-1).

(** ** Refund steps *)

Record RefundStep := {
  stepTier : Tier;
  percent : Z;
  from : option string;
  until : string;
  passed : bool
}.

Fixpoint number_steps (previous : option string) (tiers : list Tier) (stay : TermsStay) : list RefundStep :=
  match tiers with
  | [] => []
  | tier :: rest =>
      let until := freeCancellationUntil (checkIn stay) (minDaysBeforeCheckIn tier) in
      {| stepTier := tier; percent := refundPercent tier; from := dayAfter <$> previous;
         until := until; passed := str_lt until (today stay) |}
        :: number_steps (Some until) rest stay
  end.

Definition refundSteps (tiers : list Tier) (stay : TermsStay) : list RefundStep :=
  number_steps None
    (stable_sort (fun a b => minDaysBeforeCheckIn b - minDaysBeforeCheckIn a <=? 0) tiers) stay.

(** [steps.slice(0, steps.map((s) => s.percent > 0).lastIndexOf(true) + 1)] *)
Fixpoint through_last_refund (steps : list RefundStep) : list RefundStep :=
  match steps with
  | [] => []
  | s :: rest =>
      match through_last_refund rest with
      | [] => if 0 <? percent s then [s] else []
      | kept => s :: kept
      end
  end.

(** ** The policy of one rate *)

Definition bases_of (amount : Amount) : list Z :=
  match amount with price_text t => [BigInt t] | share_list l => l end.

Definition kept (bases : list Z) (percent : Z) : string :=
  Z_to_string (sumZ ((fun base => base - Z.quot (base * percent + 50) 100) <$> bases)).

Definition step_row (bases : list Z) (full : PolicyPay) (stay : TermsStay) (step : RefundStep) : PolicyRow :=
  {| when := match from step with
             | Some f => between f (until step)
             | None => untilEnd (until step)
             end;
     pay := if percent step =? 100 then pay_free
            else if percent step =? 0 then full
            else part (100 - percent step) (kept bases (percent step));
     now := negb (passed step) &&
            match from step with Some f => str_le f (today stay) | None => true end;
     ended := passed step |}.

(** Rows, badge, note and whether a refund is still open today *)
Record Wording := { w_rows : list PolicyRow; w_badge : PolicyBadge; w_note : PolicyNote; w_refundable : bool }.

Definition non_refundable_wording (full : PolicyPay) : Wording :=
  {| w_rows := [{| when := fromBooking; pay := full; now := true; ended := false |}];
     w_badge := badge_nonRefundable; w_note := note_nonRefundable; w_refundable := false |}.

Definition steps_wording (bases : list Z) (full : PolicyPay) (stay : TermsStay)
    (relevant : list RefundStep) (last : string) : Wording :=
  let over := str_lt last (today stay) in
  let open := List.filter (fun s => negb (passed s) && (0 <? percent s)) relevant in
  {| w_rows := (step_row bases full stay <$> relevant) ++
       [{| when := from_day (dayAfter last); pay := full; now := over; ended := false |}];
     w_badge :=
       match open with
       | [] => badge_noRefund
       | [s] => if percent s =? 100 then badge_freeUntil (until s) else badge_refundsUntil (until s)
       | s :: rest => badge_refundsUntil (until (List.last rest s))
       end;
     w_note := if over then note_partialEnded last else note_partial last;
     w_refundable := negb (Nat.eqb (length open) 0) |}.

Definition free_wording (full : PolicyPay) (stay : TermsStay) (deadline : Z) : Wording :=
  let until := freeCancellationUntil (checkIn stay) deadline in
  let refundable := str_le (today stay) until in
  let late := match bookedOn stay with Some b => str_lt until b | None => false end in
  {| w_rows :=
       if refundable
       then [{| when := untilEnd until; pay := pay_free; now := true; ended := false |};
             {| when := from_day (dayAfter until); pay := full; now := false; ended := false |}]
       else [{| when := until_day until; pay := pay_free; now := false; ended := true |};
             {| when := fromNow; pay := full; now := true; ended := false |}];
     w_badge := if refundable then badge_freeUntil until
                else if late then badge_nonRefundable else badge_freeEnded;
     w_note := if late then lateBooking until deadline
               else if refundable then note_freeUntil until else note_freeEnded until;
     w_refundable := refundable |}.

Definition wording (cancellation : Cancellation) (stay : TermsStay) (bases : list Z) (full : PolicyPay) : Wording :=
  match cancellation with
  | non_refundable_rate => non_refundable_wording full
  | flexible_rate terms =>
      if decide (flexibleCancellationType terms = Some partial_refund) then
        let relevant := through_last_refund (refundSteps (default [] (partialRefundTiers terms)) stay) in
        match relevant with
        | [] => non_refundable_wording full
        | s :: rest => steps_wording bases full stay relevant (until (List.last rest s))
        end
      else free_wording full stay (freeCancellationDeadlineDays terms)
  end.

Definition is_open_start (w : PolicyWhen) : bool :=
  match w with fromNow | fromBooking => true | _ => false end.

(** The hotel has yet to accept: withdrawing is free until then. *)
Definition request_rows (card : bool) (rows : list PolicyRow) : list PolicyRow :=
  {| when := beforeAccept; pay := if card then freeHoldReleased else freeNothingCharged;
     now := true; ended := false |} ::
  ((fun row => {| when := if is_open_start (when row) then afterAccept else when row;
                  pay := pay row; now := false; ended := ended row |}) <$> rows).

(** The transfer has yet to arrive: nothing is paid until then. *)
Definition transfer_when (w : PolicyWhen) : PolicyWhen :=
  match w with
  | untilEnd date => paidUntilEnd date
  | fromNow | fromBooking => afterTransfer
  | _ => w
  end.

Definition transfer_rows (rows : list PolicyRow) : list PolicyRow :=
  {| when := beforeTransfer; pay := freeNothingPaid; now := true; ended := false |} ::
  {| when := noTransfer; pay := releasedNothingCharged; now := false; ended := false |} ::
  ((fun row => {| when := transfer_when (when row);
                  pay := match pay row with pay_free => fullRefund | p => p end;
                  now := false; ended := ended row |}) <$> rows).

Definition transfer_note (n : PolicyNote) : PolicyNote :=
  match n with
  | note_freeUntil date => paidFreeUntil date
  | note_freeEnded date => paidFreeEnded date
  | note_partialEnded date => paidPartialEnded date
  | lateBooking date days => paidLateBooking date days
  | _ => n
  end.

Definition badge_tone (b : PolicyBadge) : Tone :=
  match b with badge_freeUntil _ | badge_refundsUntil _ => tone_ok | _ => tone_amber end.

Definition cancellationPolicy (cancellation : Cancellation) (stay : TermsStay) (amount : Amount)
    (mode : PolicyMode) : Policy :=
  let bases := bases_of amount in
  let full := full (Z_to_string (sumZ bases)) in
  let noShow := {| when := noShow_row; pay := full; now := false; ended := false |} in
  let w := wording cancellation stay bases full in
  let rows1 := if request mode then request_rows (card mode) (w_rows w) else w_rows w in
  let badge1 :=
    if request mode && negb (w_refundable w) then badge_notRefundableOnceAccepted else w_badge w in
  let transfer := negb (request mode) && bankTransfer mode in
  let badge2 := if transfer && negb (w_refundable w) then badge_notRefundableOncePaid else badge1 in
  {| badge := badge2; tone := badge_tone badge2;
     rows := (if transfer then transfer_rows rows1 else rows1) ++ [noShow];
     note := if transfer then transfer_note (w_note w) else w_note w;
     policyRequest := request mode; policyBankTransfer := transfer |}.

(** ** Sharing the price *)

Definition shareTotal (total : Z) (subtotals : list Z) : list Z :=
  let sum := sumZ subtotals in
  if sum <=? 0
  then imap (fun index _ => if Nat.eqb index 0 then total else 0) subtotals
  else largest_remainder total sum subtotals.

Inductive LineKind := line_room | line_meal | line_addon | line_charge | line_discount.

Record QuoteLine := { lineKind : LineKind; lineSelectionId : option string; amountMinor : string }.

Record QuoteRoom := { roomSelectionId : string; roomCancellation : Cancellation }.

(** The fields of a [PublicBookingQuote] this module reads *)
Record PublicBookingQuote := {
  quoteCheckIn : string;
  quoteTotalMinor : string;
  quoteLines : list QuoteLine;
  quoteRooms : list QuoteRoom;
  acceptanceRequest : bool;
  paymentMethod : string
}.

Definition line_value (line : QuoteLine) : Z :=
  match lineKind line with
  | line_discount => - BigInt (amountMinor line)
  | _ => BigInt (amountMinor line)
  end.

Definition roomShares (quote : PublicBookingQuote) : list Z :=
  shareTotal (BigInt (quoteTotalMinor quote))
    ((fun room =>
        sumZ (line_value <$> filter (fun line => lineSelectionId line = Some (roomSelectionId room))
                               (quoteLines quote)))
     <$> quoteRooms quote).

(** ** Blocks *)

Definition tier_pair (tier : Tier) : jsval :=
  arr [VInt (minDaysBeforeCheckIn tier); VInt (refundPercent tier)].

Definition policyKey (cancellation : Cancellation) : string :=
  match cancellation with
  | non_refundable_rate => "non_refundable"
  | flexible_rate terms =>
      if decide (flexibleCancellationType terms <> Some partial_refund)
      then "free:" +:+ Z_to_string (freeCancellationDeadlineDays terms)
      else
        let tiers := stable_sort (fun a b => minDaysBeforeCheckIn b - minDaysBeforeCheckIn a <=? 0)
                       (default [] (partialRefundTiers terms)) in
        "partial:" +:+ default "" (json_stringify (arr (tier_pair <$> tiers)))
  end.

Record ShareRoom := { shareName : string; shareCancellation : Cancellation; share : Z }.

Record Group := { groupRooms : list string; groupShares : list Z; groupCancellation : Cancellation }.

Definition add_to_group (room : ShareRoom) (g : Group) : Group :=
  {| groupRooms := if existsb (String.eqb (shareName room)) (groupRooms g) then groupRooms g
                   else groupRooms g ++ [shareName room];
     groupShares := groupShares g ++ [share room];
     groupCancellation := groupCancellation g |}.

Definition new_group (room : ShareRoom) : Group :=
  {| groupRooms := []; groupShares := []; groupCancellation := shareCancellation room |}.

(** The insertion-ordered [Map] of groups: [get(key) ?? new], then [set(key)] *)
Fixpoint group_room (id : string) (room : ShareRoom) (groups : list (string * Group))
    : list (string * Group) :=
  match groups with
  | [] => [(id, add_to_group room (new_group room))]
  | (k, g) :: rest =>
      if String.eqb k id then (k, add_to_group room g) :: rest else (k, g) :: group_room id room rest
  end.

Definition group_rooms (rooms : list ShareRoom) : list (string * Group) :=
  fold_left (fun groups room => group_room (policyKey (shareCancellation room)) room groups) rooms [].

Definition groupBlocks (rooms : list ShareRoom) (stay : TermsStay) (mode : PolicyMode) : list PolicyBlock :=
  (fun '(k, g) =>
     {| key := k; blockRooms := groupRooms g; blockToday := today stay;
        policy := cancellationPolicy (groupCancellation g) stay (share_list (groupShares g)) mode |})
    <$> group_rooms rooms.

Definition isManualPricingPaymentMethod (method : string) : bool :=
  existsb (String.eqb method) ["bank_transfer"; "paypal"].

(** [roomNames] is a record of names by selection id. *)
Definition policyBlocks (quote : PublicBookingQuote) (today_ : string) (roomNames : gmap string string)
    : list PolicyBlock :=
  groupBlocks
    (zip_with (fun room share =>
       {| shareName := default "" (roomNames !! roomSelectionId room);
          shareCancellation := roomCancellation room; share := share |})
       (quoteRooms quote) (roomShares quote))
    {| checkIn := quoteCheckIn quote; today := today_; bookedOn := Some today_ |}
    {| request := acceptanceRequest quote && negb (isManualPricingPaymentMethod (paymentMethod quote));
       card := String.eqb (paymentMethod quote) "card";
       bankTransfer := String.eqb (paymentMethod quote) "bank_transfer" |}.

Record BookedStayRoom := {
  roomName : option string;
  stayCancellation : Cancellation;
  staySubtotalMinor : string
}.

Record BookedStayCancellation := {
  stayCheckIn : string;
  stayBookedOn : option string;
  stayTotalMinor : string;
  stayRooms : list BookedStayRoom
}.

Definition bookedPolicyBlocks (stay : BookedStayCancellation) (today_ : string) (mode : PolicyMode)
    : list PolicyBlock :=
  let shares := shareTotal (BigInt (stayTotalMinor stay))
                  ((fun room => BigInt (staySubtotalMinor room)) <$> stayRooms stay) in
  groupBlocks
    (zip_with (fun room share =>
       {| shareName := default "" (roomName room); shareCancellation := stayCancellation room;
          share := share |}) (stayRooms stay) shares)
    {| checkIn := stayCheckIn stay; today := today_; bookedOn := stayBookedOn stay |} mode.

(** ** The confirmation line *)

Record CancellationLinePart := {
  partKey : string;
  partDate : option string;
  partDays : option Z;
  partAmountMinor : option string;
  partRooms : option (list string)
}.

Record CancellationLine := { lineTone : Tone; lead : CancellationLinePart; rest : list CancellationLinePart }.

Definition key_part (k : string) : CancellationLinePart :=
  {| partKey := k; partDate := None; partDays := None; partAmountMinor := None; partRooms := None |}.

Definition badge_kind (b : PolicyBadge) : string :=
  match b with
  | badge_freeUntil _ => "freeUntil"
  | badge_refundsUntil _ => "refundsUntil"
  | badge_freeEnded => "freeEnded"
  | badge_nonRefundable => "nonRefundable"
  | badge_noRefund => "noRefund"
  | badge_notRefundableOnceAccepted => "notRefundableOnceAccepted"
  | badge_notRefundableOncePaid => "notRefundableOncePaid"
  end.

Definition badge_date (b : PolicyBadge) : option string :=
  match b with badge_freeUntil d | badge_refundsUntil d => Some d | _ => None end.

Definition note_date (n : PolicyNote) : option string :=
  match n with
  | lateBooking d _ | paidLateBooking d _ | note_freeUntil d | note_freeEnded d | note_partial d
  | note_partialEnded d | paidFreeUntil d | paidFreeEnded d | paidPartialEnded d => Some d
  | note_nonRefundable => None
  end.

(** The first full amount among the rows *)
Definition full_amount (block : PolicyBlock) : option string :=
  head (omap (fun row => match pay row with full a => Some a | _ => None end) (rows (policy block))).

Definition waiting (p : Policy) : option string :=
  if policyRequest p then Some "Accept" else if policyBankTransfer p then Some "Transfer" else None.

Definition waiting_rest (w : string) (blocks : list PolicyBlock) (b : PolicyBadge) : CancellationLinePart :=
  if Nat.ltb 1 (length blocks) then key_part ("after" +:+ w +:+ ".rooms")
  else match badge_date b with
       | Some d => {| partKey := "after" +:+ w +:+ "." +:+ badge_kind b; partDate := Some d;
                      partDays := None; partAmountMinor := None; partRooms := None |}
       | None => key_part ("after" +:+ w +:+ ".none")
       end.

Definition is_ok (t : Tone) : bool := match t with tone_ok => true | tone_amber => false end.

Definition with_amount (k : string) (amount : option string) : CancellationLinePart :=
  {| partKey := k; partDate := None; partDays := None; partAmountMinor := amount; partRooms := None |}.

Definition dated_part (k : string) (date : option string) : CancellationLinePart :=
  {| partKey := k; partDate := date; partDays := None; partAmountMinor := None; partRooms := None |}.

Definition single_line (t : Tone) (p : Policy) (amount : option string) : CancellationLine :=
  let k := badge_kind (badge p) in
  match badge p with
  | badge_freeUntil d | badge_refundsUntil d =>
      {| lineTone := t; lead := dated_part k (Some d); rest := [with_amount (k +:+ "After") amount] |}
  | badge_freeEnded | badge_noRefund =>
      {| lineTone := t; lead := dated_part k (note_date (note p)); rest := [with_amount "payFull" amount] |}
  | _ =>
      {| lineTone := t;
         lead := match note p with
                 | lateBooking _ days =>
                     {| partKey := "lateBooking"; partDate := None; partDays := Some days;
                        partAmountMinor := None; partRooms := None |}
                 | _ => key_part "nonRefundable"
                 end;
         rest := [with_amount "payFull" amount] |}
  end.

Definition cancellationLine (blocks : list PolicyBlock) : option CancellationLine :=
  let? first := head blocks in
  match waiting (policy first) with
  | Some w =>
      Some {| lineTone := tone_ok; lead := key_part ("before" +:+ w);
              rest := [waiting_rest w blocks (badge (policy first))] |}
  | None =>
      let t := if forallb (fun b => is_ok (tone (policy b))) blocks then tone_ok else tone_amber in
      if Nat.ltb 1 (length blocks) then
        Some {| lineTone := t; lead := key_part "rooms";
                rest := (fun b => {| partKey := "room." +:+ badge_kind (badge (policy b));
                                     partDate := badge_date (badge (policy b)); partDays := None;
                                     partAmountMinor := None; partRooms := Some (blockRooms b) |}) <$> blocks |}
      else Some (single_line t (policy first) (full_amount first))
  end.
