(* ===== verification/PolicyGuarantees.v ===== *)
(** * The policy page agrees with the refund

    The rows a guest reads in [cancellationPolicy] and the refund
    [resolveBookedCancellationOutcome] computes are two programs for the same
    terms.  On any day exactly one row of a policy applies, and what it asks is
    what the server would retain. *)

From S2P Require Import Prelude JsValue JsonText CalendarDates Money CancellationTerms BookedCancellation CancellationPolicy.

(** ** Tiers in order *)

Definition more_notice (a b : Tier) : bool := minDaysBeforeCheckIn b - minDaysBeforeCheckIn a <=? 0.

Definition tiers_desc (tiers : list Tier) : list Tier := stable_sort more_notice tiers.

Lemma tiers_desc_sorted tiers : NoDup (minDaysBeforeCheckIn <$> tiers) ->
  StronglySorted (fun a b => minDaysBeforeCheckIn b < minDaysBeforeCheckIn a) (tiers_desc tiers).
Proof.
  intros Hnd. unfold tiers_desc. set (s := stable_sort more_notice tiers).
  assert (Hs : StronglySorted (le_rel more_notice) s).
  { apply Sorted_StronglySorted; [unfold le_rel, more_notice; intros x y z; lia|].
    apply stable_sort_sorted. unfold more_notice. intros; lia. }
  assert (Hnd' : NoDup (minDaysBeforeCheckIn <$> s)) by (unfold s; by rewrite stable_sort_perm).
  clearbody s. induction Hs as [|x l Hs IH HF]; [constructor|].
  cbn in Hnd'. apply NoDup_cons in Hnd' as [Hx Hnd']. constructor; [by apply IH|].
  apply Forall_forall. intros y Hy. rewrite Forall_forall in HF. specialize (HF y Hy).
  unfold le_rel, more_notice in HF.
  assert (minDaysBeforeCheckIn y <> minDaysBeforeCheckIn x); [|lia].
  intros E. apply Hx. rewrite <- E. by apply list_elem_of_fmap_2.
Qed.

(** The first tier met, in the order of the page *)
Definition first_met (days : Z) (tiers : list Tier) : option Tier :=
  head (filter (fun t => minDaysBeforeCheckIn t <= days) tiers).

Lemma matched_tier_first tiers days : matched_tier tiers days = first_met days (tiers_desc tiers).
Proof.
  unfold matched_tier, first_met, tiers_desc. fold more_notice.
  rewrite stable_sort_filter; [done | unfold more_notice; intros; lia..].
Qed.

Lemma first_met_cons days t ts : first_met days (t :: ts) =
  if decide (minDaysBeforeCheckIn t <= days) then Some t else first_met days ts.
Proof. unfold first_met. rewrite filter_cons. by case_decide. Qed.

(** The tiers up to the last one that refunds something *)
Fixpoint trim_tiers (tiers : list Tier) : list Tier :=
  match tiers with
  | [] => []
  | t :: rest =>
      match trim_tiers rest with
      | [] => if 0 <? refundPercent t then [t] else []
      | kept => t :: kept
      end
  end.

Lemma trim_steps prev ts stay :
  through_last_refund (number_steps prev ts stay) = number_steps prev (trim_tiers ts) stay.
Proof.
  revert prev. induction ts as [|t ts IH]; intros prev; cbn; [done|]. rewrite IH.
  destruct (trim_tiers ts) as [|t' k]; cbn; [by destruct (0 <? refundPercent t) | done].
Qed.

(** Trimming loses only tiers that refund nothing. *)
Definition met_percent (days : Z) (ts : list Tier) : Z := default 0 (refundPercent <$> first_met days ts).

Lemma trim_percent days ts : Forall tier_ok ts -> met_percent days (trim_tiers ts) = met_percent days ts.
Proof.
  unfold met_percent. induction 1 as [|t ts Ht Hts IH]; [done|]. cbn [trim_tiers]. rewrite first_met_cons.
  destruct (trim_tiers ts) as [|t' k] eqn:E.
  - cbn in IH. destruct (Z.ltb_spec 0 (refundPercent t)).
    + rewrite first_met_cons. case_decide; [done|]. cbn. lia.
    + case_decide; cbn; [|done]. destruct Ht. lia.
  - rewrite first_met_cons. case_decide; [done | exact IH].
Qed.

Lemma trim_sorted (R : relation Tier) ts : StronglySorted R ts -> StronglySorted R (trim_tiers ts) /\
  forall t, t ∈ trim_tiers ts -> t ∈ ts.
Proof.
  induction 1 as [|t ts Hs [IHs IHin] HF]; cbn; [split; [constructor|done]|].
  assert (Hcons : StronglySorted R (t :: trim_tiers ts) /\ forall x, x ∈ t :: trim_tiers ts -> x ∈ t :: ts).
  { split.
    - constructor; [done|]. apply Forall_forall. intros x Hx. rewrite Forall_forall in HF. auto.
    - intros x [->|Hx]%elem_of_cons; [left | right; auto]. }
  destruct (trim_tiers ts) as [|t' k]; [|done].
  destruct (0 <? refundPercent t); [done|]. split; [constructor|]. intros x Hx. by apply elem_of_nil in Hx.
Qed.

(** ** The row of a day *)

(** What a row asks the guest to pay, where it is an amount *)
Definition payable (p : PolicyPay) : option Z :=
  match p with
  | pay_free => Some 0
  | part _ a | full a => Some (BigInt a)
  | _ => None
  end.

(** The amounts of the rows marked as applying now *)
Definition due_now (rows : list PolicyRow) : list (option Z) :=
  omap (fun row => if now row then Some (payable (pay row)) else None) rows.

Lemma due_now_cons row l :
  due_now (row :: l) = if now row then payable (pay row) :: due_now l else due_now l.
Proof. unfold due_now. cbn. by destruct (now row). Qed.

Lemma due_now_app l k : due_now (l ++ k) = due_now l ++ due_now k.
Proof. unfold due_now. apply omap_app. Qed.

(** What the hotel keeps of the shares [bases] when it refunds [percent] *)
Definition kept_amount (bases : list Z) (percent : Z) : Z :=
  sumZ ((fun base => base - refund_of base percent) <$> bases).

Section Day.
Variables (stay : TermsStay) (bases : list Z).
Hypothesis checkIn_date : pricingDate (VString (checkIn stay)) = true.
Hypothesis today_date : pricingDate (VString (today stay)) = true.
Hypothesis early_enough : four_digit_day (date_parse (checkIn stay) - 365).
Hypothesis bases_nonneg : Forall (fun b => 0 <= b) bases.

Let ci : Z := date_parse (checkIn stay).
Let td : Z := date_parse (today stay).
Let days : Z := ci - td.
Let full_pay : PolicyPay := full (Z_to_string (sumZ bases)).

Lemma due_day_four m : 0 <= m <= 365 -> four_digit_day (ci - m).
Proof.
  intros Hm. pose proof (pricing_date_four_digit _ checkIn_date). subst ci. unfold four_digit_day in *. lia.
Qed.

Lemma until_value m : 0 <= m <= 365 ->
  str_lt (freeCancellationUntil (checkIn stay) m) (today stay) = (days <? m) /\
  str_le (today stay) (freeCancellationUntil (checkIn stay) m) = (m <=? days).
Proof.
  intros Hm. pose proof (due_day_four m Hm) as H4. unfold freeCancellationUntil. fold ci.
  assert (Hd : pricingDate (VString (iso_date (ci - m))) = true) by (by apply pricing_date_iso_date).
  pose proof (str_lt_dates _ _ Hd today_date) as E. rewrite date_parse_iso_date in E by done. fold td in E.
  split.
  - rewrite E. unfold days. lia.
  - unfold str_le, str_lt in *. rewrite String.compare_antisym.
    pose proof (date_text_order _ _ Hd today_date) as Eo. rewrite date_parse_iso_date in Eo by done. fold td in Eo.
    rewrite Eo. unfold days. destruct (Z.compare_spec (ci - m) td); cbn; lia.
Qed.

Lemma from_value m m' : 0 <= m < m' -> m' <= 365 ->
  str_le (dayAfter (freeCancellationUntil (checkIn stay) m')) (today stay) = (days <? m').
Proof.
  intros Hm Hm'. unfold dayAfter, freeCancellationUntil. fold ci.
  rewrite date_parse_iso_date by (apply due_day_four; lia).
  replace (ci - m' - -1) with (ci - (m' - 1)) by lia.
  assert (H4 : four_digit_day (ci - (m' - 1))) by (apply due_day_four; lia).
  assert (Hd : pricingDate (VString (iso_date (ci - (m' - 1)))) = true) by (by apply pricing_date_iso_date).
  pose proof (date_text_order _ _ Hd today_date) as Eo. rewrite date_parse_iso_date in Eo by done. fold td in Eo.
  unfold str_le. rewrite Eo. unfold days. destruct (Z.compare_spec (ci - (m' - 1)) td); lia.
Qed.

Lemma kept_nonneg percent : 0 <= percent <= 100 -> 0 <= kept_amount bases percent.
Proof.
  clear -bases_nonneg. intros Hp. apply sumZ_nonneg, Forall_fmap. eapply Forall_impl; [exact bases_nonneg|].
  intros b Hb. cbn. pose proof (refund_of_spec b percent Hb Hp). lia.
Qed.

Lemma kept_value percent : 0 <= percent <= 100 -> BigInt (kept bases percent) = kept_amount bases percent.
Proof. intros Hp. unfold kept. apply print_value. by apply kept_nonneg. Qed.

Lemma kept_ext l p q : (forall b, 0 <= b -> b - refund_of b p = q b) -> Forall (fun b => 0 <= b) l ->
  kept_amount l p = sumZ (q <$> l).
Proof.
  clear. intros H. unfold kept_amount. induction 1 as [|b l Hb Hl IH]; [done|].
  cbn [fmap list_fmap]. rewrite !sumZ_cons, H by done. unfold fmap in *. by rewrite IH.
Qed.

Lemma kept_all : kept_amount bases 0 = sumZ bases.
Proof.
  rewrite (kept_ext bases 0 (fun b => b)); [|intros b Hb; rewrite refund_of_nothing by done; lia|done].
  by rewrite list_fmap_id.
Qed.

Lemma kept_nothing : kept_amount bases 100 = 0.
Proof.
  rewrite (kept_ext bases 100 (fun b => 0)); [|intros b Hb; rewrite refund_of_all by done; lia|done].
  clear. induction bases as [|b l IH]; [done|]. cbn [fmap list_fmap]. by rewrite sumZ_cons.
Qed.

Lemma full_value : payable full_pay = Some (kept_amount bases 0).
Proof.
  unfold full_pay. cbn. rewrite print_value, kept_all; [done|]. by apply sumZ_nonneg.
Qed.

(** A step's row asks what its percentage leaves. *)
Lemma step_pays step : 0 <= percent step <= 100 ->
  payable (pay (step_row bases full_pay stay step)) = Some (kept_amount bases (percent step)).
Proof.
  intros Hp. cbn. destruct (Z.eqb_spec (percent step) 100) as [->|]; [cbn; by rewrite kept_nothing|].
  destruct (Z.eqb_spec (percent step) 0) as [->|]; [apply full_value|]. cbn. by rewrite kept_value.
Qed.

(** Among the steps of tiers in order, the first one met is the one that applies. *)
Lemma steps_due ts : Forall tier_ok ts ->
  StronglySorted (fun a b => minDaysBeforeCheckIn b < minDaysBeforeCheckIn a) ts ->
  forall prev, (forall m, prev = Some m -> 0 <= m <= 365 /\ Forall (fun t => minDaysBeforeCheckIn t < m) ts) ->
  due_now (step_row bases full_pay stay <$>
           number_steps ((fun m => freeCancellationUntil (checkIn stay) m) <$> prev) ts stay) =
  match prev with
  | Some m => if m <=? days then [] else
      match first_met days ts with Some t => [Some (kept_amount bases (refundPercent t))] | None => [] end
  | None => match first_met days ts with Some t => [Some (kept_amount bases (refundPercent t))] | None => [] end
  end.
Proof.
  intros Hok. induction Hok as [|t ts Ht Hts IH]; intros Hs prev Hprev.
  { cbn. destruct prev as [m|]; [by destruct (m <=? days) | done]. }
  inversion Hs as [|? ? Hss HF]; subst. destruct Ht as [Htd Htp].
  cbn [number_steps]. rewrite fmap_cons, due_now_cons, first_met_cons.
  destruct (until_value _ Htd) as [Eu _].
  assert (IHt := IH Hss (Some (minDaysBeforeCheckIn t)) ltac:(intros m [= <-]; by split)).
  cbn [fmap option_fmap option_map] in IHt. rewrite IHt. clear IHt.
  set (step := {| stepTier := t |}).
  assert (Enow : now (step_row bases full_pay stay step) =
            (minDaysBeforeCheckIn t <=? days) && match prev with Some m => days <? m | None => true end).
  { unfold step_row, step. cbn [now passed from]. rewrite Eu. destruct prev as [m|]; cbn [fmap option_fmap option_map]; [|lia].
    destruct (Hprev m eq_refl) as [Hm HFm]. apply Forall_cons in HFm as [Hlt _].
    rewrite (from_value (minDaysBeforeCheckIn t) m) by lia. lia. }
  rewrite Enow, (step_pays step) by exact Htp. cbn [percent step].
  destruct prev as [m|].
  - destruct (Hprev m eq_refl) as [Hm HFm]. apply Forall_cons in HFm as [Hlt _].
    case_decide as Hd; [rewrite (proj2 (Z.leb_le _ _) Hd) | rewrite (proj2 (Z.leb_gt _ _)) by lia]; cbn [andb].
    + destruct (Z.ltb_spec days m), (Z.leb_spec m days); try lia; done.
    + destruct (Z.leb_spec m days); [lia | done].
  - case_decide as Hd; [rewrite (proj2 (Z.leb_le _ _) Hd) | rewrite (proj2 (Z.leb_gt _ _)) by lia]; done.
Qed.

Lemma last_default {A} (l : list A) : forall x d, last (x :: l) = Some (List.last (x :: l) d).
Proof. induction l as [|y l IH]; intros x d; [done|]. exact (IH y d). Qed.

Lemma last_rest {A} (l : list A) x : last (x :: l) = Some (List.last l x).
Proof. rewrite (last_default l x x). by destruct l. Qed.

Lemma number_steps_last ts : forall prev,
  until <$> last (number_steps prev ts stay) =
  (fun t => freeCancellationUntil (checkIn stay) (minDaysBeforeCheckIn t)) <$> last ts.
Proof.
  induction ts as [|t ts IH]; intros prev; [done|]. cbn [number_steps].
  specialize (IH (Some (freeCancellationUntil (checkIn stay) (minDaysBeforeCheckIn t)))).
  destruct ts as [|t' ts]; [done|]. exact IH.
Qed.

Lemma first_met_last ts t : StronglySorted (fun a b => minDaysBeforeCheckIn b < minDaysBeforeCheckIn a) ts ->
  last ts = Some t -> first_met days ts = None <-> days < minDaysBeforeCheckIn t.
Proof.
  intros Hs. induction Hs as [|x ts Hs IH HF]; [done|]. intros Hl. rewrite first_met_cons.
  destruct ts as [|y ts]; [injection Hl as ->; case_decide; split; (done || lia)|].
  specialize (IH Hl). case_decide; [|exact IH]. split; [done|]. intros Hlt. exfalso.
  assert (Ht : t ∈ y :: ts) by (by apply last_Some_elem_of). rewrite Forall_forall in HF.
  specialize (HF t Ht). lia.
Qed.

Definition cancellation_percent (c : Cancellation) (d : Z) : Z :=
  match c with non_refundable_rate => 0 | flexible_rate terms => rulePercent (terms_rule terms d) end.

Definition cancellation_ok (c : Cancellation) : Prop :=
  match c with non_refundable_rate => True | flexible_rate terms => terms_ok terms end.

Lemma non_refundable_due : due_now (w_rows (non_refundable_wording full_pay)) = [Some (kept_amount bases 0)].
Proof. unfold due_now. cbn. by rewrite <- full_value. Qed.

Lemma free_due deadline : 0 <= deadline <= 365 ->
  due_now (w_rows (free_wording full_pay stay deadline)) =
  [Some (kept_amount bases (if deadline <=? days then 100 else 0))].
Proof.
  intros Hd. unfold free_wording. destruct (until_value deadline Hd) as [_ E]. cbv zeta.
  cbn [w_rows]. rewrite E. destruct (deadline <=? days); unfold due_now; cbn [omap list_omap now pay].
  - by rewrite kept_nothing.
  - by rewrite full_value.
Qed.

Lemma steps_wording_due ts t0 : Forall tier_ok ts ->
  StronglySorted (fun a b => minDaysBeforeCheckIn b < minDaysBeforeCheckIn a) ts -> last ts = Some t0 ->
  due_now (w_rows (steps_wording bases full_pay stay (number_steps None ts stay)
             (freeCancellationUntil (checkIn stay) (minDaysBeforeCheckIn t0)))) =
  [Some (kept_amount bases (met_percent days ts))].
Proof.
  intros Hok Hs Hl. unfold steps_wording. cbn [w_rows]. rewrite due_now_app.
  pose proof (steps_due ts Hok Hs None ltac:(done)) as E. cbn [fmap option_fmap option_map] in E. rewrite E.
  assert (Ht0 : tier_ok t0) by (rewrite Forall_forall in Hok; by apply Hok, last_Some_elem_of).
  destruct (until_value (minDaysBeforeCheckIn t0) (tier_days _ Ht0)) as [Eu _].
  rewrite due_now_cons. cbn [now pay]. rewrite Eu, full_value. unfold met_percent.
  pose proof (first_met_last ts t0 Hs Hl) as Hf.
  destruct (first_met days ts) as [t|].
  - destruct (Z.ltb_spec days (minDaysBeforeCheckIn t0)); [by apply Hf in H|]. done.
  - rewrite (proj2 (Z.ltb_lt _ _)) by (by apply Hf). done.
Qed.

(** Exactly one row of a policy applies on a day, and asks what is kept of the
    price after the refund of that day. *)
Lemma policy_due c mode : cancellation_ok c -> request mode = false -> bankTransfer mode = false ->
  due_now (rows (cancellationPolicy c stay (share_list bases) mode)) =
  [Some (kept_amount bases (cancellation_percent c days))].
Proof.
  intros Hc Hr Hb. unfold cancellationPolicy. rewrite Hr, Hb. cbn [negb andb rows bases_of].
  rewrite due_now_app. change (due_now [{| when := noShow_row |}]) with (@nil (option Z)). rewrite app_nil_r.
  fold full_pay. destruct c as [|terms]; cbn [wording cancellation_percent]; [apply non_refundable_due|].
  destruct Hc as [Hd Ht Hnd Hp]. unfold terms_rule.
  destruct (decide (flexibleCancellationType terms = Some partial_refund)) as [E|E].
  - rewrite bool_decide_false by tauto. cbn [rulePercent].
    set (tiers := default [] (partialRefundTiers terms)) in *. unfold refundSteps. fold more_notice.
    fold (tiers_desc tiers). rewrite trim_steps, matched_tier_first.
    fold (met_percent days (tiers_desc tiers)).
    assert (Hok : Forall tier_ok (tiers_desc tiers)) by (by apply Forall_stable_sort).
    rewrite <- trim_percent by done.
    destruct (trim_sorted _ _ (tiers_desc_sorted tiers Hnd)) as [Hs Hin].
    assert (Hok' : Forall tier_ok (trim_tiers (tiers_desc tiers))).
    { apply Forall_forall. intros t Hti. rewrite Forall_forall in Hok. by apply Hok, Hin. }
    destruct (trim_tiers (tiers_desc tiers)) as [|t0 k] eqn:Ek; [apply non_refundable_due|].
    pose proof (number_steps_last (t0 :: k) None) as El. rewrite last_rest in El. cbn [number_steps] in El |- *.
    rewrite last_rest in El. cbn [fmap option_fmap option_map] in El. injection El as El.
    match goal with |- context [until (List.last ?a ?b)] =>
      replace (until (List.last a b)) with
        (freeCancellationUntil (checkIn stay) (minDaysBeforeCheckIn (List.last k t0))) by exact (eq_sym El)
    end.
    apply (steps_wording_due (t0 :: k)); [done | done | apply last_rest].
  - rewrite bool_decide_true by done. cbn [rulePercent]. by apply free_due.
Qed.
End Day.

(** ** Rates with one key have one refund *)

Lemma tier_pair_plain t : plain_json (tier_pair t).
Proof. unfold tier_pair. constructor. repeat constructor. Qed.

Lemma tier_pairs_inj (ts ts' : list Tier) : tier_pair <$> ts = tier_pair <$> ts' -> ts = ts'.
Proof.
  intros E. apply list_fmap_eq_inj in E; [done|]. intros [a b] [a' b'] H. unfold tier_pair in H.
  apply arr_inj in H. cbn in H. congruence.
Qed.

Lemma tiers_text_inj (ts ts' : list Tier) :
  default "" (json_stringify (arr (tier_pair <$> ts))) = default "" (json_stringify (arr (tier_pair <$> ts'))) ->
  ts = ts'.
Proof.
  assert (Hp : forall l, plain_json (arr (tier_pair <$> l))).
  { intros l. constructor. apply Forall_fmap, Forall_forall. intros t _. apply tier_pair_plain. }
  rewrite !plain_json_text by apply Hp. cbn [from_option]. intros E. apply tier_pairs_inj, arr_inj.
  apply json_stringify_inj; [apply Hp..|]. rewrite !plain_json_text by apply Hp. by f_equal.
Qed.

Lemma key_percent c c' d : policyKey c = policyKey c' ->
  cancellation_percent c d = cancellation_percent c' d.
Proof.
  destruct c as [|t], c' as [|t']; cbn [policyKey cancellation_percent]; [done| | |].
  - case_decide; discriminate.
  - case_decide; discriminate.
  - unfold terms_rule. case_decide as E; case_decide as E'; intros H.
    + rewrite !bool_decide_true by done. apply string_app_cancel, Z_to_string_inj in H. cbn. by rewrite H.
    + discriminate H.
    + discriminate H.
    + rewrite !bool_decide_false by tauto. apply string_app_cancel, tiers_text_inj in H.
      fold more_notice in H. cbn [rulePercent]. rewrite !matched_tier_first. unfold tiers_desc. by rewrite H.
Qed.

(** ** Blocks keep the total *)

Definition room_due (d : Z) (room : ShareRoom) : Z :=
  share room - refund_of (share room) (cancellation_percent (shareCancellation room) d).

Definition group_due (d : Z) (kg : string * Group) : Z :=
  kept_amount (groupShares (snd kg)) (cancellation_percent (groupCancellation (snd kg)) d).

Definition share_room_ok (room : ShareRoom) : Prop :=
  0 <= share room /\ cancellation_ok (shareCancellation room).

Record group_ok (kg : string * Group) : Prop := {
  gp_key : policyKey (groupCancellation (snd kg)) = fst kg;
  gp_terms : cancellation_ok (groupCancellation (snd kg));
  gp_shares : Forall (fun s => 0 <= s) (groupShares (snd kg))
}.

Lemma kept_amount_snoc l x p : kept_amount (l ++ [x]) p = kept_amount l p + (x - refund_of x p).
Proof. unfold kept_amount. rewrite fmap_app, sumZ_app. cbn [fmap list_fmap]. by rewrite sumZ_cons, sumZ_nil, Z.add_0_r. Qed.

Lemma group_room_spec d room groups : share_room_ok room -> Forall group_ok groups ->
  Forall group_ok (group_room (policyKey (shareCancellation room)) room groups) /\
  sumZ (group_due d <$> group_room (policyKey (shareCancellation room)) room groups) =
    sumZ (group_due d <$> groups) + room_due d room.
Proof.
  intros [Hs Hc]. induction 1 as [|[k g] groups [Hk Ht Hsh] Hg [IHok IHsum]]; cbn [group_room].
  - split; [apply Forall_singleton; split; cbn; [done..|by repeat constructor]|].
    cbn [fmap list_fmap]. rewrite sumZ_cons, sumZ_nil. unfold group_due, room_due. cbn.
    change [share room] with ([] ++ [share room]). rewrite kept_amount_snoc.
    change (kept_amount [] _) with 0. lia.
  - cbn in Hk, Ht, Hsh. destruct (String.eqb_spec k (policyKey (shareCancellation room))) as [E|E].
    + split; [apply Forall_cons; split; [split; cbn; [done..|apply Forall_app; split; [done | by repeat constructor]] | done]|].
      cbn [fmap list_fmap]. rewrite !sumZ_cons. unfold group_due at 1 3, room_due. cbn.
      rewrite kept_amount_snoc, (key_percent (groupCancellation g) (shareCancellation room) d) by congruence. lia.
    + split; [by apply Forall_cons|]. cbn [fmap list_fmap]. rewrite !sumZ_cons. unfold fmap in *. lia.
Qed.

Lemma group_rooms_spec d rooms : Forall share_room_ok rooms ->
  Forall group_ok (group_rooms rooms) /\
  sumZ (group_due d <$> group_rooms rooms) = sumZ (room_due d <$> rooms).
Proof.
  unfold group_rooms. intros Hr.
  assert (Hgo : forall groups, Forall group_ok groups ->
    let gs := fold_left (fun groups room => group_room (policyKey (shareCancellation room)) room groups) rooms groups in
    Forall group_ok gs /\ sumZ (group_due d <$> gs) = sumZ (group_due d <$> groups) + sumZ (room_due d <$> rooms)).
  { induction Hr as [|room rooms Hroom Hr IH]; intros groups Hg; cbn [fold_left].
    - cbn. split; [done|]. rewrite sumZ_nil. lia.
    - destruct (group_room_spec d room groups Hroom Hg) as [Hok Hsum].
      destruct (IH _ Hok) as [Hok' Hsum']. split; [done|]. rewrite Hsum', Hsum. cbn [fmap list_fmap].
      rewrite sumZ_cons. unfold fmap. lia. }
  destruct (Hgo [] (Forall_nil_2 _)) as [Hok Hsum]. split; [done|]. rewrite Hsum. cbn [fmap list_fmap].
  rewrite sumZ_nil. lia.
Qed.

(** What a block asks on its day *)
Definition block_due (b : PolicyBlock) : Z := sumZ (default 0 <$> due_now (rows (policy b))).

Lemma blocks_due rooms stay mode : Forall share_room_ok rooms ->
  pricingDate (VString (checkIn stay)) = true -> pricingDate (VString (today stay)) = true ->
  four_digit_day (date_parse (checkIn stay) - 365) -> request mode = false -> bankTransfer mode = false ->
  Forall (fun b => exists a, due_now (rows (policy b)) = [Some a]) (groupBlocks rooms stay mode) /\
  sumZ (block_due <$> groupBlocks rooms stay mode) =
    sumZ (room_due (date_parse (checkIn stay) - date_parse (today stay)) <$> rooms).
Proof.
  intros Hr Hci Htd H4 Hrq Hbt. set (d := date_parse (checkIn stay) - date_parse (today stay)).
  destruct (group_rooms_spec d rooms Hr) as [Hok Hsum]. unfold groupBlocks. split.
  - apply Forall_fmap. eapply Forall_impl; [exact Hok|]. intros [k g] [_ Ht Hs].
    unfold compose. cbn [policy snd fst] in *. rewrite policy_due by done. by eexists.
  - rewrite <- Hsum. f_equal. rewrite <- list_fmap_compose. apply list_fmap_ext. intros i [k g] Hi.
    rewrite Forall_lookup in Hok. destruct (Hok i _ Hi) as [_ Ht Hs].
    unfold compose, block_due, group_due. cbn [policy snd fst] in *. rewrite policy_due by done.
    cbn [fmap list_fmap from_option id]. rewrite sumZ_cons, sumZ_nil. fold d. lia.
Qed.

(** ** A booked stay *)

(** The page's typed terms are what the server reads from the stored ones. *)
Definition reads (stored : jsval) (c : Cancellation) : Prop :=
  match c with
  | non_refundable_rate => is_str (get stored "kind") "non_refundable" = true
  | flexible_rate terms =>
      is_str (get stored "kind") "flexible" = true /\
      parseFlexibleCancellationTerms (get stored "terms") = Some terms
  end.

Lemma reads_rule stored c d r : reads stored c -> roomRule stored d = Some r ->
  rulePercent r = cancellation_percent c d /\ cancellation_ok c.
Proof.
  unfold roomRule, reads. destruct c as [|terms].
  - intros ->. intros [= <-]. done.
  - intros [Hk Hp]. pose proof Hk as Hk'. apply is_str_true in Hk' as ->. rewrite Hp.
    change (is_str (VString "flexible") "non_refundable") with false. cbn. intros [= <-].
    split; [done|]. exact (parse_terms_ok _ _ Hp).
Qed.

(** The page shows the rooms the server refunds. *)
Definition same_room (room : BookedCancellationRoom) (page : BookedStayRoom) : Prop :=
  reads (cancellation room) (stayCancellation page) /\ subtotalMinor room = staySubtotalMinor page.

Lemma page_subtotals rooms pages : Forall2 same_room rooms pages ->
  (fun room => BigInt (subtotalMinor room)) <$> rooms = (fun page => BigInt (staySubtotalMinor page)) <$> pages.
Proof. induction 1 as [|room page rooms pages [_ E] _ IH]; [done|]. cbn. rewrite E. by f_equal. Qed.

Definition page_room (page : BookedStayRoom) (share : Z) : ShareRoom :=
  {| shareName := default "" (roomName page); shareCancellation := stayCancellation page; share := share |}.

Lemma page_rooms_due d rooms pages : Forall2 same_room rooms pages -> forall rules bases,
  traverse (fun room => roomRule (cancellation room) d) rooms = Some rules ->
  length bases = length rooms -> Forall (fun b => 0 <= b) bases ->
  Forall share_room_ok (zip_with page_room pages bases) /\
  sumZ (room_due d <$> zip_with page_room pages bases) =
    sumZ bases - sumZ (zip_with (fun r base => refund_of base (rulePercent r)) rules bases).
Proof.
  induction 1 as [|room page rooms pages [Hread _] _ IH]; intros rules bases Ht Hl Hn.
  - destruct bases; [|done]. injection Ht as <-. split; [constructor|]. cbn. by rewrite sumZ_nil.
  - destruct bases as [|b bases]; [done|]. cbn in Ht.
    destruct (roomRule _ d) as [r|] eqn:Er; [|done].
    destruct (traverse _ rooms) as [rules'|] eqn:Et; [|done]. injection Ht as <-.
    apply Forall_cons in Hn as [Hb Hn]. destruct (reads_rule _ _ _ _ Hread Er) as [Ep Hc].
    destruct (IH rules' bases eq_refl ltac:(cbn in Hl; lia) Hn) as [Hok Hsum].
    cbn [zip_with fmap list_fmap]. split; [by apply Forall_cons|].
    rewrite !sumZ_cons. unfold room_due at 1. cbn [share page_room shareCancellation].
    unfold fmap in *. rewrite Ep. lia.
Qed.

(** C7: the policy page agrees with the refund.  For a booked stay neither waiting
    for the hotel nor for a transfer, exactly one row of every policy block is
    marked as applying today, and what those rows ask adds up to the amount the
    cancel route would retain today. *)
Theorem page_matches_refund stay today_ mode rooms out :
  resolveBookedCancellationOutcome (stayCheckIn stay) today_ (stayTotalMinor stay) rooms = Some out ->
  Forall2 same_room rooms (stayRooms stay) ->
  four_digit_day (date_parse (stayCheckIn stay) - 365) ->
  request mode = false -> bankTransfer mode = false ->
  let blocks := bookedPolicyBlocks stay today_ mode in
  Forall (fun b => exists a, due_now (rows (policy b)) = [Some a]) blocks /\
  sumZ (block_due <$> blocks) = BigInt (retainedMinor out).
Proof.
  intros (rules & bases & R)%resolve_inv Hsame H4 Hr Hb.
  destruct R as [Hrules Hbases _ [_ Hlb] _ _ _ Hpos Hnn Hsum _ Hrefund Hret [Hci Htd]].
  cbv zeta. unfold bookedPolicyBlocks. rewrite <- (page_subtotals _ _ Hsame).
  unfold shareTotal. rewrite (proj2 (Z.leb_gt _ _) Hpos), <- Hbases.
  fold page_room.
  destruct (page_rooms_due _ _ _ Hsame rules bases Hrules Hlb Hnn) as [Hok Hdue0].
  set (ts := {| checkIn := stayCheckIn stay; today := today_; bookedOn := stayBookedOn stay |}).
  destruct (blocks_due (zip_with page_room (stayRooms stay) bases) ts mode Hok Hci Htd H4 Hr Hb) as [Hone Hdue].
  split; [exact Hone|]. etransitivity; [exact Hdue|]. rewrite Hret, Hrefund, <- Hsum. exact Hdue0.
Qed.
