(* ===== verification/ReplacementPricing.v ===== *)
(** * Prices

    packages/domain-pms/src/replacementPricing.ts: money, price adjustments and
    room prices, read from untrusted values; the price step of a currency. *)

From S2P Require Import Prelude JsValue Money.

Definition REPLACEMENT_PRICING_VERSION : string := "pricing.v2".

(** ** Currencies

    The vocabulary and the default display digits are the host's: 
    [Intl.supportedValuesOf("currency")] and [Intl.NumberFormat]. *)
Class Currencies := {
  currencies : string -> bool;
  maximumFractionDigits : string -> option Z
}.

Definition accountingScales : list (string * Z) :=
  [("AFN", 2); ("ALL", 2); ("COP", 2); ("HUF", 2); ("IDR", 2); ("IQD", 3); ("IRR", 2); ("KPW", 2);
   ("LAK", 2); ("LBP", 2); ("MGA", 2); ("MMK", 2); ("PKR", 2); ("SOS", 2); ("SYP", 2); ("YER", 2)].

Definition pricingCurrencyScale `{Currencies} (currency : string) : option Z :=
  guard? currencies currency in
  match map_get accountingScales currency with
  | Some scale => Some scale
  | None => maximumFractionDigits currency
  end.

Definition wholeUnitSteps : list (string * Z) := [("IDR", 100)].

Definition pricingAmountStep (currency : string) : Z := default 1 (map_get wholeUnitSteps currency).

(** ** Reading *)

Definition pricingObject (value : jsval) : bool := is_object value.

Definition pricingKeys (value : jsval) (keys : list string) : bool :=
  Nat.eqb (length (keys_of value)) (length keys) && forallb (has_own value) keys.

Definition pricingInteger (value : jsval) (minimum : Z) : option Z :=
  match value with
  | VInt z => if safe_integer z && (minimum <=? z) then Some z else None
  | _ => None
  end.

Definition minor (value : jsval) : option string := guard? isMinorAmount value in as_string value.
Definition positive_minor (value : jsval) : option string := guard? isPositiveMinor value in as_string value.

Record PricingMoney := { moneyCurrency : string; moneyMinor : string }.

Definition parsePricingMoney `{Currencies} (value : jsval) : option PricingMoney :=
  guard? pricingObject value && pricingKeys value ["currency"; "amountMinor"] in
  let? currency := as_string (get value "currency") in
  let? _ := pricingCurrencyScale currency in
  let? amount := minor (get value "amountMinor") in
  Some {| moneyCurrency := currency; moneyMinor := amount |}.

Inductive PricingAdjustment :=
| fixed (deltaMinor : string)
| percentage (basisPoints : Z).

(** [/^(0|-?[1-9][0-9]{0,17})$/] *)
Definition delta_text (s : string) : bool :=
  match s with
  | String c r => if is_char "-" c then positive_decimal r && (str_length r <=? 18) else minor_text s
  | EmptyString => false
  end.

Definition parsePricingAdjustment (value : jsval) : option PricingAdjustment :=
  guard? pricingObject value in
  if is_str (get value "kind") "fixed" && pricingKeys value ["kind"; "deltaMinor"] &&
     match get value "deltaMinor" with VString s => String.eqb (trim s) s && delta_text s | _ => false end
  then let? delta := as_string (get value "deltaMinor") in Some (fixed delta)
  else if is_str (get value "kind") "percentage" && pricingKeys value ["kind"; "basisPoints"]
  then let? points := pricingInteger (get value "basisPoints") (-10000) in Some (percentage points)
  else None.

Inductive RoomPrice :=
| flat (amountMinor : string)
| occupancy (amountsMinor : list string)
| included_guests (baseGuests : Z) (baseMinor : string) (adjustments : list PricingAdjustment)
| per_person (unitMinor : string).

Inductive PriceMode := mode_flat | mode_occupancy | mode_included_guests | mode_per_person.

#[export] Instance PriceMode_eq_dec : EqDecision PriceMode.
Proof. solve_decision. Defined.

Definition mode (p : RoomPrice) : PriceMode :=
  match p with
  | flat _ => mode_flat
  | occupancy _ => mode_occupancy
  | included_guests _ _ _ => mode_included_guests
  | per_person _ => mode_per_person
  end.

(** An adjustment that leaves nothing of the base *)
Definition priceless (base : string) (a : PricingAdjustment) : bool :=
  match a with
  | fixed delta => BigInt base + BigInt delta <=? 0
  | percentage points => points =? -10000
  end.

(** [base.kind !== "fixed" || base.deltaMinor !== "0"] *)
Definition no_change (a : PricingAdjustment) : bool :=
  match a with fixed delta => String.eqb delta "0" | percentage _ => false end.

Definition parse_included_guests (value : jsval) (adultCapacity : Z) : option RoomPrice :=
  guard? is_str (get value "mode") "included_guests" &&
         pricingKeys value ["mode"; "baseGuests"; "baseMinor"; "adjustments"] in
  let? guests := pricingInteger (get value "baseGuests") 1 in
  guard? guests <=? adultCapacity in
  let? base := positive_minor (get value "baseMinor") in
  let? raw := as_array (get value "adjustments") in
  guard? Z.of_nat (length raw) =? adultCapacity in
  let? parsed := traverse parsePricingAdjustment raw in
  let? atBase := parsed !! Z.to_nat (guests - 1) in
  guard? no_change atBase && negb (existsb (priceless base) parsed) in
  Some (included_guests guests base parsed).

Definition parseRoomPrice (value : jsval) (adultCapacity : Z) : option RoomPrice :=
  let? _ := pricingInteger (VInt adultCapacity) 1 in
  guard? pricingObject value in
  if is_str (get value "mode") "flat" && pricingKeys value ["mode"; "amountMinor"] &&
     isPositiveMinor (get value "amountMinor")
  then let? amount := as_string (get value "amountMinor") in Some (flat amount)
  else if is_str (get value "mode") "per_person" && pricingKeys value ["mode"; "unitMinor"] &&
          isPositiveMinor (get value "unitMinor")
  then let? amount := as_string (get value "unitMinor") in Some (per_person amount)
  else if is_str (get value "mode") "occupancy" && pricingKeys value ["mode"; "amountsMinor"] &&
          match as_array (get value "amountsMinor") with
          | Some l => (Z.of_nat (length l) =? adultCapacity) && forallb isPositiveMinor l
          | None => false
          end
  then let? raw := as_array (get value "amountsMinor") in
       let? amounts := traverse as_string raw in
       Some (occupancy amounts)
  else parse_included_guests value adultCapacity.

(** ** What the readers guarantee *)

(** The decimal text of a delta: zero, or a signed number of at most 18 digits *)
Definition delta_ok (s : string) : Prop := delta_text s = true.

Definition adjustment_ok (a : PricingAdjustment) : Prop :=
  match a with fixed delta => delta_ok delta | percentage points => -10000 <= points <= MAX_SAFE_INTEGER end.

Definition amount_ok (s : string) : Prop := isPositiveMinor (VString s) = true.

Definition price_ok (capacity : Z) (p : RoomPrice) : Prop :=
  match p with
  | flat amount => amount_ok amount
  | per_person amount => amount_ok amount
  | occupancy amounts => Z.of_nat (length amounts) = capacity /\ Forall amount_ok amounts
  | included_guests guests base adjustments =>
      1 <= guests <= capacity /\ amount_ok base /\ Z.of_nat (length adjustments) = capacity /\
      Forall adjustment_ok adjustments /\ Forall (fun a => priceless base a = false) adjustments /\
      adjustments !! Z.to_nat (guests - 1) = Some (fixed "0")
  end.

(** The condition of the outermost [if] of a computation *)
Ltac if_branch E := match goal with |- (if ?b then _ else _) = _ -> _ => destruct b eqn:E end.

Lemma pricingInteger_Some v m z : pricingInteger v m = Some z <-> v = VInt z /\ safe_integer z = true /\ m <= z.
Proof.
  unfold pricingInteger. destruct v; split; try discriminate; try (by intros [? _]).
  - destruct (safe_integer z0) eqn:E, (m <=? z0) eqn:E2; try discriminate. intros [= <-]. split_and!; try done. lia.
  - intros ([= ->] & -> & H). by rewrite (proj2 (Z.leb_le _ _) H).
Qed.

Lemma minor_Some v s : minor v = Some s -> v = VString s /\ isMinorAmount (VString s) = true.
Proof. unfold minor. destruct (isMinorAmount v) eqn:E; [|done]. destruct v; try done. by intros [= <-]. Qed.

Lemma positive_minor_Some v s : positive_minor v = Some s -> v = VString s /\ amount_ok s.
Proof. unfold positive_minor. destruct (isPositiveMinor v) eqn:E; [|done]. destruct v; try done. by intros [= <-]. Qed.

Lemma parse_adjustment_ok v a : parsePricingAdjustment v = Some a -> adjustment_ok a.
Proof.
  unfold parsePricingAdjustment. destruct (pricingObject v); [|done].
  if_branch E.
  - apply andb_true_iff in E as [_ E]. destruct (get v "deltaMinor"); try done. cbn. intros [= <-].
    apply andb_true_iff in E as [_ E]. exact E.
  - if_branch E'; [|done]. destruct (pricingInteger _ _) as [p|] eqn:Ep; [|done]. intros [= <-].
    apply pricingInteger_Some in Ep as (_ & Hs & Hm). cbn. unfold safe_integer in Hs. bool_to_prop. lia.
Qed.

Lemma parse_price_ok v n p : parseRoomPrice v n = Some p -> price_ok n p /\ 1 <= n.
Proof.
  unfold parseRoomPrice. destruct (pricingInteger _ _) as [c|] eqn:Ec; [|done].
  apply pricingInteger_Some in Ec as ([= ->] & _ & Hn). destruct (pricingObject v); [|done].
  if_branch E1.
  { apply andb_true_iff in E1 as [_ E1]. destruct (get v "amountMinor"); try done. by intros [= <-]. }
  if_branch E2.
  { apply andb_true_iff in E2 as [_ E2]. destruct (get v "unitMinor"); try done. by intros [= <-]. }
  if_branch E3.
  - apply andb_true_iff in E3 as [_ E3]. destruct (as_array (get v "amountsMinor")) as [l|]; [|done].
    apply andb_true_iff in E3 as [Hl Hp]. apply Z.eqb_eq in Hl.
    destruct (traverse as_string l) as [amounts|] eqn:Et; [|done]. intros [= <-]. cbn. split; [|done].
    split; [by rewrite (traverse_length _ _ _ Et)|]. apply traverse_Some in Et.
    rewrite forallb_forall in Hp. clear Hl. induction Et as [|x s l amounts Hx _ IH]; constructor.
    + destruct x; try done. injection Hx as ->. apply (Hp (VString s)). by left.
    + apply IH. intros y Hy. apply Hp. by right.
  - unfold parse_included_guests. intros H. follow H. bool_to_prop.
    repeat match goal with E : pricingInteger _ _ = Some _ |- _ => apply pricingInteger_Some in E as (_ & _ & E) end.
    match goal with E : positive_minor _ = Some _ |- _ => apply positive_minor_Some in E as [_ E] end.
    match goal with E : traverse _ _ = Some _ |- _ => pose proof (traverse_length _ _ _ E); rename E into Et end.
    cbn. split; [|done]. split_and!; try done; try lia.
    + eapply traverse_Forall; [|exact Et]. apply parse_adjustment_ok.
    + apply Forall_forall. intros a Ha. apply not_true_iff_false. intros Hp.
      match goal with E : existsb _ _ = false |- _ => rewrite <- not_true_iff_false in E; apply E end.
      apply existsb_exists. exists a. split; [by apply list_elem_of_In | done].
    + match goal with E : no_change ?a = true |- _ => destruct a as [d|]; [|done]; cbn in E; apply String.eqb_eq in E as -> end.
      done.
Qed.
