(* ===== verification/PricingConfiguration.v ===== *)
(** * Pricing configurations

    packages/domain-pms/src/replacementPricingConfiguration.ts: one room type's
    prices, meals, links between offers and restrictions, read from an untrusted
    snapshot, and whether guests fit the room.  [structuredClone] of an accepted
    snapshot is read off as a typed record. *)

From S2P Require Import Prelude JsValue CalendarDates Money ReplacementPricing.

(** ** Data *)

Record ChildBand := {
  fromAge : Z;
  throughAge : Z;
  nightlyMinor : string;
  countsTowardCapacity : bool
}.

Record PricingGuests := { guestAdults : Z; childAgesAtCheckIn : list Z }.

Record PricingCapacity := { total : Z; capacityAdults : Z; capacityChildren : Z }.

Record PricingChildPolicy := { adultFromAge : Z; bands : list ChildBand }.

Record MonthPrice := { month : Z; monthPrice : RoomPrice }.
Record SeasonPrice := { seasonName : string; tier : string; from : string; through : string; seasonPrice : RoomPrice }.
Record WeekdayPrice := { day : Z; weekdayAdjustment : PricingAdjustment }.
Record DatePrice := { date : string; datePrice : RoomPrice }.

Record PricingCalendar := {
  base : option RoomPrice;
  months : list MonthPrice;
  seasons : list SeasonPrice;
  weekdays : list WeekdayPrice;
  dates : list DatePrice
}.

Record PricingRestrictions := {
  minArrivalNights : Z;
  maxStayNights : option Z;
  closedToArrival : bool;
  closedToDeparture : bool;
  stopSell : bool
}.

Inductive MealKind := room_only | breakfast | half_board | full_board | all_inclusive.

Inductive MealCharge :=
| room_charge (amountMinor : string)
| person_charge (adultMinor : string) (childBandAmountsMinor : list string).

Record PricingMeal := { mealKind : MealKind; charge : MealCharge; description : option string }.

Inductive PricingOfferSale := channels_only | not_sold.

Inductive OfferPrice :=
| independent (calendar : PricingCalendar)
| linked (parentId : string) (adjustment : PricingAdjustment) (dateOverrides : list DatePrice).

Record SeasonRules := { rulesFrom : string; rulesThrough : string; seasonRules : PricingRestrictions }.
Record DateRules := { rulesDate : string; dateRules : PricingRestrictions }.

Inductive OfferRestrictions :=
| own (rules : PricingRestrictions) (ruleSeasons : list SeasonRules) (ruleDates : list DateRules)
| inherit.

Record PricingOffer := {
  offerId : string;
  termsRevision : string;
  sale : option PricingOfferSale;
  meal : PricingMeal;
  price : OfferPrice;
  restrictions : OfferRestrictions
}.

(** The literal field ["version"] has one value and is left out. *)
Record PricingConfiguration := {
  propertyId : string;
  roomTypeId : string;
  revision : Z;
  currency : string;
  capacity : PricingCapacity;
  children : PricingChildPolicy;
  offers : list PricingOffer
}.

(** ** Leaves *)

Definition monthDay (v : jsval) : option string :=
  let? s := as_string v in
  guard? (str_length s =? 5) && pricingDate (VString ("2000-" +:+ s)) in Some s.

Definition text (v : jsval) : option string :=
  let? s := as_string v in guard? negb (String.eqb (trim s) "") in Some s.

Definition unique {A} (eqb : A -> A -> bool) (values : list A) : bool := all_distinct eqb values.

Definition mealDescription (v : jsval) : option string :=
  let? s := as_string v in
  guard? String.eqb s (trim s) && (0 <? str_length s) && (str_length s <=? 200) &&
         all_chars (fun c => negb (is_control c)) s in
  Some s.

Definition pricingOfferOnBookingPage (offer : PricingOffer) : bool :=
  match sale offer with None => true | Some _ => false end.

(** ** Guests *)

(** The loop over the ages, with the adults and the counted guests so far *)
Fixpoint count_guests (policy : PricingChildPolicy) (ages : list jsval) (adults counted : Z)
    : option (Z * Z) :=
  match ages with
  | [] => Some (adults, counted)
  | v :: rest =>
      let? age := pricingInteger v 0 in
      guard? age <=? 17 in
      if adultFromAge policy <=? age then count_guests policy rest (adults + 1) (counted + 1)
      else
        let? band := List.find (fun b => (fromAge b <=? age) && (age <=? throughAge b)) (bands policy) in
        count_guests policy rest adults (if countsTowardCapacity band then counted + 1 else counted)
  end.

Definition validPricingGuests (guests : jsval) (capacity : PricingCapacity) (policy : PricingChildPolicy)
    : option PricingGuests :=
  let? adults := pricingInteger (get guests "adults") 1 in
  let? raw := as_array (get guests "childAgesAtCheckIn") in
  guard? Z.of_nat (length raw) <=? capacityChildren capacity in
  let? (grown, counted) := count_guests policy raw adults adults in
  guard? (grown <=? capacityAdults capacity) && (counted <=? total capacity) in
  let? ages := traverse (fun v => pricingInteger v 0) raw in
  Some {| guestAdults := adults; childAgesAtCheckIn := ages |}.

(** ** Calendars *)

(** [from <= through ? day >= from && day <= through : day >= from || day <= through] *)
Definition inSeason (day from through : string) : bool :=
  if str_le from through then str_le from day && str_le day through
  else str_le from day || str_le day through.

(** The month-days of 2000: [toISOString().slice(5, 10)] of each day *)
Definition year_days : list string :=
  Eval vm_compute in (fun n => substring 5 5 (iso_date n)) <$> seqZ (date_utc 2000 0 1) 366.

Definition parse_month (capacity : Z) (r : jsval) : option MonthPrice :=
  guard? pricingObject r && pricingKeys r ["month"; "price"] in
  let? m := pricingInteger (get r "month") 1 in
  guard? m <=? 12 in
  let? p := parseRoomPrice (get r "price") capacity in
  Some {| month := m; monthPrice := p |}.

Definition parse_date_price (capacity : Z) (r : jsval) : option DatePrice :=
  guard? pricingObject r && pricingKeys r ["date"; "price"] && pricingDate (get r "date") in
  let? d := as_string (get r "date") in
  let? p := parseRoomPrice (get r "price") capacity in
  Some {| date := d; datePrice := p |}.

Definition parse_weekday (r : jsval) : option WeekdayPrice :=
  guard? pricingObject r && pricingKeys r ["day"; "adjustment"] in
  let? d := pricingInteger (get r "day") 0 in
  guard? d <=? 6 in
  let? a := parsePricingAdjustment (get r "adjustment") in
  Some {| day := d; weekdayAdjustment := a |}.

Definition parse_season (capacity : Z) (r : jsval) : option SeasonPrice :=
  guard? pricingObject r && pricingKeys r ["name"; "tier"; "from"; "through"; "price"] in
  let? n := as_string (get r "name") in
  let? t := as_string (get r "tier") in
  let? f := monthDay (get r "from") in
  let? th := monthDay (get r "through") in
  let? p := parseRoomPrice (get r "price") capacity in
  Some {| seasonName := n; tier := t; from := f; through := th; seasonPrice := p |}.

(** The loop over the days of one season, with the days covered so far *)
Fixpoint cover_days (from through : string) (days covered : list string) : option (list string) :=
  match days with
  | [] => Some covered
  | day :: rest =>
      if inSeason day from through then
        guard? negb (existsb (String.eqb day) covered) in
        cover_days from through rest (day :: covered)
      else cover_days from through rest covered
  end.

Fixpoint cover_seasons (capacity : Z) (raw : list jsval) (covered : list string) : option (list SeasonPrice) :=
  match raw with
  | [] => Some []
  | r :: rest =>
      let? s := parse_season capacity r in
      let? covered := cover_days (from s) (through s) year_days covered in
      let? seasons := cover_seasons capacity rest covered in
      Some (s :: seasons)
  end.

(** [new Set(prices.map((p) => p.mode)).size <= 1] *)
Definition one_mode (prices : list RoomPrice) : bool :=
  match prices with
  | [] => true
  | p :: rest => forallb (fun q => bool_decide (mode q = mode p)) rest
  end.

Definition validCalendar (value : jsval) (capacity : Z) : option PricingCalendar :=
  guard? pricingObject value && pricingKeys value ["base"; "months"; "seasons"; "weekdays"; "dates"] in
  let? base := as_nullable (fun v => parseRoomPrice v capacity) (get value "base") in
  let? raw_months := as_array (get value "months") in
  let? raw_seasons := as_array (get value "seasons") in
  let? raw_weekdays := as_array (get value "weekdays") in
  let? raw_dates := as_array (get value "dates") in
  let? months := traverse (parse_month capacity) raw_months in
  guard? unique Z.eqb (month <$> months) in
  let? dates := traverse (parse_date_price capacity) raw_dates in
  guard? unique String.eqb (date <$> dates) in
  let? weekdays := traverse parse_weekday raw_weekdays in
  guard? unique Z.eqb (day <$> weekdays) in
  let? seasons := cover_seasons capacity raw_seasons [] in
  guard? one_mode ((match base with Some p => [p] | None => [] end) ++ (monthPrice <$> months) ++
                   (seasonPrice <$> seasons)) in
  Some {| base := base; months := months; seasons := seasons; weekdays := weekdays; dates := dates |}.

(** ** Restrictions *)

Definition validRestrictionRules (r : jsval) : option PricingRestrictions :=
  guard? pricingObject r &&
         pricingKeys r ["minArrivalNights"; "maxStayNights"; "closedToArrival"; "closedToDeparture"; "stopSell"] in
  let? least := pricingInteger (get r "minArrivalNights") 1 in
  let? most := as_nullable (fun v => pricingInteger v least) (get r "maxStayNights") in
  let? arrival := as_bool (get r "closedToArrival") in
  let? departure := as_bool (get r "closedToDeparture") in
  let? stop := as_bool (get r "stopSell") in
  Some {| minArrivalNights := least; maxStayNights := most; closedToArrival := arrival;
          closedToDeparture := departure; stopSell := stop |}.

Definition parse_season_rules (r : jsval) : option PricingRestrictions :=
  guard? pricingObject r && pricingKeys r ["from"; "through"; "rules"] in
  validRestrictionRules (get r "rules").

Definition parse_date_rules (r : jsval) : option PricingRestrictions :=
  guard? pricingObject r && pricingKeys r ["date"; "rules"] in
  validRestrictionRules (get r "rules").

(** The placeholder price of the calendar the restrictions' dates are checked as *)
Definition placeholder_price : jsval := obj [("mode", VString "flat"); ("amountMinor", VString "1")].

Definition restriction_calendar (raw_seasons raw_dates : list jsval) : jsval :=
  obj [("base", VNull); ("months", arr []); ("weekdays", arr []);
       ("seasons", arr ((fun r => obj [("name", VString "restriction"); ("tier", VString "restriction");
                                       ("from", get r "from"); ("through", get r "through");
                                       ("price", placeholder_price)]) <$> raw_seasons));
       ("dates", arr ((fun r => obj [("date", get r "date"); ("price", placeholder_price)]) <$> raw_dates))].

Definition validRestrictions (value : jsval) : option OfferRestrictions :=
  guard? pricingObject value in
  if is_str (get value "kind") "inherit" then guard? pricingKeys value ["kind"] in Some inherit
  else
    guard? is_str (get value "kind") "own" && pricingKeys value ["kind"; "rules"; "seasons"; "dates"] in
    let? rules := validRestrictionRules (get value "rules") in
    let? raw_seasons := as_array (get value "seasons") in
    let? raw_dates := as_array (get value "dates") in
    let? season_rules := traverse parse_season_rules raw_seasons in
    let? date_rules := traverse parse_date_rules raw_dates in
    let? calendar := validCalendar (restriction_calendar raw_seasons raw_dates) 1 in
    Some (own rules
            (zip_with (fun s r => {| rulesFrom := from s; rulesThrough := through s; seasonRules := r |})
               (seasons calendar) season_rules)
            (zip_with (fun d r => {| rulesDate := date d; dateRules := r |}) (dates calendar) date_rules)).

(** ** Meals *)

Definition meal_kind (v : jsval) : option MealKind :=
  if is_str v "room_only" then Some room_only
  else if is_str v "breakfast" then Some breakfast
  else if is_str v "half_board" then Some half_board
  else if is_str v "full_board" then Some full_board
  else if is_str v "all_inclusive" then Some all_inclusive else None.

Definition parse_charge (v : jsval) (bandCount : nat) : option MealCharge :=
  guard? pricingObject v in
  if is_str (get v "kind") "room" then
    guard? pricingKeys v ["kind"; "amountMinor"] in
    let? amount := minor (get v "amountMinor") in
    Some (room_charge amount)
  else
    guard? is_str (get v "kind") "person" && pricingKeys v ["kind"; "adultMinor"; "childBandAmountsMinor"] in
    let? adult := minor (get v "adultMinor") in
    let? raw := as_array (get v "childBandAmountsMinor") in
    guard? Nat.eqb (length raw) bandCount in
    let? amounts := traverse minor raw in
    Some (person_charge adult amounts).

(** [kind !== "room_only" || (charge.kind === "room" && charge.amountMinor === "0")] *)
Definition charge_fits (kind : MealKind) (c : MealCharge) : bool :=
  match kind, c with
  | room_only, room_charge amount => String.eqb amount "0"
  | room_only, person_charge _ _ => false
  | _, _ => true
  end.

Definition optional_key (v : jsval) (k : string) : list string := if has_own v k then [k] else [].

Definition parse_meal (v : jsval) (bandCount : nat) : option PricingMeal :=
  guard? pricingObject v && pricingKeys v (["kind"; "charge"] ++ optional_key v "description") in
  let? described := if has_own v "description" then option_map Some (mealDescription (get v "description"))
                    else Some None in
  let? kind := meal_kind (get v "kind") in
  let? c := parse_charge (get v "charge") bandCount in
  guard? charge_fits kind c in
  Some {| mealKind := kind; charge := c; description := described |}.

(** ** Offers *)

Definition parse_sale (v : jsval) : option PricingOfferSale :=
  if is_str v "channels_only" then Some channels_only
  else if is_str v "not_sold" then Some not_sold else None.

(** [validCalendar({ base: null, ..., dates: price.dateOverrides })] *)
Definition overrides_calendar (dateOverrides : jsval) : jsval :=
  obj [("base", VNull); ("months", arr []); ("seasons", arr []); ("weekdays", arr []); ("dates", dateOverrides)].

Definition parse_price (v : jsval) (adultCapacity : Z) (restrictions : OfferRestrictions) : option OfferPrice :=
  guard? pricingObject v in
  if is_str (get v "kind") "independent" then
    guard? pricingKeys v ["kind"; "calendar"] in
    let? calendar := validCalendar (get v "calendar") adultCapacity in
    guard? match restrictions with own _ _ _ => true | inherit => false end in
    Some (independent calendar)
  else
    guard? is_str (get v "kind") "linked" &&
           pricingKeys v ["kind"; "parentId"; "adjustment"; "dateOverrides"] in
    let? parent := text (get v "parentId") in
    let? adjustment := parsePricingAdjustment (get v "adjustment") in
    let? calendar := validCalendar (overrides_calendar (get v "dateOverrides")) adultCapacity in
    Some (linked parent adjustment (dates calendar)).

Definition parse_offer (v : jsval) (adultCapacity : Z) (bandCount : nat) : option PricingOffer :=
  guard? pricingObject v &&
         pricingKeys v (["id"; "termsRevision"; "meal"; "price"; "restrictions"] ++ optional_key v "sale") in
  let? sold := if has_own v "sale" then option_map Some (parse_sale (get v "sale")) else Some None in
  let? id := text (get v "id") in
  let? terms := text (get v "termsRevision") in
  let? restrictions := validRestrictions (get v "restrictions") in
  let? meal := parse_meal (get v "meal") bandCount in
  let? price := parse_price (get v "price") adultCapacity restrictions in
  Some {| offerId := id; termsRevision := terms; sale := sold; meal := meal; price := price;
          restrictions := restrictions |}.

(** The loop over the offers, with the [Map] of those read *)
Fixpoint parse_offers (raw : list jsval) (adultCapacity : Z) (bandCount : nat)
    (offers : list (string * PricingOffer)) : option (list (string * PricingOffer)) :=
  match raw with
  | [] => Some offers
  | v :: rest =>
      let? offer := parse_offer v adultCapacity bandCount in
      guard? match map_get offers (offerId offer) with Some _ => false | None => true end in
      parse_offers rest adultCapacity bandCount (map_set offers (offerId offer) offer)
  end.

(** ** Links

    Following the links from one offer: [Some true] at an independent offer,
    [Some false] at a cycle or an unknown parent, [None] when the fuel is out.
    One more than the offers is enough ([follow_links_fuel]). *)
Fixpoint follow_links (fuel : nat) (offers : list (string * PricingOffer)) (seen : list string)
    (current : PricingOffer) : option bool :=
  match fuel with
  | O => None
  | S fuel =>
      match price current with
      | independent _ => Some true
      | linked parentId _ _ =>
          if existsb (String.eqb (offerId current)) seen then Some false
          else
            match map_get offers parentId with
            | None => Some false
            | Some parent => follow_links fuel offers (offerId current :: seen) parent
            end
      end
  end.

Definition links_sound (offers : list (string * PricingOffer)) : bool :=
  forallb (fun start => match follow_links (S (length offers)) offers [] start with
                        | Some b => b
                        | None => false
                        end) (map_values offers).

(** ** Whole units *)

Fixpoint ends_with (suffix s : string) : bool :=
  String.eqb s suffix || match s with String _ r => ends_with suffix r | EmptyString => false end.

(** A decimal integer without leading zeros, with an optional minus sign *)
Definition signed_decimal (s : string) : bool :=
  match s with
  | String c r => if is_char "-" c then canonical_decimal r else canonical_decimal s
  | EmptyString => false
  end.

Definition whole_unit (step : Z) (amount : jsval) : bool :=
  match amount with
  | VString s => signed_decimal s && (Z.rem (BigInt s) step =? 0)
  | _ => false
  end.

Definition whole_units (step : Z) (item : jsval) : bool :=
  match as_array item with
  | Some l => forallb (whole_unit step) l
  | None => whole_unit step item
  end.

Fixpoint whole_unit_values (value : jsval) (step : Z) : bool :=
  match value with
  | VArray _ elems _ =>
      (fix items l := match l with
                      | [] => true
                      | (_, w) :: r => whole_unit_values w step && items r
                      end) elems
  | VObject _ props =>
      (fix entries l := match l with
                        | [] => true
                        | (KString k, (pk, w)) :: r =>
                            (negb (pk_enumerable pk) ||
                             (if ends_with "Minor" k then whole_units step w else whole_unit_values w step)) &&
                            entries r
                        | _ :: r => entries r
                        end) props
  | _ => true
  end.

Definition wholeUnitAmounts (value : jsval) (step : Z) : bool :=
  if step =? 1 then true else whole_unit_values value step.

(** ** The snapshot *)

Definition parse_capacity (v : jsval) : option PricingCapacity :=
  guard? pricingObject v && pricingKeys v ["total"; "adults"; "children"] in
  let? t := pricingInteger (get v "total") 1 in
  let? a := pricingInteger (get v "adults") 1 in
  let? c := pricingInteger (get v "children") 0 in
  guard? a <=? t in
  Some {| total := t; capacityAdults := a; capacityChildren := c |}.

(** The loop over the bands, which cover the ages from [nextAge] on *)
Fixpoint parse_bands (adultFromAge nextAge : Z) (raw : list jsval) : option (list ChildBand * Z) :=
  match raw with
  | [] => Some ([], nextAge)
  | v :: rest =>
      guard? pricingObject v && pricingKeys v ["fromAge"; "throughAge"; "nightlyMinor"; "countsTowardCapacity"] in
      guard? match get v "fromAge" with VInt a => a =? nextAge | _ => false end in
      let? last := pricingInteger (get v "throughAge") nextAge in
      guard? last <? adultFromAge in
      let? nightly := minor (get v "nightlyMinor") in
      let? counts := as_bool (get v "countsTowardCapacity") in
      let? (bands, nextAge') := parse_bands adultFromAge (last + 1) rest in
      Some ({| fromAge := nextAge; throughAge := last; nightlyMinor := nightly;
               countsTowardCapacity := counts |} :: bands, nextAge')
  end.

Definition parse_children (v : jsval) : option PricingChildPolicy :=
  guard? pricingObject v && pricingKeys v ["adultFromAge"; "bands"] in
  let? adult := pricingInteger (get v "adultFromAge") 1 in
  guard? adult <=? 18 in
  let? raw := as_array (get v "bands") in
  let? (bands, nextAge) := parse_bands adult 0 raw in
  guard? nextAge =? adult in
  Some {| adultFromAge := adult; bands := bands |}.

Definition parsePricingConfiguration `{Currencies} (value : jsval) : option PricingConfiguration :=
  guard? pricingObject value &&
         pricingKeys value ["version"; "propertyId"; "roomTypeId"; "revision"; "currency"; "capacity";
                            "children"; "offers"] &&
         is_str (get value "version") REPLACEMENT_PRICING_VERSION in
  let? propertyId := text (get value "propertyId") in
  let? roomTypeId := text (get value "roomTypeId") in
  let? revision := pricingInteger (get value "revision") 1 in
  let? currency := as_string (get value "currency") in
  let? _ := pricingCurrencyScale currency in
  let? capacity := parse_capacity (get value "capacity") in
  let? children := parse_children (get value "children") in
  let? raw := as_array (get value "offers") in
  guard? negb (Nat.eqb (length raw) 0) in
  let? offers := parse_offers raw (capacityAdults capacity) (length (bands children)) [] in
  guard? existsb pricingOfferOnBookingPage (map_values offers) && links_sound offers &&
         wholeUnitAmounts value (pricingAmountStep currency) in
  Some {| propertyId := propertyId; roomTypeId := roomTypeId; revision := revision; currency := currency;
          capacity := capacity; children := children; offers := map_values offers |}.
