(* ===== verification/PricingCalculator.v ===== *)
(** * The price of a room stay

    packages/domain-pms/src/replacementPricingCalculator.ts: the nights of a
    stay priced from a configuration, with the links between offers, the
    restrictions and the meals.  [throw new Unavailable(reason)] ends the
    evaluation with that reason, so the evaluator returns a reason or a value. *)

From S2P Require Import Prelude JsValue CalendarDates Money ReplacementPricing PricingConfiguration.

(** ** Results *)

Inductive Reason :=
| invalid_configuration
| invalid_request
| invalid_guests
| stale
| missing_terms
| missing_price
| restriction
| overflow.

Inductive SourceKind := from_date | from_season | from_month | from_base | from_weekday | from_linked.

Record Source := { sourceOfferId : string; sourceKind : SourceKind }.

Record PricedRoomNight := {
  nightDate : string;
  roomMinor : string;
  mealMinor : string;
  totalMinor : string;
  sources : list Source
}.

Record ProjectedRoomNight := {
  night : PricedRoomNight;
  nightRestrictions : PricingRestrictions;
  restrictionOfferId : string
}.

(** What a stay and a projected night share; the literal ["version"] is left out. *)
Record Evidence := {
  evPropertyId : string;
  evRoomTypeId : string;
  evOfferId : string;
  evRevision : Z;
  evCurrency : string;
  evGuests : PricingGuests;
  evTermsRevisions : list (string * string)
}.

Record EvaluatedStay := {
  evidence : Evidence;
  nights : list ProjectedRoomNight;
  stayRoomMinor : string;
  stayMealMinor : string;
  stayTotalMinor : string
}.

Record PricedStay := {
  pricedEvidence : Evidence;
  pricedNights : list PricedRoomNight;
  pricedRoomMinor : string;
  pricedMealMinor : string;
  pricedTotalMinor : string
}.

Record ProjectedNight := { projectedEvidence : Evidence; projectedNight : ProjectedRoomNight }.

(** ** Evaluations

    A reason, or a value; [None] where the source would throw a [TypeError] or
    the fuel runs out, which an accepted configuration excludes
    ([evaluation_total]). *)
Definition outcome (A : Type) : Type := option (result Reason A).

Definition ok {A} (x : A) : outcome A := Some (Ok x).
Definition fail {A} (reason : Reason) : outcome A := Some (Err reason).

Definition outcome_bind {A B} (m : outcome A) (k : A -> outcome B) : outcome B :=
  match m with
  | Some (Ok x) => k x
  | Some (Err reason) => Some (Err reason)
  | None => None
  end.

Notation "'let!' x ':=' e 'in' k" := (outcome_bind e (fun x => k))
  (at level 10, x pattern, e at level 100, k at level 200) : vayada_scope.

Definition defined_or_throw {A} (o : option A) : outcome A := option_map Ok o.

(** ** Amounts *)

Definition MAX_AMOUNT : Z := 999999999999999999.

Definition bound (n : Z) : outcome Z := if (n <? 0) || (MAX_AMOUNT <? n) then fail overflow else ok n.

Definition positive (n : Z) : outcome Z := if n <=? 0 then fail missing_price else bound n.

(** The percentage is rounded half up to the price step. *)
Definition adjusted (n : Z) (rule : PricingAdjustment) (step : Z) : Z :=
  match rule with
  | fixed delta => n + BigInt delta
  | percentage points => Z.quot (n * (10000 + points) + 5000 * step) (10000 * step) * step
  end.

Definition adjust (n : Z) (rule : PricingAdjustment) (step : Z) : outcome Z := positive (adjusted n rule step).

(** [amountsMinor[adults - 1]] and [adjustments[adults - 1]] *)
Definition tariff (price : RoomPrice) (adults step : Z) : outcome Z :=
  match price with
  | flat amount => ok (BigInt amount)
  | occupancy amounts =>
      let! amount := defined_or_throw (amounts !! Z.to_nat (adults - 1)) in ok (BigInt amount)
  | per_person unit => positive (BigInt unit * adults)
  | included_guests _ base adjustments =>
      let! rule := defined_or_throw (adjustments !! Z.to_nat (adults - 1)) in adjust (BigInt base) rule step
  end.

(** ** The offer's chain *)

Definition parent_of (offers : list (string * PricingOffer)) (offer : PricingOffer) : option PricingOffer :=
  match price offer with
  | linked parentId _ _ => map_get offers parentId
  | independent _ => None
  end.

(** The terms the request expects of an offer *)
Definition check_terms (expectedTerms : jsval) (offer : PricingOffer) : outcome unit :=
  match get expectedTerms (offerId offer) with
  | VString expected =>
      if String.eqb expected "" then fail missing_terms
      else if negb (String.eqb expected (termsRevision offer)) then fail stale else ok tt
  | _ => fail missing_terms
  end.

(** The selected offer, its parent, and so on, before [chain.reverse()] *)
Fixpoint walk_chain (fuel : nat) (offers : list (string * PricingOffer)) (expectedTerms : jsval)
    (current : PricingOffer) : outcome (list PricingOffer) :=
  match fuel with
  | O => None
  | S fuel =>
      let! _ := check_terms expectedTerms current in
      match parent_of offers current with
      | None => ok [current]
      | Some parent =>
          let! chain := walk_chain fuel offers expectedTerms parent in ok (current :: chain)
      end
  end.

(** The offer whose restrictions hold: the first of the chain with its own *)
Fixpoint restriction_owner (fuel : nat) (offers : list (string * PricingOffer)) (current : PricingOffer)
    : option PricingOffer :=
  match fuel with
  | O => None
  | S fuel =>
      match restrictions current, price current with
      | inherit, linked parentId _ _ =>
          let? parent := map_get offers parentId in restriction_owner fuel offers parent
      | _, _ => Some current
      end
  end.

Definition restrictions_on (owner : PricingOffer) (date_ : string) : outcome PricingRestrictions :=
  match restrictions owner with
  | inherit => fail invalid_configuration
  | own rules ruleSeasons ruleDates =>
      ok (match List.find (fun r => String.eqb (rulesDate r) date_) ruleDates with
          | Some r => dateRules r
          | None =>
              match List.find (fun r => inSeason (substring 5 5 date_) (rulesFrom r) (rulesThrough r)) ruleSeasons with
              | Some r => seasonRules r
              | None => rules
              end
          end)
  end.

(** ** One night *)

Section Night.
Variables (adults step supplement day_ : Z).

Definition overrides_of (offer : PricingOffer) : list DatePrice :=
  match price offer with
  | linked _ _ dateOverrides => dateOverrides
  | independent calendar => dates calendar
  end.

Definition find_override (offer : PricingOffer) : option DatePrice :=
  List.find (fun r => String.eqb (date r) (iso_date day_)) (overrides_of offer).

(** The chain from its last override on, if any *)
Fixpoint last_override (chain : list PricingOffer) : option (list PricingOffer) :=
  match chain with
  | [] => None
  | offer :: rest =>
      match last_override rest with
      | Some l => Some l
      | None => match find_override offer with Some _ => Some (offer :: rest) | None => None end
      end
  end.

(** [(getUTCDay() + 6) % 7]: Monday is 0 *)
Definition weekday_of (n : Z) : Z := ((n + 4) mod 7 + 6) mod 7.

(** The price of a calendar, and where it comes from *)
Definition calendar_source (calendar : PricingCalendar) : option (RoomPrice * SourceKind) :=
  match List.find (fun s => inSeason (substring 5 5 (iso_date day_)) (from s) (through s)) (seasons calendar) with
  | Some s => Some (seasonPrice s, from_season)
  | None =>
      match List.find (fun m => month m =? digits_value (substring 5 2 (iso_date day_))) (months calendar) with
      | Some m => Some (monthPrice m, from_month)
      | None => let? b := base calendar in Some (b, from_base)
      end
  end.

Definition priced_tariff (p : RoomPrice) : outcome Z :=
  let! n := tariff p adults step in positive (n + supplement).

Definition source (offer : PricingOffer) (kind : SourceKind) : Source :=
  {| sourceOfferId := offerId offer; sourceKind := kind |}.

Definition apply_calendar (offer : PricingOffer) (calendar : PricingCalendar) : outcome (Z * list Source) :=
  match calendar_source calendar with
  | None => fail missing_price
  | Some (p, kind) =>
      let! n := priced_tariff p in
      match List.find (fun w => day w =? weekday_of day_) (weekdays calendar) with
      | None => ok (n, [source offer kind])
      | Some w =>
          let! n := adjust n (weekdayAdjustment w) step in
          ok (n, [source offer kind; source offer from_weekday])
      end
  end.

(** One offer of the chain, given the amount and the sources before it *)
Definition apply_offer (offer : PricingOffer) (amount : Z) (before : list Source) : outcome (Z * list Source) :=
  match find_override offer with
  | Some override =>
      let! n := priced_tariff (datePrice override) in ok (n, [source offer from_date])
  | None =>
      match price offer with
      | linked _ adjustment _ =>
          let! n := adjust amount adjustment step in ok (n, before ++ [source offer from_linked])
      | independent calendar => apply_calendar offer calendar
      end
  end.

Fixpoint apply_chain (chain : list PricingOffer) (amount : Z) (before : list Source) : outcome (Z * list Source) :=
  match chain with
  | [] => ok (amount, before)
  | offer :: rest =>
      let! (amount, before) := apply_offer offer amount before in apply_chain rest amount before
  end.

Definition night_amount (chain : list PricingOffer) : outcome (Z * list Source) :=
  apply_chain (default chain (last_override chain)) 0 [].
End Night.

(** ** Guests and meals *)

Definition young_ages (policy : PricingChildPolicy) (guests : PricingGuests) : list Z :=
  List.filter (fun age => age <? adultFromAge policy) (childAgesAtCheckIn guests).

Definition counted_adults (policy : PricingChildPolicy) (guests : PricingGuests) : Z :=
  guestAdults guests + Z.of_nat (length (childAgesAtCheckIn guests)) -
  Z.of_nat (length (young_ages policy guests)).

(** [bands.findIndex(...)] *)
Fixpoint band_index (bands : list ChildBand) (age : Z) : option nat :=
  match bands with
  | [] => None
  | b :: rest =>
      if (fromAge b <=? age) && (age <=? throughAge b) then Some O
      else let? i := band_index rest age in Some (S i)
  end.

Definition sum_at (amounts : list string) (indexes : list nat) : option Z :=
  let? found := traverse (fun i => amounts !! i) indexes in Some (sumZ (BigInt <$> found)).

Definition supplement_of (policy : PricingChildPolicy) (indexes : list nat) : outcome Z :=
  let! n := defined_or_throw (sum_at (nightlyMinor <$> bands policy) indexes) in bound n.

Definition meal_of (c : MealCharge) (adults : Z) (indexes : list nat) : outcome Z :=
  match c with
  | room_charge amount => bound (BigInt amount)
  | person_charge adult bandAmounts =>
      let! n := defined_or_throw (sum_at bandAmounts indexes) in bound (BigInt adult * adults + n)
  end.

(** ** The stay *)

Inductive Period :=
| stay_period (checkIn checkOut : jsval)
| night_period (date : jsval).

Section Stay.
Variables (step adults supplement meal : Z) (chain : list PricingOffer) (owner : PricingOffer)
  (stayLength : option Z).

(** [rule.stopSell || (rule.maxStayNights !== null && stayLength > rule.maxStayNights)] *)
Definition refused (rule : PricingRestrictions) : bool :=
  match stayLength with
  | None => false
  | Some n => stopSell rule || match maxStayNights rule with Some most => most <? n | None => false end
  end.

Definition price_night (n : Z) : outcome (ProjectedRoomNight * Z) :=
  let! rule := restrictions_on owner (iso_date n) in
  if refused rule then fail restriction
  else
    let! (amount, sources) := night_amount adults step supplement n chain in
    ok ({| night := {| nightDate := iso_date n; roomMinor := Z_to_string amount;
                       mealMinor := Z_to_string meal; totalMinor := Z_to_string (amount + meal);
                       sources := sources |};
           nightRestrictions := rule; restrictionOfferId := offerId owner |}, amount).

(** The loop over the nights, with the totals so far *)
Fixpoint price_nights (days : list Z) (roomTotal mealTotal : Z)
    : outcome (list ProjectedRoomNight * Z * Z) :=
  match days with
  | [] => ok ([], roomTotal, mealTotal)
  | n :: rest =>
      let! (priced, amount) := price_night n in
      let! roomTotal := bound (roomTotal + amount) in
      let! mealTotal := bound (mealTotal + meal) in
      let! _ := bound (amount + meal) in
      let! (nights, roomTotal, mealTotal) := price_nights rest roomTotal mealTotal in
      ok (priced :: nights, roomTotal, mealTotal)
  end.
End Stay.

Definition first_date (period : Period) : jsval :=
  match period with stay_period checkIn _ => checkIn | night_period d => d end.

(** The request's own checks, with the first day and the nights of a stay *)
Definition request_days (period : Period) : option (Z * option Z) :=
  guard? pricingDate (first_date period) in
  let? first := as_string (first_date period) in
  match period with
  | night_period _ => Some (date_parse first, None)
  | stay_period _ checkOut =>
      guard? pricingDate checkOut in
      let? last := as_string checkOut in
      guard? negb (str_le last first) in
      Some (date_parse first, Some (date_parse last - date_parse first))
  end.

Definition valid_request (config : PricingConfiguration) (request : jsval) : option Z :=
  guard? is_object request in
  let? expected := pricingInteger (get request "expectedRevision") 1 in
  guard? is_str (get request "propertyId") (propertyId config) &&
         is_str (get request "roomTypeId") (roomTypeId config) &&
         pricingObject (get request "expectedTermsRevisions") in
  Some expected.

Definition arrival_refused (owner : PricingOffer) (first nights : Z) : outcome bool :=
  let! arrival := restrictions_on owner (iso_date first) in
  if closedToArrival arrival || (nights <? minArrivalNights arrival) then ok true
  else let! departure := restrictions_on owner (iso_date (first + nights)) in
       ok (closedToDeparture departure).

(** The [try] block, for a request that passed the checks *)
Definition evaluate_offer (config : PricingConfiguration) (offers : list (string * PricingOffer))
    (selected : PricingOffer) (expectedTerms : jsval) (guests : PricingGuests) (first : Z)
    (stayLength : option Z) : outcome EvaluatedStay :=
  let step := pricingAmountStep (currency config) in
  let! walked := walk_chain (S (length offers)) offers expectedTerms selected in
  let! owner := defined_or_throw (restriction_owner (S (length offers)) offers selected) in
  let! refused_ := match stayLength with
                   | Some n => arrival_refused owner first n
                   | None => let! _ := restrictions_on owner (iso_date first) in ok false
                   end in
  if refused_ then fail restriction
  else
    let policy := children config in
    let adults := counted_adults policy guests in
    let! indexes := defined_or_throw (traverse (band_index (bands policy)) (young_ages policy guests)) in
    let! supplement := supplement_of policy indexes in
    let! mealMinor := meal_of (charge (meal selected)) adults indexes in
    let! (nights, roomTotal, mealTotal) :=
      price_nights step adults supplement mealMinor (rev walked) owner stayLength
        (seqZ first (default 1 stayLength)) 0 0 in
    let! total := bound (roomTotal + mealTotal) in
    ok {| evidence :=
            {| evPropertyId := propertyId config; evRoomTypeId := roomTypeId config;
               evOfferId := offerId selected; evRevision := revision config; evCurrency := currency config;
               evGuests := guests;
               evTermsRevisions := (fun o => (offerId o, termsRevision o)) <$> walked |};
          nights := nights; stayRoomMinor := Z_to_string roomTotal;
          stayMealMinor := Z_to_string mealTotal; stayTotalMinor := Z_to_string total |}.

Definition offer_map (l : list PricingOffer) : list (string * PricingOffer) :=
  fold_left (fun m o => map_set m (offerId o) o) l [].

Definition evaluateRoomPricing (config : option PricingConfiguration) (request : jsval) (period : Period)
    : outcome EvaluatedStay :=
  match config with
  | None => fail invalid_configuration
  | Some config =>
      match request_days period, valid_request config request with
      | Some (first, stayLength), Some expected =>
          if negb (expected =? revision config) then fail stale
          else
            match validPricingGuests (get request "guests") (capacity config) (children config) with
            | None => fail invalid_guests
            | Some guests =>
                let offers := offer_map (offers config) in
                match (let? id := as_string (get request "offerId") in map_get offers id) with
                | None => fail missing_price
                | Some selected =>
                    evaluate_offer config offers selected (get request "expectedTermsRevisions") guests first stayLength
                end
            end
      | _, _ => fail invalid_request
      end
  end.

(** ** Entry points *)

Definition priced_stay (e : EvaluatedStay) : PricedStay :=
  {| pricedEvidence := evidence e; pricedNights := night <$> nights e;
     pricedRoomMinor := stayRoomMinor e; pricedMealMinor := stayMealMinor e;
     pricedTotalMinor := stayTotalMinor e |}.

Definition calculateReplacementRoomStay `{Currencies} (configuration request : jsval) : outcome PricedStay :=
  let! e := evaluateRoomPricing (parsePricingConfiguration configuration) request
              (stay_period (get request "checkIn") (get request "checkOut")) in
  ok (priced_stay e).

(** [nights[0]] *)
Definition nightProjection (o : outcome EvaluatedStay) : outcome ProjectedNight :=
  let! e := o in
  let! n := defined_or_throw (head (nights e)) in
  ok {| projectedEvidence := evidence e; projectedNight := n |}.

Definition projectReplacementRoomNight `{Currencies} (configuration request : jsval) : outcome ProjectedNight :=
  nightProjection (evaluateRoomPricing (parsePricingConfiguration configuration) request
                     (night_period (get request "date"))).

Definition projectParsedReplacementRoomNight (config : PricingConfiguration) (request : jsval)
    : outcome ProjectedNight :=
  nightProjection (evaluateRoomPricing (Some config) request (night_period (get request "date"))).

Definition projectReplacementRoomNights `{Currencies} (configuration request : jsval) (dates : list string)
    : list (outcome ProjectedNight) :=
  (fun d => nightProjection (evaluateRoomPricing (parsePricingConfiguration configuration) request
                               (night_period (VString d)))) <$> dates.
