(* ===== verification/PricingFacts.v ===== *)
(** * What an accepted configuration guarantees

    The facts about offers, links, bands and price tables that the evaluator
    relies on without checking. *)

From S2P Require Import Prelude JsValue CalendarDates Money ReplacementPricing PricingConfiguration PricingCalculator.

(** ** Calendars *)

Record calendar_ok (capacity : Z) (c : PricingCalendar) : Prop := {
  cal_base : match base c with Some p => price_ok capacity p | None => True end;
  cal_months : Forall (fun m => price_ok capacity (monthPrice m)) (months c);
  cal_seasons : Forall (fun s => price_ok capacity (seasonPrice s)) (seasons c);
  cal_weekdays : Forall (fun w => adjustment_ok (weekdayAdjustment w)) (weekdays c);
  cal_dates : Forall (fun d => price_ok capacity (datePrice d)) (dates c)
}.

Lemma parse_season_ok capacity v s : parse_season capacity v = Some s -> price_ok capacity (seasonPrice s).
Proof.
  unfold parse_season. intros H. follow H.
  match goal with E : parseRoomPrice _ _ = Some _ |- _ => by apply parse_price_ok in E as [E _] end.
Qed.

Lemma cover_seasons_ok capacity raw : forall covered ss, cover_seasons capacity raw covered = Some ss ->
  Forall (fun s => price_ok capacity (seasonPrice s)) ss.
Proof.
  induction raw as [|v raw IH]; intros covered ss; cbn [cover_seasons]; [intros [= <-]; constructor|].
  destruct (parse_season capacity v) as [s|] eqn:E; [|done].
  destruct (cover_days _ _ _ _) as [covered'|]; [|done].
  destruct (cover_seasons capacity raw covered') as [ss'|] eqn:E'; [|done]. intros [= <-].
  constructor; [by eapply parse_season_ok | by eapply IH].
Qed.

Lemma parse_month_ok capacity v m : parse_month capacity v = Some m -> price_ok capacity (monthPrice m).
Proof.
  unfold parse_month. intros H. follow H.
  match goal with E : parseRoomPrice _ _ = Some _ |- _ => by apply parse_price_ok in E as [E _] end.
Qed.

Lemma parse_date_price_ok capacity v d : parse_date_price capacity v = Some d -> price_ok capacity (datePrice d).
Proof.
  unfold parse_date_price. intros H. follow H.
  match goal with E : parseRoomPrice _ _ = Some _ |- _ => by apply parse_price_ok in E as [E _] end.
Qed.

Lemma parse_weekday_ok v w : parse_weekday v = Some w -> adjustment_ok (weekdayAdjustment w).
Proof.
  unfold parse_weekday. intros H. follow H.
  match goal with E : parsePricingAdjustment _ = Some _ |- _ => by apply parse_adjustment_ok in E end.
Qed.

Lemma nullable_price_ok capacity v p :
  as_nullable (fun v => parseRoomPrice v capacity) v = Some (Some p) -> price_ok capacity p.
Proof.
  unfold as_nullable. destruct (is_null v); [done|]. destruct (parseRoomPrice v capacity) as [q|] eqn:E; [|done].
  intros [= ->]. by apply parse_price_ok in E as [E _].
Qed.

Lemma valid_calendar_ok capacity v c : validCalendar v capacity = Some c -> calendar_ok capacity c.
Proof.
  unfold validCalendar. intros H. follow H; (split; cbn; [try exact I; by eapply nullable_price_ok|..]);
    first [by eapply cover_seasons_ok | eapply traverse_Forall; [apply parse_month_ok | done]
          | eapply traverse_Forall; [apply parse_weekday_ok | done]
          | eapply traverse_Forall; [apply parse_date_price_ok | done]].
Qed.

(** ** Offers *)

Definition minor_ok (s : string) : Prop := isMinorAmount (VString s) = true.

Definition charge_ok (bandCount : nat) (c : MealCharge) : Prop :=
  match c with
  | room_charge amount => minor_ok amount
  | person_charge adult amounts => minor_ok adult /\ length amounts = bandCount /\ Forall minor_ok amounts
  end.

Record offer_ok (capacity : Z) (bandCount : nat) (o : PricingOffer) : Prop := {
  of_price : match price o with
             | independent calendar => calendar_ok capacity calendar /\ restrictions o <> inherit
             | linked _ adjustment overrides =>
                 adjustment_ok adjustment /\ Forall (fun d => price_ok capacity (datePrice d)) overrides
             end;
  of_charge : charge_ok bandCount (charge (meal o))
}.

Lemma parse_charge_ok v n c : parse_charge v n = Some c -> charge_ok n c.
Proof.
  unfold parse_charge. destruct (pricingObject v); [|done]. if_branch E; intros H; follow H.
  - match goal with E : minor _ = Some _ |- _ => by apply minor_Some in E as [_ E] end.
  - repeat match goal with E : minor _ = Some _ |- _ => apply minor_Some in E as [_ E] end.
    match goal with E : Nat.eqb _ _ = true |- _ => apply Nat.eqb_eq in E; rename E into En end.
    match goal with E : traverse minor _ = Some _ |- _ => rename E into Et end.
    cbn. split_and!; [done | by rewrite (traverse_length _ _ _ Et)|].
    eapply traverse_Forall; [|exact Et]. intros x y Hx. by apply minor_Some in Hx as [_ Hx].
Qed.

Lemma parse_meal_ok v n m : parse_meal v n = Some m -> charge_ok n (charge m).
Proof. unfold parse_meal. intros H. follow H; by eapply parse_charge_ok. Qed.

Lemma parse_offer_price_ok v capacity rs p : parse_price v capacity rs = Some p ->
  match p with
  | independent calendar => calendar_ok capacity calendar /\ rs <> inherit
  | linked _ adjustment overrides =>
      adjustment_ok adjustment /\ Forall (fun d => price_ok capacity (datePrice d)) overrides
  end.
Proof.
  unfold parse_price. destruct (pricingObject v); [|done]. if_branch E; intros H; follow H.
  - split; [by eapply valid_calendar_ok | congruence].
  - split; [by eapply parse_adjustment_ok|].
    match goal with E : validCalendar _ _ = Some _ |- _ => by apply valid_calendar_ok in E as [_ _ _ _ E] end.
Qed.

Lemma parse_offer_ok v capacity n o : parse_offer v capacity n = Some o -> offer_ok capacity n o.
Proof.
  unfold parse_offer. intros H.
  follow H; (split; cbn [price restrictions meal]; [by eapply parse_offer_price_ok | by eapply parse_meal_ok]).
Qed.

(** ** The map of offers *)

Record offers_ok (capacity : Z) (bandCount : nat) (m : list (string * PricingOffer)) : Prop := {
  om_keys : NoDup m.*1;
  om_ids : Forall (fun e => fst e = offerId (snd e)) m;
  om_offers : Forall (fun e => offer_ok capacity bandCount (snd e)) m
}.

Lemma map_set_fresh {V} (m : list (string * V)) k v : map_get m k = None -> map_set m k v = m ++ [(k, v)].
Proof.
  induction m as [|[k' v'] m IH]; cbn [map_get map_set]; [done|].
  destruct (String.eqb k' k); [done|]. intros H. by rewrite IH.
Qed.

Lemma parse_offers_ok raw capacity n : forall m m', parse_offers raw capacity n m = Some m' ->
  offers_ok capacity n m -> offers_ok capacity n m'.
Proof.
  induction raw as [|v raw IH]; intros m m'; cbn [parse_offers]; [by intros [= <-]|].
  destruct (parse_offer v capacity n) as [o|] eqn:Eo; [|done].
  destruct (map_get m (offerId o)) eqn:Eg; [done|]. intros H [Hk Hi Ho]. apply (IH _ _ H).
  rewrite map_set_fresh by done. split.
  - rewrite fmap_app. apply NoDup_app. split; [done|]. split; [|apply NoDup_singleton].
    intros k Hin ->%list_elem_of_singleton. by apply map_get_None in Eg.
  - apply Forall_app. split; [done | by apply Forall_singleton].
  - apply Forall_app. split; [done|]. apply Forall_singleton. by eapply parse_offer_ok.
Qed.

(** The map read off the list of offers again is the same map. *)
Lemma offer_map_values capacity n m : offers_ok capacity n m -> offer_map (map_values m) = m.
Proof.
  intros [Hk Hi _]. unfold offer_map.
  assert (Hgo : forall before, NoDup (before ++ m).*1 ->
            fold_left (fun m o => map_set m (offerId o) o) (map_values m) before = before ++ m).
  { clear Hk. induction Hi as [|[k o] m Hid _ IH]; intros before Hn.
    - cbn. by rewrite app_nil_r.
    - cbn in Hid. subst k. change (map_values ((offerId o, o) :: m)) with (o :: map_values m). cbn [fold_left].
      rewrite map_set_fresh.
      + rewrite (IH (before ++ [(offerId o, o)])); [by rewrite <- app_assoc|]. by rewrite <- app_assoc.
      + apply map_get_None. rewrite fmap_app in Hn. apply NoDup_app in Hn as (_ & Hn & _). intros Hin.
        apply (Hn _ Hin). cbn. by left. }
  by apply (Hgo []).
Qed.

(** ** Links *)

(** [reaches m n o]: after [n] links the offer's prices are independent. *)
Inductive reaches (m : list (string * PricingOffer)) : nat -> PricingOffer -> Prop :=
| reaches_independent o calendar : price o = independent calendar -> reaches m 0 o
| reaches_linked n o parentId adjustment overrides parent :
    price o = linked parentId adjustment overrides -> map_get m parentId = Some parent ->
    reaches m n parent -> reaches m (S n) o.

Lemma follow_links_true fuel m : forall seen o, follow_links fuel m seen o = Some true ->
  exists n, (n < fuel)%nat /\ reaches m n o.
Proof.
  induction fuel as [|fuel IH]; intros seen o; cbn [follow_links]; [done|].
  destruct (price o) as [calendar|parentId adjustment overrides] eqn:Ep.
  - intros _. exists 0%nat. split; [lia | by eapply reaches_independent].
  - destruct (existsb _ seen); [done|]. destruct (map_get m parentId) as [parent|] eqn:Em; [|done].
    intros (n & Hn & Hr)%IH. exists (S n). split; [lia | by eapply reaches_linked].
Qed.

Lemma parse_links m : links_sound m = true -> forall o, o ∈ map_values m ->
  exists n, (n <= length m)%nat /\ reaches m n o.
Proof.
  unfold links_sound. rewrite forallb_forall. intros H o Ho%list_elem_of_In. specialize (H o Ho).
  destruct (follow_links _ _ _ _) as [[]|] eqn:E; [|done..].
  apply follow_links_true in E as (n & Hn & Hr). exists n. split; [lia | done].
Qed.

(** Following links never runs out of fuel: every step meets a new offer. *)
Lemma follow_links_fuel capacity n m : offers_ok capacity n m -> forall fuel seen o,
  o ∈ map_values m -> NoDup seen -> seen ⊆ m.*1 -> (length m - length seen < fuel)%nat ->
  follow_links fuel m seen o <> None.
Proof.
  intros [Hk Hi _]. assert (Hkey : forall o, o ∈ map_values m -> offerId o ∈ m.*1).
  { intros o (e & -> & He)%list_elem_of_fmap. rewrite Forall_forall in Hi. rewrite <- (Hi e He).
    by apply list_elem_of_fmap_2 with (f := fst). }
  induction fuel as [|fuel IH]; intros seen o Ho Hn Hs Hf; [lia|]. cbn [follow_links].
  destruct (price o) as [|parentId adjustment overrides]; [done|].
  destruct (existsb (String.eqb (offerId o)) seen) eqn:E; [done|].
  destruct (map_get m parentId) as [parent|] eqn:Em; [|done].
  assert (Hnew : offerId o ∉ seen).
  { intros Hin. rewrite <- not_true_iff_false in E. apply E, existsb_exists. exists (offerId o).
    split; [by apply list_elem_of_In | apply String.eqb_refl]. }
  assert (Hs' : offerId o :: seen ⊆ m.*1) by (intros k [->|Hin]%elem_of_cons; [by apply Hkey | by apply Hs]).
  assert (Hl : (length (offerId o :: seen) <= length m)%nat).
  { rewrite <- (length_fmap fst m). apply submseteq_length, NoDup_submseteq; [by apply NoDup_cons | done]. }
  apply IH; [|by apply NoDup_cons | done | cbn [length] in *; lia].
  apply map_get_elem in Em. apply list_elem_of_fmap. by exists (parentId, parent).
Qed.

(** ** Bands and guests *)

Record band_ok (b : ChildBand) : Prop := { bd_nightly : minor_ok (nightlyMinor b) }.

Lemma parse_bands_ok adult raw : forall next bands next', parse_bands adult next raw = Some (bands, next') ->
  Forall band_ok bands /\ length bands = length raw /\
  forall age, next <= age < next' -> exists i, band_index bands age = Some i.
Proof.
  induction raw as [|v raw IH]; intros next bs next'; cbn [parse_bands].
  - intros [= <- <-]. split_and!; [constructor | done | lia].
  - intros H. follow H.
    match goal with E : parse_bands _ _ _ = Some _ |- _ => destruct (IH _ _ _ E) as (Hb & Hl & Hc) end.
    match goal with E : minor _ = Some _ |- _ => apply minor_Some in E as [_ E]; rename E into Em end.
    split_and!; [constructor; [by split | done] | cbn; by f_equal|].
    intros age Ha. cbn [band_index fromAge throughAge].
    match goal with |- context [(_ <=? age) && (age <=? ?last)] => destruct (Z.leb_spec age last) as [Hle|Hgt] end.
    + rewrite (proj2 (Z.leb_le _ _)) by lia. by exists 0%nat.
    + rewrite andb_false_r. destruct (Hc age ltac:(lia)) as [i ->]. by exists (S i).
Qed.

Record children_ok (c : PricingChildPolicy) : Prop := {
  cp_adult : 1 <= adultFromAge c <= 18;
  cp_bands : Forall band_ok (bands c);
  cp_cover : forall age, 0 <= age < adultFromAge c -> exists i, band_index (bands c) age = Some i
}.

Lemma parse_children_ok v c : parse_children v = Some c -> children_ok c.
Proof.
  unfold parse_children. intros H. follow H. bool_to_prop.
  match goal with E : pricingInteger _ _ = Some _ |- _ => apply pricingInteger_Some in E as (_ & _ & E) end.
  match goal with E : parse_bands _ _ _ = Some _ |- _ => destruct (parse_bands_ok _ _ _ _ _ E) as (Hb & _ & Hc) end.
  split; cbn; [lia | done|]. subst. intros age Ha. by apply Hc.
Qed.

Lemma band_index_lt bs age i : band_index bs age = Some i -> (i < length bs)%nat.
Proof.
  revert i. induction bs as [|b bs IH]; intros i; cbn [band_index]; [done|].
  destruct (_ && _); [intros [= <-]; cbn; lia|].
  destruct (band_index bs age) as [j|] eqn:E; [|done]. intros [= <-]. cbn. specialize (IH j eq_refl). lia.
Qed.

Definition old_ages (policy : PricingChildPolicy) (ages : list Z) : list Z :=
  List.filter (fun age => adultFromAge policy <=? age) ages.

Lemma old_young policy ages :
  Nat.add (length (old_ages policy ages)) (length (List.filter (fun age => age <? adultFromAge policy) ages)) = length ages.
Proof.
  unfold old_ages. induction ages as [|age ages IH]; [done|]. cbn [List.filter].
  destruct (Z.leb_spec (adultFromAge policy) age), (Z.ltb_spec age (adultFromAge policy)); cbn; lia.
Qed.

Lemma count_guests_spec policy raw : forall adults counted grown counted',
  count_guests policy raw adults counted = Some (grown, counted') ->
  exists ages, traverse (fun v => pricingInteger v 0) raw = Some ages /\
    grown = adults + Z.of_nat (length (old_ages policy ages)) /\ Forall (fun age => 0 <= age <= 17) ages /\
    Forall (fun age => adultFromAge policy <= age \/ exists i, band_index (bands policy) age = Some i) ages.
Proof.
  assert (Hfind : forall age b, List.find (fun b => (fromAge b <=? age) && (age <=? throughAge b)) (bands policy) = Some b ->
            exists i, band_index (bands policy) age = Some i).
  { intros age b. induction (bands policy) as [|x bs IH]; cbn [List.find band_index]; [done|].
    destruct (_ && _); [by exists 0%nat|]. intros [i ->]%IH. by exists (S i). }
  induction raw as [|v raw IH]; intros adults counted grown counted'; cbn [count_guests].
  - intros [= <- <-]. exists []. split_and!; [done | cbn; lia | constructor | constructor].
  - destruct (pricingInteger v 0) as [age|] eqn:E; [|done]. pose proof E as (_ & _ & H0)%pricingInteger_Some.
    destruct (Z.leb_spec age 17) as [H17|]; [|done]. cbn [traverse].
    destruct (Z.leb_spec (adultFromAge policy) age) as [Hold|Hyoung].
    + intros (ages & Et & Eg & Ha & Hb)%IH. exists (age :: ages). rewrite E, Et. split_and!; [done| | |].
      * cbn [old_ages List.filter]. rewrite (proj2 (Z.leb_le _ _) Hold). cbn [length]. unfold old_ages in Eg. lia.
      * by constructor.
      * constructor; [by left | done].
    + destruct (List.find _ _) as [b|] eqn:Ef; [|done]. intros (ages & Et & Eg & Ha & Hb)%IH.
      exists (age :: ages). rewrite E, Et. split_and!; [done| | |].
      * cbn [old_ages List.filter]. rewrite (proj2 (Z.leb_gt _ _) Hyoung). exact Eg.
      * by constructor.
      * constructor; [right; by eapply Hfind | done].
Qed.

(** Guests the room takes *)
Record guests_ok (capacity : PricingCapacity) (policy : PricingChildPolicy) (g : PricingGuests) : Prop := {
  gs_adults : 1 <= counted_adults policy g <= capacityAdults capacity;
  gs_young : exists indexes, traverse (band_index (bands policy)) (young_ages policy g) = Some indexes /\
               Forall (fun i => (i < length (bands policy))%nat) indexes
}.

Lemma valid_guests_ok v capacity policy g : validPricingGuests v capacity policy = Some g ->
  guests_ok capacity policy g.
Proof.
  unfold validPricingGuests. intros H. follow H. bool_to_prop.
  match goal with E : count_guests _ _ _ _ = Some _ |- _ =>
    destruct (count_guests_spec _ _ _ _ _ _ E) as (ages & Et & -> & Ha & Hb) end.
  match goal with E : traverse _ _ = Some ?l |- _ => rewrite Et in E; injection E as <- end.
  repeat match goal with E : pricingInteger _ _ = Some _ |- _ => apply pricingInteger_Some in E as (_ & _ & E) end.
  split.
  - unfold counted_adults, young_ages. cbn [guestAdults childAgesAtCheckIn].
    pose proof (old_young policy ages). lia.
  - unfold young_ages. cbn [childAgesAtCheckIn]. clear -Hb. induction Hb as [|age ages Hage _ (indexes & Ei & Hi)].
    + exists []. by split.
    + cbn [List.filter]. destruct (Z.ltb_spec age (adultFromAge policy)); [|by exists indexes].
      destruct Hage as [?|[i Hage]]; [lia|]. exists (i :: indexes). cbn [traverse]. rewrite Hage, Ei. split; [done|].
      constructor; [by eapply band_index_lt | done].
Qed.

(** * Evaluating an accepted configuration

    The evaluator never runs into what the source asserts away with [!] or [as]:
    on an accepted configuration every request gets a price or a reason other
    than an invalid configuration. *)

(** ** Accepted configurations *)

Record config_ok (config : PricingConfiguration) : Prop := {
  cf_offers : exists m, offers config = map_values m /\
    offers_ok (capacityAdults (capacity config)) (length (bands (children config))) m /\
    forall o, o ∈ map_values m -> exists n, (n <= length m)%nat /\ reaches m n o;
  cf_children : children_ok (children config)
}.

Lemma parse_configuration_ok `{Currencies} v config : parsePricingConfiguration v = Some config -> config_ok config.
Proof.
  unfold parsePricingConfiguration. intros Hp. follow Hp. bool_to_prop.
  match goal with E : parse_offers _ _ _ _ = Some ?m |- _ => rename E into Eo; rename m into om end.
  split; cbn.
  - exists om. split; [done|]. split; [|by apply parse_links].
    eapply parse_offers_ok; [exact Eo|]. split; cbn; [apply NoDup_nil_2 | constructor | constructor].
  - by eapply parse_children_ok.
Qed.

(** ** Outcomes *)

Definition fine {A} (o : outcome A) : Prop := o <> None /\ o <> fail invalid_configuration.

Lemma fine_ok {A} (x : A) : fine (ok x).
Proof. split; discriminate. Qed.

Lemma fine_fail {A} reason : reason <> invalid_configuration -> fine (fail reason : outcome A).
Proof. intros H. split; [done|]. by intros [= ->]. Qed.

Lemma fine_bind {A B} (m : outcome A) (k : A -> outcome B) :
  fine m -> (forall x, m = ok x -> fine (k x)) -> fine (let! x := m in k x).
Proof.
  destruct m as [[x|r]|]; cbn; intros [H1 H2] Hk; [by apply Hk | | done]. split; [done|].
  intros [= ->]. by apply H2.
Qed.

Lemma fine_if {A} (b : bool) (m k : outcome A) : fine m -> fine k -> fine (if b then m else k).
Proof. by destruct b. Qed.

Lemma fine_bound n : fine (bound n).
Proof. apply fine_if; [by apply fine_fail | apply fine_ok]. Qed.

Lemma fine_positive n : fine (positive n).
Proof. apply fine_if; [by apply fine_fail | apply fine_bound]. Qed.

Lemma fine_defined {A} (o : option A) : o <> None -> fine (defined_or_throw o).
Proof. destruct o; [intros _; apply fine_ok | done]. Qed.

#[local] Hint Resolve fine_ok fine_fail fine_bind fine_if fine_bound fine_positive fine_defined : core.

Lemma bind_of_ok {A B} (x : A) (k : A -> outcome B) : (let! x := ok x in k x) = k x.
Proof. done. Qed.

Lemma defined_Some {A} (x : A) : defined_or_throw (Some x) = ok x.
Proof. done. Qed.

(** What a successful computation went through *)
Lemma bind_ok {A B} (m : outcome A) (k : A -> outcome B) r :
  (let! x := m in k x) = ok r -> exists x, m = ok x /\ k x = ok r.
Proof. destruct m as [[x|e]|]; cbn; intros H; [by exists x | done | done]. Qed.

Lemma bound_ok n r : bound n = ok r -> r = n /\ 0 <= n <= MAX_AMOUNT.
Proof. unfold bound. if_branch E; intros [= <-]. apply orb_false_iff in E as [E1 E2]. lia. Qed.

Lemma positive_ok n r : positive n = ok r -> r = n /\ 1 <= n <= MAX_AMOUNT.
Proof. unfold positive. destruct (Z.leb_spec n 0); [done|]. intros [-> ?]%bound_ok. lia. Qed.

Lemma bound_value n : 0 <= n <= MAX_AMOUNT -> bound n = ok n.
Proof. intros H. unfold bound. by rewrite (proj2 (Z.ltb_ge _ _)), (proj2 (Z.ltb_ge _ _)) by lia. Qed.

(** ** Prices *)

Section Price.
Variables (capacity_ adults step supplement day_ : Z).
Hypothesis adults_fit : 1 <= adults <= capacity_.

Lemma lookup_fits {A} (l : list A) : Z.of_nat (length l) = capacity_ -> l !! Z.to_nat (adults - 1) <> None.
Proof using adults_fit. intros Hl E. apply lookup_ge_None in E. lia. Qed.

Lemma tariff_fine p : price_ok capacity_ p -> fine (tariff p adults step).
Proof using adults_fit.
  destruct p as [amount|amounts|guests b adjustments|unit_]; cbn; auto.
  - intros [Hl _]. apply fine_bind; auto. by apply fine_defined, lookup_fits.
  - intros (_ & _ & Hl & _). apply fine_bind; [by apply fine_defined, lookup_fits|]. unfold adjust. auto.
Qed.

Lemma priced_tariff_fine p : price_ok capacity_ p -> fine (priced_tariff adults step supplement p).
Proof using adults_fit. intros Hp. apply fine_bind; [by apply tariff_fine | auto]. Qed.

Lemma find_ok {A} (P : A -> Prop) (f : A -> bool) l x : Forall P l -> List.find f l = Some x -> P x.
Proof. intros HP Hf. apply find_some in Hf as [Hin _]. rewrite Forall_forall in HP. by apply HP, list_elem_of_In. Qed.

Lemma calendar_source_ok c p kind : calendar_ok capacity_ c -> calendar_source day_ c = Some (p, kind) ->
  price_ok capacity_ p.
Proof.
  intros [Hb Hm Hs _ _]. unfold calendar_source. destruct (List.find _ (seasons c)) as [s|] eqn:E1.
  - intros [= <- <-]. by eapply (find_ok (fun s => price_ok capacity_ (seasonPrice s))).
  - destruct (List.find _ (months c)) as [m|] eqn:E2.
    + intros [= <- <-]. by eapply (find_ok (fun m => price_ok capacity_ (monthPrice m))).
    + destruct (base c); [|done]. by intros [= <- <-].
Qed.

Lemma apply_offer_fine n o amount before : offer_ok capacity_ n o ->
  fine (apply_offer adults step supplement day_ o amount before).
Proof using adults_fit.
  intros [Hp _]. unfold apply_offer. destruct (find_override day_ o) as [d|] eqn:Ed.
  - apply fine_bind; auto. apply priced_tariff_fine. unfold find_override, overrides_of in Ed.
    destruct (price o); [destruct Hp as [[_ _ _ _ Hd] _] | destruct Hp as [_ Hd]];
      by eapply (find_ok (fun d => price_ok capacity_ (datePrice d))) in Ed.
  - destruct (price o) as [c|parentId adjustment overrides]; [|unfold adjust; auto].
    destruct Hp as [Hc _]. unfold apply_calendar. destruct (calendar_source day_ c) as [[p kind]|] eqn:Es; auto.
    apply fine_bind; [by eapply priced_tariff_fine, calendar_source_ok|]. intros x _.
    destruct (List.find _ _); auto. unfold adjust. auto.
Qed.

Lemma apply_chain_fine n chain : Forall (offer_ok capacity_ n) chain -> forall amount before,
  fine (apply_chain adults step supplement day_ chain amount before).
Proof using adults_fit.
  induction 1 as [|o chain Ho _ IH]; intros amount before; cbn [apply_chain]; auto.
  apply fine_bind; [by eapply apply_offer_fine|]. intros [a s] _. apply IH.
Qed.

Lemma last_override_suffix chain l : last_override day_ chain = Some l -> exists k, chain = k ++ l.
Proof.
  induction chain as [|o chain IH]; cbn [last_override]; [done|].
  destruct (last_override day_ chain) as [l'|]; [intros [= ->]; destruct (IH eq_refl) as [k ->]; by exists (o :: k)|].
  destruct (find_override day_ o); [intros [= <-]; by exists [] | done].
Qed.

Lemma night_amount_fine n chain : Forall (offer_ok capacity_ n) chain ->
  fine (night_amount adults step supplement day_ chain).
Proof using adults_fit.
  intros Hc. unfold night_amount. apply (apply_chain_fine n).
  destruct (last_override day_ chain) as [l|] eqn:E; [|done]. apply last_override_suffix in E as [k ->].
  by apply Forall_app in Hc as [_ Hc].
Qed.
End Price.

(** ** Chains *)

Section Chain.
Variables (capacity_ : Z) (bandCount : nat) (m : list (string * PricingOffer)).
Hypothesis offers_good : offers_ok capacity_ bandCount m.

Lemma offer_good o : o ∈ map_values m -> offer_ok capacity_ bandCount o.
Proof using offers_good.
  intros (e & -> & He)%list_elem_of_fmap. pose proof (om_offers _ _ _ offers_good) as Ho.
  rewrite Forall_forall in Ho. by apply Ho.
Qed.

Lemma get_value k o : map_get m k = Some o -> o ∈ map_values m.
Proof. intros Hg%map_get_elem. apply list_elem_of_fmap. by exists (k, o). Qed.

Lemma check_terms_fine terms o : fine (check_terms terms o).
Proof. unfold check_terms. destruct (get terms (offerId o)); auto. Qed.

Lemma walk_chain_fine terms n o : reaches m n o -> forall fuel, (n < fuel)%nat ->
  fine (walk_chain fuel m terms o).
Proof.
  induction 1 as [o c Ep|n o parentId adjustment overrides parent Ep Em _ IH]; intros [|fuel] Hf;
    [lia| |lia|]; cbn [walk_chain]; apply fine_bind; auto using check_terms_fine; intros _ _; unfold parent_of;
    rewrite Ep; [auto|]. rewrite Em. apply fine_bind; [apply IH; lia | auto].
Qed.

Lemma walk_chain_values terms fuel : forall o chain, walk_chain fuel m terms o = ok chain ->
  o ∈ map_values m -> Forall (fun x => x ∈ map_values m) chain.
Proof.
  induction fuel as [|fuel IH]; intros o chain; cbn [walk_chain]; [done|].
  intros ([] & _ & H)%bind_ok Ho. destruct (parent_of m o) as [parent|] eqn:Ep.
  - apply bind_ok in H as (rest & Hr & [= <-]). constructor; [done|]. apply (IH parent); [done|].
    unfold parent_of in Ep. destruct (price o); [done | by eapply get_value].
  - injection H as <-. by apply Forall_singleton.
Qed.

(** The offer whose restrictions hold has restrictions of its own. *)
Lemma restriction_owner_own n o : reaches m n o -> o ∈ map_values m -> forall fuel, (n < fuel)%nat ->
  exists owner, restriction_owner fuel m o = Some owner /\ restrictions owner <> inherit.
Proof using offers_good.
  induction 1 as [o c Ep|n o parentId adjustment overrides parent Ep Em _ IH]; intros Ho [|fuel] Hf;
    [lia| |lia|]; cbn [restriction_owner]; rewrite Ep.
  - exists o. pose proof (of_price _ _ _ (offer_good o Ho)) as Hp. rewrite Ep in Hp.
    destruct Hp as [_ Hp]. by destruct (restrictions o).
  - destruct (restrictions o) eqn:Er; [exists o; by rewrite Er|]. rewrite Em. apply IH; [by eapply get_value | lia].
Qed.

Lemma restrictions_on_own owner d : restrictions owner <> inherit -> exists rules, restrictions_on owner d = ok rules.
Proof. unfold restrictions_on. destruct (restrictions owner); [by eexists | done]. Qed.
End Chain.

(** ** The whole evaluation *)

Section Stay.
Variables (capacity_ step adults supplement mealMinor : Z) (bandCount : nat) (chain : list PricingOffer)
  (owner : PricingOffer) (stayLength : option Z).
Hypothesis adults_fit : 1 <= adults <= capacity_.
Hypothesis chain_good : Forall (offer_ok capacity_ bandCount) chain.
Hypothesis owner_own : restrictions owner <> inherit.

Lemma price_night_fine n : fine (price_night step adults supplement mealMinor chain owner stayLength n).
Proof using adults_fit chain_good owner_own.
  unfold price_night. destruct (restrictions_on_own owner (iso_date n) owner_own) as [rules ->]. rewrite bind_of_ok.
  apply fine_if; [by apply fine_fail|]. apply fine_bind; [by eapply night_amount_fine|]. intros [a s] _. auto.
Qed.

Lemma price_nights_fine days : forall roomTotal mealTotal,
  fine (price_nights step adults supplement mealMinor chain owner stayLength days roomTotal mealTotal).
Proof using adults_fit chain_good owner_own.
  induction days as [|n days IH]; intros roomTotal mealTotal; cbn [price_nights]; auto.
  apply fine_bind; [apply price_night_fine|]. intros [p a] _. apply fine_bind; auto. intros r _.
  apply fine_bind; auto. intros ml _. apply fine_bind; auto. intros _ _. apply fine_bind; auto. intros [[ns rt] mt] _. auto.
Qed.
End Stay.

Lemma sum_at_Some amounts indexes : Forall (fun i => (i < length amounts)%nat) indexes -> sum_at amounts indexes <> None.
Proof.
  intros Hi. unfold sum_at. assert (Hs : exists l, traverse (fun i => amounts !! i) indexes = Some l).
  { induction Hi as [|i indexes Hi _ [l Hl]]; [by exists []|]. cbn [traverse].
    destruct (lookup_lt_is_Some_2 _ _ Hi) as [x ->]. rewrite Hl. by exists (x :: l). }
  destruct Hs as [l ->]. done.
Qed.

Lemma evaluate_offer_fine config m selected terms guests first stayLength : config_ok config ->
  offers config = map_values m -> offers_ok (capacityAdults (capacity config)) (length (bands (children config))) m ->
  (exists n, (n <= length m)%nat /\ reaches m n selected) -> selected ∈ map_values m ->
  guests_ok (capacity config) (children config) guests ->
  fine (evaluate_offer config m selected terms guests first stayLength).
Proof.
  intros Hc Hoff Hm (n & Hn & Hr) Hs [Ha (indexes & Ei & Hi)]. unfold evaluate_offer.
  apply fine_bind; [by eapply walk_chain_fine; [exact Hr | lia]|]. intros walked Hw.
  destruct (restriction_owner_own _ _ _ Hm n selected Hr Hs (S (length m)) ltac:(lia)) as (owner & -> & Hown).
  rewrite defined_Some, bind_of_ok. apply fine_bind.
  { destruct stayLength as [len|]; [unfold arrival_refused|];
      destruct (restrictions_on_own owner (iso_date first) Hown) as [r ->]; rewrite bind_of_ok; auto.
    apply fine_if; auto. destruct (restrictions_on_own owner (iso_date (first + len)) Hown) as [r' ->].
    rewrite bind_of_ok. auto. }
  intros refused_ _. apply fine_if; auto. cbv zeta. rewrite Ei, defined_Some, bind_of_ok.
  apply fine_bind.
  { apply fine_bind; [|auto]. apply fine_defined, sum_at_Some. by rewrite length_fmap. }
  intros supplement _. apply fine_bind.
  { pose proof (of_charge _ _ _ (offer_good _ _ _ Hm selected Hs)) as Hch. unfold meal_of.
    destruct (charge (meal selected)) as [a|adult amounts]; auto. destruct Hch as (_ & Hl & _).
    apply fine_bind; auto. apply fine_defined, sum_at_Some. by rewrite Hl. }
  intros ml _. apply fine_bind; [|intros [[ns rt] mt] _; auto].
  eapply price_nights_fine; [exact Ha| |exact Hown].
  apply Forall_forall. intros o Ho. apply list_elem_of_In, in_rev, list_elem_of_In in Ho.
  pose proof (walk_chain_values _ _ _ _ _ Hw Hs) as Hv. rewrite Forall_forall in Hv.
  by eapply offer_good; [exact Hm | apply Hv].
Qed.
