(* ===== verification/PricingGuarantees.v ===== *)
(** * What a priced stay guarantees

    An accepted configuration is always evaluated; a priced stay adds up; each of
    its nights is the night projected on its own; percentages round half up. *)

From S2P Require Import Prelude JsValue CalendarDates Money ReplacementPricing PricingConfiguration PricingCalculator PricingFacts.

(** ** Every request is answered *)

Lemma evaluate_fine config request period : config_ok config -> fine (evaluateRoomPricing (Some config) request period).
Proof.
  intros Hc. unfold evaluateRoomPricing. destruct (request_days period) as [[first len]|]; [|by apply fine_fail].
  destruct (valid_request config request) as [expected|]; [|by apply fine_fail].
  apply fine_if; [by apply fine_fail|].
  destruct (validPricingGuests _ _ _) as [guests|] eqn:Eg; [|by apply fine_fail].
  destruct (cf_offers _ Hc) as (m & Em & Hm & Hr). rewrite Em, (offer_map_values _ _ _ Hm).
  destruct (as_string (get request "offerId")) as [id|]; [|by apply fine_fail].
  destruct (map_get m id) as [selected|] eqn:Es; [|by apply fine_fail].
  pose proof (get_value m id selected Es) as Hs. apply evaluate_offer_fine; auto. by apply valid_guests_ok in Eg.
Qed.

(** ** What a successful evaluation went through *)

Record evaluated (config : PricingConfiguration) (request : jsval) (first : Z) (stayLength : option Z)
    (e : EvaluatedStay) (guests : PricingGuests) (selected : PricingOffer) (m : list (string * PricingOffer)) : Prop := {
  ev_request : valid_request config request = Some (revision config);
  ev_guests : validPricingGuests (get request "guests") (capacity config) (children config) = Some guests;
  ev_offers : m = offer_map (offers config);
  ev_selected : exists id, get request "offerId" = VString id /\ map_get m id = Some selected;
  ev_run : evaluate_offer config m selected (get request "expectedTermsRevisions") guests first stayLength = ok e
}.

Lemma evaluate_inv config request period e : evaluateRoomPricing config request period = ok e ->
  exists config' first stayLength guests selected m, config = Some config' /\
    request_days period = Some (first, stayLength) /\
    evaluated config' request first stayLength e guests selected m.
Proof.
  unfold evaluateRoomPricing. destruct config as [config|]; [|done].
  destruct (request_days period) as [[first len]|]; [|done].
  destruct (valid_request config request) as [expected|] eqn:Ev; [|done].
  destruct (Z.eqb_spec expected (revision config)) as [->|]; [|done]. cbn [negb].
  destruct (validPricingGuests _ _ _) as [guests|] eqn:Eg; [|done].
  destruct (get request "offerId") as [| | | | |id| | |] eqn:Eid; cbn [as_string]; try done.
  destruct (map_get _ id) as [selected|] eqn:Es; [|done]. intros Hr.
  exists config, first, len, guests, selected, (offer_map (offers config)). split; [done|]. split; [done|].
  split; try done. by exists id.
Qed.

Lemma evaluate_run config request period first stayLength e guests selected m :
  request_days period = Some (first, stayLength) -> evaluated config request first stayLength e guests selected m ->
  evaluateRoomPricing (Some config) request period = ok e.
Proof.
  intros Hd [Hv Hg Hm (id & Hid & Hs) Hr]. unfold evaluateRoomPricing. rewrite Hd, Hv, Z.eqb_refl, Hg, Hid.
  cbn [negb as_string]. rewrite <- Hm, Hs. exact Hr.
Qed.

Lemma request_days_stay checkIn checkOut first len : request_days (stay_period checkIn checkOut) = Some (first, len) ->
  exists n, len = Some n /\ 1 <= n /\ checkIn = VString (iso_date first) /\ checkOut = VString (iso_date (first + n)) /\
    four_digit_day first /\ four_digit_day (first + n).
Proof.
  unfold request_days. cbn [first_date]. destruct (pricingDate checkIn) eqn:E1; [|done].
  destruct checkIn as [| | | | |a| | |]; cbn [as_string]; try done.
  destruct (pricingDate checkOut) eqn:E2; [|done]. destruct checkOut as [| | | | |b| | |]; cbn [as_string]; try done.
  destruct (str_le b a) eqn:E; [done|]. cbn [negb]. intros [= <- <-]. exists (date_parse b - date_parse a).
  pose proof (pricing_date_print a E1) as Pa. pose proof (pricing_date_print b E2) as Pb.
  pose proof (pricing_date_four_digit a E1) as Fa. pose proof (pricing_date_four_digit b E2) as Fb.
  replace (date_parse a + (date_parse b - date_parse a)) with (date_parse b) by lia. rewrite Pa, Pb.
  split_and!; try done.
  assert (Hlt : str_lt a b = true).
  { apply str_lt_le; [by apply str_le_total|]. intros ->. unfold str_le in E.
    pose proof (String.compare_antisym b b) as H. by destruct (String.compare b b). }
  rewrite <- Pa, <- Pb, str_lt_iso_date in Hlt by done. lia.
Qed.

Lemma request_days_night d first len : request_days (night_period d) = Some (first, len) ->
  len = None /\ d = VString (iso_date first) /\ four_digit_day first.
Proof.
  unfold request_days. cbn [first_date]. destruct (pricingDate d) eqn:E; [|done].
  destruct d as [| | | | |a| | |]; cbn [as_string]; try done. intros [= <- <-].
  pose proof (pricing_date_four_digit a E). by rewrite (pricing_date_print a E).
Qed.

Lemma request_days_at n : four_digit_day n -> request_days (night_period (VString (iso_date n))) = Some (n, None).
Proof.
  intros Hn. unfold request_days. cbn [first_date]. rewrite pricing_date_iso_date by done.
  cbn [as_string]. by rewrite date_parse_iso_date.
Qed.

(** ** Nights *)

Section Nights.
Variables (step adults supplement mealMinor_ : Z) (chain : list PricingOffer) (owner : PricingOffer).

(** A night's figures *)
Record night_ok (n : Z) (p : ProjectedRoomNight) (amount : Z) : Prop := {
  ng_date : nightDate (night p) = iso_date n;
  ng_room : roomMinor (night p) = Z_to_string amount;
  ng_meal : PricingCalculator.mealMinor (night p) = Z_to_string mealMinor_;
  ng_total : totalMinor (night p) = Z_to_string (amount + mealMinor_);
  ng_bound : 1 <= amount <= MAX_AMOUNT
}.

Lemma adjust_ok n rule r : adjust n rule step = ok r -> r = adjusted n rule step /\ 1 <= r <= MAX_AMOUNT.
Proof. unfold adjust. intros [-> H]%positive_ok. done. Qed.

Lemma apply_offer_bound day_ o amount before r s :
  apply_offer adults step supplement day_ o amount before = ok (r, s) -> 1 <= r <= MAX_AMOUNT.
Proof.
  unfold apply_offer, apply_calendar, priced_tariff. destruct (find_override day_ o) as [d|].
  - intros (n & (t & _ & [-> Hn]%positive_ok)%bind_ok & [= <- <-])%bind_ok. done.
  - destruct (price o) as [c|parentId adjustment overrides].
    + destruct (calendar_source day_ c) as [[p kind]|]; [|done].
      intros (n & (t & _ & [-> Hn]%positive_ok)%bind_ok & H)%bind_ok.
      destruct (List.find _ _) as [w|]; [|by injection H as <- <-].
      apply bind_ok in H as (n' & [_ Hn']%adjust_ok & [= <- <-]). done.
    + intros (n & [_ Hn]%adjust_ok & [= <- <-])%bind_ok. done.
Qed.

Lemma apply_chain_bound day_ l : forall amount before r s, l <> [] ->
  apply_chain adults step supplement day_ l amount before = ok (r, s) -> 1 <= r <= MAX_AMOUNT.
Proof.
  induction l as [|o l IH]; intros amount before r s Hne; [done|]. cbn [apply_chain].
  intros ([a b] & Ha & Hr)%bind_ok. destruct l as [|o' l]; [|by apply (IH a b r s)].
  cbn in Hr. injection Hr as <- <-. by eapply apply_offer_bound.
Qed.

Hypothesis chain_nonempty : chain <> [].

Lemma night_amount_bound day_ r s : night_amount adults step supplement day_ chain = ok (r, s) -> 1 <= r <= MAX_AMOUNT.
Proof using chain_nonempty.
  unfold night_amount. apply apply_chain_bound. destruct (last_override day_ chain) as [l|] eqn:E; [|done].
  intros He. cbn in He. subst l. clear -E. induction chain as [|o l IH]; cbn [last_override] in E; [done|].
  destruct (last_override day_ l) as [l'|]; [injection E as ->; by apply IH|].
  by destruct (find_override day_ o).
Qed.

Lemma price_night_ok stayLength n p amount :
  price_night step adults supplement mealMinor_ chain owner stayLength n = ok (p, amount) -> night_ok n p amount.
Proof using chain_nonempty.
  unfold price_night. intros (rule & _ & H)%bind_ok. destruct (refused stayLength rule); [done|].
  apply bind_ok in H as ([a s] & Ha & [= <- <-]). apply night_amount_bound in Ha. by split.
Qed.

(** Without a stay only the restrictions that refuse nights are left out. *)
Lemma price_night_alone stayLength n p amount :
  price_night step adults supplement mealMinor_ chain owner stayLength n = ok (p, amount) ->
  price_night step adults supplement mealMinor_ chain owner None n = ok (p, amount).
Proof.
  unfold price_night. intros (rule & Hr & H)%bind_ok. rewrite Hr, bind_of_ok. cbn [refused].
  by destruct (refused stayLength rule).
Qed.

Lemma price_nights_ok stayLength days : forall roomTotal mealTotal ns rt mt,
  price_nights step adults supplement mealMinor_ chain owner stayLength days roomTotal mealTotal = ok (ns, rt, mt) ->
  exists amounts, Forall2 (fun n pa =>
      price_night step adults supplement mealMinor_ chain owner stayLength n = ok pa /\
      night_ok n (fst pa) (snd pa) /\ 0 <= snd pa + mealMinor_ <= MAX_AMOUNT) days (zip ns amounts) /\
    length amounts = length ns /\
    rt = roomTotal + sumZ amounts /\ mt = mealTotal + mealMinor_ * Z.of_nat (length days) /\
    (days <> [] -> 0 <= rt <= MAX_AMOUNT /\ 0 <= mt <= MAX_AMOUNT).
Proof using chain_nonempty.
  induction days as [|n days IH]; intros roomTotal mealTotal ns rt mt; cbn [price_nights].
  - intros [= <- <- <-]. exists []. rewrite sumZ_nil. split_and!; [constructor | done | lia | cbn; lia | done].
  - intros ([p a] & Hp & H)%bind_ok. apply bind_ok in H as (r1 & [-> B1]%bound_ok & H).
    apply bind_ok in H as (m1 & [-> B2]%bound_ok & H). apply bind_ok in H as (t1 & [-> B3]%bound_ok & H).
    apply bind_ok in H as ([[ns' rt'] mt'] & Hr & [= <- <- <-]).
    destruct (IH _ _ _ _ _ Hr) as (amounts & HF & Hl & Ert & Emt & Hb). exists (a :: amounts). rewrite sumZ_cons.
    split_and!; [|cbn; lia|lia|cbn [length]; lia|].
    + cbn. constructor; [|done]. cbn [fst snd]. split; [done|]. split; [by eapply price_night_ok | done].
    + intros _. destruct days as [|n' days]; [|by apply Hb].
      cbn in Hr. injection Hr as <- <- <-. lia.
Qed.
End Nights.

(** ** Evaluated offers *)

Record run_of (config : PricingConfiguration) (m : list (string * PricingOffer)) (selected : PricingOffer)
    (terms : jsval) (guests : PricingGuests) (first : Z) (stayLength : option Z) (e : EvaluatedStay)
    (walked : list PricingOffer) (owner : PricingOffer) (supplement mealMinor_ : Z) (ns : list ProjectedRoomNight)
    (rt mt : Z) : Prop := {
  rn_walk : walk_chain (S (length m)) m terms selected = ok walked;
  rn_owner : restriction_owner (S (length m)) m selected = Some owner;
  rn_first : exists r, restrictions_on owner (iso_date first) = ok r;
  rn_supplement : exists indexes,
    traverse (band_index (bands (children config))) (young_ages (children config) guests) = Some indexes /\
    supplement_of (children config) indexes = ok supplement /\
    meal_of (charge (meal selected)) (counted_adults (children config) guests) indexes = ok mealMinor_;
  rn_nights : price_nights (pricingAmountStep (currency config)) (counted_adults (children config) guests) supplement
                mealMinor_ (rev walked) owner stayLength (seqZ first (default 1 stayLength)) 0 0 = ok (ns, rt, mt);
  rn_total : bound (rt + mt) = ok (rt + mt);
  rn_result : e =
    {| evidence := {| evPropertyId := propertyId config; evRoomTypeId := roomTypeId config;
                      evOfferId := offerId selected; evRevision := revision config;
                      evCurrency := currency config; evGuests := guests;
                      evTermsRevisions := (fun o => (offerId o, termsRevision o)) <$> walked |};
       nights := ns; stayRoomMinor := Z_to_string rt; stayMealMinor := Z_to_string mt;
       stayTotalMinor := Z_to_string (rt + mt) |}
}.

Lemma evaluate_offer_inv config m selected terms guests first stayLength e :
  evaluate_offer config m selected terms guests first stayLength = ok e ->
  exists walked owner supplement ml ns rt mt,
    run_of config m selected terms guests first stayLength e walked owner supplement ml ns rt mt.
Proof.
  unfold evaluate_offer. intros (walked & Hw & H)%bind_ok. apply bind_ok in H as (owner & Ho & H).
  destruct (restriction_owner _ _ _) as [owner'|] eqn:Eo; [|done]. injection Ho as ->.
  apply bind_ok in H as (refused_ & Hf & H). destruct refused_; [done|]. cbv zeta in H.
  apply bind_ok in H as (indexes & Hi & H). destruct (traverse _ _) as [indexes'|] eqn:Ei; [|done]. injection Hi as ->.
  apply bind_ok in H as (supplement & Hs & H). apply bind_ok in H as (ml & Hml & H).
  apply bind_ok in H as ([[ns rt] mt] & Hn & H). apply bind_ok in H as (total & Ht & [= <-]).
  pose proof Ht as [-> _]%bound_ok. exists walked, owner, supplement, ml, ns, rt, mt. split; try done.
  - destruct stayLength as [len|]; [unfold arrival_refused in Hf|]; apply bind_ok in Hf as (r & Hr & _); by exists r.
  - by exists indexes.
Qed.

Lemma evaluate_offer_run config m selected terms guests first e walked owner supplement ml ns rt mt :
  run_of config m selected terms guests first None e walked owner supplement ml ns rt mt ->
  evaluate_offer config m selected terms guests first None = ok e.
Proof.
  intros [Hw Ho [r Hr] (indexes & Ei & Hs & Hml) Hn Ht ->]. unfold evaluate_offer.
  rewrite Hw, bind_of_ok, Ho, defined_Some, bind_of_ok, Hr, !bind_of_ok. cbv zeta.
  rewrite Ei, defined_Some, bind_of_ok, Hs, bind_of_ok, Hml, bind_of_ok, Hn, bind_of_ok, Ht, bind_of_ok. done.
Qed.

Lemma walk_chain_nonempty fuel m terms o chain : walk_chain fuel m terms o = ok chain -> rev chain <> [].
Proof.
  destruct fuel as [|fuel]; cbn [walk_chain]; [done|]. intros (u & _ & H)%bind_ok Hrev.
  assert (chain = []) as -> by (by destruct chain as [|x c]; [|cbn in Hrev; destruct (rev c)]).
  destruct (parent_of m o); [|done]. by apply bind_ok in H as (rest & _ & H).
Qed.

(** ** Sums of decimal texts *)

Lemma sum_texts amounts : Forall (fun a => 0 <= a) amounts -> BigInt <$> (Z_to_string <$> amounts) = amounts.
Proof. induction 1 as [|a l Ha _ IH]; [done|]. rewrite !fmap_cons, IH. f_equal. by apply print_value. Qed.

(** The figures of one night *)
Record night_adds_up (p : PricedRoomNight) : Prop := {
  na_room : 1 <= BigInt (roomMinor p) <= MAX_AMOUNT;
  na_meal : 0 <= BigInt (PricingCalculator.mealMinor p) <= MAX_AMOUNT;
  na_total : BigInt (totalMinor p) = BigInt (roomMinor p) + BigInt (PricingCalculator.mealMinor p)
}.

Lemma price_nights_texts step adults supplement ml chain owner stayLength days ns amounts :
  Forall2 (fun n pa => price_night step adults supplement ml chain owner stayLength n = ok pa /\
      night_ok ml n (fst pa) (snd pa) /\ 0 <= snd pa + ml <= MAX_AMOUNT) days (zip ns amounts) ->
  length amounts = length ns -> 0 <= ml <= MAX_AMOUNT ->
  nightDate <$> (night <$> ns) = iso_date <$> days /\
  (fun p => BigInt (roomMinor p)) <$> (night <$> ns) = amounts /\
  (fun p => BigInt (PricingCalculator.mealMinor p)) <$> (night <$> ns) = replicate (length days) ml /\
  Forall night_adds_up (night <$> ns).
Proof.
  intros HF Hl Hml. revert days amounts HF Hl. induction ns as [|p ns IH]; intros days [|a amounts]; cbn [zip zip_with]; try done.
  - intros HF _. inversion HF; subst. by split_and!.
  - intros HF [= Hl]. inversion HF as [|n pa days' l' (_ & Hn & Hb') HF']; subst. cbn [fst snd] in Hn, Hb'.
    destruct (IH _ _ HF' Hl) as (E1 & E2 & E3 & E4). rewrite !fmap_cons, E1, E2, E3. cbn [length replicate].
    destruct Hn as [Ed Er Em Et Hb]. rewrite Ed, Er, Em, !print_value by lia. split_and!; try done.
    constructor; [|done]. split; rewrite ?Er, ?Em, ?Et, ?print_value by lia; lia.
Qed.

Lemma meal_nonneg c adults indexes n : meal_of c adults indexes = ok n -> 0 <= n <= MAX_AMOUNT.
Proof.
  unfold meal_of. destruct c as [a|adult l]; [by intros [-> ?]%bound_ok|].
  intros (x & _ & [-> ?]%bound_ok)%bind_ok. done.
Qed.

(** Everything a priced stay or a projected night went through *)
Lemma evaluation_facts config request period e : evaluateRoomPricing config request period = ok e ->
  exists first stayLength ml amounts, request_days period = Some (first, stayLength) /\
    nightDate <$> (night <$> nights e) = iso_date <$> seqZ first (default 1 stayLength) /\
    (fun p => BigInt (roomMinor p)) <$> (night <$> nights e) = amounts /\
    (fun p => BigInt (PricingCalculator.mealMinor p)) <$> (night <$> nights e) =
      replicate (Z.to_nat (default 1 stayLength)) ml /\
    Forall night_adds_up (night <$> nights e) /\
    stayRoomMinor e = Z_to_string (sumZ amounts) /\
    stayMealMinor e = Z_to_string (ml * Z.of_nat (Z.to_nat (default 1 stayLength))) /\
    stayTotalMinor e = Z_to_string (sumZ amounts + ml * Z.of_nat (Z.to_nat (default 1 stayLength))) /\
    0 <= sumZ amounts + ml * Z.of_nat (Z.to_nat (default 1 stayLength)) <= MAX_AMOUNT /\ 0 <= ml.
Proof.
  intros (c & first & len & guests & selected & m & -> & Hd & [_ _ _ _ Hr])%evaluate_inv.
  apply evaluate_offer_inv in Hr as (walked & owner & s & ml & ns & rt & mt & [Hw _ _ (idx & _ & _ & Hml) Hn Ht ->]).
  apply price_nights_ok in Hn as (amounts & HF & Hl & -> & -> & _); [|by eapply walk_chain_nonempty].
  apply bound_ok in Ht as [_ Ht]. pose proof (meal_nonneg _ _ _ _ Hml) as Hml0.
  destruct (price_nights_texts _ _ _ _ _ _ _ _ _ _ HF Hl Hml0) as (E1 & E2 & E3 & E4).
  exists first, len, ml, amounts. rewrite length_seqZ in *. cbn [nights stayRoomMinor stayMealMinor stayTotalMinor].
  rewrite !Z.add_0_l in *. split_and!; try done; lia.
Qed.

(** A night of a priced stay, projected on its own *)
Definition alone (e : EvaluatedStay) (p : ProjectedRoomNight) : EvaluatedStay :=
  {| evidence := evidence e; nights := [p]; stayRoomMinor := roomMinor (night p);
     stayMealMinor := PricingCalculator.mealMinor (night p); stayTotalMinor := totalMinor (night p) |}.

Lemma run_night config m selected terms guests first len e walked owner s ml ns rt mt n p a :
  run_of config m selected terms guests first (Some len) e walked owner s ml ns rt mt ->
  price_night (pricingAmountStep (currency config)) (counted_adults (children config) guests) s ml (rev walked) owner
    (Some len) n = ok (p, a) ->
  night_ok ml n p a -> 0 <= a + ml <= MAX_AMOUNT -> 0 <= ml ->
  evaluate_offer config m selected terms guests n None =
    ok (alone e p).
Proof.
  intros [Hw Ho _ Hs _ _ ->] Hp [_ Er Em Et Hb] Ht Hml.
  apply (evaluate_offer_run _ _ _ _ _ _ _ walked owner s ml [p] a ml). split; try done.
  - revert Hp. unfold price_night. intros (rule & Hr & _)%bind_ok. by exists rule.
  - change (seqZ n (default 1 None)) with [n]. cbn [price_nights].
    rewrite (price_night_alone _ _ _ _ _ _ _ _ _ _ Hp), bind_of_ok, !Z.add_0_l.
    rewrite !bound_value, !bind_of_ok by lia. done.
  - by apply bound_value.
  - unfold alone. by rewrite Er, Em, Et.
Qed.

(** C30: every request is answered: once a configuration is accepted, the price
    of a stay and the projection of a night are always a price or one of the
    reasons the caller's request is to blame for. *)
Theorem evaluation_total `{Currencies} configuration config request :
  parsePricingConfiguration configuration = Some config ->
  fine (calculateReplacementRoomStay configuration request) /\
  fine (projectReplacementRoomNight configuration request).
Proof.
  intros Hp. unfold calculateReplacementRoomStay, projectReplacementRoomNight, nightProjection. rewrite Hp.
  pose proof (parse_configuration_ok _ _ Hp) as Hc. split; (apply fine_bind; [by apply evaluate_fine|]).
  - intros e _. apply fine_ok.
  - intros e (first & len & ml & amounts & Hd & E & _)%evaluation_facts. apply request_days_night in Hd as (-> & _ & _).
    destruct (nights e); [discriminate E|]. apply fine_bind; [by apply fine_defined|]. intros; apply fine_ok.
Qed.

(** C28: a priced stay adds up: it covers exactly the nights from the arrival to
    the day before the departure, in order; each night costs its room price, at
    least one minor unit, and the meal; the totals are the sums over the nights,
    and no figure exceeds the largest amount. *)
Theorem stay_adds_up `{Currencies} configuration request stay :
  calculateReplacementRoomStay configuration request = ok stay ->
  exists first n, 1 <= n /\
    get request "checkIn" = VString (iso_date first) /\ get request "checkOut" = VString (iso_date (first + n)) /\
    nightDate <$> pricedNights stay = iso_date <$> seqZ first n /\
    Forall night_adds_up (pricedNights stay) /\
    BigInt (pricedRoomMinor stay) = sumZ ((fun p => BigInt (roomMinor p)) <$> pricedNights stay) /\
    BigInt (pricedMealMinor stay) = sumZ ((fun p => BigInt (PricingCalculator.mealMinor p)) <$> pricedNights stay) /\
    BigInt (pricedTotalMinor stay) = BigInt (pricedRoomMinor stay) + BigInt (pricedMealMinor stay) /\
    BigInt (pricedTotalMinor stay) <= MAX_AMOUNT.
Proof.
  intros (e & (first & len & ml & amounts & Hd & E1 & E2 & E3 & HF & Er & Em & Et & Hb & Hml)%evaluation_facts &
          [= <-])%bind_ok.
  apply request_days_stay in Hd as (n & -> & Hn & Hi & Ho & _). cbn [default] in *.
  exists first, n. unfold priced_stay. cbn [pricedNights pricedRoomMinor pricedMealMinor pricedTotalMinor].
  assert (Ha : Forall (fun a => 0 <= a) amounts).
  { subst amounts. apply Forall_fmap. eapply Forall_impl; [exact HF|]. intros p [Hp _ _]. cbn. lia. }
  pose proof (sumZ_nonneg amounts Ha) as Hs. rewrite E1, E2, E3, Er, Em, Et, sumZ_replicate.
  rewrite !print_value by lia. split_and!; try done; lia.
Qed.

(** C29: what the channels are told is what the guest pays: each night of a priced
    stay, projected on its own for the same request, is that night of the stay,
    under the same property, offer, revisions, currency and guests. *)
Theorem stay_night_projection `{Currencies} configuration request stay :
  calculateReplacementRoomStay configuration request = ok stay ->
  exists l, projectReplacementRoomNights configuration request (nightDate <$> pricedNights stay) = ok <$> l /\
    night ∘ projectedNight <$> l = pricedNights stay /\
    Forall (fun p => projectedEvidence p = pricedEvidence stay) l.
Proof.
  unfold calculateReplacementRoomStay, projectReplacementRoomNights. intros (e & He & [= <-])%bind_ok.
  apply evaluate_inv in He as (c & first & len & guests & selected & m & -> & Hd & He).
  apply request_days_stay in Hd as (n & -> & Hn & _ & _ & F1 & F2). destruct He as [Hv Hg Hm Hs Hr].
  apply evaluate_offer_inv in Hr as (walked & owner & s & ml & ns & rt & mt & Hr). pose proof Hr as [Hw _ _ Hsup Hns _ Ee].
  destruct Hsup as (idx & _ & _ & Hml%meal_nonneg).
  apply price_nights_ok in Hns as (amounts & HF & Hl & _); [|by eapply walk_chain_nonempty].
  unfold priced_stay. cbn [pricedNights pricedEvidence]. replace (nights e) with ns by by subst e.
  assert (Hdays : Forall (fun k => four_digit_day k) (seqZ first (default 1 (Some n)))).
  { apply Forall_seqZ. cbn. unfold four_digit_day in *. lia. }
  clear Ee. exists ((fun p => {| projectedEvidence := evidence e; projectedNight := p |}) <$> ns).
  split_and!; [|by rewrite <- list_fmap_compose|by apply Forall_fmap, Forall_true].
  rewrite <- !list_fmap_compose. revert HF Hl Hdays. generalize (seqZ first (default 1 (Some n))) as days.
  clear Hn F1 F2. revert amounts. generalize Hr. clear Hr. generalize ns at 2 3 4 5. intros l Hr. 
  induction l as [|p l IH]; intros [|a amounts] days; try done.
  cbn [zip zip_with length]. intros (k & days' & (Hp & Hnk & Hb) & HF' & ->)%Forall2_cons_inv_r [= Hl] Hdays.
  apply Forall_cons in Hdays as [Hk Hdays]. rewrite !fmap_cons, (IH amounts days') by done. f_equal.
  cbn [fst snd compose] in *. rewrite (ng_date _ _ _ _ Hnk).
  rewrite (evaluate_run c request _ k None (alone e p) guests selected m); [done | by apply request_days_at|].
  split; try done. apply (run_night _ _ _ _ _ _ _ _ _ _ _ _ _ _ _ k p a Hr); try done; lia.
Qed.

(** * Derived prices

    What a night costs, told the way a hotelier would: an offer's own price for
    the date, else the parent's price adjusted, else the offer's calendar.  The
    evaluator instead walks the whole chain from its last dated price on
    (packages/domain-pms/src/replacementPricingCalculator.ts, lines 271-313), and
    the two agree.  Adjustments round half up to the price step. *)

(** ** The reference *)

Section Reference.
Variables (adults step supplement day_ : Z).

(** The price of the first offer of a chain, given the offers it is linked to *)
Fixpoint reference_amount (walked : list PricingOffer) : outcome (Z * list Source) :=
  match walked with
  | [] => ok (0, [])
  | offer :: parents =>
      match find_override day_ offer with
      | Some own_price =>
          let! n := priced_tariff adults step supplement (datePrice own_price) in ok (n, [source offer from_date])
      | None =>
          match price offer with
          | independent calendar => apply_calendar adults step supplement day_ offer calendar
          | linked _ adjustment _ =>
              let! (n, sources) := reference_amount parents in
              let! r := adjust n adjustment step in ok (r, sources ++ [source offer from_linked])
          end
      end
  end.

(** ** The walk from the last dated price *)

Lemma apply_chain_snoc l offer : forall amount before,
  apply_chain adults step supplement day_ (l ++ [offer]) amount before =
  (let! (n, s) := apply_chain adults step supplement day_ l amount before in
   apply_offer adults step supplement day_ offer n s).
Proof.
  induction l as [|o l IH]; intros amount before; cbn [app apply_chain].
  - rewrite bind_of_ok. destruct (apply_offer _ _ _ _ offer amount before) as [[[n s]|reason]|]; done.
  - destruct (apply_offer _ _ _ _ o amount before) as [[[n s]|reason]|]; [apply IH | done | done].
Qed.

Lemma last_override_snoc l offer : last_override day_ (l ++ [offer]) =
  match find_override day_ offer with
  | Some _ => Some [offer]
  | None => option_map (fun k => k ++ [offer]) (last_override day_ l)
  end.
Proof.
  induction l as [|o l IH]; cbn [app last_override]; [by destruct (find_override day_ offer)|]. rewrite IH.
  destruct (find_override day_ offer); [done|]. destruct (last_override day_ l); [done|].
  by destruct (find_override day_ o).
Qed.

Lemma night_amount_snoc l offer : night_amount adults step supplement day_ (l ++ [offer]) =
  match find_override day_ offer with
  | Some _ => apply_offer adults step supplement day_ offer 0 []
  | None => let! (n, s) := night_amount adults step supplement day_ l in
            apply_offer adults step supplement day_ offer n s
  end.
Proof.
  unfold night_amount. rewrite last_override_snoc. destruct (find_override day_ offer).
  - cbn. by destruct (apply_offer _ _ _ _ offer 0 []) as [[[n s]|reason]|].
  - destruct (last_override day_ l) as [k|]; cbn [option_map default]; apply apply_chain_snoc.
Qed.

(** The evaluator's walk over a chain of links, which starts at the last offer
    with a price of its own for the date, gives the price, the sources and the
    reason for failing that the recursive reading gives: an offer's own price for
    the date, else its parent's price adjusted, else its calendar. *)
Theorem chain_pricing_reference fuel offers terms selected walked :
  walk_chain fuel offers terms selected = ok walked ->
  night_amount adults step supplement day_ (rev walked) = reference_amount walked.
Proof.
  revert selected walked. induction fuel as [|fuel IH]; intros selected walked; cbn [walk_chain]; [done|].
  intros (_ & _ & H)%bind_ok. unfold parent_of in H. destruct (price selected) as [calendar|parentId adj overrides] eqn:Ep.
  - injection H as <-. cbn [rev]. rewrite night_amount_snoc. cbn [reference_amount].
    unfold apply_offer. rewrite Ep. by destruct (find_override day_ selected).
  - destruct (map_get offers parentId) as [parent|].
    + apply bind_ok in H as (rest & Hr & [= <-]). cbn [rev]. rewrite night_amount_snoc, (IH _ _ Hr).
      cbn [reference_amount]. unfold apply_offer. rewrite Ep. by destruct (find_override day_ selected).
    + injection H as <-. cbn [rev]. rewrite night_amount_snoc. cbn [reference_amount].
      unfold apply_offer. rewrite Ep. by destruct (find_override day_ selected).
Qed.
End Reference.

(** ** Rounding *)

Lemma half_up_within n d step : 0 < step -> 0 < d -> 0 <= n ->
  let r := Z.quot (2 * n + d * step) (2 * d * step) * step in
  (step | r) /\ 0 <= r /\ - (d * step) <= 2 * (n - d * r) < d * step.
Proof.
  intros Hs Hd Hn r. subst r. rewrite Z.quot_div_nonneg by nia.
  pose proof (Z.div_mod (2 * n + d * step) (2 * d * step) ltac:(nia)).
  pose proof (Z.mod_pos_bound (2 * n + d * step) (2 * d * step) ltac:(nia)).
  set (q := (2 * n + d * step) / (2 * d * step)) in *.
  split_and!; [by exists q | | nia | nia]. assert (0 <= q) by (apply Z.div_pos; nia). nia.
Qed.

Lemma amount_step_pos currency : 0 < pricingAmountStep currency.
Proof.
  unfold pricingAmountStep, wholeUnitSteps. cbn [map_get]. by destruct (String.eqb _ _).
Qed.

(** Adjusted prices: a fixed adjustment adds exactly its delta; a percentage
    is a whole number of price steps, the nearest to the exact product and the
    upper one at a tie; both are at least one minor unit and at most the largest
    amount, and the adjustment fails as a missing price exactly when the result is
    not positive and as an overflow exactly when it is too large. *)
Theorem adjustment_rounds n rule currency_ : 0 <= n -> adjustment_ok rule ->
  let step := pricingAmountStep currency_ in
  let r := adjusted n rule step in
  match rule with
  | fixed delta => r = n + BigInt delta
  | percentage points => (step | r) /\ - (10000 * step) <= 2 * (n * (10000 + points) - 10000 * r) < 10000 * step
  end /\
  adjust n rule step =
    (if r <=? 0 then fail missing_price else if MAX_AMOUNT <? r then fail overflow else ok r).
Proof.
  intros Hn Hr step r. pose proof (amount_step_pos currency_ : 0 < step) as Hs. split.
  - destruct rule as [delta|points]; [done|]. cbn in Hr. subst r. cbn [adjusted].
    pose proof (half_up_within (n * (10000 + points)) 10000 step Hs ltac:(lia) ltac:(nia)) as (H1 & _ & H2).
    replace (Z.quot (n * (10000 + points) + 5000 * step) (10000 * step))
      with (Z.quot (2 * (n * (10000 + points)) + 10000 * step) (2 * 10000 * step)); [done|].
    rewrite !Z.quot_div_nonneg by nia.
    replace (2 * (n * (10000 + points)) + 10000 * step) with (2 * (n * (10000 + points) + 5000 * step)) by lia.
    replace (2 * 10000 * step) with (2 * (10000 * step)) by lia. apply Z.div_mul_cancel_l; lia.
  - unfold adjust, positive, bound. fold r. destruct (Z.leb_spec r 0); [done|].
    by rewrite (proj2 (Z.ltb_ge r 0)) by lia.
Qed.
