(* ===== verification/PricingConversion.v ===== *)
(** * Pricing in another currency

    packages/domain-pms/src/replacementPricingConversion.ts: every amount of a
    pricing configuration converted at a rate, the check that a set of rooms is
    completely converted, and the same numbers in another currency. *)

From S2P Require Import Prelude JsValue JsonText CalendarDates Money ReplacementPricing PricingConfiguration PricingFacts PricingCalculator PricingGuarantees.

(** ** Configurations as values

    A parsed configuration is a plain object again when it is spread, parsed again
    or compared. Keys are listed in their sorted order, in which [canonical] prints
    them; the parser does not look at their order. *)

Definition fields (l : list (string * option jsval)) : jsval :=
  obj (omap (fun '(k, o) => (fun v => (k, v)) <$> o) l).

Definition adjustment_value (a : PricingAdjustment) : jsval :=
  match a with
  | fixed delta => obj [("deltaMinor", VString delta); ("kind", VString "fixed")]
  | percentage points => obj [("basisPoints", VInt points); ("kind", VString "percentage")]
  end.

Definition price_value (p : RoomPrice) : jsval :=
  match p with
  | flat amount => obj [("amountMinor", VString amount); ("mode", VString "flat")]
  | occupancy amounts => obj [("amountsMinor", arr (VString <$> amounts)); ("mode", VString "occupancy")]
  | included_guests guests base adjustments =>
      obj [("adjustments", arr (adjustment_value <$> adjustments)); ("baseGuests", VInt guests);
           ("baseMinor", VString base); ("mode", VString "included_guests")]
  | per_person unit => obj [("mode", VString "per_person"); ("unitMinor", VString unit)]
  end.

Definition date_price_value (d : DatePrice) : jsval := obj [("date", VString (date d)); ("price", price_value (datePrice d))].

Definition month_value (m : MonthPrice) : jsval := obj [("month", VInt (month m)); ("price", price_value (monthPrice m))].

Definition season_value (s : SeasonPrice) : jsval :=
  obj [("from", VString (from s)); ("name", VString (seasonName s)); ("price", price_value (seasonPrice s));
       ("through", VString (through s)); ("tier", VString (tier s))].

Definition weekday_value (w : WeekdayPrice) : jsval :=
  obj [("adjustment", adjustment_value (weekdayAdjustment w)); ("day", VInt (day w))].

Definition calendar_value (c : PricingCalendar) : jsval :=
  obj [("base", of_nullable price_value (base c)); ("dates", arr (date_price_value <$> dates c));
       ("months", arr (month_value <$> months c)); ("seasons", arr (season_value <$> seasons c));
       ("weekdays", arr (weekday_value <$> weekdays c))].

Definition rules_value (r : PricingRestrictions) : jsval :=
  obj [("closedToArrival", VBool (closedToArrival r)); ("closedToDeparture", VBool (closedToDeparture r));
       ("maxStayNights", of_nullable VInt (maxStayNights r)); ("minArrivalNights", VInt (minArrivalNights r));
       ("stopSell", VBool (stopSell r))].

Definition season_rules_value (s : SeasonRules) : jsval :=
  obj [("from", VString (rulesFrom s)); ("rules", rules_value (seasonRules s)); ("through", VString (rulesThrough s))].

Definition date_rules_value (d : DateRules) : jsval :=
  obj [("date", VString (rulesDate d)); ("rules", rules_value (dateRules d))].

Definition restrictions_value (r : OfferRestrictions) : jsval :=
  match r with
  | own rules ss ds =>
      obj [("dates", arr (date_rules_value <$> ds)); ("kind", VString "own"); ("rules", rules_value rules);
           ("seasons", arr (season_rules_value <$> ss))]
  | inherit => obj [("kind", VString "inherit")]
  end.

Definition meal_kind_text (k : MealKind) : string :=
  match k with
  | room_only => "room_only" | breakfast => "breakfast" | half_board => "half_board" | full_board => "full_board"
  | all_inclusive => "all_inclusive"
  end.

Definition charge_value (c : MealCharge) : jsval :=
  match c with
  | room_charge amount => obj [("amountMinor", VString amount); ("kind", VString "room")]
  | person_charge adult amounts =>
      obj [("adultMinor", VString adult); ("childBandAmountsMinor", arr (VString <$> amounts)); ("kind", VString "person")]
  end.

Definition meal_value (m : PricingMeal) : jsval :=
  fields [("charge", Some (charge_value (charge m))); ("description", VString <$> description m);
          ("kind", Some (VString (meal_kind_text (mealKind m))))].

Definition offer_price_value (p : OfferPrice) : jsval :=
  match p with
  | independent calendar => obj [("calendar", calendar_value calendar); ("kind", VString "independent")]
  | linked parentId adjustment overrides =>
      obj [("adjustment", adjustment_value adjustment); ("dateOverrides", arr (date_price_value <$> overrides));
           ("kind", VString "linked"); ("parentId", VString parentId)]
  end.

Definition sale_text (s : PricingOfferSale) : string := match s with channels_only => "channels_only" | not_sold => "not_sold" end.

Definition offer_value (o : PricingOffer) : jsval :=
  fields [("id", Some (VString (offerId o))); ("meal", Some (meal_value (meal o)));
          ("price", Some (offer_price_value (price o))); ("restrictions", Some (restrictions_value (restrictions o)));
          ("sale", (fun s => VString (sale_text s)) <$> sale o); ("termsRevision", Some (VString (termsRevision o)))].

Definition capacity_value (c : PricingCapacity) : jsval :=
  obj [("adults", VInt (capacityAdults c)); ("children", VInt (capacityChildren c)); ("total", VInt (total c))].

Definition band_value (b : ChildBand) : jsval :=
  obj [("countsTowardCapacity", VBool (countsTowardCapacity b)); ("fromAge", VInt (fromAge b));
       ("nightlyMinor", VString (nightlyMinor b)); ("throughAge", VInt (throughAge b))].

Definition children_value (c : PricingChildPolicy) : jsval :=
  obj [("adultFromAge", VInt (adultFromAge c)); ("bands", arr (band_value <$> bands c))].

Definition configuration_value (c : PricingConfiguration) : jsval :=
  obj [("capacity", capacity_value (capacity c)); ("children", children_value (children c));
       ("currency", VString (currency c)); ("offers", arr (offer_value <$> offers c));
       ("propertyId", VString (propertyId c)); ("revision", VInt (revision c)); ("roomTypeId", VString (roomTypeId c));
       ("version", VString REPLACEMENT_PRICING_VERSION)].

(** ** Rates *)

Record PricingConversionRate := {
  rateId : string;
  rateFrom : string;
  rateTo : string;
  numerator : string;
  denominator : string;
  observedAt : string;
  expiresAt : string
}.

(** [/^[1-9][0-9]{0,17}$/] *)
Definition positive_text (v : jsval) : option string :=
  let? s := as_string v in guard? positive_decimal s && (str_length s <=? 18) in Some s.

(** The instant of a text that [toISOString] prints; any other text is no number. *)
Definition timestamp (v : jsval) : option Z := let? s := isoInstant v in Some (instant_of s).

Section Conversion.
Context `{Currencies}.

Definition validRate (rate : jsval) (now : jsval) : option PricingConversionRate :=
  guard? pricingObject rate && pricingKeys rate ["id"; "from"; "to"; "numerator"; "denominator"; "observedAt"; "expiresAt"] in
  let? id := as_trimmed 1 200 (get rate "id") in
  let? f := as_string (get rate "from") in
  let? t := as_string (get rate "to") in
  guard? negb (String.eqb f t) in
  let? _ := pricingCurrencyScale f in
  let? _ := pricingCurrencyScale t in
  let? num := positive_text (get rate "numerator") in
  let? den := positive_text (get rate "denominator") in
  let? at_ := pricingInteger now 0 in
  let? observed := timestamp (get rate "observedAt") in
  let? expires := timestamp (get rate "expiresAt") in
  guard? (observed <=? at_) && (at_ <? expires) in
  let? o := as_string (get rate "observedAt") in
  let? e := as_string (get rate "expiresAt") in
  Some {| rateId := id; rateFrom := f; rateTo := t; numerator := num; denominator := den; observedAt := o; expiresAt := e |}.

(** ** Amounts *)

(** Half-up to the price step, by the magnitude *)
Definition converted_amount (r : PricingConversionRate) (text : string) : string :=
  let value := BigInt text in
  let num := BigInt (numerator r) in
  let den := BigInt (denominator r) in
  let step := pricingAmountStep (rateTo r) in
  let magnitude := (if value <? 0 then - value else value) * num in
  let rounded := Z.quot (magnitude * 2 + den * step) (den * 2 * step) * step in
  Z_to_string (if value <? 0 then - rounded else rounded).

(** A positive price that would round to nothing *)
Definition lost (r : PricingConversionRate) (text : string) : bool :=
  (0 <? BigInt text) && (BigInt (converted_amount r text) =? 0).

Section Mapping.
Variable amount : string -> string.

Definition map_adjustment (a : PricingAdjustment) : PricingAdjustment :=
  match a with percentage _ => a | fixed delta => fixed (amount delta) end.

Definition map_price (p : RoomPrice) : RoomPrice :=
  match p with
  | flat a => flat (amount a)
  | per_person u => per_person (amount u)
  | occupancy amounts => occupancy (amount <$> amounts)
  | included_guests guests b adjustments => included_guests guests (amount b) (map_adjustment <$> adjustments)
  end.

Definition map_date (d : DatePrice) : DatePrice := {| date := date d; datePrice := map_price (datePrice d) |}.

Definition map_month (m : MonthPrice) : MonthPrice := {| month := month m; monthPrice := map_price (monthPrice m) |}.

Definition map_season (s : SeasonPrice) : SeasonPrice :=
  {| seasonName := seasonName s; tier := tier s; from := from s; through := through s; seasonPrice := map_price (seasonPrice s) |}.

Definition map_weekday (w : WeekdayPrice) : WeekdayPrice :=
  {| day := day w; weekdayAdjustment := map_adjustment (weekdayAdjustment w) |}.

Definition map_calendar (c : PricingCalendar) : PricingCalendar :=
  {| base := map_price <$> base c; months := map_month <$> months c; seasons := map_season <$> seasons c;
     weekdays := map_weekday <$> weekdays c; dates := map_date <$> dates c |}.

Definition map_charge (c : MealCharge) : MealCharge :=
  match c with
  | room_charge a => room_charge (amount a)
  | person_charge adult amounts => person_charge (amount adult) (amount <$> amounts)
  end.

Definition map_offer_price (p : OfferPrice) : OfferPrice :=
  match p with
  | independent calendar => independent (map_calendar calendar)
  | linked parentId adjustment overrides => linked parentId (map_adjustment adjustment) (map_date <$> overrides)
  end.

Definition map_offer (o : PricingOffer) : PricingOffer :=
  {| offerId := offerId o; termsRevision := termsRevision o; sale := sale o;
     meal := {| mealKind := mealKind (meal o); charge := map_charge (charge (meal o)); description := description (meal o) |};
     price := map_offer_price (price o); restrictions := restrictions o |}.

Definition map_band (b : ChildBand) : ChildBand :=
  {| fromAge := fromAge b; throughAge := throughAge b; nightlyMinor := amount (nightlyMinor b);
     countsTowardCapacity := countsTowardCapacity b |}.

Definition map_configuration (currency_ : string) (revision_ : Z) (c : PricingConfiguration) : PricingConfiguration :=
  {| propertyId := propertyId c; roomTypeId := roomTypeId c; revision := revision_; currency := currency_;
     capacity := capacity c;
     children := {| adultFromAge := adultFromAge (children c); bands := map_band <$> bands (children c) |};
     offers := map_offer <$> offers c |}.
End Mapping.

(** The amounts that are prices, in the order they are converted; deltas are not. *)
Definition price_tariffs (p : RoomPrice) : list string :=
  match p with flat a | per_person a | included_guests _ a _ => [a] | occupancy amounts => amounts end.

Definition calendar_tariffs (c : PricingCalendar) : list string :=
  match base c with Some p => price_tariffs p | None => [] end ++
  mjoin ((fun m => price_tariffs (monthPrice m)) <$> months c) ++
  mjoin ((fun s => price_tariffs (seasonPrice s)) <$> seasons c) ++
  mjoin ((fun d => price_tariffs (datePrice d)) <$> dates c).

Definition offer_tariffs (o : PricingOffer) : list string :=
  match charge (meal o) with room_charge a => [a] | person_charge adult amounts => adult :: amounts end ++
  match price o with
  | independent calendar => calendar_tariffs calendar
  | linked _ _ overrides => mjoin ((fun d => price_tariffs (datePrice d)) <$> overrides)
  end.

Definition tariffs (c : PricingConfiguration) : list string :=
  (nightlyMinor <$> bands (children c)) ++ mjoin (offer_tariffs <$> offers c).

(** The object is built first; a lost price is noticed at the end. *)
Definition convertPricingConfigurationCurrency (value rate now : jsval) : option PricingConfiguration :=
  let? source := parsePricingConfiguration value in
  let? r := validRate rate now in
  guard? String.eqb (currency source) (rateFrom r) in
  let? revision_ := pricingInteger (VInt (revision source + 1)) 1 in
  let converted := map_configuration (converted_amount r) (rateTo r) revision_ source in
  guard? negb (existsb (lost r) (tariffs source)) in
  parsePricingConfiguration (configuration_value converted).

(** ** Complete conversions *)

Definition canonical (c : PricingConfiguration) : string := json_text (configuration_value c).

Definition converted_room (rate now : jsval) (next : list PricingConfiguration) (room : PricingConfiguration) : bool :=
  match convertPricingConfigurationCurrency (configuration_value room) rate now with
  | Some converted =>
      match List.find (fun r => String.eqb (roomTypeId r) (roomTypeId room)) next with
      | Some r => String.eqb (canonical converted) (canonical r)
      | None => false
      end
  | None => false
  end.

Definition isCompletePricingCurrencyConversion (before after : list jsval) (rate now : jsval) : bool :=
  negb (Nat.eqb (length before) 0) && Nat.eqb (length before) (length after) &&
  match traverse parsePricingConfiguration before, traverse parsePricingConfiguration after with
  | Some old, Some next =>
      match old with
      | reference :: _ =>
          forallb (fun r => String.eqb (propertyId r) (propertyId reference) && (revision r =? revision reference) &&
                            String.eqb (currency r) (currency reference)) old
      | [] => false
      end && no_repeats (roomTypeId <$> old) && no_repeats (roomTypeId <$> next) &&
      forallb (converted_room rate now next) old
  | _, _ => false
  end.

Definition same_numbers_rate (source to : string) (fromScale toScale : Z) : jsval :=
  obj [("id", VString "same-numbers"); ("from", VString source); ("to", VString to);
       ("numerator", VString (Z_to_string (10 ^ toScale))); ("denominator", VString (Z_to_string (10 ^ fromScale)));
       ("observedAt", VString "2000-01-01T00:00:00.000Z"); ("expiresAt", VString "2000-01-01T00:00:01.000Z")].

Definition with_revision (n : Z) (c : PricingConfiguration) : PricingConfiguration :=
  {| propertyId := propertyId c; roomTypeId := roomTypeId c; revision := n; currency := currency c;
     capacity := capacity c; children := children c; offers := offers c |}.

Definition pricingConfigurationWithSameNumbers (value : jsval) (to : string) : option PricingConfiguration :=
  let? source := parsePricingConfiguration value in
  let? fromScale := pricingCurrencyScale (currency source) in
  let? toScale := pricingCurrencyScale to in
  if String.eqb (currency source) to then Some source
  else
    let? converted := convertPricingConfigurationCurrency (configuration_value source)
                        (same_numbers_rate (currency source) to fromScale toScale)
                        (VInt (instant_of "2000-01-01T00:00:00.000Z")) in
    parsePricingConfiguration (configuration_value (with_revision (revision source) converted)).
End Conversion.

(** ** What is read of a rendered configuration

    A parser that accepts a rendered value returns what was rendered. *)

Ltac read_members H :=
  repeat match type of H with
  | context [get (obj ?l) ?k] =>
      let v := eval cbv [get own_prop obj props_of lookup_prop key_is List.map fst snd String.eqb Ascii.eqb Bool.eqb] in
        (get (obj l) k) in
      change (get (obj l) k) with v in H
  | context [pricingObject (obj ?l)] => change (pricingObject (obj l)) with true in H
  | context [pricingKeys (obj ?l) ?ks] =>
      let v := eval lazy in (pricingKeys (obj l) ks) in change (pricingKeys (obj l) ks) with v in H
  | context [has_own (obj ?l) ?k] => let v := eval lazy in (has_own (obj l) k) in change (has_own (obj l) k) with v in H
  | context [is_str (VString ?a) ?b] =>
      let v := eval lazy in (is_str (VString a) b) in
      lazymatch v with true => idtac | false => idtac end; change (is_str (VString a) b) with v in H
  | context [as_string (VString ?s)] => change (as_string (VString s)) with (Some s) in H
  | context [as_bool (VBool ?b)] => change (as_bool (VBool b)) with (Some b) in H
  | context [as_array (arr ?l)] => rewrite (as_array_arr l) in H
  end;
  cbn [andb mbind option_bind] in H.

(** Splits the next guard or the next part that was read. *)
Ltac next_part H :=
  match type of H with
  | (if ?b then _ else _) = Some _ => destruct b; [|discriminate H]
  | match ?e with Some _ => _ | None => _ end = Some _ =>
      let E := fresh "E" in destruct e eqn:E; [|discriminate H]
  end.

Ltac parts H := repeat (next_part H; cbn [andb mbind option_bind] in H).

Lemma traverse_inverse {A B} (f : jsval -> option A) (g : B -> jsval) (h : B -> A) l k :
  (forall x y, f (g x) = Some y -> y = h x) -> traverse f (g <$> l) = Some k -> k = h <$> l.
Proof.
  intros Hf. revert k. induction l as [|x l IH]; intros k; cbn [fmap list_fmap traverse]; [by intros [= <-]|].
  destruct (f (g x)) as [y|] eqn:E; [|done]. fold (g <$> l). change (list_fmap _ _ g l) with (g <$> l).
  destruct (traverse f (g <$> l)) as [r|] eqn:Er; [|done]. intros [= <-]. by rewrite (Hf _ _ E), (IH _ eq_refl).
Qed.

Lemma traverse_same {A} (f : jsval -> option A) (g : A -> jsval) l k :
  (forall x y, f (g x) = Some y -> y = x) -> traverse f (g <$> l) = Some k -> k = l.
Proof. intros Hf H. rewrite (traverse_inverse f g (fun x => x) l k Hf H). apply list_fmap_id. Qed.

Lemma integer_inverse z m y : pricingInteger (VInt z) m = Some y -> y = z.
Proof. intros (E & _)%pricingInteger_Some. by injection E. Qed.

Lemma minor_inverse s y : minor (VString s) = Some y -> y = s.
Proof. intros [E _]%minor_Some. by injection E. Qed.

Lemma adjustment_inverse a b : parsePricingAdjustment (adjustment_value a) = Some b -> b = a.
Proof.
  intros H. unfold parsePricingAdjustment in H. destruct a as [d|p]; cbn [adjustment_value] in H; read_members H.
  - parts H. by injection H.
  - parts H. apply integer_inverse in E as ->. by injection H.
Qed.

Lemma price_inverse n p q : parseRoomPrice (price_value p) n = Some q -> q = p.
Proof.
  intros H. unfold parseRoomPrice in H. next_part H. destruct p as [a|l|g b l|u]; cbn [price_value] in H; read_members H.
  - parts H. by injection H.
  - next_part H. destruct (traverse as_string (VString <$> l)) as [k|] eqn:Et; [|done].
    apply traverse_same in Et as ->; [by injection H | by intros x y [= ->]].
  - unfold parse_included_guests in H. read_members H. parts H. injection H as <-.
    repeat match goal with E : pricingInteger (VInt g) _ = Some _ |- _ => apply integer_inverse in E as -> end.
    match goal with E : positive_minor _ = Some _ |- _ => apply positive_minor_Some in E as [[= ->] _] end.
    match goal with E : traverse _ _ = Some _ |- _ => apply traverse_same in E as ->; [done | apply adjustment_inverse] end.
  - parts H. by injection H.
Qed.

Lemma nullable_inverse {A} (f : jsval -> option A) (g : A -> jsval) o y :
  (forall x z, f (g x) = Some z -> z = x) -> (forall x, is_null (g x) = false) ->
  as_nullable f (of_nullable g o) = Some y -> y = o.
Proof.
  intros Hf Hg. unfold as_nullable. destruct o as [x|]; cbn [of_nullable]; [|by intros [= <-]].
  rewrite Hg. destruct (f (g x)) as [z|] eqn:E; [|done]. intros [= <-]. by rewrite (Hf _ _ E).
Qed.

Lemma date_inverse n d y : parse_date_price n (date_price_value d) = Some y -> y = d.
Proof.
  intros H. unfold parse_date_price, date_price_value in H. read_members H. parts H.
  apply price_inverse in E as ->. injection H as <-. by destruct d.
Qed.

Lemma month_inverse n m y : parse_month n (month_value m) = Some y -> y = m.
Proof.
  intros H. unfold parse_month, month_value in H. read_members H. parts H.
  apply integer_inverse in E as ->. apply price_inverse in E0 as ->. injection H as <-. by destruct m.
Qed.

Lemma weekday_inverse w y : parse_weekday (weekday_value w) = Some y -> y = w.
Proof.
  intros H. unfold parse_weekday, weekday_value in H. read_members H. parts H.
  apply integer_inverse in E as ->. apply adjustment_inverse in E0 as ->. injection H as <-. by destruct w.
Qed.

Lemma month_day_inverse s y : monthDay (VString s) = Some y -> y = s.
Proof. unfold monthDay. cbn [as_string mbind option_bind]. destruct (_ && _); [|done]. by intros [= <-]. Qed.

Lemma season_inverse n s y : parse_season n (season_value s) = Some y -> y = s.
Proof.
  intros H. unfold parse_season, season_value in H. read_members H. parts H.
  apply month_day_inverse in E as ->, E0 as ->. apply price_inverse in E1 as ->. injection H as <-. by destruct s.
Qed.

Lemma cover_inverse n ss : forall covered y, cover_seasons n (season_value <$> ss) covered = Some y -> y = ss.
Proof.
  induction ss as [|s ss IH]; intros covered y; cbn [fmap list_fmap cover_seasons]; [by intros [= <-]|].
  change (list_fmap _ _ season_value ss) with (season_value <$> ss). intros H. parts H.
  apply season_inverse in E as ->. apply IH in E1 as ->. by injection H.
Qed.

Lemma calendar_inverse n c y : validCalendar (calendar_value c) n = Some y -> y = c.
Proof.
  intros H. unfold validCalendar, calendar_value in H. read_members H. parts H.
  apply nullable_inverse in E as ->; [ | apply price_inverse | by intros []].
  apply traverse_same in E0 as ->; [|apply month_inverse]. apply traverse_same in E1 as ->; [|apply date_inverse].
  apply traverse_same in E2 as ->; [|apply weekday_inverse]. apply cover_inverse in E3 as ->. injection H as <-. by destruct c.
Qed.

Lemma rules_inverse r y : validRestrictionRules (rules_value r) = Some y -> y = r.
Proof.
  intros H. unfold validRestrictionRules, rules_value in H. read_members H. parts H.
  apply integer_inverse in E as ->. apply nullable_inverse in E0 as ->; [ | intros x z; apply integer_inverse | done].
  injection H as <-. by destruct r.
Qed.

Lemma season_rules_inverse s y : parse_season_rules (season_rules_value s) = Some y -> y = seasonRules s.
Proof. intros H. unfold parse_season_rules, season_rules_value in H. read_members H. by eapply rules_inverse. Qed.

Lemma date_rules_inverse d y : parse_date_rules (date_rules_value d) = Some y -> y = dateRules d.
Proof. intros H. unfold parse_date_rules, date_rules_value in H. read_members H. by eapply rules_inverse. Qed.

(** The calendar that the dates of restrictions are checked as *)
Definition placeholder_seasons (ss : list SeasonRules) : list SeasonPrice :=
  (fun s => {| seasonName := "restriction"; tier := "restriction"; from := rulesFrom s; through := rulesThrough s;
               seasonPrice := flat "1" |}) <$> ss.

Definition placeholder_dates (ds : list DateRules) : list DatePrice :=
  (fun d => {| date := rulesDate d; datePrice := flat "1" |}) <$> ds.

Lemma placeholder_inverse n q : parseRoomPrice placeholder_price n = Some q -> q = flat "1".
Proof. intros H. unfold parseRoomPrice in H. next_part H. unfold placeholder_price in H. read_members H. parts H. by injection H. Qed.

Lemma placeholder_season n s y :
  parse_season n (obj [("name", VString "restriction"); ("tier", VString "restriction"); ("from", VString (rulesFrom s));
                       ("through", VString (rulesThrough s)); ("price", placeholder_price)]) = Some y ->
  y = {| seasonName := "restriction"; tier := "restriction"; from := rulesFrom s; through := rulesThrough s;
         seasonPrice := flat "1" |}.
Proof.
  intros H. unfold parse_season in H. read_members H. parts H.
  apply month_day_inverse in E as ->, E0 as ->. apply placeholder_inverse in E1 as ->. by injection H.
Qed.

Lemma placeholder_date n d y :
  parse_date_price n (obj [("date", VString (rulesDate d)); ("price", placeholder_price)]) = Some y ->
  y = {| date := rulesDate d; datePrice := flat "1" |}.
Proof. intros H. unfold parse_date_price in H. read_members H. parts H. apply placeholder_inverse in E as ->. by injection H. Qed.

Lemma placeholder_cover n ss : forall covered y,
  cover_seasons n ((fun s => obj [("name", VString "restriction"); ("tier", VString "restriction"); ("from", VString (rulesFrom s));
                                  ("through", VString (rulesThrough s)); ("price", placeholder_price)]) <$> ss) covered = Some y ->
  y = placeholder_seasons ss.
Proof.
  induction ss as [|s ss IH]; intros covered y; [by intros [= <-]|].
  unfold placeholder_seasons. rewrite !fmap_cons. cbn [cover_seasons]. intros H. parts H.
  apply placeholder_season in E as ->. apply IH in E1 as ->. by injection H.
Qed.

(** The calendar of rendered restrictions *)
Lemma restriction_calendar_value ss ds :
  restriction_calendar (season_rules_value <$> ss) (date_rules_value <$> ds) =
  obj [("base", VNull); ("months", arr []); ("weekdays", arr []);
       ("seasons", arr ((fun s => obj [("name", VString "restriction"); ("tier", VString "restriction");
                                       ("from", VString (rulesFrom s)); ("through", VString (rulesThrough s));
                                       ("price", placeholder_price)]) <$> ss));
       ("dates", arr ((fun d => obj [("date", VString (rulesDate d)); ("price", placeholder_price)]) <$> ds))].
Proof. unfold restriction_calendar. by rewrite <- !list_fmap_compose. Qed.

Lemma restriction_calendar_inverse n ss ds y :
  validCalendar (restriction_calendar (season_rules_value <$> ss) (date_rules_value <$> ds)) n = Some y ->
  seasons y = placeholder_seasons ss /\ dates y = placeholder_dates ds.
Proof.
  rewrite restriction_calendar_value. intros H. unfold validCalendar in H. read_members H. parts H.
  apply (traverse_inverse _ _ (fun d => {| date := rulesDate d; datePrice := flat "1" |})) in E1;
    [|intros d z; apply placeholder_date].
  apply placeholder_cover in E3. by injection H as <-.
Qed.

Lemma zip_same {A B C D} (f : A -> B) (g : A -> C) (h : B -> C -> D) (k : A -> D) l :
  (forall x, h (f x) (g x) = k x) -> zip_with h (f <$> l) (g <$> l) = k <$> l.
Proof. intros Hk. induction l as [|x l IH]; [done|]. rewrite !fmap_cons. cbn [zip_with]. by rewrite Hk, IH. Qed.

Lemma restrictions_inverse r y : validRestrictions (restrictions_value r) = Some y -> y = r.
Proof.
  intros H. unfold validRestrictions in H. destruct r as [rules ss ds|]; cbn [restrictions_value] in H; read_members H.
  - parts H. apply rules_inverse in E as ->. apply restriction_calendar_inverse in E2 as [Es Ed].
    apply (traverse_inverse _ _ seasonRules) in E0 as ->; [|apply season_rules_inverse].
    apply (traverse_inverse _ _ dateRules) in E1 as ->; [|apply date_rules_inverse].
    injection H as <-. rewrite Es, Ed. unfold placeholder_seasons, placeholder_dates.
    rewrite (zip_same _ _ _ (fun s => s)), (zip_same _ _ _ (fun d => d)) by by intros [].
    by rewrite !list_fmap_id.
  - by injection H.
Qed.

Lemma charge_inverse n c y : parse_charge (charge_value c) n = Some y -> y = c.
Proof.
  intros H. unfold parse_charge in H. destruct c as [a|a l]; cbn [charge_value] in H; read_members H; parts H.
  - apply minor_inverse in E as ->. by injection H.
  - apply minor_inverse in E as ->. apply traverse_same in E0 as ->; [by injection H | intros x z; apply minor_inverse].
Qed.

Lemma meal_kind_inverse k y : meal_kind (VString (meal_kind_text k)) = Some y -> y = k.
Proof. destruct k; by intros [= <-]. Qed.

Lemma description_inverse d y : mealDescription (VString d) = Some y -> y = d.
Proof. unfold mealDescription. cbn [as_string mbind option_bind]. destruct (_ && _); [|done]. by intros [= <-]. Qed.

Lemma meal_inverse n m y : parse_meal (meal_value m) n = Some y -> y = m.
Proof.
  intros H. unfold parse_meal, optional_key in H. destruct m as [kind c [d|]]; unfold meal_value, fields in H;
    cbn [omap list_omap fmap option_fmap option_map mealKind charge description] in H; read_members H; cbn [app] in H; read_members H.
  - parts H. apply meal_kind_inverse in E0 as ->. apply charge_inverse in E1 as ->.
    destruct (mealDescription (VString d)) eqn:Ed; [|done]. apply description_inverse in Ed as ->. injection E as <-. by injection H.
  - parts H. apply meal_kind_inverse in E as ->. apply charge_inverse in E0 as ->. by injection H.
Qed.

Lemma text_inverse s y : text (VString s) = Some y -> y = s.
Proof. unfold text. cbn [as_string mbind option_bind]. destruct (negb _); [|done]. by intros [= <-]. Qed.

Lemma overrides_inverse n l y : validCalendar (overrides_calendar (arr (date_price_value <$> l))) n = Some y -> dates y = l.
Proof.
  intros H. unfold overrides_calendar, validCalendar in H. read_members H. parts H.
  apply traverse_same in E1 as ->; [|apply date_inverse]. by injection H as <-.
Qed.

Lemma offer_price_inverse n r p y : parse_price (offer_price_value p) n r = Some y -> y = p.
Proof.
  intros H. unfold parse_price in H. destruct p as [c|parent a l]; cbn [offer_price_value] in H; read_members H; parts H.
  - apply calendar_inverse in E as ->. by injection H.
  - apply text_inverse in E as ->. apply adjustment_inverse in E0 as ->. apply overrides_inverse in E1. injection H as <-. by rewrite E1.
Qed.

Lemma sale_inverse s y : parse_sale (VString (sale_text s)) = Some y -> y = s.
Proof. destruct s; by intros [= <-]. Qed.

Lemma offer_inverse n k o y : parse_offer (offer_value o) n k = Some y -> y = o.
Proof.
  intros H. unfold parse_offer, optional_key in H. destruct o as [id terms sold m p r]; unfold offer_value, fields in H.
  cbn [omap list_omap offerId termsRevision sale meal price restrictions] in H. destruct sold as [s|];
    cbn [fmap option_fmap option_map] in H; read_members H; cbn [app] in H; read_members H; parts H.
  - destruct (parse_sale (VString (sale_text s))) eqn:Es; [|done]. apply sale_inverse in Es as ->. injection E as <-.
    apply text_inverse in E0 as ->, E1 as ->. apply restrictions_inverse in E2 as ->. apply meal_inverse in E3 as ->.
    apply offer_price_inverse in E4 as ->. by injection H.
  - apply text_inverse in E as ->, E0 as ->. apply restrictions_inverse in E1 as ->. apply meal_inverse in E2 as ->.
    apply offer_price_inverse in E3 as ->. by injection H.
Qed.

Lemma offers_inverse n k os : forall m m', parse_offers (offer_value <$> os) n k m = Some m' -> map_values m' = map_values m ++ os.
Proof.
  induction os as [|o os IH]; intros m m'; [intros [= <-]; by rewrite app_nil_r|].
  rewrite fmap_cons. cbn [parse_offers]. intros H. next_part H. apply offer_inverse in E as ->.
  destruct (map_get m (offerId o)) eqn:Eg; [done|]. apply IH in H. rewrite H, map_set_fresh by done.
  unfold map_values. rewrite fmap_app. cbn [fmap list_fmap snd]. by rewrite <- app_assoc.
Qed.

Lemma capacity_inverse c y : parse_capacity (capacity_value c) = Some y -> y = c.
Proof.
  intros H. unfold parse_capacity, capacity_value in H. read_members H. parts H.
  apply integer_inverse in E as ->, E0 as ->, E1 as ->. injection H as <-. by destruct c.
Qed.

Lemma bands_inverse adult bs : forall next_ y, parse_bands adult next_ (band_value <$> bs) = Some y -> fst y = bs.
Proof.
  induction bs as [|b bs IH]; intros next_ y; [by intros [= <-]|]. rewrite fmap_cons. cbn [parse_bands]. intros H.
  destruct b as [f t a c]. unfold band_value at 1 2 3 4 5 6 in H. cbn [countsTowardCapacity fromAge nightlyMinor throughAge] in H.
  read_members H. destruct (Z.eqb_spec f next_) as [->|]; [|done]. parts H.
  apply integer_inverse in E as ->. apply minor_inverse in E0 as ->. destruct p as [more last]. injection H as <-.
  apply IH in E1. cbn [fst] in *. by rewrite E1.
Qed.

Lemma children_inverse c y : parse_children (children_value c) = Some y -> y = c.
Proof.
  intros H. unfold parse_children, children_value in H. read_members H. parts H. apply integer_inverse in E as ->.
  destruct p as [bs last]. apply bands_inverse in E0. cbn [fst] in E0. subst bs. next_part H. injection H as <-. by destruct c.
Qed.

Section Guarantees.
Context `{Currencies}.

Lemma configuration_inverse c y : parsePricingConfiguration (configuration_value c) = Some y -> y = c.
Proof.
  intros E'. unfold parsePricingConfiguration, configuration_value in E'. read_members E'.
  change (is_str (VString REPLACEMENT_PRICING_VERSION) REPLACEMENT_PRICING_VERSION) with true in E'. cbv iota in E'. parts E'. injection E' as <-.
  repeat match goal with
  | E : text _ = Some _ |- _ => apply text_inverse in E; subst
  | E : pricingInteger _ _ = Some _ |- _ => apply integer_inverse in E; subst
  | E : parse_capacity _ = Some _ |- _ => apply capacity_inverse in E; subst
  | E : parse_children _ = Some _ |- _ => apply children_inverse in E; subst
  | E : parse_offers _ _ _ _ = Some _ |- _ => apply offers_inverse in E; rename E into Eo
  end. rewrite Eo. by destruct c.
Qed.
End Guarantees.

(** ** A rendered configuration is a plain value *)

Ltac plain :=
  repeat first [ assumption | apply plain_strings | apply plain_fmap; intros | apply plain_nullable; intros
               | apply plain_obj; repeat apply Forall_cons_2; [..|apply Forall_nil_2]; cbn [snd]
               | solve [constructor] | solve [eauto with pricing_plain] ].

Create HintDb pricing_plain.

Lemma plain_adjustment a : plain_json (adjustment_value a).
Proof. destruct a; cbn; plain. Qed.
#[export] Hint Resolve plain_adjustment : pricing_plain.

Lemma plain_price p : plain_json (price_value p).
Proof. destruct p; cbn [price_value]; plain. Qed.
#[export] Hint Resolve plain_price : pricing_plain.

Lemma plain_date d : plain_json (date_price_value d).
Proof. unfold date_price_value. plain. Qed.
#[export] Hint Resolve plain_date : pricing_plain.

Lemma plain_calendar c : plain_json (calendar_value c).
Proof. unfold calendar_value, month_value, season_value, weekday_value. plain. Qed.
#[export] Hint Resolve plain_calendar : pricing_plain.

Lemma plain_rules r : plain_json (rules_value r).
Proof. unfold rules_value. plain. Qed.
#[export] Hint Resolve plain_rules : pricing_plain.

Lemma plain_restrictions r : plain_json (restrictions_value r).
Proof. destruct r; cbn [restrictions_value]; unfold date_rules_value, season_rules_value; plain. Qed.
#[export] Hint Resolve plain_restrictions : pricing_plain.

Lemma plain_meal m : plain_json (meal_value m).
Proof. destruct m as [k [] []]; unfold meal_value, fields; cbn; plain. Qed.
#[export] Hint Resolve plain_meal : pricing_plain.

Lemma plain_offer o : plain_json (offer_value o).
Proof. destruct o as [id t [] m [] r]; unfold offer_value, fields; cbn [omap list_omap fmap option_fmap option_map sale]; cbn -[calendar_value]; plain. Qed.
#[export] Hint Resolve plain_offer : pricing_plain.

Lemma plain_configuration c : plain_json (configuration_value c).
Proof. unfold configuration_value, capacity_value, children_value, band_value. plain. Qed.

(** ** Rounding *)

Lemma print_integer n : BigInt (Z_to_string n) = n.
Proof.
  destruct (decide (0 <= n)) as [Hn|Hn]; [by apply print_value|]. destruct n as [|p|p]; [lia|lia|].
  change (Z_to_string (Z.neg p)) with (String "-" (N_to_string (Z.to_N (Z.pos p)))).
  rewrite <- Z_to_string_pos by lia. unfold BigInt at 1. change (is_char "-" "-") with true. cbv iota.
  pose proof (print_value (Z.pos p) ltac:(lia)) as E. rewrite Z_to_string_pos in * by lia.
  pose proof (positive_decimal_print (N.pos p) ltac:(lia)) as Hp. cbn [Z.to_N] in *.
  unfold BigInt in E. destruct (N_to_string (N.pos p)) as [|c s] eqn:Es; [done|].
  destruct (is_char "-" c) eqn:Ec; [|by rewrite E].
  unfold positive_decimal in Hp. apply andb_true_iff in Hp as [Hp _]. unfold is_char in Ec. by destruct (Ascii.eqb_spec "-" c) as [<-|].
Qed.

(** ** Conversions *)

(** The multiple of the price step nearest to the exact product, the one of larger
    magnitude at a tie, with the sign of the amount *)
Definition nearest_conversion (r : PricingConversionRate) (value converted : Z) : Prop :=
  let num := BigInt (numerator r) in
  let den := BigInt (denominator r) in
  let step := pricingAmountStep (rateTo r) in
  (step | converted) /\ 0 <= value * converted /\ (value = 0 -> converted = 0) /\
  - (den * step) <= 2 * (Z.abs value * num - den * Z.abs converted) < den * step.

(** A price that is converted stays positive. *)
Definition converted_price (r : PricingConversionRate) (text text' : string) : Prop :=
  nearest_conversion r (BigInt text) (BigInt text') /\ (0 < BigInt text -> 0 < BigInt text').

Definition converted_delta (r : PricingConversionRate) (text text' : string) : Prop :=
  nearest_conversion r (BigInt text) (BigInt text').

(** The rate a value stands for, and that it holds at the instant *)
Record rate_holds (rate now : jsval) (r : PricingConversionRate) : Prop := {
  rh_numerator : get rate "numerator" = VString (numerator r) /\ 0 < BigInt (numerator r);
  rh_denominator : get rate "denominator" = VString (denominator r) /\ 0 < BigInt (denominator r);
  rh_from : get rate "from" = VString (rateFrom r);
  rh_to : get rate "to" = VString (rateTo r);
  rh_differ : rateFrom r <> rateTo r;
  rh_window : exists at_ observed expires, now = VInt at_ /\
    timestamp (get rate "observedAt") = Some observed /\ timestamp (get rate "expiresAt") = Some expires /\
    observed <= at_ < expires
}.

(** ** Configurations converted part by part

    What a conversion may change: the amounts, related by [price_to] where they are
    prices and by [delta_to] where they are signed adjustments.  Everything else is as
    it was. *)

Section Converted.
Context (price_to delta_to : string -> string -> Prop).

Inductive adjustment_converted : PricingAdjustment -> PricingAdjustment -> Prop :=
| same_percentage points : adjustment_converted (percentage points) (percentage points)
| fixed_converted delta delta' : delta_to delta delta' -> adjustment_converted (fixed delta) (fixed delta').

Inductive price_converted : RoomPrice -> RoomPrice -> Prop :=
| flat_converted a a' : price_to a a' -> price_converted (flat a) (flat a')
| per_person_converted u u' : price_to u u' -> price_converted (per_person u) (per_person u')
| occupancy_converted l l' : Forall2 price_to l l' -> price_converted (occupancy l) (occupancy l')
| included_converted guests b b' l l' : price_to b b' -> Forall2 adjustment_converted l l' ->
    price_converted (included_guests guests b l) (included_guests guests b' l').

Definition date_converted (d d' : DatePrice) : Prop := date d' = date d /\ price_converted (datePrice d) (datePrice d').

Definition month_converted (m m' : MonthPrice) : Prop := month m' = month m /\ price_converted (monthPrice m) (monthPrice m').

Definition season_converted (s s' : SeasonPrice) : Prop :=
  seasonName s' = seasonName s /\ tier s' = tier s /\ from s' = from s /\ through s' = through s /\
  price_converted (seasonPrice s) (seasonPrice s').

Definition weekday_converted (w w' : WeekdayPrice) : Prop :=
  day w' = day w /\ adjustment_converted (weekdayAdjustment w) (weekdayAdjustment w').

Definition calendar_converted (c c' : PricingCalendar) : Prop :=
  option_Forall2 price_converted (base c) (base c') /\ Forall2 month_converted (months c) (months c') /\
  Forall2 season_converted (seasons c) (seasons c') /\ Forall2 weekday_converted (weekdays c) (weekdays c') /\
  Forall2 date_converted (dates c) (dates c').

Inductive charge_converted : MealCharge -> MealCharge -> Prop :=
| room_charge_converted a a' : price_to a a' -> charge_converted (room_charge a) (room_charge a')
| person_charge_converted adult adult' l l' : price_to adult adult' -> Forall2 price_to l l' ->
    charge_converted (person_charge adult l) (person_charge adult' l').

Inductive offer_price_converted : OfferPrice -> OfferPrice -> Prop :=
| independent_converted c c' : calendar_converted c c' -> offer_price_converted (independent c) (independent c')
| linked_converted parentId a a' l l' : adjustment_converted a a' -> Forall2 date_converted l l' ->
    offer_price_converted (linked parentId a l) (linked parentId a' l').

Definition offer_converted (o o' : PricingOffer) : Prop :=
  offerId o' = offerId o /\ termsRevision o' = termsRevision o /\ sale o' = sale o /\
  restrictions o' = restrictions o /\ mealKind (meal o') = mealKind (meal o) /\
  description (meal o') = description (meal o) /\ charge_converted (charge (meal o)) (charge (meal o')) /\
  offer_price_converted (price o) (price o').

Definition band_converted (b b' : ChildBand) : Prop :=
  fromAge b' = fromAge b /\ throughAge b' = throughAge b /\ countsTowardCapacity b' = countsTowardCapacity b /\
  price_to (nightlyMinor b) (nightlyMinor b').

Definition configuration_converted (c c' : PricingConfiguration) : Prop :=
  propertyId c' = propertyId c /\ roomTypeId c' = roomTypeId c /\ capacity c' = capacity c /\
  adultFromAge (children c') = adultFromAge (children c) /\ Forall2 band_converted (bands (children c)) (bands (children c')) /\
  Forall2 offer_converted (offers c) (offers c').

(** *** The mapping converts every part *)

Context (amount : string -> string) (Hdelta : forall text, delta_to text (amount text)).

(** The amounts of a list of texts are converted. *)
Definition all_to (l : list string) : Prop := forall text, text ∈ l -> price_to text (amount text).

Lemma all_to_app l k : all_to (l ++ k) -> all_to l /\ all_to k.
Proof. intros Ha. split; intros text Hin; apply Ha; set_solver. Qed.

Lemma all_to_cons x l : all_to (x :: l) -> price_to x (amount x) /\ all_to l.
Proof. intros Ha. split; [apply Ha; by left | intros text Hin; apply Ha; by right]. Qed.

Lemma all_to_Forall2 l : all_to l -> Forall2 price_to l (amount <$> l).
Proof. intros Ha. apply Forall2_fmap_r, Forall_Forall2_diag, Forall_forall, Ha. Qed.

(** Every member of a list is converted when all their amounts are. *)
Lemma all_to_members {A} (R : A -> A -> Prop) (f : A -> A) (amounts : A -> list string) l :
  (forall x, all_to (amounts x) -> R x (f x)) -> all_to (mjoin (amounts <$> l)) -> Forall2 R l (f <$> l).
Proof.
  intros Hf Ha. apply Forall2_fmap_r, Forall_Forall2_diag, Forall_forall. intros x Hx. apply Hf. intros text Hin.
  apply Ha, list_elem_of_join. exists (amounts x). split; [done | by apply list_elem_of_fmap_2].
Qed.

Lemma map_adjustment_converted a : adjustment_converted a (map_adjustment amount a).
Proof. destruct a; constructor. apply Hdelta. Qed.

Lemma map_price_converted p : all_to (price_tariffs p) -> price_converted p (map_price amount p).
Proof.
  destruct p as [a|l|guests b l|u]; cbn [price_tariffs map_price]; intros Ha; constructor; try by apply Ha, list_elem_of_singleton.
  - by apply all_to_Forall2.
  - apply Forall2_fmap_r, Forall_Forall2_diag, Forall_true, map_adjustment_converted.
Qed.

Lemma map_dates_converted l : all_to (mjoin ((fun d => price_tariffs (datePrice d)) <$> l)) ->
  Forall2 date_converted l (map_date amount <$> l).
Proof. apply all_to_members. intros d Ha. split; [done | by apply map_price_converted]. Qed.

Lemma map_calendar_converted c : all_to (calendar_tariffs c) -> calendar_converted c (map_calendar amount c).
Proof.
  unfold calendar_tariffs. intros (Hb & (Hm & (Hs & Hd)%all_to_app)%all_to_app)%all_to_app. unfold calendar_converted, map_calendar.
  cbn [base months seasons weekdays dates]. split_and!.
  - destruct (base c); constructor. by apply map_price_converted.
  - revert Hm. apply all_to_members. intros m Ha. split; [done | by apply map_price_converted].
  - revert Hs. apply all_to_members. intros s Ha. unfold season_converted, map_season. cbn. split_and!; try done. by apply map_price_converted.
  - apply Forall2_fmap_r, Forall_Forall2_diag, Forall_true. intros w. split; [done | apply map_adjustment_converted].
  - by apply map_dates_converted.
Qed.

Lemma map_offer_converted o : all_to (offer_tariffs o) -> offer_converted o (map_offer amount o).
Proof.
  unfold offer_tariffs. intros (Hc & Hp)%all_to_app. unfold offer_converted, map_offer. cbn. split_and!; try done.
  - clear Hp. destruct (charge (meal o)) as [a|adult l] in Hc |- *.
    + apply room_charge_converted, Hc. by left.
    + apply all_to_cons in Hc as [Ha Hl]. apply person_charge_converted; [done | by apply all_to_Forall2].
  - clear Hc. destruct (price o) as [c|parent a l] in Hp |- *; constructor; [by apply map_calendar_converted | apply map_adjustment_converted |].
    by apply map_dates_converted.
Qed.

Lemma map_configuration_converted currency_ revision_ c : all_to (tariffs c) ->
  configuration_converted c (map_configuration amount currency_ revision_ c).
Proof.
  unfold tariffs. intros (Hb & Ho)%all_to_app. unfold configuration_converted, map_configuration. cbn. split_and!; try done.
  - apply Forall2_fmap_r, Forall_Forall2_diag, Forall_forall. intros b Hin. unfold band_converted. cbn. split_and!; try done.
    by apply Hb, list_elem_of_fmap_2.
  - revert Ho. apply all_to_members, map_offer_converted.
Qed.
End Converted.

Section Conversions.
Context `{Currencies}.

Lemma string_is v s : as_string v = Some s -> v = VString s.
Proof. destruct v; try done. by intros [= ->]. Qed.

Lemma positive_text_Some v s : positive_text v = Some s -> v = VString s /\ 0 < BigInt s.
Proof.
  unfold positive_text. destruct v as [| | | | |t| | |]; try done. cbn [as_string mbind option_bind].
  destruct (positive_decimal t && (str_length t <=? 18)) eqn:E; [|done]. intros [= <-].
  apply andb_true_iff in E as [E _]. split; [done|]. by apply positive_text_value.
Qed.

Lemma validRate_holds rate now r : validRate rate now = Some r -> rate_holds rate now r.
Proof.
  unfold validRate. intros Hv.
  repeat (match type of Hv with
          | (if ?b then _ else _) = Some _ => let G := fresh "G" in destruct b eqn:G; [|discriminate Hv]
          | _ => next_part Hv
          end; cbn [mbind option_bind] in Hv).
  injection Hv as <-.
  repeat match goal with
  | E : positive_text _ = Some _ |- _ => apply positive_text_Some in E as [? ?]
  | E : as_string _ = Some _ |- _ => apply string_is in E
  | E : pricingInteger _ _ = Some _ |- _ => apply pricingInteger_Some in E as (? & _)
  | G : (_ <=? _) && (_ <? _) = true |- _ => apply andb_true_iff in G as [?%Z.leb_le ?%Z.ltb_lt]
  | G : negb (String.eqb _ _) = true |- _ => apply negb_true_iff, String.eqb_neq in G
  end.
  split; cbn [numerator denominator rateFrom rateTo]; try done. by eexists _, _, _.
Qed.

Lemma converted_nearest rate now r text : validRate rate now = Some r ->
  nearest_conversion r (BigInt text) (BigInt (converted_amount r text)).
Proof.
  intros [[_ Hn] [_ Hd] _ _ _ _]%validRate_holds. unfold nearest_conversion, converted_amount. rewrite print_integer.
  set (value := BigInt text). set (num := BigInt (numerator r)) in *. set (den := BigInt (denominator r)) in *.
  set (step := pricingAmountStep (rateTo r)). assert (Hs : 0 < step) by apply amount_step_pos.
  set (m := (if value <? 0 then - value else value) * num).
  assert (Hm : m = Z.abs value * num). { unfold m. by destruct (Z.ltb_spec value 0); [rewrite Z.abs_neq by lia | rewrite Z.abs_eq by lia]. }
  assert (Hm0 : 0 <= m) by (rewrite Hm; apply Z.mul_nonneg_nonneg; lia).
  pose proof (half_up_within m den step Hs Hd Hm0) as (Hdiv & Hpos & Hb).
  replace (2 * m) with (m * 2) in Hdiv, Hpos, Hb by lia. replace (2 * den * step) with (den * 2 * step) in Hdiv, Hpos, Hb by lia.
  set (v := Z.quot _ _ * step) in *. rewrite Hm in Hb.
  destruct (Z.ltb_spec value 0) as [Hv|Hv]; split_and!; try nia.
  - by apply Z.divide_opp_r.
  - done.
  - intros E. destruct Hdiv as [q Hq]. rewrite E, Z.abs_0, Z.mul_0_l in Hb. destruct (Z.le_gt_cases q 0); [nia|].
    assert (step <= v) by nia. assert (den * step <= den * v) by nia. lia.
Qed.

(** What a conversion is when it is one *)
Lemma conversion_parts value rate now c' : convertPricingConfigurationCurrency value rate now = Some c' ->
  exists c r, parsePricingConfiguration value = Some c /\ validRate rate now = Some r /\ currency c = rateFrom r /\
    existsb (lost r) (tariffs c) = false /\ c' = map_configuration (converted_amount r) (rateTo r) (revision c + 1) c.
Proof.
  unfold convertPricingConfigurationCurrency. intros Hc. next_part Hc. next_part Hc. rename p into c, p0 into r.
  destruct (String.eqb_spec (currency c) (rateFrom r)) as [Ef|]; [|done]. next_part Hc.
  apply integer_inverse in E1 as ->. destruct (existsb _ _) eqn:El; [done|]. cbn [negb] in Hc.
  apply configuration_inverse in Hc as ->. by exists c, r.
Qed.

Lemma conversion_reparses value rate now c' : convertPricingConfigurationCurrency value rate now = Some c' ->
  parsePricingConfiguration (configuration_value c') = Some c'.
Proof.
  unfold convertPricingConfigurationCurrency. intros Hc. parts Hc. pose proof Hc as Ei.
  by apply configuration_inverse in Ei as ->.
Qed.

(** The conversion as it maps a configuration is a conversion of every part. *)
Lemma converted_positive rate now r text : validRate rate now = Some r -> lost r text = false ->
  converted_price r text (converted_amount r text).
Proof.
  intros Hr Hl. pose proof (converted_nearest _ _ _ text Hr) as Hn. split; [exact Hn|]. intros Hpos.
  destruct Hn as (_ & Hsign & _). unfold lost in Hl. rewrite (proj2 (Z.ltb_lt _ _) Hpos) in Hl. cbn [andb] in Hl. nia.
Qed.

(** C25: a conversion keeps every rule and identity of the room, raises its revision by
    one and converts every amount, wherever it stands: the base, month, season and date
    prices and the weekday adjustments of every calendar, linked offers with their
    overrides, meal charges and the rates of the children's bands.  Each amount becomes
    the multiple of the price step nearest to the exact product, with its sign, and no
    positive price becomes nothing; only signed adjustments may.  The rate is the one
    asked for, holds at the instant asked and connects the two currencies, and the
    result is itself an accepted configuration. *)
Theorem conversion_sound value rate now c' : convertPricingConfigurationCurrency value rate now = Some c' ->
  exists c r, parsePricingConfiguration value = Some c /\ rate_holds rate now r /\
    currency c = rateFrom r /\ rateFrom r <> rateTo r /\ currency c' = rateTo r /\ revision c' = revision c + 1 /\
    configuration_converted (converted_price r) (converted_delta r) c c' /\
    parsePricingConfiguration (configuration_value c') = Some c'.
Proof.
  intros Hc. pose proof (conversion_reparses _ _ _ _ Hc) as Hback. apply conversion_parts in Hc as (c & r & Hp & Hr & Ef & Hl & ->).
  exists c, r. pose proof (validRate_holds _ _ _ Hr) as Hh. split_and!; try done; [apply Hh|].
  apply map_configuration_converted; [intros text; by eapply converted_nearest|]. intros text Hin. eapply converted_positive; [exact Hr|].
  apply not_true_iff_false. intros Ht. rewrite <- not_true_iff_false in Hl. apply Hl, existsb_exists. exists text.
  by rewrite <- list_elem_of_In.
Qed.

(** A canonical text says everything of a configuration that parses. *)
Lemma canonical_same c c' : parsePricingConfiguration (configuration_value c) = Some c -> canonical c = canonical c' -> c = c'.
Proof.
  intros Hp Et. unfold canonical in Et. pose proof (plain_configuration c) as P. pose proof (plain_configuration c') as P'.
  assert (Ev : configuration_value c = configuration_value c') by (apply json_stringify_inj; [done..|]; by rewrite !plain_json_text, Et).
  rewrite Ev in Hp. by apply configuration_inverse in Hp.
Qed.

Lemma converted_room_spec rate now next room : converted_room rate now next room = true ->
  exists r, validRate rate now = Some r /\ In (map_configuration (converted_amount r) (rateTo r) (revision room + 1) room) next.
Proof.
  unfold converted_room. destruct (convertPricingConfigurationCurrency _ rate now) as [c'|] eqn:Ec; [|done].
  destruct (List.find _ next) as [n|] eqn:En; [|done]. intros Et%String.eqb_eq.
  apply canonical_same in Et as <-; [|by eapply conversion_reparses].
  apply conversion_parts in Ec as (c & r & Hp & Hr & _ & _ & ->). apply configuration_inverse in Hp as ->.
  exists r. split; [exact Hr|]. by apply List.find_some in En as [? _].
Qed.

(** C17: rooms completely converted are, in some order, exactly the conversions at the rate
    of all rooms there were, none missing, none added and none changed otherwise. *)
Theorem complete_conversion before after rate now : isCompletePricingCurrencyConversion before after rate now = true ->
  exists old next r, traverse parsePricingConfiguration before = Some old /\ traverse parsePricingConfiguration after = Some next /\
    old <> [] /\ validRate rate now = Some r /\
    next ≡ₚ (fun c => map_configuration (converted_amount r) (rateTo r) (revision c + 1) c) <$> old.
Proof.
  unfold isCompletePricingCurrencyConversion. intros [[_ Hlen]%andb_true_iff Hc]%andb_true_iff. apply Nat.eqb_eq in Hlen.
  destruct (traverse _ before) as [old|] eqn:Eo; [|done]. destruct (traverse _ after) as [next|] eqn:En; [|done].
  apply andb_true_iff in Hc as [[[Hr Ho]%andb_true_iff _]%andb_true_iff Ha]. rewrite forallb_forall in Ha.
  apply no_repeats_NoDup in Ho. destruct old as [|c0 old0]; [done|]. clear Hr. set (old := c0 :: old0) in *.
  destruct (converted_room_spec _ _ _ _ (Ha c0 (or_introl eq_refl))) as (r & Hr & _).
  exists old, next, r. split_and!; try done. symmetry. apply submseteq_length_Permutation.
  - apply NoDup_submseteq.
    + apply (NoDup_fmap_1 roomTypeId). by rewrite <- list_fmap_compose.
    + intros x (c & -> & Hin)%list_elem_of_fmap. apply list_elem_of_In in Hin.
      destruct (converted_room_spec _ _ _ _ (Ha c Hin)) as (r' & Hr' & Hx). rewrite Hr in Hr'. injection Hr' as <-.
      by apply list_elem_of_In.
  - rewrite length_fmap. apply traverse_length in Eo, En. lia.
Qed.

(** The same numbers are converted by the ratio of the two scales, and the revision stays. *)
Lemma same_numbers_converted value to c' : pricingConfigurationWithSameNumbers value to = Some c' ->
  exists c, parsePricingConfiguration value = Some c /\
    (currency c = to /\ c' = c \/
     exists r f t, currency c <> to /\ pricingCurrencyScale (currency c) = Some f /\ pricingCurrencyScale to = Some t /\
       numerator r = Z_to_string (10 ^ t) /\ denominator r = Z_to_string (10 ^ f) /\ rateTo r = to /\
       c' = map_configuration (converted_amount r) to (revision c) c).
Proof.
  unfold pricingConfigurationWithSameNumbers. intros Hc. next_part Hc. next_part Hc. next_part Hc.
  rename p into c, z into f, z0 into t. exists c. split; [done|].
  destruct (String.eqb_spec (currency c) to) as [Et|Et]; [left; by injection Hc as <-|]. right. next_part Hc.
  apply conversion_parts in E2 as (c2 & r & Hp & Hr & _ & _ & ->). apply configuration_inverse in Hp as ->, Hc as ->.
  apply validRate_holds in Hr as [[En _] [Ed _] _ Eto _ _]. cbn in En, Ed, Eto.
  injection En as En. injection Ed as Ed. injection Eto as Eto. exists r, f, t. by rewrite <- Eto, <- En, <- Ed.
Qed.
End Conversions.
