(* ===== verification/PublicPricing.v ===== *)
(** * The stay a guest asks a price for

    packages/domain-booking/src/publicPricingSelection.ts,
    pricingAddonSelection.ts, pricingPaymentMethods.ts and
    replacementPricingEvidence.ts: the public selection, the stay it is bound to, the
    key that identifies a stay, and whether priced evidence still holds for it. *)

From S2P Require Import Prelude JsValue JsonText CalendarDates Money CancellationTerms ReplacementPricing PricingConfiguration.

(** ** Stays *)

Inductive PersonKind := adult_guest | child_guest.

Record PricingAddonPerson := { personSelection : string; personKind : PersonKind; personIndex : Z }.

(** The people of an add-on: [None] before ["addon-selection.v2"], [Some None] for [null] *)
Definition AddonPeople : Type := option (option (list PricingAddonPerson)).

Record PricingAddonSelection := {
  addonId : string;
  addonQuantity : Z;
  addonDates : option (list string);
  addonPeople : AddonPeople
}.

Record ReplacementRoom := { selectionId : string; roomTypeId : string; offerId : string; roomGuests : PricingGuests }.

Record ReplacementStay := {
  stayPropertyId : string;
  stayCheckIn : string;
  stayCheckOut : string;
  stayCurrency : string;
  stayRooms : list ReplacementRoom;
  stayAddons : list PricingAddonSelection;
  stayPromoCode : option string
}.

Definition kind_text (k : PersonKind) : string :=
  match k with adult_guest => "adult" | child_guest => "child" end.

(** ** People of an add-on *)

Definition parse_kind (v : jsval) : option PersonKind :=
  if is_str v "adult" then Some adult_guest else if is_str v "child" then Some child_guest else None.

(** [[selectionId, kind, index]] *)
Definition person_value (p : PricingAddonPerson) : jsval :=
  arr [VString (personSelection p); VString (kind_text (personKind p)); VInt (personIndex p)].

Definition person_key (p : PricingAddonPerson) : string := json_text (person_value p).

Definition guest_count (g : PricingGuests) (k : PersonKind) : Z :=
  match k with adult_guest => guestAdults g | child_guest => Z.of_nat (length (childAgesAtCheckIn g)) end.

(** [rooms] maps the selections to their guests. *)
Definition parse_person (rooms : list (string * PricingGuests)) (v : jsval) : option PricingAddonPerson :=
  guard? pricingObject v && pricingKeys v ["selectionId"; "kind"; "index"] in
  let? id := as_string (get v "selectionId") in
  let? index := pricingInteger (get v "index") 0 in
  let? k := parse_kind (get v "kind") in
  let? guests := map_get rooms id in
  guard? index <? guest_count guests k in
  Some {| personSelection := id; personKind := k; personIndex := index |}.

Fixpoint parse_people (rooms : list (string * PricingGuests)) (seen : list string) (raw : list jsval)
    : option (list PricingAddonPerson) :=
  match raw with
  | [] => Some []
  | v :: rest =>
      let? p := parse_person rooms v in
      guard? negb (includes seen (person_key p)) in
      let? people := parse_people rooms (person_key p :: seen) rest in
      Some (p :: people)
  end.

Definition ADDON_SELECTION_V2 : string := "addon-selection.v2".

(** The people that [validPricingAddonPeople] accepts *)
Definition validPricingAddonPeople (addon : jsval) (rooms : list (string * PricingGuests)) : option AddonPeople :=
  if negb (has_own addon "version") then guard? pricingKeys addon ["id"; "quantity"; "dates"] in Some None
  else
    guard? pricingKeys addon ["version"; "id"; "quantity"; "dates"; "people"] && is_str (get addon "version") ADDON_SELECTION_V2 in
    if is_null (get addon "people") then Some (Some None)
    else
      let? raw := as_array (get addon "people") in
      guard? negb (length raw =? 0)%nat && negb (99 <? length raw)%nat in
      let? people := parse_people rooms [] raw in
      Some (Some (Some people)).

(** ** Parts of a stay *)

Definition text (maximum : Z) (v : jsval) : option string := as_trimmed 1 maximum v.

Definition nonempty_text (s : string) : bool := negb (String.eqb s "") && String.eqb (trim s) s.

Definition nonempty (v : jsval) : option string :=
  let? s := as_string v in guard? nonempty_text s in Some s.

Definition child_age (v : jsval) : option Z :=
  let? age := pricingInteger v 0 in guard? age <=? 17 in Some age.

Definition parse_guests (v : jsval) : option PricingGuests :=
  guard? pricingObject v && pricingKeys v ["adults"; "childAgesAtCheckIn"] in
  let? adults := pricingInteger (get v "adults") 1 in
  let? raw := as_array (get v "childAgesAtCheckIn") in
  let? ages := traverse child_age raw in
  Some {| guestAdults := adults; childAgesAtCheckIn := ages |}.

Definition stay_date (checkIn checkOut : string) (v : jsval) : option string :=
  let? s := as_string v in
  guard? pricingDate v && str_le checkIn s && str_le s checkOut in Some s.

(** The dates of an add-on, at most [limit] of them *)
Definition parse_dates (checkIn checkOut : string) (limit : option nat) (v : jsval) : option (option (list string)) :=
  as_nullable (fun v =>
    let? raw := as_array v in
    guard? negb (length raw =? 0)%nat && match limit with Some n => negb (n <? length raw)%nat | None => true end in
    let? dates := traverse (stay_date checkIn checkOut) raw in
    guard? no_repeats dates in Some dates) v.

Section Stay.
Context `{Currencies}.

Definition pricing_currency (v : jsval) : option string :=
  let? currency := as_string v in
  let? _ := pricingCurrencyScale currency in
  Some currency.

(** ** The public selection *)

Definition PUBLIC_PRICING_SELECTION_VERSION : string := "public-pricing-selection.v1".
Definition PUBLIC_PRICING_SELECTION_V2 : string := "public-pricing-selection.v2".

Record PublicRoom := { publicSelectionId : string; publicOfferKey : string; publicGuests : PricingGuests }.

Record PublicPricingSelection := {
  publicV2 : bool;
  publicCheckIn : string;
  publicCheckOut : string;
  publicCurrency : string;
  publicRooms : list PublicRoom;
  publicAddons : list PricingAddonSelection;
  publicPromoCode : option string
}.

Definition parse_version (v : jsval) : option bool :=
  if is_str v PUBLIC_PRICING_SELECTION_VERSION then Some false
  else if is_str v PUBLIC_PRICING_SELECTION_V2 then Some true else None.

(** Ceilings of a selection, PUBLIC_PRICING_SELECTION_LIMITS *)
Definition rooms_limit : nat := 99.
Definition guests_limit : Z := 99.
Definition nights_limit : Z := 366.
Definition addons_limit : nat := 99.
Definition quantity_limit : Z := 99.

Definition parse_public_room (v : jsval) : option PublicRoom :=
  guard? pricingObject v && pricingKeys v ["selectionId"; "publicOfferKey"; "guests"] in
  let? id := text 200 (get v "selectionId") in
  let? key := text 512 (get v "publicOfferKey") in
  let? guests := parse_guests (get v "guests") in
  guard? (guestAdults guests <=? guests_limit) &&
         (Z.of_nat (length (childAgesAtCheckIn guests)) + guestAdults guests <=? guests_limit) in
  Some {| publicSelectionId := id; publicOfferKey := key; publicGuests := guests |}.

Fixpoint parse_public_rooms (selections : list string) (raw : list jsval) : option (list PublicRoom) :=
  match raw with
  | [] => Some []
  | v :: rest =>
      let? room := parse_public_room v in
      guard? negb (includes selections (publicSelectionId room)) in
      let? rooms := parse_public_rooms (publicSelectionId room :: selections) rest in
      Some (room :: rooms)
  end.

Definition guests_of (rooms : list PublicRoom) : list (string * PricingGuests) :=
  (fun r => (publicSelectionId r, publicGuests r)) <$> rooms.

Definition versioned (p : AddonPeople) : bool := match p with Some _ => true | None => false end.

Definition parse_public_addon (v2 : bool) (checkIn checkOut : string) (rooms : list (string * PricingGuests)) (v : jsval)
    : option PricingAddonSelection :=
  guard? pricingObject v in
  let? people := validPricingAddonPeople v rooms in
  guard? Bool.eqb (versioned people) v2 in
  let? id := text 200 (get v "id") in
  let? quantity := pricingInteger (get v "quantity") 1 in
  guard? quantity <=? quantity_limit in
  let? dates := parse_dates checkIn checkOut (Some (Z.to_nat nights_limit + 1)%nat) (get v "dates") in
  Some {| addonId := id; addonQuantity := quantity; addonDates := dates; addonPeople := people |}.

Fixpoint parse_public_addons (v2 : bool) (checkIn checkOut : string) (rooms : list (string * PricingGuests))
    (addons : list string) (raw : list jsval) : option (list PricingAddonSelection) :=
  match raw with
  | [] => Some []
  | v :: rest =>
      let? addon := parse_public_addon v2 checkIn checkOut rooms v in
      guard? negb (includes addons (addonId addon)) in
      let? rest := parse_public_addons v2 checkIn checkOut rooms (addonId addon :: addons) rest in
      Some (addon :: rest)
  end.

Definition parsePublicPricingSelection (value : jsval) : option PublicPricingSelection :=
  guard? pricingObject value &&
         pricingKeys value ["version"; "checkIn"; "checkOut"; "currency"; "rooms"; "addons"; "promoCode"] &&
         pricingDate (get value "checkIn") && pricingDate (get value "checkOut") in
  let? v2 := parse_version (get value "version") in
  let? checkIn := as_string (get value "checkIn") in
  let? checkOut := as_string (get value "checkOut") in
  guard? str_lt checkIn checkOut && (date_parse checkOut - date_parse checkIn <=? nights_limit) in
  let? currency := pricing_currency (get value "currency") in
  let? promo := as_nullable (text 200) (get value "promoCode") in
  let? raw_rooms := as_array (get value "rooms") in
  guard? (1 <=? length raw_rooms)%nat && (length raw_rooms <=? rooms_limit)%nat in
  let? raw_addons := as_array (get value "addons") in
  guard? (length raw_addons <=? addons_limit)%nat in
  let? rooms := parse_public_rooms [] raw_rooms in
  let? addons := parse_public_addons v2 checkIn checkOut (guests_of rooms) [] raw_addons in
  Some {| publicV2 := v2; publicCheckIn := checkIn; publicCheckOut := checkOut; publicCurrency := currency;
          publicRooms := rooms; publicAddons := addons; publicPromoCode := promo |}.

(** ** The stay *)

Definition parse_room (v : jsval) : option ReplacementRoom :=
  guard? pricingObject v && pricingKeys v ["selectionId"; "roomTypeId"; "offerId"; "guests"] in
  let? id := nonempty (get v "selectionId") in
  let? room := nonempty (get v "roomTypeId") in
  let? offer := nonempty (get v "offerId") in
  let? guests := parse_guests (get v "guests") in
  Some {| selectionId := id; roomTypeId := room; offerId := offer; roomGuests := guests |}.

Definition room_guests (rooms : list ReplacementRoom) : list (string * PricingGuests) :=
  (fun r => (selectionId r, roomGuests r)) <$> rooms.

Definition parse_addon (checkIn checkOut : string) (rooms : list (string * PricingGuests)) (v : jsval)
    : option PricingAddonSelection :=
  guard? pricingObject v in
  let? people := validPricingAddonPeople v rooms in
  let? id := nonempty (get v "id") in
  let? quantity := pricingInteger (get v "quantity") 1 in
  let? dates := parse_dates checkIn checkOut None (get v "dates") in
  Some {| addonId := id; addonQuantity := quantity; addonDates := dates; addonPeople := people |}.

Definition parseReplacementStay (value : jsval) : option ReplacementStay :=
  guard? pricingObject value &&
         pricingKeys value ["propertyId"; "checkIn"; "checkOut"; "currency"; "rooms"; "addons"; "promoCode"] &&
         pricingDate (get value "checkIn") && pricingDate (get value "checkOut") in
  let? property := nonempty (get value "propertyId") in
  let? checkIn := as_string (get value "checkIn") in
  let? checkOut := as_string (get value "checkOut") in
  guard? str_lt checkIn checkOut in
  let? currency := pricing_currency (get value "currency") in
  let? promo := as_nullable nonempty (get value "promoCode") in
  let? raw_rooms := as_array (get value "rooms") in
  guard? negb (length raw_rooms =? 0)%nat in
  let? raw_addons := as_array (get value "addons") in
  let? rooms := traverse parse_room raw_rooms in
  let? addons := traverse (parse_addon checkIn checkOut (room_guests rooms)) raw_addons in
  guard? no_repeats (selectionId <$> rooms) && no_repeats (addonId <$> addons) in
  Some {| stayPropertyId := property; stayCheckIn := checkIn; stayCheckOut := checkOut; stayCurrency := currency;
          stayRooms := rooms; stayAddons := addons; stayPromoCode := promo |}.

(** ** Binding a selection to the offers of a property *)

Record PublicPricingOfferBinding := {
  bindingPropertyId : string;
  bindingOfferKey : string;
  bindingRoomTypeId : string;
  bindingOfferId : string
}.

(** The one offer of the property with the key of a room *)
Definition bind_room (propertyId : string) (offers : list PublicPricingOfferBinding) (room : PublicRoom)
    : option ReplacementRoom :=
  match List.filter (fun offer => String.eqb (bindingPropertyId offer) propertyId &&
                                  String.eqb (bindingOfferKey offer) (publicOfferKey room)) offers with
  | [offer] =>
      guard? trimmed 1 200 (bindingRoomTypeId offer) && trimmed 1 200 (bindingOfferId offer) in
      Some {| selectionId := publicSelectionId room; roomTypeId := bindingRoomTypeId offer;
              offerId := bindingOfferId offer; roomGuests := publicGuests room |}
  | _ => None
  end.

Definition guests_value (g : PricingGuests) : jsval :=
  obj [("adults", VInt (guestAdults g)); ("childAgesAtCheckIn", arr (VInt <$> childAgesAtCheckIn g))].

Definition room_value (r : ReplacementRoom) : jsval :=
  obj [("selectionId", VString (selectionId r)); ("roomTypeId", VString (roomTypeId r));
       ("offerId", VString (offerId r)); ("guests", guests_value (roomGuests r))].

Definition person_record (p : PricingAddonPerson) : jsval :=
  obj [("selectionId", VString (personSelection p)); ("kind", VString (kind_text (personKind p)));
       ("index", VInt (personIndex p))].

Definition dates_value (dates : option (list string)) : jsval := of_nullable (fun l => arr (VString <$> l)) dates.

(** An add-on of a selection, as it was submitted up to the order of its members *)
Definition addon_value (a : PricingAddonSelection) : jsval :=
  let members := [("id", VString (addonId a)); ("quantity", VInt (addonQuantity a)); ("dates", dates_value (addonDates a))] in
  obj match addonPeople a with
      | None => members
      | Some people => ("version", VString ADDON_SELECTION_V2) :: members ++
                       [("people", of_nullable (fun l => arr (person_record <$> l)) people)]
      end.

Definition bindPublicPricingSelection (value : jsval) (propertyId : string) (offers : list PublicPricingOfferBinding)
    : option ReplacementStay :=
  let? selection := parsePublicPricingSelection value in
  guard? trimmed 1 200 propertyId in
  let? rooms := traverse (bind_room propertyId offers) (publicRooms selection) in
  parseReplacementStay
    (obj [("propertyId", VString propertyId); ("checkIn", VString (publicCheckIn selection));
          ("checkOut", VString (publicCheckOut selection)); ("currency", VString (publicCurrency selection));
          ("rooms", arr (room_value <$> rooms)); ("addons", arr (addon_value <$> publicAddons selection));
          ("promoCode", of_nullable VString (publicPromoCode selection))]).
End Stay.

(** ** The key of a stay *)

Definition compare_text (a b : string) : Z := if str_lt a b then -1 else if str_lt b a then 1 else 0.

Definition sorted_texts (l : list string) : list string := sort_by compare_text l.

(** Entries [[key, ...]] sorted by [compareKey] *)
Definition sorted_entries (l : list (string * jsval)) : list jsval :=
  snd <$> sort_by (fun a b => compare_text (fst a) (fst b)) l.

Definition room_entry (ordered : bool) (r : ReplacementRoom) : string * jsval :=
  let ages := childAgesAtCheckIn (roomGuests r) in
  (selectionId r,
   arr [VString (selectionId r); VString (roomTypeId r); VString (offerId r); VInt (guestAdults (roomGuests r));
        arr (VInt <$> if ordered then ages else sort_by Z.sub ages)]).

Definition people_entry (people : option (list PricingAddonPerson)) : jsval :=
  of_nullable (fun l => arr (person_value <$> sort_by (fun p q => compare_text (person_key p) (person_key q)) l)) people.

Definition addon_entry (a : PricingAddonSelection) : string * jsval :=
  (addonId a,
   arr ([VString (addonId a); VInt (addonQuantity a); of_nullable (fun l => arr (VString <$> sorted_texts l)) (addonDates a)] ++
        match addonPeople a with
        | Some people => [VString ADDON_SELECTION_V2; people_entry people]
        | None => []
        end)).

(** Children are named by their position once an add-on may name people. *)
Definition people_selected (stay : ReplacementStay) : bool := existsb (fun a => versioned (addonPeople a)) (stayAddons stay).

Definition stay_key_value (stay : ReplacementStay) : jsval :=
  arr [VString (stayPropertyId stay); VString (stayCheckIn stay); VString (stayCheckOut stay); VString (stayCurrency stay);
       arr (sorted_entries (room_entry (people_selected stay) <$> stayRooms stay));
       arr (sorted_entries (addon_entry <$> stayAddons stay)); of_nullable VString (stayPromoCode stay)].

(** The text the key is the digest of *)
Definition stay_key_text (stay : ReplacementStay) : string := json_text (stay_key_value stay).

(** [sha256] is the hexadecimal digest of a text. *)
Definition replacementStayKey (sha256 : string -> string) (stay : ReplacementStay) : string :=
  sha256 (stay_key_text stay).

(** ** Priced evidence *)

Inductive OfferCancellation := keeps_all | flexible_terms (terms : jsval).

Inductive OfferPayment := pay_full | pay_deposit (basisPoints balanceDaysBeforeArrival : jsval).

Record ReplacementOfferTerms := {
  termsRoomTypeId : string;
  termsOfferId : string;
  termsRevision : string;
  termsCancellation : OfferCancellation;
  termsPayment : OfferPayment;
  acceptedMethods : option jsval
}.

Record ReplacementFx := {
  fxId : string;
  fxFrom : string;
  fxTo : string;
  fxNumerator : string;
  fxDenominator : string;
  fxObservedAt : string;
  fxExpiresAt : string
}.

Record ReplacementPricingLine := {
  lineId : string;
  lineSelection : option string;
  lineKind : string;
  lineAmount : string
}.

Record PricingSourceRevisions := {
  rev_pms : string;
  rev_terms : string;
  rev_promotions : string;
  rev_addons : string;
  rev_charges : string;
  rev_finance : string;
  rev_fx : string
}.

Record ReplacementPricingEvidence := {
  evidenceVersion : string;
  requestKey : string;
  evidenceRevisions : PricingSourceRevisions;
  evidenceCurrency : string;
  issuedAt : string;
  expiresAt : string;
  evidenceLines : list ReplacementPricingLine;
  totalMinor : string;
  dueNowMinor : string;
  dueLaterMinor : string;
  evidenceTerms : list ReplacementOfferTerms;
  evidenceFx : list ReplacementFx;
  paymentCapabilityEvidenceId : string;
  mandatoryChargeEvidenceId : string
}.

Inductive EvidenceStatus := evidence_current | evidence_stale | evidence_invalid.

Definition PRICING_PAYMENT_METHODS : list string := ["card"; "pay_at_property"; "bank_transfer"; "paypal"].

Definition isPricingPaymentMethod (method : string) : bool := includes PRICING_PAYMENT_METHODS method.

(** [undefined] methods are accepted; others are distinct members of the vocabulary. *)
Definition validOptionalPricingPaymentMethods (methods : option jsval) : bool :=
  match methods with
  | None => true
  | Some v =>
      match as_array v with
      | Some raw =>
          negb (length raw =? 0)%nat && (length raw <=? length PRICING_PAYMENT_METHODS)%nat &&
          match traverse as_string raw with
          | Some texts => no_repeats texts && forallb isPricingPaymentMethod texts
          | None => false
          end
      | None => false
      end
  end.

Definition validTerms (t : ReplacementOfferTerms) : bool :=
  validOptionalPricingPaymentMethods (acceptedMethods t) && nonempty_text (termsRoomTypeId t) &&
  nonempty_text (termsOfferId t) && nonempty_text (termsRevision t) &&
  match termsCancellation t with
  | keeps_all => true
  | flexible_terms v => match parseFlexibleCancellationTerms v with Some _ => true | None => false end
  end &&
  match termsPayment t with
  | pay_full => true
  | pay_deposit points days =>
      match pricingInteger points 1, pricingInteger days 0 with
      | Some points, Some _ => points <=? 10000
      | _, _ => false
      end
  end.

Definition offer_key (roomTypeId offerId : string) : string := json_text (arr [VString roomTypeId; VString offerId]).

Definition signed_amount (line : ReplacementPricingLine) : Z :=
  BigInt (lineAmount line) * (if String.eqb (lineKind line) "discount" then -1 else 1).

Definition LINE_KINDS : list string := ["room"; "meal"; "addon"; "charge"; "discount"].

(** The checks of a line for the selections of the stay *)
Definition line_valid (selections : list string) (line : ReplacementPricingLine) : bool :=
  nonempty_text (lineId line) && isMinorAmount (VString (lineAmount line)) && includes LINE_KINDS (lineKind line) &&
  match lineSelection line with
  | Some id => includes selections id
  | None => negb (includes ["room"; "meal"] (lineKind line))
  end.

Fixpoint lines_total (selections ids : list string) (total : Z) (lines : list ReplacementPricingLine) : option Z :=
  match lines with
  | [] => Some total
  | line :: rest =>
      guard? line_valid selections line && negb (includes ids (lineId line)) in
      lines_total selections (lineId line :: ids) (total + signed_amount line) rest
  end.

(** A line that prices the room of a selection *)
Definition room_line (id : string) (line : ReplacementPricingLine) : bool :=
  String.eqb (lineKind line) "room" && bool_decide (lineSelection line = Some id) && isPositiveMinor (VString (lineAmount line)).

Definition revision_list (r : PricingSourceRevisions) : list string :=
  [rev_pms r; rev_terms r; rev_promotions r; rev_addons r; rev_charges r; rev_finance r; rev_fx r].

Section Evidence.
Context `{Currencies}.
Variable sha256 : string -> string.

(** [Date.parse(text)] in milliseconds, [None] for [NaN]: beyond the standard format
    what is read depends on the engine. *)
Variable date_ms : string -> option Z.

Definition validFx (f : ReplacementFx) (now : Z) : bool :=
  nonempty_text (fxId f) &&
  match pricingCurrencyScale (fxFrom f), pricingCurrencyScale (fxTo f) with Some _, Some _ => true | _, _ => false end &&
  negb (String.eqb (fxFrom f) (fxTo f)) &&
  isPositiveMinor (VString (fxNumerator f)) && isPositiveMinor (VString (fxDenominator f)) &&
  match date_ms (fxObservedAt f), date_ms (fxExpiresAt f) with
  | Some observed, Some expires => (observed <=? now) && (now <? expires)
  | _, _ => false
  end.

(** The terms are those of the offers of the stay, once each. *)
Definition terms_match (stay : ReplacementStay) (terms : list ReplacementOfferTerms) : bool :=
  let offers := remove_dups ((fun r => offer_key (roomTypeId r) (offerId r)) <$> stayRooms stay) in
  let keys := (fun t => offer_key (termsRoomTypeId t) (termsOfferId t)) <$> terms in
  Nat.eqb (length terms) (length offers) && Nat.eqb (length (remove_dups keys)) (length offers) &&
  forallb (includes offers) keys && forallb validTerms terms.

Definition amounts_add_up (e : ReplacementPricingEvidence) (selections : list string) : bool :=
  match lines_total selections [] 0 (evidenceLines e) with
  | Some total =>
      forallb (fun id => existsb (room_line id) (evidenceLines e)) selections &&
      negb (total <=? 0) && (total =? BigInt (totalMinor e)) &&
      (BigInt (dueNowMinor e) + BigInt (dueLaterMinor e) =? total)
  | None => false
  end.

Definition evidence_valid (e : ReplacementPricingEvidence) (stay : ReplacementStay) (time : Z) : option (Z * Z) :=
  let? start := date_ms (issuedAt e) in
  let? end_ := date_ms (expiresAt e) in
  guard? String.eqb (evidenceVersion e) "pricing.v2" && String.eqb (evidenceCurrency e) (stayCurrency stay) &&
         (start <? end_) &&
         forallb (fun s => isMinorAmount (VString s)) [totalMinor e; dueNowMinor e; dueLaterMinor e] &&
         negb (length (evidenceLines e) =? 0)%nat && nonempty_text (paymentCapabilityEvidenceId e) &&
         nonempty_text (mandatoryChargeEvidenceId e) && terms_match stay (evidenceTerms e) &&
         forallb (fun f => validFx f time) (evidenceFx e) &&
         amounts_add_up e (selectionId <$> stayRooms stay) in
  Some (start, end_).

(** [now] is a valid date, [time] its milliseconds. *)
Definition replacementEvidenceStatus (e : ReplacementPricingEvidence) (stay : ReplacementStay)
    (current : PricingSourceRevisions) (time : Z) : EvidenceStatus :=
  match evidence_valid e stay time with
  | None => evidence_invalid
  | Some (start, end_) =>
      if negb (String.eqb (requestKey e) (replacementStayKey sha256 stay)) || (time <? start) || (end_ <=? time) ||
         negb (forallb nonempty_text (revision_list current)) ||
         negb (bool_decide (revision_list (evidenceRevisions e) = revision_list current))
      then evidence_stale else evidence_current
  end.
End Evidence.

(** ** Sorting by text *)

Lemma compare_text_le a b : compare_text a b <= 0 <-> str_le a b = true.
Proof.
  unfold compare_text. destruct (str_lt a b) eqn:E; [split; [intros _; by apply str_lt_le_weaken | lia]|].
  destruct (str_lt b a) eqn:E'.
  - split; [lia|]. intros H. destruct (String.eqb_spec a b) as [->|Hne]; [by rewrite str_lt_irrefl in E'|].
    by rewrite (str_lt_le _ _ H Hne) in E.
  - split; [intros _ | lia]. destruct (str_le a b) eqn:El; [done|]. pose proof (str_le_total _ _ El) as El'.
    destruct (String.eqb_spec b a) as [->|Hne]; [congruence|]. by rewrite (str_lt_le _ _ El' Hne) in E'.
Qed.

Lemma compare_text_total a b : 0 < compare_text a b -> compare_text b a <= 0.
Proof. intros H. apply compare_text_le. destruct (str_le b a) eqn:E; [done|]. apply str_le_total, compare_text_le in E. lia. Qed.

Lemma compare_text_trans a b c : compare_text a b <= 0 -> compare_text b c <= 0 -> compare_text a c <= 0.
Proof.
  rewrite !compare_text_le. intros H1 H2. destruct (String.eqb_spec a b) as [->|Hab]; [done|].
  destruct (String.eqb_spec b c) as [->|Hbc]; [done|]. apply str_lt_le_weaken.
  eapply str_lt_trans; [apply (str_lt_le a b) | apply (str_lt_le b c)]; done.
Qed.

Lemma compare_text_antisym a b : compare_text a b <= 0 -> compare_text b a <= 0 -> a = b.
Proof.
  rewrite !compare_text_le. intros H1 H2. destruct (String.eqb_spec a b) as [->|Hne]; [done|].
  pose proof (str_lt_le _ _ H1 Hne) as L1. pose proof (str_lt_le _ _ H2 (not_eq_sym Hne)) as L2.
  pose proof (str_lt_trans _ _ _ L1 L2) as L. by rewrite str_lt_irrefl in L.
Qed.

(** A sort by an order that tells the elements apart depends on the elements only. *)
Lemma sort_by_same {A} (compare : A -> A -> Z) l k :
  (forall a b, 0 < compare a b -> compare b a <= 0) ->
  (forall a b c, compare a b <= 0 -> compare b c <= 0 -> compare a c <= 0) ->
  (forall a b, a ∈ l -> b ∈ l -> compare a b <= 0 -> compare b a <= 0 -> a = b) ->
  sort_by compare l = sort_by compare k <-> l ≡ₚ k.
Proof.
  intros Ht Htr Ha. split; [intros E; by rewrite <- (sort_by_perm compare l), E, sort_by_perm|]. intros Hp.
  apply (StronglySorted_unique_strong (fun a b => compare a b <= 0)); [|by apply sort_by_sorted..|by rewrite !sort_by_perm].
  intros a b Hin Hin'. apply elem_of_sort_by in Hin, Hin'. rewrite <- Hp in Hin'. by apply Ha.
Qed.

Lemma sort_texts_same {A} (f : A -> string) l k : (forall a b, a ∈ l -> b ∈ l -> f a = f b -> a = b) ->
  sort_by (fun a b => compare_text (f a) (f b)) l = sort_by (fun a b => compare_text (f a) (f b)) k <-> l ≡ₚ k.
Proof.
  intros Hf. apply sort_by_same; [intros a b; apply compare_text_total | intros a b c; apply compare_text_trans|].
  intros a b Hin Hin' H1 H2. apply Hf; [done..|]. by apply compare_text_antisym.
Qed.

Lemma sort_integers_same (l k : list Z) : sort_by Z.sub l = sort_by Z.sub k <-> l ≡ₚ k.
Proof. apply sort_by_same; intros; lia. Qed.

(** Entries whose value names their key are the same once they are sorted alike. *)
Lemma sorted_entries_same l k : NoDup l.*1 ->
  (forall x y, x ∈ l ++ k -> y ∈ l ++ k -> snd x = snd y -> x = y) ->
  sorted_entries l = sorted_entries k <-> l ≡ₚ k.
Proof.
  intros Hnd Hk. unfold sorted_entries. rewrite <- (sort_texts_same fst).
  - split; [|by intros ->]. intros E. set (a := sort_by _ l) in *. set (b := sort_by _ k) in *.
    assert (Ha : forall x, x ∈ a -> x ∈ l ++ k) by (intros x Hx; apply elem_of_app; left; by apply elem_of_sort_by in Hx).
    assert (Hb : forall x, x ∈ b -> x ∈ l ++ k) by (intros x Hx; apply elem_of_app; right; by apply elem_of_sort_by in Hx).
    clearbody a b. revert b Hb E. induction a as [|x a IH]; intros [|y b] Hb E; try discriminate E; [done|].
    cbn [fmap list_fmap] in E. injection E as E1 E2. f_equal.
    + apply Hk; [apply Ha; by left | apply Hb; by left | done].
    + apply IH; [intros z Hz; apply Ha; by right | intros z Hz; apply Hb; by right | done].
  - intros x y Hx Hy E. apply list_elem_of_lookup in Hx as (i & Hi), Hy as (j & Hj).
    assert (i = j); [|congruence]. eapply NoDup_lookup; [exact Hnd| |]; rewrite list_lookup_fmap; [by rewrite Hi | by rewrite Hj, E].
Qed.

(** ** Stays that are the same but for their order *)

Definition same_members {A} (a b : option (list A)) : Prop :=
  match a, b with None, None => True | Some l, Some k => l ≡ₚ k | _, _ => False end.

Definition same_people (a b : AddonPeople) : Prop :=
  match a, b with None, None => True | Some p, Some q => same_members p q | _, _ => False end.

Definition same_addon (a b : PricingAddonSelection) : Prop :=
  addonId a = addonId b /\ addonQuantity a = addonQuantity b /\ same_members (addonDates a) (addonDates b) /\
  same_people (addonPeople a) (addonPeople b).

(** [ordered]: whether the order of the children counts *)
Definition same_room (ordered : bool) (r s : ReplacementRoom) : Prop :=
  selectionId r = selectionId s /\ roomTypeId r = roomTypeId s /\ offerId r = offerId s /\
  guestAdults (roomGuests r) = guestAdults (roomGuests s) /\
  if ordered then childAgesAtCheckIn (roomGuests r) = childAgesAtCheckIn (roomGuests s)
  else childAgesAtCheckIn (roomGuests r) ≡ₚ childAgesAtCheckIn (roomGuests s).

(** One list is the other, in another order, up to [R]. *)
Definition permuted {A} (R : A -> A -> Prop) (l k : list A) : Prop := exists l', l ≡ₚ l' /\ Forall2 R l' k.

(** One stay asks for the same: the order of its rooms, of its add-ons, of their dates
    and people never counts, that of the children only if an add-on may name them. *)
Definition same_stay (a b : ReplacementStay) : Prop :=
  stayPropertyId a = stayPropertyId b /\ stayCheckIn a = stayCheckIn b /\ stayCheckOut a = stayCheckOut b /\
  stayCurrency a = stayCurrency b /\ stayPromoCode a = stayPromoCode b /\
  permuted (same_room (people_selected a)) (stayRooms a) (stayRooms b) /\
  permuted same_addon (stayAddons a) (stayAddons b).

Lemma permuted_fmap {A B} (R : A -> A -> Prop) (f : A -> B) l k : (forall x y, f x = f y <-> R x y) ->
  f <$> l ≡ₚ f <$> k <-> permuted R l k.
Proof.
  intros Hf. split.
  - intros H. symmetry in H. apply (Permutation_map_inv f) in H as (l' & E & Hl). exists l'. split; [done|].
    symmetry in E. change (f <$> l' = f <$> k) in E. clear Hl. revert k E. induction l' as [|x l' IH]; intros [|y k] E; try discriminate E; constructor.
    + apply Hf. by injection E.
    + apply IH. by injection E.
  - intros (l' & -> & H). enough (E : f <$> l' = f <$> k) by by rewrite E. induction H as [|x y l' k Hxy _ IH]; [done|]. cbn [fmap list_fmap]. f_equal; [by apply Hf | exact IH].
Qed.

Lemma permuted_iff {A} (R S : A -> A -> Prop) l k : (forall x y, R x y <-> S x y) -> permuted R l k <-> permuted S l k.
Proof. intros H. unfold permuted. split; intros (l' & Hp & Hl); exists l'; (split; [done|]); (eapply Forall2_impl; [exact Hl|]); intros x y; apply H. Qed.

Lemma integers_inj (l k : list Z) : VInt <$> l = VInt <$> k -> l = k.
Proof. intros H. by apply list_fmap_eq_inj in H; [|intros ? ? [= ->]]. Qed.

Lemma kind_text_inj k k' : kind_text k = kind_text k' -> k = k'.
Proof. by destruct k, k'. Qed.

Lemma person_value_plain p : plain_json (person_value p).
Proof. constructor. repeat constructor. Qed.

Lemma person_value_inj p q : person_value p = person_value q -> p = q.
Proof. intros H%arr_inj. destruct p, q. cbn in H. injection H as -> E ->. by apply kind_text_inj in E as ->. Qed.

Lemma person_key_inj p q : person_key p = person_key q -> p = q.
Proof.
  intros H. apply person_value_inj, json_stringify_inj; [apply person_value_plain..|].
  rewrite !plain_json_text by apply person_value_plain. unfold person_key in H. by rewrite H.
Qed.

Lemma ages_same (ordered : bool) (l k : list Z) :
  arr (VInt <$> if ordered then l else sort_by Z.sub l) = arr (VInt <$> if ordered then k else sort_by Z.sub k) <->
  if ordered then l = k else l ≡ₚ k.
Proof.
  destruct ordered; [split; [by intros H%arr_inj%integers_inj | by intros ->]|].
  rewrite <- sort_integers_same. split; [by intros H%arr_inj%integers_inj | by intros ->].
Qed.

Lemma room_entry_same ordered r s : room_entry ordered r = room_entry ordered s <-> same_room ordered r s.
Proof.
  unfold room_entry, same_room. rewrite <- ages_same. split.
  - intros H. assert (Hs := f_equal snd H). cbn [snd] in Hs. apply arr_inj in Hs. inversion Hs. split_and!; [done..|].
    unfold arr. congruence.
  - intros (-> & -> & -> & -> & ->). done.
Qed.

Lemma dates_same (a b : option (list string)) :
  of_nullable (fun l => arr (VString <$> sorted_texts l)) a = of_nullable (fun l => arr (VString <$> sorted_texts l)) b <-> same_members a b.
Proof.
  destruct a as [l|], b as [k|]; cbn; try (split; [discriminate | done]); [|done]. rewrite <- (sort_texts_same (fun s => s)) by done.
  split; [by intros H%arr_inj%strings_inj|]. intros E. change (sorted_texts l = sorted_texts k) in E. by rewrite E.
Qed.

Lemma people_same (a b : option (list PricingAddonPerson)) : people_entry a = people_entry b <-> same_members a b.
Proof.
  unfold people_entry. destruct a as [l|], b as [k|]; cbn; try (split; [discriminate | done]); [|done].
  rewrite <- (sort_texts_same person_key) by (intros; by apply person_key_inj).
  split; [|by intros ->]. intros H%arr_inj. by apply list_fmap_eq_inj in H; [|intros ? ?; apply person_value_inj].
Qed.

Lemma addon_entry_same a b : addon_entry a = addon_entry b <-> same_addon a b.
Proof.
  unfold addon_entry, same_addon. rewrite <- dates_same. split.
  - intros H. assert (Hs := f_equal snd H). cbn in Hs. apply arr_inj in Hs. injection Hs as H1 H2 H3 H4. split_and!; [done..|].
    destruct (addonPeople a) as [p|], (addonPeople b) as [q|]; try discriminate H4; [|done]. apply people_same. by injection H4.
  - intros (-> & -> & -> & H). destruct (addonPeople a) as [p|], (addonPeople b) as [q|]; try done. apply people_same in H. by rewrite H.
Qed.

Lemma entries_determined {A} (f : A -> string * jsval) (g : A -> list jsval) l k :
  (forall x, snd (f x) = arr (VString (fst (f x)) :: g x)) ->
  forall x y, x ∈ (f <$> l) ++ (f <$> k) -> y ∈ (f <$> l) ++ (f <$> k) -> snd x = snd y -> x = y.
Proof.
  intros Hf x y Hx Hy E. rewrite <- fmap_app in Hx, Hy. apply list_elem_of_fmap in Hx as (a & -> & _), Hy as (b & -> & _).
  pose proof (Hf a) as Ha. pose proof (Hf b) as Hb. destruct (f a) as [i v], (f b) as [j w]. cbn [fst snd] in *.
  pose proof E as E'. rewrite Ha, Hb in E'. apply arr_inj in E'. congruence.
Qed.

Lemma room_entries_same ordered l k : NoDup (selectionId <$> l) ->
  sorted_entries (room_entry ordered <$> l) = sorted_entries (room_entry ordered <$> k) <-> permuted (same_room ordered) l k.
Proof.
  intros Hnd. rewrite sorted_entries_same.
  - apply permuted_fmap. apply room_entry_same.
  - by rewrite <- list_fmap_compose.
  - by eapply (entries_determined _ (fun r => [_; _; _; _])).
Qed.

Lemma addon_entries_same l k : NoDup (addonId <$> l) ->
  sorted_entries (addon_entry <$> l) = sorted_entries (addon_entry <$> k) <-> permuted same_addon l k.
Proof.
  intros Hnd. rewrite sorted_entries_same.
  - apply permuted_fmap, addon_entry_same.
  - by rewrite <- list_fmap_compose.
  - apply (entries_determined _ (fun a =>
      [VInt (addonQuantity a); of_nullable (fun l => arr (VString <$> sorted_texts l)) (addonDates a)] ++
      match addonPeople a with Some people => [VString ADDON_SELECTION_V2; people_entry people] | None => [] end)). done.
Qed.

Lemma people_selected_same a b : permuted same_addon (stayAddons a) (stayAddons b) -> people_selected a = people_selected b.
Proof.
  intros (l & Hp & H). unfold people_selected. transitivity (existsb (fun a => versioned (addonPeople a)) l).
  - apply eq_true_iff_eq. rewrite !existsb_exists. setoid_rewrite <- list_elem_of_In. by setoid_rewrite Hp.
  - clear Hp. induction H as [|x y l k (_ & _ & _ & Hxy) _ IH]; [done|]. cbn [existsb]. rewrite IH. f_equal.
    by destruct (addonPeople x), (addonPeople y).
Qed.

Lemma plain_entries {A} (f : A -> string * jsval) l : (forall x, plain_json (snd (f x))) -> plain_json (arr (sorted_entries (f <$> l))).
Proof.
  intros H. unfold sorted_entries. constructor. apply Forall_fmap, Forall_forall. intros x Hx%elem_of_sort_by.
  apply list_elem_of_fmap in Hx as (a & -> & _). apply H.
Qed.

Lemma stay_key_plain stay : plain_json (stay_key_value stay).
Proof.
  unfold stay_key_value. constructor. repeat (apply List.Forall_cons; [try apply plain_string; try apply plain_int|]); [| | |constructor].
  - apply plain_entries. intros r. cbn. constructor. repeat (apply List.Forall_cons; [try apply plain_string; try apply plain_int|]); [|constructor].
    apply plain_fmap. constructor.
  - apply plain_entries. intros a. cbn [snd addon_entry]. constructor. apply Forall_app. split.
    + repeat (apply List.Forall_cons; [try apply plain_string; try apply plain_int|]); [|constructor].
      apply plain_nullable. intros l. apply plain_fmap. constructor.
    + destruct (addonPeople a) as [p|]; repeat constructor. apply plain_nullable. intros l. apply plain_fmap, person_value_plain.
  - apply plain_nullable. constructor.
Qed.

Lemma parse_stay_distinct `{Currencies} v s : parseReplacementStay v = Some s ->
  NoDup (selectionId <$> stayRooms s) /\ NoDup (addonId <$> stayAddons s).
Proof.
  intros H0. unfold parseReplacementStay in H0. follow H0. bool_to_prop. cbn [stayRooms stayAddons]. by rewrite <- !no_repeats_NoDup.
Qed.

Lemma same_text_same_stay `{Currencies} va vb a b :
  parseReplacementStay va = Some a -> parseReplacementStay vb = Some b ->
  stay_key_text a = stay_key_text b <-> same_stay a b.
Proof.
  intros Ha Hb. apply parse_stay_distinct in Ha as [Hra Haa], Hb as [Hrb Hab]. unfold stay_key_text, same_stay.
  rewrite <- (room_entries_same _ _ _ Hra). split.
  - intros E. assert (Ev : stay_key_value a = stay_key_value b).
    { apply json_stringify_inj; [apply stay_key_plain..|]. rewrite !plain_json_text by apply stay_key_plain. by rewrite E. }
    unfold stay_key_value in Ev. apply arr_inj in Ev. injection Ev as E1 E2 E3 E4 E5 E6 E7.
    assert (Hadd : permuted same_addon (stayAddons a) (stayAddons b)) by (apply addon_entries_same; [done|]; apply arr_inj; unfold arr; by rewrite E6).
    split_and!; [done..| | |done].
    + destruct (stayPromoCode a), (stayPromoCode b); cbn in E7; congruence.
    + apply arr_inj. unfold arr. by rewrite E5, (people_selected_same _ _ Hadd).
  - intros (E1 & E2 & E3 & E4 & E5 & E6 & E7). f_equal. unfold stay_key_value.
    pose proof (people_selected_same _ _ E7) as Es. apply addon_entries_same in E7; [|done]. by rewrite E1, E2, E3, E4, E5, E7, E6, Es.
Qed.

(** C13: the key of a parsed stay identifies what is asked for.  The texts the keys are
    taken of are equal exactly when the stays are the same but for the order of rooms,
    add-ons, dates and people, where the order of the children counts as soon as an
    add-on may name them.  So, whatever the digest, the same stay always has the same
    key, and two stays with one key are the same unless their two different texts are a
    collision of the digest.  Nothing is assumed of the digest. *)
Theorem stay_key_identifies `{Currencies} va vb a b :
  parseReplacementStay va = Some a -> parseReplacementStay vb = Some b ->
  (stay_key_text a = stay_key_text b <-> same_stay a b) /\
  forall sha256,
    (same_stay a b -> replacementStayKey sha256 a = replacementStayKey sha256 b) /\
    (replacementStayKey sha256 a = replacementStayKey sha256 b ->
     same_stay a b \/
     stay_key_text a <> stay_key_text b /\ sha256 (stay_key_text a) = sha256 (stay_key_text b)).
Proof.
  intros Ha Hb. pose proof (same_text_same_stay va vb a b Ha Hb) as Ht. split; [exact Ht|]. intros sha256.
  apply (tells_apart_iff sha256 _ _ _ Ht).
Qed.

(** ** What was read reads back *)

Definition guests_good (g : PricingGuests) : Prop := parse_guests (guests_value g) = Some g.

Lemma pricingInteger_VInt z m : safe_integer z = true -> m <= z -> pricingInteger (VInt z) m = Some z.
Proof. intros H1 H2. by apply pricingInteger_Some. Qed.

Lemma child_age_back v age : child_age v = Some age -> child_age (VInt age) = Some age.
Proof.
  unfold child_age. intros H. follow H. apply pricingInteger_Some in E as (_ & H1 & H2).
  rewrite pricingInteger_VInt by done. by rewrite E0.
Qed.

Lemma parse_guests_back v g : parse_guests v = Some g -> guests_good g.
Proof.
  unfold parse_guests. intros H. follow H. unfold guests_good, parse_guests. cbn -[pricingInteger]. rewrite as_array_arr.
  apply pricingInteger_Some in E0 as (_ & H1 & H2). rewrite pricingInteger_VInt by done.
  by rewrite (traverse_reparse _ VInt _ _ child_age_back E2).
Qed.

Lemma parse_kind_back k : parse_kind (VString (kind_text k)) = Some k.
Proof. by destruct k. Qed.

Lemma parse_person_back rooms v p : parse_person rooms v = Some p -> parse_person rooms (person_record p) = Some p.
Proof.
  unfold parse_person. intros H. follow H. cbn -[pricingInteger parse_kind]. apply pricingInteger_Some in E1 as (_ & H1 & H2).
  rewrite pricingInteger_VInt by done. rewrite parse_kind_back. rewrite E3. by rewrite E4.
Qed.

Lemma parse_people_back rooms raw : forall seen ps, parse_people rooms seen raw = Some ps ->
  parse_people rooms seen (person_record <$> ps) = Some ps /\ length ps = length raw.
Proof.
  induction raw as [|v raw IH]; intros seen ps H; cbn [parse_people] in H; [injection H as <-; done|].
  destruct (parse_person rooms v) as [p|] eqn:Ep; [|discriminate H]. destruct (negb _) eqn:Es; [|discriminate H].
  destruct (parse_people rooms (person_key p :: seen) raw) as [people|] eqn:Er; [|discriminate H]. injection H as <-.
  destruct (IH _ _ Er) as [H1 H2]. cbn [fmap list_fmap parse_people length]. rewrite (parse_person_back _ _ _ Ep), Es.
  change (list_fmap _ _ person_record people) with (person_record <$> people). rewrite H1. by rewrite H2.
Qed.

Lemma people_back rooms v a : validPricingAddonPeople v rooms = Some (addonPeople a) ->
  validPricingAddonPeople (addon_value a) rooms = Some (addonPeople a).
Proof.
  unfold validPricingAddonPeople. intros H. destruct a as [id quantity dates people]. cbn [addonPeople] in *.
  unfold addon_value. cbn [addonPeople addonId addonQuantity addonDates].
  destruct (has_own v "version"); cbn [negb] in H.
  - destruct (_ && _) in H; [|discriminate H]. destruct (is_null (get v "people")); [injection H as <-; done|].
    destruct (as_array (get v "people")) as [raw|]; [|discriminate H]. destruct (_ && _) eqn:El in H; [|discriminate H].
    destruct (parse_people rooms [] raw) as [ps|] eqn:Ep; [|discriminate H]. injection H as <-.
    destruct (parse_people_back _ _ _ _ Ep) as [H1 H2]. cbn. rewrite as_array_arr, length_fmap, H2, El, H1. done.
  - destruct (pricingKeys _ _) in H; [|discriminate H]. injection H as <-. done.
Qed.

Lemma stay_date_back checkIn checkOut v s : stay_date checkIn checkOut v = Some s -> stay_date checkIn checkOut (VString s) = Some s.
Proof.
  unfold stay_date. intros H. follow H. destruct v; try discriminate E. injection E as ->. cbn [as_string]. by rewrite E0.
Qed.

Lemma parse_dates_back checkIn checkOut limit v dates : parse_dates checkIn checkOut limit v = Some dates ->
  parse_dates checkIn checkOut None (dates_value dates) = Some dates.
Proof.
  unfold parse_dates, as_nullable, dates_value. destruct (is_null v); [intros [= <-]; done|].
  destruct (as_array v) as [raw|] eqn:Er; [|done]. destruct (_ && _) eqn:El; [|done].
  destruct (traverse _ raw) as [l|] eqn:Et; [|done]. destruct (no_repeats l) eqn:En; [|done]. intros [= <-]. cbn.
  apply andb_true_iff in El as [El _]. rewrite as_array_arr, length_fmap, (traverse_length _ _ _ Et), El. cbn [andb].
  by rewrite (traverse_reparse _ VString _ _ (stay_date_back checkIn checkOut) Et), En.
Qed.

Lemma text_nonempty limit v s : text limit v = Some s -> nonempty (VString s) = Some s.
Proof.
  intros H. apply as_trimmed_Some in H as (-> & H). unfold trimmed in H. unfold nonempty, nonempty_text. cbn [as_string].
  bool_to_prop. rewrite (proj2 (String.eqb_eq (trim s) s)) by done. destruct (String.eqb_spec s "") as [->|]; [unfold str_length in *; cbn in *; lia | done].
Qed.

Lemma trimmed_nonempty s : trimmed 1 200 s = true -> nonempty (VString s) = Some s.
Proof. intros H. apply (text_nonempty 200 (VString s)). by apply as_trimmed_Some. Qed.

Lemma parse_addon_back v2 checkIn checkOut rooms v a : parse_public_addon v2 checkIn checkOut rooms v = Some a ->
  parse_addon checkIn checkOut rooms (addon_value a) = Some a.
Proof.
  unfold parse_public_addon. intros H.
  destruct (pricingObject v); [|discriminate H]. destruct (validPricingAddonPeople v rooms) as [people|] eqn:Ep; [|discriminate H].
  destruct (Bool.eqb _ _); [|discriminate H]. destruct (text _ _) as [id|] eqn:Ei; [|discriminate H].
  destruct (pricingInteger _ _) as [quantity|] eqn:Eq; [|discriminate H]. destruct (quantity <=? _); [|discriminate H].
  destruct (parse_dates _ _ _ _) as [dates|] eqn:Ed; [|discriminate H]. injection H as <-. unfold parse_addon.
  set (a := {| addonId := id; addonQuantity := quantity; addonDates := dates; addonPeople := people |}).
  assert (Hg : forall k, get (addon_value a) k = get (obj [("id", VString id); ("quantity", VInt quantity); ("dates", dates_value dates)]) k \/
                         k = "version" \/ k = "people").
  { intros k. unfold addon_value. subst a. cbn [addonPeople addonId addonQuantity addonDates]. destruct people as [p|]; [|by left].
    destruct (String.eqb_spec k "version") as [->|Hv]; [by right; left|]. destruct (String.eqb_spec k "people") as [->|Hp]; [by right; right|]. left.
    unfold get, own_prop, obj. cbn. rewrite (proj2 (String.eqb_neq k "version") Hv), (proj2 (String.eqb_neq k "people") Hp). done. }
  assert (Ho : pricingObject (addon_value a) = true) by by destruct people. rewrite Ho, (people_back rooms v a Ep).
  destruct (Hg "id") as [->|[|]]; [|discriminate..]. destruct (Hg "quantity") as [->|[|]]; [|discriminate..].
  destruct (Hg "dates") as [->|[|]]; [|discriminate..]. cbn -[nonempty pricingInteger parse_dates].
  rewrite (text_nonempty _ _ _ Ei). apply pricingInteger_Some in Eq as (_ & H1 & H2). rewrite pricingInteger_VInt by done.
  by rewrite (parse_dates_back _ _ _ _ _ Ed).
Qed.

(** ** Binding *)

Section Binding.
Context `{Currencies}.

(** What an accepted selection promises to the parser of stays *)
Lemma parse_public_rooms_ok raw : forall seen rooms, parse_public_rooms seen raw = Some rooms ->
  length rooms = length raw /\ NoDup (publicSelectionId <$> rooms) /\ Forall (fun r => publicSelectionId r ∉ seen) rooms /\
  Forall (fun r => nonempty (VString (publicSelectionId r)) = Some (publicSelectionId r) /\ guests_good (publicGuests r)) rooms.
Proof.
  induction raw as [|v raw IH]; intros seen rooms Hr; cbn [parse_public_rooms] in Hr; [injection Hr as <-; split_and!; constructor|].
  destruct (parse_public_room v) as [r|] eqn:Ev; [|discriminate Hr]. destruct (negb _) eqn:Es; [|discriminate Hr].
  destruct (parse_public_rooms _ raw) as [rs|] eqn:Er; [|discriminate Hr]. injection Hr as <-.
  destruct (IH _ _ Er) as (H1 & H2 & H3 & H4). apply negb_true_iff in Es.
  assert (Hn : publicSelectionId r ∉ seen) by (intros Hin%includes_elem; congruence).
  unfold parse_public_room in Ev. follow Ev. cbn [publicSelectionId publicGuests] in *. split_and!.
  - cbn [length]. by rewrite H1.
  - cbn [fmap list_fmap publicSelectionId]. constructor; [|done]. intros (x & E' & Hx)%list_elem_of_fmap.
    rewrite Forall_forall in H3. apply (H3 x Hx). rewrite <- E'. by left.
  - constructor; [done|]. eapply Forall_impl; [exact H3|]. intros x Hx Hin. apply Hx. by right.
  - constructor; [|done]. cbn [publicSelectionId publicGuests]. split; [by eapply text_nonempty | by eapply parse_guests_back].
Qed.

Lemma parse_public_addons_ok v2 checkIn checkOut rooms raw : forall seen addons,
  parse_public_addons v2 checkIn checkOut rooms seen raw = Some addons ->
  NoDup (addonId <$> addons) /\ Forall (fun a => addonId a ∉ seen) addons /\
  Forall (fun a => parse_addon checkIn checkOut rooms (addon_value a) = Some a) addons.
Proof.
  induction raw as [|v raw IH]; intros seen addons Hr; cbn [parse_public_addons] in Hr; [injection Hr as <-; split_and!; constructor|].
  destruct (parse_public_addon v2 checkIn checkOut rooms v) as [a|] eqn:Ev; [|discriminate Hr]. destruct (negb _) eqn:Es; [|discriminate Hr].
  destruct (parse_public_addons _ _ _ _ _ raw) as [rest|] eqn:Er; [|discriminate Hr]. injection Hr as <-.
  destruct (IH _ _ Er) as (H2 & H3 & H4). apply negb_true_iff in Es.
  assert (Hn : addonId a ∉ seen) by (intros Hin%includes_elem; congruence). split_and!.
  - cbn [fmap list_fmap]. constructor; [|done]. intros (x & E' & Hx)%list_elem_of_fmap.
    rewrite Forall_forall in H3. apply (H3 x Hx). rewrite <- E'. by left.
  - constructor; [done|]. eapply Forall_impl; [exact H3|]. intros x Hx Hin. apply Hx. by right.
  - constructor; [by eapply parse_addon_back | done].
Qed.

Lemma room_value_back room : nonempty (VString (selectionId room)) = Some (selectionId room) -> guests_good (roomGuests room) ->
  trimmed 1 200 (roomTypeId room) = true -> trimmed 1 200 (offerId room) = true -> parse_room (room_value room) = Some room.
Proof.
  intros H1 H2 H3%trimmed_nonempty H4%trimmed_nonempty. unfold parse_room. cbn -[nonempty parse_guests]. rewrite H1, H3, H4.
  unfold guests_good in H2. rewrite H2. by destruct room.
Qed.

(** An offer of the property with the key of a room *)
Definition offers_room (propertyId : string) (room : PublicRoom) (offer : PublicPricingOfferBinding) : Prop :=
  bindingPropertyId offer = propertyId /\ bindingOfferKey offer = publicOfferKey room.

(** A room is bound to the single offer with its key. *)
Definition bound_to (propertyId : string) (offers : list PublicPricingOfferBinding) (room : PublicRoom) (bound : ReplacementRoom) : Prop :=
  exists before offer after, offers = before ++ offer :: after /\ offers_room propertyId room offer /\
    Forall (fun o => ~ offers_room propertyId room o) (before ++ after) /\
    trimmed 1 200 (bindingRoomTypeId offer) = true /\ trimmed 1 200 (bindingOfferId offer) = true /\
    bound = {| selectionId := publicSelectionId room; roomTypeId := bindingRoomTypeId offer;
               offerId := bindingOfferId offer; roomGuests := publicGuests room |}.

Lemma filter_one_iff {A} (f : A -> bool) l x : List.filter f l = [x] <->
  exists before after, l = before ++ x :: after /\ f x = true /\ Forall (fun y => f y = false) (before ++ after).
Proof.
  split.
  - induction l as [|y l IH]; intros H0; [discriminate H0|]. cbn [List.filter] in H0. destruct (f y) eqn:Ey.
    + injection H0 as -> H0. exists [], l. split_and!; [done..|]. apply Forall_forall. intros z Hz.
      destruct (f z) eqn:Ez; [|done]. assert (Hin : z ∈ List.filter f l) by by apply elem_of_bfilter. rewrite H0 in Hin. by apply elem_of_nil in Hin.
    + destruct (IH H0) as (before & after & -> & Hx & Hf). exists (y :: before), after. split_and!; [done..|]. by constructor.
  - intros (before & after & -> & Hx & [Hb Ha]%Forall_app). rewrite List.filter_app. cbn [List.filter]. rewrite Hx.
    assert (Hn : forall k, Forall (fun y => f y = false) k -> List.filter f k = []).
    { induction 1 as [|y k Hy _ IH]; [done|]. cbn [List.filter]. by rewrite Hy. }
    by rewrite (Hn _ Hb), (Hn _ Ha).
Qed.

Lemma bind_room_spec propertyId offers room bound : bind_room propertyId offers room = Some bound <-> bound_to propertyId offers room bound.
Proof.
  unfold bind_room, bound_to. set (f := fun offer => _ && _).
  assert (Hf : forall o, f o = true <-> offers_room propertyId room o).
  { intros o. unfold f, offers_room. by rewrite andb_true_iff, !String.eqb_eq. }
  assert (Hf' : forall o, f o = false <-> ~ offers_room propertyId room o) by (intros o; by rewrite <- Hf, not_true_iff_false).
  split.
  - destruct (List.filter f offers) as [|offer [|]] eqn:El; [discriminate| |discriminate]. intros H0. follow H0.
    apply filter_one_iff in El as (before & after & -> & Hx & Hn). bool_to_prop. exists before, offer, after. split_and!; [done|by apply Hf| |done..].
    eapply Forall_impl; [exact Hn|]. intros o. apply Hf'.
  - intros (before & offer & after & -> & Hx & Hn & H1 & H2 & ->).
    rewrite (proj2 (filter_one_iff f _ offer)); [by rewrite H1, H2|]. exists before, after. split_and!; [done|by apply Hf|].
    eapply Forall_impl; [exact Hn|]. intros o. apply Hf'.
Qed.

(** The stay of a selection whose rooms are bound *)
Definition bound_stay (propertyId : string) (s : PublicPricingSelection) (rooms : list ReplacementRoom) : ReplacementStay :=
  {| stayPropertyId := propertyId; stayCheckIn := publicCheckIn s; stayCheckOut := publicCheckOut s;
     stayCurrency := publicCurrency s; stayRooms := rooms; stayAddons := publicAddons s; stayPromoCode := publicPromoCode s |}.

Lemma bound_rooms_ok propertyId offers prooms rooms : traverse (bind_room propertyId offers) prooms = Some rooms ->
  Forall (fun r => nonempty (VString (publicSelectionId r)) = Some (publicSelectionId r) /\ guests_good (publicGuests r)) prooms ->
  selectionId <$> rooms = publicSelectionId <$> prooms /\ room_guests rooms = guests_of prooms /\
  Forall (fun r => parse_room (room_value r) = Some r) rooms.
Proof.
  rewrite traverse_Some. induction 1 as [|r b prooms rooms Hb _ IH]; [intros _; split_and!; constructor|].
  intros [[Hn Hg] Hrest]%Forall_cons. destruct (IH Hrest) as (H1 & H2 & H3).
  apply bind_room_spec in Hb as (before & offer & after & _ & _ & _ & Ht & Ho & ->). split_and!.
  - cbn [fmap list_fmap selectionId]. f_equal. exact H1.
  - unfold room_guests, guests_of in *. cbn [fmap list_fmap selectionId roomGuests]. f_equal. exact H2.
  - constructor; [by apply room_value_back | exact H3].
Qed.

Lemma promo_back v promo : as_nullable (text 200) v = Some promo -> as_nullable nonempty (of_nullable VString promo) = Some promo.
Proof.
  unfold as_nullable. destruct (is_null v); [intros [= <-]; done|].
  destruct (text 200 v) as [s|] eqn:Et; [|done]. intros [= <-]. cbn -[nonempty]. by rewrite (text_nonempty _ _ _ Et).
Qed.

Lemma bound_accepted value propertyId offers s rooms : parsePublicPricingSelection value = Some s -> trimmed 1 200 propertyId = true ->
  traverse (bind_room propertyId offers) (publicRooms s) = Some rooms ->
  parseReplacementStay
    (obj [("propertyId", VString propertyId); ("checkIn", VString (publicCheckIn s));
          ("checkOut", VString (publicCheckOut s)); ("currency", VString (publicCurrency s));
          ("rooms", arr (room_value <$> rooms)); ("addons", arr (addon_value <$> publicAddons s));
          ("promoCode", of_nullable VString (publicPromoCode s))]) = Some (bound_stay propertyId s rooms).
Proof.
  intros Hs Hp%trimmed_nonempty Hb. unfold parsePublicPricingSelection in Hs.
  destruct (_ && pricingDate (get value "checkOut")) eqn:Ed; [|discriminate Hs]. apply andb_true_iff in Ed as [[_ Hin]%andb_true_iff Hout].
  destruct (parse_version _) as [v2|]; [|discriminate Hs].
  destruct (as_string (get value "checkIn")) as [checkIn|] eqn:Ei; [|discriminate Hs].
  destruct (as_string (get value "checkOut")) as [checkOut|] eqn:Eo; [|discriminate Hs].
  destruct (str_lt checkIn checkOut && _) eqn:El; [|discriminate Hs]. apply andb_true_iff in El as [El _].
  destruct (pricing_currency _) as [currency|] eqn:Ec; [|discriminate Hs].
  destruct (as_nullable _ _) as [promo|] eqn:Epr; [|discriminate Hs].
  destruct (as_array (get value "rooms")) as [raw|]; [|discriminate Hs]. destruct ((1 <=? length raw)%nat && _) eqn:Elen; [|discriminate Hs].
  destruct (as_array (get value "addons")) as [raw'|]; [|discriminate Hs]. destruct (length raw' <=? _)%nat; [|discriminate Hs].
  destruct (parse_public_rooms [] raw) as [prooms|] eqn:Er; [|discriminate Hs].
  destruct (parse_public_addons _ _ _ _ [] raw') as [addons|] eqn:Ea; [|discriminate Hs]. injection Hs as <-. cbn [publicRooms] in Hb.
  destruct (parse_public_rooms_ok _ _ _ Er) as (Hlen & Hnd & _ & Hok). destruct (parse_public_addons_ok _ _ _ _ _ _ _ Ea) as (Hnda & _ & Hoka).
  destruct (bound_rooms_ok _ _ _ _ Hb Hok) as (Hids & Hg & Hrooms).
  destruct (get value "checkIn") as [| | | | |s1| | |]; try discriminate Ei. injection Ei as ->.
  destruct (get value "checkOut") as [| | | | |s2| | |]; try discriminate Eo. injection Eo as ->.
  assert (Hc : pricing_currency (VString currency) = Some currency).
  { unfold pricing_currency in *. destruct (as_string (get value "currency")) as [c|]; [|discriminate Ec]. cbn [as_string].
    by destruct (pricingCurrencyScale c) eqn:Es; [injection Ec as <-; rewrite Es|discriminate Ec]. }
  unfold parseReplacementStay. cbn -[nonempty pricing_currency pricingDate as_nullable].
  rewrite Hin, Hout, Hp, El, Hc, (promo_back _ _ Epr), !as_array_arr, length_fmap. cbn -[nonempty].
  assert (Hr0 : (length rooms =? 0)%nat = false).
  { apply Nat.eqb_neq. apply andb_true_iff in Elen as [E1%Nat.leb_le _]. rewrite (traverse_length _ _ _ Hb), Hlen. lia. }
  rewrite Hr0, (traverse_fmap_Forall _ _ _ _ (fun r H => H) Hrooms), Hg, (traverse_fmap_Forall _ _ _ _ (fun a H => H) Hoka), Hids.
  apply no_repeats_NoDup in Hnd, Hnda. rewrite Hnd, Hnda. done.
Qed.

(** C14: binding never fails for the stay itself: a selection that is accepted, for a property
    with a readable identifier, is bound exactly when the key of each room names a single
    offer of the property, and the stay is then the selection with those offers. *)
Theorem binding_decides value propertyId offers stay :
  bindPublicPricingSelection value propertyId offers = Some stay <->
  exists s rooms, parsePublicPricingSelection value = Some s /\ trimmed 1 200 propertyId = true /\
    Forall2 (bound_to propertyId offers) (publicRooms s) rooms /\ stay = bound_stay propertyId s rooms.
Proof.
  unfold bindPublicPricingSelection. split.
  - destruct (parsePublicPricingSelection value) as [s|] eqn:Es; [|done]. destruct (trimmed 1 200 propertyId) eqn:Ep; [|done].
    destruct (traverse _ _) as [rooms|] eqn:Er; [|done]. intros Hs. rewrite (bound_accepted _ _ _ _ _ Es Ep Er) in Hs.
    injection Hs as <-. exists s, rooms. split_and!; [done..| |done]. apply traverse_Some in Er.
    eapply Forall2_impl; [exact Er|]. intros x y. apply bind_room_spec.
  - intros (s & rooms & Es & Ep & Hb & ->). rewrite Es, Ep.
    assert (Er : traverse (bind_room propertyId offers) (publicRooms s) = Some rooms).
    { apply traverse_Some. eapply Forall2_impl; [exact Hb|]. intros x y. apply bind_room_spec. }
    rewrite Er. by apply (bound_accepted value _ offers).
Qed.
End Binding.

(** ** Evidence that is current *)

Section Current.
Context `{Currencies}.
Variable sha256 : string -> string.
Variable date_ms : string -> option Z.

Lemma lines_total_ok selections lines : forall ids total t, lines_total selections ids total lines = Some t ->
  t = total + sum_of signed_amount lines /\ NoDup (lineId <$> lines) /\ Forall (fun l => lineId l ∉ ids) lines /\
  Forall (fun l => line_valid selections l = true) lines.
Proof.
  induction lines as [|l lines IH]; intros ids total t Ht; cbn [lines_total] in Ht.
  - injection Ht as <-. split_and!; try constructor. cbn. lia.
  - destruct (line_valid selections l) eqn:Ev; [|discriminate Ht]. cbn [andb] in Ht. destruct (negb _) eqn:En; [|discriminate Ht].
    apply negb_true_iff in En. destruct (IH _ _ _ Ht) as (-> & H1 & H2 & H3). rewrite sum_of_cons. split_and!; [lia| | |by constructor].
    + cbn [fmap list_fmap]. constructor; [|done]. intros (x & E & Hx)%list_elem_of_fmap. rewrite Forall_forall in H2.
      apply (H2 x Hx). rewrite <- E. by left.
    + constructor; [intros Hin%includes_elem; congruence|]. eapply Forall_impl; [exact H2|]. intros x Hx Hin. apply Hx. by right.
Qed.

Lemma offer_key_inj r o r' o' : offer_key r o = offer_key r' o' -> r = r' /\ o = o'.
Proof.
  unfold offer_key. intros E. assert (Hp : forall a b, plain_json (arr [VString a; VString b])) by (intros; repeat constructor).
  assert (E' : arr [VString r; VString o] = arr [VString r'; VString o']).
  { apply json_stringify_inj; [apply Hp..|]. rewrite !plain_json_text by apply Hp. by rewrite E. }
  apply arr_inj in E'. by injection E'.
Qed.

Lemma remove_dups_length {A} `{EqDecision A} (l : list A) : (length (remove_dups l) <= length l)%nat.
Proof. induction l as [|y l IH]; [done|]. cbn [remove_dups]. case_decide; cbn [length]; lia. Qed.

Lemma remove_dups_full {A} `{EqDecision A} (l : list A) : length (remove_dups l) = length l -> NoDup l.
Proof.
  induction l as [|x l IH]; intros E; [constructor|]. cbn [remove_dups] in E. pose proof (remove_dups_length l) as Hle.
  case_decide as Hx; cbn [length] in E; [lia|]. constructor; [done|]. apply IH. lia.
Qed.

(** The terms are one entry per offer of the stay, and no others. *)
Lemma terms_match_ok stay terms : terms_match stay terms = true ->
  NoDup ((fun t => (termsRoomTypeId t, termsOfferId t)) <$> terms) /\
  (forall r o, (exists t, t ∈ terms /\ termsRoomTypeId t = r /\ termsOfferId t = o) <->
               exists room, room ∈ stayRooms stay /\ roomTypeId room = r /\ offerId room = o) /\
  Forall (fun t => validTerms t = true) terms.
Proof.
  unfold terms_match. cbv zeta. set (offers := (fun r => offer_key (roomTypeId r) (offerId r)) <$> stayRooms stay).
  set (keys := _ <$> terms). rewrite !andb_true_iff, !Nat.eqb_eq, !forallb_forall. intros [[[H1 H2] H3] H4].
  assert (Hk : NoDup keys) by (apply remove_dups_full; unfold keys in *; rewrite length_fmap; congruence). split_and!.
  - apply NoDup_fmap_1 with (f := fun p => offer_key (fst p) (snd p)). by rewrite <- list_fmap_compose.
  - assert (Hperm : forall k, k ∈ keys <-> k ∈ offers).
    { assert (Hp : keys ≡ₚ remove_dups offers).
      { apply submseteq_length_Permutation; [|unfold keys; rewrite length_fmap; lia]. apply NoDup_submseteq; [done|].
        intros k Hk'. apply includes_elem, H3, list_elem_of_In, Hk'. }
      intros k. by rewrite Hp, elem_of_remove_dups. }
    intros r o. specialize (Hperm (offer_key r o)). unfold keys, offers in Hperm. rewrite !list_elem_of_fmap in Hperm. split.
    + intros (t & Ht & <- & <-). destruct (proj1 Hperm) as (room & E & Hin); [by exists t|]. apply offer_key_inj in E as [-> ->]. by exists room.
    + intros (room & Hin & <- & <-). destruct (proj2 Hperm) as (t & E & Ht); [by exists room|]. apply offer_key_inj in E as [-> ->]. by exists t.
  - apply Forall_forall. intros t Ht. by apply H4, list_elem_of_In.
Qed.

Lemma evidence_current_inv e stay current time :
  replacementEvidenceStatus sha256 date_ms e stay current time = evidence_current ->
  requestKey e = replacementStayKey sha256 stay /\ terms_match stay (evidenceTerms e) = true /\
  amounts_add_up e (selectionId <$> stayRooms stay) = true /\
  revision_list (evidenceRevisions e) = revision_list current /\
  exists start end_, date_ms (issuedAt e) = Some start /\ date_ms (expiresAt e) = Some end_ /\ start <= time < end_.
Proof.
  unfold replacementEvidenceStatus, evidence_valid. intros Hs.
  destruct (date_ms (issuedAt e)) as [start|]; [|discriminate Hs]. destruct (date_ms (expiresAt e)) as [end_|]; [|discriminate Hs].
  destruct (_ && amounts_add_up e _) eqn:Ev; [|discriminate Hs]. destruct (_ || _) eqn:Eo in Hs; [discriminate Hs|].
  rewrite !orb_false_iff, !negb_false_iff, bool_decide_eq_true, String.eqb_eq in Eo. destruct Eo as [[[[H1 H2] H3] _] H4].
  rewrite !andb_true_iff in Ev. destruct Ev as [[[_ Ht] _] Ha]. split_and!; [done..|]. exists start, end_. split_and!; [done..|lia|lia].
Qed.

(** C15: evidence that is current adds up for its stay: the lines are distinct and sum up to
    the positive total, which is paid in full now or later; every line belongs to a room
    of the stay or to none, every room has a line with a positive price, and the terms
    are one entry for each offer of the stay and no other. *)
Theorem current_evidence_adds_up e stay current time :
  replacementEvidenceStatus sha256 date_ms e stay current time = evidence_current ->
  sum_of signed_amount (evidenceLines e) = BigInt (totalMinor e) /\ 0 < BigInt (totalMinor e) /\
  BigInt (dueNowMinor e) + BigInt (dueLaterMinor e) = BigInt (totalMinor e) /\ NoDup (lineId <$> evidenceLines e) /\
  Forall (fun l => forall id, lineSelection l = Some id -> id ∈ selectionId <$> stayRooms stay) (evidenceLines e) /\
  (forall room, room ∈ stayRooms stay -> exists l, l ∈ evidenceLines e /\ lineKind l = "room"%string /\
     lineSelection l = Some (selectionId room) /\ 0 < BigInt (lineAmount l)) /\
  NoDup ((fun t => (termsRoomTypeId t, termsOfferId t)) <$> evidenceTerms e) /\
  forall r o, (exists t, t ∈ evidenceTerms e /\ termsRoomTypeId t = r /\ termsOfferId t = o) <->
              exists room, room ∈ stayRooms stay /\ roomTypeId room = r /\ offerId room = o.
Proof.
  intros (_ & Ht & Ha & _ & _)%evidence_current_inv. apply terms_match_ok in Ht as (Hn & Hm & _). unfold amounts_add_up in Ha.
  destruct (lines_total _ _ _ _) as [t|] eqn:El; [|discriminate Ha]. apply lines_total_ok in El as (-> & Hnd & _ & Hl).
  rewrite !andb_true_iff, forallb_forall, negb_true_iff, !Z.eqb_eq, Z.leb_gt in Ha. destruct Ha as [[[Hr Hpos] Htot] Hdue].
  split_and!; [lia|lia|lia|done| | |done|done].
  - eapply Forall_impl; [exact Hl|]. intros l Hv id E. unfold line_valid in Hv. rewrite E in Hv. apply includes_elem. by bool_to_prop.
  - intros room Hin. specialize (Hr (selectionId room)). rewrite existsb_exists in Hr. destruct Hr as (l & Hl' & Hroom).
    { apply list_elem_of_In. by apply list_elem_of_fmap_2. }
    unfold room_line in Hroom. rewrite !andb_true_iff, String.eqb_eq, bool_decide_eq_true in Hroom. destruct Hroom as [[Hk Hs] Hp].
    exists l. split_and!; [by apply list_elem_of_In | done..|]. by apply positive_minor_value in Hp as [? _].
Qed.

(** Evidence is current for one stay only, up to its order, short of a collision of the
    digest. *)
Theorem evidence_for_one_stay e va vb a b current current' time time' :
  parseReplacementStay va = Some a -> parseReplacementStay vb = Some b ->
  replacementEvidenceStatus sha256 date_ms e a current time = evidence_current ->
  replacementEvidenceStatus sha256 date_ms e b current' time' = evidence_current ->
  same_stay a b \/ collide sha256 (stay_key_text a) (stay_key_text b).
Proof.
  intros Ha Hb (Ea & _)%evidence_current_inv (Eb & _)%evidence_current_inv.
  apply (tells_apart_iff sha256 _ _ _ (same_text_same_stay va vb a b Ha Hb)).
  change (replacementStayKey sha256 a = replacementStayKey sha256 b). congruence.
Qed.
End Current.
