(* ===== verification/RoomSelection.v ===== *)
(** * Room selections

    packages/domain-booking/src/roomSelection.ts: what a guest selects, one line
    per room type with one guest allocation per physical room, read from an
    untrusted value; the party of a selection and whether a line fits a room. *)

From S2P Require Import Prelude JsValue.

Definition BOOKING_ROOM_SELECTION_VERSION : string := "booking-room-selection.v1".

Record BookingRoomGuests := { adults : Z; children : Z }.

Record BookingRoomLine := {
  roomTypeId : string;
  publicOfferKey : string;
  guests : list BookingRoomGuests
}.

(** The literal field ["contractVersion"] has one value and is left out. *)
Record BookingRoomSelection := { lines : list BookingRoomLine }.

(** [/^[0-9a-f]{8}-[0-9a-f]{4}-[0-9a-f]{4}-[0-9a-f]{4}-[0-9a-f]{12}$/i] *)
Definition id_classes : list (ascii -> bool) :=
  replicate 8 is_hex ++ [is_char "-"] ++ replicate 4 is_hex ++ [is_char "-"] ++
  replicate 4 is_hex ++ [is_char "-"] ++ replicate 4 is_hex ++ [is_char "-"] ++ replicate 12 is_hex.

Definition count (v : jsval) (min : Z) : option Z := as_integer v min 99.

Definition parse_guest (v : jsval) : option BookingRoomGuests :=
  guard? is_object v in
  let? a := count (get v "adults") 1 in
  let? c := count (get v "children") 0 in
  Some {| adults := a; children := c |}.

(** The loop over the lines, with the room types seen and the rooms counted *)
Fixpoint parse_lines (types : list string) (roomCount : Z) (raw : list jsval)
    : option (list BookingRoomLine) :=
  match raw with
  | [] => Some []
  | line :: rest =>
      guard? is_object line in
      let? id := as_string (get line "roomTypeId") in
      guard? matches id_classes id in
      let? key := as_string (get line "publicOfferKey") in
      guard? negb (String.eqb (trim key) "") && (str_length key <=? 512) in
      let? raw_guests := as_array (get line "guests") in
      let roomCount := roomCount + Z.of_nat (length raw_guests) in
      guard? (1 <=? Z.of_nat (length raw_guests)) && (roomCount <=? 99) in
      let id := to_lower id in
      guard? negb (existsb (String.eqb id) types) in
      let? guests := traverse parse_guest raw_guests in
      let? lines := parse_lines (id :: types) roomCount rest in
      Some ({| roomTypeId := id; publicOfferKey := key; guests := guests |} :: lines)
  end.

Definition parseBookingRoomSelection (value : jsval) : option BookingRoomSelection :=
  guard? is_object value && is_str (get value "contractVersion") BOOKING_ROOM_SELECTION_VERSION in
  let? raw := as_array (get value "lines") in
  guard? (1 <=? Z.of_nat (length raw)) && (Z.of_nat (length raw) <=? 99) in
  let? lines := parse_lines [] 0 raw in
  Some {| lines := lines |}.

Record Party := { partyAdults : Z; partyChildren : Z; partyRooms : Z }.

Definition add_guests (total : Party) (room : BookingRoomGuests) : Party :=
  {| partyAdults := partyAdults total + adults room;
     partyChildren := partyChildren total + children room;
     partyRooms := partyRooms total + 1 |}.

Definition bookingRoomSelectionParty (selection : BookingRoomSelection) : Party :=
  fold_left add_guests (concat (guests <$> lines selection))
    {| partyAdults := 0; partyChildren := 0; partyRooms := 0 |}.

Record RoomLimits := {
  maxAdults : Z;
  maxChildren : Z;
  maxOccupancy : Z;
  availableRooms : Z
}.

Definition limit_values (limits : RoomLimits) : list Z :=
  [maxAdults limits; maxChildren limits; maxOccupancy limits; availableRooms limits].

Definition guest_fits (limits : RoomLimits) (guest : BookingRoomGuests) : bool :=
  (adults guest <=? maxAdults limits) && (children guest <=? maxChildren limits) &&
  (adults guest + children guest <=? maxOccupancy limits).

Definition bookingRoomLineFits (line : BookingRoomLine) (limits : RoomLimits) : bool :=
  forallb (fun value => safe_integer value && (0 <=? value)) (limit_values limits) &&
  (Z.of_nat (length (guests line)) <=? availableRooms limits) &&
  forallb (guest_fits limits) (guests line).

(** ** Parties *)

Definition total_adults (rooms : list BookingRoomGuests) : Z := foldr (fun r n => adults r + n) 0 rooms.
Definition total_children (rooms : list BookingRoomGuests) : Z := foldr (fun r n => children r + n) 0 rooms.

Lemma total_adults_app l k : total_adults (l ++ k) = total_adults l + total_adults k.
Proof. unfold total_adults. induction l as [|r l IH]; cbn; [done|]. rewrite IH. lia. Qed.

Lemma total_children_app l k : total_children (l ++ k) = total_children l + total_children k.
Proof. unfold total_children. induction l as [|r l IH]; cbn; [done|]. rewrite IH. lia. Qed.

Lemma fold_add_guests rooms : forall p,
  fold_left add_guests rooms p =
  {| partyAdults := partyAdults p + total_adults rooms;
     partyChildren := partyChildren p + total_children rooms;
     partyRooms := partyRooms p + Z.of_nat (length rooms) |}.
Proof.
  induction rooms as [|r rooms IH]; intros p; cbn [fold_left].
  - destruct p; cbn. f_equal; lia.
  - rewrite IH. cbn [add_guests partyAdults partyChildren partyRooms length].
    change (total_adults (r :: rooms)) with (adults r + total_adults rooms).
    change (total_children (r :: rooms)) with (children r + total_children rooms). f_equal; lia.
Qed.

Lemma selection_party sel :
  bookingRoomSelectionParty sel =
  {| partyAdults := total_adults (concat (guests <$> lines sel));
     partyChildren := total_children (concat (guests <$> lines sel));
     partyRooms := Z.of_nat (length (concat (guests <$> lines sel))) |}.
Proof. unfold bookingRoomSelectionParty. by rewrite fold_add_guests. Qed.

(** ** Reading a selection back *)

Definition guest_value (g : BookingRoomGuests) : jsval :=
  obj [("adults", VInt (adults g)); ("children", VInt (children g))].

Definition line_value (l : BookingRoomLine) : jsval :=
  obj [("roomTypeId", VString (roomTypeId l)); ("publicOfferKey", VString (publicOfferKey l));
       ("guests", arr (guest_value <$> guests l))].

Definition selection_value (s : BookingRoomSelection) : jsval :=
  obj [("contractVersion", VString BOOKING_ROOM_SELECTION_VERSION); ("lines", arr (line_value <$> lines s))].

Lemma parse_guest_value v g : parse_guest v = Some g ->
  parse_guest (guest_value g) = Some g /\ 1 <= adults g <= 99 /\ 0 <= children g <= 99.
Proof.
  unfold parse_guest, count. intros H. follow H.
  repeat match goal with E : as_integer _ _ _ = Some _ |- _ => apply as_integer_Some in E as (_ & _ & E) end.
  cbn. split; [|lia]. unfold get. cbn. rewrite !as_integer_VInt by lia. done.
Qed.

Lemma parse_guests_value raw gs : traverse parse_guest raw = Some gs ->
  traverse parse_guest (guest_value <$> gs) = Some gs /\
  Forall (fun g => 1 <= adults g <= 99 /\ 0 <= children g <= 99) gs.
Proof.
  intros H.
  assert (Hok : Forall (fun g => parse_guest (guest_value g) = Some g /\ 1 <= adults g <= 99 /\ 0 <= children g <= 99) gs).
  { eapply traverse_Forall; [|exact H]. intros v g Hv. by eapply parse_guest_value. }
  split; [|eapply Forall_impl; [exact Hok | by intros g [_ Hg]]].
  apply (traverse_fmap_Forall (fun g => parse_guest (guest_value g) = Some g)); [done|].
  eapply Forall_impl; [exact Hok | by intros g [Hg _]].
Qed.

(** Reading raw lines gives canonical lines: distinct types, at most 99 rooms. *)
Record line_ok (l : BookingRoomLine) : Prop := {
  line_id : matches id_classes (roomTypeId l) = true /\ to_lower (roomTypeId l) = roomTypeId l;
  line_key : trim (publicOfferKey l) <> "" /\ str_length (publicOfferKey l) <= 512;
  line_guests : guests l <> [] /\
    Forall (fun g => 1 <= adults g <= 99 /\ 0 <= children g <= 99) (guests l) /\
    traverse parse_guest (guest_value <$> guests l) = Some (guests l)
}.

Lemma id_lower s : matches id_classes s = true -> matches id_classes (to_lower s) = true.
Proof.
  apply matches_lower. unfold id_classes.
  rewrite !Forall_app. repeat split; repeat first [apply Forall_replicate | apply Forall_singleton];
    intros c; first [apply lower_char_hex | apply lower_char_dash].
Qed.

Definition rooms_in (ls : list BookingRoomLine) : Z := foldr (fun l n => Z.of_nat (length (guests l)) + n) 0 ls.

Lemma rooms_in_cons l ls : rooms_in (l :: ls) = Z.of_nat (length (guests l)) + rooms_in ls.
Proof. done. Qed.

Lemma parse_lines_spec raw : forall types n ls, parse_lines types n raw = Some ls ->
  Forall line_ok ls /\ NoDup (roomTypeId <$> ls) /\ length ls = length raw /\
  (forall l, l ∈ ls -> existsb (String.eqb (roomTypeId l)) types = false) /\
  (n + rooms_in ls <= 99 \/ ls = []).
Proof.
  induction raw as [|v raw IH]; intros types n ls; cbn [parse_lines].
  - intros [= <-]. split_and!; [constructor..|done|by intros l ?%elem_of_nil|by right].
  - intros H. follow H. bool_to_prop.
    match goal with E : parse_lines _ _ _ = Some _ |- _ => destruct (IH _ _ _ E) as (Hok & Hnd & Hlen & Hfresh & Hn) end.
    match goal with E : traverse parse_guest _ = Some _ |- _ =>
      pose proof (traverse_length _ _ _ E) as Hgl; destruct (parse_guests_value _ _ E) as [Hg Hr] end.
    rewrite !Forall_cons, fmap_cons, NoDup_cons. split_and!; cbn [length]; try done; try lia.
    + split; cbn; [split; [by apply id_lower | apply to_lower_idem] | done|].
      split; [|done]. intros ->. cbn in Hgl. lia.
    + intros (l' & E' & Hl')%list_elem_of_fmap. specialize (Hfresh _ Hl'). cbn in Hfresh, E'.
      rewrite <- E', String.eqb_refl in Hfresh. done.
    + intros x [->|Hx]%elem_of_cons; [done|]. specialize (Hfresh _ Hx). cbn in Hfresh.
      by apply orb_false_iff in Hfresh as [_ Hfresh].
    + left. rewrite rooms_in_cons. cbn [guests]. destruct Hn as [Hn| ->]; [lia|]. cbn. lia.
Qed.

Lemma parse_lines_value ls : forall types n, Forall line_ok ls -> NoDup (roomTypeId <$> ls) ->
  (forall l, l ∈ ls -> existsb (String.eqb (roomTypeId l)) types = false) -> 0 <= n -> n + rooms_in ls <= 99 ->
  parse_lines types n (line_value <$> ls) = Some ls.
Proof.
  induction ls as [|l ls IH]; intros types n Hok Hnd Hf Hn Hs; [done|].
  apply Forall_cons in Hok as [[[Hid Hlow] [Ht Hk] (Hne & Hg & Hp)] Hok].
  rewrite fmap_cons, NoDup_cons in Hnd. destruct Hnd as [Hnew Hnd]. rewrite rooms_in_cons in Hs.
  assert (0 <= rooms_in ls). { unfold rooms_in. clear. induction ls; cbn; lia. }
  rewrite fmap_cons. cbn [parse_lines]. change (is_object (line_value l)) with true.
  change (get (line_value l) "roomTypeId") with (VString (roomTypeId l)).
  change (get (line_value l) "publicOfferKey") with (VString (publicOfferKey l)).
  change (get (line_value l) "guests") with (arr (guest_value <$> guests l)). cbn [as_string].
  rewrite Hid, Hlow, as_array_arr, length_fmap, Hp.
  rewrite (Hf l) by (by left). rewrite (proj2 (String.eqb_neq _ _) Ht), (proj2 (Z.leb_le _ _) Hk).
  rewrite (IH (roomTypeId l :: types) (n + Z.of_nat (length (guests l)))); [|done..| |lia|lia].
  - destruct (guests l) as [|g gs] eqn:Eg; [done|]. cbn [length] in *.
    rewrite (proj2 (Z.leb_le 1 _)) by lia. rewrite (proj2 (Z.leb_le _ 99)) by lia. cbn [negb andb]. rewrite <- Eg. by destruct l.
  - intros x Hx. cbn. rewrite (Hf x) by (by right). rewrite orb_false_r. apply String.eqb_neq.
    intros E. apply Hnew, list_elem_of_fmap. exists x. by split.
Qed.

Record selection_ok (s : BookingRoomSelection) : Prop := {
  sel_lines : Forall line_ok (lines s);
  sel_types : NoDup (roomTypeId <$> lines s);
  sel_rooms : 1 <= rooms_in (lines s) <= 99
}.

Lemma rooms_in_length ls : Forall line_ok ls -> Z.of_nat (length ls) <= rooms_in ls.
Proof.
  induction 1 as [|l ls [_ _ (Hne & _)] _ IH]; [done|]. rewrite rooms_in_cons. cbn [length].
  destruct (guests l); [done|]. cbn [length]. lia.
Qed.

Lemma party_rooms ls : Z.of_nat (length (concat (guests <$> ls))) = rooms_in ls.
Proof. induction ls as [|l ls IH]; [done|]. rewrite rooms_in_cons, <- IH, fmap_cons. cbn. rewrite length_app. lia. Qed.

(** An accepted room selection names every room type once, holds 1 to 99
    rooms (as [bookingRoomSelectionParty] counts them), every room with an adult,
    and is read back unchanged. *)
Theorem room_selection_roundtrip value selection :
  parseBookingRoomSelection value = Some selection ->
  parseBookingRoomSelection (selection_value selection) = Some selection /\
  NoDup (roomTypeId <$> lines selection) /\
  1 <= partyRooms (bookingRoomSelectionParty selection) <= 99 /\
  partyRooms (bookingRoomSelectionParty selection) <= partyAdults (bookingRoomSelectionParty selection).
Proof.
  unfold parseBookingRoomSelection at 1. intros H. follow H. bool_to_prop.
  match goal with E : parse_lines _ _ _ = Some ?l |- _ =>
    destruct (parse_lines_spec _ _ _ _ E) as (Hok & Hnd & Hlen & _ & Hn); rename l into ls end.
  destruct Hn as [Hn| ->]; [|cbn in Hlen; lia]. pose proof (rooms_in_length ls Hok) as Hr.
  rewrite selection_party. cbn [partyRooms partyAdults lines]. rewrite party_rooms. split_and!; [|done|lia|lia|].
  - unfold parseBookingRoomSelection, selection_value, get. cbn.
    rewrite as_array_arr, length_fmap, parse_lines_value; [|done..|by intros ? ? | lia | lia].
    rewrite (proj2 (Z.leb_le 1 _)), (proj2 (Z.leb_le _ 99)) by lia. done.
  - rewrite <- party_rooms. clear -Hok. induction Hok as [|l ls [_ _ (_ & Hg & _)] _ IH]; [done|].
    rewrite fmap_cons. cbn [concat]. rewrite length_app, total_adults_app.
    assert (Z.of_nat (length (guests l)) <= total_adults (guests l)); [|lia].
    clear -Hg. induction Hg as [|g gs Hg _ IH]; [done|].
    change (total_adults (g :: gs)) with (adults g + total_adults gs). cbn [length]. lia.
Qed.
