(* ===== verification/RoomCombination.v ===== *)
(** * Room combination search

    packages/domain-booking/src/roomCombinationSearch.ts: the room selections
    that accommodate a party, cheapest first.  Selections of one room type are
    tried first; only if there is none, room types are combined by a dynamic
    program over the types that keeps the best state per key.  The work is
    counted, and a search that exceeds [maxWork] reports itself incomplete. *)

From S2P Require Import Prelude JsValue JsonText RoomSelection.

(** ** Data *)

(** An unsafe or fractional limit is a number outside the safe integers. *)
Record RoomCombinationCandidate := {
  candidateRoomTypeId : string;
  candidateOfferKey : string;
  limits : RoomLimits;
  priceMinor : Z;
  candidateCurrency : string;
  candidateMethods : list string;
  linkedGroupId : option string
}.

Record RoomCombinationOption := {
  selection : BookingRoomSelection;
  optionTotalMinor : Z;
  optionCurrency : string;
  optionMethods : list string
}.

Record State := {
  stateAdults : Z;
  stateChildren : Z;
  rooms : Z;
  groups : list string;
  stateLines : list BookingRoomLine;
  totalMinor : Z;
  currency : string;
  paymentMethods : list string
}.

Record SearchResult := { complete : bool; options : list RoomCombinationOption }.

(** ** Allocating a party to rooms of one type *)

(** The inner loop of a pass: [added = min(remaining, max(0, cap - room.adults))] *)
Fixpoint fill_adults (cap remaining : Z) (rooms : list BookingRoomGuests) : list BookingRoomGuests * Z :=
  match rooms with
  | [] => ([], remaining)
  | room :: rest =>
      let added := Z.min remaining (Z.max 0 (cap - adults room)) in
      let '(rest, remaining) := fill_adults cap (remaining - added) rest in
      ({| adults := adults room + added; children := children room |} :: rest, remaining)
  end.

Fixpoint fill_children (offer : RoomLimits) (remaining : Z) (rooms : list BookingRoomGuests)
    : list BookingRoomGuests * Z :=
  match rooms with
  | [] => ([], remaining)
  | room :: rest =>
      let here := Z.min remaining (Z.min (maxChildren offer) (maxOccupancy offer - adults room)) in
      let '(rest, remaining) := fill_children offer (remaining - here) rest in
      ({| adults := adults room; children := here |} :: rest, remaining)
  end.

Definition allocate (offer : RoomLimits) (quantity adults_ children_ : Z) : option (list BookingRoomGuests) :=
  let rooms := replicate (Z.to_nat quantity) {| adults := 1; children := 0 |} in
  let remaining := adults_ - quantity in
  let '(rooms, remaining) :=
    fill_adults (Z.min (maxAdults offer) (maxOccupancy offer - maxChildren offer)) remaining rooms in
  let '(rooms, remaining) :=
    fill_adults (Z.min (maxAdults offer) (maxOccupancy offer)) remaining rooms in
  let '(rooms, unplaced) := fill_children offer children_ rooms in
  if negb (remaining =? 0) || negb (unplaced =? 0) then None else Some rooms.

(** ** Order and identity of states *)

Definition compare (a b : string) : Z := if str_lt a b then -1 else if str_lt b a then 1 else 0.

Definition strings (l : list string) : jsval := arr (VString <$> l).

Definition key_fields (state : State) : list jsval :=
  [VInt (stateAdults state); VInt (stateChildren state); VInt (rooms state);
   strings (groups state); VString (currency state); strings (paymentMethods state);
   VInt (Z.min 2 (Z.of_nat (length (stateLines state))))].

Definition key (state : State) : string := json_text (arr (key_fields state)).

Definition lines_text (state : State) : string := json_text (arr (line_value <$> stateLines state)).

Definition rank (a b : State) : Z :=
  or_else
    (if totalMinor a <? totalMinor b then -1 else if totalMinor b <? totalMinor a then 1 else 0)
    (or_else (rooms a - rooms b) (compare (lines_text a) (lines_text b))).

Definition option_of (state : State) : RoomCombinationOption :=
  {| selection := {| lines := stateLines state |}; optionTotalMinor := totalMinor state;
     optionCurrency := currency state; optionMethods := paymentMethods state |}.

Definition result_of (states : list State) (maxOptions : Z) : SearchResult :=
  {| complete := true; options := option_of <$> take (Z.to_nat maxOptions) (sort_by rank states) |}.

(** ** Counted work

    [if (++work > maxWork) return { complete: false, options: [] }] ends the
    whole search, so a counted step returns its result and the new count, or
    nothing. *)

Definition counted (A : Type) : Type := Z -> option (A * Z).

Definition done_with {A} (x : A) : counted A := fun work => Some (x, work).

Definition tick {A} (maxWork : Z) (k : counted A) : counted A :=
  fun work => if maxWork <? work + 1 then None else k (work + 1).

(** A loop over [l] with the accumulator [acc] *)
Fixpoint for_each {A B} (body : B -> A -> counted B) (l : list A) (acc : B) : counted B :=
  match l with
  | [] => done_with acc
  | x :: r => fun work => let? (acc, work) := body acc x work in for_each body r acc work
  end.

(** [for (let i = from; i <= through; i++)] *)
Definition through (from through : Z) : list Z := seqZ from (through - from + 1).

(** ** The search *)

Section Search.
Variables (maxWork : Z) (party : Party) (minRooms maxRooms : Z).

Definition usable (candidate : RoomCombinationCandidate) : bool :=
  forallb (fun value => safe_integer value && (0 <=? value)) (limit_values (limits candidate)) &&
  (1 <=? maxAdults (limits candidate)) && (1 <=? maxOccupancy (limits candidate)) &&
  (1 <=? availableRooms (limits candidate)) && (0 <=? priceMinor candidate) &&
  negb (String.eqb (candidateCurrency candidate) "") &&
  negb (Nat.eqb (length (candidateMethods candidate)) 0).

Definition compare_candidates (a b : RoomCombinationCandidate) : Z :=
  or_else (compare (candidateRoomTypeId a) (candidateRoomTypeId b))
          (compare (candidateOfferKey a) (candidateOfferKey b)).

Definition Types : Type := list (string * list RoomCombinationCandidate).

Definition collect (types : Types) (candidate : RoomCombinationCandidate) : counted Types :=
  tick maxWork (done_with
    (if usable candidate
     then map_set types (candidateRoomTypeId candidate)
            (default [] (map_get types (candidateRoomTypeId candidate)) ++ [candidate])
     else types)).

Definition line_of (offer : RoomCombinationCandidate) (guests : list BookingRoomGuests) : BookingRoomLine :=
  {| roomTypeId := candidateRoomTypeId offer; publicOfferKey := candidateOfferKey offer; guests := guests |}.

Definition single_state (offer : RoomCombinationCandidate) (quantity : Z)
    (guests : list BookingRoomGuests) : State :=
  {| stateAdults := partyAdults party; stateChildren := partyChildren party; rooms := quantity; groups := [];
     stateLines := [line_of offer guests]; totalMinor := priceMinor offer * quantity;
     currency := candidateCurrency offer;
     paymentMethods := stable_sort str_le (first_occurrences [] (candidateMethods offer)) |}.

Definition try_single (offer : RoomCombinationCandidate) (singles : list State) (quantity : Z)
    : counted (list State) :=
  tick maxWork (done_with
    (match allocate (limits offer) quantity (partyAdults party) (partyChildren party) with
     | Some guests => singles ++ [single_state offer quantity guests]
     | None => singles
     end)).

Definition singles_of (singles : list State) (offer : RoomCombinationCandidate) : counted (list State) :=
  for_each (try_single offer)
    (through minRooms (Z.min (availableRooms (limits offer)) (Z.min (partyAdults party) maxRooms))) singles.

Definition all_singles (types : Types) : counted (list State) :=
  for_each (fun singles offers => for_each singles_of offers singles) (map_values types) [].

Definition empty_state : State :=
  {| stateAdults := 0; stateChildren := 0; rooms := 0; groups := []; stateLines := []; totalMinor := 0;
     currency := ""; paymentMethods := [] |}.

(** [offer.linkedGroupId && ...]: the empty string is no group. *)
Definition group_of (offer : RoomCombinationCandidate) : list string :=
  match linkedGroupId offer with
  | Some g => if String.eqb g "" then [] else [g]
  | None => []
  end.

Definition common_methods (state : State) (offer : RoomCombinationCandidate) : list string :=
  stable_sort str_le
    (List.filter (fun m => Nat.eqb (length (stateLines state)) 0 || existsb (String.eqb m) (paymentMethods state))
       (first_occurrences [] (candidateMethods offer))).

Definition propose (state : State) (offer : RoomCombinationCandidate) (methods : list string)
    (quantity adults_ children_ : Z) (guests : list BookingRoomGuests) : State :=
  {| stateAdults := stateAdults state + adults_; stateChildren := stateChildren state + children_;
     rooms := rooms state + quantity;
     groups := match group_of offer with
               | [] => groups state
               | g => stable_sort str_le (groups state ++ g)
               end;
     stateLines := stateLines state ++ [line_of offer guests];
     totalMinor := totalMinor state + priceMinor offer * quantity;
     currency := candidateCurrency offer; paymentMethods := methods |}.

Definition keep_better (next : list (string * State)) (proposed : State) : list (string * State) :=
  match map_get next (key proposed) with
  | Some existing => if rank proposed existing <? 0 then map_set next (key proposed) proposed else next
  | None => map_set next (key proposed) proposed
  end.

Definition try_allocation (state : State) (offer : RoomCombinationCandidate) (methods : list string)
    (quantity adults_ : Z) (next : list (string * State)) (children_ : Z) : counted (list (string * State)) :=
  tick maxWork (done_with
    (match allocate (limits offer) quantity adults_ children_ with
     | Some guests => keep_better next (propose state offer methods quantity adults_ children_ guests)
     | None => next
     end)).

Definition try_adults (state : State) (offer : RoomCombinationCandidate) (methods : list string)
    (quantity : Z) (next : list (string * State)) (adults_ : Z) : counted (list (string * State)) :=
  for_each (try_allocation state offer methods quantity adults_)
    (through 0 (Z.min (partyChildren party - stateChildren state)
                  (Z.min (quantity * maxChildren (limits offer))
                         (quantity * maxOccupancy (limits offer) - adults_)))) next.

Definition try_quantity (state : State) (offer : RoomCombinationCandidate) (methods : list string)
    (next : list (string * State)) (quantity : Z) : counted (list (string * State)) :=
  for_each (try_adults state offer methods quantity)
    (through quantity (Z.min (partyAdults party - stateAdults state)
       (quantity * Z.min (maxAdults (limits offer)) (maxOccupancy (limits offer))))) next.

Definition try_offer (state : State) (next : list (string * State)) (offer : RoomCombinationCandidate)
    : counted (list (string * State)) :=
  tick maxWork
    (if negb (String.eqb (currency state) "") && negb (String.eqb (currency state) (candidateCurrency offer))
     then done_with next
     else if existsb (fun g => existsb (String.eqb g) (groups state)) (group_of offer) then done_with next
     else
       match common_methods state offer with
       | [] => done_with next
       | methods =>
           for_each (try_quantity state offer methods)
             (through 1 (Z.min (availableRooms (limits offer))
                (Z.min (partyAdults party - stateAdults state) (maxRooms - rooms state)))) next
       end).

Definition extend_state (offers : list RoomCombinationCandidate) (next : list (string * State)) (state : State)
    : counted (list (string * State)) :=
  tick maxWork (for_each (try_offer state) offers next).

(** One room type: the states without it, and those with it *)
Definition extend_type (states : list (string * State)) (offers : list RoomCombinationCandidate)
    : counted (list (string * State)) :=
  for_each (extend_state offers) (map_values states) states.

Definition feasible (state : State) : bool :=
  (stateAdults state =? partyAdults party) && (stateChildren state =? partyChildren party) &&
  (minRooms <=? rooms state).

Definition combine (types : Types) (maxOptions : Z) : counted SearchResult :=
  fun work =>
    let? (states, work) := for_each extend_type (map_values types) [(key empty_state, empty_state)] work in
    done_with (result_of (List.filter feasible (map_values states)) maxOptions) work.

Definition search (candidates : list RoomCombinationCandidate) (maxOptions : Z) : counted SearchResult :=
  fun work =>
    let? (types, work) := for_each collect (sort_by compare_candidates candidates) [] work in
    let? (singles, work) := all_singles types work in
    match singles with
    | [] => combine types maxOptions work
    | _ :: _ => done_with (result_of singles maxOptions) work
    end.
End Search.

Record SearchLimits := {
  limitMaxWork : option Z;
  limitMaxOptions : option Z;
  limitMinRooms : option Z;
  limitMaxRooms : option Z
}.

Definition unsupported_party (party : Party) : bool :=
  negb (safe_integer (partyAdults party)) || (partyAdults party <? 1) || (99 <? partyAdults party) ||
  negb (safe_integer (partyChildren party)) || (partyChildren party <? 0) || (99 <? partyChildren party).

Definition invalid_limits (maxWork maxOptions minRooms maxRooms : Z) : bool :=
  negb (safe_integer minRooms) || (minRooms <? 1) || negb (safe_integer maxRooms) ||
  (maxRooms <? minRooms) || (99 <? maxRooms) || negb (safe_integer maxWork) || (maxWork <? 1) ||
  negb (safe_integer maxOptions) || (maxOptions <? 1).

(** The party's [partyRooms] is not read. *)
Definition searchRoomCombinations (candidates : list RoomCombinationCandidate) (party : Party)
    (limits : SearchLimits) : exn SearchResult :=
  if unsupported_party party then Throw "Unsupported guest party"
  else
    let maxWork := default 1000000 (limitMaxWork limits) in
    let maxOptions := default 5 (limitMaxOptions limits) in
    let minRooms := default 1 (limitMinRooms limits) in
    let maxRooms := default 99 (limitMaxRooms limits) in
    if invalid_limits maxWork maxOptions minRooms maxRooms then Throw "Invalid search limits"
    else
      Ret (match search maxWork party minRooms maxRooms candidates maxOptions 0 with
           | Some (result, _) => result
           | None => {| complete := false; options := [] |}
           end).
