(* ===== verification/CombinationAllocation.v ===== *)
(** * Allocating a party

    [allocate] of RoomCombination: it finds an allocation exactly when one
    exists.  Filling first the adult places that cost no child place is optimal:
    afterwards the rooms' child places are all the rooms have, or all the guests
    leave. *)

From S2P Require Import Prelude JsValue JsonText RoomSelection RoomCombination.

(** A room holds its guests: an adult at least, and no more than it takes. *)
Record holds (l : RoomLimits) (g : BookingRoomGuests) : Prop := {
  holds_adult : 1 <= adults g <= maxAdults l;
  holds_children : 0 <= children g <= maxChildren l;
  holds_all : adults g + children g <= maxOccupancy l
}.

Record limits_ok (l : RoomLimits) : Prop := {
  ok_adults : 1 <= maxAdults l;
  ok_children : 0 <= maxChildren l;
  ok_occupancy : 1 <= maxOccupancy l
}.

(** ** Adults *)

(** What a pass up to [cap] makes of a room *)
Definition grown (cap : Z) (r r' : BookingRoomGuests) : Prop :=
  adults r <= adults r' <= Z.max (adults r) cap /\ children r' = children r.

Lemma total_adults_cons r l : total_adults (r :: l) = adults r + total_adults l.
Proof. done. Qed.

Lemma total_children_cons r l : total_children (r :: l) = children r + total_children l.
Proof. done. Qed.

Lemma fill_adults_spec cap rooms : forall remaining, 0 <= remaining ->
  let '(rs, rem) := fill_adults cap remaining rooms in
  Forall2 (grown cap) rooms rs /\ 0 <= rem /\ total_adults rs + rem = total_adults rooms + remaining /\
  (remaining = 0 -> rs = rooms) /\ (rem = 0 \/ Forall (fun r => cap <= adults r) rs).
Proof.
  induction rooms as [|r rooms IH]; intros remaining Hr; cbn [fill_adults].
  - split_and!; [constructor|lia|lia|done|by right].
  - set (added := Z.min remaining (Z.max 0 (cap - adults r))).
    specialize (IH (remaining - added) ltac:(lia)). destruct (fill_adults cap (remaining - added) rooms) as [rs rem].
    destruct IH as (Hg & Hrem & Hsum & H0 & Hfull). rewrite !total_adults_cons. cbn [adults]. split_and!.
    + constructor; [|done]. unfold grown. cbn. lia.
    + done.
    + lia.
    + intros ->. rewrite H0 by lia. replace added with 0 by lia. rewrite Z.add_0_r. by destruct r.
    + destruct Hfull as [?|Hfull]; [by left|]. destruct (decide (rem = 0)); [by left|right].
      constructor; [|done]. cbn. assert (0 < remaining - added); [|lia].
      enough (total_adults rooms <= total_adults rs) by lia.
      clear -Hg. induction Hg as [|r r' rs rs' [Hg _] _ IH]; [done|]. rewrite !total_adults_cons. lia.
Qed.

(** ** Children *)

Definition child_places (l : RoomLimits) (r : BookingRoomGuests) : Z :=
  Z.min (maxChildren l) (maxOccupancy l - adults r).

Definition places (l : RoomLimits) (rooms : list BookingRoomGuests) : Z :=
  foldr (fun r n => child_places l r + n) 0 rooms.

Definition seated (l : RoomLimits) (r r' : BookingRoomGuests) : Prop :=
  adults r' = adults r /\ 0 <= children r' <= child_places l r.

Lemma places_nonneg l rooms : Forall (fun r => 0 <= child_places l r) rooms -> 0 <= places l rooms.
Proof. unfold places. induction 1; cbn; lia. Qed.

Lemma fill_children_spec l rooms : Forall (fun r => 0 <= child_places l r) rooms ->
  forall remaining, 0 <= remaining ->
  let '(rs, left_) := fill_children l remaining rooms in
  Forall2 (seated l) rooms rs /\ total_children rs + left_ = remaining /\
  left_ = Z.max 0 (remaining - places l rooms).
Proof.
  induction 1 as [|r rooms Hp Hps IH]; intros remaining Hr; cbn [fill_children].
  - split_and!; [constructor|done|cbn; lia].
  - fold (child_places l r). set (here := Z.min remaining (child_places l r)).
    specialize (IH (remaining - here) ltac:(lia)). destruct (fill_children l (remaining - here) rooms) as [rs left_].
    destruct IH as (Hs & Hsum & Hl). rewrite total_children_cons. cbn [children].
    change (places l (r :: rooms)) with (child_places l r + places l rooms). split_and!; [|lia|].
    + constructor; [|done]. split; cbn; lia.
    + pose proof (places_nonneg l rooms Hps). lia.
Qed.

(** ** The allocation *)

Section Allocate.
Variable l : RoomLimits.
Hypothesis limits_good : limits_ok l.

Let spare : Z := Z.min (maxAdults l) (maxOccupancy l - maxChildren l).
Let full : Z := Z.min (maxAdults l) (maxOccupancy l).

(** The rooms after both passes over the adults *)
Record filled (quantity adults_ : Z) (rs : list BookingRoomGuests) (rem : Z) : Prop := {
  fl_length : Z.of_nat (length rs) = quantity;
  fl_rooms : Forall (fun r => 1 <= adults r <= full) rs;
  fl_total : total_adults rs + rem = adults_;
  fl_rem : rem = 0 \/ (0 < rem /\ Forall (fun r => full <= adults r) rs);
  fl_places : Forall (fun r => adults r <= maxOccupancy l - maxChildren l) rs \/
              Forall (fun r => maxOccupancy l - maxChildren l <= adults r) rs
}.

Lemma total_new n : total_adults (replicate n {| adults := 1; children := 0 |}) = Z.of_nat n.
Proof. induction n as [|n IH]; [done|]. cbn [replicate]. rewrite total_adults_cons, IH. cbn [adults]. lia. Qed.

Lemma grown_Forall cap (P Q : BookingRoomGuests -> Prop) rs rs' : Forall2 (grown cap) rs rs' -> Forall P rs ->
  (forall r r', grown cap r r' -> P r -> Q r') -> Forall Q rs'.
Proof.
  intros Hg HP HPQ. induction Hg as [|r r' rs rs' Hr _ IH]; [constructor|].
  apply Forall_cons in HP as [Hp HP]. constructor; [by eapply HPQ | auto].
Qed.

Lemma filled_passes quantity adults_ : 0 <= quantity <= adults_ ->
  let '(r1, m1) := fill_adults spare (adults_ - quantity)
                     (replicate (Z.to_nat quantity) {| adults := 1; children := 0 |}) in
  let '(r2, m2) := fill_adults full m1 r1 in
  filled quantity adults_ r2 m2.
Proof.
  intros Hq. destruct limits_good as [HA HC HO]. set (start := replicate _ _).
  pose proof (fill_adults_spec spare start (adults_ - quantity) ltac:(lia)) as H1.
  destruct (fill_adults spare _ start) as [r1 m1]. destruct H1 as (G1 & M1 & S1 & _ & F1).
  pose proof (fill_adults_spec full r1 m1 M1) as H2.
  destruct (fill_adults full m1 r1) as [r2 m2]. destruct H2 as (G2 & M2 & S2 & Z2 & F2).
  assert (Hone : Forall (fun r => adults r = 1) start) by (by apply Forall_replicate).
  assert (Hr1 : Forall (fun r => 1 <= adults r <= Z.max 1 spare) r1).
  { eapply (grown_Forall spare); [exact G1 | exact Hone|]. cbn. intros r r' [? _]. lia. }
  assert (Hr2 : Forall (fun r => 1 <= adults r <= full) r2).
  { eapply (grown_Forall full); [exact G2 | exact Hr1|]. cbn. intros r r' [? _]. lia. }
  split.
  - rewrite <- (Forall2_length _ _ _ G2), <- (Forall2_length _ _ _ G1). unfold start. rewrite length_replicate. lia.
  - done.
  - unfold start in S1. rewrite total_new in S1. lia.
  - destruct F2 as [?|F2]; [by left|]. destruct (decide (m2 = 0)); [by left|right]. split; [lia | done].
  - destruct F1 as [-> |F1].
    + rewrite Z2 by done. destruct (decide (1 <= spare)); [left|right];
        (eapply Forall_impl; [exact Hr1 | cbn; lia]).
    + destruct (decide (maxOccupancy l - maxChildren l <= maxAdults l)); [right|left].
      * eapply (grown_Forall full); [exact G2 | exact F1|]. cbn. intros r r' [? _]. lia.
      * eapply Forall_impl; [exact Hr2 | cbn; lia].
Qed.

(** The rooms of a party, and an allocation of the party to them *)
Record allocation (quantity adults_ children_ : Z) (rooms : list BookingRoomGuests) : Prop := {
  al_length : Z.of_nat (length rooms) = quantity;
  al_holds : Forall (holds l) rooms;
  al_adults : total_adults rooms = adults_;
  al_children : total_children rooms = children_
}.

Lemma places_spare rs : Forall (fun r => adults r <= maxOccupancy l - maxChildren l) rs ->
  places l rs = Z.of_nat (length rs) * maxChildren l.
Proof.
  unfold places, child_places. induction 1 as [|r rs Hr _ IH]; [done|]. cbn [foldr length].
  rewrite IH. lia.
Qed.

Lemma places_tight rs : Forall (fun r => maxOccupancy l - maxChildren l <= adults r) rs ->
  places l rs = Z.of_nat (length rs) * maxOccupancy l - total_adults rs.
Proof.
  unfold places, child_places. induction 1 as [|r rs Hr _ IH]; [done|].
  rewrite total_adults_cons. cbn [foldr length]. rewrite IH. lia.
Qed.

Lemma total_adults_bounds lo hi rs : Forall (fun r => lo <= adults r <= hi) rs ->
  Z.of_nat (length rs) * lo <= total_adults rs <= Z.of_nat (length rs) * hi.
Proof.
  induction 1 as [|r rs Hr _ IH]; [done|]. rewrite total_adults_cons. cbn [length]. nia.
Qed.

(** No allocation seats more children than the greedy rooms have places. *)
Lemma allocation_places q a c rooms rs : allocation q a c rooms -> filled q a rs 0 -> c <= places l rs.
Proof.
  intros [Hlen Hh Ha Hc] [Hl _ Ht _ Hp].
  assert (Hle : c <= q * maxChildren l /\ c <= q * maxOccupancy l - a).
  { subst q a c. clear -Hh. induction Hh as [|r rooms [H1 H2 H3] _ IH]; [done|].
    rewrite total_adults_cons, total_children_cons. cbn [length]. nia. }
  destruct Hp as [Hp|Hp]; [rewrite (places_spare _ Hp) | rewrite (places_tight _ Hp)]; nia.
Qed.

Lemma allocate_fits q a c rooms : allocation q a c rooms -> a <= q * full.
Proof.
  intros [Hlen Hh Ha _]. subst q a. pose proof (total_adults_bounds 1 full rooms) as Hb.
  assert (Hf : Forall (fun r => 1 <= adults r <= full) rooms); [|specialize (Hb Hf); lia].
  eapply Forall_impl; [exact Hh|]. intros r [H1 H2 H3]. unfold full. lia.
Qed.

Lemma allocate_cases q a c : 0 <= q <= a -> 0 <= c ->
  match allocate l q a c with
  | Some rooms => allocation q a c rooms
  | None => forall rooms, ~ allocation q a c rooms
  end.
Proof.
  intros Hq Hc. unfold allocate. pose proof (filled_passes q a Hq) as Hf. fold spare full.
  destruct (fill_adults spare _ _) as [r1 m1]. destruct (fill_adults full m1 r1) as [rs rem].
  destruct (limits_good) as [HA HC HO].
  assert (Hpl : Forall (fun r => 0 <= child_places l r) rs).
  { eapply Forall_impl; [exact (fl_rooms _ _ _ _ Hf)|]. cbn. unfold child_places, full. lia. }
  pose proof (fill_children_spec l rs Hpl c Hc) as Hk. destruct (fill_children l c rs) as [seats unplaced].
  destruct Hk as (Hs & Hsum & Hu). destruct (Z.eqb_spec rem 0) as [->|Hrem]; cbn [negb orb].
  - destruct (Z.eqb_spec unplaced 0) as [E|E]; cbn [negb].
    + destruct Hf as [Hl Hr Ht _ _]. split.
      * by rewrite <- (Forall2_length _ _ _ Hs).
      * clear -Hs Hr. induction Hs as [|r r' rs seats [Ha Hch] _ IH]; [constructor|].
        apply Forall_cons in Hr as [Hr Hrs]. constructor; [|auto]. unfold child_places, full in *.
        split; lia.
      * rewrite <- Ht, Z.add_0_r. clear -Hs. induction Hs as [|r r' rs seats [Ha _] _ IH]; [done|].
        rewrite !total_adults_cons. lia.
      * lia.
    + intros rooms Hal. pose proof (allocation_places _ _ _ _ _ Hal Hf). lia.
  - intros rooms Hal. pose proof (allocate_fits _ _ _ _ Hal) as Hfit.
    destruct Hf as [Hl Hr Ht [?|[Hpos Hfull]] _]; [lia|].
    pose proof (total_adults_bounds full full rs) as Hb.
    assert (Forall (fun r => full <= adults r <= full) rs) as Hff.
    { apply Forall_forall. intros r Hin. rewrite Forall_forall in Hr, Hfull. specialize (Hr r Hin).
      specialize (Hfull r Hin). cbn in Hr, Hfull. lia. }
    specialize (Hb Hff). nia.
Qed.
End Allocate.

(** [allocate] decides whether a party fits.  For rooms that take an adult,
    it returns an allocation of exactly the given adults and children to exactly
    the given number of rooms, every room with an adult and within its limits, or
    it fails and no such allocation exists. *)
Theorem allocate_decides offer quantity adults_ children_ :
  limits_ok offer -> 0 <= quantity <= adults_ -> 0 <= children_ ->
  match allocate offer quantity adults_ children_ with
  | Some rooms => allocation offer quantity adults_ children_ rooms
  | None => forall rooms, ~ allocation offer quantity adults_ children_ rooms
  end.
Proof. intros Hl. by apply allocate_cases. Qed.

(** * Counted loops and best states

    How the loops of the room combination search are reasoned about: invariants
    of counted loops, what a budget changes, and the map of best states per key. *)

(** ** Loops *)

Section Loops.
Context {A B : Type} (body : B -> A -> counted B).

(** An invariant over the elements already seen *)
Lemma for_each_prefix (P : list A -> B -> Prop) l : forall before acc work acc' work',
  (forall seen x rest acc work acc' work', before ++ l = seen ++ x :: rest -> P seen acc ->
     body acc x work = Some (acc', work') -> P (seen ++ [x]) acc') ->
  P before acc -> for_each body l acc work = Some (acc', work') -> P (before ++ l) acc'.
Proof.
  induction l as [|x l IH]; intros before acc work acc' work' Hstep HP; cbn [for_each].
  - intros [= -> ->]. by rewrite app_nil_r.
  - destruct (body acc x work) as [[acc1 work1]|] eqn:E; [|done]. intros Hrest.
    rewrite cons_middle, app_assoc. eapply IH; [|exact (Hstep before x l _ _ _ _ eq_refl HP E)|exact Hrest].
    intros seen y rest acc2 work2 acc3 work3 Heq. apply (Hstep seen y rest). rewrite <- Heq. by rewrite <- app_assoc.
Qed.

Lemma for_each_inv (P : B -> Prop) l acc work acc' work' :
  (forall acc x work acc' work', x ∈ l -> P acc -> body acc x work = Some (acc', work') -> P acc') ->
  P acc -> for_each body l acc work = Some (acc', work') -> P acc'.
Proof.
  intros Hstep HP Hl. apply (for_each_prefix (fun _ => P) l [] acc work acc' work'); [|done..].
  intros seen x rest acc1 w1 acc2 w2 Heq. apply (Hstep acc1 x w1 acc2 w2). cbn in Heq. rewrite Heq. set_solver.
Qed.

(** What the body establishes at an element, and keeps at the others, holds at the end. *)
Lemma for_each_reach (I Q : B -> Prop) l x acc work acc' work' :
  x ∈ l -> I acc ->
  (forall acc y work acc' work', y ∈ l -> I acc -> body acc y work = Some (acc', work') -> I acc') ->
  (forall acc work acc' work', I acc -> body acc x work = Some (acc', work') -> Q acc') ->
  (forall acc y work acc' work', y ∈ l -> I acc -> Q acc -> body acc y work = Some (acc', work') -> Q acc') ->
  for_each body l acc work = Some (acc', work') -> Q acc'.
Proof.
  intros Hx HI HIs HQ HQs. revert acc work HI Hx HIs HQs. induction l as [|y l IH]; intros acc work HI Hx HIs HQs.
  - by apply elem_of_nil in Hx.
  - cbn [for_each]. destruct (body acc y work) as [[acc1 work1]|] eqn:E; [|done].
    assert (HI1 : I acc1) by (eapply (HIs acc y); [by left | exact HI | exact E]).
    apply elem_of_cons in Hx as [<-|Hx]; [|apply IH; try done; intros; [eapply HIs | eapply HQs]; try done; by right].
    intros Hl. assert (HQ1 : Q acc1) by exact (HQ _ _ _ _ HI E).
    assert (HP : I acc' /\ Q acc'); [|tauto].
    revert Hl. apply (for_each_inv (fun b => I b /\ Q b)); [|done].
    intros acc2 z w2 acc3 w3 Hz [HI2 HQ2] E2. split; [eapply HIs | eapply HQs]; eauto; by right.
Qed.
End Loops.

(** ** Budgets

    A computation that only ever ticks has one result and one cost: within its
    budget it gives that result, below it nothing. *)

Definition costs {A} (m : Z -> counted A) (r : A) (k : Z) : Prop :=
  0 <= k /\ forall maxWork work, work <= maxWork ->
    m maxWork work = if maxWork <? work + k then None else Some (r, work + k).

Definition priced {A} (m : Z -> counted A) : Prop := exists r k, costs m r k.

Lemma priced_done {A} (x : A) : priced (fun _ => done_with x).
Proof.
  exists x, 0. split; [done|]. intros mw w Hw. unfold done_with. rewrite Z.add_0_r.
  by rewrite (proj2 (Z.ltb_ge _ _)).
Qed.

Lemma costs_bind {A B} (m : Z -> counted A) (f : A -> Z -> counted B) r k r' k' :
  costs m r k -> costs (f r) r' k' ->
  costs (fun mw w => let? (x, w) := m mw w in f x mw w) r' (k + k').
Proof.
  intros [Hk Hm] [Hk' Hf]. split; [lia|]. intros mw w Hw. rewrite Hm by done.
  destruct (Z.ltb_spec mw (w + k)) as [H|H].
  - rewrite (proj2 (Z.ltb_lt _ _)) by lia. done.
  - rewrite Hf by lia. by rewrite Z.add_assoc.
Qed.

Lemma priced_bind {A B} (m : Z -> counted A) (f : A -> Z -> counted B) :
  priced m -> (forall x, priced (f x)) -> priced (fun mw w => let? (x, w) := m mw w in f x mw w).
Proof.
  intros (r & k & Hm) Hf. destruct (Hf r) as (r' & k' & Hr). exists r', (k + k'). by apply costs_bind with r.
Qed.

Lemma priced_tick {A} (m : Z -> counted A) : priced m -> priced (fun mw => tick mw (m mw)).
Proof.
  intros (r & k & Hk & Hm). exists r, (k + 1). split; [lia|]. intros mw w Hw. unfold tick.
  destruct (Z.ltb_spec mw (w + 1)) as [H|H].
  - by rewrite (proj2 (Z.ltb_lt _ _)) by lia.
  - rewrite Hm by lia. by replace (w + 1 + k) with (w + (k + 1)) by lia.
Qed.

Lemma priced_for_each {A B} (body : Z -> B -> A -> counted B) l :
  (forall acc x, priced (fun mw => body mw acc x)) ->
  forall acc, priced (fun mw => for_each (body mw) l acc).
Proof.
  intros Hb. induction l as [|x l IH]; intros acc; cbn [for_each]; [apply priced_done|].
  apply (priced_bind (fun mw => body mw acc x) (fun acc mw => for_each (body mw) l acc)); auto.
Qed.

(** ** Keys *)

Lemma key_fields_plain s : plain_json (arr (key_fields s)).
Proof.
  apply plain_arr. unfold key_fields.
  repeat (apply Forall_cons; split); first [apply plain_int | apply plain_string | apply plain_strings | apply Forall_nil_2].
Qed.

(** What a key tells *)
Record same_key (a b : State) : Prop := {
  sk_adults : stateAdults a = stateAdults b;
  sk_children : stateChildren a = stateChildren b;
  sk_rooms : rooms a = rooms b;
  sk_groups : groups a = groups b;
  sk_currency : currency a = currency b;
  sk_methods : paymentMethods a = paymentMethods b;
  sk_lines : Z.min 2 (Z.of_nat (length (stateLines a))) = Z.min 2 (Z.of_nat (length (stateLines b)))
}.

Lemma key_inj a b : key a = key b <-> same_key a b.
Proof.
  unfold key. split.
  - intros H. assert (E : arr (key_fields a) = arr (key_fields b)).
    { apply json_stringify_inj; [apply key_fields_plain..|].
      rewrite !plain_json_text by apply key_fields_plain. by f_equal. }
    apply arr_inj in E. unfold key_fields in E.
    assert (Hs : forall l l', List.map (fun v => (plain_prop, v)) (VString <$> l) =
                              List.map (fun v => (plain_prop, v)) (VString <$> l') -> l = l').
    { intros l l' Hl. apply strings_inj, arr_inj. unfold arr. by rewrite Hl. }
    injection E as E1 E2 E3 E4 E5 E6 E7. split; auto.
  - intros [E1 E2 E3 E4 E5 E6 E7]. unfold key_fields. by rewrite E1, E2, E3, E4, E5, E6, E7.
Qed.

(** ** Rank *)

Lemma rank_total a b : rank a b <= 0 -> totalMinor a <= totalMinor b.
Proof.
  unfold rank, or_else. destruct (Z.ltb_spec (totalMinor a) (totalMinor b)); [lia|].
  destruct (Z.ltb_spec (totalMinor b) (totalMinor a)); cbn; lia.
Qed.

Lemma rank_total' a b : 0 <= rank a b -> totalMinor b <= totalMinor a.
Proof.
  unfold rank, or_else. destruct (Z.ltb_spec (totalMinor a) (totalMinor b)); [cbn; lia|].
  destruct (Z.ltb_spec (totalMinor b) (totalMinor a)); cbn; lia.
Qed.

Lemma compare_sign a b : compare a b = - compare b a.
Proof.
  unfold compare. destruct (str_lt a b) eqn:E1, (str_lt b a) eqn:E2; try done.
  pose proof (str_lt_trans a b a E1 E2). by rewrite str_lt_irrefl in H.
Qed.

Lemma compare_le a b : compare a b <= 0 <-> str_le a b = true.
Proof.
  unfold compare. destruct (str_lt a b) eqn:E1.
  - split; [intros _; by apply str_lt_le_weaken | lia].
  - destruct (str_lt b a) eqn:E2; [|destruct (decide (a = b)) as [->|Hne]].
    + split; [lia|]. intros Hle. destruct (decide (a = b)) as [->|Hne]; [by rewrite str_lt_irrefl in E2|].
      by rewrite (str_lt_le _ _ Hle Hne) in E1.
    + split; [|done]. intros _. unfold str_le. pose proof (String.compare_antisym b b) as H.
      destruct (String.compare b b); done.
    + split; [|done]. intros _. destruct (str_le a b) eqn:E; [done|]. apply str_le_total in E.
      by rewrite (str_lt_le b a) in E2.
Qed.
