(* ===== verification/CombinationPlans.v ===== *)
(** * Plans of a stay

    What the room combination search looks for: a plan chooses offers of distinct
    room types and the guests of every room.  A state of the search stands for
    the plans with its figures, whatever their order. *)

From S2P Require Import Prelude JsValue JsonText RoomSelection RoomCombination CombinationAllocation.

Definition Choice : Type := RoomCombinationCandidate * list BookingRoomGuests.

Definition choice_type (c : Choice) : string := candidateRoomTypeId (fst c).

Definition sum_over (f : Choice -> Z) (p : list Choice) : Z := foldr (fun c n => f c + n) 0 p.

Definition choice_rooms (c : Choice) : Z := Z.of_nat (length (snd c)).
Definition choice_adults (c : Choice) : Z := total_adults (snd c).
Definition choice_children (c : Choice) : Z := total_children (snd c).
Definition choice_price (c : Choice) : Z := priceMinor (fst c) * choice_rooms c.

Definition plan_groups (p : list Choice) : list string := concat ((fun c => group_of (fst c)) <$> p).

(** The offer is one of the candidates and every room of it holds its guests. *)
Record choice_ok (candidates : list RoomCombinationCandidate) (c : Choice) : Prop := {
  ch_offer : fst c ∈ candidates;
  ch_usable : usable (fst c) = true;
  ch_rooms : 1 <= choice_rooms c <= availableRooms (limits (fst c));
  ch_holds : Forall (holds (limits (fst c))) (snd c)
}.

Record plan_ok (candidates : list RoomCombinationCandidate) (p : list Choice) : Prop := {
  pl_choices : Forall (choice_ok candidates) p;
  pl_types : NoDup (choice_type <$> p);
  pl_groups : NoDup (plan_groups p);
  pl_currency : exists cur, Forall (fun c => candidateCurrency (fst c) = cur) p;
  pl_methods : exists m, Forall (fun c => m ∈ candidateMethods (fst c)) p
}.

(** A plan that accommodates the party within the room limits *)
Record plan_for (candidates : list RoomCombinationCandidate) (party : Party) (minRooms maxRooms : Z)
    (p : list Choice) : Prop := {
  pf_ok : plan_ok candidates p;
  pf_adults : sum_over choice_adults p = partyAdults party;
  pf_children : sum_over choice_children p = partyChildren party;
  pf_rooms : minRooms <= sum_over choice_rooms p <= maxRooms
}.

(** ** Sums *)

Lemma sum_over_app f p q : sum_over f (p ++ q) = sum_over f p + sum_over f q.
Proof. unfold sum_over. induction p as [|c p IH]; cbn; [done|]. rewrite IH. lia. Qed.

Lemma sum_over_one f c : sum_over f [c] = f c.
Proof. unfold sum_over. cbn. lia. Qed.

#[export] Instance sum_over_perm f : Proper ((≡ₚ) ==> eq) (sum_over f).
Proof. unfold sum_over. intros p q H. induction H; cbn; lia. Qed.

Lemma sum_over_nonneg f p : Forall (fun c => 0 <= f c) p -> 0 <= sum_over f p.
Proof. unfold sum_over. induction 1; cbn; lia. Qed.

#[export] Instance plan_groups_perm : Proper ((≡ₚ) ==> (≡ₚ)) plan_groups.
Proof.
  unfold plan_groups. intros p q H. induction H as [|c p q _ IH|c d p|p q r _ IH1 _ IH2]; cbn; [done|..].
  - by rewrite IH.
  - rewrite !app_assoc. by rewrite (Permutation_app_comm (group_of d.1)).
  - by etransitivity.
Qed.

Lemma plan_groups_snoc p c : plan_groups (p ++ [c]) = plan_groups p ++ group_of (fst c).
Proof. unfold plan_groups. rewrite fmap_app, concat_app. cbn. by rewrite app_nil_r. Qed.

(** ** Guests of a choice *)

Lemma usable_spec c : usable c = true ->
  limits_ok (limits c) /\ 1 <= availableRooms (limits c) /\ 0 <= priceMinor c /\ candidateCurrency c <> "" /\
  candidateMethods c <> [].
Proof.
  unfold usable, limit_values. cbn [forallb]. intros H. bool_to_prop. split_and!; try done.
  intros E. match goal with H : Nat.eqb _ _ = false |- _ => by rewrite E in H end.
Qed.

Lemma choice_figures cs c : choice_ok cs c ->
  0 <= choice_children c <= choice_rooms c * maxChildren (limits (fst c)) /\
  choice_rooms c <= choice_adults c <=
    choice_rooms c * Z.min (maxAdults (limits (fst c))) (maxOccupancy (limits (fst c))) /\
  choice_adults c + choice_children c <= choice_rooms c * maxOccupancy (limits (fst c)).
Proof.
  intros [_ _ _ Hh]. unfold choice_children, choice_rooms, choice_adults.
  induction Hh as [|g gs [H1 H2 H3] _ IH]; [cbn; lia|].
  rewrite total_adults_cons, total_children_cons. cbn [length]. nia.
Qed.

Lemma choice_allocation cs c : choice_ok cs c ->
  allocation (limits (fst c)) (choice_rooms c) (choice_adults c) (choice_children c) (snd c).
Proof. intros [_ _ _ Hh]. by split. Qed.

(** ** States and plans *)

(** The figures of the state are those of the plan. *)
Record matches (s : State) (p : list Choice) : Prop := {
  mt_adults : stateAdults s = sum_over choice_adults p;
  mt_children : stateChildren s = sum_over choice_children p;
  mt_rooms : rooms s = sum_over choice_rooms p;
  mt_groups : groups s ≡ₚ plan_groups p;
  mt_groups_sorted : Sorted (le_rel str_le) (groups s);
  mt_currency : (p = [] -> currency s = "") /\ Forall (fun c => currency s = candidateCurrency (fst c)) p;
  mt_methods : forall m, m ∈ paymentMethods s <->
                 p <> [] /\ Forall (fun c => m ∈ candidateMethods (fst c)) p;
  mt_methods_nodup : NoDup (paymentMethods s);
  mt_methods_sorted : Sorted (le_rel str_le) (paymentMethods s);
  mt_lines : Z.min 2 (Z.of_nat (length (stateLines s))) = Z.min 2 (Z.of_nat (length p))
}.

#[local] Instance str_le_transitive : Transitive (le_rel str_le).
Proof. intros a b c. unfold le_rel. rewrite <- !compare_le. unfold compare. intros H1 H2.
  destruct (str_lt a c) eqn:E; [lia|]. destruct (str_lt c a) eqn:E2; [|lia].
  destruct (decide (a = b)) as [->|Hab].
  { rewrite E, E2 in H2. lia. }
  assert (Hle : str_le a b = true) by (by apply compare_le).
  pose proof (str_lt_trans _ _ _ E2 (str_lt_le _ _ Hle Hab)) as Hcb.
  assert (Hbc : str_le b c = true) by (by apply compare_le).
  destruct (decide (b = c)) as [->|Hne]; [by rewrite str_lt_irrefl in Hcb|].
  pose proof (str_lt_trans _ _ _ Hcb (str_lt_le _ _ Hbc Hne)) as H. by rewrite str_lt_irrefl in H.
Qed.

#[local] Instance str_le_antisym : AntiSymm (=) (le_rel str_le).
Proof.
  intros a b Hab Hba. destruct (decide (a = b)) as [|Hne]; [done|].
  pose proof (str_lt_trans _ _ _ (str_lt_le _ _ Hab Hne) (str_lt_le _ _ Hba (not_eq_sym Hne))) as H.
  by rewrite str_lt_irrefl in H.
Qed.

Lemma matches_perm s p q : p ≡ₚ q -> matches s p -> matches s q.
Proof.
  intros E [H1 H2 H3 H4 H5 [H6 H6'] H7 H8 H9 H10].
  assert (Hnil : q = [] <-> p = []).
  { split; intros ->; [by apply Permutation_nil_r in E | by apply Permutation_nil_l in E]. }
  split; rewrite <- ?E; try done.
  - split; [intros Hq; by apply H6, Hnil | by rewrite <- E].
  - intros m. by rewrite H7, Hnil, <- E.
Qed.

Lemma matches_same_key s s' p : matches s p -> same_key s s' -> matches s' p.
Proof.
  intros [H1 H2 H3 H4 H5 H6 H7 H8 H9 H10] [K1 K2 K3 K4 K5 K6 K7].
  split; rewrite <- ?K1, <- ?K2, <- ?K3, <- ?K4, <- ?K5, <- ?K6, <- ?K7; done.
Qed.

Lemma matches_key s s' p : matches s p -> matches s' p -> same_key s s'.
Proof.
  intros [H1 H2 H3 H4 H5 [H6 F6] H7 H8 H9 H10] [K1 K2 K3 K4 K5 [K6 G6] K7 K8 K9 K10]. split; try congruence.
  - apply (Sorted_unique (le_rel str_le)); [done..|]. by rewrite H4, K4.
  - destruct p as [|c p]; [by rewrite H6, K6|]. apply Forall_cons in F6 as [F6 _], G6 as [G6 _]. congruence.
  - apply (Sorted_unique (le_rel str_le)); [done..|]. apply NoDup_Permutation; [done..|]. intros m. by rewrite H7, K7.
Qed.

Lemma matches_empty : matches empty_state [].
Proof.
  split; try done; cbn; try apply NoDup_nil_2; try apply Sorted_nil.
  intros m. rewrite elem_of_nil. split; [done | by intros [? _]].
Qed.

(** ** Payment methods *)

Lemma common_methods_spec s c :
  NoDup (common_methods s c) /\ Sorted (le_rel str_le) (common_methods s c) /\
  forall m, m ∈ common_methods s c <->
    m ∈ candidateMethods c /\ (stateLines s = [] \/ m ∈ paymentMethods s).
Proof.
  unfold common_methods. destruct (first_occurrences_spec (candidateMethods c) []) as [Hn Hx].
  split_and!.
  - rewrite stable_sort_perm. apply NoDup_ListNoDup, List.NoDup_filter. by apply NoDup_ListNoDup.
  - apply stable_sort_sorted, str_le_total.
  - intros m. rewrite elem_of_stable_sort, elem_of_bfilter, Hx, orb_true_iff,
      existsb_elem, Nat.eqb_eq, length_zero_iff_nil.
    split; [intros [[? _] ?]; done | intros [? ?]; split; [split; [done | apply not_elem_of_nil] | done]].
Qed.

(** ** Taking an offer *)

(** The offer and the guests tried for a state *)
Record trial (party : Party) (maxRooms : Z) (s : State) (offer : RoomCombinationCandidate) (q a c : Z)
    (guests : list BookingRoomGuests) : Prop := {
  tr_currency : currency s = "" \/ currency s = candidateCurrency offer;
  tr_groups : Forall (fun g => g ∉ groups s) (group_of offer);
  tr_methods : common_methods s offer <> [];
  tr_rooms : 1 <= q <= Z.min (availableRooms (limits offer))
                         (Z.min (partyAdults party - stateAdults s) (maxRooms - rooms s));
  tr_adults : q <= a <= Z.min (partyAdults party - stateAdults s)
                         (q * Z.min (maxAdults (limits offer)) (maxOccupancy (limits offer)));
  tr_children : 0 <= c <= Z.min (partyChildren party - stateChildren s)
                  (Z.min (q * maxChildren (limits offer)) (q * maxOccupancy (limits offer) - a));
  tr_guests : allocate (limits offer) q a c = Some guests
}.

Lemma propose_matches s p offer q a c guests guests' : matches s p ->
  choice_rooms (offer, guests') = q -> choice_adults (offer, guests') = a ->
  choice_children (offer, guests') = c -> (currency s = "" -> p = []) ->
  currency s = "" \/ currency s = candidateCurrency offer ->
  matches (propose s offer (common_methods s offer) q a c guests) (p ++ [(offer, guests')]).
Proof.
  intros [H1 H2 H3 H4 H5 [H6 F6] H7 H8 H9 H10] Hq Ha Hc Hcur Hcur'.
  destruct (common_methods_spec s offer) as (Mn & Ms & Mm).
  assert (Hl : stateLines s = [] <-> p = []).
  { rewrite <- !length_zero_iff_nil. lia. }
  split; cbn [propose stateAdults stateChildren rooms groups currency paymentMethods stateLines];
    rewrite ?sum_over_app, ?sum_over_one, ?plan_groups_snoc; cbn [fst]; try congruence; try done.
  - destruct (group_of offer) as [|g l]; [by rewrite app_nil_r|]. by rewrite stable_sort_perm, H4.
  - destruct (group_of offer); [done|]. apply stable_sort_sorted, str_le_total.
  - split; [by destruct p|]. apply Forall_app. split; [|by constructor].
    destruct Hcur' as [Hcur'|Hcur']; [rewrite Hcur by done; constructor | by rewrite <- Hcur'].
  - intros m. rewrite Mm, Hl, H7, Forall_app, Forall_singleton. cbn [fst].
    split; [intros [Hm Hor]; split; [by destruct p|split; [|done]]; destruct Hor as [-> |[_ Hf]]; [constructor|done]|].
    intros [_ [Hf Hm]]. split; [done|]. destruct (decide (p = [])); [by left | right; done].
  - rewrite !length_app. cbn [length]. lia.
Qed.

(** * One state extended

    Which states the loops over the offers, room counts, adults and children of
    the room combination search propose, and what they keep. *)

Lemma elem_of_through x a b : x ∈ through a b <-> a <= x <= b.
Proof. unfold through. rewrite elem_of_seqZ. lia. Qed.

Lemma tick_Some {A} maxWork (k : counted A) work r : tick maxWork k work = Some r -> k (work + 1) = Some r.
Proof. unfold tick. by destruct (maxWork <? work + 1). Qed.

Section Steps.
Variables (maxWork : Z) (party : Party) (maxRooms : Z) (s : State).

Definition proposed (offer : RoomCombinationCandidate) (q a c : Z) (guests : list BookingRoomGuests) : State :=
  propose s offer (common_methods s offer) q a c guests.

(** [R] is kept by every state proposed for [offer]. *)
Definition kept_for (R : list (string * State) -> Prop) (offer : RoomCombinationCandidate) : Prop :=
  forall next q a c guests, trial party maxRooms s offer q a c guests -> R next ->
    R (keep_better next (proposed offer q a c guests)).

Section Offer.
Variable offer : RoomCombinationCandidate.
Hypothesis currency_fits : currency s = "" \/ currency s = candidateCurrency offer.
Hypothesis group_free : Forall (fun g => g ∉ groups s) (group_of offer).
Hypothesis methods_left : common_methods s offer <> [].

Abbreviation methods := (common_methods s offer).
Abbreviation quantities := (through 1 (Z.min (availableRooms (limits offer))
  (Z.min (partyAdults party - stateAdults s) (maxRooms - rooms s)))).
Abbreviation adult_counts q := (through q (Z.min (partyAdults party - stateAdults s)
  (q * Z.min (maxAdults (limits offer)) (maxOccupancy (limits offer))))).
Abbreviation child_counts q a := (through 0 (Z.min (partyChildren party - stateChildren s)
  (Z.min (q * maxChildren (limits offer)) (q * maxOccupancy (limits offer) - a)))).

Lemma try_allocation_inv R next q a c work next' work' : kept_for R offer ->
  q ∈ quantities -> a ∈ adult_counts q -> c ∈ child_counts q a -> R next ->
  try_allocation maxWork s offer methods q a next c work = Some (next', work') -> R next'.
Proof using currency_fits group_free methods_left.
  rewrite !elem_of_through. intros HR Hq Ha Hc Hn H. apply tick_Some in H.
  destruct (allocate (limits offer) q a c) as [guests|] eqn:E; injection H as <- <-; [|done].
  by apply HR.
Qed.

Lemma try_adults_inv R next q a work next' work' : kept_for R offer ->
  q ∈ quantities -> a ∈ adult_counts q -> R next ->
  try_adults maxWork party s offer methods q next a work = Some (next', work') -> R next'.
Proof using currency_fits group_free methods_left.
  intros HR Hq Ha Hn. apply for_each_inv; [|done]. intros acc c w acc' w' Hc. by apply try_allocation_inv.
Qed.

Lemma try_quantity_inv R next q work next' work' : kept_for R offer -> q ∈ quantities -> R next ->
  try_quantity maxWork party s offer methods next q work = Some (next', work') -> R next'.
Proof using currency_fits group_free methods_left.
  intros HR Hq Hn. apply for_each_inv; [|done]. intros acc a w acc' w' Ha. by apply try_adults_inv.
Qed.

(** What a trial of the offer establishes *)
Lemma try_quantities_reach (I Q : list (string * State) -> Prop) q a c guests next work next' work' :
  trial party maxRooms s offer q a c guests -> kept_for I offer -> kept_for (fun n => I n /\ Q n) offer ->
  (forall n, I n -> Q (keep_better n (proposed offer q a c guests))) -> I next ->
  for_each (try_quantity maxWork party s offer methods) quantities next work = Some (next', work') -> Q next'.
Proof using currency_fits group_free methods_left.
  intros [_ _ _ Hq Ha Hc Hg] HI HQ Hreach Hn. apply elem_of_through in Hq, Ha, Hc.
  apply (for_each_reach _ I Q _ q); [done|done|..].
  - intros acc y w acc' w' Hy. by apply try_quantity_inv.
  - intros acc w acc' w' HIa. apply (for_each_reach _ I Q _ a); [done|done|..].
    + intros acc1 y w1 acc2 w2 Hy. by apply try_adults_inv.
    + intros acc1 w1 acc2 w2 HI1. apply (for_each_reach _ I Q _ c); [done|done|..].
      * intros acc3 y w3 acc4 w4 Hy. by apply try_allocation_inv.
      * intros acc3 w3 acc4 w4 HI3 H. apply tick_Some in H. rewrite Hg in H. injection H as <- <-. by apply Hreach.
      * intros acc3 y w3 acc4 w4 Hy HI3 HQ3 H.
        by apply (try_allocation_inv (fun n => I n /\ Q n) acc3 q a y w3 acc4 w4 HQ Hq Ha Hy (conj HI3 HQ3)).
    + intros acc1 y w1 acc2 w2 Hy HI1 HQ1 H.
      by apply (try_adults_inv (fun n => I n /\ Q n) acc1 q y w1 acc2 w2 HQ Hq Hy (conj HI1 HQ1)).
  - intros acc y w acc' w' Hy HIa HQa H.
    by apply (try_quantity_inv (fun n => I n /\ Q n) acc y w acc' w' HQ Hy (conj HIa HQa)).
Qed.
End Offer.

(** The checks before an offer is tried *)
Lemma try_offer_gate offer next work r : try_offer maxWork party maxRooms s next offer work = Some r ->
  r = (next, work + 1) \/
  ((currency s = "" \/ currency s = candidateCurrency offer) /\
   Forall (fun g => g ∉ groups s) (group_of offer) /\ common_methods s offer <> [] /\
   for_each (try_quantity maxWork party s offer (common_methods s offer))
     (through 1 (Z.min (availableRooms (limits offer))
        (Z.min (partyAdults party - stateAdults s) (maxRooms - rooms s)))) next (work + 1) = Some r).
Proof.
  unfold try_offer. intros H. apply tick_Some in H.
  destruct (_ && _) eqn:E1; [left; by injection H|].
  destruct (existsb _ (group_of offer)) eqn:E2; [left; by injection H|].
  destruct (common_methods s offer) as [|m ms] eqn:E3; [left; by injection H|]. right. split_and!; try done.
  - apply andb_false_iff in E1. rewrite !negb_false_iff, !String.eqb_eq in E1. done.
  - apply Forall_forall. intros g Hg Hin.
    assert (existsb (fun g => existsb (String.eqb g) (groups s)) (group_of offer) = true); [|congruence].
    apply existsb_exists. exists g. split; [by apply list_elem_of_In | by apply existsb_elem].
Qed.

Lemma try_offer_inv R next offer work next' work' : kept_for R offer -> R next ->
  try_offer maxWork party maxRooms s next offer work = Some (next', work') -> R next'.
Proof.
  intros HR Hn H. apply try_offer_gate in H as [[= -> _]|(Hc & Hg & Hm & H)]; [done|].
  revert H. apply for_each_inv; [|done]. intros acc q w acc' w' Hq. by apply try_quantity_inv.
Qed.

Lemma extend_state_inv R offers next work next' work' : Forall (kept_for R) offers -> R next ->
  extend_state maxWork party maxRooms offers next s work = Some (next', work') -> R next'.
Proof.
  intros HR Hn H. apply tick_Some in H. revert H. apply for_each_inv; [|done].
  intros acc offer w acc' w' Ho. rewrite Forall_forall in HR. apply try_offer_inv. by apply HR.
Qed.

Lemma try_offer_reach (I Q : list (string * State) -> Prop) offer q a c guests next work next' work' :
  trial party maxRooms s offer q a c guests -> kept_for I offer -> kept_for (fun n => I n /\ Q n) offer ->
  (forall n, I n -> Q (keep_better n (proposed offer q a c guests))) -> I next ->
  try_offer maxWork party maxRooms s next offer work = Some (next', work') -> Q next'.
Proof.
  intros Ht HI HQ Hr Hn H. destruct Ht as [Tc Tg Tm Tq Ta Tch Tgu].
  assert (Hrun : for_each (try_quantity maxWork party s offer (common_methods s offer))
     (through 1 (Z.min (availableRooms (limits offer))
        (Z.min (partyAdults party - stateAdults s) (maxRooms - rooms s)))) next (work + 1) = Some (next', work')).
  { unfold try_offer in H. apply tick_Some in H.
    destruct (_ && _) eqn:E1.
    { apply andb_true_iff in E1. rewrite !negb_true_iff, !String.eqb_neq in E1. by destruct E1, Tc. }
    destruct (existsb _ (group_of offer)) eqn:E2.
    { apply existsb_exists in E2 as (g & Hg & Hin%existsb_elem). apply list_elem_of_In in Hg.
      rewrite Forall_forall in Tg. by apply Tg in Hg. }
    by destruct (common_methods s offer) as [|m ms]. }
  by eapply (try_quantities_reach offer Tc Tg Tm I Q q a c guests).
Qed.

Lemma extend_state_reach (I Q : list (string * State) -> Prop) offers offer q a c guests next work next' work' :
  offer ∈ offers -> trial party maxRooms s offer q a c guests ->
  Forall (kept_for I) offers -> Forall (kept_for (fun n => I n /\ Q n)) offers ->
  (forall n, I n -> Q (keep_better n (proposed offer q a c guests))) -> I next ->
  extend_state maxWork party maxRooms offers next s work = Some (next', work') -> Q next'.
Proof.
  rewrite !Forall_forall. intros Ho Ht HI HQ Hr Hn H. apply tick_Some in H. revert H.
  apply (for_each_reach _ I Q _ offer); [done|done|..].
  - intros acc y w acc' w' Hy. apply try_offer_inv. by apply HI.
  - intros acc w acc' w' HIa. apply (try_offer_reach I Q offer q a c guests); auto.
  - intros acc y w acc' w' Hy HIa HQa H.
    by apply (try_offer_inv (fun n => I n /\ Q n) acc y w acc' w' (HQ y Hy) (conj HIa HQa)).
Qed.
End Steps.
