(* ===== verification/CombinationStates.v ===== *)
(** * The dynamic program

    After every room type, each state of the room combination search stands for a
    plan over the types seen, and every plan of the party restricted to those
    types is covered by a state with its figures that costs no more. *)

From S2P Require Import Prelude JsValue JsonText RoomSelection RoomCombination CombinationAllocation CombinationPlans.

Definition plan_lines (p : list Choice) : list BookingRoomLine := (fun c => line_of (fst c) (snd c)) <$> p.

Definition same_type_as (os : list RoomCombinationCandidate) (c : Choice) : Prop :=
  choice_type c ∈ (candidateRoomTypeId <$> os).

#[export] Instance same_type_as_dec os c : Decision (same_type_as os c).
Proof. unfold same_type_as. apply _. Defined.

(** The part of a plan over the given room types *)
Definition restrict (os : list RoomCombinationCandidate) (p : list Choice) : list Choice :=
  filter (same_type_as os) p.

(** ** The map of best states *)

Definition keys_ok (m : list (string * State)) : Prop := Forall (fun ks => fst ks = key (snd ks)) m.

Definition covers (m : list (string * State)) (p : list Choice) : Prop :=
  exists s, (key s, s) ∈ m /\ map_get m (key s) = Some s /\ matches s p /\ totalMinor s <= sum_over choice_price p.

Lemma Forall_map_set {V} (P : string * V -> Prop) m k v : Forall P m -> P (k, v) -> Forall P (map_set m k v).
Proof.
  intros Hm Hv. induction Hm as [|[k' v'] m Hx Hm IH]; cbn [map_set]; [by constructor|].
  destruct (String.eqb k' k); by constructor.
Qed.

Lemma keep_better_Forall (P : string * State -> Prop) m s :
  Forall P m -> P (key s, s) -> Forall P (keep_better m s).
Proof.
  intros Hm Hs. unfold keep_better. destruct (map_get m (key s)) as [e|]; [destruct (_ <? _)|];
    first [done | by apply Forall_map_set].
Qed.

Lemma keep_better_get m s k : map_get (keep_better m s) k =
  if String.eqb (key s) k then
    match map_get m (key s) with
    | Some e => if rank s e <? 0 then Some s else Some e
    | None => Some s
    end
  else map_get m k.
Proof.
  unfold keep_better. destruct (map_get m (key s)) as [e|] eqn:E; [destruct (rank s e <? 0)|];
    rewrite ?map_get_set; destruct (String.eqb_spec (key s) k) as [<-|]; done.
Qed.

Lemma keep_better_covers m s p : keys_ok m -> covers m p -> covers (keep_better m s) p.
Proof.
  intros Hk (e & _ & Hg & Hm & Ht).
  destruct (String.eqb_spec (key s) (key e)) as [E|E].
  - assert (Hsk : same_key e s) by (by apply key_inj).
    assert (Hms : matches s p) by (by eapply matches_same_key).
    assert (Hget : map_get (keep_better m s) (key e) = if rank s e <? 0 then Some s else Some e).
    { rewrite keep_better_get, E, String.eqb_refl, Hg. done. }
    destruct (Z.ltb_spec (rank s e) 0) as [Hr|Hr].
    + exists s. rewrite E. split_and!; [by apply map_get_elem | done | done|].
      pose proof (rank_total s e ltac:(lia)). lia.
    + exists e. split_and!; [by apply map_get_elem | done..].
  - assert (Hget : map_get (keep_better m s) (key e) = Some e).
    { rewrite keep_better_get. destruct (String.eqb_spec (key s) (key e)); done. }
    exists e. split_and!; [by apply map_get_elem | done..].
Qed.

Lemma keep_better_new m s p : keys_ok m -> matches s p -> totalMinor s <= sum_over choice_price p ->
  covers (keep_better m s) p.
Proof.
  intros Hk Hm Ht. pose proof (keep_better_get m s (key s)) as Hget. rewrite String.eqb_refl in Hget.
  destruct (map_get m (key s)) as [e|] eqn:E.
  - destruct (Z.ltb_spec (rank s e) 0) as [Hr|Hr].
    + exists s. split_and!; [by apply map_get_elem | done..].
    + assert (Ee : key s = key e).
      { apply map_get_elem in E. unfold keys_ok in Hk. rewrite Forall_forall in Hk. exact (Hk _ E). }
      exists e. rewrite <- Ee. split_and!; [by apply map_get_elem | done | |].
      * eapply matches_same_key; [exact Hm | by apply key_inj].
      * pose proof (rank_total' s e Hr). lia.
  - exists s. split_and!; [by apply map_get_elem | done..].
Qed.

(** ** The room types *)

Section Types_.
Variables (candidates : list RoomCombinationCandidate) (vs : list (list RoomCombinationCandidate)).

(** The offers grouped by room type *)
Record grouped : Prop := {
  gr_offers : forall offers o, offers ∈ vs -> o ∈ offers -> o ∈ candidates /\ usable o = true;
  gr_whole : forall offers o c, offers ∈ vs -> o ∈ offers -> c ∈ candidates -> usable c = true ->
    candidateRoomTypeId c = candidateRoomTypeId o -> c ∈ offers;
  gr_same : forall offers o o', offers ∈ vs -> o ∈ offers -> o' ∈ offers ->
    candidateRoomTypeId o = candidateRoomTypeId o';
  gr_apart : forall before offers rest o o', vs = before ++ offers :: rest -> o ∈ offers ->
    o' ∈ concat before -> candidateRoomTypeId o <> candidateRoomTypeId o';
  gr_all : forall c, c ∈ candidates -> usable c = true -> exists offers, offers ∈ vs /\ c ∈ offers
}.
Hypothesis types_grouped : grouped.

Variables (maxWork : Z) (party : Party) (minRooms maxRooms : Z).

(** ** Every state stands for a plan *)

Record stands_for (before : list (list RoomCombinationCandidate)) (s : State) (p : list Choice) : Prop := {
  sf_matches : matches s p;
  sf_lines : stateLines s = plan_lines p;
  sf_total : totalMinor s = sum_over choice_price p;
  sf_ok : plan_ok candidates p;
  sf_before : Forall (fun c => fst c ∈ concat before) p;
  sf_rooms : rooms s <= Z.max 0 maxRooms
}.

Definition sound_state (before : list (list RoomCombinationCandidate)) (s : State) : Prop :=
  exists p, stands_for before s p.

Lemma sound_more before offers s : sound_state before s -> sound_state (before ++ [offers]) s.
Proof.
  intros (p & [H1 H2 H3 H4 H5 H6]). exists p. split; try done. eapply Forall_impl; [exact H5|].
  intros c Hc. rewrite concat_app, elem_of_app. by left.
Qed.

Lemma plan_currency cs p c : plan_ok cs p -> c ∈ p -> candidateCurrency (fst c) <> "".
Proof.
  intros [Hc _ _ _ _] Hin. rewrite Forall_forall in Hc. destruct (Hc c Hin) as [_ Hu _ _].
  by apply usable_spec in Hu as (_ & _ & _ & ? & _).
Qed.

Lemma matches_blank cs s p : plan_ok cs p -> matches s p -> currency s = "" -> p = [].
Proof.
  intros Hp Hm He. destruct p as [|c p]; [done|]. destruct (mt_currency _ _ Hm) as [_ Hc].
  apply Forall_cons in Hc as [Hc _]. exfalso.
  apply (plan_currency _ _ c Hp); [by left | congruence].
Qed.

Lemma trial_allocation s offer q a c guests : usable offer = true -> trial party maxRooms s offer q a c guests ->
  allocation (limits offer) q a c guests.
Proof.
  intros (Hl & _)%usable_spec [_ _ _ Hq Ha Hc Hg].
  pose proof (allocate_cases _ Hl q a c ltac:(lia) ltac:(lia)) as H. by rewrite Hg in H.
Qed.

Lemma extend_plan_ok p s offer guests : plan_ok candidates p -> matches s p ->
  choice_ok candidates (offer, guests) -> candidateRoomTypeId offer ∉ (choice_type <$> p) ->
  currency s = "" \/ currency s = candidateCurrency offer -> Forall (fun g => g ∉ groups s) (group_of offer) ->
  common_methods s offer <> [] -> plan_ok candidates (p ++ [(offer, guests)]).
Proof.
  intros Hp Hm Hc Ht Hcur Hg Hmeth. pose proof Hp as [P1 P2 P3 P4 P5]. split.
  - apply Forall_app. split; [done | by apply Forall_singleton].
  - rewrite fmap_app. apply NoDup_app. split; [done|]. split; [|apply NoDup_singleton].
    intros t Ht' Hin. apply list_elem_of_singleton in Hin as ->. done.
  - rewrite plan_groups_snoc. apply NoDup_app. split; [done|]. split.
    + intros g Hin Hg'. rewrite Forall_forall in Hg. apply (Hg g); [done|].
      by rewrite (mt_groups _ _ Hm).
    + cbn [fst]. unfold group_of. destruct (linkedGroupId offer) as [g|]; [destruct (String.eqb g "")|];
        first [apply NoDup_nil_2 | apply NoDup_singleton].
  - exists (candidateCurrency offer). apply Forall_app. split; [|by apply Forall_singleton].
    destruct Hcur as [He|He].
    + rewrite (matches_blank _ _ _ Hp Hm He). constructor.
    + destruct (mt_currency _ _ Hm) as [_ Hcs]. rewrite He in Hcs. eapply Forall_impl; [exact Hcs | by intros c ->].
  - destruct (common_methods_spec s offer) as (_ & _ & Hx).
    destruct (common_methods s offer) as [|m ms]; [done|]. exists m.
    destruct (proj1 (Hx m) ltac:(by left)) as [Hin Hor]. apply Forall_app. split; [|by apply Forall_singleton].
    destruct Hor as [Hl|Hin'].
    + assert (p = []) as ->; [|constructor]. pose proof (mt_lines _ _ Hm) as Hlen. rewrite Hl in Hlen. cbn in Hlen.
      apply length_zero_iff_nil. lia.
    + by apply (mt_methods _ _ Hm) in Hin' as [_ Hin'].
Qed.

Lemma sound_proposed before offers rest s offer q a c guests : vs = before ++ offers :: rest ->
  offer ∈ offers -> sound_state before s -> trial party maxRooms s offer q a c guests ->
  sound_state (before ++ [offers]) (proposed s offer q a c guests).
Proof using types_grouped.
  intros Hvs Ho (p & [Hm Hl Ht Hp Hb Hr]) Htr.
  destruct (gr_offers types_grouped offers offer) as [Hin Hu]; [rewrite Hvs; set_solver | done|].
  pose proof (trial_allocation _ _ _ _ _ _ Hu Htr) as [A1 A2 A3 A4].
  destruct Htr as [Tc Tg Tm Tq Ta Tch _].
  assert (Hnew : candidateRoomTypeId offer ∉ (choice_type <$> p)).
  { intros (x & E & Hx)%list_elem_of_fmap. rewrite Forall_forall in Hb.
    by apply (gr_apart types_grouped before offers rest offer (fst x) Hvs Ho (Hb x Hx)). }
  exists (p ++ [(offer, guests)]). split.
  - by apply propose_matches; try done; apply (matches_blank _ _ _ Hp Hm).
  - cbn. unfold plan_lines. by rewrite Hl, fmap_app.
  - cbn [proposed propose totalMinor]. rewrite sum_over_app, sum_over_one, Ht. unfold choice_price, choice_rooms.
    cbn [fst snd]. by rewrite A1.
  - eapply extend_plan_ok; try done. split; cbn [fst snd]; try done. unfold choice_rooms. cbn [snd]. lia.
  - apply Forall_app. split; [|apply Forall_singleton; cbn; rewrite concat_app; set_solver].
    eapply Forall_impl; [exact Hb|]. intros x Hx. rewrite concat_app. set_solver.
  - cbn [proposed propose rooms]. lia.
Qed.
End Types_.

(** * Every plan is covered

    The completeness half of the dynamic program, and what the whole search
    answers: nothing only if no plan exists, and first a cheapest plan. *)

Section Cover.
Variables (candidates : list RoomCombinationCandidate) (vs : list (list RoomCombinationCandidate)).
Hypothesis types_grouped : grouped candidates vs.
Variables (maxWork : Z) (party : Party) (minRooms maxRooms : Z).

Abbreviation wanted p := (plan_for candidates party minRooms maxRooms p).

(** ** Parts of a plan *)

Lemma restrict_all p : Forall (choice_ok candidates) p -> restrict (concat vs) p = p.
Proof using types_grouped.
  intros Hc. unfold restrict. induction Hc as [|c p [Hin Hu _ _] _ IH]; [done|].
  rewrite filter_cons_True, IH; [done|].
  destruct (gr_all _ _ types_grouped _ Hin Hu) as (offers & Ho & Hco). unfold same_type_as, choice_type.
  apply list_elem_of_fmap. exists (fst c). split; [done|]. apply list_elem_of_In, in_concat.
  exists offers. by split; apply list_elem_of_In.
Qed.

Lemma restrict_split os p : p ≡ₚ restrict os p ++ filter (fun c => ~ same_type_as os c) p.
Proof. unfold restrict. symmetry. apply filter_app_complement. Qed.

(** A part of a plan costs, needs and groups no more than the plan. *)
Lemma restrict_sum f os p : Forall (fun c => 0 <= f c) p -> sum_over f (restrict os p) <= sum_over f p.
Proof.
  intros Hf. rewrite (restrict_split os p) at 2. rewrite sum_over_app.
  pose proof (sum_over_nonneg f (filter (fun c => ~ same_type_as os c) p)) as H.
  enough (0 <= sum_over f (filter (fun c => ~ same_type_as os c) p)) by lia. apply H.
  apply Forall_forall. intros c [_ Hc]%list_elem_of_filter. rewrite Forall_forall in Hf. by apply Hf.
Qed.

Lemma restrict_ext os os' p :
  (forall c, c ∈ p -> same_type_as os c <-> same_type_as os' c) -> restrict os p = restrict os' p.
Proof.
  unfold restrict. induction p as [|c p IH]; intros H; [done|]. rewrite !filter_cons.
  rewrite IH by (intros x Hx; apply H; by right). pose proof (H c ltac:(by left)).
  repeat case_decide; tauto || done.
Qed.

Lemma same_type_app os os' c : same_type_as (os ++ os') c <-> same_type_as os c \/ same_type_as os' c.
Proof. unfold same_type_as. by rewrite fmap_app, elem_of_app. Qed.

Lemma concat_snoc before offers : concat (before ++ [offers]) = concat before ++ offers :> list RoomCombinationCandidate.
Proof. rewrite concat_app. cbn. by rewrite app_nil_r. Qed.

(** At the next room type the part grows by the plan's choice of it, if any. *)
Lemma restrict_grow before offers rest p : vs = before ++ offers :: rest -> plan_ok candidates p ->
  restrict (concat (before ++ [offers])) p = restrict (concat before) p \/
  exists c, c ∈ p /\ fst c ∈ offers /\ ~ same_type_as (concat before) c /\
    restrict (concat (before ++ [offers])) p ≡ₚ restrict (concat before) p ++ [c].
Proof using types_grouped.
  intros Hvs [Hc Ht _ _ _]. assert (Hov : offers ∈ vs) by (rewrite Hvs; set_solver). rewrite concat_snoc.
  destruct (decide (Exists (same_type_as offers) p)) as [Hex|Hno].
  - right. apply Exists_exists in Hex as (c & Hin & Hct). pose proof Hct as (o & Eo & Ho)%list_elem_of_fmap.
    rewrite Forall_forall in Hc. destruct (Hc c Hin) as [Hcand Hu _ _].
    assert (Hco : fst c ∈ offers) by (by eapply (gr_whole _ _ types_grouped offers o)).
    assert (Hnew : ~ same_type_as (concat before) c).
    { intros (o' & Eo' & Ho')%list_elem_of_fmap.
      by apply (gr_apart _ _ types_grouped before offers rest (fst c) o' Hvs Hco Ho'). }
    exists c. split_and!; try done. apply elem_of_Permutation in Hin as [p' Hp].
    rewrite Hp in Ht. cbn in Ht. apply NoDup_cons in Ht as [Hfresh _]. unfold restrict. rewrite Hp.
    rewrite filter_cons_True by (apply same_type_app; by right). rewrite filter_cons_False by done.
    fold (restrict (concat before ++ offers) p'). fold (restrict (concat before) p').
    rewrite (restrict_ext (concat before ++ offers) (concat before)); [by rewrite Permutation_app_comm|].
    intros x Hx. rewrite same_type_app. split; [|by left]. intros [?|(o' & Ex & Ho')%list_elem_of_fmap]; [done|].
    exfalso. apply Hfresh, list_elem_of_fmap. exists x. split; [|done]. rewrite Ex, Eo.
    by apply (gr_same _ _ types_grouped offers).
  - left. apply restrict_ext. intros c Hin. rewrite same_type_app. split; [|by left].
    intros [?|?]; [done|]. exfalso. apply Hno, Exists_exists. by exists c.
Qed.

(** ** One room type *)

Lemma plan_choice_figures p c : wanted p -> c ∈ p -> choice_ok candidates c.
Proof. intros [[Hc _ _ _ _] _ _ _] Hin. rewrite Forall_forall in Hc. by apply Hc. Qed.

Lemma plan_nonneg p : Forall (choice_ok candidates) p ->
  Forall (fun c => 0 <= choice_adults c) p /\ Forall (fun c => 0 <= choice_children c) p /\
  Forall (fun c => 0 <= choice_rooms c) p /\ Forall (fun c => 0 <= choice_price c) p.
Proof.
  intros Hc. split_and!; (eapply Forall_impl; [exact Hc|]; intros c Hok;
    pose proof (choice_figures _ _ Hok); destruct Hok as [_ Hu Hr _]; apply usable_spec in Hu as (_ & _ & Hp & _);
    unfold choice_price; nia).
Qed.

(** The trial that takes the plan's next choice *)
Lemma plan_trial p before offers rest c s : vs = before ++ offers :: rest -> wanted p -> c ∈ p ->
  restrict (concat (before ++ [offers])) p ≡ₚ restrict (concat before) p ++ [c] ->
  matches s (restrict (concat before) p) ->
  exists guests, trial party maxRooms s (fst c) (choice_rooms c) (choice_adults c) (choice_children c) guests.
Proof.
  intros Hvs Hw Hin Hgrow Hm. pose proof (plan_choice_figures _ _ Hw Hin) as Hok.
  destruct Hw as [[Hc Ht Hg [cur Hcur] [m Hmeth]] Ha Hch Hr].
  destruct (plan_nonneg p Hc) as (Na & Nc & Nr & _).
  assert (Hsum : forall f, Forall (fun c => 0 <= f c) p -> sum_over f (restrict (concat before) p) + f c <= sum_over f p).
  { intros f Hf. rewrite <- sum_over_one, <- sum_over_app, <- Hgrow. by apply restrict_sum. }
  pose proof (Hsum _ Na) as Sa. pose proof (Hsum _ Nc) as Sc. pose proof (Hsum _ Nr) as Sr.
  rewrite <- (mt_adults _ _ Hm) in Sa. rewrite <- (mt_children _ _ Hm) in Sc. rewrite <- (mt_rooms _ _ Hm) in Sr.
  pose proof (choice_figures _ _ Hok) as (F1 & F2 & F3). pose proof (choice_allocation _ _ Hok) as Hal.
  destruct Hok as [Hcand Hu Hrooms _]. pose proof (usable_spec _ Hu) as (Hlim & _).
  pose proof (allocate_cases _ Hlim (choice_rooms c) (choice_adults c) (choice_children c) ltac:(lia) ltac:(lia)) as Hal'.
  destruct (allocate _ _ _ _) as [guests|] eqn:Eg; [|by destruct (Hal' _ Hal)]. exists guests.
  rewrite Forall_forall in Hcur, Hmeth.
  assert (Hpart : forall x, x ∈ restrict (concat before) p -> x ∈ p) by (by intros x [_ ?]%list_elem_of_filter).
  split; try lia; try done.
  - destruct (restrict (concat before) p) as [|x q] eqn:E; [left; by apply (mt_currency _ _ Hm)|]. right.
    destruct (mt_currency _ _ Hm) as [_ Hcs]. apply Forall_cons in Hcs as [-> _].
    rewrite (Hcur c Hin). apply Hcur, Hpart. by left.
  - apply Forall_forall. intros g Hgc Hgs. rewrite (mt_groups _ _ Hm) in Hgs.
    rewrite (restrict_split (concat (before ++ [offers])) p), Hgrow in Hg. unfold plan_groups in Hg.
    rewrite !fmap_app, !concat_app in Hg. apply NoDup_app in Hg as [Hg _]. apply NoDup_app in Hg as (_ & Hg & _).
    apply (Hg g Hgs). cbn. by rewrite app_nil_r.
  - intros He. destruct (common_methods_spec s (fst c)) as (_ & _ & Hx). rewrite He in Hx.
    apply (elem_of_nil m), Hx. split; [by apply Hmeth|].
    destruct (decide (restrict (concat before) p = [])) as [Hnil|Hne].
    + left. pose proof (mt_lines _ _ Hm) as Hl. rewrite Hnil in Hl. cbn in Hl. apply length_zero_iff_nil. lia.
    + right. apply (mt_methods _ _ Hm). split; [done|]. apply Forall_forall. intros x Hx'. by apply Hmeth, Hpart.
Qed.
(** ** The whole program *)

Record program_ok (before : list (list RoomCombinationCandidate)) (states : list (string * State)) : Prop := {
  pg_keys : keys_ok states;
  pg_sound : Forall (fun ks => sound_state candidates maxRooms before (snd ks)) states;
  pg_covers : forall p, wanted p -> covers states (restrict (concat before) p)
}.

Lemma kept_keys s offer : kept_for party maxRooms s keys_ok offer.
Proof. intros next q a c guests _ Hk. by apply keep_better_Forall. Qed.

Lemma kept_covers s offer p : kept_for party maxRooms s (fun n => keys_ok n /\ covers n p) offer.
Proof.
  intros next q a c guests Ht [Hk Hc]. split; [by eapply kept_keys | by apply keep_better_covers].
Qed.

Lemma extend_type_keeps (R : list (string * State) -> Prop) offers states work states' work' :
  (forall s, s ∈ map_values states -> Forall (kept_for party maxRooms s R) offers) -> R states ->
  extend_type maxWork party maxRooms states offers work = Some (states', work') -> R states'.
Proof.
  intros HR Hs. apply for_each_inv; [|done]. intros acc s w acc' w' Hin. apply extend_state_inv. by apply HR.
Qed.

Lemma covers_values m p : covers m p ->
  exists s, s ∈ map_values m /\ matches s p /\ totalMinor s <= sum_over choice_price p.
Proof.
  intros (s & Hin & _ & Hm & Ht). exists s. split; [|done]. apply list_elem_of_fmap. by exists (key s, s).
Qed.

Lemma extend_type_covers before offers rest states work states' work' p : vs = before ++ offers :: rest ->
  keys_ok states -> wanted p -> covers states (restrict (concat before) p) ->
  extend_type maxWork party maxRooms states offers work = Some (states', work') ->
  covers states' (restrict (concat (before ++ [offers])) p).
Proof using types_grouped.
  intros Hvs Hk Hp Hc Hrun.
  destruct (restrict_grow before offers rest p Hvs (pf_ok _ _ _ _ _ Hp)) as [->|(c & Hin & Hco & Hnew & Hgrow)].
  - apply (extend_type_keeps (fun n => keys_ok n /\ covers n (restrict (concat before) p))) in Hrun; [tauto| |done].
    intros s _. apply Forall_forall. intros o _. apply kept_covers.
  - apply covers_values in Hc as (s & Hs & Hm & Ht).
    destruct (plan_trial p before offers rest c s Hvs Hp Hin Hgrow Hm) as [guests Htr].
    set (target := restrict (concat (before ++ [offers])) p) in *. revert Hrun.
    assert (Hkeys : forall y, Forall (kept_for party maxRooms y keys_ok) offers).
    { intros y. apply Forall_forall. intros o _. apply kept_keys. }
    assert (Hcov : forall y, Forall (kept_for party maxRooms y (fun n => keys_ok n /\ covers n target)) offers).
    { intros y. apply Forall_forall. intros o _. apply kept_covers. }
    apply (for_each_reach _ keys_ok (fun n => covers n target) _ s); [done|done|..].
    + intros acc y w acc' w' _. by apply extend_state_inv.
    + intros acc w acc' w' Hacc.
      apply (extend_state_reach maxWork party maxRooms s keys_ok (fun n => covers n target) offers (fst c)
        (choice_rooms c) (choice_adults c) (choice_children c) guests); try done.
      intros n Hn. apply keep_better_new; [done| |].
      * apply (matches_perm _ (restrict (concat before) p ++ [c])); [by rewrite Hgrow|]. destruct c as [offer gs]. cbn [fst] in *.
        destruct Hp as [Hok _ _ _]. apply propose_matches; try done; [|exact (tr_currency _ _ _ _ _ _ _ _ Htr)].
        intros He. destruct (restrict (concat before) p) as [|x q] eqn:E; [done|]. exfalso.
        destruct (mt_currency _ _ Hm) as [_ Hcs]. apply Forall_cons in Hcs as [Hcs _].
        apply (plan_currency candidates p x Hok); [|congruence].
        assert (Hx : x ∈ restrict (concat before) p) by (rewrite E; by left).
        by apply list_elem_of_filter in Hx as [_ Hx].
      * rewrite Hgrow, sum_over_app, sum_over_one. cbn [proposed propose totalMinor].
        unfold choice_price at 2. lia.
    + intros acc y w acc' w' _ Hacc Hq Hrun.
      assert (keys_ok acc' /\ covers acc' target); [|tauto].
      by eapply (extend_state_inv maxWork party maxRooms y (fun n => keys_ok n /\ covers n target)).
Qed.

Lemma extend_type_ok before offers rest states work states' work' : vs = before ++ offers :: rest ->
  program_ok before states -> extend_type maxWork party maxRooms states offers work = Some (states', work') ->
  program_ok (before ++ [offers]) states'.
Proof using types_grouped.
  intros Hvs [Hk Hs Hc] Hrun. split.
  - eapply extend_type_keeps; [|exact Hk | exact Hrun]. intros s _. apply Forall_forall. intros o _. apply kept_keys.
  - eapply (extend_type_keeps (Forall (fun ks => sound_state candidates maxRooms (before ++ [offers]) (snd ks))));
      [| |exact Hrun].
    + intros s Hin. apply Forall_forall. intros o Ho next q a c guests Htr Hn. apply keep_better_Forall; [done|].
      cbn [snd]. apply (sound_proposed candidates vs types_grouped party maxRooms before offers rest); try done.
      rewrite Forall_forall in Hs. apply list_elem_of_fmap in Hin as (ks & -> & Hin). by apply Hs.
    + eapply Forall_impl; [exact Hs|]. intros ks Hks. by apply sound_more.
  - intros p Hp. by eapply extend_type_covers; eauto.
Qed.

Lemma program_start : program_ok [] [(key empty_state, empty_state)].
Proof.
  split.
  - by apply Forall_singleton.
  - apply Forall_singleton. exists []. split; try done; [apply matches_empty| |cbn; lia].
    split; try constructor; [exists ""; constructor | exists ""; constructor].
  - intros p _. exists empty_state. assert (E : restrict (concat []) p = []).
    { clear. unfold restrict. induction p as [|c p IH]; [done|]. rewrite filter_cons_False; [done|].
      intros Hc. by apply elem_of_nil in Hc. }
    rewrite E. split_and!; [by left | cbn; by rewrite String.eqb_refl | apply matches_empty | done].
Qed.

Lemma program_end work states work' :
  for_each (extend_type maxWork party maxRooms) vs [(key empty_state, empty_state)] work = Some (states, work') ->
  program_ok vs states.
Proof using types_grouped.
  intros Hrun. eapply (for_each_prefix _ program_ok vs []); [| apply program_start | exact Hrun].
  intros seen x rest acc w acc' w' Heq. by apply (extend_type_ok seen x rest).
Qed.
End Cover.
