(* ===== verification/CombinationGuarantees.v ===== *)
(** * What a room combination search answers

    The offers are grouped by room type, the selections of one room type are all
    tried, and the results are ordered: every option is a plan of the party, no
    option means no plan, and the first option is a cheapest one. *)

From S2P Require Import Prelude JsValue JsonText RoomSelection RoomCombination CombinationAllocation CombinationPlans CombinationStates.

(** ** Grouping the offers *)

Record collected (seen : list RoomCombinationCandidate) (types : Types) : Prop := {
  co_keys : NoDup types.*1;
  co_offers : Forall (fun t => snd t <> [] /\
                Forall (fun o => o ∈ seen /\ usable o = true /\ candidateRoomTypeId o = fst t) (snd t)) types;
  co_all : forall c, c ∈ seen -> usable c = true ->
    exists offers, map_get types (candidateRoomTypeId c) = Some offers /\ c ∈ offers
}.

Lemma collected_step maxWork seen x types work types' work' : collected seen types ->
  collect maxWork types x work = Some (types', work') -> collected (seen ++ [x]) types'.
Proof.
  intros [Hn Ho Ha] H. apply tick_Some in H. injection H as <- <-.
  assert (Ho' : Forall (fun t => snd t <> [] /\ Forall (fun o => o ∈ seen ++ [x] /\ usable o = true /\
                  candidateRoomTypeId o = fst t) (snd t)) types).
  { eapply Forall_impl; [exact Ho|]. intros t [Hne Ht]. split; [done|]. eapply Forall_impl; [exact Ht|].
    intros o (Hin & ? & ?). split_and!; try done. apply elem_of_app. by left. }
  destruct (usable x) eqn:Eu.
  - split; [by apply map_set_NoDup| |].
    + apply Forall_map_set; [done|]. cbn [fst snd]. split; [by destruct (default _ _)|]. apply Forall_app. split.
      * destruct (map_get types (candidateRoomTypeId x)) as [offers|] eqn:E; [|constructor].
        apply map_get_elem in E. rewrite Forall_forall in Ho'. by apply (Ho' _ E).
      * apply Forall_singleton. split_and!; try done. apply elem_of_app. right. by left.
    + intros c Hc Hu. rewrite map_get_set. destruct (String.eqb_spec (candidateRoomTypeId x) (candidateRoomTypeId c)) as [E|E].
      * eexists. split; [reflexivity|]. apply elem_of_app. apply elem_of_app in Hc as [Hc|Hc]; [|by right].
        left. destruct (Ha c Hc Hu) as (offers & Hg & Hin). by rewrite E, Hg.
      * apply elem_of_app in Hc as [Hc| ->%list_elem_of_singleton]; [by apply Ha | done].
  - split; [done..|]. intros c Hc Hu. apply elem_of_app in Hc as [Hc| ->%list_elem_of_singleton]; [by apply Ha|congruence].
Qed.

Lemma collect_all maxWork l work types work' :
  for_each (collect maxWork) l [] work = Some (types, work') -> collected l types.
Proof.
  intros H. eapply (for_each_prefix _ collected l []); [| |exact H].
  - intros seen x rest acc w acc' w' _. apply collected_step.
  - split; [apply NoDup_nil_2|constructor|]. intros c Hc. by apply elem_of_nil in Hc.
Qed.

Lemma collected_grouped candidates l types : l ≡ₚ candidates -> collected l types ->
  grouped candidates (map_values types).
Proof.
  intros Hl [Hn Ho Ha]. rewrite Forall_forall in Ho.
  assert (Hval : forall offers, offers ∈ map_values types -> exists t, (t, offers) ∈ types /\
            forall o, o ∈ offers -> o ∈ l /\ usable o = true /\ candidateRoomTypeId o = t).
  { intros offers (tv & -> & Hin)%list_elem_of_fmap. destruct tv as [t offers]. exists t. split; [done|].
    destruct (Ho _ Hin) as [_ Hf]. rewrite Forall_forall in Hf. exact Hf. }
  split.
  - intros offers o Hin Hoo. destruct (Hval _ Hin) as (t & _ & Hf). destruct (Hf o Hoo) as (? & ? & _). by rewrite <- Hl.
  - intros offers o c Hin Hoo Hc Hu E. destruct (Hval _ Hin) as (t & Ht & Hf). destruct (Hf o Hoo) as (_ & _ & Et).
    rewrite <- Hl in Hc. destruct (Ha c Hc Hu) as (offers' & Hg & Hin'). rewrite E, Et in Hg.
    apply (map_get_spec types t offers Hn) in Ht. congruence.
  - intros offers o o' Hin Hoo Hoo'. destruct (Hval _ Hin) as (t & _ & Hf).
    destruct (Hf o Hoo) as (_ & _ & ->), (Hf o' Hoo') as (_ & _ & ->). done.
  - intros before offers rest o o' Hvs Hoo Ho' E. unfold map_values in Hvs.
    apply fmap_app_inv in Hvs as (t1 & t2 & -> & E2 & ->). symmetry in E2.
    apply fmap_cons_inv in E2 as ([t os] & t3 & -> & -> & ->). cbn [snd] in Hoo.
    apply list_elem_of_In, in_concat in Ho' as (os' & Hos' & Ho'). apply list_elem_of_In in Hos', Ho'.
    apply list_elem_of_fmap in Hos' as ([t' os''] & -> & Hin'). cbn [snd] in Ho'.
    destruct (Ho (t, os)) as [_ Hf]; [apply elem_of_app; right; by left|].
    destruct (Ho (t', os'')) as [_ Hf']; [apply elem_of_app; by left|]. rewrite Forall_forall in Hf, Hf'.
    destruct (Hf o Hoo) as (_ & _ & Et), (Hf' o' Ho') as (_ & _ & Et'). cbn [fst] in Et, Et'.
    rewrite fmap_app in Hn. apply NoDup_app in Hn as (_ & Hn & _). apply (Hn t').
    + apply list_elem_of_fmap. by exists (t', os'').
    + rewrite <- Et', <- E, Et. cbn. by left.
  - intros c Hc Hu. rewrite <- Hl in Hc. destruct (Ha c Hc Hu) as (offers & Hg & Hin). exists offers. split; [|done].
    apply list_elem_of_fmap. exists (candidateRoomTypeId c, offers). split; [done | by apply map_get_elem].
Qed.

(** ** Selections of one room type *)

Lemma for_each_append {A B} (body : list B -> A -> counted (list B)) (f : A -> list B) l :
  (forall acc x work r work', body acc x work = Some (r, work') -> r = acc ++ f x) ->
  forall acc work r work', for_each body l acc work = Some (r, work') -> r = acc ++ concat (f <$> l).
Proof.
  intros Hb. induction l as [|x l IH]; intros acc work r work'; cbn [for_each fmap list_fmap concat].
  - intros [= <- <-]. by rewrite app_nil_r.
  - destruct (body acc x work) as [[acc1 w1]|] eqn:E; [|done]. apply Hb in E as ->. intros ->%IH.
    by rewrite <- app_assoc.
Qed.

Section Singles.
Variables (maxWork : Z) (party : Party) (minRooms maxRooms : Z).

Definition singles_for (offer : RoomCombinationCandidate) : list State :=
  concat ((fun q => match allocate (limits offer) q (partyAdults party) (partyChildren party) with
                    | Some guests => [single_state party offer q guests]
                    | None => []
                    end)
    <$> through minRooms (Z.min (availableRooms (limits offer)) (Z.min (partyAdults party) maxRooms))).

Lemma all_singles_value types work singles work' :
  all_singles maxWork party minRooms maxRooms types work = Some (singles, work') ->
  singles = concat (singles_for <$> concat (map_values types)).
Proof.
  intros H. apply (for_each_append _ (fun offers => concat (singles_for <$> offers))) in H.
  - rewrite H. clear H. cbn [app]. induction (map_values types) as [|offers l IH]; [done|].
    cbn [fmap list_fmap concat]. rewrite fmap_app, concat_app. f_equal. exact IH.
  - intros acc offers w r w' Ho. apply (for_each_append _ singles_for) in Ho; [done|].
    intros acc1 offer w1 r1 w2 H1. unfold singles_for. eapply for_each_append; [|exact H1].
    intros acc2 q w3 r2 w4 H2. apply tick_Some in H2. injection H2 as <- <-.
    destruct (allocate _ _ _ _); [done | by rewrite app_nil_r].
Qed.

Lemma elem_of_singles s offers : s ∈ concat (singles_for <$> offers) <->
  exists offer q guests, offer ∈ offers /\
    minRooms <= q <= Z.min (availableRooms (limits offer)) (Z.min (partyAdults party) maxRooms) /\
    allocate (limits offer) q (partyAdults party) (partyChildren party) = Some guests /\
    s = single_state party offer q guests.
Proof.
  assert (Hone : forall offer, s ∈ singles_for offer <-> exists q guests,
    minRooms <= q <= Z.min (availableRooms (limits offer)) (Z.min (partyAdults party) maxRooms) /\
    allocate (limits offer) q (partyAdults party) (partyChildren party) = Some guests /\
    s = single_state party offer q guests).
  { intros offer. unfold singles_for. rewrite list_elem_of_In, in_concat. split.
    - intros (l & Hl & Hs). apply list_elem_of_In, list_elem_of_fmap in Hl as (q & -> & Hq%elem_of_through).
      destruct (allocate _ _ _ _) as [guests|] eqn:E; [|done]. destruct Hs as [<-|[]]. by exists q, guests.
    - intros (q & guests & Hq & Ha & ->). eexists. split; [apply list_elem_of_In, list_elem_of_fmap;
        exists q; split; [reflexivity | by apply elem_of_through]|]. cbn beta. rewrite Ha. by left. }
  rewrite list_elem_of_In, in_concat. split.
  - intros (l & Hl & Hs). apply list_elem_of_In, list_elem_of_fmap in Hl as (offer & -> & Ho).
    apply list_elem_of_In, Hone in Hs as (q & guests & H). by exists offer, q, guests.
  - intros (offer & q & guests & Ho & H). exists (singles_for offer). split; apply list_elem_of_In.
    + apply list_elem_of_fmap. by exists offer.
    + apply Hone. by exists q, guests.
Qed.
End Singles.

(** ** Options *)

Lemma rank_cases a b : rank a b <= 0 <->
  totalMinor a < totalMinor b \/
  (totalMinor a = totalMinor b /\
    (rooms a < rooms b \/ (rooms a = rooms b /\ str_le (lines_text a) (lines_text b) = true))).
Proof.
  rewrite <- compare_le. unfold rank, or_else.
  destruct (Z.ltb_spec (totalMinor a) (totalMinor b)); [cbn; lia|].
  destruct (Z.ltb_spec (totalMinor b) (totalMinor a)); [cbn; lia|]. cbn.
  destruct (Z.eqb_spec (rooms a - rooms b) 0); lia.
Qed.

Lemma ranked l : StronglySorted (fun a b => rank a b <= 0) (sort_by rank l).
Proof.
  apply sort_by_sorted.
  - intros a b H. apply rank_cases. assert (Hn : ~ rank a b <= 0) by lia. rewrite rank_cases in Hn.
    destruct (Z.lt_trichotomy (totalMinor a) (totalMinor b)) as [?|[?|?]]; [tauto| |tauto].
    right. split; [done|]. destruct (Z.lt_trichotomy (rooms a) (rooms b)) as [?|[?|?]]; [tauto| |by left].
    right. split; [done|]. apply str_le_total. apply not_true_iff_false. tauto.
  - intros a b c. rewrite !rank_cases. intros [?|[E1 H1]] [?|[E2 H2]]; [lia..|]. right. split; [lia|].
    destruct H1 as [?|[E3 H3]], H2 as [?|[E4 H4]]; [lia..|]. right. split; [lia|].
    exact (str_le_transitive _ _ _ H3 H4).
Qed.

Lemma result_first states n : 1 <= n ->
  match options (result_of states n) with
  | [] => states = []
  | o :: _ => exists s, s ∈ states /\ o = option_of s /\ forall s', s' ∈ states -> totalMinor s <= totalMinor s'
  end.
Proof.
  intros Hn. unfold result_of. cbn [options]. pose proof (ranked states) as Hs.
  pose proof (sort_by_perm rank states) as Hp. destruct (sort_by rank states) as [|s l].
  - rewrite take_nil. cbn. by apply Permutation_nil_l in Hp.
  - destruct (Z.to_nat n) as [|k] eqn:E; [lia|]. cbn. exists s. split_and!; [rewrite <- Hp; by left | done|].
    intros s' Hs'. rewrite <- Hp in Hs'. apply elem_of_cons in Hs' as [->|Hs']; [lia|].
    apply StronglySorted_inv in Hs as [_ Hs]. rewrite Forall_forall in Hs. apply rank_total. by apply Hs.
Qed.

Lemma result_options states n o : o ∈ options (result_of states n) -> exists s, s ∈ states /\ o = option_of s.
Proof.
  unfold result_of. cbn [options]. intros (s & -> & Hs)%list_elem_of_fmap. exists s. split; [|done].
  apply (elem_of_sort_by rank s states). revert Hs. apply subseteq_take.
Qed.

(** An option is a plan of the party, its price and what every line accepts. *)
Record option_for (candidates : list RoomCombinationCandidate) (party : Party) (minRooms maxRooms : Z)
    (o : RoomCombinationOption) (p : list Choice) : Prop := {
  op_plan : plan_for candidates party minRooms maxRooms p;
  op_lines : lines (selection o) = plan_lines p;
  op_total : optionTotalMinor o = sum_over choice_price p;
  op_currency : Forall (fun c => candidateCurrency (fst c) = optionCurrency o) p;
  op_methods : forall m, m ∈ optionMethods o <-> Forall (fun c => m ∈ candidateMethods (fst c)) p;
  op_payable : optionMethods o <> []
}.

Section Answer.
Variables (maxWork : Z) (party : Party) (minRooms maxRooms : Z) (candidates : list RoomCombinationCandidate).
Hypothesis adults_come : 1 <= partyAdults party.
Hypothesis children_come : 0 <= partyChildren party.
Hypothesis rooms_range : 1 <= minRooms <= maxRooms.

Abbreviation wanted := (plan_for candidates party minRooms maxRooms).
Abbreviation offered := (option_for candidates party minRooms maxRooms).

Lemma single_plan offer q guests : offer ∈ candidates -> usable offer = true ->
  minRooms <= q <= Z.min (availableRooms (limits offer)) (Z.min (partyAdults party) maxRooms) ->
  allocate (limits offer) q (partyAdults party) (partyChildren party) = Some guests ->
  offered (option_of (single_state party offer q guests)) [(offer, guests)].
Proof using adults_come children_come rooms_range.
  intros Hin Hu Hq Ha. pose proof (usable_spec _ Hu) as (Hl & _ & _ & _ & Hm).
  pose proof (allocate_cases _ Hl q (partyAdults party) (partyChildren party) ltac:(lia) children_come) as Hal.
  rewrite Ha in Hal. destruct Hal as [A1 A2 A3 A4].
  destruct (first_occurrences_spec (candidateMethods offer) []) as [_ Hx].
  assert (Hmem : forall m, m ∈ paymentMethods (single_state party offer q guests) <-> m ∈ candidateMethods offer).
  { intros m. cbn. rewrite elem_of_stable_sort, Hx. split; [tauto | intros ?; split; [done | apply not_elem_of_nil]]. }
  assert (Hcr : choice_rooms (offer, guests) = q) by done.
  split.
  - split; rewrite ?sum_over_one; try done; [|unfold choice_rooms; cbn [snd]; lia]. split.
    + apply Forall_singleton. split; try done. unfold choice_rooms. cbn [fst snd]. lia.
    + apply NoDup_singleton.
    + unfold plan_groups. cbn. rewrite app_nil_r. unfold group_of.
      destruct (linkedGroupId offer) as [g|]; [destruct (String.eqb g "")|]; first [apply NoDup_nil_2|apply NoDup_singleton].
    + exists (candidateCurrency offer). by apply Forall_singleton.
    + destruct (candidateMethods offer) as [|m ms] eqn:E; [done|]. exists m. apply Forall_singleton. cbn. rewrite E. by left.
  - done.
  - rewrite sum_over_one. unfold choice_price. by rewrite Hcr.
  - by apply Forall_singleton.
  - intros m. rewrite Forall_singleton. cbn [option_of optionMethods fst]. apply Hmem.
  - destruct (candidateMethods offer) as [|m ms] eqn:E; [done|]. intros He. cbn [option_of optionMethods] in He.
    apply (elem_of_nil m). rewrite <- He. apply Hmem. try rewrite E. by left.
Qed.

Lemma state_option before s p : stands_for candidates maxRooms before s p -> feasible party minRooms s = true ->
  offered (option_of s) p.
Proof using adults_come rooms_range.
  intros [Hm Hl Ht Hok _ Hr] Hf. unfold feasible in Hf.
  rewrite !andb_true_iff, !Z.eqb_eq, Z.leb_le in Hf. destruct Hf as [[Hfa Hfc] Hfr].
  assert (Hne : p <> []).
  { intros ->. pose proof (mt_adults _ _ Hm) as Ha. cbn in Ha. lia. }
  assert (Hmem : forall m, m ∈ paymentMethods s <-> Forall (fun c => m ∈ candidateMethods (fst c)) p).
  { intros m. rewrite (mt_methods _ _ Hm). tauto. }
  split; try done.
  - split; [done | by rewrite <- (mt_adults _ _ Hm) | by rewrite <- (mt_children _ _ Hm)|].
    rewrite <- (mt_rooms _ _ Hm). lia.
  - destruct (mt_currency _ _ Hm) as [_ Hc]. eapply Forall_impl; [exact Hc | intros c Hcc; by rewrite <- Hcc].
  - intros He. cbn [option_of optionMethods] in He. destruct (pl_methods _ _ Hok) as [m Hm'].
    apply (elem_of_nil m). rewrite <- He. by apply Hmem.
Qed.
(** The answer a finished search owes *)
Record answers (r : SearchResult) : Prop := {
  an_complete : complete r = true;
  an_sound : forall o, o ∈ options r -> exists p, offered o p;
  an_none : options r = [] -> forall p, ~ wanted p;
  an_first : forall o rest p, options r = o :: rest -> wanted p ->
    length p = 1%nat \/ (forall p', wanted p' -> length p' <> 1%nat) ->
    optionTotalMinor o <= sum_over choice_price p;
  an_single : forall o p, o ∈ options r -> wanted p -> length p = 1%nat -> length (lines (selection o)) = 1%nat
}.

Section Grouped.
Variable vs : list (list RoomCombinationCandidate).
Hypothesis types_grouped : grouped candidates vs.

Lemma in_groups offer : offer ∈ concat vs -> offer ∈ candidates /\ usable offer = true.
Proof using types_grouped.
  intros (l & Hl & Ho)%list_elem_of_In%in_concat. apply list_elem_of_In in Hl, Ho.
  by apply (gr_offers _ _ types_grouped l).
Qed.

Lemma single_listed p : wanted p -> length p = 1%nat ->
  exists s, s ∈ concat (singles_for party minRooms maxRooms <$> concat vs) /\ totalMinor s = sum_over choice_price p.
Proof using types_grouped children_come.
  intros [[Hc _ _ _ _] Ha Hch Hr] Hlen. destruct p as [|c [|]]; [done| |done].
  rewrite !sum_over_one in *. apply Forall_cons in Hc as [Hc _].
  pose proof (choice_figures _ _ Hc) as (F1 & F2 & F3). pose proof (choice_allocation _ _ Hc) as Hal.
  destruct Hc as [Hin Hu Hrooms _]. pose proof (usable_spec _ Hu) as (Hl & _).
  destruct (gr_all _ _ types_grouped _ Hin Hu) as (offers & Ho & Hco).
  pose proof (allocate_cases _ Hl (choice_rooms c) (choice_adults c) (choice_children c) ltac:(lia) ltac:(lia)) as Hd.
  destruct (allocate _ _ _ _) as [guests|] eqn:E; [|by destruct (Hd _ Hal)].
  exists (single_state party (fst c) (choice_rooms c) guests). split; [|done]. apply elem_of_singles.
  exists (fst c), (choice_rooms c), guests. rewrite <- Ha, <- Hch. split_and!; try done; try lia.
  apply list_elem_of_In, in_concat. exists offers. by split; apply list_elem_of_In.
Qed.

Lemma singles_answer n : 1 <= n -> concat (singles_for party minRooms maxRooms <$> concat vs) <> [] ->
  answers (result_of (concat (singles_for party minRooms maxRooms <$> concat vs)) n).
Proof using types_grouped adults_come children_come rooms_range.
  set (singles := concat _). intros Hn Hne.
  assert (Hsingle : forall s, s ∈ singles -> exists c, offered (option_of s) [c]).
  { intros s (offer & q & guests & Ho & Hq & Ha & ->)%elem_of_singles.
    destruct (in_groups offer Ho) as [Hin Hu]. exists (offer, guests). by apply single_plan. }
  pose proof (result_first singles n Hn) as Hf. split.
  - done.
  - intros o (s & Hs & ->)%result_options. destruct (Hsingle s Hs) as [c Hc]. by exists [c].
  - intros E. by rewrite E in Hf.
  - intros o rest p E Hp Hor. rewrite E in Hf. destruct Hf as (s & Hs & -> & Hmin). destruct Hor as [Hl|Hno].
    + destruct (single_listed p Hp Hl) as (s' & Hs' & <-). by apply Hmin.
    + destruct (Hsingle s Hs) as [c Hc]. by destruct (Hno [c] (op_plan _ _ _ _ _ _ Hc)).
  - intros o p (s & Hs & ->)%result_options _ _. destruct (Hsingle s Hs) as [c Hc].
    by rewrite (op_lines _ _ _ _ _ _ Hc).
Qed.

Lemma combined_answer n states : 1 <= n -> program_ok candidates party minRooms maxRooms vs states ->
  concat (singles_for party minRooms maxRooms <$> concat vs) = [] ->
  answers (result_of (List.filter (feasible party minRooms) (map_values states)) n).
Proof using types_grouped adults_come children_come rooms_range.
  intros Hn [_ Hs Hc] Hno. set (found := List.filter _ _).
  assert (Hnone : forall p, wanted p -> length p <> 1%nat).
  { intros p Hp Hl. destruct (single_listed p Hp Hl) as (s & Hin & _). rewrite Hno in Hin. by apply elem_of_nil in Hin. }
  assert (Hplan : forall s, s ∈ found -> exists p, offered (option_of s) p).
  { intros s [Hin Hf]%list_elem_of_In%filter_In. apply list_elem_of_In, list_elem_of_fmap in Hin as (ks & -> & Hin).
    rewrite Forall_forall in Hs. destruct (Hs ks Hin) as [p Hp]. exists p. by eapply state_option. }
  assert (Hcover : forall p, wanted p -> exists s, s ∈ found /\ totalMinor s <= sum_over choice_price p).
  { intros p Hp. specialize (Hc p Hp). rewrite (restrict_all _ _ types_grouped) in Hc by exact (pl_choices _ _ (pf_ok _ _ _ _ _ Hp)).
    apply covers_values in Hc as (s & Hin & Hm & Ht). exists s. split; [|done].
    apply list_elem_of_In, filter_In. split; [by apply list_elem_of_In|]. unfold feasible.
    destruct Hp as [_ Ha Hch Hr]. rewrite (mt_adults _ _ Hm), (mt_children _ _ Hm), (mt_rooms _ _ Hm), Ha, Hch.
    rewrite !Z.eqb_refl. cbn [andb]. apply Z.leb_le. lia. }
  pose proof (result_first found n Hn) as Hf. split.
  - done.
  - intros o (s & Hin & ->)%result_options. by apply Hplan.
  - intros E p Hp. rewrite E in Hf. destruct (Hcover p Hp) as (s & Hin & _). rewrite Hf in Hin. by apply elem_of_nil in Hin.
  - intros o rest p E Hp _. rewrite E in Hf. destruct Hf as (s & _ & -> & Hmin).
    destruct (Hcover p Hp) as (s' & Hin & Ht). specialize (Hmin s' Hin). cbn [option_of optionTotalMinor]. lia.
  - intros o p _ Hp Hl. by destruct (Hnone p Hp Hl).
Qed.
End Grouped.

Lemma search_answer n work r work' : 1 <= n ->
  search maxWork party minRooms maxRooms candidates n work = Some (r, work') -> answers r.
Proof using adults_come children_come rooms_range.
  intros Hn. unfold search. destruct (for_each (collect maxWork) _ [] work) as [[types w1]|] eqn:Et; [|done].
  apply collect_all in Et.
  apply (collected_grouped candidates) in Et; [|apply sort_by_perm].
  destruct (all_singles _ _ _ _ types w1) as [[singles w2]|] eqn:Es; [|done].
  apply all_singles_value in Es. destruct singles as [|s singles].
  - unfold combine. destruct (for_each (extend_type _ _ _) _ _ w2) as [[states w3]|] eqn:Ec; [|done].
    intros [= <- <-]. apply (program_end candidates _ Et maxWork party minRooms maxRooms) in Ec.
    by apply (combined_answer (map_values types)).
  - intros [= <- <-]. rewrite Es. apply (singles_answer (map_values types)); [done..|]. by rewrite <- Es.
Qed.
End Answer.

(** * Room combination searches, seen by their callers

    The guarantees of [searchRoomCombinations] itself, with the limits it
    defaults and checks, and what its budget changes. *)

Definition min_rooms (limits : SearchLimits) : Z := default 1 (limitMinRooms limits).
Definition max_rooms (limits : SearchLimits) : Z := default 99 (limitMaxRooms limits).

Definition incomplete : SearchResult := {| complete := false; options := [] |}.

Lemma valid_party party : unsupported_party party = false ->
  1 <= partyAdults party <= 99 /\ 0 <= partyChildren party <= 99.
Proof. unfold unsupported_party. intros H. bool_to_prop. lia. Qed.

Lemma valid_limits w n lo hi : invalid_limits w n lo hi = false -> 1 <= w /\ 1 <= n /\ 1 <= lo <= hi /\ hi <= 99.
Proof. unfold invalid_limits. intros H. bool_to_prop. lia. Qed.

Lemma complete_answers candidates party limits r : searchRoomCombinations candidates party limits = Ret r ->
  complete r = true -> answers party (min_rooms limits) (max_rooms limits) candidates r.
Proof.
  unfold searchRoomCombinations. destruct (unsupported_party party) eqn:Ep; [done|].
  destruct (invalid_limits _ _ _ _) eqn:El; [done|].
  apply valid_party in Ep. apply valid_limits in El as (_ & Hn & Hr & _).
  destruct (search _ _ _ _ _ _ 0) as [[r' w]|] eqn:E; intros [= <-]; [intros _ | done].
  eapply search_answer; [lia|lia|exact Hr|exact Hn|exact E].
Qed.

Lemma plan_party p : bookingRoomSelectionParty {| lines := plan_lines p |} =
  {| partyAdults := sum_over choice_adults p; partyChildren := sum_over choice_children p;
     partyRooms := sum_over choice_rooms p |}.
Proof.
  rewrite selection_party. cbn [lines].
  assert (E : concat (guests <$> plan_lines p) = concat (snd <$> p)).
  { unfold plan_lines. by rewrite <- list_fmap_compose. }
  rewrite E. clear E. f_equal; (induction p as [|[offer gs] p IH]; [done|]); rewrite fmap_cons; cbn [concat snd].
  - rewrite total_adults_app, IH. done.
  - rewrite total_children_app, IH. done.
  - rewrite length_app, Nat2Z.inj_add, IH. done.
Qed.

Lemma choice_line_fits cs c : choice_ok cs c -> bookingRoomLineFits (line_of (fst c) (snd c)) (limits (fst c)) = true.
Proof.
  intros [_ Hu Hr Hh]. unfold bookingRoomLineFits. rewrite !andb_true_iff, Z.leb_le. split_and!.
  - unfold usable in Hu. rewrite !andb_true_iff in Hu. apply Hu.
  - cbn [line_of guests]. unfold choice_rooms in Hr. lia.
  - apply forallb_forall. intros g Hg%list_elem_of_In. cbn [line_of guests] in Hg. rewrite Forall_forall in Hh.
    destruct (Hh g Hg). unfold guest_fits. rewrite !andb_true_iff, !Z.leb_le. lia.
Qed.

(** C31: every option of a complete room combination search can be booked.  Its
    selection seats exactly the party, with a number of rooms within the limits;
    its lines name distinct room types, each at a usable offer whose stock,
    places and capacity hold it ([bookingRoomLineFits]); its total is the sum of
    the offers' prices in one currency, and every payment method it lists is
    accepted by all of its offers. *)
Theorem combination_options_sound candidates party limits r o :
  searchRoomCombinations candidates party limits = Ret r -> complete r = true -> o ∈ options r ->
  let sum := bookingRoomSelectionParty (selection o) in
  partyAdults sum = partyAdults party /\ partyChildren sum = partyChildren party /\
  min_rooms limits <= partyRooms sum <= max_rooms limits /\
  NoDup (roomTypeId <$> lines (selection o)) /\
  optionMethods o <> [] /\
  exists offers : list RoomCombinationCandidate,
    Forall2 (fun line offer =>
      offer ∈ candidates /\ roomTypeId line = candidateRoomTypeId offer /\
      publicOfferKey line = candidateOfferKey offer /\
      bookingRoomLineFits line (RoomCombination.limits offer) = true /\
      Forall (fun g => 1 <= adults g) (guests line) /\
      candidateCurrency offer = optionCurrency o /\
      forall m, m ∈ optionMethods o -> m ∈ candidateMethods offer) (lines (selection o)) offers /\
    NoDup (concat (group_of <$> offers)) /\
    optionTotalMinor o = foldr Z.add 0 (zip_with (fun line offer =>
      priceMinor offer * Z.of_nat (length (guests line))) (lines (selection o)) offers).
Proof.
  intros Hr Hc Ho. destruct (an_sound _ _ _ _ _ (complete_answers _ _ _ _ Hr Hc) o Ho) as [p [Hp Hl Ht Hcur Hm Hne]].
  destruct o as [[ls] total cur ms]. cbn [selection lines optionTotalMinor optionCurrency optionMethods] in *. subst ls.
  destruct Hp as [[Hch Hty Hg _ _] Ha Hchd Hrooms]. cbv zeta. rewrite plan_party. cbn. split_and!; try done; try lia.
  - unfold plan_lines. by rewrite <- list_fmap_compose.
  - exists (fst <$> p). split_and!.
    + unfold plan_lines. apply Forall2_fmap, Forall_Forall2_diag, Forall_forall. intros c Hin.
      rewrite Forall_forall in Hch, Hcur. pose proof (choice_line_fits _ _ (Hch c Hin)) as Hfit.
      destruct (Hch c Hin) as [Hcand _ _ Hh]. split_and!; try done.
      * cbn. eapply Forall_impl; [exact Hh | by intros g [Hg1 _ _]; lia].
      * by apply Hcur.
      * intros m Hin'. apply Hm in Hin'. rewrite Forall_forall in Hin'. by apply Hin'.
    + unfold plan_groups in Hg. by rewrite <- list_fmap_compose.
    + rewrite Ht. unfold plan_lines. clear. induction p as [|c p IH]; [done|]. cbn in *. by rewrite <- IH.
Qed.

(** C27: a complete room combination search decides and optimises.  It lists no
    option exactly when no plan accommodates the party.  If some plan uses a
    single room type, every option does and the first is a cheapest of these;
    otherwise the first option is a cheapest plan of all. *)
Theorem combination_search_decides candidates party limits r :
  searchRoomCombinations candidates party limits = Ret r -> complete r = true ->
  let wanted := plan_for candidates party (min_rooms limits) (max_rooms limits) in
  (options r = [] <-> forall p, ~ wanted p) /\
  (forall p, wanted p -> length p = 1%nat ->
     Forall (fun o => length (lines (selection o)) = 1%nat) (options r)) /\
  (forall p o rest, wanted p -> options r = o :: rest ->
     length p = 1%nat \/ (forall p', wanted p' -> length p' <> 1%nat) ->
     optionTotalMinor o <= sum_over choice_price p).
Proof.
  intros Hr Hc wanted. destruct (complete_answers _ _ _ _ Hr Hc) as [_ Hs Hn Hf H1]. split_and!.
  - split; [by apply Hn|]. intros Hno. destruct (options r) as [|o rest] eqn:E; [done|]. exfalso.
    destruct (Hs o) as [p Hp]; [by left|]. by apply (Hno p), Hp.
  - intros p Hp Hl. apply Forall_forall. intros o Ho. by eapply H1.
  - intros p o rest Hp E Hor. by eapply Hf.
Qed.

(** ** Budgets *)

Lemma allocation_priced s offer methods q a next c :
  priced (fun mw => try_allocation mw s offer methods q a next c).
Proof. apply (priced_tick (fun _ => done_with _)), priced_done. Qed.

Lemma offer_priced party maxRooms s next offer : priced (fun mw => try_offer mw party maxRooms s next offer).
Proof.
  unfold try_offer. apply priced_tick. destruct (_ && _); [apply priced_done|].
  destruct (existsb _ _); [apply priced_done|].
  destruct (common_methods s offer) as [|m ms] eqn:E; [apply priced_done|].
  apply (priced_for_each (fun mw => try_quantity mw party s offer (m :: ms))). intros n1 q.
  apply (priced_for_each (fun mw => try_adults mw party s offer (m :: ms) q)). intros n2 a.
  apply (priced_for_each (fun mw => try_allocation mw s offer (m :: ms) q a)). intros n3 c.
  apply allocation_priced.
Qed.

Lemma search_priced party minRooms maxRooms candidates n :
  priced (fun mw => search mw party minRooms maxRooms candidates n).
Proof.
  unfold search.
  apply (priced_bind (fun mw => for_each (collect mw) (sort_by compare_candidates candidates) [])
           (fun types mw work => let? (singles, work) := all_singles mw party minRooms maxRooms types work in
              match singles with
              | [] => combine mw party minRooms maxRooms types n work
              | _ :: _ => done_with (result_of singles n) work
              end)).
  - apply (priced_for_each collect). intros types c. apply (priced_tick (fun _ => done_with _)), priced_done.
  - intros types.
    apply (priced_bind (fun mw => all_singles mw party minRooms maxRooms types)
             (fun singles mw work => match singles with
                | [] => combine mw party minRooms maxRooms types n work
                | _ :: _ => done_with (result_of singles n) work end)).
    + apply (priced_for_each (fun mw singles offers => for_each (singles_of mw party minRooms maxRooms) offers singles)).
      intros l1 offers. apply (priced_for_each (fun mw => singles_of mw party minRooms maxRooms)). intros l2 offer.
      apply (priced_for_each (fun mw => try_single mw party offer)). intros l3 q.
      apply (priced_tick (fun _ => done_with _)), priced_done.
    + intros [|s singles]; [|apply priced_done]. unfold combine.
      apply (priced_bind (fun mw => for_each (extend_type mw party maxRooms) (map_values types) [(key empty_state, empty_state)])
               (fun states mw => done_with (result_of (List.filter (feasible party minRooms) (map_values states)) n)));
        [|intros states; apply priced_done].
      apply (priced_for_each (fun mw => extend_type mw party maxRooms)). intros m1 offers.
      apply (priced_for_each (fun mw => extend_state mw party maxRooms offers)). intros m2 s.
      apply (priced_tick (fun mw => for_each (try_offer mw party maxRooms s) offers m2)).
      apply (priced_for_each (fun mw => try_offer mw party maxRooms s)). intros m3 offer. apply offer_priced.
Qed.

(** A budget only decides whether the room combination search completes.
    For given candidates, party and room limits there is one complete result and
    one cost: every budget of at least the cost yields that result, and every
    smaller budget yields the incomplete result without options. *)
Theorem search_budget candidates party minRooms maxRooms maxOptions maxWork :
  unsupported_party party = false -> invalid_limits maxWork maxOptions minRooms maxRooms = false ->
  exists cost result, complete result = true /\ 0 <= cost /\
    forall budget, invalid_limits budget maxOptions minRooms maxRooms = false ->
      searchRoomCombinations candidates party
        {| limitMaxWork := Some budget; limitMaxOptions := Some maxOptions;
           limitMinRooms := Some minRooms; limitMaxRooms := Some maxRooms |} =
      Ret (if budget <? cost then incomplete else result).
Proof.
  intros Hp Hl. destruct (search_priced party minRooms maxRooms candidates maxOptions) as (r & k & Hk & Hs).
  exists k, r. split_and!.
  - apply valid_party in Hp. apply valid_limits in Hl as (_ & Hn & Hr & _).
    assert (E : search k party minRooms maxRooms candidates maxOptions 0 = Some (r, 0 + k)).
    { rewrite Hs by lia. by rewrite Z.ltb_irrefl. }
    eapply search_answer in E; [|lia|lia|exact Hr|exact Hn]. apply E.
  - done.
  - intros budget Hb. unfold searchRoomCombinations. cbn [limitMaxWork limitMaxOptions limitMinRooms limitMaxRooms default].
    rewrite Hp. cbn [from_option id]. rewrite Hb, Hs by (apply valid_limits in Hb; lia).
    rewrite Z.add_0_l. by destruct (budget <? k).
Qed.
