(* ===== verification/RoomAssignment.v ===== *)
(** * Room assignment optimization

    packages/domain-pms/src/roomAssignmentOptimization.ts: packing the stays of
    one room type into its rooms.  Immovable stays keep their room; movable ones
    are placed greedily and, if that fails, by a backtracking search with a node
    budget and a memo of visited states.

    A [RoomSchedule] object is shared by reference between the schedule map and
    the candidates in the source; here the schedules are the state, and a
    candidate names its schedule by the room. *)

From S2P Require Import Prelude JsValue CalendarDates.

(** ** Data *)

Record Room := { roomId : string; sortOrder : Z }.

Record Interval := { checkIn : string; checkOut : string }.

Record Occupancy := {
  occupancyId : string;
  occupancyRoomId : option string;
  stay : Interval;
  movable : bool
}.

(** An occupancy is an interval for the functions that only read its dates. *)
Class AsInterval (A : Type) := as_interval : A -> Interval.
#[export] Instance interval_as_interval : AsInterval Interval := fun i => i.
#[export] Instance occupancy_as_interval : AsInterval Occupancy := stay.

Record Move := { moveOccupancyId : string; fromRoomId : option string; toRoomId : option string }.

Inductive OptimizationResult :=
| Optimized (moves : list Move) (gapNightsBefore gapNightsAfter : Z)
    (usedRoomsBefore usedRoomsAfter : Z)
| Infeasible (unassignedOccupancyIds : list string)
| BudgetExhausted (unassignedOccupancyIds : list string).

Record RoomSchedule := { room : Room; fixed : list Interval; placed : list Occupancy }.

(** A number that may be [Infinity], the gap at an open end *)
Definition gap : Type := option Z.

Record Candidate := {
  candidateRoom : Room;
  empty : Z;
  gapDelta : Z;
  nextGap : gap;
  previousGap : gap;
  occupancyCount : Z
}.

(** ** Dates and intervals *)

Definition validDate (value : string) : bool :=
  match parse_ymd value with
  | Some (y, m, d) => valid_civil y m d && String.eqb (iso_date (make_day y (m - 1) d)) value
  | None => false
  end.

Definition nightsBetween (from until : string) : Z := date_parse until - date_parse from.

Definition overlaps (left right : Interval) : bool :=
  str_lt (checkIn left) (checkOut right) && str_lt (checkIn right) (checkOut left).

(** The binary search's loop from [low] and [high]; its range halves, so the
    number of intervals is fuel enough ([first_starting_spec]). *)
Fixpoint search_start `{AsInterval A} (intervals : list A) (date : string)
    (fuel low high : nat) : nat :=
  match fuel with
  | O => low
  | S fuel =>
      if Nat.ltb low high then
        let middle := Nat.div2 (low + high) in
        match intervals !! middle with
        | Some i =>
            if str_lt (checkIn (as_interval i)) date
            then search_start intervals date fuel (S middle) high
            else search_start intervals date fuel low middle
        | None => low
        end
      else low
  end.

Definition firstStartingAtOrAfter `{AsInterval A} (intervals : list A) (date : string) : nat :=
  search_start intervals date (length intervals) 0 (length intervals).

Definition insertInterval (intervals : list Occupancy) (occupancy : Occupancy) : list Occupancy :=
  let at_ := firstStartingAtOrAfter intervals (checkIn (stay occupancy)) in
  take at_ intervals ++ occupancy :: drop at_ intervals.

(** [intervals[index - 1]], [undefined] for index 0 *)
Definition before_index {A} (intervals : list A) (index : nat) : option A :=
  match index with O => None | S i => intervals !! i end.

Definition fitsIntervals (intervals : list Interval) (occupancy : Interval) : bool :=
  match before_index intervals (firstStartingAtOrAfter intervals (checkOut occupancy)) with
  | Some previous => negb (overlaps previous occupancy)
  | None => true
  end.

(** The intervals merged so far, the last one first *)
Definition merge_step (merged : list Interval) (interval : Interval) : list Interval :=
  match merged with
  | [] => [interval]
  | previous :: rest =>
      if str_lt (checkOut previous) (checkIn interval) then interval :: merged
      else if str_lt (checkOut previous) (checkOut interval)
      then {| checkIn := checkIn previous; checkOut := checkOut interval |} :: rest
      else merged
  end.

Section Optimizer.
Context `{Collation}.

Definition mergeIntervals (intervals : list Interval) : list Interval :=
  rev (fold_left merge_step
         (sort_by (fun a b => localeCompare (checkIn a) (checkIn b)) intervals) []).

(** ** Candidates *)

Definition overlaps_previous `{AsInterval A} (previous : option A) (occupancy : Interval) : bool :=
  match previous with Some p => overlaps (as_interval p) occupancy | None => false end.

Definition defined {A} (l : list (option A)) : list A := omap id l.

Definition scoreCandidate (schedule : RoomSchedule) (occupancy : Interval) : option Candidate :=
  let fixedIndex := firstStartingAtOrAfter (fixed schedule) (checkOut occupancy) in
  let placedIndex := firstStartingAtOrAfter (placed schedule) (checkOut occupancy) in
  let previousFixed := before_index (fixed schedule) fixedIndex in
  let previousPlaced := before_index (placed schedule) placedIndex in
  if overlaps_previous previousFixed occupancy || overlaps_previous previousPlaced occupancy
  then None
  else
    let previous :=
      head (sort_by (fun left right => localeCompare (checkOut right) (checkOut left))
              (defined [previousFixed; stay <$> previousPlaced])) in
    let next :=
      head (sort_by (fun left right => localeCompare (checkIn left) (checkIn right))
              (defined [fixed schedule !! fixedIndex; stay <$> (placed schedule !! placedIndex)])) in
    let previousGap := (fun p => nightsBetween (checkOut p) (checkIn occupancy)) <$> previous in
    let nextGap := (fun n => nightsBetween (checkOut occupancy) (checkIn n)) <$> next in
    let oldGap :=
      match previous, next with
      | Some p, Some n => nightsBetween (checkOut p) (checkIn n)
      | _, _ => 0
      end in
    let count := Z.of_nat (length (fixed schedule) + length (placed schedule)) in
    Some {| candidateRoom := room schedule;
            empty := if count =? 0 then 1 else 0;
            gapDelta := default 0 previousGap + default 0 nextGap - oldGap;
            nextGap := nextGap;
            previousGap := previousGap;
            occupancyCount := count |}.

(** The sign of [left - right]: [Infinity - Infinity] is [NaN], which is falsy. *)
Definition gap_difference (left right : gap) : Z :=
  match left, right with
  | Some l, Some r => l - r
  | Some _, None => -1
  | None, Some _ => 1
  | None, None => 0
  end.

Definition compareCandidates (left right : Candidate) : Z :=
  or_else (empty left - empty right)
  (or_else (gapDelta left - gapDelta right)
  (or_else (gap_difference (nextGap left) (nextGap right))
  (or_else (gap_difference (previousGap left) (previousGap right))
  (or_else (occupancyCount right - occupancyCount left)
  (or_else (sortOrder (candidateRoom left) - sortOrder (candidateRoom right))
     (localeCompare (roomId (candidateRoom left)) (roomId (candidateRoom right)))))))).

Definition candidates_for (schedules : list RoomSchedule) (occupancy : Interval) : list Candidate :=
  sort_by compareCandidates
    (omap (fun schedule => scoreCandidate schedule occupancy) schedules).

(** The tie-breaks both orders of the occupancies share *)
Definition compare_stays (left right : Occupancy) : Z :=
  or_else (localeCompare (checkIn (stay left)) (checkIn (stay right)))
  (or_else (localeCompare (checkOut (stay right)) (checkOut (stay left)))
     (localeCompare (occupancyId left) (occupancyId right))).

(** [schedules.get(roomId)] *)
Definition schedule_of (schedules : list RoomSchedule) (id : string) : option RoomSchedule :=
  List.find (fun s => String.eqb (roomId (room s)) id) schedules.

Definition with_placed (f : list Occupancy -> list Occupancy) (s : RoomSchedule) : RoomSchedule :=
  {| room := room s; fixed := fixed s; placed := f (placed s) |}.

(** A change of [candidate.schedule.placed] in place *)
Definition update_placed (id : string) (f : list Occupancy -> list Occupancy)
    (schedules : list RoomSchedule) : list RoomSchedule :=
  (fun s => if String.eqb (roomId (room s)) id then with_placed f s else s) <$> schedules.

(** [placed.splice(placed.indexOf(occupancy), 1)]: occupancies are told apart by
    their ids, which the validation makes unique. *)
Fixpoint remove_occupancy (id : string) (l : list Occupancy) : list Occupancy :=
  match l with
  | [] => []
  | o :: r => if String.eqb (occupancyId o) id then r else o :: remove_occupancy id r
  end.

(** ** Peak demand *)

Record Event := { date : string; delta : Z }.

Definition interval_events (i : Interval) : list Event :=
  [{| date := checkIn i; delta := 1 |}; {| date := checkOut i; delta := -1 |}].

Definition compare_events (left right : Event) : Z :=
  or_else (localeCompare (date left) (date right)) (delta left - delta right).

Fixpoint exceeds (limit concurrent : Z) (events : list Event) : bool :=
  match events with
  | [] => false
  | e :: r =>
      let concurrent := concurrent + delta e in
      if limit <? concurrent then true else exceeds limit concurrent r
  end.

Definition peakDemandExceedsRoomCount (schedules : list RoomSchedule) (movable : list Occupancy) : bool :=
  let events :=
    concat (interval_events <$> (concat (fixed <$> schedules) ++ (stay <$> movable))) in
  exceeds (Z.of_nat (length schedules)) 0 (sort_by compare_events events).

(** ** Greedy packing *)

(** One pass of the greedy loop: the best candidate takes the occupancy. *)
Definition place_greedily (orderedRooms : list Room) (schedules : list RoomSchedule)
    (occupancy : Occupancy) : option (string * list RoomSchedule) :=
  let schedules_in_order :=
    omap (fun r => schedule_of schedules (roomId r)) orderedRooms in
  let? candidate := head (candidates_for schedules_in_order (stay occupancy)) in
  let id := roomId (candidateRoom candidate) in
  Some (id, update_placed id (fun p => insertInterval p occupancy) schedules).

(** The greedy loop; [None] is [greedyFailed]. *)
Fixpoint greedy (orderedRooms : list Room) (movable : list Occupancy)
    (schedules : list RoomSchedule) (assigned : gmap string string)
    : option (list RoomSchedule * gmap string string) :=
  match movable with
  | [] => Some (schedules, assigned)
  | occupancy :: rest =>
      let? (id, schedules) := place_greedily orderedRooms schedules occupancy in
      greedy orderedRooms rest schedules (<[occupancyId occupancy := id]> assigned)
  end.

(** ** Backtracking search *)

Record SearchState := {
  schedules : list RoomSchedule;
  assigned : gmap string string;
  count : Z;
  exhausted : bool;
  seen : gset string
}.

(** The text of a state: the pending ids, sorted, and each room's placed ids *)
Definition state_key (schedules : list RoomSchedule) (pending : list Occupancy) : string :=
  join "," (stable_sort str_le (occupancyId <$> pending)) +:+ "|" +:+
  join "|" ((fun s => roomId (room s) +:+ ":" +:+ join "," (occupancyId <$> placed s)) <$> schedules).

Definition choices (schedules : list RoomSchedule) (pending : list Occupancy)
    : list (Occupancy * list Candidate) :=
  sort_by
    (fun left right =>
       or_else (Z.of_nat (length (snd left)) - Z.of_nat (length (snd right)))
         (compare_stays (fst left) (fst right)))
    ((fun occupancy => (occupancy, candidates_for schedules (stay occupancy))) <$> pending).

Definition mark_seen (key : string) (st : SearchState) : SearchState :=
  {| schedules := schedules st; assigned := assigned st; count := count st;
     exhausted := exhausted st; seen := {[ key ]} ∪ seen st |}.

Definition mark_exhausted (st : SearchState) : SearchState :=
  {| schedules := schedules st; assigned := assigned st; count := count st;
     exhausted := true; seen := seen st |}.

(** [nodes.count += 1; assigned.set(...); insertInterval(...)] *)
Definition try_room (occupancy : Occupancy) (id : string) (st : SearchState) : SearchState :=
  {| schedules := update_placed id (fun p => insertInterval p occupancy) (schedules st);
     assigned := <[occupancyId occupancy := id]> (assigned st);
     count := count st + 1; exhausted := exhausted st; seen := seen st |}.

(** [placed.splice(...); assigned.delete(...)] *)
Definition undo_room (occupancy : Occupancy) (id : string) (st : SearchState) : SearchState :=
  {| schedules := update_placed id (remove_occupancy (occupancyId occupancy)) (schedules st);
     assigned := delete (occupancyId occupancy) (assigned st);
     count := count st; exhausted := exhausted st; seen := seen st |}.

(** The loop over the chosen occupancy's candidates, given the recursive call *)
Fixpoint try_candidates (search : SearchState -> option (bool * SearchState))
    (occupancy : Occupancy) (candidates : list Candidate) (st : SearchState)
    : option (bool * SearchState) :=
  match candidates with
  | [] => Some (false, st)
  | candidate :: rest =>
      let id := roomId (candidateRoom candidate) in
      let? (found, st) := search (try_room occupancy id st) in
      if (found : bool) then Some (true, st)
      else try_candidates search occupancy rest (undo_room occupancy id st)
  end.

Definition without (occupancy : Occupancy) (pending : list Occupancy) : list Occupancy :=
  filter (fun o => occupancyId o <> occupancyId occupancy) pending.

(** [None] only when the fuel runs out; [S (length pending)] is enough
    ([search_terminates]). *)
Fixpoint searchPlacement (fuel : nat) (budget : Z) (pending : list Occupancy) (st : SearchState)
    : option (bool * SearchState) :=
  match fuel with
  | O => None
  | S fuel =>
      match pending with
      | [] => Some (true, st)
      | _ :: _ =>
          if budget <=? count st then Some (false, mark_exhausted st)
          else
            let key := state_key (schedules st) pending in
            if decide (key ∈ seen st) then Some (false, st)
            else
              match choices (schedules st) pending with
              | [] => None
              | (occupancy, candidates) :: _ =>
                  try_candidates (searchPlacement fuel budget (without occupancy pending))
                    occupancy candidates (mark_seen key st)
              end
      end
  end.

(** ** Measures of an assignment *)

Definition intervalGapNights (intervals : list Interval) : Z :=
  let ordered :=
    sort_by (fun left right => or_else (localeCompare (checkIn left) (checkIn right))
                                 (localeCompare (checkOut left) (checkOut right))) intervals in
  match ordered with
  | [] => 0
  | first :: rest =>
      snd (fold_left
        (fun '(occupiedThrough, total) interval =>
           (if str_lt occupiedThrough (checkOut interval) then checkOut interval else occupiedThrough,
            if str_lt occupiedThrough (checkIn interval)
            then total + nightsBetween occupiedThrough (checkIn interval) else total))
        rest (checkOut first, 0))
  end.

Definition stays_in (id : string) (occupancies : list Occupancy) : list Occupancy :=
  filter (fun o => occupancyRoomId o = Some id) occupancies.

Definition totalGapNights (rooms : list Room) (occupancies : list Occupancy) : Z :=
  sum_of (fun r => intervalGapNights (stay <$> stays_in (roomId r) occupancies)) rooms.

Definition known_rooms (rooms : list Room) : gset string := list_to_set (roomId <$> rooms).

Definition usedRoomCount (rooms : list Room) (occupancies : list Occupancy) : Z :=
  Z.of_nat (size (filter (fun id => id ∈ known_rooms rooms)
                    (list_to_set (omap occupancyRoomId occupancies) : gset string))).

(** [!roomId || !known.has(roomId)] *)
Definition unknown_room (known : gset string) (o : Occupancy) : bool :=
  match occupancyRoomId o with
  | Some id => String.eqb id "" || negb (bool_decide (id ∈ known))
  | None => true
  end.

(** [ordered.slice(1).every((item, index) => !overlaps(ordered[index], item))] *)
Fixpoint neighbours_apart (ordered : list Interval) : bool :=
  match ordered with
  | a :: ((b :: _) as r) => negb (overlaps a b) && neighbours_apart r
  | _ => true
  end.

Definition originalAssignmentIsFeasible (rooms : list Room) (occupancies : list Occupancy) : bool :=
  negb (existsb (unknown_room (known_rooms rooms)) occupancies) &&
  forallb (fun r =>
    neighbours_apart
      (sort_by (fun left right => localeCompare (checkIn left) (checkIn right))
         (stay <$> stays_in (roomId r) occupancies))) rooms.

(** ** Validation *)

Definition invalid_occupancy (o : Occupancy) : bool :=
  String.eqb (occupancyId o) "" || negb (validDate (checkIn (stay o))) ||
  negb (validDate (checkOut (stay o))) || str_le (checkOut (stay o)) (checkIn (stay o)).

Definition validateInput (rooms : list Room) (occupancies : list Occupancy) : exn unit :=
  if negb (all_distinct String.eqb (roomId <$> rooms))
  then Throw "PMS assignment optimization rooms must be unique"
  else if negb (all_distinct String.eqb (occupancyId <$> occupancies))
  then Throw "PMS assignment optimization occupancies must be unique"
  else if existsb (fun r => String.eqb (roomId r) "" || negb (safe_integer (sortOrder r))) rooms
  then Throw "PMS assignment optimization room is invalid"
  else if existsb invalid_occupancy occupancies
  then Throw "PMS assignment optimization occupancy is invalid"
  else Ret tt.

Definition invalid_budget (searchBudget : option Z) : bool :=
  match searchBudget with
  | Some b => negb (safe_integer b) || (b <? 500) || (100000 <? b)
  | None => false
  end.

(** ** The optimizer *)

Definition order_rooms (rooms : list Room) : list Room :=
  sort_by (fun left right => or_else (sortOrder left - sortOrder right)
                               (localeCompare (roomId left) (roomId right))) rooms.

(** The immovable stays join their rooms; the first one without a known room
    ends the run. *)
Fixpoint place_fixed (immovable : list Occupancy) (schedules : list RoomSchedule)
    : result string (list RoomSchedule) :=
  match immovable with
  | [] => Ok schedules
  | o :: rest =>
      let known := list_to_set ((fun s => roomId (room s)) <$> schedules) in
      if unknown_room known o then Err (occupancyId o)
      else place_fixed rest
        ((fun s => if decide (occupancyRoomId o = Some (roomId (room s)))
                   then {| room := room s; fixed := fixed s ++ [stay o]; placed := placed s |}
                   else s) <$> schedules)
  end.

Definition merge_fixed (s : RoomSchedule) : RoomSchedule :=
  {| room := room s; fixed := mergeIntervals (fixed s); placed := placed s |}.

Definition movable_in_order (schedules : list RoomSchedule) (occupancies : list Occupancy)
    : list Occupancy :=
  fst <$> sort_by
    (fun left right => or_else (snd left - snd right) (compare_stays (fst left) (fst right)))
    ((fun o => (o, Z.of_nat (length (filter (fun s => fitsIntervals (fixed s) (stay o) = true)
                                       schedules))))
       <$> filter (fun o => movable o = true) occupancies).

Definition search_budget (searchBudget : option Z) (pending : list Occupancy) (rooms : list Room) : Z :=
  match searchBudget with
  | Some b => b
  | None => Z.max 5000 (Z.min 50000 (Z.of_nat (length pending) * Z.of_nat (length rooms) * 100))
  end.

(** The placement: greedy first, then the search from empty schedules *)
Inductive Placement :=
| Placed (schedules : list RoomSchedule) (assigned : gmap string string)
| NotPlaced (exhausted : bool).

Definition place_movable (searchBudget : option Z) (orderedRooms : list Room)
    (initial : list RoomSchedule) (movable : list Occupancy) : option Placement :=
  match greedy orderedRooms movable initial ∅ with
  | Some (packed, chosen) => Some (Placed packed chosen)
  | None =>
      let? (found, st) :=
        searchPlacement (S (length movable)) (search_budget searchBudget movable orderedRooms) movable
          {| schedules := with_placed (fun _ => []) <$> initial; assigned := ∅;
             count := 0; exhausted := false; seen := ∅ |} in
      Some (if (found : bool) then Placed (schedules st) (assigned st)
            else NotPlaced (exhausted st))
  end.

Definition move_of (assigned : gmap string string) (o : Occupancy) : Move :=
  {| moveOccupancyId := occupancyId o; fromRoomId := occupancyRoomId o;
     toRoomId := assigned !! occupancyId o |}.

(** [fromRoomId !== toRoomId]: [null] differs from [undefined]. *)
Definition changes_room (m : Move) : bool :=
  match toRoomId m with
  | Some to => bool_decide (fromRoomId m <> Some to)
  | None => true
  end.

Definition schedule_used (s : RoomSchedule) : bool :=
  Nat.ltb 0 (length (fixed s) + length (placed s)).

Definition optimized (orderedRooms : list Room) (occupancies movable : list Occupancy)
    (schedules : list RoomSchedule) (assigned : gmap string string) : OptimizationResult :=
  let gapNightsBefore := totalGapNights orderedRooms occupancies in
  let gapNightsAfter := sum_of (fun s => intervalGapNights (fixed s ++ (stay <$> placed s))) schedules in
  let usedRoomsBefore := usedRoomCount orderedRooms occupancies in
  let usedRoomsAfter := Z.of_nat (length (List.filter schedule_used schedules)) in
  let keepExisting :=
    forallb (fun o => bool_decide (occupancyRoomId o <> None)) occupancies &&
    originalAssignmentIsFeasible orderedRooms occupancies &&
    ((usedRoomsBefore <? usedRoomsAfter) ||
     ((usedRoomsAfter =? usedRoomsBefore) && (gapNightsBefore <? gapNightsAfter))) in
  Optimized
    (if keepExisting then []
     else List.filter changes_room (move_of assigned <$> movable))
    gapNightsBefore (if keepExisting then gapNightsBefore else gapNightsAfter)
    usedRoomsBefore (if keepExisting then usedRoomsBefore else usedRoomsAfter).

Definition new_schedule (r : Room) : RoomSchedule := {| room := r; fixed := []; placed := [] |}.

(** [None] never occurs: the fuel exceeds the number of pending stays. *)
Definition optimize (searchBudget : option Z) (rooms : list Room) (occupancies : list Occupancy)
    : option OptimizationResult :=
  let orderedRooms := order_rooms rooms in
  match place_fixed (filter (fun o => movable o = false) occupancies) (new_schedule <$> orderedRooms) with
  | Err id => Some (Infeasible [id])
  | Ok schedules =>
      let schedules := merge_fixed <$> schedules in
      let movable := movable_in_order schedules occupancies in
      if peakDemandExceedsRoomCount schedules movable
      then Some (Infeasible (occupancyId <$> movable))
      else
        let? placement := place_movable searchBudget orderedRooms schedules movable in
        Some (match placement with
              | NotPlaced true => BudgetExhausted (occupancyId <$> movable)
              | NotPlaced false => Infeasible (occupancyId <$> movable)
              | Placed schedules assigned =>
                  optimized orderedRooms occupancies movable schedules assigned
              end)
  end.

Definition optimizePmsRoomAssignments (rooms : list Room) (occupancies : list Occupancy)
    (searchBudget : option Z) : exn (option OptimizationResult) :=
  try! _ := validateInput rooms occupancies in
  if invalid_budget searchBudget
  then Throw "PMS assignment optimization search budget is invalid"
  else Ret (optimize searchBudget rooms occupancies).
End Optimizer.
