(* ===== verification/AssignmentIntervals.v ===== *)
(** * Intervals of the room assignment

    The dates of an interval as day numbers, the binary search, insertion into a
    room's stays, merging of a room's fixed intervals, and what it means for a
    room to be free. *)

From S2P Require Import Prelude JsValue CalendarDates RoomAssignment.

(** ** Days of an interval *)

Definition start (i : Interval) : Z := date_parse (checkIn i).
Definition finish (i : Interval) : Z := date_parse (checkOut i).

Record valid_interval (i : Interval) : Prop := {
  valid_start : validDate (checkIn i) = true;
  valid_finish : validDate (checkOut i) = true;
  valid_order : start i < finish i
}.
#[export] Hint Resolve valid_start valid_finish valid_order : vayada.

Lemma valid_str_lt a b :
  validDate a = true -> validDate b = true -> str_lt a b = (date_parse a <? date_parse b).
Proof. apply str_lt_dates. Qed.

Lemma overlaps_spec i j : valid_interval i -> valid_interval j ->
  overlaps i j = (start i <? finish j) && (start j <? finish i).
Proof. intros [] []. unfold overlaps. by rewrite !valid_str_lt. Qed.

Lemma apart_spec i j : valid_interval i -> valid_interval j ->
  overlaps i j = false <-> finish i <= start j \/ finish j <= start i.
Proof. intros Hi Hj. rewrite overlaps_spec, andb_false_iff, !Z.ltb_ge by done. tauto. Qed.

Lemma overlap_iff i j : valid_interval i -> valid_interval j ->
  overlaps i j = true <-> start i < finish j /\ start j < finish i.
Proof. intros Hi Hj. rewrite overlaps_spec, andb_true_iff, !Z.ltb_lt by done. tauto. Qed.

Lemma overlaps_comm i j : overlaps i j = overlaps j i.
Proof. unfold overlaps. apply andb_comm. Qed.

Lemma invalid_occupancy_false o : invalid_occupancy o = false -> valid_interval (stay o).
Proof.
  unfold invalid_occupancy. rewrite !orb_false_iff, !negb_false_iff. intros [[[_ H1] H2] H3].
  split; [done..|]. unfold start, finish. apply Z.ltb_lt.
  rewrite <- valid_str_lt by done. unfold str_le, str_lt in *.
  rewrite String.compare_antisym. by destruct (String.compare _ _).
Qed.

(** The dates of an occupancy are those of its stay. *)
Ltac stays := unfold as_interval, interval_as_interval, occupancy_as_interval, start, finish in *.

(** ** The binary search *)

Section Search.
Context `{AsInterval A}.

Definition valid_list (l : list A) : Prop := Forall (fun x => valid_interval (as_interval x)) l.

(** Ordered by their start *)
Definition by_start (l : list A) : Prop :=
  StronglySorted (fun x y => start (as_interval x) <= start (as_interval y)) l.

(** Each one ends before the next ones start *)
Definition apart_list (l : list A) : Prop :=
  StronglySorted (fun x y => finish (as_interval x) <= start (as_interval y)) l.

Lemma StronglySorted_lookup (R : relation A) l i j x y :
  StronglySorted R l -> l !! i = Some x -> l !! j = Some y -> (i < j)%nat -> R x y.
Proof.
  intros HS. revert i j. induction HS as [|z l HS IH HF]; intros i j Hi Hj Hlt; [done|].
  destruct j as [|j]; [lia|]. destruct i as [|i]; cbn in *.
  - injection Hi as ->. rewrite Forall_forall in HF. apply HF. by eapply list_elem_of_lookup_2.
  - eapply IH; eauto. lia.
Qed.

Lemma valid_lookup l i x : valid_list l -> l !! i = Some x -> valid_interval (as_interval x).
Proof. intros Hl Hi. exact (Forall_lookup_1 _ l i x Hl Hi). Qed.

Lemma apart_lookup l i j x y : apart_list l -> l !! i = Some x -> l !! j = Some y -> (i < j)%nat ->
  finish (as_interval x) <= start (as_interval y).
Proof. intros Ha. exact (StronglySorted_lookup _ l i j x y Ha). Qed.

Lemma apart_by_start l : valid_list l -> apart_list l -> by_start l.
Proof.
  induction 2 as [|x l HS IH HF]; [constructor|]. apply Forall_cons in H0 as [Hx Hl].
  constructor; [by apply IH|]. eapply Forall_impl; [exact HF|]. intros y ?.
  pose proof (valid_order _ Hx). cbn in *. lia.
Qed.

(** [n] cuts [l] into the intervals that start before [d] and the others. *)
Definition cut_at (l : list A) (d : Z) (n : nat) : Prop :=
  (n <= length l)%nat /\
  (forall i x, l !! i = Some x -> (i < n)%nat -> start (as_interval x) < d) /\
  (forall i x, l !! i = Some x -> (n <= i)%nat -> d <= start (as_interval x)).

Lemma search_start_spec l date fuel low high :
  valid_list l -> by_start l -> validDate date = true ->
  (low <= high)%nat -> (high <= length l)%nat -> (high - low <= fuel)%nat ->
  (forall i x, l !! i = Some x -> (i < low)%nat -> start (as_interval x) < date_parse date) ->
  (forall i x, l !! i = Some x -> (high <= i)%nat -> date_parse date <= start (as_interval x)) ->
  cut_at l (date_parse date) (search_start l date fuel low high).
Proof.
  intros Hv Hs Hd. revert low high.
  induction fuel as [|fuel IH]; intros low high Hlh Hh Hf Hlow Hhigh; cbn [search_start].
  - replace high with low in * by lia. by split_and!.
  - destruct (Nat.ltb_spec low high) as [Hlt|Hge].
    2:{ replace high with low in * by lia. by split_and!. }
    set (middle := Nat.div2 (low + high)).
    assert (Hm : (low <= middle < high)%nat).
    { unfold middle. rewrite Nat.div2_div. split;
        [apply Nat.div_le_lower_bound | apply Nat.Div0.div_lt_upper_bound]; lia. }
    destruct (lookup_lt_is_Some_2 l middle ltac:(lia)) as [m Em]. rewrite Em.
    rewrite valid_str_lt by (done || by apply valid_start, (valid_lookup _ _ _ Hv Em)).
    assert (Hmono : forall i j x y, l !! i = Some x -> l !! j = Some y -> (i <= j)%nat ->
              start (as_interval x) <= start (as_interval y)).
    { intros i j x y Hi Hj Hij. destruct (decide (i = j)) as [->|]; [by simplify_eq|].
      exact (StronglySorted_lookup _ l i j x y Hs Hi Hj ltac:(lia)). }
    destruct (Z.ltb_spec (date_parse (checkIn (as_interval m))) (date_parse date)) as [Hlt'|Hge'];
      apply IH; try lia; try done; intros i x Hi ?.
    + pose proof (Hmono i middle x m Hi Em ltac:(lia)). unfold start in *. lia.
    + pose proof (Hmono middle i m x Em Hi ltac:(lia)). unfold start in *. lia.
Qed.

Lemma first_starting_spec l date :
  valid_list l -> by_start l -> validDate date = true ->
  cut_at l (date_parse date) (firstStartingAtOrAfter l date).
Proof.
  intros Hv Hs Hd. apply search_start_spec; try done; try lia.
  intros i x Hi ?. apply lookup_lt_Some in Hi. lia.
Qed.

(** Only the last interval that starts before the end of [o] can meet it. *)
Lemma previous_decides l o :
  valid_list l -> apart_list l -> valid_interval o ->
  overlaps_previous (before_index l (firstStartingAtOrAfter l (checkOut o))) o =
  existsb (fun x => overlaps (as_interval x) o) l.
Proof.
  intros Hv Ha Ho.
  destruct (first_starting_spec l (checkOut o) Hv (apart_by_start _ Hv Ha) (valid_finish _ Ho))
    as (Hn & Hbefore & Hafter).
  set (n := firstStartingAtOrAfter l (checkOut o)) in *.
  apply eq_bool_prop_intro. rewrite !Is_true_true, existsb_exists.
  setoid_rewrite <- list_elem_of_In. split.
  - destruct n as [|n]; cbn; [done|]. destruct (l !! n) as [x|] eqn:E; cbn; [|done].
    intros Hx. exists x. split; [by eapply list_elem_of_lookup_2 | done].
  - intros (x & Hx & Hox). apply list_elem_of_lookup in Hx as [i Hi].
    pose proof (valid_lookup _ _ _ Hv Hi) as Hvx.
    apply (overlap_iff _ _ Hvx Ho) in Hox as [Hs Hf].
    destruct (decide (i < n)%nat) as [Hin|Hin];
      [|pose proof (Hafter i x Hi ltac:(lia)); unfold finish in *; lia].
    destruct n as [|n]; [lia|]. cbn.
    destruct (lookup_lt_is_Some_2 l n ltac:(lia)) as [y Ey]. rewrite Ey. cbn.
    pose proof (valid_lookup _ _ _ Hv Ey) as Hvy. apply (overlap_iff _ _ Hvy Ho).
    pose proof (Hbefore n y Ey ltac:(lia)) as Hby. split; [exact Hby|].
    destruct (decide (i = n)) as [->|Hne]; [by simplify_eq|].
    pose proof (StronglySorted_lookup _ l i n x y Ha Hi Ey ltac:(lia)) as Hxy. cbn in Hxy.
    pose proof (valid_order _ Hvy). lia.
Qed.
End Search.

Lemma fits_intervals_spec l o : valid_list l -> apart_list l -> valid_interval o ->
  fitsIntervals l o = negb (existsb (fun x => overlaps x o) l).
Proof.
  intros Hv Ha Ho. pose proof (previous_decides l o Hv Ha Ho) as E.
  unfold as_interval, interval_as_interval in E. rewrite <- E. unfold fitsIntervals.
  by destruct (before_index _ _).
Qed.

(** ** Insertion *)

Lemma insert_perm l o : insertInterval l o ≡ₚ o :: l.
Proof.
  unfold insertInterval. set (n := firstStartingAtOrAfter _ _).
  rewrite <- Permutation_middle. by rewrite take_drop.
Qed.

Lemma insert_valid l o : valid_list l -> valid_interval (stay o) -> valid_list (insertInterval l o).
Proof. intros Hl Ho. unfold valid_list. rewrite insert_perm. by constructor. Qed.

Lemma insert_apart l o :
  valid_list l -> apart_list l -> valid_interval (stay o) ->
  (forall x, x ∈ l -> overlaps (stay x) (stay o) = false) ->
  apart_list (insertInterval l o).
Proof.
  intros Hv Ha Ho Hfree.
  destruct (first_starting_spec l (checkIn (stay o)) Hv (apart_by_start _ Hv Ha) (valid_start _ Ho))
    as (Hn & Hbefore & Hafter).
  unfold insertInterval. set (n := firstStartingAtOrAfter _ _) in *.
  assert (Hcut : forall i x, l !! i = Some x ->
            if decide (i < n)%nat then finish (stay x) <= start (stay o)
            else finish (stay o) <= start (stay x)).
  { intros i x Hi. pose proof (valid_lookup _ _ _ Hv Hi) as Hvx. cbn in Hvx.
    pose proof (valid_order _ Hvx). pose proof (valid_order _ Ho).
    assert (Hx : x ∈ l) by (by eapply list_elem_of_lookup_2).
    apply Hfree, (apart_spec _ _ Hvx Ho) in Hx.
    case_decide as Hin; [pose proof (Hbefore i x Hi Hin) | pose proof (Hafter i x Hi ltac:(lia))];
      stays; lia. }
  unfold apart_list in *. rewrite <- (take_drop n l) in Ha.
  apply StronglySorted_app in Ha as (Hcross & Hta & Hda).
  apply StronglySorted_app. split_and!; [|exact Hta|].
  - intros x y Hx Hy. apply elem_of_cons in Hy as [->|Hy]; [|by apply Hcross].
    apply list_elem_of_lookup in Hx as [i Hi]. apply lookup_take_Some in Hi as [Hi Hlt].
    specialize (Hcut i x Hi). by rewrite decide_True in Hcut.
  - constructor; [done|]. apply Forall_forall. intros y Hy.
    apply list_elem_of_lookup in Hy as [i Hi]. rewrite lookup_drop in Hi.
    specialize (Hcut _ y Hi). by rewrite decide_False in Hcut by lia.
Qed.

Lemma remove_app id l o r :
  occupancyId o = id -> id ∉ (occupancyId <$> l) -> remove_occupancy id (l ++ o :: r) = l ++ r.
Proof.
  intros <-. induction l as [|x l IH]; cbn; intros Hid.
  - by rewrite String.eqb_refl.
  - apply not_elem_of_cons in Hid as [Hx Hl].
    destruct (String.eqb_spec (occupancyId x) (occupancyId o)); [done|]. by rewrite IH.
Qed.

(** Taking an inserted occupancy out again restores the list. *)
Lemma remove_insert l o :
  occupancyId o ∉ (occupancyId <$> l) -> remove_occupancy (occupancyId o) (insertInterval l o) = l.
Proof.
  intros Hid. unfold insertInterval. rewrite remove_app; [by rewrite take_drop | done |].
  intros Hx. apply Hid. apply list_elem_of_fmap in Hx as (x & -> & Hx).
  apply list_elem_of_fmap_2. by eapply subseteq_take.
Qed.

(** ** Merging *)

(** The locale's order on dates is the order of their text: ISO dates of four
    digit years compare digit by digit in every locale. *)
Class CollationLaws `{Collation} : Prop := {
  locale_dates a b : validDate a = true -> validDate b = true ->
    (localeCompare a b ?= 0) = String.compare a b
}.

Lemma locale_days `{CollationLaws} a b : validDate a = true -> validDate b = true ->
  (localeCompare a b ?= 0) = (date_parse a ?= date_parse b).
Proof. intros Ha Hb. rewrite locale_dates by done. by apply date_text_order. Qed.

Lemma locale_le `{CollationLaws} a b : validDate a = true -> validDate b = true ->
  (localeCompare a b <=? 0) = (date_parse a <=? date_parse b).
Proof. intros Ha Hb. unfold Z.leb. by rewrite locale_days. Qed.

Lemma sort_by_checkIn `{CollationLaws} l : valid_list l ->
  sort_by (fun a b => localeCompare (checkIn a) (checkIn b)) l =
  stable_sort (fun a b => start a <=? start b) l.
Proof.
  intros Hv. apply (stable_sort_ext valid_interval); [|exact Hv].
  intros a b [] []. by apply locale_le.
Qed.

(** [o] meets one of the intervals. *)
Definition meets (l : list Interval) (o : Interval) : bool := existsb (fun x => overlaps x o) l.

Lemma meets_app l k o : meets (l ++ k) o = meets l o || meets k o.
Proof. apply existsb_app. Qed.

Lemma meets_perm l k o : l ≡ₚ k -> meets l o = meets k o.
Proof.
  unfold meets. induction 1; cbn; [done | congruence | |congruence].
  rewrite !orb_assoc. f_equal. apply orb_comm.
Qed.

Lemma meets_false l o : meets l o = false <-> forall x, x ∈ l -> overlaps x o = false.
Proof.
  unfold meets. induction l as [|y l IH]; cbn.
  - split; [intros _ x Hx; by apply elem_of_nil in Hx | done].
  - rewrite orb_false_iff, IH. split.
    + intros [Hy Hl] x [->|Hx]%elem_of_cons; auto.
    + intros Hl. split; [|intros x Hx]; apply Hl; [left | by right].
Qed.

(** The merged intervals, the last one first *)
Record merged_ok (m : list Interval) : Prop := {
  merged_valid : valid_list m;
  merged_apart : StronglySorted (fun x y => finish y <= start x) m
}.

Definition starts_after (m : list Interval) (i : Interval) : Prop :=
  match m with x :: _ => start x <= start i | [] => True end.

Ltac dates := repeat match goal with
  | H : valid_interval _ |- _ => destruct H
  end.

Lemma merge_step_ok m i : merged_ok m -> valid_interval i -> starts_after m i ->
  merged_ok (merge_step m i) /\ starts_after (merge_step m i) i.
Proof.
  intros [Hv Ha] Hi Hs. destruct m as [|p m]; cbn; [split; [split; [by apply Forall_singleton | repeat constructor] | cbn; lia]|].
  apply Forall_cons in Hv as [Hp Hv]. inversion Ha as [|? ? Ham HaF]; subst. cbn in Hs.
  unfold as_interval, interval_as_interval in Hp.
  rewrite !valid_str_lt by (dates; done).
  destruct (Z.ltb_spec (date_parse (checkOut p)) (date_parse (checkIn i))) as [H1|H1];
    [|destruct (Z.ltb_spec (date_parse (checkOut p)) (date_parse (checkOut i))) as [H2|H2]].
  - split; [|cbn; lia]. split; [by apply Forall_cons; split; [|apply Forall_cons]|]. constructor; [done|].
    constructor; [stays; lia|]. eapply Forall_impl; [exact HaF|]. dates. stays. intros; lia.
  - split; [|cbn; stays; cbn; lia]. split.
    + apply Forall_cons. split; [|done]. dates. split; cbn; [done..|stays; cbn; lia].
    + constructor; done.
  - split; [split; [by apply Forall_cons | done] | done].
Qed.

Lemma merge_step_meets m i o : merged_ok m -> valid_interval i -> starts_after m i ->
  valid_interval o -> meets (merge_step m i) o = overlaps i o || meets m o.
Proof.
  intros [Hv Ha] Hi Hs Ho. destruct m as [|p m]; [done|].
  apply Forall_cons in Hv as [Hp _]. unfold as_interval, interval_as_interval in Hp. cbn in Hs |- *.
  rewrite !valid_str_lt by (dates; done).
  destruct (Z.ltb_spec (date_parse (checkOut p)) (date_parse (checkIn i))) as [H1|H1];
    [done|destruct (Z.ltb_spec (date_parse (checkOut p)) (date_parse (checkOut i))) as [H2|H2]];
    cbn; rewrite orb_assoc; f_equal.
  - assert (Hm : valid_interval {| checkIn := checkIn p; checkOut := checkOut i |})
      by (dates; split; cbn; [done..|stays; cbn; lia]).
    rewrite !overlaps_spec by done. dates. stays. cbn in *. lia.
  - rewrite !overlaps_spec by done. dates. stays. lia.
Qed.

Lemma merge_fold l : forall m, valid_list l -> by_start l -> merged_ok m ->
  (forall i, i ∈ l -> starts_after m i) ->
  merged_ok (fold_left merge_step l m) /\
  forall o, valid_interval o -> meets (fold_left merge_step l m) o = meets l o || meets m o.
Proof.
  induction l as [|i l IH]; intros m Hv Hs Hm Ha; [done|]; cbn [fold_left].
  apply Forall_cons in Hv as [Hi Hv]. inversion Hs as [|? ? Hsl HsF]; subst.
  destruct (merge_step_ok m i Hm Hi ltac:(apply Ha; by left)) as [Hm' Ha'].
  destruct (IH (merge_step m i) Hv Hsl Hm') as [Hok Hmeets].
  - intros j Hj. rewrite Forall_forall in HsF. specialize (HsF j Hj). stays.
    destruct (merge_step m i); cbn in *; [done|stays; lia].
  - split; [done|]. intros o Ho. rewrite Hmeets, merge_step_meets by (done || (apply Ha; by left)).
    change (meets (i :: l) o) with (overlaps i o || meets l o). destruct (overlaps i o), (meets l o), (meets m o); done.
Qed.

Lemma StronglySorted_rev {A} (R : relation A) l :
  StronglySorted R l -> StronglySorted (fun x y => R y x) (rev l).
Proof.
  induction 1 as [|x l _ IH HF]; cbn; [constructor|]. apply StronglySorted_app. split_and!; [|done|].
  - intros y z Hy Hz. apply list_elem_of_singleton in Hz as ->. rewrite Forall_forall in HF.
    apply HF. apply list_elem_of_In in Hy. apply list_elem_of_In. by apply in_rev.
  - repeat constructor.
Qed.

(** The merged intervals are in order and apart, and cover the same nights. *)
Lemma merge_intervals_spec `{CollationLaws} l : valid_list l ->
  valid_list (mergeIntervals l) /\ apart_list (mergeIntervals l) /\
  forall o, valid_interval o -> meets (mergeIntervals l) o = meets l o.
Proof.
  intros Hv. unfold mergeIntervals. rewrite sort_by_checkIn by done.
  set (s := stable_sort _ l).
  assert (Hp : s ≡ₚ l) by apply stable_sort_perm.
  assert (Hs : by_start s) by apply stable_sort_measure.
  assert (Hvs : valid_list s) by (unfold valid_list; by rewrite Hp).
  destruct (merge_fold s [] Hvs Hs) as [[Hmv Hma] Hmeets]; [split; constructor | done |].
  split_and!.
  - unfold valid_list. by rewrite <- Permutation_rev.
  - by apply StronglySorted_rev in Hma.
  - intros o Ho. rewrite <- (meets_perm (fold_left merge_step s []) (rev _)) by apply Permutation_rev.
    rewrite Hmeets, orb_false_r by done. by apply meets_perm.
Qed.
