(* ===== verification/AssignmentSearch.v ===== *)
(** * Packing rooms: greedy choice and backtracking search

    Soundness of both ways of placing the movable stays: whatever is placed,
    every room stays free of overlaps and the assignment map names the room of
    every placed stay.  The search gives back the board it was handed when it
    fails, always returns, and visits a bounded number of nodes. *)

From S2P Require Import Prelude JsValue CalendarDates RoomAssignment AssignmentIntervals.

(** ** A room's schedule *)

Definition busy (s : RoomSchedule) : list Interval := fixed s ++ (stay <$> placed s).

Definition room_id (s : RoomSchedule) : string := roomId (room s).

(** The stay [o] meets nothing in the room. *)
Definition free (s : RoomSchedule) (o : Occupancy) : Prop := meets (busy s) (stay o) = false.

Record schedule_ok (s : RoomSchedule) : Prop := {
  ok_fixed : valid_list (fixed s);
  ok_fixed_apart : apart_list (fixed s);
  ok_placed : valid_list (placed s);
  ok_placed_apart : apart_list (placed s);
  ok_cross : forall o, o ∈ placed s -> meets (fixed s) (stay o) = false
}.

Lemma meets_placed l o : existsb (fun x : Occupancy => overlaps (stay x) o) l = meets (stay <$> l) o.
Proof. unfold meets. induction l as [|x l IH]; [done|]. cbn. by rewrite IH. Qed.

Lemma free_iff s o : free s o <->
  meets (fixed s) (stay o) = false /\ meets (stay <$> placed s) (stay o) = false.
Proof. unfold free, busy. by rewrite meets_app, orb_false_iff. Qed.

Lemma score_spec `{Collation} s o : schedule_ok s -> valid_interval o ->
  if meets (busy s) o then scoreCandidate s o = None
  else exists c, scoreCandidate s o = Some c /\ candidateRoom c = room s.
Proof.
  intros [Hf Hfa Hp Hpa _] Ho. unfold scoreCandidate, busy.
  rewrite !previous_decides by done.
  change (existsb (fun x : Interval => overlaps (as_interval x) o) (fixed s)) with (meets (fixed s) o).
  change (existsb (fun x : Occupancy => overlaps (as_interval x) o) (placed s))
    with (existsb (fun x : Occupancy => overlaps (stay x) o) (placed s)).
  rewrite meets_placed, meets_app. destruct (_ || _); [done|]. by eexists.
Qed.

Lemma insert_schedule_ok s o : schedule_ok s -> valid_interval (stay o) -> free s o ->
  schedule_ok (with_placed (fun p => insertInterval p o) s).
Proof.
  intros [Hf Hfa Hp Hpa Hc] Ho [Hff Hfp]%free_iff. split; cbn; [done..| | |].
  - by apply insert_valid.
  - apply insert_apart; [done..|]. intros x Hx. rewrite meets_false in Hfp. apply Hfp.
    by apply list_elem_of_fmap_2.
  - intros x. rewrite insert_perm. intros [->|Hx]%elem_of_cons; [done | by apply Hc].
Qed.

(** ** The board: all rooms and the stays still to place *)

Definition all_placed (schs : list RoomSchedule) : list Occupancy := concat (placed <$> schs).
#[global] Arguments all_placed : simpl never.

Record board_ok (schs : list RoomSchedule) (pending : list Occupancy) : Prop := {
  bd_rooms : NoDup (room_id <$> schs);
  bd_schedules : Forall schedule_ok schs;
  bd_ids : NoDup (occupancyId <$> (all_placed schs ++ pending));
  bd_valid : Forall (fun o => valid_interval (stay o)) pending
}.

(** What no placement changes: the rooms and their fixed intervals *)
Definition frame (schs : list RoomSchedule) : list (Room * list Interval) :=
  (fun s => (room s, fixed s)) <$> schs.

#[export] Instance board_ok_perm schs : Proper ((≡ₚ) ==> iff) (board_ok schs).
Proof.
  intros l k Hlk. split; intros [? ? Hi Hv]; split; try done; by rewrite ?Hlk, <- ?Hlk in *.
Qed.

Lemma update_placed_frame id f schs : frame (update_placed id f schs) = frame schs.
Proof.
  unfold frame, update_placed. rewrite <- list_fmap_compose. apply list_fmap_ext.
  intros _ s _. cbn. by destruct (String.eqb _ _).
Qed.

Lemma frame_rooms schs schs' : frame schs = frame schs' -> room <$> schs = room <$> schs'.
Proof.
  intros Hf. apply (f_equal (fmap fst)) in Hf. unfold frame in Hf.
  rewrite <- !list_fmap_compose in Hf. exact Hf.
Qed.

Lemma frame_ids schs schs' : frame schs = frame schs' -> room_id <$> schs = room_id <$> schs'.
Proof.
  intros Hf%frame_rooms%(f_equal (fmap roomId)). rewrite <- !list_fmap_compose in Hf. exact Hf.
Qed.

Lemma frame_length schs schs' : frame schs = frame schs' -> length schs = length schs'.
Proof. intros Hf%(f_equal length). unfold frame in Hf. by rewrite !length_fmap in Hf. Qed.

(** Rooms have distinct ids, so changing one room's stays touches nothing else. *)
Lemma update_placed_split id f schs s :
  NoDup (room_id <$> schs) -> s ∈ schs -> room_id s = id ->
  exists l r, schs = l ++ s :: r /\ update_placed id f schs = l ++ with_placed f s :: r.
Proof.
  intros Hnd Hs <-. apply list_elem_of_split in Hs as (l & r & ->). exists l, r. split; [done|].
  rewrite fmap_app, fmap_cons in Hnd. apply NoDup_app in Hnd as (_ & Hl & Hr).
  apply NoDup_cons in Hr as [Hr _].
  assert (Hid : forall k, room_id s ∉ (room_id <$> k) -> update_placed (room_id s) f k = k).
  { induction k as [|x k IH]; cbn; [done|]. intros [Hx Hk]%not_elem_of_cons.
    fold (room_id x). destruct (String.eqb_spec (room_id x) (room_id s)); [done|].
    unfold update_placed in IH. by rewrite IH. }
  unfold update_placed. rewrite fmap_app, fmap_cons. fold (room_id s). rewrite String.eqb_refl.
  f_equal; [|f_equal]; apply Hid; [|done]. intros Hx. apply (Hl _ Hx). by left.
Qed.

Lemma all_placed_split l s r : all_placed (l ++ s :: r) ≡ₚ placed s ++ all_placed (l ++ r).
Proof.
  unfold all_placed. rewrite !fmap_app, fmap_cons, !concat_app. cbn.
  rewrite Permutation_app_swap_app. done.
Qed.

Lemma insert_all_placed schs s o : NoDup (room_id <$> schs) -> s ∈ schs ->
  all_placed (update_placed (room_id s) (fun p => insertInterval p o) schs) ≡ₚ o :: all_placed schs.
Proof.
  intros Hnd Hs.
  destruct (update_placed_split _ (fun p => insertInterval p o) _ s Hnd Hs eq_refl) as (l & r & -> & ->).
  rewrite !all_placed_split. cbn. by rewrite insert_perm.
Qed.

Lemma board_place schs pending o rest s :
  board_ok schs pending -> pending ≡ₚ o :: rest -> s ∈ schs -> free s o ->
  board_ok (update_placed (room_id s) (fun p => insertInterval p o) schs) rest.
Proof.
  intros Hb Hp Hs Hf. rewrite Hp in Hb. destruct Hb as [Hr Hok Hi Hv].
  apply Forall_cons in Hv as [Ho Hv]. split; [| | |done].
  - by rewrite (frame_ids _ schs) by apply update_placed_frame.
  - destruct (update_placed_split _ (fun p => insertInterval p o) _ s Hr Hs eq_refl) as (l & r & -> & ->).
    apply Forall_app in Hok as [Hl Hk]. apply Forall_cons in Hk as [Hsk Hk].
    apply Forall_app. split; [done|]. apply Forall_cons. split; [by apply insert_schedule_ok | done].
  - rewrite insert_all_placed by done. revert Hi. by rewrite <- Permutation_middle.
Qed.

(** Undoing a placement restores the board. *)
Lemma update_undo schs s o : NoDup (room_id <$> schs) -> s ∈ schs ->
  occupancyId o ∉ (occupancyId <$> placed s) ->
  update_placed (room_id s) (remove_occupancy (occupancyId o))
    (update_placed (room_id s) (fun p => insertInterval p o) schs) = schs.
Proof.
  intros Hnd Hs Ho. unfold update_placed. rewrite <- list_fmap_compose.
  rewrite <- (list_fmap_id schs) at 2. apply list_fmap_ext. intros i x Hx. cbn.
  destruct (String.eqb_spec (roomId (room x)) (room_id s)) as [E|E]; cbn; rewrite ?E.
  - rewrite String.eqb_refl.
    assert (x = s) as -> by (eapply NoDup_key_eq; eauto; by eapply list_elem_of_lookup_2).
    unfold with_placed. cbn. rewrite remove_insert by done. by destruct s.
  - by apply String.eqb_neq in E as ->.
Qed.

(** ** Candidates *)

Section Placing.
Context `{Collation}.

(** The candidates of a stay are the rooms free for it. *)
Lemma candidate_free schs o c : Forall schedule_ok schs -> valid_interval (stay o) ->
  c ∈ candidates_for schs (stay o) ->
  exists s, s ∈ schs /\ free s o /\ candidateRoom c = room s.
Proof.
  intros Hok Ho. unfold candidates_for. rewrite sort_by_perm, list_elem_of_omap.
  intros (s & Hs & Hc). rewrite Forall_forall in Hok.
  pose proof (score_spec s (stay o) (Hok s Hs) Ho) as Hscore. exists s. unfold free.
  destruct (meets (busy s) (stay o)); [congruence|]. destruct Hscore as (c' & Hc' & Hr).
  split; [done|]. split; [done|congruence].
Qed.

Lemma free_candidate schs o s : Forall schedule_ok schs -> valid_interval (stay o) ->
  s ∈ schs -> free s o -> exists c, c ∈ candidates_for schs (stay o) /\ candidateRoom c = room s.
Proof.
  intros Hok Ho Hs Hf. rewrite Forall_forall in Hok.
  pose proof (score_spec s (stay o) (Hok s Hs) Ho) as Hscore. rewrite Hf in Hscore.
  destruct Hscore as (c & Hc & Hr). exists c. split; [|done].
  unfold candidates_for. rewrite sort_by_perm, list_elem_of_omap. by exists s.
Qed.

Lemma candidates_length schs o : (length (candidates_for schs o) <= length schs)%nat.
Proof.
  unfold candidates_for. rewrite sort_by_perm. induction schs as [|s l IH]; [done|].
  cbn. destruct (scoreCandidate s o); cbn; lia.
Qed.

(** ** The outcome of placing *)

(** The assignment map names the room of every placed stay. *)
Definition assigned_ok (schs : list RoomSchedule) (m : gmap string string) : Prop :=
  forall s o, s ∈ schs -> o ∈ placed s -> m !! occupancyId o = Some (room_id s).

(** All of [pending] has been added to the board [schs]. *)
Record packed (schs : list RoomSchedule) (pending : list Occupancy)
    (schs' : list RoomSchedule) (m' : gmap string string) : Prop := {
  pd_frame : frame schs' = frame schs;
  pd_board : board_ok schs' [];
  pd_placed : all_placed schs' ≡ₚ all_placed schs ++ pending;
  pd_assigned : assigned_ok schs' m'
}.

Lemma elem_of_all_placed schs s o : s ∈ schs -> o ∈ placed s -> o ∈ all_placed schs.
Proof.
  intros Hs Ho. unfold all_placed. apply list_elem_of_In, in_concat. exists (placed s).
  split; [|by apply list_elem_of_In]. apply list_elem_of_In. by apply list_elem_of_fmap_2.
Qed.

Lemma placed_elem_of schs o : o ∈ all_placed schs -> exists s, s ∈ schs /\ o ∈ placed s.
Proof.
  unfold all_placed. intros (p & Hp & Ho)%list_elem_of_In%in_concat.
  apply list_elem_of_In, list_elem_of_fmap in Hp as (s & -> & Hs). exists s.
  split; [done | by apply list_elem_of_In].
Qed.

Lemma board_fresh schs pending o s : board_ok schs pending -> o ∈ pending -> s ∈ schs ->
  occupancyId o ∉ (occupancyId <$> placed s).
Proof.
  intros Hb Ho Hs (x & Hx & Hxs)%list_elem_of_fmap. destruct Hb as [_ _ Hi _].
  rewrite fmap_app, NoDup_app in Hi. destruct Hi as (_ & Hd & _).
  apply (Hd (occupancyId o)); [|by apply list_elem_of_fmap_2].
  rewrite Hx. apply list_elem_of_fmap_2. by eapply elem_of_all_placed.
Qed.

Lemma assigned_place schs pending o s m : board_ok schs pending -> o ∈ pending -> s ∈ schs ->
  assigned_ok schs m ->
  assigned_ok (update_placed (room_id s) (fun p => insertInterval p o) schs)
    (<[occupancyId o := room_id s]> m).
Proof.
  intros Hb Ho Hs Hm s' o' Hs' Ho'. unfold update_placed in Hs'.
  apply list_elem_of_fmap in Hs' as (x & -> & Hx). cbn in Ho' |- *.
  assert (Hold : o' ∈ placed x -> <[occupancyId o := room_id s]> m !! occupancyId o' = Some (room_id x)).
  { intros Hox. rewrite lookup_insert_ne; [by apply Hm|]. intros E.
    apply (board_fresh schs pending o x Hb Ho Hx). rewrite E. by apply list_elem_of_fmap_2. }
  fold (room_id x) in Ho' |- *.
  destruct (String.eqb_spec (room_id x) (room_id s)) as [E|E]; [|by apply Hold].
  change (room_id (with_placed (fun p => insertInterval p o) x)) with (room_id x).
  cbn in Ho'. rewrite insert_perm in Ho'. apply elem_of_cons in Ho' as [->|Ho']; [|by apply Hold].
  by rewrite lookup_insert_eq, E.
Qed.

Lemma packed_place schs pending o rest s schs' m' :
  board_ok schs pending -> pending ≡ₚ o :: rest -> s ∈ schs ->
  packed (update_placed (room_id s) (fun p => insertInterval p o) schs) rest schs' m' ->
  packed schs pending schs' m'.
Proof.
  intros Hb Hp Hs [Hf Hb' Hpl Ha]. split; [|done| |done].
  - by rewrite Hf, update_placed_frame.
  - rewrite Hpl, insert_all_placed, Hp by (done || apply Hb). by rewrite <- Permutation_middle.
Qed.

Lemma packed_nil schs m : board_ok schs [] -> assigned_ok schs m -> packed schs [] schs m.
Proof. intros Hb Ha. split; [done..| |done]. by rewrite app_nil_r. Qed.

(** ** Greedy packing *)

Lemma schedules_in_order schs orderedRooms :
  NoDup (room_id <$> schs) -> orderedRooms = room <$> schs ->
  omap (fun r => schedule_of schs (roomId r)) orderedRooms = schs.
Proof.
  intros Hnd ->.
  assert (Hgen : forall l : list RoomSchedule, (forall s, s ∈ l -> s ∈ schs) ->
            omap (fun r => schedule_of schs (roomId r)) (room <$> l) = l).
  { induction l as [|s l IH]; [done|]. intros Hl. cbn.
    assert (schedule_of schs (roomId (room s)) = Some s) as ->.
    { unfold schedule_of. destruct (List.find _ schs) as [x|] eqn:E.
      - apply find_some in E as [Hx%list_elem_of_In E%String.eqb_eq]. f_equal.
        eapply NoDup_key_eq; eauto. apply Hl. by left.
      - exfalso. pose proof (find_none _ _ E s) as Hn. cbn in Hn. rewrite String.eqb_refl in Hn.
        discriminate Hn. apply list_elem_of_In, Hl. by left. }
    rewrite IH; [done|]. intros x Hx. apply Hl. by right. }
  by apply Hgen.
Qed.

Lemma greedy_packs orderedRooms pending : forall schs m schs' m',
  board_ok schs pending -> orderedRooms = room <$> schs -> assigned_ok schs m ->
  greedy orderedRooms pending schs m = Some (schs', m') -> packed schs pending schs' m'.
Proof.
  induction pending as [|o rest IH]; intros schs m schs' m' Hb Hr Ha Hg; cbn in Hg.
  - injection Hg as <- <-. by apply packed_nil.
  - unfold place_greedily in Hg. rewrite schedules_in_order in Hg by (done || apply Hb).
    destruct (head (candidates_for schs (stay o))) as [c|] eqn:E; [|done].
    assert (Hc : c ∈ candidates_for schs (stay o)).
    { apply head_Some_elem_of in E. done. }
    pose proof (bd_valid _ _ Hb) as Hv. apply Forall_cons in Hv as [Ho _].
    destruct (candidate_free schs o c (bd_schedules _ _ Hb) Ho Hc) as (s & Hs & Hf & Er).
    rewrite Er in Hg. fold (room_id s) in Hg.
    eapply packed_place; [exact Hb | done | exact Hs |].
    eapply IH; [| | |exact Hg].
    + by eapply board_place.
    + rewrite Hr. symmetry. apply frame_rooms, update_placed_frame.
    + eapply assigned_place; [exact Hb | by left | done..].
Qed.

(** ** The search *)

Lemma without_perm o pending : NoDup (occupancyId <$> pending) -> o ∈ pending ->
  pending ≡ₚ o :: without o pending.
Proof.
  induction pending as [|x l IH]; intros Hnd Ho; [by apply elem_of_nil in Ho|].
  cbn in Hnd. apply NoDup_cons in Hnd as [Hx Hnd]. unfold without. rewrite filter_cons.
  apply elem_of_cons in Ho as [<-|Ho].
  - rewrite decide_False by (intros Hne; by apply Hne). constructor.
    assert (E : filter (fun y => occupancyId y <> occupancyId o) l = l); [|by rewrite E].
    clear IH Hnd. induction l as [|y l IH]; [done|]. cbn in Hx. apply not_elem_of_cons in Hx as [Hy Hl].
    rewrite filter_cons, decide_True by congruence. by rewrite IH.
  - rewrite decide_True.
    + rewrite (IH Hnd Ho) at 1. by constructor.
    + intros E. apply Hx. rewrite E. by apply list_elem_of_fmap_2.
Qed.

Lemma choices_head schs pending : pending <> [] ->
  exists o cs, choices schs pending = (o, candidates_for schs (stay o)) :: cs /\ o ∈ pending.
Proof.
  intros Hne. destruct (choices schs pending) as [|[o cands] cs] eqn:E.
  - exfalso. apply Hne. apply (f_equal length) in E. unfold choices in E.
    rewrite sort_by_perm, length_fmap in E. by destruct pending.
  - exists o, cs.
    assert (Hin : (o, cands) ∈ choices schs pending) by (rewrite E; left).
    unfold choices in Hin. rewrite sort_by_perm in Hin.
    apply list_elem_of_fmap in Hin as (o' & [= -> ->] & Ho). done.
Qed.

Definition same_board (st st' : SearchState) : Prop :=
  schedules st' = schedules st /\ assigned st' = assigned st.

(** The state a search is called in: a good board, whose map names the placed
    stays and none of the pending ones *)
Record ready (pending : list Occupancy) (st : SearchState) : Prop := {
  rd_board : board_ok (schedules st) pending;
  rd_assigned : assigned_ok (schedules st) (assigned st);
  rd_fresh : forall o, o ∈ pending -> assigned st !! occupancyId o = None
}.

Definition search_sound (pending : list Occupancy) (st : SearchState)
    (r : option (bool * SearchState)) : Prop :=
  exists (found : bool) st', r = Some (found, st') /\
    if found then packed (schedules st) pending (schedules st') (assigned st') else same_board st st'.

(** Rooms free for [o], as candidates *)
Definition free_candidates (o : Occupancy) (st : SearchState) (cs : list Candidate) : Prop :=
  forall c, c ∈ cs -> exists s, s ∈ schedules st /\ free s o /\ candidateRoom c = room s.

Lemma ready_try pending o rest s st : ready pending st -> pending ≡ₚ o :: rest ->
  s ∈ schedules st -> free s o -> ready rest (try_room o (room_id s) st).
Proof.
  intros [Hb Ha Hf] Hp Hs Hfr. assert (Ho : o ∈ pending) by (rewrite Hp; by left).
  split; cbn.
  - by eapply board_place.
  - by eapply assigned_place.
  - intros x Hx. rewrite lookup_insert_ne; [apply Hf; rewrite Hp; by right|]. intros E.
    rewrite Hp in Hb. pose proof (bd_ids _ _ Hb) as Hi. rewrite fmap_app, NoDup_app in Hi.
    destruct Hi as (_ & _ & Hi). cbn in Hi. apply NoDup_cons in Hi as [Hi _]. apply Hi.
    rewrite E. by apply list_elem_of_fmap_2.
Qed.

Lemma undo_try pending o rest s st st1 : ready pending st -> pending ≡ₚ o :: rest ->
  s ∈ schedules st -> same_board (try_room o (room_id s) st) st1 ->
  same_board st (undo_room o (room_id s) st1).
Proof.
  intros [Hb _ Hf] Hp Hs [E1 E2]. assert (Ho : o ∈ pending) by (rewrite Hp; by left). split; cbn.
  - rewrite E1. cbn. apply update_undo; [apply Hb | done | by eapply board_fresh].
  - rewrite E2. cbn. rewrite delete_insert_id; [done | by apply Hf].
Qed.

Lemma ready_same pending st st' : same_board st st' -> ready pending st -> ready pending st'.
Proof. intros [E1 E2] []. split; by rewrite ?E1, ?E2. Qed.

Lemma try_candidates_sound search pending o rest :
  pending ≡ₚ o :: rest ->
  (forall st, ready rest st -> search_sound rest st (search st)) ->
  forall cs st, ready pending st -> free_candidates o st cs ->
  search_sound pending st (try_candidates search o cs st).
Proof.
  intros Hp Hsearch. induction cs as [|c cs IH]; intros st Hr Hc; cbn [try_candidates].
  - by exists false, st.
  - destruct (Hc c ltac:(by left)) as (s & Hs & Hf & Er). rewrite Er. fold (room_id s).
    destruct (Hsearch _ (ready_try _ _ _ _ _ Hr Hp Hs Hf)) as (found & st1 & -> & H1).
    destruct found.
    + exists true, st1. split; [done|]. eapply packed_place; [apply Hr | done | done | exact H1].
    + pose proof (undo_try _ _ _ _ _ _ Hr Hp Hs H1) as Hsame.
      destruct (IH (undo_room o (room_id s) st1)) as (found & st2 & -> & H2).
      * by eapply ready_same.
      * intros x Hx. destruct Hsame as [-> _]. apply Hc. by right.
      * exists found, st2. split; [done|]. destruct Hsame as [E1 E2].
        destruct found; [by rewrite <- E1 | destruct H2; split; congruence].
Qed.

Lemma ready_ids pending st : ready pending st -> NoDup (occupancyId <$> pending).
Proof.
  intros [Hb _ _]. pose proof (bd_ids _ _ Hb) as Hi. rewrite fmap_app, NoDup_app in Hi. tauto.
Qed.

Lemma ready_candidates pending st o : ready pending st -> o ∈ pending ->
  free_candidates o st (candidates_for (schedules st) (stay o)).
Proof.
  intros [Hb _ _] Ho c Hc. eapply candidate_free; [apply Hb | | done].
  pose proof (bd_valid _ _ Hb) as Hv. rewrite Forall_forall in Hv. by apply Hv.
Qed.

Lemma without_length o pending : NoDup (occupancyId <$> pending) -> o ∈ pending ->
  length pending = S (length (without o pending)).
Proof. intros Hnd Ho. by rewrite (without_perm o pending Hnd Ho) at 1. Qed.

(** With fuel for the pending stays the search returns, with every stay placed
    or with the board as it was. *)
Lemma search_placement_sound budget fuel : forall pending st,
  (length pending < fuel)%nat -> ready pending st ->
  search_sound pending st (searchPlacement fuel budget pending st).
Proof.
  induction fuel as [|fuel IH]; intros pending st Hf Hr; [lia|]. cbn [searchPlacement].
  destruct pending as [|x l] eqn:Ep; [|rewrite <- Ep in *].
  - exists true, st. split; [done|]. destruct Hr. by apply packed_nil.
  - destruct (_ <=? _); [by exists false, (mark_exhausted st)|].
    destruct (decide _); [by exists false, st|].
    destruct (choices_head (schedules st) pending) as (o & cs & -> & Ho); [by rewrite Ep|].
    pose proof (ready_ids _ _ Hr) as Hnd. pose proof (without_length _ _ Hnd Ho).
    refine (try_candidates_sound _ _ o (without o pending) _ _ _ (mark_seen _ st) _ _);
      [by apply without_perm | | |].
    + intros st' Hr'. apply IH; [lia | done].
    + by destruct Hr.
    + exact (ready_candidates pending st o Hr Ho).
Qed.
End Placing.
