(* ===== verification/AssignmentComplete.v ===== *)
(** * The search is exhaustive

    A search that fails without exhausting its budget has shown that the pending
    stays cannot be placed; the memo of visited states never hides a solution,
    because a state's text determines the state.  The nodes visited exceed the
    budget by at most the candidates still open on the path. *)

From S2P Require Import Prelude JsValue JsonText CalendarDates RoomAssignment AssignmentIntervals AssignmentSearch.

(** ** What the search decides *)

(** Every pending stay can be given a room free for it, stays of one room apart. *)
Definition extendable (schs : list RoomSchedule) (pending : list Occupancy) : Prop :=
  exists p : Occupancy -> string,
    (forall o, o ∈ pending -> exists s, s ∈ schs /\ p o = room_id s /\ free s o) /\
    (forall o o', o ∈ pending -> o' ∈ pending -> occupancyId o <> occupancyId o' ->
       p o = p o' -> overlaps (stay o) (stay o') = false).

#[export] Instance extendable_perm schs : Proper ((≡ₚ) ==> iff) (extendable schs).
Proof. intros l k Hlk. unfold extendable. by setoid_rewrite Hlk. Qed.

(** The room chosen for one stay leaves the others placeable. *)
Lemma extend_step schs pending o rest :
  board_ok schs pending -> pending ≡ₚ o :: rest -> extendable schs pending ->
  exists s, s ∈ schs /\ free s o /\
    extendable (update_placed (room_id s) (fun p => insertInterval p o) schs) rest.
Proof.
  intros Hb Hp Hex. rewrite Hp in Hb, Hex. destruct Hex as (p & Hfree & Hapart).
  destruct (Hfree o ltac:(by left)) as (s & Hs & Hps & Hf). exists s. split; [done|]. split; [done|].
  exists p. split; [|intros x y Hx Hy; apply Hapart; by right].
  intros x Hx. destruct (Hfree x ltac:(by right)) as (s' & Hs' & Hps' & Hf').
  exists (if String.eqb (room_id s') (room_id s) then with_placed (fun p => insertInterval p o) s' else s').
  split; [unfold update_placed; apply list_elem_of_fmap; by exists s'|].
  destruct (String.eqb_spec (room_id s') (room_id s)) as [E|E]; [|done]. split; [done|].
  apply free_iff in Hf' as [Hff Hfp]. apply free_iff. split; [done|].
  change (placed (with_placed (fun p => insertInterval p o) s')) with (insertInterval (placed s') o).
  rewrite (meets_perm _ (stay <$> o :: placed s')) by (by rewrite insert_perm).
  change (overlaps (stay o) (stay x) || meets (stay <$> placed s') (stay x) = false).
  rewrite Hfp, orb_false_r. apply Hapart; [by left | by right | | congruence].
  pose proof (bd_ids _ _ Hb) as Hi. rewrite fmap_app, NoDup_app in Hi. destruct Hi as (_ & _ & Hi).
  cbn in Hi. apply NoDup_cons in Hi as [Hi _]. intros E'. apply Hi. rewrite E'.
  by apply list_elem_of_fmap_2.
Qed.

(** ** The text of a state determines it *)

(** An id the texts of states cannot confuse: not empty, no separator *)
Definition id_char (c : ascii) : bool := negb (is_char "," c) && negb (is_char "|" c).
Definition clean_id (id : string) : Prop := id <> "" /\ all_chars id_char id = true.

(** What follows a list of ids: nothing, or the separator of the rooms *)
Definition at_bar (r : string) : Prop := r = "" \/ exists t, r = "|" +:+ t.

Lemma at_bar_stops r c t : at_bar r -> r = String c t -> id_char c = false.
Proof. intros [->|[t' ->]] H; [done|]. by injection H as <- _. Qed.

Lemma join_clean_cons x l r : at_bar r -> exists t,
  join "," (x :: l) +:+ r = x +:+ t /\ (forall c u, t = String c u -> id_char c = false) /\
  t = match l with [] => r | _ => "," +:+ join "," l +:+ r end.
Proof.
  intros Hr. destruct l as [|y l]; [exists r; split_and!; [done| |done]; intros; by eapply at_bar_stops|].
  eexists. split_and!; [|  |reflexivity].
  - change (join "," (x :: y :: l)) with (x +:+ "," +:+ join "," (y :: l)).
    by rewrite !string_app_assoc.
  - intros c u H. by injection H as <- _.
Qed.

Lemma clean_not_bar x t r : clean_id x -> at_bar r -> r <> x +:+ t.
Proof.
  intros [Hne Hx] Hr E. destruct x as [|c x]; [done|]. cbn in E, Hx.
  by rewrite (at_bar_stops r c (x +:+ t) Hr E) in Hx.
Qed.

Lemma join_ids_inj l l' : forall r r', Forall clean_id l -> Forall clean_id l' ->
  at_bar r -> at_bar r' -> join "," l +:+ r = join "," l' +:+ r' -> l = l' /\ r = r'.
Proof.
  revert l'. induction l as [|x l IH]; intros [|y l'] r r' Hl Hl' Hr Hr' E.
  - done.
  - apply Forall_cons in Hl' as [Hy _]. destruct (join_clean_cons y l' r' Hr') as (t & Et & _).
    rewrite Et in E. cbn in E. by apply clean_not_bar in E.
  - apply Forall_cons in Hl as [Hx _]. destruct (join_clean_cons x l r Hr) as (t & Et & _).
    rewrite Et in E. cbn in E. symmetry in E. by apply clean_not_bar in E.
  - apply Forall_cons in Hl as [[Hx0 Hx] Hl]. apply Forall_cons in Hl' as [[Hy0 Hy] Hl'].
    destruct (join_clean_cons x l r Hr) as (t & Et & Hst & Ht).
    destruct (join_clean_cons y l' r' Hr') as (t' & Et' & Hst' & Ht'). rewrite Et, Et' in E.
    destruct (span_inj id_char x y t t' Hx Hy Hst Hst' E) as [-> E'].
    rewrite Ht, Ht' in E'. destruct l as [|z l], l' as [|z' l'].
    + done.
    + exfalso. destruct Hr as [->|[u ->]]; discriminate E'.
    + exfalso. destruct Hr' as [->|[u ->]]; discriminate E'.
    + injection E' as E'. destruct (IH (z' :: l') r r' Hl Hl' Hr Hr' E') as [-> ->]. done.
Qed.

(** The text of one room's placed stays *)
Definition room_text (s : RoomSchedule) : string :=
  roomId (room s) +:+ ":" +:+ join "," (occupancyId <$> placed s).

Lemma rooms_text_inj schs schs' :
  room <$> schs = room <$> schs' ->
  Forall (fun s => Forall clean_id (occupancyId <$> placed s)) schs ->
  Forall (fun s => Forall clean_id (occupancyId <$> placed s)) schs' ->
  join "|" (room_text <$> schs) = join "|" (room_text <$> schs') ->
  Forall2 (fun s s' => occupancyId <$> placed s = occupancyId <$> placed s') schs schs'.
Proof.
  revert schs'. induction schs as [|s schs IH]; intros [|s' schs'] Hr H H' E; try done.
  apply Forall_cons in H as [Hs H]. apply Forall_cons in H' as [Hs' H'].
  injection Hr as Hr1 Hr2.
  assert (Hcons : forall (x : RoomSchedule) l, exists t, at_bar t /\
            join "|" (room_text <$> x :: l) = roomId (room x) +:+ ":" +:+ join "," (occupancyId <$> placed x) +:+ t /\
            t = match l with [] => "" | _ => "|" +:+ join "|" (room_text <$> l) end).
  { intros x [|y l].
    - exists "". split; [by left|]. split; [|done]. cbn. by rewrite string_app_nil_r.
    - eexists. split; [right; by eexists|]. split; [|reflexivity].
      change (join "|" (room_text <$> x :: y :: l))
        with (room_text x +:+ "|" +:+ join "|" (room_text <$> y :: l)).
      unfold room_text at 1. by rewrite !string_app_assoc. }
  destruct (Hcons s schs) as (t & Ht & Et & Dt), (Hcons s' schs') as (t' & Ht' & Et' & Dt').
  rewrite Et, Et', Hr1 in E. apply string_app_cancel, string_app_cancel in E.
  destruct (join_ids_inj _ _ _ _ Hs Hs' Ht Ht' E) as [Eids Er]. constructor; [done|].
  apply IH; try done. rewrite Dt, Dt' in Er.
  destruct schs, schs'; try done. by injection Er.
Qed.

(** ** The budget *)

Section Budget.
Context `{Collation}.

(** The exhaustion mark stays: a state that is not exhausted comes from one that
    was not. *)
Definition keeps_exhausted (search : SearchState -> option (bool * SearchState)) : Prop :=
  forall st b st', search st = Some (b, st') -> exhausted st' = false -> exhausted st = false.

Lemma try_keeps_exhausted search o cs :
  keeps_exhausted search -> keeps_exhausted (try_candidates search o cs).
Proof.
  intros Hk. induction cs as [|c cs IH]; intros st b st' E Hex; cbn in E; [by simplify_eq|].
  destruct (search _) as [[[] st1]|] eqn:E1; simplify_eq.
  - exact (Hk _ _ _ E1 Hex).
  - exact (Hk _ _ _ E1 (IH _ _ _ E Hex)).
Qed.

Lemma search_keeps_exhausted budget fuel : forall pending,
  keeps_exhausted (searchPlacement fuel budget pending).
Proof.
  induction fuel as [|fuel IH]; intros pending st b st' E Hex; cbn [searchPlacement] in E; [done|].
  destruct pending as [|x l]; [by simplify_eq|].
  destruct (_ <=? _); [by simplify_eq|]. destruct (decide _); [by simplify_eq|].
  destruct (choices _ _) as [|[o cs] ch]; [done|].
  exact (try_keeps_exhausted _ _ _ (IH _) _ _ _ E Hex).
Qed.

(** The nodes counted by a search from [n] pending stays with [R] rooms *)
Definition counts_within (budget R n : Z) (st st' : SearchState) : Prop :=
  length (schedules st') = length (schedules st) /\
  count st <= count st' <= Z.max (count st) (budget + n * R).

Lemma try_counts search o cs budget n : forall st b st',
  (forall st b st', search st = Some (b, st') ->
     counts_within budget (Z.of_nat (length (schedules st))) n st st') ->
  try_candidates search o cs st = Some (b, st') ->
  length (schedules st') = length (schedules st) /\
  count st <= count st' <=
    Z.max (count st) (budget + n * Z.of_nat (length (schedules st))) + Z.of_nat (length cs).
Proof.
  induction cs as [|c cs IH]; intros st b st' Hs E; cbn [try_candidates] in E; [simplify_eq; cbn; lia|].
  destruct (search _) as [[found st1]|] eqn:E1; [|done].
  destruct (Hs _ _ _ E1) as [Hl1 Hc1]. cbn in Hl1, Hc1.
  unfold update_placed in Hl1, Hc1. rewrite length_fmap in Hl1, Hc1.
  cbn [length]. destruct found; [simplify_eq; lia|].
  destruct (IH _ _ _ Hs E) as [Hl2 Hc2]. cbn in Hl2, Hc2.
  unfold update_placed in Hl2, Hc2. rewrite length_fmap, Hl1 in Hl2, Hc2. lia.
Qed.

Lemma search_counts budget fuel : 0 <= budget -> forall pending st b st',
  NoDup (occupancyId <$> pending) ->
  searchPlacement fuel budget pending st = Some (b, st') ->
  counts_within budget (Z.of_nat (length (schedules st))) (Z.of_nat (length pending)) st st'.
Proof.
  intros Hb. unfold counts_within.
  induction fuel as [|fuel IH]; intros pending st b st' Hnd E; cbn [searchPlacement] in E; [done|].
  destruct pending as [|x l] eqn:Ep; [simplify_eq; cbn; lia|]. rewrite <- Ep in *.
  destruct (Z.leb_spec budget (count st)) as [|Hlt]; [simplify_eq; cbn; lia|].
  destruct (decide _); [simplify_eq; cbn; lia|].
  destruct (choices_head (schedules st) pending) as (o & cs & Ech & Ho); [by rewrite Ep|].
  rewrite Ech in E. pose proof (without_length _ _ Hnd Ho) as Hlen.
  apply (try_counts _ _ _ budget (Z.of_nat (length (without o pending)))) in E.
  - destruct E as [El Ec]. cbn in El, Ec. split; [done|].
    pose proof (candidates_length (schedules st) (stay o)). rewrite Hlen. nia.
  - intros st0 b0 st0' E0. apply (IH _ _ b0); [|exact E0].
    rewrite (without_perm o pending Hnd Ho) in Hnd. cbn in Hnd. apply NoDup_cons in Hnd as [_ Hnd]. done.
Qed.
End Budget.

(** ** Completeness *)

Section Universe.
(** The stays of one run, and the rooms with their fixed intervals *)
Context `{Collation} (U : list Occupancy) (K : list (Room * list Interval)).
Hypothesis U_ids : NoDup (occupancyId <$> U).
Hypothesis U_clean : Forall clean_id (occupancyId <$> U).

Record in_universe (schs : list RoomSchedule) (pending : list Occupancy) : Prop := {
  un_frame : frame schs = K;
  un_placed : forall o, o ∈ all_placed schs -> o ∈ U;
  un_pending : forall o, o ∈ pending -> o ∈ U
}.

Lemma ids_inj (l l' : list Occupancy) : (forall o, o ∈ l -> o ∈ U) -> (forall o, o ∈ l' -> o ∈ U) ->
  occupancyId <$> l = occupancyId <$> l' -> l = l'.
Proof using U_ids.
  clear U_clean. revert l'. induction l as [|x l IH]; intros [|y l'] Hl Hl' E; try done. injection E as Ex El. f_equal.
  - eapply NoDup_key_eq; [exact U_ids | apply Hl; by left | apply Hl'; by left | done].
  - apply IH; [| |done]; intros o Ho; [apply Hl | apply Hl']; by right.
Qed.

Lemma ids_perm (l l' : list Occupancy) : (forall o, o ∈ l -> o ∈ U) -> (forall o, o ∈ l' -> o ∈ U) ->
  occupancyId <$> l ≡ₚ occupancyId <$> l' -> l ≡ₚ l'.
Proof using U_ids.
  clear U_clean. intros Hl Hl' E. apply Permutation_map_inv in E as (m & Em & Hm).
  rewrite Hm. rewrite (ids_inj l m); [done|done| |exact Em].
  intros o Ho. apply Hl'. by rewrite Hm.
Qed.

Lemma clean_ids (l : list Occupancy) : (forall o, o ∈ l -> o ∈ U) -> Forall clean_id (occupancyId <$> l).
Proof using U_clean.
  intros Hl. apply Forall_forall. intros id (o & -> & Ho)%list_elem_of_fmap.
  rewrite Forall_forall in U_clean. apply U_clean. apply list_elem_of_fmap_2. by apply Hl.
Qed.

Lemma rooms_clean schs pending : in_universe schs pending ->
  Forall (fun s => Forall clean_id (occupancyId <$> placed s)) schs.
Proof using U_clean.
  intros [_ Hp _]. apply Forall_forall. intros s Hs. apply clean_ids.
  intros o Ho. apply Hp. by eapply elem_of_all_placed.
Qed.

Lemma state_key_inj schs pending schs' pending' :
  in_universe schs pending -> in_universe schs' pending' ->
  state_key schs pending = state_key schs' pending' -> schs = schs' /\ pending ≡ₚ pending'.
Proof using U_ids U_clean.
  intros Hu Hu' E. unfold state_key in E. fold room_text in E.
  pose proof Hu as [Hf Hp Hl]. pose proof Hu' as [Hf' Hp' Hl'].
  apply join_ids_inj in E as [Es Er]; [|apply Forall_stable_sort; by apply clean_ids | apply Forall_stable_sort; by apply clean_ids | right; by eexists | right; by eexists].
  split.
  - apply string_app_cancel in Er. change (join "|" (room_text <$> schs) = join "|" (room_text <$> schs')) in Er.
    apply rooms_text_inj in Er; [|apply frame_rooms; congruence | by eapply rooms_clean | by eapply rooms_clean].
    assert (Hfr : frame schs = frame schs') by congruence. clear Hf Hf' Es Hu Hu' Hl Hl'.
    induction Er as [|s s' l l' Hs _ IH]; [done|]. injection Hfr as Hr Hfx Hfr.
    unfold all_placed in Hp, Hp'. cbn in Hp, Hp'. f_equal.
    + apply ids_inj in Hs; [|intros o Ho; apply Hp; apply elem_of_app; by left
                            |intros o Ho; apply Hp'; apply elem_of_app; by left].
      destruct s, s'; cbn in *; congruence.
    + apply IH; [| |exact Hfr].
      * intros o Ho. apply Hp, elem_of_app. by right.
      * intros o Ho. apply Hp', elem_of_app. by right.
  - apply ids_perm; [done..|]. rewrite <- (stable_sort_perm str_le (occupancyId <$> pending)), Es.
    apply stable_sort_perm.
Qed.

(** A visited state that is known to lead nowhere *)
Definition dead (key : string) : Prop :=
  exists schs pending, in_universe schs pending /\ state_key schs pending = key /\
    ~ extendable schs pending.

(** Every visited state is dead, or an ancestor, with more stays pending. *)
Definition seen_ok (n : nat) (keys : gset string) : Prop :=
  forall key, key ∈ keys -> dead key \/
    exists schs pending, in_universe schs pending /\ state_key schs pending = key /\
      (n < length pending)%nat.

Lemma seen_not_extendable schs pending keys : in_universe schs pending ->
  seen_ok (length pending) keys -> state_key schs pending ∈ keys -> ~ extendable schs pending.
Proof using U_ids U_clean.
  intros Hu Hs Hin. destruct (Hs _ Hin) as [(schs' & pending' & Hu' & E & Hd)|(schs' & pending' & Hu' & E & Hl)];
    destruct (state_key_inj _ _ _ _ Hu' Hu E) as [-> Hp].
  - by rewrite <- Hp.
  - rewrite Hp in Hl. lia.
Qed.

(** The verdict of a search from [st]: without exhaustion a failure is a proof
    that nothing fits, and adds only dead states to the memo. *)
Definition search_complete (pending : list Occupancy) (st : SearchState)
    (r : option (bool * SearchState)) : Prop :=
  forall st', r = Some (false, st') -> exhausted st' = false ->
    ~ extendable (schedules st) pending /\
    forall key, key ∈ seen st' -> key ∈ seen st \/ dead key.

Lemma universe_try pending o rest s st :
  board_ok (schedules st) pending -> in_universe (schedules st) pending -> pending ≡ₚ o :: rest ->
  s ∈ schedules st -> in_universe (schedules (try_room o (room_id s) st)) rest.
Proof.
  intros Hb [Hf Hp Hl] Hpo Hs. split; cbn.
  - by rewrite update_placed_frame.
  - intros x. rewrite insert_all_placed by (done || apply Hb).
    intros [->|Hx]%elem_of_cons; [apply Hl; rewrite Hpo; by left | by apply Hp].
  - intros x Hx. apply Hl. rewrite Hpo. by right.
Qed.

(** Trying all candidates of a stay: if the loop fails unexhausted, no candidate
    room can be extended. *)
Lemma try_candidates_complete search pending o rest :
  pending ≡ₚ o :: rest -> keeps_exhausted search ->
  (forall st, ready rest st -> search_sound rest st (search st)) ->
  (forall st, ready rest st -> in_universe (schedules st) rest -> seen_ok (length rest) (seen st) ->
     search_complete rest st (search st)) ->
  forall cs st, ready pending st -> free_candidates o st cs -> in_universe (schedules st) pending ->
  seen_ok (length rest) (seen st) ->
  forall st', try_candidates search o cs st = Some (false, st') -> exhausted st' = false ->
    (forall c s, c ∈ cs -> s ∈ schedules st -> candidateRoom c = room s ->
       ~ extendable (update_placed (room_id s) (fun p => insertInterval p o) (schedules st)) rest) /\
    forall key, key ∈ seen st' -> key ∈ seen st \/ dead key.
Proof.
  intros Hp Hmono Hsound Hcomplete.
  induction cs as [|c cs IH]; intros st Hr Hc Hu Hseen st' E Hex; cbn [try_candidates] in E.
  - injection E as <-. split; [|auto]. intros c s Hcs. by apply elem_of_nil in Hcs.
  - destruct (Hc c ltac:(by left)) as (s & Hs & Hf & Er). rewrite Er in E. fold (room_id s) in E.
    pose proof (ready_try _ _ _ _ _ Hr Hp Hs Hf) as Hr1.
    pose proof (universe_try _ _ _ _ _ (rd_board _ _ Hr) Hu Hp Hs) as Hu1.
    destruct (Hsound _ Hr1) as (found & st1 & E1 & H1). rewrite E1 in E. destruct found; [done|].
    pose proof (undo_try _ _ _ _ _ _ Hr Hp Hs H1) as Hsame. pose proof (proj1 Hsame) as Eb.
    pose proof (try_keeps_exhausted _ _ _ Hmono _ _ _ E Hex) as Hex1.
    destruct (Hcomplete _ Hr1 Hu1 Hseen st1 E1 Hex1) as [Hno Hold].
    destruct (IH (undo_room o (room_id s) st1)) with (st' := st') as [Hrest Hnew]; try done.
    + by eapply ready_same.
    + intros x Hx. rewrite Eb. apply Hc. by right.
    + by rewrite Eb.
    + intros key Hk. destruct (Hold key Hk); [by apply Hseen | by left].
    + split; [|intros key Hk; destruct (Hnew key Hk); auto].
      intros c' s' [->|Hc']%elem_of_cons Hs' Er'.
      * assert (s' = s) as ->; [|done]. eapply NoDup_key_eq; [apply (bd_rooms _ _ (rd_board _ _ Hr)) | done..|].
        unfold room_id. congruence.
      * rewrite <- Eb. apply (Hrest c'); [done | by rewrite Eb | done].
Qed.

Lemma search_placement_complete budget fuel : forall pending st,
  (length pending < fuel)%nat -> ready pending st -> in_universe (schedules st) pending ->
  seen_ok (length pending) (seen st) ->
  search_complete pending st (searchPlacement fuel budget pending st).
Proof using U_ids U_clean.
  induction fuel as [|fuel IH]; intros pending st Hf Hr Hu Hseen st' E Hex; [done|].
  cbn [searchPlacement] in E. destruct pending as [|x l] eqn:Ep; [done|]. rewrite <- Ep in *.
  destruct (_ <=? _); [by simplify_eq|].
  destruct (decide _) as [Hin|Hnin].
  { injection E as <-. split; [by eapply seen_not_extendable | auto]. }
  destruct (choices_head (schedules st) pending) as (o & cs & Ech & Ho); [by rewrite Ep|].
  rewrite Ech in E. pose proof (ready_ids _ _ Hr) as Hnd.
  pose proof (without_length _ _ Hnd Ho) as Hlen. pose proof (without_perm _ _ Hnd Ho) as Hperm.
  set (st0 := mark_seen (state_key (schedules st) pending) st) in E.
  assert (Hr0 : ready pending st0) by by destruct Hr.
  destruct (try_candidates_complete _ pending o (without o pending) Hperm
              (search_keeps_exhausted budget fuel (without o pending))
              (fun st1 H1 => search_placement_sound budget fuel (without o pending) st1 ltac:(lia) H1)
              (fun st1 H1 H2 H3 => IH (without o pending) st1 ltac:(lia) H1 H2 H3)
              _ st0 Hr0 (ready_candidates pending st o Hr Ho) Hu) with (st' := st') as [Hno Hold]; try done.
  - intros key [->%elem_of_singleton|Hk]%elem_of_union.
    + right. exists (schedules st), pending. split_and!; [done..|lia].
    + destruct (Hseen key Hk) as [Hd|(schs & p & H1 & H2 & H3)]; [by left|].
      right. exists schs, p. split_and!; [done..|lia].
  - assert (Hdead : ~ extendable (schedules st) pending).
    { intros Hext. destruct (extend_step _ _ _ _ (rd_board _ _ Hr) Hperm Hext) as (s & Hs & Hfree & Hrest).
      destruct (free_candidate (schedules st) o s) as (c & Hc & Erc); try done.
      - apply (rd_board _ _ Hr).
      - pose proof (bd_valid _ _ (rd_board _ _ Hr)) as Hv. rewrite Forall_forall in Hv. by apply Hv.
      - by apply (Hno c s Hc Hs Erc). }
    split; [done|]. intros key Hk. destruct (Hold key Hk) as [[->%elem_of_singleton|Hk']%elem_of_union|]; auto.
    right. by exists (schedules st), pending.
Qed.
End Universe.

(** * Peak demand

    The sweep over arrivals and departures that rejects a run early: when more
    stays cover one night than there are rooms, no placement exists. *)

(** ** The sweep counts the stays of a night *)

Definition covers (d : Z) (i : Interval) : bool := (start i <=? d) && (d <? finish i).

Definition event_ok (e : Event) : Prop := validDate (date e) = true /\ (delta e = 1 \/ delta e = -1).

(** Departures come before the arrivals of the same day. *)
Definition event_rank (e : Event) : Z := 3 * date_parse (date e) + delta e.

Lemma sort_events `{CollationLaws} l : Forall event_ok l ->
  sort_by compare_events l = stable_sort (fun a b => event_rank a <=? event_rank b) l.
Proof.
  intros Hl. apply (stable_sort_ext event_ok); [|done]. intros a b [Ha Da] [Hb Db].
  unfold compare_events, or_else, event_rank. pose proof (locale_days _ _ Ha Hb) as E.
  destruct (Z.eqb_spec (localeCompare (date a) (date b)) 0) as [E0|E0].
  - rewrite E0 in E. symmetry in E. apply Z.compare_eq in E. lia.
  - pose proof (Z.compare_spec (localeCompare (date a) (date b)) 0) as Hc. rewrite E in Hc.
    destruct (Z.compare_spec (date_parse (date a)) (date_parse (date b))); inversion Hc; lia.
Qed.

Lemma sum_of_le {A} (f g : A -> Z) l : (forall x, x ∈ l -> f x <= g x) -> sum_of f l <= sum_of g l.
Proof.
  unfold sum_of. induction l as [|x l IH]; intros H; cbn; [lia|].
  pose proof (H x ltac:(by left)). specialize (IH ltac:(intros; apply H; by right)). lia.
Qed.

Lemma exceeds_prefix limit events : forall c, exceeds limit c events = true ->
  exists p r, events = p ++ r /\ limit < c + sum_of delta p.
Proof.
  induction events as [|e events IH]; intros c; cbn; [done|].
  destruct (Z.ltb_spec limit (c + delta e)).
  - intros _. exists [e], events. split; [done|]. cbn. lia.
  - intros (p & r & -> & Hlt)%IH. exists (e :: p), r. split; [done|]. cbn. unfold sum_of in Hlt. lia.
Qed.

(** The arrivals up to the day [d] less the departures *)
Definition net (d : Z) (events : list Event) : Z :=
  sum_of (fun e => if date_parse (date e) <=? d then delta e else 0) events.

Lemma prefix_net p : forall r, StronglySorted (fun a b => event_rank a <= event_rank b) (p ++ r) ->
  Forall event_ok (p ++ r) -> 0 < sum_of delta p -> exists d, sum_of delta p <= net d (p ++ r).
Proof.
  induction p as [|e p IH] using rev_ind; intros r Hs Hok Hpos; [done|].
  rewrite <- app_assoc in *. cbn [app] in *. rewrite sum_of_app in *. cbn in Hpos |- *.
  pose proof Hok as Hok'. apply Forall_app in Hok' as [Hp Her]. apply Forall_cons in Her as [[_ He] Hr].
  destruct He as [He|He]; [|destruct (IH (e :: r) Hs Hok ltac:(lia)) as [d Hd]; exists d; lia].
  exists (date_parse (date e)). unfold net. rewrite sum_of_app.
  apply StronglySorted_app in Hs as (Hcross & _ & Hs). inversion Hs as [|? ? _ HF]; subst.
  rewrite Forall_forall in Hp, Hr, HF. cbn [sum_of foldr]. rewrite Z.leb_refl.
  assert (sum_of delta p <= sum_of (fun x => if date_parse (date x) <=? date_parse (date e) then delta x else 0) p).
  { apply sum_of_le. intros x Hx. specialize (Hcross x e Hx ltac:(by left)).
    destruct (Hp x Hx) as [_ Hd]. unfold event_rank in Hcross.
    destruct (Z.leb_spec (date_parse (date x)) (date_parse (date e))); lia. }
  assert (0 <= sum_of (fun x => if date_parse (date x) <=? date_parse (date e) then delta x else 0) r).
  { etransitivity; [|apply (sum_of_le (fun _ => 0))].
    - unfold sum_of. clear. induction r; cbn; lia.
    - intros x Hx. specialize (HF x Hx). destruct (Hr x Hx) as [_ Hd]. unfold event_rank in HF.
      destruct (Z.leb_spec (date_parse (date x)) (date_parse (date e))); lia. }
  unfold sum_of in *. lia.
Qed.

Definition count_if {A} (f : A -> bool) (l : list A) : Z := sum_of (fun x => if f x then 1 else 0) l.

Lemma net_intervals d l : valid_list l ->
  net d (concat (interval_events <$> l)) = count_if (covers d) l.
Proof.
  induction 1 as [|i l [_ _ Hi] _ IH]; [done|]. cbn [fmap list_fmap concat]. unfold net in *.
  rewrite sum_of_app, IH. unfold count_if, covers, interval_events, as_interval, interval_as_interval in *.
  rewrite !sum_of_cons. cbn [date delta]. change (sum_of _ []) with 0. stays.
  destruct (Z.leb_spec (date_parse (checkIn i)) d), (Z.ltb_spec d (date_parse (checkOut i)));
    cbn; destruct (Z.leb_spec (date_parse (checkOut i)) d); lia.
Qed.

(** ** Rooms hold one stay a night *)

Lemma apart_count {A} `{AsInterval A} d (l : list A) : valid_list l -> apart_list l ->
  count_if (fun x => covers d (as_interval x)) l <= 1 /\
  (count_if (fun x => covers d (as_interval x)) l = 1 -> exists x, x ∈ l /\ covers d (as_interval x) = true).
Proof.
  unfold count_if. intros Hv. induction 1 as [|x l Hs IH HF]; [cbn; lia|]. rewrite sum_of_cons.
  apply Forall_cons in Hv as [Hx Hv]. destruct (IH Hv) as [Hle Hex].
  destruct (covers d (as_interval x)) eqn:E; cbv iota; [|split; [lia|]; intros H1; destruct Hex as (y & Hy & Hc); [lia|]; exists y; split; [by right|done]].
  assert (sum_of (fun x => if covers d (as_interval x) then 1 else 0) l <= 0).
  { destruct (decide (sum_of (fun x => if covers d (as_interval x) then 1 else 0) l = 1)) as [E1|]; [|lia].
    destruct (Hex E1) as (y & Hy & Hc). rewrite Forall_forall in HF. specialize (HF y Hy).
    unfold covers in *. lia. }
  split; [lia|]. intros _. exists x. split; [by left | done].
Qed.

Lemma count_if_app {A} (f : A -> bool) l k : count_if f (l ++ k) = count_if f l + count_if f k.
Proof. apply sum_of_app. Qed.

Lemma count_if_fmap {A B} (f : B -> bool) (g : A -> B) l : count_if f (g <$> l) = count_if (fun x => f (g x)) l.
Proof. unfold count_if, sum_of. induction l as [|x l IH]; cbn; [done | by rewrite IH]. Qed.

Lemma schedule_count d s : schedule_ok s -> count_if (covers d) (busy s) <= 1.
Proof.
  intros [Hf Hfa Hp Hpa Hc]. unfold busy. rewrite count_if_app, count_if_fmap.
  destruct (apart_count d (fixed s) Hf Hfa) as [H1 H1'], (apart_count d (placed s) Hp Hpa) as [H2 H2'].
  unfold as_interval, interval_as_interval, occupancy_as_interval in *.
  change (fun x : Interval => covers d x) with (covers d) in *.
  destruct (decide (count_if (covers d) (fixed s) = 1)) as [E1|]; [|lia].
  destruct (decide (count_if (fun x => covers d (stay x)) (placed s) = 1)) as [E2|]; [|lia].
  destruct (H1' E1) as (i & Hi & Hci), (H2' E2) as (o & Ho & Hco). exfalso.
  specialize (Hc o Ho). rewrite meets_false in Hc. specialize (Hc i Hi).
  unfold valid_list in Hf, Hp. rewrite Forall_forall in Hf; rewrite Forall_forall in Hp.
  apply (apart_spec i (stay o) (Hf i Hi) (Hp o Ho)) in Hc. unfold covers in *. lia.
Qed.

(** A placeable board can be filled. *)
Lemma extendable_fill pending : forall schs, board_ok schs pending -> extendable schs pending ->
  exists schs', frame schs' = frame schs /\ board_ok schs' [] /\ all_placed schs' ≡ₚ all_placed schs ++ pending.
Proof.
  induction pending as [|o rest IH]; intros schs Hb Hext.
  - exists schs. by rewrite app_nil_r.
  - destruct (extend_step _ _ _ _ Hb ltac:(reflexivity) Hext) as (s & Hs & Hf & Hrest).
    destruct (IH _ (board_place _ _ _ _ _ Hb ltac:(reflexivity) Hs Hf) Hrest) as (schs' & Ef & Hb' & Hp).
    exists schs'. split; [by rewrite Ef, update_placed_frame|]. split; [done|].
    rewrite Hp, insert_all_placed by (done || apply Hb). by rewrite <- Permutation_middle.
Qed.

Lemma count_concat {A} (f : A -> bool) l : count_if f (concat l) = sum_of (count_if f) l.
Proof.
  induction l as [|k l IH]; [done|]. cbn [concat]. rewrite count_if_app, IH. done.
Qed.

Lemma frame_fixed schs schs' : frame schs = frame schs' -> fixed <$> schs = fixed <$> schs'.
Proof.
  intros Hf%(f_equal (fmap snd)). unfold frame in Hf. rewrite <- !list_fmap_compose in Hf. exact Hf.
Qed.

Lemma night_bound d schs pending : board_ok schs pending -> extendable schs pending ->
  count_if (covers d) (concat (fixed <$> schs) ++ (stay <$> pending)) <= Z.of_nat (length schs).
Proof.
  intros Hb Hext. destruct (extendable_fill _ _ Hb Hext) as (schs' & Hf & Hb' & Hp).
  rewrite count_if_app, count_if_fmap.
  assert (count_if (fun o => covers d (stay o)) pending <= count_if (fun o => covers d (stay o)) (all_placed schs')).
  { unfold count_if. rewrite (sum_of_perm _ _ _ Hp), sum_of_app.
    assert (0 <= sum_of (fun x => if covers d (stay x) then 1 else 0) (all_placed schs)); [|lia].
    generalize (all_placed schs) as l. unfold sum_of. induction l as [|x l IH]; cbn; [lia|]. destruct (covers _ _); lia. }
  rewrite <- (frame_fixed _ _ Hf), <- (frame_length _ _ Hf).
  destruct Hb' as [_ Hok _ _]. revert Hok. unfold all_placed in *.
  assert (Hsum : Forall schedule_ok schs' ->
            count_if (covers d) (concat (fixed <$> schs')) +
            count_if (fun o => covers d (stay o)) (concat (placed <$> schs')) <= Z.of_nat (length schs')).
  { clear. induction 1 as [|s l Hs _ IH]; cbn [fmap list_fmap concat length]; [cbn; lia|].
    rewrite !count_if_app. pose proof (schedule_count d s Hs) as H1. unfold busy in H1.
    rewrite count_if_app, count_if_fmap in H1. unfold fmap, list_fmap in *. lia. }
  intros Hok. specialize (Hsum Hok). lia.
Qed.

(** The early rejection is right. *)
Lemma peak_demand_sound `{CollationLaws} schs pending : board_ok schs pending ->
  peakDemandExceedsRoomCount schs pending = true -> ~ extendable schs pending.
Proof.
  intros Hb Hpeak Hext. unfold peakDemandExceedsRoomCount in Hpeak.
  set (ivs := concat (fixed <$> schs) ++ (stay <$> pending)) in *.
  assert (Hv : valid_list ivs).
  { apply Forall_app. split.
    - apply Forall_forall. intros i (f & Hf & Hi)%list_elem_of_In%in_concat.
      apply list_elem_of_In, list_elem_of_fmap in Hf as (s & -> & Hs).
      pose proof (bd_schedules _ _ Hb) as Hok. rewrite Forall_forall in Hok.
      pose proof (ok_fixed _ (Hok s Hs)) as Hfx. unfold valid_list in Hfx. rewrite Forall_forall in Hfx.
      apply Hfx. by apply list_elem_of_In.
    - apply Forall_fmap. apply (bd_valid _ _ Hb). }
  assert (Hev : Forall event_ok (concat (interval_events <$> ivs))).
  { clear -Hv. induction Hv as [|i l [] _ IH]; [constructor|]. cbn.
    repeat (apply Forall_cons; split; [split; cbn; auto|]). exact IH. }
  rewrite sort_events in Hpeak by done.
  apply exceeds_prefix in Hpeak as (p & r & E & Hlt). cbn in Hlt.
  set (sorted := stable_sort _ _) in E.
  assert (Hperm : sorted ≡ₚ concat (interval_events <$> ivs)) by apply stable_sort_perm.
  destruct (prefix_net p r) as [d Hd].
  - rewrite <- E. apply stable_sort_measure.
  - rewrite <- E, Hperm. done.
  - lia.
  - rewrite <- E in Hd. unfold net in Hd. rewrite (sum_of_perm _ _ _ Hperm) in Hd.
    fold (net d (concat (interval_events <$> ivs))) in Hd. rewrite net_intervals in Hd by done.
    pose proof (night_bound d _ _ Hb Hext). subst ivs. lia.
Qed.
