(* ===== verification/AssignmentGuarantees.v ===== *)
(** * The optimizer's contract

    What a run of the optimizer promises, against an abstract specification of a
    valid placement: an optimized result is one, an infeasible verdict is right,
    and the reported numbers are those of the resulting placement. *)

From S2P Require Import Prelude JsValue CalendarDates RoomAssignment AssignmentIntervals AssignmentSearch AssignmentComplete.

#[local] Arguments stays_in : simpl never.

(** ** The specification *)

(** [p] gives every stay a known room, leaves immovable stays alone, and keeps a
    movable stay apart from every other stay of its room. *)
Record valid_placement (rooms : list Room) (occupancies : list Occupancy)
    (p : Occupancy -> option string) : Prop := {
  vp_room : forall o, o ∈ occupancies -> exists r, r ∈ rooms /\ p o = Some (roomId r);
  vp_fixed : forall o, o ∈ occupancies -> movable o = false -> p o = occupancyRoomId o;
  vp_apart : forall o o', o ∈ occupancies -> o' ∈ occupancies ->
    occupancyId o <> occupancyId o' -> movable o = true -> p o = p o' ->
    overlaps (stay o) (stay o') = false
}.

(** Where a stay is after the reported moves *)
Definition room_after (moves : list Move) (o : Occupancy) : option string :=
  match List.find (fun m => String.eqb (moveOccupancyId m) (occupancyId o)) moves with
  | Some m => toRoomId m
  | None => occupancyRoomId o
  end.

(** ** The input *)

Record input_ok (rooms : list Room) (occs : list Occupancy) : Prop := {
  in_rooms : NoDup (roomId <$> rooms);
  in_named : Forall (fun r => roomId r <> "") rooms;
  in_ids : NoDup (occupancyId <$> occs);
  in_valid : Forall (fun o => valid_interval (stay o)) occs
}.

Lemma existsb_false_Forall {A} (f : A -> bool) l : existsb f l = false -> Forall (fun x => f x = false) l.
Proof. induction l as [|x l IH]; cbn; [constructor|]. rewrite orb_false_iff. intros []. auto. Qed.

Lemma validate_ok rooms occs : validateInput rooms occs = Ret tt -> input_ok rooms occs.
Proof.
  unfold validateInput. intros H. repeat (break_match_in H; [discriminate|]).
  apply negb_false_iff, all_distinct_strings in E, E0.
  split; [done| |done|].
  - eapply Forall_impl; [apply existsb_false_Forall; exact E1|]. cbn. intros r Hr.
    apply orb_false_iff in Hr as [Hr _]. by apply String.eqb_neq.
  - eapply Forall_impl; [apply existsb_false_Forall; exact E2|]. apply invalid_occupancy_false.
Qed.

(** ** The initial board *)

Section Board.
Context `{CollationLaws}.

Definition is_movable (o : Occupancy) : Prop := movable o = true.
Definition is_fixed (o : Occupancy) : Prop := movable o = false.

(** The schedule of [r] once the immovable stays have joined *)
Definition fixed_schedule (immovable : list Occupancy) (s : RoomSchedule) : RoomSchedule :=
  {| room := room s; fixed := fixed s ++ (stay <$> stays_in (roomId (room s)) immovable);
     placed := placed s |}.

Lemma stays_in_cons id o l : stays_in id (o :: l) =
  if decide (occupancyRoomId o = Some id) then o :: stays_in id l else stays_in id l.
Proof. unfold stays_in. by rewrite filter_cons. Qed.

Lemma place_fixed_spec immovable : forall schs,
  match place_fixed immovable schs with
  | Ok schs' => schs' = fixed_schedule immovable <$> schs /\
      forall o, o ∈ immovable -> exists id, occupancyRoomId o = Some id /\ id ∈ (room_id <$> schs)
  | Err e => exists o, o ∈ immovable /\ occupancyId o = e /\
      unknown_room (list_to_set (room_id <$> schs)) o = true
  end.
Proof.
  induction immovable as [|o rest IH]; intros schs; cbn [place_fixed].
  - split; [|intros o Ho; by apply elem_of_nil in Ho].
    rewrite <- (list_fmap_id schs) at 1. apply list_fmap_ext. intros _ s _.
    unfold fixed_schedule. cbn. rewrite app_nil_r. by destruct s.
  - fold room_id. destruct (unknown_room _ o) eqn:Eu; [by exists o; split; [left|]|].
    set (step := fun s : RoomSchedule => _).
    assert (Hids : room_id <$> (step <$> schs) = room_id <$> schs).
    { rewrite <- list_fmap_compose. apply list_fmap_ext. intros _ s _. unfold step. cbn.
      by destruct (decide _). }
    specialize (IH (step <$> schs)). rewrite Hids in IH. destruct (place_fixed rest _).
    + destruct IH as [-> Hrest]. split.
      * rewrite <- list_fmap_compose. apply list_fmap_ext. intros _ s _. unfold step, fixed_schedule. cbn.
        rewrite stays_in_cons. case_decide; [|done]. cbn. by rewrite <- app_assoc.
      * intros x [->|Hx]%elem_of_cons; [|by apply Hrest]. unfold unknown_room in Eu.
        destruct (occupancyRoomId o) as [id|]; [|done]. exists id. split; [done|].
        apply orb_false_iff in Eu as [_ Eu]. apply negb_false_iff, bool_decide_eq_true in Eu.
        by apply elem_of_list_to_set in Eu.
    + destruct IH as (x & Hx & He & Hu). exists x. split; [by right | done].
Qed.

(** The board the placement starts from *)
Definition initial_board (rooms : list Room) (occs : list Occupancy) : list RoomSchedule :=
  (fun r => {| room := r;
               fixed := mergeIntervals (stay <$> stays_in (roomId r) (filter is_fixed occs));
               placed := [] |}) <$> rooms.

Lemma stays_valid occs id P `{forall o, Decision (P o)} :
  Forall (fun o => valid_interval (stay o)) occs -> valid_list (stay <$> stays_in id (filter P occs)).
Proof.
  intros Hv. apply Forall_fmap, Forall_forall. intros o Ho.
  apply list_elem_of_filter in Ho as [_ Ho]. apply list_elem_of_filter in Ho as [_ Ho].
  rewrite Forall_forall in Hv. by apply Hv.
Qed.

Lemma initial_rooms rooms occs : room_id <$> initial_board rooms occs = roomId <$> rooms.
Proof. unfold initial_board. rewrite <- list_fmap_compose. done. Qed.

Lemma initial_placed rooms occs : all_placed (initial_board rooms occs) = [].
Proof.
  unfold all_placed, initial_board. induction rooms; [done|]. cbn. done.
Qed.

Lemma initial_board_ok rooms occs pending : input_ok rooms occs ->
  pending ≡ₚ filter is_movable occs -> board_ok (initial_board rooms occs) pending.
Proof.
  intros [Hr _ Hi Hv] ->. split.
  - by rewrite initial_rooms.
  - apply Forall_fmap, Forall_forall. intros r _.
    destruct (merge_intervals_spec (stay <$> stays_in (roomId r) (filter is_fixed occs)))
      as (Hmv & Hma & _); [by apply stays_valid|].
    split; cbn; [done..|constructor|constructor|]. intros o Ho. by apply elem_of_nil in Ho.
  - rewrite initial_placed. cbn. eapply sublist_NoDup; [exact Hi|]. apply fmap_sublist, sublist_filter.
  - apply Forall_forall. intros o [_ Ho]%list_elem_of_filter. rewrite Forall_forall in Hv. by apply Hv.
Qed.

(** A room is free of the immovable stays it holds. *)
Lemma initial_meets rooms occs r o : input_ok rooms occs -> valid_interval o ->
  meets (mergeIntervals (stay <$> stays_in (roomId r) (filter is_fixed occs))) o = false <->
  forall o', o' ∈ occs -> movable o' = false -> occupancyRoomId o' = Some (roomId r) ->
    overlaps (stay o') o = false.
Proof.
  intros [_ _ _ Hv] Ho.
  destruct (merge_intervals_spec (stay <$> stays_in (roomId r) (filter is_fixed occs)))
    as (_ & _ & ->); [by apply stays_valid | | done].
  rewrite meets_false. split.
  - intros Hall o' Ho' Hm Hr. apply Hall. apply list_elem_of_fmap_2. unfold stays_in.
    apply list_elem_of_filter. split; [done|]. by apply list_elem_of_filter.
  - intros Hall i (o' & -> & Ho')%list_elem_of_fmap. unfold stays_in in Ho'.
    apply list_elem_of_filter in Ho' as [Hr Ho']. apply list_elem_of_filter in Ho' as [Hm Ho'].
    by apply Hall.
Qed.

(** Every placement makes the movable stays placeable on the initial board. *)
Lemma valid_extendable rooms occs p : input_ok rooms occs -> valid_placement rooms occs p ->
  extendable (initial_board rooms occs) (filter is_movable occs).
Proof.
  intros Hin [Hr Hfx Ha]. exists (fun o => default "" (p o)). split.
  - intros o [Hm Ho]%list_elem_of_filter. destruct (Hr o Ho) as (r & Hrr & Hp).
    eexists. split; [unfold initial_board; apply list_elem_of_fmap_2; exact Hrr|].
    split; [by rewrite Hp|]. apply free_iff. split; [|done]. cbn [fixed].
    pose proof (in_valid _ _ Hin) as Hv. rewrite Forall_forall in Hv.
    apply (initial_meets rooms); [done | by apply Hv|].
    intros o' Ho' Hm' Hr'. rewrite overlaps_comm. apply Ha; try done.
    + intros E. assert (o = o') as ->; [|congruence]. by eapply NoDup_key_eq; [apply (in_ids _ _ Hin)|..].
    + rewrite (Hfx o') by done. congruence.
  - intros o o' [Hm Ho]%list_elem_of_filter [Hm' Ho']%list_elem_of_filter Hne E.
    apply Ha; try done. destruct (Hr o Ho) as (r & _ & Er), (Hr o' Ho') as (r' & _ & Er').
    rewrite Er, Er' in *. cbn in E. congruence.
Qed.

(** Two different stays placed in one room are apart. *)
Lemma placed_apart s o o' : schedule_ok s -> o ∈ placed s -> o' ∈ placed s -> o <> o' ->
  overlaps (stay o) (stay o') = false.
Proof.
  intros [_ _ Hv Ha _] Ho Ho' Hne.
  assert (Hvo : forall x, x ∈ placed s -> valid_interval (stay x)) by (by apply Forall_forall).
  apply list_elem_of_lookup in Ho as [i Hi]. apply list_elem_of_lookup in Ho' as [j Hj].
  apply apart_spec; [apply Hvo; by eapply list_elem_of_lookup_2 | apply Hvo; by eapply list_elem_of_lookup_2|].
  destruct (decide (i < j)%nat); [left; exact (apart_lookup (placed s) i j o o' Ha Hi Hj ltac:(lia))|].
  destruct (decide (i = j)) as [->|]; [congruence|].
  right. exact (apart_lookup (placed s) j i o' o Ha Hj Hi ltac:(lia)).
Qed.

(** The room a finished board gives a stay *)
Definition board_room (m : gmap string string) (o : Occupancy) : option string :=
  if movable o then m !! occupancyId o else occupancyRoomId o.

Lemma frame_initial schs' rooms occs s :
  frame schs' = frame (initial_board rooms occs) -> s ∈ schs' ->
  exists r, r ∈ rooms /\ room s = r /\
    fixed s = mergeIntervals (stay <$> stays_in (roomId r) (filter is_fixed occs)).
Proof.
  intros Hf Hs. assert (Hin : (room s, fixed s) ∈ frame schs') by (unfold frame; by apply (list_elem_of_fmap_2 (fun s => (room s, fixed s)))).
  rewrite Hf in Hin. unfold frame, initial_board in Hin. rewrite <- list_fmap_compose in Hin.
  apply list_elem_of_fmap in Hin as (r & [= E1 E2] & Hr). by exists r.
Qed.

Lemma board_of_movable rooms occs schs' m o : 
  packed (initial_board rooms occs) (filter is_movable occs) schs' m ->
  o ∈ occs -> movable o = true -> exists s, s ∈ schs' /\ o ∈ placed s /\ m !! occupancyId o = Some (room_id s).
Proof.
  intros [_ _ Hp Ha] Ho Hm. assert (Hin : o ∈ all_placed schs').
  { rewrite Hp, initial_placed. by apply list_elem_of_filter. }
  apply placed_elem_of in Hin as (s & Hs & Hos). exists s. split_and!; [done..|]. by apply Ha.
Qed.

Lemma packed_valid rooms occs schs' m : input_ok rooms occs ->
  (forall o, o ∈ occs -> movable o = false -> exists r, r ∈ rooms /\ occupancyRoomId o = Some (roomId r)) ->
  packed (initial_board rooms occs) (filter is_movable occs) schs' m ->
  valid_placement rooms occs (board_room m).
Proof.
  intros Hin Hknown Hpk. pose proof Hpk as [Hf Hb _ _].
  pose proof (bd_schedules _ _ Hb) as Hok. rewrite Forall_forall in Hok.
  pose proof (in_valid _ _ Hin) as Hv. rewrite Forall_forall in Hv.
  split; unfold board_room.
  - intros o Ho. destruct (movable o) eqn:Em; [|by apply Hknown].
    destruct (board_of_movable _ _ _ _ o Hpk Ho Em) as (s & Hs & _ & Es).
    destruct (frame_initial _ _ _ _ Hf Hs) as (r & Hr & Er & _). exists r. split; [done|].
    unfold room_id in Es. by rewrite <- Er.
  - by intros o _ ->.
  - intros o o' Ho Ho' Hne Hm Ep. rewrite Hm in Ep.
    destruct (board_of_movable _ _ _ _ o Hpk Ho Hm) as (s & Hs & Hos & Es). rewrite Es in Ep.
    destruct (movable o') eqn:Em'.
    + destruct (board_of_movable _ _ _ _ o' Hpk Ho' Em') as (s' & Hs' & Hos' & Es'). rewrite Es' in Ep.
      injection Ep as Ep. assert (s' = s) as -> by (eapply NoDup_key_eq; [apply (bd_rooms _ _ Hb)|..]; congruence).
      apply (placed_apart s); auto. congruence.
    + destruct (frame_initial _ _ _ _ Hf Hs) as (r & Hr & Er & Ef).
      rewrite overlaps_comm. pose proof (ok_cross _ (Hok s Hs) o Hos) as Hc. rewrite Ef in Hc.
      apply (proj1 (initial_meets rooms occs r (stay o) Hin (Hv o Ho)) Hc); try done.
      rewrite <- Ep. unfold room_id. by rewrite Er.
Qed.

(** ** Placing the movable stays *)

Lemma order_rooms_perm rooms : order_rooms rooms ≡ₚ rooms.
Proof. apply sort_by_perm. Qed.

Lemma movable_perm schs occs : movable_in_order schs occs ≡ₚ filter is_movable occs.
Proof.
  unfold movable_in_order. rewrite sort_by_perm, <- list_fmap_compose. by rewrite list_fmap_id.
Qed.

(** The verdict of the placement, for a board [schs] with stays [pending] *)
Definition placement_correct (schs : list RoomSchedule) (pending : list Occupancy)
    (r : option Placement) : Prop :=
  match r with
  | Some (Placed schs' m) => packed schs pending schs' m
  | Some (NotPlaced false) =>
      Forall clean_id (occupancyId <$> pending) -> ~ extendable schs pending
  | Some (NotPlaced true) => True
  | None => False
  end.

Lemma place_movable_correct searchBudget orderedRooms occs pending :
  board_ok (initial_board orderedRooms occs) pending ->
  placement_correct (initial_board orderedRooms occs) pending
    (place_movable searchBudget orderedRooms (initial_board orderedRooms occs) pending).
Proof.
  intros Hb. unfold place_movable. set (schs := initial_board orderedRooms occs) in *.
  assert (Hrooms : orderedRooms = room <$> schs).
  { unfold schs, initial_board. rewrite <- list_fmap_compose. symmetry. apply list_fmap_id. }
  assert (Hnil : forall m, assigned_ok schs m).
  { intros m s o Hs Ho. pose proof (elem_of_all_placed _ _ _ Hs Ho) as Hx. unfold schs in Hx.
    rewrite initial_placed in Hx. by apply elem_of_nil in Hx. }
  destruct (greedy _ _ _ _) as [[packed_schs chosen]|] eqn:Eg; [by eapply greedy_packs|].
  assert (Hreset : with_placed (fun _ => []) <$> schs = schs).
  { unfold schs, initial_board. rewrite <- list_fmap_compose. done. }
  rewrite Hreset. set (budget := search_budget _ _ _). set (st := {| schedules := schs |}).
  assert (Hready : ready pending st) by (split; cbn; [done | apply Hnil | done]).
  destruct (search_placement_sound budget (S (length pending)) pending st ltac:(lia) Hready)
    as (found & st' & E & Hfound). rewrite E.
  destruct found; [exact Hfound|]. cbn. destruct (exhausted st') eqn:Ex; [done|].
  intros Hclean. pose proof (bd_ids _ _ Hb) as Hids. unfold schs in Hids. rewrite initial_placed in Hids.
  eapply (search_placement_complete pending (frame schs) Hids Hclean budget _ pending st);
    [| exact Hready | | |exact E | exact Ex].
  - lia.
  - split; cbn; [done | | done]. unfold schs. rewrite initial_placed. intros o Ho. by apply elem_of_nil in Ho.
  - intros key Hk. cbn in Hk. by apply elem_of_empty in Hk.
Qed.

(** ** Reporting the moves *)

Lemma find_unique {A} (f : A -> string) l x : NoDup (f <$> l) -> x ∈ l ->
  List.find (fun y => String.eqb (f y) (f x)) l = Some x.
Proof.
  intros Hnd Hx. destruct (List.find _ l) as [y|] eqn:E.
  - apply find_some in E as [Hy%list_elem_of_In E%String.eqb_eq]. f_equal. by eapply NoDup_key_eq.
  - exfalso. pose proof (find_none _ _ E x) as Hn. cbn in Hn. rewrite String.eqb_refl in Hn.
    discriminate Hn. by apply list_elem_of_In.
Qed.

Lemma find_absent {A} (f : A -> string) l id : id ∉ (f <$> l) ->
  List.find (fun y => String.eqb (f y) id) l = None.
Proof.
  intros Hid. destruct (List.find _ l) as [y|] eqn:E; [|done]. exfalso. apply Hid.
  apply find_some in E as [Hy%list_elem_of_In <-%String.eqb_eq]. by apply list_elem_of_fmap_2.
Qed.

Lemma filter_moves m l : List.filter changes_room (move_of m <$> l) =
  move_of m <$> List.filter (fun o => changes_room (move_of m o)) l.
Proof.
  induction l as [|o l IH]; [done|]. cbn. rewrite IH. by destruct (changes_room (move_of m o)).
Qed.

Lemma elem_of_lfilter {A} (f : A -> bool) l x : x ∈ List.filter f l <-> x ∈ l /\ f x = true.
Proof. by rewrite !list_elem_of_In, filter_In. Qed.

Lemma filter_keys {A} (key : A -> string) f l :
  NoDup (key <$> l) -> NoDup (key <$> List.filter f l).
Proof.
  induction l as [|x l IH]; cbn; [done|]. intros [Hx Hl]%NoDup_cons.
  destruct (f x); [|by apply IH]. cbn. apply NoDup_cons. split; [|by apply IH].
  intros (y & E & [Hy _]%elem_of_lfilter)%list_elem_of_fmap. apply Hx. rewrite E.
  by apply list_elem_of_fmap_2.
Qed.

Lemma movable_keys occs moved : NoDup (occupancyId <$> occs) -> moved ≡ₚ filter is_movable occs ->
  NoDup (occupancyId <$> moved).
Proof.
  intros Hnd ->. eapply sublist_NoDup; [exact Hnd|]. apply fmap_sublist, sublist_filter.
Qed.

Lemma find_move m l id :
  List.find (fun mv => String.eqb (moveOccupancyId mv) id) (move_of m <$> l) =
  move_of m <$> List.find (fun x => String.eqb (occupancyId x) id) l.
Proof. induction l as [|x l IH]; [done|]. cbn. destruct (String.eqb _ _); [done | exact IH]. Qed.

(** The reported moves say where every stay of the finished board is. *)
Lemma room_after_moves rooms occs m moved o : input_ok rooms occs ->
  moved ≡ₚ filter is_movable occs -> o ∈ occs ->
  (movable o = true -> exists id, m !! occupancyId o = Some id) ->
  room_after (List.filter changes_room (move_of m <$> moved)) o = board_room m o.
Proof.
  intros Hin Hp Ho Hm. unfold room_after, board_room. rewrite filter_moves, find_move.
  set (kept := List.filter _ moved).
  assert (Hkept : forall x, x ∈ kept <-> x ∈ occs /\ movable x = true /\ changes_room (move_of m x) = true).
  { intros x. unfold kept. rewrite elem_of_lfilter, Hp, list_elem_of_filter. unfold is_movable. tauto. }
  destruct (movable o && changes_room (move_of m o)) eqn:Ek.
  - apply andb_true_iff in Ek as [Em Ec]. rewrite find_unique; [by rewrite Em| |by apply Hkept].
    apply filter_keys. eapply movable_keys; [apply (in_ids _ _ Hin) | done].
  - rewrite find_absent.
    2:{ intros (x & E & Hx)%list_elem_of_fmap. apply Hkept in Hx as (Hxo & Hxm & Hxc).
        assert (o = x) as <- by (by eapply NoDup_key_eq; [apply (in_ids _ _ Hin)|..]).
        by rewrite Hxm, Hxc in Ek. }
    cbn. destruct (movable o) eqn:Em; [|done]. destruct (Hm eq_refl) as [id Eid]. cbn in Ek.
    unfold changes_room, move_of in Ek. cbn in Ek. rewrite Eid in Ek |- *.
    apply bool_decide_eq_false in Ek. by apply dec_stable in Ek.
Qed.

(** ** Keeping the existing assignment *)

Lemma neighbours_apart_list l : valid_list l -> by_start l -> neighbours_apart l = true -> apart_list l.
Proof.
  intros Hv. induction Hv as [|a l Ha Hv IH]; intros Hs Hn; [constructor|].
  inversion Hs as [|? ? Hsl HF]; subst. destruct l as [|b l]; [repeat constructor|].
  cbn [neighbours_apart] in Hn. apply andb_true_iff in Hn as [Hab Hn]. specialize (IH Hsl Hn).
  constructor; [done|]. apply Forall_cons in Hv as [Hb Hv].
  apply Forall_cons in HF as [Hstart _]. unfold as_interval, interval_as_interval in *.
  apply negb_true_iff in Hab. apply (apart_spec _ _ Ha Hb) in Hab.
  pose proof (valid_order a Ha). pose proof (valid_order b Hb). cbn in Hstart.
  assert (Hfb : finish a <= start b) by lia.
  apply Forall_cons. split; [done|]. inversion IH as [|? ? _ HFb]; subst.
  eapply Forall_impl; [exact HFb|]. stays. intros x Hx. lia.
Qed.

Lemma apart_pair l a b r : valid_list l -> apart_list l -> l ≡ₚ a :: b :: r -> overlaps a b = false.
Proof.
  intros Hv Ha Hp. assert (Hva : valid_list (a :: b :: r)) by (unfold valid_list; by rewrite <- Hp).
  apply Forall_cons in Hva as [Hia Hva]. apply Forall_cons in Hva as [Hib _].
  assert (Hin : a ∈ l) by (rewrite Hp; left). apply list_elem_of_split in Hin as (l1 & l2 & ->).
  rewrite <- Permutation_middle in Hp. apply Permutation_cons_inv in Hp.
  assert (Hb : b ∈ l1 ++ l2) by (rewrite Hp; left).
  apply StronglySorted_app in Ha as (Hc & _ & Ha). inversion Ha as [|? ? _ HF]; subst.
  apply (apart_spec a b Hia Hib). apply elem_of_app in Hb as [Hb|Hb].
  - right. apply (Hc b a Hb). left.
  - left. rewrite Forall_forall in HF. exact (HF b Hb).
Qed.

Lemma original_valid rooms occs : input_ok rooms occs ->
  originalAssignmentIsFeasible rooms occs = true -> valid_placement rooms occs occupancyRoomId.
Proof.
  intros Hin Ho. unfold originalAssignmentIsFeasible in Ho.
  apply andb_true_iff in Ho as [Hk Hf]. apply negb_true_iff, existsb_false_Forall in Hk.
  rewrite Forall_forall in Hk. rewrite forallb_forall in Hf.
  assert (Hroom : forall o, o ∈ occs -> exists r, r ∈ rooms /\ occupancyRoomId o = Some (roomId r)).
  { intros o Hoo. specialize (Hk o Hoo). unfold unknown_room in Hk.
    destruct (occupancyRoomId o) as [id|]; [|done]. apply orb_false_iff in Hk as [_ Hk].
    apply negb_false_iff, bool_decide_eq_true in Hk. unfold known_rooms in Hk.
    apply elem_of_list_to_set, list_elem_of_fmap in Hk as (r & -> & Hr). by exists r. }
  split; [done|done|]. intros o o' Hoo Hoo' Hne _ E.
  destruct (Hroom o Hoo) as (r & Hr & Er). specialize (Hf r ltac:(by apply list_elem_of_In)).
  pose proof (in_valid _ _ Hin) as Hv.
  assert (Hvl : valid_list (stay <$> stays_in (roomId r) occs)).
  { apply Forall_fmap, Forall_forall. intros x [_ Hx]%list_elem_of_filter. rewrite Forall_forall in Hv.
    by apply Hv. }
  rewrite sort_by_checkIn in Hf by done. set (s := stable_sort _ _) in Hf.
  assert (Hp : s ≡ₚ stay <$> stays_in (roomId r) occs) by apply stable_sort_perm.
  assert (Hvs : valid_list s) by (unfold valid_list; by rewrite Hp).
  apply neighbours_apart_list in Hf; [|done|apply stable_sort_measure].
  assert (Hin1 : o ∈ stays_in (roomId r) occs) by (by apply list_elem_of_filter).
  assert (Hin2 : o' ∈ stays_in (roomId r) occs) by (apply list_elem_of_filter; split; congruence).
  apply elem_of_Permutation in Hin1 as (l1 & Hp1). rewrite Hp1 in Hin2.
  apply elem_of_cons in Hin2 as [->|Hin2]; [done|]. apply elem_of_Permutation in Hin2 as (l2 & Hp2).
  apply (apart_pair s _ _ (stay <$> l2) Hvs Hf). by rewrite Hp, Hp1, Hp2.
Qed.

(** ** The whole run *)

Lemma valid_placement_perm rooms rooms' occs p : rooms ≡ₚ rooms' ->
  valid_placement rooms occs p -> valid_placement rooms' occs p.
Proof. intros Hp [Hr Hf Ha]. split; [|done..]. by setoid_rewrite <- Hp. Qed.

Lemma valid_placement_ext rooms occs p q : (forall o, o ∈ occs -> p o = q o) ->
  valid_placement rooms occs p -> valid_placement rooms occs q.
Proof.
  intros Hpq [Hr Hf Ha]. split.
  - intros o Ho. rewrite <- Hpq by done. by apply Hr.
  - intros o Ho Hm. rewrite <- Hpq by done. by apply Hf.
  - intros o o' Ho Ho'. rewrite <- !Hpq by done. by apply Ha.
Qed.

Lemma input_ok_perm rooms rooms' occs : rooms ≡ₚ rooms' -> input_ok rooms occs -> input_ok rooms' occs.
Proof. intros Hp [H1 H2 H3 H4]. split; rewrite <- ?Hp; done. Qed.

Lemma initial_spec rooms occs schs :
  place_fixed (filter is_fixed occs) (new_schedule <$> rooms) = Ok schs ->
  merge_fixed <$> schs = initial_board rooms occs /\
  forall o, o ∈ occs -> movable o = false -> exists r, r ∈ rooms /\ occupancyRoomId o = Some (roomId r).
Proof.
  intros E. pose proof (place_fixed_spec (filter is_fixed occs) (new_schedule <$> rooms)) as Hs.
  rewrite E in Hs. destruct Hs as [-> Hk]. split.
  - unfold initial_board. rewrite <- !list_fmap_compose. done.
  - intros o Ho Hm. destruct (Hk o) as (id & Hid & Hin); [by apply list_elem_of_filter|].
    rewrite <- list_fmap_compose in Hin. apply list_elem_of_fmap in Hin as (r & -> & Hr). by exists r.
Qed.

Lemma unknown_not_valid rooms occs o p : input_ok rooms occs -> o ∈ occs -> movable o = false ->
  unknown_room (list_to_set (roomId <$> rooms)) o = true -> ~ valid_placement rooms occs p.
Proof.
  intros Hin Ho Hm Hu [Hr Hf _]. destruct (Hr o Ho) as (r & Hrr & Hp). rewrite Hf in Hp by done.
  unfold unknown_room in Hu. rewrite Hp in Hu. apply orb_true_iff in Hu as [Hu|Hu].
  - apply String.eqb_eq in Hu. pose proof (in_named _ _ Hin) as Hn. rewrite Forall_forall in Hn.
    by apply (Hn r).
  - apply negb_true_iff, bool_decide_eq_false in Hu. apply Hu, elem_of_list_to_set.
    by apply list_elem_of_fmap_2.
Qed.

(** A placement or the verdict that none exists *)
Definition decides (rooms : list Room) (occs : list Occupancy) (r : option OptimizationResult) : Prop :=
  match r with
  | Some (Optimized moves _ _ _ _) => valid_placement rooms occs (room_after moves)
  | Some (Infeasible _) =>
      Forall clean_id (occupancyId <$> filter is_movable occs) -> forall p, ~ valid_placement rooms occs p
  | Some (BudgetExhausted _) => True
  | None => False
  end.

Lemma optimized_decides rooms occs moved schs' m : input_ok rooms occs ->
  moved ≡ₚ filter is_movable occs ->
  (forall o, o ∈ occs -> movable o = false -> exists r, r ∈ rooms /\ occupancyRoomId o = Some (roomId r)) ->
  packed (initial_board rooms occs) (filter is_movable occs) schs' m ->
  decides rooms occs (Some (optimized rooms occs moved schs' m)).
Proof.
  intros Hin Hp Hk Hpk. unfold optimized, decides. destruct (_ && _) eqn:Ekeep.
  - apply andb_true_iff in Ekeep as [Ekeep _]. apply andb_true_iff in Ekeep as [_ Ekeep].
    by apply original_valid.
  - eapply valid_placement_ext; [|by eapply packed_valid]. intros o Ho. symmetry.
    eapply room_after_moves; [done..|]. intros Hm.
    destruct (board_of_movable _ _ _ _ o Hpk Ho Hm) as (s & _ & _ & Es). by eexists.
Qed.

Lemma optimize_decides searchBudget rooms occs : input_ok rooms occs ->
  decides (order_rooms rooms) occs (optimize searchBudget rooms occs).
Proof.
  intros Hin. assert (Hin' : input_ok (order_rooms rooms) occs).
  { eapply input_ok_perm; [|exact Hin]. symmetry. apply order_rooms_perm. }
  unfold optimize. set (ordered := order_rooms rooms) in *. fold is_fixed.
  destruct (place_fixed _ _) as [schs|e] eqn:Ep.
  - destruct (initial_spec _ _ _ Ep) as [-> Hk]. set (moved := movable_in_order _ _).
    assert (Hp : moved ≡ₚ filter is_movable occs) by apply movable_perm.
    pose proof (initial_board_ok ordered occs moved Hin' Hp) as Hb.
    assert (Hext : forall p, valid_placement ordered occs p -> extendable (initial_board ordered occs) moved).
    { intros p Hv. rewrite Hp. by eapply valid_extendable. }
    destruct (peakDemandExceedsRoomCount _ _) eqn:Epk.
    { intros _ p Hv. by apply (peak_demand_sound _ _ Hb Epk), (Hext p). }
    pose proof (place_movable_correct searchBudget ordered occs moved Hb) as Hc.
    destruct (place_movable _ _ _ _) as [[schs' m|[]]|]; [|done| |done].
    + cbn in Hc. apply optimized_decides; [done..|].
      destruct Hc as [H1 H2 H3 H4]. split; try done. by rewrite H3, Hp.
    + intros Hclean p Hv. apply Hc; [by rewrite Hp | by eapply Hext].
  - intros _ p. pose proof (place_fixed_spec (filter is_fixed occs) (new_schedule <$> ordered)) as Hs.
    rewrite Ep in Hs. destruct Hs as (o & Ho & _ & Hu). apply list_elem_of_filter in Ho as [Hm Ho].
    rewrite <- list_fmap_compose in Hu. by eapply unknown_not_valid.
Qed.
End Board.

(** C6: the optimizer decides the placement problem.  On every input it accepts
    it returns a result.  An optimized result moves the stays to a valid
    placement: every stay in a known room, immovable stays untouched, movable
    stays overlapping nothing in their room.  An infeasible verdict means that
    no valid placement exists, provided that the ids of the movable stays are
    not empty and hold neither separator of the memo's keys, the comma and the
    bar, as the uuids the callers pass.  Other ids can collide in the memo:
    see [colliding_ids_infeasible]. *)
Theorem optimizer_decides `{CollationLaws} rooms occupancies searchBudget r :
  optimizePmsRoomAssignments rooms occupancies searchBudget = Ret r ->
  exists result, r = Some result /\
    match result with
    | Optimized moves _ _ _ _ => valid_placement rooms occupancies (room_after moves)
    | Infeasible _ =>
        Forall clean_id (occupancyId <$> filter is_movable occupancies) ->
        forall p, ~ valid_placement rooms occupancies p
    | BudgetExhausted _ => True
    end.
Proof.
  unfold optimizePmsRoomAssignments, exn_bind. intros E.
  destruct (validateInput rooms occupancies) as [[]|] eqn:Ev; [|done].
  destruct (invalid_budget searchBudget); [done|]. injection E as <-.
  pose proof (optimize_decides searchBudget rooms occupancies (validate_ok _ _ Ev)) as Hd.
  destruct (optimize searchBudget rooms occupancies) as [result|]; [|done].
  exists result. split; [done|]. destruct result; [|intros Hclean p Hp|done].
  - eapply valid_placement_perm; [apply order_rooms_perm | exact Hd].
  - apply (Hd Hclean p). eapply valid_placement_perm; [symmetry; apply order_rooms_perm | exact Hp].
Qed.
