(* ===== verification/AssignmentReport.v ===== *)
(** * What the optimizer reports

    The numbers of a report, computed by the source from its schedules, are the
    measures of the resulting assignment; the search's work is bounded and its
    fuel enough. *)

From S2P Require Import Prelude JsValue CalendarDates RoomAssignment AssignmentIntervals AssignmentSearch AssignmentComplete AssignmentGuarantees.

#[local] Arguments stays_in : simpl never.

(** ** Gap nights count the free nights between the first and the last stay *)

Definition covered (l : list Interval) (d : Z) : bool := existsb (covers d) l.

(** The nights from [a] to [b] that no interval covers *)
Definition uncovered (l : list Interval) (a b : Z) : Z :=
  count_if (fun d => negb (covered l d)) (seqZ a (b - a)).

Lemma uncovered_split l a b c : a <= b <= c -> uncovered l a c = uncovered l a b + uncovered l b c.
Proof.
  intros Hab. unfold uncovered. rewrite <- count_if_app.
  replace (c - a) with ((b - a) + (c - b)) by lia. rewrite seqZ_app by lia.
  by replace (a + (b - a)) with b by lia.
Qed.

Lemma count_if_ext {A} (f g : A -> bool) l : (forall x, x ∈ l -> f x = g x) -> count_if f l = count_if g l.
Proof.
  unfold count_if. induction l as [|x l IH]; intros H; [done|]. rewrite !sum_of_cons.
  rewrite (H x) by left. rewrite IH; [done|]. intros y Hy. apply H. by right.
Qed.

Lemma uncovered_ext l k a b : (forall d, a <= d < b -> covered l d = covered k d) ->
  uncovered l a b = uncovered k a b.
Proof.
  intros H. apply count_if_ext. intros d Hd%elem_of_seqZ. by rewrite H by lia.
Qed.

Lemma uncovered_all l a b : a <= b -> (forall d, a <= d < b -> covered l d = false) ->
  uncovered l a b = b - a.
Proof.
  intros Hab H. unfold uncovered. rewrite (count_if_ext _ (fun _ => true)).
  - transitivity (Z.of_nat (length (seqZ a (b - a)))); [|rewrite length_seqZ; lia].
    unfold count_if. clear. induction (seqZ a _) as [|x k IH]; [done|].
    rewrite sum_of_cons, IH. cbn [length]. lia.
  - intros d Hd%elem_of_seqZ. by rewrite H by lia.
Qed.

Lemma uncovered_none l a b : (forall d, a <= d < b -> covered l d = true) -> uncovered l a b = 0.
Proof.
  intros H. unfold uncovered. rewrite (count_if_ext _ (fun _ => false)).
  - unfold count_if. induction (seqZ a _) as [|x k IH]; [done|]. by rewrite sum_of_cons, IH.
  - intros d Hd%elem_of_seqZ. by rewrite H by lia.
Qed.

Lemma covered_false l d : (forall i, i ∈ l -> covers d i = false) -> covered l d = false.
Proof.
  unfold covered. induction l as [|i l IH]; intros H; [done|]. cbn. rewrite (H i) by left.
  apply IH. intros j Hj. apply H. by right.
Qed.

Lemma covered_in i l d : start i <= d < finish i -> covered (i :: l) d = true.
Proof. intros Hd. unfold covered. cbn. by assert (covers d i = true) as -> by (unfold covers; lia). Qed.

Lemma covered_out i l d : d < start i \/ finish i <= d -> covered (i :: l) d = covered l d.
Proof. intros Hd. unfold covered. cbn. by assert (covers d i = false) as -> by (unfold covers; lia). Qed.

(** The source's accumulator *)
Definition gap_step : string * Z -> Interval -> string * Z :=
  fun '(occupiedThrough, total) interval =>
    (if str_lt occupiedThrough (checkOut interval) then checkOut interval else occupiedThrough,
     if str_lt occupiedThrough (checkIn interval)
     then total + nightsBetween occupiedThrough (checkIn interval) else total).

Lemma gap_fold l : forall through total, valid_list l -> by_start l -> validDate through = true ->
  let r := fold_left gap_step l (through, total) in
  date_parse through <= date_parse (fst r) /\
  (forall i, i ∈ l -> finish i <= date_parse (fst r)) /\
  (date_parse (fst r) = date_parse through \/ exists i, i ∈ l /\ date_parse (fst r) = finish i) /\
  snd r = total + uncovered l (date_parse through) (date_parse (fst r)).
Proof.
  induction l as [|i l IH]; intros through total Hv Hs Hd; cbn [fold_left].
  { cbn. split_and!; [lia | intros i Hi; by apply elem_of_nil in Hi | by left |].
    rewrite uncovered_all; [lia..|done]. }
  apply Forall_cons in Hv as [Hi Hv]. inversion Hs as [|? ? Hsl HF]; subst.
  unfold as_interval, interval_as_interval in Hi, HF. rewrite Forall_forall in HF.
  pose proof (valid_order _ Hi) as Hord. set (t := date_parse through) in *.
  set (through' := if t <? finish i then checkOut i else through).
  set (total' := if t <? start i then total + nightsBetween through (checkIn i) else total).
  assert (Estep : gap_step (through, total) i = (through', total')).
  { unfold gap_step. by rewrite !valid_str_lt by (done || (by apply valid_start) || by apply valid_finish). }
  cbv zeta. rewrite Estep.
  assert (Et' : date_parse through' = Z.max t (finish i)).
  { unfold through', finish. destruct (Z.ltb_spec t (date_parse (checkOut i))); unfold t in *; lia. }
  assert (Hd' : validDate through' = true) by (unfold through'; destruct (_ <? _); [by apply valid_finish | done]).
  destruct (IH through' total' Hv Hsl Hd') as (Hle & Hall & Hlast & Hsum).
  set (r := fold_left gap_step l _) in *. split_and!.
  - lia.
  - intros j [->|Hj]%elem_of_cons; [lia | by apply Hall].
  - destruct Hlast as [El|(j & Hj & Ej)]; [|right; exists j; split; [by right | done]].
    rewrite El, Et'. destruct (Z.max_spec t (finish i)) as [[_ ->]|[_ ->]]; [right; exists i; split; [left|done] | by left].
  - rewrite Hsum, Et'. rewrite (uncovered_split (i :: l) t (Z.max t (finish i))) by lia.
    rewrite (uncovered_ext (i :: l) l (Z.max t (finish i))) by (intros; apply covered_out; lia).
    assert (Hcov : forall d, Z.max t (start i) <= d < Z.max t (finish i) -> covered (i :: l) d = true) by (intros; apply covered_in; lia).
    unfold total'. destruct (Z.ltb_spec t (start i)) as [Hlt|Hge].
    + rewrite (uncovered_split (i :: l) t (start i)) by lia.
      rewrite (uncovered_none (i :: l) (start i)) by (intros; apply Hcov; lia).
      rewrite (uncovered_all (i :: l) t); [unfold nightsBetween; fold t; fold (start i); lia | lia |].
      intros d Hdd. apply covered_false. intros j [->|Hj]%elem_of_cons; unfold covers; [lia|].
      specialize (HF j Hj). cbn in HF. lia.
    + rewrite (uncovered_none (i :: l) t) by (intros; apply Hcov; lia). lia.
Qed.

(** The first and the day after the last covered night *)
Definition extent (l : list Interval) (lo hi : Z) : Prop :=
  covered l lo = true /\ covered l (hi - 1) = true /\ forall d, covered l d = true -> lo <= d < hi.

Lemma covered_true l d : covered l d = true <-> exists i, i ∈ l /\ start i <= d < finish i.
Proof.
  unfold covered. rewrite existsb_exists. setoid_rewrite <- list_elem_of_In. unfold covers.
  split; intros (i & Hi & Hc); exists i; (split; [done|]); lia.
Qed.

Lemma sort_gap `{CollationLaws} l : valid_list l ->
  by_start (sort_by (fun left right => or_else (localeCompare (checkIn left) (checkIn right))
                                 (localeCompare (checkOut left) (checkOut right))) l).
Proof.
  intros Hv. unfold sort_by, by_start.
  set (le := fun a b : Interval => if start a =? start b then finish a <=? finish b else start a <=? start b).
  rewrite (stable_sort_ext valid_interval _ le l); [| |exact Hv].
  - apply (StronglySorted_weaken (le_rel le)).
    + intros x y. unfold le_rel, le. stays. destruct (_ =? _) eqn:E; lia.
    + apply Sorted_StronglySorted.
      * intros x y z. unfold le_rel, le.
        destruct (Z.eqb_spec (start x) (start y)), (Z.eqb_spec (start y) (start z)), (Z.eqb_spec (start x) (start z)); lia.
      * apply stable_sort_sorted. intros a b. unfold le.
        destruct (Z.eqb_spec (start a) (start b)), (Z.eqb_spec (start b) (start a)); lia.
  - intros a b Ha Hb. unfold or_else, le, start.
    pose proof (locale_days (checkIn a) (checkIn b) (valid_start _ Ha) (valid_start _ Hb)) as E.
    destruct (Z.eqb_spec (localeCompare (checkIn a) (checkIn b)) 0) as [E0|E0].
    + rewrite E0 in E. symmetry in E. apply Z.compare_eq in E. rewrite E, Z.eqb_refl.
      apply locale_le; by apply valid_finish.
    + pose proof (locale_le _ _ (valid_start _ Ha) (valid_start _ Hb)) as ->.
      destruct (Z.eqb_spec (date_parse (checkIn a)) (date_parse (checkIn b))) as [E1|]; [|done].
      rewrite E1, Z.compare_refl in E. by apply Z.compare_eq in E.
Qed.

Lemma gap_nights_spec `{CollationLaws} l : valid_list l -> l <> [] ->
  exists lo hi, extent l lo hi /\ intervalGapNights l = uncovered l lo hi.
Proof.
  intros Hv Hne. unfold intervalGapNights. pose proof (sort_gap l Hv) as Hs.
  set (s := sort_by _ l) in *. assert (Hp : s ≡ₚ l) by apply sort_by_perm.
  assert (Hcov : forall d, covered s d = covered l d).
  { intros d. apply eq_bool_prop_intro. rewrite !Is_true_true, !covered_true. by setoid_rewrite Hp. }
  assert (Hvs : valid_list s) by (unfold valid_list; by rewrite Hp).
  destruct s as [|i s]; [by apply Permutation_nil_l in Hp|].
  apply Forall_cons in Hvs as [Hi Hvs]. unfold as_interval, interval_as_interval in Hi.
  pose proof (valid_order _ Hi) as Hord. inversion Hs as [|? ? Hss HF]; subst.
  destruct (gap_fold s (checkOut i) 0 Hvs Hss (valid_finish _ Hi)) as (Hle & Hall & Hlast & Hsum).
  fold gap_step in *. set (r := fold_left gap_step s _) in *. fold (finish i) in *.
  exists (start i), (date_parse (fst r)). rewrite Forall_forall in HF. split.
  - split_and!.
    + rewrite <- Hcov, covered_true. exists i. split; [left | lia].
    + rewrite <- Hcov, covered_true. destruct Hlast as [->|(j & Hj & ->)].
      * exists i. split; [left|lia].
      * exists j. split; [by right|]. pose proof (HF j Hj) as Hj'. stays.
        unfold valid_list in Hvs. rewrite Forall_forall in Hvs. pose proof (valid_order _ (Hvs j Hj)). stays. lia.
    + intros d. rewrite <- Hcov, covered_true. intros (j & [->|Hj]%elem_of_cons & Hd); [lia|].
      specialize (HF j Hj). specialize (Hall j Hj). stays. lia.
  - rewrite Hsum. rewrite (uncovered_split l (start i) (finish i)) by lia.
    rewrite (uncovered_none l (start i)).
    + rewrite (uncovered_ext l s); [lia|]. intros d Hd. rewrite <- Hcov. apply covered_out. lia.
    + intros d Hd. rewrite <- Hcov, covered_true. exists i. split; [left | lia].
Qed.

(** Gap nights depend only on the nights covered. *)
Lemma gap_nights_ext `{CollationLaws} l k : valid_list l -> valid_list k ->
  (forall d, covered l d = covered k d) -> intervalGapNights l = intervalGapNights k.
Proof.
  intros Hl Hk Hc.
  assert (Hnil : forall m, valid_list m -> (forall d, covered m d = false) -> m = []).
  { intros [|i m] Hm Hn; [done|]. apply Forall_cons in Hm as [Hi _]. specialize (Hn (start i)).
    unfold covered, covers in Hn. cbn in Hn. pose proof (valid_order _ Hi). stays. lia. }
  destruct (decide (l = [])) as [->|Hln].
  - rewrite (Hnil k); [done..|]. intros d. by rewrite <- Hc.
  - destruct (decide (k = [])) as [->|Hkn]; [by rewrite (Hnil l)|].
    destruct (gap_nights_spec l Hl Hln) as (lo & hi & (H1 & H2 & H3) & ->).
    destruct (gap_nights_spec k Hk Hkn) as (lo' & hi' & (H1' & H2' & H3') & ->).
    rewrite Hc in H1, H2. rewrite <- Hc in H1', H2'.
    pose proof (H3' _ H1). pose proof (H3' _ H2). pose proof (H3 _ H1'). pose proof (H3 _ H2').
    replace lo' with lo by lia. replace hi' with hi by lia. by apply uncovered_ext.
Qed.

(** ** Merging keeps the covered nights *)

Lemma unit_interval d : four_digit_day d -> four_digit_day (d + 1) ->
  valid_interval {| checkIn := iso_date d; checkOut := iso_date (d + 1) |} /\
  (forall i, valid_interval i ->
     overlaps i {| checkIn := iso_date d; checkOut := iso_date (d + 1) |} = covers d i).
Proof.
  intros H1 H2.
  assert (Hu : valid_interval {| checkIn := iso_date d; checkOut := iso_date (d + 1) |}).
  { split; cbn [checkIn checkOut]; [by apply pricing_date_iso_date..|]. stays. cbn [checkIn checkOut]. rewrite !date_parse_iso_date by done. lia. }
  split; [done|]. intros i Hi. rewrite overlaps_spec by done. unfold covers. stays. cbn [checkIn checkOut].
  rewrite !date_parse_iso_date by done. lia.
Qed.

Lemma covers_four_digit d i : valid_interval i -> covers d i = true ->
  four_digit_day d /\ four_digit_day (d + 1).
Proof.
  intros [Hs Hf _] Hc. unfold covers in Hc. stays.
  apply pricing_date_four_digit in Hs, Hf. unfold four_digit_day in *. lia.
Qed.

Lemma merge_covered `{CollationLaws} l d : valid_list l -> covered (mergeIntervals l) d = covered l d.
Proof.
  intros Hv. destruct (merge_intervals_spec l Hv) as (Hmv & _ & Hmeets).
  apply eq_bool_prop_intro. rewrite !Is_true_true.
  assert (Hgo : forall k k', valid_list k -> valid_list k' ->
            (forall o, valid_interval o -> meets k o = meets k' o) -> covered k d = true -> covered k' d = true).
  { intros k k' Hk Hk' Hm (i & Hi & Hc)%covered_true.
    assert (Hvi : valid_interval i) by (unfold valid_list in Hk; rewrite Forall_forall in Hk; by apply Hk).
    destruct (covers_four_digit d i Hvi) as [H1 H2]; [unfold covers; lia|].
    destruct (unit_interval d H1 H2) as [Hu Hcov].
    assert (Hmu : meets k {| checkIn := iso_date d; checkOut := iso_date (d + 1) |} = true).
    { unfold meets. apply existsb_exists. exists i. split; [by apply list_elem_of_In|].
      rewrite Hcov by done. unfold covers. lia. }
    rewrite Hm in Hmu by done. unfold meets in Hmu. apply existsb_exists in Hmu as (j & Hj%list_elem_of_In & Ho).
    assert (Hvj : valid_interval j) by (unfold valid_list in Hk'; rewrite Forall_forall in Hk'; by apply Hk').
    rewrite Hcov in Ho by done. apply covered_true. exists j. split; [done|]. unfold covers in Ho. lia. }
  split; [by apply Hgo | apply Hgo; try done]. intros o Ho. by rewrite Hmeets.
Qed.

(** ** The assignment the moves lead to *)

Definition relocate (moves : list Move) (o : Occupancy) : Occupancy :=
  {| occupancyId := occupancyId o; occupancyRoomId := room_after moves o; stay := stay o;
     movable := movable o |}.

Section Report.
Context `{CollationLaws}.

Lemma filter_fmap {A B} (P : B -> Prop) `{forall x, Decision (P x)} (f : A -> B) (l : list A) :
  filter P (f <$> l) = f <$> filter (fun x => P (f x)) l.
Proof.
  induction l as [|x l IH]; [done|]. rewrite fmap_cons, !filter_cons, IH. by case_decide.
Qed.

Lemma filter_ext_in {A} (P Q : A -> Prop) `{forall x, Decision (P x)} `{forall x, Decision (Q x)} (l : list A) :
  (forall x, x ∈ l -> P x <-> Q x) -> filter P l = filter Q l.
Proof.
  induction l as [|x l IH]; intros Hpq; [done|]. rewrite !filter_cons, IH by (intros; apply Hpq; by right).
  specialize (Hpq x ltac:(by left)). by destruct (decide (P x)), (decide (Q x)); tauto.
Qed.

Lemma filter_movable_split {A} (P : A -> Prop) `{forall x, Decision (P x)} (b : A -> bool) (l : list A) :
  filter P l ≡ₚ filter P (filter (fun x => b x = false) l) ++ filter P (filter (fun x => b x = true) l).
Proof.
  induction l as [|x l IH]; [done|]. rewrite (filter_cons P), (filter_cons (fun y => b y = false)),
    (filter_cons (fun y => b y = true)).
  destruct (b x) eqn:E.
  - rewrite (decide_False (P := true = false)), (decide_True (P := true = true)) by done.
    rewrite (filter_cons P). case_decide; rewrite IH; [apply Permutation_middle | done].
  - rewrite (decide_True (P := false = false)), (decide_False (P := false = true)) by done.
    rewrite (filter_cons P). case_decide; rewrite IH; done.
Qed.

(** On the finished board, the stays of a room are its placed ones. *)
Lemma filter_placed schs s m : NoDup (room_id <$> schs) -> s ∈ schs -> assigned_ok schs m ->
  filter (fun o => m !! occupancyId o = Some (room_id s)) (all_placed schs) ≡ₚ placed s.
Proof.
  intros Hnd Hs Ha. apply list_elem_of_split in Hs as (l & r & ->). rewrite all_placed_split, filter_app.
  rewrite fmap_app, fmap_cons in Hnd.
  assert (Hself : filter (fun o => m !! occupancyId o = Some (room_id s)) (placed s) = placed s).
  { rewrite (filter_ext_in _ (fun _ => True)); [|intros o Ho; split; [done|]; intros _; apply (Ha s o)].
    - generalize (placed s) as k. induction k as [|x k IH]; [done|]. rewrite filter_cons, decide_True by done. by rewrite IH.
    - apply elem_of_app. right. left.
    - done. }
  assert (Hrest : filter (fun o => m !! occupancyId o = Some (room_id s)) (all_placed (l ++ r)) = []).
  { rewrite (filter_ext_in _ (fun _ => False)).
    - generalize (all_placed (l ++ r)) as k. induction k as [|x k IH]; [done|]. rewrite filter_cons, decide_False by tauto. done.
    - intros o (s' & Hs' & Ho)%placed_elem_of. split; [|done]. intros E.
      rewrite (Ha s' o) in E by (done || (apply elem_of_app in Hs' as [Hs'|Hs']; apply elem_of_app; [by left | right; by right])).
      injection E as E. apply NoDup_app in Hnd as (_ & Hl & Hr). apply NoDup_cons in Hr as [Hr _].
      apply elem_of_app in Hs' as [Hs'|Hs'].
      + apply (Hl (room_id s')); [by apply list_elem_of_fmap_2 | rewrite E; left].
      + apply Hr. rewrite <- E. by apply list_elem_of_fmap_2. }
  by rewrite Hself, Hrest, app_nil_r.
Qed.

(** The stays of a room once the moves are made *)
Lemma relocated_stays rooms occs schs' m moves s : input_ok rooms occs ->
  packed (initial_board rooms occs) (filter is_movable occs) schs' m -> s ∈ schs' ->
  (forall o, o ∈ occs -> room_after moves o = board_room m o) ->
  stay <$> stays_in (room_id s) (relocate moves <$> occs) ≡ₚ
    (stay <$> stays_in (room_id s) (filter is_fixed occs)) ++ (stay <$> placed s).
Proof.
  intros Hin Hpk Hs Hm. pose proof Hpk as [_ Hb Hp Ha]. unfold stays_in at 1.
  rewrite filter_fmap, <- list_fmap_compose. cbn [relocate occupancyRoomId].
  rewrite (filter_ext_in _ (fun o => board_room m o = Some (room_id s))) by (intros o Ho; by rewrite Hm).
  change (compose stay (relocate moves)) with stay.
  rewrite (filter_movable_split _ movable), fmap_app. apply Permutation_app.
  - assert (E : filter (fun o => board_room m o = Some (room_id s)) (filter is_fixed occs) =
                stays_in (room_id s) (filter is_fixed occs)); [|by rewrite <- E].
    unfold stays_in. apply filter_ext_in. intros o [Hf _]%list_elem_of_filter. unfold board_room. by rewrite Hf.
  - apply fmap_Permutation.
    rewrite <- (filter_placed schs' s m (bd_rooms _ _ Hb) Hs Ha), Hp, initial_placed. cbn [app].
    assert (E : filter (fun o => board_room m o = Some (room_id s)) (filter is_movable occs) =
                filter (fun o => m !! occupancyId o = Some (room_id s)) (filter is_movable occs)); [|by rewrite <- E].
    apply filter_ext_in. intros o [Hf _]%list_elem_of_filter. unfold board_room. by rewrite Hf.
Qed.

Lemma initial_schedule rooms occs schs' m s : packed (initial_board rooms occs) (filter is_movable occs) schs' m ->
  s ∈ schs' -> fixed s = mergeIntervals (stay <$> stays_in (room_id s) (filter is_fixed occs)) /\ schedule_ok s.
Proof.
  intros [Hf Hb _ _] Hs. destruct (frame_initial _ _ _ _ Hf Hs) as (r & _ & <- & ->). split; [done|].
  pose proof (bd_schedules _ _ Hb) as Hok. rewrite Forall_forall in Hok. by apply Hok.
Qed.

Lemma covered_nights_perm l k d : l ≡ₚ k -> covered l d = covered k d.
Proof.
  intros Hp. apply eq_bool_prop_intro. rewrite !Is_true_true, !covered_true. by setoid_rewrite Hp.
Qed.

Lemma covered_app l k d : covered (l ++ k) d = covered l d || covered k d.
Proof. apply existsb_app. Qed.

Lemma schedule_gap rooms occs schs' m moves s : input_ok rooms occs ->
  packed (initial_board rooms occs) (filter is_movable occs) schs' m -> s ∈ schs' ->
  (forall o, o ∈ occs -> room_after moves o = board_room m o) ->
  intervalGapNights (fixed s ++ (stay <$> placed s)) =
  intervalGapNights (stay <$> stays_in (room_id s) (relocate moves <$> occs)).
Proof.
  intros Hin Hpk Hs Hm. pose proof (relocated_stays _ _ _ _ _ _ Hin Hpk Hs Hm) as Hp.
  destruct (initial_schedule _ _ _ _ _ Hpk Hs) as [Ef Hok].
  assert (Hvo : valid_list (stay <$> stays_in (room_id s) (filter is_fixed occs)))
    by (apply stays_valid, (in_valid _ _ Hin)).
  assert (Hvp : valid_list (stay <$> placed s)) by (apply Forall_fmap, (ok_placed _ Hok)).
  apply gap_nights_ext.
  - apply Forall_app. split; [apply (ok_fixed _ Hok) | done].
  - unfold valid_list. rewrite Hp. by apply Forall_app.
  - intros d. rewrite (covered_nights_perm _ _ d Hp), !covered_app, Ef. by rewrite merge_covered.
Qed.

Lemma packed_room_list rooms occs schs' m :
  packed (initial_board rooms occs) (filter is_movable occs) schs' m -> room <$> schs' = rooms.
Proof.
  intros [Hf _ _ _]. rewrite (frame_rooms _ _ Hf). unfold initial_board.
  rewrite <- list_fmap_compose. apply list_fmap_id.
Qed.

Lemma total_gap rooms occs schs' m moves : input_ok rooms occs ->
  packed (initial_board rooms occs) (filter is_movable occs) schs' m ->
  (forall o, o ∈ occs -> room_after moves o = board_room m o) ->
  sum_of (fun s => intervalGapNights (fixed s ++ (stay <$> placed s))) schs' =
  totalGapNights rooms (relocate moves <$> occs).
Proof.
  intros Hin Hpk Hm. unfold totalGapNights. rewrite <- (packed_room_list _ _ _ _ Hpk) at 1.
  assert (Hgo : forall l, (forall s, s ∈ l -> s ∈ schs') ->
            sum_of (fun s => intervalGapNights (fixed s ++ (stay <$> placed s))) l =
            sum_of (fun r => intervalGapNights (stay <$> stays_in (roomId r) (relocate moves <$> occs))) (room <$> l)).
  { induction l as [|s l IH]; intros Hl; [done|]. rewrite fmap_cons, !sum_of_cons.
    rewrite IH by (intros; apply Hl; by right). f_equal.
    eapply schedule_gap; [exact Hin | exact Hpk | apply Hl; by left | exact Hm]. }
  by apply Hgo.
Qed.

Lemma merge_empty l : valid_list l -> (0 < length (mergeIntervals l) <-> 0 < length l)%nat.
Proof.
  intros Hv. destruct l as [|i l]; [done|]. split; [cbn; lia|]. intros _.
  destruct (mergeIntervals (i :: l)) as [|j k] eqn:E; [|cbn; lia]. exfalso.
  pose proof (merge_covered (i :: l) (start i) Hv) as Hc. rewrite E in Hc.
  apply Forall_cons in Hv as [Hi _]. rewrite covered_in in Hc; [done|].
  pose proof (valid_order _ Hi). stays. lia.
Qed.

(** A schedule is in use exactly when the moves leave a stay in its room. *)
Lemma schedule_used_spec rooms occs schs' m moves s : input_ok rooms occs ->
  packed (initial_board rooms occs) (filter is_movable occs) schs' m -> s ∈ schs' ->
  (forall o, o ∈ occs -> room_after moves o = board_room m o) ->
  schedule_used s = true <-> room_id s ∈ omap occupancyRoomId (relocate moves <$> occs).
Proof.
  intros Hin Hpk Hs Hm.
  pose proof (Permutation_length (relocated_stays _ _ _ _ _ _ Hin Hpk Hs Hm)) as Hlen.
  rewrite length_app, !length_fmap in Hlen.
  destruct (initial_schedule _ _ _ _ _ Hpk Hs) as [Ef Hok].
  assert (Hmem : room_id s ∈ omap occupancyRoomId (relocate moves <$> occs) <->
            (0 < length (stays_in (room_id s) (relocate moves <$> occs)))%nat).
  { rewrite list_elem_of_omap. split.
    - intros (o & Ho & E).
      assert (Hx : o ∈ stays_in (room_id s) (relocate moves <$> occs)) by (by apply list_elem_of_filter).
      destruct (stays_in _ _); [by apply elem_of_nil in Hx | cbn; lia].
    - destruct (stays_in _ _) as [|o l] eqn:E; [cbn; lia|]. intros _. exists o.
      assert (Hx : o ∈ stays_in (room_id s) (relocate moves <$> occs)) by (rewrite E; left).
      unfold stays_in in Hx. apply list_elem_of_filter in Hx. tauto. }
  pose proof (merge_empty (stay <$> stays_in (room_id s) (filter is_fixed occs))
                (stays_valid _ _ _ (in_valid _ _ Hin))) as Hmerge.
  rewrite length_fmap in Hmerge. rewrite Hmem. unfold schedule_used. rewrite Nat.ltb_lt, Ef. lia.
Qed.

Lemma used_rooms rooms occs schs' m moves : input_ok rooms occs ->
  packed (initial_board rooms occs) (filter is_movable occs) schs' m ->
  (forall o, o ∈ occs -> room_after moves o = board_room m o) ->
  Z.of_nat (length (List.filter schedule_used schs')) = usedRoomCount rooms (relocate moves <$> occs).
Proof.
  intros Hin Hpk Hm. unfold usedRoomCount. f_equal.
  pose proof Hpk as [Hf Hb _ _]. pose proof (bd_rooms _ _ Hb) as Hnd.
  transitivity (size (list_to_set (room_id <$> List.filter schedule_used schs') : gset string)).
  - rewrite size_list_to_set by (by apply filter_keys). by rewrite length_fmap.
  - f_equal. apply leibniz_equiv. intros id.
    rewrite elem_of_filter, !elem_of_list_to_set, list_elem_of_fmap. unfold known_rooms.
    rewrite elem_of_list_to_set. rewrite <- (packed_room_list _ _ _ _ Hpk), <- list_fmap_compose.
    setoid_rewrite elem_of_lfilter. split.
    + intros (s & -> & Hs & Hu). split; [by apply (list_elem_of_fmap_2 room_id)|].
      by apply (schedule_used_spec _ _ _ _ _ _ Hin Hpk Hs Hm).
    + intros [(s & -> & Hs)%list_elem_of_fmap Hid]. exists s. split_and!; [done..|].
      by apply (schedule_used_spec _ _ _ _ _ _ Hin Hpk Hs Hm).
Qed.
End Report.

(** ** The report of a run *)

Lemma total_gap_perm `{Collation} rooms rooms' occs : rooms ≡ₚ rooms' ->
  totalGapNights rooms occs = totalGapNights rooms' occs.
Proof. apply sum_of_perm. Qed.

Lemma known_rooms_perm rooms rooms' : rooms ≡ₚ rooms' -> known_rooms rooms = known_rooms rooms'.
Proof. intros Hp. unfold known_rooms. apply leibniz_equiv. by rewrite Hp. Qed.

Lemma used_rooms_perm rooms rooms' occs : rooms ≡ₚ rooms' ->
  usedRoomCount rooms occs = usedRoomCount rooms' occs.
Proof. intros Hp. unfold usedRoomCount. by rewrite (known_rooms_perm _ _ Hp). Qed.

Lemma original_perm `{Collation} rooms rooms' occs : rooms ≡ₚ rooms' ->
  originalAssignmentIsFeasible rooms occs = originalAssignmentIsFeasible rooms' occs.
Proof.
  intros Hp. unfold originalAssignmentIsFeasible. rewrite (known_rooms_perm _ _ Hp). f_equal.
  induction Hp; cbn; [done | congruence | |congruence]. rewrite !andb_assoc. f_equal. apply andb_comm.
Qed.

Lemma optimize_optimized `{CollationLaws} searchBudget rooms occs moves gb ga ub ua :
  input_ok rooms occs -> optimize searchBudget rooms occs = Some (Optimized moves gb ga ub ua) ->
  exists moved schs' m, moved ≡ₚ filter is_movable occs /\
    packed (initial_board (order_rooms rooms) occs) (filter is_movable occs) schs' m /\
    optimized (order_rooms rooms) occs moved schs' m = Optimized moves gb ga ub ua.
Proof.
  intros Hin E. assert (Hin' : input_ok (order_rooms rooms) occs).
  { eapply input_ok_perm; [|exact Hin]. symmetry. apply order_rooms_perm. }
  unfold optimize in E. set (ordered := order_rooms rooms) in *. fold is_fixed in E.
  destruct (place_fixed _ _) as [schs|e] eqn:Ep; [|done].
  destruct (initial_spec _ _ _ Ep) as [Hb0 _]. rewrite Hb0 in E. set (moved := movable_in_order _ _) in E.
  assert (Hp : moved ≡ₚ filter is_movable occs) by apply movable_perm.
  pose proof (place_movable_correct searchBudget ordered occs moved (initial_board_ok _ _ _ Hin' Hp)) as Hc.
  destruct (peakDemandExceedsRoomCount _ _); [done|].
  destruct (place_movable _ _ _ _) as [[schs' m|[]]|]; [|done..].
  exists moved, schs', m. split; [done|]. split; [|by apply (inj Some)].
  destruct Hc as [H1 H2 H3 H4]. split; try done. by rewrite H3, Hp.
Qed.

Lemma original_assigned `{Collation} rooms occs : originalAssignmentIsFeasible rooms occs = true ->
  forallb (fun o => bool_decide (occupancyRoomId o <> None)) occs = true.
Proof.
  intros Ho. apply andb_true_iff in Ho as [Ho _]. apply negb_true_iff, existsb_false_Forall in Ho.
  apply forallb_forall. intros o Hoo. rewrite Forall_forall in Ho. apply list_elem_of_In in Hoo.
  specialize (Ho o Hoo). unfold unknown_room in Ho. apply bool_decide_eq_true. by destruct (occupancyRoomId o).
Qed.

Lemma relocate_nothing (occs : list Occupancy) : relocate [] <$> occs = occs.
Proof. rewrite <- (list_fmap_id occs) at 2. apply list_fmap_ext. by intros _ [] _. Qed.

(** The optimizer's report is true.  The gap nights and used rooms it returns
    are those of the assignment before and after the moves, recomputed from the
    stays; and a feasible existing assignment is never made worse: fewer rooms
    are used, or as many with no more gap nights. *)
Theorem optimizer_report `{CollationLaws} rooms occupancies searchBudget moves
    gapNightsBefore gapNightsAfter usedRoomsBefore usedRoomsAfter :
  optimizePmsRoomAssignments rooms occupancies searchBudget =
    Ret (Some (Optimized moves gapNightsBefore gapNightsAfter usedRoomsBefore usedRoomsAfter)) ->
  let after := relocate moves <$> occupancies in
  gapNightsBefore = totalGapNights rooms occupancies /\
  gapNightsAfter = totalGapNights rooms after /\
  usedRoomsBefore = usedRoomCount rooms occupancies /\
  usedRoomsAfter = usedRoomCount rooms after /\
  (originalAssignmentIsFeasible rooms occupancies = true ->
     usedRoomsAfter < usedRoomsBefore \/
     usedRoomsAfter = usedRoomsBefore /\ gapNightsAfter <= gapNightsBefore).
Proof.
  unfold optimizePmsRoomAssignments, exn_bind. intros E.
  destruct (validateInput rooms occupancies) as [[]|] eqn:Ev; [|done].
  destruct (invalid_budget searchBudget); [done|]. injection E as E. apply validate_ok in Ev.
  destruct (optimize_optimized _ _ _ _ _ _ _ _ Ev E) as (moved & schs' & m & Hp & Hpk & Eo).
  pose proof (order_rooms_perm rooms) as Ho.
  assert (Hin : input_ok (order_rooms rooms) occupancies) by (eapply input_ok_perm; [symmetry; exact Ho | done]).
  unfold optimized in Eo. destruct (_ && _) eqn:Ekeep; injection Eo as <- <- <- <- <-.
  - cbv zeta. rewrite relocate_nothing, (total_gap_perm _ _ _ Ho), (used_rooms_perm _ _ _ Ho).
    split_and!; try done. lia.
  - assert (Hm : forall o, o ∈ occupancies ->
              room_after (List.filter changes_room (move_of m <$> moved)) o = board_room m o).
    { intros o Hoo. eapply room_after_moves; [exact Hin | done..|]. intros Hmv.
      destruct (board_of_movable _ _ _ _ o Hpk Hoo Hmv) as (s & _ & _ & Es). by eexists. }
    cbv zeta. rewrite <- !(total_gap_perm _ _ _ Ho), <- !(used_rooms_perm _ _ _ Ho).
    rewrite <- (total_gap _ _ _ _ _ Hin Hpk Hm), <- (used_rooms _ _ _ _ _ Hin Hpk Hm).
    split_and!; try done. intros Hf. rewrite <- (original_perm _ _ _ Ho) in Hf.
    rewrite (original_assigned _ _ Hf), Hf in Ekeep. cbn [andb] in Ekeep. lia.
Qed.

(** ** The search's fuel and work *)

Section Fuel.
Context `{Collation}.

Lemma without_shorter o pending : o ∈ pending -> (length (without o pending) < length pending)%nat.
Proof. intros Ho. apply (length_filter_lt _ _ o); [done | by intros Hn]. Qed.

Lemma try_candidates_fuel search search' o cs :
  (forall st, search st = search' st /\ is_Some (search st)) -> forall st,
  try_candidates search o cs st = try_candidates search' o cs st /\ is_Some (try_candidates search o cs st).
Proof.
  intros Hs. induction cs as [|c cs IH]; intros st; cbn; [by eexists|].
  destruct (Hs (try_room o (roomId (candidateRoom c)) st)) as [<- [[found st1] ->]].
  destruct found; [by eexists | apply IH].
Qed.

Lemma search_fuel budget fuel : forall fuel' pending st,
  (length pending < fuel)%nat -> (length pending < fuel')%nat ->
  searchPlacement fuel budget pending st = searchPlacement fuel' budget pending st /\
  is_Some (searchPlacement fuel budget pending st).
Proof.
  induction fuel as [|fuel IH]; intros [|fuel'] pending st Hf Hf'; try lia.
  cbn [searchPlacement]. destruct pending as [|x l] eqn:Ep; [by eexists|]. rewrite <- Ep in *.
  destruct (_ <=? _); [by eexists|]. destruct (decide _); [by eexists|].
  destruct (choices_head (schedules st) pending) as (o & cs & -> & Ho); [by rewrite Ep|].
  apply try_candidates_fuel. intros st'. pose proof (without_shorter _ _ Ho). apply IH; lia.
Qed.

(** *** A failed search takes back what it tried *)

(** No pending stay has a room yet. *)
Definition unplaced (pending : list Occupancy) (st : SearchState) : Prop :=
  forall o, o ∈ pending -> assigned st !! occupancyId o = None /\
    forall s, s ∈ schedules st -> occupancyId o ∉ (occupancyId <$> placed s).

Lemma undo_same_board o id st st' : unplaced [o] st ->
  same_board (try_room o id st) st' -> same_board st (undo_room o id st').
Proof.
  intros Hu [E1 E2]. destruct (Hu o ltac:(by left)) as [Ha Hs]. split; cbn.
  - rewrite E1. cbn. unfold update_placed. rewrite <- list_fmap_compose.
    rewrite <- (list_fmap_id (schedules st)) at 2. apply list_fmap_ext. intros i s Hi. cbn.
    apply list_elem_of_lookup_2 in Hi.
    destruct (String.eqb (roomId (room s)) id) eqn:E; cbn; rewrite E; [|done].
    unfold with_placed. cbn. rewrite remove_insert by (by apply Hs). by destruct s.
  - rewrite E2. cbn. by apply delete_insert_id.
Qed.

Lemma unplaced_try o id pending st : unplaced pending st ->
  unplaced (without o pending) (try_room o id st).
Proof.
  intros Hu x [Hne Hx]%list_elem_of_filter. destruct (Hu x Hx) as [Ha Hs]. split; cbn.
  - by rewrite lookup_insert_ne by congruence.
  - intros s (s0 & -> & Hs0)%list_elem_of_fmap. specialize (Hs s0 Hs0).
    destruct (String.eqb _ _); [|done]. cbn. rewrite insert_perm. cbn. by apply not_elem_of_cons.
Qed.

(** [r] is a failure that changed neither the schedules nor the assignment. *)
Definition restores (st : SearchState) (r : option (bool * SearchState)) : Prop :=
  forall st', r = Some (false, st') -> same_board st st'.

Lemma unplaced_same pending st st' : same_board st st' -> unplaced pending st -> unplaced pending st'.
Proof. intros [E1 E2] Hu. unfold unplaced. by rewrite E1, E2. Qed.

Lemma try_candidates_restores search o pending cs :
  o ∈ pending -> (forall st, unplaced (without o pending) st -> restores st (search st)) ->
  forall st, unplaced pending st -> restores st (try_candidates search o cs st).
Proof.
  intros Ho Hs. induction cs as [|c cs IH]; intros st Hu st'; cbn [try_candidates]; [by intros [= <-]|].
  set (id := roomId (candidateRoom c)). pose proof (Hs _ (unplaced_try o id pending st Hu)) as Hr.
  destruct (search (try_room o id st)) as [[[] st1]|] eqn:E; [done| |done]. cbn. intros E'.
  assert (Hsame : same_board st (undo_room o id st1)).
  { apply undo_same_board; [|by apply Hr]. intros x ->%list_elem_of_singleton. by apply Hu. }
  destruct (IH _ (unplaced_same _ _ _ Hsame Hu) st' E') as [E1 E2], Hsame. split; congruence.
Qed.

Lemma search_restores budget fuel : forall pending st,
  unplaced pending st -> restores st (searchPlacement fuel budget pending st).
Proof.
  induction fuel as [|fuel IH]; intros pending st Hu st'; cbn [searchPlacement]; [done|].
  destruct pending as [|x l] eqn:Ep; [done|]. rewrite <- Ep in *.
  destruct (_ <=? _); [by intros [= <-]|]. destruct (decide _); [by intros [= <-]|].
  destruct (choices_head (schedules st) pending) as (o & cs & -> & Ho); [by rewrite Ep|].
  apply (try_candidates_restores _ o pending); [done | | exact Hu]. intros st1. apply IH.
Qed.
End Fuel.

(** C37: the backtracking search terminates and a failure leaves no trace.  From
    any state it returns a verdict as soon as the fuel exceeds the number of
    pending stays, and more fuel does not change the verdict.  When none of the
    pending stays has a room yet, as in every call of the optimizer, a search
    that fails gives back every room's schedule and the assignment as it found
    them. *)
Theorem search_terminates `{Collation} fuel budget pending st :
  (length pending < fuel)%nat ->
  exists found st', searchPlacement fuel budget pending st = Some (found, st') /\
    (forall fuel', (length pending < fuel')%nat ->
       searchPlacement fuel' budget pending st = Some (found, st')) /\
    (unplaced pending st -> found = false ->
       schedules st' = schedules st /\ assigned st' = assigned st).
Proof.
  intros Hf. destruct (search_fuel budget fuel fuel pending st Hf Hf) as [_ [[found st'] E]].
  exists found, st'. split_and!; [done| |].
  - intros fuel' Hf'. by destruct (search_fuel budget fuel' fuel pending st Hf' Hf) as [-> _].
  - intros Hu ->. by apply (search_restores budget fuel pending st Hu).
Qed.

(** The search's work is bounded.  With an accepted search budget, a run for
    the rooms of the board never counts more nodes than its budget, itself at
    most 100 000, plus one per pending stay and room. *)
Theorem search_work_bounded `{Collation} fuel searchBudget rooms pending st found st' :
  invalid_budget searchBudget = false ->
  NoDup (occupancyId <$> pending) -> length (schedules st) = length rooms -> count st = 0 ->
  searchPlacement fuel (search_budget searchBudget pending rooms) pending st = Some (found, st') ->
  500 <= search_budget searchBudget pending rooms <= 100000 /\
  count st' <= search_budget searchBudget pending rooms +
    Z.of_nat (length pending) * Z.of_nat (length rooms).
Proof.
  intros Hb Hnd Hl Hc E.
  assert (Hr : 500 <= search_budget searchBudget pending rooms <= 100000).
  { unfold invalid_budget, search_budget in *. destruct searchBudget as [b|]; [|lia].
    apply orb_false_iff in Hb as [Hb Hhi]. apply orb_false_iff in Hb as [_ Hlo]. lia. }
  split; [done|]. destruct (search_counts (search_budget searchBudget pending rooms) fuel ltac:(lia) _ _ _ _ Hnd E) as [_ Hcount]. lia.
Qed.
