(* ===== verification/OperatingSchedule.v ===== *)
(** * Operating schedules (domain-pms/src/operatingCalendar.ts)

    A property is open all year, or during recurring annual periods given by
    their first and last day ["MM-DD"] (a period may wrap around the new year).
    [parsePmsOperatingSchedule] reads a submitted schedule into canonical form:
    it marks the days of every period in an array of 365 booleans, refuses
    overlaps and full years, and reads the maximal runs back. *)

From S2P Require Import Prelude JsValue CalendarDates.

(** ** Month days *)

Definition MONTH_LENGTHS : list Z := [31; 28; 31; 30; 31; 30; 31; 31; 30; 31; 30; 31].

(** [value.split("-").map(Number)] on ["MM-DD"] *)
Definition split_month_day (s : string) : option (Z * Z) :=
  match s with
  | String a (String b (String h (String c (String d EmptyString)))) =>
      if is_digit a && is_digit b && is_char "-" h && is_digit c && is_digit d
      then Some (10 * digit_val a + digit_val b, 10 * digit_val c + digit_val d)
      else None
  | _ => None
  end.

(** [MONTH_DAY.test(value)]: months 01 to 12, days 01 to 31 *)
Definition MONTH_DAY (s : string) : bool :=
  match split_month_day s with
  | Some (m, d) => (1 <=? m) && (m <=? 12) && (1 <=? d) && (d <=? 31)
  | None => false
  end.

Definition parsePmsOperatingCalendarMonthDay (v : jsval) : option string :=
  let? s := as_string v in
  if negb (MONTH_DAY s) || String.eqb s "02-29" then None
  else
    let? (m, d) := split_month_day s in
    if d <=? default 0 (MONTH_LENGTHS !! Z.to_nat (m - 1)) then Some s else None.

Definition sum_list (l : list Z) : Z := foldl Z.add 0 l.

(** The day of a common year, from 0 *)
Definition monthDayIndex (s : string) : Z :=
  match split_month_day s with
  | Some (m, d) => sum_list (take (Z.to_nat (m - 1)) MONTH_LENGTHS) + d - 1
  | None => 0
  end.

(** [while (remaining >= MONTH_LENGTHS[month]) remaining -= MONTH_LENGTHS[month++]] *)
Fixpoint index_month (lengths : list Z) (month remaining : Z) : Z * Z :=
  match lengths with
  | [] => (month, remaining)
  | len :: r =>
      if len <=? remaining then index_month r (month + 1) (remaining - len)
      else (month, remaining)
  end.

Definition indexMonthDay (index : Z) : string :=
  let '(month, remaining) := index_month MONTH_LENGTHS 0 index in
  pad2 (month + 1) +:+ String "-" (pad2 (remaining + 1)).

(** ** Schedules *)

Record PmsRecurringOperatingPeriod := { startsOn : string; endsOn : string }.

Inductive PmsOperatingSchedule :=
| YearRound
| Recurring (periods : list PmsRecurringOperatingPeriod).

(** [record(value)] and [exactRecord(value, keys)] of operatingCalendar.ts *)
Definition exactRecord (v : jsval) (keys : list string) : bool :=
  is_object v && Nat.eqb (own_keys_length v) (length keys) && forallb (has_own v) keys.

Definition MINIMUM_PERIODS : nat := 1.
Definition MAXIMUM_DRAFT_PERIODS : nat := 24.

(** [occupied[day]] *)
Definition occ_at (occ : list bool) (day : Z) : bool := default false (occ !! Z.to_nat day).

(** The inner loop: marks the days from [day] to [last], cyclically; fails on a
    day that is already marked.  365 rounds reach every day. *)
Fixpoint mark (fuel : nat) (day last : Z) (occ : list bool) : option (list bool) :=
  if occ_at occ day then None
  else
    let occ' := <[Z.to_nat day := true]> occ in
    if day =? last then Some occ'
    else match fuel with
         | O => None
         | S f => mark f ((day + 1) mod 365) last occ'
         end.

(** The loop over [value.periods]. *)
Fixpoint mark_periods (raws : list jsval) (occ : list bool) : option (list bool) :=
  match raws with
  | [] => Some occ
  | raw :: r =>
      if negb (exactRecord raw ["startsOn"; "endsOn"]) then None
      else
        let? s := parsePmsOperatingCalendarMonthDay (get raw "startsOn") in
        let? e := parsePmsOperatingCalendarMonthDay (get raw "endsOn") in
        let? occ' := mark 365 (monthDayIndex s) (monthDayIndex e) occ in
        mark_periods r occ'
  end.

(** [occupied.findIndex((present) => !present)] *)
Fixpoint find_gap (occ : list bool) : Z :=
  match occ with
  | [] => 0
  | b :: r => if b then 1 + find_gap r else 0
  end.

(** One round of the loop that reads the runs back; the state is [runStart] and
    the periods so far, by day index. *)
Definition run_step (occ : list bool) (gap : Z) (st : option Z * list (Z * Z)) (offset : Z)
    : option Z * list (Z * Z) :=
  let '(runStart, periods) := st in
  let day := (gap + offset) mod 365 in
  let runStart := match runStart with
                  | None => if occ_at occ day then Some day else None
                  | Some d => Some d
                  end in
  let next := (day + 1) mod 365 in
  match runStart with
  | Some d =>
      if negb (occ_at occ next) || (offset =? 365) then (None, periods ++ [(d, day)])
      else (Some d, periods)
  | None => (None, periods)
  end.

Definition runs (occ : list bool) : list (Z * Z) :=
  snd (foldl (run_step occ (find_gap occ)) (None, []) (seqZ 1 365)).

Definition period_of_run (r : Z * Z) : PmsRecurringOperatingPeriod :=
  {| startsOn := indexMonthDay (fst r); endsOn := indexMonthDay (snd r) |}.

Definition period_le (a b : PmsRecurringOperatingPeriod) : bool :=
  monthDayIndex (startsOn a) <=? monthDayIndex (startsOn b).

Definition canonical_periods (occ : list bool) : list PmsRecurringOperatingPeriod :=
  stable_sort period_le (period_of_run <$> runs occ).

Definition empty_year : list bool := repeat false 365.

Definition parsePmsOperatingSchedule (v : jsval) : option PmsOperatingSchedule :=
  if negb (exactRecord v ["mode"; "periods"]) then None
  else
    let? periods := as_array (get v "periods") in
    if is_str (get v "mode") "year_round" then
      match periods with [] => Some YearRound | _ => None end
    else if negb (is_str (get v "mode") "recurring") || Nat.ltb (length periods) MINIMUM_PERIODS ||
            Nat.ltb MAXIMUM_DRAFT_PERIODS (length periods) then None
    else
      let? occ := mark_periods periods empty_year in
      if forallb (fun b => b) occ then None else Some (Recurring (canonical_periods occ)).

(** The value a schedule has in JavaScript. *)
Definition period_value (p : PmsRecurringOperatingPeriod) : jsval :=
  obj [("startsOn", VString (startsOn p)); ("endsOn", VString (endsOn p))].

Definition schedule_value (s : PmsOperatingSchedule) : jsval :=
  match s with
  | YearRound => obj [("mode", VString "year_round"); ("periods", arr [])]
  | Recurring ps => obj [("mode", VString "recurring"); ("periods", arr (period_value <$> ps))]
  end.

(** ** Is the property open on a date?

    [operatingStatusFor] of inventoryMaterializationPlanner.ts compares the month
    day's text with the period's. *)
Definition str_drop (n : nat) (s : string) : string :=
  match split_at n s with Some (_, r) => r | None => EmptyString end.

Definition period_covers (monthDay : string) (p : PmsRecurringOperatingPeriod) : bool :=
  if str_le (startsOn p) (endsOn p)
  then str_le (startsOn p) monthDay && str_le monthDay (endsOn p)
  else str_le (startsOn p) monthDay || str_le monthDay (endsOn p).

Definition schedule_open (s : PmsOperatingSchedule) (stayDate : string) : bool :=
  match s with
  | YearRound => true
  | Recurring ps => existsb (period_covers (str_drop 5 stayDate)) ps
  end.

(** ** Month days and indices *)

(** The month days a schedule may name. *)
Definition is_month_day (s : string) : bool :=
  match parsePmsOperatingCalendarMonthDay (VString s) with Some _ => true | None => false end.

Lemma parse_month_day_Some v s :
  parsePmsOperatingCalendarMonthDay v = Some s -> v = VString s /\ is_month_day s = true.
Proof.
  intros H. assert (Hv : v = VString s).
  { unfold parsePmsOperatingCalendarMonthDay in H.
    destruct (as_string v) as [t|] eqn:E; [|discriminate].
    destruct (_ || _); [discriminate|].
    destruct (split_month_day t) as [[m d]|]; [|discriminate].
    destruct (d <=? _); [|discriminate]. injection H as ->.
    destruct v; try discriminate. by injection E as ->. }
  split; [done|]. subst v. unfold is_month_day. by rewrite H.
Qed.

Lemma parse_month_day_value s :
  is_month_day s = true -> parsePmsOperatingCalendarMonthDay (VString s) = Some s.
Proof.
  unfold is_month_day. destruct (parsePmsOperatingCalendarMonthDay (VString s)) eqn:E; [|done].
  intros _. apply parse_month_day_Some in E as [[= ->] _]. done.
Qed.

Lemma split_month_day_text s m d :
  split_month_day s = Some (m, d) ->
  s = pad2 m +:+ String "-" (pad2 d) /\ 0 <= m <= 99 /\ 0 <= d <= 99.
Proof.
  unfold split_month_day. intros H.
  destruct s as [|a [|b [|h [|c [|e [|? ?]]]]]]; try discriminate.
  match type of H with (if ?b then _ else _) = _ => destruct b eqn:E; [|discriminate] end.
  rewrite !andb_true_iff in E. destruct_and!.
  repeat match goal with
  | H : is_char "-" ?c = true |- _ => apply Ascii.eqb_eq in H; subst c
  | H : is_digit ?c = true |- _ =>
      pose proof (digit_val_bound c H); pose proof (digit_char_val c H); clear H
  end.
  injection H as <- <-. split; [|lia]. cbv [pad2 String.append].
  repeat first [reflexivity | f_equal];
    (etransitivity; [symmetry; eassumption | f_equal; div_lia]).
Qed.

(** Facts about the 365 month days, by evaluation. *)
Definition index_roundtrip_ok (i : Z) : bool :=
  is_month_day (indexMonthDay i) && (monthDayIndex (indexMonthDay i) =? i).

Definition month_day_roundtrip_ok (md : Z * Z) : bool :=
  let s := pad2 (fst md) +:+ String "-" (pad2 (snd md)) in
  negb (is_month_day s) ||
  (String.eqb (indexMonthDay (monthDayIndex s)) s && (0 <=? monthDayIndex s) &&
   (monthDayIndex s <? 365)).

Lemma index_roundtrip_all : forallb index_roundtrip_ok (seqZ 0 365) = true.
Proof. vm_compute. reflexivity. Qed.

Lemma month_day_roundtrip_all :
  forallb month_day_roundtrip_ok
    (m ← seqZ 0 100; d ← seqZ 0 100; [(m, d)]) = true.
Proof. vm_compute. reflexivity. Qed.

Lemma index_month_day i :
  0 <= i < 365 ->
  is_month_day (indexMonthDay i) = true /\ monthDayIndex (indexMonthDay i) = i.
Proof.
  intros Hi. pose proof index_roundtrip_all as H. rewrite forallb_forall in H.
  specialize (H i). unfold index_roundtrip_ok in H. bool_to_prop.
  assert (Hin : In i (seqZ 0 365)) by (apply list_elem_of_In, elem_of_seqZ; lia).
  apply H in Hin. bool_to_prop. done.
Qed.

Lemma month_day_index s :
  is_month_day s = true ->
  indexMonthDay (monthDayIndex s) = s /\ 0 <= monthDayIndex s < 365.
Proof.
  intros Hs. assert (exists m d, split_month_day s = Some (m, d)) as (m & d & E).
  { unfold is_month_day, parsePmsOperatingCalendarMonthDay, MONTH_DAY in Hs.
    cbn [as_string] in Hs. destruct (split_month_day s) as [[m d]|]; [eauto | done]. }
  apply split_month_day_text in E as (-> & Hm & Hd).
  pose proof month_day_roundtrip_all as H. rewrite forallb_forall in H.
  specialize (H (m, d)).
  assert (Hin : In (m, d) (m ← seqZ 0 100; d ← seqZ 0 100; [(m, d)])).
  { apply list_elem_of_In. rewrite list_elem_of_bind. exists m. split; [|apply elem_of_seqZ; lia].
    rewrite list_elem_of_bind. exists d. split; [by apply list_elem_of_singleton|].
    apply elem_of_seqZ; lia. }
  apply H in Hin. unfold month_day_roundtrip_ok in Hin. cbn [fst snd] in Hin.
  rewrite Hs in Hin. cbn [negb orb] in Hin. bool_to_prop. lia || (split; [done|lia]).
Qed.

(** ** Arcs of the year

    A period from day [s] to day [e] covers the cyclic arc from [s] to [e]. *)

Definition is_day (i : Z) : Prop := 0 <= i < 365.

Definition in_arc (s e i : Z) : bool := (i - s) mod 365 <=? (e - s) mod 365.

Definition prev_day (i : Z) : Z := (i - 1) mod 365.
Definition next_day (i : Z) : Z := (i + 1) mod 365.

Lemma mod365_bound a : 0 <= a mod 365 < 365.
Proof. apply Z.mod_pos_bound. lia. Qed.

(** Days are between 0 and 364, so a difference is its own remainder or lacks 365. *)
Lemma diff_mod i s : is_day i -> is_day s ->
  (i - s) mod 365 = if s <=? i then i - s else i - s + 365.
Proof. unfold is_day. intros. destruct (s <=? i) eqn:E; bool_to_prop; div_lia. Qed.

Lemma next_day_eq i : is_day i -> next_day i = if i =? 364 then 0 else i + 1.
Proof. unfold is_day, next_day. intros. destruct (i =? 364) eqn:E; bool_to_prop; div_lia. Qed.

Lemma prev_day_eq i : is_day i -> prev_day i = if i =? 0 then 364 else i - 1.
Proof. unfold is_day, prev_day. intros. destruct (i =? 0) eqn:E; bool_to_prop; div_lia. Qed.

Lemma is_day_next i : is_day (next_day i).
Proof. apply mod365_bound. Qed.

Lemma is_day_prev i : is_day (prev_day i).
Proof. apply mod365_bound. Qed.

#[export] Hint Resolve is_day_next is_day_prev : vayada.

(** Decides arithmetic on days: every remainder becomes a case on the order. *)
Ltac days :=
  unfold in_arc in *;
  rewrite ?diff_mod in * by auto with vayada;
  rewrite ?next_day_eq, ?prev_day_eq in * by auto with vayada;
  unfold is_day in *;
  repeat match goal with
  | |- context [if ?a <=? ?b then _ else _] => destruct (Z.leb_spec a b)
  | H : context [if ?a <=? ?b then _ else _] |- _ => destruct (Z.leb_spec a b)
  | |- context [if ?a =? ?b then _ else _] => destruct (Z.eqb_spec a b)
  | H : context [if ?a =? ?b then _ else _] |- _ => destruct (Z.eqb_spec a b)
  end; lia.

Lemma in_arc_first s e : is_day s -> is_day e -> in_arc s e s = true.
Proof. intros. days. Qed.

Lemma in_arc_step s e i :
  is_day s -> is_day e -> is_day i -> s <> e ->
  in_arc s e i = (i =? s) || in_arc (next_day s) e i.
Proof. intros Hs He Hi Hne. days. Qed.

Lemma in_arc_step_not s e : is_day s -> is_day e -> s <> e -> in_arc (next_day s) e s = false.
Proof. intros. days. Qed.

Lemma in_arc_single s i : is_day s -> is_day i -> in_arc s s i = (i =? s).
Proof. intros. days. Qed.

(** ** Marking an arc *)

Lemma occ_at_insert occ d i :
  is_day d -> is_day i -> length occ = 365%nat ->
  occ_at (<[Z.to_nat d := true]> occ) i = (i =? d) || occ_at occ i.
Proof.
  unfold is_day, occ_at. intros Hd Hi Hl. destruct (Z.eqb_spec i d) as [->|Hne]; cbn [orb].
  - by rewrite list_lookup_insert_eq by lia.
  - by rewrite list_lookup_insert_ne by lia.
Qed.

Lemma mark_Some fuel d e occ occ' :
  is_day d -> is_day e -> length occ = 365%nat -> mark fuel d e occ = Some occ' ->
  length occ' = 365%nat /\
  forall i, is_day i ->
    occ_at occ' i = in_arc d e i || occ_at occ i /\
    (in_arc d e i = true -> occ_at occ i = false).
Proof.
  revert d occ. induction fuel as [|f IH]; intros d occ Hd He Hl H; cbn [mark] in H;
    destruct (occ_at occ d) eqn:Ed; try discriminate;
    destruct (Z.eqb_spec d e) as [->|Hne]; try discriminate.
  1, 2: injection H as <-; split; [by rewrite length_insert|]; intros i Hi;
    rewrite occ_at_insert, in_arc_single by done;
    destruct (Z.eqb_spec i e) as [->|]; done.
  fold (next_day d) in H.
  apply IH in H as [Hl' H]; [|by auto with vayada|done|by rewrite length_insert].
  split; [done|]. intros i Hi. destruct (H i Hi) as [H1 H2].
  rewrite H1, occ_at_insert in * by done. rewrite (in_arc_step d e i) by done.
  destruct (Z.eqb_spec i d) as [->|]; cbn [orb] in *.
  - rewrite in_arc_step_not by done. by rewrite Ed.
  - done.
Qed.

(** The fuel of [mark] is the number of days still to mark: 365 is enough, and
    the marking succeeds exactly on a free arc. *)
Lemma mark_free fuel d e occ :
  is_day d -> is_day e -> length occ = 365%nat ->
  (e - d) mod 365 <= Z.of_nat fuel ->
  (forall i, is_day i -> in_arc d e i = true -> occ_at occ i = false) ->
  exists occ', mark fuel d e occ = Some occ'.
Proof.
  revert d occ. induction fuel as [|f IH]; intros d occ Hd He Hl Hf H; cbn [mark];
    rewrite (H d Hd (in_arc_first d e Hd He));
    destruct (Z.eqb_spec d e) as [->|Hne]; eauto.
  - exfalso. days.
  - fold (next_day d). apply IH; auto with vayada.
    + by rewrite length_insert.
    + days.
    + intros i Hi Ha. rewrite occ_at_insert by done.
      pose proof (in_arc_step d e i Hd He Hi Hne) as Hs. rewrite Ha, orb_true_r in Hs.
      rewrite (H i Hi Hs), orb_false_r.
      destruct (Z.eqb_spec i d) as [->|]; [|done]. by rewrite in_arc_step_not in Ha.
Qed.

#[global] Arguments mark : simpl never.

(** The periods of a submitted schedule, as arcs. *)
Definition raw_arc (raw : jsval) : option (Z * Z) :=
  if negb (exactRecord raw ["startsOn"; "endsOn"]) then None
  else
    let? s := parsePmsOperatingCalendarMonthDay (get raw "startsOn") in
    let? e := parsePmsOperatingCalendarMonthDay (get raw "endsOn") in
    Some (monthDayIndex s, monthDayIndex e).

Fixpoint mark_arcs (arcs : list (Z * Z)) (occ : list bool) : option (list bool) :=
  match arcs with
  | [] => Some occ
  | (s, e) :: r => let? occ' := mark 365 s e occ in mark_arcs r occ'
  end.

Definition arc_days (a : Z * Z) : Prop := is_day (fst a) /\ is_day (snd a).

Definition covered (arcs : list (Z * Z)) (i : Z) : bool :=
  existsb (fun a => in_arc (fst a) (snd a) i) arcs.

(** No two periods of the list share a day. *)
Fixpoint apart (arcs : list (Z * Z)) : Prop :=
  match arcs with
  | [] => True
  | a :: r =>
      (forall i, is_day i -> in_arc (fst a) (snd a) i = true -> covered r i = false) /\ apart r
  end.

Lemma raw_arc_days raw a : raw_arc raw = Some a -> arc_days a.
Proof.
  unfold raw_arc. intros H. follow H.
  apply parse_month_day_Some in E0 as [_ [_ ?]%month_day_index].
  apply parse_month_day_Some in E1 as [_ [_ ?]%month_day_index]. done.
Qed.

Lemma mark_periods_arcs raws occ :
  mark_periods raws occ = let? arcs := traverse raw_arc raws in mark_arcs arcs occ.
Proof.
  revert occ. induction raws as [|raw r IH]; intros occ; [done|].
  cbn [mark_periods traverse]. unfold raw_arc at 1.
  destruct (exactRecord raw _); cbn [negb]; [|done].
  destruct (parsePmsOperatingCalendarMonthDay (get raw "startsOn")); [|done].
  destruct (parsePmsOperatingCalendarMonthDay (get raw "endsOn")); [|done].
  destruct (mark 365 _ _ occ) eqn:E.
  - rewrite IH. destruct (traverse raw_arc r); [|done]. cbn [mark_arcs]. by rewrite E.
  - destruct (traverse raw_arc r); [|done]. cbn [mark_arcs]. by rewrite E.
Qed.

Lemma mark_arcs_Some arcs occ occ' :
  Forall arc_days arcs -> length occ = 365%nat -> mark_arcs arcs occ = Some occ' ->
  length occ' = 365%nat /\ apart arcs /\
  forall i, is_day i ->
    occ_at occ' i = covered arcs i || occ_at occ i /\
    (covered arcs i = true -> occ_at occ i = false).
Proof.
  intros Ha. revert occ. induction Ha as [|[s e] r [Hs He] _ IH]; intros occ Hl H;
    cbn [mark_arcs covered existsb apart fst snd] in *.
  - injection H as <-. done.
  - destruct (mark 365 s e occ) as [occ1|] eqn:Em; [|discriminate].
    apply mark_Some in Em as [Hl1 H1]; [|done..].
    apply IH in H as (Hl' & Hap & H2); [|done]. split; [done|]. split.
    + split; [|done]. intros i Hi Hin. destruct (H1 i Hi) as [E1 _], (H2 i Hi) as [_ N2].
      destruct (covered r i) eqn:Ec; [|done].
      specialize (N2 eq_refl). rewrite Hin in E1. cbn in E1. congruence.
    + intros i Hi. destruct (H1 i Hi) as [E1 N1], (H2 i Hi) as [E2 N2].
      fold (covered r i). rewrite E2, E1.
      split; [by destruct (covered r i), (in_arc s e i)|].
      rewrite orb_true_iff. intros [Hin|Hc]; [by apply N1|].
      specialize (N2 Hc). rewrite E1, orb_false_iff in N2. tauto.
Qed.

Lemma mark_arcs_apart arcs occ :
  Forall arc_days arcs -> length occ = 365%nat -> apart arcs ->
  (forall i, is_day i -> covered arcs i = true -> occ_at occ i = false) ->
  exists occ', mark_arcs arcs occ = Some occ'.
Proof.
  intros Ha. revert occ. induction Ha as [|[s e] r [Hs He] _ IH]; intros occ Hl Hap H;
    cbn [mark_arcs covered existsb apart fst snd] in *.
  - eauto.
  - destruct Hap as [Hse Hap].
    destruct (mark_free 365 s e occ) as [occ1 Em]; auto.
    { pose proof (mod365_bound (e - s)). lia. }
    { intros i Hi Hin. apply H; [done|]. by rewrite Hin. }
    rewrite Em. apply mark_Some in Em as [Hl1 H1]; [|done..].
    apply IH; auto. intros i Hi Hc. destruct (H1 i Hi) as [E1 _]. rewrite E1.
    destruct (in_arc s e i) eqn:Hin; cbn [orb].
    + apply Hse in Hin; [|done]. congruence.
    + apply H; [done|]. fold (covered r i). by rewrite Hc, orb_true_r.
Qed.

Lemma occ_at_repeat n i : occ_at (repeat false n) i = false.
Proof.
  unfold occ_at. destruct (repeat false n !! Z.to_nat i) as [b|] eqn:E; [|done].
  apply list_elem_of_lookup_2, list_elem_of_In, repeat_spec in E. done.
Qed.

Lemma occ_at_empty i : occ_at empty_year i = false.
Proof. apply occ_at_repeat. Qed.

Lemma occ_ext occ occ' :
  length occ = 365%nat -> length occ' = 365%nat ->
  (forall i, is_day i -> occ_at occ i = occ_at occ' i) -> occ = occ'.
Proof.
  intros Hl Hl' H. apply list_eq_same_length with 365%nat; [done..|].
  intros i x y Hi Hx Hy. specialize (H (Z.of_nat i)). unfold occ_at, is_day in H.
  rewrite Nat2Z.id, Hx, Hy in H. apply H. lia.
Qed.

(** ** Reading the runs back *)

(** A maximal run of occupied days. *)
Record maximal_run (occ : list bool) (d e : Z) : Prop := {
  run_days : arc_days (d, e);
  run_full : forall i, is_day i -> in_arc d e i = true -> occ_at occ i = true;
  run_before : occ_at occ (prev_day d) = false;
  run_after : occ_at occ (next_day e) = false;
}.

Section Runs.
Variables (occ : list bool) (gap : Z).
Hypothesis gap_day : is_day gap.
Hypothesis gap_free : occ_at occ gap = false.

(** The day at an offset from the gap. *)
Let at_offset (o : Z) : Z := (gap + o) mod 365.
Let busy (o : Z) : bool := occ_at occ (at_offset o).

Let offset_arc (p : Z * Z) : Z * Z := (at_offset (fst p), at_offset (snd p)).

Lemma in_arc_offset a c o :
  1 <= a <= c -> c <= 365 -> 1 <= o <= 365 ->
  in_arc (at_offset a) (at_offset c) (at_offset o) = (a <=? o) && (o <=? c).
Proof.
  intros. unfold in_arc, at_offset. rewrite <- !Zminus_mod.
  replace (gap + c - (gap + a)) with (c - a) by lia.
  replace (gap + o - (gap + a)) with (o - a) by lia.
  rewrite (Z.mod_small (c - a)) by lia.
  apply eq_bool_prop_intro. rewrite !Is_true_true, andb_true_iff, !Z.leb_le. div_lia.
Qed.

Lemma at_offset_inj a c : 1 <= a <= 365 -> 1 <= c <= 365 -> at_offset a = at_offset c -> a = c.
Proof. unfold at_offset. intros. div_lia. Qed.

Lemma offset_of_day i : is_day i -> exists o, 1 <= o <= 365 /\ at_offset o = i.
Proof.
  unfold at_offset, is_day in *. intros Hi. exists ((i - gap - 1) mod 365 + 1). div_lia.
Qed.

Lemma busy_ends : busy 0 = false /\ busy 365 = false.
Proof.
  unfold busy, at_offset. split; (replace ((gap + _) mod 365) with gap; [done|]);
    unfold is_day in *; div_lia.
Qed.

Lemma at_offset_next o : (at_offset o + 1) mod 365 = at_offset (o + 1).
Proof. unfold at_offset. div_lia. Qed.

(** The invariant of the loop after offset [k]: the closed runs [os] and the
    open run's first offset [r]. *)
Record runs_inv (k : Z) (os : list (Z * Z)) (r : option Z) : Prop := {
  inv_closed : Forall (fun p => 1 <= fst p <= snd p /\ snd p <= k /\
    (forall o, fst p <= o <= snd p -> busy o = true) /\
    busy (fst p - 1) = false /\ busy (snd p + 1) = false) os;
  inv_open : forall a, r = Some a -> 1 <= a <= k /\ ~ a ∈ (fst <$> os) /\
    (forall o, a <= o <= k -> busy o = true) /\ busy (a - 1) = false /\ busy (k + 1) = true;
  inv_idle : r = None -> busy k && busy (k + 1) = false;
  inv_cover : forall o, 1 <= o <= k -> busy o = true ->
    (exists p, p ∈ os /\ fst p <= o <= snd p) \/ (exists a, r = Some a /\ a <= o);
  inv_nodup : NoDup (fst <$> os);
}.

Definition runs_state (os : list (Z * Z)) (r : option Z) : option Z * list (Z * Z) :=
  (at_offset <$> r, offset_arc <$> os).

Lemma runs_inv_weaken k os r o :
  k <= o -> runs_inv k os r -> Forall (fun p => 1 <= fst p <= snd p /\ snd p <= o /\
    (forall o, fst p <= o <= snd p -> busy o = true) /\
    busy (fst p - 1) = false /\ busy (snd p + 1) = false) os.
Proof.
  intros Ho [Hc _ _ _ _]. eapply Forall_impl; [exact Hc|]. cbn. intros p ?. intuition lia.
Qed.

Lemma fresh_offset k os r : runs_inv k os r -> (k + 1) ∉ (fst <$> os).
Proof.
  intros [Hc _ _ _ _] (p & Hp & Hin)%list_elem_of_fmap.
  rewrite Forall_forall in Hc. specialize (Hc p Hin). lia.
Qed.

(** Closing the run [a .. k + 1]. *)
Lemma close_run k os r a :
  runs_inv k os r -> 1 <= a <= k + 1 -> a ∉ (fst <$> os) ->
  (forall o, a <= o <= k + 1 -> busy o = true) -> busy (a - 1) = false ->
  busy (k + 1 + 1) = false -> (forall a', r = Some a' -> a' = a) ->
  runs_inv (k + 1) (os ++ [(a, k + 1)]) None.
Proof.
  intros Hinv Ha Hfr Hbusy Hb Hn Hr. split.
  - apply Forall_app. split; [by eapply runs_inv_weaken; [|exact Hinv]; lia|].
    repeat constructor; cbn; auto; lia.
  - discriminate.
  - intros _. by rewrite Hn, andb_false_r.
  - intros o Ho Hbo. left.
    destruct (decide (a <= o)) as [Hao|Hao].
    { exists (a, k + 1). split; [|cbn; lia]. apply elem_of_app. right. by left. }
    destruct (inv_cover _ _ _ Hinv o ltac:(lia) Hbo) as [(p & Hp & Hpo)|(a' & Hr' & Hao')].
    + exists p. split; [|done]. apply elem_of_app. by left.
    + apply Hr in Hr'. lia.
  - rewrite fmap_app. cbn. apply NoDup_app. split_and!; [exact (inv_nodup _ _ _ Hinv)| |apply NoDup_singleton].
    intros x Hx Hx'%list_elem_of_singleton. by subst x.
Qed.

Lemma run_step_inv k os r :
  0 <= k < 365 -> runs_inv k os r ->
  exists os' r', run_step occ gap (runs_state os r) (k + 1) = runs_state os' r' /\
    runs_inv (k + 1) os' r'.
Proof.
  intros Hk Hinv. unfold run_step, runs_state. fold (at_offset (k + 1)).
  rewrite at_offset_next. fold (busy (k + 1)) (busy (k + 1 + 1)).
  destruct busy_ends as [_ Hend]. destruct r as [a|]; cbn [option_fmap option_map].
  - destruct (inv_open _ _ _ Hinv a eq_refl) as (Ha & Hfr & Hbusy & Hb & Hnext).
    assert (Hall : forall o, a <= o <= k + 1 -> busy o = true).
    { intros o Ho. destruct (Z.eq_dec o (k + 1)) as [->|]; [done|]. apply Hbusy. lia. }
    destruct (Z.eqb_spec (k + 1) 365) as [He|He]; [rewrite He in Hnext; congruence|].
    rewrite orb_false_r. destruct (busy (k + 1 + 1)) eqn:Hn; cbn.
    + exists os, (Some a). split; [done|]. split.
      * eapply runs_inv_weaken; [|exact Hinv]; lia.
      * intros ? [= <-]. split_and!; auto; lia.
      * discriminate.
      * intros o Ho Hbo. destruct (Z.eq_dec o (k + 1)) as [->|].
        { right. exists a. split; [done | lia]. }
        apply (inv_cover _ _ _ Hinv); [lia | done].
      * exact (inv_nodup _ _ _ Hinv).
    + exists (os ++ [(a, k + 1)]), None. split; [by rewrite fmap_app|].
      eapply close_run; eauto; [lia|]. by intros ? [= <-].
  - destruct (busy (k + 1)) eqn:Hb; cbn [negb orb].
    + assert (Hbk : busy k = false).
      { pose proof (inv_idle _ _ _ Hinv eq_refl) as H. by rewrite Hb, andb_true_r in H. }
      assert (Hall : forall o, k + 1 <= o <= k + 1 -> busy o = true).
      { intros o Ho. by replace o with (k + 1) by lia. }
      destruct (Z.eqb_spec (k + 1) 365) as [He|He]; [rewrite He in Hb; congruence|].
      rewrite orb_false_r. destruct (busy (k + 1 + 1)) eqn:Hn; cbn.
      * exists os, (Some (k + 1)). split; [done|]. split.
        -- eapply runs_inv_weaken; [|exact Hinv]; lia.
        -- intros ? [= <-]. replace (k + 1 - 1) with k by lia.
           split_and!; auto; [lia | lia | by eapply fresh_offset].
        -- discriminate.
        -- intros o Ho Hbo. destruct (Z.eq_dec o (k + 1)) as [->|].
           { right. exists (k + 1). split; [done | lia]. }
           destruct (inv_cover _ _ _ Hinv o ltac:(lia) Hbo) as [?|(? & [=] & _)]. by left.
        -- exact (inv_nodup _ _ _ Hinv).
      * exists (os ++ [(k + 1, k + 1)]), None. split; [by rewrite fmap_app|].
        eapply close_run; eauto; [lia | by eapply fresh_offset | | discriminate].
        by replace (k + 1 - 1) with k by lia.
    + exists os, None. split; [done|]. split.
      * eapply runs_inv_weaken; [|exact Hinv]; lia.
      * discriminate.
      * intros _. by rewrite Hb.
      * intros o Ho Hbo. destruct (Z.eq_dec o (k + 1)) as [->|]; [congruence|].
        apply (inv_cover _ _ _ Hinv); [lia | done].
      * exact (inv_nodup _ _ _ Hinv).
Qed.

Lemma runs_fold_inv (n : nat) :
  (n <= 365)%nat ->
  exists os r, foldl (run_step occ gap) (None, []) (seqZ 1 (Z.of_nat n)) = runs_state os r /\
    runs_inv (Z.of_nat n) os r.
Proof.
  induction n as [|n IH]; intros Hn.
  - exists [], None. split; [done|]. split; cbn; try done; try constructor.
    + destruct busy_ends as [H _]. intros _. change (Z.of_nat 0) with 0. by rewrite H.
    + lia.
  - destruct IH as (os & r & E & Hinv); [lia|].
    destruct (run_step_inv (Z.of_nat n) os r) as (os' & r' & E' & Hinv'); [lia|done|].
    exists os', r'. replace (Z.of_nat (S n)) with (Z.of_nat n + 1) by lia.
    rewrite seqZ_app, foldl_app, E by lia.
    rewrite seqZ_cons, seqZ_nil by lia. cbn [foldl].
    replace (1 + Z.of_nat n) with (Z.of_nat n + 1) by lia. done.
Qed.

(** The runs read back are the maximal runs of the year, each once. *)
Lemma runs_from_gap :
  let rs := snd (foldl (run_step occ gap) (None, []) (seqZ 1 365)) in
  Forall (fun p => maximal_run occ (fst p) (snd p)) rs /\
  NoDup (fst <$> rs) /\
  (forall i, is_day i -> occ_at occ i = true -> covered rs i = true).
Proof.
  cbv zeta. destruct (runs_fold_inv 365 ltac:(lia)) as (os & r & E & Hinv).
  change (Z.of_nat 365) with 365 in *. rewrite E. cbn [runs_state snd].
  assert (Hr : r = None).
  { destruct r as [a|]; [|done]. exfalso. destruct busy_ends as [_ Hend].
    destruct (inv_open _ _ _ Hinv a eq_refl) as (Ha & _ & Hbusy & _).
    rewrite (Hbusy 365) in Hend; [done | lia]. }
  subst r. pose proof (inv_closed _ _ _ Hinv) as Hc. split_and!.
  - rewrite Forall_fmap. eapply Forall_impl; [exact Hc|]. intros [a c]. cbn.
    intros (Hac & Hc' & Hfull & Hb & Hn). split; cbn.
    + split; apply mod365_bound.
    + intros i Hi Hin. destruct (offset_of_day i Hi) as (o & Ho & <-).
      rewrite in_arc_offset in Hin by lia. bool_to_prop. apply Hfull. lia.
    + unfold prev_day. rewrite <- Hb. unfold busy. f_equal. unfold at_offset. div_lia.
    + unfold next_day. rewrite at_offset_next. exact Hn.
  - rewrite <- list_fmap_compose. change (fst ∘ offset_arc) with (at_offset ∘ fst (B := Z)).
    rewrite list_fmap_compose. apply NoDup_fmap_2_strong; [|exact (inv_nodup _ _ _ Hinv)].
    rewrite Forall_forall in Hc.
    intros x y (p & -> & Hp)%list_elem_of_fmap (q & -> & Hq)%list_elem_of_fmap.
    apply Hc in Hp, Hq. apply at_offset_inj; lia.
  - intros i Hi Hb. destruct (offset_of_day i Hi) as (o & Ho & <-).
    destruct (inv_cover _ _ _ Hinv o Ho Hb) as [([a c] & Hp & Hpo)|(? & [=] & _)].
    unfold covered. rewrite existsb_exists. exists (offset_arc (a, c)). split.
    + apply list_elem_of_In, list_elem_of_fmap_2. done.
    + rewrite Forall_forall in Hc. apply Hc in Hp. cbn in *.
      rewrite in_arc_offset by lia. rewrite andb_true_iff, !Z.leb_le. lia.
Qed.
End Runs.

Lemma find_gap_spec occ :
  forallb (fun b => b) occ = false ->
  0 <= find_gap occ < Z.of_nat (length occ) /\ occ_at occ (find_gap occ) = false.
Proof.
  induction occ as [|b r IH]; [discriminate|]. intros H. cbn [forallb] in H.
  destruct b; cbn [find_gap length].
  - destruct (IH H) as [Hb Ho]. split; [lia|]. unfold occ_at in *.
    replace (Z.to_nat (1 + find_gap r)) with (S (Z.to_nat (find_gap r))) by lia. exact Ho.
  - split; [lia | done].
Qed.

(** A year of 365 days with at least one free day. *)
Record open_year (occ : list bool) : Prop := {
  year_length : length occ = 365%nat;
  year_gap : forallb (fun b => b) occ = false;
}.

Lemma runs_spec occ :
  open_year occ ->
  Forall (fun p => maximal_run occ (fst p) (snd p)) (runs occ) /\
  NoDup (fst <$> runs occ) /\
  (forall i, is_day i -> occ_at occ i = true -> covered (runs occ) i = true).
Proof.
  intros [Hl Hg]. apply find_gap_spec in Hg as [Hg Ho]. apply runs_from_gap; [|done].
  unfold is_day. lia.
Qed.

(** A free day ends every run: two maximal runs that share a day are the same. *)
Lemma maximal_run_start occ d e d' e' i :
  maximal_run occ d e -> maximal_run occ d' e' -> is_day i ->
  in_arc d e i = true -> in_arc d' e' i = true -> d = d'.
Proof.
  intros [[Hd He] Hf Hb _] [[Hd' He'] Hf' Hb' _] Hi H H'. cbn in *.
  destruct (decide (d = d')) as [|Hne]; [done|]. exfalso.
  destruct (in_arc d' e' (prev_day d)) eqn:E.
  { apply Hf' in E; [congruence | auto with vayada]. }
  destruct (in_arc d e (prev_day d')) eqn:E'.
  { apply Hf in E'; [congruence | auto with vayada]. }
  clear Hf Hf' Hb Hb'. days.
Qed.

Lemma covered_elem arcs i :
  covered arcs i = true <-> exists a, a ∈ arcs /\ in_arc (fst a) (snd a) i = true.
Proof. unfold covered. rewrite existsb_exists. by setoid_rewrite list_elem_of_In. Qed.

Lemma covered_perm arcs arcs' i : arcs ≡ₚ arcs' -> covered arcs i = covered arcs' i.
Proof.
  intros H. apply eq_bool_prop_intro. rewrite !Is_true_true, !covered_elem.
  by setoid_rewrite H.
Qed.

Lemma apart_maximal occ arcs :
  Forall (fun p => maximal_run occ (fst p) (snd p)) arcs -> NoDup (fst <$> arcs) -> apart arcs.
Proof.
  induction 1 as [|a r Ha Hr IH]; cbn; [done|]. rewrite NoDup_cons. intros [Hna Hnd].
  split; [|auto]. intros i Hi Hin. apply not_true_iff_false. intros (b & Hb & Hbi)%covered_elem.
  rewrite Forall_forall in Hr. pose proof (maximal_run_start _ _ _ _ _ _ Ha (Hr b Hb) Hi Hin Hbi).
  apply Hna. rewrite H. by apply list_elem_of_fmap_2.
Qed.

Lemma covered_maximal occ arcs i :
  Forall (fun p => maximal_run occ (fst p) (snd p)) arcs -> is_day i ->
  covered arcs i = true -> occ_at occ i = true.
Proof.
  rewrite Forall_forall. intros H Hi (a & Ha & Hin)%covered_elem. by eapply run_full; [apply H| |].
Qed.

(** ** Canonical periods *)

Definition period_arc (p : PmsRecurringOperatingPeriod) : Z * Z :=
  (monthDayIndex (startsOn p), monthDayIndex (endsOn p)).

Definition period_texts (p : PmsRecurringOperatingPeriod) : Prop :=
  is_month_day (startsOn p) = true /\ is_month_day (endsOn p) = true.

Lemma period_of_run_arc r : arc_days r -> period_arc (period_of_run r) = r.
Proof.
  destruct r as [d e]. intros [Hd He]. unfold period_arc, period_of_run. cbn.
  by rewrite (proj2 (index_month_day d Hd)), (proj2 (index_month_day e He)).
Qed.

Lemma period_of_run_texts r : arc_days r -> period_texts (period_of_run r).
Proof. intros [Hd He]. split; by apply index_month_day. Qed.

(** What [canonical_periods] returns for a year. *)
Record canonical_of (occ : list bool) (ps : list PmsRecurringOperatingPeriod) : Prop := {
  can_texts : Forall period_texts ps;
  can_maximal : Forall (fun p => maximal_run occ (fst (period_arc p)) (snd (period_arc p))) ps;
  can_distinct : NoDup (fst <$> (period_arc <$> ps));
  can_cover : forall i, is_day i -> covered (period_arc <$> ps) i = occ_at occ i;
  can_sorted : Sorted (le_rel period_le) ps;
}.

Lemma canonical_periods_arcs occ :
  Forall (fun p => maximal_run occ (fst p) (snd p)) (runs occ) ->
  period_arc <$> canonical_periods occ ≡ₚ runs occ.
Proof.
  intros Hm. unfold canonical_periods. rewrite (fmap_Permutation _ _ _ (stable_sort_perm _ _)).
  rewrite <- list_fmap_compose, fmap_id_Forall; [done|].
  eapply Forall_impl; [exact Hm|]. intros [d e] [? _ _ _]. by apply period_of_run_arc.
Qed.

Lemma canonical_periods_spec occ : open_year occ -> canonical_of occ (canonical_periods occ).
Proof.
  intros Hy. destruct (runs_spec occ Hy) as (Hm & Hnd & Hc).
  pose proof (canonical_periods_arcs occ Hm) as Hp. split.
  - apply Forall_stable_sort. rewrite Forall_fmap. eapply Forall_impl; [exact Hm|].
    intros [d e] [? _ _ _]. by apply period_of_run_texts.
  - rewrite <- Hp, Forall_fmap in Hm. exact Hm.
  - by rewrite Hp.
  - intros i Hi. rewrite (covered_perm _ _ i Hp).
    destruct (occ_at occ i) eqn:E; [by apply Hc|]. apply not_true_iff_false. intros H.
    apply (covered_maximal occ) in H; [congruence|done..].
  - apply stable_sort_sorted. unfold period_le. intros a b. rewrite Z.leb_gt, Z.leb_le. lia.
Qed.

Lemma period_value_arc p : period_texts p -> raw_arc (period_value p) = Some (period_arc p).
Proof.
  destruct p as [s e]. intros [Hs He]. unfold raw_arc, period_value. cbn [startsOn endsOn] in *.
  change (exactRecord _ _) with true. cbn [negb].
  change (get _ "startsOn") with (VString s). change (get _ "endsOn") with (VString e).
  by rewrite !parse_month_day_value.
Qed.

(** The submitted periods of an accepted recurring schedule. *)
Record accepted (v : jsval) (ps : list PmsRecurringOperatingPeriod)
    (arcs : list (Z * Z)) (occ : list bool) : Prop := {
  acc_raws : exists raws, as_array (get v "periods") = Some raws /\
    traverse raw_arc raws = Some arcs /\ (1 <= length raws /\ length raws <= 24)%nat;
  acc_days : Forall arc_days arcs;
  acc_apart : apart arcs;
  acc_open : open_year occ;
  acc_cover : forall i, is_day i -> occ_at occ i = covered arcs i;
  acc_periods : ps = canonical_periods occ;
}.

Lemma raw_arcs_days raws arcs : traverse raw_arc raws = Some arcs -> Forall arc_days arcs.
Proof. apply traverse_Forall. exact raw_arc_days. Qed.

Lemma parse_recurring v ps :
  parsePmsOperatingSchedule v = Some (Recurring ps) -> exists arcs occ, accepted v ps arcs occ.
Proof.
  unfold parsePmsOperatingSchedule. intros H.
  destruct (negb (exactRecord v _)); [discriminate|].
  destruct (as_array (get v "periods")) as [raws|] eqn:Er; [|discriminate].
  destruct (is_str (get v "mode") "year_round"); [destruct raws; discriminate|].
  destruct (_ || _) eqn:Eb; [discriminate|].
  destruct (mark_periods raws empty_year) as [occ|] eqn:Em; [|discriminate].
  destruct (forallb _ occ) eqn:Eo; [discriminate|]. injection H as <-.
  rewrite mark_periods_arcs in Em. destruct (traverse raw_arc raws) as [arcs|] eqn:Et; [|discriminate].
  pose proof (raw_arcs_days _ _ Et) as Hd.
  apply mark_arcs_Some in Em as (Hl & Hap & Hc); [|done|done].
  exists arcs, occ. split; auto.
  - exists raws. rewrite !orb_false_iff, !Nat.ltb_ge in Eb. unfold MINIMUM_PERIODS, MAXIMUM_DRAFT_PERIODS in Eb. tauto.
  - by split.
  - intros i Hi. destruct (Hc i Hi) as [-> _]. rewrite occ_at_empty. apply orb_false_r.
Qed.

Lemma accepted_canonical v ps arcs occ : accepted v ps arcs occ -> canonical_of occ ps.
Proof. intros H. rewrite (acc_periods _ _ _ _ H). apply canonical_periods_spec, H. Qed.

(** Every maximal run begins where a submitted period begins. *)
Lemma run_start_submitted occ arcs d e :
  Forall arc_days arcs -> (forall i, is_day i -> occ_at occ i = covered arcs i) ->
  maximal_run occ d e -> d ∈ (fst <$> arcs).
Proof.
  intros Hd Hc [[Hdd Hde] Hf Hb _]. cbn in *.
  pose proof (Hf d Hdd (in_arc_first d e Hdd Hde)) as Ho. rewrite Hc in Ho by done.
  apply covered_elem in Ho as ([s t] & Ha & Hin). cbn in Hin.
  rewrite Hc in Hb by auto with vayada.
  assert (Hp : in_arc s t (prev_day d) = false).
  { apply not_true_iff_false. intros Hp. apply not_true_iff_false in Hb. apply Hb.
    apply covered_elem. by exists (s, t). }
  rewrite Forall_forall in Hd. destruct (Hd _ Ha) as [Hs Ht]. cbn in Hs, Ht.
  assert (d = s) as -> by days. by apply (list_elem_of_fmap_2 fst _ (s, t)).
Qed.

(** Reading the periods back can only merge them. *)
Lemma canonical_count v ps arcs occ :
  accepted v ps arcs occ -> (1 <= length ps /\ length ps <= 24)%nat.
Proof.
  intros Hacc. pose proof (accepted_canonical _ _ _ _ Hacc) as Hcan.
  destruct (acc_raws _ _ _ _ Hacc) as (raws & _ & Ht & Hlen). apply traverse_length in Ht.
  pose proof (acc_days _ _ _ _ Hacc) as Hd. pose proof (acc_cover _ _ _ _ Hacc) as Hc. split.
  - destruct arcs as [|[s e] r]; [cbn in Ht; lia|].
    destruct (Forall_inv Hd) as [Hs He]. cbn in Hs, He.
    assert (Hcov : occ_at occ s = true).
    { rewrite Hc by done. unfold covered. cbn [existsb fst snd]. by rewrite in_arc_first. }
    rewrite <- (can_cover _ _ Hcan) in Hcov by done. destruct ps; [discriminate | cbn; lia].
  - transitivity (length arcs); [|lia].
    rewrite <- (length_fmap period_arc ps), <- (length_fmap fst (period_arc <$> ps)),
      <- (length_fmap fst arcs).
    apply submseteq_length, NoDup_submseteq; [exact (can_distinct _ _ Hcan)|].
    intros d (a & -> & (p & -> & Hp)%list_elem_of_fmap)%list_elem_of_fmap.
    pose proof (can_maximal _ _ Hcan) as Hm. rewrite Forall_forall in Hm.
    by eapply run_start_submitted; [| |apply Hm].
Qed.

(** Reading a canonical schedule again. *)
Lemma parse_canonical occ ps :
  open_year occ -> ps = canonical_periods occ -> (1 <= length ps /\ length ps <= 24)%nat ->
  parsePmsOperatingSchedule (schedule_value (Recurring ps)) = Some (Recurring ps).
Proof.
  intros Hy Hps Hn. pose proof (canonical_periods_spec occ Hy) as Hcan. rewrite <- Hps in Hcan.
  unfold parsePmsOperatingSchedule, schedule_value.
  change (exactRecord _ _) with true.
  change (get _ "periods") with (arr (period_value <$> ps)).
  change (get _ "mode") with (VString "recurring"). cbn [negb]. rewrite as_array_arr.
  change (is_str (VString "recurring") "year_round") with false.
  change (is_str (VString "recurring") "recurring") with true. cbn [negb orb].
  rewrite length_fmap.
  replace (Nat.ltb _ _ || Nat.ltb _ _) with false
    by (unfold MINIMUM_PERIODS, MAXIMUM_DRAFT_PERIODS; symmetry; apply orb_false_iff; rewrite !Nat.ltb_ge; lia).
  rewrite mark_periods_arcs.
  assert (Ht : traverse raw_arc (period_value <$> ps) = Some (period_arc <$> ps)).
  { apply traverse_Some. pose proof (can_texts _ _ Hcan) as Hx.
    clear -Hx. induction Hx; constructor; auto using period_value_arc. }
  rewrite Ht. pose proof (raw_arcs_days _ _ Ht) as Hd.
  destruct (mark_arcs_apart (period_arc <$> ps) empty_year) as [occ' Hm]; auto.
  { eapply apart_maximal; [|exact (can_distinct _ _ Hcan)]. rewrite Forall_fmap.
    exact (can_maximal _ _ Hcan). }
  { intros. apply occ_at_empty. }
  rewrite Hm. apply mark_arcs_Some in Hm as (Hl & _ & Hc); [|done..].
  assert (occ' = occ) as ->.
  { apply occ_ext; [done | apply Hy|]. intros i Hi. destruct (Hc i Hi) as [-> _].
    rewrite occ_at_empty, orb_false_r. by apply (can_cover _ _ Hcan). }
  by rewrite (year_gap _ Hy), Hps.
Qed.

(** A schedule is canonical when reading it back gives the same schedule. *)
Definition canonical_schedule (s : PmsOperatingSchedule) : Prop :=
  parsePmsOperatingSchedule (schedule_value s) = Some s.

Lemma parse_schedule_canonical v s :
  parsePmsOperatingSchedule v = Some s -> canonical_schedule s.
Proof.
  destruct s as [|ps]; [reflexivity|]. intros (arcs & occ & Hacc)%parse_recurring.
  apply (parse_canonical occ); [apply Hacc | apply Hacc | by eapply canonical_count].
Qed.

(** ** Text order of month days *)

Lemma compare_month_day m d m' d' :
  0 <= m <= 99 -> 0 <= d <= 99 -> 0 <= m' <= 99 -> 0 <= d' <= 99 ->
  String.compare (pad2 m +:+ String "-" (pad2 d)) (pad2 m' +:+ String "-" (pad2 d')) =
  then_compare (m ?= m') (d ?= d').
Proof.
  intros. rewrite compare_pad2, string_compare_cons, Z.compare_refl by lia. cbn [then_compare].
  f_equal. rewrite <- (string_app_nil_r (pad2 d)), <- (string_app_nil_r (pad2 d')).
  rewrite compare_pad2 by lia. by destruct (d ?= d').
Qed.

(** A month day's number and its bounds. *)
Lemma month_day_parts s : is_month_day s = true ->
  exists m d, s = pad2 m +:+ String "-" (pad2 d) /\ 1 <= m <= 12 /\
    1 <= d <= default 0 (MONTH_LENGTHS !! Z.to_nat (m - 1)) /\
    monthDayIndex s = sum_list (take (Z.to_nat (m - 1)) MONTH_LENGTHS) + d - 1.
Proof.
  unfold is_month_day, parsePmsOperatingCalendarMonthDay, MONTH_DAY, monthDayIndex.
  cbn [as_string]. destruct (split_month_day s) as [[m d]|] eqn:E; [|done].
  destruct ((1 <=? m) && _ && _ && _) eqn:Eb; [|done]. cbn [negb orb].
  destruct (String.eqb s "02-29"); [done|]. destruct (d <=? default _ _) eqn:Ed; [|done]. intros _.
  apply split_month_day_text in E as (-> & _). exists m, d. bool_to_prop.
  split; [done|]. split; [lia|]. split; [|done]. split; [lia | done].
Qed.

(** Evaluates month lengths and their prefix sums. *)
Ltac eval_lengths :=
  repeat match goal with
  | |- context [sum_list ?l] =>
      let v := eval vm_compute in (sum_list l) in change (sum_list l) with v
  | H : context [default 0 (MONTH_LENGTHS !! ?i)] |- _ =>
      let v := eval vm_compute in (default 0 (MONTH_LENGTHS !! i)) in
      change (default 0 (MONTH_LENGTHS !! i)) with v in H
  end.

Lemma str_le_month_day a b :
  is_month_day a = true -> is_month_day b = true ->
  str_le a b = (monthDayIndex a <=? monthDayIndex b).
Proof.
  intros (m & d & Ea & Hm & Hd & ->)%month_day_parts (m' & d' & Eb & Hm' & Hd' & ->)%month_day_parts.
  subst a b. unfold str_le.
  assert (Hl : forall k, 1 <= k <= 12 -> default 0 (MONTH_LENGTHS !! Z.to_nat (k - 1)) <= 31).
  { intros k Hk. month_cases Hk; vm_compute; discriminate. }
  pose proof (Hl m Hm). pose proof (Hl m' Hm').
  rewrite compare_month_day by lia.
  assert (Hlt : forall a b e, 1 <= a <= 12 -> 1 <= b <= 12 -> a < b ->
    e <= default 0 (MONTH_LENGTHS !! Z.to_nat (a - 1)) ->
    sum_list (take (Z.to_nat (a - 1)) MONTH_LENGTHS) + e <=
    sum_list (take (Z.to_nat (b - 1)) MONTH_LENGTHS)).
  { intros a b e Ha Hb Hab He. month_cases Ha; month_cases Hb; try lia;
      eval_lengths; lia. }
  destruct (Z.compare_spec m m') as [->|Hc|Hc]; cbn [then_compare].
  - generalize (sum_list (take (Z.to_nat (m' - 1)) MONTH_LENGTHS)).
    intros pre. destruct (Z.compare_spec d d'); cbv iota; lia.
  - symmetry. apply Z.leb_le. pose proof (Hlt m m' d). lia.
  - symmetry. apply Z.leb_gt. pose proof (Hlt m' m d'). lia.
Qed.

Lemma month_day_is_day s : is_month_day s = true -> is_day (monthDayIndex s).
Proof. intros H. by apply month_day_index. Qed.

#[export] Hint Resolve month_day_is_day : vayada.

(** The text comparison of the planner decides the arc. *)
Lemma period_covers_arc m p :
  period_texts p -> is_month_day m = true ->
  period_covers m p = in_arc (fst (period_arc p)) (snd (period_arc p)) (monthDayIndex m).
Proof.
  destruct p as [s e]. intros [Hs He] Hm. unfold period_covers. cbn in *.
  rewrite !str_le_month_day by done.
  pose proof (month_day_is_day s Hs). pose proof (month_day_is_day e He).
  pose proof (month_day_is_day m Hm). unfold in_arc. rewrite !diff_mod by done.
  unfold is_day in *. generalize dependent (monthDayIndex s). generalize dependent (monthDayIndex e).
  generalize dependent (monthDayIndex m). intros i Hi k Hk j Hj. apply eq_bool_prop_intro.
  destruct (Z.leb_spec j k); rewrite !Is_true_true, ?andb_true_iff, ?orb_true_iff, !Z.leb_le;
    destruct (Z.leb_spec j i); lia.
Qed.

Lemma str_le_leap_day t : is_month_day t = true ->
  str_le t "02-29" = (monthDayIndex t <=? 58) /\ str_le "02-29" t = (59 <=? monthDayIndex t).
Proof.
  intros (m & d & -> & Hm & Hd & ->)%month_day_parts.
  change "02-29"%string with (pad2 2 +:+ String "-" (pad2 29)). unfold str_le.
  assert (d <= 31) by (month_cases Hm; eval_lengths; lia).
  rewrite !compare_month_day by lia.
  destruct (Z.compare_spec d 29); destruct (Z.compare_spec 29 d); try lia;
    month_cases Hm; eval_lengths; cbn; lia.
Qed.

(** 29 February belongs to a period when both of its neighbours do, the whole
    year from 1 March apart. *)
Lemma period_covers_leap_day p :
  period_texts p -> period_arc p <> (59, 58) ->
  period_covers "02-29" p = period_covers "02-28" p && period_covers "03-01" p.
Proof.
  destruct p as [s e]. unfold period_arc, period_covers. cbn [startsOn endsOn].
  intros [Hs He] Hne. cbn in Hs, He.
  destruct (str_le_leap_day s Hs) as [-> _], (str_le_leap_day e He) as [_ ->].
  rewrite !str_le_month_day by done.
  change (monthDayIndex "02-28") with 58. change (monthDayIndex "03-01") with 59.
  pose proof (month_day_is_day s Hs). pose proof (month_day_is_day e He). unfold is_day in *.
  assert (monthDayIndex s <> 59 \/ monthDayIndex e <> 58)
    by (destruct (decide (monthDayIndex s = 59)); [right; congruence | by left]).
  apply eq_bool_prop_intro.
  destruct (monthDayIndex s <=? monthDayIndex e) eqn:E; bool_to_prop;
    rewrite !Is_true_true, !andb_true_iff, ?orb_true_iff, ?andb_true_iff, !Z.leb_le; lia.
Qed.

Lemma schedule_open_covered ps date :
  Forall period_texts ps -> is_month_day (str_drop 5 date) = true ->
  schedule_open (Recurring ps) date = covered (period_arc <$> ps) (monthDayIndex (str_drop 5 date)).
Proof.
  intros Hp Hm. unfold schedule_open. induction Hp as [|p r Hp _ IH]; [done|].
  cbn [existsb fmap list_fmap]. unfold covered. cbn [existsb].
  by rewrite period_covers_arc, IH.
Qed.

(** ** What a submitted schedule means

    The days a submitted schedule names, period by period as written. *)
Definition submitted_open (v : jsval) (monthDay : string) : bool :=
  is_str (get v "mode") "year_round" ||
  existsb (fun raw =>
    match as_string (get raw "startsOn"), as_string (get raw "endsOn") with
    | Some s, Some e => period_covers monthDay {| startsOn := s; endsOn := e |}
    | _, _ => false
    end) (default [] (as_array (get v "periods"))).

Lemma raw_arc_covers raw a m :
  raw_arc raw = Some a -> is_month_day m = true ->
  match as_string (get raw "startsOn"), as_string (get raw "endsOn") with
  | Some s, Some e => period_covers m {| startsOn := s; endsOn := e |}
  | _, _ => false
  end = in_arc (fst a) (snd a) (monthDayIndex m).
Proof.
  unfold raw_arc. intros H Hm. destruct (negb _); [discriminate|].
  destruct (parsePmsOperatingCalendarMonthDay (get raw "startsOn")) as [s|] eqn:Es; [|discriminate].
  destruct (parsePmsOperatingCalendarMonthDay (get raw "endsOn")) as [e|] eqn:Ee; [|discriminate].
  injection H as <-. apply parse_month_day_Some in Es as [-> Hs], Ee as [-> He]. cbn [as_string].
  by rewrite period_covers_arc.
Qed.

(** ** Properties *)

(** The canonical periods are open on exactly the days the submitted periods
    name: merging, sorting and re-reading the runs loses and adds no day. *)
Theorem schedule_parse_open v s date :
  parsePmsOperatingSchedule v = Some s -> is_month_day (str_drop 5 date) = true ->
  schedule_open s date = submitted_open v (str_drop 5 date).
Proof.
  intros Hv Hm. unfold submitted_open. destruct s as [|ps].
  - unfold parsePmsOperatingSchedule in Hv. destruct (is_str (get v "mode") "year_round"); [done|].
    exfalso. follow Hv.
  - pose proof Hv as (arcs & occ & Hacc)%parse_recurring.
    pose proof (accepted_canonical _ _ _ _ Hacc) as Hcan.
    rewrite schedule_open_covered by (apply Hcan || done).
    rewrite (can_cover _ _ Hcan), (acc_cover _ _ _ _ Hacc) by auto with vayada.
    destruct (acc_raws _ _ _ _ Hacc) as (raws & Er & Ht & _).
    unfold parsePmsOperatingSchedule in Hv. rewrite Er in *.
    destruct (is_str (get v "mode") "year_round"); [exfalso; follow Hv|]. cbn [orb default id].
    clear -Ht Hm. apply traverse_Some in Ht. unfold covered.
    induction Ht as [|raw a raws arcs Ha _ IH]; [done|]. cbn [existsb].
    f_equal; first [exact IH | symmetry; by apply raw_arc_covers].
Qed.

(** Reading an accepted schedule again returns it unchanged. *)
Theorem schedule_parse_idempotent v s :
  parsePmsOperatingSchedule v = Some s -> parsePmsOperatingSchedule (schedule_value s) = Some s.
Proof. apply parse_schedule_canonical. Qed.

(** The canonical periods are sorted by their first day and separated by at
    least one closed day, and at least one day of the year is closed. *)
Theorem schedule_parse_separated v ps :
  parsePmsOperatingSchedule v = Some (Recurring ps) ->
  Sorted (le_rel period_le) ps /\
  (forall p q i, p ∈ ps -> q ∈ ps -> is_day i ->
    in_arc (fst (period_arc p)) (snd (period_arc p)) i = true ->
    (in_arc (fst (period_arc q)) (snd (period_arc q)) i = true \/
     in_arc (fst (period_arc q)) (snd (period_arc q)) (next_day i) = true /\
       i = snd (period_arc p)) ->
    fst (period_arc p) = fst (period_arc q)) /\
  NoDup (fst <$> (period_arc <$> ps)) /\
  (exists i, is_day i /\ covered (period_arc <$> ps) i = false).
Proof.
  intros (arcs & occ & Hacc)%parse_recurring.
  pose proof (accepted_canonical _ _ _ _ Hacc) as Hcan. split_and!; [apply Hcan| |apply Hcan|].
  - pose proof (can_maximal _ _ Hcan) as Hm. rewrite Forall_forall in Hm.
    intros p q i Hp Hq Hi Hpi [Hqi|[Hqi ->]]; [by eapply maximal_run_start; eauto|].
    exfalso. apply (run_full _ _ _ (Hm q Hq)) in Hqi; [|auto with vayada].
    pose proof (run_after _ _ _ (Hm p Hp)). congruence.
  - destruct (acc_open _ _ _ _ Hacc) as [Hl Hg]. apply find_gap_spec in Hg as [Hg Ho].
    exists (find_gap occ). assert (is_day (find_gap occ)) by (unfold is_day; lia).
    split; [done|]. by rewrite (can_cover _ _ Hcan).
Qed.

(** A recurring schedule with readable periods is refused exactly when two
    periods share a day or no day is left closed. *)
Theorem schedule_parse_complete v raws arcs :
  exactRecord v ["mode"; "periods"] = true -> is_str (get v "mode") "recurring" = true ->
  as_array (get v "periods") = Some raws -> (1 <= length raws /\ length raws <= 24)%nat ->
  traverse raw_arc raws = Some arcs ->
  (exists s, parsePmsOperatingSchedule v = Some s) <->
  apart arcs /\ exists i, is_day i /\ covered arcs i = false.
Proof.
  intros Hx Hmode Hr Hn Ht. pose proof (raw_arcs_days _ _ Ht) as Hd.
  unfold parsePmsOperatingSchedule. rewrite Hx, Hr, Hmode. cbn [negb orb].
  assert (is_str (get v "mode") "year_round" = false) as ->.
  { destruct (get v "mode"); try discriminate. cbn in *. apply String.eqb_eq in Hmode. by subst. }
  replace (Nat.ltb _ _ || Nat.ltb _ _) with false
    by (unfold MINIMUM_PERIODS, MAXIMUM_DRAFT_PERIODS; symmetry; apply orb_false_iff; rewrite !Nat.ltb_ge; lia).
  rewrite mark_periods_arcs, Ht. split.
  - intros [s H]. destruct (mark_arcs arcs empty_year) as [occ|] eqn:Em; [|discriminate].
    destruct (forallb _ occ) eqn:Eo; [discriminate|].
    apply mark_arcs_Some in Em as (Hl & Hap & Hc); [|done|done]. split; [done|].
    apply find_gap_spec in Eo as [Hg Ho]. exists (find_gap occ).
    assert (Hi : is_day (find_gap occ)) by (unfold is_day; lia). split; [done|].
    destruct (Hc _ Hi) as [Hc' _]. rewrite Ho in Hc'. symmetry in Hc'.
    apply orb_false_iff in Hc'. tauto.
  - intros [Hap (i & Hi & Hfree)].
    destruct (mark_arcs_apart arcs empty_year) as [occ Hm]; auto.
    { intros. apply occ_at_empty. }
    rewrite Hm. apply mark_arcs_Some in Hm as (Hl & _ & Hc); [|done..].
    destruct (forallb _ occ) eqn:Eo; [|eauto]. exfalso.
    destruct (Hc i Hi) as [Hci _]. rewrite Hfree, occ_at_empty in Hci. cbn in Hci.
    rewrite forallb_forall in Eo. unfold occ_at in Hci. unfold is_day in Hi.
    destruct (lookup_lt_is_Some_2 occ (Z.to_nat i)) as [b Hb]; [lia|]. rewrite Hb in Hci. cbn in Hci.
    subst b. apply list_elem_of_lookup_2, list_elem_of_In, Eo in Hb. discriminate.
Qed.

(** On 29 February an accepted schedule is open exactly when it is open on
    both 28 February and 1 March. *)
Theorem schedule_open_leap_day v s date before after :
  parsePmsOperatingSchedule v = Some s ->
  str_drop 5 date = "02-29" -> str_drop 5 before = "02-28" -> str_drop 5 after = "03-01" ->
  schedule_open s date = schedule_open s before && schedule_open s after.
Proof.
  intros Hv Hd Hb Ha. destruct s as [|ps]; [done|].
  apply parse_recurring in Hv as (arcs & occ & Hacc).
  pose proof (accepted_canonical _ _ _ _ Hacc) as Hcan. cbn [schedule_open].
  rewrite Hd, Hb, Ha. apply eq_bool_prop_intro.
  pose proof (can_texts _ _ Hcan) as Htx. pose proof (can_maximal _ _ Hcan) as Hm.
  rewrite Forall_forall in Htx, Hm.
  assert (Hne : forall p, p ∈ ps -> period_arc p <> (59, 58)).
  { intros p Hp E. destruct (Hm p Hp) as [_ Hf Hbf _]. rewrite E in *. cbn [fst snd] in *.
    change (prev_day 59) with 58 in Hbf. rewrite Hf in Hbf; [discriminate| |reflexivity].
    unfold is_day; lia. }
  rewrite !Is_true_true, andb_true_iff, !existsb_exists. setoid_rewrite <- list_elem_of_In. split.
  - intros (p & Hp & Hc). rewrite period_covers_leap_day in Hc by auto.
    apply andb_true_iff in Hc as [? ?]. split; by exists p.
  - intros [(p & Hp & Hc) (q & Hq & Hc')].
    exists p. split; [done|]. rewrite period_covers_leap_day by auto.
    rewrite Hc. rewrite period_covers_arc in Hc, Hc' by auto.
    rewrite period_covers_arc by auto.
    change (monthDayIndex "02-28") with 58 in *. change (monthDayIndex "03-01") with 59 in *.
    cbn [andb]. destruct (Hm p Hp) as [[Hs He] _ _ Haf].
    destruct (in_arc (fst (period_arc p)) (snd (period_arc p)) 59) eqn:E; [done|]. exfalso.
    assert (He' : snd (period_arc p) = 58).
    { assert (is_day 58) by (unfold is_day; lia). assert (is_day 59) by (unfold is_day; lia).
      cbn [fst snd] in Hs, He. clear -Hs He Hc E H H0. destruct (period_arc p) as [j k].
      cbn [fst snd] in *. days. }
    rewrite He' in Haf. change (next_day 58) with 59 in Haf.
    rewrite (run_full _ _ _ (Hm q Hq) 59) in Haf; [discriminate | unfold is_day; lia | done].
Qed.
