(* ===== verification/OperatingCalendar.v ===== *)
(** * The operating-calendar contract (domain-pms/src/operatingCalendar.ts)

    The values that cross the boundary of the operating-calendar component and
    the parsers that admit them: proposals and commands, the accepted
    configuration snapshot with the revisions of its sources, source conflicts,
    command results and current reads.  The canonical time-zone registry that
    Hotel Catalog supplies is a parameter. *)

From S2P Require Import Prelude JsValue CalendarDates OperatingSchedule.

(** ** Leaf guards *)

Definition MAX_REVISION : Z := 2147483647.

Definition contract_version : string := "pms-operating-calendar.v1".
Definition impact_contract_version : string := "pms-operating-calendar-impact.v1".
Definition IMPACT_CONFIRMATION_TTL_SECONDS : Z := 900.

(** ** Proposals *)

Record PmsStartingSellableLimitInput := {
  li_roomTypeId : string;
  li_expectedRoomFactsRevision : Z;
  li_expectedRoomUnitsRevision : Z;
  li_startingSellableLimitCount : Z;
}.

Definition parseLimitInput (v : jsval) : option PmsStartingSellableLimitInput :=
  guard? exactRecord v ["roomTypeId"; "expectedRoomFactsRevision"; "expectedRoomUnitsRevision";
                        "startingSellableLimitCount"] in
  let? roomTypeId := as_uuid (get v "roomTypeId") in
  let? facts := as_integer (get v "expectedRoomFactsRevision") 1 MAX_REVISION in
  let? units := as_integer (get v "expectedRoomUnitsRevision") 1 MAX_REVISION in
  let? limit := as_integer (get v "startingSellableLimitCount") 1 500 in
  Some {| li_roomTypeId := roomTypeId; li_expectedRoomFactsRevision := facts;
          li_expectedRoomUnitsRevision := units; li_startingSellableLimitCount := limit |}.

Definition limit_value (l : PmsStartingSellableLimitInput) : jsval :=
  obj [("roomTypeId", VString (li_roomTypeId l));
       ("expectedRoomFactsRevision", VInt (li_expectedRoomFactsRevision l));
       ("expectedRoomUnitsRevision", VInt (li_expectedRoomUnitsRevision l));
       ("startingSellableLimitCount", VInt (li_startingSellableLimitCount l))].

Record PmsOperatingCalendarProposalRequest := {
  pr_expectedCalendarRevision : Z;
  pr_expectedPropertyProfileRevision : Z;
  pr_schedule : PmsOperatingSchedule;
  pr_defaultMinimumStayNights : Z;
  pr_roomTypeLimits : list PmsStartingSellableLimitInput;
}.

Definition PROPOSAL_REQUEST_KEYS : list string :=
  ["expectedCalendarRevision"; "expectedPropertyProfileRevision"; "schedule";
   "defaultMinimumStayNights"; "roomTypeLimits"].

Definition MINIMUM_NIGHTS : Z := 1.
Definition MAXIMUM_NIGHTS : Z := 366.

(** [left.roomTypeId <= right.roomTypeId] by code unit *)
Definition limit_le (a b : PmsStartingSellableLimitInput) : bool :=
  str_le (li_roomTypeId a) (li_roomTypeId b).

Definition parsePmsOperatingCalendarProposalRequest (v : jsval)
    : option PmsOperatingCalendarProposalRequest :=
  guard? exactRecord v PROPOSAL_REQUEST_KEYS in
  let? calendar := as_integer (get v "expectedCalendarRevision") 0 MAX_REVISION in
  let? profile := as_integer (get v "expectedPropertyProfileRevision") 1 MAX_REVISION in
  let? nights := as_integer (get v "defaultMinimumStayNights") MINIMUM_NIGHTS MAXIMUM_NIGHTS in
  let? raws := as_array (get v "roomTypeLimits") in
  guard? Nat.leb 1 (length raws) in
  let? schedule := parsePmsOperatingSchedule (get v "schedule") in
  let? limits := traverse parseLimitInput raws in
  guard? all_distinct String.eqb (li_roomTypeId <$> limits) in
  Some {| pr_expectedCalendarRevision := calendar;
          pr_expectedPropertyProfileRevision := profile;
          pr_schedule := schedule;
          pr_defaultMinimumStayNights := nights;
          pr_roomTypeLimits := stable_sort limit_le limits |}.

(** [Object.fromEntries(keys.map((key) => [key, value[key]]))] *)
Definition pick (keys : list string) (v : jsval) : jsval :=
  obj (List.map (fun k => (k, get v k)) keys).

Definition request_fields (r : PmsOperatingCalendarProposalRequest) : list (string * jsval) :=
  [("expectedCalendarRevision", VInt (pr_expectedCalendarRevision r));
   ("expectedPropertyProfileRevision", VInt (pr_expectedPropertyProfileRevision r));
   ("schedule", schedule_value (pr_schedule r));
   ("defaultMinimumStayNights", VInt (pr_defaultMinimumStayNights r));
   ("roomTypeLimits", arr (limit_value <$> pr_roomTypeLimits r))].

Definition request_value (r : PmsOperatingCalendarProposalRequest) : jsval := obj (request_fields r).

Record PmsOperatingCalendarProposal := {
  pp_organizationId : string;
  pp_propertyId : string;
  pp_request : PmsOperatingCalendarProposalRequest;
}.

Definition parsePmsOperatingCalendarProposal (v : jsval) : option PmsOperatingCalendarProposal :=
  guard? exactRecord v ("organizationId" :: "propertyId" :: PROPOSAL_REQUEST_KEYS) in
  let? organizationId := as_uuid (get v "organizationId") in
  let? propertyId := as_uuid (get v "propertyId") in
  let? request := parsePmsOperatingCalendarProposalRequest (pick PROPOSAL_REQUEST_KEYS v) in
  Some {| pp_organizationId := organizationId; pp_propertyId := propertyId;
          pp_request := request |}.

Definition proposal_fields (p : PmsOperatingCalendarProposal) : list (string * jsval) :=
  ("organizationId", VString (pp_organizationId p)) ::
  ("propertyId", VString (pp_propertyId p)) :: request_fields (pp_request p).

(** [proposalFingerprintPayload] *)
Definition proposal_value (p : PmsOperatingCalendarProposal) : jsval := obj (proposal_fields p).

Definition serializePmsOperatingCalendarProposalFingerprint (p : PmsOperatingCalendarProposal)
    : option string := json_stringify (proposal_value p).

(** ** Impact confirmations and commands *)

Record PmsOperatingCalendarImpactConfirmation := {
  ic_proposalFingerprint : string;
  ic_sourceFingerprint : string;
  ic_token : string;
  ic_issuedAt : string;
  ic_expiresAt : string;
}.

Definition parsePmsOperatingCalendarImpactConfirmation (v : jsval)
    : option PmsOperatingCalendarImpactConfirmation :=
  guard? exactRecord v ["contractVersion"; "proposalFingerprint"; "sourceFingerprint"; "token";
                        "issuedAt"; "expiresAt"] in
  let? _ := as_literal impact_contract_version (get v "contractVersion") in
  let? proposalFingerprint := as_sha256 (get v "proposalFingerprint") in
  let? sourceFingerprint := as_sha256 (get v "sourceFingerprint") in
  let? token := as_trimmed 1 2048 (get v "token") in
  let? issuedAt := isoInstant (get v "issuedAt") in
  let? expiresAt := isoInstant (get v "expiresAt") in
  guard? instant_of expiresAt - instant_of issuedAt =? IMPACT_CONFIRMATION_TTL_SECONDS * 1000 in
  Some {| ic_proposalFingerprint := proposalFingerprint;
          ic_sourceFingerprint := sourceFingerprint; ic_token := token;
          ic_issuedAt := issuedAt; ic_expiresAt := expiresAt |}.

Definition confirmation_value (c : PmsOperatingCalendarImpactConfirmation) : jsval :=
  obj [("contractVersion", VString impact_contract_version);
       ("proposalFingerprint", VString (ic_proposalFingerprint c));
       ("sourceFingerprint", VString (ic_sourceFingerprint c));
       ("token", VString (ic_token c)); ("issuedAt", VString (ic_issuedAt c));
       ("expiresAt", VString (ic_expiresAt c))].

Record PmsOperatingCalendarUpsertRequest := {
  ur_request : PmsOperatingCalendarProposalRequest;
  ur_impactConfirmation : PmsOperatingCalendarImpactConfirmation;
}.

Definition parsePmsOperatingCalendarUpsertRequest (v : jsval)
    : option PmsOperatingCalendarUpsertRequest :=
  guard? exactRecord v (PROPOSAL_REQUEST_KEYS ++ ["impactConfirmation"]) in
  let? proposal := parsePmsOperatingCalendarProposalRequest (pick PROPOSAL_REQUEST_KEYS v) in
  let? confirmation := parsePmsOperatingCalendarImpactConfirmation (get v "impactConfirmation") in
  Some {| ur_request := proposal; ur_impactConfirmation := confirmation |}.

Record PmsOperatingCalendarCommandAudit := {
  au_userId : string;
  au_requestId : string;
  au_correlationId : option string;
  au_requestedAt : string;
}.

Definition parseAudit (v : jsval) : option PmsOperatingCalendarCommandAudit :=
  guard? exactRecord v ["actor"; "requestId"; "correlationId"; "requestedAt"] in
  guard? exactRecord (get v "actor") ["kind"; "userId"] in
  let? _ := as_literal "user" (get (get v "actor") "kind") in
  let? userId := as_uuid (get (get v "actor") "userId") in
  let? requestId := as_trimmed 1 200 (get v "requestId") in
  let? correlationId := as_nullable (as_trimmed 1 200) (get v "correlationId") in
  let? requestedAt := isoInstant (get v "requestedAt") in
  Some {| au_userId := userId; au_requestId := requestId; au_correlationId := correlationId;
          au_requestedAt := requestedAt |}.

Definition audit_value (a : PmsOperatingCalendarCommandAudit) : jsval :=
  obj [("actor", obj [("kind", VString "user"); ("userId", VString (au_userId a))]);
       ("requestId", VString (au_requestId a));
       ("correlationId", of_nullable VString (au_correlationId a));
       ("requestedAt", VString (au_requestedAt a))].

Record UpsertPmsOperatingCalendarCommand := {
  uc_proposal : PmsOperatingCalendarProposal;
  uc_impactConfirmation : PmsOperatingCalendarImpactConfirmation;
  uc_idempotencyKey : string;
  uc_audit : PmsOperatingCalendarCommandAudit;
}.

Definition parseUpsertPmsOperatingCalendarCommand (v : jsval)
    : option UpsertPmsOperatingCalendarCommand :=
  guard? exactRecord v (["organizationId"; "propertyId"] ++ PROPOSAL_REQUEST_KEYS ++
                        ["impactConfirmation"; "idempotencyKey"; "audit"]) in
  let? idempotencyKey := as_trimmed 1 200 (get v "idempotencyKey") in
  let? request := parsePmsOperatingCalendarUpsertRequest
                    (pick (PROPOSAL_REQUEST_KEYS ++ ["impactConfirmation"]) v) in
  let? proposal := parsePmsOperatingCalendarProposal
                     (obj (("organizationId", get v "organizationId") ::
                           ("propertyId", get v "propertyId") ::
                           request_fields (ur_request request))) in
  let? audit := parseAudit (get v "audit") in
  Some {| uc_proposal := proposal; uc_impactConfirmation := ur_impactConfirmation request;
          uc_idempotencyKey := idempotencyKey; uc_audit := audit |}.

Definition command_value (c : UpsertPmsOperatingCalendarCommand) : jsval :=
  obj (proposal_fields (uc_proposal c) ++
       [("impactConfirmation", confirmation_value (uc_impactConfirmation c));
        ("idempotencyKey", VString (uc_idempotencyKey c));
        ("audit", audit_value (uc_audit c))]).

Definition serializePmsOperatingCalendarFingerprint (c : UpsertPmsOperatingCalendarCommand)
    : option string :=
  json_stringify (obj [("proposal", proposal_value (uc_proposal c));
                       ("impactConfirmation", confirmation_value (uc_impactConfirmation c))]).

(** ** Sources *)

Definition calendarRevision (s : string) : option Z := prefixed_revision "calendar:" s.

Definition serializePmsOperatingCalendarSourceRevision (calendarRevision : Z) : exn string :=
  match as_integer (VInt calendarRevision) 1 MAX_REVISION with
  | Some n => Ret (revision_text "calendar:" n)
  | None => Throw "RangeError"
  end.

(** A source revision of the calendar; its owner domain and entity type are fixed. *)
Record PmsOperatingCalendarSourceRevision := { sr_entityId : string; sr_revision : string }.

Definition createPmsOperatingCalendarSourceRevision (propertyId : string) (revision : Z)
    : exn PmsOperatingCalendarSourceRevision :=
  match as_uuid (VString propertyId) with
  | None => Throw "TypeError"
  | Some id =>
      try! text := serializePmsOperatingCalendarSourceRevision revision in
      Ret {| sr_entityId := id; sr_revision := text |}
  end.

Definition parsePmsOperatingCalendarSourceRevision (v : jsval)
    : option PmsOperatingCalendarSourceRevision :=
  guard? exactRecord v ["ownerDomain"; "entityType"; "entityId"; "revision"] in
  let? _ := as_literal "pms" (get v "ownerDomain") in
  let? _ := as_literal "pms_operating_calendar.v1" (get v "entityType") in
  let? entityId := as_uuid (get v "entityId") in
  let? revision := as_string (get v "revision") in
  let? _ := calendarRevision revision in
  Some {| sr_entityId := entityId; sr_revision := revision |}.

Definition source_value (s : PmsOperatingCalendarSourceRevision) : jsval :=
  obj [("ownerDomain", VString "pms"); ("entityType", VString "pms_operating_calendar.v1");
       ("entityId", VString (sr_entityId s)); ("revision", VString (sr_revision s))].

Record PmsOperatingCalendarPropertyProfileSource := { ps_entityId : string; ps_revision : string }.

(** [profileRevision] *)
Definition profileRevision (v : jsval) : option Z :=
  guard? is_object v in
  let? s := as_string (get v "revision") in
  prefixed_revision "profile:" s.

Definition parsePropertyProfileSource (v : jsval)
    : option PmsOperatingCalendarPropertyProfileSource :=
  guard? exactRecord v ["ownerDomain"; "entityType"; "entityId"; "revision"] in
  let? _ := as_literal "hotel_catalog" (get v "ownerDomain") in
  let? _ := as_literal "property_profile" (get v "entityType") in
  let? entityId := as_uuid (get v "entityId") in
  let? revision := as_string (get v "revision") in
  let? _ := profileRevision v in
  Some {| ps_entityId := entityId; ps_revision := revision |}.

Definition profile_source_value (s : PmsOperatingCalendarPropertyProfileSource) : jsval :=
  obj [("ownerDomain", VString "hotel_catalog"); ("entityType", VString "property_profile");
       ("entityId", VString (ps_entityId s)); ("revision", VString (ps_revision s))].

Record PmsOperatingCalendarRoomBinding := {
  rb_roomTypeId : string;
  rb_sourceRoomFactsRevision : Z;
  rb_sourceRoomUnitsRevision : Z;
  rb_physicalCapacityCount : Z;
  rb_startingSellableLimitCount : Z;
}.

Definition parseRoomBinding (v : jsval) : option PmsOperatingCalendarRoomBinding :=
  guard? exactRecord v ["roomTypeId"; "sourceRoomFactsRevision"; "sourceRoomUnitsRevision";
                        "physicalCapacityCount"; "startingSellableLimitCount"] in
  let? roomTypeId := as_uuid (get v "roomTypeId") in
  let? facts := as_integer (get v "sourceRoomFactsRevision") 1 MAX_REVISION in
  let? units := as_integer (get v "sourceRoomUnitsRevision") 1 MAX_REVISION in
  let? capacity := as_integer (get v "physicalCapacityCount") 1 500 in
  let? limit := as_integer (get v "startingSellableLimitCount") 1 capacity in
  Some {| rb_roomTypeId := roomTypeId; rb_sourceRoomFactsRevision := facts;
          rb_sourceRoomUnitsRevision := units; rb_physicalCapacityCount := capacity;
          rb_startingSellableLimitCount := limit |}.

Definition binding_value (b : PmsOperatingCalendarRoomBinding) : jsval :=
  obj [("roomTypeId", VString (rb_roomTypeId b));
       ("sourceRoomFactsRevision", VInt (rb_sourceRoomFactsRevision b));
       ("sourceRoomUnitsRevision", VInt (rb_sourceRoomUnitsRevision b));
       ("physicalCapacityCount", VInt (rb_physicalCapacityCount b));
       ("startingSellableLimitCount", VInt (rb_startingSellableLimitCount b))].

(** [sortedUnique] *)
Definition sortedUnique (values : list string) : bool := sorted_by str_lt values.

Record PmsOperatingCalendarSourceInputs := {
  si_propertyProfile : PmsOperatingCalendarPropertyProfileSource;
  si_propertyTimeZone : string;
  si_roomBindings : list PmsOperatingCalendarRoomBinding;
}.

Record PmsOperatingCalendarConfigurationSnapshot := {
  cs_propertyId : string;
  cs_calendarRevision : Z;
  cs_source : PmsOperatingCalendarSourceRevision;
  cs_sourceInputs : PmsOperatingCalendarSourceInputs;
  cs_schedule : PmsOperatingSchedule;
  cs_defaultMinimumStayNights : Z;
  cs_createdAt : string;
  cs_updatedAt : string;
}.

Definition inputs_value (i : PmsOperatingCalendarSourceInputs) : jsval :=
  obj [("propertyProfile", profile_source_value (si_propertyProfile i));
       ("propertyTimeZone", VString (si_propertyTimeZone i));
       ("roomBindings", arr (binding_value <$> si_roomBindings i))].

Definition configuration_value (c : PmsOperatingCalendarConfigurationSnapshot) : jsval :=
  obj [("contractVersion", VString contract_version);
       ("propertyId", VString (cs_propertyId c));
       ("calendarRevision", VInt (cs_calendarRevision c));
       ("source", source_value (cs_source c));
       ("sourceInputs", inputs_value (cs_sourceInputs c));
       ("schedule", schedule_value (cs_schedule c));
       ("defaultMinimumStayNights", VInt (cs_defaultMinimumStayNights c));
       ("createdAt", VString (cs_createdAt c)); ("updatedAt", VString (cs_updatedAt c))].

(** ** The time-zone registry

    Hotel Catalog's registry is a parameter: [isCanonicalIanaTimeZone] answers,
    or throws ([None]). *)
Record TimeZoneRegistry := {
  reg_ownerDomain : string;
  reg_registryVersion : jsval;
  reg_isCanonicalIanaTimeZone : string -> option bool;
}.

Definition zone_area_char (c : ascii) : bool :=
  char_between "A" "Z" c || char_between "a" "z" c || is_char "_" c.

Definition zone_name_char (c : ascii) : bool :=
  zone_area_char c || is_digit c || is_char "+" c || is_char "." c || is_char "/" c ||
  is_char "-" c.

(** Splits before the first character out of the class. *)
Fixpoint span_chars (f : ascii -> bool) (s : string) : string * string :=
  match s with
  | EmptyString => (EmptyString, EmptyString)
  | String c r =>
      if f c then let '(p, q) := span_chars f r in (String c p, q) else (EmptyString, s)
  end.

(** [IANA_TIME_ZONE]: an area of letters and underscores, a slash, and a name;
    the area has no slash, so the first slash ends it. *)
Definition IANA_TIME_ZONE (s : string) : bool :=
  match span_chars zone_area_char s with
  | (String _ _, String c (String _ _ as name)) => is_char "/" c && all_chars zone_name_char name
  | _ => false
  end.

Section WithRegistry.
Variable registry : TimeZoneRegistry.

Definition parsePmsCanonicalIanaTimeZone (v : jsval) : option string :=
  let? s := as_string v in
  guard? String.eqb s (trim s) && IANA_TIME_ZONE s &&
         String.eqb (reg_ownerDomain registry) "hotel_catalog" in
  let? _ := as_trimmed 1 100 (reg_registryVersion registry) in
  match reg_isCanonicalIanaTimeZone registry s with
  | Some true => Some s
  | _ => None
  end.

Definition parseSourceInputs (v : jsval) (propertyId : string)
    : option PmsOperatingCalendarSourceInputs :=
  guard? exactRecord v ["propertyProfile"; "propertyTimeZone"; "roomBindings"] in
  let? profile := parsePropertyProfileSource (get v "propertyProfile") in
  guard? String.eqb (ps_entityId profile) propertyId in
  let? zone := parsePmsCanonicalIanaTimeZone (get v "propertyTimeZone") in
  let? raws := as_array (get v "roomBindings") in
  let? bindings := traverse parseRoomBinding raws in
  guard? Nat.ltb 0 (length bindings) && sortedUnique (rb_roomTypeId <$> bindings) in
  Some {| si_propertyProfile := profile; si_propertyTimeZone := zone;
          si_roomBindings := bindings |}.

Definition parsePmsOperatingCalendarConfigurationSnapshot (v : jsval)
    : option PmsOperatingCalendarConfigurationSnapshot :=
  guard? exactRecord v ["contractVersion"; "propertyId"; "calendarRevision"; "source";
                        "sourceInputs"; "schedule"; "defaultMinimumStayNights"; "createdAt";
                        "updatedAt"] in
  let? _ := as_literal contract_version (get v "contractVersion") in
  let? propertyId := as_uuid (get v "propertyId") in
  let? revision := as_integer (get v "calendarRevision") 1 MAX_REVISION in
  let? nights := as_integer (get v "defaultMinimumStayNights") 1 366 in
  let? createdAt := isoInstant (get v "createdAt") in
  let? updatedAt := isoInstant (get v "updatedAt") in
  let? schedule := parsePmsOperatingSchedule (get v "schedule") in
  guard? same_json (schedule_value schedule) (get v "schedule") in
  let? inputs := parseSourceInputs (get v "sourceInputs") propertyId in
  let? source := parsePmsOperatingCalendarSourceRevision (get v "source") in
  guard? String.eqb (sr_entityId source) propertyId &&
         String.eqb (ps_entityId (si_propertyProfile inputs)) propertyId in
  match serializePmsOperatingCalendarSourceRevision revision with
  | Ret text =>
      guard? String.eqb (sr_revision source) text in
      Some {| cs_propertyId := propertyId; cs_calendarRevision := revision;
              cs_source := source; cs_sourceInputs := inputs; cs_schedule := schedule;
              cs_defaultMinimumStayNights := nights; cs_createdAt := createdAt;
              cs_updatedAt := updatedAt |}
  | Throw _ => None
  end.
End WithRegistry.

(** ** Conflicts and errors *)

Inductive PmsOperatingCalendarSourceConflict :=
| PropertyTimezoneMissing
| PropertyTimezoneInvalid
| PropertyProfileRevisionConflict (currentRevision : Z)
| ActiveRoomTypeSetEmpty
| RoomTypeSetConflict (currentRoomTypeIds : list string)
| RoomFactsRevisionConflict (roomTypeId : string) (currentRevision : Z)
| RoomUnitsRevisionConflict (roomTypeId : string) (currentRevision : Z)
| RoomCapacityUnavailable (roomTypeId : string)
| StartingSellableLimitExceedsCapacity (roomTypeId : string) (physicalCapacityCount : Z).

Inductive PmsOperatingCalendarCommandError :=
| SourceConflict (c : PmsOperatingCalendarSourceConflict)
| SetupScopeUnavailable
| CalendarRevisionConflict (currentRevision : Z)
| OperatingCalendarUnchanged
| ImpactConfirmationInvalid
| ImpactConfirmationExpired
| ImpactConfirmationConfigurationMismatch
| ImpactConfirmationStale
| IdempotencyKeyConflict
| CommandInProgress.

Definition conflict_code (c : PmsOperatingCalendarSourceConflict) : string :=
  match c with
  | PropertyTimezoneMissing => "property_timezone_missing"
  | PropertyTimezoneInvalid => "property_timezone_invalid"
  | PropertyProfileRevisionConflict _ => "property_profile_revision_conflict"
  | ActiveRoomTypeSetEmpty => "active_room_type_set_empty"
  | RoomTypeSetConflict _ => "room_type_set_conflict"
  | RoomFactsRevisionConflict _ _ => "room_facts_revision_conflict"
  | RoomUnitsRevisionConflict _ _ => "room_units_revision_conflict"
  | RoomCapacityUnavailable _ => "room_capacity_unavailable"
  | StartingSellableLimitExceedsCapacity _ _ => "starting_sellable_limit_exceeds_capacity"
  end.

Definition conflict_value (c : PmsOperatingCalendarSourceConflict) : jsval :=
  obj (("code", VString (conflict_code c)) ::
    match c with
    | PropertyProfileRevisionConflict r => [("currentRevision", VInt r)]
    | RoomTypeSetConflict ids => [("currentRoomTypeIds", arr (VString <$> ids))]
    | RoomFactsRevisionConflict id r | RoomUnitsRevisionConflict id r =>
        [("roomTypeId", VString id); ("currentRevision", VInt r)]
    | RoomCapacityUnavailable id => [("roomTypeId", VString id)]
    | StartingSellableLimitExceedsCapacity id n =>
        [("roomTypeId", VString id); ("physicalCapacityCount", VInt n)]
    | _ => []
    end).

(** The errors that carry only their code. *)
Definition simple_error (code : string) : option PmsOperatingCalendarCommandError :=
  if String.eqb code "setup_scope_unavailable" then Some SetupScopeUnavailable
  else if String.eqb code "property_timezone_missing" then Some (SourceConflict PropertyTimezoneMissing)
  else if String.eqb code "property_timezone_invalid" then Some (SourceConflict PropertyTimezoneInvalid)
  else if String.eqb code "active_room_type_set_empty" then Some (SourceConflict ActiveRoomTypeSetEmpty)
  else if String.eqb code "operating_calendar_unchanged" then Some OperatingCalendarUnchanged
  else if String.eqb code "impact_confirmation_invalid" then Some ImpactConfirmationInvalid
  else if String.eqb code "impact_confirmation_expired" then Some ImpactConfirmationExpired
  else if String.eqb code "impact_confirmation_configuration_mismatch"
       then Some ImpactConfirmationConfigurationMismatch
  else if String.eqb code "impact_confirmation_stale" then Some ImpactConfirmationStale
  else if String.eqb code "idempotency_key_conflict" then Some IdempotencyKeyConflict
  else if String.eqb code "command_in_progress" then Some CommandInProgress
  else None.

(** The errors with data, by their code. *)
Definition detailed_error (v : jsval) (code : string) : option PmsOperatingCalendarCommandError :=
  if String.eqb code "calendar_revision_conflict" then
    guard? exactRecord v ["code"; "currentRevision"] in
    let? n := as_integer (get v "currentRevision") 0 MAX_REVISION in
    Some (CalendarRevisionConflict n)
  else if String.eqb code "property_profile_revision_conflict" then
    guard? exactRecord v ["code"; "currentRevision"] in
    let? n := as_integer (get v "currentRevision") 1 MAX_REVISION in
    Some (SourceConflict (PropertyProfileRevisionConflict n))
  else if String.eqb code "room_type_set_conflict" then
    guard? exactRecord v ["code"; "currentRoomTypeIds"] in
    let? raws := as_array (get v "currentRoomTypeIds") in
    let? ids := traverse as_uuid raws in
    guard? sortedUnique ids in
    Some (SourceConflict (RoomTypeSetConflict ids))
  else if String.eqb code "room_facts_revision_conflict" ||
          String.eqb code "room_units_revision_conflict" then
    guard? exactRecord v ["code"; "roomTypeId"; "currentRevision"] in
    let? id := as_uuid (get v "roomTypeId") in
    let? n := as_integer (get v "currentRevision") 1 MAX_REVISION in
    Some (SourceConflict
      (if String.eqb code "room_facts_revision_conflict"
       then RoomFactsRevisionConflict id n else RoomUnitsRevisionConflict id n))
  else if String.eqb code "room_capacity_unavailable" then
    guard? exactRecord v ["code"; "roomTypeId"] in
    let? id := as_uuid (get v "roomTypeId") in
    Some (SourceConflict (RoomCapacityUnavailable id))
  else if String.eqb code "starting_sellable_limit_exceeds_capacity" then
    guard? exactRecord v ["code"; "roomTypeId"; "physicalCapacityCount"] in
    let? id := as_uuid (get v "roomTypeId") in
    let? n := as_integer (get v "physicalCapacityCount") 0 500 in
    Some (SourceConflict (StartingSellableLimitExceedsCapacity id n))
  else None.

Definition parseCommandError (v : jsval) : option PmsOperatingCalendarCommandError :=
  guard? is_object v in
  let? code := as_string (get v "code") in
  match (guard? exactRecord v ["code"] in simple_error code) with
  | Some e => Some e
  | None => detailed_error v code
  end.

Definition parseSourceConflict (v : jsval) : option PmsOperatingCalendarSourceConflict :=
  match parseCommandError v with
  | Some (SourceConflict c) => Some c
  | _ => None
  end.

Definition parseStaleSourceConflict (v : jsval) : option PmsOperatingCalendarSourceConflict :=
  match parseSourceConflict v with
  | Some (StartingSellableLimitExceedsCapacity _ _) => None
  | c => c
  end.

Definition conflict_room (c : PmsOperatingCalendarSourceConflict) : option string :=
  match c with
  | RoomFactsRevisionConflict id _ | RoomUnitsRevisionConflict id _
  | RoomCapacityUnavailable id | StartingSellableLimitExceedsCapacity id _ => Some id
  | _ => None
  end.

Definition staleConflictKey (c : PmsOperatingCalendarSourceConflict) : string :=
  match conflict_room c with
  | Some id => "1|" +:+ id
  | None => "0|property"
  end +:+ String "|" (conflict_code c).

Definition conflict_le (a b : PmsOperatingCalendarSourceConflict) : bool :=
  str_le (staleConflictKey a) (staleConflictKey b).

(** [sorted.some((c, i) => i > 0 && key(sorted[i - 1]) === key(c))] *)
Fixpoint adjacent_equal (keys : list string) : bool :=
  match keys with
  | x :: ((y :: _) as r) => String.eqb x y || adjacent_equal r
  | _ => false
  end.

Definition sortPmsOperatingCalendarStaleSourceConflicts
    (conflicts : list PmsOperatingCalendarSourceConflict)
    : exn (list PmsOperatingCalendarSourceConflict) :=
  let sorted := stable_sort conflict_le conflicts in
  if adjacent_equal (staleConflictKey <$> sorted) then Throw "TypeError" else Ret sorted.

(** ** Current profile evidence *)

Record PmsOperatingCalendarPropertyProfileEvidence := {
  ev_source : PmsOperatingCalendarPropertyProfileSource;
  ev_timeZone : string;
}.

(** A saved calendar read back with the state of its sources. *)
Inductive PmsOperatingCalendarCurrentReadResult :=
| ReadCurrent (configuration : PmsOperatingCalendarConfigurationSnapshot)
| ReadStale (configuration : PmsOperatingCalendarConfigurationSnapshot)
    (sourceConflicts : list PmsOperatingCalendarSourceConflict).

Inductive command_outcome := OutcomeCreated | OutcomeUpdated.

Definition outcome_text (o : command_outcome) : string :=
  match o with OutcomeCreated => "created" | OutcomeUpdated => "updated" end.

Inductive PmsOperatingCalendarCommandResult :=
| CommandOk (outcome : command_outcome) (configuration : PmsOperatingCalendarConfigurationSnapshot)
    (acceptedAt : string)
| CommandError (error : PmsOperatingCalendarCommandError).

Section Results.
Variable registry : TimeZoneRegistry.

Definition parsePmsOperatingCalendarPropertyProfileEvidence (v : jsval)
    : option PmsOperatingCalendarPropertyProfileEvidence :=
  guard? exactRecord v ["source"; "timeZone"] in
  let? source := parsePropertyProfileSource (get v "source") in
  let? zone := parsePmsCanonicalIanaTimeZone registry (get v "timeZone") in
  Some {| ev_source := source; ev_timeZone := zone |}.

(** [parseProfileEvidenceResult]: the current revision and the time zone *)
Definition parseProfileEvidenceResult (result : jsval) : exn (Z * option string) :=
  try! (source, zone) :=
    (if is_str (get result "status") "available" then
       if negb (exactRecord result ["status"; "evidence"]) then Throw "TypeError"
       else
         match parsePmsOperatingCalendarPropertyProfileEvidence (get result "evidence") with
         | None => Throw "TypeError"
         | Some e => Ret (ev_source e, Some (ev_timeZone e))
         end
     else if is_str (get result "status") "timezone_missing" ||
             is_str (get result "status") "timezone_invalid" then
       if negb (exactRecord result ["status"; "source"]) then Throw "TypeError"
       else
         match parsePropertyProfileSource (get result "source") with
         | None => Throw "TypeError"
         | Some s => Ret (s, None)
         end
     else Throw "TypeError") in
  match profileRevision (profile_source_value source) with
  | None => Throw "TypeError"
  | Some n => Ret (n, zone)
  end.

Definition timeZoneStatusConflict (result : jsval) : option PmsOperatingCalendarSourceConflict :=
  if is_str (get result "status") "timezone_missing" then Some PropertyTimezoneMissing
  else if is_str (get result "status") "timezone_invalid" then Some PropertyTimezoneInvalid
  else None.

Definition resolvePmsOperatingCalendarPropertyProfileConflict (result : jsval)
    (expectedProfileRevision : Z) : exn (option PmsOperatingCalendarSourceConflict) :=
  match as_integer (VInt expectedProfileRevision) 1 MAX_REVISION with
  | None => Throw "TypeError"
  | Some expected =>
      try! (current, _) := parseProfileEvidenceResult result in
      if negb (current =? expected) then Ret (Some (PropertyProfileRevisionConflict current))
      else Ret (timeZoneStatusConflict result)
  end.

Definition resolvePmsOperatingCalendarTimeZoneConflict (result : jsval)
    (acceptedTimeZone : string) : exn (option PmsOperatingCalendarSourceConflict) :=
  try! (current, zone) := parseProfileEvidenceResult result in
  if negb (is_str (get result "status") "available") then Ret (timeZoneStatusConflict result)
  else if bool_decide (zone = Some acceptedTimeZone) then Ret None
  else Ret (Some (PropertyProfileRevisionConflict current)).

Definition pmsOperatingCalendarTimeZoneIsCurrent (result : jsval)
    (configuration : PmsOperatingCalendarConfigurationSnapshot) : bool :=
  is_str (get result "status") "available" &&
  match parsePmsOperatingCalendarPropertyProfileEvidence (get result "evidence") with
  | Some e =>
      String.eqb (ps_entityId (ev_source e)) (cs_propertyId configuration) &&
      String.eqb (ev_timeZone e) (si_propertyTimeZone (cs_sourceInputs configuration))
  | None => false
  end.

Definition parsePmsOperatingCalendarCommandResult (v : jsval)
    : option PmsOperatingCalendarCommandResult :=
  guard? is_object v in
  match get v "ok" with
  | VBool true =>
      guard? exactRecord v ["ok"; "response"] in
      let response := get v "response" in
      guard? exactRecord response ["contractVersion"; "outcome"; "configuration"; "acceptedAt"] in
      let? _ := as_literal contract_version (get response "contractVersion") in
      let? outcome :=
        (if is_str (get response "outcome") "created" then Some OutcomeCreated
         else if is_str (get response "outcome") "updated" then Some OutcomeUpdated
         else None) in
      let? acceptedAt := isoInstant (get response "acceptedAt") in
      let? configuration :=
        parsePmsOperatingCalendarConfigurationSnapshot registry (get response "configuration") in
      Some (CommandOk outcome configuration acceptedAt)
  | VBool false =>
      guard? exactRecord v ["ok"; "error"] in
      let? error := parseCommandError (get v "error") in
      Some (CommandError error)
  | _ => None
  end.

Definition parsePmsOperatingCalendarCurrentReadResult (v : jsval)
    : option PmsOperatingCalendarCurrentReadResult :=
  guard? exactRecord v ["configuration"; "sourceStatus"; "sourceConflicts"] in
  let? configuration :=
    parsePmsOperatingCalendarConfigurationSnapshot registry (get v "configuration") in
  let? raws := as_array (get v "sourceConflicts") in
  let? parsed := traverse parseStaleSourceConflict raws in
  if is_str (get v "sourceStatus") "current" && Nat.eqb (length parsed) 0
  then Some (ReadCurrent configuration)
  else if negb (is_str (get v "sourceStatus") "stale") || Nat.eqb (length parsed) 0 then None
  else
    match sortPmsOperatingCalendarStaleSourceConflicts parsed with
    | Throw _ => None
    | Ret canonical =>
        guard? same_json (get v "sourceConflicts") (arr (conflict_value <$> canonical)) in
        Some (ReadStale configuration canonical)
    end.
End Results.

Definition read_value (r : PmsOperatingCalendarCurrentReadResult) : jsval :=
  match r with
  | ReadCurrent c =>
      obj [("configuration", configuration_value c); ("sourceStatus", VString "current");
           ("sourceConflicts", arr [])]
  | ReadStale c conflicts =>
      obj [("configuration", configuration_value c); ("sourceStatus", VString "stale");
           ("sourceConflicts", arr (conflict_value <$> conflicts))]
  end.

(** ** Reading values again *)

Lemma isoInstant_reparse v s : isoInstant v = Some s -> isoInstant (VString s) = Some s.
Proof. intros H. by apply isoInstant_Some in H as [_ ?]. Qed.

#[global] Arguments isoInstant : simpl never.
#[global] Arguments instant_of : simpl never.
#[global] Arguments parsePmsOperatingSchedule : simpl never.
#[global] Arguments schedule_value : simpl never.
#[global] Arguments Z.mul : simpl nomatch.

Lemma limit_reparse v l : parseLimitInput v = Some l -> parseLimitInput (limit_value l) = Some l.
Proof.
  unfold parseLimitInput at 1. intros H. follow H. unfold parseLimitInput. reparse. done.
Qed.

Lemma limit_value_not_null l : is_null (limit_value l) = false.
Proof. done. Qed.

Definition limits_sorted (r : PmsOperatingCalendarProposalRequest) : bool :=
  sortedUnique (li_roomTypeId <$> pr_roomTypeLimits r).

(** A parsed proposal has its limits in strict order of room type. *)
Lemma request_limits_sorted v r :
  parsePmsOperatingCalendarProposalRequest v = Some r -> limits_sorted r = true.
Proof.
  unfold parsePmsOperatingCalendarProposalRequest. intros H. follow H.
  apply stable_sort_key_sorted, all_distinct_strings. assumption.
Qed.

(** The elements of a parsed array read back, whatever order they are put in. *)
Lemma traverse_reparse_sorted {A} (f : jsval -> option A) (g : A -> jsval) le raws l :
  (forall v x, f v = Some x -> f (g x) = Some x) ->
  traverse f raws = Some l -> traverse f (g <$> stable_sort le l) = Some (stable_sort le l).
Proof.
  intros Hf H. apply (traverse_fmap_Forall (fun x => f (g x) = Some x)); [done|].
  apply Forall_stable_sort. by eapply traverse_Forall.
Qed.

Lemma request_reparse v r :
  parsePmsOperatingCalendarProposalRequest v = Some r ->
  parsePmsOperatingCalendarProposalRequest (request_value r) = Some r.
Proof.
  intros H. pose proof (request_limits_sorted v r H) as Hs.
  unfold parsePmsOperatingCalendarProposalRequest in H.
  destruct (exactRecord v _); [|discriminate].
  destruct (as_integer _ 0 _) eqn:Ec; [|discriminate].
  destruct (as_integer _ 1 _) eqn:Ep; [|discriminate].
  destruct (as_integer _ MINIMUM_NIGHTS _) eqn:En; [|discriminate].
  destruct (as_array _) as [raws|]; [|discriminate].
  destruct (Nat.leb 1 (length raws)) eqn:Er; [|discriminate].
  destruct (parsePmsOperatingSchedule _) eqn:Es; [|discriminate].
  destruct (traverse parseLimitInput raws) as [limits|] eqn:Et; [|discriminate].
  destruct (all_distinct _ _); [|discriminate]. injection H as <-.
  unfold limits_sorted in Hs. cbn in Hs.
  unfold parsePmsOperatingCalendarProposalRequest, request_value, request_fields. reparse.
  rewrite length_fmap, stable_sort_length, (traverse_length _ _ _ Et), Er.
  rewrite (parse_schedule_canonical _ _ Es), (traverse_reparse_sorted _ _ _ _ _ limit_reparse Et).
  replace (all_distinct _ _) with true; [by rewrite (stable_sort_key_id li_roomTypeId)|].
  symmetry. apply all_distinct_strings, sorted_by_NoDup. exact Hs.
Qed.

#[global] Arguments parsePmsOperatingCalendarProposalRequest : simpl never.

Ltac reparse_leaf ::=
  first
    [ rewrite as_literal_refl
    | erewrite as_uuid_reparse by eassumption
    | erewrite as_integer_reparse by eassumption
    | erewrite as_trimmed_reparse by eassumption
    | erewrite as_sha256_reparse by eassumption
    | erewrite isoInstant_reparse by eassumption
    | rewrite as_array_arr
    | rewrite same_json_refl
    | rewrite String.eqb_refl ].

Lemma confirmation_reparse v c :
  parsePmsOperatingCalendarImpactConfirmation v = Some c ->
  parsePmsOperatingCalendarImpactConfirmation (confirmation_value c) = Some c.
Proof.
  unfold parsePmsOperatingCalendarImpactConfirmation at 1. intros H. follow H.
  unfold parsePmsOperatingCalendarImpactConfirmation. reparse.
  match goal with H : (_ =? _) = true |- _ => cbn in H; by rewrite H end.
Qed.

Lemma nullable_trimmed_reparse lo hi v o :
  as_nullable (as_trimmed lo hi) v = Some o ->
  as_nullable (as_trimmed lo hi) (of_nullable VString o) = Some o.
Proof. apply as_nullable_reparse; [exact (as_trimmed_reparse lo hi) | done]. Qed.

Lemma audit_reparse v a : parseAudit v = Some a -> parseAudit (audit_value a) = Some a.
Proof.
  unfold parseAudit at 1. intros H. follow H. unfold parseAudit. reparse.
  by erewrite nullable_trimmed_reparse by eassumption.
Qed.

Lemma pick_proposal p :
  pick PROPOSAL_REQUEST_KEYS (proposal_value p) = request_value (pp_request p).
Proof. reflexivity. Qed.

Lemma proposal_reparse v p :
  parsePmsOperatingCalendarProposal v = Some p ->
  parsePmsOperatingCalendarProposal (proposal_value p) = Some p.
Proof.
  unfold parsePmsOperatingCalendarProposal at 1. intros H. follow H.
  unfold parsePmsOperatingCalendarProposal. rewrite pick_proposal. cbn [pp_request].
  erewrite request_reparse by eassumption. by reparse.
Qed.

(** A command re-reads the request it has just read. *)
Lemma proposal_of_request a b r :
  parsePmsOperatingCalendarProposalRequest (request_value r) = Some r ->
  parsePmsOperatingCalendarProposal
    (obj (("organizationId", a) :: ("propertyId", b) :: request_fields r)) =
  let? o := as_uuid a in
  let? p := as_uuid b in
  Some {| pp_organizationId := o; pp_propertyId := p; pp_request := r |}.
Proof.
  intros Hr. unfold parsePmsOperatingCalendarProposal.
  change (pick _ _) with (request_value r). rewrite Hr. reflexivity.
Qed.

#[global] Arguments parsePmsOperatingCalendarProposal : simpl never.
#[global] Arguments parsePmsOperatingCalendarImpactConfirmation : simpl never.
#[global] Arguments parseAudit : simpl never.

Definition upsert_value (u : PmsOperatingCalendarUpsertRequest) : jsval :=
  obj (request_fields (ur_request u) ++
       [("impactConfirmation", confirmation_value (ur_impactConfirmation u))]).

Lemma pick_upsert u :
  pick PROPOSAL_REQUEST_KEYS (upsert_value u) = request_value (ur_request u).
Proof. reflexivity. Qed.

Lemma upsert_reparse v u :
  parsePmsOperatingCalendarUpsertRequest v = Some u ->
  parsePmsOperatingCalendarUpsertRequest (upsert_value u) = Some u.
Proof.
  unfold parsePmsOperatingCalendarUpsertRequest at 1. intros H. follow H.
  unfold parsePmsOperatingCalendarUpsertRequest. rewrite pick_upsert. cbn [ur_request].
  erewrite request_reparse by eassumption. reparse.
  by erewrite confirmation_reparse by eassumption.
Qed.

#[global] Arguments parsePmsOperatingCalendarUpsertRequest : simpl never.

Lemma pick_command c :
  pick (PROPOSAL_REQUEST_KEYS ++ ["impactConfirmation"]) (command_value c) =
  upsert_value {| ur_request := pp_request (uc_proposal c);
                  ur_impactConfirmation := uc_impactConfirmation c |}.
Proof. reflexivity. Qed.

(** The proposal inside an accepted command is the one its request parses to. *)
Lemma command_proposal v c :
  parseUpsertPmsOperatingCalendarCommand v = Some c ->
  parsePmsOperatingCalendarUpsertRequest
    (pick (PROPOSAL_REQUEST_KEYS ++ ["impactConfirmation"]) v) =
    Some {| ur_request := pp_request (uc_proposal c);
            ur_impactConfirmation := uc_impactConfirmation c |} /\
  as_uuid (get v "organizationId") = Some (pp_organizationId (uc_proposal c)) /\
  as_uuid (get v "propertyId") = Some (pp_propertyId (uc_proposal c)) /\
  as_trimmed 1 200 (get v "idempotencyKey") = Some (uc_idempotencyKey c) /\
  parseAudit (get v "audit") = Some (uc_audit c).
Proof.
  unfold parseUpsertPmsOperatingCalendarCommand. intros H.
  destruct (exactRecord v _); [|discriminate].
  destruct (as_trimmed _ _ _) as [key|]; [|discriminate].
  destruct (parsePmsOperatingCalendarUpsertRequest _) as [[r conf]|] eqn:Eu; [|discriminate].
  cbn [ur_request ur_impactConfirmation] in H. rewrite proposal_of_request in H.
  - destruct (as_uuid _); [|discriminate].
    destruct (as_uuid (get v "propertyId")); [|discriminate].
    destruct (parseAudit _); [|discriminate]. injection H as <-. done.
  - unfold parsePmsOperatingCalendarUpsertRequest in Eu. follow Eu. by eapply request_reparse.
Qed.

Lemma command_reparse v c :
  parseUpsertPmsOperatingCalendarCommand v = Some c ->
  parseUpsertPmsOperatingCalendarCommand (command_value c) = Some c.
Proof.
  intros (Hu & Ho & Hp & Hk & Ha)%command_proposal.
  unfold parseUpsertPmsOperatingCalendarCommand. rewrite pick_command.
  erewrite upsert_reparse by exact Hu.
  replace (exactRecord (command_value c) _) with true by reflexivity.
  replace (get (command_value c) "idempotencyKey") with (VString (uc_idempotencyKey c)) by reflexivity.
  replace (get (command_value c) "organizationId") with (VString (pp_organizationId (uc_proposal c)))
    by reflexivity.
  replace (get (command_value c) "propertyId") with (VString (pp_propertyId (uc_proposal c)))
    by reflexivity.
  replace (get (command_value c) "audit") with (audit_value (uc_audit c)) by reflexivity.
  cbn [ur_request ur_impactConfirmation]. rewrite proposal_of_request.
  - erewrite as_trimmed_reparse, !as_uuid_reparse, audit_reparse by eassumption.
    destruct c as [[] ? ? ?]; reflexivity.
  - unfold parsePmsOperatingCalendarUpsertRequest in Hu. follow Hu. by eapply request_reparse.
Qed.

(** ** Sources and snapshots read back *)

Lemma serialize_source_revision n :
  1 <= n <= MAX_REVISION ->
  serializePmsOperatingCalendarSourceRevision n = Ret (revision_text "calendar:" n).
Proof.
  intros Hn. unfold serializePmsOperatingCalendarSourceRevision.
  by rewrite as_integer_VInt by (unfold MAX_REVISION in *; lia).
Qed.

#[global] Arguments calendarRevision : simpl never.
#[global] Arguments prefixed_revision : simpl never.
#[global] Arguments serializePmsOperatingCalendarSourceRevision : simpl never.
#[global] Arguments parsePmsCanonicalIanaTimeZone : simpl never.

Lemma as_string_reparse v s : as_string v = Some s -> v = VString s.
Proof. destruct v; cbn; congruence. Qed.

Lemma source_reparse v s :
  parsePmsOperatingCalendarSourceRevision v = Some s ->
  parsePmsOperatingCalendarSourceRevision (source_value s) = Some s.
Proof.
  unfold parsePmsOperatingCalendarSourceRevision at 1. intros H. follow H.
  unfold parsePmsOperatingCalendarSourceRevision. reparse.
  match goal with H : calendarRevision _ = Some _ |- _ => by rewrite H end.
Qed.

Lemma profile_source_reparse v s :
  parsePropertyProfileSource v = Some s ->
  parsePropertyProfileSource (profile_source_value s) = Some s.
Proof.
  unfold parsePropertyProfileSource at 1. intros H. follow H.
  unfold parsePropertyProfileSource. reparse.
  match goal with
  | H : profileRevision _ = Some _, Hs : as_string (get _ "revision") = Some _ |- _ =>
      unfold profileRevision in H; rewrite Hs in H; destruct (is_object _); [|discriminate]
  end.
  match goal with H : prefixed_revision _ _ = Some _ |- _ => by rewrite H end.
Qed.

Lemma profile_source_revision v s :
  parsePropertyProfileSource v = Some s ->
  exists n, profileRevision (profile_source_value s) = Some n.
Proof.
  unfold parsePropertyProfileSource. intros H. follow H.
  match goal with
  | H : profileRevision _ = Some ?n, Hs : as_string (get _ "revision") = Some _ |- _ =>
      exists n; unfold profileRevision in H; rewrite Hs in H; destruct (is_object _); [exact H | discriminate]
  end.
Qed.

Lemma binding_reparse v b : parseRoomBinding v = Some b -> parseRoomBinding (binding_value b) = Some b.
Proof. unfold parseRoomBinding at 1. intros H. follow H. unfold parseRoomBinding. by reparse. Qed.

Lemma zone_reparse reg v s :
  parsePmsCanonicalIanaTimeZone reg v = Some s ->
  parsePmsCanonicalIanaTimeZone reg (VString s) = Some s.
Proof.
  unfold parsePmsCanonicalIanaTimeZone. intros H.
  destruct (as_string v) as [t|] eqn:E; [|discriminate]. apply as_string_reparse in E as ->.
  cbn [as_string]. assert (t = s) as ->; [|done]. by follow H.
Qed.

#[global] Arguments parsePropertyProfileSource : simpl never.
#[global] Arguments parsePmsOperatingCalendarSourceRevision : simpl never.
#[global] Arguments sortedUnique : simpl never.

Lemma inputs_reparse reg v id i :
  parseSourceInputs reg v id = Some i -> parseSourceInputs reg (inputs_value i) id = Some i.
Proof.
  unfold parseSourceInputs at 1. intros H. follow H. unfold parseSourceInputs. reparse.
  erewrite profile_source_reparse by eassumption.
  match goal with H : String.eqb _ _ = true |- _ => rewrite H end.
  erewrite zone_reparse by eassumption.
  match goal with H : traverse _ _ = Some _ |- _ =>
    rewrite (traverse_reparse _ _ _ _ binding_reparse H) end.
  match goal with H : _ && _ = true |- _ => by rewrite H end.
Qed.

#[global] Arguments parseSourceInputs : simpl never.

Lemma configuration_reparse reg v c :
  parsePmsOperatingCalendarConfigurationSnapshot reg v = Some c ->
  parsePmsOperatingCalendarConfigurationSnapshot reg (configuration_value c) = Some c.
Proof.
  unfold parsePmsOperatingCalendarConfigurationSnapshot at 1. intros H. follow H.
  unfold parsePmsOperatingCalendarConfigurationSnapshot. reparse.
  match goal with H : parsePmsOperatingSchedule _ = Some _ |- _ =>
    rewrite (parse_schedule_canonical _ _ H) end.
  rewrite same_json_refl. erewrite inputs_reparse, source_reparse by eassumption.
  repeat match goal with
  | H : _ && _ = true |- _ => rewrite H
  | H : serializePmsOperatingCalendarSourceRevision _ = _ |- _ => rewrite H
  | H : String.eqb _ _ = true |- _ => rewrite H
  end. done.
Qed.

#[global] Arguments parsePmsOperatingCalendarConfigurationSnapshot : simpl never.

(** What an accepted snapshot guarantees: one property throughout, the source's
    revision text is the calendar's revision, and the bindings are in order and
    within capacity. *)
Record snapshot_ok (c : PmsOperatingCalendarConfigurationSnapshot) : Prop := {
  so_property : canonical_uuid (cs_propertyId c) = true;
  so_source : sr_entityId (cs_source c) = cs_propertyId c;
  so_profile : ps_entityId (si_propertyProfile (cs_sourceInputs c)) = cs_propertyId c;
  so_revision : 1 <= cs_calendarRevision c <= MAX_REVISION;
  so_text : calendarRevision (sr_revision (cs_source c)) = Some (cs_calendarRevision c);
  so_nights : 1 <= cs_defaultMinimumStayNights c <= 366;
  so_schedule : canonical_schedule (cs_schedule c);
  so_bindings : si_roomBindings (cs_sourceInputs c) <> [] /\
    sortedUnique (rb_roomTypeId <$> si_roomBindings (cs_sourceInputs c)) = true;
  so_capacity : Forall (fun b => canonical_uuid (rb_roomTypeId b) = true /\
      1 <= rb_startingSellableLimitCount b <= rb_physicalCapacityCount b /\
      rb_physicalCapacityCount b <= 500 /\ 1 <= rb_sourceRoomFactsRevision b <= MAX_REVISION /\
      1 <= rb_sourceRoomUnitsRevision b <= MAX_REVISION)
    (si_roomBindings (cs_sourceInputs c));
}.

Lemma binding_ok v b : parseRoomBinding v = Some b ->
  canonical_uuid (rb_roomTypeId b) = true /\
  1 <= rb_startingSellableLimitCount b <= rb_physicalCapacityCount b /\
  rb_physicalCapacityCount b <= 500 /\ 1 <= rb_sourceRoomFactsRevision b <= MAX_REVISION /\
  1 <= rb_sourceRoomUnitsRevision b <= MAX_REVISION.
Proof.
  unfold parseRoomBinding. intros H. follow H. cbn.
  repeat match goal with H : as_integer _ _ _ = Some _ |- _ => apply as_integer_Some in H as (_ & _ & ?) end.
  match goal with H : as_uuid _ = Some _ |- _ => apply as_uuid_Some in H end.
  split_and!; auto; lia.
Qed.

Lemma inputs_ok reg v id i : parseSourceInputs reg v id = Some i ->
  ps_entityId (si_propertyProfile i) = id /\ si_roomBindings i <> [] /\
  sortedUnique (rb_roomTypeId <$> si_roomBindings i) = true /\
  exists raws, traverse parseRoomBinding raws = Some (si_roomBindings i).
Proof.
  unfold parseSourceInputs. intros H. follow H. cbn.
  match goal with H : _ && _ = true |- _ => apply andb_true_iff in H as [Hl Hs] end.
  match goal with H : String.eqb _ _ = true |- _ => apply String.eqb_eq in H end.
  split_and!; eauto. intros Enil. by rewrite Enil in Hl.
Qed.

Lemma snapshot_sound reg v c :
  parsePmsOperatingCalendarConfigurationSnapshot reg v = Some c -> snapshot_ok c.
Proof.
  unfold parsePmsOperatingCalendarConfigurationSnapshot. intros H. follow H.
  match goal with H : _ && _ = true |- _ => apply andb_true_iff in H as [Hs Hp] end.
  apply String.eqb_eq in Hs, Hp.
  repeat match goal with
  | H : as_integer _ _ _ = Some _ |- _ => apply as_integer_Some in H as (_ & _ & ?)
  | H : as_uuid _ = Some _ |- _ => apply as_uuid_Some in H
  | H : String.eqb _ _ = true |- _ => apply String.eqb_eq in H
  | H : parseSourceInputs _ _ _ = Some _ |- _ =>
      apply inputs_ok in H as (Hprof & Hne & Hsort & raws & Hraws)
  | H : parsePmsOperatingSchedule _ = Some _ |- _ => apply parse_schedule_canonical in H
  end.
  split; cbn; auto.
  - match goal with H : serializePmsOperatingCalendarSourceRevision _ = Ret _ |- _ =>
      rewrite serialize_source_revision in H by done; injection H as <- end.
    match goal with H : sr_revision _ = _ |- _ => rewrite H end.
    by apply prefixed_revision_print.
  - eapply traverse_Forall; [|exact Hraws]. exact binding_ok.
Qed.

(** ** Conflicts read back *)

Lemma simple_error_conflict code c :
  simple_error code = Some (SourceConflict c) ->
  c = PropertyTimezoneMissing \/ c = PropertyTimezoneInvalid \/ c = ActiveRoomTypeSetEmpty.
Proof. unfold simple_error. intros H. follow H; auto. Qed.

Lemma uuid_list_reparse raws ids :
  traverse as_uuid raws = Some ids -> traverse as_uuid (VString <$> ids) = Some ids.
Proof. apply traverse_reparse. exact as_uuid_reparse. Qed.

Lemma conflict_reparse v c :
  parseSourceConflict v = Some c -> parseSourceConflict (conflict_value c) = Some c.
Proof.
  unfold parseSourceConflict at 1, parseCommandError. intros H.
  destruct (is_object v); [|discriminate].
  destruct (as_string (get v "code")) as [code|]; [|discriminate].
  destruct (guard? exactRecord v ["code"] in simple_error code) as [e|] eqn:Es.
  - destruct (exactRecord v ["code"]); [|discriminate].
    destruct e; try discriminate. injection H as ->.
    apply simple_error_conflict in Es as [->|[->| ->]]; reflexivity.
  - clear Es. unfold detailed_error in H. unfold parseSourceConflict, parseCommandError.
    repeat (break_match_in H; try discriminate H); injection H as <-;
      cbn; repeat (reparse_leaf; cbn); try reflexivity.
    erewrite uuid_list_reparse by eassumption.
    match goal with H : sortedUnique _ = true |- _ => by rewrite H end.
Qed.

Lemma stale_conflict_reparse v c :
  parseStaleSourceConflict v = Some c -> parseStaleSourceConflict (conflict_value c) = Some c.
Proof.
  unfold parseStaleSourceConflict at 1. intros H.
  assert (Hc : parseSourceConflict v = Some c) by (follow H; done).
  unfold parseStaleSourceConflict. rewrite (conflict_reparse v c Hc).
  rewrite Hc in H. by destruct c.
Qed.

Lemma adjacent_equal_sorted l : sorted_by str_lt l = true -> adjacent_equal l = false.
Proof.
  induction l as [|x [|y r] IH]; intros H; [done..|]. cbn in *.
  apply andb_true_iff in H as [H1 H2]. rewrite orb_false_iff. split; [|by apply IH].
  apply String.eqb_neq. intros ->. by rewrite str_lt_irrefl in H1.
Qed.

Lemma adjacent_equal_strict l :
  Sorted (le_rel (key_le staleConflictKey)) l -> adjacent_equal (staleConflictKey <$> l) = false ->
  sorted_by str_lt (staleConflictKey <$> l) = true.
Proof.
  induction 1 as [|x r Hr IH Hd]; [done|]. destruct Hd as [|y r Hxy]; [done|]. cbn.
  rewrite orb_false_iff, andb_true_iff, String.eqb_neq. intros [Hne Ha].
  split; [by apply str_lt_le | by apply IH].
Qed.

(** Sorting throws exactly on two conflicts with the same room and code. *)
Lemma sort_conflicts_ret conflicts sorted :
  sortPmsOperatingCalendarStaleSourceConflicts conflicts = Ret sorted <->
  NoDup (staleConflictKey <$> conflicts) /\ sorted = stable_sort conflict_le conflicts.
Proof.
  unfold sortPmsOperatingCalendarStaleSourceConflicts.
  change conflict_le with (key_le staleConflictKey).
  assert (Hs : Sorted (le_rel (key_le staleConflictKey)) (stable_sort (key_le staleConflictKey) conflicts)).
  { apply stable_sort_sorted. intros a b. apply str_le_total. }
  destruct (adjacent_equal _) eqn:E.
  - split; [discriminate|]. intros [Hn _]. exfalso.
    by rewrite (adjacent_equal_sorted _ (stable_sort_key_sorted staleConflictKey _ Hn)) in E.
  - pose proof (adjacent_equal_strict _ Hs E) as Hst. split.
    + intros [= <-]. split; [|done].
      rewrite <- (fmap_Permutation staleConflictKey _ _ (stable_sort_perm (key_le staleConflictKey) conflicts)).
      by apply sorted_by_NoDup.
    + intros [_ ->]. done.
Qed.

Lemma sort_conflicts_id conflicts sorted :
  sortPmsOperatingCalendarStaleSourceConflicts conflicts = Ret sorted ->
  sortPmsOperatingCalendarStaleSourceConflicts sorted = Ret sorted.
Proof.
  rewrite !sort_conflicts_ret. change conflict_le with (key_le staleConflictKey).
  intros [Hn ->]. split.
  - by rewrite (fmap_Permutation staleConflictKey _ _ (stable_sort_perm _ conflicts)).
  - symmetry. apply stable_sort_key_id. by apply stable_sort_key_sorted.
Qed.

#[global] Arguments parseStaleSourceConflict : simpl never.
#[global] Arguments sortPmsOperatingCalendarStaleSourceConflicts : simpl never.
#[global] Arguments configuration_value : simpl never.
#[global] Arguments conflict_value : simpl never.

(** ** Properties *)

(** An accepted command reads back as itself, and its limits are in strict
    order of room type whatever order they were submitted in. *)
Theorem command_roundtrip v c :
  parseUpsertPmsOperatingCalendarCommand v = Some c ->
  parseUpsertPmsOperatingCalendarCommand (command_value c) = Some c /\
  sortedUnique (li_roomTypeId <$> pr_roomTypeLimits (pp_request (uc_proposal c))) = true /\
  instant_of (ic_expiresAt (uc_impactConfirmation c)) =
    instant_of (ic_issuedAt (uc_impactConfirmation c)) + 900000.
Proof.
  intros H. split; [by eapply command_reparse|].
  apply command_proposal in H as [Hu _]. unfold parsePmsOperatingCalendarUpsertRequest in Hu.
  destruct (exactRecord _ _); [|discriminate].
  destruct (parsePmsOperatingCalendarProposalRequest _) eqn:Er; [|discriminate].
  destruct (parsePmsOperatingCalendarImpactConfirmation _) eqn:Ec; [|discriminate].
  injection Hu as <- <-. split; [exact (request_limits_sorted _ _ Er)|].
  unfold parsePmsOperatingCalendarImpactConfirmation in Ec. follow Ec. cbn.
  match goal with H : (_ =? _) = true |- _ => apply Z.eqb_eq in H end.
  unfold IMPACT_CONFIRMATION_TTL_SECONDS in *. lia.
Qed.

(** C40: an accepted configuration snapshot is about one property, names its own
    revision in its source, and binds each room type once within its capacity;
    reading the snapshot back gives the same snapshot. *)
Theorem configuration_snapshot_sound reg v c :
  parsePmsOperatingCalendarConfigurationSnapshot reg v = Some c ->
  snapshot_ok c /\
  parsePmsOperatingCalendarConfigurationSnapshot reg (configuration_value c) = Some c.
Proof. intros H. split; [by eapply snapshot_sound | by eapply configuration_reparse]. Qed.

(** The source revision created for a calendar parses back, and gives the
    revision number it was created from. *)
Theorem source_revision_roundtrip propertyId n s :
  createPmsOperatingCalendarSourceRevision propertyId n = Ret s ->
  parsePmsOperatingCalendarSourceRevision (source_value s) = Some s /\
  calendarRevision (sr_revision s) = Some n /\ sr_entityId s = to_lower propertyId /\
  1 <= n <= MAX_REVISION.
Proof.
  unfold createPmsOperatingCalendarSourceRevision.
  destruct (as_uuid _) as [id|] eqn:Eid; [|discriminate].
  unfold serializePmsOperatingCalendarSourceRevision.
  destruct (as_integer _ _ _) as [k|] eqn:Ek; cbn [exn_bind]; [|discriminate].
  apply as_integer_Some in Ek as ([= <-] & _ & Hn). intros [= <-]. cbn [sr_revision sr_entityId].
  assert (Hr : calendarRevision (revision_text "calendar:" n) = Some n)
    by by apply prefixed_revision_print.
  split_and!; auto; [| |lia..].
  - unfold parsePmsOperatingCalendarSourceRevision. reparse. by rewrite Hr.
  - unfold as_uuid in Eid. destruct (uuid_string propertyId); congruence.
Qed.

(** Stale conflicts have one canonical order: permuting the reported
    conflicts does not change the sorted list, and a repeated conflict throws
    whatever the order. *)
Theorem stale_conflicts_canonical conflicts conflicts' :
  conflicts ≡ₚ conflicts' ->
  sortPmsOperatingCalendarStaleSourceConflicts conflicts =
  sortPmsOperatingCalendarStaleSourceConflicts conflicts'.
Proof.
  intros Hp.
  destruct (sortPmsOperatingCalendarStaleSourceConflicts conflicts) as [l|e] eqn:E;
    destruct (sortPmsOperatingCalendarStaleSourceConflicts conflicts') as [l'|e'] eqn:E'.
  - apply sort_conflicts_ret in E as [Hn ->], E' as [_ ->]. f_equal.
    by apply (stable_sort_key_perm staleConflictKey).
  - exfalso. apply sort_conflicts_ret in E as [Hn _].
    assert (sortPmsOperatingCalendarStaleSourceConflicts conflicts' =
            Ret (stable_sort conflict_le conflicts')) as Hr; [|congruence].
    apply sort_conflicts_ret. split; [by rewrite <- Hp | done].
  - exfalso. apply sort_conflicts_ret in E' as [Hn _].
    assert (sortPmsOperatingCalendarStaleSourceConflicts conflicts =
            Ret (stable_sort conflict_le conflicts)) as Hr; [|congruence].
    apply sort_conflicts_ret. split; [by rewrite Hp | done].
  - unfold sortPmsOperatingCalendarStaleSourceConflicts in *.
    destruct (adjacent_equal _); destruct (adjacent_equal _); congruence.
Qed.

(** A current read is read back unchanged; it is current exactly when it
    carries no conflict, and a stale read's conflicts are sorted and distinct. *)
Theorem current_read_roundtrip reg v r :
  parsePmsOperatingCalendarCurrentReadResult reg v = Some r ->
  parsePmsOperatingCalendarCurrentReadResult reg (read_value r) = Some r /\
  match r with
  | ReadCurrent _ => True
  | ReadStale _ conflicts =>
      conflicts <> [] /\ sorted_by str_lt (staleConflictKey <$> conflicts) = true
  end.
Proof.
  unfold parsePmsOperatingCalendarCurrentReadResult at 1. intros H.
  destruct (exactRecord v _); [|discriminate].
  destruct (parsePmsOperatingCalendarConfigurationSnapshot reg _) as [c|] eqn:Ec; [|discriminate].
  destruct (as_array _) as [raws|]; [|discriminate].
  destruct (traverse _ raws) as [parsed|] eqn:Et; [|discriminate].
  pose proof (configuration_reparse _ _ _ Ec) as Hc.
  destruct (_ && _).
  - injection H as <-. split; [|done].
    unfold parsePmsOperatingCalendarCurrentReadResult. reparse. by rewrite Hc.
  - destruct (_ || _) eqn:Eo; [discriminate|]. apply orb_false_iff in Eo as [_ El].
    destruct (sortPmsOperatingCalendarStaleSourceConflicts parsed) as [can|] eqn:Es; [|discriminate].
    destruct (same_json _ _); [|discriminate]. injection H as <-.
    pose proof (sort_conflicts_id _ _ Es) as Hid.
    apply sort_conflicts_ret in Es as [Hn ->].
    pose proof (traverse_reparse_sorted _ _ conflict_le _ _ stale_conflict_reparse Et) as Hsort.
    assert (Hl : Nat.eqb (length (stable_sort conflict_le parsed)) 0 = false)
      by by rewrite stable_sort_length.
    split; [|split].
    + unfold parsePmsOperatingCalendarCurrentReadResult. reparse.
      rewrite Hc, Hsort. cbn [andb]. rewrite Hl. cbn [negb orb].
      change (is_str (VString "stale") "current") with false.
      change (is_str (VString "stale") "stale") with true. cbn [andb negb orb].
      by rewrite Hid, same_json_refl.
    + intros E. by rewrite E in Hl.
    + by apply stable_sort_key_sorted.
Qed.

(** Whether a saved calendar is still current depends on the property's time
    zone only: on valid owner evidence there is no conflict exactly when the
    time zone is the accepted one, at every profile revision; a changed time
    zone is reported with the revision that carries it. *)
Theorem time_zone_conflict_spec reg result evidence accepted :
  exactRecord result ["status"; "evidence"] = true ->
  get result "status" = VString "available" ->
  parsePmsOperatingCalendarPropertyProfileEvidence reg (get result "evidence") = Some evidence ->
  exists current,
    profileRevision (profile_source_value (ev_source evidence)) = Some current /\
    resolvePmsOperatingCalendarTimeZoneConflict reg result accepted =
      Ret (if bool_decide (ev_timeZone evidence = accepted) then None
           else Some (PropertyProfileRevisionConflict current)).
Proof.
  intros Hx Hs He. unfold resolvePmsOperatingCalendarTimeZoneConflict, parseProfileEvidenceResult.
  rewrite Hs, Hx, He. cbn [is_str exn_bind negb orb].
  change (is_str (VString "available") "available") with true. cbn [negb exn_bind].
  assert (exists n, profileRevision (profile_source_value (ev_source evidence)) = Some n) as [n Hn].
  { unfold parsePmsOperatingCalendarPropertyProfileEvidence in He.
    destruct (exactRecord (get _ _) _); [|discriminate].
    destruct (parsePropertyProfileSource _) as [s|] eqn:Ep; [|discriminate].
    destruct (parsePmsCanonicalIanaTimeZone _ _); [|discriminate]. injection He as <-. cbn.
    by eapply profile_source_revision. }
  exists n. split; [done|]. rewrite Hn. cbn [exn_bind].
  destruct (bool_decide (ev_timeZone evidence = accepted)) eqn:Ez.
  - apply bool_decide_eq_true in Ez as ->. by rewrite bool_decide_eq_true_2.
  - apply bool_decide_eq_false in Ez. rewrite bool_decide_eq_false_2; [done | congruence].
Qed.
