(* ===== verification/InventoryPlanner.v ===== *)
(** * The inventory planner (domain-pms/src/inventoryMaterializationPlanner.ts)

    Given an accepted operating calendar, a horizon and the stored inventory
    days, [planPmsInventoryMaterialization] computes the inventory day of every
    bound room and date, keeping what other owners wrote (manual and channel
    limits, bookings, blocks, linked stop-sell).  [planPmsInventoryRoomAdditionTail]
    computes the days a newly added room needs after the horizon.

    JavaScript maps keyed by ["room|date"] are [gmap string]; timestamps are day
    numbers. *)

From S2P Require Import Prelude JsValue CalendarDates OperatingSchedule OperatingCalendar.

Definition PMS_INVENTORY_HORIZON_MAX_DAYS : Z := 366.
Definition PMS_CALENDAR_AUTO_OPEN_MAX_HORIZON_DAYS : Z := 762.

(** ** Inventory days *)

Inductive operating_status := StatusOpen | StatusClosed.

#[export] Instance operating_status_eq_dec : EqDecision operating_status.
Proof. solve_decision. Defined.

Record PmsInventorySourceRevisionVector := {
  rv_generated : Z; rv_channel : Z; rv_manual : Z; rv_block : Z; rv_booking : Z;
}.

Record PmsInventoryDaySnapshot := {
  d_propertyId : string;
  d_roomTypeId : string;
  d_stayDate : string;
  d_calendarRevision : Z;
  d_inventoryRevision : Z;
  d_sourceRevisions : PmsInventorySourceRevisionVector;
  d_operatingStatus : operating_status;
  d_physicalCapacityCount : Z;
  d_generatedSellableLimitCount : Z;
  d_channelSellableLimitCount : option Z;
  d_manualSellableLimitCount : option Z;
  d_effectiveSellableLimitCount : Z;
  d_assignedCount : Z;
  d_blockedCount : Z;
  d_linkedStopSell : bool;
  d_linkedSourceRevision : Z;
  d_availableCount : Z;
}.

Definition revision (v : jsval) (allowZero : bool) : option Z :=
  as_integer v (if allowZero then 0 else 1) MAX_REVISION.

Definition count (v : jsval) (minimum maximum : Z) : option Z := as_integer v minimum maximum.

Definition DAY_KEYS : list string :=
  ["propertyId"; "roomTypeId"; "stayDate"; "calendarRevision"; "inventoryRevision";
   "sourceRevisions"; "operatingStatus"; "physicalCapacityCount"; "generatedSellableLimitCount";
   "channelSellableLimitCount"; "manualSellableLimitCount"; "effectiveSellableLimitCount";
   "assignedCount"; "blockedCount"; "linkedStopSell"; "linkedSourceRevision"; "availableCount"].

Definition SOURCE_REVISION_KEYS : list string :=
  ["generated"; "channel"; "manual"; "block"; "booking"].

Definition parse_source_revisions (v : jsval) : option PmsInventorySourceRevisionVector :=
  guard? dataRecord v SOURCE_REVISION_KEYS in
  let? generated := revision (get v "generated") true in
  let? channel := revision (get v "channel") true in
  let? manual := revision (get v "manual") true in
  let? block := revision (get v "block") true in
  let? booking := revision (get v "booking") true in
  Some {| rv_generated := generated; rv_channel := channel; rv_manual := manual;
          rv_block := block; rv_booking := booking |}.

Definition parse_status (v : jsval) : option operating_status :=
  if is_str v "open" then Some StatusOpen
  else if is_str v "closed" then Some StatusClosed else None.

(** [isoDateTimestamp(v) !== null], as the text *)
Definition as_date_text (v : jsval) : option string :=
  match isoDateTimestamp v with Some _ => as_string v | None => None end.

Definition as_limit (v : jsval) : option Z := count v 0 500.

Definition parseCurrentDay (v : jsval) : option PmsInventoryDaySnapshot :=
  guard? dataRecord v DAY_KEYS in
  let? sourceRevisions := parse_source_revisions (get v "sourceRevisions") in
  let? propertyId := as_string (get v "propertyId") in
  let? roomTypeId := as_string (get v "roomTypeId") in
  let? stayDate := as_date_text (get v "stayDate") in
  let? calendarRevision := revision (get v "calendarRevision") false in
  let? inventoryRevision := revision (get v "inventoryRevision") false in
  let? operatingStatus := parse_status (get v "operatingStatus") in
  let? physical := count (get v "physicalCapacityCount") 1 500 in
  let? generated := as_limit (get v "generatedSellableLimitCount") in
  let? channel := as_nullable as_limit (get v "channelSellableLimitCount") in
  let? manual := as_nullable as_limit (get v "manualSellableLimitCount") in
  let? effective := as_limit (get v "effectiveSellableLimitCount") in
  let? assigned := as_limit (get v "assignedCount") in
  let? blocked := as_limit (get v "blockedCount") in
  let? linkedStopSell := as_bool (get v "linkedStopSell") in
  let? linkedSourceRevision := revision (get v "linkedSourceRevision") true in
  let? available := as_limit (get v "availableCount") in
  Some {| d_propertyId := propertyId; d_roomTypeId := roomTypeId; d_stayDate := stayDate;
          d_calendarRevision := calendarRevision; d_inventoryRevision := inventoryRevision;
          d_sourceRevisions := sourceRevisions; d_operatingStatus := operatingStatus;
          d_physicalCapacityCount := physical; d_generatedSellableLimitCount := generated;
          d_channelSellableLimitCount := channel; d_manualSellableLimitCount := manual;
          d_effectiveSellableLimitCount := effective; d_assignedCount := assigned;
          d_blockedCount := blocked; d_linkedStopSell := linkedStopSell;
          d_linkedSourceRevision := linkedSourceRevision; d_availableCount := available |}.

Definition status_text (s : operating_status) : string :=
  match s with StatusOpen => "open" | StatusClosed => "closed" end.

Definition revisions_value (r : PmsInventorySourceRevisionVector) : jsval :=
  obj [("generated", VInt (rv_generated r)); ("channel", VInt (rv_channel r));
       ("manual", VInt (rv_manual r)); ("block", VInt (rv_block r));
       ("booking", VInt (rv_booking r))].

Definition day_value (d : PmsInventoryDaySnapshot) : jsval :=
  obj [("propertyId", VString (d_propertyId d)); ("roomTypeId", VString (d_roomTypeId d));
       ("stayDate", VString (d_stayDate d)); ("calendarRevision", VInt (d_calendarRevision d));
       ("inventoryRevision", VInt (d_inventoryRevision d));
       ("sourceRevisions", revisions_value (d_sourceRevisions d));
       ("operatingStatus", VString (status_text (d_operatingStatus d)));
       ("physicalCapacityCount", VInt (d_physicalCapacityCount d));
       ("generatedSellableLimitCount", VInt (d_generatedSellableLimitCount d));
       ("channelSellableLimitCount", of_nullable VInt (d_channelSellableLimitCount d));
       ("manualSellableLimitCount", of_nullable VInt (d_manualSellableLimitCount d));
       ("effectiveSellableLimitCount", VInt (d_effectiveSellableLimitCount d));
       ("assignedCount", VInt (d_assignedCount d)); ("blockedCount", VInt (d_blockedCount d));
       ("linkedStopSell", VBool (d_linkedStopSell d));
       ("linkedSourceRevision", VInt (d_linkedSourceRevision d));
       ("availableCount", VInt (d_availableCount d))].

(** ** The day invariant *)

Definition orElse {A} (a b : option A) : option A := match a with Some _ => a | None => b end.

(** [status === "closed" || linkedStopSell ? 0 : Math.max(0, limit - assigned - blocked)] *)
Definition available_of (status : operating_status) (linked : bool) (limit assigned blocked : Z) : Z :=
  match status with
  | StatusClosed => 0
  | StatusOpen => if linked then 0 else Z.max 0 (limit - assigned - blocked)
  end.

Definition opt_le (o : option Z) (bound : Z) : bool :=
  match o with Some n => n <=? bound | None => true end.

Definition validCurrentInvariant (day : PmsInventoryDaySnapshot) (capacity : Z) : bool :=
  let retainedLimit := orElse (d_manualSellableLimitCount day) (d_channelSellableLimitCount day) in
  let effectiveLimit := default (d_generatedSellableLimitCount day) retainedLimit in
  let available := available_of (d_operatingStatus day) (d_linkedStopSell day) effectiveLimit
                     (d_assignedCount day) (d_blockedCount day) in
  (d_calendarRevision day =? rv_generated (d_sourceRevisions day)) &&
  (d_physicalCapacityCount day =? capacity) &&
  (d_generatedSellableLimitCount day <=? d_physicalCapacityCount day) &&
  opt_le (d_channelSellableLimitCount day) (d_physicalCapacityCount day) &&
  opt_le (d_manualSellableLimitCount day) (d_physicalCapacityCount day) &&
  (d_assignedCount day + d_blockedCount day <=? d_physicalCapacityCount day) &&
  (d_effectiveSellableLimitCount day =? effectiveLimit) &&
  (d_availableCount day =? available).

Definition isPmsInventoryDayConsistent (v : jsval) (binding : PmsOperatingCalendarRoomBinding)
    : bool :=
  match parseCurrentDay v with
  | Some day =>
      String.eqb (d_roomTypeId day) (rb_roomTypeId binding) &&
      validCurrentInvariant day (rb_physicalCapacityCount binding)
  | None => false
  end.

(** ** Planning one day *)

Inductive PmsInventoryMaterializationPlanError :=
| InvalidInput
| ConfigurationScopeMismatch
| HorizonInvalid
| CurrentDayInvalid (index : Z)
| CurrentDayScopeInvalid (roomTypeId stayDate : string)
| CurrentDayDuplicate (roomTypeId stayDate : string)
| InventoryInvariantViolation (roomTypeId stayDate : string)
| GeneratedRevisionConflict (roomTypeId stayDate : string)
| CurrentDayCoverageGap (stayDate : string).

Definition operatingStatusFor (schedule : PmsOperatingSchedule) (stayDate : string)
    : operating_status :=
  if schedule_open schedule stayDate then StatusOpen else StatusClosed.

Definition planExistingDay (configuration : PmsOperatingCalendarConfigurationSnapshot)
    (binding : PmsOperatingCalendarRoomBinding) (stayDate : string)
    (current : PmsInventoryDaySnapshot) (generatedSellableLimitCount : Z)
    : result PmsInventoryMaterializationPlanError (PmsInventoryDaySnapshot * bool) :=
  let room := d_roomTypeId current in
  let date := d_stayDate current in
  let calendar := cs_calendarRevision configuration in
  let capacity := rb_physicalCapacityCount binding in
  if calendar <? rv_generated (d_sourceRevisions current)
  then Err (GeneratedRevisionConflict room date)
  else
    let recounted := (d_calendarRevision current <? calendar) &&
                     negb (d_physicalCapacityCount current =? capacity) in
    if negb (validCurrentInvariant current
               (if recounted then d_physicalCapacityCount current else capacity)) ||
       (capacity <? d_assignedCount current + d_blockedCount current)
    then Err (InventoryInvariantViolation room date)
    else
      let operatingStatus := operatingStatusFor (cs_schedule configuration) stayDate in
      let effective := default generatedSellableLimitCount
        (orElse (d_manualSellableLimitCount current) (d_channelSellableLimitCount current)) in
      if (capacity <? effective) || (capacity <? default 0 (d_channelSellableLimitCount current))
      then Err (InventoryInvariantViolation room date)
      else
        let available := available_of operatingStatus (d_linkedStopSell current) effective
                           (d_assignedCount current) (d_blockedCount current) in
        let changed :=
          recounted ||
          negb (d_calendarRevision current =? calendar) ||
          negb (rv_generated (d_sourceRevisions current) =? calendar) ||
          negb (bool_decide (d_operatingStatus current = operatingStatus)) ||
          negb (d_generatedSellableLimitCount current =? generatedSellableLimitCount) ||
          negb (d_effectiveSellableLimitCount current =? effective) ||
          negb (d_availableCount current =? available) in
        if negb changed then Ok (current, false)
        else if d_inventoryRevision current =? MAX_REVISION
        then Err (InventoryInvariantViolation room date)
        else
          let r := d_sourceRevisions current in
          Ok ({| d_propertyId := d_propertyId current; d_roomTypeId := room; d_stayDate := date;
                 d_calendarRevision := calendar;
                 d_inventoryRevision := d_inventoryRevision current + 1;
                 d_sourceRevisions :=
                   {| rv_generated := calendar; rv_channel := rv_channel r;
                      rv_manual := rv_manual r; rv_block := rv_block r;
                      rv_booking := rv_booking r |};
                 d_operatingStatus := operatingStatus;
                 d_physicalCapacityCount := capacity;
                 d_generatedSellableLimitCount := generatedSellableLimitCount;
                 d_channelSellableLimitCount := d_channelSellableLimitCount current;
                 d_manualSellableLimitCount := d_manualSellableLimitCount current;
                 d_effectiveSellableLimitCount := effective;
                 d_assignedCount := d_assignedCount current;
                 d_blockedCount := d_blockedCount current;
                 d_linkedStopSell := d_linkedStopSell current;
                 d_linkedSourceRevision := d_linkedSourceRevision current;
                 d_availableCount := available |}, true).

Definition newDay (configuration : PmsOperatingCalendarConfigurationSnapshot)
    (binding : PmsOperatingCalendarRoomBinding) (stayDate : string)
    (generatedSellableLimitCount : Z) : PmsInventoryDaySnapshot :=
  let operatingStatus := operatingStatusFor (cs_schedule configuration) stayDate in
  {| d_propertyId := cs_propertyId configuration; d_roomTypeId := rb_roomTypeId binding;
     d_stayDate := stayDate; d_calendarRevision := cs_calendarRevision configuration;
     d_inventoryRevision := 1;
     d_sourceRevisions :=
       {| rv_generated := cs_calendarRevision configuration; rv_channel := 0; rv_manual := 0;
          rv_block := 0; rv_booking := 0 |};
     d_operatingStatus := operatingStatus;
     d_physicalCapacityCount := rb_physicalCapacityCount binding;
     d_generatedSellableLimitCount := generatedSellableLimitCount;
     d_channelSellableLimitCount := None; d_manualSellableLimitCount := None;
     d_effectiveSellableLimitCount := generatedSellableLimitCount;
     d_assignedCount := 0; d_blockedCount := 0; d_linkedStopSell := false;
     d_linkedSourceRevision := 0;
     d_availableCount :=
       match operatingStatus with StatusOpen => generatedSellableLimitCount | StatusClosed => 0 end |}.

(** ** Input shapes *)

Definition SOURCE_KEYS : list string := ["ownerDomain"; "entityType"; "entityId"; "revision"].

Definition dense_records (v : jsval) (keys : list string) : bool :=
  match denseArray v with
  | Some elems => forallb (fun e => dataRecord e keys) elems
  | None => false
  end.

Definition safeConfigurationShape (v : jsval) : bool :=
  dataRecord v ["contractVersion"; "propertyId"; "calendarRevision"; "source"; "sourceInputs";
                "schedule"; "defaultMinimumStayNights"; "createdAt"; "updatedAt"] &&
  dataRecord (get v "source") SOURCE_KEYS &&
  dataRecord (get v "sourceInputs") ["propertyProfile"; "propertyTimeZone"; "roomBindings"] &&
  dataRecord (get (get v "sourceInputs") "propertyProfile") SOURCE_KEYS &&
  dense_records (get (get v "sourceInputs") "roomBindings")
    ["roomTypeId"; "sourceRoomFactsRevision"; "sourceRoomUnitsRevision"; "physicalCapacityCount";
     "startingSellableLimitCount"] &&
  dataRecord (get v "schedule") ["mode"; "periods"] &&
  dense_records (get (get v "schedule") "periods") ["startsOn"; "endsOn"].

(** The registry that accepts the configuration's own time zone. *)
Definition accepted_registry (v : jsval) : TimeZoneRegistry := {|
  reg_ownerDomain := "hotel_catalog";
  reg_registryVersion := VString "accepted-operating-calendar.v1";
  reg_isCanonicalIanaTimeZone := fun candidate =>
    Some (is_str (get (get v "sourceInputs") "propertyTimeZone") candidate);
|}.

Definition parseConfiguration (v : jsval) : option PmsOperatingCalendarConfigurationSnapshot :=
  guard? safeConfigurationShape v in
  parsePmsOperatingCalendarConfigurationSnapshot (accepted_registry v) v.

Definition validInputShape (v : jsval) : bool :=
  let optionalKeys := List.filter (fun key => is_object v && has_own v key)
                        ["generatedSellableLimitOverrides"; "previousConfiguration"] in
  dataRecord v (["propertyId"; "configurationSource"; "configuration"; "horizon"; "currentDays"]
                ++ optionalKeys) &&
  dataRecord (get v "configurationSource") SOURCE_KEYS &&
  dataRecord (get v "horizon") ["from"; "through"] &&
  match denseArray (get v "currentDays") with Some _ => true | None => false end &&
  (is_undefined (get v "generatedSellableLimitOverrides") ||
   match denseArray (get v "generatedSellableLimitOverrides") with
   | Some _ => true | None => false end).

(** [sameSource] of two parsed sources; their owner and type are fixed. *)
Definition sameSource (a b : PmsOperatingCalendarSourceRevision) : bool :=
  String.eqb (sr_entityId a) (sr_entityId b) && String.eqb (sr_revision a) (sr_revision b).

(** [sameSource] of a raw source and a parsed one *)
Definition sameRawSource (v : jsval) (b : PmsOperatingCalendarSourceRevision) : bool :=
  is_str (get v "ownerDomain") "pms" && is_str (get v "entityType") "pms_operating_calendar.v1" &&
  is_str (get v "entityId") (sr_entityId b) && is_str (get v "revision") (sr_revision b).

Definition dayKey (roomTypeId stayDate : string) : string := roomTypeId +:+ String "|" stayDate.

Definition horizonDates (horizon : jsval) : option (list string) :=
  guard? dataRecord horizon ["from"; "through"] in
  let? from := isoDateTimestamp (get horizon "from") in
  let? through := isoDateTimestamp (get horizon "through") in
  let dayCount := through - from + 1 in
  if (dayCount <? 1) || (PMS_INVENTORY_HORIZON_MAX_DAYS <? dayCount) then None
  else Some (dates_from from dayCount).

Definition has_string (l : list string) (s : string) : bool := existsb (String.eqb s) l.

Definition find_binding (bindings : list PmsOperatingCalendarRoomBinding) (roomTypeId : string)
    : option PmsOperatingCalendarRoomBinding :=
  List.find (fun b => String.eqb (rb_roomTypeId b) roomTypeId) bindings.

Fixpoint parseGeneratedOverrides (values : list jsval)
    (bindings : list PmsOperatingCalendarRoomBinding) (dates : list string)
    (parsed : gmap string Z) : option (gmap string Z) :=
  match values with
  | [] => Some parsed
  | v :: rest =>
      guard? dataRecord v ["roomTypeId"; "stayDate"; "count"] in
      let? roomTypeId := as_string (get v "roomTypeId") in
      let? binding := find_binding bindings roomTypeId in
      let? stayDate := as_string (get v "stayDate") in
      guard? has_string dates stayDate in
      let? n := count (get v "count") 0 (rb_physicalCapacityCount binding) in
      let key := dayKey roomTypeId stayDate in
      match parsed !! key with
      | Some _ => None
      | None => parseGeneratedOverrides rest bindings dates (<[key := n]> parsed)
      end
  end.

(** ** The planner *)

Definition day_count (byDate : gmap string Z) (stayDate : string) : Z :=
  default 0 (byDate !! stayDate).

(** The loop over [input.currentDays]. *)
Fixpoint scan_days (configuration : PmsOperatingCalendarConfigurationSnapshot)
    (dates : list string) (index : Z) (raws : list jsval)
    (byKey : gmap string PmsInventoryDaySnapshot) (byDate : gmap string Z)
    : result PmsInventoryMaterializationPlanError
        (gmap string PmsInventoryDaySnapshot * gmap string Z) :=
  match raws with
  | [] => Ok (byKey, byDate)
  | raw :: rest =>
      match parseCurrentDay raw with
      | None => Err (CurrentDayInvalid index)
      | Some current =>
          let room := d_roomTypeId current in
          let date := d_stayDate current in
          if negb (String.eqb (d_propertyId current) (cs_propertyId configuration)) ||
             negb (has_string (rb_roomTypeId <$> si_roomBindings (cs_sourceInputs configuration)) room) ||
             negb (has_string dates date)
          then Err (CurrentDayScopeInvalid room date)
          else
            match byKey !! dayKey room date with
            | Some _ => Err (CurrentDayDuplicate room date)
            | None =>
                scan_days configuration dates (index + 1) rest
                  (<[dayKey room date := current]> byKey)
                  (<[date := day_count byDate date + 1]> byDate)
            end
      end
  end.

(** The coverage check over the dates; returns [missingSuffix]. *)
Fixpoint check_coverage (byDate : gmap string Z) (rooms : Z) (dates : list string)
    (missingSuffix : bool) : result PmsInventoryMaterializationPlanError bool :=
  match dates with
  | [] => Ok missingSuffix
  | stayDate :: rest =>
      let n := day_count byDate stayDate in
      if negb (n =? 0) && negb (n =? rooms) then Err (CurrentDayCoverageGap stayDate)
      else if n =? 0 then check_coverage byDate rooms rest true
      else if missingSuffix then Err (CurrentDayCoverageGap stayDate)
      else check_coverage byDate rooms rest missingSuffix
  end.

(** A day in the plan: was there a stored day, the planned day, did it change. *)
Record planned_day := {
  pl_existing : bool;
  pl_day : PmsInventoryDaySnapshot;
  pl_changed : bool;
}.

Definition plan_one (configuration : PmsOperatingCalendarConfigurationSnapshot)
    (overrides : gmap string Z) (byKey : gmap string PmsInventoryDaySnapshot)
    (binding : PmsOperatingCalendarRoomBinding) (stayDate : string)
    : result PmsInventoryMaterializationPlanError planned_day :=
  let key := dayKey (rb_roomTypeId binding) stayDate in
  let generated := default (rb_startingSellableLimitCount binding) (overrides !! key) in
  match byKey !! key with
  | Some current =>
      do? (day, changed) := planExistingDay configuration binding stayDate current generated in
      Ok {| pl_existing := true; pl_day := day; pl_changed := changed |}
  | None =>
      Ok {| pl_existing := false; pl_day := newDay configuration binding stayDate generated;
            pl_changed := true |}
  end.

(** [for (const binding of bindings) for (const stayDate of dates) ...] *)
Definition room_dates (bindings : list PmsOperatingCalendarRoomBinding) (dates : list string)
    : list (PmsOperatingCalendarRoomBinding * string) :=
  b ← bindings; (fun d => (b, d)) <$> dates.

Fixpoint plan_loop (plan : PmsOperatingCalendarRoomBinding -> string ->
                           result PmsInventoryMaterializationPlanError planned_day)
    (pairs : list (PmsOperatingCalendarRoomBinding * string))
    : result PmsInventoryMaterializationPlanError (list planned_day) :=
  match pairs with
  | [] => Ok []
  | (binding, stayDate) :: rest =>
      do? p := plan binding stayDate in
      do? ps := plan_loop plan rest in
      Ok (p :: ps)
  end.

(** [compareDays(left, right) <= 0] *)
Definition day_le (a b : PmsInventoryDaySnapshot) : bool :=
  str_lt (d_roomTypeId a) (d_roomTypeId b) ||
  (String.eqb (d_roomTypeId a) (d_roomTypeId b) && str_le (d_stayDate a) (d_stayDate b)).

Inductive plan_outcome := Applied | Extended | Rematerialized | Unchanged.

Record PmsInventoryCoverageEvidence := {
  cov_configurationSource : PmsOperatingCalendarSourceRevision;
  cov_materializedRevision : Z;
  cov_coverageFrom : string;
  cov_coverageThrough : string;
  cov_roomTypeIds : list string;
  cov_expectedDayCount : Z;
  cov_materializedDayCount : Z;
  cov_gaps : list (string * string);
}.

Record PmsInventoryMaterializationPlan := {
  pm_outcome : plan_outcome;
  pm_days : list PmsInventoryDaySnapshot;
  pm_changedDays : list PmsInventoryDaySnapshot;
  pm_coverage : PmsInventoryCoverageEvidence;
}.

(** Everything the planner has parsed before it looks at the stored days. *)
Record planner_input := {
  pi_configuration : PmsOperatingCalendarConfigurationSnapshot;
  pi_previous : option PmsOperatingCalendarConfigurationSnapshot;
  pi_from : string;
  pi_through : string;
  pi_dates : list string;
  pi_overrides : gmap string Z;
  pi_currentDays : list jsval;
}.

Definition text_of (v : jsval) : string := default EmptyString (as_string v).

Definition is_some {A} (o : option A) : bool := match o with Some _ => true | None => false end.

Definition parse_planner_input (input : jsval)
    : result PmsInventoryMaterializationPlanError planner_input :=
  if negb (validInputShape input) then Err InvalidInput
  else
    match parseConfiguration (get input "configuration"),
          parsePmsOperatingCalendarSourceRevision (get input "configurationSource") with
    | Some configuration, Some requestedSource =>
        if negb (is_str (get input "propertyId") (cs_propertyId configuration)) ||
           negb (sameSource requestedSource (cs_source configuration)) ||
           negb (sameRawSource (get input "configurationSource") (cs_source configuration))
        then Err ConfigurationScopeMismatch
        else
          let given := negb (is_undefined (get input "previousConfiguration")) in
          let previous := if given then parseConfiguration (get input "previousConfiguration")
                          else None in
          if given &&
             match previous with
             | None => true
             | Some p => negb (String.eqb (cs_propertyId p) (cs_propertyId configuration)) ||
                         (cs_calendarRevision configuration <=? cs_calendarRevision p)
             end
          then Err ConfigurationScopeMismatch
          else
            match horizonDates (get input "horizon") with
            | None => Err HorizonInvalid
            | Some dates =>
                match parseGeneratedOverrides
                        (default [] (denseArray (get input "generatedSellableLimitOverrides")))
                        (si_roomBindings (cs_sourceInputs configuration)) dates ∅ with
                | None => Err InvalidInput
                | Some overrides =>
                    Ok {| pi_configuration := configuration; pi_previous := previous;
                          pi_from := text_of (get (get input "horizon") "from");
                          pi_through := text_of (get (get input "horizon") "through");
                          pi_dates := dates; pi_overrides := overrides;
                          pi_currentDays := default [] (denseArray (get input "currentDays")) |}
                end
            end
    | _, _ => Err ConfigurationScopeMismatch
    end.

Definition new_empty_room_count (bindings : list PmsOperatingCalendarRoomBinding)
    (previous : option PmsOperatingCalendarConfigurationSnapshot) (roomsWithDays : list string) : Z :=
  match previous with
  | None => 0
  | Some p =>
      let previousRooms := rb_roomTypeId <$> si_roomBindings (cs_sourceInputs p) in
      Z.of_nat (length (List.filter (fun b =>
        negb (has_string previousRooms (rb_roomTypeId b)) &&
        negb (has_string roomsWithDays (rb_roomTypeId b))) bindings))
  end.

(** The rooms that have stored days, from the raw days. *)
Definition rooms_with_days (raws : list jsval) : list string :=
  (fun d => text_of (get d "roomTypeId")) <$> raws.

Definition plan_parsed (i : planner_input)
    : result PmsInventoryMaterializationPlanError PmsInventoryMaterializationPlan :=
  let configuration := pi_configuration i in
  let bindings := si_roomBindings (cs_sourceInputs configuration) in
  let dates := pi_dates i in
  do? (byKey, byDate) := scan_days configuration dates 0 (pi_currentDays i) ∅ ∅ in
  let newEmptyRoomCount :=
    new_empty_room_count bindings (pi_previous i) (rooms_with_days (pi_currentDays i)) in
  let historicalRoomCount := Z.of_nat (length bindings) - newEmptyRoomCount in
  do? missingSuffix := check_coverage byDate historicalRoomCount dates false in
  do? planned := plan_loop (plan_one configuration (pi_overrides i) byKey)
                   (room_dates bindings dates) in
  let days := stable_sort day_le (pl_day <$> planned) in
  let changedDays := stable_sort day_le
    (pl_day <$> List.filter (fun p => negb (pl_existing p) || pl_changed p) planned) in
  let changedExisting := existsb (fun p => pl_existing p && pl_changed p) planned in
  let outcome :=
    if Nat.eqb (length (pi_currentDays i)) 0 then Applied
    else if changedExisting || (0 <? newEmptyRoomCount) then Rematerialized
    else if missingSuffix then Extended else Unchanged in
  Ok {| pm_outcome := outcome; pm_days := days; pm_changedDays := changedDays;
        pm_coverage :=
          {| cov_configurationSource := cs_source configuration;
             cov_materializedRevision := cs_calendarRevision configuration;
             cov_coverageFrom := pi_from i; cov_coverageThrough := pi_through i;
             cov_roomTypeIds := stable_sort str_le (rb_roomTypeId <$> bindings);
             cov_expectedDayCount := Z.of_nat (length days);
             cov_materializedDayCount := Z.of_nat (length days); cov_gaps := [] |} |}.

Definition planPmsInventoryMaterialization (input : jsval)
    : result PmsInventoryMaterializationPlanError PmsInventoryMaterializationPlan :=
  do? i := parse_planner_input input in plan_parsed i.

(** ** The tail of an added room *)

(** The loop over [input.currentDays] of the tail planner. *)
Fixpoint scan_tail (configuration : PmsOperatingCalendarConfigurationSnapshot)
    (boundRooms previousRooms dates : list string) (index : Z) (raws : list jsval)
    (keys : gset string) (byDate : gmap string Z)
    : result PmsInventoryMaterializationPlanError (gmap string Z) :=
  match raws with
  | [] => Ok byDate
  | raw :: rest =>
      match parseCurrentDay raw with
      | None => Err (CurrentDayInvalid index)
      | Some current =>
          let room := d_roomTypeId current in
          let date := d_stayDate current in
          if negb (String.eqb (d_propertyId current) (cs_propertyId configuration)) ||
             negb (has_string boundRooms room) || negb (has_string dates date)
          then Err (CurrentDayScopeInvalid room date)
          else if bool_decide (dayKey room date ∈ keys) then Err (CurrentDayDuplicate room date)
          else if negb (has_string previousRooms room) then Err (CurrentDayCoverageGap date)
          else if cs_calendarRevision configuration <? rv_generated (d_sourceRevisions current)
          then Err (GeneratedRevisionConflict room date)
          else
            scan_tail configuration boundRooms previousRooms dates (index + 1) rest
              ({[dayKey room date]} ∪ keys) (<[date := day_count byDate date + 1]> byDate)
      end
  end.

(** [countByDate.get(stayDate) !== retainedRoomCount] on some date *)
Fixpoint check_tail (byDate : gmap string Z) (rooms : Z) (dates : list string)
    : result PmsInventoryMaterializationPlanError unit :=
  match dates with
  | [] => Ok tt
  | stayDate :: rest =>
      if bool_decide (byDate !! stayDate = Some rooms) then check_tail byDate rooms rest
      else Err (CurrentDayCoverageGap stayDate)
  end.

Definition planPmsInventoryRoomAdditionTail (input : jsval)
    : result PmsInventoryMaterializationPlanError (list PmsInventoryDaySnapshot) :=
  match (guard? dataRecord input ["configuration"; "previousConfiguration"; "horizon";
                                  "tailThrough"; "currentDays"] in
         denseArray (get input "currentDays")) with
  | None => Err InvalidInput
  | Some currentDays =>
      match parseConfiguration (get input "configuration"),
            parseConfiguration (get input "previousConfiguration") with
      | Some configuration, Some previous =>
          if negb (String.eqb (cs_propertyId previous) (cs_propertyId configuration)) ||
             (cs_calendarRevision configuration <=? cs_calendarRevision previous)
          then Err ConfigurationScopeMismatch
          else
            let horizon := get input "horizon" in
            match (guard? dataRecord horizon ["from"; "through"] in
                   isoDateTimestamp (get horizon "from")),
                  isoDateTimestamp (get horizon "through"),
                  isoDateTimestamp (get input "tailThrough") with
            | Some from, Some anchor, Some through =>
                if (anchor <? from) || (through <=? anchor) ||
                   (PMS_CALENDAR_AUTO_OPEN_MAX_HORIZON_DAYS <? through - from + 1)
                then Err HorizonInvalid
                else
                  let dates := dates_from anchor (through - anchor + 1) in
                  let previousRooms := rb_roomTypeId <$> si_roomBindings (cs_sourceInputs previous) in
                  let bindings := si_roomBindings (cs_sourceInputs configuration) in
                  let isRetained := fun b => has_string previousRooms (rb_roomTypeId b) in
                  let retained := List.filter isRetained bindings in
                  if Nat.eqb (length retained) 0 then Err InvalidInput
                  else
                    do? byDate := scan_tail configuration (rb_roomTypeId <$> bindings)
                                    previousRooms dates 0 currentDays ∅ ∅ in
                    do? _ := check_tail byDate (Z.of_nat (length retained)) dates in
                    Ok (stable_sort day_le
                      ((fun p => newDay configuration (fst p) (snd p)
                                   (rb_startingSellableLimitCount (fst p))) <$>
                       room_dates (List.filter (fun b => negb (isRetained b)) bindings)
                         (tail dates)))
            | _, _, _ => Err HorizonInvalid
            end
      | _, _ => Err ConfigurationScopeMismatch
      end
  end.

(** ** Days read back *)

Record day_wf (d : PmsInventoryDaySnapshot) : Prop := {
  wf_date : is_some (isoDateTimestamp (VString (d_stayDate d))) = true;
  wf_calendar : 1 <= d_calendarRevision d <= MAX_REVISION;
  wf_inventory : 1 <= d_inventoryRevision d <= MAX_REVISION;
  wf_generated : 0 <= rv_generated (d_sourceRevisions d) <= MAX_REVISION;
  wf_channel : 0 <= rv_channel (d_sourceRevisions d) <= MAX_REVISION;
  wf_manual : 0 <= rv_manual (d_sourceRevisions d) <= MAX_REVISION;
  wf_block : 0 <= rv_block (d_sourceRevisions d) <= MAX_REVISION;
  wf_booking : 0 <= rv_booking (d_sourceRevisions d) <= MAX_REVISION;
  wf_physical : 1 <= d_physicalCapacityCount d <= 500;
  wf_generatedLimit : 0 <= d_generatedSellableLimitCount d <= 500;
  wf_channelLimit : forall n, d_channelSellableLimitCount d = Some n -> 0 <= n <= 500;
  wf_manualLimit : forall n, d_manualSellableLimitCount d = Some n -> 0 <= n <= 500;
  wf_effective : 0 <= d_effectiveSellableLimitCount d <= 500;
  wf_assigned : 0 <= d_assignedCount d <= 500;
  wf_blocked : 0 <= d_blockedCount d <= 500;
  wf_linked : 0 <= d_linkedSourceRevision d <= MAX_REVISION;
  wf_available : 0 <= d_availableCount d <= 500;
}.

Lemma as_limit_Some v n : as_limit v = Some n -> 0 <= n <= 500.
Proof. by intros (_ & _ & ?)%as_integer_Some. Qed.

Lemma as_limit_VInt n : 0 <= n <= 500 -> as_limit (VInt n) = Some n.
Proof. intros. apply as_integer_VInt; lia. Qed.

Lemma revision_Some v z n : revision v z = Some n -> (if z then 0 else 1) <= n <= MAX_REVISION.
Proof. by intros (_ & _ & ?)%as_integer_Some. Qed.

Lemma revision_VInt n (z : bool) : (if z then 0 else 1) <= n <= MAX_REVISION -> revision (VInt n) z = Some n.
Proof. unfold MAX_REVISION. intros H. destruct z; apply as_integer_VInt; unfold MAX_REVISION; lia. Qed.

Lemma nullable_limit_Some v o n : as_nullable as_limit v = Some o -> o = Some n -> 0 <= n <= 500.
Proof.
  unfold as_nullable. destruct (is_null v); [congruence|].
  destruct (as_limit v) eqn:E; cbn; [|discriminate]. intros [= <-] [= <-]. by eapply as_limit_Some.
Qed.

Lemma nullable_limit_value o :
  (forall n, o = Some n -> 0 <= n <= 500) -> as_nullable as_limit (of_nullable VInt o) = Some o.
Proof.
  destruct o as [n|]; [|reflexivity]. intros H. unfold as_nullable. cbn [of_nullable is_null].
  by rewrite as_limit_VInt by auto.
Qed.

Lemma as_date_text_Some v s :
  as_date_text v = Some s -> v = VString s /\ is_some (isoDateTimestamp (VString s)) = true.
Proof.
  unfold as_date_text. destruct (isoDateTimestamp v) eqn:E; [|discriminate].
  intros H. apply as_string_reparse in H as ->. by rewrite E.
Qed.

#[global] Arguments as_limit : simpl never.
#[global] Arguments revision : simpl never.
#[global] Arguments count : simpl never.
#[global] Arguments as_date_text : simpl never.
#[global] Arguments isoDateTimestamp : simpl never.

Lemma parse_day_wf v d : parseCurrentDay v = Some d -> day_wf d.
Proof.
  unfold parseCurrentDay. intros H.
  destruct (dataRecord v DAY_KEYS); [|discriminate].
  destruct (parse_source_revisions _) as [r|] eqn:Er; [|discriminate].
  assert (Hr : 0 <= rv_generated r <= MAX_REVISION /\ 0 <= rv_channel r <= MAX_REVISION /\
    0 <= rv_manual r <= MAX_REVISION /\ 0 <= rv_block r <= MAX_REVISION /\
    0 <= rv_booking r <= MAX_REVISION).
  { unfold parse_source_revisions in Er. follow Er. cbn.
    repeat match goal with H : revision _ _ = Some _ |- _ => apply revision_Some in H end.
    split_and!; lia. }
  follow H.
  repeat match goal with
  | H : revision _ _ = Some _ |- _ => apply revision_Some in H
  | H : as_limit _ = Some _ |- _ => apply as_limit_Some in H
  | H : count _ _ _ = Some _ |- _ => apply as_integer_Some in H as (_ & _ & ?)
  | H : as_date_text _ = Some _ |- _ => apply as_date_text_Some in H as [_ ?]
  end.
  destruct Hr as (? & ? & ? & ? & ?). split; cbn; auto; try lia;
    (intros n Hn; eapply nullable_limit_Some; [|exact Hn]; eassumption).
Qed.

Lemma revisions_value_parse r :
  0 <= rv_generated r <= MAX_REVISION -> 0 <= rv_channel r <= MAX_REVISION ->
  0 <= rv_manual r <= MAX_REVISION -> 0 <= rv_block r <= MAX_REVISION ->
  0 <= rv_booking r <= MAX_REVISION -> parse_source_revisions (revisions_value r) = Some r.
Proof.
  intros. unfold parse_source_revisions, revisions_value. cbn.
  rewrite !revision_VInt by done. by destruct r.
Qed.

Lemma status_text_parse s : parse_status (VString (status_text s)) = Some s.
Proof. by destruct s. Qed.

Lemma date_text_parse_value s :
  is_some (isoDateTimestamp (VString s)) = true -> as_date_text (VString s) = Some s.
Proof. unfold as_date_text. by destruct (isoDateTimestamp _). Qed.

Lemma physical_VInt n : 1 <= n <= 500 -> count (VInt n) 1 500 = Some n.
Proof. intros. apply as_integer_VInt; lia. Qed.

#[global] Arguments parse_source_revisions : simpl never.
#[global] Arguments revisions_value : simpl never.
#[global] Arguments parse_status : simpl never.
#[global] Arguments of_nullable : simpl never.

Lemma day_value_parse d : day_wf d -> parseCurrentDay (day_value d) = Some d.
Proof.
  intros []. unfold parseCurrentDay, day_value. cbn.
  rewrite revisions_value_parse, date_text_parse_value, !revision_VInt, status_text_parse,
    physical_VInt, !nullable_limit_value, !as_limit_VInt by done.
  by destruct d.
Qed.

(** ** Keys *)

Lemma canonical_uuid_length s : canonical_uuid s = true -> String.length s = 36%nat.
Proof. unfold canonical_uuid. rewrite andb_true_iff. intros [H _]. by apply matches_length in H. Qed.

Lemma string_app_inj a b c d :
  String.length a = String.length b -> a +:+ c = b +:+ d -> a = b /\ c = d.
Proof.
  revert b. induction a as [|x a IH]; intros [|y b]; try done. cbn [String.length]. intros [= Hl].
  cbv [String.append]. fold String.append. intros [= -> H]. by destruct (IH b Hl H) as [-> ->].
Qed.

Lemma dayKey_inj r d r' d' :
  canonical_uuid r = true -> canonical_uuid r' = true ->
  dayKey r d = dayKey r' d' -> r = r' /\ d = d'.
Proof.
  intros Hr Hr' H. apply string_app_inj in H as [-> H]; [by injection H as ->|].
  by rewrite !canonical_uuid_length.
Qed.

Lemma has_string_elem l s : has_string l s = true <-> s ∈ l.
Proof.
  unfold has_string. rewrite existsb_exists, list_elem_of_In.
  setoid_rewrite String.eqb_eq. split; [by intros (? & ? & ->) | eauto].
Qed.

Lemma has_string_not_elem l s : has_string l s = false <-> s ∉ l.
Proof. rewrite <- has_string_elem. by destruct (has_string l s). Qed.

Lemma find_binding_Some bindings r b :
  find_binding bindings r = Some b -> b ∈ bindings /\ rb_roomTypeId b = r.
Proof.
  intros H. apply List.find_some in H as [H1 H2]. apply String.eqb_eq in H2.
  by rewrite list_elem_of_In.
Qed.

(** ** Scanning the stored days *)

Definition key_of (d : PmsInventoryDaySnapshot) : string := dayKey (d_roomTypeId d) (d_stayDate d).

Definition in_scope (configuration : PmsOperatingCalendarConfigurationSnapshot)
    (dates : list string) (d : PmsInventoryDaySnapshot) : Prop :=
  d_propertyId d = cs_propertyId configuration /\
  d_roomTypeId d ∈ (rb_roomTypeId <$> si_roomBindings (cs_sourceInputs configuration)) /\
  d_stayDate d ∈ dates.

Definition add_key (m : gmap string PmsInventoryDaySnapshot) (d : PmsInventoryDaySnapshot) :=
  <[key_of d := d]> m.

Definition add_date (m : gmap string Z) (d : PmsInventoryDaySnapshot) : gmap string Z :=
  <[d_stayDate d := day_count m (d_stayDate d) + 1]> m.

Lemma in_scope_dec cfg dates d :
  negb (String.eqb (d_propertyId d) (cs_propertyId cfg)) ||
  negb (has_string (rb_roomTypeId <$> si_roomBindings (cs_sourceInputs cfg)) (d_roomTypeId d)) ||
  negb (has_string dates (d_stayDate d)) = false <-> in_scope cfg dates d.
Proof.
  unfold in_scope. rewrite !orb_false_iff, !negb_false_iff, String.eqb_eq, !has_string_elem. tauto.
Qed.

(** The loop over the stored days succeeds exactly when every one is readable,
    in scope and new, and then has read them all. *)
Lemma scan_days_Ok cfg dates idx raws byKey byDate k c :
  scan_days cfg dates idx raws byKey byDate = Ok (k, c) <->
  exists ds, traverse parseCurrentDay raws = Some ds /\ Forall (in_scope cfg dates) ds /\
    NoDup (key_of <$> ds) /\ Forall (fun d => byKey !! key_of d = None) ds /\
    k = foldl add_key byKey ds /\ c = foldl add_date byDate ds.
Proof.
  revert idx byKey byDate. induction raws as [|raw r IH]; intros idx byKey byDate;
    cbn [scan_days traverse].
  { split.
    - intros [= <- <-]. exists []. split_and!; try done; constructor.
    - intros (ds & [= <-] & _ & _ & _ & -> & ->). done. }
  destruct (parseCurrentDay raw) as [d|] eqn:Ed; [|split; [discriminate | by intros (? & ? & _)]].
  cbv zeta. destruct (_ || _ || _) eqn:Es.
  { split; [discriminate|]. intros (ds & Ht & Hs & _). exfalso.
    destruct (traverse parseCurrentDay r); [|discriminate]. injection Ht as <-.
    apply Forall_inv, in_scope_dec in Hs. congruence. }
  apply in_scope_dec in Es. fold (key_of d).
  destruct (byKey !! key_of d) as [d0|] eqn:Ek.
  { split; [discriminate|]. intros (ds & Ht & _ & _ & Hn & _). exfalso.
    destruct (traverse parseCurrentDay r); [|discriminate]. injection Ht as <-.
    apply Forall_inv in Hn. congruence. }
  rewrite IH. split.
  - intros (ds & Ht & Hs & Hnd & Hn & Hk & Hc). exists (d :: ds). rewrite Ht.
    assert (Hfresh : key_of d ∉ (key_of <$> ds)).
    { intros (d' & Hd' & Hin)%list_elem_of_fmap. rewrite Forall_forall in Hn.
      specialize (Hn d' Hin). rewrite <- Hd', lookup_insert_eq in Hn. discriminate. }
    split_and!; auto.
    + cbn. constructor; auto.
    + constructor; [done|]. rewrite Forall_forall in *. intros d' Hin.
      specialize (Hn d' Hin). rewrite lookup_insert_None in Hn. tauto.
  - intros (ds & Ht & Hs & Hnd & Hn & Hk & Hc).
    destruct (traverse parseCurrentDay r) as [ds'|]; [|discriminate]. injection Ht as <-.
    exists ds'. inversion Hs; subst. inversion Hn; subst. cbn in Hnd.
    apply NoDup_cons in Hnd as [Hfresh Hnd]. split_and!; auto.
    rewrite Forall_forall in *. intros d' Hin. rewrite lookup_insert_None. split; [auto|].
    intros E. apply Hfresh. rewrite E. by apply list_elem_of_fmap_2.
Qed.

Lemma lookup_add_keys ds m k d :
  NoDup (key_of <$> ds) -> Forall (fun d => m !! key_of d = None) ds ->
  foldl add_key m ds !! k = Some d <-> m !! k = Some d \/ (d ∈ ds /\ key_of d = k).
Proof.
  revert m. induction ds as [|x r IH]; intros m Hnd Hn; cbn [foldl].
  - split; [auto|]. intros [H|[H _]]; [done | by apply not_elem_of_nil in H].
  - cbn in Hnd. apply NoDup_cons in Hnd as [Hx Hnd]. inversion Hn as [|? ? Hmx Hnr]; subst.
    rewrite IH; [|done|].
    + unfold add_key at 1. rewrite lookup_insert_Some, elem_of_cons. split.
      * intros [[[<- <-]|[? ?]]|[? ?]]; tauto.
      * intros [H|[[->|H] <-]]; [|left; left; done|right; done].
        left. right. split; [|done]. intros <-. congruence.
    + rewrite Forall_forall in *. intros y Hy. unfold add_key. rewrite lookup_insert_None.
      split; [auto|]. intros E. apply Hx. rewrite E. by apply list_elem_of_fmap_2.
Qed.

Lemma day_count_add_dates ds m x :
  day_count (foldl add_date m ds) x =
  day_count m x + Z.of_nat (length (List.filter (fun d => String.eqb (d_stayDate d) x) ds)).
Proof.
  revert m. induction ds as [|d r IH]; intros m; cbn [foldl List.filter]; [cbn; lia|].
  rewrite IH. unfold add_date, day_count at 1. destruct (String.eqb_spec (d_stayDate d) x) as [->|Hne].
  - rewrite lookup_insert_eq. cbn. lia.
  - rewrite lookup_insert_ne by done. done.
Qed.

(** ** Settled days

    A day is settled when its generated fields are the ones the calendar
    prescribes and its limits and consumers fit the capacity. *)
Record settled (cfg : PmsOperatingCalendarConfigurationSnapshot)
    (b : PmsOperatingCalendarRoomBinding) (date : string) (generated : Z)
    (d : PmsInventoryDaySnapshot) : Prop := {
  st_calendar : d_calendarRevision d = cs_calendarRevision cfg;
  st_generated : rv_generated (d_sourceRevisions d) = cs_calendarRevision cfg;
  st_status : d_operatingStatus d = operatingStatusFor (cs_schedule cfg) date;
  st_physical : d_physicalCapacityCount d = rb_physicalCapacityCount b;
  st_limit : d_generatedSellableLimitCount d = generated;
  st_effective : d_effectiveSellableLimitCount d =
    default generated (orElse (d_manualSellableLimitCount d) (d_channelSellableLimitCount d));
  st_available : d_availableCount d =
    available_of (d_operatingStatus d) (d_linkedStopSell d) (d_effectiveSellableLimitCount d)
      (d_assignedCount d) (d_blockedCount d);
  st_fits : d_effectiveSellableLimitCount d <= rb_physicalCapacityCount b /\
    default 0 (d_channelSellableLimitCount d) <= rb_physicalCapacityCount b /\
    d_assignedCount d + d_blockedCount d <= rb_physicalCapacityCount b;
}.

(** What the planner leaves to the other owners of a day. *)
Definition owner_state (d : PmsInventoryDaySnapshot) :=
  (d_propertyId d, d_roomTypeId d, d_stayDate d, d_channelSellableLimitCount d,
   d_manualSellableLimitCount d, d_assignedCount d, d_blockedCount d, d_linkedStopSell d,
   d_linkedSourceRevision d,
   (rv_channel (d_sourceRevisions d), rv_manual (d_sourceRevisions d),
    rv_block (d_sourceRevisions d), rv_booking (d_sourceRevisions d))).

Lemma invariant_spec d capacity :
  validCurrentInvariant d capacity = true <->
  let limit := default (d_generatedSellableLimitCount d)
                 (orElse (d_manualSellableLimitCount d) (d_channelSellableLimitCount d)) in
  d_calendarRevision d = rv_generated (d_sourceRevisions d) /\
  d_physicalCapacityCount d = capacity /\
  d_generatedSellableLimitCount d <= capacity /\
  opt_le (d_channelSellableLimitCount d) capacity = true /\
  opt_le (d_manualSellableLimitCount d) capacity = true /\
  d_assignedCount d + d_blockedCount d <= capacity /\
  d_effectiveSellableLimitCount d = limit /\
  d_availableCount d = available_of (d_operatingStatus d) (d_linkedStopSell d) limit
                         (d_assignedCount d) (d_blockedCount d).
Proof.
  unfold validCurrentInvariant. cbv zeta. rewrite !andb_true_iff, !Z.eqb_eq, !Z.leb_le.
  split; intros H; destruct_and! H; subst; split_and!; congruence.
Qed.

Section OneDay.
Variables (cfg : PmsOperatingCalendarConfigurationSnapshot)
  (b : PmsOperatingCalendarRoomBinding) (date : string) (generated : Z).
Hypothesis generated_fits : 0 <= generated <= rb_physicalCapacityCount b.

Lemma settled_invariant d :
  settled cfg b date generated d ->
  validCurrentInvariant d (rb_physicalCapacityCount b) = true.
Proof.
  intros [Hc Hg Hs Hp Hl He Ha (Hf1 & Hf2 & Hf3)]. apply invariant_spec. cbv zeta.
  rewrite Hl. rewrite He in Hf1, Ha. split_and!; try congruence; try lia.
  - unfold opt_le. destruct (d_channelSellableLimitCount d); cbn in *; lia.
  - unfold opt_le. destruct (d_manualSellableLimitCount d); cbn in *; lia.
Qed.

(** The planner leaves a settled day alone. *)
Lemma settled_unchanged d :
  settled cfg b date generated d -> planExistingDay cfg b date d generated = Ok (d, false).
Proof.
  intros H. pose proof (settled_invariant d H) as Hi.
  destruct H as [Hc Hg Hs Hp Hl He Ha (Hf1 & Hf2 & Hf3)]. unfold planExistingDay. cbv zeta.
  rewrite Hc, Hg, Hl, Z.ltb_irrefl, !Z.eqb_refl, <- He, <- Hs, bool_decide_eq_true_2, <- Ha by done.
  cbn [andb negb orb]. rewrite Hi, !Z.eqb_refl. cbn [negb orb].
  replace (_ <? _) with false by lia. replace (_ <? _) with false by lia.
  replace (_ <? _) with false by lia. done.
Qed.

Lemma available_of_bound status linked limit a k :
  0 <= limit -> 0 <= a -> 0 <= k -> 0 <= available_of status linked limit a k <= limit.
Proof. intros. unfold available_of. destruct status, linked; lia. Qed.

(** A planned day is settled, keeps what the other owners wrote, and advances
    its inventory revision exactly when it changed. *)
Lemma plan_existing_settled current d changed :
  planExistingDay cfg b date current generated = Ok (d, changed) ->
  settled cfg b date generated d /\ owner_state d = owner_state current /\
  (if changed
   then d_inventoryRevision d = d_inventoryRevision current + 1 /\
        d_inventoryRevision current <> MAX_REVISION
   else d = current).
Proof.
  unfold planExistingDay. cbv zeta. intros H.
  destruct (_ <? rv_generated _) eqn:E1; [discriminate|].
  destruct (negb (validCurrentInvariant _ _) || _) eqn:E2; [discriminate|].
  destruct (_ || _) eqn:E3 in H; [discriminate|].
  apply orb_false_iff in E2 as [E2 E2'], E3 as [E3 E3']. apply negb_false_iff in E2.
  rewrite Z.ltb_ge in E2', E3, E3'.
  destruct (negb _) eqn:E4 in H.
  - injection H as <- <-. apply negb_true_iff in E4. rewrite !orb_false_iff in E4.
    destruct E4 as ((((((Hr & Hc) & Hg) & Hs) & Hl) & He) & Ha).
    rewrite Hr in E2. apply negb_false_iff in Hc, Hg, Hs, Hl, He, Ha.
    apply bool_decide_eq_true in Hs. rewrite Z.eqb_eq in Hc, Hg, Hl, He, Ha.
    split; [|done]. split; auto; try congruence.
    + by apply invariant_spec in E2 as (_ & ? & _).
    + rewrite He. lia.
  - destruct (_ =? MAX_REVISION) eqn:E5 in H; [discriminate|].
    apply Z.eqb_neq in E5. injection H as <- <-.
    split; [|done]. split; cbn; auto.
Qed.

Hypothesis capacity_bound : 1 <= rb_physicalCapacityCount b <= 500.
Hypothesis calendar_bound : 1 <= cs_calendarRevision cfg <= MAX_REVISION.

Lemma plan_existing_wf current d changed :
  day_wf current -> planExistingDay cfg b date current generated = Ok (d, changed) -> day_wf d.
Proof.
  intros Hw H. pose proof (plan_existing_settled _ _ _ H) as (Hst & Ho & Hd).
  destruct changed; [|by subst]. destruct Hd as [Hd Hne].
  destruct Hw. destruct Hst as [Hc Hg Hs Hp Hl He Ha (Hf1 & Hf2 & Hf3)].
  injection Ho as Ep Er Edt Ech Em Ea Eb Ek Els E5 E6 E7 E8.
  assert (Heff : 0 <= d_effectiveSellableLimitCount d).
  { rewrite He, Em, Ech. destruct (d_manualSellableLimitCount current) as [m|] eqn:E1; cbn.
    - by apply wf_manualLimit0.
    - destruct (d_channelSellableLimitCount current) as [m|] eqn:E2; cbn; [|lia].
      by apply wf_channelLimit0. }
  pose proof (available_of_bound (d_operatingStatus d) (d_linkedStopSell d)
    (d_effectiveSellableLimitCount d) (d_assignedCount d) (d_blockedCount d)
    Heff ltac:(lia) ltac:(lia)).
  split; rewrite ?Edt, ?Ech, ?Em, ?E5, ?E6, ?E7, ?E8; auto; lia.
Qed.

Lemma new_day_settled :
  settled cfg b date generated (newDay cfg b date generated).
Proof.
  split; cbn; auto; try lia. destruct (operatingStatusFor _ _); cbn; lia.
Qed.

Lemma new_day_wf :
  is_some (isoDateTimestamp (VString date)) = true -> day_wf (newDay cfg b date generated).
Proof.
  intros Hd. split; cbn; auto; unfold MAX_REVISION in *; try discriminate; try lia.
  destruct (operatingStatusFor _ _); lia.
Qed.
End OneDay.

(** ** Parsed input *)

Definition bindings_of (cfg : PmsOperatingCalendarConfigurationSnapshot) :=
  si_roomBindings (cs_sourceInputs cfg).

Lemma bindings_distinct cfg b b' :
  snapshot_ok cfg -> b ∈ bindings_of cfg -> b' ∈ bindings_of cfg ->
  rb_roomTypeId b = rb_roomTypeId b' -> b = b'.
Proof.
  intros Hok Hb Hb' E. destruct (so_bindings _ Hok) as [_ Hs].
  apply sorted_by_NoDup in Hs. fold (bindings_of cfg) in Hs.
  apply list_elem_of_lookup in Hb as [i Hi], Hb' as [j Hj].
  assert (i = j) as ->; [|congruence].
  eapply (NoDup_lookup _ _ _ (rb_roomTypeId b) Hs).
  - by rewrite list_lookup_fmap, Hi.
  - by rewrite list_lookup_fmap, Hj, E.
Qed.

Lemma binding_room_uuid cfg b :
  snapshot_ok cfg -> b ∈ bindings_of cfg -> canonical_uuid (rb_roomTypeId b) = true.
Proof. intros Hok Hb. pose proof (so_capacity _ Hok) as H. rewrite Forall_forall in H. by apply H. Qed.

Lemma binding_capacity cfg b :
  snapshot_ok cfg -> b ∈ bindings_of cfg ->
  1 <= rb_startingSellableLimitCount b <= rb_physicalCapacityCount b /\
  rb_physicalCapacityCount b <= 500.
Proof.
  intros Hok Hb. pose proof (so_capacity _ Hok) as H. rewrite Forall_forall in H.
  by destruct (H b Hb) as (_ & ? & ? & _).
Qed.

Lemma room_uuid cfg r :
  snapshot_ok cfg -> r ∈ (rb_roomTypeId <$> bindings_of cfg) -> canonical_uuid r = true.
Proof. intros Hok (b & -> & Hb)%list_elem_of_fmap. by eapply binding_room_uuid. Qed.

(** The generated limits a plan may use for a room fit its capacity. *)
Definition overrides_fit (cfg : PmsOperatingCalendarConfigurationSnapshot)
    (overrides : gmap string Z) : Prop :=
  forall b date n, b ∈ bindings_of cfg -> overrides !! dayKey (rb_roomTypeId b) date = Some n ->
    0 <= n <= rb_physicalCapacityCount b.

Lemma overrides_parsed cfg values dates parsed overrides :
  snapshot_ok cfg -> overrides_fit cfg parsed ->
  parseGeneratedOverrides values (bindings_of cfg) dates parsed = Some overrides ->
  overrides_fit cfg overrides.
Proof.
  intros Hok. revert parsed. induction values as [|v r IH]; intros parsed Hp H; cbn in H.
  - by injection H as <-.
  - destruct (dataRecord _ _); [|discriminate].
    destruct (as_string (get v "roomTypeId")) as [room|]; [|discriminate].
    destruct (find_binding _ room) as [b|] eqn:Eb; [|discriminate].
    destruct (as_string (get v "stayDate")) as [date|]; [|discriminate].
    destruct (has_string dates date); [|discriminate].
    destruct (count _ _ _) as [n|] eqn:En; [|discriminate].
    destruct (parsed !! _) eqn:Ek; [discriminate|]. apply IH in H; [done|].
    apply find_binding_Some in Eb as [Hb <-]. apply as_integer_Some in En as (_ & _ & Hn).
    intros b' date' n' Hb' [[E <-]|[_ Hl]]%lookup_insert_Some; [|by eapply Hp].
    apply dayKey_inj in E as [E _]; [|by eapply binding_room_uuid..].
    by rewrite (bindings_distinct cfg b' b).
Qed.

(** A planner input that was read successfully. *)
Record input_ok (i : planner_input) : Prop := {
  io_configuration : snapshot_ok (pi_configuration i);
  io_overrides : overrides_fit (pi_configuration i) (pi_overrides i);
  io_dates : exists from n, pi_dates i = dates_from from n /\ 1 <= n <= 366 /\
    isoDateTimestamp (VString (pi_from i)) = Some from /\
    isoDateTimestamp (VString (pi_through i)) = Some (from + n - 1);
}.

Lemma timestamp_text v n : isoDateTimestamp v = Some n -> v = VString (text_of v).
Proof. by intros (y & m & d & -> & _)%isoDateTimestamp_spec. Qed.

Lemma configuration_ok v cfg : parseConfiguration v = Some cfg -> snapshot_ok cfg.
Proof.
  unfold parseConfiguration. destruct (safeConfigurationShape v); [|discriminate].
  apply snapshot_sound.
Qed.

Lemma horizon_ok v dates :
  horizonDates v = Some dates ->
  exists from n, dates = dates_from from n /\ 1 <= n <= 366 /\
    isoDateTimestamp (VString (text_of (get v "from"))) = Some from /\
    isoDateTimestamp (VString (text_of (get v "through"))) = Some (from + n - 1).
Proof.
  unfold horizonDates. intros H. destruct (dataRecord _ _); [|discriminate].
  destruct (isoDateTimestamp (get v "from")) as [f|] eqn:Ef; [|discriminate].
  destruct (isoDateTimestamp (get v "through")) as [t|] eqn:Et; [|discriminate].
  destruct (_ || _) eqn:E; [discriminate|]. injection H as <-.
  apply orb_false_iff in E as [E1 E2]. rewrite Z.ltb_ge in E1, E2.
  unfold PMS_INVENTORY_HORIZON_MAX_DAYS in E2.
  rewrite <- (timestamp_text _ _ Ef), <- (timestamp_text _ _ Et).
  exists f, (t - f + 1). split_and!; auto; try lia. rewrite Et. f_equal. lia.
Qed.

(** The parts of the input a successful reading kept. *)
Lemma parse_planner_input_inv input i :
  parse_planner_input input = Ok i ->
  parseConfiguration (get input "configuration") = Some (pi_configuration i) /\
  horizonDates (get input "horizon") = Some (pi_dates i) /\
  pi_from i = text_of (get (get input "horizon") "from") /\
  pi_through i = text_of (get (get input "horizon") "through") /\
  pi_currentDays i = default [] (denseArray (get input "currentDays")).
Proof.
  unfold parse_planner_input. intros H. destruct (validInputShape input); [|discriminate].
  cbn [negb] in H. destruct (parseConfiguration (get input "configuration")); [|discriminate].
  destruct (parsePmsOperatingCalendarSourceRevision _); [|discriminate].
  destruct (_ || _ || _); [discriminate|]. cbv zeta in H. destruct (_ && _); [discriminate|].
  destruct (horizonDates _); [|discriminate].
  destruct (parseGeneratedOverrides _ _ _ _); [|discriminate]. by injection H as <-.
Qed.

Lemma parse_planner_input_ok input i : parse_planner_input input = Ok i -> input_ok i.
Proof.
  unfold parse_planner_input. intros H. destruct (validInputShape input); [|discriminate].
  cbn [negb] in H.
  destruct (parseConfiguration (get input "configuration")) as [cfg|] eqn:Ec; [|discriminate].
  destruct (parsePmsOperatingCalendarSourceRevision _); [|discriminate].
  destruct (_ || _ || _); [discriminate|]. cbv zeta in H. destruct (_ && _); [discriminate|].
  destruct (horizonDates _) as [dates|] eqn:Ed; [|discriminate].
  destruct (parseGeneratedOverrides _ _ _ _) as [ov|] eqn:Eo; [|discriminate].
  injection H as <-. apply configuration_ok in Ec. split; cbn; auto.
  - eapply overrides_parsed; [exact Ec| |exact Eo]. by intros ? ? ? ? ?%lookup_empty_Some.
  - by apply horizon_ok.
Qed.

(** ** The order of the days *)

Definition pair_le (a b : string * string) : bool :=
  str_lt (fst a) (fst b) || (String.eqb (fst a) (fst b) && str_le (snd a) (snd b)).

Definition pair_of (d : PmsInventoryDaySnapshot) : string * string := (d_roomTypeId d, d_stayDate d).

Definition pair_keys (rooms dates : list string) : list (string * string) :=
  r ← rooms; (fun d => (r, d)) <$> dates.

Lemma Sorted_key {A B} (R : relation B) (f : A -> B) l :
  Sorted R (f <$> l) -> Sorted (fun x y => R (f x) (f y)) l.
Proof.
  induction l as [|x r IH]; [constructor|]. cbn. intros H. apply Sorted_inv in H as [Hr Hd].
  constructor; [auto|]. destruct r; [constructor|]. constructor. by inversion Hd.
Qed.

Lemma strictly_sorted_strong l :
  sorted_by str_lt l = true -> StronglySorted (fun a b => str_lt a b = true) l.
Proof.
  induction l as [|x r IH]; intros H; constructor.
  - apply IH. by eapply sorted_by_tail.
  - by apply sorted_by_lt_all.
Qed.

Lemma pair_keys_sorted rooms dates :
  sorted_by str_lt rooms = true -> sorted_by str_lt dates = true ->
  StronglySorted (le_rel pair_le) (pair_keys rooms dates).
Proof.
  intros Hr%strictly_sorted_strong Hd%strictly_sorted_strong. unfold pair_keys.
  induction Hr as [|r rooms _ IH Hlt]; [constructor|]. cbn [mbind list_bind].
  apply StronglySorted_app_2; [| |exact IH].
  - intros a b (d & -> & _)%list_elem_of_fmap
      (r' & (d' & -> & _)%list_elem_of_fmap & Hr')%list_elem_of_bind.
    rewrite Forall_forall in Hlt. unfold le_rel, pair_le. cbn. by rewrite (Hlt _ Hr').
  - clear IH. induction Hd as [|d dates _ IH Hlt']; constructor; [done|].
    apply Forall_fmap. eapply Forall_impl; [exact Hlt'|]. cbn. intros d' Hd'.
    unfold le_rel, pair_le. cbn. by rewrite String.eqb_refl, str_lt_le_weaken, orb_true_r.
Qed.

Lemma pair_keys_NoDup rooms dates : NoDup rooms -> NoDup dates -> NoDup (pair_keys rooms dates).
Proof.
  intros Hr Hd. unfold pair_keys. induction Hr as [|r rooms Hx _ IH]; [constructor|].
  cbn [mbind list_bind]. apply NoDup_app. split_and!; [| |exact IH].
  - apply NoDup_fmap; [by intros ? ? [= ->] | done].
  - intros p (d & -> & _)%list_elem_of_fmap
      (r' & (d' & [= <- <-] & _)%list_elem_of_fmap & Hr')%list_elem_of_bind. done.
Qed.

Lemma elem_of_pair_keys rooms dates r d :
  (r, d) ∈ pair_keys rooms dates <-> r ∈ rooms /\ d ∈ dates.
Proof.
  unfold pair_keys. rewrite list_elem_of_bind. split.
  - intros (r' & (d' & [= <- <-] & Hd)%list_elem_of_fmap & Hr). done.
  - intros [Hr Hd]. exists r. split; [|done]. by apply (list_elem_of_fmap_2 (fun d => (r, d))).
Qed.

Lemma room_dates_keys bindings dates :
  (fun p => (rb_roomTypeId (fst p), snd p)) <$> room_dates bindings dates =
  pair_keys (rb_roomTypeId <$> bindings) dates.
Proof.
  unfold room_dates, pair_keys. induction bindings as [|b r IH]; [done|].
  cbn [mbind list_bind fmap list_fmap]. rewrite fmap_app. f_equal; [|exact IH].
  rewrite <- list_fmap_compose. done.
Qed.

Lemma elem_of_room_dates bindings dates b d :
  (b, d) ∈ room_dates bindings dates <-> b ∈ bindings /\ d ∈ dates.
Proof.
  unfold room_dates. rewrite list_elem_of_bind. split.
  - intros (b' & (d' & [= <- <-] & Hd)%list_elem_of_fmap & Hb). done.
  - intros [Hb Hd]. exists b. split; [|done]. by apply (list_elem_of_fmap_2 (fun d => (b, d))).
Qed.

Lemma day_le_pair a b : day_le a b = pair_le (pair_of a) (pair_of b).
Proof. done. Qed.

(** Days whose keys are in order are not moved by the sort. *)
Lemma days_sorted l :
  StronglySorted (le_rel pair_le) (pair_of <$> l) -> Sorted (le_rel day_le) l.
Proof. intros H%StronglySorted_Sorted%Sorted_key. exact H. Qed.

Lemma StronglySorted_filter {A} (R : relation A) (f : A -> bool) l :
  StronglySorted R l -> StronglySorted R (List.filter f l).
Proof.
  induction 1 as [|x r _ IH Hx]; cbn; [constructor|]. destruct (f x); [|done].
  constructor; [done|]. rewrite Forall_forall in *. intros y Hy.
  apply Hx. apply list_elem_of_In, List.filter_In in Hy as [Hy _]. by apply list_elem_of_In.
Qed.

(** ** The plan *)

Lemma plan_loop_Ok plan pairs ps :
  plan_loop plan pairs = Ok ps <->
  Forall2 (fun pr p => plan (fst pr) (snd pr) = Ok p) pairs ps.
Proof.
  revert ps. induction pairs as [|[b d] r IH]; intros ps; cbn [plan_loop].
  - split; [intros [= <-]; constructor | by inversion 1].
  - split.
    + destruct (plan b d) as [p|] eqn:E; [|discriminate].
      destruct (plan_loop plan r) as [qs|]; [|discriminate]. intros [= <-].
      constructor; [done|]. by apply IH.
    + inversion 1 as [|? p ? qs Hp Hr]; subst. cbn in Hp. rewrite Hp.
      apply IH in Hr. by rewrite Hr.
Qed.

(** The number the calendar generates for a room and a date. *)
Definition generated_for (i : planner_input) (b : PmsOperatingCalendarRoomBinding) (date : string) : Z :=
  default (rb_startingSellableLimitCount b) (pi_overrides i !! dayKey (rb_roomTypeId b) date).

Definition stored_map (ds : list PmsInventoryDaySnapshot) : gmap string PmsInventoryDaySnapshot :=
  foldl add_key ∅ ds.

Definition stored_counts (ds : list PmsInventoryDaySnapshot) : gmap string Z := foldl add_date ∅ ds.

(** A run of the planner that succeeded. *)
Record plan_run (i : planner_input) (ds : list PmsInventoryDaySnapshot)
    (planned : list planned_day) (p : PmsInventoryMaterializationPlan) : Prop := {
  run_stored : traverse parseCurrentDay (pi_currentDays i) = Some ds;
  run_scope : Forall (in_scope (pi_configuration i) (pi_dates i)) ds;
  run_nodup : NoDup (key_of <$> ds);
  run_planned : Forall2 (fun pr q =>
      plan_one (pi_configuration i) (pi_overrides i) (stored_map ds) (fst pr) (snd pr) = Ok q)
    (room_dates (bindings_of (pi_configuration i)) (pi_dates i)) planned;
  run_days : pm_days p = stable_sort day_le (pl_day <$> planned);
  run_changed : pm_changedDays p = stable_sort day_le
    (pl_day <$> List.filter (fun q => negb (pl_existing q) || pl_changed q) planned);
  run_coverage : pm_coverage p =
    {| cov_configurationSource := cs_source (pi_configuration i);
       cov_materializedRevision := cs_calendarRevision (pi_configuration i);
       cov_coverageFrom := pi_from i; cov_coverageThrough := pi_through i;
       cov_roomTypeIds := stable_sort str_le (rb_roomTypeId <$> bindings_of (pi_configuration i));
       cov_expectedDayCount := Z.of_nat (length (pm_days p));
       cov_materializedDayCount := Z.of_nat (length (pm_days p)); cov_gaps := [] |};
}.

Lemma plan_parsed_run i p : plan_parsed i = Ok p -> exists ds planned, plan_run i ds planned p.
Proof.
  unfold plan_parsed. cbv zeta. intros H.
  destruct (scan_days _ _ _ _ _ _) as [[k c]|] eqn:Es; [|discriminate].
  apply scan_days_Ok in Es as (ds & Ht & Hs & Hn & _ & -> & ->).
  destruct (check_coverage _ _ _ _); [|discriminate].
  destruct (plan_loop _ _) as [planned|] eqn:Ep; [|discriminate].
  apply plan_loop_Ok in Ep. injection H as <-. by exists ds, planned.
Qed.

Section Run.
Variables (i : planner_input) (ds : list PmsInventoryDaySnapshot)
  (planned : list planned_day) (p : PmsInventoryMaterializationPlan).
Hypothesis Hok : input_ok i.
Hypothesis Hrun : plan_run i ds planned p.

Let cfg := pi_configuration i.

Lemma generated_bound b date :
  b ∈ bindings_of cfg -> 0 <= generated_for i b date <= rb_physicalCapacityCount b.
Proof.
  intros Hb. unfold generated_for. destruct (pi_overrides i !! _) as [n|] eqn:E; cbn.
  - exact (io_overrides i Hok b date n Hb E).
  - pose proof (binding_capacity _ _ (io_configuration i Hok) Hb). lia.
Qed.

Lemma calendar_revision_bound : 1 <= cs_calendarRevision cfg <= MAX_REVISION.
Proof. exact (so_revision _ (io_configuration i Hok)). Qed.

Lemma horizon_date date : date ∈ pi_dates i -> is_some (isoDateTimestamp (VString date)) = true.
Proof.
  destruct (io_dates i Hok) as (f & n & -> & Hn & Hf & Ht). apply timestamp_range in Hf, Ht.
  intros (k & -> & Hk)%elem_of_dates_from.
  rewrite timestamp_iso_date; [done | unfold timestamp_day in *; lia].
Qed.

Lemma stored_wf : Forall day_wf ds.
Proof. eapply traverse_Forall; [|exact (run_stored _ _ _ _ Hrun)]. exact parse_day_wf. Qed.

(** A stored day is found under its own room and date, and nothing else is. *)
Lemma stored_lookup b date d :
  b ∈ bindings_of cfg ->
  stored_map ds !! dayKey (rb_roomTypeId b) date = Some d <->
  d ∈ ds /\ pair_of d = (rb_roomTypeId b, date).
Proof.
  intros Hb. unfold stored_map. rewrite lookup_add_keys.
  2: exact (run_nodup _ _ _ _ Hrun). 2: by apply Forall_forall.
  rewrite lookup_empty. unfold pair_of. split.
  - intros [[=]|[Hd Hk]]. split; [done|].
    pose proof (run_scope _ _ _ _ Hrun) as Hs. rewrite Forall_forall in Hs.
    destruct (Hs d Hd) as (_ & Hroom & _).
    apply dayKey_inj in Hk as [-> ->]; [done| |].
    + exact (room_uuid _ _ (io_configuration i Hok) Hroom).
    + exact (binding_room_uuid _ _ (io_configuration i Hok) Hb).
  - intros [Hd [= <- <-]]. right. done.
Qed.

(** What the planner computed for one room and date. *)
Record planned_ok (b : PmsOperatingCalendarRoomBinding) (date : string) (q : planned_day) : Prop := {
  pk_pair : pair_of (pl_day q) = (rb_roomTypeId b, date);
  pk_property : d_propertyId (pl_day q) = cs_propertyId cfg;
  pk_wf : day_wf (pl_day q);
  pk_settled : settled cfg b date (generated_for i b date) (pl_day q);
  pk_stored : if pl_existing q
    then exists current, current ∈ ds /\ pair_of current = (rb_roomTypeId b, date) /\
      owner_state (pl_day q) = owner_state current /\
      (if pl_changed q
       then d_inventoryRevision (pl_day q) = d_inventoryRevision current + 1
       else pl_day q = current)
    else (forall current, current ∈ ds -> pair_of current <> (rb_roomTypeId b, date)) /\
      pl_day q = newDay cfg b date (generated_for i b date);
}.

Lemma plan_one_ok b date q :
  b ∈ bindings_of cfg -> date ∈ pi_dates i ->
  plan_one cfg (pi_overrides i) (stored_map ds) b date = Ok q -> planned_ok b date q.
Proof.
  intros Hb Hdate H. unfold plan_one in H. cbv zeta in H. fold (generated_for i b date) in H.
  pose proof (generated_bound b date Hb) as Hg.
  pose proof (binding_capacity _ _ (io_configuration i Hok) Hb) as [Hc1 Hc2].
  destruct (stored_map ds !! _) as [cur|] eqn:El.
  - apply (stored_lookup b date cur Hb) in El as [Hcur Hp].
    destruct (planExistingDay _ _ _ _ _) as [[d ch]|] eqn:Ep; [|discriminate].
    injection H as <-.
    pose proof (plan_existing_settled _ _ _ _ _ _ _ Ep) as (Hst & Ho & Hch).
    pose proof stored_wf as Hw. rewrite Forall_forall in Hw.
    pose proof (run_scope _ _ _ _ Hrun) as Hs. rewrite Forall_forall in Hs.
    destruct (Hs cur Hcur) as (Hprop & _ & _).
    pose proof Ho as Ho'. injection Ho' as E1 E2 E3 _ _ _ _ _ _ _ _ _ _.
    split; cbn [pl_day pl_existing pl_changed].
    + unfold pair_of. rewrite E2, E3. exact Hp.
    + by rewrite E1.
    + eapply plan_existing_wf; [exact Hg | lia | exact calendar_revision_bound | | exact Ep].
      by apply Hw.
    + done.
    + exists cur. split_and!; auto. destruct ch; tauto.
  - injection H as <-. split; cbn [pl_day pl_existing pl_changed]; try done.
    + apply new_day_wf; [exact Hg | lia | exact calendar_revision_bound | by apply horizon_date].
    + apply new_day_settled; [exact Hg | lia].
    + split; [|done]. intros cur Hcur Hp.
      assert (stored_map ds !! dayKey (rb_roomTypeId b) date = Some cur); [|congruence].
      by apply stored_lookup.
Qed.

Lemma planned_all :
  Forall2 (fun pr q => planned_ok (fst pr) (snd pr) q)
    (room_dates (bindings_of cfg) (pi_dates i)) planned.
Proof.
  assert (H : forall pairs qs, (forall pr, pr ∈ pairs -> fst pr ∈ bindings_of cfg /\ snd pr ∈ pi_dates i) ->
    Forall2 (fun pr q => plan_one cfg (pi_overrides i) (stored_map ds) (fst pr) (snd pr) = Ok q) pairs qs ->
    Forall2 (fun pr q => planned_ok (fst pr) (snd pr) q) pairs qs).
  { intros pairs qs Hin HF. induction HF as [|pr q pairs qs Hq _ IH]; constructor.
    - destruct (Hin pr); [left|]. by apply plan_one_ok.
    - apply IH. intros x Hx. apply Hin. by right. }
  apply H; [|exact (run_planned _ _ _ _ Hrun)].
  intros [b d] Hbd%elem_of_room_dates. done.
Qed.

Lemma planned_keys :
  pair_of <$> (pl_day <$> planned) = pair_keys (rb_roomTypeId <$> bindings_of cfg) (pi_dates i).
Proof.
  rewrite <- room_dates_keys. pose proof planned_all as H. clear Hrun.
  induction H as [|pr q pairs qs Hq _ IH]; [done|].
  cbn [fmap list_fmap]. f_equal; [exact (pk_pair _ _ _ Hq) | exact IH].
Qed.

Lemma rooms_sorted : sorted_by str_lt (rb_roomTypeId <$> bindings_of cfg) = true.
Proof. exact (proj2 (so_bindings _ (io_configuration i Hok))). Qed.

Lemma horizon_sorted : sorted_by str_lt (pi_dates i) = true.
Proof.
  destruct (io_dates i Hok) as (f & n & -> & Hn & Hf & Ht). apply timestamp_range in Hf, Ht.
  replace n with (Z.of_nat (Z.to_nat n)) by lia. apply dates_from_sorted.
  intros k Hk. apply timestamp_four_digit. unfold timestamp_day in *. lia.
Qed.

Lemma planned_in_order : StronglySorted (le_rel pair_le) (pair_of <$> (pl_day <$> planned)).
Proof. rewrite planned_keys. apply pair_keys_sorted; [exact rooms_sorted | exact horizon_sorted]. Qed.

(** The loop already produces the days in order. *)
Lemma run_days_eq : pm_days p = pl_day <$> planned.
Proof.
  rewrite (run_days _ _ _ _ Hrun). apply stable_sort_id, days_sorted, planned_in_order.
Qed.

Lemma run_keys_NoDup : NoDup (pair_of <$> pm_days p).
Proof.
  rewrite run_days_eq, planned_keys. apply pair_keys_NoDup; apply sorted_by_NoDup;
    [exact rooms_sorted | exact horizon_sorted].
Qed.

Lemma planned_elem q :
  q ∈ planned -> exists b date, b ∈ bindings_of cfg /\ date ∈ pi_dates i /\ planned_ok b date q.
Proof.
  intros Hq. pose proof planned_all as H.
  apply list_elem_of_lookup in Hq as [k Hk].
  destruct (Forall2_lookup_r _ _ _ _ _ H Hk) as ([b date] & Hp & Hq).
  apply list_elem_of_lookup_2, elem_of_room_dates in Hp as [? ?]. eauto.
Qed.

(** A stored day's planned successor. *)
Lemma stored_planned current :
  current ∈ ds -> exists b q, b ∈ bindings_of cfg /\ q ∈ planned /\
    pl_existing q = true /\ planned_ok b (d_stayDate current) q /\
    pair_of current = (rb_roomTypeId b, d_stayDate current) /\
    owner_state (pl_day q) = owner_state current /\
    (if pl_changed q
     then d_inventoryRevision (pl_day q) = d_inventoryRevision current + 1
     else pl_day q = current).
Proof.
  intros Hc. pose proof (run_scope _ _ _ _ Hrun) as Hs. rewrite Forall_forall in Hs.
  destruct (Hs current Hc) as (_ & (b & Hroom & Hb)%list_elem_of_fmap & Hd).
  assert (Hin : (b, d_stayDate current) ∈ room_dates (bindings_of cfg) (pi_dates i))
    by by apply elem_of_room_dates.
  apply list_elem_of_lookup in Hin as [k Hk].
  destruct (Forall2_lookup_l _ _ _ _ _ planned_all Hk) as (q & Hq & Hpk). cbn in Hpk.
  apply list_elem_of_lookup_2 in Hq. exists b, q.
  assert (Hp : pair_of current = (rb_roomTypeId b, d_stayDate current))
    by (unfold pair_of; by rewrite Hroom).
  pose proof (pk_stored _ _ _ Hpk) as Hst. destruct (pl_existing q) eqn:Ee.
  - destruct Hst as (cur' & Hc' & Hp' & Ho & Hch).
    assert (cur' = current) as ->; [|done].
    apply (stored_lookup b _ cur' Hb (conj Hc' Hp')) || idtac.
    pose proof (proj2 (stored_lookup b _ cur' Hb) (conj Hc' Hp')) as L1.
    pose proof (proj2 (stored_lookup b _ current Hb) (conj Hc Hp)) as L2. congruence.
  - exfalso. destruct Hst as [Hno _]. by apply (Hno current).
Qed.

Lemma planned_inv_changed q current :
  q ∈ planned -> current ∈ ds -> pair_of (pl_day q) = pair_of current ->
  pl_existing q = true /\ (pl_changed q = false -> pl_day q = current) /\
  (pl_changed q = true -> pl_day q <> current).
Proof.
  intros Hq Hc Hp. destruct (planned_elem q Hq) as (b & date & Hb & Hd & Hpk).
  pose proof (pk_stored _ _ _ Hpk) as Hst. rewrite (pk_pair _ _ _ Hpk) in Hp.
  destruct (pl_existing q).
  - destruct Hst as (cur' & Hc' & Hp' & Ho & Hch).
    pose proof (proj2 (stored_lookup b date cur' Hb) (conj Hc' Hp')) as L1.
    pose proof (proj2 (stored_lookup b date current Hb) (conj Hc (eq_sym Hp))) as L2.
    assert (cur' = current) as -> by congruence. split; [done|].
    destruct (pl_changed q); split; try done. intros _ E. rewrite E in Hch. lia.
  - exfalso. destruct Hst as [Hno _]. by apply (Hno current).
Qed.
End Run.

(** ** Properties of the plan *)

(** C5: every day of a plan belongs to the property, passes the stored-day
    consistency check against its room's capacity, and never offers more rooms
    than exist: assigned, blocked and available rooms together fit the physical
    capacity, and nothing is available on a closed or linked day. *)
Theorem planned_days_consistent input plan d :
  planPmsInventoryMaterialization input = Ok plan -> d ∈ pm_days plan ->
  exists cfg b, parseConfiguration (get input "configuration") = Some cfg /\
    b ∈ si_roomBindings (cs_sourceInputs cfg) /\
    d_propertyId d = cs_propertyId cfg /\
    isPmsInventoryDayConsistent (day_value d) b = true /\
    0 <= d_availableCount d /\
    d_assignedCount d + d_blockedCount d + d_availableCount d <= rb_physicalCapacityCount b /\
    (operatingStatusFor (cs_schedule cfg) (d_stayDate d) = StatusClosed \/
     d_linkedStopSell d = true -> d_availableCount d = 0).
Proof.
  unfold planPmsInventoryMaterialization. intros H Hd.
  destruct (parse_planner_input input) as [i|] eqn:Ei; [|discriminate].
  pose proof (parse_planner_input_ok _ _ Ei) as Hok.
  apply plan_parsed_run in H as (ds & planned & Hrun).
  rewrite (run_days_eq _ _ _ _ Hok Hrun) in Hd. apply list_elem_of_fmap in Hd as (q & -> & Hq).
  destruct (planned_elem _ _ _ _ Hok Hrun q Hq) as (b & date & Hb & Hdate & Hpk).
  exists (pi_configuration i), b.
  pose proof (pk_wf _ _ _ _ _ Hpk) as Hw. pose proof (pk_settled _ _ _ _ _ Hpk) as Hst.
  pose proof (pk_pair _ _ _ _ _ Hpk) as Hp. injection Hp as Hr Hdt.
  split; [|split; [exact Hb|split; [exact (pk_property _ _ _ _ _ Hpk)|]]].
  { by apply parse_planner_input_inv in Ei as [? _]. }
  pose proof (generated_bound _ Hok b date Hb) as Hg.
  split.
  { unfold isPmsInventoryDayConsistent. rewrite day_value_parse by done.
    rewrite Hr, String.eqb_refl. cbn [andb]. eapply settled_invariant; [exact Hg | exact Hst]. }
  destruct Hst as [Hc Hgn Hs Hph Hl He Ha (Hf1 & Hf2 & Hf3)]. destruct Hw.
  split; [lia|]. rewrite Hdt in *. rewrite <- Hs, Ha. unfold available_of. split.
  - destruct (d_operatingStatus _), (d_linkedStopSell _); lia.
  - intros [->| ->]; [done|]. by destruct (d_operatingStatus _).
Qed.

(** A plan holds one day for every bound room and every date of the horizon,
    in the order of room and date, and its coverage evidence says so. *)
Theorem planned_days_cover_horizon input plan :
  planPmsInventoryMaterialization input = Ok plan ->
  exists cfg from n,
    parseConfiguration (get input "configuration") = Some cfg /\ 1 <= n <= 366 /\
    isoDateTimestamp (get (get input "horizon") "from") = Some from /\
    isoDateTimestamp (get (get input "horizon") "through") = Some (from + n - 1) /\
    ((fun d => (d_roomTypeId d, d_stayDate d)) <$> pm_days plan) =
      pair_keys (rb_roomTypeId <$> si_roomBindings (cs_sourceInputs cfg)) (dates_from from n) /\
    cov_expectedDayCount (pm_coverage plan) = Z.of_nat (length (pm_days plan)) /\
    cov_roomTypeIds (pm_coverage plan) = (rb_roomTypeId <$> si_roomBindings (cs_sourceInputs cfg)) /\
    cov_gaps (pm_coverage plan) = [].
Proof.
  unfold planPmsInventoryMaterialization. intros H.
  destruct (parse_planner_input input) as [i|] eqn:Ei; [|discriminate].
  pose proof (parse_planner_input_ok _ _ Ei) as Hok.
  pose proof (plan_parsed_run _ _ H) as (ds & planned & Hrun).
  pose proof (planned_keys _ _ _ _ Hok Hrun) as Hk.
  rewrite <- (run_days_eq _ _ _ _ Hok Hrun) in Hk.
  apply parse_planner_input_inv in Ei as (Hc & Hd & _).
  unfold horizonDates in Hd. destruct (dataRecord _ _); [|discriminate].
  destruct (isoDateTimestamp (get _ "from")) as [f|] eqn:Ef; [|discriminate].
  destruct (isoDateTimestamp (get _ "through")) as [t|] eqn:Et; [|discriminate].
  destruct (_ || _) eqn:E; [discriminate|]. injection Hd as Hd.
  apply orb_false_iff in E as [E1 E2]. rewrite Z.ltb_ge in E1, E2.
  unfold PMS_INVENTORY_HORIZON_MAX_DAYS in E2.
  exists (pi_configuration i), f, (t - f + 1).
  rewrite (run_coverage _ _ _ _ Hrun). cbn [cov_expectedDayCount cov_roomTypeIds cov_gaps].
  split; [done|]. split; [lia|]. split; [done|]. split; [f_equal; lia|].
  split; [by rewrite Hd|]. split; [done|]. split; [|done].
  pose proof (stable_sort_key_id (fun s => s) (rb_roomTypeId <$> bindings_of (pi_configuration i))) as Hid.
  apply Hid. rewrite fmap_id_Forall by by apply Forall_forall. exact (rooms_sorted _ Hok).
Qed.

(** The plan keeps what other owners wrote: every stored day has a planned
    day of the same room and date with the same limits of the channel and the
    manager, bookings, blocks, linked stop-sell and owner revisions, and its
    inventory revision advances by one exactly when the day changed. *)
Theorem planned_days_keep_owner_state input plan v current :
  planPmsInventoryMaterialization input = Ok plan ->
  v ∈ default [] (denseArray (get input "currentDays")) -> parseCurrentDay v = Some current ->
  exists d, d ∈ pm_days plan /\ owner_state d = owner_state current /\
    (d = current /\ ~ d ∈ pm_changedDays plan \/
     d_inventoryRevision d = d_inventoryRevision current + 1 /\ d ∈ pm_changedDays plan).
Proof.
  unfold planPmsInventoryMaterialization. intros H Hv Hp.
  destruct (parse_planner_input input) as [i|] eqn:Ei; [|discriminate].
  pose proof (parse_planner_input_ok _ _ Ei) as Hok.
  apply parse_planner_input_inv in Ei as (_ & _ & _ & _ & Hcur).
  apply plan_parsed_run in H as (ds & planned & Hrun).
  pose proof (run_stored _ _ _ _ Hrun) as Ht. rewrite Hcur in Ht.
  assert (Hds : current ∈ ds).
  { apply traverse_Some in Ht. apply list_elem_of_lookup in Hv as [k Hk].
    destruct (Forall2_lookup_l _ _ _ _ _ Ht Hk) as (d & Hd & E).
    rewrite Hp in E. injection E as <-. by eapply list_elem_of_lookup_2. }
  destruct (stored_planned _ _ _ _ Hok Hrun current Hds)
    as (b & q & Hb & Hq & Hex & Hpk & Hpair & Ho & Hch).
  exists (pl_day q). split; [|split; [done|]].
  { rewrite (run_days_eq _ _ _ _ Hok Hrun). by apply list_elem_of_fmap_2. }
  assert (Hmem : forall d, d ∈ pm_changedDays plan <->
    exists q', q' ∈ planned /\ d = pl_day q' /\ (pl_existing q' = false \/ pl_changed q' = true)).
  { intros d. rewrite (run_changed _ _ _ _ Hrun), elem_of_stable_sort, list_elem_of_fmap.
    split.
    - intros (q' & -> & Hq')%id. apply list_elem_of_In, List.filter_In in Hq' as [H1 H2].
      exists q'. rewrite list_elem_of_In. split_and!; auto.
      apply orb_true_iff in H2 as [H2|H2]; [left; by apply negb_true_iff | by right].
    - intros (q' & H1 & -> & H2). exists q'. split; [done|].
      apply list_elem_of_In, List.filter_In. rewrite <- list_elem_of_In. split; [done|].
      destruct H2 as [-> | ->]; cbn; [done | by rewrite orb_true_r]. }
  destruct (pl_changed q) eqn:Ec; [right | left]; split; try done.
  - apply Hmem. exists q. auto.
  - rewrite Hmem. intros (q' & Hq' & E & Hor).
    assert (Hpair' : pair_of (pl_day q') = pair_of current).
    { rewrite <- E, (pk_pair _ _ _ _ _ Hpk). by rewrite Hpair. }
    destruct (planned_inv_changed _ _ _ _ Hok Hrun q' current Hq' Hds Hpair') as (He & _ & Hc').
    destruct Hor as [Hor|Hor]; [congruence|]. apply (Hc' Hor). by rewrite <- E.
Qed.

(** The same input with other stored days. *)
Definition with_days (i : planner_input) (days : list PmsInventoryDaySnapshot) : planner_input :=
  {| pi_configuration := pi_configuration i; pi_previous := pi_previous i;
     pi_from := pi_from i; pi_through := pi_through i; pi_dates := pi_dates i;
     pi_overrides := pi_overrides i; pi_currentDays := day_value <$> days |}.

Section Replan.
Variables (i : planner_input) (ds : list PmsInventoryDaySnapshot)
  (planned : list planned_day) (p : PmsInventoryMaterializationPlan).
Hypothesis Hok : input_ok i.
Hypothesis Hrun : plan_run i ds planned p.

Let cfg := pi_configuration i.
Let days := pm_days p.

Lemma replan_day d : d ∈ days -> exists b date q, b ∈ bindings_of cfg /\ date ∈ pi_dates i /\
  q ∈ planned /\ d = pl_day q /\ planned_ok i ds b date q.
Proof.
  unfold days. rewrite (run_days_eq _ _ _ _ Hok Hrun). intros (q & -> & Hq)%list_elem_of_fmap.
  destruct (planned_elem _ _ _ _ Hok Hrun q Hq) as (b & date & ? & ? & ?). eauto 10.
Qed.

Lemma replan_traverse : traverse parseCurrentDay (day_value <$> days) = Some days.
Proof.
  apply (traverse_fmap_Forall day_wf); [exact day_value_parse|]. rewrite Forall_forall.
  intros d (b & date & q & _ & _ & _ & -> & Hpk)%replan_day. exact (pk_wf _ _ _ _ _ Hpk).
Qed.

Lemma replan_scope : Forall (in_scope cfg (pi_dates i)) days.
Proof.
  rewrite Forall_forall. intros d (b & date & q & Hb & Hd & _ & -> & Hpk)%replan_day.
  pose proof (pk_pair _ _ _ _ _ Hpk) as [= E1 E2]. unfold in_scope.
  rewrite E1, E2. split; [exact (pk_property _ _ _ _ _ Hpk)|]. split; [|done].
  by apply list_elem_of_fmap_2.
Qed.

Lemma replan_keys : NoDup (key_of <$> days).
Proof.
  change key_of with ((fun k => dayKey (fst k) (snd k)) ∘ pair_of). rewrite list_fmap_compose.
  apply NoDup_fmap_2_strong; [|exact (run_keys_NoDup _ _ _ _ Hok Hrun)].
  intros x y (d & -> & Hx)%list_elem_of_fmap (d' & -> & Hy)%list_elem_of_fmap E.
  pose proof replan_scope as Hs. rewrite Forall_forall in Hs.
  destruct (Hs _ Hx) as (_ & Hr & _), (Hs _ Hy) as (_ & Hr' & _). cbn in E.
  unfold pair_of. apply dayKey_inj in E as [-> ->]; [done| |];
    by eapply room_uuid; [exact (io_configuration i Hok)|].
Qed.

(** Every date of the horizon has one planned day per room. *)
Lemma replan_count date :
  date ∈ pi_dates i ->
  day_count (stored_counts days) date = Z.of_nat (length (bindings_of cfg)).
Proof.
  intros Hd. unfold stored_counts. rewrite day_count_add_dates. unfold day_count at 1.
  rewrite lookup_empty. cbn [default]. rewrite Z.add_0_l. f_equal.
  transitivity (length (List.filter (fun k => String.eqb (snd k) date) (pair_of <$> days))).
  { clear Hd. generalize days as l. induction l as [|d r IH]; [done|]. cbn.
    destruct (String.eqb (d_stayDate d) date); cbn; by rewrite IH. }
  unfold days. rewrite (run_days_eq _ _ _ _ Hok Hrun), (planned_keys _ _ _ _ Hok Hrun).
  fold cfg. pose proof (sorted_by_NoDup _ (horizon_sorted i Hok)) as Hnd.
  transitivity (length (rb_roomTypeId <$> bindings_of cfg)); [|by rewrite length_fmap].
  generalize (rb_roomTypeId <$> bindings_of cfg) as rooms.
  induction rooms as [|r rooms IH]; [done|]. unfold pair_keys in *. cbn [mbind list_bind].
  rewrite List.filter_app, length_app, IH. cbn [length]. f_equal. clear -Hd Hnd.
  induction Hnd as [|x l Hx Hl IHl]; [by apply not_elem_of_nil in Hd|]. cbn [fmap list_fmap List.filter].
  cbn [snd]. destruct (String.eqb_spec x date) as [->|Hne].
  - cbn [length]. f_equal. clear -Hx. induction l as [|y l IH]; [done|]. cbn.
    apply not_elem_of_cons in Hx as [Hxy Hx]. destruct (String.eqb_spec y date); [congruence|]. auto.
  - apply IHl. apply elem_of_cons in Hd as [->|?]; done.
Qed.

Lemma replan_coverage dates :
  (forall d, d ∈ dates -> d ∈ pi_dates i) ->
  check_coverage (stored_counts days) (Z.of_nat (length (bindings_of cfg))) dates false = Ok false.
Proof.
  intros Hin. induction dates as [|d r IH]; [done|]. cbn [check_coverage].
  rewrite replan_count by (apply Hin; left).
  assert (Hne : Z.of_nat (length (bindings_of cfg)) <> 0).
  { destruct (so_bindings _ (io_configuration i Hok)) as [Hne _]. fold cfg in Hne.
    unfold bindings_of. destruct (si_roomBindings (cs_sourceInputs cfg)); [done|cbn; lia]. }
  rewrite (proj2 (Z.eqb_neq _ _) Hne), Z.eqb_refl. cbn [negb andb].
  apply IH. intros x Hx. apply Hin. by right.
Qed.

Lemma replan_lookup b date q :
  b ∈ bindings_of cfg -> q ∈ planned -> planned_ok i ds b date q ->
  stored_map days !! dayKey (rb_roomTypeId b) date = Some (pl_day q).
Proof.
  intros Hb Hq Hpk. unfold stored_map. apply lookup_add_keys.
  - exact replan_keys.
  - by apply Forall_forall.
  - right. unfold days. rewrite (run_days_eq _ _ _ _ Hok Hrun).
    split; [by apply list_elem_of_fmap_2|]. pose proof (pk_pair _ _ _ _ _ Hpk) as [= E1 E2].
    unfold key_of. by rewrite E1, E2.
Qed.

Definition settled_plan (q : planned_day) : planned_day :=
  {| pl_existing := true; pl_day := pl_day q; pl_changed := false |}.

Lemma replan_loop :
  plan_loop (plan_one cfg (pi_overrides i) (stored_map days))
    (room_dates (bindings_of cfg) (pi_dates i)) = Ok (settled_plan <$> planned).
Proof.
  apply plan_loop_Ok, Forall2_fmap_r. pose proof (planned_all _ _ _ _ Hok Hrun) as Hall.
  apply Forall2_same_length_lookup. split; [by apply Forall2_length in Hall|].
  intros k [b date] q Hpr Hq. cbn [fst snd compose].
  pose proof (Forall2_lookup_lr _ _ _ _ _ _ Hall Hpr Hq) as Hpk. cbn [fst snd] in Hpk.
  apply list_elem_of_lookup_2 in Hpr, Hq. apply elem_of_room_dates in Hpr as [Hb Hd].
  unfold plan_one. cbv zeta. rewrite (replan_lookup b date q Hb Hq Hpk).
  fold (generated_for i b date).
  erewrite settled_unchanged; [done| |exact (pk_settled _ _ _ _ _ Hpk)].
  by apply generated_bound.
Qed.

Lemma replan_no_new_rooms :
  new_empty_room_count (bindings_of cfg) (pi_previous i)
    (rooms_with_days (day_value <$> days)) = 0.
Proof.
  unfold new_empty_room_count. destruct (pi_previous i) as [prev|]; [|done].
  assert (Hrooms : rooms_with_days (day_value <$> days) = d_roomTypeId <$> days).
  { unfold rooms_with_days. rewrite <- list_fmap_compose. done. }
  rewrite Hrooms. match goal with |- Z.of_nat (length (List.filter ?f ?l)) = 0 =>
    assert (List.filter f l = []) as ->; [|done] end.
  apply elem_of_nil_inv. intros b Hb%list_elem_of_In%List.filter_In.
  destruct Hb as [Hb Hf]. apply andb_true_iff in Hf as [_ Hf].
  apply negb_true_iff, has_string_not_elem in Hf. apply Hf.
  apply list_elem_of_In in Hb.
  destruct (io_dates i Hok) as (f & n & Hdates & Hn & _).
  assert (Hd : iso_date f ∈ pi_dates i).
  { rewrite Hdates. apply elem_of_dates_from. exists f. split; [done|lia]. }
  assert (Hin : (rb_roomTypeId b, iso_date f) ∈ (pair_of <$> days)).
  { unfold days. rewrite (run_days_eq _ _ _ _ Hok Hrun), (planned_keys _ _ _ _ Hok Hrun).
    apply elem_of_pair_keys. split; [|done]. by apply list_elem_of_fmap_2. }
  apply list_elem_of_fmap in Hin as (d & E & Hin). injection E as E _. rewrite E.
  by apply list_elem_of_fmap_2.
Qed.

Lemma replan_nonempty : length days <> 0%nat.
Proof.
  intros E. apply nil_length_inv in E.
  destruct (io_dates i Hok) as (f & n & Hdates & Hn & _).
  destruct (so_bindings _ (io_configuration i Hok)) as [Hne _].
  destruct (si_roomBindings (cs_sourceInputs (pi_configuration i))) as [|b r] eqn:Eb; [done|].
  assert (Hin : (rb_roomTypeId b, iso_date f) ∈ (pair_of <$> days)).
  { unfold days. rewrite (run_days_eq _ _ _ _ Hok Hrun), (planned_keys _ _ _ _ Hok Hrun).
    apply elem_of_pair_keys. unfold bindings_of. rewrite Eb. split; [left|].
    rewrite Hdates. apply elem_of_dates_from. exists f. split; [done|lia]. }
  rewrite E in Hin. by apply not_elem_of_nil in Hin.
Qed.
End Replan.

(** Planning again over the days of a plan changes nothing: the outcome is
    [Unchanged], the days are the same and none of them is reported as changed. *)
Theorem replan_unchanged input i plan :
  parse_planner_input input = Ok i -> plan_parsed i = Ok plan ->
  plan_parsed (with_days i (pm_days plan)) =
  Ok {| pm_outcome := Unchanged; pm_days := pm_days plan; pm_changedDays := [];
        pm_coverage := pm_coverage plan |}.
Proof.
  intros Hi Hp. pose proof (parse_planner_input_ok _ _ Hi) as Hok.
  destruct (plan_parsed_run _ _ Hp) as (ds & planned & Hrun).
  unfold plan_parsed. cbv zeta. unfold with_days. cbn [pi_configuration pi_previous pi_from
    pi_through pi_dates pi_overrides pi_currentDays].
  replace (scan_days _ _ _ _ _ _) with
    (@Ok PmsInventoryMaterializationPlanError _ (stored_map (pm_days plan), stored_counts (pm_days plan))).
  2: { symmetry. apply scan_days_Ok. exists (pm_days plan). split_and!; try done.
       - exact (replan_traverse _ _ _ _ Hok Hrun).
       - exact (replan_scope _ _ _ _ Hok Hrun).
       - exact (replan_keys _ _ _ _ Hok Hrun).
       - by apply Forall_forall. }
  fold (bindings_of (pi_configuration i)).
  rewrite (replan_no_new_rooms _ _ _ _ Hok Hrun), Z.sub_0_r.
  rewrite (replan_coverage _ _ _ _ Hok Hrun) by done.
  rewrite (replan_loop _ _ _ _ Hok Hrun), length_fmap.
  rewrite (proj2 (Nat.eqb_neq _ _) (replan_nonempty _ _ _ _ Hok Hrun)).
  assert (E : pl_day <$> (settled_plan <$> planned) = pl_day <$> planned)
    by by rewrite <- list_fmap_compose.
  rewrite E.
  replace (existsb _ _) with false.
  2: { symmetry. clear. induction planned as [|q r IH]; [done|]. exact IH. }
  replace (List.filter _ _) with (@nil planned_day).
  2: { symmetry. clear. induction planned as [|q r IH]; [done|]. exact IH. }
  cbn [orb fmap list_fmap]. rewrite <- (run_days _ _ _ _ Hrun), (run_coverage _ _ _ _ Hrun). done.
Qed.

(** ** The tail plan *)

Lemma scan_tail_retained cfg bound prev dates idx raws keys byDate byDate' :
  scan_tail cfg bound prev dates idx raws keys byDate = Ok byDate' ->
  Forall (fun v => exists d, parseCurrentDay v = Some d /\ d_roomTypeId d ∈ prev /\
    d_stayDate d ∈ dates /\ rv_generated (d_sourceRevisions d) <= cs_calendarRevision cfg) raws.
Proof.
  revert idx keys byDate. induction raws as [|v r IH]; intros idx keys byDate H; [constructor|].
  cbn [scan_tail] in H. destruct (parseCurrentDay v) as [d|] eqn:Ed; [|discriminate]. cbv zeta in H.
  destruct (_ || _ || _) eqn:E1 in H; [discriminate|]. destruct (bool_decide _); [discriminate|].
  destruct (negb (has_string prev _)) eqn:E2 in H; [discriminate|].
  destruct (_ <? _) eqn:E3 in H; [discriminate|]. constructor; [|by eapply IH].
  apply orb_false_iff in E1 as [_ E1]. apply negb_false_iff, has_string_elem in E1, E2.
  apply Z.ltb_ge in E3. eauto.
Qed.

Lemma tail_dates from n : 1 <= n -> tail (dates_from from n) = dates_from (from + 1) (n - 1).
Proof.
  intros Hn. unfold dates_from. rewrite seqZ_cons by lia. cbn [fmap list_fmap tail].
  do 2 f_equal; lia.
Qed.

Lemma sorted_by_filter {A} (key : A -> string) (f : A -> bool) l :
  sorted_by str_lt (key <$> l) = true -> sorted_by str_lt (key <$> List.filter f l) = true.
Proof.
  intros H%strictly_sorted_strong.
  assert (Hs : StronglySorted (fun a b => str_lt (key a) (key b) = true) (List.filter f l)).
  { apply StronglySorted_filter. clear f. induction l as [|x r IH]; constructor.
    - apply IH. by inversion H.
    - inversion H as [|? ? _ Hx]; subst. by apply Forall_fmap in Hx. }
  clear H. induction Hs as [|x r Hr IH Hx]; [done|]. cbn [fmap list_fmap].
  destruct r as [|y r]; [done|]. cbn [fmap list_fmap sorted_by] in *.
  rewrite IH, andb_true_r. by inversion Hx.
Qed.

(** The tail plan adds rows for the rooms the previous calendar did not have,
    one for each date after the horizon up to the stored tail, every one
    consistent with its room; the stored rows it was computed from all belong
    to retained rooms, so no stored row is changed. *)
Theorem tail_days_spec input days :
  planPmsInventoryRoomAdditionTail input = Ok days ->
  exists cfg previous anchor through,
    parseConfiguration (get input "configuration") = Some cfg /\
    parseConfiguration (get input "previousConfiguration") = Some previous /\
    isoDateTimestamp (get (get input "horizon") "through") = Some anchor /\
    isoDateTimestamp (get input "tailThrough") = Some through /\
    let old := rb_roomTypeId <$> si_roomBindings (cs_sourceInputs previous) in
    let added := List.filter (fun b => negb (has_string old (rb_roomTypeId b)))
                   (si_roomBindings (cs_sourceInputs cfg)) in
    (pair_of <$> days) =
      pair_keys (rb_roomTypeId <$> added) (dates_from (anchor + 1) (through - anchor)) /\
    Forall (fun d => exists b, b ∈ added /\ isPmsInventoryDayConsistent (day_value d) b = true /\
                     d_propertyId d = cs_propertyId cfg) days /\
    Forall (fun v => exists d, parseCurrentDay v = Some d /\ d_roomTypeId d ∈ old)
      (default [] (denseArray (get input "currentDays"))).
Proof.
  unfold planPmsInventoryRoomAdditionTail. intros H.
  destruct (dataRecord input _); [|discriminate].
  destruct (denseArray _) as [cur|]; [|discriminate].
  destruct (parseConfiguration (get input "configuration")) as [cfg|] eqn:Ec; [|discriminate].
  destruct (parseConfiguration (get input "previousConfiguration")) as [prev|]; [|discriminate].
  destruct (_ || _) in H; [discriminate|]. cbv zeta in H.
  destruct (dataRecord _ _); [|discriminate].
  destruct (isoDateTimestamp (get _ "from")) as [from|]; [|discriminate].
  destruct (isoDateTimestamp (get _ "through")) as [anchor|] eqn:Ea; [|discriminate].
  destruct (isoDateTimestamp (get _ "tailThrough")) as [through|] eqn:Et; [|discriminate].
  destruct (_ || _ || _) eqn:E in H; [discriminate|].
  destruct (Nat.eqb _ _); [discriminate|].
  destruct (scan_tail _ _ _ _ _ _ _ _) as [byDate|] eqn:Es; [|discriminate].
  destruct (check_tail _ _ _); [|discriminate]. injection H as <-.
  rewrite !orb_false_iff, !Z.ltb_ge, Z.leb_gt in E. destruct E as ((E1 & E2) & E3).
  exists cfg, prev, anchor, through. cbv zeta. do 4 (split; [done|]).
  rewrite tail_dates by lia. replace (through - anchor + 1 - 1) with (through - anchor) by lia.
  apply timestamp_range in Ea, Et. apply configuration_ok in Ec.
  pose proof (so_capacity _ Ec) as Hcap. destruct (so_bindings _ Ec) as [_ Hsort].
  match goal with |- context [List.filter ?f ?l] => set (added := List.filter f l) end.
  assert (Hadded : forall b, b ∈ added -> b ∈ bindings_of cfg).
  { intros b Hb. apply list_elem_of_In, List.filter_In in Hb as [Hb _]. by apply list_elem_of_In. }
  assert (Hkeys : forall pairs, pair_of <$> ((fun pr : PmsOperatingCalendarRoomBinding * string =>
      newDay cfg pr.1 pr.2 (rb_startingSellableLimitCount pr.1)) <$> pairs) =
      (fun pr => (rb_roomTypeId (fst pr), snd pr)) <$> pairs)
    by (intros pairs; by rewrite <- list_fmap_compose).
  rewrite stable_sort_id.
  - split; [by rewrite Hkeys, room_dates_keys|]. split.
    + rewrite Forall_fmap, Forall_forall. intros [b date] [Hb Hd]%elem_of_room_dates. cbn.
      exists b. split; [done|]. split; [|done]. unfold isPmsInventoryDayConsistent.
      pose proof (binding_capacity _ _ Ec (Hadded b Hb)) as [Hc1 Hc2].
      apply elem_of_dates_from in Hd as (k & -> & Hk).
      rewrite day_value_parse.
      * cbn [d_roomTypeId newDay]. rewrite String.eqb_refl. cbn [andb].
        eapply settled_invariant; [|apply new_day_settled]; lia.
      * apply new_day_wf; [lia | lia | exact (so_revision _ Ec)|].
        rewrite timestamp_iso_date; [done | unfold timestamp_day in *; lia].
    + eapply Forall_impl; [exact (scan_tail_retained _ _ _ _ _ _ _ _ _ Es)|].
      intros v (d & Hd & Hr & _). eauto.
  - apply days_sorted. rewrite Hkeys, room_dates_keys. apply pair_keys_sorted.
    + by apply sorted_by_filter.
    + replace (through - anchor) with (Z.of_nat (Z.to_nat (through - anchor))) by lia.
      apply dates_from_sorted. intros k Hk. apply timestamp_four_digit.
      unfold timestamp_day in *. lia.
Qed.
