(* ===== verification/CalendarAutoOpen.v ===== *)
(** * Automatic opening of the calendar

    packages/domain-pms/src/calendarAutoOpen.ts: the setting that keeps the calendar
    of a property open for some months, the horizon it asks for on a day, and the
    canonical source whose fingerprint starts a materialization. *)

From S2P Require Import Prelude JsValue JsonText CalendarDates OperatingSchedule OperatingCalendar InventoryPlanner.

(** [Intl.DateTimeFormat("en-CA", { timeZone, ... })]: the year, month and day of an
    instant in a zone, joined by dashes, or [None] when the zone is refused *)
Class ZonedDays := zoned_day : Z -> string -> option string.

(** [Number.isFinite(Date.parse(text))] of any text: beyond the standard format what
    is read depends on the engine *)
Class DateReader := readable_date : string -> bool.

(** ** The setting *)

Inductive AutoOpenMode := rolling | fixed.

Record PmsCalendarAutoOpenConfiguration := {
  enabled : bool;
  openMode : AutoOpenMode;
  rollingMonths : option Z;
  fixedEndMonth : option string
}.

Record PmsCalendarAutoOpenSetting := {
  settingPropertyId : string;
  settingRevision : Z;
  updatedAt : option string;
  configuration : PmsCalendarAutoOpenConfiguration
}.

Record PmsCalendarAutoOpenHorizon := {
  horizonTimeZone : string;
  propertyLocalDate : string;
  targetOpenThrough : option string
}.

Definition PMS_CALENDAR_AUTO_OPEN_CONTRACT_VERSION : string := "pms-calendar-auto-open.v1".
Definition PMS_CALENDAR_AUTO_OPEN_SOURCE_CONTRACT_VERSION : string := "pms-calendar-auto-open-source.v1".
Definition PMS_CALENDAR_AUTO_OPEN_ROLLING_MONTHS : list Z := [12; 18; 24].
Definition PMS_CALENDAR_AUTO_OPEN_MAX_FIXED_MONTHS : Z := 24.

Definition PMS_CALENDAR_AUTO_OPEN_DEFAULT_CONFIGURATION : PmsCalendarAutoOpenConfiguration :=
  {| enabled := true; openMode := rolling; rollingMonths := Some 12; fixedEndMonth := None |}.

(** [FIXED_MONTH.exec(value)], as the numbers of its groups *)
Definition FIXED_MONTH (s : string) : option (Z * Z) :=
  let? (y, m, _) := parse_ymd (s +:+ "-01") in
  guard? (1 <=? m) && (m <=? 12) in
  Some (y, m).

(** The guard of a configuration, with the value it narrows *)
Definition isPmsCalendarAutoOpenConfiguration (v : jsval) : option PmsCalendarAutoOpenConfiguration :=
  guard? is_object v in
  let? on := as_bool (get v "enabled") in
  if is_str (get v "mode") "rolling" then
    match get v "rollingMonths" with
    | VInt n =>
        guard? existsb (Z.eqb n) PMS_CALENDAR_AUTO_OPEN_ROLLING_MONTHS && is_null (get v "fixedEndMonth") in
        Some {| enabled := on; openMode := rolling; rollingMonths := Some n; fixedEndMonth := None |}
    | _ => None
    end
  else
    guard? is_str (get v "mode") "fixed" && is_null (get v "rollingMonths") in
    let? s := as_string (get v "fixedEndMonth") in
    let? (y, _) := FIXED_MONTH s in
    guard? 0 <? y in
    Some {| enabled := on; openMode := fixed; rollingMonths := None; fixedEndMonth := Some s |}.

(** The guard of a setting, with the value it narrows *)
Definition isPmsCalendarAutoOpenSetting `{DateReader} (v : jsval) : option PmsCalendarAutoOpenSetting :=
  guard? is_object v && is_str (get v "contractVersion") PMS_CALENDAR_AUTO_OPEN_CONTRACT_VERSION in
  let? p := as_string (get v "propertyId") in
  guard? negb (String.eqb p EmptyString) in
  let? n := match get v "revision" with VInt n => Some n | _ => None end in
  guard? safe_integer n && (0 <=? n) in
  let? at_ :=
    match get v "updatedAt" with
    | VNull => Some None
    | VString s => guard? readable_date s in Some (Some s)
    | _ => None
    end in
  let? c := isPmsCalendarAutoOpenConfiguration v in
  Some {| settingPropertyId := p; settingRevision := n; updatedAt := at_; configuration := c |}.

(** The same guard on a configuration *)
Definition configuration_ok (c : PmsCalendarAutoOpenConfiguration) : bool :=
  match openMode c, rollingMonths c, fixedEndMonth c with
  | rolling, Some n, None => existsb (Z.eqb n) PMS_CALENDAR_AUTO_OPEN_ROLLING_MONTHS
  | fixed, None, Some s => match FIXED_MONTH s with Some (y, _) => 0 <? y | None => false end
  | _, _, _ => false
  end.

Lemma accepted_configuration v c : isPmsCalendarAutoOpenConfiguration v = Some c -> configuration_ok c = true.
Proof.
  unfold isPmsCalendarAutoOpenConfiguration. destruct (is_object v); [|done]. destruct (as_bool _) as [on|]; [|done].
  cbn [mbind option_bind]. destruct (is_str (get v "mode") "rolling").
  - destruct (get v "rollingMonths") as [| | |n| | | | |]; try done. destruct (existsb (Z.eqb n) _) eqn:E; [|done].
    cbn [andb]. destruct (is_null _); [|done]. by intros [= <-].
  - destruct (_ && _); [|done]. destruct (as_string _) as [s|]; [|done]. cbn [mbind option_bind].
    destruct (FIXED_MONTH s) as [[y m]|] eqn:E; [|done]. cbn [mbind option_bind]. destruct (Z.ltb_spec 0 y); [|done].
    intros [= <-]. unfold configuration_ok. cbn [openMode rollingMonths fixedEndMonth]. rewrite E. by apply Z.ltb_lt.
Qed.

Lemma accepted_setting `{DateReader} v s : isPmsCalendarAutoOpenSetting v = Some s -> configuration_ok (configuration s) = true.
Proof.
  unfold isPmsCalendarAutoOpenSetting. intros H0. repeat (case_match; try done; cbn [mbind option_bind] in * ).
  all: by injection H0 as <-; eapply accepted_configuration.
Qed.

(** ** The horizon *)

(** [new Date(Date.UTC(year, month + 1, 0)).toISOString().slice(0, 10)] *)
Definition month_end_day (y m0 : Z) : Z := date_utc y (m0 + 1) 0.
Definition monthEnd (y m0 : Z) : string := iso_date (month_end_day y m0).

Section Horizon.
Context `{ZonedDays}.

(** The numbers of a local date, or an error; [None] is an invalid [Date]. *)
Definition localDate (instant : option Z) (timeZone : string) : exn (string * (Z * Z)) :=
  match instant with
  | None => Throw "Evaluation instant is invalid"
  | Some t =>
      match zoned_day t timeZone with
      | None => Throw "RangeError"
      | Some s =>
          match parse_ymd s with
          | Some (y, m, d) =>
              if (1 <=? m) && (m <=? 12) && (1 <=? d) && (d <=? 31) then Ret (s, (y, m))
              else Throw "Property timezone did not produce a local date"
          | None => Throw "Property timezone did not produce a local date"
          end
      end
  end.

(** The end month is one that the guard of a configuration accepts. *)
Definition calculatePmsCalendarAutoOpenHorizon (setting : PmsCalendarAutoOpenSetting) (timeZone : string)
    (instant : option Z) : exn PmsCalendarAutoOpenHorizon :=
  try! (today, (y, m)) := localDate instant timeZone in
  let c := configuration setting in
  try! target :=
    if enabled c then
      match openMode c with
      | rolling => Ret (Some (monthEnd y (m - 1 + default 0 (rollingMonths c))))
      | fixed =>
          match fixedEndMonth c with
          | Some s => match FIXED_MONTH s with Some (fy, fm) => Ret (Some (monthEnd fy (fm - 1))) | None => Throw "RangeError" end
          | None => Throw "TypeError"
          end
      end
    else Ret None in
  Ret {| horizonTimeZone := timeZone; propertyLocalDate := today; targetOpenThrough := target |}.

Definition isPmsCalendarAutoOpenFixedTargetWithinLimit (c : PmsCalendarAutoOpenConfiguration) (timeZone : string)
    (instant : option Z) : exn bool :=
  match openMode c, fixedEndMonth c with
  | rolling, _ => Ret true
  | fixed, None => Ret false
  | fixed, Some s =>
      try! (_, (y, m)) := localDate instant timeZone in
      let maximumMonth := substring 0 7 (monthEnd y (m - 1 + PMS_CALENDAR_AUTO_OPEN_MAX_FIXED_MONTHS)) in
      Ret (str_le s maximumMonth)
  end.
End Horizon.

(** ** The source of a materialization *)

Record AutoOpenRoom := { openRoomTypeId : string; openRoomFacts : Z; openRoomUnits : Z }.
Record AutoOpenPlan := { planRoomTypeId : string; flexibleRatePlanRevision : Z }.

Record PmsCalendarAutoOpenSource := {
  sourceSettingRevision : Z;
  sourceProfileRevision : Z;
  sourceTimeZone : string;
  sourceCalendarRevision : Z;
  sourceRooms : list AutoOpenRoom;
  pricingCurrencyRevision : Z;
  flexibleRatePlans : list AutoOpenPlan;
  optionalPricingRevision : Z
}.

(** [sort(byRoomTypeId)] *)
Definition byRoomTypeId {A} (key : A -> string) (l : list A) : list A := stable_sort (key_le key) l.

Definition positive_revision (n : Z) : bool := safe_integer n && (0 <? n).

(** Whether an entry has the key of the one before it *)
Fixpoint repeats {A} (key : A -> string) (l : list A) : bool :=
  match l with
  | x :: (y :: _) as r => String.eqb (key x) (key y) || repeats key r
  | _ => false
  end.

Definition room_refused (r : AutoOpenRoom) : bool :=
  String.eqb (openRoomTypeId r) EmptyString || negb (positive_revision (openRoomFacts r)) || negb (positive_revision (openRoomUnits r)).

Definition plan_refused (p : AutoOpenPlan) : bool :=
  String.eqb (planRoomTypeId p) EmptyString || negb (positive_revision (flexibleRatePlanRevision p)).

Definition assertSource (s : PmsCalendarAutoOpenSource) (rooms : list AutoOpenRoom) (plans : list AutoOpenPlan) : exn unit :=
  if negb (safe_integer (sourceSettingRevision s)) || (sourceSettingRevision s <? 0) ||
     negb (positive_revision (sourceProfileRevision s)) || negb (positive_revision (sourceCalendarRevision s)) ||
     negb (String.eqb (trim (sourceTimeZone s)) (sourceTimeZone s)) || String.eqb (sourceTimeZone s) EmptyString ||
     (length rooms =? 0)%nat || existsb room_refused rooms || repeats openRoomTypeId rooms ||
     negb (positive_revision (pricingCurrencyRevision s)) ||
     negb (safe_integer (optionalPricingRevision s)) || (optionalPricingRevision s <? 0) ||
     existsb plan_refused plans || repeats planRoomTypeId plans
  then Throw "PMS calendar auto-open source is invalid" else Ret tt.

Definition createPmsCalendarAutoOpenSource (input : PmsCalendarAutoOpenSource) : exn PmsCalendarAutoOpenSource :=
  let rooms := byRoomTypeId openRoomTypeId (sourceRooms input) in
  let plans := byRoomTypeId planRoomTypeId (flexibleRatePlans input) in
  try! _ := assertSource input rooms plans in
  Ret {| sourceSettingRevision := sourceSettingRevision input;
         sourceProfileRevision := sourceProfileRevision input;
         sourceTimeZone := sourceTimeZone input;
         sourceCalendarRevision := sourceCalendarRevision input;
         sourceRooms := rooms;
         pricingCurrencyRevision := pricingCurrencyRevision input;
         flexibleRatePlans := plans;
         optionalPricingRevision := optionalPricingRevision input |}.

Definition open_room_value (r : AutoOpenRoom) : jsval :=
  obj [("roomTypeId", VString (openRoomTypeId r)); ("roomFactsRevision", VInt (openRoomFacts r));
       ("roomUnitsRevision", VInt (openRoomUnits r))].

Definition open_plan_value (p : AutoOpenPlan) : jsval :=
  obj [("roomTypeId", VString (planRoomTypeId p)); ("flexibleRatePlanRevision", VInt (flexibleRatePlanRevision p))].

Definition open_source_value (s : PmsCalendarAutoOpenSource) : jsval :=
  obj [("contractVersion", VString PMS_CALENDAR_AUTO_OPEN_SOURCE_CONTRACT_VERSION);
       ("settingRevision", VInt (sourceSettingRevision s));
       ("propertyProfileRevision", VInt (sourceProfileRevision s));
       ("propertyTimeZone", VString (sourceTimeZone s));
       ("operatingCalendarRevision", VInt (sourceCalendarRevision s));
       ("rooms", arr (open_room_value <$> sourceRooms s));
       ("pricing", obj [("pricingCurrencyRevision", VInt (pricingCurrencyRevision s));
                        ("flexibleRatePlans", arr (open_plan_value <$> flexibleRatePlans s));
                        ("optionalPricingAggregateRevision", VInt (optionalPricingRevision s))])].

(** [createHash("sha256").update(JSON.stringify(source)).digest("hex")] *)
Definition fingerprintPmsCalendarAutoOpenSource (sha256 : string -> string) (s : PmsCalendarAutoOpenSource) : string :=
  sha256 (json_text (open_source_value s)).

(** ** The last day of a month *)

(** Months counted from the year 0 *)
Definition month_index (y m : Z) : Z := 12 * y + m - 1.

Lemma make_day_carry y q k d : make_day y (12 * q + k) d = make_day (y + q) k d.
Proof.
  unfold make_day. replace ((12 * q + k) / 12) with (q + k / 12) by div_lia. replace ((12 * q + k) mod 12) with (k mod 12) by div_lia.
  by rewrite Z.add_assoc.
Qed.

Lemma month_end_index y m0 : 100 <= y -> exists y' m', 1 <= m' <= 12 /\ month_index y' m' = 12 * y + m0 /\
  month_end_day y m0 = make_day y' (m' - 1) (days_in_month (leap_year y') m').
Proof.
  intros Hy. exists (y + m0 / 12), (m0 mod 12 + 1). pose proof (Z.div_mod m0 12 ltac:(lia)) as Hd.
  pose proof (Z.mod_pos_bound m0 12 ltac:(lia)) as Hm. unfold month_index, month_end_day. split_and!; [lia | lia | lia |].
  rewrite date_utc_make_day, <- last_of_month by lia. rewrite Hd at 1. by rewrite <- Z.add_assoc, make_day_carry.
Qed.

Lemma leap_fourth y : leap_year y = true -> y mod 4 = 0.
Proof. unfold leap_year. intros [H _]%andb_true_iff. by apply Z.eqb_eq. Qed.

Lemma valid_month_end y m : 1 <= m <= 12 -> valid_civil y m (days_in_month (leap_year y) m) = true.
Proof. intros Hm. apply valid_civil_spec. split; [done|]. month_cases Hm; destruct (leap_year y); cbn; lia. Qed.

(** The days of a month do not come after the end of a later month. *)
Lemma month_reaches y m d y' m' : valid_civil y m d = true -> 1 <= m' <= 12 -> month_index y m <= month_index y' m' ->
  make_day y (m - 1) d <= make_day y' (m' - 1) (days_in_month (leap_year y') m').
Proof.
  unfold month_index. intros Hv Hm' Hle. unfold Z.le. rewrite make_day_compare by by try apply valid_month_end.
  apply valid_civil_spec in Hv as [Hm Hd].
  destruct (Z.compare_spec y y') as [->|Hlt|Hgt]; cbn [then_compare]; [|done|lia].
  destruct (Z.compare_spec m m') as [->|Hlt|Hgt]; cbn [then_compare]; [exact (proj2 Hd) | done | lia].
Qed.

(** A day of a month, and the end of a month at most 24 months later, are at most
    762 days apart, both included. *)
Lemma months_apart y m d y' m' : valid_civil y m d = true -> 1 <= m' <= 12 ->
  month_index y' m' <= month_index y m + PMS_CALENDAR_AUTO_OPEN_MAX_FIXED_MONTHS ->
  make_day y' (m' - 1) (days_in_month (leap_year y') m') - make_day y (m - 1) d + 1 <= PMS_CALENDAR_AUTO_OPEN_MAX_HORIZON_DAYS.
Proof.
  intros Hv Hm' Hle. unfold month_index, PMS_CALENDAR_AUTO_OPEN_MAX_FIXED_MONTHS, PMS_CALENDAR_AUTO_OPEN_MAX_HORIZON_DAYS in *.
  apply valid_civil_spec in Hv as [Hm Hd].
  pose proof (month_reaches y' m' (days_in_month (leap_year y') m') (y + 2) m (valid_month_end y' m' Hm') Hm
    ltac:(unfold month_index; lia)) as Hend.
  rewrite !make_day_civil in * by done. pose proof (day_from_year_succ y) as H1. pose proof (day_from_year_succ (y + 1)) as H2.
  replace (y + 1 + 1) with (y + 2) in H2 by lia.
  pose proof (leap_fourth y). pose proof (leap_fourth (y + 1)). pose proof (leap_fourth (y + 2)).
  month_cases Hm; destruct (leap_year y), (leap_year (y + 1)), (leap_year (y + 2)); cbn in *; Z.to_euclidean_division_equations; lia.
Qed.

(** ** End months *)

Lemma fixed_month_text s y m : FIXED_MONTH s = Some (y, m) ->
  s = pad4 y +:+ String "-" (pad2 m) /\ 0 <= y <= 9999 /\ 1 <= m <= 12.
Proof.
  unfold FIXED_MONTH. destruct (parse_ymd _) as [[[y0 m0] d0]|] eqn:E; [|done]. cbn [mbind option_bind].
  destruct (_ && _) eqn:Em; [|done]. intros [= <- <-]. apply parse_ymd_text in E as (E & Hy & Hm & Hd).
  apply andb_true_iff in Em as [Hm1%Z.leb_le Hm2%Z.leb_le]. split; [|lia]. rewrite date_text_month in E.
  apply (app_inj_length _ _ "-01" (String "-" (pad2 d0))); [|done]. apply (f_equal String.length) in E.
  rewrite !string_length_app in E. rewrite string_length_app. cbn in *. lia.
Qed.

(** Texts of months are ordered as the months. *)
Lemma month_text_order y m y' m' : 0 <= y <= 9999 -> 0 <= y' <= 9999 -> 1 <= m <= 12 -> 1 <= m' <= 12 ->
  str_le (pad4 y +:+ String "-" (pad2 m)) (pad4 y' +:+ String "-" (pad2 m')) = true ->
  month_index y m <= month_index y' m'.
Proof.
  intros Hy Hy' Hm Hm'. unfold str_le, month_index. rewrite compare_pad4, string_compare_cons, Z.compare_refl by done.
  change (pad2 m) with (pad2 m +:+ EmptyString). change (pad2 m') with (pad2 m' +:+ EmptyString).
  cbn [then_compare]. rewrite compare_pad2 by lia.
  destruct (Z.compare_spec y y'), (Z.compare_spec m m'); cbn; (done || lia).
Qed.

Lemma month_prefix y m d : 0 <= y <= 9999 -> valid_civil y m d = true ->
  substring 0 7 (iso_date (make_day y (m - 1) d)) = pad4 y +:+ String "-" (pad2 m).
Proof.
  intros Hy Hv. rewrite iso_date_make_day, date_text_month by done. apply (substring_prefix (pad4 y +:+ String "-" (pad2 m))).
Qed.

Section Guarantees.
Context `{ZonedDays}.

(** C24: an automatic opening never reaches further than the planner allows: on a day
    of the years 2000 to 9997, an accepted setting that is on, whose end month is
    within the limit, has as its target the last day of the month it names, or of
    the month so many months on, and from the day to the target it is at most 762
    days. *)
Theorem auto_open_horizon_bounded `{DateReader} v setting tz instant y m d :
  let c := configuration setting in
  isPmsCalendarAutoOpenSetting v = Some setting -> enabled c = true -> 2000 <= y <= 9997 -> valid_civil y m d = true ->
  localDate instant tz = Ret (date_text y m d, (y, m)) ->
  isPmsCalendarAutoOpenFixedTargetWithinLimit c tz instant = Ret true ->
  exists y' m', 1 <= m' <= 12 /\
    let target := make_day y' (m' - 1) (days_in_month (leap_year y') m') in
    calculatePmsCalendarAutoOpenHorizon setting tz instant =
      Ret {| horizonTimeZone := tz; propertyLocalDate := date_text y m d; targetOpenThrough := Some (iso_date target) |} /\
    target - make_day y (m - 1) d + 1 <= PMS_CALENDAR_AUTO_OPEN_MAX_HORIZON_DAYS /\
    match openMode c with
    | rolling => month_index y' m' = month_index y m + default 0 (rollingMonths c) /\ make_day y (m - 1) d <= target
    | fixed => forall fy fm, fixedEndMonth c ≫= FIXED_MONTH = Some (fy, fm) -> 100 <= fy -> (y', m') = (fy, fm)
    end.
Proof.
  cbv zeta. intros Hok%accepted_setting Hon Hy Hv Hl Hlimit. unfold calculatePmsCalendarAutoOpenHorizon. rewrite Hl, Hon. cbn [exn_bind].
  pose proof Hv as [Hm Hd]%valid_civil_spec. unfold isPmsCalendarAutoOpenFixedTargetWithinLimit in Hlimit.
  set (c := configuration setting) in *. unfold configuration_ok in Hok. destruct (openMode c).
  - destruct (rollingMonths c) as [n|]; [|done]. destruct (fixedEndMonth c); [done|]. cbn [default from_option].
    assert (Hn : 0 <= n <= 24).
    { cbn in Hok. rewrite !orb_true_iff, !Z.eqb_eq in Hok. lia. }
    destruct (month_end_index y (m - 1 + n) ltac:(lia)) as (y' & m' & Hm' & Hi & He). exists y', m'. split; [done|].
    unfold monthEnd. cbn [exn_bind Datatypes.id]. rewrite He. unfold month_index in *.
    split; [done|]. split; [apply months_apart; unfold month_index, PMS_CALENDAR_AUTO_OPEN_MAX_FIXED_MONTHS; (done || lia)|].
    split; [lia|]. apply month_reaches; unfold month_index; (done || lia).
  - destruct (rollingMonths c); [done|]. destruct (fixedEndMonth c) as [s|]; [|done].
    destruct (FIXED_MONTH s) as [[fy fm]|] eqn:Ef; [|done]. rewrite Hl in Hlimit. cbn [exn_bind] in *.
    apply Ret_inj in Hlimit. destruct (fixed_month_text _ _ _ Ef) as (-> & Hfy & Hfm).
    destruct (month_end_index y (m - 1 + 24) ltac:(lia)) as (ym & mm & Hmm & Hi & He).
    assert (Hym : 0 <= ym <= 9999) by (unfold month_index in Hi; lia).
    unfold monthEnd, PMS_CALENDAR_AUTO_OPEN_MAX_FIXED_MONTHS in Hlimit. rewrite He, month_prefix in Hlimit by (done || by apply valid_month_end).
    apply month_text_order in Hlimit; [|done..]. set (Y := if (0 <=? fy) && (fy <=? 99) then 1900 + fy else fy).
    assert (HY : Y = fy \/ Y <= 1999 /\ fy < 100).
    { unfold Y. destruct (Z.leb_spec 0 fy), (Z.leb_spec fy 99); cbn; lia. }
    exists Y, fm. split; [done|]. split.
    + unfold monthEnd, month_end_day, date_utc. fold Y. replace (fm - 1 + 1) with fm by lia. by rewrite last_of_month.
    + split; [apply months_apart; [done | done |]|].
      * unfold month_index, PMS_CALENDAR_AUTO_OPEN_MAX_FIXED_MONTHS in *. lia.
      * cbn [mbind option_bind]. rewrite Ef. intros fy' fm' [= <- <-] Hfy'. f_equal. lia.
Qed.
End Guarantees.

(** ** Canonical sources *)

Lemma repeats_NoDup {A} (key : A -> string) l : NoDup (key <$> l) -> repeats key l = false.
Proof.
  induction l as [|x [|y r] IH]; [done..|]. rewrite fmap_cons, NoDup_cons. intros [Hx Hn]. cbn [repeats].
  apply orb_false_iff. split; [|by apply IH]. apply String.eqb_neq. intros E. apply Hx. rewrite E. by left.
Qed.

Lemma distinct_sorted {A} (key : A -> string) l : Sorted (le_rel (key_le key)) l -> repeats key l = false ->
  sorted_by str_lt (key <$> l) = true.
Proof.
  induction 1 as [|x r _ IH Hx]; [done|]. destruct r as [|y r]; [done|]. cbn [repeats]. intros [Hne Hr]%orb_false_iff.
  specialize (IH Hr). rewrite fmap_cons in *. apply andb_true_iff. split; [|done].
  apply str_lt_le; [by inversion Hx | by apply String.eqb_neq].
Qed.

Lemma repeats_sorted {A} (key : A -> string) l : repeats key (byRoomTypeId key l) = false <-> NoDup (key <$> l).
Proof.
  unfold byRoomTypeId. rewrite <- (fmap_Permutation key _ _ (stable_sort_perm (key_le key) l)). split; [|apply repeats_NoDup].
  intros H. apply sorted_by_NoDup, distinct_sorted; [|done]. apply stable_sort_sorted. intros a b. apply str_le_total.
Qed.

(** Listed in another order, entries sort to the same list or repeat a key in both. *)
Lemma sorted_alike {A} (key : A -> string) l l' : l ≡ₚ l' ->
  byRoomTypeId key l = byRoomTypeId key l' \/ repeats key (byRoomTypeId key l) = true /\ repeats key (byRoomTypeId key l') = true.
Proof.
  intros Hp. destruct (decide (NoDup (key <$> l))) as [Hn|Hn]; [left; by apply stable_sort_key_perm|]. right.
  split; apply not_false_iff_true; rewrite repeats_sorted; [done|]. by rewrite <- (fmap_Permutation key _ _ Hp).
Qed.

Lemma source_repeats_refused s rooms plans : repeats openRoomTypeId rooms = true \/ repeats planRoomTypeId plans = true ->
  assertSource s rooms plans = Throw "PMS calendar auto-open source is invalid".
Proof. unfold assertSource. intros [-> | ->]; by rewrite ?orb_true_r. Qed.

Definition reordered (s s' : PmsCalendarAutoOpenSource) : Prop :=
  sourceSettingRevision s = sourceSettingRevision s' /\ sourceProfileRevision s = sourceProfileRevision s' /\
  sourceTimeZone s = sourceTimeZone s' /\ sourceCalendarRevision s = sourceCalendarRevision s' /\
  pricingCurrencyRevision s = pricingCurrencyRevision s' /\ optionalPricingRevision s = optionalPricingRevision s' /\
  sourceRooms s ≡ₚ sourceRooms s' /\ flexibleRatePlans s ≡ₚ flexibleRatePlans s'.

Lemma reordered_source s s' : reordered s s' -> createPmsCalendarAutoOpenSource s = createPmsCalendarAutoOpenSource s'.
Proof.
  destruct s as [a b c d rooms e plans f], s' as [a' b' c' d' rooms' e' plans' f'].
  unfold reordered. cbn [sourceSettingRevision sourceProfileRevision sourceTimeZone sourceCalendarRevision sourceRooms
    pricingCurrencyRevision flexibleRatePlans optionalPricingRevision].
  intros (<- & <- & <- & <- & <- & <- & Hr & Hp). unfold createPmsCalendarAutoOpenSource. cbn [sourceRooms flexibleRatePlans].
  destruct (sorted_alike openRoomTypeId _ _ Hr) as [->|[R R']], (sorted_alike planRoomTypeId _ _ Hp) as [->|[P P']];
    [done | | |]; rewrite !source_repeats_refused by auto; done.
Qed.

Lemma open_room_value_inj : Inj (=) (=) open_room_value.
Proof. intros [a b c] [a' b' c'] E%obj_inj. by injection E as -> -> ->. Qed.
Lemma open_plan_value_inj : Inj (=) (=) open_plan_value.
Proof. intros [a b] [a' b'] E%obj_inj. by injection E as -> ->. Qed.

Lemma open_source_value_inj s s' : open_source_value s = open_source_value s' -> s = s'.
Proof.
  destruct s as [a b c d rooms e plans f], s' as [a' b' c' d' rooms' e' plans' f']. unfold open_source_value.
  cbn [sourceSettingRevision sourceProfileRevision sourceTimeZone sourceCalendarRevision sourceRooms
    pricingCurrencyRevision flexibleRatePlans optionalPricingRevision]. intros E%obj_inj.
  injection E as -> -> -> -> Er -> Ep ->. apply (elements_inj _ open_room_value_inj) in Er as ->.
  by apply (elements_inj _ open_plan_value_inj) in Ep as ->.
Qed.

Lemma open_source_plain s : plain_json (open_source_value s).
Proof.
  unfold open_source_value. repeat constructor.
  - apply Forall_fmap, Forall_true. intros r. repeat constructor.
  - apply Forall_fmap, Forall_true. intros r. repeat constructor.
Qed.

Lemma created_source s c : createPmsCalendarAutoOpenSource s = Ret c -> reordered c s.
Proof.
  intros ([] & _ & Hc)%exn_bind_Ret. apply Ret_inj in Hc as <-. unfold reordered.
  cbn [sourceSettingRevision sourceProfileRevision sourceTimeZone sourceCalendarRevision sourceRooms
    pricingCurrencyRevision flexibleRatePlans optionalPricingRevision]. unfold byRoomTypeId. by rewrite !stable_sort_perm.
Qed.

(** The fingerprint of a source identifies it up to the order of its rooms and
    plans: short of a collision of the digest, two accepted inputs start the same
    materialization exactly when they have the same revisions, rooms and plans, in
    any order. *)
Theorem auto_open_fingerprint (sha256 : string -> string) s s' c c' :
  createPmsCalendarAutoOpenSource s = Ret c -> createPmsCalendarAutoOpenSource s' = Ret c' ->
  tells_apart sha256 (json_text (open_source_value c)) (json_text (open_source_value c')) (reordered s s').
Proof.
  intros Hc Hc'. apply (tells_apart_iff sha256). split.
  - intros E. pose proof (open_source_plain c) as P. pose proof (open_source_plain c') as P'.
    assert (Ej : json_stringify (open_source_value c) = json_stringify (open_source_value c')) by by rewrite !plain_json_text, E.
    apply json_stringify_inj, open_source_value_inj in Ej as <-; [|done..].
    apply created_source in Hc, Hc'. unfold reordered in *. destruct_and!. split_and!; try congruence; by etransitivity; [symmetry|].
  - intros H%reordered_source. rewrite Hc, Hc' in H. by apply Ret_inj in H as ->.
Qed.
