(* ===== verification/ReservationLifecycle.v ===== *)
(** * The reservation lifecycle contract (domain-pms/src/inventoryReservationLifecycle.ts)

    Reserve and release commands, the receipt they exchange, the status of a
    reservation (reserved, released or handed off) and the results, with the
    parsers that admit them and the fingerprints that decide whether a repeated
    command is the same command. *)

From S2P Require Import Prelude JsValue JsonText CalendarDates OperatingSchedule OperatingCalendar InventoryPlanner.

Definition LIFECYCLE_VERSION : string := "pms-inventory-reservation-lifecycle.v1".

(** ** Shapes *)

Definition plainDataRecord (v : jsval) : bool :=
  match v with
  | VObject p props =>
      match p with ProtoObject | ProtoNull => true | _ => false end &&
      forallb (fun e =>
        match fst e with
        | KString _ => pk_enumerable (fst (snd e)) && pk_data (fst (snd e))
        | KSymbol _ => false
        end) props
  | _ => false
  end.

Definition exactDataRecord (v : jsval) (keys : list string) : bool :=
  plainDataRecord v && Nat.eqb (own_keys_length v) (length keys) && forallb (has_own v) keys.

(** [denseDataArray] checks what [denseArray] of the planner checks. *)
Definition denseDataArray (v : jsval) : option (list jsval) := denseArray v.

Definition positiveRevision (v : jsval) : option Z := as_integer v 1 MAX_REVISION.
Definition anyRevision (v : jsval) : option Z := as_integer v 0 MAX_REVISION.

(** ** Receipts and correlations *)

Record PmsInventoryReservationReceipt := { rc_receiptId : string }.

Definition parsePmsInventoryReservationReceipt (v : jsval) : option PmsInventoryReservationReceipt :=
  guard? exactDataRecord v ["contractVersion"; "owner"; "receiptId"] in
  let? _ := as_literal LIFECYCLE_VERSION (get v "contractVersion") in
  let? _ := as_literal "pms" (get v "owner") in
  let? receiptId := as_uuid (get v "receiptId") in
  Some {| rc_receiptId := receiptId |}.

Definition receipt_value (r : PmsInventoryReservationReceipt) : jsval :=
  obj [("contractVersion", VString LIFECYCLE_VERSION); ("owner", VString "pms");
       ("receiptId", VString (rc_receiptId r))].

Record PmsInventoryReservationOfferCorrelation := {
  oc_quoteSessionId : string; oc_publicOfferKey : string }.

Definition parseOfferCorrelation (v : jsval) : option PmsInventoryReservationOfferCorrelation :=
  guard? exactDataRecord v ["quoteSessionId"; "publicOfferKey"] in
  let? quoteSessionId := as_trimmed 1 200 (get v "quoteSessionId") in
  let? publicOfferKey := as_trimmed 1 200 (get v "publicOfferKey") in
  Some {| oc_quoteSessionId := quoteSessionId; oc_publicOfferKey := publicOfferKey |}.

Definition offer_value (o : PmsInventoryReservationOfferCorrelation) : jsval :=
  obj [("quoteSessionId", VString (oc_quoteSessionId o));
       ("publicOfferKey", VString (oc_publicOfferKey o))].

(** ** Watermarks *)

Record PmsInventoryReservationDayWatermark := {
  wm_propertyId : string;
  wm_roomTypeId : string;
  wm_stayDate : string;
  wm_calendarRevision : Z;
  wm_inventoryRevision : Z;
  wm_sourceRevisions : PmsInventorySourceRevisionVector;
}.

Definition parse_watermark_revisions (v : jsval) : option PmsInventorySourceRevisionVector :=
  guard? exactDataRecord v SOURCE_REVISION_KEYS in
  let? generated := positiveRevision (get v "generated") in
  let? channel := anyRevision (get v "channel") in
  let? manual := anyRevision (get v "manual") in
  let? block := anyRevision (get v "block") in
  let? booking := anyRevision (get v "booking") in
  Some {| rv_generated := generated; rv_channel := channel; rv_manual := manual;
          rv_block := block; rv_booking := booking |}.

(** [isoDate(v)], with the text *)
Definition as_iso_date (v : jsval) : option string :=
  match isoDateEpochDay v with Some _ => as_string v | None => None end.

Definition parseWatermark (v : jsval) : option PmsInventoryReservationDayWatermark :=
  guard? exactDataRecord v ["propertyId"; "roomTypeId"; "stayDate"; "calendarRevision";
                            "inventoryRevision"; "sourceRevisions"] in
  let? propertyId := as_uuid (get v "propertyId") in
  let? roomTypeId := as_uuid (get v "roomTypeId") in
  let? stayDate := as_iso_date (get v "stayDate") in
  let? calendarRevision := positiveRevision (get v "calendarRevision") in
  let? inventoryRevision := positiveRevision (get v "inventoryRevision") in
  let? sourceRevisions := parse_watermark_revisions (get v "sourceRevisions") in
  Some {| wm_propertyId := propertyId; wm_roomTypeId := roomTypeId; wm_stayDate := stayDate;
          wm_calendarRevision := calendarRevision; wm_inventoryRevision := inventoryRevision;
          wm_sourceRevisions := sourceRevisions |}.

Definition watermark_value (w : PmsInventoryReservationDayWatermark) : jsval :=
  obj [("propertyId", VString (wm_propertyId w)); ("roomTypeId", VString (wm_roomTypeId w));
       ("stayDate", VString (wm_stayDate w)); ("calendarRevision", VInt (wm_calendarRevision w));
       ("inventoryRevision", VInt (wm_inventoryRevision w));
       ("sourceRevisions", revisions_value (wm_sourceRevisions w))].

Record DateRange := {
  dr_checkIn : string; dr_checkOut : string; dr_checkInDay : Z; dr_dayCount : Z }.

Definition parseDateRange (checkIn checkOut : jsval) : option DateRange :=
  let? inDay := isoDateEpochDay checkIn in
  let? outDay := isoDateEpochDay checkOut in
  let? inText := as_string checkIn in
  let? outText := as_string checkOut in
  let dayCount := outDay - inDay in
  if (1 <=? dayCount) && (dayCount <=? PMS_INVENTORY_HORIZON_MAX_DAYS)
  then Some {| dr_checkIn := inText; dr_checkOut := outText; dr_checkInDay := inDay;
               dr_dayCount := dayCount |}
  else None.

(** The loop that compares each watermark with the scope; [index] counts them. *)
Fixpoint watermarks_in_scope (propertyId roomTypeId : string) (day calendarRevision : Z)
    (l : list PmsInventoryReservationDayWatermark) : bool :=
  match l with
  | [] => true
  | w :: r =>
      String.eqb (wm_propertyId w) propertyId && String.eqb (wm_roomTypeId w) roomTypeId &&
      String.eqb (wm_stayDate w) (isoDateFromEpochDay day) &&
      (wm_calendarRevision w =? calendarRevision) &&
      (rv_generated (wm_sourceRevisions w) =? calendarRevision) &&
      watermarks_in_scope propertyId roomTypeId (day + 1) calendarRevision r
  end.

Definition parseWatermarks (v : jsval) (propertyId roomTypeId : string)
    (dateRange : DateRange) (calendarRevision : Z)
    : option (list PmsInventoryReservationDayWatermark) :=
  let? raws := denseDataArray v in
  guard? Z.of_nat (length raws) =? dr_dayCount dateRange in
  let? watermarks := traverse parseWatermark raws in
  guard? watermarks_in_scope propertyId roomTypeId (dr_checkInDay dateRange) calendarRevision
           watermarks in
  Some watermarks.

(** ** Commands *)

Inductive audit_actor := ActorUser (userId : string) | ActorSystem (service : string).

Record RoomFactsCommandAudit := {
  ra_actor : audit_actor;
  ra_requestId : string;
  ra_correlationId : option string;
  ra_requestedAt : string;
}.

Definition parse_actor (v : jsval) : option audit_actor :=
  guard? plainDataRecord v in
  match (guard? is_str (get v "kind") "user" && exactDataRecord v ["kind"; "userId"] in
         as_uuid (get v "userId")) with
  | Some userId => Some (ActorUser userId)
  | None =>
      guard? is_str (get v "kind") "system" && exactDataRecord v ["kind"; "service"] in
      let? service := as_trimmed 1 100 (get v "service") in
      Some (ActorSystem service)
  end.

Definition parseCommandAudit (v : jsval) : option RoomFactsCommandAudit :=
  guard? exactDataRecord v ["actor"; "requestId"; "correlationId"; "requestedAt"] in
  let? requestId := as_trimmed 1 200 (get v "requestId") in
  let? correlationId := as_nullable (as_trimmed 1 200) (get v "correlationId") in
  let? requestedAt := isoDateTime (get v "requestedAt") in
  let? actor := parse_actor (get v "actor") in
  Some {| ra_actor := actor; ra_requestId := requestId; ra_correlationId := correlationId;
          ra_requestedAt := requestedAt |}.

Definition actor_value (a : audit_actor) : jsval :=
  match a with
  | ActorUser u => obj [("kind", VString "user"); ("userId", VString u)]
  | ActorSystem s => obj [("kind", VString "system"); ("service", VString s)]
  end.

Definition command_audit_value (a : RoomFactsCommandAudit) : jsval :=
  obj [("actor", actor_value (ra_actor a)); ("requestId", VString (ra_requestId a));
       ("correlationId", of_nullable VString (ra_correlationId a));
       ("requestedAt", VString (ra_requestedAt a))].

Definition parseStrictConfigurationSource (v : jsval) : option PmsOperatingCalendarSourceRevision :=
  guard? exactDataRecord v ["ownerDomain"; "entityType"; "entityId"; "revision"] in
  parsePmsOperatingCalendarSourceRevision v.

(** [Number(source.revision.slice("calendar:".length))] of a parsed source *)
Definition sourceRevisionNumber (s : PmsOperatingCalendarSourceRevision) : Z :=
  match strip_prefix "calendar:" (sr_revision s) with
  | Some digits => Z.of_N (default 0%N (string_to_N digits))
  | None => 0
  end.

Record PmsInventoryReservationReserveCommand := {
  rs_organizationId : string;
  rs_propertyId : string;
  rs_roomTypeId : string;
  rs_checkIn : string;
  rs_checkOut : string;
  rs_roomCount : Z;
  rs_offerCorrelation : PmsInventoryReservationOfferCorrelation;
  rs_configurationSource : PmsOperatingCalendarSourceRevision;
  rs_expectedMaterializedRevision : Z;
  rs_inventoryWatermarks : list PmsInventoryReservationDayWatermark;
  rs_idempotencyKey : string;
  rs_audit : RoomFactsCommandAudit;
}.

Definition parsePmsInventoryReservationReserveCommand (v : jsval)
    : option PmsInventoryReservationReserveCommand :=
  guard? exactDataRecord v ["contractVersion"; "organizationId"; "propertyId"; "roomTypeId";
    "checkIn"; "checkOut"; "roomCount"; "offerCorrelation"; "configurationSource";
    "expectedMaterializedRevision"; "inventoryWatermarks"; "idempotencyKey"; "audit"] in
  let? _ := as_literal LIFECYCLE_VERSION (get v "contractVersion") in
  let? organizationId := as_uuid (get v "organizationId") in
  let? propertyId := as_uuid (get v "propertyId") in
  let? roomTypeId := as_uuid (get v "roomTypeId") in
  let? roomCount := as_integer (get v "roomCount") 1 500 in
  let? expected := positiveRevision (get v "expectedMaterializedRevision") in
  let? idempotencyKey := as_trimmed 1 200 (get v "idempotencyKey") in
  let? dateRange := parseDateRange (get v "checkIn") (get v "checkOut") in
  let? offer := parseOfferCorrelation (get v "offerCorrelation") in
  let? source := parseStrictConfigurationSource (get v "configurationSource") in
  guard? String.eqb (sr_entityId source) propertyId in
  guard? sourceRevisionNumber source =? expected in
  let? watermarks := parseWatermarks (get v "inventoryWatermarks") propertyId roomTypeId
                       dateRange expected in
  let? audit := parseCommandAudit (get v "audit") in
  Some {| rs_organizationId := organizationId; rs_propertyId := propertyId;
          rs_roomTypeId := roomTypeId; rs_checkIn := dr_checkIn dateRange;
          rs_checkOut := dr_checkOut dateRange; rs_roomCount := roomCount;
          rs_offerCorrelation := offer; rs_configurationSource := source;
          rs_expectedMaterializedRevision := expected; rs_inventoryWatermarks := watermarks;
          rs_idempotencyKey := idempotencyKey; rs_audit := audit |}.

Record PmsInventoryReservationReleaseCommand := {
  rl_organizationId : string;
  rl_propertyId : string;
  rl_receipt : PmsInventoryReservationReceipt;
  rl_idempotencyKey : string;
  rl_audit : RoomFactsCommandAudit;
}.

Definition parsePmsInventoryReservationReleaseCommand (v : jsval)
    : option PmsInventoryReservationReleaseCommand :=
  guard? exactDataRecord v ["contractVersion"; "organizationId"; "propertyId"; "receipt";
                            "idempotencyKey"; "audit"] in
  let? _ := as_literal LIFECYCLE_VERSION (get v "contractVersion") in
  let? organizationId := as_uuid (get v "organizationId") in
  let? propertyId := as_uuid (get v "propertyId") in
  let? idempotencyKey := as_trimmed 1 200 (get v "idempotencyKey") in
  let? receipt := parsePmsInventoryReservationReceipt (get v "receipt") in
  let? audit := parseCommandAudit (get v "audit") in
  Some {| rl_organizationId := organizationId; rl_propertyId := propertyId;
          rl_receipt := receipt; rl_idempotencyKey := idempotencyKey; rl_audit := audit |}.

Record PmsInventoryReservationStatusRequest := {
  sq_organizationId : string;
  sq_propertyId : string;
  sq_receipt : PmsInventoryReservationReceipt;
}.

Definition parsePmsInventoryReservationStatusRequest (v : jsval)
    : option PmsInventoryReservationStatusRequest :=
  guard? exactDataRecord v ["organizationId"; "propertyId"; "receipt"] in
  let? organizationId := as_uuid (get v "organizationId") in
  let? propertyId := as_uuid (get v "propertyId") in
  let? receipt := parsePmsInventoryReservationReceipt (get v "receipt") in
  Some {| sq_organizationId := organizationId; sq_propertyId := propertyId; sq_receipt := receipt |}.

(** ** Fingerprints *)

Definition reserve_fingerprint_value (c : PmsInventoryReservationReserveCommand) : jsval :=
  obj [("organizationId", VString (rs_organizationId c));
       ("propertyId", VString (rs_propertyId c)); ("roomTypeId", VString (rs_roomTypeId c));
       ("checkIn", VString (rs_checkIn c)); ("checkOut", VString (rs_checkOut c));
       ("roomCount", VInt (rs_roomCount c));
       ("offerCorrelation", offer_value (rs_offerCorrelation c));
       ("configurationSource", source_value (rs_configurationSource c));
       ("expectedMaterializedRevision", VInt (rs_expectedMaterializedRevision c));
       ("inventoryWatermarks", arr (watermark_value <$> rs_inventoryWatermarks c))].

Definition serializePmsInventoryReservationReserveFingerprint
    (c : PmsInventoryReservationReserveCommand) : option string :=
  json_stringify (reserve_fingerprint_value c).

Definition release_fingerprint_value (c : PmsInventoryReservationReleaseCommand) : jsval :=
  obj [("organizationId", VString (rl_organizationId c));
       ("propertyId", VString (rl_propertyId c)); ("receipt", receipt_value (rl_receipt c))].

Definition serializePmsInventoryReservationReleaseFingerprint
    (c : PmsInventoryReservationReleaseCommand) : option string :=
  json_stringify (release_fingerprint_value c).

(** ** Status *)

Inductive PmsInventoryReservationLifecycleState :=
| Reserved
| Released (releasedAt : string)
| HandedOff (handedOffAt : string).

Record PmsInventoryReservationStatus := {
  st_receipt : PmsInventoryReservationReceipt;
  st_organizationId : string;
  st_propertyId : string;
  st_roomTypeId : string;
  st_checkIn : string;
  st_checkOut : string;
  st_roomCount : Z;
  st_offerCorrelation : PmsInventoryReservationOfferCorrelation;
  st_configurationSource : PmsOperatingCalendarSourceRevision;
  st_materializedRevision : Z;
  st_reservationWatermarks : list PmsInventoryReservationDayWatermark;
  st_reservedAt : string;
  st_state : PmsInventoryReservationLifecycleState;
}.

Definition lifecycleRevision (s : PmsInventoryReservationLifecycleState) : Z :=
  match s with Reserved => 1 | _ => 2 end.

Definition state_text (s : PmsInventoryReservationLifecycleState) : string :=
  match s with Reserved => "reserved" | Released _ => "released" | HandedOff _ => "handed_off" end.

Definition STATUS_KEYS : list string :=
  ["receipt"; "organizationId"; "propertyId"; "roomTypeId"; "checkIn"; "checkOut"; "roomCount";
   "offerCorrelation"; "configurationSource"; "materializedRevision"; "reservationWatermarks";
   "lifecycleRevision"; "reservedAt"; "state"].

(** The state name with the key of its transition time. *)
Definition state_keys (state : jsval) : list string :=
  if is_str state "released" then ["releasedAt"]
  else if is_str state "handed_off" then ["handedOffAt"] else [].

(** [value.lifecycleRevision === n] *)
Definition is_int (v : jsval) (n : Z) : bool := match v with VInt m => m =? n | _ => false end.

Definition transition_at (v : jsval) (key : string) (reservedAt : string) : option string :=
  let? t := isoDateTime (get v key) in
  guard? negb (instant_of t <? instant_of reservedAt) in Some t.

Definition parse_state (v : jsval) (reservedAt : string)
    : option PmsInventoryReservationLifecycleState :=
  if is_str (get v "state") "reserved" then Some Reserved
  else if is_str (get v "state") "released" then
    option_map Released (transition_at v "releasedAt" reservedAt)
  else option_map HandedOff (transition_at v "handedOffAt" reservedAt).

Definition parsePmsInventoryReservationStatus (v : jsval) : option PmsInventoryReservationStatus :=
  guard? plainDataRecord v in
  let state := get v "state" in
  let reserved := is_str state "reserved" in
  let terminal := is_str state "released" || is_str state "handed_off" in
  guard? reserved || terminal in
  guard? exactDataRecord v (STATUS_KEYS ++ state_keys state) in
  let? organizationId := as_uuid (get v "organizationId") in
  let? propertyId := as_uuid (get v "propertyId") in
  let? roomTypeId := as_uuid (get v "roomTypeId") in
  let? roomCount := as_integer (get v "roomCount") 1 500 in
  let? materialized := positiveRevision (get v "materializedRevision") in
  guard? is_int (get v "lifecycleRevision") (if reserved then 1 else 2) in
  let? reservedAt := isoDateTime (get v "reservedAt") in
  let? dateRange := parseDateRange (get v "checkIn") (get v "checkOut") in
  let? receipt := parsePmsInventoryReservationReceipt (get v "receipt") in
  let? offer := parseOfferCorrelation (get v "offerCorrelation") in
  let? source := parseStrictConfigurationSource (get v "configurationSource") in
  guard? String.eqb (sr_entityId source) propertyId in
  guard? sourceRevisionNumber source =? materialized in
  let? watermarks := parseWatermarks (get v "reservationWatermarks") propertyId roomTypeId
                       dateRange materialized in
  let? lifecycle := parse_state v reservedAt in
  Some {| st_receipt := receipt; st_organizationId := organizationId; st_propertyId := propertyId;
          st_roomTypeId := roomTypeId; st_checkIn := dr_checkIn dateRange;
          st_checkOut := dr_checkOut dateRange; st_roomCount := roomCount;
          st_offerCorrelation := offer; st_configurationSource := source;
          st_materializedRevision := materialized; st_reservationWatermarks := watermarks;
          st_reservedAt := reservedAt; st_state := lifecycle |}.

Definition status_value (s : PmsInventoryReservationStatus) : jsval :=
  obj ([("receipt", receipt_value (st_receipt s));
        ("organizationId", VString (st_organizationId s));
        ("propertyId", VString (st_propertyId s)); ("roomTypeId", VString (st_roomTypeId s));
        ("checkIn", VString (st_checkIn s)); ("checkOut", VString (st_checkOut s));
        ("roomCount", VInt (st_roomCount s));
        ("offerCorrelation", offer_value (st_offerCorrelation s));
        ("configurationSource", source_value (st_configurationSource s));
        ("materializedRevision", VInt (st_materializedRevision s));
        ("reservationWatermarks", arr (watermark_value <$> st_reservationWatermarks s));
        ("reservedAt", VString (st_reservedAt s));
        ("state", VString (state_text (st_state s)));
        ("lifecycleRevision", VInt (lifecycleRevision (st_state s)))] ++
       match st_state s with
       | Reserved => []
       | Released t => [("releasedAt", VString t)]
       | HandedOff t => [("handedOffAt", VString t)]
       end).

(** ** Results *)

Definition refresh_intent_keys : list string :=
  ["contractVersion"; "destination"; "eventType"; "organizationId"; "propertyId"; "roomTypeId";
   "coverageFrom"; "coverageThroughExclusive"; "reservationLifecycleRevision"; "reason"].

(** A refresh intent repeats the status it belongs to; only its reason is free. *)
Definition parseRefreshIntent (v : jsval) (s : PmsInventoryReservationStatus) (reason : string) : bool :=
  exactDataRecord v refresh_intent_keys &&
  is_str (get v "contractVersion") LIFECYCLE_VERSION &&
  is_str (get v "destination") "distribution.inventory-projection" &&
  is_str (get v "eventType") "pms.inventory.projection_refresh_requested" &&
  is_str (get v "organizationId") (st_organizationId s) &&
  is_str (get v "propertyId") (st_propertyId s) &&
  is_str (get v "roomTypeId") (st_roomTypeId s) &&
  is_str (get v "coverageFrom") (st_checkIn s) &&
  is_str (get v "coverageThroughExclusive") (st_checkOut s) &&
  is_int (get v "reservationLifecycleRevision") (lifecycleRevision (st_state s)) &&
  is_str (get v "reason") reason.

Definition RESERVE_OUTCOMES : list string :=
  ["reserved"; "already_reserved"; "already_released"; "already_handed_off"].
Definition RELEASE_OUTCOMES : list string := ["released"; "already_released"; "already_handed_off"].

Definition RESERVE_ERROR_CODES : list string :=
  ["configuration_not_current"; "materialization_not_current"; "inventory_watermark_conflict";
   "inventory_unavailable"; "inventory_invariant_violation"; "idempotency_key_conflict";
   "command_in_progress"].
Definition RELEASE_ERROR_CODES : list string :=
  ["receipt_not_found"; "inventory_invariant_violation"; "idempotency_key_conflict";
   "command_in_progress"].

Inductive lifecycle_result :=
| LifecycleOk (outcome : string) (status : PmsInventoryReservationStatus) (intent : option string)
| LifecycleError (code : string).

Definition parseError (v : jsval) (codes : list string) : option string :=
  guard? exactDataRecord v ["code"] in
  let? code := as_string (get v "code") in
  guard? has_string codes code in Some code.

(** The state an [already_*] outcome reports. *)
Definition already_state (outcome : string) : option string :=
  if String.eqb outcome "already_reserved" then Some "reserved"
  else if String.eqb outcome "already_released" then Some "released"
  else if String.eqb outcome "already_handed_off" then Some "handed_off" else None.

Definition parsePmsInventoryReservationReserveResult (v : jsval) : option lifecycle_result :=
  guard? plainDataRecord v in
  match get v "ok" with
  | VBool true =>
      guard? exactDataRecord v ["ok"; "outcome"; "status"; "projectionRefreshIntent"] in
      let? outcome := as_string (get v "outcome") in
      guard? has_string RESERVE_OUTCOMES outcome in
      let? status := parsePmsInventoryReservationStatus (get v "status") in
      if negb (String.eqb outcome "reserved") then
        guard? is_null (get v "projectionRefreshIntent") in
        guard? bool_decide (already_state outcome = Some (state_text (st_state status))) in
        Some (LifecycleOk outcome status None)
      else
        guard? parseRefreshIntent (get v "projectionRefreshIntent") status "reservation_held" in
        guard? String.eqb (state_text (st_state status)) "reserved" in
        Some (LifecycleOk outcome status (Some "reservation_held"))
  | VBool false =>
      guard? exactDataRecord v ["ok"; "error"] in
      option_map LifecycleError (parseError (get v "error") RESERVE_ERROR_CODES)
  | _ => None
  end.

Definition parsePmsInventoryReservationReleaseResult (v : jsval) : option lifecycle_result :=
  guard? plainDataRecord v in
  match get v "ok" with
  | VBool true =>
      guard? exactDataRecord v ["ok"; "outcome"; "status"; "projectionRefreshIntent"] in
      let? outcome := as_string (get v "outcome") in
      guard? has_string RELEASE_OUTCOMES outcome in
      let? status := parsePmsInventoryReservationStatus (get v "status") in
      let expectedState :=
        if String.eqb outcome "already_handed_off" then "handed_off" else "released" in
      guard? String.eqb (state_text (st_state status)) expectedState in
      if negb (String.eqb outcome "released") then
        guard? is_null (get v "projectionRefreshIntent") in
        guard? bool_decide (already_state outcome = Some (state_text (st_state status))) in
        Some (LifecycleOk outcome status None)
      else
        guard? parseRefreshIntent (get v "projectionRefreshIntent") status "reservation_released" in
        guard? String.eqb (state_text (st_state status)) "released" in
        Some (LifecycleOk outcome status (Some "reservation_released"))
  | VBool false =>
      guard? exactDataRecord v ["ok"; "error"] in
      option_map LifecycleError (parseError (get v "error") RELEASE_ERROR_CODES)
  | _ => None
  end.

Definition intent_value (s : PmsInventoryReservationStatus) (reason : string) : jsval :=
  obj [("contractVersion", VString LIFECYCLE_VERSION);
       ("destination", VString "distribution.inventory-projection");
       ("eventType", VString "pms.inventory.projection_refresh_requested");
       ("organizationId", VString (st_organizationId s));
       ("propertyId", VString (st_propertyId s)); ("roomTypeId", VString (st_roomTypeId s));
       ("coverageFrom", VString (st_checkIn s)); ("coverageThroughExclusive", VString (st_checkOut s));
       ("reservationLifecycleRevision", VInt (lifecycleRevision (st_state s)));
       ("reason", VString reason)].

Definition result_value (r : lifecycle_result) : jsval :=
  match r with
  | LifecycleOk outcome s intent =>
      obj [("ok", VBool true); ("outcome", VString outcome); ("status", status_value s);
           ("projectionRefreshIntent",
            match intent with Some reason => intent_value s reason | None => VNull end)]
  | LifecycleError code =>
      obj [("ok", VBool false); ("error", obj [("code", VString code)])]
  end.

(** ** Reading values again *)

Lemma isoDateTime_reparse v s : isoDateTime v = Some s -> isoDateTime (VString s) = Some s.
Proof. by intros [_ ?]%isoDateTime_Some. Qed.

Lemma positiveRevision_reparse v n : positiveRevision v = Some n -> positiveRevision (VInt n) = Some n.
Proof. apply as_integer_reparse. Qed.

Lemma anyRevision_reparse v n : anyRevision v = Some n -> anyRevision (VInt n) = Some n.
Proof. apply as_integer_reparse. Qed.

Lemma as_iso_date_reparse v s : as_iso_date v = Some s -> as_iso_date (VString s) = Some s.
Proof.
  unfold as_iso_date. destruct (isoDateEpochDay v) eqn:E; [|discriminate].
  intros H. apply as_string_reparse in H as ->. by rewrite E.
Qed.

#[global] Arguments positiveRevision : simpl never.
#[global] Arguments anyRevision : simpl never.
#[global] Arguments as_iso_date : simpl never.
#[global] Arguments isoDateEpochDay : simpl never.
#[global] Arguments isoDateTime : simpl never.

Ltac reparse_leaf ::=
  first
    [ rewrite as_literal_refl
    | erewrite as_uuid_reparse by eassumption
    | erewrite as_integer_reparse by eassumption
    | erewrite positiveRevision_reparse by eassumption
    | erewrite anyRevision_reparse by eassumption
    | erewrite as_trimmed_reparse by eassumption
    | erewrite isoDateTime_reparse by eassumption
    | erewrite as_iso_date_reparse by eassumption
    | rewrite denseArray_arr
    | rewrite String.eqb_refl
    | rewrite Z.eqb_refl ].

Lemma receipt_reparse v r :
  parsePmsInventoryReservationReceipt v = Some r ->
  parsePmsInventoryReservationReceipt (receipt_value r) = Some r.
Proof.
  unfold parsePmsInventoryReservationReceipt at 1. intros H. follow H.
  unfold parsePmsInventoryReservationReceipt. by reparse.
Qed.

Lemma offer_reparse v o : parseOfferCorrelation v = Some o -> parseOfferCorrelation (offer_value o) = Some o.
Proof.
  unfold parseOfferCorrelation at 1. intros H. follow H. unfold parseOfferCorrelation. by reparse.
Qed.

Lemma watermark_revisions_reparse v r :
  parse_watermark_revisions v = Some r -> parse_watermark_revisions (revisions_value r) = Some r.
Proof.
  unfold parse_watermark_revisions at 1. intros H. follow H.
  unfold parse_watermark_revisions, revisions_value. by reparse.
Qed.

#[global] Arguments parse_watermark_revisions : simpl never.

Lemma watermark_reparse v w : parseWatermark v = Some w -> parseWatermark (watermark_value w) = Some w.
Proof.
  unfold parseWatermark at 1. intros H. follow H. unfold parseWatermark. reparse.
  by erewrite watermark_revisions_reparse by eassumption.
Qed.

Lemma date_range_reparse a b r :
  parseDateRange a b = Some r ->
  parseDateRange (VString (dr_checkIn r)) (VString (dr_checkOut r)) = Some r.
Proof.
  unfold parseDateRange at 1. intros H.
  destruct (isoDateEpochDay a) eqn:Ea; [|discriminate].
  destruct (isoDateEpochDay b) eqn:Eb; [|discriminate].
  destruct (as_string a) eqn:Sa; [|discriminate]. destruct (as_string b) eqn:Sb; [|discriminate].
  apply as_string_reparse in Sa as ->, Sb as ->. cbv zeta in H.
  destruct (_ && _) eqn:E; [|discriminate]. injection H as <-. cbn [dr_checkIn dr_checkOut].
  unfold parseDateRange. rewrite Ea, Eb. cbn [as_string]. by rewrite E.
Qed.

Lemma watermarks_reparse v p r d c ws :
  parseWatermarks v p r d c = Some ws -> parseWatermarks (arr (watermark_value <$> ws)) p r d c = Some ws.
Proof.
  unfold parseWatermarks at 1. intros H. follow H. unfold parseWatermarks, denseDataArray.
  rewrite denseArray_arr, length_fmap.
  match goal with H : traverse _ _ = Some _ |- _ =>
    rewrite (traverse_length _ _ _ H), (traverse_reparse _ _ _ _ watermark_reparse H) end.
  repeat match goal with H : _ = true |- _ => rewrite H end. done.
Qed.

Lemma actor_reparse v a : parse_actor v = Some a -> parse_actor (actor_value a) = Some a.
Proof.
  unfold parse_actor at 1. intros H. destruct (plainDataRecord v); [|discriminate].
  destruct (if _ && _ then as_uuid _ else None) as [u|] eqn:E.
  - injection H as <-. destruct (_ && _) in E; [|discriminate]. unfold parse_actor. by reparse.
  - destruct (_ && _) in H; [|discriminate].
    destruct (as_trimmed _ _ _) eqn:Es; [|discriminate]. injection H as <-.
    unfold parse_actor. by reparse.
Qed.

#[global] Arguments parse_actor : simpl never.
#[global] Arguments actor_value : simpl never.

Lemma command_audit_reparse v a :
  parseCommandAudit v = Some a -> parseCommandAudit (command_audit_value a) = Some a.
Proof.
  unfold parseCommandAudit at 1. intros H. follow H. unfold parseCommandAudit. reparse.
  erewrite nullable_trimmed_reparse by eassumption. reparse.
  by erewrite actor_reparse by eassumption.
Qed.

Lemma strict_source_reparse v s :
  parseStrictConfigurationSource v = Some s ->
  parseStrictConfigurationSource (source_value s) = Some s.
Proof.
  unfold parseStrictConfigurationSource. intros H. destruct (exactDataRecord v _); [|discriminate].
  by rewrite (source_reparse _ _ H).
Qed.

#[global] Arguments parseCommandAudit : simpl never.
#[global] Arguments parseStrictConfigurationSource : simpl never.
#[global] Arguments parsePmsInventoryReservationReceipt : simpl never.
#[global] Arguments parseOfferCorrelation : simpl never.
#[global] Arguments parseDateRange : simpl never.
#[global] Arguments parseWatermarks : simpl never.
#[global] Arguments sourceRevisionNumber : simpl never.
#[global] Arguments command_audit_value : simpl never.
#[global] Arguments receipt_value : simpl never.
#[global] Arguments offer_value : simpl never.
#[global] Arguments source_value : simpl never.

Definition reserve_command_value (c : PmsInventoryReservationReserveCommand) : jsval :=
  obj [("contractVersion", VString LIFECYCLE_VERSION);
       ("organizationId", VString (rs_organizationId c));
       ("propertyId", VString (rs_propertyId c)); ("roomTypeId", VString (rs_roomTypeId c));
       ("checkIn", VString (rs_checkIn c)); ("checkOut", VString (rs_checkOut c));
       ("roomCount", VInt (rs_roomCount c));
       ("offerCorrelation", offer_value (rs_offerCorrelation c));
       ("configurationSource", source_value (rs_configurationSource c));
       ("expectedMaterializedRevision", VInt (rs_expectedMaterializedRevision c));
       ("inventoryWatermarks", arr (watermark_value <$> rs_inventoryWatermarks c));
       ("idempotencyKey", VString (rs_idempotencyKey c));
       ("audit", command_audit_value (rs_audit c))].

Lemma reserve_command_reparse v c :
  parsePmsInventoryReservationReserveCommand v = Some c ->
  parsePmsInventoryReservationReserveCommand (reserve_command_value c) = Some c.
Proof.
  unfold parsePmsInventoryReservationReserveCommand at 1. intros H. follow H.
  unfold parsePmsInventoryReservationReserveCommand. reparse.
  erewrite date_range_reparse, offer_reparse, strict_source_reparse by eassumption.
  repeat match goal with H : _ = true |- _ => rewrite H end.
  erewrite watermarks_reparse, command_audit_reparse by eassumption. done.
Qed.

Lemma transition_reparse v key reservedAt t :
  transition_at v key reservedAt = Some t ->
  isoDateTime (VString t) = Some t /\ (instant_of t <? instant_of reservedAt) = false.
Proof.
  unfold transition_at. destruct (isoDateTime (get v key)) as [t'|] eqn:E; [|discriminate].
  destruct (_ <? _) eqn:El; [discriminate|]. intros [= <-].
  split; [by eapply isoDateTime_reparse | done].
Qed.

Lemma state_reparse v reservedAt s :
  parse_state v reservedAt = Some s ->
  match s with
  | Reserved => True
  | Released t | HandedOff t =>
      isoDateTime (VString t) = Some t /\ (instant_of t <? instant_of reservedAt) = false
  end.
Proof.
  unfold parse_state. destruct (is_str _ "reserved"); [by intros [= <-]|].
  destruct (is_str _ "released").
  - destruct (transition_at v _ _) eqn:E; [|discriminate]. intros [= <-]. by apply transition_reparse in E.
  - destruct (transition_at v _ _) eqn:E; [|discriminate]. intros [= <-]. by apply transition_reparse in E.
Qed.

Lemma status_reparse v s :
  parsePmsInventoryReservationStatus v = Some s ->
  parsePmsInventoryReservationStatus (status_value s) = Some s.
Proof.
  unfold parsePmsInventoryReservationStatus at 1. cbv zeta. intros H.
  destruct (plainDataRecord v); [|discriminate].
  destruct (_ || _); [|discriminate]. destruct (exactDataRecord v _); [|discriminate].
  destruct (as_uuid (get v "organizationId")) eqn:E1; [|discriminate].
  destruct (as_uuid (get v "propertyId")) eqn:E2; [|discriminate].
  destruct (as_uuid (get v "roomTypeId")) eqn:E3; [|discriminate].
  destruct (as_integer _ _ _) eqn:E4; [|discriminate].
  destruct (positiveRevision _) eqn:E5; [|discriminate].
  destruct (is_int _ _); [|discriminate].
  destruct (isoDateTime _) eqn:E6; [|discriminate].
  destruct (parseDateRange _ _) eqn:E7; [|discriminate].
  destruct (parsePmsInventoryReservationReceipt _) eqn:E8; [|discriminate].
  destruct (parseOfferCorrelation _) eqn:E9; [|discriminate].
  destruct (parseStrictConfigurationSource _) eqn:E10; [|discriminate].
  destruct (String.eqb _ _) eqn:E11; [|discriminate]. destruct (_ =? _) eqn:E12; [|discriminate].
  destruct (parseWatermarks _ _ _ _ _) eqn:E13; [|discriminate].
  destruct (parse_state v _) as [st|] eqn:E14; [|discriminate]. injection H as <-.
  apply state_reparse in E14.
  unfold parsePmsInventoryReservationStatus, status_value. cbv zeta.
  destruct st as [|t|t]; cbn [st_state state_text lifecycleRevision]; reparse;
    erewrite date_range_reparse, receipt_reparse, offer_reparse, strict_source_reparse by eassumption;
    rewrite E11, E12; erewrite watermarks_reparse by eassumption; [done| |];
    destruct E14 as [Et El]; unfold parse_state, transition_at; cbn; by rewrite Et, El.
Qed.

(** ** What a parsed command holds *)

Lemma watermarks_scope_spec p r day c ws :
  watermarks_in_scope p r day c ws = true ->
  (wm_stayDate <$> ws) = dates_from day (Z.of_nat (length ws)) /\
  Forall (fun w => wm_propertyId w = p /\ wm_roomTypeId w = r /\ wm_calendarRevision w = c /\
                   rv_generated (wm_sourceRevisions w) = c) ws.
Proof.
  revert day. induction ws as [|w ws IH]; intros day H; [split; [done|constructor]|].
  cbn [watermarks_in_scope] in H. rewrite !andb_true_iff, !String.eqb_eq, !Z.eqb_eq in H.
  destruct H as (((((H1 & H2) & H3) & H4) & H5) & H6). apply IH in H6 as [E HF]. split.
  - unfold dates_from. cbn [length]. rewrite seqZ_cons by lia.
    replace (Z.pred (Z.of_nat (S (length ws)))) with (Z.of_nat (length ws)) by lia.
    cbn [fmap list_fmap]. f_equal; [exact H3|]. unfold dates_from in E.
    by replace (Z.succ day) with (day + 1) by lia.
  - by constructor.
Qed.

Lemma parse_watermarks_spec v p r d c ws :
  parseWatermarks v p r d c = Some ws ->
  (wm_stayDate <$> ws) = dates_from (dr_checkInDay d) (dr_dayCount d) /\
  Forall (fun w => wm_propertyId w = p /\ wm_roomTypeId w = r /\ wm_calendarRevision w = c /\
                   rv_generated (wm_sourceRevisions w) = c) ws.
Proof.
  unfold parseWatermarks. intros H. destruct (denseDataArray v) as [raws|]; [|discriminate].
  destruct (_ =? _) eqn:El; [|discriminate].
  destruct (traverse _ _) eqn:Et; [|discriminate].
  destruct (watermarks_in_scope _ _ _ _ _) eqn:Es; [|discriminate]. injection H as <-.
  apply watermarks_scope_spec in Es as [E HF]. split; [|done].
  rewrite E. rewrite (traverse_length _ _ _ Et). apply Z.eqb_eq in El. by rewrite El.
Qed.

Lemma date_range_spec a b d :
  parseDateRange a b = Some d ->
  isoDateEpochDay (VString (dr_checkIn d)) = Some (dr_checkInDay d) /\
  isoDateEpochDay (VString (dr_checkOut d)) = Some (dr_checkInDay d + dr_dayCount d) /\
  1 <= dr_dayCount d <= 366.
Proof.
  unfold parseDateRange. intros H.
  destruct (isoDateEpochDay a) eqn:Ea; [|discriminate].
  destruct (isoDateEpochDay b) eqn:Eb; [|discriminate].
  destruct (as_string a) eqn:Sa; [|discriminate]. destruct (as_string b) eqn:Sb; [|discriminate].
  apply as_string_reparse in Sa as ->, Sb as ->. cbv zeta in H.
  destruct (_ && _) eqn:E; [|discriminate]. injection H as <-. cbn.
  unfold PMS_INVENTORY_HORIZON_MAX_DAYS in E. apply andb_true_iff in E as [E1 E2].
  apply Z.leb_le in E1, E2. split; [done|]. split; [rewrite Eb; f_equal; lia | lia].
Qed.

(** ** Properties *)

(** An accepted reserve command asks for between one night and 366 nights and
    carries one watermark for every night from check-in to the day before
    check-out, in order, each for the command's property, room and calendar
    revision; reading the command back gives the same command. *)
Theorem reserve_command_nights v c :
  parsePmsInventoryReservationReserveCommand v = Some c ->
  parsePmsInventoryReservationReserveCommand (reserve_command_value c) = Some c /\
  exists checkInDay nights,
    isoDateEpochDay (VString (rs_checkIn c)) = Some checkInDay /\
    isoDateEpochDay (VString (rs_checkOut c)) = Some (checkInDay + nights) /\
    1 <= nights <= 366 /\ 1 <= rs_roomCount c <= 500 /\
    (wm_stayDate <$> rs_inventoryWatermarks c) = dates_from checkInDay nights /\
    Forall (fun w => wm_propertyId w = rs_propertyId c /\ wm_roomTypeId w = rs_roomTypeId c /\
                     wm_calendarRevision w = rs_expectedMaterializedRevision c)
      (rs_inventoryWatermarks c).
Proof.
  intros H. split; [by eapply reserve_command_reparse|].
  unfold parsePmsInventoryReservationReserveCommand in H. follow H. cbn.
  match goal with H : parseDateRange _ _ = Some ?d |- _ =>
    apply date_range_spec in H as (Hi & Ho & Hn); exists (dr_checkInDay d), (dr_dayCount d) end.
  match goal with H : parseWatermarks _ _ _ _ _ = Some _ |- _ =>
    apply parse_watermarks_spec in H as [Hd HF] end.
  match goal with H : as_integer _ _ _ = Some _ |- _ => apply as_integer_Some in H as (_ & _ & ?) end.
  split_and!; auto; try lia. eapply Forall_impl; [exact HF|]. cbn. tauto.
Qed.

Definition reserve_scope (c : PmsInventoryReservationReserveCommand) :=
  (rs_organizationId c, rs_propertyId c, rs_roomTypeId c, rs_checkIn c, rs_checkOut c,
   rs_roomCount c, rs_offerCorrelation c, rs_configurationSource c,
   rs_expectedMaterializedRevision c, rs_inventoryWatermarks c).

Lemma watermark_plain w : plain_json (watermark_value w).
Proof. unfold watermark_value, revisions_value. repeat constructor. Qed.

Lemma watermark_value_inj w w' : watermark_value w = watermark_value w' -> w = w'.
Proof.
  destruct w as [? ? ? ? ? []], w' as [? ? ? ? ? []]. unfold watermark_value, revisions_value. cbn.
  intros H. apply obj_inj in H. injection H. intros. by subst.
Qed.

Lemma reserve_fingerprint_plain c : plain_json (reserve_fingerprint_value c).
Proof.
  unfold reserve_fingerprint_value, offer_value, source_value.
  repeat constructor. apply Forall_fmap, Forall_forall. intros w _. apply watermark_plain.
Qed.

Lemma reserve_fingerprint_scope c c' :
  serializePmsInventoryReservationReserveFingerprint c =
  serializePmsInventoryReservationReserveFingerprint c' -> reserve_scope c = reserve_scope c'.
Proof.
  unfold serializePmsInventoryReservationReserveFingerprint.
  intros H%json_stringify_inj; [|apply reserve_fingerprint_plain..].
  destruct c as [? ? ? ? ? ? [] [] ? ws ? ?], c' as [? ? ? ? ? ? [] [] ? ws' ? ?].
  pose proof (f_equal (fun v => get v "inventoryWatermarks") H) as Hw. cbn in Hw.
  apply arr_inj, list_fmap_eq_inj in Hw; [|exact watermark_value_inj].
  unfold reserve_fingerprint_value in H. cbn in H. injection H. intros. subst. reflexivity.
Qed.

Lemma reserve_fingerprint_Some c :
  exists text, serializePmsInventoryReservationReserveFingerprint c = Some text.
Proof.
  eexists. unfold serializePmsInventoryReservationReserveFingerprint.
  apply plain_json_text, reserve_fingerprint_plain.
Qed.

(** Two reserve commands have the same fingerprint exactly when they ask for
    the same thing: every field but the idempotency key and the audit is equal. *)
Theorem reserve_fingerprint_identifies c c' :
  serializePmsInventoryReservationReserveFingerprint c =
  serializePmsInventoryReservationReserveFingerprint c' <-> reserve_scope c = reserve_scope c'.
Proof.
  split; [apply reserve_fingerprint_scope|]. intros H.
  unfold serializePmsInventoryReservationReserveFingerprint, reserve_fingerprint_value.
  destruct c, c'. unfold reserve_scope in H. cbn in H. injection H. intros. subst. reflexivity.
Qed.

(** Two release commands have the same fingerprint exactly when they release
    the same receipt of the same property and organization. *)
Theorem release_fingerprint_identifies c c' :
  serializePmsInventoryReservationReleaseFingerprint c =
  serializePmsInventoryReservationReleaseFingerprint c' <->
  rl_organizationId c = rl_organizationId c' /\ rl_propertyId c = rl_propertyId c' /\
  rl_receipt c = rl_receipt c'.
Proof.
  unfold serializePmsInventoryReservationReleaseFingerprint. split.
  - intros H%json_stringify_inj; [|unfold release_fingerprint_value, receipt_value; repeat constructor..].
    destruct c as [? ? [] ? ?], c' as [? ? [] ? ?].
    unfold release_fingerprint_value in H. cbn in *. apply obj_inj in H.
    injection H. intros. by subst.
  - intros (H1 & H2 & H3). unfold release_fingerprint_value. by rewrite H1, H2, H3.
Qed.

(** A reservation status reads back unchanged; its nights are the nights of
    the receipt, and a terminal status was reached no earlier than it was
    reserved. *)
Theorem status_roundtrip v s :
  parsePmsInventoryReservationStatus v = Some s ->
  parsePmsInventoryReservationStatus (status_value s) = Some s /\
  (exists checkInDay nights,
    isoDateEpochDay (VString (st_checkIn s)) = Some checkInDay /\
    isoDateEpochDay (VString (st_checkOut s)) = Some (checkInDay + nights) /\
    (wm_stayDate <$> st_reservationWatermarks s) = dates_from checkInDay nights) /\
  match st_state s with
  | Reserved => True
  | Released t | HandedOff t => instant_of (st_reservedAt s) <= instant_of t
  end.
Proof.
  intros H. split; [by eapply status_reparse|].
  unfold parsePmsInventoryReservationStatus in H. cbv zeta in H. follow H; cbn; split.
  1, 3: match goal with H : parseDateRange _ _ = Some ?d |- _ =>
      apply date_range_spec in H as (Hi & Ho & _); exists (dr_checkInDay d), (dr_dayCount d) end;
    match goal with H : parseWatermarks _ _ _ _ _ = Some _ |- _ =>
      apply parse_watermarks_spec in H as [Hd _] end; done.
  all: match goal with H : parse_state _ _ = Some _ |- _ => apply state_reparse in H end;
    match goal with |- match ?x with _ => _ end => destruct x end; [done| |];
      match goal with H : _ /\ _ |- _ => destruct H as [_ H]; by apply Z.ltb_ge in H end.
Qed.

Lemma intent_reparse s reason : parseRefreshIntent (intent_value s reason) s reason = true.
Proof.
  unfold parseRefreshIntent, is_int. cbn. by rewrite !is_str_refl, Z.eqb_refl.
Qed.

#[global] Arguments parsePmsInventoryReservationStatus : simpl never.
#[global] Arguments status_value : simpl never.
#[global] Arguments parseRefreshIntent : simpl never.
#[global] Arguments intent_value : simpl never.
#[global] Arguments has_string : simpl never.
#[global] Arguments already_state : simpl never.

(** A result of a reservation is consistent: a fresh outcome carries a
    reserved status and its refresh intent, an [already_*] outcome carries the
    state it names and no intent; reading the result back gives the same one. *)
Theorem reserve_result_roundtrip v r :
  parsePmsInventoryReservationReserveResult v = Some r ->
  parsePmsInventoryReservationReserveResult (result_value r) = Some r /\
  match r with
  | LifecycleOk outcome s (Some reason) =>
      outcome = "reserved"%string /\ st_state s = Reserved /\ reason = "reservation_held"%string
  | LifecycleOk outcome s None => outcome = ("already_" +:+ state_text (st_state s))%string
  | LifecycleError code => has_string RESERVE_ERROR_CODES code = true
  end.
Proof.
  unfold parsePmsInventoryReservationReserveResult at 1. intros H.
  destruct (plainDataRecord v); [|discriminate].
  destruct (get v "ok") as [| |[]| | | | | |]; try discriminate.
  - destruct (exactDataRecord v _); [|discriminate].
    destruct (as_string _) as [outcome|]; [|discriminate].
    destruct (has_string _ _) eqn:Eo; [|discriminate].
    destruct (parsePmsInventoryReservationStatus _) as [s|] eqn:Es; [|discriminate].
    apply status_reparse in Es. unfold parsePmsInventoryReservationReserveResult.
    destruct (negb _) eqn:En.
    + destruct (is_null _); [|discriminate]. destruct (bool_decide _) eqn:Ea; [|discriminate].
      injection H as <-. cbn. rewrite Es, En, Eo. cbn. rewrite Ea. split; [done|].
      apply bool_decide_eq_true in Ea. unfold already_state in Ea.
      destruct (String.eqb_spec outcome "already_reserved") as [->|];
        [|destruct (String.eqb_spec outcome "already_released") as [->|];
          [|destruct (String.eqb_spec outcome "already_handed_off") as [->|]; [|discriminate]]];
        injection Ea as <-; reflexivity.
    + destruct (parseRefreshIntent _ _ _); [|discriminate].
      destruct (String.eqb (state_text _) _) eqn:Est; [|discriminate]. injection H as <-. cbn.
      rewrite Es, En, Eo, intent_reparse, Est. split; [done|].
      apply negb_false_iff, String.eqb_eq in En as ->. apply String.eqb_eq in Est.
      split; [done|]. split; [|done]. by destruct (st_state s).
  - destruct (exactDataRecord v _); [|discriminate]. unfold parseError in H.
    destruct (exactDataRecord _ _); [|discriminate].
    destruct (as_string _) as [code|]; [|discriminate].
    destruct (has_string _ code) eqn:Ec; [|discriminate]. injection H as <-. split; [|done].
    unfold parsePmsInventoryReservationReserveResult, parseError. cbn. by rewrite Ec.
Qed.

(** A result of a release is consistent: a fresh outcome carries a released
    status and its refresh intent, an [already_*] outcome carries the terminal
    state it names and no intent; reading the result back gives the same one. *)
Theorem release_result_roundtrip v r :
  parsePmsInventoryReservationReleaseResult v = Some r ->
  parsePmsInventoryReservationReleaseResult (result_value r) = Some r /\
  match r with
  | LifecycleOk outcome s (Some reason) =>
      outcome = "released"%string /\ (exists t, st_state s = Released t) /\
      reason = "reservation_released"%string
  | LifecycleOk outcome s None =>
      outcome = ("already_" +:+ state_text (st_state s))%string /\ st_state s <> Reserved
  | LifecycleError code => has_string RELEASE_ERROR_CODES code = true
  end.
Proof.
  unfold parsePmsInventoryReservationReleaseResult at 1. cbv zeta. intros H.
  destruct (plainDataRecord v); [|discriminate].
  destruct (get v "ok") as [| |[]| | | | | |]; try discriminate.
  - destruct (exactDataRecord v _); [|discriminate].
    destruct (as_string _) as [outcome|]; [|discriminate].
    destruct (has_string _ _) eqn:Eo; [|discriminate].
    destruct (parsePmsInventoryReservationStatus _) as [s|] eqn:Es; [|discriminate].
    apply status_reparse in Es. unfold parsePmsInventoryReservationReleaseResult.
    destruct (String.eqb (state_text (st_state s)) _) eqn:Ex; [|discriminate].
    destruct (negb _) eqn:En.
    + destruct (is_null _); [|discriminate]. destruct (bool_decide _) eqn:Ea; [|discriminate].
      injection H as <-. cbn. rewrite Es, Ex, En, Eo. cbn. rewrite Ea. split; [done|].
      apply bool_decide_eq_true in Ea. unfold already_state in Ea.
      destruct (String.eqb_spec outcome "already_reserved") as [->|];
        [discriminate Eo|destruct (String.eqb_spec outcome "already_released") as [->|];
          [|destruct (String.eqb_spec outcome "already_handed_off") as [->|]; [|discriminate]]];
        injection Ea as Ea; rewrite <- Ea; split; try reflexivity; intros E; rewrite E in Ea; discriminate.
    + destruct (parseRefreshIntent _ _ _); [|discriminate].
      destruct (String.eqb (state_text _) "released") eqn:Est; [|discriminate]. injection H as <-. cbn.
      rewrite Es, Ex, En, Eo, intent_reparse, Est. split; [done|].
      apply negb_false_iff, String.eqb_eq in En as ->. apply String.eqb_eq in Est.
      split; [done|]. split; [|done]. destruct (st_state s); try discriminate. eauto.
  - destruct (exactDataRecord v _); [|discriminate]. unfold parseError in H.
    destruct (exactDataRecord _ _); [|discriminate].
    destruct (as_string _) as [code|]; [|discriminate].
    destruct (has_string _ code) eqn:Ec; [|discriminate]. injection H as <-. split; [|done].
    unfold parsePmsInventoryReservationReleaseResult, parseError. cbn. by rewrite Ec.
Qed.
