(* ===== verification/ReservationRows.v ===== *)
(** * Reservation rows (pmsInventoryReservationLifecycleRepository.ts, pure part)

    What the repository computes on the rows it reads: the decoding of database
    columns, the canonical inventory day, the checks a reservation and a release
    pass before any row is written, the status a receipt's rows decode to, and
    the comparisons that decide a replay. *)

From S2P Require Import Prelude JsValue JsonText CalendarDates OperatingSchedule OperatingCalendar InventoryPlanner ReservationLifecycle.

(** ** Columns

    A column value as the database driver returns it: [NULL], a JavaScript
    number, or a text.  Timestamps are read as instants in milliseconds. *)
Inductive column := ColNull | ColInt (n : Z) | ColText (s : string).

(** [databaseInteger]; [None] stands for [NaN]. *)
Definition databaseInteger (c : column) : option Z :=
  match c with
  | ColNull => None
  | ColInt n => Some n
  | ColText s =>
      if canonical_decimal s then option_map Z.of_N (string_to_N s) else None
  end.

(** [positiveRevision] of the repository *)
Definition positiveRevisionNumber (n : Z) : bool :=
  safe_integer n && (1 <=? n) && (n <=? MAX_REVISION).

Definition positiveDatabaseInteger (c : column) : option Z :=
  let? n := databaseInteger c in
  guard? positiveRevisionNumber n in Some n.

Definition nonNegativeDatabaseInteger (c : column) : option Z :=
  let? n := databaseInteger c in
  guard? safe_integer n && (0 <=? n) && (n <=? MAX_REVISION) in Some n.

Definition nullableNonNegativeDatabaseInteger (c : column) : option Z :=
  match c with ColNull => None | _ => nonNegativeDatabaseInteger c end.

(** ** Dates *)

(** [/^\d{4}-(0[1-9]|1[0-2])-([0-2]\d|3[01])$/] *)
Definition DATE_PATTERN (s : string) : bool :=
  match parse_ymd s with
  | Some (_, m, d) => (1 <=? m) && (m <=? 12) && (d <=? 31)
  | None => false
  end.

(** [dateNumber] by day number; [None] stands for [null] (an unreadable text). *)
Definition dateNumber (s : string) : option Z :=
  let? (y, m, d) := parse_ymd s in Some (date_utc y (m - 1) d).

Definition canonicalDate (s : string) : bool :=
  DATE_PATTERN s &&
  match dateNumber s with Some n => String.eqb (iso_date n) s | None => false end.

Definition databaseDate (c : column) : option string :=
  match c with
  | ColText s => if canonicalDate s then Some s else None
  | _ => None
  end.

Definition shiftDate (s : string) (days : Z) : option string :=
  guard? canonicalDate s in
  let? n := dateNumber s in Some (iso_date (n + days)).

Definition stayDates (checkIn checkOut : string) : option (list string) :=
  guard? canonicalDate checkIn && canonicalDate checkOut in
  let? first := dateNumber checkIn in
  let? exclusive := dateNumber checkOut in
  guard? negb (exclusive <=? first) in
  let n := exclusive - first in
  guard? (1 <=? n) && (n <=? 366) in Some (dates_from first n).

Definition normalizeUuid (s : string) : option string := as_uuid (VString s).

(** [a === b] of a nullable text and a text *)
Definition same_text (a : option string) (b : string) : bool :=
  match a with Some s => String.eqb s b | None => false end.

Definition same_number (a : option Z) (b : Z) : bool :=
  match a with Some n => n =? b | None => false end.

(** ** Inventory days *)

Record InventoryDayRow := {
  ir_propertyId : string;
  ir_roomTypeId : string;
  ir_stayDate : column;
  ir_calendarRevision : column;
  ir_inventoryRevision : column;
  ir_generatedSourceRevision : column;
  ir_channelSourceRevision : column;
  ir_manualSourceRevision : column;
  ir_blockSourceRevision : column;
  ir_bookingSourceRevision : column;
  ir_status : string;
  ir_totalCount : column;
  ir_generatedSellableLimitCount : column;
  ir_channelSellableLimitCount : column;
  ir_manualSellableLimitCount : column;
  ir_effectiveSellableLimitCount : column;
  ir_assignedCount : column;
  ir_blockedCount : column;
  ir_availableCount : column;
  ir_linkedStopSell : bool;
  ir_linkedSourceRevision : column;
}.

Record CanonicalInventoryDay := {
  cd_propertyId : string;
  cd_roomTypeId : string;
  cd_stayDate : string;
  cd_calendarRevision : Z;
  cd_inventoryRevision : Z;
  cd_generatedSourceRevision : Z;
  cd_channelSourceRevision : Z;
  cd_manualSourceRevision : Z;
  cd_blockSourceRevision : Z;
  cd_bookingSourceRevision : Z;
  cd_status : operating_status;
  cd_totalCount : Z;
  cd_generatedSellableLimitCount : Z;
  cd_channelSellableLimitCount : option Z;
  cd_manualSellableLimitCount : option Z;
  cd_effectiveSellableLimitCount : Z;
  cd_assignedCount : Z;
  cd_blockedCount : Z;
  cd_availableCount : Z;
  cd_linkedStopSell : bool;
  cd_linkedSourceRevision : Z;
}.

Definition status_of_text (s : string) : option operating_status :=
  if String.eqb s "open" then Some StatusOpen
  else if String.eqb s "closed" then Some StatusClosed else None.

(** A nullable limit: [Some None] for [NULL]; a malformed value is refused. *)
Definition limit_column (c : column) : option (option Z) :=
  match c with
  | ColNull => Some None
  | _ => option_map Some (nonNegativeDatabaseInteger c)
  end.

Definition canonicalInventoryDay (row : InventoryDayRow) : option CanonicalInventoryDay :=
  let? propertyId := normalizeUuid (ir_propertyId row) in
  let? roomTypeId := normalizeUuid (ir_roomTypeId row) in
  let? stayDate := databaseDate (ir_stayDate row) in
  let? calendarRevision := positiveDatabaseInteger (ir_calendarRevision row) in
  let? inventoryRevision := positiveDatabaseInteger (ir_inventoryRevision row) in
  let? generated := positiveDatabaseInteger (ir_generatedSourceRevision row) in
  let? channel := nonNegativeDatabaseInteger (ir_channelSourceRevision row) in
  let? manual := nonNegativeDatabaseInteger (ir_manualSourceRevision row) in
  let? block := nonNegativeDatabaseInteger (ir_blockSourceRevision row) in
  let? booking := nonNegativeDatabaseInteger (ir_bookingSourceRevision row) in
  let? total := nonNegativeDatabaseInteger (ir_totalCount row) in
  let? generatedLimit := nonNegativeDatabaseInteger (ir_generatedSellableLimitCount row) in
  let? channelLimit := limit_column (ir_channelSellableLimitCount row) in
  let? manualLimit := limit_column (ir_manualSellableLimitCount row) in
  let? effective := nonNegativeDatabaseInteger (ir_effectiveSellableLimitCount row) in
  let? assigned := nonNegativeDatabaseInteger (ir_assignedCount row) in
  let? blocked := nonNegativeDatabaseInteger (ir_blockedCount row) in
  let? available := nonNegativeDatabaseInteger (ir_availableCount row) in
  let? linked := nonNegativeDatabaseInteger (ir_linkedSourceRevision row) in
  let? status := status_of_text (ir_status row) in
  Some {| cd_propertyId := propertyId; cd_roomTypeId := roomTypeId; cd_stayDate := stayDate;
          cd_calendarRevision := calendarRevision; cd_inventoryRevision := inventoryRevision;
          cd_generatedSourceRevision := generated; cd_channelSourceRevision := channel;
          cd_manualSourceRevision := manual; cd_blockSourceRevision := block;
          cd_bookingSourceRevision := booking; cd_status := status; cd_totalCount := total;
          cd_generatedSellableLimitCount := generatedLimit;
          cd_channelSellableLimitCount := channelLimit;
          cd_manualSellableLimitCount := manualLimit;
          cd_effectiveSellableLimitCount := effective; cd_assignedCount := assigned;
          cd_blockedCount := blocked; cd_availableCount := available;
          cd_linkedStopSell := ir_linkedStopSell row; cd_linkedSourceRevision := linked |}.

Definition dayInvariant (day : CanonicalInventoryDay) : bool :=
  let effective := default (cd_generatedSellableLimitCount day)
    (orElse (cd_manualSellableLimitCount day) (cd_channelSellableLimitCount day)) in
  let expectedAvailable := available_of (cd_status day) (cd_linkedStopSell day)
    (cd_effectiveSellableLimitCount day) (cd_assignedCount day) (cd_blockedCount day) in
  (cd_generatedSourceRevision day =? cd_calendarRevision day) &&
  (cd_generatedSellableLimitCount day <=? cd_totalCount day) &&
  opt_le (cd_channelSellableLimitCount day) (cd_totalCount day) &&
  opt_le (cd_manualSellableLimitCount day) (cd_totalCount day) &&
  (cd_effectiveSellableLimitCount day =? effective) &&
  (cd_assignedCount day + cd_blockedCount day <=? cd_totalCount day) &&
  (cd_availableCount day =? expectedAvailable).

Definition watermarkMatchesDay (w : PmsInventoryReservationDayWatermark)
    (day : CanonicalInventoryDay) : bool :=
  let r := wm_sourceRevisions w in
  String.eqb (wm_propertyId w) (cd_propertyId day) &&
  String.eqb (wm_roomTypeId w) (cd_roomTypeId day) &&
  String.eqb (wm_stayDate w) (cd_stayDate day) &&
  (wm_calendarRevision w =? cd_calendarRevision day) &&
  (wm_inventoryRevision w =? cd_inventoryRevision day) &&
  (rv_generated r =? cd_generatedSourceRevision day) &&
  (rv_channel r =? cd_channelSourceRevision day) &&
  (rv_manual r =? cd_manualSourceRevision day) &&
  (rv_block r =? cd_blockSourceRevision day) &&
  (rv_booking r =? cd_bookingSourceRevision day).

(** ** The checks before a write *)

(** One night of the loop of [validateReserveDays]; [None] lets it go on. *)
Definition reserve_day_error (command : PmsInventoryReservationReserveCommand)
    (physicalCapacity : Z) (date : string) (day : CanonicalInventoryDay)
    (w : PmsInventoryReservationDayWatermark) : option string :=
  if negb (String.eqb (cd_propertyId day) (rs_propertyId command)) ||
     negb (String.eqb (cd_roomTypeId day) (rs_roomTypeId command)) ||
     negb (String.eqb (cd_stayDate day) date) ||
     negb (cd_calendarRevision day =? rs_expectedMaterializedRevision command) ||
     negb (cd_generatedSourceRevision day =? rs_expectedMaterializedRevision command)
  then Some "materialization_not_current"%string
  else if negb (watermarkMatchesDay w day) then Some "inventory_watermark_conflict"%string
  else if negb (dayInvariant day) || negb (cd_totalCount day =? physicalCapacity)
  then Some "inventory_invariant_violation"%string
  else if negb (bool_decide (cd_status day = StatusOpen)) ||
          (cd_availableCount day <? rs_roomCount command) ||
          (cd_totalCount day <?
             cd_assignedCount day + cd_blockedCount day + rs_roomCount command)
  then Some "inventory_unavailable"%string
  else if (cd_inventoryRevision day =? MAX_REVISION) || (cd_bookingSourceRevision day =? MAX_REVISION)
  then Some "inventory_invariant_violation"%string
  else None.

(** The loop over the nights; the three lists have the same length. *)
Fixpoint reserve_days_error (command : PmsInventoryReservationReserveCommand)
    (physicalCapacity : Z) (dates : list string) (days : list CanonicalInventoryDay)
    (watermarks : list PmsInventoryReservationDayWatermark) : option string :=
  match dates, days, watermarks with
  | date :: dates, day :: days, w :: watermarks =>
      match reserve_day_error command physicalCapacity date day w with
      | Some code => Some code
      | None => reserve_days_error command physicalCapacity dates days watermarks
      end
  | _, _, _ => None
  end.

Definition validateReserveDays (command : PmsInventoryReservationReserveCommand)
    (days : list CanonicalInventoryDay) (physicalCapacity : Z) : option string :=
  match stayDates (rs_checkIn command) (rs_checkOut command) with
  | None => Some "materialization_not_current"%string
  | Some dates =>
      if negb (Nat.eqb (length days) (length dates)) ||
         negb (Nat.eqb (length (rs_inventoryWatermarks command)) (length dates))
      then Some "materialization_not_current"%string
      else reserve_days_error command physicalCapacity dates days
             (rs_inventoryWatermarks command)
  end.

Definition release_day_ok (status : PmsInventoryReservationStatus) (physicalCapacity : Z)
    (day : CanonicalInventoryDay) (date : string) : bool :=
  String.eqb (cd_propertyId day) (st_propertyId status) &&
  String.eqb (cd_roomTypeId day) (st_roomTypeId status) &&
  String.eqb (cd_stayDate day) date &&
  (cd_totalCount day =? physicalCapacity) &&
  dayInvariant day &&
  (st_roomCount status <=? cd_assignedCount day) &&
  (cd_inventoryRevision day <? MAX_REVISION) &&
  (cd_bookingSourceRevision day <? MAX_REVISION).

Definition validateReleaseDays (status : PmsInventoryReservationStatus)
    (days : list CanonicalInventoryDay) (physicalCapacity : option Z) : bool :=
  match stayDates (st_checkIn status) (st_checkOut status), physicalCapacity with
  | Some dates, Some capacity =>
      Nat.eqb (length days) (length dates) &&
      forallb (fun p => release_day_ok status capacity (fst p) (snd p)) (zip days dates)
  | _, _ => false
  end.

(** ** Coverage *)

Record CoverageRow := {
  cr_organizationId : string;
  cr_propertyId : string;
  cr_calendarRevision : column;
  cr_materializedRevision : column;
  cr_coverageFrom : column;
  cr_coverageThrough : column;
}.

Definition coverageCoversCommand (coverage : option CoverageRow)
    (command : PmsInventoryReservationReserveCommand) : bool :=
  match coverage with
  | None => false
  | Some c =>
      let checkoutPrevious := shiftDate (rs_checkOut command) (-1) in
      same_text (normalizeUuid (cr_organizationId c)) (rs_organizationId command) &&
      same_text (normalizeUuid (cr_propertyId c)) (rs_propertyId command) &&
      same_number (databaseInteger (cr_calendarRevision c))
        (rs_expectedMaterializedRevision command) &&
      same_number (databaseInteger (cr_materializedRevision c))
        (rs_expectedMaterializedRevision command) &&
      match databaseDate (cr_coverageFrom c), checkoutPrevious,
            databaseDate (cr_coverageThrough c) with
      | Some from, Some last, Some through => str_le from (rs_checkIn command) && str_le last through
      | _, _, _ => false
      end
  end.

(** ** The status a receipt's rows decode to *)

Record ReservationRootRow := {
  rr_receiptId : string;
  rr_contractVersion : string;
  rr_receiptOwner : string;
  rr_organizationId : string;
  rr_propertyId : string;
  rr_roomTypeId : string;
  rr_checkIn : column;
  rr_checkOut : column;
  rr_roomCount : column;
  rr_quoteSessionId : string;
  rr_publicOfferKey : string;
  rr_calendarRevision : column;
  rr_materializedRevision : column;
  rr_reservedAt : option Z;
  rr_lifecycleState : string;
  rr_lifecycleRevision : column;
  rr_releasedAt : option Z;
  rr_handedOffAt : option Z;
}.

Record WatermarkRow := {
  wr_propertyId : string;
  wr_roomTypeId : string;
  wr_stayDate : column;
  wr_calendarRevision : column;
  wr_inventoryRevision : column;
  wr_generatedSourceRevision : column;
  wr_channelSourceRevision : column;
  wr_manualSourceRevision : column;
  wr_blockSourceRevision : column;
  wr_bookingSourceRevision : column;
}.

(** [databaseInteger(v)] as a value; [NaN] is a number that is no integer. *)
Definition integer_value (c : column) : jsval :=
  match databaseInteger c with Some n => VInt n | None => VFrac "NaN" end.

Definition date_value (c : column) : jsval := of_nullable VString (databaseDate c).

(** [databaseTimestamp(v)?.toISOString()] *)
Definition timestamp_value (t : option Z) : jsval :=
  match t with Some t => VString (to_iso_string t) | None => VUndefined end.

Definition watermark_row_value (r : WatermarkRow) : jsval :=
  obj [("propertyId", VString (wr_propertyId r)); ("roomTypeId", VString (wr_roomTypeId r));
       ("stayDate", date_value (wr_stayDate r));
       ("calendarRevision", integer_value (wr_calendarRevision r));
       ("inventoryRevision", integer_value (wr_inventoryRevision r));
       ("sourceRevisions",
        obj [("generated", integer_value (wr_generatedSourceRevision r));
             ("channel", integer_value (wr_channelSourceRevision r));
             ("manual", integer_value (wr_manualSourceRevision r));
             ("block", integer_value (wr_blockSourceRevision r));
             ("booking", integer_value (wr_bookingSourceRevision r))])].

(** A throw inside the [try] block gives [null]. *)
Definition reservationStatusFromRows (root : ReservationRootRow) (watermarks : list WatermarkRow)
    : option PmsInventoryReservationStatus :=
  let? calendarRevision := positiveDatabaseInteger (rr_calendarRevision root) in
  guard? String.eqb (rr_contractVersion root) LIFECYCLE_VERSION &&
         String.eqb (rr_receiptOwner root) "pms" &&
         same_number (positiveDatabaseInteger (rr_materializedRevision root)) calendarRevision in
  match createPmsOperatingCalendarSourceRevision (rr_propertyId root) calendarRevision with
  | Throw _ => None
  | Ret source =>
      parsePmsInventoryReservationStatus
        (obj ([("receipt", obj [("contractVersion", VString LIFECYCLE_VERSION);
                                ("owner", VString "pms");
                                ("receiptId", VString (rr_receiptId root))]);
               ("organizationId", VString (rr_organizationId root));
               ("propertyId", VString (rr_propertyId root));
               ("roomTypeId", VString (rr_roomTypeId root));
               ("checkIn", date_value (rr_checkIn root));
               ("checkOut", date_value (rr_checkOut root));
               ("roomCount", integer_value (rr_roomCount root));
               ("offerCorrelation",
                obj [("quoteSessionId", VString (rr_quoteSessionId root));
                     ("publicOfferKey", VString (rr_publicOfferKey root))]);
               ("configurationSource", source_value source);
               ("materializedRevision", VInt calendarRevision);
               ("reservationWatermarks", arr (watermark_row_value <$> watermarks));
               ("lifecycleRevision", integer_value (rr_lifecycleRevision root));
               ("reservedAt", timestamp_value (rr_reservedAt root));
               ("state", VString (rr_lifecycleState root))] ++
              (if String.eqb (rr_lifecycleState root) "released"
               then [("releasedAt", timestamp_value (rr_releasedAt root))]
               else if String.eqb (rr_lifecycleState root) "handed_off"
               then [("handedOffAt", timestamp_value (rr_handedOffAt root))] else [])))
  end.

(** ** Canonical JSON *)

(** [dataRecord] of the repository *)
Definition plain_record (v : jsval) : bool := plainDataRecord v.

Definition field_key_le (a b : jskey * (propkind * jsval)) : bool :=
  match fst a, fst b with
  | KString s, KString t => str_le s t
  | _, _ => true
  end.

(** [sortJsonValue]: the keys of plain records in code-unit order, everywhere. *)
Fixpoint sortJsonValue (v : jsval) : jsval :=
  match v with
  | VArray _ elems _ => arr ((fun e => sortJsonValue (snd e)) <$> elems)
  | VObject _ props =>
      if plain_record v then
        VObject ProtoObject
          (stable_sort field_key_le
             ((fun e => (fst e, (plain_prop, sortJsonValue (snd (snd e))))) <$> props))
      else v
  | _ => v
  end.

Definition stableJson (v : jsval) : option string := json_stringify (sortJsonValue v).

(** [stableJson(a) === stableJson(b)] *)
Definition same_stable_json (a b : jsval) : bool := bool_decide (stableJson a = stableJson b).

(** ** Statuses and results *)

Definition statusFromReserve (command : PmsInventoryReservationReserveCommand)
    (receiptId : string) (acceptedAt : Z) : PmsInventoryReservationStatus :=
  {| st_receipt := {| rc_receiptId := receiptId |};
     st_organizationId := rs_organizationId command; st_propertyId := rs_propertyId command;
     st_roomTypeId := rs_roomTypeId command; st_checkIn := rs_checkIn command;
     st_checkOut := rs_checkOut command; st_roomCount := rs_roomCount command;
     st_offerCorrelation := rs_offerCorrelation command;
     st_configurationSource := rs_configurationSource command;
     st_materializedRevision := rs_expectedMaterializedRevision command;
     st_reservationWatermarks := rs_inventoryWatermarks command;
     st_reservedAt := to_iso_string acceptedAt; st_state := Reserved |}.

(** The released status of a reserved one: [{...status, state, lifecycleRevision, releasedAt}] *)
Definition releasedStatus (status : PmsInventoryReservationStatus) (acceptedAt : Z)
    : PmsInventoryReservationStatus :=
  {| st_receipt := st_receipt status; st_organizationId := st_organizationId status;
     st_propertyId := st_propertyId status; st_roomTypeId := st_roomTypeId status;
     st_checkIn := st_checkIn status; st_checkOut := st_checkOut status;
     st_roomCount := st_roomCount status; st_offerCorrelation := st_offerCorrelation status;
     st_configurationSource := st_configurationSource status;
     st_materializedRevision := st_materializedRevision status;
     st_reservationWatermarks := st_reservationWatermarks status;
     st_reservedAt := st_reservedAt status; st_state := Released (to_iso_string acceptedAt) |}.

(** [reserveFailure], [releaseFailure] *)
Definition failure (code : string) : lifecycle_result := LifecycleError code.

Definition reserveReplayResult (status : PmsInventoryReservationStatus) : lifecycle_result :=
  match st_state status with
  | Reserved => LifecycleOk "already_reserved" status None
  | Released _ => LifecycleOk "already_released" status None
  | HandedOff _ => LifecycleOk "already_handed_off" status None
  end.

Definition releaseTerminalResult (status : PmsInventoryReservationStatus) : exn lifecycle_result :=
  match st_state status with
  | Reserved => Throw "InventoryInvariantError"
  | Released _ => Ret (LifecycleOk "already_released" status None)
  | HandedOff _ => Ret (LifecycleOk "already_handed_off" status None)
  end.

Definition reserveStatusMatchesCommand (status : PmsInventoryReservationStatus)
    (command : PmsInventoryReservationReserveCommand) : bool :=
  String.eqb (st_organizationId status) (rs_organizationId command) &&
  String.eqb (st_propertyId status) (rs_propertyId command) &&
  String.eqb (st_roomTypeId status) (rs_roomTypeId command) &&
  String.eqb (st_checkIn status) (rs_checkIn command) &&
  String.eqb (st_checkOut status) (rs_checkOut command) &&
  (st_roomCount status =? rs_roomCount command) &&
  same_stable_json (offer_value (st_offerCorrelation status))
    (offer_value (rs_offerCorrelation command)) &&
  same_stable_json (source_value (st_configurationSource status))
    (source_value (rs_configurationSource command)) &&
  (st_materializedRevision status =? rs_expectedMaterializedRevision command) &&
  same_stable_json (arr (watermark_value <$> st_reservationWatermarks status))
    (arr (watermark_value <$> rs_inventoryWatermarks command)).

Definition sameReservationIdentity (left right : PmsInventoryReservationStatus) : bool :=
  String.eqb (rc_receiptId (st_receipt left)) (rc_receiptId (st_receipt right)) &&
  String.eqb (st_organizationId left) (st_organizationId right) &&
  String.eqb (st_propertyId left) (st_propertyId right) &&
  String.eqb (st_roomTypeId left) (st_roomTypeId right) &&
  String.eqb (st_checkIn left) (st_checkIn right) &&
  String.eqb (st_checkOut left) (st_checkOut right) &&
  (st_roomCount left =? st_roomCount right) &&
  String.eqb (st_reservedAt left) (st_reservedAt right) &&
  same_stable_json (offer_value (st_offerCorrelation left)) (offer_value (st_offerCorrelation right)) &&
  same_stable_json (source_value (st_configurationSource left))
    (source_value (st_configurationSource right)) &&
  (st_materializedRevision left =? st_materializedRevision right) &&
  same_stable_json (arr (watermark_value <$> st_reservationWatermarks left))
    (arr (watermark_value <$> st_reservationWatermarks right)).

Definition reserveResultStatus (r : lifecycle_result) : Z :=
  match r with
  | LifecycleOk outcome _ _ => if String.eqb outcome "reserved" then 201 else 200
  | LifecycleError _ => 409
  end.

Definition releaseResultStatus (r : lifecycle_result) : Z :=
  match r with
  | LifecycleOk _ _ _ => 200
  | LifecycleError code => if String.eqb code "receipt_not_found" then 404 else 409
  end.

(** [propertyProfileRevision] *)
Definition propertyProfileRevision (c : PmsOperatingCalendarConfigurationSnapshot) : option Z :=
  let? digits := strip_prefix "profile:" (ps_revision (si_propertyProfile (cs_sourceInputs c))) in
  guard? positive_decimal digits in
  let? n := option_map Z.of_N (string_to_N digits) in
  guard? positiveRevisionNumber n in Some n.

Definition sameConfigurationIdentity (left right : PmsOperatingCalendarConfigurationSnapshot) : bool :=
  String.eqb (cs_propertyId left) (cs_propertyId right) &&
  (cs_calendarRevision left =? cs_calendarRevision right) &&
  same_stable_json (source_value (cs_source left)) (source_value (cs_source right)) &&
  same_stable_json (configuration_value left) (configuration_value right).

(** ** Dates of a stay *)

Lemma canonicalDate_timestamp s :
  canonicalDate s = true <-> exists n, isoDateTimestamp (VString s) = Some n.
Proof.
  unfold canonicalDate, DATE_PATTERN, dateNumber, isoDateTimestamp. cbn [as_string].
  destruct (parse_ymd s) as [[[y m] d]|] eqn:E; [|split; [done | intros [n Hn]; done]].
  split.
  - intros H. apply andb_true_iff in H as [_ H]. rewrite H. eauto.
  - intros [n Hn]. destruct (String.eqb _ s) eqn:Es; [|done]. rewrite andb_true_r.
    assert (Ht : isoDateTimestamp (VString s) = Some n)
      by (unfold isoDateTimestamp; cbn [as_string]; by rewrite E, Es).
    apply isoDateTimestamp_spec in Ht as (y' & m' & d' & [= ->] & Hy & Hv & _).
    pose proof (valid_civil_small _ _ _ Hv).
    rewrite date_text_parse in E by lia. injection E as <- <- <-.
    rewrite !andb_true_iff, !Z.leb_le. lia.
Qed.

Lemma dateNumber_timestamp s n : isoDateTimestamp (VString s) = Some n -> dateNumber s = Some n.
Proof.
  unfold isoDateTimestamp, dateNumber. cbn [as_string].
  destruct (parse_ymd s) as [[[y m] d]|]; [|done]. by destruct (String.eqb _ s).
Qed.

Lemma stayDates_Some a b dates :
  stayDates a b = Some dates <->
  exists first n, isoDateTimestamp (VString a) = Some first /\
    isoDateTimestamp (VString b) = Some (first + n) /\ 1 <= n <= 366 /\ dates = dates_from first n.
Proof.
  unfold stayDates. split.
  - intros H. destruct (canonicalDate a) eqn:Ea; [|done]. destruct (canonicalDate b) eqn:Eb; [|done].
    apply canonicalDate_timestamp in Ea as [i Hi]. apply canonicalDate_timestamp in Eb as [j Hj].
    rewrite (dateNumber_timestamp _ _ Hi), (dateNumber_timestamp _ _ Hj) in H.
    destruct (j <=? i) eqn:E1; [done|]. cbn in H.
    destruct ((1 <=? j - i) && (j - i <=? 366)) eqn:E2; [|done].
    injection H as <-. bool_to_prop. exists i, (j - i).
    split_and!; auto; try lia. rewrite Hj. f_equal. lia.
  - intros (i & n & Hi & Hj & Hn & ->).
    rewrite (proj2 (canonicalDate_timestamp a) (ex_intro _ _ Hi)),
      (proj2 (canonicalDate_timestamp b) (ex_intro _ _ Hj)). cbn [andb].
    rewrite (dateNumber_timestamp _ _ Hi), (dateNumber_timestamp _ _ Hj).
    replace (i + n <=? i) with false by lia. cbn [negb].
    replace (i + n - i) with n by lia.
    replace ((1 <=? n) && (n <=? 366)) with true by lia. done.
Qed.

(** ** Accepted days *)

Record reserve_day_accepted (command : PmsInventoryReservationReserveCommand) (capacity : Z)
    (date : string) (day : CanonicalInventoryDay) (w : PmsInventoryReservationDayWatermark) : Prop := {
  ra_propertyId : cd_propertyId day = rs_propertyId command;
  ra_roomTypeId : cd_roomTypeId day = rs_roomTypeId command;
  ra_stayDate : cd_stayDate day = date;
  ra_calendar : cd_calendarRevision day = rs_expectedMaterializedRevision command;
  ra_watermark : watermarkMatchesDay w day = true;
  ra_invariant : dayInvariant day = true;
  ra_capacity : cd_totalCount day = capacity;
  ra_open : cd_status day = StatusOpen;
  ra_available : rs_roomCount command <= cd_availableCount day;
  ra_fits : cd_assignedCount day + cd_blockedCount day + rs_roomCount command <= cd_totalCount day;
  ra_revisions : cd_inventoryRevision day <> MAX_REVISION /\ cd_bookingSourceRevision day <> MAX_REVISION;
}.

Lemma reserve_day_error_None command capacity date day w :
  reserve_day_error command capacity date day w = None <->
  reserve_day_accepted command capacity date day w /\
    cd_generatedSourceRevision day = rs_expectedMaterializedRevision command.
Proof.
  unfold reserve_day_error. split.
  - intros H. repeat (break_match_in H; [discriminate H|]). bool_to_prop.
    rewrite bool_decide_eq_true in *. by repeat split.
  - intros [[] Hg]. repeat break_match; try done; exfalso; bool_to_prop.
    all: repeat match goal with
      | H : _ \/ _ |- _ => destruct H
      | H : _ = false |- _ => progress bool_to_prop
      | H : bool_decide _ = false |- _ => apply bool_decide_eq_false in H
      end; try congruence; try lia.
Qed.

Lemma reserve_days_error_None command capacity dates days ws :
  length days = length dates -> length ws = length dates ->
  reserve_days_error command capacity dates days ws = None ->
  Forall2 (fun day date => exists w, reserve_day_accepted command capacity date day w) days dates.
Proof.
  revert days ws. induction dates as [|date dates IH]; intros [|day days] [|w ws] Hd Hw H;
    try discriminate; [constructor|].
  cbn in H. destruct (reserve_day_error _ _ _ _ _) eqn:E; [discriminate|].
  apply reserve_day_error_None in E as [E _]. constructor; [by exists w|].
  apply (IH days ws); [by injection Hd | by injection Hw | done].
Qed.

Lemma validateReserveDays_None command days capacity :
  validateReserveDays command days capacity = None ->
  exists dates, stayDates (rs_checkIn command) (rs_checkOut command) = Some dates /\
    Forall2 (fun day date => exists w, reserve_day_accepted command capacity date day w) days dates.
Proof.
  unfold validateReserveDays. destruct (stayDates _ _) as [dates|]; [|done].
  destruct (negb _ || negb _) eqn:E; [done|]. bool_to_prop. rewrite Nat.eqb_eq in *.
  intros Hok. exists dates. split; [done|]. by eapply reserve_days_error_None.
Qed.

Lemma validateReleaseDays_true status days capacity :
  validateReleaseDays status days capacity = true ->
  exists dates c, stayDates (st_checkIn status) (st_checkOut status) = Some dates /\
    capacity = Some c /\ Forall2 (fun day date => release_day_ok status c day date = true) days dates.
Proof.
  unfold validateReleaseDays. destruct (stayDates _ _) as [dates|]; [|done].
  destruct capacity as [c|]; [|done]. intros H. bool_to_prop. rewrite Nat.eqb_eq in *.
  exists dates, c. split_and!; [done..|].
  match goal with H : forallb _ _ = true |- _ => rename H into Hall end.
  match goal with H : length _ = length _ |- _ => rename H into Hlen end.
  revert dates Hlen Hall. induction days as [|d days IH]; intros [|x dates] Hlen Hall; try discriminate;
    [constructor|].
  cbn in Hall. apply andb_true_iff in Hall as [H1 H2]. constructor; [done|].
  apply IH; [by injection Hlen | done].
Qed.

Lemma dayInvariant_bounds day :
  dayInvariant day = true ->
  cd_generatedSourceRevision day = cd_calendarRevision day /\
  cd_generatedSellableLimitCount day <= cd_totalCount day /\
  opt_le (cd_channelSellableLimitCount day) (cd_totalCount day) = true /\
  opt_le (cd_manualSellableLimitCount day) (cd_totalCount day) = true /\
  cd_effectiveSellableLimitCount day = default (cd_generatedSellableLimitCount day)
    (orElse (cd_manualSellableLimitCount day) (cd_channelSellableLimitCount day)) /\
  cd_assignedCount day + cd_blockedCount day <= cd_totalCount day /\
  cd_availableCount day = available_of (cd_status day) (cd_linkedStopSell day)
    (cd_effectiveSellableLimitCount day) (cd_assignedCount day) (cd_blockedCount day).
Proof. unfold dayInvariant. intros H. bool_to_prop. by split_and!. Qed.

Lemma effective_le_total day :
  dayInvariant day = true -> cd_effectiveSellableLimitCount day <= cd_totalCount day.
Proof.
  intros H. apply dayInvariant_bounds in H as (_ & Hg & Hc & Hm & -> & _).
  unfold orElse, opt_le in *. destruct (cd_manualSellableLimitCount day); cbn; [lia|].
  destruct (cd_channelSellableLimitCount day); cbn; lia.
Qed.
