(* ===== verification/ReservationStore.v ===== *)
(** * The reservation tables

    The rows of the tables the reservation repository reads and writes, the
    constraints and triggers of those tables (backend-migration/migrations 0006,
    0057, 0114, 0175, 0176), and the transaction monad: a command runs on a
    store and either returns a value and a store or throws.  An identifier the
    database generates is its generation number. *)

From S2P Require Import Prelude JsValue JsonText CalendarDates OperatingSchedule OperatingCalendar InventoryPlanner ReservationLifecycle ReservationRows.

(** ** Rows *)

(** [pms.inventory_days]; the canonical columns are nullable, as legacy rows
    have none of them. *)
Record inventory_day := {
  id_propertyId : string;
  id_roomTypeId : string;
  id_stayDate : string;
  id_calendarRevision : option Z;
  id_inventoryRevision : option Z;
  id_generatedSourceRevision : option Z;
  id_channelSourceRevision : option Z;
  id_manualSourceRevision : option Z;
  id_blockSourceRevision : option Z;
  id_bookingSourceRevision : option Z;
  id_status : string;
  id_totalCount : Z;
  id_generatedLimit : option Z;
  id_channelLimit : option Z;
  id_manualLimit : option Z;
  id_effectiveLimit : option Z;
  id_assignedCount : Z;
  id_blockedCount : Z;
  id_availableCount : Z;
  id_linkedStopSell : bool;
  id_linkedSourceRevision : Z;
  id_rateGateOpen : option bool;
}.

#[export] Instance inventory_day_eq_dec : EqDecision inventory_day.
Proof. solve_decision. Defined.

(** [pms.inventory_materialization_coverage] *)
Record coverage_row := {
  co_organizationId : string;
  co_propertyId : string;
  co_calendarRevision : Z;
  co_materializedRevision : Z;
  co_coverageFrom : string;
  co_coverageThrough : string;
}.

(** [pms.inventory_reservation_receipts] *)
Record receipt_row := {
  re_receiptId : string;
  re_contractVersion : string;
  re_receiptOwner : string;
  re_organizationId : string;
  re_propertyId : string;
  re_roomTypeId : string;
  re_checkIn : string;
  re_checkOut : string;
  re_roomCount : Z;
  re_quoteSessionId : string;
  re_publicOfferKey : string;
  re_calendarRevision : Z;
  re_materializedRevision : Z;
  re_fingerprintHash : string;
  re_idempotencyKeyId : nat;
  re_domainEventId : nat;
  re_outboxEventId : nat;
  re_reservedAt : Z;
}.

(** [pms.inventory_reservation_statuses] *)
Record status_row := {
  ss_receiptId : string;
  ss_organizationId : string;
  ss_propertyId : string;
  ss_lifecycleState : string;
  ss_lifecycleRevision : Z;
  ss_releaseFingerprintHash : option string;
  ss_releaseIdempotencyKeyId : option nat;
  ss_releaseDomainEventId : option nat;
  ss_releaseOutboxEventId : option nat;
  ss_releasedAt : option Z;
  ss_handedOffAt : option Z;
}.

(** [pms.inventory_reservation_day_watermarks] *)
Record watermark_row := {
  wk_receiptId : string;
  wk_organizationId : string;
  wk_propertyId : string;
  wk_roomTypeId : string;
  wk_stayDate : string;
  wk_calendarRevision : Z;
  wk_inventoryRevision : Z;
  wk_sourceRevisions : PmsInventorySourceRevisionVector;
}.

(** [platform.idempotency_keys], its rows of the PMS scope of one property *)
Record idempotency_row := {
  ik_id : nat;
  ik_operation : string;
  ik_keyHash : string;
  ik_propertyId : string;
  ik_requestFingerprintHash : string;
  ik_status : string;
  ik_correlationId : string;
  ik_responseStatusCode : option Z;
  ik_responseBodyHash : option string;
  ik_metadata : jsval;
  ik_firstSeenAt : Z;
  ik_lastSeenAt : Z;
  ik_completedAt : option Z;
}.

(** [platform.domain_events], [platform.outbox_events],
    [platform.product_audit_events] *)
Record domain_event := {
  de_id : nat;
  de_eventKey : string;
  de_eventType : string;
  de_occurredAt : Z;
  de_propertyId : string;
  de_resourceType : string;
  de_resourceId : string;
  de_actorUserId : option string;
  de_correlationId : string;
  de_causationId : string;
  de_idempotencyKeyHash : string;
  de_payload : jsval;
}.

Record outbox_event := {
  oe_id : nat;
  oe_domainEventId : nat;
  oe_outboxKey : string;
  oe_destination : string;
  oe_eventType : string;
  oe_propertyId : string;
  oe_resourceType : string;
  oe_resourceId : string;
  oe_correlationId : string;
  oe_idempotencyKeyHash : string;
  oe_payload : jsval;
}.

Record audit_event := {
  ae_auditKey : string;
  ae_action : string;
  ae_occurredAt : Z;
  ae_propertyId : string;
  ae_actorUserId : option string;
  ae_targetResourceId : string;
  ae_domainEventId : option nat;
  ae_idempotencyKeyId : nat;
  ae_correlationId : string;
  ae_causationId : string;
  ae_redactedPayload : jsval;
  ae_metadata : jsval;
}.

(** [pms.room_types] and [pms.room_type_closures] *)
Record room_type_row := { rt_propertyId : string; rt_roomTypeId : string; rt_active : bool }.
Record closure_row := { cl_propertyId : string; cl_roomTypeId : string; cl_cutoffDate : string }.

(** ** The store *)

Record catalog_tables := {
  room_types : list room_type_row;
  room_type_closures : list closure_row;
  materialization_coverage : list coverage_row;
}.

Record ledger_tables := {
  reservation_receipts : list receipt_row;
  reservation_statuses : list status_row;
  reservation_watermarks : list watermark_row;
}.

Record journal_tables := {
  idempotency_keys : list idempotency_row;
  domain_events : list domain_event;
  outbox_events : list outbox_event;
  audit_events : list audit_event;
  next_id : nat;
}.

Record Store := {
  catalog : catalog_tables;
  inventory_days : list inventory_day;
  ledger : ledger_tables;
  journal : journal_tables;
}.

Definition set_inventory (s : Store) (days : list inventory_day) : Store :=
  {| catalog := catalog s; inventory_days := days; ledger := ledger s; journal := journal s |}.
Definition set_ledger (s : Store) (l : ledger_tables) : Store :=
  {| catalog := catalog s; inventory_days := inventory_days s; ledger := l; journal := journal s |}.
Definition set_journal (s : Store) (j : journal_tables) : Store :=
  {| catalog := catalog s; inventory_days := inventory_days s; ledger := ledger s; journal := j |}.

(** ** Transactions *)

Definition Tx (A : Type) : Type := Store -> exn (A * Store).

#[export] Instance tx_ret : MRet Tx := fun A x s => Ret (x, s).
#[export] Instance tx_bind : MBind Tx := fun A B k m s =>
  match m s with Ret (a, s') => k a s' | Throw e => Throw e end.

Definition throw {A} (error : string) : Tx A := fun _ => Throw error.
Definition read {A} (f : Store -> A) : Tx A := fun s => Ret (f s, s).
Definition write (f : Store -> Store) : Tx unit := fun s => Ret (tt, f s).

(** [try { body } catch (error) { ROLLBACK TO SAVEPOINT; handler }]: the handler
    runs on the store of the savepoint, or the error goes on. *)
Definition catching {A} (body : Tx A) (handler : string -> option (Tx A)) : Tx A := fun s =>
  match body s with
  | Ret r => Ret r
  | Throw e => match handler e with Some h => h s | None => Throw e end
  end.

(** How a command ends its transaction. *)
Inductive ending (A : Type) := Committed (a : A) | RolledBack (a : A).
Arguments Committed {A} _.
Arguments RolledBack {A} _.

(** [BEGIN ... COMMIT], or [ROLLBACK] on a throw *)
Definition transaction {A} (body : Tx (ending A)) (s : Store) : exn A * Store :=
  match body s with
  | Ret (Committed a, s') => (Ret a, s')
  | Ret (RolledBack a, _) => (Ret a, s)
  | Throw e => (Throw e, s)
  end.

Definition InventoryInvariantError : string := "InventoryInvariantError".
Definition CHECK_VIOLATION : string := "23514".
Definition UNIQUE_VIOLATION : string := "23505".

Definition isConstraintError (error : string) : bool := String.eqb error CHECK_VIOLATION.

(** ** Constraints and triggers of [pms.inventory_days] *)

Definition between (o : option Z) (lo hi : Z) : bool :=
  match o with Some n => (lo <=? n) && (n <=? hi) | None => false end.

Definition null_or_between (o : option Z) (lo hi : Z) : bool :=
  match o with Some n => (lo <=? n) && (n <=? hi) | None => true end.

Definition is_null_column {A} (o : option A) : bool := negb (is_some o).

(** The CHECK constraints *)
Definition canonical_envelope (r : inventory_day) : bool :=
  match id_calendarRevision r with
  | None =>
      is_null_column (id_inventoryRevision r) && is_null_column (id_generatedLimit r) &&
      is_null_column (id_channelLimit r) && is_null_column (id_manualLimit r) &&
      is_null_column (id_effectiveLimit r) && is_null_column (id_generatedSourceRevision r) &&
      is_null_column (id_channelSourceRevision r) && is_null_column (id_manualSourceRevision r) &&
      is_null_column (id_blockSourceRevision r) && is_null_column (id_bookingSourceRevision r) &&
      negb (id_linkedStopSell r) && (id_linkedSourceRevision r =? 0)
  | Some calendar =>
      (1 <=? calendar) && (calendar <=? MAX_REVISION) &&
      between (id_inventoryRevision r) 1 MAX_REVISION &&
      bool_decide (id_generatedSourceRevision r = Some calendar) &&
      between (id_channelSourceRevision r) 0 MAX_REVISION &&
      between (id_manualSourceRevision r) 0 MAX_REVISION &&
      between (id_blockSourceRevision r) 0 MAX_REVISION &&
      between (id_bookingSourceRevision r) 0 MAX_REVISION &&
      between (id_generatedLimit r) 0 (id_totalCount r) &&
      null_or_between (id_channelLimit r) 0 (id_totalCount r) &&
      null_or_between (id_manualLimit r) 0 (id_totalCount r) &&
      bool_decide (id_effectiveLimit r = orElse (id_manualLimit r)
        (orElse (id_channelLimit r) (id_generatedLimit r))) &&
      match status_of_text (id_status r), id_effectiveLimit r with
      | Some status, Some effective =>
          id_availableCount r =? available_of status (id_linkedStopSell r) effective
            (id_assignedCount r) (id_blockedCount r)
      | _, _ => false
      end
  end.

Definition inventory_days_check (r : inventory_day) : bool :=
  (0 <=? id_totalCount r) && (id_totalCount r <=? MAX_REVISION) && (0 <=? id_assignedCount r) &&
  (0 <=? id_blockedCount r) && (0 <=? id_availableCount r) &&
  existsb (String.eqb (id_status r)) ["open"; "closed"; "limited"] &&
  (id_availableCount r + id_assignedCount r + id_blockedCount r <=? id_totalCount r) &&
  (0 <=? id_linkedSourceRevision r) && (id_linkedSourceRevision r <=? MAX_REVISION) &&
  (negb (id_linkedStopSell r) || (id_availableCount r =? 0)) && canonical_envelope r.

(** [IS DISTINCT FROM] *)
Definition distinct {A} `{EqDecision A} (a b : A) : bool := negb (bool_decide (a = b)).

(** A revision advanced by exactly one from a value below the maximum. *)
Definition advanced (old new : option Z) : bool :=
  match old, new with
  | Some o, Some n => negb (o =? MAX_REVISION) && (n =? o + 1)
  | _, _ => false
  end.

Definition generated_changed (o n : inventory_day) : bool :=
  distinct (id_calendarRevision n) (id_calendarRevision o) ||
  distinct (id_totalCount n) (id_totalCount o) ||
  distinct (id_generatedLimit n) (id_generatedLimit o) ||
  distinct (id_status n) (id_status o) ||
  distinct (id_generatedSourceRevision n) (id_generatedSourceRevision o) ||
  distinct (id_rateGateOpen n) (id_rateGateOpen o).
Definition channel_changed (o n : inventory_day) : bool :=
  distinct (id_channelLimit n) (id_channelLimit o) ||
  distinct (id_channelSourceRevision n) (id_channelSourceRevision o).
Definition manual_changed (o n : inventory_day) : bool :=
  distinct (id_manualLimit n) (id_manualLimit o) ||
  distinct (id_manualSourceRevision n) (id_manualSourceRevision o).
Definition block_changed (o n : inventory_day) : bool :=
  distinct (id_blockedCount n) (id_blockedCount o) ||
  distinct (id_blockSourceRevision n) (id_blockSourceRevision o).
Definition booking_changed (o n : inventory_day) : bool :=
  distinct (id_assignedCount n) (id_assignedCount o) ||
  distinct (id_bookingSourceRevision n) (id_bookingSourceRevision o).
Definition linked_changed (o n : inventory_day) : bool :=
  distinct (id_linkedStopSell n) (id_linkedStopSell o) ||
  distinct (id_linkedSourceRevision n) (id_linkedSourceRevision o).

Definition owner_change_count (o n : inventory_day) : nat :=
  (if generated_changed o n then 1 else 0) + (if channel_changed o n then 1 else 0) +
  (if manual_changed o n then 1 else 0) + (if booking_changed o n then 1 else 0) +
  (if linked_changed o n then 1 else if block_changed o n then 1 else 0).

(** The transition trigger for the updates of this file, which change neither
    the calendar columns nor the channel's and the manager's. *)
Definition canonical_transition (o n : inventory_day) : bool :=
  match id_calendarRevision o with
  | None => true
  | Some _ =>
      is_some (id_calendarRevision n) &&
      Nat.eqb (owner_change_count o n) 1 &&
      advanced (id_inventoryRevision o) (id_inventoryRevision n) &&
      negb (generated_changed o n) && negb (channel_changed o n) && negb (manual_changed o n) &&
      (if linked_changed o n then
         advanced (Some (id_linkedSourceRevision o)) (Some (id_linkedSourceRevision n)) &&
         (if distinct (id_blockedCount n) (id_blockedCount o)
          then advanced (id_blockSourceRevision o) (id_blockSourceRevision n)
          else bool_decide (id_blockSourceRevision n = id_blockSourceRevision o))
       else if block_changed o n then
         distinct (id_blockedCount n) (id_blockedCount o) &&
         advanced (id_blockSourceRevision o) (id_blockSourceRevision n)
       else
         distinct (id_assignedCount n) (id_assignedCount o) &&
         advanced (id_bookingSourceRevision o) (id_bookingSourceRevision n))
  end.

(** The fence of closed rooms *)
Definition closed_room_fence (c : catalog_tables) (n : inventory_day) : bool :=
  negb (existsb (fun cl =>
          String.eqb (cl_propertyId cl) (id_propertyId n) &&
          String.eqb (cl_roomTypeId cl) (id_roomTypeId n) &&
          str_le (cl_cutoffDate cl) (id_stayDate n)) (room_type_closures c)) ||
  (String.eqb (id_status n) "closed" && (id_availableCount n =? 0) &&
   (id_assignedCount n =? 0) && (id_blockedCount n =? 0)).

Definition day_write_accepted (c : catalog_tables) (o n : inventory_day) : bool :=
  inventory_days_check n && canonical_transition o n && closed_room_fence c n.

(** [UPDATE pms.inventory_days]: [f] gives the new row where the WHERE clause
    holds; returns the new rows. *)
Definition update_days (f : inventory_day -> option inventory_day) : Tx (list inventory_day) :=
  fun s =>
    if forallb (fun r => match f r with
                         | Some r' => day_write_accepted (catalog s) r r'
                         | None => true
                         end) (inventory_days s)
    then Ret (omap f (inventory_days s),
              set_inventory s ((fun r => default r (f r)) <$> inventory_days s))
    else Throw CHECK_VIOLATION.

(** [SELECT ... FROM pms.inventory_days], as the driver returns the row *)
Definition int_column (o : option Z) : column := match o with Some n => ColInt n | None => ColNull end.

Definition day_columns (r : inventory_day) : InventoryDayRow := {|
  ir_propertyId := id_propertyId r; ir_roomTypeId := id_roomTypeId r;
  ir_stayDate := ColText (id_stayDate r);
  ir_calendarRevision := int_column (id_calendarRevision r);
  ir_inventoryRevision := int_column (id_inventoryRevision r);
  ir_generatedSourceRevision := int_column (id_generatedSourceRevision r);
  ir_channelSourceRevision := int_column (id_channelSourceRevision r);
  ir_manualSourceRevision := int_column (id_manualSourceRevision r);
  ir_blockSourceRevision := int_column (id_blockSourceRevision r);
  ir_bookingSourceRevision := int_column (id_bookingSourceRevision r);
  ir_status := id_status r; ir_totalCount := ColInt (id_totalCount r);
  ir_generatedSellableLimitCount := int_column (id_generatedLimit r);
  ir_channelSellableLimitCount := int_column (id_channelLimit r);
  ir_manualSellableLimitCount := int_column (id_manualLimit r);
  ir_effectiveSellableLimitCount := int_column (id_effectiveLimit r);
  ir_assignedCount := ColInt (id_assignedCount r); ir_blockedCount := ColInt (id_blockedCount r);
  ir_availableCount := ColInt (id_availableCount r); ir_linkedStopSell := id_linkedStopSell r;
  ir_linkedSourceRevision := ColInt (id_linkedSourceRevision r);
|}.

(** The nights of a stay of one room type *)
Definition in_stay (propertyId roomTypeId checkIn checkOut : string) (r : inventory_day) : bool :=
  String.eqb (id_propertyId r) propertyId && String.eqb (id_roomTypeId r) roomTypeId &&
  str_le checkIn (id_stayDate r) && str_lt (id_stayDate r) checkOut.

Definition stay_date_le (a b : inventory_day) : bool := str_le (id_stayDate a) (id_stayDate b).

Definition select_stay (propertyId roomTypeId checkIn checkOut : string) (s : Store)
    : list inventory_day :=
  stable_sort stay_date_le
    (List.filter (in_stay propertyId roomTypeId checkIn checkOut) (inventory_days s)).

(** ** Running a transaction *)

Lemma tx_bind_Ret {A B} (m : Tx A) (k : A -> Tx B) s b s2 :
  (a ← m; k a) s = Ret (b, s2) <-> exists a s1, m s = Ret (a, s1) /\ k a s1 = Ret (b, s2).
Proof.
  unfold mbind, tx_bind. destruct (m s) as [[a s1]|e].
  - split; [eauto | by intros (? & ? & [= <- <-] & ?)].
  - split; [done | by intros (? & ? & ? & ?)].
Qed.

Lemma tx_bind_eq {A B} (m : Tx A) (k : A -> Tx B) s a s1 :
  m s = Ret (a, s1) -> (a ← m; k a) s = k a s1.
Proof. unfold mbind, tx_bind. by intros ->. Qed.

Lemma tx_ret_Ret {A} (a b : A) s s' : (mret a : Tx A) s = Ret (b, s') <-> a = b /\ s = s'.
Proof. unfold mret, tx_ret. split; [by intros [= -> ->] | by intros [-> ->]]. Qed.

Lemma read_Ret {A} (f : Store -> A) a s s' : read f s = Ret (a, s') <-> a = f s /\ s' = s.
Proof. unfold read. split; [by intros [= -> ->] | by intros [-> ->]]. Qed.

Lemma write_Ret f u s s' : write f s = Ret (u, s') <-> s' = f s.
Proof. unfold write. destruct u. split; [by intros [= ->] | by intros ->]. Qed.

Lemma catching_Ret {A} (m : Tx A) h a s s' :
  catching m h s = Ret (a, s') <->
  m s = Ret (a, s') \/ exists e k, m s = Throw e /\ h e = Some k /\ k s = Ret (a, s').
Proof.
  unfold catching. destruct (m s) as [[b s1]|e].
  - split; [by left | by intros [?|(? & ? & ? & _)]].
  - destruct (h e) as [k|] eqn:E.
    + split; [right; eauto | by intros [?|(? & ? & [= <-] & E' & ?)]; [|rewrite E in E'; injection E' as ->]].
    + split; [done | intros [?|(? & ? & [= <-] & E' & _)]; [done | congruence]].
Qed.

(** Takes the first step of a run apart. *)
Ltac tx_step H :=
  let a := fresh "a" in let s := fresh "s" in let E := fresh "E" in
  apply tx_bind_Ret in H as (a & s & E & H).

Lemma update_days_Ret f rows s s' :
  update_days f s = Ret (rows, s') <->
  Forall (fun r => forall r', f r = Some r' -> day_write_accepted (catalog s) r r' = true)
    (inventory_days s) /\
  rows = omap f (inventory_days s) /\
  s' = set_inventory s ((fun r => default r (f r)) <$> inventory_days s).
Proof.
  unfold update_days. destruct (forallb _ _) eqn:E.
  - split; [intros [= <- <-]; split; [|done] | by intros (_ & -> & ->)].
    rewrite List.forallb_forall in E. rewrite Forall_forall. intros r Hr r' Hf.
    specialize (E r (proj1 (list_elem_of_In _ _) Hr)). by rewrite Hf in E.
  - split; [done | intros (Hall & _)]. exfalso.
    apply not_true_iff_false in E. apply E, List.forallb_forall. intros r Hr.
    rewrite Forall_forall in Hall. destruct (f r) as [r'|] eqn:Ef; [|done].
    apply (Hall r); [by apply list_elem_of_In | done].
Qed.

(** ** The canonical day of a row *)

Definition opt_bounded (lo hi : Z) (o : option Z) : Prop :=
  match o with Some n => lo <= n <= hi | None => True end.

Record day_of_row (r : inventory_day) (d : CanonicalInventoryDay) : Prop := {
  dw_propertyId : as_uuid (VString (id_propertyId r)) = Some (cd_propertyId d);
  dw_roomTypeId : as_uuid (VString (id_roomTypeId r)) = Some (cd_roomTypeId d);
  dw_stayDate : id_stayDate r = cd_stayDate d;
  dw_calendar : id_calendarRevision r = Some (cd_calendarRevision d);
  dw_inventory : id_inventoryRevision r = Some (cd_inventoryRevision d);
  dw_generated : id_generatedSourceRevision r = Some (cd_generatedSourceRevision d);
  dw_channel : id_channelSourceRevision r = Some (cd_channelSourceRevision d);
  dw_manual : id_manualSourceRevision r = Some (cd_manualSourceRevision d);
  dw_block : id_blockSourceRevision r = Some (cd_blockSourceRevision d);
  dw_booking : id_bookingSourceRevision r = Some (cd_bookingSourceRevision d);
  dw_status : status_of_text (id_status r) = Some (cd_status d);
  dw_total : id_totalCount r = cd_totalCount d;
  dw_generatedLimit : id_generatedLimit r = Some (cd_generatedSellableLimitCount d);
  dw_channelLimit : id_channelLimit r = cd_channelSellableLimitCount d;
  dw_manualLimit : id_manualLimit r = cd_manualSellableLimitCount d;
  dw_effective : id_effectiveLimit r = Some (cd_effectiveSellableLimitCount d);
  dw_assigned : id_assignedCount r = cd_assignedCount d;
  dw_blocked : id_blockedCount r = cd_blockedCount d;
  dw_available : id_availableCount r = cd_availableCount d;
  dw_linkedStopSell : id_linkedStopSell r = cd_linkedStopSell d;
  dw_linked : id_linkedSourceRevision r = cd_linkedSourceRevision d;
}.

Record day_bounds (d : CanonicalInventoryDay) : Prop := {
  db_calendar : 1 <= cd_calendarRevision d <= MAX_REVISION;
  db_inventory : 1 <= cd_inventoryRevision d <= MAX_REVISION;
  db_channel : 0 <= cd_channelSourceRevision d <= MAX_REVISION;
  db_manual : 0 <= cd_manualSourceRevision d <= MAX_REVISION;
  db_block : 0 <= cd_blockSourceRevision d <= MAX_REVISION;
  db_booking : 0 <= cd_bookingSourceRevision d <= MAX_REVISION;
  db_total : 0 <= cd_totalCount d <= MAX_REVISION;
  db_generatedLimit : 0 <= cd_generatedSellableLimitCount d;
  db_channelLimit : opt_bounded 0 MAX_REVISION (cd_channelSellableLimitCount d);
  db_manualLimit : opt_bounded 0 MAX_REVISION (cd_manualSellableLimitCount d);
  db_effective : 0 <= cd_effectiveSellableLimitCount d;
  db_assigned : 0 <= cd_assignedCount d;
  db_blocked : 0 <= cd_blockedCount d;
  db_linked : 0 <= cd_linkedSourceRevision d <= MAX_REVISION;
}.

Lemma positive_int_column o n :
  positiveDatabaseInteger (int_column o) = Some n <-> o = Some n /\ 1 <= n <= MAX_REVISION.
Proof.
  unfold positiveDatabaseInteger, positiveRevisionNumber, safe_integer. destruct o as [m|]; cbn.
  - destruct (_ && _) eqn:E.
    + bool_to_prop. split; [intros [= <-]; done | by intros [[= ->] _]].
    + split; [done|]. intros [[= ->] Hn]. exfalso. apply not_true_iff_false in E. apply E.
      rewrite !andb_true_iff, !Z.leb_le. unfold MAX_SAFE_INTEGER, MAX_REVISION in *. lia.
  - split; [done | by intros [? _]].
Qed.

Lemma nonneg_int_column o n :
  nonNegativeDatabaseInteger (int_column o) = Some n <-> o = Some n /\ 0 <= n <= MAX_REVISION.
Proof.
  unfold nonNegativeDatabaseInteger, safe_integer. destruct o as [m|]; cbn.
  - destruct (_ && _) eqn:E.
    + bool_to_prop. split; [intros [= <-]; done | by intros [[= ->] _]].
    + split; [done|]. intros [[= ->] Hn]. exfalso. apply not_true_iff_false in E. apply E.
      rewrite !andb_true_iff, !Z.leb_le. unfold MAX_SAFE_INTEGER, MAX_REVISION in *. lia.
  - split; [done | by intros [? _]].
Qed.

Lemma limit_int_column o l :
  limit_column (int_column o) = Some l <-> o = l /\ opt_bounded 0 MAX_REVISION l.
Proof.
  destruct o as [m|]; cbn [limit_column int_column].
  - destruct (nonNegativeDatabaseInteger (ColInt m)) as [n|] eqn:E.
    + apply (nonneg_int_column (Some m)) in E as [[= ->] Hn]. cbn.
      split; [intros [= <-]; done | by intros [<- _]].
    + split; [done|]. intros [<- Hl]. exfalso.
      pose proof (proj2 (nonneg_int_column (Some m) m) (conj eq_refl Hl)) as E'.
    cbn [int_column] in E'. congruence.
  - split; [by intros [= <-] | by intros [<- _]].
Qed.

Lemma databaseDate_text s d : databaseDate (ColText s) = Some d <-> s = d /\ canonicalDate s = true.
Proof.
  cbn. destruct (canonicalDate s).
  - split; [by intros [= <-] | by intros [<- _]].
  - split; [done | by intros [_ ?]].
Qed.

Lemma nonneg_count n m :
  nonNegativeDatabaseInteger (ColInt n) = Some m <-> n = m /\ 0 <= m <= MAX_REVISION.
Proof.
  rewrite (nonneg_int_column (Some n)). split; [by intros [[= ->] ?] | by intros [-> ?]].
Qed.

(** The remaining bounds of a decoded day *)
Record day_count_bounds (d : CanonicalInventoryDay) : Prop := {
  dc_generated : 1 <= cd_generatedSourceRevision d <= MAX_REVISION;
  dc_available : 0 <= cd_availableCount d <= MAX_REVISION;
  dc_generatedLimit : cd_generatedSellableLimitCount d <= MAX_REVISION;
  dc_effective : cd_effectiveSellableLimitCount d <= MAX_REVISION;
  dc_assigned : cd_assignedCount d <= MAX_REVISION;
  dc_blocked : cd_blockedCount d <= MAX_REVISION;
}.

(** What a decoded row says: every column is the field of the day. *)
Lemma canonical_day_row r d :
  canonicalInventoryDay (day_columns r) = Some d ->
  day_of_row r d /\ day_bounds d /\ day_count_bounds d /\ canonicalDate (id_stayDate r) = true.
Proof.
  unfold canonicalInventoryDay, normalizeUuid. intros H. cbn [day_columns ir_propertyId ir_roomTypeId
    ir_stayDate ir_calendarRevision ir_inventoryRevision ir_generatedSourceRevision
    ir_channelSourceRevision ir_manualSourceRevision ir_blockSourceRevision
    ir_bookingSourceRevision ir_totalCount ir_generatedSellableLimitCount
    ir_channelSellableLimitCount ir_manualSellableLimitCount ir_effectiveSellableLimitCount
    ir_assignedCount ir_blockedCount ir_availableCount ir_linkedSourceRevision ir_linkedStopSell
    ir_status] in H.
  follow H.
  repeat match goal with
    | E : positiveDatabaseInteger (int_column _) = Some _ |- _ => apply positive_int_column in E
    | E : nonNegativeDatabaseInteger (int_column _) = Some _ |- _ => apply nonneg_int_column in E
    | E : nonNegativeDatabaseInteger (ColInt _) = Some _ |- _ => apply nonneg_count in E
    | E : limit_column (int_column _) = Some _ |- _ => apply limit_int_column in E
    | E : databaseDate (ColText _) = Some _ |- _ => apply databaseDate_text in E
    | E : _ /\ _ |- _ => destruct E
    end.
  repeat split; cbn; auto; try congruence; try lia.
Qed.

(** Conversely a row with these columns decodes to the day. *)
Lemma row_canonical_day r d :
  day_of_row r d -> day_bounds d -> day_count_bounds d -> canonicalDate (id_stayDate r) = true ->
  canonicalInventoryDay (day_columns r) = Some d.
Proof.
  intros [] [] [] Hd. unfold canonicalInventoryDay, normalizeUuid. cbn [day_columns ir_propertyId ir_roomTypeId
    ir_stayDate ir_calendarRevision ir_inventoryRevision ir_generatedSourceRevision
    ir_channelSourceRevision ir_manualSourceRevision ir_blockSourceRevision
    ir_bookingSourceRevision ir_totalCount ir_generatedSellableLimitCount
    ir_channelSellableLimitCount ir_manualSellableLimitCount ir_effectiveSellableLimitCount
    ir_assignedCount ir_blockedCount ir_availableCount ir_linkedSourceRevision ir_linkedStopSell
    ir_status].
  rewrite dw_propertyId0, dw_roomTypeId0, dw_status0.
  rewrite (proj2 (databaseDate_text _ (cd_stayDate d))) by done.
  rewrite (proj2 (positive_int_column _ (cd_calendarRevision d))) by done.
  rewrite (proj2 (positive_int_column _ (cd_inventoryRevision d))) by done.
  rewrite (proj2 (positive_int_column _ (cd_generatedSourceRevision d))) by done.
  rewrite (proj2 (nonneg_int_column (id_channelSourceRevision r) (cd_channelSourceRevision d))) by done.
  rewrite (proj2 (nonneg_int_column (id_manualSourceRevision r) (cd_manualSourceRevision d))) by done.
  rewrite (proj2 (nonneg_int_column (id_blockSourceRevision r) (cd_blockSourceRevision d))) by done.
  rewrite (proj2 (nonneg_int_column (id_bookingSourceRevision r) (cd_bookingSourceRevision d))) by done.
  rewrite (proj2 (nonneg_int_column (id_generatedLimit r) (cd_generatedSellableLimitCount d))) by done.
  rewrite (proj2 (nonneg_int_column (id_effectiveLimit r) (cd_effectiveSellableLimitCount d))) by done.
  rewrite (proj2 (limit_int_column (id_channelLimit r) (cd_channelSellableLimitCount d))) by done.
  rewrite (proj2 (limit_int_column (id_manualLimit r) (cd_manualSellableLimitCount d))) by done.
  rewrite (proj2 (nonneg_count _ (cd_totalCount d))) by done.
  rewrite (proj2 (nonneg_count _ (cd_assignedCount d))) by done.
  rewrite (proj2 (nonneg_count _ (cd_blockedCount d))) by done.
  rewrite (proj2 (nonneg_count _ (cd_availableCount d))) by done.
  rewrite (proj2 (nonneg_count _ (cd_linkedSourceRevision d))) by done.
  f_equal. destruct d; cbn in *; congruence.
Qed.
