(* ===== verification/LaunchReadiness.v ===== *)
(** * Launch readiness (domain-pms/src/inventoryMaterialization.ts and
    readLaunchReadiness of pmsInventoryMaterializationRepository.ts)

    [evaluatePmsInventoryLaunchReadiness] decides from configuration evidence
    whether a property's inventory covers a required range: the materialized
    revision is the calendar's, the coverage has no gap, the rooms agree, and
    the sellable limits are within capacity.  [readLaunchReadiness] reads that
    evidence from the tables: the coverage row of the property and the stored
    days of its bound rooms. *)

From S2P Require Import Prelude JsValue JsonText CalendarDates OperatingSchedule OperatingCalendar InventoryPlanner ReservationRows ReservationStore.

Record PmsInventorySellableLimitEvidence := {
  sl_roomTypeId : string;
  sl_sourceRoomFactsRevision : Z;
  sl_sourceRoomUnitsRevision : Z;
  sl_physicalCapacityCount : Z;
  sl_configuredSellableLimitCount : Z;
  sl_minimumEffectiveSellableLimitCount : Z;
  sl_maximumEffectiveSellableLimitCount : Z;
}.

(** The snapshot without its contract version; [ls_source] and
    [ls_calendarRevision] are [configuration.source] and
    [configuration.calendarRevision] (the property profile source and time zone
    are not read). *)
Record PmsInventoryLaunchReadinessSnapshot := {
  ls_propertyId : string;
  ls_source : PmsOperatingCalendarSourceRevision;
  ls_calendarRevision : Z;
  ls_roomSet : list PmsOperatingCalendarRoomBinding;
  ls_materializedRevision : Z;
  ls_coverage : PmsInventoryCoverageEvidence;
  ls_sellableLimits : list PmsInventorySellableLimitEvidence;
}.

Record PmsInventoryRequiredCoverage := { rc_from : string; rc_through : string }.

Inductive PmsInventoryLaunchReadinessBlocker :=
| CalendarRevisionMismatch | CoverageGap | RoomSetMismatch | SellableLimitInvariantViolation.

Definition blocker_text (b : PmsInventoryLaunchReadinessBlocker) : string :=
  match b with
  | CalendarRevisionMismatch => "calendar_revision_mismatch"
  | CoverageGap => "coverage_gap"
  | RoomSetMismatch => "room_set_mismatch"
  | SellableLimitInvariantViolation => "sellable_limit_invariant_violation"
  end.

Definition inclusiveIsoDateCountUnbounded (from through : string) : option Z :=
  let? f := isoDateTimestamp (VString from) in
  let? t := isoDateTimestamp (VString through) in
  let n := t - f + 1 in
  if safe_integer n && (1 <=? n) then Some n else None.

Definition inclusiveIsoDateCount (from through : string) : option Z :=
  let? n := inclusiveIsoDateCountUnbounded from through in
  if n <=? PMS_INVENTORY_HORIZON_MAX_DAYS then Some n else None.

(** [new Set(values)] in insertion order *)
Fixpoint unique_strings (values seen : list string) : list string :=
  match values with
  | [] => []
  | v :: r => if has_string seen v then unique_strings r seen
              else v :: unique_strings r (v :: seen)
  end.

Definition set_size (values : list string) : Z := Z.of_nat (length (unique_strings values [])).

(** [JSON.stringify(a) === JSON.stringify(b)] on arrays of strings *)
Definition same_strings (a b : list string) : bool :=
  same_json (arr (VString <$> a)) (arr (VString <$> b)).

Definition source_matches (s : PmsInventoryLaunchReadinessSnapshot) : bool :=
  String.eqb (sr_entityId (ls_source s)) (ls_propertyId s) &&
  match serializePmsOperatingCalendarSourceRevision (ls_calendarRevision s) with
  | Ret text => String.eqb (sr_revision (ls_source s)) text
  | Throw _ => false
  end &&
  sameSource (cov_configurationSource (ls_coverage s)) (ls_source s).

Definition expected_day_count (s : PmsInventoryLaunchReadinessSnapshot) : option Z :=
  let rooms := set_size (rb_roomTypeId <$> ls_roomSet s) in
  let? n := inclusiveIsoDateCountUnbounded (cov_coverageFrom (ls_coverage s))
              (cov_coverageThrough (ls_coverage s)) in
  if rooms =? 0 then None else Some (n * rooms).

Definition coverage_gap (s : PmsInventoryLaunchReadinessSnapshot)
    (required : PmsInventoryRequiredCoverage) : bool :=
  let c := ls_coverage s in
  match inclusiveIsoDateCount (rc_from required) (rc_through required), expected_day_count s with
  | Some _, Some expected =>
      str_lt (rc_from required) (cov_coverageFrom c) ||
      str_lt (cov_coverageThrough c) (rc_through required) ||
      negb (Nat.eqb (length (cov_gaps c)) 0) ||
      negb (cov_expectedDayCount c =? expected) ||
      negb (cov_materializedDayCount c =? expected)
  | _, _ => true
  end.

(** The evidence of a room agrees with the first binding of that room. *)
Definition evidence_matches (rooms : list PmsOperatingCalendarRoomBinding)
    (e : PmsInventorySellableLimitEvidence) : bool :=
  match find_binding rooms (sl_roomTypeId e) with
  | Some b =>
      (sl_sourceRoomFactsRevision e =? rb_sourceRoomFactsRevision b) &&
      (sl_sourceRoomUnitsRevision e =? rb_sourceRoomUnitsRevision b) &&
      (sl_physicalCapacityCount e =? rb_physicalCapacityCount b) &&
      (sl_configuredSellableLimitCount e =? rb_startingSellableLimitCount b)
  | None => false
  end.

Definition room_set_mismatch (s : PmsInventoryLaunchReadinessSnapshot) : bool :=
  let roomIds := stable_sort str_le (rb_roomTypeId <$> ls_roomSet s) in
  let coverageRoomIds := stable_sort str_le (cov_roomTypeIds (ls_coverage s)) in
  let limitRoomIds := stable_sort str_le (sl_roomTypeId <$> ls_sellableLimits s) in
  Nat.eqb (length roomIds) 0 ||
  negb (set_size roomIds =? Z.of_nat (length roomIds)) ||
  negb (same_strings roomIds coverageRoomIds) ||
  negb (same_strings roomIds limitRoomIds) ||
  existsb (fun e => negb (evidence_matches (ls_roomSet s) e)) (ls_sellableLimits s).

Definition limit_violation (e : PmsInventorySellableLimitEvidence) : bool :=
  (sl_configuredSellableLimitCount e <? 0) ||
  (sl_physicalCapacityCount e <? sl_configuredSellableLimitCount e) ||
  (sl_minimumEffectiveSellableLimitCount e <? 0) ||
  (sl_maximumEffectiveSellableLimitCount e <? sl_minimumEffectiveSellableLimitCount e) ||
  (sl_physicalCapacityCount e <? sl_maximumEffectiveSellableLimitCount e).

(** The sorted blockers; the property is ready when there is none. *)
Definition evaluatePmsInventoryLaunchReadiness (s : PmsInventoryLaunchReadinessSnapshot)
    (required : PmsInventoryRequiredCoverage) : list PmsInventoryLaunchReadinessBlocker :=
  let c := ls_coverage s in
  stable_sort (fun a b => str_le (blocker_text a) (blocker_text b))
    ((if negb (source_matches s) ||
         negb (ls_materializedRevision s =? ls_calendarRevision s) ||
         negb (cov_materializedRevision c =? ls_calendarRevision s)
      then [CalendarRevisionMismatch] else []) ++
     (if coverage_gap s required then [CoverageGap] else []) ++
     (if room_set_mismatch s then [RoomSetMismatch] else []) ++
     (if existsb limit_violation (ls_sellableLimits s)
      then [SellableLimitInvariantViolation] else [])).

(** ** The evidence read from the tables *)

(** The columns of [pms.inventory_materialization_coverage] that are read; none
    of them is nullable. *)
Record stored_coverage := {
  lc_propertyId : string;
  lc_materializedRevision : Z;
  lc_coverageFrom : string;
  lc_coverageThrough : string;
  lc_expectedDayCount : Z;
  lc_materializedDayCount : Z;
}.

Definition positiveInteger (c : column) : exn Z :=
  match positiveDatabaseInteger c with
  | Some n => Ret n
  | None => Throw "PMS inventory revision is invalid"
  end.

Definition nonNegativeInteger (c : column) : exn Z :=
  match nonNegativeDatabaseInteger c with
  | Some n => Ret n
  | None => Throw "PMS inventory counter is invalid"
  end.

Definition requireDatabaseDate (c : column) : exn string :=
  match databaseDate c with
  | Some d => Ret d
  | None => Throw "PMS inventory date is invalid"
  end.

Definition horizonDates (horizon : PmsInventoryRequiredCoverage) : option (list string) :=
  guard? canonicalDate (rc_from horizon) && canonicalDate (rc_through horizon) in
  let? from := dateNumber (rc_from horizon) in
  let? through := dateNumber (rc_through horizon) in
  guard? negb (through <? from) in
  let count := through - from + 1 in
  guard? (1 <=? count) && (count <=? 366) in
  Some (dates_from from count).

(** [SELECT ... WHERE property_id = $1] *)
Definition readCoverage (coverages : list stored_coverage) (propertyId : string)
    : exn (option stored_coverage) :=
  match List.filter (fun c => String.eqb (lc_propertyId c) propertyId) coverages with
  | [] => Ret None
  | [c] => Ret (Some c)
  | _ => Throw "PMS inventory coverage is not unique"
  end.

(** [stay_date BETWEEN $3::date AND $4::date] *)
Definition stay_between (required : PmsInventoryRequiredCoverage) (r : inventory_day) : bool :=
  match isoDateTimestamp (VString (rc_from required)), isoDateTimestamp (VString (id_stayDate r)),
        isoDateTimestamp (VString (rc_through required)) with
  | Some from, Some date, Some through => (from <=? date) && (date <=? through)
  | _, _, _ => false
  end.

Definition room_date_le (a b : inventory_day) : bool :=
  str_lt (id_roomTypeId a) (id_roomTypeId b) ||
  (String.eqb (id_roomTypeId a) (id_roomTypeId b) && str_le (id_stayDate a) (id_stayDate b)).

Definition readReadinessDays (days : list inventory_day)
    (configuration : PmsOperatingCalendarConfigurationSnapshot)
    (required : PmsInventoryRequiredCoverage) : list InventoryDayRow :=
  let roomTypeIds := rb_roomTypeId <$> si_roomBindings (cs_sourceInputs configuration) in
  day_columns <$> stable_sort room_date_le
    (List.filter (fun r => String.eqb (id_propertyId r) (cs_propertyId configuration) &&
                           has_string roomTypeIds (id_roomTypeId r) && stay_between required r) days).

(** The row carries the calendar's revision, materialized and generated. *)
Definition current_row (configuration : PmsOperatingCalendarConfigurationSnapshot)
    (row : InventoryDayRow) : bool :=
  same_number (positiveDatabaseInteger (ir_calendarRevision row)) (cs_calendarRevision configuration) &&
  same_number (positiveDatabaseInteger (ir_generatedSourceRevision row))
    (cs_calendarRevision configuration).

Definition coverage_key (roomTypeId stayDate : string) : string := roomTypeId +:+ String ":" stayDate.

Definition present_key (row : InventoryDayRow) : string :=
  coverage_key (to_lower (ir_roomTypeId row)) (default "" (databaseDate (ir_stayDate row))).

(** The parts of a text around its last colon, if it has one *)
Fixpoint last_colon (s : string) : option (string * string) :=
  match s with
  | EmptyString => None
  | String c r =>
      match last_colon r with
      | Some (before, after) => Some (String c before, after)
      | None => if Ascii.eqb c ":" then Some (EmptyString, r) else None
      end
  end.

(** [key.slice(0, separator)] and [key.slice(separator + 1)]; without a colon
    the separator is -1. *)
Definition split_key (key : string) : string * string :=
  default (String.substring 0 (String.length key - 1) key, key) (last_colon key).

Definition gap_le (a b : string * string) : bool :=
  str_lt (fst a) (fst b) || (String.eqb (fst a) (fst b) && str_le (snd a) (snd b)).

Definition coverage_gaps (expectedKeys presentKeys : list string) : list (string * string) :=
  stable_sort gap_le
    (split_key <$> List.filter (fun key => negb (has_string presentKeys key)) expectedKeys).

(** The limit of a stored day; -1 where there is none in range. *)
Definition row_limit (row : InventoryDayRow) : Z :=
  match ir_effectiveSellableLimitCount row with
  | ColNull => -1
  | c => default (-1) (nullableNonNegativeDatabaseInteger c)
  end.

(** [Math.min(...limits)] and [Math.max(...limits)]; -1 where there are none. *)
Definition least_limit (limits : list Z) : Z :=
  match limits with [] => -1 | n :: r => foldr Z.min n r end.

Definition greatest_limit (limits : list Z) : Z :=
  match limits with [] => -1 | n :: r => foldr Z.max n r end.

Definition limit_evidence (currentRows : list InventoryDayRow)
    (binding : PmsOperatingCalendarRoomBinding) : PmsInventorySellableLimitEvidence :=
  let limits := row_limit <$> List.filter
    (fun row => String.eqb (to_lower (ir_roomTypeId row)) (rb_roomTypeId binding)) currentRows in
  {| sl_roomTypeId := rb_roomTypeId binding;
     sl_sourceRoomFactsRevision := rb_sourceRoomFactsRevision binding;
     sl_sourceRoomUnitsRevision := rb_sourceRoomUnitsRevision binding;
     sl_physicalCapacityCount := rb_physicalCapacityCount binding;
     sl_configuredSellableLimitCount := rb_startingSellableLimitCount binding;
     sl_minimumEffectiveSellableLimitCount := least_limit limits;
     sl_maximumEffectiveSellableLimitCount := greatest_limit limits |}.

(** The coverage evidence: what the coverage row says, and what is missing from
    the current rows. *)
Definition coverage_evidence (coverage : option stored_coverage)
    (currentRows : list InventoryDayRow)
    (configuration : PmsOperatingCalendarConfigurationSnapshot)
    (required : PmsInventoryRequiredCoverage) (dates : list string)
    : exn PmsInventoryCoverageEvidence :=
  let roomTypeIds := stable_sort str_le
    (rb_roomTypeId <$> si_roomBindings (cs_sourceInputs configuration)) in
  let expectedKeys := unique_strings
    (roomTypeIds ≫= fun roomTypeId => coverage_key roomTypeId <$> dates) [] in
  let presentKeys := unique_strings (present_key <$> currentRows) [] in
  let evidence revision from through expected materialized :=
    {| cov_configurationSource := cs_source configuration; cov_materializedRevision := revision;
       cov_coverageFrom := from; cov_coverageThrough := through; cov_roomTypeIds := roomTypeIds;
       cov_expectedDayCount := expected; cov_materializedDayCount := materialized;
       cov_gaps := coverage_gaps expectedKeys presentKeys |} in
  match coverage with
  | None => Ret (evidence 0 (rc_from required) (rc_through required)
                   (Z.of_nat (length expectedKeys)) (Z.of_nat (length presentKeys)))
  | Some c =>
      try! revision := positiveInteger (ColInt (lc_materializedRevision c)) in
      try! from := requireDatabaseDate (ColText (lc_coverageFrom c)) in
      try! through := requireDatabaseDate (ColText (lc_coverageThrough c)) in
      try! expected := nonNegativeInteger (ColInt (lc_expectedDayCount c)) in
      try! materialized := nonNegativeInteger (ColInt (lc_materializedDayCount c)) in
      Ret (evidence revision from through expected materialized)
  end.

Definition launch_snapshot (configuration : PmsOperatingCalendarConfigurationSnapshot)
    (evidence : PmsInventoryCoverageEvidence) (currentRows : list InventoryDayRow)
    : PmsInventoryLaunchReadinessSnapshot :=
  let bindings := si_roomBindings (cs_sourceInputs configuration) in
  {| ls_propertyId := cs_propertyId configuration; ls_source := cs_source configuration;
     ls_calendarRevision := cs_calendarRevision configuration; ls_roomSet := bindings;
     ls_materializedRevision := cov_materializedRevision evidence; ls_coverage := evidence;
     ls_sellableLimits := stable_sort
       (fun a b => str_le (sl_roomTypeId a) (sl_roomTypeId b))
       (limit_evidence currentRows <$> bindings) |}.

(** [null] where the required range is no horizon. *)
Definition readLaunchReadiness (coverages : list stored_coverage) (days : list inventory_day)
    (configuration : PmsOperatingCalendarConfigurationSnapshot)
    (required : PmsInventoryRequiredCoverage)
    : exn (option (list PmsInventoryLaunchReadinessBlocker)) :=
  try! coverage := readCoverage coverages (cs_propertyId configuration) in
  let rows := readReadinessDays days configuration required in
  match horizonDates required with
  | None => Ret None
  | Some dates =>
      let currentRows := List.filter (current_row configuration) rows in
      try! evidence := coverage_evidence coverage currentRows configuration required dates in
      Ret (Some (evaluatePmsInventoryLaunchReadiness
                   (launch_snapshot configuration evidence currentRows) required))
  end.

Lemma same_strings_eq a b : same_strings a b = true <-> a = b.
Proof.
  unfold same_strings. split; [|intros ->; apply same_json_refl]. intros H.
  apply same_json_inj in H; [|apply plain_strings..]. by apply arr_inj, strings_inj in H.
Qed.

(** ** Sets of strings *)

Lemma unique_strings_le l seen : (length (unique_strings l seen) <= length l)%nat.
Proof.
  revert seen. induction l as [|v r IH]; intros seen; cbn; [lia|].
  destruct (has_string seen v); cbn; [specialize (IH seen) | specialize (IH (v :: seen))]; lia.
Qed.

Lemma unique_strings_full l seen :
  length (unique_strings l seen) = length l <-> NoDup l /\ (forall x, x ∈ l -> ~ x ∈ seen).
Proof.
  revert seen. induction l as [|v r IH]; intros seen; cbn [unique_strings length].
  - split; [|done]. intros _. split; [constructor|]. by intros x ?%not_elem_of_nil.
  - destruct (has_string seen v) eqn:E.
    + apply has_string_elem in E. pose proof (unique_strings_le r seen). split; [lia|].
      intros [_ H']. exfalso. by apply (H' v); [left|].
    + apply has_string_not_elem in E. cbn [length]. split.
      * intros [= H]. apply IH in H as [Hn Hs]. split.
        -- constructor; [|done]. intros Hv. apply (Hs v Hv). left.
        -- intros x [->|Hx]%elem_of_cons; [done|]. intros Hx'. apply (Hs x Hx). by right.
      * intros [Hn Hs]. f_equal. apply NoDup_cons in Hn as [Hv Hn]. apply IH. split; [done|].
        intros x Hx [->|Hx']%elem_of_cons; [done|]. by apply (Hs x); [right|].
Qed.

Lemma set_size_NoDup l : set_size l = Z.of_nat (length l) <-> NoDup l.
Proof.
  unfold set_size. rewrite Nat2Z.inj_iff, unique_strings_full. split; [tauto|].
  intros H. split; [done|]. by intros x _ ?%not_elem_of_nil.
Qed.

Lemma sort_strings_perm (a b : list string) :
  stable_sort str_le a = stable_sort str_le b -> a ≡ₚ b.
Proof. intros H. by rewrite <- (stable_sort_perm str_le a), H, stable_sort_perm. Qed.

Lemma sort_strings_id (l : list string) : sorted_by str_lt l = true -> stable_sort str_le l = l.
Proof.
  intros H. apply (stable_sort_key_id (fun s => s)).
  rewrite fmap_id_Forall; [done | by apply Forall_forall].
Qed.

(** ** Properties *)

Lemma no_blockers s required :
  evaluatePmsInventoryLaunchReadiness s required = [] <->
  source_matches s = true /\ ls_materializedRevision s = ls_calendarRevision s /\
  cov_materializedRevision (ls_coverage s) = ls_calendarRevision s /\
  coverage_gap s required = false /\ room_set_mismatch s = false /\
  existsb limit_violation (ls_sellableLimits s) = false.
Proof.
  unfold evaluatePmsInventoryLaunchReadiness. cbv zeta.
  match goal with |- stable_sort ?le ?l = [] <-> _ => assert (Hs : stable_sort le l = [] <-> l = []) end.
  { split; [|by intros ->]. intros H. apply (f_equal length) in H.
    rewrite stable_sort_length in H. by apply nil_length_inv. }
  rewrite Hs. clear Hs.
  destruct (source_matches s); cbn [negb orb].
  2: { split; [discriminate|]. intros [[=] _]. }
  destruct (Z.eqb_spec (ls_materializedRevision s) (ls_calendarRevision s)) as [->|]; cbn [negb orb].
  2: { split; [discriminate|]. tauto. }
  destruct (Z.eqb_spec (cov_materializedRevision (ls_coverage s)) (ls_calendarRevision s)); cbn [negb orb].
  2: { split; [discriminate|]. tauto. }
  destruct (coverage_gap s required); [split; [discriminate|]; intuition discriminate|].
  destruct (room_set_mismatch s); [split; [discriminate|]; intuition discriminate|].
  destruct (existsb _ _); [split; [discriminate|]; intuition discriminate|].
  cbn. tauto.
Qed.

Lemma count_unbounded_Some from through n :
  inclusiveIsoDateCountUnbounded from through = Some n <->
  exists f, isoDateTimestamp (VString from) = Some f /\
    isoDateTimestamp (VString through) = Some (f + n - 1) /\ 1 <= n.
Proof.
  unfold inclusiveIsoDateCountUnbounded. split.
  - destruct (isoDateTimestamp (VString from)) as [f|]; [|discriminate].
    destruct (isoDateTimestamp (VString through)) as [t|]; [|discriminate]. cbv zeta.
    destruct (_ && _) eqn:E; [|discriminate]. intros [= <-]. bool_to_prop.
    exists f. split_and!; auto. f_equal. lia.
  - intros (f & Hf & Ht & Hn). rewrite Hf, Ht. cbv zeta.
    replace (f + n - 1 - f + 1) with n by lia.
    replace (safe_integer n && (1 <=? n)) with true; [done|]. symmetry.
    apply timestamp_range in Hf, Ht. unfold timestamp_day in *.
    assert (day_from_year 10000 - day_from_year 100 <= 4000000) by (vm_compute; discriminate).
    unfold safe_integer, MAX_SAFE_INTEGER. lia.
Qed.

(** No coverage gap: both ranges are dates in order, the materialized one
    contains the required one, nothing is missing, and the counts are one day
    per room and date. *)
Lemma coverage_gap_false s required :
  coverage_gap s required = false <->
  exists f n cf cn,
    isoDateTimestamp (VString (rc_from required)) = Some f /\
    isoDateTimestamp (VString (rc_through required)) = Some (f + n - 1) /\ 1 <= n <= 366 /\
    isoDateTimestamp (VString (cov_coverageFrom (ls_coverage s))) = Some cf /\
    isoDateTimestamp (VString (cov_coverageThrough (ls_coverage s))) = Some (cf + cn - 1) /\
    1 <= cn /\ cf <= f /\ f + n <= cf + cn /\ cov_gaps (ls_coverage s) = [] /\
    let rooms := set_size (rb_roomTypeId <$> ls_roomSet s) in
    rooms <> 0 /\ cov_expectedDayCount (ls_coverage s) = cn * rooms /\
    cov_materializedDayCount (ls_coverage s) = cn * rooms.
Proof.
  assert (Hlt : forall a b i j, isoDateTimestamp (VString a) = Some i ->
    isoDateTimestamp (VString b) = Some j -> str_lt a b = (i <? j)).
  { intros a b i j Ha Hb. rewrite <- (timestamp_print _ _ Ha), <- (timestamp_print _ _ Hb).
    apply str_lt_iso_date; by eapply timestamp_four_digit, timestamp_range. }
  unfold coverage_gap, expected_day_count, inclusiveIsoDateCount, PMS_INVENTORY_HORIZON_MAX_DAYS.
  cbv zeta. split.
  - destruct (inclusiveIsoDateCountUnbounded (rc_from required) _) as [n|] eqn:En; [|discriminate].
    destruct (n <=? _) eqn:Ele; [|discriminate].
    destruct (inclusiveIsoDateCountUnbounded (cov_coverageFrom _) _) as [cn|] eqn:Ecn; [|discriminate].
    destruct (_ =? 0) eqn:Ez; [discriminate|].
    apply count_unbounded_Some in En as (f & Hf & Ht & Hn), Ecn as (cf & Hcf & Hct & Hcn).
    rewrite (Hlt _ _ _ _ Hf Hcf), (Hlt _ _ _ _ Hct Ht). intros H.
    rewrite !orb_false_iff, !negb_false_iff, Nat.eqb_eq in H.
    destruct H as ((((H1 & H2) & H3%nil_length_inv) & H4) & H5).
    exists f, n, cf, cn. split_and!; auto; lia.
  - intros (f & n & cf & cn & Hf & Ht & Hn & Hcf & Hct & Hcn & H1 & H2 & H3 & H4 & H5 & H6).
    rewrite (proj2 (count_unbounded_Some _ _ n)) by (exists f; split_and!; auto; lia).
    rewrite (proj2 (count_unbounded_Some _ _ cn)) by eauto.
    replace (n <=? 366) with true by lia. rewrite (proj2 (Z.eqb_neq _ 0) H4).
    rewrite (Hlt _ _ _ _ Hf Hcf), (Hlt _ _ _ _ Hct Ht), H3, H5, H6, Z.eqb_refl.
    cbn [length Nat.eqb negb]. rewrite !orb_false_r. apply orb_false_iff. lia.
Qed.

Lemma horizonDates_Some required dates :
  horizonDates required = Some dates <->
  exists f n, isoDateTimestamp (VString (rc_from required)) = Some f /\
    isoDateTimestamp (VString (rc_through required)) = Some (f + n - 1) /\
    1 <= n <= 366 /\ dates = dates_from f n.
Proof.
  unfold horizonDates. split.
  - destruct (canonicalDate (rc_from required)) eqn:Ef; [|done].
    destruct (canonicalDate (rc_through required)) eqn:Et; [|done]. cbn [andb].
    apply canonicalDate_timestamp in Ef as [f Hf], Et as [t Ht].
    rewrite (dateNumber_timestamp _ _ Hf), (dateNumber_timestamp _ _ Ht).
    destruct (t <? f) eqn:E; [done|]. cbn [negb]. cbv zeta.
    destruct (_ && _) eqn:E2; [|done]. intros [= <-]. bool_to_prop.
    exists f, (t - f + 1). split_and!; auto; [|lia..]. rewrite Ht. f_equal. lia.
  - intros (f & n & Hf & Ht & Hn & ->).
    rewrite (proj2 (canonicalDate_timestamp _) (ex_intro _ _ Hf)),
      (proj2 (canonicalDate_timestamp _) (ex_intro _ _ Ht)),
      (dateNumber_timestamp _ _ Hf), (dateNumber_timestamp _ _ Ht). cbn [andb]. cbv zeta.
    replace (f + n - 1 - f + 1) with n by lia.
    replace (f + n - 1 <? f) with false by lia. cbn [negb].
    by replace ((1 <=? n) && (n <=? 366)) with true by lia.
Qed.

Lemma elem_of_unique_strings x l seen : x ∈ unique_strings l seen <-> x ∈ l /\ x ∉ seen.
Proof.
  revert seen. induction l as [|v r IH]; intros seen; cbn [unique_strings].
  - split; [by intros ?%not_elem_of_nil | by intros [?%not_elem_of_nil _]].
  - destruct (has_string seen v) eqn:E.
    + apply has_string_elem in E. rewrite IH, elem_of_cons. split; [tauto|].
      intros [[->|Hx] Hs]; [done|]. done.
    + apply has_string_not_elem in E. rewrite !elem_of_cons, IH, not_elem_of_cons.
      destruct (decide (x = v)) as [->|Hx]; intuition.
Qed.

Lemma coverage_gaps_nil expectedKeys presentKeys :
  coverage_gaps expectedKeys presentKeys = [] <-> forall key, key ∈ expectedKeys -> key ∈ presentKeys.
Proof.
  unfold coverage_gaps. split.
  - intros H key Hkey. apply (f_equal length) in H.
    rewrite stable_sort_length, length_fmap in H. apply nil_length_inv in H.
    apply has_string_elem, negb_false_iff, not_true_iff_false. intros Hn.
    eapply not_elem_of_nil. rewrite <- H. by apply elem_of_bfilter.
  - intros H. enough (List.filter (fun key => negb (has_string presentKeys key)) expectedKeys = [])
      as -> by done.
    destruct (List.filter _ _) as [|key r] eqn:E; [done|exfalso].
    assert (Hk : key ∈ key :: r) by left. rewrite <- E in Hk. apply elem_of_bfilter in Hk as [Hk Hn].
    apply H, has_string_elem in Hk. by rewrite Hk in Hn.
Qed.

(** The least and the greatest limit fit exactly when there is a limit and every
    limit fits. *)
Lemma limits_fit limits capacity :
  0 <= least_limit limits /\ least_limit limits <= greatest_limit limits /\
    greatest_limit limits <= capacity <->
  limits <> [] /\ Forall (fun n => 0 <= n <= capacity) limits.
Proof.
  destruct limits as [|n r]; cbn [least_limit greatest_limit].
  { split; [lia | by intros [? _]]. }
  assert (H : (0 <= foldr Z.min n r <-> Forall (fun n => 0 <= n) (n :: r)) /\
    (foldr Z.max n r <= capacity <-> Forall (fun n => n <= capacity) (n :: r)) /\
    foldr Z.min n r <= foldr Z.max n r).
  { induction r as [|m r (IH1 & IH2 & IH3)]; cbn [foldr]; [rewrite !Forall_singleton; lia|].
    rewrite Forall_cons in IH1, IH2. rewrite !Forall_cons, Z.min_glb_iff, Z.max_lub_iff. split_and!; [tauto..|lia]. }
  destruct H as (H1 & H2 & H3). rewrite H1, H2. clear H1 H2.
  rewrite !Forall_forall. split.
  - intros (Ha & _ & Hb). split; [done|]. intros x Hx. split; [by apply Ha | by apply Hb].
  - intros [_ H]. split; [|split; [done|]]; intros x Hx; by apply H.
Qed.

Lemma row_limit_fits d capacity :
  capacity <= MAX_REVISION ->
  0 <= row_limit (day_columns d) <= capacity <->
  exists e, id_effectiveLimit d = Some e /\ 0 <= e <= capacity.
Proof.
  intros Hc. unfold row_limit. cbn [day_columns ir_effectiveSellableLimitCount].
  destruct (id_effectiveLimit d) as [e|]; cbn; [|split; [lia | by intros (? & ? & _)]].
  unfold nonNegativeDatabaseInteger. cbn [databaseInteger].
  unfold MAX_REVISION in *. split.
  - destruct (_ && _) eqn:E; cbn; [|lia]. intros H. by exists e.
  - intros (x & [= <-] & Hx). unfold safe_integer, MAX_SAFE_INTEGER.
    replace (_ && _) with true by lia. done.
Qed.

Lemma bindings_find cfg b :
  snapshot_ok cfg -> b ∈ bindings_of cfg ->
  find_binding (bindings_of cfg) (rb_roomTypeId b) = Some b.
Proof.
  intros Hok Hb. destruct (find_binding _ _) as [b'|] eqn:E.
  - apply find_binding_Some in E as [Hb' E]. f_equal. by eapply bindings_distinct.
  - exfalso. unfold find_binding in E. rewrite list_elem_of_In in Hb.
    pose proof (List.find_none _ _ E b Hb) as Hn. cbn in Hn. by rewrite String.eqb_refl in Hn.
Qed.

Lemma coverage_key_inj r d r' d' :
  canonical_uuid r = true -> canonical_uuid r' = true ->
  coverage_key r d = coverage_key r' d' -> r = r' /\ d = d'.
Proof.
  intros Hr Hr' H. apply string_app_inj in H as [-> H]; [by injection H as ->|].
  by rewrite !canonical_uuid_length.
Qed.

Lemma canonical_uuid_lower s : canonical_uuid s = true -> to_lower s = s.
Proof. unfold canonical_uuid. rewrite andb_true_iff, String.eqb_eq. tauto. Qed.

Lemma coverage_counter_iff k m : nonNegativeInteger (ColInt k) = Ret m <-> k = m /\ 0 <= k <= MAX_REVISION.
Proof.
  unfold nonNegativeInteger, nonNegativeDatabaseInteger. cbn [databaseInteger].
  unfold safe_integer, MAX_SAFE_INTEGER, MAX_REVISION. split.
  - destruct (_ && _) eqn:E; cbn; [|done]. intros [= ->]. lia.
  - intros [-> H]. by replace (_ && _) with true by lia.
Qed.

Lemma coverage_revision_iff k m : positiveInteger (ColInt k) = Ret m <-> k = m /\ 1 <= k <= MAX_REVISION.
Proof.
  unfold positiveInteger, positiveDatabaseInteger, positiveRevisionNumber. cbn [databaseInteger].
  unfold safe_integer, MAX_SAFE_INTEGER, MAX_REVISION. split.
  - destruct (_ && _) eqn:E; cbn; [|done]. intros [= ->]. lia.
  - intros [-> H]. by replace (_ && _) with true by lia.
Qed.

Lemma coverage_date_iff s d :
  requireDatabaseDate (ColText s) = Ret d <-> s = d /\ exists k, isoDateTimestamp (VString s) = Some k.
Proof.
  unfold requireDatabaseDate. cbn [databaseDate]. rewrite <- canonicalDate_timestamp.
  destruct (canonicalDate s); split; [by intros [= ->] | by intros [-> _] | done | by intros [_ ?]].
Qed.

Lemma coverage_evidence_Some c rows cfg required dates e :
  coverage_evidence (Some c) rows cfg required dates = Ret e <->
  1 <= lc_materializedRevision c <= MAX_REVISION /\
  (exists k, isoDateTimestamp (VString (lc_coverageFrom c)) = Some k) /\
  (exists k, isoDateTimestamp (VString (lc_coverageThrough c)) = Some k) /\
  0 <= lc_expectedDayCount c <= MAX_REVISION /\ 0 <= lc_materializedDayCount c <= MAX_REVISION /\
  e = {| cov_configurationSource := cs_source cfg;
         cov_materializedRevision := lc_materializedRevision c;
         cov_coverageFrom := lc_coverageFrom c; cov_coverageThrough := lc_coverageThrough c;
         cov_roomTypeIds := stable_sort str_le (rb_roomTypeId <$> bindings_of cfg);
         cov_expectedDayCount := lc_expectedDayCount c;
         cov_materializedDayCount := lc_materializedDayCount c;
         cov_gaps := coverage_gaps
           (unique_strings (stable_sort str_le (rb_roomTypeId <$> bindings_of cfg) ≫=
              fun r => coverage_key r <$> dates) [])
           (unique_strings (present_key <$> rows) []) |}.
Proof.
  unfold coverage_evidence. cbv zeta. split.
  - intros (r & [<- Hr]%coverage_revision_iff & H)%exn_bind_Ret.
    apply exn_bind_Ret in H as (a & [<- Ha]%coverage_date_iff & H).
    apply exn_bind_Ret in H as (b & [<- Hb]%coverage_date_iff & H).
    apply exn_bind_Ret in H as (x & [<- Hx]%coverage_counter_iff & H).
    apply exn_bind_Ret in H as (y & [<- Hy]%coverage_counter_iff & [= <-]).
    split_and!; (done || lia).
  - intros (Hr & Ha & Hb & Hx & Hy & ->).
    rewrite (proj2 (coverage_revision_iff _ _) (conj eq_refl Hr)),
      (proj2 (coverage_date_iff _ _) (conj eq_refl Ha)), (proj2 (coverage_date_iff _ _) (conj eq_refl Hb)),
      (proj2 (coverage_counter_iff _ _) (conj eq_refl Hx)),
      (proj2 (coverage_counter_iff _ _) (conj eq_refl Hy)).
    done.
Qed.

(** The stored day of a bound room on the [k]-th day, generated and
    materialized for the calendar's revision *)
Definition materialized_day (cfg : PmsOperatingCalendarConfigurationSnapshot)
    (b : PmsOperatingCalendarRoomBinding) (k : Z) (d : inventory_day) : Prop :=
  id_propertyId d = cs_propertyId cfg /\ id_roomTypeId d = rb_roomTypeId b /\
  id_stayDate d = iso_date k /\ id_calendarRevision d = Some (cs_calendarRevision cfg) /\
  id_generatedSourceRevision d = Some (cs_calendarRevision cfg).

Section Ready.
Variables (cfg : PmsOperatingCalendarConfigurationSnapshot) (days : list inventory_day)
  (required : PmsInventoryRequiredCoverage) (f n : Z).
Hypothesis (Hok : snapshot_ok cfg)
  (Hf : isoDateTimestamp (VString (rc_from required)) = Some f)
  (Ht : isoDateTimestamp (VString (rc_through required)) = Some (f + n - 1))
  (Hn : 1 <= n <= 366).

Local Notation bindings := (bindings_of cfg).
Local Notation rooms := (rb_roomTypeId <$> bindings_of cfg).
Local Notation rows := (List.filter (current_row cfg) (readReadinessDays days cfg required)).

Lemma launch_rooms_sorted : sorted_by str_lt rooms = true.
Proof. exact (proj2 (so_bindings _ Hok)). Qed.

Lemma launch_room_count : set_size rooms = Z.of_nat (length bindings).
Proof.
  rewrite (proj2 (set_size_NoDup _) (sorted_by_NoDup _ launch_rooms_sorted)). by rewrite length_fmap.
Qed.

Lemma launch_day_text k : f <= k < f + n -> isoDateTimestamp (VString (iso_date k)) = Some k.
Proof.
  intros Hk. apply timestamp_range in Hf as Rf. apply timestamp_range in Ht as Rt.
  apply timestamp_iso_date. unfold timestamp_day in *. lia.
Qed.

Lemma current_row_iff d :
  current_row cfg (day_columns d) = true <->
  id_calendarRevision d = Some (cs_calendarRevision cfg) /\
  id_generatedSourceRevision d = Some (cs_calendarRevision cfg).
Proof.
  assert (H : forall o, same_number (positiveDatabaseInteger (int_column o)) (cs_calendarRevision cfg) = true
    <-> o = Some (cs_calendarRevision cfg)).
  { intros [r|]; [|done]. unfold positiveDatabaseInteger. cbn [int_column databaseInteger].
    pose proof (so_revision _ Hok) as Hr. split.
    - destruct (positiveRevisionNumber r); [|done]. cbn. by intros ->%Z.eqb_eq.
    - intros [= ->]. unfold positiveRevisionNumber, safe_integer, MAX_SAFE_INTEGER.
      unfold MAX_REVISION in *. replace (_ && _) with true by lia. cbn. lia. }
  unfold current_row. cbn [day_columns ir_calendarRevision ir_generatedSourceRevision].
  by rewrite andb_true_iff, !H.
Qed.

Lemma readiness_days_iff row :
  row ∈ readReadinessDays days cfg required <-> exists d, row = day_columns d /\ d ∈ days /\
    id_propertyId d = cs_propertyId cfg /\ id_roomTypeId d ∈ rooms /\ stay_between required d = true.
Proof.
  unfold readReadinessDays. rewrite list_elem_of_fmap.
  setoid_rewrite elem_of_stable_sort. setoid_rewrite elem_of_bfilter.
  setoid_rewrite andb_true_iff. setoid_rewrite andb_true_iff. setoid_rewrite has_string_elem.
  setoid_rewrite String.eqb_eq. split; intros (d & H); exists d; tauto.
Qed.

(** The current rows are the materialized days of the bound rooms in range. *)
Lemma current_rows_iff row :
  row ∈ rows <-> exists b k d, b ∈ bindings /\ f <= k < f + n /\ d ∈ days /\
    materialized_day cfg b k d /\ row = day_columns d.
Proof.
  rewrite elem_of_bfilter, readiness_days_iff. unfold stay_between. rewrite Hf, Ht. split.
  - intros ((d & -> & Hd & Hp & (b & Hb & Hin)%list_elem_of_fmap & Hk) & Hc%current_row_iff).
    destruct (isoDateTimestamp (VString (id_stayDate d))) as [k|] eqn:Ek; [|done].
    exists b, k, d. apply timestamp_print in Ek. unfold materialized_day.
    split_and!; [done|lia|lia|done..|tauto|tauto|done].
  - intros (b & k & d & Hb & Hk & Hd & (Hp & Hr & Hs & Hc) & ->). split.
    + exists d. split_and!; [done..| |].
      * rewrite Hr. by apply list_elem_of_fmap_2.
      * rewrite Hs, launch_day_text by done. lia.
    + by apply current_row_iff.
Qed.

Lemma no_gaps_iff :
  coverage_gaps (unique_strings (stable_sort str_le rooms ≫= fun r => coverage_key r <$> dates_from f n) [])
    (unique_strings (present_key <$> rows) []) = [] <->
  forall b k, b ∈ bindings -> f <= k < f + n -> exists d, d ∈ days /\ materialized_day cfg b k d.
Proof.
  rewrite coverage_gaps_nil, (sort_strings_id _ launch_rooms_sorted).
  assert (Hkey : forall b k d, b ∈ bindings -> f <= k < f + n -> materialized_day cfg b k d ->
    present_key (day_columns d) = coverage_key (rb_roomTypeId b) (iso_date k)).
  { intros b k d Hb Hk (_ & Hr & Hs & _). unfold present_key.
    cbn [day_columns ir_roomTypeId ir_stayDate databaseDate].
    rewrite Hr, Hs, (proj2 (canonicalDate_timestamp _) (ex_intro _ _ (launch_day_text k Hk))).
    by rewrite canonical_uuid_lower by by eapply binding_room_uuid. }
  split.
  - intros H b k Hb Hk.
    assert (He : coverage_key (rb_roomTypeId b) (iso_date k) ∈ unique_strings (present_key <$> rows) []).
    { apply H, elem_of_unique_strings. split; [|apply not_elem_of_nil].
      apply list_elem_of_bind. exists (rb_roomTypeId b). split; [|by apply list_elem_of_fmap_2].
      apply list_elem_of_fmap_2, elem_of_dates_from. eauto. }
    apply elem_of_unique_strings in He as [He _]. apply list_elem_of_fmap in He as (row & He & Hrow).
    apply current_rows_iff in Hrow as (b' & k' & d & Hb' & Hk' & Hd & Hm & ->).
    rewrite (Hkey _ _ _ Hb' Hk' Hm) in He.
    apply coverage_key_inj in He as [Er Ek]; [|by eapply binding_room_uuid..].
    exists d. split; [done|]. destruct Hm as (Hp & Hr & Hs & Hc). by rewrite <- Er, <- Ek in *.
  - intros H key Hin. apply elem_of_unique_strings in Hin as [Hin _].
    apply list_elem_of_bind in Hin as (r & (date & -> & Hdate)%list_elem_of_fmap & Hr).
    apply list_elem_of_fmap in Hr as (b & -> & Hb). apply elem_of_dates_from in Hdate as (k & -> & Hk).
    apply elem_of_unique_strings. split; [|apply not_elem_of_nil].
    destruct (H b k Hb Hk) as (d & Hd & Hm). apply list_elem_of_fmap. exists (day_columns d).
    split; [by rewrite (Hkey b k)|]. apply current_rows_iff. exists b, k, d. done.
Qed.

Lemma room_limit_rows b n' :
  b ∈ bindings ->
  n' ∈ (row_limit <$> List.filter
    (fun row => String.eqb (to_lower (ir_roomTypeId row)) (rb_roomTypeId b)) rows) <->
  exists k d, f <= k < f + n /\ d ∈ days /\ materialized_day cfg b k d /\
    n' = row_limit (day_columns d).
Proof.
  intros Hb. rewrite list_elem_of_fmap. setoid_rewrite elem_of_bfilter.
  setoid_rewrite current_rows_iff. setoid_rewrite String.eqb_eq. split.
  - intros (row & -> & (b' & k & d & Hb' & Hk & Hd & Hm & ->) & He). exists k, d.
    split; [done|]. split; [done|]. split; [|done]. destruct Hm as (Hp & Hr & Hs & Hc).
    cbn [day_columns ir_roomTypeId] in He.
    rewrite Hr, canonical_uuid_lower in He by by eapply binding_room_uuid.
    unfold materialized_day. by rewrite Hr, He.
  - intros (k & d & Hk & Hd & Hm & ->). exists (day_columns d). split; [done|]. split; [eauto 10|].
    destruct Hm as (_ & Hr & _). cbn [day_columns ir_roomTypeId].
    rewrite Hr. by apply canonical_uuid_lower; eapply binding_room_uuid.
Qed.

Lemma launch_limits_iff :
  (forall b, b ∈ bindings -> exists k d, f <= k < f + n /\ d ∈ days /\ materialized_day cfg b k d) ->
  existsb limit_violation (stable_sort (fun a b => str_le (sl_roomTypeId a) (sl_roomTypeId b))
    (limit_evidence rows <$> bindings)) = false <->
  forall b k d, b ∈ bindings -> f <= k < f + n -> d ∈ days -> materialized_day cfg b k d ->
    exists e, id_effectiveLimit d = Some e /\ 0 <= e <= rb_physicalCapacityCount b.
Proof.
  intros Hsome. rewrite <- not_true_iff_false, existsb_exists.
  assert (Hfit : forall b, b ∈ bindings -> limit_violation (limit_evidence rows b) = false <->
    forall k d, f <= k < f + n -> d ∈ days -> materialized_day cfg b k d ->
      exists e, id_effectiveLimit d = Some e /\ 0 <= e <= rb_physicalCapacityCount b).
  { intros b Hb. pose proof (binding_capacity _ _ Hok Hb) as Hcap.
    pose proof (fun n' => room_limit_rows b n' Hb) as Hrows.
    unfold limit_violation, limit_evidence. cbv zeta.
    cbn [sl_configuredSellableLimitCount sl_physicalCapacityCount
         sl_minimumEffectiveSellableLimitCount sl_maximumEffectiveSellableLimitCount].
    set (limits := row_limit <$> _) in *.
    rewrite !orb_false_iff, !Z.ltb_ge. transitivity
      (limits <> [] /\ Forall (fun n => 0 <= n <= rb_physicalCapacityCount b) limits).
    { rewrite <- limits_fit. intuition lia. }
    rewrite Forall_forall. setoid_rewrite Hrows. split.
    - intros [_ H] k d Hk Hd Hm. apply row_limit_fits; [unfold MAX_REVISION; lia|].
      apply H. by exists k, d.
    - intros H. split.
      + destruct (Hsome b Hb) as (k & d & Hk & Hd & Hm). intros E.
        assert (He : row_limit (day_columns d) ∈ limits) by (apply Hrows; eauto 10).
        rewrite E in He. by apply not_elem_of_nil in He.
      + intros x (k & d & Hk & Hd & Hm & ->). apply row_limit_fits; [unfold MAX_REVISION; lia|]. eauto. }
  split.
  - intros H b k d Hb Hk Hd Hm. apply (proj1 (Hfit b Hb)) with k; [|done..].
    apply not_true_iff_false. intros Hx. apply H. exists (limit_evidence rows b). split; [|done].
    apply list_elem_of_In, elem_of_stable_sort. by apply list_elem_of_fmap_2.
  - intros H (e & He%list_elem_of_In & Hx). apply elem_of_stable_sort in He.
    apply list_elem_of_fmap in He as (b & -> & Hb). apply not_false_iff_true in Hx. apply Hx.
    apply Hfit; [done|]. eauto.
Qed.

Lemma launch_source_matches evidence :
  cov_configurationSource evidence = cs_source cfg ->
  source_matches (launch_snapshot cfg evidence rows) = true.
Proof.
  intros Hs. unfold source_matches, launch_snapshot.
  cbn [ls_source ls_propertyId ls_calendarRevision ls_coverage].
  rewrite (so_source _ Hok), String.eqb_refl, Hs.
  rewrite serialize_source_revision by exact (so_revision _ Hok).
  pose proof (so_text _ Hok) as Htext. apply prefixed_revision_Some in Htext as [-> _].
  unfold sameSource. by rewrite !String.eqb_refl.
Qed.

Lemma launch_rooms_match evidence :
  cov_roomTypeIds evidence = stable_sort str_le rooms ->
  room_set_mismatch (launch_snapshot cfg evidence rows) = false.
Proof.
  intros Hr. unfold room_set_mismatch. cbv zeta.
  cbn [launch_snapshot ls_roomSet ls_coverage ls_sellableLimits]. fold bindings.
  pose proof launch_rooms_sorted as Hsort.
  assert (Hids : sl_roomTypeId <$> (limit_evidence rows <$> bindings) = rooms)
    by by rewrite <- list_fmap_compose.
  rewrite (stable_sort_key_id sl_roomTypeId) by by rewrite Hids.
  rewrite Hids, Hr, !(sort_strings_id _ Hsort), length_fmap, launch_room_count, Z.eqb_refl.
  rewrite (proj2 (same_strings_eq _ _) eq_refl).
  destruct (Nat.eqb_spec (length bindings) 0) as [E|_].
  { by destruct (proj1 (so_bindings _ Hok)); apply nil_length_inv. }
  cbn [negb orb]. apply not_true_iff_false. rewrite existsb_exists.
  intros (e & He%list_elem_of_In & Hx). apply list_elem_of_fmap in He as (b & -> & Hb).
  unfold evidence_matches in Hx. cbn [limit_evidence sl_roomTypeId] in Hx.
  rewrite (bindings_find _ b Hok Hb) in Hx. cbn in Hx. by rewrite !Z.eqb_refl in Hx.
Qed.

(** With the coverage row read, ready means covered at the calendar's revision,
    counted, and stored day by day within capacity. *)
Lemma launch_ready_evidence c evidence :
  coverage_evidence (Some c) rows cfg required (dates_from f n) = Ret evidence ->
  evaluatePmsInventoryLaunchReadiness (launch_snapshot cfg evidence rows) required = [] <->
  lc_materializedRevision c = cs_calendarRevision cfg /\
  (exists cf cn,
    isoDateTimestamp (VString (lc_coverageFrom c)) = Some cf /\
    isoDateTimestamp (VString (lc_coverageThrough c)) = Some (cf + cn - 1) /\
    cf <= f /\ f + n <= cf + cn /\
    lc_expectedDayCount c = cn * Z.of_nat (length bindings) /\
    lc_materializedDayCount c = cn * Z.of_nat (length bindings)) /\
  forall b k, b ∈ bindings -> f <= k < f + n ->
    (exists d, d ∈ days /\ materialized_day cfg b k d) /\
    (forall d, d ∈ days -> materialized_day cfg b k d ->
      exists e, id_effectiveLimit d = Some e /\ 0 <= e <= rb_physicalCapacityCount b).
Proof.
  intros (_ & _ & _ & _ & _ & ->)%coverage_evidence_Some.
  rewrite no_blockers, launch_source_matches, launch_rooms_match, coverage_gap_false by done.
  cbn [launch_snapshot ls_coverage ls_roomSet ls_materializedRevision ls_calendarRevision
    ls_sellableLimits cov_coverageFrom cov_coverageThrough cov_gaps cov_expectedDayCount
    cov_materializedDayCount cov_materializedRevision].
  fold bindings. rewrite launch_room_count.
  assert (Hdays : (forall b k, b ∈ bindings -> f <= k < f + n -> exists d, d ∈ days /\ materialized_day cfg b k d) ->
    forall b, b ∈ bindings -> exists k d, f <= k < f + n /\ d ∈ days /\ materialized_day cfg b k d).
  { intros H b Hb. destruct (H b f Hb ltac:(lia)) as (d & Hd). exists f, d. split; [lia|done]. }
  split.
  - intros (_ & Hm & _ & (f' & n' & cf & cn & Hf' & Ht' & _ & Hcf & Hct & Hcn & H1 & H2 & Hg & _ & Hex & Hma)
      & _ & Hlim).
    assert (f' = f) as -> by congruence.
    assert (n' = n) as -> by (rewrite Ht in Ht'; injection Ht'; lia).
    pose proof (proj1 no_gaps_iff Hg) as Hstored. split; [done|]. split; [by exists cf, cn|].
    intros b k Hb Hk. split; [by apply Hstored|]. intros d Hd Hday.
    by apply (proj1 (launch_limits_iff (Hdays Hstored)) Hlim b k d).
  - intros (Hm & (cf & cn & Hcf & Hct & H1 & H2 & Hex & Hma) & Hall).
    assert (Hstored : forall b k, b ∈ bindings -> f <= k < f + n ->
      exists d, d ∈ days /\ materialized_day cfg b k d) by (intros b k Hb Hk; by apply Hall).
    do 3 (split; [done|]). split; [|split; [done|]].
    + exists f, n, cf, cn. rewrite (proj2 no_gaps_iff Hstored).
      repeat (split; [done || lia|]). split; [|done]. intros E.
      destruct (proj1 (so_bindings _ Hok)). apply nil_length_inv. unfold bindings_of in E. lia.
    + apply (proj2 (launch_limits_iff (Hdays Hstored))). intros b k d Hb Hk. by apply Hall.
Qed.
End Ready.

(** C39: under an accepted calendar configuration a property is reported ready
    exactly when its stored inventory covers the required range: the range is one
    of 1 to 366 dates inside the range of the property's only coverage row, that
    row is materialized for the calendar's revision and counts one day per bound
    room and date, and for every bound room and every required date there is a
    stored day generated and materialized for that revision, whose effective limit
    lies between zero and the room's physical capacity. *)
Theorem launch_ready_exact registry value cfg coverages days required :
  parsePmsOperatingCalendarConfigurationSnapshot registry value = Some cfg ->
  readLaunchReadiness coverages days cfg required = Ret (Some []) <->
  exists c f n cf cn,
    List.filter (fun c => String.eqb (lc_propertyId c) (cs_propertyId cfg)) coverages = [c] /\
    isoDateTimestamp (VString (rc_from required)) = Some f /\
    isoDateTimestamp (VString (rc_through required)) = Some (f + n - 1) /\ 1 <= n <= 366 /\
    isoDateTimestamp (VString (lc_coverageFrom c)) = Some cf /\
    isoDateTimestamp (VString (lc_coverageThrough c)) = Some (cf + cn - 1) /\
    cf <= f /\ f + n <= cf + cn /\
    lc_materializedRevision c = cs_calendarRevision cfg /\
    lc_expectedDayCount c = cn * Z.of_nat (length (bindings_of cfg)) /\
    lc_materializedDayCount c = cn * Z.of_nat (length (bindings_of cfg)) /\
    cn * Z.of_nat (length (bindings_of cfg)) <= MAX_REVISION /\
    forall b k, b ∈ bindings_of cfg -> f <= k < f + n ->
      (exists d, d ∈ days /\ materialized_day cfg b k d) /\
      (forall d, d ∈ days -> materialized_day cfg b k d ->
        exists e, id_effectiveLimit d = Some e /\ 0 <= e <= rb_physicalCapacityCount b).
Proof.
  intros Hok%snapshot_sound. unfold readLaunchReadiness, readCoverage.
  set (own := List.filter _ coverages). split.
  - intros (coverage & Hc & H)%exn_bind_Ret. cbv zeta in H.
    destruct (horizonDates required) as [dates|] eqn:Ed; [|discriminate].
    apply horizonDates_Some in Ed as (f & n & Hf & Ht & Hn & ->).
    apply exn_bind_Ret in H as (evidence & He & [= H]). destruct coverage as [c|].
    + assert (own = [c]) as -> by (destruct own as [|? [|]]; congruence).
      pose proof (proj1 (coverage_evidence_Some _ _ _ _ _ _) He) as (_ & _ & _ & Hx & _).
      apply (launch_ready_evidence _ _ _ _ _ Hok Hf Ht Hn _ _ He) in H
        as (Hm & (cf & cn & Hcov) & Hall).
      exists c, f, n, cf, cn. repeat (split; [tauto || lia|]). done.
    + injection He as <-. apply no_blockers in H as (_ & Hm & _). cbn in Hm.
      pose proof (so_revision _ Hok). lia.
  - intros (c & f & n & cf & cn & -> & Hf & Ht & Hn & Hcf & Hct & H1 & H2 & Hr & Hex & Hma & Hmax & Hall).
    cbn [exn_bind]. cbv zeta.
    rewrite (proj2 (horizonDates_Some required (dates_from f n))) by eauto 10.
    pose proof (so_revision _ Hok).
    edestruct (coverage_evidence_Some c (List.filter (current_row cfg)
      (readReadinessDays days cfg required)) cfg required (dates_from f n)) as [_ He].
    rewrite He by (split_and!; [lia|lia|eauto|eauto|nia|nia|nia|nia|reflexivity]).
    cbn [exn_bind]. do 2 f_equal. eapply launch_ready_evidence; eauto 10.
    apply He. split_and!; [lia|lia|eauto|eauto|nia|nia|nia|nia|reflexivity].
Qed.
