(* ===== verification/LinkedInventory.v ===== *)
(** * Linked inventory (pmsLinkedInventoryReconciler.ts, pmsLinkedInventorySideEffects.ts)

    The last statement of the reconciler, which writes the blocked count and the
    stop-sell of the days of linked room types, and the events the changed days
    give, collapsed into ranges.  Which days are dirty, how many blocks cover
    them and whether a linked room is occupied comes from tables of room types,
    blocks and assignments that are not part of the store: the work list is an
    argument. *)

From S2P Require Import Prelude JsValue JsonText CalendarDates OperatingSchedule OperatingCalendar InventoryPlanner ReservationLifecycle ReservationRows ReservationStore.

(** One row of the [desired] table before its clamp: the active blocks that
    cover a day and whether a linked room is occupied on it. *)
Record linked_work := {
  lw_roomTypeId : string;
  lw_stayDate : string;
  lw_blocks : N;
  lw_linkedStopSell : bool;
}.

Record PmsLinkedInventoryChange := { lc_roomTypeId : string; lc_stayDate : string }.

Definition work_for (propertyId : string) (work : list linked_work) (r : inventory_day)
    : option linked_work :=
  if String.eqb (id_propertyId r) propertyId
  then List.find (fun w => String.eqb (lw_roomTypeId w) (id_roomTypeId r) &&
                           String.eqb (lw_stayDate w) (id_stayDate r)) work
  else None.

(** [LEAST(blocks, GREATEST(total_count - assigned_count, 0))] *)
Definition desired_blocked (w : linked_work) (r : inventory_day) : Z :=
  Z.min (Z.of_N (lw_blocks w)) (Z.max (id_totalCount r - id_assignedCount r) 0).

(** The [CASE] of [available_count]; [GREATEST] ignores [NULL]. *)
Definition desired_available (w : linked_work) (r : inventory_day) : Z :=
  let blocked := desired_blocked w r in
  if String.eqb (id_status r) "closed" || lw_linkedStopSell w then 0
  else
    match id_calendarRevision r with
    | None => Z.max 0 (id_totalCount r - id_assignedCount r - blocked)
    | Some _ =>
        match id_effectiveLimit r with
        | Some effective => Z.max 0 (effective - id_assignedCount r - blocked)
        | None => 0
        end
    end.

Definition link_day (w : linked_work) (r : inventory_day) : inventory_day :=
  let blocked := desired_blocked w r in {|
  id_propertyId := id_propertyId r; id_roomTypeId := id_roomTypeId r;
  id_stayDate := id_stayDate r; id_calendarRevision := id_calendarRevision r;
  id_inventoryRevision :=
    match id_calendarRevision r with
    | None => None
    | Some _ => option_map (fun n => n + 1) (id_inventoryRevision r)
    end;
  id_generatedSourceRevision := id_generatedSourceRevision r;
  id_channelSourceRevision := id_channelSourceRevision r;
  id_manualSourceRevision := id_manualSourceRevision r;
  id_blockSourceRevision :=
    option_map (fun n => n + (if id_blockedCount r =? blocked then 0 else 1))
      (id_blockSourceRevision r);
  id_bookingSourceRevision := id_bookingSourceRevision r;
  id_status := id_status r; id_totalCount := id_totalCount r;
  id_generatedLimit := id_generatedLimit r; id_channelLimit := id_channelLimit r;
  id_manualLimit := id_manualLimit r; id_effectiveLimit := id_effectiveLimit r;
  id_assignedCount := id_assignedCount r; id_blockedCount := blocked;
  id_availableCount := desired_available w r;
  id_linkedStopSell := lw_linkedStopSell w;
  id_linkedSourceRevision := id_linkedSourceRevision r + 1;
  id_rateGateOpen := id_rateGateOpen r;
|}.

(** [work propertyId s]: the work list the reconciler derives, or the error it
    throws on inventory that is not canonical. *)
Definition reconcilePmsLinkedInventory (work : string -> Store -> exn (list linked_work))
    (propertyId : string) : Tx (list PmsLinkedInventoryChange) := fun s =>
  match work propertyId s with
  | Throw e => Throw e
  | Ret [] => Ret ([], s)
  | Ret items =>
      (changed ← update_days (fun r => option_map (fun w => link_day w r)
                                         (work_for propertyId items r));
       mret ((fun r => {| lc_roomTypeId := id_roomTypeId r; lc_stayDate := id_stayDate r |})
               <$> changed)) s
  end.

(** ** Side effects *)

Record ChangeRange := { ch_roomTypeId : string; ch_from : string; ch_to : string }.

(** [nextDate]: [Date.parse] of the date at midnight, one day later *)
Definition nextDate (date : string) : string := iso_date (date_parse date + 1).

Definition change_le (a b : PmsLinkedInventoryChange) : bool :=
  str_lt (lc_roomTypeId a) (lc_roomTypeId b) ||
  (String.eqb (lc_roomTypeId a) (lc_roomTypeId b) && str_le (lc_stayDate a) (lc_stayDate b)).

Definition same_change (a b : PmsLinkedInventoryChange) : bool :=
  String.eqb (lc_roomTypeId a) (lc_roomTypeId b) && String.eqb (lc_stayDate a) (lc_stayDate b).

(** [new Map(changes.map((c) => [key, c])).values()]: one change of each key *)
Fixpoint distinct_changes (changes : list PmsLinkedInventoryChange) : list PmsLinkedInventoryChange :=
  match changes with
  | [] => []
  | c :: r => c :: List.filter (fun d => negb (same_change c d)) (distinct_changes r)
  end.

(** The loop over the sorted changes; [ranges] is the list built so far, last
    range first. *)
Fixpoint collapse (changes : list PmsLinkedInventoryChange) (ranges : list ChangeRange)
    : list ChangeRange :=
  match changes with
  | [] => rev ranges
  | c :: rest =>
      match ranges with
      | p :: earlier =>
          if String.eqb (ch_roomTypeId p) (lc_roomTypeId c) &&
             String.eqb (nextDate (ch_to p)) (lc_stayDate c)
          then collapse rest ({| ch_roomTypeId := ch_roomTypeId p; ch_from := ch_from p;
                                 ch_to := lc_stayDate c |} :: earlier)
          else collapse rest ({| ch_roomTypeId := lc_roomTypeId c; ch_from := lc_stayDate c;
                                 ch_to := lc_stayDate c |} :: ranges)
      | [] => collapse rest [{| ch_roomTypeId := lc_roomTypeId c; ch_from := lc_stayDate c;
                                ch_to := lc_stayDate c |}]
      end
  end.

Definition collapseChanges (changes : list PmsLinkedInventoryChange) : list ChangeRange :=
  collapse (stable_sort change_le (distinct_changes changes)) [].

Record side_effect_context := {
  sc_propertyId : string;
  sc_operation : string;
  sc_commandId : string;
  sc_keyHash : string;
  sc_acceptedAt : Z;
  sc_correlationId : string;
}.

(** ** Journal writes shared with the repository *)

Definition find_event (eventKey : string) (j : journal_tables) : option domain_event :=
  List.find (fun e => String.eqb (de_eventKey e) eventKey) (domain_events j).

Definition has_outbox (destination outboxKey : string) (j : journal_tables) : bool :=
  existsb (fun e => String.eqb (oe_destination e) destination &&
                    String.eqb (oe_outboxKey e) outboxKey) (outbox_events j).

Definition push_event (e : domain_event) (j : journal_tables) : journal_tables :=
  {| idempotency_keys := idempotency_keys j; domain_events := domain_events j ++ [e];
     outbox_events := outbox_events j; audit_events := audit_events j; next_id := S (next_id j) |}.
Definition push_outbox (e : outbox_event) (j : journal_tables) : journal_tables :=
  {| idempotency_keys := idempotency_keys j; domain_events := domain_events j;
     outbox_events := outbox_events j ++ [e]; audit_events := audit_events j;
     next_id := S (next_id j) |}.

(** [ON CONFLICT (destination, outbox_key) DO NOTHING] *)
Definition push_outbox_once (e : outbox_event) (j : journal_tables) : journal_tables :=
  if has_outbox (oe_destination e) (oe_outboxKey e) j then j else push_outbox e j.

Definition range_event_key (c : side_effect_context) (r : ChangeRange) : string :=
  "pms.linked_inventory.changed.property." +:+ sc_propertyId c +:+ ".room_type." +:+
  ch_roomTypeId r +:+ "." +:+ ch_from r +:+ "." +:+ ch_to r +:+ ".operation." +:+
  sc_operation c +:+ ".command." +:+ sc_commandId c +:+ ".key." +:+ sc_keyHash c +:+ ".v1".

Definition range_payload (c : side_effect_context) (r : ChangeRange) : jsval :=
  obj [("propertyId", VString (sc_propertyId c)); ("roomTypeId", VString (ch_roomTypeId r));
       ("dateRange", obj [("from", VString (ch_from r)); ("to", VString (ch_to r))]);
       ("inventoryVersion", VString (sc_keyHash c)); ("triggerRefId", VString (sc_commandId c))].

Definition range_outbox (c : side_effect_context) (r : ChangeRange) (eventId : nat)
    (suffix destination eventType : string) (j : journal_tables) : journal_tables :=
  push_outbox_once
    {| oe_id := next_id j; oe_domainEventId := eventId;
       oe_outboxKey := range_event_key c r +:+ suffix; oe_destination := destination;
       oe_eventType := eventType; oe_propertyId := sc_propertyId c;
       oe_resourceType := "linked_inventory"; oe_resourceId := ch_roomTypeId r;
       oe_correlationId := sc_correlationId c; oe_idempotencyKeyHash := sc_keyHash c;
       oe_payload := range_payload c r |} j.

Definition enqueue_range (c : side_effect_context) (r : ChangeRange) (j : journal_tables)
    : journal_tables :=
  let '(eventId, j) :=
    match find_event (range_event_key c r) j with
    | Some e => (de_id e, j)
    | None =>
        (next_id j,
         push_event {| de_id := next_id j; de_eventKey := range_event_key c r;
                       de_eventType := "pms.inventory.changed"; de_occurredAt := sc_acceptedAt c;
                       de_propertyId := sc_propertyId c; de_resourceType := "linked_inventory";
                       de_resourceId := ch_roomTypeId r; de_actorUserId := None;
                       de_correlationId := sc_correlationId c; de_causationId := sc_commandId c;
                       de_idempotencyKeyHash := sc_keyHash c; de_payload := range_payload c r |} j)
    end in
  let j := range_outbox c r eventId ".ari" "pms.channel-manager" "pms.inventory.ari_changed" j in
  let j := range_outbox c r eventId ".distribution" "distribution.public-bookability"
             "pms.inventory.changed" j in
  range_outbox c r eventId ".calendar" "pms.calendar-projection" "pms.calendar.refresh_requested" j.

Definition enqueuePmsLinkedInventorySideEffects (c : side_effect_context)
    (changes : list PmsLinkedInventoryChange) : Tx unit :=
  write (fun s => set_journal s
    (foldl (fun j r => enqueue_range c r j) (journal s) (collapseChanges changes))).
