(* ===== verification/ReservationRepository.v ===== *)
(** * The reservation repository (pmsInventoryReservationLifecycleRepository.ts)

    The commands that reserve and release inventory and the status read, as
    transactions on the store of ReservationStore.v.  The other owners they ask
    (authorization, the operating calendar, the property profile, room capacity,
    the linked-inventory work list), the hash and the receipt identifiers are
    the environment. *)

From S2P Require Import Prelude JsValue JsonText CalendarDates OperatingSchedule OperatingCalendar InventoryPlanner ReservationLifecycle ReservationRows ReservationStore LinkedInventory.

Definition RESERVE_OPERATION : string := "pms.inventory.reserve".
Definition RELEASE_OPERATION : string := "pms.inventory.release".
Definition RESOURCE_TYPE : string := "inventory_reservation".
Definition DESTINATION : string := "distribution.inventory-projection".

(** ** The environment *)

Record RoomTypeCapacitySnapshot := {
  cap_propertyId : string;
  cap_roomTypeId : string;
  cap_roomUnitsRevision : Z;
  cap_activeUnitCount : Z;
}.

(** The calendar by source is read twice, before and after the profile lock. *)
Record Environment := {
  env_hash : string -> string;
  env_registry : TimeZoneRegistry;
  env_authorize : string -> string -> string -> option RoomFactsCommandAudit -> bool;
  env_immutableConfiguration : PmsOperatingCalendarSourceRevision ->
    exn (option PmsOperatingCalendarConfigurationSnapshot);
  env_profileEvidence : string -> Z -> exn jsval;
  env_currentConfiguration : string -> exn (option PmsOperatingCalendarCurrentReadResult);
  env_exactConfiguration : PmsOperatingCalendarSourceRevision ->
    exn (option PmsOperatingCalendarConfigurationSnapshot);
  env_roomCapacity : string -> string -> exn (option RoomTypeCapacitySnapshot);
  env_lockedCalendar : string -> Store -> exn (option PmsOperatingCalendarCurrentReadResult);
  env_linkedWork : string -> Store -> exn (list linked_work);
  env_clock : Store -> Z;
}.

Section Repository.
Variable env : Environment.

Definition hash (s : string) : string := env_hash env s.

(** [hash(stableJson(v))] *)
Definition hash_json (v : jsval) : string := hash (default EmptyString (stableJson v)).

Definition lift {A} (e : exn A) : Tx A := fun s =>
  match e with Ret a => Ret (a, s) | Throw err => Throw err end.

Definition reserve_fingerprint (c : PmsInventoryReservationReserveCommand) : string :=
  hash (default EmptyString (serializePmsInventoryReservationReserveFingerprint c)).
Definition release_fingerprint (c : PmsInventoryReservationReleaseCommand) : string :=
  hash (default EmptyString (serializePmsInventoryReservationReleaseFingerprint c)).

(** ** Idempotency keys *)

Definition same_key (operation propertyId keyHash : string) (r : idempotency_row) : bool :=
  String.eqb (ik_operation r) operation && String.eqb (ik_keyHash r) keyHash &&
  String.eqb (ik_propertyId r) propertyId.

Definition findIdempotency (operation propertyId keyHash : string) : Tx (option idempotency_row) :=
  rows ← read (fun s => List.filter (same_key operation propertyId keyHash)
                          (idempotency_keys (journal s)));
  match rows with
  | [] => mret None
  | [r] => mret (Some r)
  | _ => throw "Error"
  end.

Definition correlation (a : RoomFactsCommandAudit) : string :=
  default (ra_requestId a) (ra_correlationId a).

Definition new_key (operation propertyId keyHash fingerprint : string)
    (audit : RoomFactsCommandAudit) (acceptedAt : Z) (id : nat) : idempotency_row :=
  {| ik_id := id; ik_operation := operation; ik_keyHash := keyHash; ik_propertyId := propertyId;
     ik_requestFingerprintHash := fingerprint; ik_status := "in_progress";
     ik_correlationId := correlation audit; ik_responseStatusCode := None;
     ik_responseBodyHash := None; ik_metadata := obj [("attempt", VInt 1)];
     ik_firstSeenAt := acceptedAt; ik_lastSeenAt := acceptedAt; ik_completedAt := None |}.

Definition set_keys (keys : list idempotency_row) (id : nat) (j : journal_tables) : journal_tables :=
  {| idempotency_keys := keys; domain_events := domain_events j; outbox_events := outbox_events j;
     audit_events := audit_events j; next_id := id |}.

(** [INSERT ... ON CONFLICT DO NOTHING RETURNING id] *)
Definition reserveIdempotency (operation propertyId keyHash fingerprint : string)
    (audit : RoomFactsCommandAudit) (acceptedAt : Z) : Tx (option nat) :=
  j ← read journal;
  if existsb (same_key operation propertyId keyHash) (idempotency_keys j) then mret None
  else
    let id := next_id j in
    write (fun s => set_journal s
      (set_keys (idempotency_keys j ++
                 [new_key operation propertyId keyHash fingerprint audit acceptedAt id]) (S id) j));;
    mret (Some id).

(** [metadata || jsonb_build_object('result', result)] *)
Definition with_result (metadata result : jsval) : jsval :=
  match metadata with
  | VObject p props =>
      VObject p (List.filter (fun e => negb (key_is "result" (fst e))) props ++
                 [(KString "result", (plain_prop, result))])
  | _ => metadata
  end.

Definition complete_key (id : nat) (result : jsval) (bodyHash : string) (code acceptedAt : Z)
    (r : idempotency_row) : idempotency_row :=
  if Nat.eqb (ik_id r) id && String.eqb (ik_status r) "in_progress" then
    {| ik_id := ik_id r; ik_operation := ik_operation r; ik_keyHash := ik_keyHash r;
       ik_propertyId := ik_propertyId r; ik_requestFingerprintHash := ik_requestFingerprintHash r;
       ik_status := "completed"; ik_correlationId := ik_correlationId r;
       ik_responseStatusCode := Some code; ik_responseBodyHash := Some bodyHash;
       ik_metadata := with_result (ik_metadata r) result; ik_firstSeenAt := ik_firstSeenAt r;
       ik_lastSeenAt := acceptedAt; ik_completedAt := Some acceptedAt |}
  else r.

Definition completeIdempotency (id : nat) (result : lifecycle_result) (code acceptedAt : Z)
    : Tx unit :=
  j ← read journal;
  let open r := Nat.eqb (ik_id r) id && String.eqb (ik_status r) "in_progress" in
  if negb (Nat.eqb (length (List.filter open (idempotency_keys j))) 1) then throw "Error"
  else
    write (fun s => set_journal s
      (set_keys (complete_key id (result_value result) (hash_json (result_value result)) code
                   acceptedAt <$> idempotency_keys j) (next_id j) j)).

(** ** Reads of a reservation *)

Definition watermark_columns (w : watermark_row) : WatermarkRow := {|
  wr_propertyId := wk_propertyId w; wr_roomTypeId := wk_roomTypeId w;
  wr_stayDate := ColText (wk_stayDate w);
  wr_calendarRevision := ColInt (wk_calendarRevision w);
  wr_inventoryRevision := ColInt (wk_inventoryRevision w);
  wr_generatedSourceRevision := ColInt (rv_generated (wk_sourceRevisions w));
  wr_channelSourceRevision := ColInt (rv_channel (wk_sourceRevisions w));
  wr_manualSourceRevision := ColInt (rv_manual (wk_sourceRevisions w));
  wr_blockSourceRevision := ColInt (rv_block (wk_sourceRevisions w));
  wr_bookingSourceRevision := ColInt (rv_booking (wk_sourceRevisions w));
|}.

Definition root_columns (p : receipt_row * status_row) : ReservationRootRow :=
  let '(r, t) := p in {|
  rr_receiptId := re_receiptId r; rr_contractVersion := re_contractVersion r;
  rr_receiptOwner := re_receiptOwner r; rr_organizationId := re_organizationId r;
  rr_propertyId := re_propertyId r; rr_roomTypeId := re_roomTypeId r;
  rr_checkIn := ColText (re_checkIn r); rr_checkOut := ColText (re_checkOut r);
  rr_roomCount := ColInt (re_roomCount r); rr_quoteSessionId := re_quoteSessionId r;
  rr_publicOfferKey := re_publicOfferKey r;
  rr_calendarRevision := ColInt (re_calendarRevision r);
  rr_materializedRevision := ColInt (re_materializedRevision r);
  rr_reservedAt := Some (re_reservedAt r); rr_lifecycleState := ss_lifecycleState t;
  rr_lifecycleRevision := ColInt (ss_lifecycleRevision t);
  rr_releasedAt := ss_releasedAt t; rr_handedOffAt := ss_handedOffAt t;
|}.

Definition receipt_is (receiptId organizationId propertyId : string) (r : receipt_row) : bool :=
  String.eqb (re_receiptId r) receiptId && String.eqb (re_organizationId r) organizationId &&
  String.eqb (re_propertyId r) propertyId.
Definition status_is (receiptId organizationId propertyId : string) (t : status_row) : bool :=
  String.eqb (ss_receiptId t) receiptId && String.eqb (ss_organizationId t) organizationId &&
  String.eqb (ss_propertyId t) propertyId.
Definition watermark_is (receiptId organizationId propertyId : string) (w : watermark_row) : bool :=
  String.eqb (wk_receiptId w) receiptId && String.eqb (wk_organizationId w) organizationId &&
  String.eqb (wk_propertyId w) propertyId.

Definition watermark_date_le (a b : watermark_row) : bool := str_le (wk_stayDate a) (wk_stayDate b).

Definition status_of_receipt (l : ledger_tables) (receiptId organizationId propertyId : string)
    : option PmsInventoryReservationStatus :=
  let receipts := List.filter (receipt_is receiptId organizationId propertyId)
                    (reservation_receipts l) in
  let statuses := List.filter (status_is receiptId organizationId propertyId)
                    (reservation_statuses l) in
  match (r ← receipts; (fun t => (r, t)) <$> statuses) with
  | [root] =>
      reservationStatusFromRows (root_columns root)
        (watermark_columns <$> stable_sort watermark_date_le
           (List.filter (watermark_is receiptId organizationId propertyId)
              (reservation_watermarks l)))
  | _ => None
  end.

Definition readReservationStatus (organizationId propertyId : string)
    (receipt : PmsInventoryReservationReceipt) : Tx (option PmsInventoryReservationStatus) :=
  read (fun s => status_of_receipt (ledger s) (rc_receiptId receipt) organizationId propertyId).

Definition reserveReceiptEvidenceMatches (status : PmsInventoryReservationStatus)
    (idempotencyId : nat) (fingerprint : string) : Tx bool :=
  rows ← read (fun s => List.filter (fun r =>
    receipt_is (rc_receiptId (st_receipt status)) (st_organizationId status)
      (st_propertyId status) r &&
    Nat.eqb (re_idempotencyKeyId r) idempotencyId &&
    String.eqb (re_fingerprintHash r) fingerprint) (reservation_receipts (ledger s)));
  mret (Nat.eqb (length rows) 1).

Definition releaseStatusEvidenceMatches (command : PmsInventoryReservationReleaseCommand)
    (idempotencyId : nat) (fingerprint : string) : Tx bool :=
  rows ← read (fun s => List.filter (fun t =>
    status_is (rc_receiptId (rl_receipt command)) (rl_organizationId command)
      (rl_propertyId command) t &&
    String.eqb (ss_lifecycleState t) "released" &&
    bool_decide (ss_releaseIdempotencyKeyId t = Some idempotencyId) &&
    bool_decide (ss_releaseFingerprintHash t = Some fingerprint)) (reservation_statuses (ledger s)));
  mret (Nat.eqb (length rows) 1).

(** ** Replays *)

(** The stored result, when the key's row proves it was completed with it. *)
Definition stored_result (parse : jsval -> option lifecycle_result)
    (resultStatus : lifecycle_result -> Z) (existing : idempotency_row) : option lifecycle_result :=
  let stored := if plain_record (ik_metadata existing) then get (ik_metadata existing) "result"
                else VUndefined in
  let? parsed := parse stored in
  guard? bool_decide (ik_responseStatusCode existing = Some (resultStatus parsed)) &&
         bool_decide (ik_responseBodyHash existing = Some (hash_json (result_value parsed))) in
  Some parsed.

Definition findReserveReplay (command : PmsInventoryReservationReserveCommand)
    (keyHash fingerprint : string) : Tx (option lifecycle_result) :=
  existing ← findIdempotency RESERVE_OPERATION (rs_propertyId command) keyHash;
  match existing with
  | None => mret None
  | Some existing =>
      if negb (String.eqb (ik_requestFingerprintHash existing) fingerprint)
      then mret (Some (failure "idempotency_key_conflict"))
      else if negb (String.eqb (ik_status existing) "completed")
      then mret (Some (failure "command_in_progress"))
      else
        match stored_result parsePmsInventoryReservationReserveResult reserveResultStatus existing with
        | None => mret (Some (failure "idempotency_key_conflict"))
        | Some (LifecycleError code) => mret (Some (LifecycleError code))
        | Some (LifecycleOk outcome status _) =>
            if negb (String.eqb outcome "reserved") ||
               negb (reserveStatusMatchesCommand status command)
            then mret (Some (failure "idempotency_key_conflict"))
            else
              matches ← reserveReceiptEvidenceMatches status (ik_id existing) fingerprint;
              if negb matches then mret (Some (failure "idempotency_key_conflict"))
              else
                current ← readReservationStatus (st_organizationId status) (st_propertyId status)
                            (st_receipt status);
                match current with
                | Some current =>
                    if sameReservationIdentity current status
                    then mret (Some (reserveReplayResult current))
                    else mret (Some (failure "idempotency_key_conflict"))
                | None => mret (Some (failure "idempotency_key_conflict"))
                end
        end
  end.

Definition findReleaseReplay (command : PmsInventoryReservationReleaseCommand)
    (current : PmsInventoryReservationStatus) (keyHash fingerprint : string)
    : Tx (option lifecycle_result) :=
  existing ← findIdempotency RELEASE_OPERATION (rl_propertyId command) keyHash;
  match existing with
  | None => mret None
  | Some existing =>
      if negb (String.eqb (ik_requestFingerprintHash existing) fingerprint)
      then mret (Some (failure "idempotency_key_conflict"))
      else if negb (String.eqb (ik_status existing) "completed")
      then mret (Some (failure "command_in_progress"))
      else
        match stored_result parsePmsInventoryReservationReleaseResult releaseResultStatus existing with
        | None => mret (Some (failure "idempotency_key_conflict"))
        | Some (LifecycleError code) =>
            match st_state current with
            | Reserved => mret (Some (LifecycleError code))
            | _ => r ← lift (releaseTerminalResult current); mret (Some r)
            end
        | Some (LifecycleOk outcome status _) =>
            matches ← (if String.eqb outcome "released"
                       then releaseStatusEvidenceMatches command (ik_id existing) fingerprint
                       else mret true);
            if negb matches then mret (Some (failure "idempotency_key_conflict"))
            else
              match st_state current with
              | Reserved => mret (Some (failure "idempotency_key_conflict"))
              | _ =>
                  if sameReservationIdentity current status &&
                     String.eqb (rc_receiptId (st_receipt current)) (rc_receiptId (rl_receipt command))
                  then r ← lift (releaseTerminalResult current); mret (Some r)
                  else mret (Some (failure "idempotency_key_conflict"))
              end
        end
  end.

(** ** Inventory *)

Definition canonical_rows (rows : list inventory_day) : Tx (list CanonicalInventoryDay) :=
  match traverse (fun r => canonicalInventoryDay (day_columns r)) rows with
  | Some days => mret days
  | None => throw InventoryInvariantError
  end.

Definition lockInventoryDays (propertyId roomTypeId checkIn checkOut : string)
    : Tx (list CanonicalInventoryDay) :=
  rows ← read (select_stay propertyId roomTypeId checkIn checkOut);
  canonical_rows rows.

(** The row the booking update writes where its WHERE clause holds *)
Definition book_day (day : CanonicalInventoryDay) (assignedCount availableCount : Z)
    (r : inventory_day) : option inventory_day :=
  if String.eqb (id_propertyId r) (cd_propertyId day) &&
     String.eqb (id_roomTypeId r) (cd_roomTypeId day) &&
     String.eqb (id_stayDate r) (cd_stayDate day) &&
     (id_assignedCount r =? cd_assignedCount day) && (id_blockedCount r =? cd_blockedCount day) &&
     same_number (id_effectiveLimit r) (cd_effectiveSellableLimitCount day) &&
     same_number (id_inventoryRevision r) (cd_inventoryRevision day) &&
     same_number (id_bookingSourceRevision r) (cd_bookingSourceRevision day)
  then Some {|
    id_propertyId := id_propertyId r; id_roomTypeId := id_roomTypeId r;
    id_stayDate := id_stayDate r; id_calendarRevision := id_calendarRevision r;
    id_inventoryRevision := Some (cd_inventoryRevision day + 1);
    id_generatedSourceRevision := id_generatedSourceRevision r;
    id_channelSourceRevision := id_channelSourceRevision r;
    id_manualSourceRevision := id_manualSourceRevision r;
    id_blockSourceRevision := id_blockSourceRevision r;
    id_bookingSourceRevision := Some (cd_bookingSourceRevision day + 1);
    id_status := id_status r; id_totalCount := id_totalCount r;
    id_generatedLimit := id_generatedLimit r; id_channelLimit := id_channelLimit r;
    id_manualLimit := id_manualLimit r; id_effectiveLimit := id_effectiveLimit r;
    id_assignedCount := assignedCount; id_blockedCount := id_blockedCount r;
    id_availableCount := availableCount; id_linkedStopSell := id_linkedStopSell r;
    id_linkedSourceRevision := id_linkedSourceRevision r; id_rateGateOpen := id_rateGateOpen r |}
  else None.

Fixpoint applyBookingDelta (days : list CanonicalInventoryDay) (delta : Z) : Tx unit :=
  match days with
  | [] => mret tt
  | day :: rest =>
      let assignedCount := cd_assignedCount day + delta in
      if (assignedCount <? 0) || (cd_totalCount day <? assignedCount + cd_blockedCount day)
      then throw InventoryInvariantError
      else
        let availableCount := available_of (cd_status day) (cd_linkedStopSell day)
          (cd_effectiveSellableLimitCount day) assignedCount (cd_blockedCount day) in
        updated ← update_days (book_day day assignedCount availableCount);
        if negb (Nat.eqb (length updated) 1) then throw InventoryInvariantError
        else applyBookingDelta rest delta
  end.

Definition coverage_columns (c : coverage_row) : CoverageRow := {|
  cr_organizationId := co_organizationId c; cr_propertyId := co_propertyId c;
  cr_calendarRevision := ColInt (co_calendarRevision c);
  cr_materializedRevision := ColInt (co_materializedRevision c);
  cr_coverageFrom := ColText (co_coverageFrom c);
  cr_coverageThrough := ColText (co_coverageThrough c);
|}.

Definition lockCoverage (propertyId : string) : Tx (option CoverageRow) :=
  rows ← read (fun s => List.filter (fun c => String.eqb (co_propertyId c) propertyId)
                          (materialization_coverage (catalog s)));
  match rows with
  | [] => mret None
  | [c] => mret (Some (coverage_columns c))
  | _ => throw InventoryInvariantError
  end.

(** [readPmsRoomOperatingEligibility], the state of one room type *)
Definition room_state (c : catalog_tables) (propertyId roomTypeId : string) : option string :=
  match List.find (fun r => String.eqb (rt_propertyId r) propertyId &&
                            String.eqb (rt_roomTypeId r) roomTypeId) (room_types c) with
  | None => None
  | Some r =>
      Some (if negb (rt_active r) then "inactive"
            else if existsb (fun cl => String.eqb (cl_propertyId cl) propertyId &&
                                       String.eqb (cl_roomTypeId cl) roomTypeId)
                      (room_type_closures c)
            then "closing" else "operating")%string
  end.

Definition room_is_operating (propertyId roomTypeId : string) : Tx bool :=
  read (fun s => bool_decide (room_state (catalog s) propertyId roomTypeId = Some "operating"%string)).

(** ** Writes of a reservation *)

Definition receipt_of_command (command : PmsInventoryReservationReserveCommand)
    (receiptId fingerprint : string) (idempotencyId eventId outboxEventId : nat) (acceptedAt : Z)
    : receipt_row := {|
  re_receiptId := receiptId; re_contractVersion := LIFECYCLE_VERSION; re_receiptOwner := "pms";
  re_organizationId := rs_organizationId command; re_propertyId := rs_propertyId command;
  re_roomTypeId := rs_roomTypeId command; re_checkIn := rs_checkIn command;
  re_checkOut := rs_checkOut command; re_roomCount := rs_roomCount command;
  re_quoteSessionId := oc_quoteSessionId (rs_offerCorrelation command);
  re_publicOfferKey := oc_publicOfferKey (rs_offerCorrelation command);
  re_calendarRevision := rs_expectedMaterializedRevision command;
  re_materializedRevision := rs_expectedMaterializedRevision command;
  re_fingerprintHash := fingerprint; re_idempotencyKeyId := idempotencyId;
  re_domainEventId := eventId; re_outboxEventId := outboxEventId; re_reservedAt := acceptedAt;
|}.

Definition reserved_row (command : PmsInventoryReservationReserveCommand) (receiptId : string)
    : status_row := {|
  ss_receiptId := receiptId; ss_organizationId := rs_organizationId command;
  ss_propertyId := rs_propertyId command; ss_lifecycleState := "reserved";
  ss_lifecycleRevision := 1; ss_releaseFingerprintHash := None; ss_releaseIdempotencyKeyId := None;
  ss_releaseDomainEventId := None; ss_releaseOutboxEventId := None; ss_releasedAt := None;
  ss_handedOffAt := None;
|}.

Definition watermark_of_command (command : PmsInventoryReservationReserveCommand)
    (receiptId : string) (w : PmsInventoryReservationDayWatermark) : watermark_row := {|
  wk_receiptId := receiptId; wk_organizationId := rs_organizationId command;
  wk_propertyId := rs_propertyId command; wk_roomTypeId := rs_roomTypeId command;
  wk_stayDate := wm_stayDate w; wk_calendarRevision := wm_calendarRevision w;
  wk_inventoryRevision := wm_inventoryRevision w; wk_sourceRevisions := wm_sourceRevisions w;
|}.

Definition insert_receipt (r : receipt_row) : Tx unit :=
  l ← read ledger;
  if existsb (fun x => String.eqb (re_receiptId x) (re_receiptId r)) (reservation_receipts l)
  then throw UNIQUE_VIOLATION
  else write (fun s => set_ledger s
    {| reservation_receipts := reservation_receipts l ++ [r];
       reservation_statuses := reservation_statuses l;
       reservation_watermarks := reservation_watermarks l |}).

Definition insert_status (t : status_row) : Tx unit :=
  l ← read ledger;
  if existsb (fun x => String.eqb (ss_receiptId x) (ss_receiptId t)) (reservation_statuses l)
  then throw UNIQUE_VIOLATION
  else write (fun s => set_ledger s
    {| reservation_receipts := reservation_receipts l;
       reservation_statuses := reservation_statuses l ++ [t];
       reservation_watermarks := reservation_watermarks l |}).

Definition insert_watermark (w : watermark_row) : Tx unit :=
  l ← read ledger;
  if existsb (fun x => String.eqb (wk_receiptId x) (wk_receiptId w) &&
                       String.eqb (wk_stayDate x) (wk_stayDate w)) (reservation_watermarks l)
  then throw UNIQUE_VIOLATION
  else write (fun s => set_ledger s
    {| reservation_receipts := reservation_receipts l;
       reservation_statuses := reservation_statuses l;
       reservation_watermarks := reservation_watermarks l ++ [w] |}).

Fixpoint insert_watermarks (ws : list watermark_row) : Tx unit :=
  match ws with
  | [] => mret tt
  | w :: rest => insert_watermark w;; insert_watermarks rest
  end.

Definition persistReceipt (command : PmsInventoryReservationReserveCommand)
    (receiptId fingerprint : string) (idempotencyId eventId outboxEventId : nat) (acceptedAt : Z)
    : Tx unit :=
  insert_receipt (receipt_of_command command receiptId fingerprint idempotencyId eventId
                    outboxEventId acceptedAt);;
  insert_status (reserved_row command receiptId);;
  insert_watermarks (watermark_of_command command receiptId <$> rs_inventoryWatermarks command).

(** ** Events and audit *)

Definition platform_user (a : RoomFactsCommandAudit) : option string :=
  match ra_actor a with ActorUser u => Some u | ActorSystem _ => None end.

Definition projectionIntent (organizationId propertyId roomTypeId checkIn checkOut : string)
    (lifecycleRevision : Z) (reason : string) : jsval :=
  obj [("contractVersion", VString LIFECYCLE_VERSION); ("destination", VString DESTINATION);
       ("eventType", VString "pms.inventory.projection_refresh_requested");
       ("organizationId", VString organizationId); ("propertyId", VString propertyId);
       ("roomTypeId", VString roomTypeId); ("coverageFrom", VString checkIn);
       ("coverageThroughExclusive", VString checkOut);
       ("reservationLifecycleRevision", VInt lifecycleRevision); ("reason", VString reason)].

Definition insert_event (e : nat -> domain_event) : Tx nat :=
  j ← read journal;
  let e := e (next_id j) in
  if is_some (find_event (de_eventKey e) j) then throw UNIQUE_VIOLATION
  else write (fun s => set_journal s (push_event e j));; mret (de_id e).

Definition insert_outbox (e : nat -> outbox_event) : Tx nat :=
  j ← read journal;
  let e := e (next_id j) in
  if has_outbox (oe_destination e) (oe_outboxKey e) j then throw UNIQUE_VIOLATION
  else write (fun s => set_journal s (push_outbox e j));; mret (oe_id e).

Definition refresh_outbox (audit : RoomFactsCommandAudit) (propertyId receiptId keyHash : string)
    (intent : jsval) (eventId : nat) (key destination eventType : string) (id : nat) : outbox_event :=
  {| oe_id := id; oe_domainEventId := eventId; oe_outboxKey := key; oe_destination := destination;
     oe_eventType := eventType; oe_propertyId := propertyId; oe_resourceType := RESOURCE_TYPE;
     oe_resourceId := receiptId; oe_correlationId := correlation audit;
     oe_idempotencyKeyHash := keyHash; oe_payload := intent |}.

Definition enqueueProjectionRefresh (audit : RoomFactsCommandAudit)
    (propertyId receiptId keyHash suffix : string) (intent : jsval) (acceptedAt : Z)
    : Tx (nat * nat) :=
  let key := ".receipt." +:+ receiptId in
  eventId ← insert_event (fun id =>
    {| de_id := id;
       de_eventKey := "pms.inventory-reservation." +:+ suffix +:+ key +:+ ".key." +:+ keyHash +:+ ".v1";
       de_eventType := "pms.inventory.projection_refresh_requested"; de_occurredAt := acceptedAt;
       de_propertyId := propertyId; de_resourceType := RESOURCE_TYPE; de_resourceId := receiptId;
       de_actorUserId := platform_user audit; de_correlationId := correlation audit;
       de_causationId := ra_requestId audit; de_idempotencyKeyHash := keyHash;
       de_payload := intent |});
  outboxEventId ← insert_outbox (refresh_outbox audit propertyId receiptId keyHash intent eventId
    (DESTINATION +:+ key +:+ "." +:+ suffix +:+ ".key." +:+ keyHash +:+ ".v1") DESTINATION
    "pms.inventory.projection_refresh_requested");
  write (fun s => set_journal s (push_outbox_once
    (refresh_outbox audit propertyId receiptId keyHash intent eventId
      ("pms.channel-manager.inventory" +:+ key +:+ "." +:+ suffix +:+ ".key." +:+ keyHash +:+ ".v1")
      "pms.channel-manager" "pms.inventory.ari_changed" (next_id (journal s))) (journal s)));;
  mret (eventId, outboxEventId).

Definition push_audit (a : audit_event) (j : journal_tables) : journal_tables :=
  {| idempotency_keys := idempotency_keys j; domain_events := domain_events j;
     outbox_events := outbox_events j; audit_events := audit_events j ++ [a]; next_id := next_id j |}.

Definition audit_service (a : RoomFactsCommandAudit) : jsval :=
  match ra_actor a with ActorSystem s => VString s | ActorUser _ => VNull end.

Definition recordAudit (operation : string) (audit : RoomFactsCommandAudit)
    (organizationId propertyId targetId : string) (idempotencyId : nat)
    (keyHash outcome : string) (eventId : option nat) (acceptedAt : Z)
    (scope : list (string * jsval)) : Tx unit :=
  j ← read journal;
  let action := (if String.eqb operation RESERVE_OPERATION then "reserve" else "release")%string in
  let auditKey := "pms.inventory-reservation." +:+ action +:+ ".property." +:+ propertyId +:+
                  ".key." +:+ keyHash +:+ ".v1" in
  if existsb (fun a => String.eqb (ae_auditKey a) auditKey) (audit_events j)
  then throw UNIQUE_VIOLATION
  else write (fun s => set_journal s (push_audit
    {| ae_auditKey := auditKey; ae_action := operation; ae_occurredAt := acceptedAt;
       ae_propertyId := propertyId; ae_actorUserId := platform_user audit;
       ae_targetResourceId := targetId; ae_domainEventId := eventId;
       ae_idempotencyKeyId := idempotencyId; ae_correlationId := correlation audit;
       ae_causationId := ra_requestId audit;
       ae_redactedPayload :=
         obj ([("organizationId", VString organizationId); ("propertyId", VString propertyId)] ++
              scope ++ [("outcome", VString outcome)]);
       ae_metadata :=
         obj [("requestId", VString (ra_requestId audit));
              ("requestedAt", VString (ra_requestedAt audit));
              ("actorOrganizationId", VString organizationId);
              ("actorService", audit_service audit);
              ("contractVersion", VString LIFECYCLE_VERSION)] |} j)).

Definition result_text (r : lifecycle_result) : string :=
  match r with LifecycleOk outcome _ _ => outcome | LifecycleError code => code end.

Definition completeReserve (command : PmsInventoryReservationReserveCommand) (idempotency : nat)
    (keyHash : string) (result : lifecycle_result) (acceptedAt : Z) (eventId : option nat)
    : Tx lifecycle_result :=
  recordAudit RESERVE_OPERATION (rs_audit command) (rs_organizationId command)
    (rs_propertyId command)
    (match result with
     | LifecycleOk _ status _ => rc_receiptId (st_receipt status)
     | LifecycleError _ => rs_propertyId command
     end) idempotency keyHash (result_text result) eventId acceptedAt
    [("roomTypeId", VString (rs_roomTypeId command)); ("checkIn", VString (rs_checkIn command));
     ("checkOut", VString (rs_checkOut command)); ("roomCount", VInt (rs_roomCount command))];;
  completeIdempotency idempotency result (reserveResultStatus result) acceptedAt;;
  mret result.

Definition finalizeReserve (command : PmsInventoryReservationReserveCommand) (idempotency : nat)
    (keyHash : string) (result : lifecycle_result) (acceptedAt : Z) (eventId : option nat)
    : Tx (ending lifecycle_result) :=
  completed ← completeReserve command idempotency keyHash result acceptedAt eventId;
  mret (Committed completed).

Definition finalizeRelease (command : PmsInventoryReservationReleaseCommand) (idempotency : nat)
    (keyHash : string) (result : lifecycle_result) (acceptedAt : Z) (eventId : option nat)
    : Tx (ending lifecycle_result) :=
  recordAudit RELEASE_OPERATION (rl_audit command) (rl_organizationId command)
    (rl_propertyId command) (rc_receiptId (rl_receipt command)) idempotency keyHash
    (result_text result) eventId acceptedAt [];;
  completeIdempotency idempotency result (releaseResultStatus result) acceptedAt;;
  mret (Committed result).

(** ** Reserving *)

Definition reconcile_and_announce (audit : RoomFactsCommandAudit) (propertyId operation keyHash : string)
    (acceptedAt : Z) : Tx unit :=
  linkedChanges ← reconcilePmsLinkedInventory (env_linkedWork env) propertyId;
  enqueuePmsLinkedInventorySideEffects
    {| sc_propertyId := propertyId; sc_operation := operation; sc_commandId := ra_requestId audit;
       sc_keyHash := keyHash; sc_acceptedAt := acceptedAt; sc_correlationId := correlation audit |}
    linkedChanges.

Definition recordReservedInventory (command : PmsInventoryReservationReserveCommand)
    (fingerprint : string) (idempotency : nat) (keyHash : string) (acceptedAt : Z)
    (receiptIdFactory : string) : Tx (lifecycle_result * nat) :=
  match normalizeUuid receiptIdFactory with
  | None => throw "Error"
  | Some receiptId =>
      let intent := projectionIntent (rs_organizationId command) (rs_propertyId command)
        (rs_roomTypeId command) (rs_checkIn command) (rs_checkOut command) 1 "reservation_held" in
      '(eventId, outboxEventId) ← enqueueProjectionRefresh (rs_audit command)
        (rs_propertyId command) receiptId keyHash "held" intent acceptedAt;
      persistReceipt command receiptId fingerprint idempotency eventId outboxEventId acceptedAt;;
      reconcile_and_announce (rs_audit command) (rs_propertyId command) "reserve" keyHash acceptedAt;;
      mret (LifecycleOk "reserved" (statusFromReserve command receiptId acceptedAt)
              (Some "reservation_held"%string), eventId)
  end.

Definition current_configuration (r : PmsOperatingCalendarCurrentReadResult)
    : PmsOperatingCalendarConfigurationSnapshot :=
  match r with ReadCurrent c => c | ReadStale c _ => c end.

Definition is_current (r : PmsOperatingCalendarCurrentReadResult) : bool :=
  match r with ReadCurrent _ => true | ReadStale _ _ => false end.

(** The calendar is the one the command was quoted on. *)
Definition calendar_is_exact (command : PmsInventoryReservationReserveCommand)
    (immutable : PmsOperatingCalendarConfigurationSnapshot)
    (current : option PmsOperatingCalendarCurrentReadResult)
    (exact : option PmsOperatingCalendarConfigurationSnapshot)
    : option PmsOperatingCalendarConfigurationSnapshot :=
  let? current := current in
  guard? is_current current in
  let? exact := exact in
  guard? sameConfigurationIdentity immutable exact in
  guard? sameConfigurationIdentity (current_configuration current) exact in
  guard? cs_calendarRevision exact =? rs_expectedMaterializedRevision command in
  Some exact.

Definition capacity_matches (command : PmsInventoryReservationReserveCommand)
    (binding : option PmsOperatingCalendarRoomBinding) (capacity : option RoomTypeCapacitySnapshot)
    : option PmsOperatingCalendarRoomBinding :=
  let? binding := binding in
  let? capacity := capacity in
  guard? String.eqb (cap_propertyId capacity) (rs_propertyId command) in
  guard? String.eqb (cap_roomTypeId capacity) (rs_roomTypeId command) in
  guard? cap_roomUnitsRevision capacity =? rb_sourceRoomUnitsRevision binding in
  guard? cap_activeUnitCount capacity =? rb_physicalCapacityCount binding in
  Some binding.

(** The body of the profile-evidence callback of [executeReserve] *)
Definition reserve_with_evidence (command : PmsInventoryReservationReserveCommand)
    (acceptedAt : Z) (createReceiptId keyHash fingerprint : string) (idempotency : nat)
    (immutable : PmsOperatingCalendarConfigurationSnapshot) (profileEvidence : jsval)
    : Tx (ending lifecycle_result) :=
  let fail code := finalizeReserve command idempotency keyHash (failure code) acceptedAt None in
  if negb (pmsOperatingCalendarTimeZoneIsCurrent (env_registry env) profileEvidence immutable)
  then fail "configuration_not_current"%string
  else
    current ← lift (env_currentConfiguration env (rs_propertyId command));
    exact ← lift (env_exactConfiguration env (rs_configurationSource command));
    match calendar_is_exact command immutable current exact with
    | None => fail "configuration_not_current"%string
    | Some exact =>
        operating ← room_is_operating (rs_propertyId command) (rs_roomTypeId command);
        if negb operating then fail "configuration_not_current"%string
        else
          capacity ← lift (env_roomCapacity env (rs_propertyId command) (rs_roomTypeId command));
          match capacity_matches command
                  (find_binding (si_roomBindings (cs_sourceInputs exact)) (rs_roomTypeId command))
                  capacity with
          | None => fail "configuration_not_current"%string
          | Some binding =>
              coverage ← lockCoverage (rs_propertyId command);
              if negb (coverageCoversCommand coverage command)
              then fail "materialization_not_current"%string
              else
                days ← catching
                  (days ← lockInventoryDays (rs_propertyId command) (rs_roomTypeId command)
                            (rs_checkIn command) (rs_checkOut command);
                   mret (Some days))
                  (fun e => if String.eqb e InventoryInvariantError then Some (mret None) else None);
                match days with
                | None => fail "inventory_invariant_violation"%string
                | Some days =>
                    match validateReserveDays command days (rb_physicalCapacityCount binding) with
                    | Some code => fail code
                    | None =>
                        booked ← catching
                          (applyBookingDelta days (rs_roomCount command);; mret true)
                          (fun e => if String.eqb e InventoryInvariantError || isConstraintError e
                                    then Some (mret false) else None);
                        if negb booked then fail "inventory_invariant_violation"%string
                        else
                          '(result, eventId) ← recordReservedInventory command fingerprint
                            idempotency keyHash acceptedAt createReceiptId;
                          finalizeReserve command idempotency keyHash result acceptedAt (Some eventId)
                    end
                end
          end
    end.

Definition executeReserve (command : PmsInventoryReservationReserveCommand) (acceptedAt : Z)
    (createReceiptId : string) : Store -> exn lifecycle_result * Store :=
  let keyHash := hash (rs_idempotencyKey command) in
  let fingerprint := reserve_fingerprint command in
  transaction (
    replay ← findReserveReplay command keyHash fingerprint;
    match replay with
    | Some replay => mret (RolledBack replay)
    | None =>
        idempotency ← reserveIdempotency RESERVE_OPERATION (rs_propertyId command) keyHash
                        fingerprint (rs_audit command) acceptedAt;
        match idempotency with
        | None =>
            concurrent ← findReserveReplay command keyHash fingerprint;
            mret (RolledBack (default (failure "command_in_progress") concurrent))
        | Some idempotency =>
            let fail code :=
              finalizeReserve command idempotency keyHash (failure code) acceptedAt None in
            immutable ← lift (env_immutableConfiguration env (rs_configurationSource command));
            match immutable with
            | None => fail "configuration_not_current"%string
            | Some immutable =>
                match propertyProfileRevision immutable with
                | None => fail "configuration_not_current"%string
                | Some profileRevision =>
                    evidence ← lift (env_profileEvidence env (rs_propertyId command) profileRevision);
                    reserve_with_evidence command acceptedAt createReceiptId keyHash fingerprint
                      idempotency immutable evidence
                end
            end
        end
    end).

Definition reserveInventory (command : jsval) (acceptedAt : Z) (createReceiptId : string)
    (s : Store) : exn lifecycle_result * Store :=
  match parsePmsInventoryReservationReserveCommand command with
  | None => (Ret (failure "inventory_invariant_violation"), s)
  | Some c =>
      if negb (env_authorize env (rs_organizationId c) (rs_propertyId c) "reserve" (Some (rs_audit c)))
      then (Ret (failure "configuration_not_current"), s)
      else executeReserve c acceptedAt createReceiptId s
  end.

(** [reservePmsInventoryInTransaction]: the caller owns the transaction. *)
Definition gate_closed (propertyId roomTypeId checkIn checkOut : string) (s : Store) : bool :=
  existsb (fun r => in_stay propertyId roomTypeId checkIn checkOut r &&
                    bool_decide (id_rateGateOpen r = Some false)) (inventory_days s).

Definition reservePmsInventoryInTransaction (input : jsval) (receiptId : string)
    : Tx lifecycle_result :=
  match parsePmsInventoryReservationReserveCommand input with
  | None => mret (failure "inventory_invariant_violation")
  | Some command =>
      let keyHash := hash (rs_idempotencyKey command) in
      let fingerprint := reserve_fingerprint command in
      replay ← findReserveReplay command keyHash fingerprint;
      match replay with
      | Some replay => mret replay
      | None =>
          current ← (fun s => match env_lockedCalendar env (rs_propertyId command) s with
                              | Ret c => Ret (c, s) | Throw e => Throw e end);
          let binding :=
            let? c := current in
            let? b := find_binding (si_roomBindings (cs_sourceInputs (current_configuration c)))
                        (rs_roomTypeId command) in
            guard? is_current c in
            guard? cs_calendarRevision (current_configuration c) =?
                   rs_expectedMaterializedRevision command in
            guard? String.eqb (sr_revision (cs_source (current_configuration c)))
                     (sr_revision (rs_configurationSource command)) in
            Some b in
          match binding with
          | None => mret (failure "configuration_not_current")
          | Some binding =>
              operating ← room_is_operating (rs_propertyId command) (rs_roomTypeId command);
              if negb operating then mret (failure "configuration_not_current")
              else
                coverage ← lockCoverage (rs_propertyId command);
                if negb (coverageCoversCommand coverage command)
                then mret (failure "materialization_not_current")
                else
                  days ← lockInventoryDays (rs_propertyId command) (rs_roomTypeId command)
                           (rs_checkIn command) (rs_checkOut command);
                  closedGate ← read (gate_closed (rs_propertyId command) (rs_roomTypeId command)
                                       (rs_checkIn command) (rs_checkOut command));
                  if (closedGate : bool) then mret (failure "inventory_unavailable")
                  else
                    match validateReserveDays command days (rb_physicalCapacityCount binding) with
                    | Some code => mret (failure code)
                    | None =>
                        acceptedAt ← read (env_clock env);
                        idempotency ← reserveIdempotency RESERVE_OPERATION (rs_propertyId command)
                          keyHash fingerprint (rs_audit command) acceptedAt;
                        match idempotency with
                        | None => mret (failure "command_in_progress")
                        | Some idempotency =>
                            applyBookingDelta days (rs_roomCount command);;
                            '(result, eventId) ← recordReservedInventory command fingerprint
                              idempotency keyHash acceptedAt receiptId;
                            completeReserve command idempotency keyHash result acceptedAt (Some eventId)
                        end
                    end
          end
      end
  end.

(** ** Releasing *)

(** [UPDATE pms.inventory_reservation_statuses ... WHERE lifecycle_state =
    'reserved' AND lifecycle_revision = 1], with the trigger of the table *)
Definition release_row (command : PmsInventoryReservationReleaseCommand) (receiptId fingerprint : string)
    (idempotency eventId outboxEventId : nat) (acceptedAt : Z) (t : status_row) : option status_row :=
  if status_is receiptId (rl_organizationId command) (rl_propertyId command) t &&
     String.eqb (ss_lifecycleState t) "reserved" && (ss_lifecycleRevision t =? 1)
  then Some {|
    ss_receiptId := ss_receiptId t; ss_organizationId := ss_organizationId t;
    ss_propertyId := ss_propertyId t; ss_lifecycleState := "released"; ss_lifecycleRevision := 2;
    ss_releaseFingerprintHash := Some fingerprint; ss_releaseIdempotencyKeyId := Some idempotency;
    ss_releaseDomainEventId := Some eventId; ss_releaseOutboxEventId := Some outboxEventId;
    ss_releasedAt := Some acceptedAt; ss_handedOffAt := ss_handedOffAt t |}
  else None.

Definition release_accepted (l : ledger_tables) (n : status_row) : bool :=
  match List.find (receipt_is (ss_receiptId n) (ss_organizationId n) (ss_propertyId n))
          (reservation_receipts l) with
  | None => true
  | Some r =>
      negb (bool_decide (ss_releaseIdempotencyKeyId n = Some (re_idempotencyKeyId r)) ||
            bool_decide (ss_releaseDomainEventId n = Some (re_domainEventId r)) ||
            bool_decide (ss_releaseOutboxEventId n = Some (re_outboxEventId r))) &&
      match ss_releasedAt n with Some t => re_reservedAt r <=? t | None => true end
  end.

Definition transition_released (command : PmsInventoryReservationReleaseCommand)
    (receiptId fingerprint : string) (idempotency eventId outboxEventId : nat) (acceptedAt : Z)
    : Tx unit :=
  l ← read ledger;
  let f := release_row command receiptId fingerprint idempotency eventId outboxEventId acceptedAt in
  let updated := omap f (reservation_statuses l) in
  if negb (forallb (release_accepted l) updated) then throw CHECK_VIOLATION
  else if negb (Nat.eqb (length updated) 1) then throw InventoryInvariantError
  else write (fun s => set_ledger s
    {| reservation_receipts := reservation_receipts l;
       reservation_statuses := (fun t => default t (f t)) <$> reservation_statuses l;
       reservation_watermarks := reservation_watermarks l |}).

(** [executeRelease] of a reservation that is still held *)
Definition release_held (command : PmsInventoryReservationReleaseCommand) (acceptedAt : Z)
    (keyHash fingerprint : string) (idempotency : nat) (status : PmsInventoryReservationStatus)
    : Tx (ending lifecycle_result) :=
  let fail code := finalizeRelease command idempotency keyHash (failure code) acceptedAt None in
  days ← catching
    (days ← lockInventoryDays (st_propertyId status) (st_roomTypeId status) (st_checkIn status)
              (st_checkOut status);
     mret (Some days))
    (fun e => if String.eqb e InventoryInvariantError then Some (mret None) else None);
  match days with
  | None => fail "inventory_invariant_violation"%string
  | Some days =>
      capacity ← lift (env_roomCapacity env (st_propertyId status) (st_roomTypeId status));
      let physicalCapacity :=
        let? c := capacity in
        guard? String.eqb (cap_propertyId c) (st_propertyId status) in
        guard? String.eqb (cap_roomTypeId c) (st_roomTypeId status) in
        Some (cap_activeUnitCount c) in
      if negb (validateReleaseDays status days physicalCapacity)
      then fail "inventory_invariant_violation"%string
      else
        booked ← catching (applyBookingDelta days (- st_roomCount status);; mret true)
          (fun e => if String.eqb e InventoryInvariantError || isConstraintError e
                    then Some (mret false) else None);
        if negb booked then fail "inventory_invariant_violation"%string
        else
          let receiptId := rc_receiptId (st_receipt status) in
          let intent := projectionIntent (st_organizationId status) (st_propertyId status)
            (st_roomTypeId status) (st_checkIn status) (st_checkOut status) 2
            "reservation_released" in
          '(eventId, outboxEventId) ← enqueueProjectionRefresh (rl_audit command)
            (rl_propertyId command) receiptId keyHash "released" intent acceptedAt;
          transition_released command receiptId fingerprint idempotency eventId outboxEventId acceptedAt;;
          reconcile_and_announce (rl_audit command) (rl_propertyId command) "release" keyHash acceptedAt;;
          finalizeRelease command idempotency keyHash
            (LifecycleOk "released" (releasedStatus status acceptedAt)
               (Some "reservation_released"%string)) acceptedAt (Some eventId)
  end.

Definition executeRelease (command : PmsInventoryReservationReleaseCommand) (acceptedAt : Z)
    : Store -> exn lifecycle_result * Store :=
  let keyHash := hash (rl_idempotencyKey command) in
  let fingerprint := release_fingerprint command in
  transaction (
    status ← readReservationStatus (rl_organizationId command) (rl_propertyId command)
               (rl_receipt command);
    match status with
    | None => mret (RolledBack (failure "receipt_not_found"))
    | Some status =>
        replay ← findReleaseReplay command status keyHash fingerprint;
        match replay with
        | Some replay => mret (RolledBack replay)
        | None =>
            idempotency ← reserveIdempotency RELEASE_OPERATION (rl_propertyId command) keyHash
                            fingerprint (rl_audit command) acceptedAt;
            match idempotency with
            | None =>
                again ← readReservationStatus (rl_organizationId command) (rl_propertyId command)
                          (rl_receipt command);
                let status := default status again in
                concurrent ← findReleaseReplay command status keyHash fingerprint;
                mret (RolledBack (default (failure "command_in_progress") concurrent))
            | Some idempotency =>
                match st_state status with
                | Reserved => release_held command acceptedAt keyHash fingerprint idempotency status
                | _ =>
                    terminal ← lift (releaseTerminalResult status);
                    finalizeRelease command idempotency keyHash terminal acceptedAt None
                end
            end
        end
    end).

Definition releaseInventory (command : jsval) (acceptedAt : Z) (s : Store)
    : exn lifecycle_result * Store :=
  match parsePmsInventoryReservationReleaseCommand command with
  | None => (Ret (failure "inventory_invariant_violation"), s)
  | Some c =>
      if negb (env_authorize env (rl_organizationId c) (rl_propertyId c) "release" (Some (rl_audit c)))
      then (Ret (failure "receipt_not_found"), s)
      else executeRelease c acceptedAt s
  end.

Definition getInventoryReservationStatus (request : jsval) (s : Store)
    : option PmsInventoryReservationStatus :=
  let? r := parsePmsInventoryReservationStatusRequest request in
  guard? env_authorize env (sq_organizationId r) (sq_propertyId r) "status" None in
  status_of_receipt (ledger s) (rc_receiptId (sq_receipt r)) (sq_organizationId r) (sq_propertyId r).
End Repository.
