(* ===== verification/ReservationBooking.v ===== *)
(** * Booking the nights of a stay

    What [applyBookingDelta] does to the table of inventory days: on validated
    days it succeeds, and exactly the rows of the stay are rewritten, each with
    its assigned count moved by the delta and its availability recomputed.  The
    constraints and triggers of the table accept every such row. *)

From S2P Require Import Prelude JsValue JsonText CalendarDates OperatingSchedule OperatingCalendar InventoryPlanner ReservationLifecycle ReservationRows ReservationStore LinkedInventory ReservationRepository.

(** The primary key of [pms.inventory_days] *)
Definition day_key (r : inventory_day) : string * string * string :=
  (id_propertyId r, id_roomTypeId r, id_stayDate r).

(** A row with [delta] more rooms assigned *)
Definition booked (delta : Z) (r : inventory_day) : inventory_day := {|
  id_propertyId := id_propertyId r; id_roomTypeId := id_roomTypeId r;
  id_stayDate := id_stayDate r; id_calendarRevision := id_calendarRevision r;
  id_inventoryRevision := option_map (fun n => n + 1) (id_inventoryRevision r);
  id_generatedSourceRevision := id_generatedSourceRevision r;
  id_channelSourceRevision := id_channelSourceRevision r;
  id_manualSourceRevision := id_manualSourceRevision r;
  id_blockSourceRevision := id_blockSourceRevision r;
  id_bookingSourceRevision := option_map (fun n => n + 1) (id_bookingSourceRevision r);
  id_status := id_status r; id_totalCount := id_totalCount r;
  id_generatedLimit := id_generatedLimit r; id_channelLimit := id_channelLimit r;
  id_manualLimit := id_manualLimit r; id_effectiveLimit := id_effectiveLimit r;
  id_assignedCount := id_assignedCount r + delta; id_blockedCount := id_blockedCount r;
  id_availableCount :=
    match status_of_text (id_status r), id_effectiveLimit r with
    | Some status, Some effective =>
        available_of status (id_linkedStopSell r) effective (id_assignedCount r + delta)
          (id_blockedCount r)
    | _, _ => id_availableCount r
    end;
  id_linkedStopSell := id_linkedStopSell r; id_linkedSourceRevision := id_linkedSourceRevision r;
  id_rateGateOpen := id_rateGateOpen r;
|}.

(** A row that decodes to a valid day of the same identifiers and has room for
    [delta] *)
Record bookable (delta : Z) (r : inventory_day) (d : CanonicalInventoryDay) : Prop := {
  bk_decodes : canonicalInventoryDay (day_columns r) = Some d;
  bk_propertyId : id_propertyId r = cd_propertyId d;
  bk_roomTypeId : id_roomTypeId r = cd_roomTypeId d;
  bk_invariant : dayInvariant d = true;
  bk_moved : delta <> 0;
  bk_assigned : 0 <= cd_assignedCount d + delta;
  bk_fits : cd_assignedCount d + delta + cd_blockedCount d <= cd_totalCount d;
  bk_inventory : cd_inventoryRevision d < MAX_REVISION;
  bk_booking : cd_bookingSourceRevision d < MAX_REVISION;
}.

Lemma status_text_known s status :
  status_of_text s = Some status -> s = "open"%string \/ s = "closed"%string.
Proof.
  unfold status_of_text. destruct (String.eqb_spec s "open"); [by left|].
  destruct (String.eqb_spec s "closed"); [by right | done].
Qed.

Lemma available_of_nonneg status linked limit assigned blocked :
  0 <= available_of status linked limit assigned blocked.
Proof. unfold available_of. destruct status; [destruct linked|]; lia. Qed.

Lemma available_of_fits status linked limit assigned blocked total :
  limit <= total -> assigned + blocked <= total ->
  available_of status linked limit assigned blocked + assigned + blocked <= total.
Proof. unfold available_of. destruct status; [destruct linked|]; lia. Qed.

Lemma available_of_linked status limit assigned blocked :
  available_of status true limit assigned blocked = 0.
Proof. by destruct status. Qed.

Lemma orElse_assoc_limit (d : CanonicalInventoryDay) :
  Some (default (cd_generatedSellableLimitCount d)
    (orElse (cd_manualSellableLimitCount d) (cd_channelSellableLimitCount d))) =
  orElse (cd_manualSellableLimitCount d)
    (orElse (cd_channelSellableLimitCount d) (Some (cd_generatedSellableLimitCount d))).
Proof. by destruct (cd_manualSellableLimitCount d), (cd_channelSellableLimitCount d). Qed.

Lemma between_true n lo hi : lo <= n <= hi -> between (Some n) lo hi = true.
Proof. cbn. rewrite andb_true_iff, !Z.leb_le. lia. Qed.

Lemma limit_between l total :
  opt_bounded 0 MAX_REVISION l -> opt_le l total = true -> null_or_between l 0 total = true.
Proof.
  destruct l as [n|]; [|done]. cbn. rewrite andb_true_iff, !Z.leb_le. lia.
Qed.

(** The CHECK constraints hold on the rewritten row. *)
Lemma booked_check delta r d : bookable delta r d -> inventory_days_check (booked delta r) = true.
Proof.
  intros []. apply canonical_day_row in bk_decodes0 as ([] & [] & [] & _).
  pose proof (effective_le_total _ bk_invariant0) as He.
  apply dayInvariant_bounds in bk_invariant0 as (Hg & Hgl & Hc & Hm & Hef & Hab & Hav).
  unfold inventory_days_check, canonical_envelope, booked. cbn.
  rewrite dw_calendar, dw_status, dw_effective, dw_generated, dw_inventory, dw_channel,
    dw_manual, dw_block, dw_booking, dw_generatedLimit, dw_channelLimit, dw_manualLimit,
    dw_total, dw_assigned, dw_blocked, dw_linkedStopSell, dw_linked. cbn [option_map].
  pose proof (available_of_nonneg (cd_status d) (cd_linkedStopSell d)
    (cd_effectiveSellableLimitCount d) (cd_assignedCount d + delta) (cd_blockedCount d)).
  pose proof (available_of_fits (cd_status d) (cd_linkedStopSell d)
    (cd_effectiveSellableLimitCount d) (cd_assignedCount d + delta) (cd_blockedCount d)
    (cd_totalCount d) He bk_fits0).
  rewrite <- orElse_assoc_limit, <- Hef, Hg.
  rewrite !between_true, !limit_between, !bool_decide_eq_true_2, Z.eqb_refl by (done || lia).
  destruct (status_text_known _ _ dw_status) as [-> | ->]; cbn;
    (rewrite !andb_true_iff, orb_true_iff, !Z.leb_le, Z.eqb_eq; split_and!; try lia;
     destruct (cd_linkedStopSell d); [right; apply available_of_linked | by left]).
Qed.

Lemma distinct_refl {A} `{EqDecision A} (a : A) : distinct a a = false.
Proof. unfold distinct. by rewrite bool_decide_eq_true_2. Qed.

Lemma distinct_ne {A} `{EqDecision A} (a b : A) : a <> b -> distinct a b = true.
Proof. intros H. unfold distinct. by rewrite bool_decide_eq_false_2. Qed.

Lemma advanced_succ n : n < MAX_REVISION -> advanced (Some n) (Some (n + 1)) = true.
Proof. intros H. cbn. rewrite Z.eqb_refl, andb_true_r. apply negb_true_iff, Z.eqb_neq. lia. Qed.

(** The transition trigger sees one owner change: the booking. *)
Lemma booked_transition delta r d : bookable delta r d -> canonical_transition r (booked delta r) = true.
Proof.
  intros []. apply canonical_day_row in bk_decodes0 as ([] & [] & _).
  assert (Hb : booking_changed r (booked delta r) = true).
  { unfold booking_changed. cbn. rewrite distinct_ne; [done | lia]. }
  unfold canonical_transition, owner_change_count. rewrite Hb.
  unfold generated_changed, channel_changed, manual_changed, block_changed, linked_changed. cbn.
  rewrite !distinct_refl, dw_calendar. cbn.
  rewrite dw_inventory, dw_booking. cbn [option_map].
  rewrite !advanced_succ by done. rewrite distinct_ne; [done | lia].
Qed.

(** ** One update *)

Lemma book_day_own delta r d :
  bookable delta r d ->
  book_day d (cd_assignedCount d + delta)
    (available_of (cd_status d) (cd_linkedStopSell d) (cd_effectiveSellableLimitCount d)
       (cd_assignedCount d + delta) (cd_blockedCount d)) r = Some (booked delta r).
Proof.
  intros []. apply canonical_day_row in bk_decodes0 as ([] & _).
  unfold book_day, booked, same_number.
  rewrite bk_propertyId0, bk_roomTypeId0, dw_stayDate, dw_assigned, dw_blocked, dw_effective,
    dw_inventory, dw_booking, dw_status, dw_linkedStopSell.
  rewrite !String.eqb_refl, !Z.eqb_refl. cbn [andb option_map].
  done.
Qed.

Lemma book_day_other delta r d r' a b :
  bookable delta r d -> day_key r' <> day_key r -> book_day d a b r' = None.
Proof.
  intros [] Hk. apply canonical_day_row in bk_decodes0 as ([] & _).
  unfold book_day. destruct (_ && _) eqn:E; [|done]. exfalso. apply Hk. bool_to_prop.
  unfold day_key. congruence.
Qed.

(** The table after the rows with the given keys were booked *)
Definition book_rows (delta : Z) (keys : list (string * string * string))
    (rows : list inventory_day) : list inventory_day :=
  (fun r => if bool_decide (day_key r ∈ keys) then booked delta r else r) <$> rows.

Lemma booked_key delta r : day_key (booked delta r) = day_key r.
Proof. done. Qed.

Lemma book_rows_keys delta keys rows : day_key <$> book_rows delta keys rows = day_key <$> rows.
Proof.
  unfold book_rows. rewrite <- list_fmap_compose. apply list_fmap_ext. intros i r _. cbn.
  by case_bool_decide.
Qed.

Lemma book_rows_nil delta rows : book_rows delta [] rows = rows.
Proof.
  unfold book_rows. rewrite <- (list_fmap_id rows) at 2. apply list_fmap_ext. intros i r _.
  case_bool_decide as H; [by apply elem_of_nil in H | done].
Qed.

Lemma book_rows_cons delta k keys rows :
  k ∉ keys -> book_rows delta keys (book_rows delta [k] rows) = book_rows delta (k :: keys) rows.
Proof.
  intros Hk. unfold book_rows. rewrite <- list_fmap_compose. apply list_fmap_ext. intros i r _. cbn.
  destruct (decide (day_key r = k)) as [E|E].
  - rewrite (bool_decide_eq_true_2 (day_key r ∈ [k])), (bool_decide_eq_true_2 (day_key r ∈ k :: keys))
      by (rewrite E; left).
    rewrite bool_decide_eq_false_2; [done|]. by rewrite booked_key, E.
  - rewrite (bool_decide_eq_false_2 (day_key r ∈ [k])) by by rewrite list_elem_of_singleton.
    case_bool_decide as H1; case_bool_decide as H2; try done; exfalso;
      rewrite elem_of_cons in H2; tauto.
Qed.

(** The update of one day rewrites the row with the day's key and no other. *)
Section OneDay.
Context (delta : Z) (rows : list inventory_day) (r : inventory_day) (d : CanonicalInventoryDay).
Context (Hnd : NoDup (day_key <$> rows)) (Hr : r ∈ rows) (Hb : bookable delta r d).

Let f := book_day d (cd_assignedCount d + delta)
  (available_of (cd_status d) (cd_linkedStopSell d) (cd_effectiveSellableLimitCount d)
     (cd_assignedCount d + delta) (cd_blockedCount d)).

Lemma book_others r' : r' ∈ rows -> r' <> r -> f r' = None.
Proof.
  intros Hr' Hne. eapply book_day_other; [exact Hb|]. intros Hk. apply Hne. by eapply NoDup_key_eq.
Qed.

Lemma book_updated : omap f rows = [booked delta r].
Proof.
  apply omap_unique with r; [by eapply NoDup_fmap_1 | done | by apply book_day_own | apply book_others].
Qed.

Lemma book_table : (fun x => default x (f x)) <$> rows = book_rows delta [day_key r] rows.
Proof.
  unfold book_rows. apply list_fmap_ext. intros i r' Hi%list_elem_of_lookup_2.
  destruct (decide (r' = r)) as [->|Hne].
  - unfold f. rewrite (book_day_own _ _ _ Hb), bool_decide_eq_true_2 by set_solver. done.
  - rewrite (book_others _ Hi Hne), bool_decide_eq_false_2; [done|].
    rewrite list_elem_of_singleton. intros Hk. apply Hne. by eapply NoDup_key_eq.
Qed.

Lemma book_accepted c :
  closed_room_fence c (booked delta r) = true ->
  Forall (fun x => forall x', f x = Some x' -> day_write_accepted c x x' = true) rows.
Proof.
  intros Hf. apply Forall_forall. intros r' Hr' n Hn. destruct (decide (r' = r)) as [->|Hne].
  - unfold f in Hn. rewrite (book_day_own _ _ _ Hb) in Hn. injection Hn as <-.
    unfold day_write_accepted. by rewrite (booked_check _ _ _ Hb), (booked_transition _ _ _ Hb), Hf.
  - by rewrite (book_others _ Hr' Hne) in Hn.
Qed.
End OneDay.

(** The rows of the stay that are still to be booked are not touched by the
    booking of another. *)
Lemma book_rows_rest delta k rows table :
  k ∉ (day_key <$> rows) -> Forall (fun r => r ∈ table) rows ->
  Forall (fun r => r ∈ book_rows delta [k] table) rows.
Proof.
  intros Hk. rewrite !Forall_forall. intros Hin r Hr. unfold book_rows.
  apply list_elem_of_fmap. exists r. split; [|by apply Hin].
  rewrite bool_decide_eq_false_2; [done|]. rewrite list_elem_of_singleton. intros <-.
  apply Hk. by apply list_elem_of_fmap_2.
Qed.

(** ** The loop *)

Definition day_update (d : CanonicalInventoryDay) (delta : Z) : Tx (list inventory_day) :=
  update_days (book_day d (cd_assignedCount d + delta)
    (available_of (cd_status d) (cd_linkedStopSell d) (cd_effectiveSellableLimitCount d)
       (cd_assignedCount d + delta) (cd_blockedCount d))).

(** On a bookable day the loop takes one update and goes on. *)
Lemma applyBookingDelta_cons delta r d days s :
  bookable delta r d -> NoDup (day_key <$> inventory_days s) -> r ∈ inventory_days s ->
  applyBookingDelta (d :: days) delta s =
    (_ ← day_update d delta; applyBookingDelta days delta) s.
Proof.
  intros Hb Hnd Hr. cbn [applyBookingDelta]. pose proof Hb as Hb'. destruct Hb'.
  replace (_ <? 0) with false by lia. replace (_ <? _) with false by lia. cbn [orb].
  unfold day_update, mbind, tx_bind. destruct (update_days _ s) as [[rows s1]|] eqn:E; [|done].
  apply update_days_Ret in E as (_ & -> & _). by rewrite (book_updated _ _ _ _ Hnd Hr Hb).
Qed.

Lemma applyBookingDelta_rows delta rows days s :
  NoDup (day_key <$> inventory_days s) -> NoDup (day_key <$> rows) ->
  Forall (fun r => r ∈ inventory_days s) rows -> Forall2 (bookable delta) rows days ->
  Forall (fun r => closed_room_fence (catalog s) (booked delta r) = true) rows ->
  applyBookingDelta days delta s =
  Ret (tt, set_inventory s (book_rows delta (day_key <$> rows) (inventory_days s))).
Proof.
  intros Hnd Hrows Hin Hb Hf. revert s Hnd Hin Hf.
  induction Hb as [|r d rows days Hr Hb IH]; intros s Hnd Hin Hf.
  - cbn. rewrite book_rows_nil. destruct s. reflexivity.
  - apply Forall_cons in Hin as [Hin1 Hin]. apply Forall_cons in Hf as [Hf1 Hf].
    rewrite fmap_cons, NoDup_cons in Hrows. destruct Hrows as [Hk Hrows].
    rewrite (applyBookingDelta_cons _ r) by done.
    erewrite tx_bind_eq; [|apply update_days_Ret; split_and!; [by apply (book_accepted _ _ r) | done..]].
    rewrite (book_table _ _ _ _ Hnd Hin1 Hr), IH; [|done|..];
      cbn [set_inventory inventory_days catalog]; rewrite ?fmap_cons.
    + by rewrite book_rows_cons.
    + by rewrite book_rows_keys.
    + by apply book_rows_rest.
    + done.
Qed.

(** Whatever the triggers accept, a booking that succeeds did just that. *)
Lemma applyBookingDelta_inv delta rows days s s' :
  NoDup (day_key <$> inventory_days s) -> NoDup (day_key <$> rows) ->
  Forall (fun r => r ∈ inventory_days s) rows -> Forall2 (bookable delta) rows days ->
  applyBookingDelta days delta s = Ret (tt, s') ->
  s' = set_inventory s (book_rows delta (day_key <$> rows) (inventory_days s)).
Proof.
  intros Hnd Hrows Hin Hb. revert s Hnd Hin.
  induction Hb as [|r d rows days Hr Hb IH]; intros s Hnd Hin H.
  - cbn. rewrite book_rows_nil. apply tx_ret_Ret in H as [_ <-]. by destruct s.
  - apply Forall_cons in Hin as [Hin1 Hin].
    rewrite fmap_cons, NoDup_cons in Hrows. destruct Hrows as [Hk Hrows].
    rewrite (applyBookingDelta_cons _ r) in H by done. tx_step H.
    apply update_days_Ret in E as (_ & _ & ->).
    rewrite (book_table _ _ _ _ Hnd Hin1 Hr) in H. apply IH in H as ->; [|done|..];
      cbn [set_inventory inventory_days catalog]; rewrite ?fmap_cons.
    + by rewrite book_rows_cons.
    + by rewrite book_rows_keys.
    + by apply book_rows_rest.
Qed.

(** ** The nights of a stay *)

Section Stay.
Context (p room i o : string).

(** The table after every night of a stay was moved by [delta] *)
Definition book_stay (delta : Z) (rows : list inventory_day) : list inventory_day :=
  (fun r => if in_stay p room i o r then booked delta r else r) <$> rows.

Lemma elem_of_select_stay r s :
  r ∈ select_stay p room i o s <-> r ∈ inventory_days s /\ in_stay p room i o r = true.
Proof.
  unfold select_stay. rewrite elem_of_stable_sort, !list_elem_of_In, List.filter_In. done.
Qed.

Lemma select_stay_in s : Forall (fun r => r ∈ inventory_days s) (select_stay p room i o s).
Proof. apply Forall_forall. intros r Hr. by apply elem_of_select_stay in Hr as [? _]. Qed.

Lemma select_stay_keys s :
  NoDup (day_key <$> inventory_days s) -> NoDup (day_key <$> select_stay p room i o s).
Proof.
  unfold select_stay. rewrite (stable_sort_perm stay_date_le).
  induction (inventory_days s) as [|r rows IH]; [done|]. rewrite fmap_cons, NoDup_cons.
  intros [Hk Hnd]. cbn. destruct (in_stay _ _ _ _ r); [|by apply IH].
  rewrite fmap_cons, NoDup_cons. split; [|by apply IH]. intros Hin. apply Hk.
  apply list_elem_of_fmap in Hin as (r' & -> & Hr').
  apply list_elem_of_In, List.filter_In in Hr' as [Hr' _].
  by apply list_elem_of_fmap_2, list_elem_of_In.
Qed.

Lemma book_rows_stay delta s :
  NoDup (day_key <$> inventory_days s) ->
  book_rows delta (day_key <$> select_stay p room i o s) (inventory_days s) =
  book_stay delta (inventory_days s).
Proof.
  intros Hnd. unfold book_rows, book_stay. apply list_fmap_ext.
  intros n r Hr%list_elem_of_lookup_2. destruct (in_stay p room i o r) eqn:E.
  - rewrite bool_decide_eq_true_2; [done|]. apply list_elem_of_fmap_2.
    by apply elem_of_select_stay.
  - rewrite bool_decide_eq_false_2; [done|]. rewrite list_elem_of_fmap.
    intros (r' & Hk & Hr'). apply elem_of_select_stay in Hr' as [Hr' E'].
    assert (r = r') by (by eapply NoDup_key_eq). congruence.
Qed.

Lemma book_stay_keys delta rows : day_key <$> book_stay delta rows = day_key <$> rows.
Proof.
  unfold book_stay. rewrite <- list_fmap_compose. apply list_fmap_ext. intros n r _. cbn.
  by destruct (in_stay p room i o r).
Qed.
End Stay.

(** * What each part of a reservation command writes

    Frame conditions: which steps only read, which write the journal of keys,
    events and audits, and which write the ledger of receipts. *)

(** ** Frames *)

(** Every run of [m] that returns relates its stores by [R]. *)
Definition tx_frame {A} (R : relation Store) (m : Tx A) : Prop :=
  forall a s s', m s = Ret (a, s') -> R s s'.

Section Frame.
Context (R : relation Store) `{!PreOrder R}.

Lemma frame_ret {A} (a : A) : tx_frame R (mret a).
Proof. intros b s s' H. apply tx_ret_Ret in H as [_ ->]. reflexivity. Qed.

Lemma frame_bind {A B} (m : Tx A) (k : A -> Tx B) :
  tx_frame R m -> (forall a, tx_frame R (k a)) -> tx_frame R (a ← m; k a).
Proof.
  intros Hm Hk b s s' H. tx_step H. etrans; [by eapply Hm | by eapply Hk].
Qed.

Lemma frame_read {A} (f : Store -> A) : tx_frame R (read f).
Proof. intros a s s' H. apply read_Ret in H as [_ ->]. reflexivity. Qed.

Lemma frame_throw {A} e : tx_frame R (throw e : Tx A).
Proof. intros a s s' H. discriminate H. Qed.

Lemma frame_lift {A} (e : exn A) : tx_frame R (lift e).
Proof. intros a s s' H. unfold lift in H. destruct e; [injection H as -> ->; reflexivity | discriminate]. Qed.

Lemma frame_write f : (forall s, R s (f s)) -> tx_frame R (write f).
Proof. intros H u s s' Hw. apply write_Ret in Hw as ->. apply H. Qed.

Lemma frame_catching {A} (m : Tx A) h :
  tx_frame R m -> (forall e k, h e = Some k -> tx_frame R k) -> tx_frame R (catching m h).
Proof.
  intros Hm Hh a s s' H. apply catching_Ret in H as [H|(e & k & _ & Hk & H)]; [by eapply Hm|].
  by eapply Hh.
Qed.
End Frame.

(** The journal may change, and nothing else. *)
Definition journal_only : relation Store := fun s s' =>
  catalog s' = catalog s /\ inventory_days s' = inventory_days s /\ ledger s' = ledger s.

(** The catalog, the inventory and the idempotency keys stay: events and the
    ledger may change. *)
Definition keeps_inventory : relation Store := fun s s' =>
  catalog s' = catalog s /\ inventory_days s' = inventory_days s.

Definition keeps_keys : relation Store := fun s s' =>
  idempotency_keys (journal s') = idempotency_keys (journal s).

#[export] Instance journal_only_preorder : PreOrder journal_only.
Proof. split; [done|]. intros s1 s2 s3 (? & ? & ?) (? & ? & ?). unfold journal_only. intuition congruence. Qed.
#[export] Instance keeps_inventory_preorder : PreOrder keeps_inventory.
Proof. split; [done|]. intros s1 s2 s3 (? & ?) (? & ?). unfold keeps_inventory. intuition congruence. Qed.
#[export] Instance keeps_keys_preorder : PreOrder keeps_keys.
Proof. split; [done|]. intros s1 s2 s3 ??. unfold keeps_keys in *. congruence. Qed.

Create HintDb frames.

(** Proves a frame by the structure of the command. *)
Ltac frame :=
  repeat first
    [ solve [auto with frames]
    | apply frame_ret; [typeclasses eauto]
    | apply frame_read; [typeclasses eauto]
    | apply frame_throw
    | apply frame_lift; [typeclasses eauto]
    | apply frame_bind; [typeclasses eauto| |intros]
    | match goal with
      | |- tx_frame _ (match ?x with _ => _ end) => destruct x
      | |- tx_frame _ (let _ := _ in _) => cbv zeta
      end ].

(** ** Steps that only read *)

Lemma findIdempotency_reads operation propertyId keyHash :
  tx_frame eq (findIdempotency operation propertyId keyHash).
Proof. unfold findIdempotency. frame. Qed.
#[export] Hint Resolve findIdempotency_reads : frames.

Lemma readReservationStatus_reads o p r : tx_frame eq (readReservationStatus o p r).
Proof. unfold readReservationStatus. frame. Qed.
#[export] Hint Resolve readReservationStatus_reads : frames.

Lemma findReserveReplay_reads env c k f : tx_frame eq (findReserveReplay env c k f).
Proof. unfold findReserveReplay, reserveReceiptEvidenceMatches. frame. Qed.
#[export] Hint Resolve findReserveReplay_reads : frames.

Lemma findReleaseReplay_reads env c st k f : tx_frame eq (findReleaseReplay env c st k f).
Proof. unfold findReleaseReplay, releaseStatusEvidenceMatches. frame. Qed.
#[export] Hint Resolve findReleaseReplay_reads : frames.

Lemma lockInventoryDays_reads p r i o : tx_frame eq (lockInventoryDays p r i o).
Proof. unfold lockInventoryDays, canonical_rows. frame. Qed.
#[export] Hint Resolve lockInventoryDays_reads : frames.

Lemma lockCoverage_reads p : tx_frame eq (lockCoverage p).
Proof. unfold lockCoverage. frame. Qed.
#[export] Hint Resolve lockCoverage_reads : frames.

Lemma room_is_operating_reads p r : tx_frame eq (room_is_operating p r).
Proof. unfold room_is_operating. frame. Qed.
#[export] Hint Resolve room_is_operating_reads : frames.

(** A step that only reads leaves the store as it is. *)
Lemma reads_same {A} (m : Tx A) a s s' : tx_frame eq m -> m s = Ret (a, s') -> s' = s.
Proof. intros Hm H. symmetry. by eapply Hm. Qed.

(** ** Steps that write the journal *)

Lemma write_journal f : tx_frame journal_only (write (fun s => set_journal s (f s))).
Proof. apply frame_write. intros s. done. Qed.
#[export] Hint Resolve write_journal : frames.

Lemma reserveIdempotency_journal o p k f a t :
  tx_frame journal_only (reserveIdempotency o p k f a t).
Proof. unfold reserveIdempotency. frame; apply (write_journal (fun _ => _)). Qed.
#[export] Hint Resolve reserveIdempotency_journal : frames.

Lemma completeIdempotency_journal env id r c t : tx_frame journal_only (completeIdempotency env id r c t).
Proof. unfold completeIdempotency. frame; apply (write_journal (fun _ => _)). Qed.
#[export] Hint Resolve completeIdempotency_journal : frames.

Lemma recordAudit_journal o a g p t i k u e at_ sc : tx_frame journal_only (recordAudit o a g p t i k u e at_ sc).
Proof. unfold recordAudit. frame; apply (write_journal (fun _ => _)). Qed.
#[export] Hint Resolve recordAudit_journal : frames.

Lemma enqueueProjectionRefresh_journal a p r k x i t :
  tx_frame journal_only (enqueueProjectionRefresh a p r k x i t).
Proof.
  unfold enqueueProjectionRefresh, insert_event, insert_outbox.
  frame; first [apply (write_journal (fun _ => _)) | apply write_journal].
Qed.
#[export] Hint Resolve enqueueProjectionRefresh_journal : frames.

Lemma side_effects_journal c l : tx_frame journal_only (enqueuePmsLinkedInventorySideEffects c l).
Proof. apply write_journal. Qed.
#[export] Hint Resolve side_effects_journal : frames.

Lemma finalizeReserve_journal env c i k r t e : tx_frame journal_only (finalizeReserve env c i k r t e).
Proof. unfold finalizeReserve, completeReserve. frame. Qed.
#[export] Hint Resolve finalizeReserve_journal : frames.

Lemma finalizeRelease_journal env c i k r t e : tx_frame journal_only (finalizeRelease env c i k r t e).
Proof. unfold finalizeRelease. frame. Qed.
#[export] Hint Resolve finalizeRelease_journal : frames.

Lemma finalizeReserve_ending env c i k r t e x s s' :
  finalizeReserve env c i k r t e s = Ret (x, s') -> x = Committed r.
Proof.
  unfold finalizeReserve, completeReserve. intros H. repeat tx_step H.
  repeat match goal with
    | H : (_ ← _; _) _ = Ret _ |- _ => tx_step H
    | H : mret _ _ = Ret _ |- _ => apply tx_ret_Ret in H as [<- <-]
    end. done.
Qed.

Lemma finalizeRelease_ending env c i k r t e x s s' :
  finalizeRelease env c i k r t e s = Ret (x, s') -> x = Committed r.
Proof.
  unfold finalizeRelease. intros H. repeat tx_step H.
  by apply tx_ret_Ret in H as [<- _].
Qed.

(** ** Steps that write the ledger *)

Lemma write_ledger f : tx_frame keeps_inventory (write (fun s => set_ledger s (f s))).
Proof. apply frame_write. intros s. done. Qed.

Lemma persistReceipt_inventory c r f i e o t : tx_frame keeps_inventory (persistReceipt c r f i e o t).
Proof.
  unfold persistReceipt, insert_receipt, insert_status.
  repeat first [apply frame_bind; [typeclasses eauto| |intros] | apply frame_read; typeclasses eauto
    | match goal with |- tx_frame _ (if ?b then _ else _) => destruct b end
    | apply frame_throw | apply (write_ledger (fun _ => _))].
  generalize (watermark_of_command c r <$> rs_inventoryWatermarks c) as ws.
  induction ws as [|w ws IH]; cbn [insert_watermarks]; [apply frame_ret; typeclasses eauto|].
  apply frame_bind; [typeclasses eauto| |by intros].
  unfold insert_watermark.
  repeat first [apply frame_bind; [typeclasses eauto| |intros] | apply frame_read; typeclasses eauto
    | match goal with |- tx_frame _ (if ?b then _ else _) => destruct b end
    | apply frame_throw | apply (write_ledger (fun _ => _))].
Qed.
