(* ===== verification/ReservationRuns.v ===== *)
(** * The runs of the reservation commands

    Every run of a command ends in one of a few ways: it throws and is rolled
    back, it answers from the stored result of its key, it fails and leaves a
    completed key behind, or it takes all the steps of a reservation or a
    release.  The inversion lemmas of this file give the steps. *)

From S2P Require Import Prelude JsValue JsonText CalendarDates OperatingSchedule OperatingCalendar InventoryPlanner ReservationLifecycle ReservationRows ReservationStore LinkedInventory ReservationRepository ReservationBooking.

Definition decode_rows (rows : list inventory_day) : option (list CanonicalInventoryDay) :=
  traverse (fun r => canonicalInventoryDay (day_columns r)) rows.

Lemma lockInventoryDays_Ret p r i o days s s' :
  lockInventoryDays p r i o s = Ret (days, s') <->
  decode_rows (select_stay p r i o s) = Some days /\ s' = s.
Proof.
  unfold lockInventoryDays, canonical_rows, decode_rows. split.
  - intros H. tx_step H. apply read_Ret in E as [-> ->].
    destruct (traverse _ _) eqn:Et; [|discriminate]. by apply tx_ret_Ret in H as [<- <-].
  - intros [Hd ->]. apply tx_bind_Ret. eexists _, s. split; [done|]. by rewrite Hd.
Qed.

Lemma lift_Ret {A} (e : exn A) a s s' : lift e s = Ret (a, s') <-> e = Ret a /\ s' = s.
Proof.
  unfold lift. destruct e; split; try done.
  - by intros [= -> ->].
  - by intros [[= ->] ->].
  - by intros [? _].
Qed.

Lemma lock_or_none p r i o days s s' :
  catching (days ← lockInventoryDays p r i o; mret (Some days))
    (fun e => if String.eqb e InventoryInvariantError then Some (mret None) else None) s =
  Ret (days, s') ->
  s' = s /\ forall l, days = Some l -> decode_rows (select_stay p r i o s) = Some l.
Proof.
  intros H. apply catching_Ret in H as [H|(e & k & _ & Hk & H)].
  - tx_step H. apply lockInventoryDays_Ret in E as [E ->].
    apply tx_ret_Ret in H as [<- <-]. split; [done|]. by intros l [= ->].
  - destruct (String.eqb e _); [|done]. injection Hk as <-.
    apply tx_ret_Ret in H as [<- <-]. split; [done|]. by intros l [=].
Qed.

(** A booking under a savepoint either happened or left the store alone. *)
Lemma book_or_false days delta b s s' :
  catching (applyBookingDelta days delta;; mret true)
    (fun e => if String.eqb e InventoryInvariantError || isConstraintError e
              then Some (mret false) else None) s = Ret (b, s') ->
  (b = true /\ applyBookingDelta days delta s = Ret (tt, s')) \/ (b = false /\ s' = s).
Proof.
  intros H. apply catching_Ret in H as [H|(e & k & _ & Hk & H)].
  - tx_step H. apply tx_ret_Ret in H as [<- <-]. destruct a. by left.
  - destruct (_ || _); [|done]. injection Hk as <-. apply tx_ret_Ret in H as [<- <-]. by right.
Qed.

(** ** Recording a reservation *)

Inductive recorded (env : Environment) (c : PmsInventoryReservationReserveCommand)
    (fingerprint : string) (id : nat) (keyHash : string) (acceptedAt : Z) (receiptId : string)
    (ev : nat) (s s' : Store) : Prop :=
| Recorded out s1 s2 s3 changes :
    enqueueProjectionRefresh (rs_audit c) (rs_propertyId c) receiptId keyHash "held"
      (projectionIntent (rs_organizationId c) (rs_propertyId c) (rs_roomTypeId c) (rs_checkIn c)
         (rs_checkOut c) 1 "reservation_held") acceptedAt s = Ret ((ev, out), s1) ->
    persistReceipt c receiptId fingerprint id ev out acceptedAt s1 = Ret (tt, s2) ->
    reconcilePmsLinkedInventory (env_linkedWork env) (rs_propertyId c) s2 = Ret (changes, s3) ->
    enqueuePmsLinkedInventorySideEffects
      {| sc_propertyId := rs_propertyId c; sc_operation := "reserve";
         sc_commandId := ra_requestId (rs_audit c); sc_keyHash := keyHash;
         sc_acceptedAt := acceptedAt; sc_correlationId := correlation (rs_audit c) |}
      changes s3 = Ret (tt, s') ->
    recorded env c fingerprint id keyHash acceptedAt receiptId ev s s'.

Lemma recordReservedInventory_Ret env c fp id kh t factory result ev s s' :
  recordReservedInventory env c fp id kh t factory s = Ret ((result, ev), s') ->
  exists receiptId, normalizeUuid factory = Some receiptId /\
    result = LifecycleOk "reserved" (statusFromReserve c receiptId t) (Some "reservation_held"%string) /\
    recorded env c fp id kh t receiptId ev s s'.
Proof.
  unfold recordReservedInventory. intros H. destruct (normalizeUuid factory) as [receiptId|]; [|done].
  exists receiptId. split; [done|]. tx_step H. destruct a as [ev' out].
  tx_step H. tx_step H. apply tx_ret_Ret in H as [[= <- <-] <-]. split; [done|].
  destruct a, a0. unfold reconcile_and_announce in E1. tx_step E1.
  econstructor; eauto.
Qed.

(** ** A reserve command *)

(** The steps of a successful reservation *)
Inductive reserve_run (env : Environment) (c : PmsInventoryReservationReserveCommand)
    (acceptedAt : Z) (factory : string) (s s' : Store) (status : PmsInventoryReservationStatus) : Prop :=
| Reserve_run id days capacity receiptId ev s0 s1 s2 :
    let keyHash := hash env (rs_idempotencyKey c) in
    let fingerprint := reserve_fingerprint env c in
    let result := LifecycleOk "reserved" status (Some "reservation_held"%string) in
    findReserveReplay env c keyHash fingerprint s = Ret (None, s) ->
    reserveIdempotency RESERVE_OPERATION (rs_propertyId c) keyHash fingerprint (rs_audit c)
      acceptedAt s = Ret (Some id, s0) ->
    room_state (catalog s) (rs_propertyId c) (rs_roomTypeId c) = Some "operating"%string ->
    decode_rows (select_stay (rs_propertyId c) (rs_roomTypeId c) (rs_checkIn c) (rs_checkOut c) s) =
      Some days ->
    validateReserveDays c days capacity = None ->
    applyBookingDelta days (rs_roomCount c) s0 = Ret (tt, s1) ->
    normalizeUuid factory = Some receiptId ->
    status = statusFromReserve c receiptId acceptedAt ->
    recorded env c fingerprint id keyHash acceptedAt receiptId ev s1 s2 ->
    completeReserve env c id keyHash result acceptedAt (Some ev) s2 = Ret (result, s') ->
    reserve_run env c acceptedAt factory s s' status.

(** How the body of a reserve command ends once its key is claimed *)
Definition reserve_body_ends (env : Environment) (c : PmsInventoryReservationReserveCommand)
    (acceptedAt : Z) (factory : string) (id : nat) (s s' : Store) (e : ending lifecycle_result) : Prop :=
  let keyHash := hash env (rs_idempotencyKey c) in
  (exists code, e = Committed (LifecycleError code) /\ journal_only s s') \/
  (exists days capacity receiptId ev s1 s2,
    let result := LifecycleOk "reserved" (statusFromReserve c receiptId acceptedAt)
                    (Some "reservation_held"%string) in
    e = Committed result /\
    room_state (catalog s) (rs_propertyId c) (rs_roomTypeId c) = Some "operating"%string /\
    decode_rows (select_stay (rs_propertyId c) (rs_roomTypeId c) (rs_checkIn c) (rs_checkOut c) s) =
      Some days /\
    validateReserveDays c days capacity = None /\
    applyBookingDelta days (rs_roomCount c) s = Ret (tt, s1) /\
    normalizeUuid factory = Some receiptId /\
    recorded env c (reserve_fingerprint env c) id keyHash acceptedAt receiptId ev s1 s2 /\
    completeReserve env c id keyHash result acceptedAt (Some ev) s2 = Ret (result, s')).

Lemma completeReserve_result env c id k result t ev r s s' :
  completeReserve env c id k result t ev s = Ret (r, s') -> r = result.
Proof. unfold completeReserve. intros H. tx_step H. tx_step H. by apply tx_ret_Ret in H as [<- _]. Qed.

Lemma reserve_fails env c t factory id code e s s' :
  finalizeReserve env c id (hash env (rs_idempotencyKey c)) (failure code) t None s = Ret (e, s') ->
  reserve_body_ends env c t factory id s s' e.
Proof.
  intros H. left. exists code. split; [by eapply finalizeReserve_ending|].
  by eapply finalizeReserve_journal.
Qed.

Lemma reserve_with_evidence_ends env c t factory id immutable evidence e s s' :
  reserve_with_evidence env c t factory (hash env (rs_idempotencyKey c)) (reserve_fingerprint env c)
    id immutable evidence s = Ret (e, s') ->
  reserve_body_ends env c t factory id s s' e.
Proof.
  unfold reserve_with_evidence. intros H.
  destruct (negb _); [by eapply reserve_fails|].
  tx_step H. apply lift_Ret in E as [_ ->]. tx_step H. apply lift_Ret in E as [_ ->].
  destruct (calendar_is_exact _ _ _ _) as [exact|]; [|by eapply reserve_fails].
  tx_step H. unfold room_is_operating in E. apply read_Ret in E as [-> ->].
  destruct (bool_decide _) eqn:Eo; cbn [negb] in H; [|by eapply reserve_fails].
  apply bool_decide_eq_true in Eo.
  tx_step H. apply lift_Ret in E as [_ ->].
  destruct (capacity_matches _ _ _) as [binding|]; [|by eapply reserve_fails].
  tx_step H. apply reads_same in E as ->; [|apply lockCoverage_reads].
  destruct (negb _); [by eapply reserve_fails|].
  tx_step H. apply lock_or_none in E as [-> Hdays]. destruct a3 as [days|]; [|by eapply reserve_fails].
  specialize (Hdays _ eq_refl).
  destruct (validateReserveDays _ _ _) eqn:Ev; [by eapply reserve_fails|].
  tx_step H. apply book_or_false in E as [[-> Hb]|[-> ->]]; cbn [negb] in H; [|by eapply reserve_fails].
  tx_step H. destruct a3 as [result ev].
  apply recordReservedInventory_Ret in E as (receiptId & Hid & -> & Hrec).
  unfold finalizeReserve in H. tx_step H. apply tx_ret_Ret in H as [<- <-].
  pose proof (completeReserve_result _ _ _ _ _ _ _ _ _ _ E) as ->.
  right. exists days, (rb_physicalCapacityCount binding), receiptId, ev, s0, s1. by split_and!.
Qed.

Lemma select_stay_frame p r i o s s' :
  inventory_days s' = inventory_days s -> select_stay p r i o s' = select_stay p r i o s.
Proof. unfold select_stay. by intros ->. Qed.

Lemma reserveIdempotency_None o p k f a t s s' :
  reserveIdempotency o p k f a t s = Ret (None, s') -> s' = s.
Proof.
  unfold reserveIdempotency. intros H. tx_step H. apply read_Ret in E as [-> ->].
  destruct (existsb _ _); [by apply tx_ret_Ret in H as [_ ->]|].
  tx_step H. by apply tx_ret_Ret in H as [? _].
Qed.

(** Every run of [executeReserve] ends in one of these ways. *)
Lemma executeReserve_ends env c t factory s r s' :
  executeReserve env c t factory s = (r, s') ->
  (s' = s /\ exists e, r = Throw e) \/
  (s' = s /\ exists result, r = Ret result /\
     findReserveReplay env c (hash env (rs_idempotencyKey c)) (reserve_fingerprint env c) s =
       Ret (Some result, s)) \/
  (journal_only s s' /\ exists code, r = Ret (LifecycleError code)) \/
  (exists status, r = Ret (LifecycleOk "reserved" status (Some "reservation_held"%string)) /\
     reserve_run env c t factory s s' status).
Proof.
  unfold executeReserve, transaction. set (body := (_ ← findReserveReplay _ _ _ _; _)).
  destruct (body s) as [[e s1]|err] eqn:H; [|intros [= <- <-]; left; eauto].
  unfold body in H. tx_step H. apply reads_same in E as Hs0; [|apply findReserveReplay_reads].
  subst s0. destruct a as [replay|].
  - apply tx_ret_Ret in H as [<- <-]. intros [= <- <-]. right. left. eauto.
  - tx_step H. destruct a as [id|].
    + pose proof E0 as (Hc & Hi & Hl)%reserveIdempotency_journal.
      assert (Hends : reserve_body_ends env c t factory id s0 s1 e).
      { tx_step H. apply lift_Ret in E1 as [_ ->].
        destruct a as [immutable|]; [|by eapply reserve_fails].
        destruct (propertyProfileRevision immutable); [|by eapply reserve_fails].
        tx_step H. apply lift_Ret in E1 as [_ ->]. by eapply reserve_with_evidence_ends. }
      destruct Hends as [(code & -> & Hj)|(days & capacity & receiptId & ev & s2 & s3 & -> & Ho & Hd & Hv & Hb & Hid & Hr & Hcomp)];
        intros [= <- <-].
      * right. right. left. split; [|eauto]. etrans; [|exact Hj]. by split_and!.
      * right. right. right. eexists. split; [done|].
        rewrite Hc in Ho. rewrite (select_stay_frame _ _ _ _ _ _ Hi) in Hd.
        econstructor; eauto.
    + tx_step H. pose proof E1 as E2. apply reads_same in E1 as ->; [|apply findReserveReplay_reads].
      apply reserveIdempotency_None in E0 as ->.
      apply tx_ret_Ret in H as [<- <-]. intros [= <- <-].
      destruct a as [result|]; cbn [default].
      * rewrite E in E2. discriminate E2.
      * right. right. left. split; [done|]. eauto.
Qed.

(** No replay answers that it reserved: the reservation was there already. *)
Lemma findReserveReplay_not_new env c k f result s s' :
  findReserveReplay env c k f s = Ret (Some result, s') ->
  forall status intent, result <> LifecycleOk "reserved" status intent.
Proof.
  unfold findReserveReplay, reserveReceiptEvidenceMatches, readReservationStatus. intros H status intent ->.
  repeat match goal with
    | H : (_ ← _; _) _ = Ret _ |- _ => tx_step H
    | H : mret _ _ = Ret _ |- _ => apply tx_ret_Ret in H as [? _]; try discriminate
    | H : context [match ?x with _ => _ end] |- _ => destruct x eqn:?; try discriminate
    end.
  unfold reserveReplayResult in *. by destruct (st_state _).
Qed.

(** ** A release command *)

Inductive release_recorded (env : Environment) (c : PmsInventoryReservationReleaseCommand)
    (status : PmsInventoryReservationStatus) (id : nat) (acceptedAt : Z) (ev : nat)
    (s s' : Store) : Prop :=
| Release_recorded out s1 s2 s3 changes :
    let keyHash := hash env (rl_idempotencyKey c) in
    enqueueProjectionRefresh (rl_audit c) (rl_propertyId c) (rc_receiptId (st_receipt status)) keyHash
      "released"
      (projectionIntent (st_organizationId status) (st_propertyId status) (st_roomTypeId status)
         (st_checkIn status) (st_checkOut status) 2 "reservation_released") acceptedAt s =
      Ret ((ev, out), s1) ->
    transition_released c (rc_receiptId (st_receipt status)) (release_fingerprint env c) id ev out
      acceptedAt s1 = Ret (tt, s2) ->
    reconcilePmsLinkedInventory (env_linkedWork env) (rl_propertyId c) s2 = Ret (changes, s3) ->
    enqueuePmsLinkedInventorySideEffects
      {| sc_propertyId := rl_propertyId c; sc_operation := "release";
         sc_commandId := ra_requestId (rl_audit c); sc_keyHash := keyHash;
         sc_acceptedAt := acceptedAt; sc_correlationId := correlation (rl_audit c) |}
      changes s3 = Ret (tt, s') ->
    release_recorded env c status id acceptedAt ev s s'.

(** The steps of a successful release of a held reservation *)
Inductive release_run (env : Environment) (c : PmsInventoryReservationReleaseCommand)
    (acceptedAt : Z) (s s' : Store) (status : PmsInventoryReservationStatus) : Prop :=
| Release_run id days capacity ev s0 s1 s2 :
    let keyHash := hash env (rl_idempotencyKey c) in
    let result := LifecycleOk "released" (releasedStatus status acceptedAt)
                    (Some "reservation_released"%string) in
    status_of_receipt (ledger s) (rc_receiptId (rl_receipt c)) (rl_organizationId c)
      (rl_propertyId c) = Some status ->
    st_state status = Reserved ->
    reserveIdempotency RELEASE_OPERATION (rl_propertyId c) keyHash (release_fingerprint env c)
      (rl_audit c) acceptedAt s = Ret (Some id, s0) ->
    decode_rows (select_stay (st_propertyId status) (st_roomTypeId status) (st_checkIn status)
      (st_checkOut status) s) = Some days ->
    validateReleaseDays status days capacity = true ->
    applyBookingDelta days (- st_roomCount status) s0 = Ret (tt, s1) ->
    release_recorded env c status id acceptedAt ev s1 s2 ->
    finalizeRelease env c id keyHash result acceptedAt (Some ev) s2 = Ret (Committed result, s') ->
    release_run env c acceptedAt s s' status.

Definition release_body_ends (env : Environment) (c : PmsInventoryReservationReleaseCommand)
    (acceptedAt : Z) (id : nat) (status : PmsInventoryReservationStatus) (s s' : Store)
    (e : ending lifecycle_result) : Prop :=
  let keyHash := hash env (rl_idempotencyKey c) in
  (exists code, e = Committed (LifecycleError code) /\ journal_only s s') \/
  (exists days capacity ev s1 s2,
    let result := LifecycleOk "released" (releasedStatus status acceptedAt)
                    (Some "reservation_released"%string) in
    e = Committed result /\
    decode_rows (select_stay (st_propertyId status) (st_roomTypeId status) (st_checkIn status)
      (st_checkOut status) s) = Some days /\
    validateReleaseDays status days capacity = true /\
    applyBookingDelta days (- st_roomCount status) s = Ret (tt, s1) /\
    release_recorded env c status id acceptedAt ev s1 s2 /\
    finalizeRelease env c id keyHash result acceptedAt (Some ev) s2 = Ret (Committed result, s')).

Lemma release_fails env c t id status code e s s' :
  finalizeRelease env c id (hash env (rl_idempotencyKey c)) (failure code) t None s = Ret (e, s') ->
  release_body_ends env c t id status s s' e.
Proof.
  intros H. left. exists code. split; [by eapply finalizeRelease_ending|].
  by eapply finalizeRelease_journal.
Qed.

Lemma release_held_ends env c t id status e s s' :
  release_held env c t (hash env (rl_idempotencyKey c)) (release_fingerprint env c) id status s =
    Ret (e, s') ->
  release_body_ends env c t id status s s' e.
Proof.
  unfold release_held. intros H.
  tx_step H. apply lock_or_none in E as [-> Hdays]. destruct a as [days|]; [|by eapply release_fails].
  specialize (Hdays _ eq_refl).
  tx_step H. apply lift_Ret in E as [_ ->]. cbv zeta in H.
  destruct (validateReleaseDays _ _ _) eqn:Ev; cbn [negb] in H; [|by eapply release_fails].
  tx_step H. apply book_or_false in E as [[-> Hb]|[-> ->]]; cbn [negb] in H; [|by eapply release_fails].
  tx_step H. destruct a0 as [ev out]. tx_step H. tx_step H. destruct a0, a1.
  unfold reconcile_and_announce in E1. tx_step E1.
  pose proof (finalizeRelease_ending _ _ _ _ _ _ _ _ _ _ H) as ->.
  right. eexists days, _, ev, s0, _. split_and!; [done..| |done]. by econstructor.
Qed.

Lemma releaseTerminalResult_not_new status r :
  releaseTerminalResult status = Ret r -> forall st intent, r <> LifecycleOk "released" st intent.
Proof. unfold releaseTerminalResult. intros H st intent ->. by destruct (st_state status). Qed.

Lemma findReleaseReplay_not_new env c current k f result s s' :
  findReleaseReplay env c current k f s = Ret (Some result, s') ->
  forall status intent, result <> LifecycleOk "released" status intent.
Proof.
  unfold findReleaseReplay, releaseStatusEvidenceMatches. intros H status intent ->.
  repeat match goal with
    | H : (_ ← _; _) _ = Ret _ |- _ => tx_step H
    | H : mret _ _ = Ret _ |- _ => apply tx_ret_Ret in H as [? _]; try discriminate
    | H : lift _ _ = Ret _ |- _ => apply lift_Ret in H as [H _]
    | H : Some _ = Some _ |- _ => injection H as H; subst
    | H : context [match ?x with _ => _ end] |- _ => destruct x eqn:?; try discriminate
    end; by eapply releaseTerminalResult_not_new.
Qed.

(** Every run of [executeRelease] leaves all but the journal alone, or is a
    release of the held reservation. *)
Lemma executeRelease_ends env c t s r s' :
  executeRelease env c t s = (r, s') ->
  (journal_only s s' /\ forall status intent, r <> Ret (LifecycleOk "released" status intent)) \/
  (exists status, r = Ret (LifecycleOk "released" (releasedStatus status t)
                             (Some "reservation_released"%string)) /\
     release_run env c t s s' status).
Proof.
  unfold executeRelease, transaction. set (body := (_ ← readReservationStatus _ _ _; _)).
  destruct (body s) as [[e s1]|err] eqn:H; [|by intros [= <- <-]; left].
  unfold body in H. clear body. tx_step H. apply read_Ret in E as [Est ->].
  destruct a as [status|]; [|apply tx_ret_Ret in H as [<- <-]; by intros [= <- <-]; left].
  tx_step H. pose proof E as Er. apply reads_same in E as ->; [|apply findReleaseReplay_reads].
  destruct a as [replay|].
  { apply tx_ret_Ret in H as [<- <-]. intros [= <- <-]. left. split; [done|].
    intros st intent [= ->]. by eapply findReleaseReplay_not_new. }
  tx_step H. destruct a as [id|].
  - pose proof E as (Hc & Hi & Hl)%reserveIdempotency_journal.
    assert (Hj0 : journal_only s s0) by done. destruct (st_state status) eqn:Hst.
    + apply release_held_ends in H
        as [(code & -> & Hj)|(days & capacity & ev & s2 & s3 & -> & Hd & Hv & Hb & Hr & Hf)];
        intros [= <- <-].
      * left. split; [by etrans | done].
      * right. exists status. split; [done|].
        rewrite (select_stay_frame _ _ _ _ _ _ Hi) in Hd. by econstructor.
    + tx_step H. apply lift_Ret in E0 as [E0 ->].
      pose proof (finalizeRelease_journal _ _ _ _ _ _ _ _ _ _ H) as Hj.
      apply finalizeRelease_ending in H as ->. intros [= <- <-]. left. split; [by etrans|].
      intros st intent [= ->]. by eapply releaseTerminalResult_not_new.
    + tx_step H. apply lift_Ret in E0 as [E0 ->].
      pose proof (finalizeRelease_journal _ _ _ _ _ _ _ _ _ _ H) as Hj.
      apply finalizeRelease_ending in H as ->. intros [= <- <-]. left. split; [by etrans|].
      intros st intent [= ->]. by eapply releaseTerminalResult_not_new.
  - apply reserveIdempotency_None in E as ->. tx_step H. apply read_Ret in E as [-> ->].
    tx_step H. pose proof E as E'. apply reads_same in E' as ->; [|apply findReleaseReplay_reads].
    apply tx_ret_Ret in H as [<- <-]. intros [= <- <-]. left. split; [done|].
    intros st intent [= Heq]. destruct a as [result|]; [|done]. cbn in Heq. subst.
    by eapply findReleaseReplay_not_new.
Qed.

(** ** A reservation inside another transaction *)

Lemma reserveInTransaction_cases env input factory s r s' :
  reservePmsInventoryInTransaction env input factory s = Ret (r, s') ->
  (s' = s /\
   ((exists code, r = LifecycleError code) \/
    exists c, parsePmsInventoryReservationReserveCommand input = Some c /\
      findReserveReplay env c (hash env (rs_idempotencyKey c)) (reserve_fingerprint env c) s = Ret (Some r, s))) \/
  (exists c status, parsePmsInventoryReservationReserveCommand input = Some c /\
     r = LifecycleOk "reserved" status (Some "reservation_held"%string) /\
     reserve_run env c (env_clock env s) factory s s' status).
Proof.
  unfold reservePmsInventoryInTransaction. intros H.
  destruct (parsePmsInventoryReservationReserveCommand input) as [c|];
    [|apply tx_ret_Ret in H as [<- <-]; left; by eauto].
  tx_step H. pose proof E as E'. apply reads_same in E' as ->; [|apply findReserveReplay_reads].
  destruct a as [replay|].
  { apply tx_ret_Ret in H as [<- <-]. left. split; [done|]. right. by exists c. }
  tx_step H. destruct (env_lockedCalendar _ _ _); [|discriminate]. injection E0 as -> <-.
  cbv zeta in H. destruct (match a with Some _ => _ | None => _ end) as [binding|];
    [|apply tx_ret_Ret in H as [<- <-]; left; by eauto].
  tx_step H. unfold room_is_operating in E0. apply read_Ret in E0 as [-> ->].
  destruct (bool_decide _) eqn:Eo; cbn [negb] in H; [|apply tx_ret_Ret in H as [<- <-]; left; by eauto].
  apply bool_decide_eq_true in Eo.
  tx_step H. apply reads_same in E0 as ->; [|apply lockCoverage_reads].
  destruct (negb _); [apply tx_ret_Ret in H as [<- <-]; left; by eauto|].
  tx_step H. apply lockInventoryDays_Ret in E0 as [Hd ->].
  tx_step H. apply read_Ret in E0 as [-> ->].
  destruct (gate_closed _ _ _ _ _); [apply tx_ret_Ret in H as [<- <-]; left; by eauto|].
  destruct (validateReserveDays _ _ _) eqn:Ev; [apply tx_ret_Ret in H as [<- <-]; left; by eauto|].
  tx_step H. apply read_Ret in E0 as [-> ->]. tx_step H.
  destruct a2 as [id|]; [|apply tx_ret_Ret in H as [<- <-];
                          apply reserveIdempotency_None in E0 as ->; left; by eauto].
  tx_step H. destruct a2. tx_step H. destruct a2 as [result ev].
  apply recordReservedInventory_Ret in E2 as (receiptId & Hid & -> & Hrec).
  right. exists c, (statusFromReserve c receiptId (env_clock env s)). split_and!; [done| |].
  - by apply completeReserve_result in H.
  - pose proof (completeReserve_result _ _ _ _ _ _ _ _ _ _ H) as ->. by econstructor.
Qed.

Lemma reserveInTransaction_ends env input factory s r s' :
  reservePmsInventoryInTransaction env input factory s = Ret (r, s') ->
  (s' = s /\ forall status intent, r <> LifecycleOk "reserved" status intent) \/
  (exists c status, parsePmsInventoryReservationReserveCommand input = Some c /\
     r = LifecycleOk "reserved" status (Some "reservation_held"%string) /\
     reserve_run env c (env_clock env s) factory s s' status).
Proof.
  intros [[-> [[code ->]|(c & _ & Hr)]]|H]%reserveInTransaction_cases; [by left | | by right].
  left. split; [done|]. intros ?? ->. by eapply findReserveReplay_not_new.
Qed.
