(* ===== verification/ReservationLedger.v ===== *)
(** * What a reservation and a release change

    The store after a successful run as a function of the store before it: the
    booked nights, the linked update, and the rows of the ledger. *)

From S2P Require Import Prelude JsValue JsonText CalendarDates OperatingSchedule OperatingCalendar InventoryPlanner ReservationLifecycle ReservationRows ReservationStore LinkedInventory ReservationRepository ReservationBooking ReservationRuns.

(** ** The validated nights can be booked *)

Lemma select_stay_matches p room i o s :
  Forall (fun r => id_propertyId r = p /\ id_roomTypeId r = room /\ in_stay p room i o r = true)
    (select_stay p room i o s).
Proof.
  apply Forall_forall. intros r [_ Hr]%elem_of_select_stay. pose proof Hr as H.
  unfold in_stay in H. by bool_to_prop.
Qed.

Lemma reserve_days_bookable c days capacity s :
  1 <= rs_roomCount c ->
  decode_rows (select_stay (rs_propertyId c) (rs_roomTypeId c) (rs_checkIn c) (rs_checkOut c) s) =
    Some days ->
  validateReserveDays c days capacity = None ->
  Forall2 (bookable (rs_roomCount c))
    (select_stay (rs_propertyId c) (rs_roomTypeId c) (rs_checkIn c) (rs_checkOut c) s) days.
Proof.
  intros Hc Hd Hv. apply traverse_Some in Hd.
  apply validateReserveDays_None in Hv as (dates & _ & Hv).
  eapply Forall2_chain; [exact Hd | apply select_stay_matches | exact Hv|]. cbn.
  intros r d date E (Hp & Hr & _) [w []]. pose proof (canonical_day_row _ _ E) as (_ & [] & [] & _).
  constructor; try done; solve [congruence | lia].
Qed.

Lemma release_days_bookable status days capacity s :
  1 <= st_roomCount status ->
  decode_rows (select_stay (st_propertyId status) (st_roomTypeId status) (st_checkIn status)
    (st_checkOut status) s) = Some days ->
  validateReleaseDays status days capacity = true ->
  Forall2 (bookable (- st_roomCount status))
    (select_stay (st_propertyId status) (st_roomTypeId status) (st_checkIn status)
       (st_checkOut status) s) days.
Proof.
  intros Hc Hd Hv. apply traverse_Some in Hd.
  apply validateReleaseDays_true in Hv as (dates & cap & _ & _ & Hv).
  eapply Forall2_chain; [exact Hd | apply select_stay_matches | exact Hv|]. cbn.
  intros r d date E (Hp & Hr & _) Hok. unfold release_day_ok in Hok.
  pose proof (canonical_day_row _ _ E) as (_ & [] & [] & _). bool_to_prop.
  match goal with H : dayInvariant _ = true |- _ =>
    pose proof (dayInvariant_bounds _ H) as (_ & _ & _ & _ & _ & ? & _) end.
  constructor; try done; solve [congruence | lia].
Qed.

(** ** The linked update *)

(** What the linked update keeps of a row *)
Record linked_row (r r' : inventory_day) : Prop := {
  ln_key : day_key r' = day_key r;
  ln_assigned : id_assignedCount r' = id_assignedCount r;
  ln_total : id_totalCount r' = id_totalCount r;
  ln_status : id_status r' = id_status r;
  ln_blocked : id_assignedCount r + id_blockedCount r <= id_totalCount r ->
    id_assignedCount r' + id_blockedCount r' <= id_totalCount r';
}.

Lemma linked_row_refl r : linked_row r r.
Proof. by constructor. Qed.

Lemma link_day_row w r : 0 <= id_blockedCount r -> linked_row r (link_day w r).
Proof. intros Hb. constructor; try done. cbn. unfold desired_blocked. lia. Qed.

Lemma linked_row_fits w r :
  inventory_days_check (link_day w r) = true -> linked_row r (link_day w r).
Proof.
  intros H. unfold inventory_days_check in H. bool_to_prop. cbn in *. constructor; try done. cbn.
  intros _. lia.
Qed.

Lemma reconcile_rows work p s changes s' :
  reconcilePmsLinkedInventory work p s = Ret (changes, s') ->
  exists rows, s' = set_inventory s rows /\ Forall2 linked_row (inventory_days s) rows.
Proof.
  unfold reconcilePmsLinkedInventory. intros H. destruct (work p s) as [[|w items]|]; [|..|done].
  - injection H as <- <-. exists (inventory_days s). split; [by destruct s|].
    by apply Forall_Forall2_diag, Forall_true, linked_row_refl.
  - tx_step H. apply tx_ret_Ret in H as [_ <-]. apply update_days_Ret in E as (Hall & _ & ->).
    eexists. split; [done|]. clear -Hall. induction Hall as [|r rows Hr _ IH]; cbn; constructor; [|done].
    destruct (work_for _ _ r) as [w'|]; cbn in *; [|apply linked_row_refl].
    specialize (Hr _ eq_refl). unfold day_write_accepted in Hr. bool_to_prop.
    by apply linked_row_fits.
Qed.

(** ** The rows of the ledger *)

Lemma existsb_fresh {A} (key : A -> string) k (l : list A) :
  existsb (fun x => String.eqb (key x) k) l = false -> k ∉ (key <$> l).
Proof.
  intros H Hin. apply list_elem_of_fmap in Hin as (x & -> & Hx).
  apply not_true_iff_false in H. apply H, existsb_exists. exists x.
  split; [by apply list_elem_of_In | apply String.eqb_refl].
Qed.

Lemma insert_watermarks_Ret ws s s' :
  insert_watermarks ws s = Ret (tt, s') ->
  s' = set_ledger s {| reservation_receipts := reservation_receipts (ledger s);
         reservation_statuses := reservation_statuses (ledger s);
         reservation_watermarks := reservation_watermarks (ledger s) ++ ws |}.
Proof.
  revert s. induction ws as [|w ws IH]; intros s H; cbn [insert_watermarks] in H.
  - apply tx_ret_Ret in H as [_ <-]. rewrite app_nil_r. by destruct s as [? ? [] ?].
  - tx_step H. apply IH in H as ->. unfold insert_watermark in E. tx_step E.
    apply read_Ret in E0 as [-> ->]. destruct (existsb _ _); [discriminate|].
    apply write_Ret in E as ->. cbn. by rewrite <- app_assoc.
Qed.

(** The ledger with the rows of a new receipt *)
Definition with_receipt (l : ledger_tables) (r : receipt_row) (t : status_row)
    (ws : list watermark_row) : ledger_tables := {|
  reservation_receipts := reservation_receipts l ++ [r];
  reservation_statuses := reservation_statuses l ++ [t];
  reservation_watermarks := reservation_watermarks l ++ ws;
|}.

Lemma persistReceipt_Ret c receiptId f id ev out t s s' :
  persistReceipt c receiptId f id ev out t s = Ret (tt, s') ->
  (receiptId ∉ (re_receiptId <$> reservation_receipts (ledger s))) /\
  (receiptId ∉ (ss_receiptId <$> reservation_statuses (ledger s))) /\
  s' = set_ledger s (with_receipt (ledger s) (receipt_of_command c receiptId f id ev out t)
         (reserved_row c receiptId)
         (watermark_of_command c receiptId <$> rs_inventoryWatermarks c)).
Proof.
  unfold persistReceipt, insert_receipt, insert_status. intros H.
  tx_step H. tx_step E. apply read_Ret in E0 as [-> ->].
  destruct (existsb _ _) eqn:Hr in E; [discriminate|]. apply write_Ret in E as ->.
  tx_step H. tx_step E. apply read_Ret in E0 as [-> ->].
  destruct (existsb _ _) eqn:Ht in E; [discriminate|]. apply write_Ret in E as ->.
  apply insert_watermarks_Ret in H as ->. split_and!; [by apply existsb_fresh..|done].
Qed.

(** The statuses with the released one in place *)
Lemma transition_released_Ret c receiptId f id ev out t s s' :
  transition_released c receiptId f id ev out t s = Ret (tt, s') ->
  let step := release_row c receiptId f id ev out t in
  (exists n, omap step (reservation_statuses (ledger s)) = [n] /\
     release_accepted (ledger s) n = true) /\
  s' = set_ledger s {| reservation_receipts := reservation_receipts (ledger s);
         reservation_statuses := (fun x => default x (step x)) <$> reservation_statuses (ledger s);
         reservation_watermarks := reservation_watermarks (ledger s) |}.
Proof.
  unfold transition_released. intros H. tx_step H. apply read_Ret in E as [-> ->].
  destruct (negb _) eqn:Ea in H; [discriminate|]. destruct (negb _) eqn:El in H; [discriminate|].
  apply write_Ret in H as ->. split; [|done]. apply negb_false_iff in Ea.
  apply negb_false_iff, Nat.eqb_eq in El.
  destruct (omap _ _) as [|n [|]]; [discriminate| |discriminate]. exists n. split; [done|].
  cbn in Ea. by rewrite andb_true_r in Ea.
Qed.

(** ** The effect of a run *)

(** What the linked update and the journal writes after a booking keep *)
Definition after_booking (s s' : Store) (l : ledger_tables) : Prop :=
  catalog s' = catalog s /\ Forall2 linked_row (inventory_days s) (inventory_days s') /\
  ledger s' = l.

Lemma recorded_effect env c f id kh t receiptId ev s s' :
  recorded env c f id kh t receiptId ev s s' ->
  exists out,
    (receiptId ∉ (re_receiptId <$> reservation_receipts (ledger s))) /\
    (receiptId ∉ (ss_receiptId <$> reservation_statuses (ledger s))) /\
    after_booking s s'
      (with_receipt (ledger s) (receipt_of_command c receiptId f id ev out t)
         (reserved_row c receiptId)
         (watermark_of_command c receiptId <$> rs_inventoryWatermarks c)).
Proof.
  intros [out s1 s2 s3 changes (Hc1 & Hi1 & Hl1)%enqueueProjectionRefresh_journal
            (Hr & Ht & ->)%persistReceipt_Ret (rows & -> & Hrows)%reconcile_rows
            (Hc2 & Hi2 & Hl2)%side_effects_journal].
  cbn in *. exists out. rewrite Hl1 in Hr, Ht. rewrite Hi1 in Hrows.
  split_and!; [done..|]. unfold after_booking. by rewrite Hc2, Hi2, Hl2, Hc1, Hl1.
Qed.

Lemma release_recorded_effect env c status id t ev s s' :
  release_recorded env c status id t ev s s' ->
  exists out,
    let step := release_row c (rc_receiptId (st_receipt status)) (release_fingerprint env c) id ev out t in
    (exists n, omap step (reservation_statuses (ledger s)) = [n] /\
     release_accepted (ledger s) n = true) /\
    after_booking s s'
      {| reservation_receipts := reservation_receipts (ledger s);
         reservation_statuses := (fun x => default x (step x)) <$> reservation_statuses (ledger s);
         reservation_watermarks := reservation_watermarks (ledger s) |}.
Proof.
  intros [out s1 s2 s3 changes kh (Hc1 & Hi1 & Hl1)%enqueueProjectionRefresh_journal
            (Hn & ->)%transition_released_Ret (rows & -> & Hrows)%reconcile_rows
            (Hc2 & Hi2 & Hl2)%side_effects_journal].
  cbn in *. exists out. rewrite Hl1 in Hn. rewrite Hi1 in Hrows.
  split; [done|]. unfold after_booking. by rewrite Hc2, Hi2, Hl2, Hc1, Hl1.
Qed.

Lemma after_booking_journal s s1 s' l :
  after_booking s s1 l -> journal_only s1 s' -> after_booking s s' l.
Proof. intros (Hc & Hi & Hl) (Hc' & Hi' & Hl'). unfold after_booking. by rewrite Hc', Hi', Hl'. Qed.

Lemma completeReserve_journal env c i k r t e : tx_frame journal_only (completeReserve env c i k r t e).
Proof. unfold completeReserve. frame. Qed.

(** The booking of a run starts on the tables of the store before it. *)
Lemma booked_inventory p room i o delta s0 s s1 days :
  NoDup (day_key <$> inventory_days s) -> journal_only s s0 ->
  Forall2 (bookable delta) (select_stay p room i o s) days ->
  applyBookingDelta days delta s0 = Ret (tt, s1) ->
  s1 = set_inventory s0 (book_stay p room i o delta (inventory_days s)).
Proof.
  intros Hnd (Hc & Hi & Hl) Hb H.
  rewrite <- (select_stay_frame _ _ _ _ _ _ Hi) in Hb. rewrite <- Hi in Hnd |- *.
  apply (applyBookingDelta_inv _ (select_stay p room i o s0)) in H as ->;
    [|done | by apply select_stay_keys | apply select_stay_in | done].
  by rewrite book_rows_stay.
Qed.

(** A successful reservation: the nights of the stay booked, the linked update,
    and one receipt, status and watermark per night added. *)
Record reserve_effect (c : PmsInventoryReservationReserveCommand) (t : Z) (receiptId : string)
    (s s' : Store) : Prop := {
  rf_catalog : catalog s' = catalog s;
  rf_inventory : Forall2 linked_row
    (book_stay (rs_propertyId c) (rs_roomTypeId c) (rs_checkIn c) (rs_checkOut c) (rs_roomCount c)
       (inventory_days s)) (inventory_days s');
  rf_receipts : receiptId ∉ (re_receiptId <$> reservation_receipts (ledger s));
  rf_statuses : receiptId ∉ (ss_receiptId <$> reservation_statuses (ledger s));
  rf_ledger : exists fingerprint id ev out,
    ledger s' = with_receipt (ledger s) (receipt_of_command c receiptId fingerprint id ev out t)
      (reserved_row c receiptId) (watermark_of_command c receiptId <$> rs_inventoryWatermarks c);
}.

Lemma reserve_run_effect env c t f s s' status :
  NoDup (day_key <$> inventory_days s) -> 1 <= rs_roomCount c ->
  reserve_run env c t f s s' status ->
  exists receiptId, normalizeUuid f = Some receiptId /\ status = statusFromReserve c receiptId t /\
    reserve_effect c t receiptId s s'.
Proof.
  intros Hnd Hc [id days cap receiptId ev s0 s1 s2 kh fp result _
    Hj0%reserveIdempotency_journal _ Hd Hv Hb Hid -> Hr Hcomp%completeReserve_journal].
  exists receiptId. split_and!; [done..|].
  pose proof (reserve_days_bookable _ _ _ _ Hc Hd Hv) as Hbook.
  pose proof (booked_inventory _ _ _ _ _ _ _ _ _ Hnd Hj0 Hbook Hb) as ->.
  apply recorded_effect in Hr as (out & Hfr & Hft & Hab).
  apply (after_booking_journal _ _ _ _ Hab) in Hcomp as (Hcat & Hi & Hl).
  destruct Hj0 as (Hc0 & Hi0 & Hl0). cbn in *. rewrite Hl0 in *. rewrite Hc0 in *.
  constructor; try done. by eexists _, _, _, _.
Qed.

(** A successful release: the nights of the held stay given back, the linked
    update, and the status moved. *)
Record release_effect (c : PmsInventoryReservationReleaseCommand)
    (status : PmsInventoryReservationStatus) (t : Z) (s s' : Store) : Prop := {
  lf_catalog : catalog s' = catalog s;
  lf_inventory : Forall2 linked_row
    (book_stay (st_propertyId status) (st_roomTypeId status) (st_checkIn status)
       (st_checkOut status) (- st_roomCount status) (inventory_days s)) (inventory_days s');
  lf_ledger : exists fingerprint id ev out,
    let step := release_row c (rc_receiptId (st_receipt status)) fingerprint id ev out t in
    (exists n, omap step (reservation_statuses (ledger s)) = [n] /\
     release_accepted (ledger s) n = true) /\
    ledger s' = {| reservation_receipts := reservation_receipts (ledger s);
      reservation_statuses := (fun x => default x (step x)) <$> reservation_statuses (ledger s);
      reservation_watermarks := reservation_watermarks (ledger s) |};
}.

Lemma release_run_effect env c t s s' status :
  NoDup (day_key <$> inventory_days s) -> 1 <= st_roomCount status ->
  release_run env c t s s' status -> release_effect c status t s s'.
Proof.
  intros Hnd Hc [id days cap ev s0 s1 s2 kh result Hst Hres
    Hj0%reserveIdempotency_journal Hd Hv Hb Hr Hcomp%finalizeRelease_journal].
  pose proof (release_days_bookable _ _ _ _ Hc Hd Hv) as Hbook.
  pose proof (booked_inventory _ _ _ _ _ _ _ _ _ Hnd Hj0 Hbook Hb) as ->.
  apply release_recorded_effect in Hr as (out & Hn & Hab).
  apply (after_booking_journal _ _ _ _ Hab) in Hcomp as (Hcat & Hi & Hl).
  destruct Hj0 as (Hc0 & Hi0 & Hl0). cbn in *. rewrite Hl0 in *. rewrite Hc0 in *.
  constructor; try done. eexists _, _, _, _. split; [exact Hn | exact Hl].
Qed.
