(* ===== verification/ReservationBalance.v ===== *)
(** * The ledger and the inventory agree

    For every night of every room type, the rooms assigned in the inventory and
    the rooms of the receipts still held differ by a constant: each command
    moves both by the same amount, or neither. *)

From S2P Require Import Prelude JsValue JsonText CalendarDates OperatingSchedule OperatingCalendar InventoryPlanner ReservationLifecycle ReservationRows ReservationStore LinkedInventory ReservationRepository ReservationBooking ReservationRuns ReservationLedger.

(** ** The status of a receipt *)

Lemma status_fields v s :
  parsePmsInventoryReservationStatus v = Some s ->
  as_uuid (get v "organizationId") = Some (st_organizationId s) /\
  as_uuid (get v "propertyId") = Some (st_propertyId s) /\
  as_uuid (get v "roomTypeId") = Some (st_roomTypeId s) /\
  as_integer (get v "roomCount") 1 500 = Some (st_roomCount s) /\
  as_string (get v "checkIn") = Some (st_checkIn s) /\
  as_string (get v "checkOut") = Some (st_checkOut s) /\
  parsePmsInventoryReservationReceipt (get v "receipt") = Some (st_receipt s) /\
  parse_state v (st_reservedAt s) = Some (st_state s).
Proof.
  unfold parsePmsInventoryReservationStatus. cbv zeta. intros H.
  assert (Hd : forall a b d, parseDateRange a b = Some d ->
    as_string a = Some (dr_checkIn d) /\ as_string b = Some (dr_checkOut d)).
  { unfold parseDateRange. intros a b d Hd. by follow Hd. }
  do 14 (break_match_in H; try discriminate H).
  all: repeat (break_match_in H; try discriminate H); injection H as <-; cbn.
  all: match goal with E : parseDateRange _ _ = Some _ |- _ => apply Hd in E as [-> ->] end.
  all: by split_and!.
Qed.

(** What a decoded status says of the rows it was read from *)
Record status_of_root (r : receipt_row) (t : status_row) (s : PmsInventoryReservationStatus) : Prop := {
  sr_receiptId : as_uuid (VString (re_receiptId r)) = Some (rc_receiptId (st_receipt s));
  sr_organizationId : as_uuid (VString (re_organizationId r)) = Some (st_organizationId s);
  sr_propertyId : as_uuid (VString (re_propertyId r)) = Some (st_propertyId s);
  sr_roomTypeId : as_uuid (VString (re_roomTypeId r)) = Some (st_roomTypeId s);
  sr_checkIn : st_checkIn s = re_checkIn r;
  sr_checkOut : st_checkOut s = re_checkOut r;
  sr_roomCount : st_roomCount s = re_roomCount r;
  sr_positive : 1 <= st_roomCount s;
  sr_state : ss_lifecycleState t = state_text (st_state s);
}.

Lemma databaseDate_Some s d : as_string (date_value (ColText s)) = Some d -> d = s.
Proof. unfold date_value. cbn. destruct (canonicalDate s); [by intros [= <-] | done]. Qed.

Lemma parse_state_text v state reservedAt x :
  get v "state" = VString state -> state = "reserved" \/ state = "released" \/ state = "handed_off" ->
  parse_state v reservedAt = Some x -> state = state_text x.
Proof.
  unfold parse_state. intros -> Hs H. unfold is_str in H. cbn in H.
  destruct (String.eqb_spec state "reserved"); [by injection H as <-|].
  destruct (String.eqb_spec state "released");
    (destruct (transition_at v _ _); [|done]; injection H as <-; cbn; tauto).
Qed.

Lemma status_of_root_rows r t ws s :
  reservationStatusFromRows (root_columns (r, t)) ws = Some s -> status_of_root r t s.
Proof.
  unfold reservationStatusFromRows. intros H. cbn [root_columns rr_receiptId rr_contractVersion rr_receiptOwner rr_organizationId rr_propertyId
    rr_roomTypeId rr_checkIn rr_checkOut rr_roomCount rr_quoteSessionId rr_publicOfferKey
    rr_calendarRevision rr_materializedRevision rr_reservedAt rr_lifecycleState
    rr_lifecycleRevision rr_releasedAt rr_handedOffAt] in H.
  destruct (positiveDatabaseInteger _); [|discriminate]. destruct (_ && _); [|discriminate].
  destruct (createPmsOperatingCalendarSourceRevision _ _); [|discriminate].
  set (v := obj _) in H.
  assert (Hstate : ss_lifecycleState t = "reserved" \/ ss_lifecycleState t = "released" \/
                   ss_lifecycleState t = "handed_off").
  { unfold parsePmsInventoryReservationStatus in H. destruct (plainDataRecord v); [|done].
    cbv zeta in H. destruct (_ || _) eqn:Es in H; [|done].
    change (get v "state") with (VString (ss_lifecycleState t)) in Es. unfold is_str in Es.
    rewrite !orb_true_iff, !String.eqb_eq in Es. tauto. }
  apply status_fields in H as (Ho & Hp & Hr & Hc & Hi & Hout & Hrec & Hst).
  apply (parse_state_text _ (ss_lifecycleState t)) in Hst; [|done..].
  apply databaseDate_Some in Hi. apply databaseDate_Some in Hout.
  unfold parsePmsInventoryReservationReceipt in Hrec. follow Hrec.
  apply as_integer_Some in Hc as (Hc & _ & ?). change (VInt (re_roomCount r) = VInt (st_roomCount s)) in Hc.
  injection Hc as Hc. constructor; try done; try (rewrite <- Hrec; exact E2); lia.
Qed.

Lemma canonical_text s : canonical_uuid s = true -> forall x, as_uuid (VString s) = Some x -> x = s.
Proof. intros H x Hx. rewrite (as_uuid_canonical _ H) in Hx. by injection Hx. Qed.

(** The receipt and the status row a status was read from; there is one of each. *)
Lemma status_of_receipt_Some l receiptId organizationId propertyId s :
  status_of_receipt l receiptId organizationId propertyId = Some s ->
  exists r t, List.filter (receipt_is receiptId organizationId propertyId) (reservation_receipts l) = [r] /\
    List.filter (status_is receiptId organizationId propertyId) (reservation_statuses l) = [t] /\
    status_of_root r t s.
Proof.
  unfold status_of_receipt. set (rs := List.filter (receipt_is _ _ _) _).
  set (ts := List.filter (status_is _ _ _) _).
  intros H. destruct rs as [|r [|r2 rs]]; cbn in H; [discriminate| |].
  - rewrite app_nil_r in H. destruct ts as [|t [|]]; cbn in H; try discriminate.
    exists r, t. split_and!; [done..|]. by eapply status_of_root_rows.
  - destruct ts as [|t [|]]; cbn in H; try discriminate. exfalso.
    clear -H. induction rs; cbn in H; [discriminate | by apply IHrs].
Qed.

Lemma filter_single {A} (f : A -> bool) l x :
  List.filter f l = [x] -> x ∈ l /\ f x = true /\ forall y, y ∈ l -> f y = true -> y = x.
Proof.
  intros H. assert (Hin : In x (List.filter f l)) by (rewrite H; by left).
  apply List.filter_In in Hin as [Hx Hf]. apply list_elem_of_In in Hx. split_and!; [done..|].
  intros y Hy Hfy. assert (Hin : In y (List.filter f l))
    by (apply List.filter_In; split; [by apply list_elem_of_In | done]).
  rewrite H in Hin. by destruct Hin as [->|[]].
Qed.

(** ** Rooms held by the ledger *)

Definition status_of_row (r : receipt_row) : status_row -> bool :=
  status_is (re_receiptId r) (re_organizationId r) (re_propertyId r).

(** A receipt whose reservation is neither released nor handed off *)
Definition held (l : ledger_tables) (r : receipt_row) : bool :=
  existsb (fun t => status_of_row r t && String.eqb (ss_lifecycleState t) "reserved")
    (reservation_statuses l).

Definition night_of (r : receipt_row) : inventory_day -> bool :=
  in_stay (re_propertyId r) (re_roomTypeId r) (re_checkIn r) (re_checkOut r).

Definition held_rooms (l : ledger_tables) (day : inventory_day) (r : receipt_row) : Z :=
  if held l r && night_of r day then re_roomCount r else 0.

(** The rooms of the held receipts of a night *)
Definition reserved_rooms (l : ledger_tables) (day : inventory_day) : Z :=
  sum_of (held_rooms l day) (reservation_receipts l).

(** What the inventory counts as assigned beyond the held receipts, per night *)
Definition balance (s : Store) : list (string * string * string * Z) :=
  (fun day => (day_key day, id_assignedCount day - reserved_rooms (ledger s) day)) <$>
    inventory_days s.

(** What the primary keys, the foreign key of the watermarks and the receipts'
    own checks give *)
Record store_ok (s : Store) : Prop := {
  ok_days : NoDup (day_key <$> inventory_days s);
  ok_receipts : NoDup (re_receiptId <$> reservation_receipts (ledger s));
  ok_rooms : Forall (fun r => canonical_uuid (re_roomTypeId r) = true)
    (reservation_receipts (ledger s));
  ok_watermarks : Forall (fun w => wk_receiptId w ∈ (re_receiptId <$> reservation_receipts (ledger s)))
    (reservation_watermarks (ledger s));
}.

Lemma sum_of_update {A} (f g : A -> Z) (key : A -> string) l x :
  NoDup (key <$> l) -> x ∈ l -> (forall y, y ∈ l -> key y <> key x -> g y = f y) ->
  sum_of g l = sum_of f l + (g x - f x).
Proof.
  induction l as [|y l IH]; [by intros _ ?%elem_of_nil|].
  rewrite fmap_cons, NoDup_cons, elem_of_cons. intros [Hy Hnd] Hx Ho. cbn.
  destruct Hx as [->|Hx].
  - assert (sum_of g l = sum_of f l) as E; [|fold (sum_of f l); fold (sum_of g l); lia].
    apply sum_of_ext. intros z Hz. apply Ho; [set_solver|]. intros E. apply Hy. rewrite <- E.
    by apply list_elem_of_fmap_2.
  - fold (sum_of f l); fold (sum_of g l). rewrite IH; [|done..|intros; apply Ho; set_solver].
    rewrite (Ho y); [lia|set_solver|]. intros E. apply Hy. rewrite E. by apply list_elem_of_fmap_2.
Qed.

(** Only the key of a day decides which stays it belongs to. *)
Lemma in_stay_key p room i o r r' : day_key r = day_key r' -> in_stay p room i o r = in_stay p room i o r'.
Proof. unfold day_key, in_stay. intros [= -> -> ->]. done. Qed.

Lemma reserved_rooms_key l r r' : day_key r = day_key r' -> reserved_rooms l r = reserved_rooms l r'.
Proof.
  intros H. apply sum_of_ext. intros x _. unfold held_rooms, night_of.
  by rewrite (in_stay_key _ _ _ _ _ _ H).
Qed.

(** Booking [delta] rooms and moving the held receipts by the same keeps the
    balance. *)
Lemma balance_moves p room i o delta s s' :
  Forall2 linked_row (book_stay p room i o delta (inventory_days s)) (inventory_days s') ->
  (forall day, day ∈ inventory_days s -> reserved_rooms (ledger s') day =
    reserved_rooms (ledger s) day + (if in_stay p room i o day then delta else 0)) ->
  balance s' = balance s.
Proof.
  unfold balance, book_stay. intros Hrows Hmove. revert Hrows.
  generalize (inventory_days s'). revert Hmove.
  induction (inventory_days s) as [|day days IH]; intros Hmove rows Hrows;
    rewrite ?fmap_cons in *.
  - by inversion Hrows.
  - inversion Hrows as [|? row ? rows' [Hk Ha _ _ _] Hrows']; subst.
    rewrite fmap_cons. f_equal; [|apply IH; [|done]; intros; apply Hmove; set_solver].
    assert (Hk' : day_key row = day_key day) by (rewrite Hk; by destruct (in_stay _ _ _ _ day)).
    rewrite Hk', Ha, (reserved_rooms_key _ _ _ Hk'), Hmove by set_solver.
    destruct (in_stay _ _ _ _ day); cbn [booked id_assignedCount]; f_equal; lia.
Qed.

Lemma inventory_keys p room i o delta s s' :
  Forall2 linked_row (book_stay p room i o delta (inventory_days s)) (inventory_days s') ->
  day_key <$> inventory_days s' = day_key <$> inventory_days s.
Proof.
  intros H. rewrite <- (book_stay_keys p room i o delta (inventory_days s)).
  induction H as [|r r' rows rows' [Hk _ _ _ _] _ IH]; rewrite ?fmap_cons; [done|].
  by rewrite Hk, IH.
Qed.

(** ** A reservation moves the ledger as it moves the inventory *)

Lemma status_is_id receiptId o p t : status_is receiptId o p t = true -> ss_receiptId t = receiptId.
Proof. unfold status_is. intros H. by bool_to_prop. Qed.

(** The status of a new receipt is not one of an earlier receipt. *)
Lemma held_app l r0 t ws x :
  re_receiptId x <> ss_receiptId t -> held (with_receipt l r0 t ws) x = held l x.
Proof.
  intros Hne. unfold held. cbn. rewrite existsb_app. cbn.
  replace (status_of_row x t) with false; [by rewrite !orb_false_r|].
  symmetry. apply not_true_iff_false. intros H. apply Hne. by apply status_is_id in H.
Qed.

Lemma reserve_moves c receiptId t f id ev out l day :
  receiptId ∉ (re_receiptId <$> reservation_receipts l) ->
  let r := receipt_of_command c receiptId f id ev out t in
  let ws := watermark_of_command c receiptId <$> rs_inventoryWatermarks c in
  reserved_rooms (with_receipt l r (reserved_row c receiptId) ws) day =
  reserved_rooms l day +
    (if in_stay (rs_propertyId c) (rs_roomTypeId c) (rs_checkIn c) (rs_checkOut c) day
     then rs_roomCount c else 0).
Proof.
  intros Hfresh r ws. unfold reserved_rooms. cbn [with_receipt reservation_receipts].
  rewrite sum_of_app. f_equal.
  - apply sum_of_ext. intros x Hx. unfold held_rooms. rewrite held_app; [done|]. cbn. intros E.
    apply Hfresh. rewrite <- E. by apply list_elem_of_fmap_2.
  - unfold sum_of, held_rooms. cbn [foldr].
    assert (held (with_receipt l r (reserved_row c receiptId) ws) r = true) as ->.
    { unfold held. cbn. rewrite existsb_app. apply orb_true_iff. right. cbn.
      unfold status_of_row, status_is. cbn. by rewrite !String.eqb_refl. }
    unfold night_of. cbn. destruct (in_stay _ _ _ _ day); lia.
Qed.

Lemma reserve_effect_balance c t receiptId s s' :
  store_ok s -> canonical_uuid (rs_roomTypeId c) = true -> reserve_effect c t receiptId s s' ->
  store_ok s' /\ balance s' = balance s.
Proof.
  intros [Hd Hr Hc Hw] Hroom [Hcat Hinv Hfr Hft (f & id & ev & out & Hl)]. split.
  - constructor.
    + by rewrite (inventory_keys _ _ _ _ _ _ _ Hinv).
    + rewrite Hl. cbn. rewrite fmap_app. apply NoDup_app. split_and!; [done| |apply NoDup_singleton].
      intros x Hx Hx'. apply list_elem_of_singleton in Hx' as ->. by apply Hfr.
    + rewrite Hl. cbn. apply Forall_app. split; [done|]. by repeat constructor.
    + rewrite Hl. cbn. rewrite fmap_app. apply Forall_app. split.
      * eapply Forall_impl; [exact Hw|]. intros w Hin. apply elem_of_app. by left.
      * apply Forall_fmap, Forall_forall. intros w _. apply elem_of_app. right. by left.
  - eapply balance_moves; [exact Hinv|]. intros day _. rewrite Hl. by apply reserve_moves.
Qed.

(** ** A release moves it back *)

Section Release.
Context (c : PmsInventoryReservationReleaseCommand) (receiptId fp : string) (id ev out : nat) (t : Z).
Context (l : ledger_tables) (r0 : receipt_row) (t0 n : status_row).

Let step := release_row c receiptId fp id ev out t.

Definition with_released : ledger_tables := {|
  reservation_receipts := reservation_receipts l;
  reservation_statuses := (fun x => default x (step x)) <$> reservation_statuses l;
  reservation_watermarks := reservation_watermarks l |}.

Lemma release_step_Some x y :
  step x = Some y -> status_is receiptId (rl_organizationId c) (rl_propertyId c) x = true /\
    ss_receiptId y = ss_receiptId x /\ ss_organizationId y = ss_organizationId x /\
    ss_propertyId y = ss_propertyId x /\ ss_lifecycleState y = "released".
Proof.
  unfold step, release_row. destruct (_ && _ && _) eqn:E; [|done]. intros [= <-]. bool_to_prop. done.
Qed.

Context (Hnd : NoDup (re_receiptId <$> reservation_receipts l)) (Hr0 : r0 ∈ reservation_receipts l).
Context (Hone : List.filter (status_of_row r0) (reservation_statuses l) = [t0]).
Context (Hrow : re_receiptId r0 = receiptId /\ re_organizationId r0 = rl_organizationId c /\
                re_propertyId r0 = rl_propertyId c).
Context (Hres : ss_lifecycleState t0 = "reserved").
Context (Hn : omap step (reservation_statuses l) = [n]).

Lemma step_status x y : step x = Some y -> status_of_row r0 x = true.
Proof. intros [H _]%release_step_Some. unfold status_of_row. by destruct Hrow as (-> & -> & ->). Qed.

Lemma step_released : step t0 = Some n.
Proof.
  assert (Hin : n ∈ omap step (reservation_statuses l)) by (rewrite Hn; by left).
  apply list_elem_of_omap in Hin as (x & Hx & E). pose proof (step_status _ _ E) as Hs.
  apply filter_single in Hone as (_ & _ & Huniq). by rewrite <- (Huniq x Hx Hs).
Qed.

(** The release ends the hold of its receipt. *)
Lemma held_released : held l r0 = true /\ held with_released r0 = false.
Proof.
  pose proof (filter_single _ _ _ Hone) as (Ht0 & Hst0 & Huniq). split.
  - unfold held. apply existsb_exists. exists t0. split; [by apply list_elem_of_In|].
    by rewrite Hst0, Hres.
  - apply not_true_iff_false. unfold held. rewrite existsb_exists. intros (y & Hy & E).
    apply list_elem_of_In, list_elem_of_fmap in Hy as (x & -> & Hx). apply andb_true_iff in E as [Hs E].
    destruct (step x) as [y|] eqn:Est; cbn in Hs, E.
    + apply release_step_Some in Est as (_ & _ & _ & _ & Hy). by rewrite Hy in E.
    + rewrite (Huniq x Hx Hs), step_released in Est. discriminate.
Qed.

(** It ends no other. *)
Lemma held_others r : re_receiptId r <> receiptId -> held with_released r = held l r.
Proof.
  clear Hone Hn. intros Hne. unfold held, with_released. cbn [reservation_statuses].
  induction (reservation_statuses l) as [|x xs IH]; [done|]. rewrite fmap_cons. cbn [existsb].
  rewrite IH. f_equal. destruct (step x) as [y|] eqn:Est; [|done]. cbn.
  apply release_step_Some in Est as (Hs & Hy & _). apply status_is_id in Hs.
  unfold status_of_row, status_is. rewrite Hy, Hs.
  by rewrite (proj2 (String.eqb_neq receiptId (re_receiptId r))) by congruence.
Qed.

Lemma release_moves day :
  reserved_rooms with_released day =
  reserved_rooms l day + (if night_of r0 day then - re_roomCount r0 else 0).
Proof.
  destruct Hrow as (Hid & _ & _). destruct held_released as [Hh Hh'].
  unfold reserved_rooms. cbn [with_released reservation_receipts].
  rewrite (sum_of_update (held_rooms l day) _ re_receiptId _ r0 Hnd Hr0).
  - unfold held_rooms. rewrite Hh, Hh'. destruct (night_of r0 day); cbn; lia.
  - intros y _ Hne. unfold held_rooms. rewrite held_others by congruence. done.
Qed.
End Release.

Lemma release_effect_balance c status t s s' :
  store_ok s -> canonical_uuid (rc_receiptId (rl_receipt c)) = true ->
  canonical_uuid (rl_propertyId c) = true ->
  status_of_receipt (ledger s) (rc_receiptId (rl_receipt c)) (rl_organizationId c) (rl_propertyId c) =
    Some status -> st_state status = Reserved ->
  release_effect c status t s s' -> store_ok s' /\ balance s' = balance s.
Proof.
  intros [Hd Hr Hc Hw] Hcr Hcp (r0 & t0 & Hr1 & Ht1 & [])%status_of_receipt_Some Hres
    [Hcat Hinv (f & id & ev & out & (n & Hn & _) & Hl)].
  pose proof (filter_single _ _ _ Hr1) as (Hr0 & Hm & _). unfold receipt_is in Hm. bool_to_prop.
  match goal with H : re_receiptId r0 = _ |- _ => rename H into Hid end.
  match goal with H : re_propertyId r0 = _ |- _ => rename H into Hp end.
  match goal with H : re_organizationId r0 = _ |- _ => rename H into Ho end.
  rewrite Hid in sr_receiptId0. apply (canonical_text _ Hcr) in sr_receiptId0.
  rewrite Hp in sr_propertyId0. apply (canonical_text _ Hcp) in sr_propertyId0.
  apply canonical_text in sr_roomTypeId0; [|rewrite Forall_forall in Hc; by apply Hc].
  rewrite sr_receiptId0 in Hn, Hl. split.
  - constructor.
    + by rewrite (inventory_keys _ _ _ _ _ _ _ Hinv).
    + by rewrite Hl.
    + by rewrite Hl.
    + by rewrite Hl.
  - eapply balance_moves; [exact Hinv|]. intros day _. rewrite Hl, sr_roomCount0, sr_propertyId0,
      sr_roomTypeId0, sr_checkIn0, sr_checkOut0, <- Hp.
    eapply release_moves; eauto.
    + unfold status_of_row. by rewrite Hid, Ho, Hp.
    + by rewrite sr_state0, Hres.
Qed.
