(* ===== verification/ReservationReadBack.v ===== *)
(** * Reading a reservation back

    The status that a reservation returned is the status its rows decode to, and
    the one a release returned is what the rows decode to after it. *)

From S2P Require Import Prelude JsValue JsonText CalendarDates OperatingSchedule OperatingCalendar InventoryPlanner ReservationLifecycle ReservationRows ReservationStore LinkedInventory ReservationRepository ReservationBooking ReservationRuns ReservationLedger ReservationBalance.

(** ** The parser of a status reads its fields only *)

Lemma parse_status_same v w :
  plainDataRecord v = true -> plainDataRecord w = true ->
  (forall k, k ∈ STATUS_KEYS ++ ["releasedAt"; "handedOffAt"] -> get v k = get w k) ->
  exactDataRecord v (STATUS_KEYS ++ state_keys (get w "state")) =
    exactDataRecord w (STATUS_KEYS ++ state_keys (get w "state")) ->
  parsePmsInventoryReservationStatus v = parsePmsInventoryReservationStatus w.
Proof.
  intros Hv Hw Hg He.
  assert (Hk : forall k, bool_decide (k ∈ STATUS_KEYS ++ ["releasedAt"; "handedOffAt"]) = true ->
    get v k = get w k) by (intros k Hk; apply Hg; by apply bool_decide_eq_true in Hk).
  unfold parsePmsInventoryReservationStatus, parse_state, transition_at. cbv zeta.
  rewrite Hv, Hw, !(Hk "state"), He by reflexivity.
  rewrite !(Hk "organizationId"), !(Hk "propertyId"), !(Hk "roomTypeId"), !(Hk "roomCount"),
    !(Hk "materializedRevision"), !(Hk "lifecycleRevision"), !(Hk "reservedAt"), !(Hk "checkIn"),
    !(Hk "checkOut"), !(Hk "receipt"), !(Hk "offerCorrelation"), !(Hk "configurationSource"),
    !(Hk "reservationWatermarks"), !(Hk "releasedAt"), !(Hk "handedOffAt") by reflexivity.
  done.
Qed.

(** ** What an accepted command holds *)

Record command_parts (c : PmsInventoryReservationReserveCommand) (d : DateRange) : Prop := {
  cp_organizationId : as_uuid (VString (rs_organizationId c)) = Some (rs_organizationId c);
  cp_propertyId : as_uuid (VString (rs_propertyId c)) = Some (rs_propertyId c);
  cp_roomTypeId : as_uuid (VString (rs_roomTypeId c)) = Some (rs_roomTypeId c);
  cp_roomCount : as_integer (VInt (rs_roomCount c)) 1 500 = Some (rs_roomCount c);
  cp_expected : positiveRevision (VInt (rs_expectedMaterializedRevision c)) =
    Some (rs_expectedMaterializedRevision c);
  cp_dates : parseDateRange (VString (rs_checkIn c)) (VString (rs_checkOut c)) = Some d;
  cp_checkIn : dr_checkIn d = rs_checkIn c;
  cp_checkOut : dr_checkOut d = rs_checkOut c;
  cp_offer : parseOfferCorrelation (offer_value (rs_offerCorrelation c)) = Some (rs_offerCorrelation c);
  cp_source : parseStrictConfigurationSource (source_value (rs_configurationSource c)) =
    Some (rs_configurationSource c);
  cp_entity : String.eqb (sr_entityId (rs_configurationSource c)) (rs_propertyId c) = true;
  cp_revision : (sourceRevisionNumber (rs_configurationSource c) =?
    rs_expectedMaterializedRevision c) = true;
  cp_watermarks : parseWatermarks (arr (watermark_value <$> rs_inventoryWatermarks c))
    (rs_propertyId c) (rs_roomTypeId c) d (rs_expectedMaterializedRevision c) =
    Some (rs_inventoryWatermarks c);
}.

Lemma reserve_command_parts v c :
  parsePmsInventoryReservationReserveCommand v = Some c -> exists d, command_parts c d.
Proof.
  intros H%reserve_command_reparse. revert H.
  unfold parsePmsInventoryReservationReserveCommand at 1. intros H.
  destruct (exactDataRecord _ _); [|discriminate].
  change (get (reserve_command_value c) "organizationId") with (VString (rs_organizationId c)) in H.
  change (get (reserve_command_value c) "propertyId") with (VString (rs_propertyId c)) in H.
  change (get (reserve_command_value c) "roomTypeId") with (VString (rs_roomTypeId c)) in H.
  change (get (reserve_command_value c) "roomCount") with (VInt (rs_roomCount c)) in H.
  change (get (reserve_command_value c) "expectedMaterializedRevision")
    with (VInt (rs_expectedMaterializedRevision c)) in H.
  change (get (reserve_command_value c) "checkIn") with (VString (rs_checkIn c)) in H.
  change (get (reserve_command_value c) "checkOut") with (VString (rs_checkOut c)) in H.
  change (get (reserve_command_value c) "offerCorrelation")
    with (offer_value (rs_offerCorrelation c)) in H.
  change (get (reserve_command_value c) "configurationSource")
    with (source_value (rs_configurationSource c)) in H.
  change (get (reserve_command_value c) "inventoryWatermarks")
    with (arr (watermark_value <$> rs_inventoryWatermarks c)) in H.
  repeat (break_match_in H; try discriminate H). injection H as H. destruct c; cbn in *.
  injection H; intros; subst. eexists. by constructor.
Qed.

(** ** The status of a command's receipt *)

(** The status of a receipt of the command, in a given state *)
Definition status_in (c : PmsInventoryReservationReserveCommand) (receiptId : string) (reservedAt : Z)
    (state : PmsInventoryReservationLifecycleState) : PmsInventoryReservationStatus :=
  {| st_receipt := {| rc_receiptId := receiptId |};
     st_organizationId := rs_organizationId c; st_propertyId := rs_propertyId c;
     st_roomTypeId := rs_roomTypeId c; st_checkIn := rs_checkIn c;
     st_checkOut := rs_checkOut c; st_roomCount := rs_roomCount c;
     st_offerCorrelation := rs_offerCorrelation c;
     st_configurationSource := rs_configurationSource c;
     st_materializedRevision := rs_expectedMaterializedRevision c;
     st_reservationWatermarks := rs_inventoryWatermarks c;
     st_reservedAt := to_iso_string reservedAt; st_state := state |}.

(** A state reached at a readable time, not before the reservation *)
Definition state_ok (reservedAt : Z) (state : PmsInventoryReservationLifecycleState) : Prop :=
  match state with
  | Reserved => True
  | Released t | HandedOff t =>
      exists n, t = to_iso_string n /\ four_digit_instant n /\ reservedAt <= n
  end.

Lemma receipt_value_parse receiptId :
  canonical_uuid receiptId = true ->
  parsePmsInventoryReservationReceipt (receipt_value {| rc_receiptId := receiptId |}) =
    Some {| rc_receiptId := receiptId |}.
Proof.
  intros H. unfold parsePmsInventoryReservationReceipt, receipt_value. cbn.
  by rewrite !as_literal_refl, (as_uuid_canonical _ H).
Qed.

Lemma status_in_parse c d receiptId reservedAt state :
  command_parts c d -> canonical_uuid receiptId = true -> four_digit_instant reservedAt ->
  state_ok reservedAt state ->
  parsePmsInventoryReservationStatus (status_value (status_in c receiptId reservedAt state)) =
    Some (status_in c receiptId reservedAt state).
Proof.
  intros [] Hid Ht Hst. unfold parsePmsInventoryReservationStatus, status_value. cbv zeta.
  assert (Hiso : isoDateTime (VString (to_iso_string reservedAt)) = Some (to_iso_string reservedAt))
    by by apply isoDateTime_print.
  destruct state as [|t|t]; cbn [st_state state_text lifecycleRevision status_in]; cbn;
    rewrite cp_organizationId0, cp_propertyId0, cp_roomTypeId0, cp_roomCount0, cp_expected0, Hiso, cp_dates0,
      (receipt_value_parse _ Hid), cp_offer0, cp_source0, cp_entity0, cp_revision0, cp_watermarks0;
    unfold parse_state, transition_at; cbn; rewrite ?cp_checkIn0, ?cp_checkOut0; try done;
    destruct Hst as (n & -> & Hn & Hle);
    rewrite (isoDateTime_print _ Hn), !instant_of_print, (proj2 (Z.ltb_ge _ _) Hle) by done;
    done.
Qed.

(** ** The rows of a receipt decode to its status *)

(** A status row that carries a state *)
Definition row_in_state (row : status_row) (state : PmsInventoryReservationLifecycleState) : Prop :=
  ss_lifecycleState row = state_text state /\ ss_lifecycleRevision row = lifecycleRevision state /\
  match state with
  | Reserved => True
  | Released t => exists n, t = to_iso_string n /\ ss_releasedAt row = Some n
  | HandedOff t => exists n, t = to_iso_string n /\ ss_handedOffAt row = Some n
  end.

Lemma create_source_of_parts c d :
  command_parts c d ->
  createPmsOperatingCalendarSourceRevision (rs_propertyId c) (rs_expectedMaterializedRevision c) =
    Ret (rs_configurationSource c).
Proof.
  intros []. unfold createPmsOperatingCalendarSourceRevision. rewrite cp_propertyId0.
  unfold serializePmsOperatingCalendarSourceRevision.
  unfold positiveRevision in cp_expected0. rewrite cp_expected0. cbn [exn_bind].
  apply String.eqb_eq in cp_entity0. apply Z.eqb_eq in cp_revision0.
  unfold parseStrictConfigurationSource, parsePmsOperatingCalendarSourceRevision in cp_source0.
  destruct (rs_configurationSource c) as [id rev]. cbn in *. follow cp_source0.
  match goal with H : calendarRevision rev = Some _ |- _ => pose proof H as Hrev end.
  unfold calendarRevision in Hrev. apply prefixed_revision_Some in Hrev as [-> Hn].
  unfold sourceRevisionNumber, revision_text in cp_revision0. cbn [sr_revision] in cp_revision0.
  rewrite strip_prefix_app, Z_to_string_pos, string_to_N_print in cp_revision0 by lia. cbn in cp_revision0.
  rewrite Z2N.id in cp_revision0 by lia. congruence.
Qed.

Lemma as_iso_date_canonical s n : isoDateTimestamp (VString s) = Some n -> databaseDate (ColText s) = Some s.
Proof. intros H. cbn. by rewrite (proj2 (canonicalDate_timestamp s) (ex_intro _ n H)). Qed.

Lemma stay_dates_canonical first n :
  timestamp_day first -> timestamp_day (first + n) ->
  Forall (fun s => databaseDate (ColText s) = Some s) (dates_from first n).
Proof.
  unfold timestamp_day. intros Hf Hn. apply Forall_forall. intros s (k & -> & Hk)%elem_of_dates_from.
  eapply as_iso_date_canonical, timestamp_iso_date. lia.
Qed.

Lemma stay_dates_sorted first n :
  0 <= n -> timestamp_day first -> timestamp_day (first + n) ->
  sorted_by str_lt (dates_from first n) = true.
Proof.
  intros H0 Hf Hn. rewrite <- (Z2Nat.id n H0). apply dates_from_sorted.
  intros k Hk. apply timestamp_four_digit. unfold timestamp_day in *. lia.
Qed.

(** The watermarks of a command that asks for canonical dates are the nights of
    the stay, in order. *)
Lemma stay_watermark_dates c d dates :
  command_parts c d -> stayDates (rs_checkIn c) (rs_checkOut c) = Some dates ->
  Forall (fun w => databaseDate (ColText (wm_stayDate w)) = Some (wm_stayDate w))
    (rs_inventoryWatermarks c) /\
  sorted_by str_lt (wm_stayDate <$> rs_inventoryWatermarks c) = true /\
  databaseDate (ColText (rs_checkIn c)) = Some (rs_checkIn c) /\
  databaseDate (ColText (rs_checkOut c)) = Some (rs_checkOut c).
Proof.
  intros [] (first & n & Hi & Ho & Hn & ->)%stayDates_Some.
  apply date_range_spec in cp_dates0 as (Hdi & Hdo & _).
  rewrite cp_checkIn0, (timestamp_epoch_day _ _ Hi) in Hdi. injection Hdi as Hdi.
  rewrite cp_checkOut0, (timestamp_epoch_day _ _ Ho) in Hdo. injection Hdo as Hdo.
  apply parse_watermarks_spec in cp_watermarks0 as [Hw _].
  assert (wm_stayDate <$> rs_inventoryWatermarks c = dates_from first n) as Hd
    by (rewrite Hw; f_equal; lia).
  pose proof (timestamp_range _ _ Hi). pose proof (timestamp_range _ _ Ho).
  split_and!; [| |by eapply as_iso_date_canonical..].
  - pose proof (stay_dates_canonical first n ltac:(done) ltac:(done)) as Hc.
    rewrite <- Hd in Hc. by apply Forall_fmap in Hc.
  - rewrite Hd. apply stay_dates_sorted; [lia|done..].
Qed.

(** A watermark of the command, written and read, is the same value. *)
Lemma watermark_row_round c receiptId w :
  wm_propertyId w = rs_propertyId c -> wm_roomTypeId w = rs_roomTypeId c ->
  databaseDate (ColText (wm_stayDate w)) = Some (wm_stayDate w) ->
  watermark_row_value (watermark_columns (watermark_of_command c receiptId w)) = watermark_value w.
Proof.
  intros Hp Hr Hd. unfold watermark_row_value, watermark_columns, watermark_of_command, watermark_value,
    date_value. cbn [wr_stayDate wk_stayDate wr_propertyId wr_roomTypeId wk_propertyId wk_roomTypeId].
  rewrite Hd, Hp, Hr. reflexivity.
Qed.

(** The rows written for a command decode to the status of its receipt. *)
Lemma rows_read_back c d dates receiptId f id ev out reservedAt row state :
  command_parts c d -> stayDates (rs_checkIn c) (rs_checkOut c) = Some dates ->
  canonical_uuid receiptId = true -> four_digit_instant reservedAt ->
  state_ok reservedAt state -> row_in_state row state ->
  reservationStatusFromRows
    (root_columns (receipt_of_command c receiptId f id ev out reservedAt, row))
    (watermark_columns <$> (watermark_of_command c receiptId <$> rs_inventoryWatermarks c)) =
    Some (status_in c receiptId reservedAt state).
Proof.
  intros Hparts Hdates Hid Ht Hst (Hstate & Hrev & Hat).
  destruct (stay_watermark_dates _ _ _ Hparts Hdates) as (Hw & _ & Hin & Hout).
  rewrite <- (status_in_parse c d receiptId reservedAt state) by done.
  unfold reservationStatusFromRows. cbn [root_columns receipt_of_command rr_receiptId rr_contractVersion
    rr_receiptOwner rr_organizationId rr_propertyId rr_roomTypeId rr_checkIn rr_checkOut rr_roomCount
    rr_quoteSessionId rr_publicOfferKey rr_calendarRevision rr_materializedRevision rr_reservedAt
    rr_lifecycleState rr_lifecycleRevision rr_releasedAt rr_handedOffAt re_receiptId
    re_contractVersion re_receiptOwner re_organizationId re_propertyId re_roomTypeId re_checkIn
    re_checkOut re_roomCount re_quoteSessionId re_publicOfferKey re_calendarRevision
    re_materializedRevision re_reservedAt].
  assert (positiveDatabaseInteger (ColInt (rs_expectedMaterializedRevision c)) =
    Some (rs_expectedMaterializedRevision c)) as ->.
  { apply (positive_int_column (Some _)). split; [done|]. destruct Hparts.
    unfold positiveRevision in cp_expected0. by apply as_integer_Some in cp_expected0 as (_ & _ & ?). }
  cbn [same_number]. rewrite !String.eqb_refl, Z.eqb_refl. cbn [andb].
  rewrite (create_source_of_parts _ _ Hparts).
  assert (watermark_row_value <$> (watermark_columns <$>
    (watermark_of_command c receiptId <$> rs_inventoryWatermarks c)) =
    watermark_value <$> rs_inventoryWatermarks c) as ->.
  { destruct Hparts. apply parse_watermarks_spec in cp_watermarks0 as [_ Hscope].
    rewrite <- !list_fmap_compose. apply list_fmap_ext. intros k w Hk%list_elem_of_lookup_2. cbn.
    rewrite Forall_forall in Hscope, Hw. destruct (Hscope w Hk) as (Hp & Hr & _).
    apply watermark_row_round; auto. }
  unfold date_value. rewrite Hin, Hout, Hstate, Hrev. cbn [of_nullable].
  destruct state as [|t|t]; [|destruct Hat as (n & -> & ->)..];
    (apply parse_status_same; [reflexivity|reflexivity| |reflexivity];
     intros k Hk; repeat (apply elem_of_cons in Hk as [->|Hk]; [reflexivity|]); by apply elem_of_nil in Hk).
Qed.

Lemma reserve_run_dates env c t f s s' status :
  reserve_run env c t f s s' status -> exists dates, stayDates (rs_checkIn c) (rs_checkOut c) = Some dates.
Proof.
  intros [id days cap receiptId ev s0 s1 s2 kh fp result _ _ _ _ Hv _ _ _ _ _].
  apply validateReserveDays_None in Hv as (dates & Hd & _). eauto.
Qed.

(** ** Finding the rows *)

Lemma filter_none {A} (f : A -> bool) l : (forall x, x ∈ l -> f x = false) -> List.filter f l = [].
Proof.
  induction l as [|x l IH]; intros H; [done|]. cbn. rewrite (H x), IH by set_solver. done.
Qed.

Lemma filter_every {A} (f : A -> bool) l : (forall x, x ∈ l -> f x = true) -> List.filter f l = l.
Proof.
  induction l as [|x l IH]; intros H; [done|]. cbn. rewrite (H x), IH by set_solver. done.
Qed.

Lemma filter_fmap_same {A} (f : A -> bool) (g : A -> A) l :
  (forall x, f (g x) = f x) -> List.filter f (g <$> l) = g <$> List.filter f l.
Proof.
  intros H. induction l as [|x l IH]; [done|]. rewrite fmap_cons. cbn. rewrite H.
  destruct (f x); by rewrite ?fmap_cons, IH.
Qed.

(** No row of an earlier receipt is one of a new one. *)
Lemma filter_fresh {A} (key : A -> string) (f : A -> bool) receiptId l :
  (forall x, f x = true -> key x = receiptId) -> receiptId ∉ (key <$> l) -> List.filter f l = [].
Proof.
  intros Hf Hfresh. apply filter_none. intros x Hx. apply not_true_iff_false. intros E.
  apply Hfresh. rewrite <- (Hf x E). by apply list_elem_of_fmap_2.
Qed.

Lemma receipt_is_id receiptId o p r : receipt_is receiptId o p r = true -> re_receiptId r = receiptId.
Proof. unfold receipt_is. intros H. by bool_to_prop. Qed.

Lemma watermark_is_id receiptId o p w : watermark_is receiptId o p w = true -> wk_receiptId w = receiptId.
Proof. unfold watermark_is. intros H. by bool_to_prop. Qed.

Section Found.
Context (c : PmsInventoryReservationReserveCommand) (d : DateRange) (dates : list string).
Context (receiptId f : string) (id ev out : nat) (reservedAt : Z).
Context (Hparts : command_parts c d) (Hdates : stayDates (rs_checkIn c) (rs_checkOut c) = Some dates).
Context (Hid : canonical_uuid receiptId = true) (Ht : four_digit_instant reservedAt).

Let r := receipt_of_command c receiptId f id ev out reservedAt.
Let ws := watermark_of_command c receiptId <$> rs_inventoryWatermarks c.

Lemma sorted_watermarks : stable_sort watermark_date_le ws = ws.
Proof.
  apply (stable_sort_key_id wk_stayDate). unfold ws. rewrite <- list_fmap_compose.
  by destruct (stay_watermark_dates _ _ _ Hparts Hdates) as (_ & Hs & _).
Qed.

(** One receipt, one status row and the watermarks of the command give the
    status in the state of the status row. *)
Lemma status_of_receipt_found l row state :
  List.filter (receipt_is receiptId (rs_organizationId c) (rs_propertyId c)) (reservation_receipts l) = [r] ->
  List.filter (status_is receiptId (rs_organizationId c) (rs_propertyId c)) (reservation_statuses l) = [row] ->
  List.filter (watermark_is receiptId (rs_organizationId c) (rs_propertyId c)) (reservation_watermarks l) = ws ->
  state_ok reservedAt state -> row_in_state row state ->
  status_of_receipt l receiptId (rs_organizationId c) (rs_propertyId c) =
    Some (status_in c receiptId reservedAt state).
Proof.
  intros Hr Hs Hw Hok Hrow. unfold status_of_receipt. rewrite Hr, Hs, Hw, sorted_watermarks.
  exact (rows_read_back _ _ _ _ f id ev out _ _ _ Hparts Hdates Hid Ht Hok Hrow).
Qed.

Context (l : ledger_tables).
Context (Hreceipts : receiptId ∉ (re_receiptId <$> reservation_receipts l)).
Context (Hstatuses : receiptId ∉ (ss_receiptId <$> reservation_statuses l)).
Context (Hwatermarks : receiptId ∉ (wk_receiptId <$> reservation_watermarks l)).

(** The ledger right after the reservation *)
Definition new_ledger : ledger_tables := with_receipt l r (reserved_row c receiptId) ws.

Lemma new_receipt_rows :
  List.filter (receipt_is receiptId (rs_organizationId c) (rs_propertyId c))
    (reservation_receipts new_ledger) = [r] /\
  List.filter (status_is receiptId (rs_organizationId c) (rs_propertyId c))
    (reservation_statuses new_ledger) = [reserved_row c receiptId] /\
  List.filter (watermark_is receiptId (rs_organizationId c) (rs_propertyId c))
    (reservation_watermarks new_ledger) = ws.
Proof.
  unfold new_ledger, with_receipt. cbn [reservation_receipts reservation_statuses reservation_watermarks].
  rewrite !List.filter_app, (filter_fresh re_receiptId _ receiptId _ (receipt_is_id _ _ _) Hreceipts),
    (filter_fresh ss_receiptId _ receiptId _ (status_is_id _ _ _) Hstatuses),
    (filter_fresh wk_receiptId _ receiptId _ (watermark_is_id _ _ _) Hwatermarks).
  cbn. unfold receipt_is, status_is. cbn. rewrite !String.eqb_refl. split_and!; [done..|].
  apply filter_every. intros w Hw. apply list_elem_of_fmap in Hw as (x & -> & _).
  unfold watermark_is. cbn. by rewrite !String.eqb_refl.
Qed.

Lemma new_receipt_status :
  status_of_receipt new_ledger receiptId (rs_organizationId c) (rs_propertyId c) =
    Some (statusFromReserve c receiptId reservedAt).
Proof.
  destruct new_receipt_rows as (Hr & Hs & Hw).
  by apply (status_of_receipt_found _ _ Reserved Hr Hs Hw).
Qed.
End Found.

(** * Asking again

    A reserve command repeated under its idempotency key is answered from the
    rows the first run left; another command under the same key is refused. *)

(** ** The steps that keep the idempotency keys *)

Lemma write_keys f :
  (forall s, idempotency_keys (journal (f s)) = idempotency_keys (journal s)) ->
  tx_frame keeps_keys (write f).
Proof. intros H. apply frame_write. exact H. Qed.

Lemma reads_keep_keys {A} (m : Tx A) : tx_frame eq m -> tx_frame keeps_keys m.
Proof. intros Hm a s s' H. by rewrite (Hm _ _ _ H). Qed.

(** Runs a command to its end. *)
Ltac tx_run :=
  repeat (cbv zeta in *; match goal with
    | H : read _ _ = Ret _ |- _ => apply read_Ret in H as [-> ->]
    | H : write _ _ = Ret _ |- _ => apply write_Ret in H as ->
    | H : mret _ _ = Ret _ |- _ => apply tx_ret_Ret in H as [<- <-]
    | H : throw _ _ = Ret _ |- _ => discriminate H
    | H : (if ?b then _ else _) _ = Ret _ |- _ => destruct b
    | H : (_ ← _; _) _ = Ret _ |- _ => tx_step H
    end).

Lemma push_outbox_once_keys e j : idempotency_keys (push_outbox_once e j) = idempotency_keys j.
Proof. unfold push_outbox_once. by destruct (has_outbox _ _ j). Qed.

Lemma enqueueProjectionRefresh_keys a p r k x i t :
  tx_frame keeps_keys (enqueueProjectionRefresh a p r k x i t).
Proof.
  intros y s s' H. unfold enqueueProjectionRefresh, insert_event, insert_outbox in H. tx_run.
  unfold keeps_keys. cbn [set_journal journal]. by rewrite push_outbox_once_keys.
Qed.

Lemma persistReceipt_keys c r f i e o t : tx_frame keeps_keys (persistReceipt c r f i e o t).
Proof.
  intros u s s' H. destruct u. apply persistReceipt_Ret in H as (_ & _ & ->). reflexivity.
Qed.

Lemma enqueue_range_keys c r j : idempotency_keys (enqueue_range c r j) = idempotency_keys j.
Proof.
  unfold enqueue_range, range_outbox. destruct (find_event _ j); by rewrite !push_outbox_once_keys.
Qed.

Lemma side_effects_keys c l : tx_frame keeps_keys (enqueuePmsLinkedInventorySideEffects c l).
Proof.
  apply write_keys. intros s. cbn. generalize (journal s).
  induction (collapseChanges l) as [|r ranges IH]; intros j; cbn; [done|].
  by rewrite IH, enqueue_range_keys.
Qed.

Lemma reconcile_keys work p : tx_frame keeps_keys (reconcilePmsLinkedInventory work p).
Proof. intros ch s s' (rows & -> & _)%reconcile_rows. reflexivity. Qed.

Lemma recordAudit_keys o a g p t i k u e at_ sc : tx_frame keeps_keys (recordAudit o a g p t i k u e at_ sc).
Proof. intros x s s' H. unfold recordAudit in H. by tx_run. Qed.

Lemma recorded_keys env c f id kh t receiptId ev s s' :
  recorded env c f id kh t receiptId ev s s' ->
  idempotency_keys (journal s') = idempotency_keys (journal s).
Proof.
  intros [out s1 s2 s3 changes H1%enqueueProjectionRefresh_keys H2%persistReceipt_keys
    H3%reconcile_keys H4%side_effects_keys]. unfold keeps_keys in *. congruence.
Qed.

(** A booking writes the inventory only. *)
Lemma applyBookingDelta_rest days delta s s' :
  applyBookingDelta days delta s = Ret (tt, s') -> ledger s' = ledger s /\ journal s' = journal s.
Proof.
  revert s. induction days as [|d days IH]; intros s H; cbn [applyBookingDelta] in H.
  - by apply tx_ret_Ret in H as [_ <-].
  - destruct (_ || _); [discriminate|]. tx_step H. apply update_days_Ret in E as (_ & _ & ->).
    destruct (negb _); [discriminate|]. by apply IH in H.
Qed.

(** ** The key of a command *)

Lemma reserveIdempotency_Some o p k f a t s id s' :
  reserveIdempotency o p k f a t s = Ret (Some id, s') ->
  List.filter (same_key o p k) (idempotency_keys (journal s)) = [] /\
  idempotency_keys (journal s') = idempotency_keys (journal s) ++ [new_key o p k f a t id].
Proof.
  unfold reserveIdempotency. intros H. tx_step H. apply read_Ret in E as [-> ->].
  destruct (existsb _ _) eqn:Ee; [by apply tx_ret_Ret in H as [? _]|].
  tx_step H. apply write_Ret in E as ->. apply tx_ret_Ret in H as [[= <-] <-]. split; [|done].
  apply filter_none. intros x Hx. apply not_true_iff_false. intros Hk.
  apply not_true_iff_false in Ee. apply Ee, existsb_exists. exists x.
  split; [by apply list_elem_of_In | done].
Qed.

Lemma complete_key_same o p k id res h code t r :
  same_key o p k (complete_key id res h code t r) = same_key o p k r.
Proof. unfold complete_key. by destruct (_ && _). Qed.

Lemma completeIdempotency_Ret env id result code t s s' :
  completeIdempotency env id result code t s = Ret (tt, s') ->
  idempotency_keys (journal s') =
    complete_key id (result_value result) (hash_json env (result_value result)) code t
      <$> idempotency_keys (journal s).
Proof.
  unfold completeIdempotency. intros H. tx_step H. apply read_Ret in E as [-> ->]. cbv zeta in H.
  destruct (negb _); [discriminate|]. by apply write_Ret in H as ->.
Qed.

(** The completed key of a command: the one row of its key after the run *)
Definition completed_key (env : Environment) (operation propertyId keyHash fingerprint : string)
    (audit : RoomFactsCommandAudit) (acceptedAt : Z) (id : nat) (result : lifecycle_result)
    (code : Z) : idempotency_row :=
  complete_key id (result_value result) (hash_json env (result_value result)) code acceptedAt
    (new_key operation propertyId keyHash fingerprint audit acceptedAt id).

Lemma reserve_run_key env c t f s s' status :
  reserve_run env c t f s s' status -> exists id,
    List.filter (same_key RESERVE_OPERATION (rs_propertyId c) (hash env (rs_idempotencyKey c)))
      (idempotency_keys (journal s')) =
    [completed_key env RESERVE_OPERATION (rs_propertyId c) (hash env (rs_idempotencyKey c))
       (reserve_fingerprint env c) (rs_audit c) t id
       (LifecycleOk "reserved" status (Some "reservation_held"%string)) 201] /\
    exists receiptId ev s1 s2,
      normalizeUuid f = Some receiptId /\ status = statusFromReserve c receiptId t /\
      recorded env c (reserve_fingerprint env c) id (hash env (rs_idempotencyKey c)) t receiptId ev s1 s2 /\
      ledger s' = ledger s2 /\ ledger s1 = ledger s.
Proof.
  intros [id days cap receiptId ev s0 s1 s2 kh fp result _ Hk _ _ _ Hb Hid -> Hr Hcomp].
  subst kh fp result.
  pose proof (reserveIdempotency_journal _ _ _ _ _ _ _ _ _ Hk) as (_ & _ & Hl0).
  apply reserveIdempotency_Some in Hk as [Hnone Hk0].
  apply applyBookingDelta_rest in Hb as [Hl1 Hj1].
  exists id. split; [|exists receiptId, ev, s1, s2; split_and!; try done].
  - unfold completeReserve in Hcomp. tx_step Hcomp. apply recordAudit_keys in E. tx_step Hcomp.
    destruct a0. apply completeIdempotency_Ret in E0. apply tx_ret_Ret in Hcomp as [_ <-].
    apply recorded_keys in Hr. unfold keeps_keys in E.
    rewrite E0, E, Hr, Hj1, Hk0, filter_fmap_same by (intros; apply complete_key_same).
    rewrite List.filter_app, Hnone. cbn. unfold same_key, new_key. cbn.
    by rewrite !String.eqb_refl.
  - by apply completeReserve_journal in Hcomp as (_ & _ & ?).
  - congruence.
Qed.

(** ** The stored result *)

Lemma reserved_result_parse status :
  parsePmsInventoryReservationStatus (status_value status) = Some status -> st_state status = Reserved ->
  parsePmsInventoryReservationReserveResult
    (result_value (LifecycleOk "reserved" status (Some "reservation_held"%string))) =
    Some (LifecycleOk "reserved" status (Some "reservation_held"%string)).
Proof.
  intros Hp Hs. unfold parsePmsInventoryReservationReserveResult, result_value. cbn.
  rewrite Hp. cbn. rewrite intent_reparse, Hs. done.
Qed.

Lemma completed_key_stored env o p k f a t id status :
  parsePmsInventoryReservationStatus (status_value status) = Some status -> st_state status = Reserved ->
  let result := LifecycleOk "reserved" status (Some "reservation_held"%string) in
  stored_result env parsePmsInventoryReservationReserveResult reserveResultStatus
    (completed_key env o p k f a t id result 201) = Some result.
Proof.
  intros Hp Hs result. unfold stored_result, completed_key, complete_key. cbn [new_key ik_id ik_status].
  rewrite Nat.eqb_refl. cbn [andb String.eqb Ascii.eqb Bool.eqb ik_metadata ik_responseStatusCode
    ik_responseBodyHash].
  assert (Hm : ik_metadata (new_key o p k f a t id) = obj [("attempt", VInt 1)]) by done.
  assert (Hget : (if plain_record (with_result (obj [("attempt", VInt 1)]) (result_value result))
    then get (with_result (obj [("attempt", VInt 1)]) (result_value result)) "result"
    else VUndefined) = result_value result) by done.
  rewrite Hm, Hget.
  pose proof (reserved_result_parse status Hp Hs) as Hres. fold result in Hres. rewrite Hres.
  by rewrite !bool_decide_eq_true_2.
Qed.

Lemma same_stable_json_refl v : same_stable_json v v = true.
Proof. by apply bool_decide_eq_true_2. Qed.

Lemma statusFromReserve_matches c c2 receiptId t :
  reserve_scope c2 = reserve_scope c -> reserveStatusMatchesCommand (statusFromReserve c receiptId t) c2 = true.
Proof.
  unfold reserve_scope. intros [= H1 H2 H3 H4 H5 H6 H7 H8 H9 H10].
  unfold reserveStatusMatchesCommand. cbn.
  by rewrite H1, H2, H3, H4, H5, H6, H7, H8, H9, H10, !String.eqb_refl, !Z.eqb_refl, !same_stable_json_refl.
Qed.

Lemma sameReservationIdentity_refl status : sameReservationIdentity status status = true.
Proof.
  unfold sameReservationIdentity. by rewrite !String.eqb_refl, !Z.eqb_refl, !same_stable_json_refl.
Qed.

Lemma filter_and {A} (f g : A -> bool) l :
  List.filter (fun x => f x && g x) l = List.filter g (List.filter f l).
Proof.
  induction l as [|x l IH]; [done|]. cbn. destruct (f x); cbn; [destruct (g x); by rewrite IH | done].
Qed.

(** ** A replay *)

(** The store a run of [c] left, as far as a replay reads it *)
Record run_left (env : Environment) (c : PmsInventoryReservationReserveCommand) (t : Z)
    (status : PmsInventoryReservationStatus) (s : Store) : Prop := {
  rn_key : exists id, List.filter (same_key RESERVE_OPERATION (rs_propertyId c)
      (hash env (rs_idempotencyKey c))) (idempotency_keys (journal s)) =
    [completed_key env RESERVE_OPERATION (rs_propertyId c) (hash env (rs_idempotencyKey c))
       (reserve_fingerprint env c) (rs_audit c) t id
       (LifecycleOk "reserved" status (Some "reservation_held"%string)) 201] /\
    exists receiptId ev out, status = statusFromReserve c receiptId t /\
      List.filter (receipt_is receiptId (rs_organizationId c) (rs_propertyId c))
        (reservation_receipts (ledger s)) =
      [receipt_of_command c receiptId (reserve_fingerprint env c) id ev out t];
  rn_status : parsePmsInventoryReservationStatus (status_value status) = Some status;
  rn_current : status_of_receipt (ledger s) (rc_receiptId (st_receipt status))
    (st_organizationId status) (st_propertyId status) = Some status;
}.

Lemma reserve_run_left env v c t f s s' status :
  store_ok s -> four_digit_instant t -> parsePmsInventoryReservationReserveCommand v = Some c ->
  reserve_run env c t f s s' status -> run_left env c t status s'.
Proof.
  intros Hok Ht Hc Hrun. destruct (reserve_command_parts _ _ Hc) as [d Hd].
  destruct (reserve_run_dates _ _ _ _ _ _ _ Hrun) as [dates Hdates].
  apply reserve_run_key in Hrun as (kid & Hkey & receiptId & ev & s1 & s2 & Hid & -> & Hr & Hl & Hl1).
  apply recorded_effect in Hr as (out & Hfr & Hfs & _ & _ & Hl2). rewrite Hl1 in *.
  unfold normalizeUuid in Hid. apply as_uuid_Some in Hid.
  assert (Hfw : receiptId ∉ (wk_receiptId <$> reservation_watermarks (ledger s))).
  { intros (w & -> & Hw)%list_elem_of_fmap. apply Hfr. destruct Hok as [_ _ _ Hall].
    rewrite Forall_forall in Hall. by apply Hall. }
  constructor.
  - exists kid. split; [done|]. exists receiptId, ev, out. split; [done|]. rewrite Hl, Hl2.
    by apply new_receipt_rows.
  - by apply (status_in_parse c d receiptId t Reserved).
  - rewrite Hl, Hl2. by apply (new_receipt_status c d dates).
Qed.

Lemma findIdempotency_one o p k row s :
  List.filter (same_key o p k) (idempotency_keys (journal s)) = [row] ->
  findIdempotency o p k s = Ret (Some row, s).
Proof. intros H. unfold findIdempotency, mbind, tx_bind, read. by rewrite H. Qed.

Lemma completed_key_fingerprint env o p k f a t id r code :
  ik_requestFingerprintHash (completed_key env o p k f a t id r code) = f /\
  ik_status (completed_key env o p k f a t id r code) = "completed"%string /\
  ik_id (completed_key env o p k f a t id r code) = id.
Proof. unfold completed_key, complete_key. cbn. by rewrite Nat.eqb_refl. Qed.

Lemma replay_other_command env c c2 t status s :
  run_left env c t status s -> rs_propertyId c2 = rs_propertyId c ->
  rs_idempotencyKey c2 = rs_idempotencyKey c ->
  reserve_fingerprint env c2 <> reserve_fingerprint env c ->
  findReserveReplay env c2 (hash env (rs_idempotencyKey c2)) (reserve_fingerprint env c2) s =
    Ret (Some (failure "idempotency_key_conflict"), s).
Proof.
  intros [(id & Hkey & _) _ _] Hp Hk Hf. unfold findReserveReplay. rewrite Hp, Hk.
  erewrite tx_bind_eq by (by apply findIdempotency_one). cbn beta iota.
  destruct (completed_key_fingerprint env RESERVE_OPERATION (rs_propertyId c)
    (hash env (rs_idempotencyKey c)) (reserve_fingerprint env c) (rs_audit c) t id
    (LifecycleOk "reserved" status (Some "reservation_held"%string)) 201) as (-> & _ & _).
  by rewrite (proj2 (String.eqb_neq _ _)) by done.
Qed.

Lemma evidence_matches_one c receiptId f id ev out t s :
  List.filter (receipt_is receiptId (rs_organizationId c) (rs_propertyId c))
    (reservation_receipts (ledger s)) = [receipt_of_command c receiptId f id ev out t] ->
  reserveReceiptEvidenceMatches (statusFromReserve c receiptId t) id f s = Ret (true, s).
Proof.
  intros H. unfold reserveReceiptEvidenceMatches, mbind, tx_bind, read, mret, tx_ret.
  cbn [statusFromReserve st_receipt rc_receiptId st_organizationId st_propertyId].
  rewrite (List.filter_ext _ (fun r => receipt_is receiptId (rs_organizationId c) (rs_propertyId c) r &&
    (Nat.eqb (re_idempotencyKeyId r) id && String.eqb (re_fingerprintHash r) f)))
    by (intros; by rewrite andb_assoc).
  rewrite filter_and, H. cbn. by rewrite Nat.eqb_refl, String.eqb_refl.
Qed.

Lemma replay_same_command env c c2 t status s :
  run_left env c t status s -> reserve_scope c2 = reserve_scope c ->
  rs_idempotencyKey c2 = rs_idempotencyKey c ->
  findReserveReplay env c2 (hash env (rs_idempotencyKey c2)) (reserve_fingerprint env c2) s =
    Ret (Some (LifecycleOk "already_reserved" status None), s).
Proof.
  intros [(id & Hkey & receiptId & ev & out & -> & Hrec) Hparse Hcur] Hscope Hk.
  assert (Hf : reserve_fingerprint env c2 = reserve_fingerprint env c).
  { unfold reserve_fingerprint, serializePmsInventoryReservationReserveFingerprint,
      reserve_fingerprint_value. unfold reserve_scope in Hscope.
    injection Hscope as H1 H2 H3 H4 H5 H6 H7 H8 H9 H10. by rewrite H1, H2, H3, H4, H5, H6, H7, H8, H9, H10. }
  assert (Hp : rs_propertyId c2 = rs_propertyId c) by (by injection Hscope).
  unfold findReserveReplay. rewrite Hp, Hk, Hf.
  erewrite tx_bind_eq by (by apply findIdempotency_one). cbn beta iota.
  set (row := completed_key _ _ _ _ _ _ _ _ _ _).
  assert (Hrow : ik_requestFingerprintHash row = reserve_fingerprint env c /\
    ik_status row = "completed"%string /\ ik_id row = id) by apply completed_key_fingerprint.
  destruct Hrow as (-> & -> & ->). rewrite !String.eqb_refl. cbn [negb].
  unfold row. rewrite completed_key_stored by done. cbn beta iota.
  rewrite (statusFromReserve_matches c c2) by done. rewrite String.eqb_refl. cbn [negb orb].
  erewrite tx_bind_eq by (by eapply evidence_matches_one). cbn [negb].
  unfold readReservationStatus. erewrite tx_bind_eq by done. cbn beta iota. rewrite Hcur.
  by rewrite sameReservationIdentity_refl.
Qed.
