(* ===== verification/ReservationGuarantees.v ===== *)
(** * What the reservation commands guarantee

    A refused command changes nothing but the journal; a granted one books each
    night of the stay within the rooms that exist; over any sequence of commands
    the inventory and the held receipts stay in balance, and what was released
    stays released. *)

From S2P Require Import Prelude JsValue JsonText CalendarDates OperatingSchedule OperatingCalendar InventoryPlanner ReservationLifecycle ReservationRows ReservationStore LinkedInventory ReservationRepository ReservationBooking ReservationRuns ReservationLedger ReservationBalance ReservationReadBack.

(** ** Accepted commands *)

Lemma reserve_command_fields v c :
  parsePmsInventoryReservationReserveCommand v = Some c ->
  canonical_uuid (rs_propertyId c) = true /\ canonical_uuid (rs_roomTypeId c) = true /\
  1 <= rs_roomCount c.
Proof.
  unfold parsePmsInventoryReservationReserveCommand. intros H. follow H. cbn.
  repeat match goal with
    | E : as_uuid _ = Some _ |- _ => apply as_uuid_Some in E
    | E : as_integer _ _ _ = Some _ |- _ => apply as_integer_Some in E as (_ & _ & ?)
    end. split_and!; [done..|lia].
Qed.

Lemma release_command_fields v c :
  parsePmsInventoryReservationReleaseCommand v = Some c ->
  canonical_uuid (rl_propertyId c) = true /\ canonical_uuid (rc_receiptId (rl_receipt c)) = true.
Proof.
  unfold parsePmsInventoryReservationReleaseCommand. intros H. follow H. cbn.
  match goal with E : parsePmsInventoryReservationReceipt _ = Some _ |- _ =>
    unfold parsePmsInventoryReservationReceipt in E; follow E end.
  by repeat match goal with E : as_uuid _ = Some _ |- _ => apply as_uuid_Some in E end.
Qed.

(** ** How the two entry points end *)

Lemma reserveInventory_ends env v t f s r s' :
  reserveInventory env v t f s = (r, s') ->
  (journal_only s s' /\ forall status intent, r <> Ret (LifecycleOk "reserved" status intent)) \/
  (exists c status, parsePmsInventoryReservationReserveCommand v = Some c /\
     r = Ret (LifecycleOk "reserved" status (Some "reservation_held"%string)) /\
     reserve_run env c t f s s' status).
Proof.
  unfold reserveInventory. destruct (parsePmsInventoryReservationReserveCommand v) as [c|];
    [|by intros [= <- <-]; left].
  destruct (negb _); [by intros [= <- <-]; left|]. intros H.
  apply executeReserve_ends in H
    as [[-> [e ->]]|[(-> & result & -> & Hr)|[(Hj & code & ->)|(status & -> & Hrun)]]].
  - by left.
  - left. split; [done|]. intros status intent [= ->]. by eapply findReserveReplay_not_new.
  - by left.
  - right. by exists c, status.
Qed.

Lemma releaseInventory_ends env v t s r s' :
  releaseInventory env v t s = (r, s') ->
  (journal_only s s' /\ forall status intent, r <> Ret (LifecycleOk "released" status intent)) \/
  (exists c status, parsePmsInventoryReservationReleaseCommand v = Some c /\
     r = Ret (LifecycleOk "released" (releasedStatus status t) (Some "reservation_released"%string)) /\
     release_run env c t s s' status).
Proof.
  unfold releaseInventory. destruct (parsePmsInventoryReservationReleaseCommand v) as [c|];
    [|by intros [= <- <-]; left].
  destruct (negb _); [by intros [= <- <-]; left|]. intros H.
  apply executeRelease_ends in H as [?|(status & -> & Hrun)]; [by left|].
  right. by exists c, status.
Qed.

(** ** Sequences of commands *)

(** A command of a client; the other owners may have changed in between, so each
    step has an environment of its own. *)
Inductive command_step (s : Store) : Store -> Prop :=
| step_reserve env v t f : command_step s (reserveInventory env v t f s).2
| step_release env v t : command_step s (releaseInventory env v t s).2
| step_reserve_within env v f r s' :
    reservePmsInventoryInTransaction env v f s = Ret (r, s') -> command_step s s'.

(** What a step does, whatever the command *)
Inductive step_effect (s s' : Store) : Prop :=
| effect_none : journal_only s s' -> step_effect s s'
| effect_reserve c t receiptId :
    canonical_uuid (rs_roomTypeId c) = true -> reserve_effect c t receiptId s s' -> step_effect s s'
| effect_release c status t :
    canonical_uuid (rc_receiptId (rl_receipt c)) = true -> canonical_uuid (rl_propertyId c) = true ->
    status_of_receipt (ledger s) (rc_receiptId (rl_receipt c)) (rl_organizationId c)
      (rl_propertyId c) = Some status -> st_state status = Reserved ->
    release_effect c status t s s' -> step_effect s s'.

Lemma command_step_effect s s' :
  NoDup (day_key <$> inventory_days s) -> command_step s s' -> step_effect s s'.
Proof.
  intros Hnd [env v t f|env v t|env v f r s'' H].
  - destruct (reserveInventory env v t f s) as [r s''] eqn:E.
    apply reserveInventory_ends in E as [[Hj _]|(c & status & Hc & _ & Hrun)]; [by constructor|].
    apply reserve_command_fields in Hc as (_ & Hroom & Hn).
    apply reserve_run_effect in Hrun as (receiptId & _ & _ & He); [|done..].
    by eapply effect_reserve.
  - destruct (releaseInventory env v t s) as [r s''] eqn:E.
    apply releaseInventory_ends in E as [[Hj _]|(c & status & Hc & _ & Hrun)]; [by constructor|].
    apply release_command_fields in Hc as (Hp & Hid). pose proof Hrun as [??????? ?? Hst Hres _ _ _ _ _].
    pose proof Hst as (? & ? & _ & _ & [])%status_of_receipt_Some.
    apply release_run_effect in Hrun; [|done..]. by eapply effect_release.
  - apply reserveInTransaction_ends in H as [[-> _]|(c & status & Hc & _ & Hrun)]; [by constructor|].
    apply reserve_command_fields in Hc as (_ & Hroom & Hn).
    apply reserve_run_effect in Hrun as (receiptId & _ & _ & He); [|done..].
    by eapply effect_reserve.
Qed.

Lemma step_effect_balance s s' : store_ok s -> step_effect s s' -> store_ok s' /\ balance s' = balance s.
Proof.
  intros Hok [(Hc & Hi & Hl)|c t receiptId Hroom He|c status t Hid Hp Hst Hres He].
  - split; [|unfold balance; by rewrite Hi, Hl]. destruct Hok. constructor; by rewrite ?Hi, ?Hl.
  - by eapply reserve_effect_balance.
  - by eapply release_effect_balance.
Qed.

(** C1: reservations and releases, in any order and number, keep the inventory in
    balance with the ledger: on every night the rooms assigned less the rooms of
    the receipts still held is what it was before. *)
Theorem commands_keep_balance s s' :
  store_ok s -> rtc command_step s s' -> store_ok s' /\ balance s' = balance s.
Proof.
  intros Hok. induction 1 as [|s s1 s2 Hstep _ IH]; [done|].
  destruct (step_effect_balance s s1 Hok) as [Hok1 Hb1];
    [apply command_step_effect; [by destruct Hok | done]|].
  destruct (IH Hok1) as [Hok2 Hb2]. split; [done | by rewrite Hb2].
Qed.

(** ** Refused commands *)

(** C36: a command that is not granted leaves the inventory, the ledger and the
    catalog as they were, whether it throws, replays or fails. *)
Theorem refused_commands_keep_inventory env v t f s :
  (let '(r, s') := reserveInventory env v t f s in
   (exists status intent, r = Ret (LifecycleOk "reserved" status intent)) \/ journal_only s s') /\
  (let '(r, s') := releaseInventory env v t s in
   (exists status intent, r = Ret (LifecycleOk "released" status intent)) \/ journal_only s s').
Proof.
  split.
  - destruct (reserveInventory env v t f s) as [r s'] eqn:E.
    apply reserveInventory_ends in E as [[Hj _]|(c & status & _ & -> & _)]; eauto.
  - destruct (releaseInventory env v t s) as [r s'] eqn:E.
    apply releaseInventory_ends in E as [[Hj _]|(c & status & _ & -> & _)]; eauto.
Qed.

(** ** Granted commands *)

(** The nights of a stay, as keys of the inventory *)
Definition stay_keys (p room i o : string) : list (string * string * string) :=
  (fun date => (p, room, date)) <$> default [] (stayDates i o).

Lemma reserve_run_nights env c t f s s' status :
  reserve_run env c t f s s' status ->
  day_key <$> select_stay (rs_propertyId c) (rs_roomTypeId c) (rs_checkIn c) (rs_checkOut c) s =
    stay_keys (rs_propertyId c) (rs_roomTypeId c) (rs_checkIn c) (rs_checkOut c) /\
  Forall (fun r => id_status r = "open"%string /\
      id_assignedCount r + rs_roomCount c + id_blockedCount r <= id_totalCount r)
    (select_stay (rs_propertyId c) (rs_roomTypeId c) (rs_checkIn c) (rs_checkOut c) s).
Proof.
  intros [id days cap receiptId ev s0 s1 s2 kh fp result _ _ _ Hd Hv _ _ _ _ _].
  apply traverse_Some in Hd. apply validateReserveDays_None in Hv as (dates & Hdates & Hv).
  pose proof (select_stay_matches (rs_propertyId c) (rs_roomTypeId c) (rs_checkIn c)
    (rs_checkOut c) s) as Hm.
  unfold stay_keys. rewrite Hdates. change (default [] (Some dates)) with dates. clear Hdates. revert dates Hv Hm.
  induction Hd as [|r d rows days Hr Hd IH]; intros dates Hv Hm.
  - inversion Hv; subst. by split.
  - inversion Hv as [|? date ? dates' [w []] Hv']; subst.
    apply Forall_cons in Hm as [(Hp & Hrm & _) Hm]. destruct (IH _ Hv' Hm) as [IH1 IH2].
    pose proof (canonical_day_row _ _ Hr) as ([] & _ & _ & _). rewrite !fmap_cons, IH1. split.
    + unfold day_key. congruence.
    + constructor; [|done]. split; [|lia]. rewrite ra_open in dw_status.
      pose proof (status_text_known _ _ dw_status) as [E|E]; [done|].
      by rewrite E in dw_status.
Qed.

Record night_granted (c : PmsInventoryReservationReserveCommand) (before after : inventory_day) : Prop := {
  ng_key : day_key after = day_key before;
  ng_assigned : id_assignedCount after = id_assignedCount before +
    (if in_stay (rs_propertyId c) (rs_roomTypeId c) (rs_checkIn c) (rs_checkOut c) before
     then rs_roomCount c else 0);
  ng_total : id_totalCount after = id_totalCount before;
  ng_fits : in_stay (rs_propertyId c) (rs_roomTypeId c) (rs_checkIn c) (rs_checkOut c) before = true ->
    id_status before = "open"%string /\ id_assignedCount after + id_blockedCount after <= id_totalCount after;
}.

(** C2: a granted reservation finds every night of its stay in the inventory,
    open, assigns the rooms on exactly those nights, and never more than exist. *)
Theorem reserve_books_every_night env v c t f s status intent s' :
  NoDup (day_key <$> inventory_days s) ->
  parsePmsInventoryReservationReserveCommand v = Some c ->
  reserveInventory env v t f s = (Ret (LifecycleOk "reserved" status intent), s') ->
  day_key <$> select_stay (rs_propertyId c) (rs_roomTypeId c) (rs_checkIn c) (rs_checkOut c) s =
    stay_keys (rs_propertyId c) (rs_roomTypeId c) (rs_checkIn c) (rs_checkOut c) /\
  Forall2 (night_granted c) (inventory_days s) (inventory_days s').
Proof.
  intros Hnd Hc H. apply reserveInventory_ends in H as [[_ Hno]|(c' & st' & Hc' & _ & Hrun)];
    [by destruct (Hno _ _ eq_refl)|].
  rewrite Hc in Hc'. injection Hc' as <-. apply reserve_command_fields in Hc as (_ & _ & Hn).
  pose proof (reserve_run_nights _ _ _ _ _ _ _ Hrun) as [Hk Hopen].
  apply reserve_run_effect in Hrun as (_ & _ & _ & [_ Hrows _ _ _]); [|done..]. split; [done|].
  rewrite Forall_forall in Hopen. unfold book_stay in Hrows. rewrite Forall2_fmap_l in Hrows.
  apply Forall2_same_length_lookup in Hrows as [Hlen Hrows].
  apply Forall2_same_length_lookup. split; [done|]. intros k r r' Hr Hr'.
  destruct (Hrows k r r' Hr Hr') as [Hkey Ha Ht Hs Hb]. apply list_elem_of_lookup_2 in Hr.
  destruct (in_stay _ _ _ _ r) eqn:E; cbn in *; constructor; rewrite ?E; try done; try lia.
  intros _. destruct (Hopen r) as [Ho Hf]; [by apply elem_of_select_stay|]. split; [done|].
  apply Hb. cbn. lia.
Qed.

Record night_returned (status : PmsInventoryReservationStatus) (before after : inventory_day) : Prop := {
  nr_key : day_key after = day_key before;
  nr_assigned : id_assignedCount after = id_assignedCount before -
    (if in_stay (st_propertyId status) (st_roomTypeId status) (st_checkIn status)
          (st_checkOut status) before
     then st_roomCount status else 0);
  nr_total : id_totalCount after = id_totalCount before;
  nr_nonneg : in_stay (st_propertyId status) (st_roomTypeId status) (st_checkIn status)
      (st_checkOut status) before = true -> 0 <= id_assignedCount after;
}.

Lemma release_run_nights env c t s s' status :
  1 <= st_roomCount status -> release_run env c t s s' status ->
  Forall (fun r => st_roomCount status <= id_assignedCount r)
    (select_stay (st_propertyId status) (st_roomTypeId status) (st_checkIn status)
       (st_checkOut status) s).
Proof.
  intros Hc [id days cap ev s0 s1 s2 kh result _ _ _ Hd Hv _ _ _].
  pose proof (release_days_bookable _ _ _ _ Hc Hd Hv) as Hb. clear -Hb.
  induction Hb as [|r d rows days [Hd _ _ _ _ Ha _ _ _] _ IH]; constructor; [|done].
  apply canonical_day_row in Hd as ([] & _). lia.
Qed.

(** A granted release was of a held reservation: it takes the rooms of that
    reservation back on exactly its nights, which had them assigned. *)
Theorem release_returns_every_night env v c t s result intent s' :
  NoDup (day_key <$> inventory_days s) ->
  parsePmsInventoryReservationReleaseCommand v = Some c ->
  releaseInventory env v t s = (Ret (LifecycleOk "released" result intent), s') ->
  exists status,
    status_of_receipt (ledger s) (rc_receiptId (rl_receipt c)) (rl_organizationId c)
      (rl_propertyId c) = Some status /\
    st_state status = Reserved /\ result = releasedStatus status t /\
    Forall2 (night_returned status) (inventory_days s) (inventory_days s').
Proof.
  intros Hnd Hc H. apply releaseInventory_ends in H as [[_ Hno]|(c' & status & Hc' & [= -> _] & Hrun)];
    [by destruct (Hno _ _ eq_refl)|].
  rewrite Hc in Hc'. injection Hc' as <-. exists status.
  pose proof Hrun as [??????? ?? Hst Hres _ _ _ _ _ _]. split_and!; [done..|].
  pose proof Hst as (? & ? & _ & _ & [])%status_of_receipt_Some.
  pose proof (release_run_nights _ _ _ _ _ _ sr_positive Hrun) as Hn. rewrite Forall_forall in Hn.
  apply release_run_effect in Hrun as [_ Hrows _]; [|done..].
  unfold book_stay in Hrows. rewrite Forall2_fmap_l in Hrows.
  apply Forall2_same_length_lookup in Hrows as [Hlen Hrows].
  apply Forall2_same_length_lookup. split; [done|]. intros k r r' Hr Hr'.
  destruct (Hrows k r r' Hr Hr') as [Hkey Ha Ht _ _]. apply list_elem_of_lookup_2 in Hr.
  destruct (in_stay _ _ _ _ r) eqn:E; cbn in *; constructor; rewrite ?E; try done; try lia.
  intros _. specialize (Hn r (proj2 (elem_of_select_stay _ _ _ _ _ _) (conj Hr E))). lia.
Qed.

(** ** The ledger only grows *)

Lemma step_effect_ledger s s' :
  step_effect s s' ->
  (forall r, r ∈ reservation_receipts (ledger s) -> r ∈ reservation_receipts (ledger s')) /\
  (forall t, t ∈ reservation_statuses (ledger s) -> ss_lifecycleState t <> "reserved"%string ->
     t ∈ reservation_statuses (ledger s')).
Proof.
  intros [(_ & _ & Hl)|c t receiptId _ [_ _ _ _ (f & id & ev & out & Hl)]
         |c status t _ _ _ _ [_ _ (f & id & ev & out & _ & Hl)]]; rewrite Hl; [done| |].
  - split; intros; cbn; apply elem_of_app; by left.
  - split; [done|]. intros x Hx Hne. cbn. apply list_elem_of_fmap. exists x. split; [|done].
    unfold release_row. destruct (String.eqb_spec (ss_lifecycleState x) "reserved"); [done|].
    by rewrite andb_false_r.
Qed.

(** No sequence of commands changes or removes a receipt, nor a status that
    was released or handed off. *)
Theorem terminal_statuses_stay s s' :
  store_ok s -> rtc command_step s s' ->
  (forall r, r ∈ reservation_receipts (ledger s) -> r ∈ reservation_receipts (ledger s')) /\
  (forall t, t ∈ reservation_statuses (ledger s) -> ss_lifecycleState t <> "reserved"%string ->
     t ∈ reservation_statuses (ledger s')).
Proof.
  intros Hok. induction 1 as [|s s1 s2 Hstep _ IH]; [done|].
  assert (He : step_effect s s1) by (apply command_step_effect; [by destruct Hok | done]).
  destruct (step_effect_balance s s1 Hok He) as [Hok1 _].
  apply step_effect_ledger in He as [Hr Ht]. destruct (IH Hok1) as [Hr' Ht']. split; auto.
Qed.

(** ** Reading back *)

(** The ledger and the inventory right after a reservation *)
Lemma reserved_store env v c t f s status intent s' :
  store_ok s -> parsePmsInventoryReservationReserveCommand v = Some c ->
  reserveInventory env v t f s = (Ret (LifecycleOk "reserved" status intent), s') ->
  exists d dates receiptId fingerprint id ev out,
    command_parts c d /\ stayDates (rs_checkIn c) (rs_checkOut c) = Some dates /\
    canonical_uuid receiptId = true /\ status = statusFromReserve c receiptId t /\
    (receiptId ∉ (re_receiptId <$> reservation_receipts (ledger s))) /\
    (receiptId ∉ (ss_receiptId <$> reservation_statuses (ledger s))) /\
    (receiptId ∉ (wk_receiptId <$> reservation_watermarks (ledger s))) /\
    ledger s' = new_ledger c receiptId fingerprint id ev out t (ledger s) /\
    reserve_effect c t receiptId s s'.
Proof.
  intros Hok Hc H. apply reserveInventory_ends in H as [[_ Hno]|(c' & st' & Hc' & [= -> _] & Hrun)];
    [by destruct (Hno _ _ eq_refl)|].
  rewrite Hc in Hc'. injection Hc' as <-. destruct (reserve_command_parts _ _ Hc) as [d Hd].
  apply reserve_command_fields in Hc as (_ & _ & Hn).
  destruct (reserve_run_dates _ _ _ _ _ _ _ Hrun) as [dates Hdates].
  apply reserve_run_effect in Hrun as (receiptId & Hid & -> & He); [|by destruct Hok|done].
  pose proof He as [_ _ Hr Hs (fp & id & ev & out & Hl)].
  exists d, dates, receiptId, fp, id, ev, out. split_and!; try done.
  - by apply (as_uuid_Some (VString f)).
  - intros (w & -> & Hw)%list_elem_of_fmap. apply Hr. destruct Hok as [_ _ _ Hall].
    rewrite Forall_forall in Hall. by apply Hall.
Qed.

(** The status a reservation returned is what an authorized reader of its
    receipt is told next. *)
Theorem reserved_status_reads_back env v t f s status intent s' env' request q :
  store_ok s -> four_digit_instant t ->
  reserveInventory env v t f s = (Ret (LifecycleOk "reserved" status intent), s') ->
  parsePmsInventoryReservationStatusRequest request = Some q ->
  sq_receipt q = st_receipt status -> sq_organizationId q = st_organizationId status ->
  sq_propertyId q = st_propertyId status ->
  env_authorize env' (sq_organizationId q) (sq_propertyId q) "status" None = true ->
  getInventoryReservationStatus env' request s' = Some status.
Proof.
  intros Hok Ht H Hq Hr Ho Hp Ha. pose proof H as H'.
  apply reserveInventory_ends in H' as [[_ Hno]|(c & _ & Hc & _ & _)]; [by destruct (Hno _ _ eq_refl)|].
  destruct (reserved_store _ _ _ _ _ _ _ _ _ Hok Hc H)
    as (d & dates & receiptId & fp & id & ev & out & Hparts & Hdates & Hid & -> & Hfr & Hfs & Hfw & Hl & _).
  unfold getInventoryReservationStatus. rewrite Hq, Ha, Hr, Ho, Hp, Hl.
  by apply new_receipt_status with (d := d) (dates := dates).
Qed.

(** ** A reservation and its release *)

(** The rooms assigned on every night *)
Definition assigned_rooms (s : Store) : list (string * string * string * Z) :=
  (fun r => (day_key r, id_assignedCount r)) <$> inventory_days s.

Lemma moved_rooms p room i o delta s s' :
  Forall2 linked_row (book_stay p room i o delta (inventory_days s)) (inventory_days s') ->
  assigned_rooms s' = (fun r => (day_key r, id_assignedCount r + (if in_stay p room i o r then delta else 0)))
    <$> inventory_days s.
Proof.
  unfold assigned_rooms, book_stay. generalize (inventory_days s').
  induction (inventory_days s) as [|day days IH]; intros rows Hrows; rewrite ?fmap_cons in *.
  - by inversion Hrows.
  - inversion Hrows as [|? row ? rows' [Hk Ha _ _ _] Hrows']; subst. rewrite fmap_cons, (IH _ Hrows').
    f_equal. rewrite Hk, Ha. destruct (in_stay _ _ _ _ day); cbn; f_equal; lia.
Qed.

(** Booking and unbooking the same stay *)
Lemma moved_back p room i o n s s1 s2 :
  Forall2 linked_row (book_stay p room i o n (inventory_days s)) (inventory_days s1) ->
  Forall2 linked_row (book_stay p room i o (- n) (inventory_days s1)) (inventory_days s2) ->
  assigned_rooms s2 = assigned_rooms s.
Proof.
  intros H1 H2. rewrite (moved_rooms _ _ _ _ _ _ _ H2).
  apply moved_rooms in H1. unfold assigned_rooms in *. revert H1. generalize (inventory_days s1).
  induction (inventory_days s) as [|day days IH]; intros [|row rows] H; try discriminate; [done|].
  rewrite !fmap_cons in *. injection H as Hk1 Hk2 Hk3 Ha H. rewrite (IH _ H). f_equal.
  assert (Hkey : day_key row = day_key day) by by (unfold day_key; congruence).
  rewrite Hkey, Ha, (in_stay_key _ _ _ _ _ _ Hkey). destruct (in_stay _ _ _ _ day); f_equal; lia.
Qed.

Lemma find_filter {A} (f : A -> bool) l : List.find f l = hd_error (List.filter f l).
Proof. induction l as [|x l IH]; [done|]. cbn. by destruct (f x). Qed.

Lemma release_row_same c id f k ev out t o p receiptId x :
  status_is receiptId o p (default x (release_row c id f k ev out t x)) = status_is receiptId o p x.
Proof. unfold release_row. destruct (_ && _ && _); [|done]. reflexivity. Qed.

Section Undo.
Context (c : PmsInventoryReservationReserveCommand) (c' : PmsInventoryReservationReleaseCommand).
Context (d : DateRange) (dates : list string) (receiptId fp fp' : string) (id ev out id' ev' out' : nat).
Context (t t' : Z) (l : ledger_tables).
Context (Hparts : command_parts c d) (Hdates : stayDates (rs_checkIn c) (rs_checkOut c) = Some dates).
Context (Hid : canonical_uuid receiptId = true) (Ht : four_digit_instant t) (Ht' : four_digit_instant t').
Context (Hreceipts : receiptId ∉ (re_receiptId <$> reservation_receipts l)).
Context (Hstatuses : receiptId ∉ (ss_receiptId <$> reservation_statuses l)).
Context (Hwatermarks : receiptId ∉ (wk_receiptId <$> reservation_watermarks l)).
Context (Ho : rl_organizationId c' = rs_organizationId c) (Hp : rl_propertyId c' = rs_propertyId c).

Let l1 := new_ledger c receiptId fp id ev out t l.
Let step := release_row c' receiptId fp' id' ev' out' t'.

(** The status row of the reservation, released *)
Definition released_row : status_row := default (reserved_row c receiptId) (step (reserved_row c receiptId)).

Lemma released_row_step : step (reserved_row c receiptId) = Some released_row.
Proof.
  unfold released_row, step, release_row, status_is. cbn. rewrite Ho, Hp, !String.eqb_refl. done.
Qed.

(** The table accepts the release only at a time not before the reservation. *)
Lemma release_not_before n :
  omap step (reservation_statuses l1) = [n] -> release_accepted l1 n = true -> t <= t'.
Proof.
  intros Hn Ha. destruct (new_receipt_rows c receiptId fp id ev out t l Hreceipts Hstatuses Hwatermarks)
    as (Hr & _ & _).
  assert (Hin : released_row ∈ omap step (reservation_statuses l1)).
  { apply list_elem_of_omap. exists (reserved_row c receiptId). split; [|apply released_row_step].
    apply elem_of_app. right. by left. }
  rewrite Hn in Hin. apply list_elem_of_singleton in Hin as <-.
  unfold release_accepted in Ha. rewrite find_filter in Ha.
  assert (Hrow : ss_receiptId released_row = receiptId /\
    ss_organizationId released_row = rs_organizationId c /\
    ss_propertyId released_row = rs_propertyId c /\ ss_releasedAt released_row = Some t').
  { unfold released_row, step, release_row, status_is. cbn. by rewrite Ho, Hp, !String.eqb_refl. }
  destruct Hrow as (Hx1 & Hx2 & Hx3 & Hx4). rewrite Hx1, Hx2, Hx3, Hx4 in Ha.
  unfold l1 in Ha. rewrite Hr in Ha. cbn in Ha. by bool_to_prop.
Qed.

Lemma released_reads_back l2 :
  t <= t' ->
  l2 = {| reservation_receipts := reservation_receipts l1;
          reservation_statuses := (fun x => default x (step x)) <$> reservation_statuses l1;
          reservation_watermarks := reservation_watermarks l1 |} ->
  status_of_receipt l2 receiptId (rs_organizationId c) (rs_propertyId c) =
    Some (releasedStatus (statusFromReserve c receiptId t) t').
Proof.
  intros Hle ->. destruct (new_receipt_rows c receiptId fp id ev out t l Hreceipts Hstatuses Hwatermarks)
    as (Hr & Hs & Hw).
  apply (status_of_receipt_found c d dates receiptId fp id ev out t Hparts Hdates Hid Ht _
    released_row (Released (to_iso_string t'))).
  - exact Hr.
  - cbn [reservation_statuses]. unfold step.
    rewrite filter_fmap_same by (intros; apply release_row_same). unfold l1. rewrite Hs. done.
  - exact Hw.
  - by exists t'.
  - unfold released_row, step, release_row, status_is. cbn. rewrite Ho, Hp, !String.eqb_refl. cbn.
    split_and!; [done..|]. by exists t'.
Qed.
End Undo.

(** C35: releasing a reservation right after it was made gives back every room
    it took, on every night; the receipt then reads as released, at a time not
    before it was reserved. *)
Theorem release_undoes_reservation env v c t f s status intent s1 env' v' c' t' result intent' s2 :
  store_ok s -> four_digit_instant t -> four_digit_instant t' ->
  parsePmsInventoryReservationReserveCommand v = Some c ->
  reserveInventory env v t f s = (Ret (LifecycleOk "reserved" status intent), s1) ->
  parsePmsInventoryReservationReleaseCommand v' = Some c' ->
  rl_organizationId c' = rs_organizationId c -> rl_propertyId c' = rs_propertyId c ->
  rl_receipt c' = st_receipt status ->
  releaseInventory env' v' t' s1 = (Ret (LifecycleOk "released" result intent'), s2) ->
  assigned_rooms s2 = assigned_rooms s /\ t <= t' /\ result = releasedStatus status t' /\
  status_of_receipt (ledger s2) (rc_receiptId (st_receipt status)) (st_organizationId status)
    (st_propertyId status) = Some result.
Proof.
  intros Hok Ht Ht' Hc H Hc' Ho Hp Hr H2.
  destruct (reserved_store _ _ _ _ _ _ _ _ _ Hok Hc H) as
    (d & dates & receiptId & fp & id & ev & out & Hparts & Hdates & Hid & -> & Hfr & Hfs & Hfw & Hl & He).
  apply releaseInventory_ends in H2 as [[_ Hno]|(c2 & status & Hc2 & [= -> _] & Hrun)];
    [by destruct (Hno _ _ eq_refl)|].
  rewrite Hc' in Hc2. injection Hc2 as <-. pose proof Hrun as [??????? ?? Hst _ _ _ _ _ _ _].
  rewrite Hr, Ho, Hp, Hl in Hst. cbn [statusFromReserve st_receipt rc_receiptId] in Hst.
  rewrite (new_receipt_status c d dates) in Hst by done. injection Hst as <-.
  pose proof (reserve_effect_balance _ _ _ _ _ Hok (proj1 (proj2 (reserve_command_fields _ _ Hc))) He) as [[Hnd1 _ _ _] _].
  destruct (reserve_command_fields _ _ Hc) as (_ & _ & Hn).
  apply release_run_effect in Hrun as [_ Hrows (fp' & id' & ev' & out' & (n & Hone & Ha) & Hl2)]; [|done..].
  destruct He as [_ Hrows1 _ _ _]. cbn in Hone, Ha, Hl2, Hrows. rewrite Hl in Hone, Ha, Hl2.
  assert (Hle : t <= t').
  { eapply (release_not_before c c'); [exact Hfr | exact Hfs | exact Hfw | exact Ho | exact Hp | exact Hone | exact Ha]. }
  split_and!; [by eapply moved_back | done | done|]. cbn.
  eapply (released_reads_back c c' d dates); [exact Hparts | exact Hdates | done.. | exact Hfr | exact Hfs |
    exact Hfw | exact Ho | exact Hp | exact Hle | exact Hl2].
Qed.

(** ** Asking again *)

Lemma replayed env c t f s result :
  findReserveReplay env c (hash env (rs_idempotencyKey c)) (reserve_fingerprint env c) s =
    Ret (Some result, s) ->
  executeReserve env c t f s = (Ret result, s).
Proof.
  intros H. unfold executeReserve, transaction. by erewrite tx_bind_eq by exact H.
Qed.

(** A reserve command sent again, at any time and with any new receipt id, is
    told of the reservation it made, and changes nothing. *)
Theorem reserve_retry_answers env v t f s status intent s' t2 f2 :
  store_ok s -> four_digit_instant t ->
  reserveInventory env v t f s = (Ret (LifecycleOk "reserved" status intent), s') ->
  reserveInventory env v t2 f2 s' = (Ret (LifecycleOk "already_reserved" status None), s').
Proof.
  intros Hok Ht H. pose proof H as H'.
  apply reserveInventory_ends in H' as [[_ Hno]|(c & st & Hc & [= <- _] & Hrun)];
    [by destruct (Hno _ _ eq_refl)|].
  pose proof (reserve_run_left _ _ _ _ _ _ _ _ Hok Ht Hc Hrun) as Hleft.
  unfold reserveInventory in *. rewrite Hc in *. destruct (negb _); [discriminate|].
  apply replayed. by eapply replay_same_command.
Qed.

(** Another reserve command under a key that made a reservation is refused and
    changes nothing, as long as the hash tells the two requests apart. *)
Theorem reserve_key_conflicts env v c t f s status intent s' v2 c2 t2 f2 :
  store_ok s -> four_digit_instant t ->
  parsePmsInventoryReservationReserveCommand v = Some c ->
  reserveInventory env v t f s = (Ret (LifecycleOk "reserved" status intent), s') ->
  parsePmsInventoryReservationReserveCommand v2 = Some c2 ->
  env_authorize env (rs_organizationId c2) (rs_propertyId c2) "reserve" (Some (rs_audit c2)) = true ->
  rs_propertyId c2 = rs_propertyId c -> rs_idempotencyKey c2 = rs_idempotencyKey c ->
  reserve_scope c2 <> reserve_scope c ->
  (forall text text2, serializePmsInventoryReservationReserveFingerprint c = Some text ->
     serializePmsInventoryReservationReserveFingerprint c2 = Some text2 ->
     env_hash env text2 = env_hash env text -> text2 = text) ->
  reserveInventory env v2 t2 f2 s' = (Ret (failure "idempotency_key_conflict"), s').
Proof.
  intros Hok Ht Hc H Hc2 Ha Hp Hk Hne Hhash.
  apply reserveInventory_ends in H as [[_ Hno]|(c' & st & Hc' & [= <- _] & Hrun)];
    [by destruct (Hno _ _ eq_refl)|].
  rewrite Hc in Hc'. injection Hc' as <-.
  pose proof (reserve_run_left _ _ _ _ _ _ _ _ Hok Ht Hc Hrun) as Hleft.
  unfold reserveInventory. rewrite Hc2, Ha. cbn [negb]. apply replayed.
  eapply replay_other_command; [exact Hleft|done..|]. unfold reserve_fingerprint, hash. intros E.
  destruct (reserve_fingerprint_Some c) as [text Htext].
  destruct (reserve_fingerprint_Some c2) as [text2 Htext2]. rewrite Htext, Htext2 in E.
  apply Hne, reserve_fingerprint_scope. rewrite Htext, Htext2. f_equal. by apply (Hhash text text2).
Qed.

(** ** The code's checks and the constraints of the tables *)

(** No fence stands before a room that is operating. *)
Lemma operating_no_fence c p room n :
  room_state c p room = Some "operating"%string -> id_propertyId n = p -> id_roomTypeId n = room ->
  closed_room_fence c n = true.
Proof.
  unfold room_state, closed_room_fence. intros H Hp Hr.
  destruct (List.find _ _) as [x|]; [|done]. destruct (negb (rt_active x)); [done|].
  destruct (existsb _ _) eqn:E; [done|]. apply orb_true_iff. left. apply negb_true_iff, existsb_none_iff.
  intros cl Hcl. apply not_true_iff_false. intros Hx. apply not_true_iff_false in E. apply E.
  apply existsb_exists. exists cl. split; [by apply list_elem_of_In|]. bool_to_prop.
  rewrite andb_true_iff, !String.eqb_eq. split; congruence.
Qed.

(** What passes the checks of a reservation is never refused by the tables:
    on validated nights of an operating room the booking goes through all
    constraints and triggers, and writes just those nights. *)
Theorem validated_booking_is_accepted v c days capacity s :
  NoDup (day_key <$> inventory_days s) ->
  parsePmsInventoryReservationReserveCommand v = Some c ->
  room_state (catalog s) (rs_propertyId c) (rs_roomTypeId c) = Some "operating"%string ->
  lockInventoryDays (rs_propertyId c) (rs_roomTypeId c) (rs_checkIn c) (rs_checkOut c) s =
    Ret (days, s) ->
  validateReserveDays c days capacity = None ->
  applyBookingDelta days (rs_roomCount c) s =
    Ret (tt, set_inventory s
      (book_stay (rs_propertyId c) (rs_roomTypeId c) (rs_checkIn c) (rs_checkOut c) (rs_roomCount c)
         (inventory_days s))).
Proof.
  intros Hnd (_ & _ & Hn)%reserve_command_fields Hop [Hd _]%lockInventoryDays_Ret Hv.
  pose proof (reserve_days_bookable _ _ _ _ Hn Hd Hv) as Hb.
  rewrite (applyBookingDelta_rows _ (select_stay (rs_propertyId c) (rs_roomTypeId c) (rs_checkIn c)
    (rs_checkOut c) s)).
  - by rewrite book_rows_stay.
  - done.
  - by apply select_stay_keys.
  - apply select_stay_in.
  - done.
  - eapply Forall_impl; [apply select_stay_matches|]. cbn. intros r (Hp & Hr & _).
    by eapply operating_no_fence.
Qed.
