(* ===== verification/QuoteReservation.v ===== *)
(** * Inventory of a pricing quote

    packages/domain-pms/src/inventoryReservationBundle.ts and the entry point
    reservePmsQuoteInventory of pmsInventoryReservationLifecycleRepository.ts: all
    rooms of a quote are reserved together, type by type, or none is, and asking
    again is answered with the receipts that are held. *)

From S2P Require Import Prelude JsValue JsonText CalendarDates OperatingSchedule OperatingCalendar InventoryPlanner ReservationLifecycle ReservationRows ReservationStore LinkedInventory ReservationRepository ReservationBooking ReservationRuns ReservationLedger ReservationBalance ReservationReadBack ReservationGuarantees.

(** ** Bundles of receipts *)

Definition PMS_INVENTORY_RESERVATION_BUNDLE_VERSION : string := "pms-inventory-reservation-bundle.v1".

Fixpoint parse_receipts (ids : list string) (l : list jsval) : option (list PmsInventoryReservationReceipt) :=
  match l with
  | [] => Some []
  | v :: rest =>
      let? receipt := parsePmsInventoryReservationReceipt v in
      let id := to_lower (rc_receiptId receipt) in
      guard? negb (includes ids id) in
      let? receipts := parse_receipts (id :: ids) rest in
      Some (receipt :: receipts)
  end.

(** A bundle is its receipts: its version and owner have one value each. *)
Definition parsePmsInventoryReservationBundle (v : jsval) : option (list PmsInventoryReservationReceipt) :=
  guard? is_object v in
  guard? is_str (get v "contractVersion") PMS_INVENTORY_RESERVATION_BUNDLE_VERSION && is_str (get v "owner") "pms" in
  let? receipts := as_array (get v "receipts") in
  guard? (1 <=? length receipts)%nat && (length receipts <=? 99)%nat in
  parse_receipts [] receipts.

Definition bundle_value (receipts : list PmsInventoryReservationReceipt) : jsval :=
  obj [("contractVersion", VString PMS_INVENTORY_RESERVATION_BUNDLE_VERSION); ("owner", VString "pms");
       ("receipts", arr (receipt_value <$> receipts))].

(** ** The rooms of a quote *)

Record QuoteInventory := {
  qi_organizationId : string;
  qi_propertyId : string;
  qi_quoteId : string;
  qi_checkIn : string;
  qi_checkOut : string;
  qi_rooms : list string
}.

(** How a call ends that does not throw; [QuoteRoomsSoldOutError] is an outcome here,
    since it names the room types. *)
Inductive QuoteOutcome :=
| bundled (receipts : list PmsInventoryReservationReceipt) (replayed : bool)
| rooms_sold_out (roomTypeIds : list string).

Definition QUOTE_UNAVAILABLE : string := "Quote inventory is unavailable".
Definition QUOTE_OPERATION : string := "pms.pricing_quote_inventory.reserve_bundle".

Definition is_uuid (id : string) : bool := bool_decide (normalizeUuid id = Some id).

Definition quote_valid (input : QuoteInventory) : bool :=
  forallb is_uuid [qi_organizationId input; qi_propertyId input; qi_quoteId input] &&
  match stayDates (qi_checkIn input) (qi_checkOut input) with Some _ => true | None => false end &&
  negb (length (qi_rooms input) <? 1)%nat && negb (99 <? length (qi_rooms input))%nat &&
  forallb is_uuid (qi_rooms input).

(** [counts.set(id, (counts.get(id) ?? 0) + 1)] for every room *)
Definition room_counts (rooms : list string) : list (string * Z) :=
  fold_left (fun counts id => map_set counts id (default 0 (map_get counts id) + 1)) rooms [].

Section Quote.
Context `{Collation}.
Variable env : Environment.

(** The room types of a quote with the number of rooms of each *)
Definition quote_lines (input : QuoteInventory) : list (string * Z) :=
  sort_by (fun a b => localeCompare (fst a) (fst b)) (room_counts (qi_rooms input)).

Definition quote_fingerprint (input : QuoteInventory) : string :=
  hash_json env (obj [("organizationId", VString (qi_organizationId input)); ("propertyId", VString (qi_propertyId input));
                      ("quoteId", VString (qi_quoteId input)); ("checkIn", VString (qi_checkIn input));
                      ("checkOut", VString (qi_checkOut input));
                      ("lines", arr ((fun '(id, n) => arr [VString id; VInt n]) <$> quote_lines input))]).

(** ** Replays *)

Definition receipt_stands (input : QuoteInventory) (line : string * Z) (status : PmsInventoryReservationStatus) : bool :=
  match st_state status with Reserved => true | _ => false end &&
  String.eqb (st_roomTypeId status) (fst line) && (st_roomCount status =? snd line) &&
  String.eqb (st_checkIn status) (qi_checkIn input) && String.eqb (st_checkOut status) (qi_checkOut input) &&
  String.eqb (oc_quoteSessionId (st_offerCorrelation status)) (qi_quoteId input).

Fixpoint receipts_stand (input : QuoteInventory) (lines : list (string * Z)) (receipts : list PmsInventoryReservationReceipt)
    : Tx unit :=
  match receipts, lines with
  | receipt :: receipts, line :: lines =>
      status ← readReservationStatus (qi_organizationId input) (qi_propertyId input) receipt;
      match status with
      | Some status => if receipt_stands input line status then receipts_stand input lines receipts else throw QUOTE_UNAVAILABLE
      | None => throw QUOTE_UNAVAILABLE
      end
  | _, _ => mret tt
  end.

Definition replay_bundle (input : QuoteInventory) (prior : idempotency_row) : Tx QuoteOutcome :=
  match parsePmsInventoryReservationBundle (ik_metadata prior) with
  | Some receipts =>
      if negb (String.eqb (ik_status prior) "completed") ||
         negb (String.eqb (ik_requestFingerprintHash prior) (quote_fingerprint input)) ||
         negb (length receipts =? length (quote_lines input))%nat
      then throw QUOTE_UNAVAILABLE
      else receipts_stand input (quote_lines input) receipts;; mret (bundled receipts true)
  | None => throw QUOTE_UNAVAILABLE
  end.

(** ** Reserving *)

Definition day_watermark (propertyId roomTypeId : string) (day : CanonicalInventoryDay) : PmsInventoryReservationDayWatermark :=
  {| wm_propertyId := propertyId; wm_roomTypeId := roomTypeId; wm_stayDate := cd_stayDate day;
     wm_calendarRevision := cd_calendarRevision day; wm_inventoryRevision := cd_inventoryRevision day;
     wm_sourceRevisions :=
       {| rv_generated := cd_generatedSourceRevision day; rv_channel := cd_channelSourceRevision day;
          rv_manual := cd_manualSourceRevision day; rv_block := cd_blockSourceRevision day;
          rv_booking := cd_bookingSourceRevision day |} |}.

Definition line_key (input : QuoteInventory) (roomTypeId : string) : string :=
  "pricing-quote:" +:+ qi_quoteId input +:+ ":" +:+ roomTypeId.

Definition line_command (input : QuoteInventory) (calendar : PmsOperatingCalendarConfigurationSnapshot)
    (audit : RoomFactsCommandAudit) (line : string * Z) (days : list CanonicalInventoryDay)
    : PmsInventoryReservationReserveCommand :=
  {| rs_organizationId := qi_organizationId input; rs_propertyId := qi_propertyId input; rs_roomTypeId := fst line;
     rs_checkIn := qi_checkIn input; rs_checkOut := qi_checkOut input; rs_roomCount := snd line;
     rs_offerCorrelation := {| oc_quoteSessionId := qi_quoteId input; oc_publicOfferKey := line_key input (fst line) |};
     rs_configurationSource := cs_source calendar; rs_expectedMaterializedRevision := cs_calendarRevision calendar;
     rs_inventoryWatermarks := day_watermark (qi_propertyId input) (fst line) <$> days;
     rs_idempotencyKey := line_key input (fst line); rs_audit := audit |}.

Definition quote_audit (input : QuoteInventory) (now : Z) : RoomFactsCommandAudit :=
  {| ra_actor := ActorSystem "booking.pricing-quotes"; ra_requestId := qi_quoteId input;
     ra_correlationId := Some (qi_quoteId input); ra_requestedAt := to_iso_string now |}.

(** [newReceiptId] gives the random receipt id of a room type. *)
Definition reserve_line (input : QuoteInventory) (calendar : PmsOperatingCalendarConfigurationSnapshot)
    (audit : RoomFactsCommandAudit) (newReceiptId : string -> string) (line : string * Z) : Tx lifecycle_result :=
  days ← lockInventoryDays (qi_propertyId input) (fst line) (qi_checkIn input) (qi_checkOut input);
  reservePmsInventoryInTransaction env (reserve_command_value (line_command input calendar audit line days))
    (newReceiptId (fst line)).

(** The receipts, and the room types without a free room, in the order of the lines *)
Fixpoint reserve_lines (input : QuoteInventory) (calendar : PmsOperatingCalendarConfigurationSnapshot)
    (audit : RoomFactsCommandAudit) (newReceiptId : string -> string) (lines : list (string * Z))
    : Tx (list PmsInventoryReservationReceipt * list string) :=
  match lines with
  | [] => mret ([], [])
  | line :: lines =>
      result ← reserve_line input calendar audit newReceiptId line;
      match result with
      | LifecycleError code =>
          if String.eqb code "inventory_unavailable" then
            '(receipts, soldOut) ← reserve_lines input calendar audit newReceiptId lines;
            mret (receipts, fst line :: soldOut)
          else throw QUOTE_UNAVAILABLE
      | LifecycleOk _ status _ =>
          match st_state status with
          | Reserved =>
              '(receipts, soldOut) ← reserve_lines input calendar audit newReceiptId lines;
              mret (st_receipt status :: receipts, soldOut)
          | _ => throw QUOTE_UNAVAILABLE
          end
      end
  end.

(** [UPDATE platform.idempotency_keys SET status='completed', ... WHERE id=$1] *)
Definition finish_key (id : nat) (bundle : jsval) (now : Z) (r : idempotency_row) : idempotency_row :=
  if Nat.eqb (ik_id r) id then
    {| ik_id := ik_id r; ik_operation := ik_operation r; ik_keyHash := ik_keyHash r;
       ik_propertyId := ik_propertyId r; ik_requestFingerprintHash := ik_requestFingerprintHash r;
       ik_status := "completed"; ik_correlationId := ik_correlationId r; ik_responseStatusCode := Some 200;
       ik_responseBodyHash := Some (hash_json env bundle); ik_metadata := bundle;
       ik_firstSeenAt := ik_firstSeenAt r; ik_lastSeenAt := now; ik_completedAt := Some now |}
  else r.

Definition finish_bundle (id : nat) (bundle : jsval) (now : Z) : Tx unit :=
  write (fun s => set_journal s
    (set_keys (finish_key id bundle now <$> idempotency_keys (journal s)) (next_id (journal s)) (journal s))).

(** [SAVEPOINT ... RELEASE SAVEPOINT], rolled back on a throw or an outcome that is one *)
Definition savepoint {A} (body : Tx (ending A)) : Tx A := fun s =>
  match body s with
  | Ret (Committed a, s') => Ret (a, s')
  | Ret (RolledBack a, _) => Ret (a, s)
  | Throw e => Throw e
  end.

Definition reserve_bundle (input : QuoteInventory) (calendar : PmsOperatingCalendarConfigurationSnapshot)
    (newReceiptId : string -> string) (now : Z) : Tx (ending QuoteOutcome) :=
  let audit := quote_audit input now in
  claim ← reserveIdempotency QUOTE_OPERATION (qi_propertyId input) (hash env (qi_quoteId input)) (quote_fingerprint input) audit now;
  match claim with
  | None => throw QUOTE_UNAVAILABLE
  | Some id =>
      '(receipts, soldOut) ← reserve_lines input calendar audit newReceiptId (quote_lines input);
      match soldOut with
      | [] => finish_bundle id (bundle_value receipts) now;; mret (Committed (bundled receipts false))
      | _ => mret (RolledBack (rooms_sold_out soldOut))
      end
  end.

(** [requireFreshQuote] checks the quote, or throws. *)
Definition reservePmsQuoteInventory (input : QuoteInventory) (requireFreshQuote : Store -> exn unit)
    (newReceiptId : string -> string) : Tx QuoteOutcome :=
  if negb (quote_valid input) then throw QUOTE_UNAVAILABLE
  else
    prior ← findIdempotency QUOTE_OPERATION (qi_propertyId input) (hash env (qi_quoteId input));
    match prior with
    | Some prior => replay_bundle input prior
    | None =>
        checked ← read requireFreshQuote;
        lift checked;;
        current ← (fun s => match env_lockedCalendar env (qi_propertyId input) s with
                            | Ret c => Ret (c, s) | Throw e => Throw e end);
        match current with
        | Some (ReadCurrent calendar) =>
            now ← read (env_clock env);
            savepoint (reserve_bundle input calendar newReceiptId now)
        | _ => throw QUOTE_UNAVAILABLE
        end
    end.
End Quote.

(** ** The counts of the rooms *)

Lemma count_step (counts : list (string * Z)) rooms : NoDup counts.*1 ->
  let m := fold_left (fun counts id => map_set counts id (default 0 (map_get counts id) + 1)) rooms counts in
  NoDup m.*1 /\ forall id, map_get m id =
    match count_occ String.string_dec rooms id with
    | O => map_get counts id
    | n => Some (default 0 (map_get counts id) + Z.of_nat n)
    end.
Proof.
  revert counts. induction rooms as [|r rooms IH]; intros counts Hnd; cbn [fold_left count_occ]; [done|].
  destruct (IH (map_set counts r (default 0 (map_get counts r) + 1))) as [H1 H2]; [by apply map_set_NoDup|].
  split; [done|]. intros id. rewrite H2, map_get_set. destruct (String.string_dec r id) as [->|Hne].
  - rewrite String.eqb_refl. destruct (count_occ _ rooms id); cbn [default from_option Datatypes.id]; f_equal; lia.
  - by rewrite (proj2 (String.eqb_neq r id)).
Qed.

Lemma room_counts_spec rooms : NoDup (room_counts rooms).*1 /\
  forall id n, (id, n) ∈ room_counts rooms <-> id ∈ rooms /\ n = Z.of_nat (count_occ String.string_dec rooms id).
Proof.
  destruct (count_step [] rooms) as [H1 H2]; [constructor|]. split; [exact H1|]. intros id n. unfold room_counts.
  rewrite <- (map_get_spec _ _ _ H1), H2, list_elem_of_In, (count_occ_In String.string_dec).
  destruct (count_occ _ rooms id); cbn [map_get default from_option]; [split; [done | lia]|].
  split; [intros [= <-]; split; lia | intros [_ ->]; f_equal; lia].
Qed.

(** ** Held lines *)

(** A receipt of the ledger that holds the rooms of a line for the quote *)
Definition line_held (input : QuoteInventory) (l : ledger_tables) (line : string * Z)
    (receipt : PmsInventoryReservationReceipt) : Prop :=
  exists status, status_of_receipt l (rc_receiptId receipt) (qi_organizationId input) (qi_propertyId input) = Some status /\
    st_receipt status = receipt /\ receipt_stands input line status = true.

Lemma line_held_same input l line line' receipt :
  line_held input l line receipt -> line_held input l line' receipt -> fst line = fst line'.
Proof.
  intros (s & Hs & _ & Hr) (s' & Hs' & _ & Hr'). rewrite Hs in Hs'. injection Hs' as <-.
  unfold receipt_stands in *. bool_to_prop. congruence.
Qed.

(** A held receipt is stored, and its identifier is canonical. *)
Lemma line_held_stored input l line receipt : line_held input l line receipt ->
  rc_receiptId receipt ∈ re_receiptId <$> reservation_receipts l /\
  parsePmsInventoryReservationReceipt (receipt_value receipt) = Some receipt /\ to_lower (rc_receiptId receipt) = rc_receiptId receipt.
Proof.
  intros (s & Hs & <- & _). apply status_of_receipt_Some in Hs as (r & t & Hr & _ & [Hid _ _ _ _ _ _ _ _]).
  assert (Hin : r ∈ List.filter (receipt_is (rc_receiptId (st_receipt s)) (qi_organizationId input) (qi_propertyId input))
                      (reservation_receipts l)) by (rewrite Hr; by left).
  apply elem_of_bfilter in Hin as [Hin Hi]. apply receipt_is_id in Hi. split.
  - rewrite <- Hi. by apply list_elem_of_fmap_2.
  - apply as_uuid_reparse in Hid. destruct (st_receipt s) as [id]. cbn [rc_receiptId] in *. split.
    + unfold parsePmsInventoryReservationReceipt, receipt_value. cbn. by rewrite Hid.
    + apply as_uuid_Some in Hid. unfold canonical_uuid in Hid. apply andb_true_iff in Hid as [_ Hid]. by apply String.eqb_eq.
Qed.

Lemma status_of_receipt_other l r t ws id o p :
  re_receiptId r <> id -> ss_receiptId t <> id -> Forall (fun w => wk_receiptId w <> id) ws ->
  status_of_receipt (with_receipt l r t ws) id o p = status_of_receipt l id o p.
Proof.
  intros Hr Ht Hw. unfold status_of_receipt, with_receipt. cbn [reservation_receipts reservation_statuses reservation_watermarks].
  rewrite !List.filter_app. cbn [List.filter].
  destruct (receipt_is id o p r) eqn:E1; [exfalso; apply receipt_is_id in E1; contradiction|].
  destruct (status_is id o p t) eqn:E2; [exfalso; apply status_is_id in E2; contradiction|].
  rewrite !app_nil_r. replace (List.filter (watermark_is id o p) ws) with (@nil watermark_row); [rewrite app_nil_r; reflexivity|].
  symmetry. apply filter_none. intros w Hin. apply not_true_iff_false. intros E3%watermark_is_id.
  rewrite Forall_forall in Hw. by apply (Hw w).
Qed.

(** Later reservations leave a held line. *)
Lemma line_held_after input c t receiptId s s' line receipt :
  reserve_effect c t receiptId s s' -> line_held input (ledger s) line receipt -> line_held input (ledger s') line receipt.
Proof.
  intros [_ _ Hr _ (f & id & ev & out & Hl)] H. pose proof (line_held_stored _ _ _ _ H) as [Hin _].
  destruct H as (st & Hst & Hrec & Hstands). exists st. split_and!; [|done..]. rewrite Hl, <- Hst.
  assert (Hne : receiptId <> rc_receiptId receipt) by (intros ->; by apply Hr).
  apply status_of_receipt_other; [done..|]. apply Forall_fmap, Forall_true. intros w. done.
Qed.

(** ** One line *)

Lemma same_offer_session a b : same_stable_json (offer_value a) (offer_value b) = true -> oc_quoteSessionId a = oc_quoteSessionId b.
Proof.
  unfold same_stable_json. intros E%bool_decide_eq_true. destruct a as [q k], b as [q' k'].
  assert (Hs : forall q k, sortJsonValue (offer_value {| oc_quoteSessionId := q; oc_publicOfferKey := k |}) =
    obj [("publicOfferKey", VString k); ("quoteSessionId", VString q)]) by reflexivity.
  unfold stableJson in E. rewrite !Hs in E. apply json_stringify_inj in E; [|repeat constructor..].
  by injection E.
Qed.

(** What a reserve command that is parsed from a line asks for *)
Lemma line_command_fields input calendar audit line days c :
  parsePmsInventoryReservationReserveCommand (reserve_command_value (line_command input calendar audit line days)) = Some c ->
  normalizeUuid (qi_organizationId input) = Some (qi_organizationId input) ->
  normalizeUuid (qi_propertyId input) = Some (qi_propertyId input) -> normalizeUuid (fst line) = Some (fst line) ->
  rs_organizationId c = qi_organizationId input /\ rs_propertyId c = qi_propertyId input /\ rs_roomTypeId c = fst line /\
  rs_checkIn c = qi_checkIn input /\ rs_checkOut c = qi_checkOut input /\ rs_roomCount c = snd line /\
  oc_quoteSessionId (rs_offerCorrelation c) = qi_quoteId input.
Proof.
  intros H Ho Hp Hr. unfold parsePmsInventoryReservationReserveCommand, reserve_command_value, line_command in H. cbn in H.
  unfold normalizeUuid in *. rewrite Ho, Hp, Hr in H. follow H.
  cbn [rs_organizationId rs_propertyId rs_roomTypeId rs_checkIn rs_checkOut rs_roomCount rs_offerCorrelation].
  apply as_integer_Some in E0 as ([= ->] & _). unfold parseDateRange in E3. follow E3.
  injection E11 as <-. injection E12 as <-. unfold parseOfferCorrelation in E4. follow E4.
  match goal with E : as_trimmed _ _ (get _ "quoteSessionId") = Some _ |- _ => apply as_trimmed_Some in E as [Eq _] end.
  by injection Eq as <-.
Qed.

(** A result that is not the one asked for *)
Ltac refused H := apply tx_ret_Ret in H as [H _]; discriminate H.

(** A replay that succeeds tells the status that is stored, of what the command asks for. *)
Lemma replay_status env c k f s o st i : findReserveReplay env c k f s = Ret (Some (LifecycleOk o st i), s) ->
  status_of_receipt (ledger s) (rc_receiptId (st_receipt st)) (rs_organizationId c) (rs_propertyId c) = Some st /\
  st_roomTypeId st = rs_roomTypeId c /\ st_roomCount st = rs_roomCount c /\ st_checkIn st = rs_checkIn c /\
  st_checkOut st = rs_checkOut c /\
  oc_quoteSessionId (st_offerCorrelation st) = oc_quoteSessionId (rs_offerCorrelation c).
Proof.
  unfold findReserveReplay. intros H. tx_step H. destruct a as [row|]; [|refused H].
  apply reads_same in E as ->; [|apply findIdempotency_reads].
  destruct (negb _); [refused H|]. destruct (negb _); [refused H|].
  destruct (stored_result _ _ _ _) as [[outcome stored intent|code]|]; [|refused H..].
  destruct (_ || _) eqn:Em; [refused H|]. apply orb_false_iff in Em as [_ Em%negb_false_iff].
  tx_step H. destruct (negb a); [refused H|]. tx_step H.
  unfold readReservationStatus in E0. apply read_Ret in E0 as [-> ->].
  unfold reserveReceiptEvidenceMatches in E. tx_step E. apply read_Ret in E0 as [-> ->]. apply tx_ret_Ret in E as [_ <-].
  destruct (status_of_receipt (ledger s) _ (st_organizationId stored) _) as [current|] eqn:Ec; [|refused H].
  destruct (sameReservationIdentity current stored) eqn:Es; [|refused H].
  apply tx_ret_Ret in H as [Hr _]. assert (current = st) as ->.
  { unfold reserveReplayResult in Hr. destruct (st_state current); by injection Hr. }
  unfold reserveStatusMatchesCommand in Em. unfold sameReservationIdentity in Es. bool_to_prop. destruct_and?.
  repeat match goal with H : same_stable_json (offer_value _) (offer_value _) = true |- _ => apply same_offer_session in H end.
  split_and!; congruence.
Qed.

(** A run adds the completed row of its own key and leaves the other keys. *)
Lemma reserve_run_keys env c t f s s' status op p k : reserve_run env c t f s s' status -> op <> RESERVE_OPERATION ->
  List.filter (same_key op p k) (idempotency_keys (journal s')) = List.filter (same_key op p k) (idempotency_keys (journal s)).
Proof.
  intros [id days cap receiptId ev s0 s1 s2 kh fp result _ Hk _ _ _ Hb _ _ Hr Hcomp] Hop. subst kh fp result.
  apply reserveIdempotency_Some in Hk as [_ Hk0]. apply applyBookingDelta_rest in Hb as [_ Hj1]. apply recorded_keys in Hr.
  unfold completeReserve in Hcomp. tx_step Hcomp. apply recordAudit_keys in E. unfold keeps_keys in E. tx_step Hcomp.
  apply tx_ret_Ret in Hcomp as [_ <-]. unfold completeIdempotency in E0. tx_step E0. apply read_Ret in E1 as [-> ->].
  cbv zeta in E0. destruct (negb _) eqn:En in E0; [discriminate|]. apply write_Ret in E0 as ->.
  apply negb_false_iff, Nat.eqb_eq in En. cbn [journal set_journal set_keys idempotency_keys].
  rewrite E, Hr, Hj1, Hk0 in En |- *. rewrite List.filter_app, length_app in En. rewrite fmap_app, List.filter_app.
  cbn [fmap list_fmap List.filter]. rewrite complete_key_same.
  assert (Hnew : same_key op p k (new_key RESERVE_OPERATION (rs_propertyId c) (hash env (rs_idempotencyKey c))
                   (reserve_fingerprint env c) (rs_audit c) t id) = false).
  { unfold same_key, new_key. cbn [ik_operation]. by rewrite (proj2 (String.eqb_neq RESERVE_OPERATION op)). }
  rewrite Hnew, app_nil_r. f_equal. unfold new_key in En. cbn [List.filter ik_id ik_status] in En.
  rewrite Nat.eqb_refl in En. cbn [andb String.eqb Ascii.eqb Bool.eqb length] in En.
  set (open := fun r => _) in En. assert (Hnone : List.filter open (idempotency_keys (journal s)) = []).
  { apply nil_length_inv. lia. }
  rewrite <- (list_fmap_id (idempotency_keys (journal s))) at 2. apply list_fmap_ext. intros j x Hx.
  unfold complete_key. fold (open x). destruct (open x) eqn:Eo; [|done]. exfalso.
  assert (Hin : x ∈ List.filter open (idempotency_keys (journal s))) by (apply elem_of_bfilter; split; [by eapply list_elem_of_lookup_2 | done]).
  rewrite Hnone in Hin. by apply elem_of_nil in Hin.
Qed.

Section Lines.
Context (env : Environment) (input : QuoteInventory) (calendar : PmsOperatingCalendarConfigurationSnapshot).
Context (audit : RoomFactsCommandAudit) (newReceiptId : string -> string).
Context (Hclock : forall s, four_digit_instant (env_clock env s)).
Context (Horg : normalizeUuid (qi_organizationId input) = Some (qi_organizationId input)).
Context (Hprop : normalizeUuid (qi_propertyId input) = Some (qi_propertyId input)).

(** What lines that were reserved leave of the store before *)
Record lines_after (s s' : Store) : Prop := {
  la_ok : store_ok s -> store_ok s';
  la_balance : store_ok s -> balance s' = balance s;
  la_held : forall line receipt, store_ok s -> line_held input (ledger s) line receipt -> line_held input (ledger s') line receipt;
  la_keys : forall p k, List.filter (same_key QUOTE_OPERATION p k) (idempotency_keys (journal s')) =
                        List.filter (same_key QUOTE_OPERATION p k) (idempotency_keys (journal s))
}.

Lemma lines_after_refl s : lines_after s s.
Proof. by split. Qed.

Lemma lines_after_trans s1 s2 s3 : lines_after s1 s2 -> lines_after s2 s3 -> lines_after s1 s3.
Proof.
  intros [A1 B1 C1 D1] [A2 B2 C2 D2]. split.
  - auto.
  - intros Hok. rewrite B2; auto.
  - intros line receipt Hok Hl. auto.
  - intros p k. by rewrite D2.
Qed.

Lemma reserve_line_error line code s s' :
  reserve_line env input calendar audit newReceiptId line s = Ret (LifecycleError code, s') -> s' = s.
Proof.
  unfold reserve_line. intros H. tx_step H. apply reads_same in E as ->; [|apply lockInventoryDays_reads].
  by apply reserveInTransaction_cases in H as [[-> _]|(c & st & _ & ? & _)].
Qed.

Lemma reserve_line_ok line o st i s s' : normalizeUuid (fst line) = Some (fst line) ->
  reserve_line env input calendar audit newReceiptId line s = Ret (LifecycleOk o st i, s') -> st_state st = Reserved ->
  lines_after s s' /\ (store_ok s -> line_held input (ledger s') line (st_receipt st)).
Proof.
  intros Hline. unfold reserve_line. intros H Hres. tx_step H. apply reads_same in E as ->; [|apply lockInventoryDays_reads].
  apply reserveInTransaction_cases in H as [[-> [[code ?]|(c & Hc & Hr)]]|(c & st' & Hc & [= -> -> ->] & Hrun)]; [done | |].
  - split; [apply lines_after_refl|]. intros _.
    apply line_command_fields in Hc as (E1 & E2 & E3 & E4 & E5 & E6 & E7); [|done..].
    apply replay_status in Hr as (Hst & R3 & R6 & R4 & R5 & R7). exists st. rewrite <- E1, <- E2. split_and!; [done..|].
    unfold receipt_stands. rewrite Hres, R3, R4, R5, R6, R7, E3, E4, E5, E6, E7. by rewrite !String.eqb_refl, Z.eqb_refl.
  - pose proof Hc as Hf. apply line_command_fields in Hf as (E1 & E2 & E3 & E4 & E5 & E6 & E7); [|done..].
    pose proof (reserve_command_fields _ _ Hc) as (_ & Hroom & Hn).
    assert (He : store_ok s -> exists receiptId, reserve_effect c (env_clock env s) receiptId s s').
    { intros Hok. apply reserve_run_effect in Hrun as (receiptId & _ & _ & He); [by exists receiptId | by destruct Hok | done]. }
    split.
    + split.
      * intros Hok. destruct (He Hok) as [receiptId He']. by apply (reserve_effect_balance c _ _ s s' Hok Hroom) in He' as [? _].
      * intros Hok. destruct (He Hok) as [receiptId He']. by apply (reserve_effect_balance c _ _ s s' Hok Hroom) in He' as [_ ?].
      * intros l r Hok. destruct (He Hok) as [receiptId He']. by eapply line_held_after.
      * intros p k. by eapply reserve_run_keys.
    + intros Hok. pose proof (reserve_run_left _ _ _ _ _ _ _ _ Hok (Hclock s) Hc Hrun) as [(id & _ & receiptId & ev & out & -> & _) _ Hcur].
      exists (statusFromReserve c receiptId (env_clock env s)). cbn [statusFromReserve st_organizationId st_propertyId] in Hcur.
      rewrite <- E1, <- E2. split_and!; [exact Hcur | reflexivity|]. unfold receipt_stands.
      cbn [statusFromReserve st_state st_roomTypeId st_roomCount st_checkIn st_checkOut st_offerCorrelation].
      rewrite E3, E4, E5, E6, E7. by rewrite !String.eqb_refl, Z.eqb_refl.
Qed.

(** All lines: what was reserved is held at the end. *)
Lemma reserve_lines_ok lines : Forall (fun line => normalizeUuid (fst line) = Some (fst line)) lines ->
  forall s receipts s', reserve_lines env input calendar audit newReceiptId lines s = Ret ((receipts, []), s') ->
  lines_after s s' /\ (store_ok s -> Forall2 (line_held input (ledger s')) lines receipts).
Proof.
  induction 1 as [|line lines Hline _ IH]; intros s receipts s' H; cbn [reserve_lines] in H.
  - apply tx_ret_Ret in H as [[= <-] <-]. split; [apply lines_after_refl|]. intros _. constructor.
  - tx_step H. destruct a as [o st i|code].
    + destruct (st_state st) eqn:Es; [|discriminate H..]. tx_step H. destruct a as [rs sold]. apply tx_ret_Ret in H as [H <-].
      injection H as <- ->. apply reserve_line_ok in E as [Ha Hh]; [|done..]. apply IH in E0 as [Hb Ht].
      split; [by eapply lines_after_trans|]. intros Hok. pose proof (la_ok _ _ Ha Hok) as Hok'. constructor; [|by apply Ht].
      apply (la_held _ _ Hb); [done | by apply Hh].
    + destruct (String.eqb code _); [|discriminate H]. tx_step H. destruct a as [rs sold]. apply tx_ret_Ret in H as [H _]. discriminate H.
Qed.
End Lines.

(** ** Bundles read back *)

Lemma parse_receipts_back receipts : forall ids,
  Forall (fun r => parsePmsInventoryReservationReceipt (receipt_value r) = Some r /\ to_lower (rc_receiptId r) = rc_receiptId r) receipts ->
  NoDup receipts -> Forall (fun r => rc_receiptId r ∉ ids) receipts ->
  parse_receipts ids (receipt_value <$> receipts) = Some receipts.
Proof.
  induction receipts as [|r receipts IH]; intros ids Hp Hnd Hids; [done|]. apply Forall_cons in Hp as [[Hr Hl] Hp].
  apply NoDup_cons in Hnd as [Hnr Hnd]. apply Forall_cons in Hids as [Hi Hids]. cbn [fmap list_fmap parse_receipts].
  rewrite Hr. cbn [mbind option_bind]. rewrite Hl. destruct (includes ids (rc_receiptId r)) eqn:Ei; [by apply includes_elem in Ei|].
  change (list_fmap _ _ receipt_value receipts) with (receipt_value <$> receipts). cbn [negb]. rewrite IH; [done..|].
  apply Forall_forall. intros x Hx Hin. apply elem_of_cons in Hin as [E|Hin].
  - apply Hnr. destruct x, r. cbn in E. by subst.
  - rewrite Forall_forall in Hids. by apply (Hids x).
Qed.

Lemma held_receipts input l lines receipts : NoDup lines.*1 -> Forall2 (line_held input l) lines receipts ->
  NoDup receipts /\ Forall (fun r => parsePmsInventoryReservationReceipt (receipt_value r) = Some r /\
                                     to_lower (rc_receiptId r) = rc_receiptId r) receipts.
Proof.
  intros Hnd H. split.
  - revert Hnd. induction H as [|line r lines receipts Hl Hrest IH]; intros Hnd; [constructor|].
    cbn [fmap list_fmap] in Hnd. apply NoDup_cons in Hnd as [Hn Hnd]. constructor; [|by apply IH]. intros Hin. apply Hn.
    apply list_elem_of_lookup in Hin as (i & Hi). destruct (Forall2_lookup_r _ _ _ _ _ Hrest Hi) as (line' & Hi' & Hl').
    rewrite (line_held_same _ _ _ _ _ Hl Hl'). by eapply list_elem_of_fmap_2, list_elem_of_lookup_2.
  - apply Forall_forall. intros r Hr. apply list_elem_of_lookup in Hr as (i & Hi).
    destruct (Forall2_lookup_r _ _ _ _ _ H Hi) as (line & _ & Hl). by apply line_held_stored in Hl as [_ ?].
Qed.

Lemma bundle_reads_back input l lines receipts : NoDup lines.*1 -> (1 <= length lines <= 99)%nat ->
  Forall2 (line_held input l) lines receipts -> parsePmsInventoryReservationBundle (bundle_value receipts) = Some receipts.
Proof.
  intros Hnd Hlen H. destruct (held_receipts _ _ _ _ Hnd H) as [Hr Hp]. apply Forall2_length in H.
  unfold parsePmsInventoryReservationBundle, bundle_value. cbn. rewrite as_array_arr. cbn [mbind option_bind].
  rewrite length_fmap. rewrite (proj2 (Nat.leb_le 1 (length receipts))), (proj2 (Nat.leb_le (length receipts) 99)) by lia. cbn [andb].
  apply parse_receipts_back; [done..|]. apply Forall_forall. intros x _ Hx. by apply elem_of_nil in Hx.
Qed.

Section Quotes.
Context `{Collation}.

(** ** The lines of a quote *)

Lemma quote_lines_spec input : NoDup (quote_lines input).*1 /\
  forall id n, (id, n) ∈ quote_lines input <-> id ∈ qi_rooms input /\ n = Z.of_nat (count_occ String.string_dec (qi_rooms input) id).
Proof.
  destruct (room_counts_spec (qi_rooms input)) as [Hnd Hc]. unfold quote_lines. split.
  - by rewrite (fmap_Permutation _ _ _ (sort_by_perm _ _)).
  - intros id n. by rewrite elem_of_sort_by.
Qed.

(** No more lines than rooms *)
Lemma quote_lines_length input : (length (quote_lines input) <= length (qi_rooms input))%nat.
Proof.
  destruct (quote_lines_spec input) as [Hnd Hc]. rewrite <- (length_fmap fst). apply submseteq_length, NoDup_submseteq; [done|].
  intros id ([id' n] & -> & Hin)%list_elem_of_fmap. by apply Hc in Hin as [? _].
Qed.

Lemma quote_valid_spec input : quote_valid input = true ->
  normalizeUuid (qi_organizationId input) = Some (qi_organizationId input) /\
  normalizeUuid (qi_propertyId input) = Some (qi_propertyId input) /\
  (1 <= length (quote_lines input) <= 99)%nat /\
  Forall (fun line => normalizeUuid (fst line) = Some (fst line)) (quote_lines input).
Proof.
  unfold quote_valid. cbn [forallb]. rewrite !andb_true_iff, !negb_true_iff, !Nat.ltb_ge, forallb_forall. unfold is_uuid.
  intros [[[[(Ho & Hp & _) _] H1] H99] Hr]. apply bool_decide_eq_true in Ho, Hp. pose proof (quote_lines_length input) as Hl.
  destruct (quote_lines_spec input) as [_ Hc]. split_and!; [done..| |lia|].
  - destruct (qi_rooms input) as [|id rooms] eqn:E; [cbn in H1; lia|].
    destruct (quote_lines input) eqn:El; [|cbn; lia]. exfalso.
    assert (Hin : (id, Z.of_nat (count_occ String.string_dec (id :: rooms) id)) ∈ @nil (string * Z)) by (apply Hc; split; [left | done]).
    by apply elem_of_nil in Hin.
  - apply Forall_forall. intros [id n] Hin. apply Hc in Hin as [Hin _]. apply list_elem_of_In, Hr in Hin. by apply bool_decide_eq_true in Hin.
Qed.

(** ** A bundle that was reserved *)

(** The store that a reserved bundle leaves *)
Record bundle_left (env : Environment) (input : QuoteInventory) (receipts : list PmsInventoryReservationReceipt)
    (s' : Store) : Prop := {
  bl_held : Forall2 (line_held input (ledger s')) (quote_lines input) receipts;
  bl_key : exists row, findIdempotency QUOTE_OPERATION (qi_propertyId input) (hash env (qi_quoteId input)) s' = Ret (Some row, s') /\
    ik_status row = "completed"%string /\ ik_requestFingerprintHash row = quote_fingerprint env input /\
    ik_metadata row = bundle_value receipts
}.

Lemma finish_key_same env o p k id bundle now r : same_key o p k (finish_key env id bundle now r) = same_key o p k r.
Proof. unfold finish_key. by destruct (Nat.eqb _ _). Qed.

Lemma reserve_bundle_ok env input calendar newReceiptId now s receipts s' :
  (forall x, four_digit_instant (env_clock env x)) -> store_ok s -> quote_valid input = true ->
  reserve_bundle env input calendar newReceiptId now s = Ret (Committed (bundled receipts false), s') ->
  store_ok s' /\ balance s' = balance s /\ bundle_left env input receipts s'.
Proof.
  intros Hclock Hok (Ho & Hp & _ & Hlines)%quote_valid_spec Hr. unfold reserve_bundle in Hr. cbv zeta in Hr. tx_step Hr.
  destruct a as [id|]; [|discriminate Hr]. pose proof (reserveIdempotency_journal _ _ _ _ _ _ _ _ _ E) as Hj.
  apply reserveIdempotency_Some in E as [Hnone Hkeys]. tx_step Hr. destruct a as [rs sold]. destruct sold; [|refused Hr].
  tx_step Hr. apply tx_ret_Ret in Hr as [[= <-] <-]. unfold finish_bundle in E0. apply write_Ret in E0 as ->.
  apply reserve_lines_ok in E as [[A B _ D] Hh]; [|done..].
  assert (Hok0 : store_ok s0 /\ balance s0 = balance s) by (apply step_effect_balance; [done | by constructor]).
  destruct Hok0 as [Hok0 Hb0]. specialize (A Hok0). specialize (B Hok0). split_and!.
  - by destruct A; constructor.
  - change (balance s1 = balance s). congruence.
  - split; [by apply Hh|]. eexists. split; [apply findIdempotency_one|split_and!].
    + cbn [journal set_journal set_keys idempotency_keys]. rewrite filter_fmap_same by (intros; apply finish_key_same).
      rewrite D, Hkeys, List.filter_app, Hnone. unfold same_key at 1. cbn. rewrite !String.eqb_refl. reflexivity.
    + unfold finish_key. cbn [new_key ik_id]. by rewrite Nat.eqb_refl.
    + unfold finish_key. cbn [new_key ik_id]. by rewrite Nat.eqb_refl.
    + unfold finish_key. cbn [new_key ik_id]. by rewrite Nat.eqb_refl.
Qed.

(** How a call ends *)
Lemma reserve_quote_ends env input requireFreshQuote newReceiptId s outcome s' :
  reservePmsQuoteInventory env input requireFreshQuote newReceiptId s = Ret (outcome, s') ->
  quote_valid input = true /\
  ((s' = s /\ exists receipts, outcome = bundled receipts true) \/
   (s' = s /\ exists calendar soldOut s1, outcome = rooms_sold_out soldOut /\
      reserve_bundle env input calendar newReceiptId (env_clock env s) s = Ret (RolledBack outcome, s1)) \/
   exists calendar, reserve_bundle env input calendar newReceiptId (env_clock env s) s = Ret (Committed outcome, s')).
Proof.
  unfold reservePmsQuoteInventory. destruct (quote_valid input); cbn [negb]; [|discriminate]. intros Hr. split; [done|].
  tx_step Hr. pose proof E as E'. apply reads_same in E' as ->; [|apply findIdempotency_reads]. destruct a as [row|].
  - left. unfold replay_bundle in Hr. destruct (parsePmsInventoryReservationBundle _) as [receipts|]; [|discriminate Hr].
    destruct (_ || _); [discriminate Hr|]. tx_step Hr. apply tx_ret_Ret in Hr as [<- <-]. split; [|by exists receipts].
    clear E. revert receipts E0. induction (quote_lines input) as [|line lines IH]; intros [|r receipts] E; cbn [receipts_stand] in E;
      try (by apply tx_ret_Ret in E as [_ <-]).
    tx_step E. apply reads_same in E0 as ->; [|apply readReservationStatus_reads]. destruct a0 as [st|]; [|discriminate E].
    destruct (receipt_stands _ _ _); [by eapply IH | discriminate E].
  - right. tx_step Hr. apply read_Ret in E0 as [-> ->]. tx_step Hr. apply lift_Ret in E0 as [_ ->]. tx_step Hr.
    destruct (env_lockedCalendar env _ s) as [c|]; [|discriminate E0]. injection E0 as <- <-. destruct c as [[calendar|stale conflicts]|]; try discriminate Hr.
    tx_step Hr. apply read_Ret in E0 as [-> ->]. unfold savepoint in Hr.
    destruct (reserve_bundle _ _ _ _ _ _) as [[[o|o] s1]|] eqn:Eb; [| |discriminate Hr]; injection Hr as <- <-; [right; by exists calendar|].
    left. split; [done|]. pose proof Eb as Eb'. unfold reserve_bundle in Eb'. cbv zeta in Eb'. tx_step Eb'. destruct a0 as [id|]; [|discriminate Eb'].
    tx_step Eb'. destruct a0 as [rs [|x sold]]; [tx_step Eb'; refused Eb'|]. apply tx_ret_Ret in Eb' as [[= <-] <-].
    eexists calendar, (x :: sold), _. split; [reflexivity | exact Eb].
Qed.

Lemma reserve_quote_bundled env input requireFreshQuote newReceiptId s receipts s' :
  (forall x, four_digit_instant (env_clock env x)) -> store_ok s ->
  reservePmsQuoteInventory env input requireFreshQuote newReceiptId s = Ret (bundled receipts false, s') ->
  quote_valid input = true /\ store_ok s' /\ balance s' = balance s /\ bundle_left env input receipts s'.
Proof.
  intros Hclock Hok Hr. apply reserve_quote_ends in Hr as [Hv [[_ (rs & Hb)]|[(_ & cal & sold & s1 & Hb & _)|(cal & Hb)]]];
    [discriminate Hb | discriminate Hb|]. split; [done|]. by eapply reserve_bundle_ok.
Qed.

(** C3: the rooms of a quote are reserved together: a new bundle keeps the inventory in
    balance with the ledger, and has one receipt for each room type of the quote, which
    holds exactly as many rooms of that type as the quote names, for its stay and
    under its session; no receipt stands for two types. *)
Theorem quote_rooms_held env input requireFreshQuote newReceiptId s receipts s' :
  (forall x, four_digit_instant (env_clock env x)) -> store_ok s ->
  reservePmsQuoteInventory env input requireFreshQuote newReceiptId s = Ret (bundled receipts false, s') ->
  store_ok s' /\ balance s' = balance s /\ NoDup receipts /\
  exists lines, Forall2 (line_held input (ledger s')) lines receipts /\ NoDup lines.*1 /\
    forall id n, (id, n) ∈ lines <-> id ∈ qi_rooms input /\ n = Z.of_nat (count_occ String.string_dec (qi_rooms input) id).
Proof.
  intros Hclock Hok Hr. apply reserve_quote_bundled in Hr as (_ & Hok' & Hb & [Hh _]); [|done..].
  destruct (quote_lines_spec input) as [Hnd Hc]. split_and!; [done..| |by exists (quote_lines input)].
  by apply (held_receipts input (ledger s') (quote_lines input)).
Qed.

Lemma receipts_stand_held input s lines receipts : Forall2 (line_held input (ledger s)) lines receipts ->
  receipts_stand input lines receipts s = Ret (tt, s).
Proof.
  induction 1 as [|line r lines receipts (st & Hst & _ & Hs) _ IH]; [done|]. cbn [receipts_stand].
  unfold readReservationStatus. erewrite tx_bind_eq by reflexivity. cbv beta. rewrite Hst, Hs. exact IH.
Qed.

(** C4: a quote whose rooms are held is answered again, by any caller and without a new
    check of the quote, with the receipts of the first call, and nothing is changed. *)
Theorem quote_asked_again env env' input requireFreshQuote newReceiptId check newReceiptId' s receipts s' :
  (forall x, four_digit_instant (env_clock env x)) -> store_ok s -> env_hash env' = env_hash env ->
  reservePmsQuoteInventory env input requireFreshQuote newReceiptId s = Ret (bundled receipts false, s') ->
  reservePmsQuoteInventory env' input check newReceiptId' s' = Ret (bundled receipts true, s').
Proof.
  intros Hclock Hok Hhash Hr. apply reserve_quote_bundled in Hr as (Hv & _ & _ & [Hh (row & Hrow & Hs & Hf & Hm)]); [|done..].
  unfold reservePmsQuoteInventory. rewrite Hv. cbn [negb]. replace (hash env') with (hash env) by (unfold hash; by rewrite Hhash).
  erewrite tx_bind_eq by exact Hrow. unfold replay_bundle. pose proof (quote_valid_spec _ Hv) as (_ & _ & Hlen & _).
  rewrite Hm, (bundle_reads_back _ _ _ _ (proj1 (quote_lines_spec input)) Hlen Hh), Hs.
  replace (quote_fingerprint env' input) with (quote_fingerprint env input) by (unfold quote_fingerprint, hash_json, hash; by rewrite Hhash).
  rewrite Hf, !String.eqb_refl, (proj2 (Nat.eqb_eq _ _)) by (symmetry; by eapply Forall2_length). cbn [negb orb].
  erewrite tx_bind_eq by (by apply receipts_stand_held). reflexivity.
Qed.

Lemma reserve_lines_sold env input calendar audit newReceiptId lines : forall s receipts sold s',
  reserve_lines env input calendar audit newReceiptId lines s = Ret ((receipts, sold), s') -> Forall (fun id => id ∈ lines.*1) sold.
Proof.
  induction lines as [|line lines IH]; intros s receipts sold s' Hr; cbn [reserve_lines] in Hr.
  - apply tx_ret_Ret in Hr as [[= _ <-] _]. constructor.
  - assert (Hw : forall l, Forall (fun id => id ∈ lines.*1) l -> Forall (fun id => id ∈ (line :: lines).*1) l).
    { intros l Hl. eapply Forall_impl; [exact Hl|]. intros id Hid. by right. }
    tx_step Hr. destruct a as [o st i|code].
    + destruct (st_state st); [|discriminate Hr..]. tx_step Hr. destruct a as [rs l]. apply tx_ret_Ret in Hr as [[= _ <-] _].
      by eapply Hw, IH.
    + destruct (String.eqb code _); [|discriminate Hr]. tx_step Hr. destruct a as [rs l]. apply tx_ret_Ret in Hr as [[= _ <-] _].
      constructor; [by left | by eapply Hw, IH].
Qed.

(** A call that names sold out room types leaves everything as it was and names only
    types of the quote. *)
Lemma sold_out_unchanged env input requireFreshQuote newReceiptId s sold s' :
  reservePmsQuoteInventory env input requireFreshQuote newReceiptId s = Ret (rooms_sold_out sold, s') ->
  s' = s /\ Forall (fun id => id ∈ qi_rooms input) sold.
Proof.
  intros Hr. apply reserve_quote_ends in Hr as [_ [[_ (rs & Hb)]|[(-> & cal & l & s1 & [= <-] & Hb)|(cal & Hb)]]]; [discriminate Hb| |].
  - split; [done|]. unfold reserve_bundle in Hb. cbv zeta in Hb. tx_step Hb. destruct a as [id|]; [|discriminate Hb].
    tx_step Hb. destruct a as [rs [|x l]]; [tx_step Hb; refused Hb|]. apply tx_ret_Ret in Hb as [[= <-] _].
    apply reserve_lines_sold in E0. eapply Forall_impl; [exact E0|]. intros i ([j n] & -> & Hin)%list_elem_of_fmap.
    by apply quote_lines_spec in Hin as [? _].
  - unfold reserve_bundle in Hb. cbv zeta in Hb. tx_step Hb. destruct a as [id|]; [|discriminate Hb].
    tx_step Hb. destruct a as [rs [|x l]]; [tx_step Hb|]; refused Hb.
Qed.
End Quotes.
