(* ===== verification/Identity.v ===== *)
(** * Who asks, and for what

    packages/backend-auth/src/types.ts: the request context, with the fields
    that authorization reads, and the vocabularies of products, resources and
    statuses. *)

From S2P Require Import Prelude JsValue.

Inductive InternalUserStatus := user_active | user_pending | user_suspended | user_deleted.
Inductive OrganizationKind := platform_organization | hotel_group.
Inductive OrganizationStatus := organization_active | organization_suspended | organization_archived.
Inductive MembershipStatus := membership_active | membership_pending | membership_inactive | membership_suspended.
Inductive Product := platform | hotel_catalog | booking | pms.
Inductive ResourceType :=
| platform_resource | user_profile | property | booking_hotel | pms_hotel | pms_property | payout_account.
Inductive ResourceRelationship := owner | operator | front_desk | finance_manager | billing_account.
Inductive EntitlementStatus := entitlement_active | entitlement_suspended | entitlement_expired.
Inductive ResourceStatus := resource_active | resource_suspended | resource_archived.

#[export] Instance InternalUserStatus_eq_dec : EqDecision InternalUserStatus.
Proof. solve_decision. Defined.
#[export] Instance OrganizationKind_eq_dec : EqDecision OrganizationKind.
Proof. solve_decision. Defined.
#[export] Instance OrganizationStatus_eq_dec : EqDecision OrganizationStatus.
Proof. solve_decision. Defined.
#[export] Instance MembershipStatus_eq_dec : EqDecision MembershipStatus.
Proof. solve_decision. Defined.
#[export] Instance Product_eq_dec : EqDecision Product.
Proof. solve_decision. Defined.
#[export] Instance ResourceType_eq_dec : EqDecision ResourceType.
Proof. solve_decision. Defined.
#[export] Instance ResourceRelationship_eq_dec : EqDecision ResourceRelationship.
Proof. solve_decision. Defined.
#[export] Instance EntitlementStatus_eq_dec : EqDecision EntitlementStatus.
Proof. solve_decision. Defined.
#[export] Instance ResourceStatus_eq_dec : EqDecision ResourceStatus.
Proof. solve_decision. Defined.

(** Permission keys are dotted texts; prefixes and sets of them matter. *)
Definition PermissionKey : Type := string.

Record RequestActor := { internalUserId : string; actorStatus : InternalUserStatus }.

Record SelectedOrganization := {
  organizationId : string;
  organizationKind : OrganizationKind;
  organizationStatus : OrganizationStatus
}.

(** [mode: "all" | "assigned"]; the origin has one value. *)
Record MembershipPropertyAccess := {
  accessAll : bool;
  accessRoleKey : string;
  accessPropertyIds : list string
}.

Record ActiveMembership := {
  membershipId : string;
  membershipStatus : MembershipStatus;
  roleKey : string;
  permissions : list PermissionKey;
  propertyAccess : option MembershipPropertyAccess
}.

(** [Pick<LinkedResource, "product" | "resourceType" | "resourceId">] *)
Record ResourceReference := {
  resourceProduct : Product;
  resourceType : ResourceType;
  resourceId : string
}.

#[export] Instance ResourceReference_eq_dec : EqDecision ResourceReference.
Proof. solve_decision. Defined.

Record LinkedResource := {
  linkedReference : ResourceReference;
  relationship : ResourceRelationship;
  linkedStatus : ResourceStatus
}.

Record ProductEntitlement := {
  entitlementProduct : Product;
  entitlementKey : string;
  entitlementStatus : EntitlementStatus;
  entitlementResource : option ResourceReference
}.

Record RequestContext := {
  actor : RequestActor;
  selectedOrganization : SelectedOrganization;
  membership : ActiveMembership;
  linkedResources : list LinkedResource;
  entitlements : list ProductEntitlement
}.

(** ** Texts *)

Definition product_text (p : Product) : string :=
  match p with
  | platform => "platform"
  | hotel_catalog => "hotel_catalog"
  | booking => "booking"
  | pms => "pms"
  end.

Definition resource_type_text (t : ResourceType) : string :=
  match t with
  | platform_resource => "platform"
  | user_profile => "user_profile"
  | property => "property"
  | booking_hotel => "booking_hotel"
  | pms_hotel => "pms_hotel"
  | pms_property => "pms_property"
  | payout_account => "payout_account"
  end.

(** * Staff permissions and team roles

    packages/backend-auth/src/lifecycle.ts, lines 99-365, and teamRolePolicy.ts:
    the permissions a role may hold, the overrides of a membership, and the
    permissions a custom role resolves to. *)

(** ** Roles and keys *)

Definition hotelStaffRoleKeys : list string :=
  ["hotel_manager"; "front_desk"; "housekeeping"; "hotel_custom"; "external_owner"].

Definition staffAccessPermissionKeys : list PermissionKey :=
  ["pms.dashboard.read"; "pms.dashboard.operations.read"; "pms.dashboard.finance.read";
   "pms.calendar.read"; "pms.calendar.manage"; "pms.reservation.read"; "pms.reservation.update";
   "pms.reservation.cancel"; "pms.inbox.read"; "pms.inbox.reply"; "pms.room_status.read";
   "pms.rooms_rates.read"; "pms.rooms_rates.manage"; "pms.channel_manager.read"; "pms.finance.read";
   "pms.settings.read"; "pms.settings.manage"; "identity.staff.manage"; "finance.billing.manage";
   "pms.guest_contact.read"; "booking.analytics.read"; "booking.design.read"; "booking.design.manage";
   "booking.flow.read"; "booking.flow.manage"; "booking.settings.read"; "booking.settings.manage";
   "booking.addons.read"; "booking.addons.manage"; "booking.promos.read"; "booking.promos.manage"].

Definition staffRoleDefaultPermissions : list (string * list PermissionKey) :=
  [("hotel_manager",
    List.filter (fun key => negb (String.eqb key "identity.staff.manage") &&
                            negb (String.eqb key "finance.billing.manage")) staffAccessPermissionKeys);
   ("front_desk",
    ["pms.dashboard.read"; "pms.dashboard.operations.read"; "pms.calendar.read"; "pms.calendar.manage";
     "pms.reservation.read"; "pms.reservation.update"; "pms.inbox.read"; "pms.inbox.reply";
     "pms.room_status.read"; "pms.rooms_rates.read"; "pms.guest_contact.read"]);
   ("housekeeping", ["pms.dashboard.read"; "pms.calendar.read"; "pms.room_status.read"]);
   ("hotel_custom", []);
   ("external_owner",
    ["pms.dashboard.read"; "pms.dashboard.operations.read"; "pms.dashboard.finance.read";
     "pms.calendar.read"; "pms.reservation.read"; "pms.room_status.read"; "pms.rooms_rates.read";
     "pms.finance.read"; "booking.analytics.read"])].

Definition externalOwnerPermissionCeiling : list PermissionKey :=
  ["pms.dashboard.read"; "pms.dashboard.operations.read"; "pms.dashboard.finance.read";
   "pms.calendar.read"; "pms.calendar.manage"; "pms.reservation.read"; "pms.reservation.update";
   "pms.reservation.cancel"; "pms.inbox.read"; "pms.inbox.reply"; "pms.room_status.read";
   "pms.rooms_rates.read"; "pms.rooms_rates.manage"; "pms.channel_manager.read"; "pms.finance.read";
   "pms.settings.read"; "pms.guest_contact.read"; "booking.analytics.read"; "booking.design.read";
   "booking.design.manage"; "booking.flow.read"; "booking.flow.manage"; "booking.settings.read"].

(** A plain object in the source: its own keys are the ones below, and no
    permission is named like a member of [Object.prototype]. *)
Definition requiredLowerPermissions : list (PermissionKey * list PermissionKey) :=
  [("pms.dashboard.operations.read", ["pms.dashboard.read"]);
   ("pms.dashboard.finance.read", ["pms.dashboard.read"; "pms.dashboard.operations.read"]);
   ("pms.calendar.manage", ["pms.calendar.read"]);
   ("pms.reservation.update", ["pms.reservation.read"]);
   ("pms.reservation.cancel", ["pms.reservation.read"; "pms.reservation.update"]);
   ("pms.inbox.reply", ["pms.inbox.read"]);
   ("pms.rooms_rates.read", ["pms.room_status.read"]);
   ("pms.rooms_rates.manage", ["pms.room_status.read"; "pms.rooms_rates.read"]);
   ("pms.settings.manage", ["pms.settings.read"]);
   ("booking.design.manage", ["booking.design.read"]);
   ("booking.flow.manage", ["booking.flow.read"]);
   ("booking.settings.manage", ["booking.settings.read"]);
   ("booking.addons.manage", ["booking.addons.read"]);
   ("booking.promos.manage", ["booking.promos.read"])].

Definition lower_keys (key : PermissionKey) : list PermissionKey := default [] (map_get requiredLowerPermissions key).

Definition hasValidStaffPermissionHierarchy (permissionKeys : list PermissionKey) : bool :=
  forallb (fun key => forallb (includes permissionKeys) (lower_keys key)) permissionKeys.

(** ** Overrides *)

Record StaffPermissionOverrides := { grant : list string; deny : list string }.

Definition string_array (v : jsval) : option (list string) := let? l := as_array v in traverse as_string l.

Definition parseStaffPermissionOverrides (value : jsval) : option StaffPermissionOverrides :=
  guard? is_object value in
  guard? forallb (fun key => String.eqb key "grant" || String.eqb key "deny") (keys_of value) in
  let? g := string_array (get value "grant") in
  let? d := string_array (get value "deny") in
  Some {| grant := g; deny := d |}.

(** A set of permissions with the grants added and the denials deleted *)
Definition overridden (base grants denials : list PermissionKey) : list PermissionKey :=
  List.filter (fun key => negb (includes denials key)) (set_of (base ++ grants)).

(** ** Issues *)

Definition when (b : bool) (issue : string) : list string := if b then [issue] else [].

Fixpoint key_issues (seen keys : list string) : list string :=
  match keys with
  | [] => []
  | key :: rest =>
      when (negb (includes staffAccessPermissionKeys key)) "unknown_permission_key" ++
      when (includes seen key) "duplicate_permission_key" ++ key_issues (key :: seen) rest
  end.

Definition role_defaults (role : string) : list PermissionKey :=
  if includes hotelStaffRoleKeys role then default [] (map_get staffRoleDefaultPermissions role) else [].

Definition validated_permissions (role : string) (o : StaffPermissionOverrides)
    (rolePermissions : option (list PermissionKey)) : list PermissionKey :=
  overridden (default (role_defaults role) rolePermissions)
    (List.filter (includes staffAccessPermissionKeys) (grant o)) (deny o).

Definition outside_owner_ceiling (key : PermissionKey) : bool :=
  negb (String.eqb key "hotel_catalog.property_manifest.read") && negb (includes externalOwnerPermissionCeiling key).

Definition validateStaffPermissionOverrides (role : string) (o : StaffPermissionOverrides)
    (rolePermissions : option (list PermissionKey)) : list string :=
  let effective := validated_permissions role o rolePermissions in
  set_of
    (when (negb (includes hotelStaffRoleKeys role)) "invalid_role" ++
     key_issues [] (grant o) ++ key_issues [] (deny o) ++
     when (existsb (includes (deny o)) (grant o)) "conflicting_permission_override" ++
     when (includes effective "identity.staff.manage" || includes effective "finance.billing.manage" ||
           (String.eqb role "housekeeping" && includes effective "pms.guest_contact.read"))
       "forbidden_permission" ++
     when (String.eqb role "external_owner" && existsb outside_owner_ceiling (grant o ++ deny o ++ effective))
       "forbidden_permission" ++
     when (negb (hasValidStaffPermissionHierarchy effective)) "missing_required_permission").

(** [/^...$/i] with the version and the variant of an RFC 4122 identifier *)
Definition property_id_classes : list (ascii -> bool) :=
  replicate 8 is_hex ++ [is_char "-"] ++ replicate 4 is_hex ++ [is_char "-"] ++
  [char_between "1" "5"] ++ replicate 3 is_hex ++ [is_char "-"] ++ [uuid_variant] ++ replicate 3 is_hex ++
  [is_char "-"] ++ replicate 12 is_hex.

Definition canonicalPropertyId (s : string) : bool := matches property_id_classes s.

Fixpoint property_id_issues (seen ids : list string) : list string :=
  match ids with
  | [] => []
  | id :: rest =>
      when (negb (canonicalPropertyId id)) "invalid_property_id" ++
      when (includes seen (to_lower id)) "duplicate_property_id" ++ property_id_issues (to_lower id :: seen) rest
  end.

Definition validateStaffInviteAccess (role mode : string) (propertyIds : list string)
    (o : StaffPermissionOverrides) : list string :=
  set_of
    (when ((String.eqb role "external_owner" && negb (String.eqb mode "assigned")) ||
           negb (includes ["assigned"; "all"] mode) ||
           (String.eqb mode "all" && negb (Nat.eqb (length propertyIds) 0))) "invalid_property_access_mode" ++
     when (String.eqb mode "assigned" && Nat.eqb (length propertyIds) 0) "missing_property_assignment" ++
     property_id_issues [] propertyIds ++
     validateStaffPermissionOverrides role o None).

(** [true] is ["all"] *)
Definition membershipPropertyAccessModeForProvisioning (kind : OrganizationKind) (role : string) : bool :=
  match kind with
  | platform_organization => false
  | hotel_group => includes ["hotel_owner"; "owner"; "operator"] role
  end.

(** ** Team roles *)

Record TeamRolePolicy := {
  securityClass : string;
  baseRoleKey : string;
  presetKey : option string;
  defaultPermissions : jsval
}.

Definition teamRolePresetBases : list (string * (string * string)) :=
  [("account_admin", ("account_admin", "hotel_owner"));
   ("agency_manager", ("staff", "hotel_manager"));
   ("property_owner", ("external_owner", "external_owner"));
   ("reservation_manager", ("staff", "hotel_custom"));
   ("front_desk", ("staff", "front_desk"));
   ("housekeeping", ("housekeeping", "housekeeping"))].

Definition class_bases : list (string * list string) :=
  [("account_admin", ["hotel_owner"]);
   ("staff", ["hotel_manager"; "front_desk"; "hotel_custom"]);
   ("housekeeping", ["housekeeping"]);
   ("external_owner", ["external_owner"])].

Definition preset_is (policy : TeamRolePolicy) (name : string) : bool :=
  match presetKey policy with Some key => String.eqb key name | None => false end.

Definition preset_fits (policy : TeamRolePolicy) : bool :=
  match presetKey policy with
  | None => true
  | Some key =>
      match map_get teamRolePresetBases key with
      | None => false
      | Some (class, base) => String.eqb class (securityClass policy) && String.eqb base (baseRoleKey policy)
      end
  end.

Definition teamRolePermissionCeiling (policy : TeamRolePolicy) : option (list PermissionKey) :=
  let? bases := map_get class_bases (securityClass policy) in
  guard? includes bases (baseRoleKey policy) && preset_fits policy in
  if String.eqb (securityClass policy) "account_admin" then
    if preset_is policy "account_admin" then Some [] else None
  else if String.eqb (securityClass policy) "external_owner" then Some externalOwnerPermissionCeiling
  else Some (List.filter (fun key =>
      negb (String.eqb key "finance.billing.manage") &&
      (negb (String.eqb key "identity.staff.manage") || preset_is policy "agency_manager") &&
      (negb (String.eqb key "pms.guest_contact.read") || negb (String.eqb (securityClass policy) "housekeeping")))
    staffAccessPermissionKeys).

(** The default permissions of a valid role *)
Definition team_role_defaults (policy : TeamRolePolicy) : option (list PermissionKey) :=
  let? ceiling := teamRolePermissionCeiling policy in
  let? keys := string_array (defaultPermissions policy) in
  guard? forallb (includes ceiling) keys && no_repeats keys && hasValidStaffPermissionHierarchy keys in
  Some keys.

Definition validateTeamRoleDefaults (policy : TeamRolePolicy) : bool :=
  match team_role_defaults policy with Some _ => true | None => false end.

Definition read_overrides (raw : jsval) : option StaffPermissionOverrides :=
  if is_null raw then Some {| grant := []; deny := [] |} else parseStaffPermissionOverrides raw.

Definition resolveTeamRolePermissions (policy : TeamRolePolicy) (rawOverrides : jsval)
    (adminPermissions : list PermissionKey) : option (list PermissionKey) :=
  let? defaults := team_role_defaults policy in
  let? o := read_overrides rawOverrides in
  guard? no_repeats (grant o) && no_repeats (deny o) && negb (existsb (includes (deny o)) (grant o)) in
  if String.eqb (securityClass policy) "account_admin" then
    guard? Nat.eqb (length (grant o)) 0 && Nat.eqb (length (deny o)) 0 in Some adminPermissions
  else
    let? ceiling := teamRolePermissionCeiling policy in
    guard? forallb (includes ceiling) (grant o ++ deny o) in
    let permissions := overridden defaults (grant o) (deny o) in
    guard? hasValidStaffPermissionHierarchy permissions in
    Some (stable_sort str_le permissions).

(** * What roles and overrides hold

    Independent of how the checks are computed: which overrides a value is, when a
    role or the overrides of a member are accepted, and which permissions are held. *)

(** Whoever may change something may read what it builds on. *)
Definition hierarchical (held : PermissionKey -> Prop) : Prop := forall p q, held p -> q ∈ lower_keys p -> held q.

(** What is held of a base with the grants added and the denials removed *)
Definition held_with (base : list PermissionKey) (o : StaffPermissionOverrides) (p : PermissionKey) : Prop :=
  (p ∈ base \/ p ∈ grant o) /\ p ∉ deny o.

(** [v] is an object of two lists of texts and nothing else. *)
Definition overrides_are (v : jsval) (o : StaffPermissionOverrides) : Prop :=
  is_object v = true /\ (forall k, k ∈ keys_of v -> k = "grant" \/ k = "deny") /\
  as_array (get v "grant") = Some (VString <$> grant o) /\ as_array (get v "deny") = Some (VString <$> deny o).

(** [null] stands for no overrides at all. *)
Definition role_overrides (v : jsval) (o : StaffPermissionOverrides) : Prop :=
  v = VNull /\ o = {| grant := []; deny := [] |} \/ overrides_are v o.

(** The default permissions of a valid role: distinct, within its ceiling, complete *)
Definition default_keys (policy : TeamRolePolicy) (keys : list PermissionKey) : Prop :=
  exists ceiling, teamRolePermissionCeiling policy = Some ceiling /\
    as_array (defaultPermissions policy) = Some (VString <$> keys) /\
    (forall k, k ∈ keys -> k ∈ ceiling) /\ NoDup keys /\ hierarchical (fun p => p ∈ keys).

(** A role with these defaults accepts these overrides. *)
Record role_accepts (policy : TeamRolePolicy) (keys : list PermissionKey) (o : StaffPermissionOverrides) : Prop := {
  ra_defaults : default_keys policy keys;
  ra_grants : NoDup (grant o);
  ra_denials : NoDup (deny o);
  ra_apart : forall k, k ∈ grant o -> k ∉ deny o;
  ra_admin : securityClass policy = "account_admin" -> grant o = [] /\ deny o = [];
  ra_ceiling : securityClass policy <> "account_admin" ->
    forall ceiling k, teamRolePermissionCeiling policy = Some ceiling -> k ∈ grant o \/ k ∈ deny o -> k ∈ ceiling;
  ra_hierarchy : securityClass policy <> "account_admin" -> hierarchical (held_with keys o)
}.

(** A member of a role without a definition may have these overrides. *)
Record member_accepts (role : string) (grants : list PermissionKey) (o : StaffPermissionOverrides) : Prop := {
  ma_role : role ∈ hotelStaffRoleKeys;
  ma_grants : NoDup (grant o) /\ forall k, k ∈ grant o -> k ∈ staffAccessPermissionKeys;
  ma_denials : NoDup (deny o) /\ forall k, k ∈ deny o -> k ∈ staffAccessPermissionKeys;
  ma_apart : forall k, k ∈ grant o -> k ∉ deny o;
  ma_staff : ~ held_with grants o "identity.staff.manage";
  ma_billing : ~ held_with grants o "finance.billing.manage";
  ma_contact : role = "housekeeping" -> ~ held_with grants o "pms.guest_contact.read";
  ma_owner : role = "external_owner" -> forall k, k ∈ grant o \/ k ∈ deny o \/ held_with grants o k ->
    k = "hotel_catalog.property_manifest.read" \/ k ∈ externalOwnerPermissionCeiling;
  ma_hierarchy : hierarchical (held_with grants o)
}.

(** ** The checks decide them *)

Lemma hierarchical_ext held held' : (forall p, held p <-> held' p) -> hierarchical held <-> hierarchical held'.
Proof. intros E. unfold hierarchical. by setoid_rewrite E. Qed.

Lemma hierarchy_iff keys : hasValidStaffPermissionHierarchy keys = true <-> hierarchical (fun p => p ∈ keys).
Proof.
  unfold hasValidStaffPermissionHierarchy, hierarchical. rewrite forallb_forall. setoid_rewrite <- list_elem_of_In. split.
  - intros H p q Hp Hq. apply includes_elem. exact (forallb_elem _ _ _ (H p Hp) Hq).
  - intros H p Hp. apply forallb_forall. intros q Hq%list_elem_of_In. apply includes_elem. by apply (H p).
Qed.

Lemma elem_of_overridden base o p : p ∈ overridden base (grant o) (deny o) <-> held_with base o p.
Proof.
  unfold overridden, held_with. rewrite elem_of_bfilter, elem_of_set_of, elem_of_app, negb_true_iff, includes_false. done.
Qed.

Lemma overridden_hierarchy base o :
  hasValidStaffPermissionHierarchy (overridden base (grant o) (deny o)) = true <-> hierarchical (held_with base o).
Proof. rewrite hierarchy_iff. apply hierarchical_ext. intros p. apply elem_of_overridden. Qed.

Lemma string_array_iff v l : string_array v = Some l <-> as_array v = Some (VString <$> l).
Proof.
  unfold string_array. destruct (as_array v) as [raw|]; [|done]. cbn [mbind option_bind]. split.
  - intros H. f_equal. revert l H. induction raw as [|x raw IH]; intros l H; cbn in H; [by injection H as <-|].
    destruct x; try done. cbn in H. destruct (traverse as_string raw) as [k|]; [|done]. injection H as <-. cbn. f_equal. by apply IH.
  - intros [= ->]. by apply traverse_fmap.
Qed.

Lemma parse_overrides_iff v o : parseStaffPermissionOverrides v = Some o <-> overrides_are v o.
Proof.
  unfold parseStaffPermissionOverrides, overrides_are. rewrite <- !string_array_iff. destruct (is_object v); [|naive_solver].
  destruct (forallb _ (keys_of v)) eqn:Ek.
  - assert (Hk : forall k, k ∈ keys_of v -> k = "grant" \/ k = "deny").
    { intros k Hin. pose proof (forallb_elem _ _ _ Ek Hin) as [H|H]%orb_true_iff; apply String.eqb_eq in H; auto. }
    destruct (string_array (get v "grant")), (string_array (get v "deny")); cbn [mbind option_bind]; destruct o; cbn; naive_solver.
  - split; [done|]. intros (_ & Hk & _). exfalso. rewrite <- not_true_iff_false in Ek. apply Ek, forallb_forall.
    intros k Hin%list_elem_of_In. destruct (Hk k Hin) as [->| ->]; reflexivity.
Qed.

Lemma overrides_are_object v o : overrides_are v o -> v <> VNull /\ v <> VUndefined.
Proof. by intros (Ho & _); destruct v. Qed.

Lemma read_overrides_iff v o : read_overrides v = Some o <-> role_overrides v o.
Proof.
  unfold read_overrides, role_overrides. rewrite <- parse_overrides_iff. destruct (is_null v) eqn:En.
  - destruct v; try done. cbn. naive_solver.
  - split; [by right|]. intros [[-> _]|H]; done.
Qed.

Lemma overrides_are_unique v o o' : overrides_are v o -> overrides_are v o' -> o = o'.
Proof. rewrite <- !parse_overrides_iff. congruence. Qed.

Lemma role_overrides_unique v o o' : role_overrides v o -> role_overrides v o' -> o = o'.
Proof. rewrite <- !read_overrides_iff. congruence. Qed.

Lemma team_role_defaults_iff policy keys : team_role_defaults policy = Some keys <-> default_keys policy keys.
Proof.
  unfold team_role_defaults, default_keys. setoid_rewrite <- string_array_iff.
  destruct (teamRolePermissionCeiling policy) as [ceiling|]; [|split; [done | by intros (c & [=] & _)]]. cbn [mbind option_bind].
  destruct (string_array _) as [l|]; [|split; [done | by intros (c & _ & [=] & _)]]. cbn [mbind option_bind].
  assert (Hf : forallb (includes ceiling) l = true <-> forall k, k ∈ l -> k ∈ ceiling).
  { rewrite forallb_forall. setoid_rewrite includes_elem. by setoid_rewrite <- list_elem_of_In. }
  destruct (forallb (includes ceiling) l && no_repeats l && hasValidStaffPermissionHierarchy l) eqn:E.
  - apply andb_true_iff in E as [[E1 E2]%andb_true_iff E3]. rewrite Hf in E1. rewrite no_repeats_NoDup in E2. rewrite hierarchy_iff in E3. split.
    + intros [= <-]. by exists ceiling.
    + by intros (c & _ & [= ->] & _).
  - split; [done|]. intros (c & [= <-] & [= <-] & H1 & H2 & H3). exfalso. rewrite <- not_true_iff_false in E. apply E.
    by rewrite !andb_true_iff, Hf, no_repeats_NoDup, hierarchy_iff.
Qed.

Lemma existsb_includes_false l k : existsb (includes k) l = false <-> forall x, x ∈ l -> x ∉ k.
Proof. rewrite existsb_none_iff. by setoid_rewrite includes_false. Qed.

Lemma all_within ceiling l : forallb (includes ceiling) l = true <-> forall k, k ∈ l -> k ∈ ceiling.
Proof. rewrite forallb_forall. setoid_rewrite includes_elem. by setoid_rewrite <- list_elem_of_In. Qed.

(** What a custom role with these defaults and overrides holds, given the grants of an
    account administrator *)
Definition role_permissions (policy : TeamRolePolicy) (grants keys : list PermissionKey) (o : StaffPermissionOverrides)
    : list PermissionKey :=
  if String.eqb (securityClass policy) "account_admin" then grants
  else stable_sort str_le (overridden keys (grant o) (deny o)).

Lemma resolve_role_sound policy raw grants perms : resolveTeamRolePermissions policy raw grants = Some perms ->
  exists keys o, role_overrides raw o /\ role_accepts policy keys o /\ perms = role_permissions policy grants keys o.
Proof.
  unfold resolveTeamRolePermissions, role_permissions.
  destruct (team_role_defaults policy) as [keys|] eqn:Ek; [|done]. apply team_role_defaults_iff in Ek. cbn [mbind option_bind].
  destruct (read_overrides raw) as [o|] eqn:Eo; [|done]. apply read_overrides_iff in Eo. cbn [mbind option_bind].
  destruct (_ && _ && _) eqn:En; [|done].
  rewrite !andb_true_iff, negb_true_iff, !no_repeats_NoDup, existsb_includes_false in En. destruct En as [[N1 N2] N3].
  destruct (String.eqb_spec (securityClass policy) "account_admin") as [Ea|Ea].
  - destruct (_ && _) eqn:El; [|done]. apply andb_true_iff in El as [L1%Nat.eqb_eq%nil_length_inv L2%Nat.eqb_eq%nil_length_inv].
    intros [= <-]. exists keys, o. by split_and!.
  - destruct (teamRolePermissionCeiling policy) as [ceiling|] eqn:Ec; [|done]. cbn [mbind option_bind].
    destruct (forallb _ _) eqn:Ef; [|done]. destruct (hasValidStaffPermissionHierarchy _) eqn:Eh; [|done].
    intros [= <-]. rewrite all_within in Ef. rewrite overridden_hierarchy in Eh. exists keys, o. split_and!; try done.
    split; try done. intros _ c k Hc Hk. rewrite Ec in Hc. injection Hc as <-. apply Ef. by rewrite elem_of_app.
Qed.

Lemma resolve_role_complete policy raw grants keys o : role_overrides raw o -> role_accepts policy keys o ->
  resolveTeamRolePermissions policy raw grants = Some (role_permissions policy grants keys o).
Proof.
  intros Ho [Hd H1 H2 H3 Ha Hc Hh]. pose proof Hd as (ceiling & Ec & _). apply team_role_defaults_iff in Hd. apply read_overrides_iff in Ho.
  unfold resolveTeamRolePermissions, role_permissions. rewrite Hd, Ho, Ec. cbn [mbind option_bind].
  rewrite (proj2 (no_repeats_NoDup _) H1), (proj2 (no_repeats_NoDup _) H2), (proj2 (existsb_includes_false _ _) H3). cbn [andb negb].
  destruct (String.eqb_spec (securityClass policy) "account_admin") as [Ea|Ea].
  - by destruct (Ha Ea) as [-> ->].
  - rewrite (proj2 (all_within ceiling _)), (proj2 (overridden_hierarchy keys o) (Hh Ea)); [done|].
    intros k Hk%elem_of_app. by eapply Hc.
Qed.

Lemma role_permissions_elem policy grants keys o p : p ∈ role_permissions policy grants keys o <->
  if String.eqb (securityClass policy) "account_admin" then p ∈ grants else held_with keys o p.
Proof. unfold role_permissions. destruct (String.eqb _ _); [done|]. by rewrite elem_of_stable_sort, elem_of_overridden. Qed.

(** *** Overrides of a member *)

Lemma when_nil b issue : when b issue = [] <-> b = false.
Proof. by destruct b. Qed.

Lemma set_of_nil l : set_of l = [] <-> l = [].
Proof.
  split; [|by intros ->]. intros E. destruct l as [|x l]; [done|].
  assert (H : x ∈ set_of (x :: l)) by (apply elem_of_set_of; by left). rewrite E in H. by apply elem_of_nil in H.
Qed.

Lemma key_issues_nil keys : forall seen, key_issues seen keys = [] <->
  (NoDup keys /\ forall k, k ∈ keys -> k ∉ seen) /\ forall k, k ∈ keys -> k ∈ staffAccessPermissionKeys.
Proof.
  induction keys as [|k keys IH]; intros seen; cbn [key_issues].
  - split; [|done]. intros _. split_and!; [constructor | intros k []%elem_of_nil..].
  - rewrite !app_nil, !when_nil, IH, NoDup_cons, negb_false_iff, includes_elem, includes_false.
    split; intros H; destruct_and!; split_and!; first [done | set_solver].
Qed.

Lemma outside_owner_false k : outside_owner_ceiling k = false <->
  k = "hotel_catalog.property_manifest.read" \/ k ∈ externalOwnerPermissionCeiling.
Proof.
  unfold outside_owner_ceiling. rewrite andb_false_iff, !negb_false_iff, String.eqb_eq, includes_elem. done.
Qed.

Lemma member_checks role o grants : (forall k, k ∈ grant o -> k ∈ staffAccessPermissionKeys) ->
  validated_permissions role o (Some grants) = overridden grants (grant o) (deny o).
Proof.
  intros H. unfold validated_permissions. rewrite filter_all; [done|]. apply Forall_forall. intros k Hk. by apply includes_elem, H.
Qed.

(** Overrides raise no issue exactly when the member's role accepts them. *)
Lemma no_issues_iff role o grants : validateStaffPermissionOverrides role o (Some grants) = [] <-> member_accepts role grants o.
Proof.
  unfold validateStaffPermissionOverrides. rewrite set_of_nil, !app_nil, !when_nil, !key_issues_nil, negb_false_iff, includes_elem.
  split.
  - intros (Hr & [[Hg _] Hgk] & [[Hd _] Hdk] & Ha & Hf & Ho & Hh). rewrite (member_checks role o grants Hgk) in *.
    rewrite existsb_includes_false in Ha. rewrite !orb_false_iff, !includes_false, !elem_of_overridden in Hf. destruct Hf as [[Hs Hb] Hc].
    split; try done.
    + intros ->. rewrite String.eqb_refl in Hc. by rewrite andb_true_l, includes_false, elem_of_overridden in Hc.
    + intros ->. rewrite String.eqb_refl, andb_true_l, existsb_none_iff in Ho. intros k Hk. apply outside_owner_false, Ho.
      by rewrite !elem_of_app, elem_of_overridden.
    + by apply overridden_hierarchy, negb_false_iff.
  - intros [Hr [Hg Hgk] [Hd Hdk] Ha Hs Hb Hc Ho Hh]. rewrite (member_checks role o grants Hgk).
    rewrite existsb_includes_false, !orb_false_iff, !includes_false, !elem_of_overridden, negb_false_iff, overridden_hierarchy.
    split_and!; try done.
    + by intros k _ []%elem_of_nil.
    + by intros k _ []%elem_of_nil.
    + destruct (String.eqb_spec role "housekeeping") as [E|]; [|done]. rewrite andb_true_l. by apply includes_false; rewrite elem_of_overridden; apply Hc.
    + destruct (String.eqb_spec role "external_owner") as [E|]; [|done]. rewrite andb_true_l, existsb_none_iff.
      intros k. rewrite !elem_of_app, elem_of_overridden. intros Hk. by apply outside_owner_false, Ho.
Qed.
