(* ===== verification/Authorization.v ===== *)
(** * Authorization

    packages/backend-authorization/src/index.ts: the permissions, entitlements
    and properties a request may use.  The repositories are parameters: what
    their queries return is the argument of the functions here, and what the code
    makes of the rows is modelled.  A promise is awaited where it is created, so
    each step is a function; [undefined] repositories are [None]. *)

From S2P Require Import Prelude JsValue Identity.

(** ** Scopes of memberships *)

Record RoleDefinition := {
  definitionId : string;
  definitionOrganizationId : string;
  policy : TeamRolePolicy
}.

(** [assignedPropertyIds] and the product flags are checked at run time. *)
Record MembershipPropertyScope := {
  scopeMode : string;
  scopeRoleKey : string;
  accessOrigin : string;
  assignedPropertyIds : jsval;
  permissionOverrides : jsval;
  productAccess : option (jsval * jsval);
  roleDefinitionId : option string;
  roleDefinition : option RoleDefinition
}.

Definition resourceScopeKey (r : ResourceReference) : string :=
  product_text (resourceProduct r) +:+ ":" +:+ resource_type_text (resourceType r) +:+ ":" +:+ resourceId r.

Definition canonicalEntitlementKey (product : Product) (key : string) : string :=
  match product with
  | booking => if String.eqb key "account_access" then "booking-engine" else key
  | pms => if String.eqb key "account_access" || String.eqb key "pms-core" then "property-management" else key
  | _ => key
  end.

(** ** Rows

    The three resource columns are null together or not at all (constraint
    [chk_product_entitlements_resource_scope] of migration 0003). *)

Record ProductEntitlementRow := {
  rowProduct : Product;
  rowKey : string;
  rowStatus : EntitlementStatus;
  rowResource : option ResourceReference
}.

Definition is_active (r : LinkedResource) : bool := bool_decide (linkedStatus r = resource_active).

Definition activeLinkedResourceKeys (context : RequestContext) : list string :=
  (fun r => resourceScopeKey (linkedReference r)) <$> List.filter is_active (linkedResources context).

Definition row_counts (keys : list string) (row : ProductEntitlementRow) : bool :=
  match rowResource row with
  | None => true
  | Some r => bool_decide (rowStatus row = entitlement_suspended) || includes keys (resourceScopeKey r)
  end.

Definition entitlement_of_row (row : ProductEntitlementRow) : ProductEntitlement :=
  {| entitlementProduct := rowProduct row;
     entitlementKey := canonicalEntitlementKey (rowProduct row) (rowKey row);
     entitlementStatus := rowStatus row; entitlementResource := rowResource row |}.

Definition findEntitlementsForContext (query : string -> list ProductEntitlementRow) (context : RequestContext)
    : list ProductEntitlement :=
  let rows := query (organizationId (selectedOrganization context)) in
  entitlement_of_row <$> List.filter (row_counts (activeLinkedResourceKeys context)) rows.

Record MembershipPropertyScopeRow := {
  row_property_access_mode : string;
  row_role_key : string;
  row_access_origin : string;
  row_assigned_property_ids : list string;
  row_permission_overrides : jsval;
  row_pms_access_enabled : bool;
  row_booking_access_enabled : bool;
  row_role_definition_id : option string;
  row_definition_id : option string;
  row_definition_organization_id : string;
  row_security_class : string;
  row_base_role_key : string;
  row_preset_key : option string;
  row_default_permissions : jsval
}.

Definition scope_of_row (row : MembershipPropertyScopeRow) : MembershipPropertyScope :=
  {| scopeMode := row_property_access_mode row; scopeRoleKey := row_role_key row;
     accessOrigin := row_access_origin row;
     assignedPropertyIds := arr (VString <$> row_assigned_property_ids row);
     permissionOverrides := row_permission_overrides row;
     productAccess := Some (VBool (row_pms_access_enabled row), VBool (row_booking_access_enabled row));
     roleDefinitionId := row_role_definition_id row;
     roleDefinition :=
       match row_definition_id row with
       | None => None
       | Some id =>
           Some {| definitionId := id; definitionOrganizationId := row_definition_organization_id row;
                   policy := {| securityClass := row_security_class row; baseRoleKey := row_base_role_key row;
                                presetKey := row_preset_key row;
                                defaultPermissions := row_default_permissions row |} |}
       end |}.

(** ** Permissions of a membership *)

Definition manifest_read : PermissionKey := "hotel_catalog.property_manifest.read".

Definition definition_fits (context : RequestContext) (id : string) (d : RoleDefinition) : bool :=
  String.eqb (definitionId d) id &&
  String.eqb (definitionOrganizationId d) (organizationId (selectedOrganization context)) &&
  String.eqb (baseRoleKey (policy d)) (roleKey (membership context)).

Definition defined_permissions (context : RequestContext) (rolePermissions : list PermissionKey)
    (scope : MembershipPropertyScope) (id : string) : option (list PermissionKey) :=
  let? d := roleDefinition scope in
  guard? definition_fits context id d in
  let? resolved := resolveTeamRolePermissions (policy d) (permissionOverrides scope) rolePermissions in
  Some (set_of
    (resolved ++ (if String.eqb (securityClass (policy d)) "external_owner" then [manifest_read] else []) ++
     List.filter (String.eqb manifest_read) rolePermissions)).

Definition resolveMembershipRolePermissions (context : RequestContext) (rolePermissions : list PermissionKey)
    (scope : option MembershipPropertyScope) : result (list string) (list PermissionKey) :=
  match scope with
  | None => Ok rolePermissions
  | Some scope =>
      match roleDefinitionId scope with
      | Some id =>
          match defined_permissions context rolePermissions scope id with
          | Some permissions => Ok permissions
          | None => Err ["invalid_role_definition"]
          end
      | None =>
          if is_null (permissionOverrides scope) || is_undefined (permissionOverrides scope) then Ok rolePermissions
          else
            match parseStaffPermissionOverrides (permissionOverrides scope) with
            | None => Err ["malformed_permission_override"]
            | Some o =>
                match validateStaffPermissionOverrides (roleKey (membership context)) o (Some rolePermissions) with
                | [] => Ok (overridden rolePermissions (grant o) (deny o))
                | issues => Err issues
                end
            end
      end
  end.

(** ** Scopes that count *)

Definition isAgencyMembershipScope (context : RequestContext) (scope : MembershipPropertyScope) : bool :=
  String.eqb (scopeRoleKey scope) (roleKey (membership context)) &&
  String.eqb (accessOrigin scope) "agency" &&
  (String.eqb (scopeMode scope) "all" || String.eqb (scopeMode scope) "assigned") &&
  (negb (String.eqb (scopeRoleKey scope) "external_owner") || String.eqb (scopeMode scope) "assigned").

(** The same test of a context's own access, whose mode and origin are typed *)
Definition isAgencyMembershipAccess (context : RequestContext) (access : MembershipPropertyAccess) : bool :=
  String.eqb (accessRoleKey access) (roleKey (membership context)) &&
  (negb (String.eqb (accessRoleKey access) "external_owner") || negb (accessAll access)).

(** [hasValidAssignedPropertyIds], with the identifiers *)
Definition valid_property_ids (scope : MembershipPropertyScope) : option (list string) :=
  string_array (assignedPropertyIds scope).

Definition agency_access (context : RequestContext) (scope : option MembershipPropertyScope)
    : option (MembershipPropertyScope * MembershipPropertyAccess) :=
  let? scope := scope in
  guard? isAgencyMembershipScope context scope in
  let? ids := valid_property_ids scope in
  Some (scope, {| accessAll := String.eqb (scopeMode scope) "all"; accessRoleKey := scopeRoleKey scope;
                  accessPropertyIds := ids |}).

(** ** The resolver *)

Record AuthorizationResolution := {
  resolvedPermissions : list PermissionKey;
  resolvedEntitlements : option (list ProductEntitlement);
  resolvedPropertyAccess : option MembershipPropertyAccess
}.

Definition nothing_allowed : AuthorizationResolution :=
  {| resolvedPermissions := []; resolvedEntitlements := Some []; resolvedPropertyAccess := None |}.

(** The audit entries written, and how the call ends *)
Definition audited (A : Type) : Type := list (list string) * exn A.

Section Resolver.
Variables (findPermissionsForRole : OrganizationKind -> string -> list PermissionKey)
  (findEntitlements : option (RequestContext -> list ProductEntitlement))
  (findMembershipPropertyScope : option (RequestContext -> option MembershipPropertyScope))
  (recordInvalidPermissionOverride : option (RequestContext -> list string -> exn unit)).

Definition rejectInvalidPermissionConfiguration {A} (context : RequestContext) (issueCodes : list string) : audited A :=
  match recordInvalidPermissionOverride with
  | None => ([], Throw "Permission override audit sink is unavailable")
  | Some record =>
      match record context issueCodes with
      | Throw _ => ([], Throw "Permission override audit is unavailable")
      | Ret _ => ([issueCodes], Throw "AuthorizationResolutionError")
      end
  end.

Definition product_enabled (pmsAccess bookingAccess : bool) (permission : PermissionKey) : bool :=
  (negb (String.prefix "pms." permission) || pmsAccess) &&
  (negb (String.prefix "booking." permission) || bookingAccess).

Definition entitlement_enabled (pmsAccess bookingAccess : bool) (e : ProductEntitlement) : bool :=
  match entitlementProduct e with pms => pmsAccess | booking => bookingAccess | _ => true end.

Definition resolve_platform (context : RequestContext) : audited AuthorizationResolution :=
  let rolePermissions := findPermissionsForRole (organizationKind (selectedOrganization context))
                           (roleKey (membership context)) in
  match resolveMembershipRolePermissions context rolePermissions None with
  | Err issues => rejectInvalidPermissionConfiguration context issues
  | Ok permissions =>
      ([], Ret {| resolvedPermissions := permissions;
                  resolvedEntitlements := (fun find => find context) <$> findEntitlements;
                  resolvedPropertyAccess := None |})
  end.

Definition resolve_hotel_group (context : RequestContext) : audited AuthorizationResolution :=
  match agency_access context (let? find := findMembershipPropertyScope in find context) with
  | None => ([], Ret nothing_allowed)
  | Some (scope, access) =>
      let rolePermissions := findPermissionsForRole hotel_group (roleKey (membership context)) in
      match resolveMembershipRolePermissions context rolePermissions (Some scope) with
      | Err issues => rejectInvalidPermissionConfiguration context issues
      | Ok permissions =>
          match productAccess scope with
          | Some (VBool pmsAccess, VBool bookingAccess) =>
              ([], Ret {| resolvedPermissions := List.filter (product_enabled pmsAccess bookingAccess) permissions;
                          resolvedEntitlements :=
                            (fun find => List.filter (entitlement_enabled pmsAccess bookingAccess) (find context)) <$>
                              findEntitlements;
                          resolvedPropertyAccess := Some access |})
          | _ => ([], Ret nothing_allowed)
          end
      end
  end.

Definition createAuthorizationResolver (context : RequestContext) : audited AuthorizationResolution :=
  match organizationKind (selectedOrganization context) with
  | hotel_group => resolve_hotel_group context
  | platform_organization => resolve_platform context
  end.
End Resolver.

(** ** Decisions *)

Definition hasPermission (context : RequestContext) (permission : PermissionKey) : bool :=
  includes (permissions (membership context)) permission.

Record ResourceRequirement := {
  requiredReference : ResourceReference;
  allowedRelationships : list ResourceRelationship
}.

Definition allows (relationships : list ResourceRelationship) (r : ResourceRelationship) : bool :=
  existsb (fun s => bool_decide (r = s)) relationships.

Definition hasActiveLinkedResource (context : RequestContext) (requirement : ResourceRequirement) : bool :=
  existsb (fun r => is_active r && bool_decide (linkedReference r = requiredReference requirement) &&
                    allows (allowedRelationships requirement) (relationship r))
    (linkedResources context).

Record EffectivePropertyAccess := { effectiveAll : bool; propertyIds : list string }.

Definition canonicalPropertyIds (context : RequestContext) (relationships : list ResourceRelationship) : list string :=
  set_of ((fun r => resourceId (linkedReference r)) <$>
    List.filter (fun r => is_active r && bool_decide (resourceProduct (linkedReference r) = hotel_catalog) &&
                          bool_decide (resourceType (linkedReference r) = property) &&
                          allows relationships (relationship r))
      (linkedResources context)).

Definition active_hotel_member (context : RequestContext) : bool :=
  bool_decide (actorStatus (actor context) = user_active) &&
  bool_decide (organizationStatus (selectedOrganization context) = organization_active) &&
  bool_decide (organizationKind (selectedOrganization context) = hotel_group) &&
  bool_decide (membershipStatus (membership context) = membership_active).

(** The access a context carries, else the one the repository finds *)
Definition current_access (findScope : RequestContext -> option MembershipPropertyScope) (context : RequestContext)
    : option MembershipPropertyAccess :=
  match propertyAccess (membership context) with
  | Some access => guard? isAgencyMembershipAccess context access in Some access
  | None => let? (_, access) := agency_access context (findScope context) in Some access
  end.

Definition resolveEffectivePropertyAccess (findScope : RequestContext -> option MembershipPropertyScope)
    (context : RequestContext) (relationships : list ResourceRelationship) : option EffectivePropertyAccess :=
  guard? active_hotel_member context in
  let? access := current_access findScope context in
  let canonical := canonicalPropertyIds context relationships in
  let ids := if accessAll access then canonical
             else List.filter (includes canonical) (accessPropertyIds access) in
  Some {| effectiveAll := accessAll access; propertyIds := stable_sort str_le (set_of ids) |}.

Record ResourceAccessRequirement := { requiredPermission : PermissionKey; requiredResource : ResourceRequirement }.

Definition canAccessResource (context : RequestContext) (requirement : ResourceAccessRequirement) : bool :=
  hasPermission context (requiredPermission requirement) &&
  hasActiveLinkedResource context (requiredResource requirement).

Record EntitlementRequirement := {
  requirementProduct : Product;
  requirementKey : string;
  requirementResource : option ResourceReference
}.

Definition same_product_key (e : ProductEntitlement) (requirement : EntitlementRequirement) : bool :=
  bool_decide (entitlementProduct e = requirementProduct requirement) &&
  String.eqb (canonicalEntitlementKey (entitlementProduct e) (entitlementKey e))
    (canonicalEntitlementKey (requirementProduct requirement) (requirementKey requirement)).

(** An entitlement of the organization, or of the required resource *)
Definition covers_resource (e : ProductEntitlement) (requirement : EntitlementRequirement) : bool :=
  match entitlementResource e, requirementResource requirement with
  | None, _ => true
  | Some _, None => false
  | Some r, Some required => bool_decide (r = required)
  end.

Definition has_status (status : EntitlementStatus) (e : ProductEntitlement) : bool :=
  bool_decide (entitlementStatus e = status).

Definition suspends (requirement : EntitlementRequirement) (e : ProductEntitlement) : bool :=
  has_status entitlement_suspended e && same_product_key e requirement && covers_resource e requirement.

Definition entitles (requirement : EntitlementRequirement) (e : ProductEntitlement) : bool :=
  has_status entitlement_active e && same_product_key e requirement && covers_resource e requirement.

Definition hasActiveEntitlement (context : RequestContext) (requirement : EntitlementRequirement) : bool :=
  if existsb (suspends requirement) (entitlements context) then false
  else existsb (entitles requirement) (entitlements context).

(** ** Requirements *)

Definition reference_text (r : ResourceReference) : string := resourceScopeKey r.

Definition requirePermission (context : RequestContext) (permission : PermissionKey) : exn RequestContext :=
  if negb (hasPermission context permission) then Throw ("Missing required permission: " +:+ permission)
  else Ret context.

Definition requireActiveEntitlement (context : RequestContext) (requirement : EntitlementRequirement)
    : exn RequestContext :=
  if negb (hasActiveEntitlement context requirement) then
    Throw ("Missing active entitlement: " +:+ product_text (requirementProduct requirement) +:+ ":" +:+
           requirementKey requirement +:+
           match requirementResource requirement with Some r => " for " +:+ reference_text r | None => "" end)
  else Ret context.

Definition requireResourceAccess (context : RequestContext) (requirement : ResourceAccessRequirement)
    : exn RequestContext :=
  if negb (canAccessResource context requirement) then
    Throw ("Missing " +:+ requiredPermission requirement +:+ " access to " +:+
           reference_text (requiredReference (requiredResource requirement)))
  else Ret context.

(** [{ product: "booking"; resourceType: "booking_hotel" }] or
    [{ product: "pms"; resourceType: "pms_property" }] *)
Inductive TargetPropertyResource := booking_target | pms_target.

Definition target_reference (t : TargetPropertyResource) (propertyId : string) : ResourceReference :=
  match t with
  | booking_target => {| resourceProduct := booking; resourceType := booking_hotel; resourceId := propertyId |}
  | pms_target => {| resourceProduct := pms; resourceType := pms_property; resourceId := propertyId |}
  end.

Record PropertyAccessRequirement := {
  requiredPropertyId : string;
  targetResource : TargetPropertyResource;
  requiredRelationships : option (list ResourceRelationship)
}.

Definition requirePropertyAccess (findScope : RequestContext -> option MembershipPropertyScope)
    (context : RequestContext) (requirement : PropertyAccessRequirement) : exn RequestContext :=
  let relationships := default [owner; operator] (requiredRelationships requirement) in
  let access := resolveEffectivePropertyAccess findScope context relationships in
  let hasTargetResource := hasActiveLinkedResource context
    {| requiredReference := target_reference (targetResource requirement) (requiredPropertyId requirement);
       allowedRelationships := relationships |} in
  let listed := match access with
                | Some a => includes (propertyIds a) (requiredPropertyId requirement)
                | None => false
                end in
  if negb listed || negb hasTargetResource
  then Throw "The authenticated user is not authorized for this resource."
  else Ret context.
