(* ===== verification/AuthorizationGuarantees.v ===== *)
(** * What authorization guarantees

    The permissions a hotel member holds are exactly the configured ones; what a
    custom role or overrides configure stays within the ceiling of the role, what the
    database grants a role is not limited; configurations that are not valid are audited and
    refused; entitlements and properties are decided by what is active and linked. *)

From S2P Require Import Prelude JsValue Identity Authorization.

(** ** Ceilings *)

Lemma ceiling_shape policy ceiling : teamRolePermissionCeiling policy = Some ceiling ->
  "finance.billing.manage" ∉ ceiling /\
  ("identity.staff.manage" ∈ ceiling -> presetKey policy = Some "agency_manager") /\
  (baseRoleKey policy = "housekeeping" -> "pms.guest_contact.read" ∉ ceiling) /\
  (baseRoleKey policy = "external_owner" -> securityClass policy = "external_owner" /\
     ceiling = externalOwnerPermissionCeiling).
Proof.
  unfold teamRolePermissionCeiling. destruct policy as [class base preset defaults]. cbn [securityClass baseRoleKey presetKey].
  unfold class_bases. cbn [map_get]. unfold preset_is. cbn [presetKey].
  repeat match goal with |- context [String.eqb ?a class] => destruct (String.eqb_spec a class) as [<-|] end;
    cbn [andb]; try done.
  all: destruct (includes _ base) eqn:Eb; [|done]; destruct (preset_fits _); [|done]; cbn [andb String.eqb Ascii.eqb Bool.eqb].
  - destruct preset as [key|]; [|done]. destruct (String.eqb key "account_admin"); [|done]. intros [= <-].
    apply includes_elem in Eb. split_and!; [set_solver.. |]. intros ->. vm_compute in Eb. set_solver.
  - apply includes_elem in Eb.
    assert (Hm : match preset with Some key => String.eqb key "agency_manager" | None => false end = true ->
                 preset = Some "agency_manager").
    { destruct preset as [key|]; [|done]. by intros ->%String.eqb_eq. }
    destruct (match preset with Some key => String.eqb key "agency_manager" | None => false end);
      vm_compute; intros [= <-]; (split_and!; [by apply includes_false|intros H; try by apply Hm|intros ->; set_solver..]).
    apply includes_elem in H. done.
  - apply includes_elem in Eb. destruct (match preset with Some _ => _ | None => _ end) eqn:Em; vm_compute; intros [= <-];
      (split_and!; [by apply includes_false|intros H|intros _; by apply includes_false|intros ->; set_solver]).
    + destruct preset as [key|]; [|done]. by apply String.eqb_eq in Em as ->.
    + apply includes_elem in H. done.
  - intros [= <-]. apply includes_elem in Eb. split_and!; [by apply includes_false|intros H|intros ->; set_solver|done].
    apply includes_elem in H. done.
Qed.

Lemma admin_base policy ceiling : teamRolePermissionCeiling policy = Some ceiling ->
  securityClass policy = "account_admin" -> baseRoleKey policy = "hotel_owner".
Proof.
  unfold teamRolePermissionCeiling. intros Hc Ea. rewrite Ea in Hc. unfold class_bases in Hc. cbn [map_get] in Hc.
  change (String.eqb "account_admin" "account_admin") with true in Hc. cbn [mbind option_bind] in Hc.
  destruct (includes _ _) eqn:Ei; [|done]. apply includes_elem in Ei. by apply list_elem_of_singleton in Ei.
Qed.

(** ** The configuration of a membership *)

(** The role definition a scope names: of the organization and of the member's role *)
Definition defines (context : RequestContext) (scope : MembershipPropertyScope) (id : string) (d : RoleDefinition) : Prop :=
  roleDefinition scope = Some d /\ definitionId d = id /\
  definitionOrganizationId d = organizationId (selectedOrganization context) /\
  baseRoleKey (policy d) = roleKey (membership context).

Definition no_overrides (scope : MembershipPropertyScope) : Prop :=
  permissionOverrides scope = VNull \/ permissionOverrides scope = VUndefined.

(** A configuration that counts: a definition that fits and accepts the overrides, or,
    without a definition, overrides the member's role accepts or none at all *)
Definition valid_configuration (context : RequestContext) (grants : list PermissionKey) (scope : MembershipPropertyScope) : Prop :=
  match roleDefinitionId scope with
  | Some id => exists d keys o, defines context scope id d /\ role_overrides (permissionOverrides scope) o /\
                 role_accepts (policy d) keys o
  | None => no_overrides scope \/
      exists o, overrides_are (permissionOverrides scope) o /\ member_accepts (roleKey (membership context)) grants o
  end.

(** What a configuration grants, given what the database grants the member's role: the
    defaults of the definition, or the grants of the role, with the member's own grants
    added and denials removed; an account administrator keeps the grants of the role,
    and the manifest stays readable to whom the role grants it and to external owners. *)
Definition granted (context : RequestContext) (grants : list PermissionKey) (scope : MembershipPropertyScope)
    (p : PermissionKey) : Prop :=
  match roleDefinitionId scope with
  | Some id =>
      exists d keys o, defines context scope id d /\ role_overrides (permissionOverrides scope) o /\
        as_array (defaultPermissions (policy d)) = Some (VString <$> keys) /\
        ((securityClass (policy d) = "account_admin" /\ p ∈ grants) \/
         (securityClass (policy d) <> "account_admin" /\ held_with keys o p) \/
         (p = manifest_read /\ (securityClass (policy d) = "external_owner" \/ manifest_read ∈ grants)))
  | None =>
      (no_overrides scope /\ p ∈ grants) \/
      exists o, overrides_are (permissionOverrides scope) o /\ held_with grants o p
  end.

Lemma defines_iff context scope id d : defines context scope id d <->
  roleDefinition scope = Some d /\ definition_fits context id d = true.
Proof. unfold defines, definition_fits. rewrite !andb_true_iff, !String.eqb_eq. naive_solver. Qed.

Lemma defined_sound context grants scope id perms : defined_permissions context grants scope id = Some perms ->
  exists d keys o, defines context scope id d /\ role_overrides (permissionOverrides scope) o /\ role_accepts (policy d) keys o /\
    perms = set_of (role_permissions (policy d) grants keys o ++
                    (if String.eqb (securityClass (policy d)) "external_owner" then [manifest_read] else []) ++
                    List.filter (String.eqb manifest_read) grants).
Proof.
  unfold defined_permissions. setoid_rewrite defines_iff. destruct (roleDefinition scope) as [d|]; [|done]. cbn [mbind option_bind].
  destruct (definition_fits context id d) eqn:Ef; [|done].
  destruct (resolveTeamRolePermissions _ _ _) as [l|] eqn:Er; [|done]. intros [= <-].
  apply resolve_role_sound in Er as (keys & o & Ho & Ha & ->). by exists d, keys, o.
Qed.

Lemma defined_complete context grants scope id d keys o : defines context scope id d ->
  role_overrides (permissionOverrides scope) o -> role_accepts (policy d) keys o ->
  is_Some (defined_permissions context grants scope id).
Proof.
  intros [Hd Hf]%defines_iff Ho Ha. unfold defined_permissions. rewrite Hd. cbn [mbind option_bind]. rewrite Hf.
  rewrite (resolve_role_complete _ _ grants _ _ Ho Ha). by eexists.
Qed.

Lemma default_keys_array policy keys : default_keys policy keys -> as_array (defaultPermissions policy) = Some (VString <$> keys).
Proof. by intros (? & _ & ? & _). Qed.

Lemma defined_granted context grants scope id perms p : roleDefinitionId scope = Some id ->
  defined_permissions context grants scope id = Some perms -> p ∈ perms <-> granted context grants scope p.
Proof.
  intros Hid (d & keys & o & Hd & Ho & Ha & ->)%defined_sound. unfold granted. rewrite Hid.
  pose proof (default_keys_array _ _ (ra_defaults _ _ _ Ha)) as Hk.
  rewrite elem_of_set_of, !elem_of_app, role_permissions_elem, elem_of_bfilter, String.eqb_eq. split.
  - intros Hp. exists d, keys, o. split_and!; [done..|].
    destruct (String.eqb_spec (securityClass (policy d)) "account_admin"), (String.eqb_spec (securityClass (policy d)) "external_owner");
      set_solver.
  - intros (d' & keys' & o' & (E & _) & Ho' & Hk' & Hp). destruct Hd as (E' & _). rewrite E in E'. injection E' as ->.
    pose proof (role_overrides_unique _ _ _ Ho Ho') as <-. rewrite Hk in Hk'. injection Hk' as Hk'%list_fmap_eq_inj; [|by intros ?? [=]].
    subst keys'. destruct (String.eqb_spec (securityClass (policy d)) "account_admin"), (String.eqb_spec (securityClass (policy d)) "external_owner");
      set_solver.
Qed.

Lemma no_overrides_iff scope : no_overrides scope <-> is_null (permissionOverrides scope) || is_undefined (permissionOverrides scope) = true.
Proof. unfold no_overrides. destruct (permissionOverrides scope); naive_solver. Qed.

(** A configuration resolves to what it grants. *)
Lemma scope_resolved context grants scope perms :
  resolveMembershipRolePermissions context grants (Some scope) = Ok perms ->
  valid_configuration context grants scope /\ forall p, p ∈ perms <-> granted context grants scope p.
Proof.
  unfold resolveMembershipRolePermissions, valid_configuration. destruct (roleDefinitionId scope) as [id|] eqn:Eid.
  - destruct (defined_permissions _ _ _ _) as [l|] eqn:E; [|done]. intros [= <-]. split.
    + apply defined_sound in E as (d & keys & o & Hd & Ho & Ha & _). by exists d, keys, o.
    + intros p. by eapply defined_granted.
  - unfold granted. rewrite Eid. destruct (_ || _) eqn:En.
    + apply no_overrides_iff in En. intros [= <-]. split; [by left|]. intros p. split; [by left|]. intros [[_ Hp]|(o & Ho & _)]; [done|].
      apply overrides_are_object in Ho as []. by destruct En.
    + destruct (parseStaffPermissionOverrides _) as [o|] eqn:Eo; [|done]. apply parse_overrides_iff in Eo.
      destruct (validateStaffPermissionOverrides _ _ _) eqn:Ev; [|done]. apply no_issues_iff in Ev. intros [= <-].
      split; [right; by exists o|]. intros p. rewrite elem_of_overridden. split; [intros Hp; right; by exists o|].
      intros [[Hn _]|(o' & Ho' & Hp)]; [by rewrite no_overrides_iff, En in Hn|].
      by rewrite (overrides_are_unique _ _ _ Eo Ho').
Qed.

(** A configuration that does not resolve is not valid. *)
Lemma scope_rejected context grants scope issues :
  resolveMembershipRolePermissions context grants (Some scope) = Err issues -> ~ valid_configuration context grants scope.
Proof.
  unfold resolveMembershipRolePermissions, valid_configuration. destruct (roleDefinitionId scope) as [id|].
  - destruct (defined_permissions _ _ _ _) eqn:E; [done|]. intros _ (d & keys & o & Hd & Ho & Ha).
    destruct (defined_complete context grants scope id d keys o Hd Ho Ha) as [l El]. congruence.
  - destruct (_ || _) eqn:En; [done|]. intros H [Hn|(o & Ho & Ha)]; [by rewrite no_overrides_iff, En in Hn|].
    rewrite (proj2 (parse_overrides_iff _ _) Ho), (proj2 (no_issues_iff _ _ _) Ha) in H. done.
Qed.

(** ** Members of an agency *)

(** The scope counts for the member, with the properties it lists. *)
Record agency_member (context : RequestContext) (scope : MembershipPropertyScope) (ids : list string) : Prop := {
  am_role : scopeRoleKey scope = roleKey (membership context);
  am_origin : accessOrigin scope = "agency";
  am_mode : scopeMode scope = "all" \/ scopeMode scope = "assigned";
  am_owner : scopeRoleKey scope = "external_owner" -> scopeMode scope = "assigned";
  am_ids : as_array (assignedPropertyIds scope) = Some (VString <$> ids)
}.

Definition access_of (scope : MembershipPropertyScope) (ids : list string) : MembershipPropertyAccess :=
  {| accessAll := bool_decide (scopeMode scope = "all"); accessRoleKey := scopeRoleKey scope; accessPropertyIds := ids |}.

Lemma eqb_decide a b : String.eqb a b = bool_decide (a = b).
Proof. destruct (String.eqb_spec a b); symmetry; [by apply bool_decide_true | by apply bool_decide_false]. Qed.

Lemma agency_scope_iff context scope ids :
  isAgencyMembershipScope context scope = true /\ valid_property_ids scope = Some ids <-> agency_member context scope ids.
Proof.
  unfold isAgencyMembershipScope, valid_property_ids. rewrite string_array_iff, !andb_true_iff, !orb_true_iff, negb_true_iff, !String.eqb_eq, String.eqb_neq.
  split; [intros [[[[H1 H2] H3] H4] H5]; split; naive_solver | intros [H1 H2 H3 H4 H5]; split_and!; try done].
  destruct (decide (scopeRoleKey scope = "external_owner")); auto.
Qed.

Lemma agency_access_iff context found scope access : agency_access context found = Some (scope, access) <->
  found = Some scope /\ exists ids, agency_member context scope ids /\ access = access_of scope ids.
Proof.
  unfold agency_access. destruct found as [s|]; [|split; [done | by intros [[=] _]]]. cbn [mbind option_bind].
  setoid_rewrite <- agency_scope_iff. unfold access_of. destruct (isAgencyMembershipScope context s) eqn:Eg.
  2: { split; [done|]. intros ([= ->] & ids & [? _] & _). congruence. }
  destruct (valid_property_ids s) as [ids|] eqn:Ei; cbn [mbind option_bind].
  - rewrite eqb_decide. split; [intros [= <- <-]; split; [done|]; by exists ids|]. intros ([= <-] & ids' & [_ E] & ->). congruence.
  - split; [done|]. intros ([= ->] & ids & [_ ?] & _). congruence.
Qed.

(** ** Products *)

Definition same_product (pa ba : bool) : bool :=
  forallb (fun e => forallb (fun q => implb (product_enabled pa ba (fst e)) (product_enabled pa ba q)) (snd e))
    requiredLowerPermissions.

Lemma lower_key_product pa ba p q : q ∈ lower_keys p -> product_enabled pa ba p = true -> product_enabled pa ba q = true.
Proof.
  assert (Hs : same_product pa ba = true) by (destruct pa, ba; vm_compute; reflexivity).
  unfold lower_keys. destruct (map_get requiredLowerPermissions p) as [l|] eqn:E; [|intros H; by apply elem_of_nil in H].
  apply map_get_elem in E. intros Hq Hp. pose proof (forallb_elem _ _ _ Hs E) as H. cbn [fst snd] in H.
  pose proof (forallb_elem _ _ _ H Hq) as H'. cbn beta in H'. by rewrite Hp in H'.
Qed.

(** A permission of a product belongs to members with access to it. *)
Definition product_granted (pa ba : bool) (p : PermissionKey) : Prop :=
  (String.prefix "pms." p = true -> pa = true) /\ (String.prefix "booking." p = true -> ba = true).

Lemma product_enabled_granted pa ba p : product_enabled pa ba p = true <-> product_granted pa ba p.
Proof.
  unfold product_enabled, product_granted. destruct (String.prefix "pms." p), (String.prefix "booking." p), pa, ba; naive_solver.
Qed.

(** ** The resolver *)

Section Guarantees.
Variables (findPermissionsForRole : OrganizationKind -> string -> list PermissionKey)
  (findEntitlements : option (RequestContext -> list ProductEntitlement))
  (findMembershipPropertyScope : option (RequestContext -> option MembershipPropertyScope))
  (recordInvalid : option (RequestContext -> list string -> exn unit)).

Let resolver := createAuthorizationResolver findPermissionsForRole findEntitlements findMembershipPropertyScope recordInvalid.

Definition found_scope (context : RequestContext) : option MembershipPropertyScope :=
  let? find := findMembershipPropertyScope in find context.

Definition role_grants (context : RequestContext) : list PermissionKey :=
  findPermissionsForRole hotel_group (roleKey (membership context)).

Lemma rejects context issues {A} : exists log e, @rejectInvalidPermissionConfiguration recordInvalid A context issues = (log, Throw e).
Proof.
  unfold rejectInvalidPermissionConfiguration. destruct recordInvalid as [record|]; [|by eexists _, _].
  destruct (record context issues); by eexists _, _.
Qed.

(** What the resolution of a hotel member with a scope of an agency comes to *)
Lemma resolver_member context scope access : organizationKind (selectedOrganization context) = hotel_group ->
  agency_access context (found_scope context) = Some (scope, access) ->
  resolver context =
  match resolveMembershipRolePermissions context (role_grants context) (Some scope), productAccess scope with
  | Err issues, _ => rejectInvalidPermissionConfiguration recordInvalid context issues
  | Ok perms, Some (VBool pa, VBool ba) =>
      ([], Ret {| resolvedPermissions := List.filter (product_enabled pa ba) perms;
                  resolvedEntitlements := (fun find => List.filter (entitlement_enabled pa ba) (find context)) <$> findEntitlements;
                  resolvedPropertyAccess := Some access |})
  | Ok _, _ => ([], Ret nothing_allowed)
  end.
Proof.
  intros Hk Ha. unfold resolver, createAuthorizationResolver. rewrite Hk. unfold resolve_hotel_group.
  fold (found_scope context). rewrite Ha. fold (role_grants context). by destruct (resolveMembershipRolePermissions _ _ _).
Qed.

Lemma resolver_stranger context : organizationKind (selectedOrganization context) = hotel_group ->
  agency_access context (found_scope context) = None -> resolver context = ([], Ret nothing_allowed).
Proof.
  intros Hk Ha. unfold resolver, createAuthorizationResolver. rewrite Hk. unfold resolve_hotel_group.
  fold (found_scope context). by rewrite Ha.
Qed.

Lemma agency_member_unique context scope ids ids' : agency_member context scope ids -> agency_member context scope ids' -> ids = ids'.
Proof.
  intros [_ _ _ _ H1] [_ _ _ _ H2]. rewrite H1 in H2. injection H2 as H2. apply list_fmap_eq_inj in H2; [done | by intros ?? [=]].
Qed.

(** The scope of a member of an agency, with its properties and products *)
Definition member_scope (context : RequestContext) (scope : MembershipPropertyScope) (ids : list string) (pa ba : bool) : Prop :=
  found_scope context = Some scope /\ agency_member context scope ids /\ productAccess scope = Some (VBool pa, VBool ba).

(** The access, permissions and entitlements of a member whose configuration is valid *)
Record member_resolved (context : RequestContext) (scope : MembershipPropertyScope) (ids : list string) (pa ba : bool)
    (r : AuthorizationResolution) : Prop := {
  mr_valid : valid_configuration context (role_grants context) scope;
  mr_access : resolvedPropertyAccess r = Some (access_of scope ids);
  mr_permissions : forall p, p ∈ resolvedPermissions r <->
    granted context (role_grants context) scope p /\ product_granted pa ba p;
  mr_entitlements : resolvedEntitlements r = (fun find => List.filter (entitlement_enabled pa ba) (find context)) <$> findEntitlements
}.

(** A member of an agency whose configuration is not valid *)
Definition misconfigured (context : RequestContext) : Prop :=
  exists scope ids, found_scope context = Some scope /\ agency_member context scope ids /\
    ~ valid_configuration context (role_grants context) scope.

Lemma resolver_cases context log out : organizationKind (selectedOrganization context) = hotel_group ->
  resolver context = (log, out) ->
  match out with
  | Throw _ => misconfigured context
  | Ret r => log = [] /\
      ((exists scope ids pa ba, member_scope context scope ids pa ba /\ member_resolved context scope ids pa ba r) \/
       (r = nothing_allowed /\ forall scope ids pa ba, ~ member_scope context scope ids pa ba))
  end.
Proof.
  intros Hk Hr. destruct (agency_access context (found_scope context)) as [[scope access]|] eqn:Ea.
  - pose proof Ea as (Hf & ids & Hm & ->)%agency_access_iff. rewrite (resolver_member _ _ _ Hk Ea) in Hr.
    destruct (resolveMembershipRolePermissions _ _ _) as [perms|issues] eqn:Ep.
    + apply scope_resolved in Ep as [Hv Hperm].
      assert (Hother : forall s i pa ba, member_scope context s i pa ba -> productAccess scope = Some (VBool pa, VBool ba)).
      { intros s i pa ba (Hs & _ & Hp). rewrite Hf in Hs. by injection Hs as <-. }
      destruct (productAccess scope) as [[[| |pa| | | | | |] [| |ba| | | | | |]]|] eqn:Ep;
        injection Hr as <- <-; (split; [done|]); try by (right; split; [done | intros ???? Hs; by apply Hother in Hs]).
      left. exists scope, ids, pa, ba. split; [done|]. split; [done | done | | done].
      intros p. cbn [resolvedPermissions]. by rewrite elem_of_bfilter, Hperm, product_enabled_granted.
    + destruct (rejects context issues (A := AuthorizationResolution)) as (l & e & E). rewrite E in Hr. injection Hr as <- <-.
      exists scope, ids. split_and!; [done..|]. by eapply scope_rejected.
  - rewrite (resolver_stranger _ Hk Ea) in Hr. injection Hr as <- <-. split; [done|]. right. split; [done|].
    intros scope ids pa ba (Hf & Hm & _).
    assert (E : agency_access context (found_scope context) = Some (scope, access_of scope ids)); [|congruence].
    apply agency_access_iff. split; [done|]. by exists ids.
Qed.

(** C32: a hotel member's permissions are exactly the configured ones.  A member whose
    scope counts for an agency and says which products it may use gets its properties
    and the permissions of the role, or of its custom definition, with the member's
    grants added and denials removed, restricted to those products; a member without
    such a scope gets nothing.  The request fails only when the member's scope has a
    configuration that is not valid, so a valid configuration is never refused, and a
    request that succeeds writes nothing to the audit. *)
Theorem resolver_permissions context : organizationKind (selectedOrganization context) = hotel_group ->
  match resolver context with
  | (log, Ret r) => log = [] /\
      (forall scope ids pa ba, member_scope context scope ids pa ba -> member_resolved context scope ids pa ba r) /\
      ((forall scope ids pa ba, ~ member_scope context scope ids pa ba) -> r = nothing_allowed)
  | (_, Throw _) => misconfigured context
  end.
Proof.
  intros Hk. destruct (resolver context) as [log out] eqn:Er. pose proof (resolver_cases _ _ _ Hk Er) as H.
  destruct out as [r|e]; [|exact H]. destruct H as [Hl H]. split; [done|]. split.
  - intros scope ids pa ba Hs. destruct H as [(s & i & qa & qb & Hs' & Hr)|[_ Hno]]; [|by destruct (Hno _ _ _ _ Hs)].
    destruct Hs as (F1 & M1 & P1), Hs' as (F2 & M2 & P2). rewrite F1 in F2. injection F2 as <-. rewrite P1 in P2. injection P2 as <- <-.
    by rewrite (agency_member_unique _ _ _ _ M1 M2).
  - intros Hno. destruct H as [(s & i & qa & qb & Hs' & _)|[-> _]]; [by destruct (Hno s i qa qb) | done].
Qed.

(** A custom role or overrides of the member's own *)
Definition configured (scope : MembershipPropertyScope) : Prop :=
  roleDefinitionId scope <> None \/ ~ no_overrides scope.

(** A member whose custom role is an account administrator's *)
Definition account_administrator (scope : MembershipPropertyScope) : Prop :=
  roleDefinitionId scope <> None /\ exists d, roleDefinition scope = Some d /\ securityClass (policy d) = "account_admin".

Lemma manifest_plain : lower_keys manifest_read = [] /\ manifest_read <> "finance.billing.manage" /\
  manifest_read <> "identity.staff.manage" /\ manifest_read <> "pms.guest_contact.read".
Proof. by vm_compute. Qed.

(** The limits of what a configuration grants; [held] is what the member holds. *)
Record within_limits (context : RequestContext) (scope : MembershipPropertyScope) (held : PermissionKey -> Prop)
    (p : PermissionKey) : Prop := {
  wl_billing : p <> "finance.billing.manage";
  wl_staff : p = "identity.staff.manage" ->
    exists d, roleDefinition scope = Some d /\ presetKey (policy d) = Some "agency_manager";
  wl_contact : roleKey (membership context) = "housekeeping" -> p <> "pms.guest_contact.read";
  wl_owner : roleKey (membership context) = "external_owner" ->
    p = manifest_read \/ p ∈ externalOwnerPermissionCeiling;
  wl_lower : forall q, q ∈ lower_keys p -> held q
}.

Lemma definition_limits context grants scope id d keys o p : roleDefinitionId scope = Some id ->
  defines context scope id d -> role_overrides (permissionOverrides scope) o -> role_accepts (policy d) keys o ->
  securityClass (policy d) <> "account_admin" -> held_with keys o p ->
  within_limits context scope (granted context grants scope) p.
Proof.
  intros Hid Hd Ho Ha Hna Hp. pose proof Hd as (Hdef & _ & _ & Hrole).
  pose proof (ra_defaults _ _ _ Ha) as (ceiling & Hc & Hk & Hin & _).
  destruct (ceiling_shape _ _ Hc) as (S1 & S2 & S3 & S4).
  assert (Hpc : p ∈ ceiling).
  { destruct Hp as [[Hp|Hp] _]; [by apply Hin|]. eapply (ra_ceiling _ _ _ Ha); [done..|]. by left. }
  split; [by intros -> | intros ->; exists d; auto | by intros E ->; apply S3; [congruence|] | |].
  - intros E. right. destruct S4 as [_ <-]; [congruence | done].
  - intros q Hq. unfold granted. rewrite Hid. exists d, keys, o. split_and!; [done..|]. right. left. split; [done|].
    by apply (ra_hierarchy _ _ _ Ha Hna p).
Qed.

Lemma granted_limits context grants scope p : configured scope -> ~ account_administrator scope ->
  valid_configuration context grants scope -> granted context grants scope p ->
  within_limits context scope (granted context grants scope) p.
Proof.
  unfold valid_configuration. intros Hconf Hna Hv Hg. destruct (roleDefinitionId scope) as [id|] eqn:Eid.
  - destruct Hv as (d & keys & o & Hd & Ho & Ha). pose proof Hg as Hg'. unfold granted in Hg'. rewrite Eid in Hg'.
    destruct Hg' as (d' & keys' & o' & Hd' & Ho' & Hk' & Hp). pose proof (role_overrides_unique _ _ _ Ho Ho') as <-.
    destruct Hd as (E & Hd), Hd' as (E' & Hd'). rewrite E in E'. injection E' as <-.
    pose proof (default_keys_array _ _ (ra_defaults _ _ _ Ha)) as Hk. rewrite Hk in Hk'. injection Hk' as Hk'.
    apply list_fmap_eq_inj in Hk' as <-; [|by intros ?? [=]].
    assert (Hn : securityClass (policy d) <> "account_admin") by (intros Hc; apply Hna; split; [by rewrite Eid | by exists d]).
    destruct Hp as [[Hc _]|[[_ Hp]|[-> _]]]; [done | by eapply (definition_limits context grants scope id d keys o)|].
    destruct manifest_plain as (E0 & H1 & H2 & H3). split; [done | by intros ?%H2 | by intros _ | by left|].
    rewrite E0. intros q Hq. by apply elem_of_nil in Hq.
  - destruct Hconf as [|Hov]; [done|]. destruct Hv as [|(o & Ho & Ha)]; [done|]. unfold granted in Hg |- *. rewrite Eid in Hg |- *.
    destruct Hg as [[? _]|(o' & Ho' & Hp)]; [done|]. pose proof (overrides_are_unique _ _ _ Ho Ho') as <-.
    destruct Ha as [_ _ _ _ Hst Hb Hcon Hown Hh]. split.
    + by intros ->.
    + by intros ->.
    + intros E ->. by apply Hcon in E.
    + intros E. apply (Hown E). auto.
    + intros q Hq. right. exists o. split; [done|]. by apply (Hh p).
Qed.

(** Without a configuration, and for account administrators, only the role counts. *)
Lemma granted_by_role context grants scope p : ~ configured scope \/ account_administrator scope ->
  granted context grants scope p -> p ∈ grants.
Proof.
  unfold granted. intros Hc. destruct (roleDefinitionId scope) as [id|] eqn:Eid.
  - intros (d & keys & o & (Hd & _) & _ & _ & Hp). destruct Hc as [Hc|[_ (d' & Hd' & Ha)]]; [destruct Hc; left; by rewrite Eid|].
    rewrite Hd in Hd'. injection Hd' as <-. rewrite Ha in Hp. destruct Hp as [[_ Hp]|[[Hn _]|[-> [Hn|Hp]]]]; done.
  - intros [[_ Hp]|(o & Ho & _)]; [done|]. destruct Hc as [Hc|[Hc _]]; [|done]. destruct Hc. right.
    destruct (overrides_are_object _ _ Ho). by intros [].
Qed.

(** C33: least privilege of what is configured.  A member whose custom role or overrides
    count, other than an account administrator, never manages billing, manages staff
    only as an agency manager, never reads guests' contacts in housekeeping, holds as
    an external owner only permissions of the owners' ceiling on assigned properties,
    and whoever may change something may read what it builds on.  Configuration never
    adds anything for the others: account administrators, who are hotel owners, and
    members with neither a custom role nor overrides hold only what the database grants
    their role, which is not limited here. *)
Theorem least_privilege context log r p : organizationKind (selectedOrganization context) = hotel_group ->
  resolver context = (log, Ret r) -> p ∈ resolvedPermissions r ->
  exists scope ids, found_scope context = Some scope /\ agency_member context scope ids /\
    resolvedPropertyAccess r = Some (access_of scope ids) /\
    (roleKey (membership context) = "external_owner" -> accessAll (access_of scope ids) = false) /\
    (configured scope -> ~ account_administrator scope ->
       within_limits context scope (fun q => q ∈ resolvedPermissions r) p) /\
    (~ configured scope \/ account_administrator scope -> p ∈ role_grants context) /\
    (account_administrator scope -> roleKey (membership context) = "hotel_owner").
Proof.
  intros Hk Hr Hp. destruct (resolver_cases context log (Ret r) Hk Hr) as [_ [(scope & ids & pa & ba & (Hf & Hm & _) & [Hv Hacc Hperm _])|[-> _]]];
    [|by apply elem_of_nil in Hp].
  exists scope, ids. pose proof Hp as [Hg Hen]%Hperm. split_and!; try done.
  - intros E. cbn [access_of accessAll]. apply bool_decide_eq_false. rewrite (am_owner _ _ _ Hm); [done|]. by rewrite (am_role _ _ _ Hm).
  - intros Hc Hna. destruct (granted_limits _ _ _ _ Hc Hna Hv Hg) as [H1 H2 H3 H4 H5]. split; try done.
    intros q Hq. apply Hperm. split; [by apply H5|]. apply product_enabled_granted in Hen.
    apply product_enabled_granted. by eapply lower_key_product.
  - intros Hc. by eapply granted_by_role.
  - intros (Hid & d & Hd & Ha). unfold valid_configuration in Hv. destruct (roleDefinitionId scope); [|done].
    destruct Hv as (d' & keys & o & (Hd' & _ & _ & Hrole) & _ & Hok). rewrite Hd in Hd'. injection Hd' as <-.
    pose proof (ra_defaults _ _ _ Hok) as (ceiling & Hc & _). by rewrite <- Hrole, (admin_base _ _ Hc Ha).
Qed.

(** An invalid configuration is refused and audited: when a member's role
    definition or overrides do not validate, no permission is resolved; the issues
    are written to the audit sink once, and without a working sink the request
    fails as well. *)
Theorem invalid_configuration_refused context scope access issues :
  organizationKind (selectedOrganization context) = hotel_group ->
  agency_access context (found_scope context) = Some (scope, access) ->
  resolveMembershipRolePermissions context (role_grants context) (Some scope) = Err issues ->
  issues <> [] /\
  match recordInvalid with
  | Some record =>
      match record context issues with
      | Ret _ => resolver context = ([issues], Throw "AuthorizationResolutionError")
      | Throw _ => resolver context = ([], Throw "Permission override audit is unavailable")
      end
  | None => resolver context = ([], Throw "Permission override audit sink is unavailable")
  end.
Proof.
  intros Hk Ha Hr. split.
  - revert Hr. unfold resolveMembershipRolePermissions. destruct (roleDefinitionId scope).
    + destruct (defined_permissions _ _ _ _); [done|]. by intros [= <-].
    + destruct (is_null _ || is_undefined _); [done|]. destruct (parseStaffPermissionOverrides _); [|by intros [= <-]].
      destruct (validateStaffPermissionOverrides _ _ _); [done | by intros [= <-]].
  - unfold resolver, createAuthorizationResolver. rewrite Hk. unfold resolve_hotel_group. fold (found_scope context).
    rewrite Ha. fold (role_grants context). rewrite Hr. unfold rejectInvalidPermissionConfiguration.
    destruct recordInvalid as [record|]; [|done]. by destruct (record context issues).
Qed.
End Guarantees.

(** * Who may use what

    Entitlements and properties, decided from the rows and links of an
    organization. *)

(** ** Links *)

(** An active link of the organization to a resource, in one of some relationships *)
Definition linked (context : RequestContext) (relationships : list ResourceRelationship) (r : ResourceReference) : Prop :=
  exists l, l ∈ linkedResources context /\ linkedReference l = r /\ linkedStatus l = resource_active /\
    relationship l ∈ relationships.

Definition actively_linked (context : RequestContext) (r : ResourceReference) : Prop :=
  exists l, l ∈ linkedResources context /\ linkedReference l = r /\ linkedStatus l = resource_active.

Lemma allows_elem relationships r : allows relationships r = true <-> r ∈ relationships.
Proof.
  unfold allows. rewrite existsb_exists. split.
  - intros (s & Hs & E%bool_decide_eq_true). subst. by apply list_elem_of_In.
  - intros Hr. exists r. split; [by apply list_elem_of_In | by apply bool_decide_eq_true].
Qed.

Lemma is_active_true l : is_active l = true <-> linkedStatus l = resource_active.
Proof. apply bool_decide_eq_true. Qed.

Lemma linked_decides context relationships r :
  hasActiveLinkedResource context {| requiredReference := r; allowedRelationships := relationships |} = true <->
  linked context relationships r.
Proof.
  unfold hasActiveLinkedResource, linked. rewrite existsb_exists. cbn [requiredReference allowedRelationships].
  split; intros (l & Hl & H); exists l; revert H; rewrite !andb_true_iff, is_active_true, bool_decide_eq_true, allows_elem,
    ?list_elem_of_In in *; naive_solver.
Qed.

(** The texts of products and types hold no colon, so a scope key names one resource. *)
Lemma scope_key_inj r s : resourceScopeKey r = resourceScopeKey s -> r = s.
Proof.
  destruct r as [p t i], s as [p' t' i']. unfold resourceScopeKey. cbn [resourceProduct resourceType resourceId].
  destruct p, t, p', t'; cbn; intros H; try discriminate H; by simplify_eq.
Qed.

Lemma linked_keys context r :
  includes (activeLinkedResourceKeys context) (resourceScopeKey r) = true <-> actively_linked context r.
Proof.
  rewrite includes_elem. unfold activeLinkedResourceKeys, actively_linked. rewrite list_elem_of_fmap. split.
  - intros (l & E%scope_key_inj & [Hl Ha]%elem_of_bfilter). exists l. by rewrite is_active_true in Ha.
  - intros (l & Hl & <- & Ha). exists l. split; [done|]. apply elem_of_bfilter. by rewrite is_active_true.
Qed.

(** ** Entitlements *)

Definition with_entitlements (context : RequestContext) (es : list ProductEntitlement) : RequestContext :=
  {| actor := actor context; selectedOrganization := selectedOrganization context;
     membership := membership context; linkedResources := linkedResources context; entitlements := es |}.

Definition row_names (requirement : EntitlementRequirement) (row : ProductEntitlementRow) : Prop :=
  rowProduct row = requirementProduct requirement /\
  canonicalEntitlementKey (rowProduct row) (rowKey row) =
    canonicalEntitlementKey (requirementProduct requirement) (requirementKey requirement).

Lemma canonical_key_idem p k : canonicalEntitlementKey p (canonicalEntitlementKey p k) = canonicalEntitlementKey p k.
Proof.
  destruct p; cbn; try done.
  - destruct (String.eqb_spec k "account_access") as [|H]; [done|]. by rewrite (proj2 (String.eqb_neq _ _) H).
  - destruct (String.eqb_spec k "account_access") as [|H1]; [done|].
    destruct (String.eqb_spec k "pms-core") as [|H2]; [done|]. cbn [orb].
    by rewrite (proj2 (String.eqb_neq _ _) H1), (proj2 (String.eqb_neq _ _) H2).
Qed.

Lemma row_same_key requirement row : same_product_key (entitlement_of_row row) requirement = true <-> row_names requirement row.
Proof.
  unfold same_product_key, row_names, entitlement_of_row. cbn [entitlementProduct entitlementKey].
  by rewrite andb_true_iff, bool_decide_eq_true, String.eqb_eq, canonical_key_idem.
Qed.

Lemma found_elem query context (f : ProductEntitlement -> bool) :
  existsb f (findEntitlementsForContext query context) = true <->
  exists row, row ∈ query (organizationId (selectedOrganization context)) /\
    row_counts (activeLinkedResourceKeys context) row = true /\ f (entitlement_of_row row) = true.
Proof.
  unfold findEntitlementsForContext. rewrite existsb_exists. split.
  - intros (e & He%list_elem_of_In & Hf). apply list_elem_of_fmap in He as (row & -> & [Hr Hc]%elem_of_bfilter). by exists row.
  - intros (row & Hr & Hc & Hf). exists (entitlement_of_row row). split; [|done]. apply list_elem_of_In, list_elem_of_fmap.
    exists row. split; [done|]. by apply elem_of_bfilter.
Qed.

Lemma suspending_row keys requirement row : rowStatus row = entitlement_suspended -> row_names requirement row ->
  rowResource row = None \/ rowResource row = requirementResource requirement ->
  row_counts keys row = true /\ suspends requirement (entitlement_of_row row) = true.
Proof.
  intros Hst Hk Hres. unfold row_counts, suspends, has_status, covers_resource.
  rewrite !andb_true_iff, row_same_key. cbn [entitlement_of_row entitlementStatus entitlementResource].
  rewrite Hst. destruct Hres as [->|<-]; [by rewrite bool_decide_true|].
  destruct (rowResource row); rewrite !bool_decide_true; done.
Qed.

(** A product may be used exactly when some active row of the organization
    entitles to it, either for the whole organization or for the required resource
    while that is actively linked, and no suspended row for the organization or
    that resource stands against it, linked or not. *)
Theorem entitlement_decides query context requirement :
  let rows := query (organizationId (selectedOrganization context)) in
  hasActiveEntitlement (with_entitlements context (findEntitlementsForContext query context)) requirement = true <->
  (exists row, row ∈ rows /\ rowStatus row = entitlement_active /\ row_names requirement row /\
     match rowResource row with
     | None => True
     | Some r => requirementResource requirement = Some r /\ actively_linked context r
     end) /\
  (forall row, row ∈ rows -> rowStatus row = entitlement_suspended -> row_names requirement row ->
     exists r, rowResource row = Some r /\ requirementResource requirement <> Some r).
Proof.
  intros rows. unfold hasActiveEntitlement. cbn [entitlements with_entitlements].
  destruct (existsb (suspends requirement) _) eqn:Es.
  - split; [done|]. intros [_ Hno]. apply found_elem in Es as (row & Hr & _ & Hs). unfold suspends in Hs.
    rewrite !andb_true_iff, row_same_key in Hs. destruct Hs as [[Hst%bool_decide_eq_true Hk] Hc].
    destruct (Hno row Hr Hst Hk) as (r & E & Hne). unfold covers_resource, entitlement_of_row in Hc.
    cbn [entitlementResource] in Hc. rewrite E in Hc. destruct (requirementResource requirement) as [q|]; [|done].
    apply bool_decide_eq_true in Hc as ->. done.
  - rewrite found_elem. unfold entitles. setoid_rewrite andb_true_iff. setoid_rewrite andb_true_iff.
    setoid_rewrite row_same_key. unfold has_status, covers_resource. setoid_rewrite bool_decide_eq_true.
    cbn [entitlement_of_row entitlementStatus entitlementResource]. split.
    + intros (row & Hr & Hcount & [Hst Hk] & Hc). split.
      * exists row. split_and!; try done. unfold row_counts in Hcount. destruct (rowResource row) as [r|]; [|done].
        destruct (requirementResource requirement) as [q|]; [|done]. apply bool_decide_eq_true in Hc as ->. split; [done|].
        apply linked_keys. rewrite Hst in Hcount. by rewrite bool_decide_false in Hcount.
      * intros row' Hr' Hst' Hk'. rewrite <- not_true_iff_false, found_elem in Es.
        destruct (rowResource row') as [r|] eqn:E.
        -- exists r. split; [done|]. intros Eq. apply Es. exists row'. split; [done|]. apply suspending_row; auto. right. congruence.
        -- exfalso. apply Es. exists row'. split; [done|]. apply suspending_row; auto.
    + intros [(row & Hr & Hst & Hk & Hres) _]. exists row. split_and!; try done.
      * unfold row_counts. destruct (rowResource row) as [r|]; [|done]. apply orb_true_iff. right. by apply linked_keys, Hres.
      * destruct (rowResource row) as [r|]; [|done]. destruct Hres as [-> _]. by apply bool_decide_true.
Qed.

(** ** Properties *)

Definition property_reference (id : string) : ResourceReference :=
  {| resourceProduct := hotel_catalog; resourceType := property; resourceId := id |}.

Lemma canonical_property_elem context relationships id :
  id ∈ canonicalPropertyIds context relationships <-> linked context relationships (property_reference id).
Proof.
  unfold canonicalPropertyIds, linked. rewrite elem_of_set_of, list_elem_of_fmap. split.
  - intros (l & -> & [Hl H]%elem_of_bfilter). exists l. revert H.
    rewrite !andb_true_iff, !bool_decide_eq_true, allows_elem, is_active_true. intros [[[? H1] H2] ?].
    split_and!; try done. destruct (linkedReference l) as [p t i]. cbn in *. by subst.
  - intros (l & Hl & E & Ha & Hr). exists l. rewrite E. split; [done|]. apply elem_of_bfilter. split; [done|].
    rewrite E, !andb_true_iff, !bool_decide_eq_true, allows_elem, is_active_true. done.
Qed.

(** The member's access covers a property: the access the context carries, else the one
    of the member's scope of an agency. *)
Definition access_covers (findScope : RequestContext -> option MembershipPropertyScope) (context : RequestContext)
    (id : string) : Prop :=
  match propertyAccess (membership context) with
  | Some access =>
      accessRoleKey access = roleKey (membership context) /\
      (accessAll access = true /\ accessRoleKey access <> "external_owner" \/
       accessAll access = false /\ id ∈ accessPropertyIds access)
  | None =>
      exists scope ids, findScope context = Some scope /\ agency_member context scope ids /\
        (scopeMode scope = "all" \/ id ∈ ids)
  end.

(** The properties a member may use *)
Record property_allowed (findScope : RequestContext -> option MembershipPropertyScope) (context : RequestContext)
    (relationships : list ResourceRelationship) (id : string) : Prop := {
  al_actor : actorStatus (actor context) = user_active;
  al_organization : organizationStatus (selectedOrganization context) = organization_active;
  al_kind : organizationKind (selectedOrganization context) = hotel_group;
  al_member : membershipStatus (membership context) = membership_active;
  al_linked : linked context relationships (property_reference id);
  al_access : access_covers findScope context id
}.

Lemma active_member_iff context : active_hotel_member context = true <->
  actorStatus (actor context) = user_active /\ organizationStatus (selectedOrganization context) = organization_active /\
  organizationKind (selectedOrganization context) = hotel_group /\ membershipStatus (membership context) = membership_active.
Proof. unfold active_hotel_member. rewrite !andb_true_iff, !bool_decide_eq_true. tauto. Qed.

Lemma current_access_covers findScope context id :
  (exists access, current_access findScope context = Some access /\ (accessAll access = true \/ id ∈ accessPropertyIds access)) <->
  access_covers findScope context id.
Proof.
  unfold current_access, access_covers. destruct (propertyAccess (membership context)) as [access|].
  - destruct (isAgencyMembershipAccess context access) eqn:Ei; unfold isAgencyMembershipAccess in Ei.
    + apply andb_true_iff in Ei as [Er%String.eqb_eq Eo]. rewrite orb_true_iff, !negb_true_iff, String.eqb_neq in Eo. split.
      * intros (a & [= <-] & Ha). split; [done|]. destruct (accessAll access); naive_solver.
      * intros [_ Ha]. exists access. split; [done|]. naive_solver.
    + split; [by intros (a & [=] & _)|]. intros [Er Ha]. rewrite Er, String.eqb_refl, andb_true_l in Ei.
      apply orb_false_iff in Ei as [E1%negb_false_iff%String.eqb_eq E2%negb_false_iff]. rewrite E2 in Ha.
      destruct Ha as [[_ Ha]|[Ha _]]; congruence.
  - split.
    + intros (access & E & Ha). destruct (agency_access context (findScope context)) as [[scope a]|] eqn:Ea; [|done].
      cbn in E. injection E as ->. apply agency_access_iff in Ea as (Hf & ids & Hm & ->). exists scope, ids. split_and!; [done..|].
      cbn in Ha. rewrite bool_decide_eq_true in Ha. done.
    + intros (scope & ids & Hf & Hm & Ha). exists (access_of scope ids).
      assert (E : agency_access context (findScope context) = Some (scope, access_of scope ids)).
      { apply agency_access_iff. split; [done|]. by exists ids. }
      rewrite E. split; [done|]. cbn. by rewrite bool_decide_eq_true.
Qed.

Lemma effective_property findScope context relationships id :
  match resolveEffectivePropertyAccess findScope context relationships with
  | Some access => id ∈ propertyIds access
  | None => False
  end <-> property_allowed findScope context relationships id.
Proof.
  transitivity (active_hotel_member context = true /\ linked context relationships (property_reference id) /\
    exists access, current_access findScope context = Some access /\ (accessAll access = true \/ id ∈ accessPropertyIds access)).
  2: { rewrite active_member_iff, current_access_covers. split; [intros ((?&?&?&?)&?&?); by split | by intros []]. }
  unfold resolveEffectivePropertyAccess. destruct (active_hotel_member context); [|naive_solver].
  destruct (current_access findScope context) as [access|]; [|naive_solver]. cbn [mbind option_bind propertyIds].
  rewrite elem_of_stable_sort, elem_of_set_of, <- canonical_property_elem. destruct (accessAll access) eqn:Ea.
  - split; [intros H; split_and!; eauto | naive_solver].
  - rewrite elem_of_bfilter, includes_elem. split.
    + intros [H1 H2]. split_and!; try done. exists access. auto.
    + intros (_ & H1 & a & [= <-] & [H2|H2]); [congruence | done].
Qed.

(** C34: a request may touch a property exactly when its actor, organization and
    membership are active in a hotel group, the organization is actively linked to
    the property and to the product's resource of that property in an allowed
    relationship, and the member's access covers the property: the access the request
    carries, or else the scope found for the member, has the member's role and lists
    the property or covers all, which it never does for an external owner; otherwise
    the request is refused. *)
Theorem property_access_decides findScope context requirement :
  let relationships := default [owner; operator] (requiredRelationships requirement) in
  let id := requiredPropertyId requirement in
  let allowed := property_allowed findScope context relationships id /\
                 linked context relationships (target_reference (targetResource requirement) id) in
  match requirePropertyAccess findScope context requirement with
  | Ret c => c = context /\ allowed
  | Throw e => e = "The authenticated user is not authorized for this resource." /\ ~ allowed
  end.
Proof.
  intros relationships id allowed. unfold requirePropertyAccess. fold relationships id.
  set (listed := match resolveEffectivePropertyAccess _ _ _ with Some a => _ | None => false end).
  assert (Hl : listed = true <-> property_allowed findScope context relationships id).
  { rewrite <- effective_property. unfold listed.
    destruct (resolveEffectivePropertyAccess findScope context relationships); [apply includes_elem | done]. }
  pose proof (linked_decides context relationships (target_reference (targetResource requirement) id)) as Ht.
  destruct (negb listed || negb _) eqn:E.
  - split; [done|]. intros [H1 H2]. apply Hl in H1. apply Ht in H2. by rewrite H1, H2 in E.
  - apply orb_false_iff in E as [E1 E2]. apply negb_false_iff in E1, E2. split; [done|]. split; [by apply Hl | by apply Ht].
Qed.
