(* ===== verification/AccountTransfer.v ===== *)
(** * Handing over the account

    packages/backend-auth/src/accountAdminTransferValidation.ts: the request by
    which an account administrator hands the account to another member and says
    what access remains. *)

From S2P Require Import Prelude JsValue JsonText Identity.

Record FormerAdmin := {
  formerRoleDefinitionId : string;
  expectedRoleRevision : string;
  allProperties : bool;
  formerPropertyIds : list string;
  formerOverrides : StaffPermissionOverrides;
  formerPms : bool;
  formerBooking : bool
}.

Record AdminTransferRequest := {
  targetMembershipId : string;
  expectedActorRevision : string;
  expectedTargetRevision : string;
  formerAdmin : FormerAdmin
}.

Definition uuid (v : jsval) : option string :=
  let? s := as_string v in guard? canonicalPropertyId s in Some s.

(** [/^[a-f0-9]{64}$/] *)
Definition revision (v : jsval) : option string :=
  let? s := as_string v in guard? matches (replicate 64 is_lower_hex) s in Some s.

Definition exact (v : jsval) (keys : list string) : bool :=
  is_object v && Nat.eqb (length (keys_of v)) (length keys) && forallb (has_own v) keys.

Definition MAX_BIGINT : Z := 9223372036854775807.

(** [/^[1-9][0-9]{0,18}$/], within PostgreSQL's [bigint] *)
Definition role_revision (v : jsval) : option string :=
  let? s := as_string v in
  guard? positive_decimal s && (str_length s <=? 19) in
  let? n := string_to_N s in
  guard? Z.of_N n <=? MAX_BIGINT in
  Some s.

Definition access_mode (v : jsval) : option bool :=
  if is_str v "all" then Some true else if is_str v "assigned" then Some false else None.

Definition parse_property_ids (all : bool) (v : jsval) : option (list string) :=
  let? raw := as_array v in
  let? ids := traverse uuid raw in
  let ids := stable_sort str_le (to_lower <$> ids) in
  guard? no_repeats ids && (if all then Nat.eqb (length ids) 0 else negb (Nat.eqb (length ids) 0)) in
  Some ids.

Definition parse_products (v : jsval) : option (bool * bool) :=
  guard? exact v ["pms"; "booking"] in
  let? p := as_bool (get v "pms") in
  let? b := as_bool (get v "booking") in
  Some (p, b).

Definition parse_former_admin (v : jsval) : option FormerAdmin :=
  guard? exact v ["roleDefinitionId"; "expectedRoleRevision"; "propertyAccessMode"; "propertyIds";
                  "permissionOverrides"; "productAccess"] in
  let? role := uuid (get v "roleDefinitionId") in
  let? rev := role_revision (get v "expectedRoleRevision") in
  let? all := access_mode (get v "propertyAccessMode") in
  let? ids := parse_property_ids all (get v "propertyIds") in
  let? o := parseStaffPermissionOverrides (get v "permissionOverrides") in
  guard? no_repeats (grant o ++ deny o) in
  let? (p, b) := parse_products (get v "productAccess") in
  Some {| formerRoleDefinitionId := to_lower role; expectedRoleRevision := rev; allProperties := all;
          formerPropertyIds := ids;
          formerOverrides := {| grant := stable_sort str_le (grant o); deny := stable_sort str_le (deny o) |};
          formerPms := p; formerBooking := b |}.

Definition parseAdminTransferRequest (raw : jsval) : option AdminTransferRequest :=
  guard? exact raw ["targetMembershipId"; "expectedActorRevision"; "expectedTargetRevision"; "formerAdmin"] in
  let? target := uuid (get raw "targetMembershipId") in
  let? actorRevision := revision (get raw "expectedActorRevision") in
  let? targetRevision := revision (get raw "expectedTargetRevision") in
  let? former := parse_former_admin (get raw "formerAdmin") in
  Some {| targetMembershipId := to_lower target; expectedActorRevision := actorRevision;
          expectedTargetRevision := targetRevision; formerAdmin := former |}.

(** ** Validation *)

Record CurrentRole := {
  currentPolicy : TeamRolePolicy;
  currentRoleId : string;
  currentRoleOrganizationId : string;
  currentRoleRevision : string
}.

Record AdminTransferValidationContext := {
  transferOrganizationId : string;
  actorMembershipId : string;
  actorRevision : string;
  currentTargetMembershipId : string;
  targetRevision : string;
  currentRole : CurrentRole;
  currentPropertyIds : list string
}.

Inductive TransferError := invalid_transfer | stale_transfer | invalid_former_admin_access.

Definition overrides_value (o : StaffPermissionOverrides) : jsval :=
  obj [("grant", arr (VString <$> grant o)); ("deny", arr (VString <$> deny o))].

Definition former_admin_value (a : FormerAdmin) : jsval :=
  obj [("roleDefinitionId", VString (formerRoleDefinitionId a));
       ("expectedRoleRevision", VString (expectedRoleRevision a));
       ("propertyAccessMode", VString (if allProperties a then "all" else "assigned"));
       ("propertyIds", arr (VString <$> formerPropertyIds a));
       ("permissionOverrides", overrides_value (formerOverrides a));
       ("productAccess", obj [("pms", VBool (formerPms a)); ("booking", VBool (formerBooking a))])].

Definition transfer_fields (r : AdminTransferRequest) : list (string * jsval) :=
  [("targetMembershipId", VString (targetMembershipId r));
   ("expectedActorRevision", VString (expectedActorRevision r));
   ("expectedTargetRevision", VString (expectedTargetRevision r));
   ("formerAdmin", former_admin_value (formerAdmin r))].

(** What is hashed: [JSON.stringify({ version, organizationId, actorMembershipId, ...request })] *)
Definition digest_value (r : AdminTransferRequest) (organizationId actorMembershipId : string) : jsval :=
  obj ([("version", VString "account-admin-transfer.v1");
        ("organizationId", VString (to_lower organizationId));
        ("actorMembershipId", VString (to_lower actorMembershipId))] ++ transfer_fields r).

Section Transfer.
(** [createHash("sha256").update(text).digest("hex")] *)
Variable sha256 : string -> string.

Definition adminTransferRequestDigest (r : AdminTransferRequest) (organizationId actorMembershipId : string) : string :=
  sha256 (json_text (digest_value r organizationId actorMembershipId)).

Definition same_members (r : AdminTransferRequest) (current : AdminTransferValidationContext) : bool :=
  canonicalPropertyId (transferOrganizationId current) && canonicalPropertyId (actorMembershipId current) &&
  negb (String.eqb (targetMembershipId r) (to_lower (actorMembershipId current))) &&
  String.eqb (targetMembershipId r) (to_lower (currentTargetMembershipId current)).

Definition same_revisions (r : AdminTransferRequest) (current : AdminTransferValidationContext) : bool :=
  String.eqb (expectedActorRevision r) (actorRevision current) &&
  String.eqb (expectedTargetRevision r) (targetRevision current) &&
  String.eqb (expectedRoleRevision (formerAdmin r)) (currentRoleRevision (currentRole current)).

Definition former_access_valid (r : AdminTransferRequest) (current : AdminTransferValidationContext) : bool :=
  let access := formerAdmin r in
  let role := currentRole current in
  String.eqb (to_lower (currentRoleId role)) (formerRoleDefinitionId access) &&
  String.eqb (to_lower (currentRoleOrganizationId role)) (to_lower (transferOrganizationId current)) &&
  includes ["staff"; "housekeeping"] (securityClass (currentPolicy role)) &&
  match resolveTeamRolePermissions (currentPolicy role) (overrides_value (formerOverrides access)) [] with
  | Some _ => true
  | None => false
  end &&
  forallb (fun id => existsb (fun p => String.eqb (to_lower p) id) (currentPropertyIds current))
    (formerPropertyIds access).

Definition validateAdminTransferRequest (raw : jsval) (current : AdminTransferValidationContext)
    : result TransferError (AdminTransferRequest * string) :=
  match parseAdminTransferRequest raw with
  | None => Err invalid_transfer
  | Some r =>
      if negb (same_members r current) then Err invalid_transfer
      else if negb (same_revisions r current) then Err stale_transfer
      else if negb (former_access_valid r current) then Err invalid_former_admin_access
      else Ok (r, adminTransferRequestDigest r (transferOrganizationId current) (actorMembershipId current))
  end.
End Transfer.

(** ** What a validated transfer guarantees *)

Lemma canonical_id_lower s : canonicalPropertyId s = true -> canonicalPropertyId (to_lower s) = true.
Proof.
  apply matches_lower. unfold property_id_classes. rewrite !Forall_app.
  assert (Hv : forall c, char_between "1" "5" c = true -> char_between "1" "5" (lower_char c) = true).
  { intros c. destruct c as [[] [] [] [] [] [] [] []]; vm_compute; auto. }
  repeat split; repeat first [apply Forall_replicate | apply Forall_singleton];
    intros c; first [apply lower_char_hex | apply lower_char_dash | apply lower_char_variant | apply Hv].
Qed.

Record property_ids_ok (all : bool) (ids : list string) : Prop := {
  pi_ids : Forall (fun id => canonicalPropertyId id = true /\ to_lower id = id) ids;
  pi_distinct : NoDup ids;
  pi_mode : all = true <-> ids = []
}.

Lemma parse_property_ids_ok all v ids : parse_property_ids all v = Some ids -> property_ids_ok all ids.
Proof.
  unfold parse_property_ids. destruct (as_array v) as [raw|]; [|done].
  destruct (traverse uuid raw) as [l|] eqn:Et; [|done].
  destruct (no_repeats _) eqn:En; [|done]. apply no_repeats_NoDup in En. cbn [andb].
  assert (Hl : Forall (fun id => canonicalPropertyId id = true /\ to_lower id = id) (stable_sort str_le (to_lower <$> l))).
  { apply Forall_stable_sort, Forall_fmap. eapply traverse_Forall; [|exact Et]. intros x s Hs. cbn.
    unfold uuid in Hs. destruct (as_string x) as [s'|]; [|done]. destruct (canonicalPropertyId s') eqn:E; [|done].
    injection Hs as <-. split; [by apply canonical_id_lower | apply to_lower_idem]. }
  set (sorted := stable_sort str_le (to_lower <$> l)) in *. clearbody sorted.
  intros H. split.
  - by destruct all, (Nat.eqb (length sorted) 0); simplify_eq/=.
  - by destruct all, (Nat.eqb (length sorted) 0); simplify_eq/=.
  - destruct all, (Nat.eqb (length sorted) 0) eqn:E; simplify_eq/=; split; try done.
    + intros _. apply Nat.eqb_eq in E. by destruct ids.
    + intros ->. done.
Qed.

(** A list of texts in the order of [Array.prototype.sort] *)
Definition in_order (l : list string) : Prop := Sorted (le_rel str_le) l.

Lemma sorted_in_order l : in_order (stable_sort str_le l).
Proof. apply stable_sort_sorted, str_le_total. Qed.

(** What a value leaves the former administrator: each field as it is given, ids and
    lists of permissions up to their case and order *)
Record leaves (v : jsval) (a : FormerAdmin) : Prop := {
  lv_role : exists id, get v "roleDefinitionId" = VString id /\ formerRoleDefinitionId a = to_lower id;
  lv_revision : get v "expectedRoleRevision" = VString (expectedRoleRevision a);
  lv_mode : get v "propertyAccessMode" = VString (if allProperties a then "all" else "assigned");
  lv_ids : exists ids, as_array (get v "propertyIds") = Some (VString <$> ids) /\ formerPropertyIds a ≡ₚ to_lower <$> ids;
  lv_sorted : in_order (formerPropertyIds a) /\ in_order (grant (formerOverrides a)) /\ in_order (deny (formerOverrides a));
  lv_ids_ok : property_ids_ok (allProperties a) (formerPropertyIds a);
  lv_overrides : exists o, overrides_are (get v "permissionOverrides") o /\ NoDup (grant o ++ deny o) /\
    grant (formerOverrides a) ≡ₚ grant o /\ deny (formerOverrides a) ≡ₚ deny o;
  lv_pms : get (get v "productAccess") "pms" = VBool (formerPms a);
  lv_booking : get (get v "productAccess") "booking" = VBool (formerBooking a)
}.

(** The transfer a value asks for *)
Record asks_for (v : jsval) (r : AdminTransferRequest) : Prop := {
  ask_target : exists id, get v "targetMembershipId" = VString id /\ canonicalPropertyId id = true /\
    targetMembershipId r = to_lower id;
  ask_actor : get v "expectedActorRevision" = VString (expectedActorRevision r);
  ask_revision : get v "expectedTargetRevision" = VString (expectedTargetRevision r);
  ask_former : leaves (get v "formerAdmin") (formerAdmin r)
}.

Lemma as_string_inv v s : as_string v = Some s -> v = VString s.
Proof. destruct v; try done. by intros [= ->]. Qed.

Lemma as_bool_inv v b : as_bool v = Some b -> v = VBool b.
Proof. destruct v; try done. by intros [= ->]. Qed.

Lemma uuid_inv v s : uuid v = Some s -> v = VString s /\ canonicalPropertyId s = true.
Proof.
  unfold uuid. destruct (as_string v) as [t|] eqn:E; [|done]. cbn [mbind option_bind]. apply as_string_inv in E as ->.
  destruct (canonicalPropertyId t) eqn:Ec; [|done]. by intros [= <-].
Qed.

Lemma revision_inv v s : revision v = Some s -> v = VString s.
Proof. unfold revision. intros H. follow H. by apply as_string_inv. Qed.

Lemma role_revision_inv v s : role_revision v = Some s -> v = VString s.
Proof. unfold role_revision. intros H. follow H. by apply as_string_inv. Qed.

Lemma access_mode_inv v all : access_mode v = Some all -> v = VString (if all then "all" else "assigned").
Proof.
  unfold access_mode, is_str. destruct v; try done. destruct (String.eqb_spec s "all") as [->|]; [by intros [= <-]|].
  destruct (String.eqb_spec s "assigned") as [->|]; [by intros [= <-] | by intros [=]].
Qed.

Lemma parse_property_ids_array all v ids : parse_property_ids all v = Some ids ->
  (exists raw, as_array v = Some (VString <$> raw) /\ ids ≡ₚ to_lower <$> raw) /\ in_order ids.
Proof.
  unfold parse_property_ids. destruct (as_array v) as [l|]; [|done]. cbn [mbind option_bind].
  destruct (traverse uuid l) as [raw|] eqn:Et; [|done]. cbn [mbind option_bind]. destruct (_ && _); [|done]. intros [= <-].
  split; [|apply sorted_in_order]. exists raw. split; [|apply stable_sort_perm]. f_equal. apply traverse_Some in Et.
  induction Et as [|x s l raw Hx _ IH]; [done|]. cbn. by rewrite IH; apply uuid_inv in Hx as [-> _].
Qed.

Lemma parse_former_leaves v a : parse_former_admin v = Some a -> leaves v a.
Proof.
  unfold parse_former_admin, parse_products. intros H. follow H.
  repeat match goal with
  | E : uuid _ = Some _ |- _ => apply uuid_inv in E as [? ?]
  | E : role_revision _ = Some _ |- _ => apply role_revision_inv in E
  | E : access_mode _ = Some _ |- _ => apply access_mode_inv in E
  | E : parseStaffPermissionOverrides _ = Some _ |- _ => apply parse_overrides_iff in E
  | E : as_bool _ = Some _ |- _ => apply as_bool_inv in E
  | E : no_repeats _ = true |- _ => apply no_repeats_NoDup in E
  | E : parse_property_ids _ _ = Some _ |- _ => pose proof (parse_property_ids_ok _ _ _ E); apply parse_property_ids_array in E as [? ?]
  end.
  split; cbn; try done; [by eexists | by split_and!; [|apply sorted_in_order..] |].
  eexists. split_and!; try done; apply stable_sort_perm.
Qed.

Lemma parse_transfer_asks v r : parseAdminTransferRequest v = Some r -> asks_for v r.
Proof.
  unfold parseAdminTransferRequest. intros H. follow H.
  repeat match goal with
  | E : uuid _ = Some _ |- _ => apply uuid_inv in E as [? ?]
  | E : revision _ = Some _ |- _ => apply revision_inv in E
  | E : parse_former_admin _ = Some _ |- _ => apply parse_former_leaves in E
  end.
  split; cbn; try done. by eexists.
Qed.

Lemma overrides_value_are o : overrides_are (overrides_value o) o.
Proof.
  split; [done|]. split_and!; [|by apply as_array_arr..].
  intros k Hk. cbn in Hk. apply elem_of_cons in Hk as [->|[->|[]%elem_of_nil]%elem_of_cons]; auto.
Qed.

(** A role that resolves with the overrides left accepts them. *)
Lemma role_resolves_accepts policy o perms : resolveTeamRolePermissions policy (overrides_value o) [] = Some perms ->
  exists keys, role_accepts policy keys o.
Proof.
  intros (keys & o' & [[? _]|Ho] & Ha & _)%resolve_role_sound; [done|]. exists keys.
  by rewrite (overrides_are_unique _ _ _ (overrides_value_are o) Ho).
Qed.

Section Guarantees.
Variable sha256 : string -> string.

(** C38: a validated transfer is the one that was asked for: every field of the result
    comes from the field of that name, ids in lower case and lists in order.  It hands
    the account to another member, against the revisions the administrator saw, and
    leaves the former administrator the role that was named, in its current revision, of
    the same organization and not an administrator's, with overrides that role accepts,
    and all properties or a list of distinct properties of the organization; the digest
    covers the whole request. *)
Theorem transfer_sound raw current r digest :
  validateAdminTransferRequest sha256 raw current = Ok (r, digest) ->
  asks_for raw r /\
  targetMembershipId r = to_lower (currentTargetMembershipId current) /\
  targetMembershipId r <> to_lower (actorMembershipId current) /\
  canonicalPropertyId (transferOrganizationId current) = true /\ canonicalPropertyId (actorMembershipId current) = true /\
  expectedActorRevision r = actorRevision current /\ expectedTargetRevision r = targetRevision current /\
  (let role := currentRole current in let former := formerAdmin r in
   expectedRoleRevision former = currentRoleRevision role /\
   formerRoleDefinitionId former = to_lower (currentRoleId role) /\
   to_lower (currentRoleOrganizationId role) = to_lower (transferOrganizationId current) /\
   securityClass (currentPolicy role) ∈ ["staff"; "housekeeping"] /\
   (exists keys, role_accepts (currentPolicy role) keys (formerOverrides former)) /\
   Forall (fun id => id ∈ (to_lower <$> currentPropertyIds current)) (formerPropertyIds former)) /\
  digest = adminTransferRequestDigest sha256 r (transferOrganizationId current) (actorMembershipId current).
Proof.
  unfold validateAdminTransferRequest. destruct (parseAdminTransferRequest raw) as [r'|] eqn:Ep; [|done].
  destruct (same_members r' current) eqn:Em; [|done]. destruct (same_revisions r' current) eqn:Er; [|done].
  destruct (former_access_valid r' current) eqn:Ef; [|done]. intros [= <- <-].
  unfold same_members in Em. unfold same_revisions in Er. unfold former_access_valid in Ef. cbv zeta in Ef.
  rewrite !andb_true_iff, negb_true_iff, String.eqb_neq, String.eqb_eq in Em.
  rewrite !andb_true_iff, !String.eqb_eq in Er.
  rewrite !andb_true_iff, !String.eqb_eq in Ef. destruct Em as [[[Ho Hac] Hne] Ht], Er as [[Ha Htr] Hrr].
  destruct Ef as [[[[Hid Horg] Hclass] Hres] Hprops]. split_and!; try done.
  - by apply parse_transfer_asks.
  - by apply includes_elem.
  - destruct (resolveTeamRolePermissions _ _ _) as [perms|] eqn:Eres; [by eapply role_resolves_accepts | done].
  - apply Forall_forall. intros id Hid'. pose proof (forallb_elem _ _ _ Hprops Hid') as H. cbn beta in H.
    apply existsb_exists in H as (p & Hp & <-%String.eqb_eq). apply list_elem_of_fmap. exists p.
    split; [done|]. by apply list_elem_of_In.
Qed.

Lemma transfer_plain r o a : plain_json (digest_value r o a).
Proof.
  unfold digest_value, transfer_fields, former_admin_value, overrides_value.
  repeat first [apply plain_strings | constructor].
Qed.

Lemma string_elements_inj (l l' : list string) :
  map (fun v => (plain_prop, v)) (VString <$> l) = map (fun v => (plain_prop, v)) (VString <$> l') -> l = l'.
Proof. intros H. apply strings_inj, arr_inj. unfold arr. by rewrite H. Qed.

Lemma overrides_value_inj o o' : overrides_value o = overrides_value o' -> o = o'.
Proof.
  destruct o as [g d], o' as [g' d']. intros E%obj_inj. cbn in E.
  by injection E as ->%string_elements_inj ->%string_elements_inj.
Qed.

Lemma former_admin_value_inj x y : former_admin_value x = former_admin_value y -> x = y.
Proof.
  destruct x as [rd rr all ids o p b], y as [rd' rr' all' ids' o' p' b']. intros E%obj_inj. cbn in E.
  injection E as -> -> Emode ->%string_elements_inj Eg%string_elements_inj Ed%string_elements_inj -> ->.
  destruct o, o'. cbn in Eg, Ed. subst. by destruct all, all'.
Qed.

(** The digest of a transfer identifies it: the digested texts, and short of a collision
    the digests, are equal exactly for the same request by the same member of the same
    organization. *)
Theorem transfer_digest_identifies r r' o o' a a' :
  tells_apart sha256 (json_text (digest_value r o a)) (json_text (digest_value r' o' a'))
    (r = r' /\ to_lower o = to_lower o' /\ to_lower a = to_lower a').
Proof.
  apply (tells_apart_iff sha256). split.
  - intros H. pose proof (transfer_plain r o a) as P. pose proof (transfer_plain r' o' a') as P'.
    assert (E : json_stringify (digest_value r o a) = json_stringify (digest_value r' o' a')).
    { by rewrite !plain_json_text, H. }
    apply json_stringify_inj in E; [|done..].
    destruct r as [tm ea et former], r' as [tm' ea' et' former'].
    assert (Ef : former_admin_value former = former_admin_value former').
    { apply obj_inj in E. apply (f_equal (fun l => List.nth 6 l ("", VNull))) in E.
      cbn -[former_admin_value] in E. apply (f_equal snd) in E. exact E. }
    apply former_admin_value_inj in Ef as <-. apply obj_inj in E. cbn -[former_admin_value] in E.
    injection E as Eo Ea -> -> ->. by split_and!.
  - intros (-> & Ho & Ha). unfold digest_value. by rewrite Ho, Ha.
Qed.
End Guarantees.
