(* ===== verification/FolioDecimals.v ===== *)
(** * Decimal amounts of the finance package

    packages/domain-finance/src/financialFolios.ts: decimal texts with up to
    fifteen digits and four decimals, their value in ten-thousandths and the
    rounded product of two of them. *)

From S2P Require Import Prelude JsValue JsonText CalendarDates Money.
From Stdlib Require Import DecimalString DecimalN.

(** ** Texts *)

(** The text before the first dot and, if there is one, the text after it *)
Fixpoint split_dot (s : string) : string * option string :=
  match s with
  | EmptyString => (EmptyString, None)
  | String c r =>
      if is_char "." c then (EmptyString, Some r)
      else let '(whole, fraction) := split_dot r in (String c whole, fraction)
  end.

Definition negative (s : string) : bool := match s with String c _ => is_char "-" c | EmptyString => false end.

Definition unsigned (s : string) : string :=
  match s with
  | String c r => if is_char "-" c then r else s
  | EmptyString => s
  end.

(** [0|[1-9]\d{0,14}] *)
Definition whole_digits (s : string) : bool := canonical_decimal s && (str_length s <=? 15).

(** [\d{min,4}] *)
Definition fraction_digits (min : Z) (s : string) : bool :=
  all_chars is_digit s && (min <=? str_length s) && (str_length s <=? 4).

(** [/^-?(?:0|[1-9]\d{0,14})(?:\.\d{1,4})?$/] *)
Definition amount_text (s : string) : bool :=
  let '(whole, fraction) := split_dot (unsigned s) in
  whole_digits whole && match fraction with Some f => fraction_digits 1 f | None => true end.

(** [/^-?(?:0|[1-9]\d{0,14})\.\d{4}$/] *)
Definition decimal (s : string) : bool :=
  let '(whole, fraction) := split_dot (unsigned s) in
  whole_digits whole && match fraction with Some f => fraction_digits 4 f | None => false end.

Fixpoint remove_dot (s : string) : string :=
  match s with
  | EmptyString => EmptyString
  | String c r => if is_char "." c then r else String c (remove_dot r)
  end.

Definition scaled (s : string) : Z := BigInt (remove_dot s).

(** [padEnd(n, "0")] *)
Fixpoint pad_end (n : nat) (s : string) : string :=
  match n, s with
  | O, _ => s
  | S n, EmptyString => String "0" (pad_end n EmptyString)
  | S n, String c r => String c (pad_end n r)
  end.

(** [padStart(n, "0")] *)
Definition pad_start (n : nat) (s : string) : string := Nat.iter (n - String.length s) (String "0") s.

Definition sign_text (neg : bool) : string := if neg then "-" else "".

Definition normalized (s : string) : string :=
  let '(whole, fraction) := split_dot (unsigned s) in
  sign_text (negative s) +:+ whole +:+ "." +:+ pad_end 4 (default "" fraction).

Definition writeDecimal (v : jsval) (signed zero : bool) : option string :=
  let? s := as_string v in
  guard? amount_text s in
  let n := normalized s in
  if negb signed && negative n then None
  else if scaled n =? 0 then (if zero then Some "0.0000" else None)
  else Some n.

Definition MAX_NUMERIC_19_4 : Z := 9999999999999999999.

(** The [BigInt] operations truncate. *)
Definition round_scaled (product : Z) : Z :=
  let quotient := Z.quot product 10000 in
  let remainder := Z.rem product 10000 in
  if 10000 <=? remainder * (if remainder <? 0 then -2 else 2)
  then quotient + (if product <? 0 then -1 else 1)
  else quotient.

Definition roundedProduct (left right : string) : Z := round_scaled (scaled left * scaled right).

(** ** Rounding *)

(** The nearest integer, ties away from zero *)
Lemma round_scaled_nearest p : let r := round_scaled p in
  2 * Z.abs (10000 * r - p) <= 10000 /\
  (2 * Z.abs (10000 * r - p) = 10000 -> Z.abs p < Z.abs (10000 * r)).
Proof.
  cbv zeta. unfold round_scaled. pose proof (Z.quot_rem' p 10000) as E.
  destruct (decide (0 <= p)) as [Hp|Hp].
  - pose proof (Z.rem_bound_pos p 10000 ltac:(lia) ltac:(lia)).
    rewrite (proj2 (Z.ltb_ge (Z.rem p 10000) 0)), (proj2 (Z.ltb_ge p 0)) by lia.
    destruct (Z.leb_spec 10000 (Z.rem p 10000 * 2)); lia.
  - pose proof (Z.rem_bound_pos_neg p 10000 ltac:(lia) ltac:(lia)).
    rewrite (proj2 (Z.ltb_lt p 0)) by lia.
    destruct (Z.ltb_spec (Z.rem p 10000) 0); [destruct (Z.leb_spec 10000 (Z.rem p 10000 * -2)) |
      destruct (Z.leb_spec 10000 (Z.rem p 10000 * 2))]; lia.
Qed.

Lemma round_scaled_pos p : 0 <= p -> 0 <= round_scaled p.
Proof. intros H. pose proof (round_scaled_nearest p). cbv zeta in *. lia. Qed.

(** ** Values of digits *)

Fixpoint digits_fold (acc : Z) (s : string) : Z :=
  match s with
  | EmptyString => acc
  | String c r => digits_fold (10 * acc + digit_val c) r
  end.

Lemma all_chars_app f a b : all_chars f (a +:+ b) = all_chars f a && all_chars f b.
Proof. induction a as [|c a IH]; [done|]. change (String c a +:+ b) with (String c (a +:+ b)).
  cbn [all_chars]. by rewrite IH, andb_assoc. Qed.

Lemma digits_fold_app a b acc : digits_fold acc (a +:+ b) = digits_fold (digits_fold acc a) b.
Proof. revert acc. induction a as [|c a IH]; intros acc; [done | apply IH]. Qed.

Lemma str_length_cons c s : str_length (String c s) = str_length s + 1.
Proof. unfold str_length. cbn [String.length]. lia. Qed.

Lemma str_length_nonneg s : 0 <= str_length s.
Proof. unfold str_length. lia. Qed.

Lemma str_length_app a b : str_length (a +:+ b) = str_length a + str_length b.
Proof. unfold str_length. rewrite string_length_app. lia. Qed.

Lemma digits_fold_shift s acc : digits_fold acc s = acc * 10 ^ str_length s + digits_fold 0 s.
Proof.
  revert acc. induction s as [|c s IH]; intros acc; cbn [digits_fold];
    [change (10 ^ str_length "") with 1; lia|].
  rewrite IH, (IH (10 * 0 + digit_val c)), str_length_cons, Z.pow_add_r by (try apply str_length_nonneg; lia). ring.
Qed.

Lemma digits_fold_bound s : all_chars is_digit s = true -> 0 <= digits_fold 0 s < 10 ^ str_length s.
Proof.
  induction s as [|c s IH]; cbn [all_chars digits_fold]; [by vm_compute|]. intros [Hc Hs]%andb_true_iff.
  rewrite digits_fold_shift, str_length_cons, Z.pow_add_r by (try apply str_length_nonneg; lia).
  pose proof (digit_val_bound c Hc). specialize (IH Hs). nia.
Qed.

#[local] Ltac eval_digit :=
  match goal with |- context [digit_val ?c] =>
    let v := eval vm_compute in (digit_val c) in change (digit_val c) with v
  end.

Lemma of_uint_acc_fold s d : NilEmpty.uint_of_string s = Some d ->
  forall acc, Zpos (Pos.of_uint_acc d acc) = digits_fold (Zpos acc) s.
Proof.
  revert d. induction s as [|c s IH]; intros d; cbn [NilEmpty.uint_of_string]; [by intros [= <-]|].
  destruct (NilEmpty.uint_of_string s) as [e|] eqn:E; [|by destruct c as [[] [] [] [] [] [] [] []]].
  specialize (IH e eq_refl). cbn [digits_fold]. intros H acc.
  destruct c as [[] [] [] [] [] [] [] []]; try discriminate H; injection H as <-;
    cbn [Pos.of_uint_acc]; rewrite IH; f_equal; eval_digit; lia.
Qed.

Lemma of_uint_fold s d : NilEmpty.uint_of_string s = Some d -> Z.of_N (N.of_uint d) = digits_fold 0 s.
Proof.
  revert d. induction s as [|c s IH]; intros d; cbn [NilEmpty.uint_of_string]; [by intros [= <-]|].
  destruct (NilEmpty.uint_of_string s) as [e|] eqn:E; [|by destruct c as [[] [] [] [] [] [] [] []]].
  specialize (IH e eq_refl). cbn [digits_fold]. intros H.
  destruct c as [[] [] [] [] [] [] [] []]; try discriminate H; injection H as <-;
    unfold N.of_uint in *; cbn [Pos.of_uint Z.of_N] in *; eval_digit; first [exact IH | by rewrite (of_uint_acc_fold _ _ E)].
Qed.

Lemma digits_value_fold s : all_chars is_digit s = true -> digits_value s = digits_fold 0 s.
Proof.
  intros H. unfold digits_value, string_to_N. destruct s as [|c r]; [done|].
  destruct (uint_of_string_digits _ H) as [d Hd]. cbn [NilZero.uint_of_string]. rewrite Hd. cbn [option_map default].
  by apply of_uint_fold.
Qed.

(** ** Shapes *)

Lemma split_dot_spec s w f : split_dot s = (w, f) ->
  s = w +:+ match f with Some r => String "." r | None => "" end.
Proof.
  revert w. induction s as [|c s IH]; intros w; cbn [split_dot]; [by intros [= <- <-]|].
  unfold is_char. destruct (Ascii.eqb_spec "." c) as [<-|Hc]; [by intros [= <- <-]|].
  destruct (split_dot s) as [w' f'] eqn:E. intros [= <- <-]. specialize (IH w' eq_refl).
  change (String c w' +:+ ?r) with (String c (w' +:+ r)). by rewrite <- IH.
Qed.

Lemma digit_not_char x c : is_digit c = true -> is_digit x = false -> is_char x c = false.
Proof. intros Hc Hx. unfold is_char. destruct (Ascii.eqb_spec x c) as [<-|]; congruence. Qed.

Lemma split_dot_digits w r : all_chars is_digit w = true -> split_dot (w +:+ String "." r) = (w, Some r).
Proof.
  induction w as [|c w IH]; [done|]. cbn [all_chars]. intros [Hc Hw]%andb_true_iff.
  change (String c w +:+ ?t) with (String c (w +:+ t)). cbn [split_dot].
  by rewrite (digit_not_char "." c), IH.
Qed.

Lemma remove_dot_digits w r : all_chars is_digit w = true -> remove_dot (w +:+ String "." r) = w +:+ r.
Proof.
  induction w as [|c w IH]; [done|]. cbn [all_chars]. intros [Hc Hw]%andb_true_iff.
  change (String c w +:+ ?t) with (String c (w +:+ t)). cbn [remove_dot].
  by rewrite (digit_not_char "." c), IH.
Qed.

Lemma whole_digits_spec w : whole_digits w = true ->
  all_chars is_digit w = true /\ 1 <= str_length w <= 15.
Proof.
  unfold whole_digits, canonical_decimal, positive_decimal. intros [[Hw|Hw]%orb_true_iff Hl%Z.leb_le]%andb_true_iff.
  - apply String.eqb_eq in Hw as ->. by vm_compute.
  - apply andb_true_iff in Hw as [Hs Hd]. split; [done|]. destruct w as [|c w]; [done|].
    rewrite str_length_cons in *. pose proof (str_length_nonneg w). lia.
Qed.

Lemma whole_digits_first w r : whole_digits w = true -> exists c t, w +:+ r = String c t /\ is_digit c = true.
Proof.
  intros [Hd Hl]%whole_digits_spec. destruct w as [|c w]; [unfold str_length in Hl; cbn in Hl; lia|]. exists c, (w +:+ r).
  cbn [all_chars] in Hd. apply andb_true_iff in Hd as [Hc _]. done.
Qed.

(** The text of a sign, a whole part and four decimals *)
Definition decimal_of (neg : bool) (whole fraction : string) : string :=
  sign_text neg +:+ whole +:+ String "." fraction.

Record decimal_parts (whole fraction : string) : Prop := {
  dp_whole : whole_digits whole = true;
  dp_digits : all_chars is_digit fraction = true;
  dp_length : str_length fraction = 4
}.

Lemma unsigned_parts neg w r : whole_digits w = true ->
  unsigned (sign_text neg +:+ w +:+ r) = w +:+ r /\ negative (sign_text neg +:+ w +:+ r) = neg.
Proof.
  intros Hw. destruct neg; [done|]. change (sign_text false +:+ ?t) with t.
  destruct (whole_digits_first w r Hw) as (c & t & -> & Hc). cbn [unsigned negative].
  by rewrite (digit_not_char "-" c).
Qed.

Lemma sign_unsigned s : s = sign_text (negative s) +:+ unsigned s.
Proof.
  destruct s as [|c s]; [done|]. unfold negative, unsigned, is_char. by destruct (Ascii.eqb_spec "-" c) as [<-|].
Qed.

Lemma decimal_shape s : decimal s = true ->
  exists neg whole fraction, s = decimal_of neg whole fraction /\ decimal_parts whole fraction.
Proof.
  unfold decimal. destruct (split_dot (unsigned s)) as [w [f|]] eqn:E; [|by rewrite andb_false_r].
  unfold fraction_digits. rewrite !andb_true_iff, !Z.leb_le. intros [Hw [[Hf H4] H4']].
  exists (negative s), w, f. split; [|split; [done..|lia]]. apply split_dot_spec in E.
  unfold decimal_of. rewrite <- E. apply sign_unsigned.
Qed.

Section Parts.
Context (neg : bool) (whole fraction : string) (Hparts : decimal_parts whole fraction).

Lemma split_parts : split_dot (unsigned (decimal_of neg whole fraction)) = (whole, Some fraction).
Proof.
  unfold decimal_of. destruct Hparts as [Hw _ _]. rewrite (proj1 (unsigned_parts neg whole _ Hw)).
  apply split_dot_digits. by apply whole_digits_spec in Hw as [].
Qed.

Lemma fraction_parts (min : Z) : min <= 4 -> fraction_digits min fraction = true.
Proof.
  destruct Hparts as [_ Hd Hl]. intros Hm. unfold fraction_digits. rewrite Hd, Hl. by apply Z.leb_le in Hm as ->.
Qed.

Lemma decimal_of_decimal : decimal (decimal_of neg whole fraction) = true.
Proof. unfold decimal. rewrite split_parts, (fraction_parts 4) by lia. by rewrite (dp_whole _ _ Hparts). Qed.

Lemma decimal_of_amount : amount_text (decimal_of neg whole fraction) = true.
Proof. unfold amount_text. rewrite split_parts, (fraction_parts 1) by lia. by rewrite (dp_whole _ _ Hparts). Qed.

Lemma pad_full n f : str_length f = Z.of_nat n -> pad_end n f = f.
Proof.
  revert f. induction n as [|n IH]; intros [|c f] H; try (by unfold str_length in H; cbn in H; lia); [done|].
  cbn. rewrite IH; [done|]. rewrite str_length_cons in H. lia.
Qed.

Lemma normalized_decimal_of : normalized (decimal_of neg whole fraction) = decimal_of neg whole fraction.
Proof.
  unfold normalized. rewrite split_parts. unfold decimal_of at 1.
  rewrite (proj2 (unsigned_parts neg whole _ (dp_whole _ _ Hparts))). cbn [default].
  rewrite pad_full by apply (dp_length _ _ Hparts). done.
Qed.

Definition parts_value : Z := digits_fold 0 whole * 10000 + digits_fold 0 fraction.

Lemma scaled_decimal_of : scaled (decimal_of neg whole fraction) = if neg then - parts_value else parts_value.
Proof.
  destruct Hparts as [Hw Hf H4]. pose proof (whole_digits_spec whole Hw) as [Hd Hl].
  assert (E : digits_value (whole +:+ fraction) = parts_value).
  { rewrite digits_value_fold by by rewrite all_chars_app, Hd.
    by rewrite digits_fold_app, digits_fold_shift, H4. }
  unfold scaled, decimal_of. destruct neg.
  - change (sign_text true +:+ ?t) with (String "-" t). cbn [remove_dot is_char Ascii.eqb Bool.eqb].
    rewrite remove_dot_digits by done.
    change (BigInt (String "-" ?t)) with (- digits_value t). by rewrite E.
  - change (sign_text false +:+ ?t) with t. rewrite remove_dot_digits by done. rewrite <- E.
    destruct (whole_digits_first whole fraction Hw) as (c & t & -> & Hc). unfold BigInt.
    by rewrite (digit_not_char "-" c).
Qed.

Lemma parts_value_bound : 0 <= parts_value <= MAX_NUMERIC_19_4.
Proof.
  destruct Hparts as [Hw Hf H4]. pose proof (whole_digits_spec whole Hw) as [Hd Hl].
  pose proof (digits_fold_bound whole Hd). pose proof (digits_fold_bound fraction Hf) as Hb. rewrite H4 in Hb.
  assert (10 ^ str_length whole <= 10 ^ 15) by (apply Z.pow_le_mono_r; lia).
  unfold parts_value, MAX_NUMERIC_19_4. change (10 ^ 15) with 1000000000000000 in *. change (10 ^ 4) with 10000 in *. lia.
Qed.
End Parts.

Lemma decimal_bound s : decimal s = true -> Z.abs (scaled s) <= MAX_NUMERIC_19_4.
Proof.
  intros (neg & w & f & -> & Hp)%decimal_shape. rewrite scaled_decimal_of by done.
  pose proof (parts_value_bound w f Hp). destruct neg; lia.
Qed.

(** ** Written decimals *)

Lemma pad_end_digits n f : all_chars is_digit f = true -> all_chars is_digit (pad_end n f) = true.
Proof.
  revert f. induction n as [|n IH]; intros [|c f]; cbn [all_chars pad_end]; try done.
  - intros _. by apply IH.
  - intros [Hc Hf]%andb_true_iff. by rewrite Hc, IH.
Qed.

Lemma pad_end_length n f : str_length f <= Z.of_nat n -> str_length (pad_end n f) = Z.of_nat n.
Proof.
  revert f. induction n as [|n IH]; intros [|c f] H; cbn [pad_end]; rewrite ?str_length_cons in *; try done.
  - pose proof (str_length_nonneg f). lia.
  - rewrite IH; [lia|]. by apply Nat2Z.is_nonneg.
  - rewrite IH; lia.
Qed.

Lemma normalized_shape s : amount_text s = true ->
  exists w f, normalized s = decimal_of (negative s) w f /\ decimal_parts w f.
Proof.
  unfold amount_text, normalized. destruct (split_dot (unsigned s)) as [w f] eqn:E.
  intros [Hw Hf]%andb_true_iff. exists w, (pad_end 4 (default "" f)). split; [done|].
  assert (Hd : all_chars is_digit (default "" f) = true /\ str_length (default "" f) <= 4).
  { destruct f as [f|]; [|by vm_compute]. unfold fraction_digits in Hf.
    rewrite !andb_true_iff, !Z.leb_le in Hf. by destruct Hf as [[??] ?]. }
  destruct Hd as [Hd Hl]. split; [done | by apply pad_end_digits | by apply (pad_end_length 4)].
Qed.

Record written_decimal (signed zero : bool) (q : string) : Prop := {
  wd_decimal : decimal q = true;
  wd_sign : signed = false -> 0 <= scaled q;
  wd_zero : zero = false -> scaled q <> 0;
  wd_again : writeDecimal (VString q) signed zero = Some q
}.

Lemma write_decimal_parts signed zero neg w f : decimal_parts w f ->
  let q := decimal_of neg w f in
  writeDecimal (VString q) signed zero =
    if negb signed && neg then None
    else if scaled q =? 0 then (if zero then Some "0.0000" else None) else Some q.
Proof.
  intros Hp q. unfold writeDecimal, q. cbn [as_string]. rewrite decimal_of_amount by done.
  rewrite normalized_decimal_of by done. unfold decimal_of at 1.
  by rewrite (proj2 (unsigned_parts neg w _ (dp_whole _ _ Hp))).
Qed.

Lemma writeDecimal_Some v signed zero q : writeDecimal v signed zero = Some q -> written_decimal signed zero q.
Proof.
  unfold writeDecimal. destruct (as_string v) as [s|]; [|done]. destruct (amount_text s) eqn:Ea; [|done].
  apply normalized_shape in Ea as (w & f & -> & Hp).
  replace (negative (decimal_of (negative s) w f)) with (negative s)
    by (symmetry; apply (unsigned_parts _ _ _ (dp_whole _ _ Hp))).
  destruct (negb signed && negative s) eqn:Es; [done|].
  destruct (Z.eqb_spec (scaled (decimal_of (negative s) w f)) 0) as [E0|E0].
  - destruct zero; [|done]. intros [= <-]. split; [done | by vm_compute | done | by destruct signed].
  - intros [= <-]. split; [by apply decimal_of_decimal | | done |].
    + intros ->. rewrite scaled_decimal_of by done. pose proof (parts_value_bound w f Hp).
      change (negative s = false) in Es. rewrite Es. lia.
    + rewrite write_decimal_parts by done. rewrite Es. by rewrite (proj2 (Z.eqb_neq _ _) E0).
Qed.

(** ** Canonical digits *)

Lemma canonical_decimal_value s : canonical_decimal s = true -> 0 <= BigInt s /\ Z_to_string (BigInt s) = s.
Proof.
  unfold canonical_decimal. intros [->%String.eqb_eq|H]%orb_true_iff; [by vm_compute|].
  apply positive_text_value in H as [H1 H2]. split; [lia | done].
Qed.

Lemma print_canonical n : 0 <= n -> canonical_decimal (Z_to_string n) = true.
Proof.
  intros Hn. unfold canonical_decimal. destruct (decide (n = 0)) as [->|H0]; [done|].
  rewrite Z_to_string_pos by done. rewrite positive_decimal_print by lia. apply orb_true_r.
Qed.

Lemma canonical_digits s : canonical_decimal s = true -> all_chars is_digit s = true /\ 1 <= str_length s.
Proof.
  unfold canonical_decimal, positive_decimal. intros [->%String.eqb_eq|[Hs Hd]%andb_true_iff]%orb_true_iff; [by vm_compute|].
  split; [done|]. destruct s as [|c s]; [done|]. rewrite str_length_cons. pose proof (str_length_nonneg s). lia.
Qed.

Lemma digits_BigInt s : all_chars is_digit s = true -> BigInt s = digits_fold 0 s.
Proof.
  intros Hs. destruct s as [|c s]; [done|]. pose proof Hs as Hs'. cbn [all_chars] in Hs'.
  apply andb_true_iff in Hs' as [Hc _]. unfold BigInt. rewrite (digit_not_char "-" c) by done. by apply digits_value_fold.
Qed.

Lemma starts_nonzero_bound c s : starts_nonzero (String c s) = true -> all_chars is_digit (String c s) = true ->
  10 ^ str_length s <= digits_fold 0 (String c s).
Proof.
  cbn [starts_nonzero all_chars digits_fold]. intros Hc [Hd Hs]%andb_true_iff. rewrite digits_fold_shift.
  assert (1 <= digit_val c) by (revert Hc; unfold char_between, digit_val; rewrite andb_true_iff, !Z.leb_le; change (code "1") with 49; lia).
  pose proof (digits_fold_bound s Hs). nia.
Qed.

(** A number below [10 ^ k] has at most [k] digits, and at least one. *)
Lemma print_length n k : 0 <= n < 10 ^ k -> 1 <= k -> 1 <= str_length (Z_to_string n) <= k.
Proof.
  intros Hn Hk. pose proof (print_canonical n ltac:(lia)) as Hc. destruct (canonical_digits _ Hc) as [Hd H1].
  split; [done|]. unfold canonical_decimal in Hc. apply orb_true_iff in Hc as [->%String.eqb_eq|Hp]; [done|].
  pose proof Hp as Hp'. apply positive_text_value in Hp' as [Hpos _]. unfold positive_decimal in Hp.
  apply andb_true_iff in Hp as [Hs _]. destruct (Z_to_string n) as [|c s] eqn:E; [done|].
  pose proof (starts_nonzero_bound c s Hs Hd) as Hb. rewrite <- digits_BigInt, <- E, print_value in Hb by (done || lia).
  rewrite str_length_cons in *. destruct (decide (str_length s + 1 <= k)); [done|].
  pose proof (Z.pow_le_mono_r 10 k (str_length s) ltac:(lia) ltac:(lia)). lia.
Qed.

Lemma pad_start_digits n s : all_chars is_digit s = true -> all_chars is_digit (pad_start n s) = true.
Proof. intros H. unfold pad_start. by induction (n - String.length s)%nat as [|k IH]. Qed.

Lemma pad_start_value n s : digits_fold 0 (pad_start n s) = digits_fold 0 s.
Proof. unfold pad_start. by induction (n - String.length s)%nat as [|k IH]. Qed.

Lemma pad_start_length n s : str_length s <= Z.of_nat n -> str_length (pad_start n s) = Z.of_nat n.
Proof.
  intros H. assert (E : forall k, str_length (Nat.iter k (String "0") s) = Z.of_nat k + str_length s).
  { induction k as [|k IH]; [done|]. cbn [Nat.iter nat_rect]. rewrite str_length_cons. unfold Nat.iter in IH. lia. }
  unfold pad_start. rewrite E. unfold str_length in *. lia.
Qed.

