(* ===== verification/FinanceFolios.v ===== *)
(** * Guest folios

    packages/domain-finance/src/financialFolios.ts: the commands that create and
    correct a folio, the queries of the folio list and the exports, with their
    parsers. *)

From S2P Require Import Prelude JsValue JsonText CalendarDates Money FolioDecimals.

(** ** Data *)

Definition FINANCE_FOLIO_LINE_KINDS : list string := ["room"; "addon"; "fee"; "tax"; "adjustment"].
Definition FINANCE_FOLIO_VIEW_STATES : list string := ["draft"; "ready"; "archived"; "superseded"].
Definition FINANCE_FOLIO_SORTS : list string := ["createdAt_desc"; "serviceFrom_desc"; "amount_desc"].

Record FinanceFolioMoney := { amount : string; moneyCurrency : string }.
Record FinanceFolioRecipient := { recipientName : string; recipientEmail : option string }.
Record FinanceFolioSourceReference := { sourceType : string; sourceId : string; sourceRevision : Z }.

Record FinanceFolioLineWrite := {
  position : Z;
  kind : string;
  description : string;
  quantity : string;
  unitAmount : FinanceFolioMoney;
  serviceOn : string;
  source : FinanceFolioSourceReference
}.

(** [FinanceFolioLine]: a line with its identifier and its total *)
Record FinanceFolioLine := {
  lineId : string;
  lineWrite : FinanceFolioLineWrite;
  lineTotal : FinanceFolioMoney
}.

Record FinanceFolioPaymentReference := { paymentId : string; paymentAmount : FinanceFolioMoney }.

Record FinanceFolioWrite := {
  commandId : string;
  idempotencyKey : string;
  expectedRevision : option Z;
  bookingId : option string;
  writeRecipient : FinanceFolioRecipient;
  serviceFrom : string;
  serviceTo : string;
  lines : list FinanceFolioLineWrite;
  paymentRefs : list FinanceFolioPaymentReference
}.

Record FinanceFolioRevisionCommand := {
  revisionCommandId : string;
  revisionIdempotencyKey : string;
  revisionExpected : Z
}.

(** ** Guards *)

Definition known (v : jsval) (keys : list string) : bool := is_object v && forallb (includes keys) (keys_of v).
Definition has (v : jsval) (keys : list string) : bool := forallb (has_own v) keys.
Definition exact (v : jsval) (keys : list string) : bool := known v keys && has v keys.

Definition lower_variant (c : ascii) : bool := is_char "8" c || is_char "9" c || is_char "a" c || is_char "b" c.

(** [UUID], without the [i] flag *)
Definition UUID : list (ascii -> bool) :=
  replicate 8 is_lower_hex ++ [is_char "-"] ++ replicate 4 is_lower_hex ++ [is_char "-"] ++
  [char_between "1" "5"] ++ replicate 3 is_lower_hex ++ [is_char "-"] ++ [lower_variant] ++
  replicate 3 is_lower_hex ++ [is_char "-"] ++ replicate 12 is_lower_hex.

Definition canonicalUuid (v : jsval) : option string :=
  let? s := as_string v in
  guard? matches UUID s && String.eqb s (to_lower s) in
  Some s.

(** [new Date(`${value}T00:00:00.000Z`)] of a text of the pattern is that day, or
    rolls over or is invalid on a day that does not exist. *)
Definition local_date (s : string) : bool :=
  match parse_ymd s with
  | Some (y, m, d) => (1000 <=? y) && valid_civil y m d
  | None => false
  end.

Definition localDate (v : jsval) : option string := let? s := as_string v in guard? local_date s in Some s.

Definition clean (min max : Z) (v : jsval) : option string :=
  let? s := as_trimmed min max v in
  guard? all_chars (fun c => negb (is_control c)) s in
  Some s.

Definition revision (v : jsval) : option Z := as_integer v 1 2147483647.

(** [/^[A-Z]{3}$/] *)
Definition currency_code (v : jsval) : option string :=
  let? s := as_string v in
  guard? matches (replicate 3 (char_between "A" "Z")) s in
  Some s.

(** [new TextEncoder().encode(text).length] on code units below 256 *)
Fixpoint utf8_length (s : string) : Z :=
  match s with
  | EmptyString => 0
  | String c r => (if code c <? 128 then 1 else 2) + utf8_length r
  end.

Definition email (v : jsval) : option (option string) :=
  if is_null v then Some None
  else
    let? s := as_trimmed 3 320 v in
    guard? negb (all_chars (fun c => negb (is_char "@" c)) s) in
    Some (Some s).

Definition optional_text (o : option string) : jsval := of_nullable VString o.

Definition recipient (v : jsval) : option FinanceFolioRecipient :=
  guard? exact v ["name"; "email"] in
  let? name := clean 1 4000 (get v "name") in
  let? mail := email (get v "email") in
  guard? utf8_length (json_text (obj [("v", VInt 1); ("name", VString name); ("email", optional_text mail)])) <=? 4096 in
  Some {| recipientName := name; recipientEmail := mail |}.

(** [/^[a-z][a-z0-9_.-]{0,49}$/] *)
Definition source_type_char (c : ascii) : bool :=
  char_between "a" "z" c || is_digit c || is_char "_" c || is_char "." c || is_char "-" c.

Definition source_type (s : string) : bool :=
  match s with
  | String c r => char_between "a" "z" c && all_chars source_type_char r && (str_length r <=? 49)
  | EmptyString => false
  end.

(** [/^[A-Za-z0-9][A-Za-z0-9._:/-]{0,199}$/] *)
Definition alphanumeric (c : ascii) : bool := char_between "A" "Z" c || char_between "a" "z" c || is_digit c.

Definition source_id_char (c : ascii) : bool :=
  alphanumeric c || is_char "." c || is_char "_" c || is_char ":" c || is_char "/" c || is_char "-" c.

Definition source_id (s : string) : bool :=
  match s with
  | String c r => alphanumeric c && all_chars source_id_char r && (str_length r <=? 199)
  | EmptyString => false
  end.

Definition tested (test : string -> bool) (v : jsval) : option string :=
  let? s := as_string v in guard? test s in Some s.

Lemma tested_Some test v s : tested test v = Some s <-> v = VString s /\ test s = true.
Proof.
  unfold tested. destruct v; cbn [as_string]; try (split; [discriminate | by intros []]).
  destruct (test s0) eqn:E; split; [intros [= <-]; done | by intros [[= ->] _] | done | intros [[= ->] H]; congruence].
Qed.

(** ** Folio commands *)

Definition line_kind (v : jsval) : option string := tested (includes FINANCE_FOLIO_LINE_KINDS) v.

Definition write_money (signed zero : bool) (v : jsval) : option FinanceFolioMoney :=
  guard? exact v ["amount"; "currency"] in
  let? a := writeDecimal (get v "amount") signed zero in
  let? c := currency_code (get v "currency") in
  Some {| amount := a; moneyCurrency := c |}.

Definition parse_source (v : jsval) : option FinanceFolioSourceReference :=
  guard? exact v ["type"; "id"; "revision"] in
  let? t := tested source_type (get v "type") in
  let? i := tested source_id (get v "id") in
  let? r := revision (get v "revision") in
  Some {| sourceType := t; sourceId := i; sourceRevision := r |}.

Definition service_date (v : jsval) (from to : string) : option string :=
  let? s := localDate v in
  guard? negb (str_lt s from) && negb (str_lt to s) in
  Some s.

Definition parseLineWrite (v : jsval) (from to : string) : option FinanceFolioLineWrite :=
  guard? exact v ["position"; "kind"; "description"; "quantity"; "unitAmount"; "serviceOn"; "source"] in
  let? p := as_integer (get v "position") 1 1000 in
  let? k := line_kind (get v "kind") in
  let? d := clean 1 500 (get v "description") in
  let? s := service_date (get v "serviceOn") from to in
  let? q := writeDecimal (get v "quantity") false false in
  let? u := write_money true true (get v "unitAmount") in
  let? src := parse_source (get v "source") in
  Some {| position := p; kind := k; description := d; quantity := q; unitAmount := u; serviceOn := s; source := src |}.

Definition parsePaymentWrite (v : jsval) : option FinanceFolioPaymentReference :=
  guard? exact v ["paymentId"; "amount"] in
  let? i := canonicalUuid (get v "paymentId") in
  let? m := write_money false false (get v "amount") in
  Some {| paymentId := i; paymentAmount := m |}.

Inductive FolioAction := create | correct.

Definition WRITE_KEYS : list string :=
  ["commandId"; "idempotencyKey"; "expectedRevision"; "bookingId"; "recipient"; "serviceFrom"; "serviceTo"; "lines";
   "paymentRefs"].

Definition required_write_keys : list string :=
  List.filter (fun key => negb (String.eqb key "expectedRevision") && negb (String.eqb key "bookingId")) WRITE_KEYS.

Definition expected_revision (action : FolioAction) (v : jsval) : option (option Z) :=
  match action with
  | create => guard? is_undefined v in Some None
  | correct => let? n := revision v in Some (Some n)
  end.

Definition optional {A} (read : jsval -> option A) (v : jsval) : option (option A) :=
  if is_undefined v then Some None else let? a := read v in Some (Some a).

Definition line_amount (line : FinanceFolioLineWrite) : Z := roundedProduct (quantity line) (amount (unitAmount line)).

Definition within_numeric (n : Z) : bool := (- MAX_NUMERIC_19_4 <=? n) && (n <=? MAX_NUMERIC_19_4).

Definition one_currency (ls : list FinanceFolioLineWrite) (ps : list FinanceFolioPaymentReference) : bool :=
  Nat.leb (length (set_of (((fun l => moneyCurrency (unitAmount l)) <$> ls) ++
                           ((fun p => moneyCurrency (paymentAmount p)) <$> ps)))) 1.

Definition amounts_fit (ls : list FinanceFolioLineWrite) : bool :=
  let totals := line_amount <$> ls in
  forallb within_numeric totals && (0 <=? sumZ totals) && (sumZ totals <=? MAX_NUMERIC_19_4).

Definition distinct_parts (ls : list FinanceFolioLineWrite) (ps : list FinanceFolioPaymentReference) : bool :=
  all_distinct Z.eqb (position <$> ls) && no_repeats (paymentId <$> ps).

Definition limited_array (max : Z) (v : jsval) : option (list jsval) :=
  let? l := as_array v in guard? Z.of_nat (length l) <=? max in Some l.

Definition compare_positions (a b : FinanceFolioLineWrite) : Z := position a - position b.

Section Write.
Context `{Collation}.

Definition compare_payments (a b : FinanceFolioPaymentReference) : Z := localeCompare (paymentId a) (paymentId b).

Definition parseFinanceFolioWrite (value : jsval) (action : FolioAction) : option FinanceFolioWrite :=
  guard? known value WRITE_KEYS && has value required_write_keys in
  let? command := canonicalUuid (get value "commandId") in
  let? key := clean 1 200 (get value "idempotencyKey") in
  let? expected := expected_revision action (get value "expectedRevision") in
  let? booking := optional canonicalUuid (get value "bookingId") in
  let? rcp := recipient (get value "recipient") in
  let? from := localDate (get value "serviceFrom") in
  let? to := localDate (get value "serviceTo") in
  guard? negb (str_lt to from) in
  let? raw_lines := limited_array 1000 (get value "lines") in
  let? raw_payments := limited_array 1000 (get value "paymentRefs") in
  let? ls := traverse (fun line => parseLineWrite line from to) raw_lines in
  let? ps := traverse parsePaymentWrite raw_payments in
  guard? distinct_parts ls ps && amounts_fit ls && one_currency ls ps in
  Some {| commandId := command; idempotencyKey := key; expectedRevision := expected; bookingId := booking;
          writeRecipient := rcp; serviceFrom := from; serviceTo := to;
          lines := sort_by compare_positions ls; paymentRefs := sort_by compare_payments ps |}.
End Write.

Definition parseFinanceFolioRevisionCommand (value : jsval) : option FinanceFolioRevisionCommand :=
  guard? exact value ["commandId"; "idempotencyKey"; "expectedRevision"] in
  let? command := canonicalUuid (get value "commandId") in
  let? key := clean 1 200 (get value "idempotencyKey") in
  let? expected := revision (get value "expectedRevision") in
  Some {| revisionCommandId := command; revisionIdempotencyKey := key; revisionExpected := expected |}.

(** ** Queries *)

Record FinanceFolioQuery := {
  queryFrom : option string;
  queryTo : option string;
  queryState : option string;
  querySearch : option string;
  querySort : string;
  queryCursor : option string;
  limit : Z
}.

Definition QUERY_KEYS : list string := ["from"; "to"; "state"; "search"; "sort"; "cursor"; "limit"].

Definition oneOf (v : jsval) (values : list string) : option string := tested (includes values) v.

Definition cursor_char (c : ascii) : bool := alphanumeric c || is_char "_" c || is_char "-" c.

(** [/^(?=.{2,4096}$)(?:[A-Za-z0-9_-]{4})*(?:[A-Za-z0-9_-]{2,3})?$/]: whole groups
    of four, or two or three more *)
Definition cursor_text (s : string) : bool :=
  all_chars cursor_char s && (2 <=? str_length s) && (str_length s <=? 4096) && negb (str_length s mod 4 =? 1).

(** [/^\d{1,3}$/] *)
Definition short_digits (s : string) : bool := all_chars is_digit s && (1 <=? str_length s) && (str_length s <=? 3).

Definition queryLimit (v : jsval) : option Z :=
  if is_undefined v then Some 50
  else
    match v with
    | VString s => guard? short_digits s in as_integer (VInt (digits_value s)) 1 200
    | _ => as_integer v 1 200
    end.

Definition dates_in_order (from to : option string) : bool :=
  match from, to with
  | Some f, Some t => negb (str_lt t f)
  | _, _ => true
  end.

Definition parseFinanceFolioQuery (value : jsval) : option FinanceFolioQuery :=
  guard? known value QUERY_KEYS in
  let? from := optional localDate (get value "from") in
  let? to := optional localDate (get value "to") in
  let? state := optional (fun v => oneOf v FINANCE_FOLIO_VIEW_STATES) (get value "state") in
  let? sort := (if is_undefined (get value "sort") then Some "createdAt_desc"
                else oneOf (get value "sort") FINANCE_FOLIO_SORTS) in
  let? n := queryLimit (get value "limit") in
  guard? dates_in_order from to in
  let? search := optional (as_trimmed 1 200) (get value "search") in
  let? cursor := optional (tested cursor_text) (get value "cursor") in
  Some {| queryFrom := from; queryTo := to; queryState := state; querySearch := search; querySort := sort;
          queryCursor := cursor; limit := n |}.

(** ** Exports *)

(** [state] is always ["ready"]. *)
Record FinanceFolioExportFilters := {
  filterFrom : option string;
  filterTo : option string;
  filterSearch : option string;
  filterSort : string
}.

Definition parseFinanceFolioExportFilters (value : jsval) : option FinanceFolioExportFilters :=
  guard? is_object value && negb (has_own value "cursor") && negb (has_own value "limit") in
  let? query := parseFinanceFolioQuery value in
  guard? bool_decide (queryState query = Some "ready") in
  Some {| filterFrom := queryFrom query; filterTo := queryTo query; filterSearch := querySearch query;
          filterSort := querySort query |}.

Record FinanceFolioExportSelection := {
  selectedFolioId : string;
  selectedRevisionId : string;
  selectedRevision : Z;
  selectedDigest : string
}.

Record FinanceFolioExportSnapshot := {
  snapshotPropertyId : string;
  snapshotCurrency : string;
  filters : FinanceFolioExportFilters;
  snapshotAt : string;
  manifest : list FinanceFolioExportSelection
}.

Definition FINANCE_FOLIO_CSV_VERSION : string := "pms-financials-folios.v1".

(** [String(value)] of a value: an array joins the texts of its elements, where
    [null] and [undefined] are empty; a plain object prints as such unless a
    member of its own shadows [toString], and then the conversion throws. *)
Fixpoint coerced (v : jsval) : exn string :=
  match v with
  | VUndefined => Ret "undefined"
  | VNull => Ret "null"
  | VBool b => Ret (if b then "true" else "false")
  | VInt z => Ret (Z_to_string z)
  | VFrac r => Ret r
  | VString s => Ret s
  | VArray _ elems _ =>
      let fix texts (l : list (propkind * jsval)) : exn (list string) :=
        match l with
        | [] => Ret []
        | (_, w) :: r =>
            try! t := (match w with VUndefined | VNull => Ret EmptyString | _ => coerced w end) in
            try! ts := texts r in Ret (t :: ts)
        end in
      try! ts := texts elems in Ret (join "," ts)
  | VObject ProtoObject _ => if has_own v "toString" then Throw "TypeError" else Ret "[object Object]"
  | VObject _ _ | VOpaque => Throw "TypeError"
  end.

(** [/pattern/.test(String(value))], and the text *)
Definition coerced_matching (classes : list (ascii -> bool)) (v : jsval) : exn (option string) :=
  try! s := coerced v in Ret (guard? matches classes s in Some s).

Definition as_safe_integer (min : Z) (v : jsval) : option Z := as_integer v min MAX_SAFE_INTEGER.

(** One entry, against the identifiers of the entries before it *)
Definition parse_selection (folios revisions : list string) (v : jsval) : exn (option FinanceFolioExportSelection) :=
  let identifiers :=
    guard? is_object v && Nat.eqb (length (keys_of v)) 4 in
    let? f := canonicalUuid (get v "folioId") in
    let? r := canonicalUuid (get v "revisionId") in
    let? n := as_safe_integer 1 (get v "revision") in
    Some (f, r, n) in
  match identifiers with
  | None => Ret None
  | Some (f, r, n) =>
      try! digest := coerced_matching (replicate 64 is_lower_hex) (get v "sourceDigest") in
      Ret (let? d := digest in
           guard? negb (includes folios f) && negb (includes revisions r) in
           Some {| selectedFolioId := f; selectedRevisionId := r; selectedRevision := n; selectedDigest := d |})
  end.

Fixpoint parse_manifest (folios revisions : list string) (l : list jsval)
    : exn (option (list FinanceFolioExportSelection)) :=
  match l with
  | [] => Ret (Some [])
  | v :: rest =>
      try! entry := parse_selection folios revisions v in
      match entry with
      | None => Ret None
      | Some e =>
          try! entries := parse_manifest (selectedFolioId e :: folios) (selectedRevisionId e :: revisions) rest in
          Ret (let? es := entries in Some (e :: es))
      end
  end.

Definition parseFinanceFolioExportSnapshot (value : jsval) : exn (option FinanceFolioExportSnapshot) :=
  let property :=
    guard? is_object value && Nat.eqb (length (keys_of value)) 6 &&
           is_str (get value "formatVersion") FINANCE_FOLIO_CSV_VERSION in
    canonicalUuid (get value "propertyId") in
  match property with
  | None => Ret None
  | Some propertyId =>
      try! currency := coerced_matching (replicate 3 (char_between "A" "Z")) (get value "currency") in
      let parts :=
        let? c := currency in
        let? at_ := isoInstant (get value "snapshotAt") in
        let? raw := as_array (get value "manifest") in
        let? f := parseFinanceFolioExportFilters (get value "filters") in
        Some (c, at_, raw, f) in
      match parts with
      | None => Ret None
      | Some (c, at_, raw, f) =>
          try! entries := parse_manifest [] [] raw in
          Ret (let? es := entries in
               Some {| snapshotPropertyId := propertyId; snapshotCurrency := c; filters := f; snapshotAt := at_;
                       manifest := es |})
      end
  end.
