(* ===== verification/FolioCsv.v ===== *)
(** * The folio export

    packages/domain-finance/src/financialFolios.ts: the CSV document of the ready
    folios of a property, built from evidence that is checked again. *)

From S2P Require Import Prelude JsValue JsonText CalendarDates Money FolioDecimals FinanceFolios.

(** ** Text *)

(** [/^[=+\-@\t\r\n]/]: how a spreadsheet tells a formula *)
Definition formula_start (c : ascii) : bool :=
  is_char "=" c || is_char "+" c || is_char "-" c || is_char "@" c || is_char "009" c || is_char "013" c ||
  is_char "010" c.

Definition safeText (value : string) : string :=
  match value with
  | String c _ => if formula_start c then String "'" value else value
  | EmptyString => value
  end.

(** [replaceAll]: every quote is written twice. *)
Fixpoint double_quotes (s : string) : string :=
  match s with
  | EmptyString => EmptyString
  | String c r => if is_char "034" c then quote_char +:+ quote_char +:+ double_quotes r else String c (double_quotes r)
  end.

Definition csv_cell (value : string) : string := quote_char +:+ double_quotes value +:+ quote_char.

Definition csvRow (values : list string) : string := join "," (csv_cell <$> values).

Definition crlf : string := String "013" (String "010" EmptyString).

(** ** Folios *)

Record FinanceFolio := {
  folioId : string;
  folioPropertyId : string;
  folioBookingId : option string;
  folioRevision : Z;
  state : string;
  folioRecipient : FinanceFolioRecipient;
  folioFrom : string;
  folioTo : string;
  folioCurrency : string;
  folioLines : list FinanceFolioLine;
  folioTotal : FinanceFolioMoney;
  folioPaymentRefs : list FinanceFolioPaymentReference;
  sourceDigest : string
}.

Record AuditEvidence := { evidenceFolioId : string; evidenceRevision : Z; evidenceDigest : string }.

Record FinanceFolioCsvArtifact := {
  artifactPropertyId : string;
  artifactCurrency : string;
  filename : string;
  rowCount : nat;
  body : string;
  auditEvidence : list AuditEvidence
}.

Definition FINANCE_FOLIO_CSV_COLUMNS : list string :=
  ["property_id"; "folio_id"; "folio_revision"; "folio_state"; "booking_id"; "recipient_name"; "recipient_email";
   "service_from"; "service_to"; "currency"; "folio_total"; "line_position"; "line_kind"; "line_description";
   "quantity"; "unit_amount"; "line_total"; "service_on"; "source_type"; "source_id"; "source_revision";
   "payment_reference_ids"; "payment_reference_amounts"].

Definition uuid_text (s : string) : bool :=
  match canonicalUuid (VString s) with Some _ => true | None => false end.

Definition positive_integer (z : Z) : bool := safe_integer z && (1 <=? z).

Definition evidence_of (folio : FinanceFolio) : AuditEvidence :=
  {| evidenceFolioId := folioId folio; evidenceRevision := folioRevision folio; evidenceDigest := sourceDigest folio |}.

Section FolioExport.
Variables (propertyId currency : string).

Definition folio_valid (selected : list string) (folio : FinanceFolio) : bool :=
  String.eqb (folioPropertyId folio) propertyId && String.eqb (folioCurrency folio) currency &&
  String.eqb (state folio) "ready" && uuid_text (folioId folio) &&
  match folioBookingId folio with Some id => uuid_text id | None => true end &&
  positive_integer (folioRevision folio) && matches (replicate 64 is_lower_hex) (sourceDigest folio) &&
  String.eqb (moneyCurrency (folioTotal folio)) currency && decimal (amount (folioTotal folio)) &&
  (0 <=? scaled (amount (folioTotal folio))) && local_date (folioFrom folio) && local_date (folioTo folio) &&
  negb (str_lt (folioTo folio) (folioFrom folio)) && negb (Nat.eqb (length (folioLines folio)) 0) &&
  negb (includes selected (folioId folio)).

Definition compare_ids (a b : FinanceFolioPaymentReference) : Z :=
  if str_lt (paymentId a) (paymentId b) then -1 else if str_lt (paymentId b) (paymentId a) then 1 else 0.

Definition payment_valid (seen : list string) (p : FinanceFolioPaymentReference) : bool :=
  uuid_text (paymentId p) && negb (includes seen (paymentId p)) &&
  String.eqb (moneyCurrency (paymentAmount p)) currency && decimal (amount (paymentAmount p)) &&
  (0 <? scaled (amount (paymentAmount p))).

Fixpoint payments_valid (seen : list string) (ps : list FinanceFolioPaymentReference) : bool :=
  match ps with
  | [] => true
  | p :: rest => payment_valid seen p && payments_valid (paymentId p :: seen) rest
  end.

Definition line_valid (folio : FinanceFolio) (positions : list Z) (line : FinanceFolioLine) : bool :=
  let w := lineWrite line in
  positive_integer (position w) && negb (existsb (Z.eqb (position w)) positions) && uuid_text (lineId line) &&
  includes FINANCE_FOLIO_LINE_KINDS (kind w) && String.eqb (moneyCurrency (unitAmount w)) currency &&
  String.eqb (moneyCurrency (lineTotal line)) currency && decimal (quantity w) && (0 <? scaled (quantity w)) &&
  decimal (amount (unitAmount w)) && decimal (amount (lineTotal line)) &&
  (scaled (amount (lineTotal line)) =? roundedProduct (quantity w) (amount (unitAmount w))) &&
  local_date (serviceOn w) && negb (str_lt (serviceOn w) (folioFrom folio)) &&
  negb (str_lt (folioTo folio) (serviceOn w)) && source_type (sourceType (source w)) &&
  source_id (sourceId (source w)) && positive_integer (sourceRevision (source w)).

Definition compare_lines (a b : FinanceFolioLine) : Z := position (lineWrite a) - position (lineWrite b).

(** [ids] and [amounts] are the joined payment references. *)
Definition row_of (folio : FinanceFolio) (ids amounts : string) (line : FinanceFolioLine) : list string :=
  let w := lineWrite line in
  [propertyId; folioId folio; Z_to_string (folioRevision folio); "ready"; default EmptyString (folioBookingId folio);
   safeText (recipientName (folioRecipient folio)); safeText (default EmptyString (recipientEmail (folioRecipient folio)));
   folioFrom folio; folioTo folio; currency; amount (folioTotal folio); Z_to_string (position w); kind w;
   safeText (description w); quantity w; amount (unitAmount w); amount (lineTotal line); serviceOn w;
   sourceType (source w); sourceId (source w); Z_to_string (sourceRevision (source w)); ids; amounts].

Fixpoint line_rows (folio : FinanceFolio) (ids amounts : string) (positions : list Z) (ls : list FinanceFolioLine)
    : option (list (list string)) :=
  match ls with
  | [] => Some []
  | line :: rest =>
      guard? line_valid folio positions line in
      let? rows := line_rows folio ids amounts (position (lineWrite line) :: positions) rest in
      Some (row_of folio ids amounts line :: rows)
  end.

Definition lines_total (folio : FinanceFolio) : Z :=
  sumZ ((fun line => scaled (amount (lineTotal line))) <$> folioLines folio).

Definition folio_rows (selected : list string) (folio : FinanceFolio) : option (list (list string)) :=
  guard? folio_valid selected folio in
  let payments := sort_by compare_ids (folioPaymentRefs folio) in
  guard? payments_valid [] payments in
  let ids := join ";" (paymentId <$> payments) in
  let amounts := join ";" ((fun p => amount (paymentAmount p)) <$> payments) in
  let? rows := line_rows folio ids amounts [] (sort_by compare_lines (folioLines folio)) in
  guard? lines_total folio =? scaled (amount (folioTotal folio)) in
  Some rows.

Fixpoint all_rows (selected : list string) (folios : list FinanceFolio) : option (list (list string)) :=
  match folios with
  | [] => Some []
  | folio :: rest =>
      let? rows := folio_rows selected folio in
      let? more := all_rows (folioId folio :: selected) rest in
      Some (rows ++ more)
  end.

Definition document (rows : list (list string)) : string :=
  join crlf (csvRow <$> FINANCE_FOLIO_CSV_COLUMNS :: rows) +:+ crlf.

(** Every check fails with the same error, so their order is not observed. *)
Definition buildFinanceFolioCsvArtifact (folios : list FinanceFolio) : exn FinanceFolioCsvArtifact :=
  let rows :=
    guard? uuid_text propertyId && matches (replicate 3 (char_between "A" "Z")) currency in
    all_rows [] folios in
  match rows with
  | None => Throw "Folio CSV evidence violates the export contract"
  | Some rows =>
      Ret {| artifactPropertyId := propertyId; artifactCurrency := currency;
             filename := "pms-financials-folios-" +:+ propertyId +:+ ".csv"; rowCount := length rows;
             body := document rows; auditEvidence := evidence_of <$> folios |}
  end.
End FolioExport.

(** * Reading the folio export back

    A reader of quoted cells in the manner of RFC 4180, and what the document of
    an export reads as. *)

(** ** A reader *)

Definition is_quote (c : ascii) : bool := is_char "034" c.

(** The rest of a quoted cell: a doubled quote is one, a single quote ends it. *)
Fixpoint read_cell (s : string) : option (string * string) :=
  match s with
  | EmptyString => None
  | String c r =>
      if is_quote c then
        match r with
        | String c' r' =>
            if is_quote c' then let? (t, rest) := read_cell r' in Some (String "034" t, rest) else Some (EmptyString, r)
        | EmptyString => Some (EmptyString, r)
        end
      else let? (t, rest) := read_cell r in Some (String c t, rest)
  end.

(** Quoted cells separated by commas, up to a line end; one fuel per cell *)
Fixpoint read_record (fuel : nat) (s : string) : option (list string * string) :=
  match fuel, s with
  | S fuel, String q r =>
      guard? is_quote q in
      let? (cell, rest) := read_cell r in
      match rest with
      | String c r' =>
          if is_char "," c then let? (cells, rest) := read_record fuel r' in Some (cell :: cells, rest)
          else let? rest := strip_prefix crlf rest in Some ([cell], rest)
      | EmptyString => None
      end
  | _, _ => None
  end.

(** Records up to the end; a record is not longer than the text, nor are there
    more records. *)
Fixpoint read_records (fuel : nat) (s : string) : option (list (list string)) :=
  match s, fuel with
  | EmptyString, _ => Some []
  | _, O => None
  | _, S fuel =>
      let? (cells, rest) := read_record (String.length s) s in
      let? records := read_records fuel rest in
      Some (cells :: records)
  end.

Definition read_csv (s : string) : option (list (list string)) := read_records (String.length s) s.

(** ** Printed cells *)

Lemma read_cell_print s c r : is_quote c = false ->
  read_cell (double_quotes s +:+ quote_char +:+ String c r) = Some (s, String c r).
Proof.
  intros Hc. induction s as [|x s IH].
  - change (read_cell (String "034" (String c r)) = Some (EmptyString, String c r)). cbn [read_cell].
    change (is_quote "034") with true. cbn iota. by rewrite Hc.
  - cbn [double_quotes]. destruct (is_char "034" x) eqn:E.
    + unfold is_char in E. apply Ascii.eqb_eq in E as <-.
      change ((quote_char +:+ quote_char +:+ ?t) +:+ ?u) with (String "034" (String "034" (t +:+ u))).
      cbn [read_cell]. change (is_quote "034") with true. cbn iota. by rewrite IH.
    + change (String x ?t +:+ ?u) with (String x (t +:+ u)). cbn [read_cell]. unfold is_quote. rewrite E. by rewrite IH.
Qed.

Lemma csv_row_cons cell cells : cells <> [] -> csvRow (cell :: cells) = csv_cell cell +:+ "," +:+ csvRow cells.
Proof. by destruct cells. Qed.

Lemma csv_cell_app cell t : csv_cell cell +:+ t = String "034" (double_quotes cell +:+ quote_char +:+ t).
Proof. unfold csv_cell. by rewrite !string_app_assoc. Qed.

Lemma read_record_print cells r fuel : cells <> [] -> (length cells <= fuel)%nat ->
  read_record fuel (csvRow cells +:+ crlf +:+ r) = Some (cells, r).
Proof.
  revert fuel. induction cells as [|cell cells IH]; intros fuel Hne Hf; [done|]. destruct fuel as [|fuel]; [cbn in Hf; lia|].
  destruct (decide (cells = [])) as [->|Hc].
  - change (csvRow [cell]) with (csv_cell cell). rewrite csv_cell_app. cbn [read_record].
    change (is_quote "034") with true. cbn iota. change (crlf +:+ r) with (String "013" (String "010" r)).
    by rewrite read_cell_print.
  - rewrite csv_row_cons by done. rewrite !string_app_assoc, csv_cell_app. cbn [read_record].
    change (is_quote "034") with true. cbn iota. change ("," +:+ ?t) with (String "," t).
    rewrite read_cell_print by done. change (is_char "," ",") with true. cbn iota.
    rewrite IH; [done.. | cbn in Hf; lia].
Qed.

Lemma csv_row_length cells : (length cells <= String.length (csvRow cells))%nat.
Proof.
  induction cells as [|cell cells IH]; [done|]. destruct (decide (cells = [])) as [->|Hc].
  - change (csvRow [cell]) with (csv_cell cell). rewrite <- (string_app_nil_r (csv_cell cell)), csv_cell_app. cbn. lia.
  - rewrite csv_row_cons by done. rewrite csv_cell_app. cbn [String.length length].
    rewrite !string_length_app. cbn. lia.
Qed.

(** ** Documents *)

Definition record_text (cells : list string) : string := csvRow cells +:+ crlf.

Definition records_text (rows : list (list string)) : string := foldr (fun row s => record_text row +:+ s) EmptyString rows.

Lemma join_crlf (texts : list string) : texts <> [] ->
  join crlf texts +:+ crlf = foldr (fun t s => (t +:+ crlf) +:+ s) EmptyString texts.
Proof.
  induction texts as [|t texts IH]; [done|]. intros _. destruct (decide (texts = [])) as [->|Hn].
  - cbn [foldr join]. by rewrite string_app_nil_r.
  - replace (join crlf (t :: texts)) with (t +:+ crlf +:+ join crlf texts) by by destruct texts.
    cbn [foldr]. by rewrite <- IH, !string_app_assoc by done.
Qed.

Lemma document_records rows : rows <> [] -> join crlf (csvRow <$> rows) +:+ crlf = records_text rows.
Proof.
  intros Hne. rewrite join_crlf by by destruct rows. clear Hne. revert rows. intros l.
  unfold records_text, record_text. induction l as [|row l IH]; [done|]. cbn [fmap list_fmap foldr]. by f_equal.
Qed.

Lemma records_length rows : (length rows <= String.length (records_text rows))%nat.
Proof.
  induction rows as [|row rows IH]; [done|]. cbn [records_text foldr length]. unfold record_text at 1.
  rewrite !string_length_app. fold (records_text rows). cbn [crlf String.length]. lia.
Qed.

Lemma read_records_print rows fuel : Forall (fun row => row <> []) rows -> (length rows <= fuel)%nat ->
  read_records fuel (records_text rows) = Some rows.
Proof.
  revert fuel. induction rows as [|row rows IH]; intros fuel Hne Hf; [by destruct fuel|].
  inversion Hne as [|? ? Hrow Hrest]. subst. destruct fuel as [|fuel]; [cbn in Hf; lia|].
  cbn [records_text foldr]. fold (records_text rows). unfold record_text.
  assert (E : exists c t, (csvRow row +:+ crlf) +:+ records_text rows = String c t).
  { destruct row as [|cell row]; [done|]. destruct (decide (row = [])) as [->|Hr].
    - change (csvRow [cell]) with (csv_cell cell). rewrite string_app_assoc, csv_cell_app. by eexists _, _.
    - rewrite csv_row_cons by done. rewrite !string_app_assoc, csv_cell_app. by eexists _, _. }
  assert (Hr : read_record (String.length ((csvRow row +:+ crlf) +:+ records_text rows))
                 ((csvRow row +:+ crlf) +:+ records_text rows) = Some (row, records_text rows)).
  { rewrite string_app_assoc. apply read_record_print; [done|]. rewrite string_length_app.
    pose proof (csv_row_length row). lia. }
  destruct E as (c & t & E). rewrite E in Hr |- *. cbn [read_records]. rewrite Hr.
  rewrite IH; [done..| cbn in Hf; lia].
Qed.

(** A document of rows, each with a cell, reads back as the rows. *)
Lemma read_rows rows : rows <> [] -> Forall (fun row => row <> []) rows ->
  read_csv (join crlf (csvRow <$> rows) +:+ crlf) = Some rows.
Proof. intros Hne H. rewrite document_records by done. unfold read_csv. apply read_records_print; [done|]. apply records_length. Qed.

Lemma read_document rows : Forall (fun row => row <> []) rows ->
  read_csv (document rows) = Some (FINANCE_FOLIO_CSV_COLUMNS :: rows).
Proof. intros H. apply read_rows; [done | by constructor]. Qed.
