(* ===== verification/FolioGuarantees.v ===== *)
(** * What the folio export guarantees

    The document reads back as its rows, its line totals are rounded products
    that add up to the totals of the folios, and no cell is a formula. *)

From S2P Require Import Prelude JsValue JsonText CalendarDates Money FolioDecimals FinanceFolios FolioCsv.

(** ** Cells that are no formulas *)

(** How a spreadsheet tells a formula *)
Definition formula (s : string) : bool := match s with String c _ => formula_start c | EmptyString => false end.

Lemma plain_text s : formula s = false -> formula s = true -> decimal s = true.
Proof. by intros ->. Qed.

Lemma safe_plain s : formula (safeText s) = false.
Proof. destruct s as [|c s]; [done|]. unfold safeText. by destruct (formula_start c) eqn:E. Qed.

Lemma first_plain (f : ascii -> bool) c s : f c = true -> (forall x, f x = true -> formula_start x = false) ->
  formula (String c s) = false.
Proof. intros Hc H. by apply H. Qed.

#[local] Ltac every_char := let c := fresh in intros c; destruct c as [[] [] [] [] [] [] [] []]; vm_compute; auto.

Lemma lower_hex_plain c : is_lower_hex c = true -> formula_start c = false.
Proof. revert c. every_char. Qed.

Lemma digit_plain c : is_digit c = true -> formula_start c = false.
Proof. revert c. every_char. Qed.

Lemma alphanumeric_plain c : alphanumeric c = true -> formula_start c = false.
Proof. revert c. every_char. Qed.

Lemma uuid_plain s : uuid_text s = true -> formula s = false.
Proof.
  unfold uuid_text, canonicalUuid. cbn [as_string]. destruct (matches UUID s && _) eqn:E; [|done]. intros _.
  apply andb_true_iff in E as [E _]. destruct s as [|c s]; [done|]. cbn [UUID replicate app matches] in E.
  apply andb_true_iff in E as [E _]. by apply lower_hex_plain.
Qed.

Lemma date_plain s : local_date s = true -> formula s = false.
Proof.
  unfold local_date. destruct (parse_ymd s) as [[[y m] d]|] eqn:E; [|done]. intros _.
  destruct s as [|c s]; [done|]. cbn [formula]. unfold parse_ymd in E. follow E. bool_to_prop. by apply digit_plain.
Qed.

Lemma integer_plain z : positive_integer z = true -> formula (Z_to_string z) = false.
Proof.
  unfold positive_integer. rewrite andb_true_iff, Z.leb_le. intros [_ Hz]. rewrite Z_to_string_pos by lia.
  destruct (N_to_string_cons (Z.to_N z)) as (c & r & -> & Hc). by apply digit_plain.
Qed.

Lemma currency_plain s : matches (replicate 3 (char_between "A" "Z")) s = true -> formula s = false.
Proof.
  destruct s as [|c s]; [done|]. cbn [replicate matches]. intros [Hc _]%andb_true_iff. apply alphanumeric_plain.
  unfold alphanumeric. by rewrite Hc.
Qed.

Lemma kind_plain s : includes FINANCE_FOLIO_LINE_KINDS s = true -> formula s = false.
Proof. rewrite includes_elem. unfold FINANCE_FOLIO_LINE_KINDS. rewrite !elem_of_cons. by intros [->|[->|[->|[->|[->|H]]]]]; [..|apply elem_of_nil in H]. Qed.

Lemma source_type_plain s : source_type s = true -> formula s = false.
Proof.
  destruct s as [|c s]; [done|]. cbn [source_type]. rewrite !andb_true_iff. intros [[Hc _] _]. apply alphanumeric_plain.
  unfold alphanumeric. by rewrite Hc, orb_true_r.
Qed.

Lemma source_id_plain s : source_id s = true -> formula s = false.
Proof.
  destruct s as [|c s]; [done|]. cbn [source_id]. rewrite !andb_true_iff. intros [[Hc _] _]. by apply alphanumeric_plain.
Qed.

Lemma positive_plain s : decimal s = true -> 0 < scaled s -> formula s = false.
Proof.
  intros (neg & w & f & -> & Hp)%decimal_shape. rewrite scaled_decimal_of by done.
  pose proof (parts_value_bound w f Hp). destruct neg; [lia|]. intros _. unfold decimal_of.
  change (sign_text false +:+ ?t) with t. destruct (whole_digits_first w (String "." f) (dp_whole _ _ Hp)) as (c & t & -> & Hc).
  by apply digit_plain.
Qed.

Lemma join_plain l : Forall (fun s => formula s = false) l -> formula (join ";" l) = false.
Proof.
  intros H. destruct l as [|s l]; [done|]. inversion H as [|? ? Hs Hl]. subst. cbn [join].
  destruct l as [|t l]; [done|]. by destruct s.
Qed.

Section FolioExport.
Variables (propertyId currency : string).

(** ** Rows *)

Lemma line_rows_spec folio ids amounts ls : forall positions rows,
  line_rows propertyId currency folio ids amounts positions ls = Some rows ->
  rows = row_of propertyId currency folio ids amounts <$> ls /\
  Forall (fun line => line_valid currency folio [] line = true) ls /\
  NoDup ((fun line => position (lineWrite line)) <$> ls) /\
  Forall (fun line => position (lineWrite line) ∉ positions) ls.
Proof.
  induction ls as [|line ls IH]; intros positions rows; cbn [line_rows].
  - intros [= <-]. split_and!; [done | constructor..].
  - destruct (line_valid currency folio positions line) eqn:El; [|done].
    destruct (line_rows _ _ _ _ _ _ ls) as [rest|] eqn:Er; [|done]. intros [= <-].
    apply IH in Er as (-> & Hv & Hd & Hp). unfold line_valid in El. rewrite !andb_true_iff in El.
    assert (Hn : position (lineWrite line) ∉ positions).
    { destruct El as [[[[[[[[[[[[[[[[_ He] _] _] _] _] _] _] _] _] _] _] _] _] _] _] _].
      apply negb_true_iff in He. intros Hin. pose proof (proj1 (existsb_none_iff _ _) He _ Hin) as H. cbn beta in H. by rewrite Z.eqb_refl in H. }
    split_and!; [done | | |].
    + constructor; [|done]. unfold line_valid. rewrite !andb_true_iff. cbn [existsb negb]. naive_solver.
    + constructor; [|done]. intros (l & E & Hl)%list_elem_of_fmap. rewrite Forall_forall in Hp.
      apply (Hp l Hl). rewrite <- E. by left.
    + constructor; [done|]. eapply Forall_impl; [exact Hp|]. intros l Hl Hin. apply Hl. by right.
Qed.

(** A folio the export accepts, with its rows *)
Record exported (folio : FinanceFolio) (rows : list (list string)) : Prop := {
  ex_valid : folio_valid propertyId currency [] folio = true;
  ex_payments : payments_valid currency [] (sort_by compare_ids (folioPaymentRefs folio)) = true;
  ex_rows : let payments := sort_by compare_ids (folioPaymentRefs folio) in
    rows = row_of propertyId currency folio (join ";" (paymentId <$> payments))
             (join ";" ((fun p => amount (paymentAmount p)) <$> payments)) <$> sort_by compare_lines (folioLines folio);
  ex_lines : Forall (fun line => line_valid currency folio [] line = true) (folioLines folio);
  ex_positions : NoDup ((fun line => position (lineWrite line)) <$> folioLines folio);
  ex_total : lines_total folio = scaled (amount (folioTotal folio))
}.

Lemma folio_rows_spec selected folio rows : folio_rows propertyId currency selected folio = Some rows ->
  exported folio rows /\ folioId folio ∉ selected.
Proof.
  unfold folio_rows. destruct (folio_valid _ _ _ _) eqn:Ef; [|done]. destruct (payments_valid _ _ _) eqn:Ep; [|done].
  destruct (line_rows _ _ _ _ _ _ _) as [rs|] eqn:El; [|done]. destruct (Z.eqb_spec (lines_total folio) (scaled (amount (folioTotal folio)))) as [Et|]; [|done].
  intros [= <-]. apply line_rows_spec in El as (-> & Hv & Hd & _).
  unfold folio_valid in Ef. rewrite !andb_true_iff in Ef. split.
  - split; try done.
    + unfold folio_valid. rewrite !andb_true_iff. naive_solver.
    + by rewrite sort_by_perm in Hv.
    + by rewrite sort_by_perm in Hd.
  - apply includes_false, negb_true_iff. apply Ef.
Qed.

Lemma all_rows_spec folios : forall selected rows, all_rows propertyId currency selected folios = Some rows ->
  NoDup (folioId <$> folios) /\ Forall (fun f => folioId f ∉ selected) folios /\
  exists rss, rows = mjoin rss /\ Forall2 exported folios rss.
Proof.
  induction folios as [|folio folios IH]; intros selected rows; cbn [all_rows].
  - intros [= <-]. split_and!; [constructor..|]. exists []. split; [done|constructor].
  - destruct (folio_rows _ _ _ folio) as [rs|] eqn:Ef; [|done]. destruct (all_rows _ _ _ folios) as [more|] eqn:Ea; [|done].
    intros [= <-]. apply folio_rows_spec in Ef as [He Hs]. apply IH in Ea as (Hd & Hn & rss & -> & Hrss).
    rewrite Forall_forall in Hn. split_and!.
    + constructor; [|done]. intros (f & E & Hf)%list_elem_of_fmap. apply (Hn f Hf). rewrite E. by left.
    + constructor; [done|]. apply Forall_forall. intros f Hf Hin. apply (Hn f Hf). by right.
    + exists (rs :: rss). split; [done | by constructor].
Qed.

Lemma build_rows folios artifact : buildFinanceFolioCsvArtifact propertyId currency folios = Ret artifact ->
  exists rss, Forall2 exported folios rss /\ NoDup (folioId <$> folios) /\
    body artifact = document (mjoin rss) /\ rowCount artifact = length (mjoin rss) /\
    uuid_text propertyId = true /\ matches (replicate 3 (char_between "A" "Z")) currency = true.
Proof.
  unfold buildFinanceFolioCsvArtifact. destruct (uuid_text propertyId && _) eqn:Eg; [|done].
  apply andb_true_iff in Eg as [Hu Hc]. destruct (all_rows _ _ _ _) as [rows|] eqn:Ea; [|done]. intros [= <-].
  apply all_rows_spec in Ea as (Hd & _ & rss & -> & Hrss). by exists rss.
Qed.

Lemma exported_rows folio rows : exported folio rows -> exists ids amounts,
  rows = row_of propertyId currency folio ids amounts <$> sort_by compare_lines (folioLines folio).
Proof. intros H. destruct H as [_ _ Hr _ _ _]. by eexists _, _. Qed.

Lemma exported_width folios rss : Forall2 exported folios rss -> Forall (fun row => length row = 23%nat) (mjoin rss).
Proof.
  induction 1 as [|folio rows folios rss He _ IH]; [constructor|]. cbn [mjoin list_join]. apply Forall_app. split; [|done].
  destruct (exported_rows _ _ He) as (ids & amounts & ->). by apply Forall_fmap, Forall_true.
Qed.

(** The cell of a column, counted from zero *)
Definition cell (n : nat) (row : list string) : string := List.nth n row EmptyString.

Lemma exported_sum folios rss : Forall2 exported folios rss ->
  sumZ ((fun row => scaled (cell 16 row)) <$> mjoin rss) = sumZ ((fun f => scaled (amount (folioTotal f))) <$> folios) /\
  length (mjoin rss) = list_sum ((fun f => length (folioLines f)) <$> folios).
Proof.
  induction 1 as [|folio rows folios rss He _ [IH1 IH2]]; [done|]. cbn [mjoin list_join fmap list_fmap].
  rewrite fmap_app, sumZ_app, sumZ_cons, length_app. destruct (exported_rows _ _ He) as (ids & amounts & ->).
  split.
  - f_equal; [|exact IH1]. rewrite <- (ex_total _ _ He).
    rewrite <- list_fmap_compose. unfold lines_total. apply sumZ_perm, fmap_Permutation, sort_by_perm.
  - unfold list_sum in *. cbn [foldr]. f_equal; [|exact IH2]. by rewrite length_fmap, sort_by_perm.
Qed.

(** C23: the document of an export reads back, by the rules of quoted cells, as its
    heading and one row of twenty-three cells for every line of every folio, so
    that no text a guest or a member typed changes its structure. *)
Theorem folio_csv_reads_back folios artifact :
  buildFinanceFolioCsvArtifact propertyId currency folios = Ret artifact ->
  exists rows, read_csv (body artifact) = Some (FINANCE_FOLIO_CSV_COLUMNS :: rows) /\
    all_rows propertyId currency [] folios = Some rows /\
    Forall (fun row => length row = length FINANCE_FOLIO_CSV_COLUMNS) rows /\
    rowCount artifact = length rows /\ length rows = list_sum ((fun f => length (folioLines f)) <$> folios).
Proof.
  intros H. pose proof H as (rss & Hrss & _ & Hb & Hn & _)%build_rows. exists (mjoin rss).
  pose proof (exported_width _ _ Hrss) as Hw. pose proof (exported_sum _ _ Hrss) as [_ Hl]. split_and!; try done.
  - rewrite Hb. apply read_document. eapply Forall_impl; [exact Hw|]. by intros [|??].
  - revert H. unfold buildFinanceFolioCsvArtifact. destruct (uuid_text propertyId && _); [|done].
    destruct (all_rows _ _ _ _) as [rows|] eqn:E; [|done]. intros _.
    pose proof (all_rows_spec _ _ _ E) as (_ & _ & rss' & -> & Hrss'). f_equal. f_equal.
    clear - Hrss Hrss'. revert rss' Hrss'. induction Hrss as [|f rs folios rss He _ IH]; intros rss' H'; inversion H' as [|? rs' ? ? He']; subst; [done|].
    f_equal; [|by apply IH]. destruct He as [_ _ Hr _ _ _], He' as [_ _ Hr' _ _ _]. cbv zeta in Hr, Hr'. congruence.
Qed.

(** ** Amounts *)

Lemma exported_folio folio rows : exported folio rows ->
  folioPropertyId folio = propertyId /\ folioCurrency folio = currency /\ state folio = "ready" /\
  0 <= scaled (amount (folioTotal folio)) /\ folioLines folio <> [].
Proof.
  intros [Hv _ _ _ _ _]. unfold folio_valid in Hv. rewrite !andb_true_iff, !String.eqb_eq, Z.leb_le in Hv.
  destruct Hv as [[[[[[[[[[[[[[Hp Hc] Hs] _] _] _] _] _] _] Ht] _] _] _] Hl] _]. split_and!; try done.
  intros E. by rewrite E in Hl.
Qed.

Lemma line_valid_amounts folio line : line_valid currency folio [] line = true ->
  let w := lineWrite line in
  decimal (quantity w) = true /\ 0 < scaled (quantity w) /\ decimal (amount (unitAmount w)) = true /\
  decimal (amount (lineTotal line)) = true /\
  scaled (amount (lineTotal line)) = roundedProduct (quantity w) (amount (unitAmount w)).
Proof.
  unfold line_valid. rewrite !andb_true_iff, Z.eqb_eq, Z.ltb_lt. cbv zeta. naive_solver.
Qed.

Lemma exported_line_rows (P : list string -> Prop) folios rss : Forall2 exported folios rss ->
  (forall folio rows ids amounts line, exported folio rows -> line ∈ folioLines folio ->
     P (row_of propertyId currency folio ids amounts line)) ->
  Forall P (mjoin rss).
Proof.
  intros Hrss HP. induction Hrss as [|folio rows folios rss He _ IH]; [constructor|]. cbn [mjoin list_join].
  apply Forall_app. split; [|done]. destruct (exported_rows _ _ He) as (ids & amounts & Hr).
  rewrite Hr. apply Forall_fmap, Forall_forall. intros line Hin%elem_of_sort_by. by apply (HP folio rows).
Qed.

(** One row of a folio and a position *)
Lemma exported_keys folios rss : Forall2 exported folios rss -> NoDup (folioId <$> folios) ->
  NoDup ((fun row => (cell 1 row, cell 11 row)) <$> mjoin rss) /\
  Forall (fun row => cell 1 row ∈ folioId <$> folios) (mjoin rss).
Proof.
  induction 1 as [|folio rows folios rss He _ IH]; intros Hd; [split; constructor|].
  cbn [fmap list_fmap] in Hd. inversion Hd as [|? ? Hn Hd']. subst. destruct (IH Hd') as [IH1 IH2].
  cbn [mjoin list_join]. destruct (exported_rows _ _ He) as (ids & amounts & Hr). split.
  - rewrite fmap_app. apply NoDup_app. split_and!; [| |exact IH1].
    + rewrite Hr, <- list_fmap_compose. pose proof (ex_positions _ _ He) as Hp.
      rewrite <- (sort_by_perm compare_lines (folioLines folio)) in Hp. revert Hp.
      generalize (sort_by compare_lines (folioLines folio)) as ls. intros ls. clear.
      induction ls as [|line ls IH]; cbn [fmap list_fmap]; [constructor|]. intros Hp.
      inversion Hp as [|? ? Hn Hrest]. subst. constructor; [|by apply IH]. intros (l & E & Hl)%list_elem_of_fmap. apply Hn, list_elem_of_fmap. exists l.
      split; [|done]. unfold cell in E. cbn in E. by injection E as E%Z_to_string_inj.
    + intros key (row & -> & Hrow)%list_elem_of_fmap (row' & E & Hrow')%list_elem_of_fmap.
      rewrite Forall_forall in IH2. apply Hn. rewrite Hr in Hrow. apply list_elem_of_fmap in Hrow as (line & -> & _).
      change (folioId folio ∈ folioId <$> folios). injection E as E _. unfold cell in E at 1. cbn in E. rewrite E.
      by apply IH2.
  - apply Forall_app. split.
    + rewrite Hr. apply Forall_fmap, Forall_true. intros line. by left.
    + eapply Forall_impl; [exact IH2|]. intros row Hrow. by right.
Qed.

(** C18: the amounts of a document are right: whatever rows it reads back as, each
    line total is the nearest ten-thousandth of quantity times unit amount, ties
    away from zero, the line totals of the document add up to the totals of its
    folios, and no line of a folio appears twice. *)
Theorem folio_csv_adds_up folios artifact rows :
  buildFinanceFolioCsvArtifact propertyId currency folios = Ret artifact ->
  read_csv (body artifact) = Some (FINANCE_FOLIO_CSV_COLUMNS :: rows) ->
  sumZ ((fun row => scaled (cell 16 row)) <$> rows) = sumZ ((fun f => scaled (amount (folioTotal f))) <$> folios) /\
  Forall (fun row => let product := scaled (cell 14 row) * scaled (cell 15 row) in
            let total := scaled (cell 16 row) in
            2 * Z.abs (10000 * total - product) <= 10000 /\
            (2 * Z.abs (10000 * total - product) = 10000 -> Z.abs product < Z.abs (10000 * total))) rows /\
  NoDup ((fun row => (cell 1 row, cell 11 row)) <$> rows) /\
  Forall (fun f => folioPropertyId f = propertyId /\ folioCurrency f = currency /\ state f = "ready" /\
                   0 <= scaled (amount (folioTotal f)) /\ folioLines f <> []) folios.
Proof.
  intros (rss & Hrss & Hd & Hb & _)%build_rows Hread. rewrite Hb, read_document in Hread.
  2: { eapply Forall_impl; [exact (exported_width _ _ Hrss)|]. by intros [|??]. }
  injection Hread as <-. pose proof (exported_sum _ _ Hrss) as [Hs _].
  pose proof (exported_keys _ _ Hrss Hd) as [Hk _]. split_and!; [done | | done |].
  - eapply exported_line_rows; [exact Hrss|]. intros folio rows ids amounts line He Hl.
    pose proof (ex_lines _ _ He) as Hv. rewrite Forall_forall in Hv.
    destruct (line_valid_amounts _ _ (Hv line Hl)) as (_ & _ & _ & _ & E).
    unfold cell. cbn [row_of List.nth]. rewrite E. apply round_scaled_nearest.
  - apply Forall_forall. intros f Hf. apply list_elem_of_lookup in Hf as [i Hi].
    destruct (Forall2_lookup_l _ _ _ _ _ Hrss Hi) as (rs & _ & He). by eapply exported_folio.
Qed.

(** ** Formulas *)

Lemma payments_valid_all ps : forall seen, payments_valid currency seen ps = true ->
  Forall (fun p => uuid_text (paymentId p) = true /\ decimal (amount (paymentAmount p)) = true /\
                   0 < scaled (amount (paymentAmount p))) ps.
Proof.
  induction ps as [|p ps IH]; intros seen; cbn [payments_valid]; [constructor|]. intros [Hp Hps]%andb_true_iff.
  constructor; [|by eapply IH]. unfold payment_valid in Hp. rewrite !andb_true_iff, Z.ltb_lt in Hp. naive_solver.
Qed.

(** No cell of an export is a formula to a spreadsheet: a cell that begins like
    one is a plain decimal amount. *)
Theorem folio_csv_no_formula folios artifact rows :
  buildFinanceFolioCsvArtifact propertyId currency folios = Ret artifact ->
  read_csv (body artifact) = Some (FINANCE_FOLIO_CSV_COLUMNS :: rows) ->
  Forall (Forall (fun text => formula text = true -> decimal text = true)) rows.
Proof.
  intros (rss & Hrss & Hd & Hb & _ & Hu & Hc)%build_rows Hread. rewrite Hb, read_document in Hread.
  2: { eapply Forall_impl; [exact (exported_width _ _ Hrss)|]. by intros [|??]. }
  injection Hread as <-. clear Hb Hd. induction Hrss as [|folio rows folios rss He _ IH]; [constructor|].
  cbn [mjoin list_join]. apply Forall_app. split; [|done]. destruct He as [Hv Hp -> Hl _ _]. cbv zeta.
  apply payments_valid_all in Hp. set (ps := sort_by compare_ids _) in *. clearbody ps.
  unfold folio_valid in Hv. rewrite !andb_true_iff in Hv.
  destruct Hv as [[[[[[[[[[[[[[_ _] _] Hid] Hbk] Hrev] _] _] Htot] _] Hfrom] Hto] _] _] _].
  apply Forall_fmap, Forall_forall. intros line Hin%elem_of_sort_by. rewrite Forall_forall in Hl.
  specialize (Hl line Hin). unfold line_valid in Hl. rewrite !andb_true_iff in Hl.
  destruct Hl as [[[[[[[[[[[[[[[[Hpos _] _] Hkind] _] _] Hq] _] Hua] Hlt] _] Hon] _] _] Hst] Hsi] Hsr].
  cbn beta. unfold row_of. repeat apply Forall_cons_2; try apply Forall_nil_2; try done;
    first [apply plain_text | intros _; done].
  all: try first [by apply uuid_plain | by apply date_plain | by apply safe_plain | by apply integer_plain].
  - by destruct (folioBookingId folio); [apply uuid_plain|].
  - by apply currency_plain.
  - by apply kind_plain.
  - by apply source_type_plain.
  - by apply source_id_plain.
  - apply join_plain. apply Forall_fmap. eapply Forall_impl; [exact Hp|]. intros p [Hpu _]. cbn. by apply uuid_plain.
  - apply join_plain. apply Forall_fmap. eapply Forall_impl; [exact Hp|]. intros p (_ & Hpd & Hpp). by apply positive_plain.
Qed.

End FolioExport.
