(* ===== verification/FinanceExpenses.v ===== *)
(** * Expenses

    packages/domain-finance/src/financialExpenses.ts: amounts, the queries of the
    expense list and of its export, the command that writes an expense, and the
    CSV document of an export. *)

From S2P Require Import Prelude JsValue JsonText CalendarDates Money FolioDecimals FinanceFolios FolioCsv FolioGuarantees.

(** ** Data *)

Definition FINANCE_EXPENSE_ORIGINS : list string :=
  ["manual"; "recurring"; "ota_commission"; "platform_fee"; "supplier_bill"].
Definition FINANCE_EXPENSE_CADENCES : list string := ["weekly"; "monthly"; "yearly"].
Definition FINANCE_EXPENSE_PAYMENT_STATUSES : list string := ["paid"; "unpaid"].
Definition FINANCE_EXPENSE_SORTS : list string := ["incurredOn_desc"; "amount_desc"].

Record FinanceExpenseMoney := { moneyAmount : string; moneyCode : string }.

Record FinanceExpenseQuery := {
  expensesFrom : string;
  expensesTo : string;
  expensesCursor : option string;
  expensesLimit : Z;
  expensesCategory : option string;
  expensesPayment : option string;
  expensesRecurring : option bool;
  expensesOrigin : option string;
  expensesSearch : option string;
  expensesSort : string
}.

(** A query without its page *)
Record FinanceExpenseExportQuery := {
  exportFrom : string;
  exportTo : string;
  exportCategory : option string;
  exportPayment : option string;
  exportRecurring : option bool;
  exportOrigin : option string;
  exportSearch : option string;
  exportSort : string
}.

(** A row of the export: the expense with the name of its category *)
Record FinanceExpenseCsvItem := {
  expenseId : string;
  expenseCategory : string;
  categoryName : string;
  origin : string;
  incurredOn : string;
  vendor : string;
  expenseAmount : FinanceExpenseMoney;
  recurringRuleId : option string;
  sourceKey : option string;
  reversesExpenseId : option string;
  expenseRevision : Z;
  paymentStatus : string;
  paidOn : option string
}.

Record FinanceExpenseCsvArtifact := {
  expensesPropertyId : string;
  expensesCurrency : string;
  expensesFilename : string;
  expensesRowCount : nat;
  expensesBody : string
}.

Record FinanceExpenseExportSelection := {
  selectedExpense : string;
  selectedExpenseRevision : Z;
  selectedCategory : string;
  selectedCategoryRevision : Z;
  selectedCategoryName : string;
  selectedPayment : string;
  selectedPaidOn : option string
}.

Record FinanceExpenseExportSnapshot := {
  expenseSnapshotProperty : string;
  expenseSnapshotCurrency : string;
  expenseFilters : FinanceExpenseExportQuery;
  expenseSnapshotAt : string;
  expenseManifest : list FinanceExpenseExportSelection
}.

Record FinanceExpenseCommand := {
  expenseCommandId : string;
  expenseIdempotencyKey : string;
  expenseExpectedRevision : option Z
}.

Record FinanceExpenseRecurrenceWrite := { cadence : string; startsOn : string; endsOn : option string }.

(** The payment of a write: an unpaid one may say [paidOn: null]. *)
Inductive FinanceExpensePaymentWrite := paid (on : string) | unpaid (explicit : bool).

Record FinanceExpenseWrite := {
  writeCommand : FinanceExpenseCommand;
  writeIncurredOn : string;
  writeVendor : string;
  writeCategory : string;
  writeAmount : FinanceExpenseMoney;
  writePayment : FinanceExpensePaymentWrite;
  writeNotes : option string;
  supplierInvoiceNumber : option string;
  receiptMediaId : option string;
  recurrence : option FinanceExpenseRecurrenceWrite
}.

(** ** Guards *)

(** A day of the years 1 to 9999 *)
Definition expense_date (s : string) : bool :=
  match parse_ymd s with
  | Some (y, m, d) => (1 <=? y) && valid_civil y m d
  | None => false
  end.

Definition expenseDate (v : jsval) : option string := tested expense_date v.

(** [/^[0-9a-f]{8}-[0-9a-f]{4}-[1-5][0-9a-f]{3}-[89ab][0-9a-f]{3}-[0-9a-f]{12}$/i] *)
Definition version_uuid_classes : list (ascii -> bool) :=
  replicate 8 is_hex ++ [is_char "-"] ++ replicate 4 is_hex ++ [is_char "-"] ++
  [char_between "1" "5"] ++ replicate 3 is_hex ++ [is_char "-"] ++ [uuid_variant] ++ replicate 3 is_hex ++
  [is_char "-"] ++ replicate 12 is_hex.

Definition version_uuid (s : string) : bool := matches version_uuid_classes s.

Definition lower_uuid (s : string) : bool := version_uuid s && String.eqb s (to_lower s).

Definition uuid (v : jsval) : option string := tested version_uuid v.

Definition queryBoolean (v : jsval) : option (option bool) :=
  match v with
  | VUndefined => Some None
  | VBool b => Some (Some b)
  | VString s => if String.eqb s "true" then Some (Some true) else guard? String.eqb s "false" in Some (Some false)
  | _ => None
  end.

(** ** Amounts *)

(** [/^(?:0|[1-9]\d{0,14})(?:\.\d{1,4})?$/], padded to four decimals *)
Definition normalizeFinanceExpenseAmount (value : string) : option string :=
  let '(whole, fraction) := split_dot value in
  guard? whole_digits whole && match fraction with Some f => fraction_digits 1 f | None => true end in
  let normalized := whole +:+ "." +:+ pad_end 4 (default EmptyString fraction) in
  guard? negb (String.eqb normalized "0.0000") in
  Some normalized.

Definition parseMoney (v : jsval) : option FinanceExpenseMoney :=
  guard? exact v ["amount"; "currency"] in
  let? text := as_string (get v "amount") in
  let? amount := normalizeFinanceExpenseAmount text in
  let? currency := currency_code (get v "currency") in
  Some {| moneyAmount := amount; moneyCode := currency |}.

(** ** Queries *)

Definition EXPENSE_QUERY_KEYS : list string :=
  ["from"; "to"; "cursor"; "limit"; "categoryId"; "paymentStatus"; "recurring"; "origin"; "search"; "sort"].

Definition EXPORT_QUERY_KEYS : list string :=
  List.filter (fun key => negb (String.eqb key "cursor") && negb (String.eqb key "limit")) EXPENSE_QUERY_KEYS.

Definition parseFinanceExpenseQuery (value : jsval) : option FinanceExpenseQuery :=
  guard? known value EXPENSE_QUERY_KEYS in
  let? from := expenseDate (get value "from") in
  let? to := expenseDate (get value "to") in
  let? sort := (if is_undefined (get value "sort") then Some "incurredOn_desc"
                else oneOf (get value "sort") FINANCE_EXPENSE_SORTS) in
  let? n := queryLimit (get value "limit") in
  let? recurring := queryBoolean (get value "recurring") in
  guard? negb (str_lt to from) in
  let? cursor := optional (tested cursor_text) (get value "cursor") in
  let? category := optional uuid (get value "categoryId") in
  let? payment := optional (fun v => oneOf v FINANCE_EXPENSE_PAYMENT_STATUSES) (get value "paymentStatus") in
  let? source := optional (fun v => oneOf v FINANCE_EXPENSE_ORIGINS) (get value "origin") in
  let? search := optional (as_trimmed 1 200) (get value "search") in
  Some {| expensesFrom := from; expensesTo := to; expensesCursor := cursor; expensesLimit := n;
          expensesCategory := category; expensesPayment := payment; expensesRecurring := recurring;
          expensesOrigin := source; expensesSearch := search; expensesSort := sort |}.

(** [{ ...value, limit: 1 }] of an object with no enumerable [limit]: its own
    enumerable properties, as data *)
Definition spread_with_limit (value : jsval) : jsval :=
  VObject ProtoObject
    (omap (fun '(key, (kind, w)) => if pk_enumerable kind then Some (key, (plain_prop, w)) else None) (props_of value) ++
     [(KString "limit", (plain_prop, VInt 1))]).

Definition parseFinanceExpenseExportQuery (value : jsval) : option FinanceExpenseExportQuery :=
  guard? known value EXPORT_QUERY_KEYS in
  let? parsed := parseFinanceExpenseQuery (spread_with_limit value) in
  Some {| exportFrom := expensesFrom parsed; exportTo := expensesTo parsed;
          exportCategory := to_lower <$> expensesCategory parsed; exportPayment := expensesPayment parsed;
          exportRecurring := expensesRecurring parsed; exportOrigin := expensesOrigin parsed;
          exportSearch := expensesSearch parsed; exportSort := expensesSort parsed |}.

(** ** Export snapshots *)

Definition FINANCE_EXPENSE_CSV_VERSION : string := "pms-financials-expenses.v1".

(** The day of payment, of a paid one only *)
Definition paid_on (status : string) (v : jsval) : option (option string) :=
  if String.eqb status "paid" then let? s := expenseDate v in Some (Some s)
  else guard? is_null v in Some None.

Definition parse_expense_selection (ids : list string) (raw : jsval) : option FinanceExpenseExportSelection :=
  guard? exact raw ["expenseId"; "revision"; "categoryId"; "categoryRevision"; "categoryName"; "paymentStatus"; "paidOn"] in
  let? status := oneOf (get raw "paymentStatus") FINANCE_EXPENSE_PAYMENT_STATUSES in
  let? id := tested lower_uuid (get raw "expenseId") in
  let? category := tested lower_uuid (get raw "categoryId") in
  let? n := revision (get raw "revision") in
  let? k := revision (get raw "categoryRevision") in
  let? name := as_trimmed 1 120 (get raw "categoryName") in
  let? on := paid_on status (get raw "paidOn") in
  guard? negb (includes ids id) in
  Some {| selectedExpense := id; selectedExpenseRevision := n; selectedCategory := category;
          selectedCategoryRevision := k; selectedCategoryName := name; selectedPayment := status; selectedPaidOn := on |}.

Fixpoint parse_expense_manifest (ids : list string) (l : list jsval) : option (list FinanceExpenseExportSelection) :=
  match l with
  | [] => Some []
  | raw :: rest =>
      let? entry := parse_expense_selection ids raw in
      let? entries := parse_expense_manifest (selectedExpense entry :: ids) rest in
      Some (entry :: entries)
  end.

(** [String(value.currency)] may throw; nothing after it does. *)
Definition parseFinanceExpenseExportSnapshot (value : jsval) : exn (option FinanceExpenseExportSnapshot) :=
  let property :=
    guard? exact value ["formatVersion"; "propertyId"; "currency"; "filters"; "snapshotAt"; "manifest"] &&
           is_str (get value "formatVersion") FINANCE_EXPENSE_CSV_VERSION in
    tested lower_uuid (get value "propertyId") in
  match property with
  | None => Ret None
  | Some propertyId =>
      try! currency := coerced_matching (replicate 3 (char_between "A" "Z")) (get value "currency") in
      Ret (let? c := currency in
           let? at_ := isoDateTime (get value "snapshotAt") in
           let? raw := as_array (get value "manifest") in
           let? f := parseFinanceExpenseExportQuery (get value "filters") in
           let? entries := parse_expense_manifest [] raw in
           Some {| expenseSnapshotProperty := propertyId; expenseSnapshotCurrency := c; expenseFilters := f;
                   expenseSnapshotAt := at_; expenseManifest := entries |})
  end.

(** ** Commands *)

Definition EXPENSE_REQUIRED_KEYS : list string :=
  ["commandId"; "idempotencyKey"; "incurredOn"; "vendor"; "categoryId"; "amount"; "paymentStatus"].

Definition EXPENSE_WRITE_KEYS : list string :=
  ["commandId"; "idempotencyKey"; "expectedRevision"; "incurredOn"; "vendor"; "categoryId"; "amount"; "paymentStatus";
   "paidOn"; "notes"; "supplierInvoiceNumber"; "receiptMediaId"; "recurrence"].

Definition parseCommand (value : jsval) : option FinanceExpenseCommand :=
  let? command := uuid (get value "commandId") in
  let? key := as_trimmed 1 200 (get value "idempotencyKey") in
  let? expected := optional revision (get value "expectedRevision") in
  Some {| expenseCommandId := command; expenseIdempotencyKey := key; expenseExpectedRevision := expected |}.

Definition parseRecurrence (v : jsval) : option (option FinanceExpenseRecurrenceWrite) :=
  optional (fun value =>
    guard? known value ["cadence"; "startsOn"; "endsOn"] && has value ["cadence"; "startsOn"] in
    let? c := oneOf (get value "cadence") FINANCE_EXPENSE_CADENCES in
    let? from := expenseDate (get value "startsOn") in
    let? to := optional expenseDate (get value "endsOn") in
    guard? match to with Some e => negb (str_lt e from) | None => true end in
    Some {| cadence := c; startsOn := from; endsOn := to |}) v.

Definition payment_write (status : string) (v : jsval) : option FinanceExpensePaymentWrite :=
  if String.eqb status "paid" then let? s := expenseDate v in Some (paid s)
  else guard? is_undefined v || is_null v in Some (unpaid (is_null v)).

Definition parseFinanceExpenseWrite (value : jsval) : option FinanceExpenseWrite :=
  guard? known value EXPENSE_WRITE_KEYS && has value EXPENSE_REQUIRED_KEYS in
  let? command := parseCommand value in
  let? amount := parseMoney (get value "amount") in
  let? recurs := parseRecurrence (get value "recurrence") in
  let? status := oneOf (get value "paymentStatus") FINANCE_EXPENSE_PAYMENT_STATUSES in
  let? on := expenseDate (get value "incurredOn") in
  let? seller := as_trimmed 1 200 (get value "vendor") in
  let? category := uuid (get value "categoryId") in
  let? payment := payment_write status (get value "paidOn") in
  let? notes := optional (as_trimmed 1 2000) (get value "notes") in
  let? invoice := optional (as_trimmed 1 200) (get value "supplierInvoiceNumber") in
  let? receipt := optional uuid (get value "receiptMediaId") in
  guard? match recurs, receipt with Some _, Some _ => false | _, _ => true end in
  Some {| writeCommand := command; writeIncurredOn := on; writeVendor := seller; writeCategory := category;
          writeAmount := amount; writePayment := payment; writeNotes := notes; supplierInvoiceNumber := invoice;
          receiptMediaId := receipt; recurrence := recurs |}.

(** ** The export *)

Definition FINANCE_EXPENSE_CSV_COLUMNS : list string :=
  ["property_id"; "expense_id"; "incurred_on"; "category_id"; "category_name"; "origin"; "vendor"; "amount"; "currency";
   "payment_status"; "paid_on"; "recurring_rule_id"; "source_key"; "reverses_expense_id"; "revision"].

Definition absent_or (test : string -> bool) (o : option string) : bool :=
  match o with Some s => test s | None => true end.

(** The second test of the amount is [BigInt(amount.replace(".", "")) > 0n]. *)
Definition positive_amount (s : string) : bool := negb (negative s) && decimal s && (0 <? scaled s).

Definition payment_consistent (value : FinanceExpenseCsvItem) : bool :=
  String.eqb (paymentStatus value) "paid" && match paidOn value with Some s => expense_date s | None => false end ||
  String.eqb (paymentStatus value) "unpaid" && match paidOn value with Some _ => false | None => true end.

Definition validCsvItem (value : FinanceExpenseCsvItem) (currency : string) : bool :=
  lower_uuid (expenseId value) && lower_uuid (expenseCategory value) &&
  includes FINANCE_EXPENSE_ORIGINS (origin value) && expense_date (incurredOn value) &&
  trimmed 1 120 (categoryName value) && trimmed 1 200 (vendor value) &&
  String.eqb (moneyCode (expenseAmount value)) currency && positive_amount (moneyAmount (expenseAmount value)) &&
  includes FINANCE_EXPENSE_PAYMENT_STATUSES (paymentStatus value) && payment_consistent value &&
  absent_or lower_uuid (recurringRuleId value) && absent_or lower_uuid (reversesExpenseId value) &&
  absent_or (trimmed 1 250) (sourceKey value) &&
  match revision (VInt (expenseRevision value)) with Some _ => true | None => false end.

Fixpoint valid_items (ids : list string) (currency : string) (items : list FinanceExpenseCsvItem) : bool :=
  match items with
  | [] => true
  | item :: rest =>
      validCsvItem item currency && negb (includes ids (expenseId item)) &&
      valid_items (expenseId item :: ids) currency rest
  end.

Definition expense_row (propertyId currency : string) (item : FinanceExpenseCsvItem) : list string :=
  [propertyId; expenseId item; incurredOn item; expenseCategory item; safeText (categoryName item); origin item;
   safeText (vendor item); moneyAmount (expenseAmount item); currency; paymentStatus item;
   default EmptyString (paidOn item); default EmptyString (recurringRuleId item);
   safeText (default EmptyString (sourceKey item)); default EmptyString (reversesExpenseId item);
   Z_to_string (expenseRevision item)].

Definition expense_document (rows : list (list string)) : string :=
  join crlf (csvRow <$> FINANCE_EXPENSE_CSV_COLUMNS :: rows) +:+ crlf.

Definition buildFinanceExpenseCsvArtifact (propertyId currency : string) (expenses : list FinanceExpenseCsvItem)
    : exn FinanceExpenseCsvArtifact :=
  if lower_uuid propertyId && matches (replicate 3 (char_between "A" "Z")) currency && valid_items [] currency expenses
  then
    let rows := expense_row propertyId currency <$> expenses in
    Ret {| expensesPropertyId := propertyId; expensesCurrency := currency;
           expensesFilename := "pms-financials-expenses-" +:+ propertyId +:+ ".csv"; expensesRowCount := length rows;
           expensesBody := expense_document rows |}
  else Throw "Expense CSV evidence violates the export contract".

(** ** Amounts *)

(** The ten-thousandths an amount text is worth *)
Definition ten_thousandths (value : string) : Z :=
  let '(whole, fraction) := split_dot value in
  let digits := default EmptyString fraction in
  digits_fold 0 whole * 10000 + digits_fold 0 digits * 10 ^ (4 - str_length digits).

Lemma positive_amount_spec s : positive_amount s = true <->
  exists w f, s = decimal_of false w f /\ decimal_parts w f /\ 0 < scaled s.
Proof.
  unfold positive_amount. rewrite !andb_true_iff, negb_true_iff, Z.ltb_lt. split.
  - intros [[Hn Hd] Hp]. apply decimal_shape in Hd as (neg & w & f & -> & Hf). unfold decimal_of in Hn.
    rewrite (proj2 (unsigned_parts _ _ _ (dp_whole _ _ Hf))) in Hn. subst neg. by exists w, f.
  - intros (w & f & -> & Hf & Hp). split_and!; [| by apply decimal_of_decimal | done].
    unfold decimal_of. by rewrite (proj2 (unsigned_parts _ _ _ (dp_whole _ _ Hf))).
Qed.

Lemma digits_fold_pad n f : all_chars is_digit f = true -> str_length f <= Z.of_nat n ->
  digits_fold 0 (pad_end n f) = digits_fold 0 f * 10 ^ (Z.of_nat n - str_length f).
Proof.
  revert f. induction n as [|n IH]; intros [|c f] Hd Hl; cbn [pad_end].
  - done.
  - rewrite str_length_cons in Hl. pose proof (str_length_nonneg f). lia.
  - cbn [digits_fold]. change (10 * 0 + digit_val "0") with 0. rewrite IH; [done | done | exact (Zle_0_nat n)].
  - cbn [all_chars] in Hd. apply andb_true_iff in Hd as [_ Hd]. rewrite str_length_cons in *. cbn [digits_fold].
    rewrite digits_fold_shift, (digits_fold_shift f). rewrite IH by (done || lia).
    rewrite (pad_end_length n) by lia. replace (Z.of_nat (S n) - (str_length f + 1)) with (Z.of_nat n - str_length f) by lia.
    replace (10 ^ Z.of_nat n) with (10 ^ str_length f * 10 ^ (Z.of_nat n - str_length f)); [ring|].
    rewrite <- Z.pow_add_r by (try apply str_length_nonneg; lia). f_equal. lia.
Qed.

Lemma digits_fold_zero s : all_chars is_digit s = true -> digits_fold 0 s = 0 -> all_chars (is_char "0") s = true.
Proof.
  induction s as [|c s IH]; [done|]. cbn [all_chars digits_fold]. intros [Hc Hs]%andb_true_iff H0.
  rewrite digits_fold_shift in H0. pose proof (digits_fold_bound s Hs). pose proof (digit_val_bound c Hc).
  assert (0 < 10 ^ str_length s) by (apply Z.pow_pos_nonneg; [lia | apply str_length_nonneg]).
  assert (digit_val c = 0) by nia. rewrite IH by (done || nia). rewrite andb_true_r.
  rewrite <- (digit_char_val c Hc). by replace (digit_val c) with 0.
Qed.

Lemma zero_parts w f : decimal_parts w f -> parts_value w f = 0 -> w = "0" /\ f = "0000".
Proof.
  intros [Hw Hf H4] H0. pose proof (whole_digits_spec w Hw) as [Hd Hl].
  pose proof (digits_fold_bound w Hd). pose proof (digits_fold_bound f Hf). unfold parts_value in H0.
  pose proof (digits_fold_zero w Hd ltac:(lia)) as Hzw. pose proof (digits_fold_zero f Hf ltac:(lia)) as Hzf. split.
  - unfold whole_digits, canonical_decimal, positive_decimal in Hw. apply andb_true_iff in Hw as [Hw _].
    apply orb_true_iff in Hw as [Hw%String.eqb_eq|[Hw _]%andb_true_iff]; [done|]. destruct w as [|c w]; [done|].
    cbn [all_chars] in Hzw. apply andb_true_iff in Hzw as [Hc _]. unfold is_char in Hc. apply Ascii.eqb_eq in Hc as <-. done.
  - rewrite <- (pad_full 4 f) by done. clear - Hzf H4.
    destruct f as [|c0 [|c1 [|c2 [|c3 [|c4 f]]]]]; cbn [all_chars] in Hzf; rewrite ?andb_true_iff in Hzf;
      try (unfold str_length in H4; cbn in H4; lia).
    destruct_and?. repeat match goal with H : is_char _ _ = true |- _ => apply Ascii.eqb_eq in H; subst end. done.
Qed.

Lemma normalize_parts s w o : split_dot s = (w, o) -> whole_digits w = true ->
  match o with Some f => fraction_digits 1 f | None => true end = true ->
  let f := default EmptyString o in
  let n := decimal_of false w (pad_end 4 f) in
  decimal_parts w (pad_end 4 f) /\ scaled n = ten_thousandths s /\
  normalizeFinanceExpenseAmount s = if 0 <? scaled n then Some n else None.
Proof.
  intros E Hw Ho f n.
  assert (Hf : all_chars is_digit f = true /\ str_length f <= 4).
  { unfold f. destruct o as [g|]; [|by vm_compute]. unfold fraction_digits in Ho.
    rewrite !andb_true_iff, !Z.leb_le in Ho. by destruct Ho as [[? _] ?]. }
  destruct Hf as [Hd Hl].
  assert (Hp : decimal_parts w (pad_end 4 f)) by (split; [done | by apply pad_end_digits | by apply (pad_end_length 4)]).
  pose proof (scaled_decimal_of false w _ Hp) as Hs. pose proof (parts_value_bound w _ Hp) as Hb.
  split; [done|]. split.
  - unfold n. rewrite Hs. unfold ten_thousandths, parts_value. rewrite E. fold f. f_equal. by apply (digits_fold_pad 4).
  - unfold normalizeFinanceExpenseAmount. rewrite E, Hw, Ho. cbn [andb].
    change (w +:+ "." +:+ pad_end 4 (default EmptyString o)) with n. unfold n. rewrite Hs.
    destruct (Z.ltb_spec 0 (parts_value w (pad_end 4 f))) as [Hpos|Hz].
    + destruct (String.eqb_spec (decimal_of false w (pad_end 4 f)) "0.0000") as [E0|]; [|done].
      exfalso. rewrite E0 in Hs. change (scaled "0.0000") with 0 in Hs. lia.
    + destruct (zero_parts w _ Hp ltac:(lia)) as [-> ->]. done.
Qed.

(** The normal form of an amount is worth the same, and is its own normal form. *)
Lemma normalized_amount s n : normalizeFinanceExpenseAmount s = Some n ->
  positive_amount n = true /\ scaled n = ten_thousandths s /\ scaled n <= MAX_NUMERIC_19_4 /\
  normalizeFinanceExpenseAmount n = Some n.
Proof.
  destruct (split_dot s) as [w o] eqn:E.
  destruct (whole_digits w && match o with Some f => fraction_digits 1 f | None => true end) eqn:Eg.
  2: { unfold normalizeFinanceExpenseAmount. by rewrite E, Eg. }
  apply andb_true_iff in Eg as [Hw Ho]. destruct (normalize_parts s w o E Hw Ho) as (Hp & Hv & ->).
  set (f := pad_end 4 (default EmptyString o)) in *. pose proof (scaled_decimal_of false w f Hp) as Hs.
  pose proof (parts_value_bound w f Hp) as Hb.
  destruct (Z.ltb_spec 0 (scaled (decimal_of false w f))) as [Hpos|Hz]; [|done]. intros Hn. apply (inj Some) in Hn as <-.
  split; [apply positive_amount_spec; by exists w, f|]. split; [done|]. split; [rewrite Hs; lia|]. destruct Hp as [Hw' Hd H4].
  destruct (normalize_parts (decimal_of false w f) w (Some f)) as (_ & _ & ->).
  - apply split_dot_digits. by apply whole_digits_spec in Hw' as [].
  - done.
  - unfold fraction_digits. by rewrite Hd, H4.
  - cbn [default from_option Datatypes.id]. rewrite pad_full by done. by rewrite (proj2 (Z.ltb_lt _ _) Hpos).
Qed.

Lemma normalized_again s n : normalizeFinanceExpenseAmount s = Some n -> normalizeFinanceExpenseAmount n = Some n.
Proof. by intros (_ & _ & _ & ?)%normalized_amount. Qed.

(** An amount is normalized without changing what it is worth: exactly the
    amounts of the pattern that are not zero have a normal form, which is positive,
    of four decimals, worth the same, fits the column it is written to, and is its
    own normal form. *)
Theorem expense_amount_normalizes s :
  match normalizeFinanceExpenseAmount s with
  | Some n => positive_amount n = true /\ scaled n = ten_thousandths s /\ scaled n <= MAX_NUMERIC_19_4 /\
      normalizeFinanceExpenseAmount n = Some n
  | None => amount_text s && negb (negative s) = true -> ten_thousandths s = 0
  end.
Proof.
  destruct (normalizeFinanceExpenseAmount s) as [n|] eqn:En; [by apply normalized_amount|].
  intros [Ha Hn%negb_true_iff]%andb_true_iff. unfold amount_text in Ha.
  assert (Eu : unsigned s = s).
  { destruct s as [|c s']; [done|]. cbn [negative] in Hn. cbn [unsigned]. by rewrite Hn. }
  rewrite Eu in Ha. destruct (split_dot s) as [w o] eqn:E. apply andb_true_iff in Ha as [Hw Ho].
  destruct (normalize_parts s w o E Hw Ho) as (Hp & <- & E'). rewrite E' in En.
  rewrite (scaled_decimal_of false _ _ Hp) in *. pose proof (parts_value_bound _ _ Hp).
  destruct (Z.ltb_spec 0 (parts_value w (pad_end 4 (default EmptyString o)))); [done | lia].
Qed.

(** ** The document of an export *)

Lemma valid_items_spec currency items : forall ids, valid_items ids currency items = true ->
  Forall (fun item => validCsvItem item currency = true) items /\ NoDup (expenseId <$> items).
Proof.
  assert (H : forall ids, valid_items ids currency items = true ->
    Forall (fun item => validCsvItem item currency = true) items /\ NoDup (expenseId <$> items) /\
    Forall (fun item => expenseId item ∉ ids) items).
  { induction items as [|item items IH]; intros ids; cbn [valid_items]; [by repeat constructor|].
    rewrite !andb_true_iff, negb_true_iff, includes_false. intros [[Hv Hn] Hr]. apply IH in Hr as (Ha & Hd & Hi).
    rewrite Forall_forall in Hi. split_and!.
    - by constructor.
    - constructor; [|done]. intros (x & E & Hx)%list_elem_of_fmap. apply (Hi x Hx). rewrite E. by left.
    - constructor; [done|]. apply Forall_forall. intros x Hx Hin. apply (Hi x Hx). by right. }
  intros ids Hv. destruct (H ids Hv) as (? & ? & _). done.
Qed.

Lemma build_expenses propertyId currency expenses artifact :
  buildFinanceExpenseCsvArtifact propertyId currency expenses = Ret artifact ->
  lower_uuid propertyId = true /\ matches (replicate 3 (char_between "A" "Z")) currency = true /\
  Forall (fun item => validCsvItem item currency = true) expenses /\ NoDup (expenseId <$> expenses) /\
  expensesRowCount artifact = length expenses /\
  expensesBody artifact = expense_document (expense_row propertyId currency <$> expenses).
Proof.
  unfold buildFinanceExpenseCsvArtifact. destruct (_ && _ && _) eqn:E; [|done]. intros [= <-].
  rewrite !andb_true_iff in E. destruct E as [[Hp Hc] Hv]. apply valid_items_spec in Hv as [Hv Hd].
  cbn. by rewrite length_fmap.
Qed.

Lemma first_char_plain (f : ascii -> bool) classes s : matches (f :: classes) s = true ->
  (forall c, f c = true -> formula_start c = false) -> formula s = false.
Proof. destruct s as [|c s]; [done|]. cbn [matches formula]. intros [Hc _]%andb_true_iff H. by apply H. Qed.

Lemma lower_uuid_plain s : lower_uuid s = true -> formula s = false.
Proof.
  unfold lower_uuid. intros [H _]%andb_true_iff. unfold version_uuid, version_uuid_classes in H. cbn [replicate app] in H.
  eapply first_char_plain; [exact H|]. intros c; destruct c as [[] [] [] [] [] [] [] []]; vm_compute; auto.
Qed.

Lemma expense_date_plain s : expense_date s = true -> formula s = false.
Proof.
  unfold expense_date. destruct (parse_ymd s) as [[[y m] d]|] eqn:E; [|done]. intros _.
  destruct s as [|c s]; [done|]. cbn [formula]. unfold parse_ymd in E. follow E. bool_to_prop. by apply digit_plain.
Qed.

Lemma one_of_plain l s : forallb (fun x => negb (formula x)) l = true -> includes l s = true -> formula s = false.
Proof. intros Hl Hs%includes_elem. pose proof (forallb_elem _ _ _ Hl Hs) as H. by apply negb_true_iff in H. Qed.

Lemma revision_plain z : match revision (VInt z) with Some _ => true | None => false end = true -> formula (Z_to_string z) = false.
Proof.
  destruct (revision (VInt z)) as [k|] eqn:E; [|done]. intros _. unfold revision in E. apply as_integer_Some in E as (Ev & Hs & Hb).
  injection Ev as <-. apply integer_plain. unfold positive_integer. rewrite andb_true_iff, Z.leb_le. split; [done | lia].
Qed.

Lemma row_plain propertyId currency item : lower_uuid propertyId = true ->
  matches (replicate 3 (char_between "A" "Z")) currency = true -> validCsvItem item currency = true ->
  Forall (fun text => formula text = false) (expense_row propertyId currency item).
Proof.
  intros Hp Hc Hv. unfold validCsvItem in Hv. rewrite !andb_true_iff in Hv.
  destruct Hv as [[[[[[[[[[[[[Hid Hcat] Hor] Hon] _] _] _] Ham] Hst] Hpay] Hru] Hre] _] Hrev].
  assert (Hon' : formula (default EmptyString (paidOn item)) = false).
  { unfold payment_consistent in Hpay. destruct (paidOn item) as [s|]; [|done]. apply expense_date_plain.
    rewrite andb_false_r, orb_false_r in Hpay. by apply andb_true_iff in Hpay as [_ ?]. }
  assert (Hopt : forall o, absent_or lower_uuid o = true -> formula (default EmptyString o) = false).
  { intros [s|]; [apply lower_uuid_plain | done]. }
  unfold expense_row. repeat apply Forall_cons_2; try apply Forall_nil_2;
    first [by apply lower_uuid_plain | by apply expense_date_plain | by apply safe_plain | by apply currency_plain |
           by apply Hopt | by apply revision_plain | done | idtac].
  - by apply (one_of_plain FINANCE_EXPENSE_ORIGINS).
  - apply positive_amount_spec in Ham as (w & f & E & Hf & Hpos). apply positive_plain; [|done]. rewrite E.
    by apply decimal_of_decimal.
  - by apply (one_of_plain FINANCE_EXPENSE_PAYMENT_STATUSES).
Qed.

(** The expense export reads back: by the rules of quoted cells the document is its
    heading and one row of fifteen cells per expense, in the order of the
    expenses; no cell is a formula to a spreadsheet, no expense appears twice, and
    the amounts of the rows are positive and add up to those of the expenses. *)
Theorem expense_csv_reads_back propertyId currency expenses artifact :
  buildFinanceExpenseCsvArtifact propertyId currency expenses = Ret artifact ->
  exists rows, read_csv (expensesBody artifact) = Some (FINANCE_EXPENSE_CSV_COLUMNS :: rows) /\
    rows = expense_row propertyId currency <$> expenses /\ expensesRowCount artifact = length rows /\
    Forall (fun row => length row = length FINANCE_EXPENSE_CSV_COLUMNS /\
                       Forall (fun text => formula text = false) row /\ 0 < scaled (cell 7 row)) rows /\
    NoDup (cell 1 <$> rows) /\
    sumZ ((fun row => scaled (cell 7 row)) <$> rows) = sumZ ((fun item => scaled (moneyAmount (expenseAmount item))) <$> expenses).
Proof.
  intros (Hp & Hc & Hv & Hd & Hn & Hb)%build_expenses. exists (expense_row propertyId currency <$> expenses). split_and!.
  - rewrite Hb. apply (read_rows (FINANCE_EXPENSE_CSV_COLUMNS :: _)); [done|]. constructor; [done|].
    by apply Forall_fmap, Forall_true.
  - done.
  - by rewrite length_fmap.
  - apply Forall_fmap. eapply Forall_impl; [exact Hv|]. intros item Hi. cbn beta. split_and!; [done | by apply row_plain |].
    unfold validCsvItem in Hi. rewrite !andb_true_iff in Hi. destruct Hi as [[[[[[[_ Ha] _] _] _] _] _] _].
    apply positive_amount_spec in Ha as (w & f & _ & _ & Hpos). exact Hpos.
  - rewrite <- list_fmap_compose. exact Hd.
  - rewrite <- list_fmap_compose. done.
Qed.
