(* ===== verification/GeneratedExpenses.v ===== *)
(** * Generated expenses

    packages/domain-finance/src/generatedExpenses.ts: the commands of the expense
    automation, with the keys under which a source is booked once and a job runs
    once, and the fingerprint of what a command books. *)

From S2P Require Import Prelude JsValue JsonText CalendarDates Money FolioDecimals FinanceFolios FinanceExpenses.

(** ** Data *)

Definition FINANCE_GENERATED_EXPENSE_ACTIONS : list string := ["create"; "correct"; "reverse"].
Definition FINANCE_GENERATED_EXPENSE_AUDIT_REASONS : list string :=
  ["scheduled_generation"; "source_correction"; "source_reversal"].
Definition FINANCE_GENERATED_EXPENSE_SERVICE : string := "finance-expense-automation".

Inductive FinanceGeneratedExpenseSource :=
| recurring (ruleId : string) (ruleRevision : Z) (occurrenceOn : string)
| ota_commission (commissionEvidenceId guestBookingId serviceNight : string)
| platform_fee (providerFeeEvidenceId feePaymentId evidenceOn : string).

(** The action with the expense it replaces, which a new expense has not *)
Inductive FinanceGeneratedExpenseChange := Create | Correct (reverses : string) | Reverse (reverses : string).

Record FinanceGeneratedExpenseAudit := {
  requestId : string;
  correlationId : string;
  causationId : string;
  jobId : string;
  jobAttemptId : string;
  reasonCode : string;
  requestedAt : string
}.

(** [origin] is the kind of the source. *)
Record FinanceGeneratedExpenseCommand := {
  generatedCommandId : string;
  generatedPropertyId : string;
  generatedCategoryId : string;
  change : FinanceGeneratedExpenseChange;
  generatedOn : string;
  generatedVendor : string;
  description : option string;
  generatedAmount : FinanceExpenseMoney;
  generatedStatus : string;
  generatedPaidOn : option string;
  generatedSource : FinanceGeneratedExpenseSource;
  audit : FinanceGeneratedExpenseAudit
}.

Definition action (c : FinanceGeneratedExpenseChange) : string :=
  match c with Create => "create" | Correct _ => "correct" | Reverse _ => "reverse" end.

Definition replaced (c : FinanceGeneratedExpenseChange) : option string :=
  match c with Create => None | Correct id | Reverse id => Some id end.

Definition source_kind (s : FinanceGeneratedExpenseSource) : string :=
  match s with recurring _ _ _ => "recurring" | ota_commission _ _ _ => "ota_commission" | platform_fee _ _ _ => "platform_fee" end.

Definition sourceDate (s : FinanceGeneratedExpenseSource) : string :=
  match s with recurring _ _ on | ota_commission _ _ on | platform_fee _ _ on => on end.

Definition actionReason (c : FinanceGeneratedExpenseChange) : string :=
  match c with Create => "scheduled_generation" | Correct _ => "source_correction" | Reverse _ => "source_reversal" end.

(** ** Parsers *)

(** As many members as keys, and each key *)
Definition exact_members (v : jsval) (keys : list string) : bool :=
  is_object v && (length (keys_of v) =? length keys)%nat && has v keys.

(** [uuid] and then [lower] *)
Definition canonical (v : jsval) : option string := let? s := uuid v in Some (to_lower s).

Definition COMMAND_KEYS : list string :=
  ["commandId"; "propertyId"; "categoryId"; "origin"; "action"; "incurredOn"; "vendor"; "description"; "amount";
   "paymentStatus"; "paidOn"; "reversesExpenseId"; "source"; "audit"].

Definition parse_recurring (v : jsval) : option FinanceGeneratedExpenseSource :=
  guard? exact_members v ["kind"; "recurringRuleId"; "ruleRevision"; "occurrenceOn"] in
  let? id := canonical (get v "recurringRuleId") in
  let? n := revision (get v "ruleRevision") in
  let? on := expenseDate (get v "occurrenceOn") in
  Some (recurring id n on).

Definition parse_ota_commission (v : jsval) : option FinanceGeneratedExpenseSource :=
  guard? exact_members v ["kind"; "commissionEvidenceId"; "guestBookingId"; "serviceNight"] in
  let? id := canonical (get v "commissionEvidenceId") in
  let? booking := canonical (get v "guestBookingId") in
  let? on := expenseDate (get v "serviceNight") in
  Some (ota_commission id booking on).

Definition parse_platform_fee (v : jsval) : option FinanceGeneratedExpenseSource :=
  guard? exact_members v ["kind"; "providerFeeEvidenceId"; "paymentId"; "evidenceOn"] in
  let? id := canonical (get v "providerFeeEvidenceId") in
  let? payment := canonical (get v "paymentId") in
  let? on := expenseDate (get v "evidenceOn") in
  Some (platform_fee id payment on).

Definition parseSource (v : jsval) : option FinanceGeneratedExpenseSource :=
  if is_str (get v "kind") "recurring" then parse_recurring v
  else if is_str (get v "kind") "ota_commission" then parse_ota_commission v
  else if is_str (get v "kind") "platform_fee" then parse_platform_fee v
  else None.

Definition generated_money (v : jsval) : option FinanceExpenseMoney :=
  guard? exact_members v ["amount"; "currency"] in
  let? text := as_string (get v "amount") in
  let? amount := normalizeFinanceExpenseAmount text in
  let? currency := currency_code (get v "currency") in
  Some {| moneyAmount := amount; moneyCode := currency |}.

(** An instant as [toISOString] prints it, from the year 1 on *)
Definition utc (v : jsval) : option string :=
  let? s := isoDateTime v in
  guard? negb (String.prefix "0000-" s) in
  Some s.

Definition AUDIT_KEYS : list string :=
  ["actor"; "requestId"; "correlationId"; "causationId"; "jobId"; "jobAttemptId"; "reasonCode"; "requestedAt"].

Definition system_actor (v : jsval) : bool :=
  exact_members v ["kind"; "service"] && is_str (get v "kind") "system" &&
  is_str (get v "service") FINANCE_GENERATED_EXPENSE_SERVICE.

(** The members of the result come from a spread of the value: they are the ones
    read here as long as they are enumerable, as those of parsed JSON are. *)
Definition parseAudit (v : jsval) : option FinanceGeneratedExpenseAudit :=
  guard? exact_members v AUDIT_KEYS && system_actor (get v "actor") in
  let? request := as_trimmed 1 200 (get v "requestId") in
  let? correlation := as_trimmed 1 200 (get v "correlationId") in
  let? causation := canonical (get v "causationId") in
  let? job := canonical (get v "jobId") in
  let? attempt := canonical (get v "jobAttemptId") in
  guard? no_repeats [causation; job; attempt] in
  let? reason := oneOf (get v "reasonCode") FINANCE_GENERATED_EXPENSE_AUDIT_REASONS in
  let? at_ := utc (get v "requestedAt") in
  Some {| requestId := request; correlationId := correlation; causationId := causation; jobId := job;
          jobAttemptId := attempt; reasonCode := reason; requestedAt := at_ |}.

(** The action and the expense it replaces, which is not the command itself *)
Definition parse_change (act : string) (reverses : jsval) (command : string) : option FinanceGeneratedExpenseChange :=
  if String.eqb act "create" then guard? is_null reverses in Some Create
  else
    let? id := canonical reverses in
    guard? negb (String.eqb id command) in
    Some (if String.eqb act "correct" then Correct id else Reverse id).

(** [paidOn], of a paid expense and no other *)
Definition parse_paid_on (status : string) (v : jsval) : option (option string) :=
  let? on := as_nullable expenseDate v in
  guard? Bool.eqb (String.eqb status "paid") (match on with Some _ => true | None => false end) in
  Some on.

Definition dated (c : FinanceGeneratedExpenseChange) (on : string) (s : FinanceGeneratedExpenseSource) : bool :=
  match c with Create => String.eqb on (sourceDate s) | _ => true end.

(** No check has an effect, so their order is not observed. *)
Definition parseFinanceGeneratedExpenseCommand (value : jsval) : option FinanceGeneratedExpenseCommand :=
  guard? exact_members value COMMAND_KEYS in
  let? source := parseSource (get value "source") in
  let? amount := generated_money (get value "amount") in
  let? act := oneOf (get value "action") FINANCE_GENERATED_EXPENSE_ACTIONS in
  let? status := oneOf (get value "paymentStatus") FINANCE_EXPENSE_PAYMENT_STATUSES in
  let? trail := parseAudit (get value "audit") in
  guard? is_str (get value "origin") (source_kind source) in
  let? command := canonical (get value "commandId") in
  let? property := canonical (get value "propertyId") in
  let? category := canonical (get value "categoryId") in
  let? on := expenseDate (get value "incurredOn") in
  let? seller := as_trimmed 1 200 (get value "vendor") in
  let? note := as_nullable (as_trimmed 1 2000) (get value "description") in
  let? paidAt := parse_paid_on status (get value "paidOn") in
  let? c := parse_change act (get value "reversesExpenseId") command in
  guard? dated c on source && String.eqb (reasonCode trail) (actionReason c) in
  Some {| generatedCommandId := command; generatedPropertyId := property; generatedCategoryId := category; change := c;
          generatedOn := on; generatedVendor := seller; description := note; generatedAmount := amount;
          generatedStatus := status; generatedPaidOn := paidAt; generatedSource := source; audit := trail |}.

(** ** Keys *)

Definition source_base (s : FinanceGeneratedExpenseSource) : string :=
  match s with
  | recurring id _ on => "recurring_rule:" +:+ to_lower id +:+ ":occurrence:" +:+ on
  | ota_commission id _ _ => "ota_commission_evidence:" +:+ to_lower id
  | platform_fee id _ _ => "provider_fee_evidence:" +:+ to_lower id
  end.

Definition financeGeneratedExpenseSourceKey (command : FinanceGeneratedExpenseCommand) : string :=
  let base := source_base (generatedSource command) in
  match change command with
  | Create => base
  | Correct id => base +:+ ":correct:" +:+ to_lower id
  | Reverse id => base +:+ ":reverse:" +:+ to_lower id
  end.

Definition aggregate (s : FinanceGeneratedExpenseSource) : string * string * string :=
  match s with
  | recurring id _ on => ("recurring_rule", id, "occurrence-" +:+ on)
  | ota_commission id _ _ => ("ota_commission_evidence", id, "project")
  | platform_fee id _ _ => ("provider_fee_evidence", id, "project")
  end.

Definition job_action (c : FinanceGeneratedExpenseChange) (fallback : string) : string :=
  match c with
  | Create => fallback
  | Correct id => "correct-" +:+ to_lower id
  | Reverse id => "reverse-" +:+ to_lower id
  end.

Definition financeGeneratedExpenseJobKey (command : FinanceGeneratedExpenseCommand) : string :=
  let '(name, id, part) := aggregate (generatedSource command) in
  "finance.generate-expense:" +:+ name +:+ ":" +:+ to_lower id +:+ ":" +:+ job_action (change command) part +:+ ":v1".

(** ** Values *)

Definition source_value (s : FinanceGeneratedExpenseSource) : jsval :=
  match s with
  | recurring id n on =>
      obj [("kind", VString "recurring"); ("recurringRuleId", VString id); ("ruleRevision", VInt n); ("occurrenceOn", VString on)]
  | ota_commission id booking on =>
      obj [("kind", VString "ota_commission"); ("commissionEvidenceId", VString id); ("guestBookingId", VString booking);
           ("serviceNight", VString on)]
  | platform_fee id payment on =>
      obj [("kind", VString "platform_fee"); ("providerFeeEvidenceId", VString id); ("paymentId", VString payment);
           ("evidenceOn", VString on)]
  end.

Definition audit_value (a : FinanceGeneratedExpenseAudit) : jsval :=
  obj [("actor", obj [("kind", VString "system"); ("service", VString FINANCE_GENERATED_EXPENSE_SERVICE)]);
       ("requestId", VString (requestId a)); ("correlationId", VString (correlationId a));
       ("causationId", VString (causationId a)); ("jobId", VString (jobId a)); ("jobAttemptId", VString (jobAttemptId a));
       ("reasonCode", VString (reasonCode a)); ("requestedAt", VString (requestedAt a))].

Definition money_value (m : FinanceExpenseMoney) : jsval :=
  obj [("amount", VString (moneyAmount m)); ("currency", VString (moneyCode m))].

(** The object the parser returns *)
Definition command_value (c : FinanceGeneratedExpenseCommand) : jsval :=
  obj [("commandId", VString (generatedCommandId c)); ("propertyId", VString (generatedPropertyId c));
       ("categoryId", VString (generatedCategoryId c)); ("action", VString (action (change c)));
       ("incurredOn", VString (generatedOn c)); ("vendor", VString (generatedVendor c));
       ("description", of_nullable VString (description c)); ("amount", money_value (generatedAmount c));
       ("paymentStatus", VString (generatedStatus c)); ("paidOn", of_nullable VString (generatedPaidOn c));
       ("reversesExpenseId", of_nullable VString (replaced (change c))); ("audit", audit_value (audit c));
       ("origin", VString (source_kind (generatedSource c))); ("source", source_value (generatedSource c))].

(** What a fingerprint is taken of *)
Definition booked_value (c : FinanceGeneratedExpenseCommand) : jsval :=
  arr [VString (generatedCommandId c); VString (generatedPropertyId c); VString (generatedCategoryId c);
       VString (source_kind (generatedSource c)); VString (action (change c)); VString (generatedOn c);
       VString (generatedVendor c); of_nullable VString (description c); VString (moneyAmount (generatedAmount c));
       VString (moneyCode (generatedAmount c)); VString (generatedStatus c); of_nullable VString (generatedPaidOn c);
       of_nullable VString (replaced (change c)); source_value (generatedSource c)].

Record FinanceGeneratedExpenseEvidence := {
  evidenceCommandId : string;
  evidencePropertyId : string;
  evidenceOrigin : string;
  evidenceAction : string;
  evidenceSourceKey : string;
  evidenceFingerprint : option string;
  evidenceActor : string;
  evidenceReason : string;
  evidenceCausationId : string;
  evidenceJobId : string;
  evidenceJobAttemptId : string
}.

Section Fingerprint.
Variable sha256 : string -> string.

Definition financeGeneratedExpenseFingerprint (value : jsval) : option string :=
  let? command := parseFinanceGeneratedExpenseCommand value in
  Some (sha256 (json_text (booked_value command))).

(** The fingerprint is taken of the parsed command, which is parsed again. *)
Definition financeGeneratedExpenseRedactedAuditEvidence (value : jsval) : option FinanceGeneratedExpenseEvidence :=
  let? command := parseFinanceGeneratedExpenseCommand value in
  Some {| evidenceCommandId := generatedCommandId command; evidencePropertyId := generatedPropertyId command;
          evidenceOrigin := source_kind (generatedSource command); evidenceAction := action (change command);
          evidenceSourceKey := financeGeneratedExpenseSourceKey command;
          evidenceFingerprint := financeGeneratedExpenseFingerprint (command_value command);
          evidenceActor := FINANCE_GENERATED_EXPENSE_SERVICE; evidenceReason := reasonCode (audit command);
          evidenceCausationId := causationId (audit command); evidenceJobId := jobId (audit command);
          evidenceJobAttemptId := jobAttemptId (audit command) |}.
End Fingerprint.

(** ** Parts that read back *)

Lemma tested_reparse test v s : tested test v = Some s -> tested test (VString s) = Some s.
Proof. intros [_ H]%tested_Some. by apply tested_Some. Qed.

Lemma oneOf_reads values s : includes values s = true -> oneOf (VString s) values = Some s.
Proof. intros H. by apply tested_Some. Qed.

(** An identifier as the parser returns it *)
Definition identifier (s : string) : Prop := version_uuid s = true /\ to_lower s = s.

Lemma version_uuid_lower s : version_uuid s = true -> version_uuid (to_lower s) = true.
Proof.
  apply matches_lower. unfold version_uuid_classes. rewrite !Forall_app.
  assert (Hv : forall c, char_between "1" "5" c = true -> char_between "1" "5" (lower_char c) = true).
  { intros c. destruct c as [[] [] [] [] [] [] [] []]; vm_compute; auto. }
  repeat split; repeat first [apply Forall_replicate | apply Forall_singleton];
    intros c; first [apply lower_char_hex | apply lower_char_dash | apply lower_char_variant | apply Hv].
Qed.

Lemma canonical_Some v s : canonical v = Some s -> identifier s.
Proof.
  unfold canonical, uuid. destruct (tested version_uuid v) as [t|] eqn:E; [|done]. intros [= <-].
  apply tested_Some in E as [_ E]. split; [by apply version_uuid_lower | apply to_lower_idem].
Qed.

Lemma canonical_identifier s : identifier s -> canonical (VString s) = Some s.
Proof. intros [Hu Hl]. unfold canonical, uuid, tested. cbn [as_string mbind option_bind]. rewrite Hu. cbn [mbind option_bind]. by rewrite Hl. Qed.

Lemma identifier_length s : identifier s -> String.length s = 36%nat.
Proof. intros [H _]. by apply matches_length in H. Qed.

(** What the parsers say of a source *)
Definition source_ok (s : FinanceGeneratedExpenseSource) : Prop :=
  match s with
  | recurring id n on => identifier id /\ revision (VInt n) = Some n /\ expense_date on = true
  | ota_commission id other on | platform_fee id other on => identifier id /\ identifier other /\ expense_date on = true
  end.

Lemma expenseDate_Some v s : expenseDate v = Some s -> expense_date s = true.
Proof. by intros [_ H]%tested_Some. Qed.

Lemma date_reads s : expense_date s = true -> expenseDate (VString s) = Some s.
Proof. intros H. by apply tested_Some. Qed.

Lemma parseSource_Some v s : parseSource v = Some s -> source_ok s.
Proof.
  unfold parseSource, parse_recurring, parse_ota_commission, parse_platform_fee. intros H.
  repeat (case_match; try done; cbn [mbind option_bind] in * ); injection H as <-; cbn [source_ok];
    repeat match goal with
    | H : canonical _ = Some _ |- _ => apply canonical_Some in H
    | H : expenseDate _ = Some _ |- _ => apply expenseDate_Some in H
    | H : revision _ = Some _ |- _ => apply as_integer_reparse in H
    end; done.
Qed.

Lemma source_reads s : source_ok s -> parseSource (source_value s) = Some s.
Proof.
  destruct s as [id n on|id other on|id other on]; intros (H1 & H2 & H3).
  - transitivity (let? i := canonical (VString id) in let? k := revision (VInt n) in
      let? d := expenseDate (VString on) in Some (recurring i k d)); [reflexivity|].
    by rewrite canonical_identifier, H2, date_reads.
  - transitivity (let? i := canonical (VString id) in let? k := canonical (VString other) in
      let? d := expenseDate (VString on) in Some (ota_commission i k d)); [reflexivity|].
    by rewrite !canonical_identifier, date_reads.
  - transitivity (let? i := canonical (VString id) in let? k := canonical (VString other) in
      let? d := expenseDate (VString on) in Some (platform_fee i k d)); [reflexivity|].
    by rewrite !canonical_identifier, date_reads.
Qed.

Lemma money_reads v m : generated_money v = Some m -> generated_money (money_value m) = Some m.
Proof.
  unfold generated_money at 1. destruct (exact_members _ _); [|done]. destruct (as_string _) as [t|]; [|done].
  cbn [mbind option_bind]. destruct (normalizeFinanceExpenseAmount t) as [a|] eqn:Ea; [|done].
  destruct (currency_code _) as [c|] eqn:Ec; [|done]. cbn [mbind option_bind]. intros H. apply (inj Some) in H as <-.
  transitivity (let? amount := normalizeFinanceExpenseAmount a in
    let? currency := currency_code (VString c) in Some {| moneyAmount := amount; moneyCode := currency |}); [reflexivity|].
  rewrite (normalized_again _ _ Ea). apply tested_reparse in Ec. unfold currency_code in *. unfold tested in Ec. by rewrite Ec.
Qed.

(** What the parsers say of an audit trail *)
Definition audit_ok (a : FinanceGeneratedExpenseAudit) : Prop :=
  trimmed 1 200 (requestId a) = true /\ trimmed 1 200 (correlationId a) = true /\ identifier (causationId a) /\
  identifier (jobId a) /\ identifier (jobAttemptId a) /\ no_repeats [causationId a; jobId a; jobAttemptId a] = true /\
  includes FINANCE_GENERATED_EXPENSE_AUDIT_REASONS (reasonCode a) = true /\ utc (VString (requestedAt a)) = Some (requestedAt a).

Lemma utc_reparse v s : utc v = Some s -> utc (VString s) = Some s.
Proof.
  unfold utc. destruct (isoDateTime v) as [t|] eqn:E; [|done]. cbn [mbind option_bind].
  destruct (negb (String.prefix "0000-" t)) eqn:Ep; [|done]. intros Ht. apply (inj Some) in Ht as <-.
  apply isoDateTime_Some in E as [_ ->]. cbn [mbind option_bind]. by rewrite Ep.
Qed.

Lemma parseAudit_Some v a : parseAudit v = Some a -> audit_ok a.
Proof.
  unfold parseAudit. destruct (_ && _); [|done]. intros H.
  destruct (as_trimmed 1 200 (get v "requestId")) as [r|] eqn:E1; [|done].
  destruct (as_trimmed 1 200 (get v "correlationId")) as [c|] eqn:E2; [|done].
  destruct (canonical (get v "causationId")) as [i|] eqn:E3; [|done].
  destruct (canonical (get v "jobId")) as [j|] eqn:E4; [|done].
  destruct (canonical (get v "jobAttemptId")) as [k|] eqn:E5; [|done]. cbn [mbind option_bind] in H.
  destruct (no_repeats _) eqn:E6; [|done]. destruct (oneOf _ _) as [reason|] eqn:E7; [|done].
  destruct (utc _) as [t|] eqn:E8; [|done]. apply (inj Some) in H as <-.
  apply as_trimmed_Some in E1 as [_ E1], E2 as [_ E2]. apply canonical_Some in E3, E4, E5.
  apply tested_Some in E7 as [_ E7]. apply utc_reparse in E8. unfold audit_ok. done.
Qed.

Lemma audit_reads a : audit_ok a -> parseAudit (audit_value a) = Some a.
Proof.
  destruct a as [r c i j k reason t]. unfold audit_ok.
  cbn [requestId correlationId causationId jobId jobAttemptId reasonCode requestedAt].
  intros (H1 & H2 & H3 & H4 & H5 & H6 & H7 & H8).
  transitivity (let? request := as_trimmed 1 200 (VString r) in
    let? correlation := as_trimmed 1 200 (VString c) in
    let? causation := canonical (VString i) in
    let? job := canonical (VString j) in
    let? attempt := canonical (VString k) in
    guard? no_repeats [causation; job; attempt] in
    let? reason := oneOf (VString reason) FINANCE_GENERATED_EXPENSE_AUDIT_REASONS in
    let? at_ := utc (VString t) in
    Some {| requestId := request; correlationId := correlation; causationId := causation; jobId := job;
            jobAttemptId := attempt; reasonCode := reason; requestedAt := at_ |}); [reflexivity|].
  rewrite !(proj2 (as_trimmed_Some _ _ _ _) (conj eq_refl H1)), !(proj2 (as_trimmed_Some _ _ _ _) (conj eq_refl H2)).
  rewrite !canonical_identifier by done. cbn [mbind option_bind]. rewrite H6.
  by rewrite (oneOf_reads _ _ H7), H8.
Qed.

Lemma paid_on_reads status v o : parse_paid_on status v = Some o ->
  parse_paid_on status (of_nullable VString o) = Some o.
Proof.
  unfold parse_paid_on. destruct (as_nullable expenseDate v) as [on|] eqn:E; [|done]. cbn [mbind option_bind].
  destruct (Bool.eqb _ _) eqn:Eb; [|done]. intros H. apply (inj Some) in H as <-.
  rewrite (as_nullable_reparse expenseDate VString v on); [cbn [mbind option_bind]; by rewrite Eb | | done | done].
  intros w x Hx. by eapply tested_reparse.
Qed.

(** The identifiers of a change, apart from the command's own *)
Definition change_ok (c : FinanceGeneratedExpenseChange) (command : string) : Prop :=
  match c with Create => True | Correct id | Reverse id => identifier id /\ id <> command end.

Lemma parse_change_Some act v command c : includes FINANCE_GENERATED_EXPENSE_ACTIONS act = true ->
  parse_change act v command = Some c -> change_ok c command /\ action c = act.
Proof.
  unfold parse_change, FINANCE_GENERATED_EXPENSE_ACTIONS. intros Ha%includes_elem.
  destruct (String.eqb_spec act "create") as [->|H0].
  - destruct (is_null v); [|done]. by intros [= <-].
  - destruct (canonical v) as [id|] eqn:E; [|done]. cbn [mbind option_bind]. apply canonical_Some in E.
    destruct (String.eqb_spec id command) as [|Hne]; [done|]. cbn [negb]. destruct (String.eqb_spec act "correct") as [->|H1].
    + by intros [= <-].
    + intros [= <-]. split; [done|]. rewrite !elem_of_cons in Ha. destruct Ha as [?|[?|[?|Ha]]]; [done | done | by subst |].
      by apply elem_of_nil in Ha.
Qed.

Lemma change_reads c command : change_ok c command ->
  parse_change (action c) (of_nullable VString (replaced c)) command = Some c.
Proof.
  destruct c as [|id|id]; [done|..]; intros [Hi Hne]; unfold parse_change; cbn [action replaced of_nullable String.eqb Ascii.eqb Bool.eqb];
    rewrite canonical_identifier by done; cbn [mbind option_bind]; by rewrite (proj2 (String.eqb_neq _ _) Hne).
Qed.

(** ** The command reads back *)

(** What the parser says of a command *)
Record command_ok (c : FinanceGeneratedExpenseCommand) : Prop := {
  go_ids : identifier (generatedCommandId c) /\ identifier (generatedPropertyId c) /\ identifier (generatedCategoryId c);
  go_change : change_ok (change c) (generatedCommandId c);
  go_source : source_ok (generatedSource c);
  go_on : expense_date (generatedOn c) = true;
  go_dated : dated (change c) (generatedOn c) (generatedSource c) = true;
  go_reason : reasonCode (audit c) = actionReason (change c);
  go_reads : parseFinanceGeneratedExpenseCommand (command_value c) = Some c
}.

Lemma change_action_in c : includes FINANCE_GENERATED_EXPENSE_ACTIONS (action c) = true.
Proof. by destruct c. Qed.

Lemma parse_generated v c : parseFinanceGeneratedExpenseCommand v = Some c -> command_ok c.
Proof.
  unfold parseFinanceGeneratedExpenseCommand at 1. intros H. destruct (exact_members v COMMAND_KEYS); [|done].
  destruct (parseSource _) as [source|] eqn:Es; [|done]. destruct (generated_money _) as [m|] eqn:Em; [|done].
  destruct (oneOf (get v "action") _) as [act|] eqn:Eact; [|done].
  destruct (oneOf (get v "paymentStatus") _) as [status|] eqn:Est; [|done].
  destruct (parseAudit _) as [trail|] eqn:Ea; [|done]. cbn [mbind option_bind] in H. destruct (is_str _ _); [|done].
  destruct (canonical (get v "commandId")) as [command|] eqn:Ec; [|done].
  destruct (canonical (get v "propertyId")) as [property|] eqn:Ep; [|done].
  destruct (canonical (get v "categoryId")) as [category|] eqn:Eg; [|done].
  destruct (expenseDate _) as [on|] eqn:Eon; [|done]. destruct (as_trimmed _ _ _) as [seller|] eqn:Ev; [|done].
  destruct (as_nullable _ _) as [note|] eqn:En; [|done]. destruct (parse_paid_on _ _) as [paidAt|] eqn:Epd; [|done].
  destruct (parse_change _ _ _) as [ch|] eqn:Ech; [|done]. cbn [mbind option_bind] in H.
  destruct (dated ch on source && _) eqn:Ed; [|done]. apply (inj Some) in H as <-.
  apply andb_true_iff in Ed as [Ed Er%String.eqb_eq]. apply canonical_Some in Ec, Ep, Eg. apply expenseDate_Some in Eon.
  apply parseSource_Some in Es. apply money_reads in Em. apply parseAudit_Some in Ea. apply paid_on_reads in Epd.
  apply tested_Some in Eact as [_ Eact], Est as [_ Est]. apply parse_change_Some in Ech as [Ech <-]; [|done].
  apply as_trimmed_Some in Ev as [_ Ev].
  apply (as_nullable_reparse _ VString) in En; [ | by intros w x; apply as_trimmed_reparse | done].
  split; cbn [generatedCommandId generatedPropertyId generatedCategoryId change generatedSource generatedOn audit]; try done.
  transitivity (let? s := parseSource (source_value source) in let? amount := generated_money (money_value m) in
    let? act := oneOf (VString (action ch)) FINANCE_GENERATED_EXPENSE_ACTIONS in
    let? st := oneOf (VString status) FINANCE_EXPENSE_PAYMENT_STATUSES in
    let? tr := parseAudit (audit_value trail) in
    guard? is_str (VString (source_kind source)) (source_kind s) in
    let? i := canonical (VString command) in let? p := canonical (VString property) in
    let? g := canonical (VString category) in let? d := expenseDate (VString on) in
    let? ven := as_trimmed 1 200 (VString seller) in
    let? nt := as_nullable (as_trimmed 1 2000) (of_nullable VString note) in
    let? pd := parse_paid_on st (of_nullable VString paidAt) in
    let? x := parse_change act (of_nullable VString (replaced ch)) i in
    guard? dated x d s && String.eqb (reasonCode tr) (actionReason x) in
    Some {| generatedCommandId := i; generatedPropertyId := p; generatedCategoryId := g; change := x;
            generatedOn := d; generatedVendor := ven; description := nt; generatedAmount := amount;
            generatedStatus := st; generatedPaidOn := pd; generatedSource := s; audit := tr |}); [reflexivity|].
  rewrite (source_reads _ Es), Em, (oneOf_reads _ _ Eact), (oneOf_reads _ _ Est), (audit_reads _ Ea). cbn [mbind option_bind]. rewrite is_str_refl, !canonical_identifier, (date_reads _ Eon) by done.
  rewrite (proj2 (as_trimmed_Some _ _ _ _) (conj eq_refl Ev)). cbn [mbind option_bind]. rewrite En, Epd. cbn [mbind option_bind].
  rewrite (change_reads _ _ Ech). cbn [mbind option_bind]. rewrite Ed, Er, String.eqb_refl. done.
Qed.

(** ** Keys *)

(** The evidence a source names *)
Definition same_evidence (s s' : FinanceGeneratedExpenseSource) : Prop :=
  match s, s' with
  | recurring id _ _, recurring id' _ _ | ota_commission id _ _, ota_commission id' _ _
  | platform_fee id _ _, platform_fee id' _ _ => id = id'
  | _, _ => False
  end.

(** The day of the occurrence, which only a recurring rule has several of *)
Definition occurrence (s : FinanceGeneratedExpenseSource) : option string :=
  match s with recurring _ _ on => Some on | _ => None end.

Definition key_suffix (c : FinanceGeneratedExpenseChange) : string :=
  match c with Create => EmptyString | Correct id => ":correct:" +:+ to_lower id | Reverse id => ":reverse:" +:+ to_lower id end.

Lemma source_key_parts c : financeGeneratedExpenseSourceKey c = source_base (generatedSource c) +:+ key_suffix (change c).
Proof. unfold financeGeneratedExpenseSourceKey. destruct (change c); [by rewrite string_app_nil_r | done..]. Qed.

Lemma date_length s : expense_date s = true -> String.length s = 10%nat.
Proof.
  unfold expense_date. destruct (parse_ymd s) as [[[y m] d]|] eqn:E; [|done]. intros _.
  apply parse_ymd_text in E as (-> & _). reflexivity.
Qed.

Lemma app_split p q s t : String.length p = String.length q -> p +:+ s = q +:+ t -> p = q /\ s = t.
Proof. intros Hl H. pose proof (app_inj_length _ _ _ _ Hl H) as <-. split; [done | by eapply string_app_cancel]. Qed.

Lemma lowered id : identifier id -> to_lower id = id.
Proof. by intros [_ ?]. Qed.

Lemma source_base_inj s s' t t' : source_ok s -> source_ok s' -> source_base s +:+ t = source_base s' +:+ t' ->
  same_evidence s s' /\ occurrence s = occurrence s' /\ t = t'.
Proof.
  intros Hs Hs'. destruct s as [id n on|id b on|id b on], s' as [id' n' on'|id' b' on'|id' b' on'];
    destruct Hs as (Hi & Hb & Ho), Hs' as (Hi' & Hb' & Ho'); cbn [source_base same_evidence occurrence];
    rewrite !lowered by done; intros E; try (by cbn in E; discriminate E);
    rewrite !string_app_assoc in E; apply string_app_cancel, app_split in E as [<- E]; try by rewrite !identifier_length.
  - apply string_app_cancel, app_split in E as [<- E]; [done | by rewrite !date_length].
  - done.
  - done.
Qed.

Lemma source_base_same s s' : same_evidence s s' -> occurrence s = occurrence s' -> source_base s = source_base s'.
Proof. destruct s, s'; cbn; try done; congruence. Qed.

Lemma change_lowered c command : change_ok c command -> forall id, replaced c = Some id -> to_lower id = id.
Proof. destruct c; cbn; [done|..]; intros [[_ Hl] _] id' [= <-]; done. Qed.

Lemma key_suffix_inj c c' i i' : change_ok c i -> change_ok c' i' -> key_suffix c = key_suffix c' -> c = c'.
Proof.
  destruct c as [|id|id], c' as [|id'|id']; cbn [change_ok key_suffix]; intros H H' E; try done; try (cbn in E; discriminate E);
    destruct H as [[_ Hl] _], H' as [[_ Hl'] _]; rewrite Hl, Hl' in E; by apply string_app_cancel in E as ->.
Qed.

(** The part of a job key after the identifier *)
Definition job_part (c : FinanceGeneratedExpenseCommand) : string :=
  let '(_, _, part) := aggregate (generatedSource c) in job_action (change c) part.

Definition aggregate_base (s : FinanceGeneratedExpenseSource) : string :=
  let '(name, id, _) := aggregate s in name +:+ ":" +:+ to_lower id.

Lemma job_key_parts c : financeGeneratedExpenseJobKey c =
  "finance.generate-expense:" +:+ aggregate_base (generatedSource c) +:+ ":" +:+ job_part c +:+ ":v1".
Proof.
  unfold financeGeneratedExpenseJobKey, aggregate_base, job_part. destruct (aggregate _) as [[name id] part].
  by rewrite !string_app_assoc.
Qed.

Lemma aggregate_base_inj s s' t t' : source_ok s -> source_ok s' -> aggregate_base s +:+ t = aggregate_base s' +:+ t' ->
  same_evidence s s' /\ t = t'.
Proof.
  intros Hs Hs'. destruct s as [id n on|id b on|id b on], s' as [id' n' on'|id' b' on'|id' b' on'];
    destruct Hs as (Hi & Hb & Ho), Hs' as (Hi' & Hb' & Ho'); cbn [aggregate_base aggregate same_evidence];
    rewrite !lowered by done; intros E; try (by cbn in E; discriminate E);
    rewrite !string_app_assoc in E; do 2 apply string_app_cancel in E; apply app_split in E as [<- E]; try done;
    by rewrite !identifier_length.
Qed.

Lemma job_part_inj c c' i i' : source_ok (generatedSource c) -> source_ok (generatedSource c') ->
  change_ok (change c) i -> change_ok (change c') i' -> same_evidence (generatedSource c) (generatedSource c') ->
  job_part c = job_part c' <->
  change c = change c' /\ (change c = Create -> occurrence (generatedSource c) = occurrence (generatedSource c')).
Proof.
  intros Hs Hs' Hc Hc' He. unfold job_part.
  destruct (generatedSource c) as [id n on|id b on|id b on], (generatedSource c') as [id' n' on'|id' b' on'|id' b' on']; try done;
    cbn [aggregate occurrence]; destruct (change c) as [|x|x], (change c') as [|x'|x']; cbn [job_action];
    try (destruct Hc as [[_ Hl] _]); try (destruct Hc' as [[_ Hl'] _]); rewrite ?Hl, ?Hl';
    (split; [intros E; first [by cbn in E; discriminate E | apply string_app_cancel in E; subst; done | done]
            | intros [E Ho]; first [discriminate E | injection E as ->; done | specialize (Ho E); congruence | done]]).
Qed.

Lemma app_right_cancel a b s : a +:+ s = b +:+ s -> a = b.
Proof.
  intros H. apply (app_inj_length a b s s); [|done]. apply (f_equal String.length) in H.
  rewrite !string_length_app in H. lia.
Qed.

(** The text of a key needs no trimming. *)
Definition solid (s : string) : bool := all_chars (fun c => negb (is_space c)) s.

Lemma trim_end_solid s : solid s = true -> trim_end s = s.
Proof.
  induction s as [|c s IH]; [done|]. unfold solid. cbn [all_chars trim_end]. intros [Hc Hs]%andb_true_iff.
  rewrite IH by done. destruct s; [by apply negb_true_iff in Hc as -> | done].
Qed.

Lemma trim_solid s : solid s = true -> trim s = s.
Proof.
  intros H. unfold trim. assert (E : trim_start s = s); [|by rewrite E, trim_end_solid].
  destruct s as [|c s]; [done|]. unfold solid in H. cbn [all_chars] in H. apply andb_true_iff in H as [Hc _].
  cbn [trim_start]. by apply negb_true_iff in Hc as ->.
Qed.

Lemma solid_app a b : solid (a +:+ b) = solid a && solid b.
Proof. apply all_chars_app. Qed.

Lemma matches_all (f : ascii -> bool) classes s : Forall (fun g : ascii -> bool => forall c, g c = true -> f c = true) classes ->
  matches classes s = true -> all_chars f s = true.
Proof.
  intros H. revert s. induction H as [|g classes Hg _ IH]; intros [|c s]; cbn; try done.
  intros [Hc Hs]%andb_true_iff. by rewrite Hg, IH.
Qed.

Lemma identifier_solid s : identifier s -> solid s = true.
Proof.
  intros [H _]. revert H. apply matches_all. unfold version_uuid_classes. rewrite !Forall_app.
  repeat split; repeat first [apply Forall_replicate | apply Forall_singleton];
    intros c; destruct c as [[] [] [] [] [] [] [] []]; vm_compute; auto.
Qed.

Lemma date_solid s : expense_date s = true -> solid s = true.
Proof.
  unfold expense_date. destruct (parse_ymd s) as [[[y m] d]|] eqn:E; [|done]. intros _.
  assert (Hd : forall c, is_digit c = true -> is_space c = false).
  { intros c; destruct c as [[] [] [] [] [] [] [] []]; vm_compute; auto. }
  unfold parse_ymd in E. follow E. unfold is_char in *. bool_to_prop.
  repeat match goal with H : Ascii.eqb _ _ = true |- _ => apply Ascii.eqb_eq in H; subst end.
  unfold solid. cbn [all_chars].
  repeat match goal with H : is_digit ?c = true |- _ => rewrite (Hd c H); clear H end. reflexivity.
Qed.

Lemma source_key_fits c i : source_ok (generatedSource c) -> change_ok (change c) i ->
  trimmed 1 250 (financeGeneratedExpenseSourceKey c) = true.
Proof.
  intros Hs Hc. rewrite source_key_parts. unfold trimmed. rewrite str_length_app, trim_solid.
  - assert (Hb : 58 <= str_length (source_base (generatedSource c)) <= 73).
    { destruct (generatedSource c); destruct Hs as (Hi & Hb & Ho); cbn [source_base]; rewrite !lowered by done;
        rewrite !str_length_app; unfold str_length; rewrite (identifier_length _ Hi), ?(date_length _ Ho); cbn; lia. }
    assert (Hk : 0 <= str_length (key_suffix (change c)) <= 45).
    { destruct (change c); cbn [key_suffix]; [by vm_compute|..]; destruct Hc as [Hi _]; rewrite lowered by done;
        rewrite str_length_app; unfold str_length; rewrite (identifier_length _ Hi); cbn; lia. }
    rewrite String.eqb_refl, andb_true_r, andb_true_iff, !Z.leb_le. lia.
  - rewrite solid_app. apply andb_true_iff. split.
    + destruct (generatedSource c); destruct Hs as (Hi & Hb & Ho); cbn [source_base]; rewrite !lowered by done;
        rewrite !solid_app, (identifier_solid _ Hi), ?(date_solid _ Ho); reflexivity.
    + destruct (change c); cbn [key_suffix]; [done|..]; destruct Hc as [Hi _]; rewrite lowered by done;
        rewrite solid_app, (identifier_solid _ Hi); reflexivity.
Qed.

(** C16: the keys of a generated expense identify what it books: two accepted commands
    have one source key exactly when they book the same evidence, the same
    occurrence of a recurring rule, with the same action and replacing the same
    expense; then they run as one job, and a job books one source, up to the
    occurrence that the replaced expense stands for. A source key can be exported. *)
Theorem generated_keys_identify v v' c c' :
  parseFinanceGeneratedExpenseCommand v = Some c -> parseFinanceGeneratedExpenseCommand v' = Some c' ->
  let s := generatedSource c in let s' := generatedSource c' in
  (financeGeneratedExpenseSourceKey c = financeGeneratedExpenseSourceKey c' <->
     same_evidence s s' /\ occurrence s = occurrence s' /\ change c = change c') /\
  (financeGeneratedExpenseJobKey c = financeGeneratedExpenseJobKey c' <->
     same_evidence s s' /\ change c = change c' /\ (change c = Create -> occurrence s = occurrence s')) /\
  trimmed 1 250 (financeGeneratedExpenseSourceKey c) = true.
Proof.
  intros Hv Hv' s s'. apply parse_generated in Hv, Hv'. destruct Hv as [_ Hc Hs _ _ _ _], Hv' as [_ Hc' Hs' _ _ _ _].
  fold s in Hs. fold s' in Hs'. split; [|split; [|by eapply source_key_fits]].
  - rewrite !source_key_parts. fold s s'. split.
    + intros E. apply source_base_inj in E as (He & Ho & Ek); [|done..]. split_and!; [done..|]. by eapply key_suffix_inj.
    + intros (He & Ho & ->). by rewrite (source_base_same s s').
  - rewrite !job_key_parts. fold s s'. split.
    + intros E%string_app_cancel. apply aggregate_base_inj in E as [He E]; [|done..]. split; [done|].
      apply string_app_cancel, app_right_cancel in E. by eapply job_part_inj in E.
    + intros (He & E). assert (Eb : aggregate_base s = aggregate_base s').
      { clear - He. destruct s, s'; cbn in He; try done; by subst. }
      rewrite Eb. do 3 f_equal. f_equal. by eapply job_part_inj.
Qed.

(** ** Fingerprints *)

Lemma nullable_string_inj (o o' : option string) : of_nullable VString o = of_nullable VString o' -> o = o'.
Proof. destruct o, o'; cbn; congruence. Qed.

Lemma source_value_inj s s' : source_value s = source_value s' -> s = s'.
Proof.
  destruct s, s'; intros H%obj_inj; try discriminate H; injection H; intros; congruence.
Qed.

Lemma change_inj c c' : action c = action c' -> replaced c = replaced c' -> c = c'.
Proof. destruct c, c'; cbn; congruence. Qed.

Lemma nullable_plain o : plain_json (of_nullable VString o).
Proof. destruct o; constructor. Qed.

Lemma source_plain s : plain_json (source_value s).
Proof. destruct s; repeat constructor. Qed.

Lemma booked_plain c : plain_json (booked_value c).
Proof. constructor. repeat constructor; first [apply nullable_plain | apply source_plain]. Qed.

(** The command without what asked for it *)
Definition audited (c : FinanceGeneratedExpenseCommand) (a : FinanceGeneratedExpenseAudit) : FinanceGeneratedExpenseCommand :=
  {| generatedCommandId := generatedCommandId c; generatedPropertyId := generatedPropertyId c;
     generatedCategoryId := generatedCategoryId c; change := change c; generatedOn := generatedOn c;
     generatedVendor := generatedVendor c; description := description c; generatedAmount := generatedAmount c;
     generatedStatus := generatedStatus c; generatedPaidOn := generatedPaidOn c; generatedSource := generatedSource c;
     audit := a |}.

Lemma booked_value_inj c c' : booked_value c = booked_value c' -> c' = audited c (audit c').
Proof.
  unfold booked_value. intros H%arr_inj. injection H; clear H; intros.
  repeat match goal with
  | E : of_nullable VString _ = of_nullable VString _ |- _ => apply nullable_string_inj in E
  | E : source_value _ = source_value _ |- _ => apply source_value_inj in E
  end.
  assert (Hc : change c = change c') by by apply change_inj.
  destruct c as [? ? ? ? ? ? ? [? ?]], c' as [? ? ? ? ? ? ? [? ?]]. unfold audited. cbn in *. congruence.
Qed.

Section Fingerprints.
Variable sha256 : string -> string.

(** A command books what its fingerprint says, however it was spelled: the object
    the parser returns is parsed to itself, so that the audit evidence of an
    accepted command has a fingerprint, the one of the value it came with; and short
    of a collision of the digest two accepted values have the same fingerprint exactly
    when their commands are the same apart from the audit trail. *)
Theorem generated_fingerprint v v' c c' :
  parseFinanceGeneratedExpenseCommand v = Some c -> parseFinanceGeneratedExpenseCommand v' = Some c' ->
  parseFinanceGeneratedExpenseCommand (command_value c) = Some c /\
  (exists e, financeGeneratedExpenseRedactedAuditEvidence sha256 v = Some e /\
    evidenceFingerprint e = financeGeneratedExpenseFingerprint sha256 v /\ evidenceFingerprint e <> None) /\
  financeGeneratedExpenseFingerprint sha256 v = Some (sha256 (json_text (booked_value c))) /\
  tells_apart sha256 (json_text (booked_value c)) (json_text (booked_value c')) (c' = audited c (audit c')).
Proof.
  intros Hv Hv'. pose proof (parse_generated _ _ Hv) as [_ _ _ _ _ _ Hr]. split; [done|]. split_and!.
  - unfold financeGeneratedExpenseRedactedAuditEvidence, financeGeneratedExpenseFingerprint. rewrite Hv. cbn [mbind option_bind].
    eexists. split; [done|]. cbn [evidenceFingerprint]. by rewrite Hr.
  - unfold financeGeneratedExpenseFingerprint. by rewrite Hv.
  - apply (tells_apart_iff sha256). split.
    + intros E. apply booked_value_inj, json_stringify_inj; [apply booked_plain..|].
      by rewrite !plain_json_text, E by apply booked_plain.
    + by intros ->.
Qed.
End Fingerprints.
