(* ===== verification/FolioWrites.v ===== *)
(** * Accepted folio commands

    What the parser of folio commands promises about a command it accepts, and
    that the command it returns is read back unchanged. *)

From S2P Require Import Prelude JsValue JsonText CalendarDates Money FolioDecimals FinanceFolios FolioCsv.

(** The identifiers [canonicalUuid] accepts are digits and small letters with dashes
    at fixed places: every locale orders them as their code units do. *)
Class UuidCollation `{Collation} : Prop := {
  locale_uuids a b : uuid_text a = true -> uuid_text b = true -> (localeCompare a b ?= 0) = String.compare a b
}.

(** ** Values *)

Definition money_value (m : FinanceFolioMoney) : jsval :=
  obj [("amount", VString (amount m)); ("currency", VString (moneyCurrency m))].

Definition source_value (s : FinanceFolioSourceReference) : jsval :=
  obj [("type", VString (sourceType s)); ("id", VString (sourceId s)); ("revision", VInt (sourceRevision s))].

Definition folio_line_value (l : FinanceFolioLineWrite) : jsval :=
  obj [("position", VInt (position l)); ("kind", VString (kind l)); ("description", VString (description l));
       ("quantity", VString (quantity l)); ("unitAmount", money_value (unitAmount l));
       ("serviceOn", VString (serviceOn l)); ("source", source_value (source l))].

Definition payment_value (p : FinanceFolioPaymentReference) : jsval :=
  obj [("paymentId", VString (paymentId p)); ("amount", money_value (paymentAmount p))].

Definition recipient_value (r : FinanceFolioRecipient) : jsval :=
  obj [("name", VString (recipientName r)); ("email", optional_text (recipientEmail r))].

Definition present {A} (key : string) (value : A -> jsval) (o : option A) : list (string * jsval) :=
  match o with Some a => [(key, value a)] | None => [] end.

Definition folio_write_value (w : FinanceFolioWrite) : jsval :=
  obj ([("commandId", VString (commandId w)); ("idempotencyKey", VString (idempotencyKey w))] ++
       present "expectedRevision" VInt (expectedRevision w) ++ present "bookingId" VString (bookingId w) ++
       [("recipient", recipient_value (writeRecipient w)); ("serviceFrom", VString (serviceFrom w));
        ("serviceTo", VString (serviceTo w)); ("lines", arr (folio_line_value <$> lines w));
        ("paymentRefs", arr (payment_value <$> paymentRefs w))]).

(** ** Parts that read back *)

Lemma canonicalUuid_Some v s : canonicalUuid v = Some s ->
  uuid_text s = true /\ canonicalUuid (VString s) = Some s.
Proof.
  unfold uuid_text, canonicalUuid. destruct (as_string v) as [t|]; [|done].
  destruct (matches UUID t && _) eqn:E; [|done]. intros [= <-]. cbn [as_string]. by rewrite E.
Qed.

Lemma clean_Some lo hi v s : clean lo hi v = Some s -> clean lo hi (VString s) = Some s.
Proof.
  unfold clean. destruct (as_trimmed lo hi v) as [t|] eqn:E; [|done]. destruct (all_chars _ t) eqn:Ec; [|done].
  intros [= <-]. by rewrite (as_trimmed_reparse _ _ _ _ E), Ec.
Qed.

Lemma currency_code_Some v c : currency_code v = Some c -> currency_code (VString c) = Some c.
Proof.
  unfold currency_code. destruct (as_string v) as [t|]; [|done]. destruct (matches _ t) eqn:E; [|done].
  intros [= <-]. cbn [as_string]. by rewrite E.
Qed.

Lemma localDate_Some v s : localDate v = Some s -> local_date s = true /\ localDate (VString s) = Some s.
Proof.
  unfold localDate. destruct (as_string v) as [t|]; [|done]. destruct (local_date t) eqn:E; [|done].
  intros [= <-]. cbn [as_string]. by rewrite E.
Qed.

Lemma email_Some v o : email v = Some o -> email (optional_text o) = Some o.
Proof.
  unfold email. destruct (is_null v); [by intros [= <-]|]. destruct (as_trimmed 3 320 v) as [t|] eqn:E; [|done].
  destruct (negb _) eqn:Ea; [|done]. intros [= <-]. cbn [optional_text of_nullable is_null].
  by rewrite (as_trimmed_reparse _ _ _ _ E), Ea.
Qed.

Lemma recipient_Some v r : recipient v = Some r -> recipient (recipient_value r) = Some r.
Proof.
  unfold recipient. destruct (exact v _); [|done]. destruct (clean 1 4000 _) as [name|] eqn:En; [|done].
  destruct (email _) as [mail|] eqn:Em; [|done]. destruct (_ <=? 4096) eqn:El; [|done]. intros [= <-].
  unfold recipient_value. cbn [recipientName recipientEmail].
  change (exact (obj _) _) with true. cbn iota. change (get (obj _) "name") with (VString name).
  change (get (obj _) "email") with (optional_text mail). by rewrite (clean_Some _ _ _ _ En), (email_Some _ _ Em), El.
Qed.

Lemma write_money_Some signed zero v m : write_money signed zero v = Some m ->
  written_decimal signed zero (amount m) /\ write_money signed zero (money_value m) = Some m.
Proof.
  unfold write_money. destruct (exact v _); [|done]. destruct (writeDecimal _ _ _) as [a|] eqn:Ea; [|done].
  destruct (currency_code _) as [c|] eqn:Ec; [|done]. intros [= <-]. apply writeDecimal_Some in Ea. split; [done|].
  unfold money_value. cbn [amount moneyCurrency]. change (exact (obj _) _) with true. cbn iota.
  change (get (obj _) "amount") with (VString a). change (get (obj _) "currency") with (VString c).
  by rewrite (wd_again _ _ _ Ea), (currency_code_Some _ _ Ec).
Qed.

Lemma parse_source_Some v s : parse_source v = Some s -> parse_source (source_value s) = Some s.
Proof.
  unfold parse_source. destruct (exact v _); [|done]. destruct (tested source_type _) as [t|] eqn:Et; [|done].
  destruct (tested source_id _) as [i|] eqn:Ei; [|done]. destruct (revision _) as [r|] eqn:Er; [|done]. intros [= <-].
  apply tested_Some in Et as [_ Et], Ei as [_ Ei]. unfold source_value. cbn [sourceType sourceId sourceRevision].
  change (exact (obj _) _) with true. cbn iota. change (get (obj _) "type") with (VString t).
  change (get (obj _) "id") with (VString i). change (get (obj _) "revision") with (VInt r).
  unfold tested. cbn [as_string]. rewrite Et, Ei. unfold revision in *. by rewrite (as_integer_reparse _ _ _ _ Er).
Qed.

(** ** Lines and payments *)

Record folio_line_ok (from to : string) (l : FinanceFolioLineWrite) : Prop := {
  fl_position : 1 <= position l <= 1000;
  fl_kind : kind l ∈ FINANCE_FOLIO_LINE_KINDS;
  fl_quantity : 0 < scaled (quantity l);
  fl_service : local_date (serviceOn l) = true /\ str_lt (serviceOn l) from = false /\ str_lt to (serviceOn l) = false
}.

Record payment_ok (p : FinanceFolioPaymentReference) : Prop := {
  po_id : uuid_text (paymentId p) = true;
  po_amount : 0 < scaled (amount (paymentAmount p))
}.

Lemma written_positive q : written_decimal false false q -> 0 < scaled q.
Proof. intros [_ Hs Hz _]. specialize (Hs eq_refl). specialize (Hz eq_refl). lia. Qed.

Lemma parseLineWrite_Some v from to l : parseLineWrite v from to = Some l ->
  folio_line_ok from to l /\ parseLineWrite (folio_line_value l) from to = Some l.
Proof.
  unfold parseLineWrite. destruct (exact v _); [|done]. destruct (as_integer _ _ _) as [p|] eqn:Ep; [|done].
  destruct (line_kind _) as [k|] eqn:Ek; [|done]. destruct (clean _ _ _) as [d|] eqn:Ed; [|done].
  destruct (service_date _ _ _) as [s|] eqn:Es; [|done]. destruct (writeDecimal _ _ _) as [q|] eqn:Eq; [|done].
  destruct (write_money _ _ _) as [u|] eqn:Eu; [|done]. destruct (parse_source _) as [src|] eqn:Esrc; [|done].
  intros [= <-]. apply writeDecimal_Some in Eq. apply write_money_Some in Eu as [_ Eu].
  unfold service_date in Es. destruct (localDate _) as [t|] eqn:El; [|done]. destruct (negb _ && _) eqn:Eo; [|done].
  injection Es as ->. apply localDate_Some in El as [Hl El].
  pose proof Ek as Ek'. apply tested_Some in Ek' as [_ Hk]. split.
  - pose proof Eo as Eo'. apply andb_true_iff in Eo' as [Ho1%negb_true_iff Ho2%negb_true_iff].
    apply as_integer_Some in Ep as (_ & _ & Hp). split; cbn; [done | by apply includes_elem | by apply written_positive | done].
  - unfold folio_line_value. cbn [position kind description quantity unitAmount serviceOn source].
    change (exact (obj _) _) with true. cbn iota.
    change (get (obj _) "position") with (VInt p). change (get (obj _) "kind") with (VString k).
    change (get (obj _) "description") with (VString d). change (get (obj _) "quantity") with (VString q).
    change (get (obj _) "unitAmount") with (money_value u). change (get (obj _) "serviceOn") with (VString s).
    change (get (obj _) "source") with (source_value src).
    rewrite (as_integer_reparse _ _ _ _ Ep), (clean_Some _ _ _ _ Ed), (wd_again _ _ _ Eq), Eu, (parse_source_Some _ _ Esrc).
    unfold line_kind, tested, service_date. cbn [as_string]. by rewrite Hk, El, Eo.
Qed.

Lemma parsePaymentWrite_Some v p : parsePaymentWrite v = Some p ->
  payment_ok p /\ parsePaymentWrite (payment_value p) = Some p.
Proof.
  unfold parsePaymentWrite. destruct (exact v _); [|done]. destruct (canonicalUuid _) as [i|] eqn:Ei; [|done].
  destruct (write_money _ _ _) as [m|] eqn:Em; [|done]. intros [= <-].
  apply canonicalUuid_Some in Ei as [Hu Hi]. apply write_money_Some in Em as [Hd Hm]. split.
  - split; cbn; [done | by apply written_positive].
  - unfold payment_value. cbn [paymentId paymentAmount]. change (exact (obj _) _) with true. cbn iota.
    change (get (obj _) "paymentId") with (VString i). change (get (obj _) "amount") with (money_value m).
    by rewrite Hi, Hm.
Qed.

(** ** Order and sums *)

Lemma perm_forallb {A} (f : A -> bool) l k : l ≡ₚ k -> forallb f l = forallb f k.
Proof. induction 1; cbn; congruence || by rewrite !andb_assoc, (andb_comm (f y)). Qed.

Lemma distinct_positions l : all_distinct Z.eqb l = true <-> NoDup l.
Proof. apply all_distinct_NoDup. intros a b. apply Z.eqb_eq. Qed.

Lemma distinct_parts_perm ls ls' ps ps' : ls ≡ₚ ls' -> ps ≡ₚ ps' -> distinct_parts ls ps = true -> distinct_parts ls' ps' = true.
Proof.
  intros Hl Hp. unfold distinct_parts. rewrite !andb_true_iff, !distinct_positions, !no_repeats_NoDup.
  by rewrite (fmap_Permutation position _ _ Hl), (fmap_Permutation paymentId _ _ Hp).
Qed.

Lemma amounts_fit_perm ls ls' : ls ≡ₚ ls' -> amounts_fit ls = amounts_fit ls'.
Proof.
  intros H. unfold amounts_fit. pose proof (fmap_Permutation line_amount _ _ H) as Hp.
  by rewrite (perm_forallb within_numeric _ _ Hp), (sumZ_perm _ _ Hp).
Qed.

(** Every amount of a command is in one currency. *)
Definition in_currency (c : string) (ls : list FinanceFolioLineWrite) (ps : list FinanceFolioPaymentReference) : Prop :=
  Forall (fun l => moneyCurrency (unitAmount l) = c) ls /\ Forall (fun p => moneyCurrency (paymentAmount p) = c) ps.

Lemma small_set l : Nat.leb (length (set_of l)) 1 = true <-> exists c, Forall (fun x => x = c) l.
Proof.
  rewrite Nat.leb_le. pose proof (NoDup_set_of l) as Hd. split.
  - intros H. destruct (set_of l) as [|c [|d s]] eqn:E; [| |cbn in H; lia].
    + exists EmptyString. apply Forall_forall. intros x Hx%elem_of_set_of. rewrite E in Hx. by apply elem_of_nil in Hx.
    + exists c. apply Forall_forall. intros x Hx%elem_of_set_of. rewrite E in Hx. by apply list_elem_of_singleton in Hx.
  - intros (c & Hc). rewrite Forall_forall in Hc. destruct (set_of l) as [|x [|y s]] eqn:E; cbn; [lia..|]. exfalso.
    assert (Hx : x = c) by (apply Hc, elem_of_set_of; rewrite E; by left).
    assert (Hy : y = c) by (apply Hc, elem_of_set_of; rewrite E; right; by left). subst.
    apply NoDup_cons in Hd as [Hn _]. apply Hn. by left.
Qed.

Lemma one_currency_iff ls ps : one_currency ls ps = true <-> exists c, in_currency c ls ps.
Proof.
  unfold one_currency, in_currency. rewrite small_set. setoid_rewrite Forall_app. by setoid_rewrite Forall_fmap.
Qed.

Lemma one_currency_perm ls ls' ps ps' : ls ≡ₚ ls' -> ps ≡ₚ ps' -> one_currency ls ps = true -> one_currency ls' ps' = true.
Proof. intros Hl Hp. rewrite !one_currency_iff. unfold in_currency. by setoid_rewrite Hl; setoid_rewrite Hp. Qed.

Lemma positions_sorted ls : StronglySorted (fun a b => position a <= position b) (sort_by compare_positions ls).
Proof.
  apply StronglySorted_weaken with (R := fun a b => compare_positions a b <= 0).
  - intros a b. unfold compare_positions. lia.
  - apply sort_by_sorted; unfold compare_positions; lia.
Qed.

Lemma sort_positions_id ls : sort_by compare_positions (sort_by compare_positions ls) = sort_by compare_positions ls.
Proof.
  apply stable_sort_id. pose proof (positions_sorted ls) as H. apply StronglySorted_Sorted.
  apply StronglySorted_weaken with (R := fun a b => position a <= position b); [|exact H].
  intros a b Hab. apply Z.leb_le. unfold compare_positions. lia.
Qed.

Section Guarantees.
Context `{UuidCollation}.

Lemma compare_payments_le a b : payment_ok a -> payment_ok b ->
  (compare_payments a b <=? 0) = key_le paymentId a b.
Proof.
  intros [Ha _] [Hb _]. unfold compare_payments, key_le, str_le. rewrite <- locale_uuids by done. by rewrite Z.leb_compare.
Qed.

Lemma sort_payments ps : Forall payment_ok ps -> sort_by compare_payments ps = stable_sort (key_le paymentId) ps.
Proof. apply stable_sort_ext. apply compare_payments_le. Qed.

Lemma sort_payments_id ps : Forall payment_ok ps ->
  sort_by compare_payments (sort_by compare_payments ps) = sort_by compare_payments ps.
Proof.
  intros Hps. rewrite (sort_payments ps Hps). rewrite sort_payments by by apply Forall_stable_sort.
  apply stable_sort_id, stable_sort_sorted. intros a b. apply str_le_total.
Qed.

(** What an accepted command holds *)
Record folio_write_ok (action : FolioAction) (w : FinanceFolioWrite) : Prop := {
  fw_revision : match action with
                | create => expectedRevision w = None
                | correct => exists n, expectedRevision w = Some n /\ 1 <= n <= 2147483647
                end;
  fw_dates : str_lt (serviceTo w) (serviceFrom w) = false;
  fw_lines : Forall (folio_line_ok (serviceFrom w) (serviceTo w)) (lines w);
  fw_order : StronglySorted (fun a b => position a < position b) (lines w);
  fw_payments : Forall payment_ok (paymentRefs w);
  fw_payment_order : sorted_by str_lt (paymentId <$> paymentRefs w) = true;
  fw_currency : exists c, in_currency c (lines w) (paymentRefs w)
}.

(** Everything the parser establishes, before the parts are put in order *)
Lemma parse_folio_parts value action w : parseFinanceFolioWrite value action = Some w -> exists ls ps,
  lines w = sort_by compare_positions ls /\ paymentRefs w = sort_by compare_payments ps /\
  Forall (fun l => folio_line_ok (serviceFrom w) (serviceTo w) l /\
            parseLineWrite (folio_line_value l) (serviceFrom w) (serviceTo w) = Some l) ls /\
  Forall (fun p => payment_ok p /\ parsePaymentWrite (payment_value p) = Some p) ps /\
  Z.of_nat (length ls) <= 1000 /\ Z.of_nat (length ps) <= 1000 /\
  distinct_parts ls ps = true /\ amounts_fit ls = true /\ one_currency ls ps = true.
Proof.
  unfold parseFinanceFolioWrite. intros Hw. follow Hw. cbn [lines paymentRefs serviceFrom serviceTo].
  repeat match goal with E : limited_array _ _ = Some _ |- _ => unfold limited_array in E; follow E end.
  repeat match goal with E : traverse _ _ = Some _ |- _ => pose proof (traverse_length _ _ _ E); revert E end.
  intros Hls Hps. rewrite !andb_true_iff in *. eexists _, _. split_and!; try done.
  - eapply traverse_Forall; [|exact Hls]. intros ? ?. apply parseLineWrite_Some.
  - eapply traverse_Forall; [|exact Hps]. intros ? ?. apply parsePaymentWrite_Some.
  - bool_to_prop; lia.
  - bool_to_prop; lia.
  - naive_solver.
  - naive_solver.
  - naive_solver.
Qed.

Definition value_or_undefined {A} (value : A -> jsval) (o : option A) : jsval :=
  match o with Some a => value a | None => VUndefined end.

Lemma expected_Some action v o : expected_revision action v = Some o ->
  expected_revision action (value_or_undefined VInt o) = Some o /\
  match action with create => o = None | correct => exists n, o = Some n /\ 1 <= n <= 2147483647 end.
Proof.
  destruct action; cbn [expected_revision].
  - destruct (is_undefined v); [|done]. by intros [= <-].
  - destruct (revision v) as [n|] eqn:E; [|done]. intros [= <-]. unfold revision in *. cbn [value_or_undefined].
    rewrite (as_integer_reparse _ _ _ _ E). split; [done|]. exists n. split; [done|]. by apply as_integer_Some in E as (_ & _ & ?).
Qed.

Lemma optional_uuid_Some v o : optional canonicalUuid v = Some o ->
  optional canonicalUuid (value_or_undefined VString o) = Some o.
Proof.
  unfold optional. destruct (is_undefined v); [by intros [= <-]|]. destruct (canonicalUuid v) as [s|] eqn:E; [|done].
  intros [= <-]. cbn [value_or_undefined is_undefined]. by rewrite (proj2 (canonicalUuid_Some _ _ E)).
Qed.

Lemma parse_folio_scalars value action w : parseFinanceFolioWrite value action = Some w ->
  canonicalUuid (VString (commandId w)) = Some (commandId w) /\
  clean 1 200 (VString (idempotencyKey w)) = Some (idempotencyKey w) /\
  (expected_revision action (value_or_undefined VInt (expectedRevision w)) = Some (expectedRevision w) /\
   match action with
   | create => expectedRevision w = None
   | correct => exists n, expectedRevision w = Some n /\ 1 <= n <= 2147483647
   end) /\
  optional canonicalUuid (value_or_undefined VString (bookingId w)) = Some (bookingId w) /\
  recipient (recipient_value (writeRecipient w)) = Some (writeRecipient w) /\
  localDate (VString (serviceFrom w)) = Some (serviceFrom w) /\
  localDate (VString (serviceTo w)) = Some (serviceTo w) /\ str_lt (serviceTo w) (serviceFrom w) = false.
Proof.
  unfold parseFinanceFolioWrite. intros Hw. follow Hw.
  cbn [commandId idempotencyKey expectedRevision bookingId writeRecipient serviceFrom serviceTo].
  split_and!; first [by eapply canonicalUuid_Some | by eapply clean_Some | by eapply expected_Some
    | by eapply optional_uuid_Some | by eapply recipient_Some | by eapply localDate_Some | by apply negb_true_iff].
Qed.

(** An accepted folio command is in order: corrections carry the revision they
    correct and creations none, every line is served within the stay of the folio,
    lines are in strict order of their positions, payments are positive and in
    strict order of their identifiers, and all amounts are in one currency. *)
Theorem folio_write_sound value action w : parseFinanceFolioWrite value action = Some w -> folio_write_ok action w.
Proof.
  intros Hw. pose proof (parse_folio_scalars _ _ _ Hw) as (_ & _ & [_ Hrev] & _ & _ & _ & _ & Hdates).
  destruct (parse_folio_parts _ _ _ Hw) as (ls & ps & El & Ep & Hls & Hps & _ & _ & Hd & _ & Hc).
  apply Forall_and in Hls as [Hls _], Hps as [Hps _]. unfold distinct_parts in Hd.
  rewrite andb_true_iff, distinct_positions, no_repeats_NoDup in Hd. destruct Hd as [Hdl Hdp].
  split; [done..| | | | |].
  - rewrite El. by apply Forall_stable_sort.
  - rewrite El. apply (strictly_sorted position); [by rewrite sort_by_perm | apply positions_sorted].
  - rewrite Ep. by apply Forall_stable_sort.
  - rewrite Ep, sort_payments by done. by apply stable_sort_key_sorted.
  - apply one_currency_iff. eapply one_currency_perm; [| |exact Hc]; [rewrite El | rewrite Ep]; symmetry; apply sort_by_perm.
Qed.

(** The amounts of an accepted folio fit the columns that store them: the total
    of every line is quantity times unit amount to the nearest ten-thousandth,
    ties away from zero, each total has at most nineteen digits, and the folio
    comes to no negative and no larger amount. *)
Theorem folio_write_amounts value action w : parseFinanceFolioWrite value action = Some w ->
  Forall (fun l => let product := scaled (quantity l) * scaled (amount (unitAmount l)) in
            2 * Z.abs (10000 * line_amount l - product) <= 10000 /\
            (2 * Z.abs (10000 * line_amount l - product) = 10000 -> Z.abs product < Z.abs (10000 * line_amount l)) /\
            Z.abs (line_amount l) < 10 ^ 19) (lines w) /\
  0 <= sumZ (line_amount <$> lines w) < 10 ^ 19.
Proof.
  intros Hw. destruct (parse_folio_parts _ _ _ Hw) as (ls & ps & El & _ & _ & _ & _ & _ & _ & Ha & _).
  rewrite <- (amounts_fit_perm _ _ (sort_by_perm compare_positions ls)), <- El in Ha.
  unfold amounts_fit in Ha. rewrite !andb_true_iff, !Z.leb_le in Ha. destruct Ha as [[Hn Hlow] Hhigh].
  change (10 ^ 19) with (MAX_NUMERIC_19_4 + 1). split; [|lia].
  apply Forall_forall. intros l Hl. pose proof (forallb_elem _ _ (line_amount l) Hn) as Hb.
  specialize (Hb (list_elem_of_fmap_2 _ _ _ Hl)). unfold within_numeric in Hb. rewrite andb_true_iff, !Z.leb_le in Hb.
  destruct (round_scaled_nearest (scaled (quantity l) * scaled (amount (unitAmount l)))) as [Hnear Htie].
  fold (roundedProduct (quantity l) (amount (unitAmount l))) in Hnear, Htie. fold (line_amount l) in Hnear, Htie.
  split_and!; [done | done | lia].
Qed.

(** An accepted folio command, written out as the parser returns it, is read
    back unchanged. *)
Theorem folio_write_reads_back value action w :
  parseFinanceFolioWrite value action = Some w -> parseFinanceFolioWrite (folio_write_value w) action = Some w.
Proof.
  intros Hw. pose proof (parse_folio_scalars _ _ _ Hw) as (Hid & Hkey & [Hrev _] & Hbk & Hrcp & Hfrom & Hto & Hdates).
  destruct (parse_folio_parts _ _ _ Hw) as (ls & ps & El & Ep & Hls & Hps & Hnl & Hnp & Hd & Ha & Hc).
  apply Forall_and in Hls as [_ Hls], Hps as [Hpok Hps].
  assert (Hlines : traverse (fun v => parseLineWrite v (serviceFrom w) (serviceTo w)) (folio_line_value <$> lines w) = Some (lines w)).
  { rewrite El. eapply traverse_fmap_Forall; [|apply Forall_stable_sort, Hls]. done. }
  assert (Hpays : traverse parsePaymentWrite (payment_value <$> paymentRefs w) = Some (paymentRefs w)).
  { rewrite Ep. eapply traverse_fmap_Forall; [|apply Forall_stable_sort, Hps]. done. }
  assert (Hal : limited_array 1000 (arr (folio_line_value <$> lines w)) = Some (folio_line_value <$> lines w)).
  { unfold limited_array. rewrite as_array_arr, length_fmap, El, (Permutation_length (sort_by_perm _ _)).
    by apply Z.leb_le in Hnl as ->. }
  assert (Hap : limited_array 1000 (arr (payment_value <$> paymentRefs w)) = Some (payment_value <$> paymentRefs w)).
  { unfold limited_array. rewrite as_array_arr, length_fmap, Ep, (Permutation_length (sort_by_perm _ _)).
    by apply Z.leb_le in Hnp as ->. }
  assert (Hlp : ls ≡ₚ lines w) by (rewrite El; symmetry; apply sort_by_perm).
  assert (Hpp : ps ≡ₚ paymentRefs w) by (rewrite Ep; symmetry; apply sort_by_perm).
  apply (distinct_parts_perm _ _ _ _ Hlp Hpp) in Hd. apply (one_currency_perm _ _ _ _ Hlp Hpp) in Hc.
  rewrite (amounts_fit_perm _ _ Hlp) in Ha.
  assert (Hsl : sort_by compare_positions (lines w) = lines w) by (rewrite El; apply sort_positions_id).
  assert (Hsp : sort_by compare_payments (paymentRefs w) = paymentRefs w) by (rewrite Ep; by apply sort_payments_id).
  clear El Ep Hls Hps Hlp Hpp.
  destruct w as [c k [n|] [b|] r f t ls' ps'];
    cbn [commandId idempotencyKey expectedRevision bookingId writeRecipient serviceFrom serviceTo lines paymentRefs
         value_or_undefined] in *;
    unfold parseFinanceFolioWrite, folio_write_value;
    cbn [commandId idempotencyKey expectedRevision bookingId writeRecipient serviceFrom serviceTo lines paymentRefs present app];
    lazymatch goal with |- context [known ?v WRITE_KEYS && has ?v required_write_keys] =>
      change (known v WRITE_KEYS && has v required_write_keys) with true; cbn iota;
      change (get v "commandId") with (VString c); change (get v "idempotencyKey") with (VString k);
      change (get v "recipient") with (recipient_value r); change (get v "serviceFrom") with (VString f);
      change (get v "serviceTo") with (VString t); change (get v "lines") with (arr (folio_line_value <$> ls'));
      change (get v "paymentRefs") with (arr (payment_value <$> ps'));
      first [change (get v "expectedRevision") with (VInt n) | change (get v "expectedRevision") with VUndefined];
      first [change (get v "bookingId") with (VString b) | change (get v "bookingId") with VUndefined]
    end;
    by rewrite Hid, Hkey, Hrev, Hbk, Hrcp, Hfrom, Hto, Hdates, Hal, Hap, Hlines, Hpays, Hd, Ha, Hc, Hsl, Hsp.
Qed.
End Guarantees.

(** * Accepted export snapshots

    What the parser of export snapshots promises about a snapshot it accepts, and
    that it is read back unchanged. *)

Definition filters_value (f : FinanceFolioExportFilters) : jsval :=
  obj (present "from" VString (filterFrom f) ++ present "to" VString (filterTo f) ++
       present "search" VString (filterSearch f) ++
       [("sort", VString (filterSort f)); ("state", VString "ready")]).

Definition selection_value (e : FinanceFolioExportSelection) : jsval :=
  obj [("folioId", VString (selectedFolioId e)); ("revisionId", VString (selectedRevisionId e));
       ("revision", VInt (selectedRevision e)); ("sourceDigest", VString (selectedDigest e))].

Definition snapshot_value (s : FinanceFolioExportSnapshot) : jsval :=
  obj [("formatVersion", VString FINANCE_FOLIO_CSV_VERSION); ("propertyId", VString (snapshotPropertyId s));
       ("currency", VString (snapshotCurrency s)); ("filters", filters_value (filters s));
       ("snapshotAt", VString (snapshotAt s)); ("manifest", arr (selection_value <$> manifest s))].

(** ** Filters *)

Lemma optional_Some {A} (read : jsval -> option A) (value : A -> jsval) v o :
  (forall a, is_undefined (value a) = false) ->
  (forall a, read v = Some a -> read (value a) = Some a) ->
  optional read v = Some o -> optional read (value_or_undefined value o) = Some o.
Proof.
  intros Hv Hr. unfold optional. destruct (is_undefined v); [by intros [= <-]|]. destruct (read v) as [a|]; [|done].
  intros [= <-]. cbn [value_or_undefined]. by rewrite Hv, Hr.
Qed.

Lemma filters_Some v f : parseFinanceFolioExportFilters v = Some f ->
  parseFinanceFolioExportFilters (filters_value f) = Some f.
Proof.
  unfold parseFinanceFolioExportFilters. destruct (_ && _ && _) eqn:Eg; [|done].
  destruct (parseFinanceFolioQuery v) as [q|] eqn:Eq; [|done]. destruct (bool_decide _) eqn:Es; [|done]. intros [= <-].
  revert Eq Es. unfold parseFinanceFolioQuery. destruct (known v QUERY_KEYS); [|done].
  destruct (optional localDate (get v "from")) as [from|] eqn:Ef; [|done].
  destruct (optional localDate (get v "to")) as [to|] eqn:Et; [|done].
  destruct (optional _ (get v "state")) as [st|]; [|done].
  destruct (if is_undefined (get v "sort") then _ else _) as [sort|] eqn:Esort; [|done].
  destruct (queryLimit _) as [n|]; [|done]. destruct (dates_in_order from to) eqn:Eo; [|done].
  destruct (optional _ (get v "search")) as [search|] eqn:Ese; [|done]. destruct (optional _ (get v "cursor")); [|done].
  intros [= <-] _. cbn [queryFrom queryTo querySearch querySort].
  apply (optional_Some localDate VString) in Ef; [|done|intros ? ?; by eapply localDate_Some].
  apply (optional_Some localDate VString) in Et; [|done|intros ? ?; by eapply localDate_Some].
  apply (optional_Some (as_trimmed 1 200) VString) in Ese; [|done|intros ? ?; by eapply as_trimmed_reparse].
  assert (Hs : oneOf (VString sort) FINANCE_FOLIO_SORTS = Some sort).
  { destruct (is_undefined _); [by injection Esort as <-|]. apply tested_Some in Esort as [_ E]. unfold oneOf, tested. cbn [as_string]. by rewrite E. }
  clear Esort Eg. unfold filters_value. cbn [filterFrom filterTo filterSearch filterSort].
  destruct from as [from|], to as [to|], search as [search|]; cbn [value_or_undefined present app] in *;
    lazymatch goal with |- context [is_object ?v && negb (has_own ?v "cursor") && negb (has_own ?v "limit")] =>
      change (is_object v && negb (has_own v "cursor") && negb (has_own v "limit")) with true; cbn iota;
      change (known v QUERY_KEYS) with true; cbn iota;
      first [change (get v "from") with (VString from) | change (get v "from") with VUndefined];
      first [change (get v "to") with (VString to) | change (get v "to") with VUndefined];
      first [change (get v "search") with (VString search) | change (get v "search") with VUndefined];
      change (get v "sort") with (VString sort); change (get v "state") with (VString "ready");
      change (get v "limit") with VUndefined; change (get v "cursor") with VUndefined
    end;
    rewrite ?Ef, ?Et, ?Ese; cbn [is_undefined]; rewrite Hs; cbn [queryLimit is_undefined];
    change (optional (fun x => oneOf x FINANCE_FOLIO_VIEW_STATES) (VString "ready")) with (Some (Some "ready"));
    cbn iota; rewrite ?Eo; by rewrite ?Ef, ?Et, ?Ese.
Qed.

(** ** Entries *)

Record selection_ok (e : FinanceFolioExportSelection) : Prop := {
  se_folio : uuid_text (selectedFolioId e) = true;
  se_revision_id : uuid_text (selectedRevisionId e) = true;
  se_revision : 1 <= selectedRevision e <= MAX_SAFE_INTEGER;
  se_digest : matches (replicate 64 is_lower_hex) (selectedDigest e) = true
}.

Lemma canonicalUuid_text s : uuid_text s = true -> canonicalUuid (VString s) = Some s.
Proof.
  unfold uuid_text. destruct (canonicalUuid (VString s)) as [t|] eqn:E; [|done]. intros _. rewrite <- E. revert E.
  unfold canonicalUuid. cbn [as_string]. destruct (_ && _); [|done]. by intros [= ->].
Qed.

Lemma parse_selection_value folios revisions e : selection_ok e ->
  parse_selection folios revisions (selection_value e) =
    Ret (guard? negb (includes folios (selectedFolioId e)) && negb (includes revisions (selectedRevisionId e)) in Some e).
Proof.
  intros [Hf Hr Hn Hd]. destruct e as [f r n d]. cbn [selectedFolioId selectedRevisionId selectedRevision selectedDigest] in *.
  unfold parse_selection, selection_value. cbn [selectedFolioId selectedRevisionId selectedRevision selectedDigest].
  change (is_object (obj _) && Nat.eqb (length (keys_of (obj _))) 4) with true. cbn iota.
  change (get (obj _) "folioId") with (VString f). change (get (obj _) "revisionId") with (VString r).
  change (get (obj _) "revision") with (VInt n). change (get (obj _) "sourceDigest") with (VString d).
  rewrite (canonicalUuid_text f Hf), (canonicalUuid_text r Hr).
  assert (E : as_safe_integer 1 (VInt n) = Some n).
  { apply as_integer_Some. split; [done|]. split; [|done]. unfold safe_integer. lia. }
  rewrite E. unfold coerced_matching. cbn [coerced exn_bind]. by rewrite Hd.
Qed.

Lemma parse_selection_Some folios revisions v e : parse_selection folios revisions v = Ret (Some e) ->
  selection_ok e /\ selectedFolioId e ∉ folios /\ selectedRevisionId e ∉ revisions.
Proof.
  unfold parse_selection. destruct (_ && _); [|done]. destruct (canonicalUuid (get v "folioId")) as [f|] eqn:Ef; [|done].
  destruct (canonicalUuid (get v "revisionId")) as [r|] eqn:Er; [|done].
  destruct (as_safe_integer 1 _) as [n|] eqn:En; [|done]. unfold coerced_matching.
  destruct (coerced _) as [s|]; [|done]. cbn [exn_bind]. destruct (matches _ s) eqn:Ed; [|done].
  destruct (negb _ && _) eqn:Eo; [|done]. intros [= <-]. apply andb_true_iff in Eo as [Hf%negb_true_iff Hr%negb_true_iff].
  apply canonicalUuid_Some in Ef as [Ef _], Er as [Er _]. apply as_integer_Some in En as (_ & _ & En).
  split_and!; [by split | by apply includes_false | by apply includes_false].
Qed.

Lemma parse_manifest_Some l : forall folios revisions es, parse_manifest folios revisions l = Ret (Some es) ->
  Forall selection_ok es /\ NoDup (selectedFolioId <$> es) /\ NoDup (selectedRevisionId <$> es) /\
  Forall (fun e => selectedFolioId e ∉ folios /\ selectedRevisionId e ∉ revisions) es /\
  parse_manifest folios revisions (selection_value <$> es) = Ret (Some es).
Proof.
  induction l as [|v l IH]; intros folios revisions es; cbn [parse_manifest].
  - intros [= <-]. split_and!; by try constructor.
  - destruct (parse_selection folios revisions v) as [[e|]|] eqn:Ee; [|done..]. cbn [exn_bind].
    destruct (parse_manifest _ _ l) as [[rest|]|] eqn:Er; [|done..]. cbn [exn_bind]. intros [= <-].
    apply parse_selection_Some in Ee as (Hok & Hf & Hr). apply IH in Er as (Hall & Hdf & Hdr & Hnew & Hp).
    rewrite Forall_forall in Hnew. split_and!.
    + by constructor.
    + constructor; [|done]. intros (e' & E & He')%list_elem_of_fmap. apply (proj1 (Hnew e' He')). rewrite <- E. by left.
    + constructor; [|done]. intros (e' & E & He')%list_elem_of_fmap. apply (proj2 (Hnew e' He')). rewrite <- E. by left.
    + constructor; [done|]. apply Forall_forall. intros e' He'. destruct (Hnew e' He') as [H1 H2].
      split; intros H; [apply H1 | apply H2]; by right.
    + cbn [fmap list_fmap parse_manifest]. rewrite parse_selection_value by done.
      rewrite (proj2 (includes_false _ _) Hf), (proj2 (includes_false _ _) Hr). cbn [negb andb exn_bind].
      change (list_fmap _ _ selection_value rest) with (selection_value <$> rest). by rewrite Hp.
Qed.

(** An accepted export snapshot names every folio and every revision once, with
    well-formed identifiers, revisions and digests, and is read back unchanged,
    even where the submitted texts were wrapped in arrays. *)
Theorem export_snapshot_reads_back value s : parseFinanceFolioExportSnapshot value = Ret (Some s) ->
  Forall selection_ok (manifest s) /\ NoDup (selectedFolioId <$> manifest s) /\
  NoDup (selectedRevisionId <$> manifest s) /\
  parseFinanceFolioExportSnapshot (snapshot_value s) = Ret (Some s).
Proof.
  unfold parseFinanceFolioExportSnapshot. destruct (is_object value && _ && _); [|done].
  destruct (canonicalUuid (get value "propertyId")) as [p|] eqn:Ep; [|done].
  unfold coerced_matching. destruct (coerced (get value "currency")) as [c|]; [|done]. cbn [exn_bind].
  destruct (matches (replicate 3 _) c) eqn:Ec; [|done]. destruct (isoInstant _) as [t|] eqn:Et; [|done].
  destruct (as_array _) as [raw|]; [|done]. destruct (parseFinanceFolioExportFilters _) as [f|] eqn:Ef; [|done].
  destruct (parse_manifest [] [] raw) as [[es|]|] eqn:Em; [|done..]. cbn [exn_bind]. intros [= <-].
  apply parse_manifest_Some in Em as (Hok & Hdf & Hdr & _ & Hm). apply filters_Some in Ef.
  apply canonicalUuid_Some in Ep as [_ Ep]. cbn [manifest]. split_and!; [done..|].
  unfold snapshot_value. cbn [snapshotPropertyId snapshotCurrency filters snapshotAt manifest].
  change (is_object (obj _) && Nat.eqb (length (keys_of (obj _))) 6 &&
          is_str (get (obj _) "formatVersion") FINANCE_FOLIO_CSV_VERSION) with true. cbn iota.
  change (get (obj _) "propertyId") with (VString p). change (get (obj _) "currency") with (VString c).
  change (get (obj _) "filters") with (filters_value f). change (get (obj _) "snapshotAt") with (VString t).
  change (get (obj _) "manifest") with (arr (selection_value <$> es)).
  assert (Ht : isoInstant (VString t) = Some t).
  { revert Et. unfold isoInstant. destruct (as_string _) as [s|]; [|done]. cbn [as_string].
    destruct (parse_instant s) eqn:E1; [|destruct (parse_instant_ext s) eqn:E2; [|done]];
      destruct (String.eqb _ s) eqn:E3; try done; intros [= <-]; by rewrite ?E1, ?E2, ?E3. }
  rewrite Ep. cbn [coerced exn_bind]. by rewrite Ec, Ht, as_array_arr, Ef, Hm.
Qed.
