(* ===== verification/PaymentWindows.v ===== *)
(** * Booking windows of payment methods

    packages/domain-booking/src/paymentMethodWindows.ts: how long before arrival a
    payment method is offered, and the lead times at which none is. *)

From S2P Require Import Prelude JsValue.

(** ** Data *)

Inductive WindowedPaymentMethod := card | pay_at_property | bank_transfer.

Definition method_text (m : WindowedPaymentMethod) : string :=
  match m with card => "card" | pay_at_property => "pay_at_property" | bank_transfer => "bank_transfer" end.

Definition WINDOWED_PAYMENT_METHODS : list WindowedPaymentMethod := [card; pay_at_property; bank_transfer].

Definition BANK_TRANSFER_PAYMENT_DEADLINE_HOURS : Z := 48.

Inductive WindowKind := at_least | within.
Inductive WindowUnit := hours | days.

Record PaymentMethodBookingWindow := { windowKind : WindowKind; windowAmount : Z; windowUnit : WindowUnit }.

(** [Partial<Record<WindowedPaymentMethod, PaymentMethodBookingWindow>>] *)
Definition PaymentMethodBookingWindows : Type := list (string * PaymentMethodBookingWindow).

Definition window_of (windows : PaymentMethodBookingWindows) (m : WindowedPaymentMethod)
    : option PaymentMethodBookingWindow := map_get windows (method_text m).

Definition MAX_WINDOW_HOURS : Z := 365 * 24.

Definition isWindowedPaymentMethod (method : string) : bool :=
  includes (method_text <$> WINDOWED_PAYMENT_METHODS) method.

Definition paymentWindowHours (w : PaymentMethodBookingWindow) : Z :=
  windowAmount w * (match windowUnit w with days => 24 | hours => 1 end).

(** ** Settings *)

Inductive PaymentMethodWindowsProblem := invalid | bank_transfer_window_too_short.

Definition window_kind (kind unit : jsval) : option (WindowKind * WindowUnit) :=
  if is_str kind "at_least" && is_str unit "days" then Some (at_least, days)
  else if is_str kind "within" && is_str unit "hours" then Some (within, hours)
  else if is_str kind "within" && is_str unit "days" then Some (within, days)
  else None.

Definition parseWindow (v : jsval) : option PaymentMethodBookingWindow :=
  guard? is_object v && String.eqb (join "," (stable_sort str_le (keys_of v))) "amount,kind,unit" in
  let? n := (match get v "amount" with VInt n => Some n | _ => None end) in
  guard? 1 <=? n in
  let? (kind, unit) := window_kind (get v "kind") (get v "unit") in
  let w := {| windowKind := kind; windowAmount := n; windowUnit := unit |} in
  guard? paymentWindowHours w <=? MAX_WINDOW_HOURS in
  Some w.

Definition bankTransferWindowFits (w : PaymentMethodBookingWindow) : bool :=
  match windowKind w with
  | at_least => 3 <=? windowAmount w
  | within => BANK_TRANSFER_PAYMENT_DEADLINE_HOURS <? paymentWindowHours w
  end.

(** The entries of the settings, read one after the other into [windows]; an error
    names its method. *)
Fixpoint parse_windows (v : jsval) (windows : PaymentMethodBookingWindows) (keys : list string)
    : result (PaymentMethodWindowsProblem * option string) PaymentMethodBookingWindows :=
  match keys with
  | [] => Ok windows
  | method :: rest =>
      if negb (isWindowedPaymentMethod method) then Err (invalid, Some method)
      else if is_null (get v method) then parse_windows v windows rest
      else
        match parseWindow (get v method) with
        | None => Err (invalid, Some method)
        | Some w =>
            if String.eqb method "bank_transfer" && negb (bankTransferWindowFits w)
            then Err (bank_transfer_window_too_short, Some method)
            else parse_windows v (map_set windows method w) rest
        end
  end.

Definition parsePaymentMethodBookingWindows (v : jsval)
    : result (PaymentMethodWindowsProblem * option string) PaymentMethodBookingWindows :=
  if negb (is_object v) then Err (invalid, None) else parse_windows v [] (keys_of v).

(** ** Lead times *)

Definition HOUR_MS : Z := 3600000.

Definition paymentWindowAllows (window : option PaymentMethodBookingWindow) (leadMs : Z) : bool :=
  match window with
  | None => true
  | Some w =>
      let limit := paymentWindowHours w * HOUR_MS in
      match windowKind w with at_least => limit <=? leadMs | within => leadMs <=? limit end
  end.

(** [None] is [Number.POSITIVE_INFINITY], and [toHours] of [null]. *)
Record Range := { from : Z; to : option Z }.
Record PaymentMethodGap := { fromHours : Z; toHours : option Z }.

Definition range_of (windows : PaymentMethodBookingWindows) (m : WindowedPaymentMethod) : Range :=
  let start := match m with bank_transfer => BANK_TRANSFER_PAYMENT_DEADLINE_HOURS | _ => 0 end in
  match window_of windows m with
  | None => {| from := start; to := None |}
  | Some w =>
      match windowKind w with
      | at_least => {| from := Z.max start (paymentWindowHours w); to := None |}
      | within => {| from := start; to := Some (paymentWindowHours w) |}
      end
  end.

Definition nonempty (r : Range) : bool := match to r with Some t => from r <=? t | None => true end.

(** [Math.max(covered, to)] *)
Definition cover (covered : Z) (t : option Z) : option Z := Z.max covered <$> t.

(** [covered = None] is infinity: nothing lies beyond it. *)
Fixpoint gaps_from (covered : option Z) (ranges : list Range) : list PaymentMethodGap :=
  match covered, ranges with
  | None, _ => []
  | Some c, [] => [{| fromHours := c; toHours := None |}]
  | Some c, r :: rest =>
      (if c <? from r then [{| fromHours := c; toHours := Some (from r) |}] else []) ++
      gaps_from (cover c (to r)) rest
  end.

Definition paymentMethodGaps (methods : list WindowedPaymentMethod) (windows : PaymentMethodBookingWindows)
    : list PaymentMethodGap :=
  gaps_from (Some 0)
    (sort_by (fun a b => from a - from b) (List.filter nonempty (range_of windows <$> methods))).

(** ** Accepted settings *)

(** A window the parser accepts for a method *)
Record window_ok (method : string) (w : PaymentMethodBookingWindow) : Prop := {
  wo_amount : 1 <= windowAmount w;
  wo_hours : 1 <= paymentWindowHours w <= MAX_WINDOW_HOURS;
  wo_unit : windowKind w = at_least -> windowUnit w = days;
  wo_bank : method = "bank_transfer" -> bankTransferWindowFits w = true
}.

Definition windows_ok (windows : PaymentMethodBookingWindows) : Prop :=
  NoDup windows.*1 /\ Forall (fun e => isWindowedPaymentMethod (fst e) = true /\ window_ok (fst e) (snd e)) windows.

Lemma parseWindow_ok v w : parseWindow v = Some w ->
  1 <= windowAmount w /\ 1 <= paymentWindowHours w <= MAX_WINDOW_HOURS /\ (windowKind w = at_least -> windowUnit w = days).
Proof.
  unfold parseWindow. destruct (is_object v && _); [|done].
  destruct (get v "amount") as [| | |n| | | | |]; try done. destruct (Z.leb_spec 1 n); [|done].
  unfold window_kind. intros Hw. follow Hw; bool_to_prop; unfold paymentWindowHours in *;
    cbn [windowAmount windowUnit windowKind] in *; split_and!; done || lia.
Qed.

Lemma parse_windows_ok v keys : forall windows result, windows_ok windows ->
  parse_windows v windows keys = Ok result -> windows_ok result.
Proof.
  induction keys as [|method keys IH]; intros windows result Hok; cbn [parse_windows]; [by intros [= <-]|].
  destruct (isWindowedPaymentMethod method) eqn:Em; [|done]. cbn [negb].
  destruct (is_null (get v method)); [by apply IH|]. destruct (parseWindow (get v method)) as [w|] eqn:Ew; [|done].
  destruct (String.eqb method "bank_transfer" && negb (bankTransferWindowFits w)) eqn:Eb; [done|]. apply IH.
  destruct Hok as [Hd Hall]. split; [by apply map_set_NoDup|]. rewrite Forall_forall in Hall |- *.
  intros e He. apply elem_of_map_set in He as [->|[He _]]; [|by apply Hall | done]. cbn [fst snd]. split; [done|].
  apply parseWindow_ok in Ew as (H1 & H2 & H3). split; try done. intros ->. cbn in Eb. by apply negb_false_iff in Eb.
Qed.

(** ** Gaps *)

(** A method is usable this long before check-in: its window allows it, and a bank
    transfer arrives within its deadline. *)
Definition usable (windows : PaymentMethodBookingWindows) (leadMs : Z) (m : WindowedPaymentMethod) : Prop :=
  paymentWindowAllows (window_of windows m) leadMs = true /\
  (m = bank_transfer -> BANK_TRANSFER_PAYMENT_DEADLINE_HOURS * HOUR_MS <= leadMs).

(** After the end of what is covered, before the next method; a gap that begins
    with the arrival holds it. *)
Definition after (hours leadMs : Z) : Prop := hours * HOUR_MS < leadMs \/ (hours = 0 /\ leadMs = 0).

Definition in_gap (leadMs : Z) (g : PaymentMethodGap) : Prop :=
  after (fromHours g) leadMs /\ match toHours g with Some t => leadMs < t * HOUR_MS | None => True end.

Definition in_range (leadMs : Z) (r : Range) : Prop :=
  from r * HOUR_MS <= leadMs /\ match to r with Some t => leadMs <= t * HOUR_MS | None => True end.

Definition range_ok (r : Range) : Prop := 0 <= from r /\ match to r with Some t => 1 <= t | None => True end.

Lemma usable_range windows leadMs m : 0 <= leadMs -> windows_ok windows ->
  range_ok (range_of windows m) /\
  (usable windows leadMs m <-> nonempty (range_of windows m) = true /\ in_range leadMs (range_of windows m)).
Proof.
  intros Hlead [Hd Hall]. unfold usable, range_of, paymentWindowAllows, BANK_TRANSFER_PAYMENT_DEADLINE_HOURS.
  destruct (window_of windows m) as [w|] eqn:E.
  - assert (Hw : window_ok (method_text m) w).
    { apply map_get_elem in E. rewrite Forall_forall in Hall. by apply (Hall _ E). }
    destruct Hw as [_ Hh _ _]. unfold in_range, nonempty, range_ok, HOUR_MS in *.
    destruct (windowKind w); cbn [from to]; rewrite ?Z.leb_le; destruct m; (split; [lia|]);
      (split; [intros [H1 H2]; try specialize (H2 eq_refl) | intros [H1 H2]]; split_and!; try done; intros; try lia; try done).
  - unfold in_range, nonempty, range_ok, HOUR_MS. cbn [from to]. destruct m; (split; [lia|]);
      (split; [intros [H1 H2]; try specialize (H2 eq_refl) | intros [H1 H2]]; split_and!; try done; intros; try lia; try done).
Qed.

Lemma gaps_from_exact leadMs ranges : 0 <= leadMs -> forall covered,
  (forall c, covered = Some c -> 0 <= c) -> Forall range_ok ranges ->
  StronglySorted (fun a b => from a <= from b) ranges ->
  Exists (in_gap leadMs) (gaps_from covered ranges) <->
  match covered with Some c => after c leadMs | None => False end /\ ~ Exists (in_range leadMs) ranges.
Proof.
  intros Hlead. induction ranges as [|r ranges IH]; intros covered Hc Hok Hs; cbn [gaps_from].
  - destruct covered as [c|]; [|rewrite Exists_nil; naive_solver]. rewrite Exists_cons, !Exists_nil. unfold in_gap. cbn. naive_solver.
  - destruct covered as [c|]; [|rewrite Exists_nil; naive_solver]. specialize (Hc c eq_refl).
    inversion Hok as [|? ? [Hr0 Hr1] Hok']. inversion Hs as [|? ? Hs' Hall]. subst.
    rewrite Exists_app, IH, Exists_cons; [|unfold cover; destruct (to r); intros ? [= <-]; lia | done..]. clear IH.
    assert (Hrest : leadMs < from r * HOUR_MS -> ~ Exists (in_range leadMs) ranges).
    { intros Hlt He. apply Exists_exists in He as (r' & Hin & Hr' & _). rewrite Forall_forall in Hall.
      specialize (Hall r' Hin). unfold HOUR_MS in *. nia. }
    unfold in_range, in_gap, after, cover, HOUR_MS in *. destruct (Z.ltb_spec c (from r)).
    + rewrite Exists_cons, Exists_nil. cbn [fromHours toHours].
      destruct (to r) as [t|]; cbn [fmap option_fmap option_map]; split.
      * intros [[[Ha Hb]|[]]|[Ha Hb]]; split; [lia | | lia |]; intros [H1|H1]; [lia | by apply Hrest in Hb | lia | done].
      * intros [Ha Hb]. destruct (decide (leadMs < from r * 3600000)); [left; left; lia|].
        right. split; [|naive_solver]. left. assert (~ (leadMs <= t * 3600000)) by (intros ?; apply Hb; left; lia). lia.
      * intros [[[Ha Hb]|[]]|[[] _]]; split; [lia|]; intros [H1|H1]; [lia | by apply Hrest in Hb].
      * intros [Ha Hb]. left. left. split; [lia|]. assert (~ (from r * 3600000 <= leadMs)) by (intros ?; apply Hb; left; done). lia.
    + rewrite Exists_nil. destruct (to r) as [t|]; cbn [fmap option_fmap option_map]; split.
      * intros [[]|[Ha Hb]]. split; [lia|]. intros [H1|H1]; [lia | done].
      * intros [Ha Hb]. right. split; [|naive_solver]. assert (~ (from r * 3600000 <= leadMs /\ leadMs <= t * 3600000)) by (intros ?; apply Hb; by left). lia.
      * intros [[]|[[] _]].
      * intros [Ha Hb]. exfalso. apply Hb. left. lia.
Qed.

(** C9: the warned gaps are exact: with windows the settings accept, the hotel has
    no payment method for a guest who books this long before arrival exactly when
    the lead time lies in one of the gaps. *)
Theorem payment_gaps_exact v windows methods leadMs :
  parsePaymentMethodBookingWindows v = Ok windows -> 0 <= leadMs ->
  Exists (in_gap leadMs) (paymentMethodGaps methods windows) <-> ~ Exists (usable windows leadMs) methods.
Proof.
  unfold parsePaymentMethodBookingWindows. destruct (is_object v); [|done]. cbn [negb]. intros Hp Hlead.
  apply parse_windows_ok in Hp; [|split; constructor]. unfold paymentMethodGaps. rewrite gaps_from_exact; [|done| | |].
  - assert (He : Exists (usable windows leadMs) methods <->
        Exists (in_range leadMs) (sort_by (fun a b => from a - from b) (List.filter nonempty (range_of windows <$> methods)))).
    { rewrite !Exists_exists. split.
      - intros (m & Hm & Hu). apply (usable_range windows leadMs m Hlead Hp) in Hu as [Hn Hr]. exists (range_of windows m).
        split; [|done]. apply elem_of_sort_by, elem_of_bfilter. split; [|done]. by apply list_elem_of_fmap_2.
      - intros (r & Hin & Hr). apply elem_of_sort_by, elem_of_bfilter in Hin as [(m & -> & Hm)%list_elem_of_fmap Hn].
        exists m. split; [done|]. by apply (usable_range windows leadMs m Hlead Hp). }
    rewrite He. unfold after, HOUR_MS. intuition lia.
  - intros c [= <-]. lia.
  - apply Forall_stable_sort. apply Forall_forall. intros r [(m & -> & _)%list_elem_of_fmap _]%elem_of_bfilter.
    apply (usable_range windows leadMs m Hlead Hp).
  - apply StronglySorted_weaken with (R := fun a b => from a - from b <= 0); [lia|]. apply sort_by_sorted; lia.
Qed.
