(* ===== verification/InventoryRules.v ===== *)
(** * Inventory rules of the channel manager

    packages/domain-pms-channex/src/inventoryRules.ts: rules that offset, cap or
    close the availability sent to channels, and whether two of them meet. *)

From S2P Require Import Prelude JsValue CalendarDates.

(** ** Data *)

Definition INVENTORY_RULE_DAYS : list string := ["su"; "mo"; "tu"; "we"; "th"; "fr"; "sa"].

Record ChannexInventoryRule := {
  ruleId : string;
  ruleType : string;
  ruleValue : option Z;
  channelIds : list string;
  roomTypeIds : list string;
  startDate : string;
  endDate : string;
  ruleDays : list string
}.

Record ChannexInventoryRulesInput := {
  expectedOperationId : option string;
  rules : list ChannexInventoryRule
}.

(** [/^[0-9a-f]{8}-[0-9a-f]{4}-[0-9a-f]{4}-[0-9a-f]{4}-[0-9a-f]{12}$/i] *)
Definition uuid_pattern : list (ascii -> bool) :=
  replicate 8 is_hex ++ [is_char "-"] ++ replicate 4 is_hex ++ [is_char "-"] ++ replicate 4 is_hex ++ [is_char "-"] ++
  replicate 4 is_hex ++ [is_char "-"] ++ replicate 12 is_hex.

Definition rule_uuid (v : jsval) : option string :=
  let? s := as_string v in guard? matches uuid_pattern s in Some s.

Definition ids (v : jsval) : option (list string) :=
  let? l := as_array v in
  guard? negb (Nat.eqb (length l) 0) && (Z.of_nat (length l) <=? 100) in
  let? texts := traverse rule_uuid l in
  guard? no_repeats texts in
  Some texts.

(** The text of a calendar day: [Date.parse] fails or rolls over on others. *)
Definition date (v : jsval) : option string := let? s := as_string v in guard? pricingDate v in Some s.

(** ** Reading *)

Definition rule_days (v : jsval) : option (list string) :=
  let? l := as_array v in
  guard? negb (Nat.eqb (length l) 0) in
  let? texts := traverse as_string l in
  guard? forallb (includes INVENTORY_RULE_DAYS) texts && no_repeats texts in
  Some texts.

Definition rule_value (type : string) (v : jsval) : option (option Z) :=
  if String.eqb type "close_out" then guard? is_null v in Some None
  else
    guard? includes ["availability_offset"; "max_availability"] type in
    let? n := (match v with VInt n => Some n | _ => None end) in
    guard? (0 <=? n) && (n <=? 9999) in
    Some (Some n).

(** A rule as it was submitted *)
Definition parse_rule (v : jsval) : option ChannexInventoryRule :=
  let? i := rule_uuid (get v "id") in
  let? c := ids (get v "channelIds") in
  let? r := ids (get v "roomTypeIds") in
  let? s := date (get v "startDate") in
  let? e := date (get v "endDate") in
  guard? negb (str_lt e s) in
  let? d := rule_days (get v "days") in
  let? t := as_string (get v "type") in
  let? n := rule_value t (get v "value") in
  Some {| ruleId := i; ruleType := t; ruleValue := n; channelIds := c; roomTypeIds := r; startDate := s; endDate := e;
          ruleDays := d |}.

Definition sorted_lower (l : list string) : list string := stable_sort str_le (to_lower <$> l).

Definition canonical_rule (r : ChannexInventoryRule) : ChannexInventoryRule :=
  {| ruleId := to_lower (ruleId r); ruleType := ruleType r; ruleValue := ruleValue r;
     channelIds := sorted_lower (channelIds r); roomTypeIds := sorted_lower (roomTypeIds r);
     startDate := startDate r; endDate := endDate r; ruleDays := stable_sort str_le (ruleDays r) |}.

Definition operation_id (v : jsval) : option (option string) :=
  if is_null v then Some None else let? s := rule_uuid v in Some (Some s).

Definition parseInventoryRules `{Collation} (v : jsval) : option ChannexInventoryRulesInput :=
  let? operation := operation_id (get v "expectedOperationId") in
  let? raw := as_array (get v "rules") in
  guard? Z.of_nat (length raw) <=? 50 in
  let? rs := traverse parse_rule raw in
  guard? no_repeats ((fun r => to_lower (ruleId r)) <$> rs) in
  Some {| expectedOperationId := operation;
          rules := sort_by (fun a b => localeCompare (ruleId a) (ruleId b)) (canonical_rule <$> rs) |}.

(** ** Overlap *)

(** [getUTCDay]: the epoch was a Thursday. *)
Definition weekday_key (day : Z) : string := List.nth (Z.to_nat ((day + 4) mod 7)) INVENTORY_RULE_DAYS EmptyString.

(** [toISOString().slice(0, 10)] *)
Definition day_text (day : Z) : string := substring 0 10 (iso_date day).

Fixpoint shared_day (fuel : nat) (a b : ChannexInventoryRule) (day : Z) (last : string) : bool :=
  match fuel with
  | O => false
  | S fuel =>
      str_le (day_text day) last &&
      ((includes (ruleDays a) (weekday_key day) && includes (ruleDays b) (weekday_key day)) ||
       shared_day fuel a b (day + 1) last)
  end.

Definition inventoryRulesOverlap (a b : ChannexInventoryRule) : bool :=
  if negb (existsb (includes (channelIds b)) (channelIds a)) || negb (existsb (includes (roomTypeIds b)) (roomTypeIds a))
  then false
  else
    let start := if str_lt (startDate b) (startDate a) then startDate a else startDate b in
    let last := if str_lt (endDate a) (endDate b) then endDate a else endDate b in
    shared_day 7 a b (date_parse start) last.

(** ** Accepted rules *)

Record rule_ok (r : ChannexInventoryRule) : Prop := {
  ro_dates : pricingDate (VString (startDate r)) = true /\ pricingDate (VString (endDate r)) = true;
  ro_order : date_parse (startDate r) <= date_parse (endDate r);
  ro_days : ruleDays r <> [] /\ Forall (fun d => d ∈ INVENTORY_RULE_DAYS) (ruleDays r) /\ NoDup (ruleDays r);
  ro_value : match ruleValue r with
             | None => ruleType r = "close_out"
             | Some n => ruleType r ∈ ["availability_offset"; "max_availability"] /\ 0 <= n <= 9999
             end
}.

Lemma date_Some v s : date v = Some s -> v = VString s /\ pricingDate (VString s) = true.
Proof. unfold date. destruct v; cbn [as_string]; try done. destruct (pricingDate _) eqn:E; [|done]. by intros [= <-]. Qed.

Lemma parse_rule_ok v r : parse_rule v = Some r -> rule_ok r.
Proof.
  unfold parse_rule. destruct (rule_uuid _) as [i|]; [|done]. destruct (ids _) as [c|]; [|done].
  destruct (ids _) as [rt|]; [|done]. destruct (date (get v "startDate")) as [s|] eqn:Es; [|done].
  destruct (date (get v "endDate")) as [e|] eqn:Ee; [|done]. destruct (str_lt e s) eqn:Eo; [done|]. cbn [negb].
  destruct (rule_days _) as [d|] eqn:Ed; [|done]. destruct (as_string _) as [t|]; [|done].
  destruct (rule_value _ _) as [n|] eqn:En; [|done]. intros [= <-].
  apply date_Some in Es as [_ Hs], Ee as [_ He]. rewrite str_lt_dates in Eo by done. apply Z.ltb_ge in Eo.
  split; cbn [startDate endDate ruleDays ruleType ruleValue]; [done | done | |].
  - unfold rule_days in Ed. destruct (as_array _) as [l|]; [|done]. destruct (Nat.eqb (length l) 0) eqn:El; [done|].
    cbn [negb] in Ed. destruct (traverse as_string l) as [texts|] eqn:Et; [|done].
    destruct (forallb _ texts && no_repeats texts) eqn:Ek; [|done]. injection Ed as <-. apply andb_true_iff in Ek as [Hk Hn].
    split_and!; [|apply Forall_forall; intros x Hx; apply includes_elem; exact (forallb_elem _ _ _ Hk Hx)|by apply no_repeats_NoDup].
    intros ->. apply traverse_length in Et. rewrite <- Et in El. done.
  - unfold rule_value in En. destruct (String.eqb_spec t "close_out") as [->|Ht].
    + destruct (is_null _); [|done]. by injection En as <-.
    + destruct (includes _ t) eqn:Ei; [|done]. destruct (get v "value") as [| | |z| | | | |]; try done.
      destruct ((0 <=? z) && (z <=? 9999)) eqn:Ez; [|done]. injection En as <-. apply includes_elem in Ei.
      rewrite andb_true_iff, !Z.leb_le in Ez. done.
Qed.

Lemma canonical_rule_ok r : rule_ok r -> rule_ok (canonical_rule r).
Proof.
  intros [Hd Ho (Hn & Hall & Hdup) Hv]. split; cbn [startDate endDate ruleDays ruleType ruleValue canonical_rule]; try done.
  split_and!; [|by apply Forall_stable_sort | by rewrite stable_sort_perm].
  intros E. apply Hn. pose proof (stable_sort_perm str_le (ruleDays r)) as Hp. rewrite E in Hp.
  by apply Permutation_nil_l in Hp.
Qed.

Lemma parsed_rules_ok `{Collation} v input : parseInventoryRules v = Some input -> Forall rule_ok (rules input).
Proof.
  unfold parseInventoryRules. destruct (operation_id _); [|done]. destruct (as_array _) as [raw|]; [|done].
  destruct (_ <=? 50); [|done]. destruct (traverse parse_rule raw) as [rs|] eqn:E; [|done].
  destruct (no_repeats _); [|done]. intros [= <-]. cbn [rules]. apply Forall_stable_sort, Forall_fmap.
  apply traverse_Forall with (P := rule_ok) in E; [|apply parse_rule_ok]. eapply Forall_impl; [exact E|]. apply canonical_rule_ok.
Qed.

(** ** Days *)

Lemma day_text_four n : four_digit_day n -> day_text n = iso_date n.
Proof.
  intros Hn. destruct (iso_date_text n Hn) as (y & m & d & _ & _ & Hy & _ & E & _). unfold day_text. rewrite E.
  unfold date_text. destruct ((0 <=? y) && (y <=? 9999)) eqn:Ey; [done|]. lia.
Qed.

Lemma str_le_dates s t : pricingDate (VString s) = true -> pricingDate (VString t) = true ->
  str_le s t = (date_parse s <=? date_parse t).
Proof. intros Hs Ht. unfold str_le, Z.leb. by rewrite date_text_order. Qed.

Lemma day_before n last : four_digit_day n -> pricingDate (VString last) = true ->
  str_le (day_text n) last = (n <=? date_parse last).
Proof.
  intros Hn Hl. rewrite day_text_four by done. rewrite str_le_dates by (done || by apply pricing_date_iso_date).
  by rewrite date_parse_iso_date.
Qed.

(** Both rules name the weekday. *)
Definition named_day (a b : ChannexInventoryRule) (day : Z) : Prop :=
  weekday_key day ∈ ruleDays a /\ weekday_key day ∈ ruleDays b.

Lemma shared_day_spec a b last fuel : pricingDate (VString last) = true -> forall day,
  day_from_year 0 <= day -> day + Z.of_nat fuel <= day_from_year 10000 ->
  shared_day fuel a b day last = true <->
  exists i, 0 <= i < Z.of_nat fuel /\ day + i <= date_parse last /\ named_day a b (day + i).
Proof.
  intros Hl. induction fuel as [|fuel IH]; intros day Hlo Hhi; cbn [shared_day]; [split; [done|]; intros (i & Hi & _); lia|].
  rewrite day_before by (done || unfold four_digit_day; lia).
  rewrite andb_true_iff, orb_true_iff, andb_true_iff, !includes_elem, Z.leb_le, IH by lia. split.
  - intros [Hday [Hn|(i & Hi & Hle & Hn)]].
    + exists 0. rewrite Z.add_0_r. split_and!; [lia.. | done].
    + exists (i + 1). rewrite (Z.add_assoc day), (Z.add_comm (day + i)), Z.add_assoc, (Z.add_comm 1). split_and!; [lia.. | done].
  - intros (i & Hi & Hle & Hn). split; [lia|]. destruct (decide (i = 0)) as [->|Hi0].
    + left. by rewrite Z.add_0_r in Hn.
    + right. exists (i - 1). replace (day + 1 + (i - 1)) with (day + i) by lia. split_and!; [lia.. | done].
Qed.

Lemma weekday_shift n k : weekday_key (n + 7 * k) = weekday_key n.
Proof. unfold weekday_key. f_equal. f_equal. replace (n + 7 * k + 4) with (n + 4 + k * 7) by lia. by rewrite Z.mod_add. Qed.

(** The rule holds on a day. *)
Definition on_day (r : ChannexInventoryRule) (day : Z) : Prop :=
  date_parse (startDate r) <= day <= date_parse (endDate r) /\ weekday_key day ∈ ruleDays r.

Lemma later_date s t : pricingDate (VString s) = true -> pricingDate (VString t) = true ->
  let l := if str_lt t s then s else t in
  pricingDate (VString l) = true /\ date_parse l = Z.max (date_parse s) (date_parse t).
Proof.
  intros Hs Ht. cbv zeta. rewrite str_lt_dates by done. destruct (Z.ltb_spec (date_parse t) (date_parse s)); split; done || lia.
Qed.

Lemma earlier_date s t : pricingDate (VString s) = true -> pricingDate (VString t) = true ->
  let l := if str_lt s t then s else t in
  pricingDate (VString l) = true /\ date_parse l = Z.min (date_parse s) (date_parse t).
Proof.
  intros Hs Ht. cbv zeta. rewrite str_lt_dates by done. destruct (Z.ltb_spec (date_parse s) (date_parse t)); split; done || lia.
Qed.

Lemma shares l k : existsb (includes k) l = true <-> exists x, x ∈ l /\ x ∈ k.
Proof.
  rewrite existsb_exists. split; intros (x & Hx & H); exists x; rewrite ?includes_elem, ?list_elem_of_In in *; done.
Qed.

(** C10: two accepted rules overlap exactly when some channel, some room type and some
    day belong to both: looking at the first seven common days is enough, as long
    as the rules end a week before the year 10000. *)
Theorem rules_overlap_exact `{Collation} v w i j a b :
  parseInventoryRules v = Some i -> parseInventoryRules w = Some j -> a ∈ rules i -> b ∈ rules j ->
  date_parse (endDate a) + 7 <= day_from_year 10000 ->
  inventoryRulesOverlap a b = true <->
  (exists c, c ∈ channelIds a /\ c ∈ channelIds b) /\ (exists t, t ∈ roomTypeIds a /\ t ∈ roomTypeIds b) /\
  (exists day, on_day a day /\ on_day b day).
Proof.
  intros Hv%parsed_rules_ok Hw%parsed_rules_ok Ha Hb Hend. rewrite Forall_forall in Hv, Hw.
  destruct (Hv a Ha) as [[Has Hae] Hao _ _], (Hw b Hb) as [[Hbs Hbe] Hbo _ _].
  unfold inventoryRulesOverlap. rewrite <- !shares.
  destruct (existsb (includes (channelIds b)) (channelIds a)); [|naive_solver].
  destruct (existsb (includes (roomTypeIds b)) (roomTypeIds a)); [|naive_solver]. cbn [negb orb].
  destruct (later_date _ _ Has Hbs) as [Hs Es]. destruct (earlier_date _ _ Hae Hbe) as [Hl El]. cbv zeta in *.
  set (start := if str_lt (startDate b) (startDate a) then _ else _) in *.
  set (last := if str_lt (endDate a) (endDate b) then _ else _) in *. clearbody start last.
  pose proof (pricing_date_four_digit _ Hs) as H4. unfold four_digit_day in H4.
  assert (Hmeet : (exists day, on_day a day /\ on_day b day) <->
      exists n, 0 <= n < 7 /\ date_parse start + n <= date_parse last /\ named_day a b (date_parse start + n)).
  { unfold on_day, named_day. rewrite Es, El. split.
    - intros (day & [H1 K1] & [H2 K2]). set (s := Z.max _ _) in *.
      exists ((day - s) mod 7). pose proof (Z.mod_pos_bound (day - s) 7 ltac:(lia)).
      pose proof (Z.div_mod (day - s) 7 ltac:(lia)) as Hdiv. pose proof (Z.div_pos (day - s) 7 ltac:(lia) ltac:(lia)).
      assert (E : weekday_key (s + (day - s) mod 7) = weekday_key day).
      { rewrite <- (weekday_shift _ ((day - s) / 7)). f_equal. lia. }
      rewrite E. split_and!; [lia.. | done | done].
    - intros (n & Hn & Hle & K1 & K2). exists (Z.max (date_parse (startDate a)) (date_parse (startDate b)) + n).
      split_and!; first [done | lia]. }
  rewrite Hmeet. destruct (decide (date_parse start <= date_parse last)) as [Hle|Hle].
  - rewrite shared_day_spec by (done || lia). naive_solver.
  - split; [|intros (_ & _ & n & Hn & Hx & _); lia]. cbn [shared_day].
    rewrite day_before by (done || unfold four_digit_day; lia). rewrite (proj2 (Z.leb_gt _ _)) by lia. done.
Qed.
