(* ===== verification/BookingAmounts.v ===== *)
(** * Booking amounts

    packages/domain-booking/src/bookingPriceCalculation.ts: decimals rounded to
    minor units and printed again, the non-refundable discount and the markup of a
    channel, all without binary fractions. *)

From S2P Require Import Prelude JsValue JsonText CalendarDates Money FolioDecimals.

Definition BOOKING_PRICE_MAX_MINOR_UNITS : Z := 9223372036854775807.

(** The match of [/^(0|[1-9][0-9]{0,12})(?:\.([0-9]{1,18}))?$/] *)
Definition DECIMAL_PATTERN (s : string) : option (string * string) :=
  let '(whole, fraction) := split_dot s in
  guard? canonical_decimal whole && (str_length whole <=? 13) in
  match fraction with
  | None => Some (whole, EmptyString)
  | Some f => guard? all_chars is_digit f && (1 <=? str_length f) && (str_length f <=? 18) in Some (whole, f)
  end.

(** The match of [MINOR_UNITS_PATTERN], zero or digits without a leading zero, within the largest
    amount *)
Definition minor_units_text (s : string) : bool :=
  canonical_decimal s && (BigInt s <=? BOOKING_PRICE_MAX_MINOR_UNITS).

Definition char_at (n : nat) (s : string) : ascii := default "0"%char (String.get n s).

Definition roundBookingPriceDecimalToMinorUnits (value : jsval) : option string :=
  let? s := as_string value in
  let? (whole, fraction) := DECIMAL_PATTERN s in
  let fraction := pad_end 3 fraction in
  let minorUnits := BigInt whole * 100 + BigInt (substring 0 2 fraction) in
  let minorUnits := if 5 <=? digit_val (char_at 2 fraction) then minorUnits + 1 else minorUnits in
  guard? minorUnits <=? BOOKING_PRICE_MAX_MINOR_UNITS in
  Some (Z_to_string minorUnits).

(** [`${s.slice(0, -2)}.${s.slice(-2)}`] of a text of three characters or more *)
Definition with_point (s : string) : string :=
  let n := (String.length s - 2)%nat in substring 0 n s +:+ "." +:+ substring n 2 s.

Definition formatBookingPriceMinorUnits (value : jsval) : option string :=
  let? s := as_string value in
  guard? minor_units_text s in
  Some (with_point (pad_start 3 s)).

Definition invalidInput : string := "Booking price calculation input is invalid".

Definition boundedMinorUnits (value : Z) : exn Z :=
  if (value <? 0) || (BOOKING_PRICE_MAX_MINOR_UNITS <? value) then Throw invalidInput else Ret value.

Definition minorUnits (value : Z) : exn string := try! n := boundedMinorUnits value in Ret (Z_to_string n).

Definition roundRatioHalfUp (numerator denominator : Z) : exn Z :=
  let quotient := Z.quot numerator denominator in
  let remainder := Z.rem numerator denominator in
  boundedMinorUnits (if denominator <=? remainder * 2 then quotient + 1 else quotient).

Record Discounted := { discountMinorUnits : string; finalMinorUnits : string }.

Definition applyBookingPricePercentageDiscount (flexibleNightMinorUnits discountPercent : jsval)
    : exn (option Discounted) :=
  let inputs :=
    let? s := as_string flexibleNightMinorUnits in
    guard? minor_units_text s in
    let? d := as_integer discountPercent 1 50 in
    Some (BigInt s, d) in
  match inputs with
  | None => Ret None
  | Some (flexible, d) =>
      try! final := roundRatioHalfUp (flexible * (100 - d)) 100 in
      try! discount := minorUnits (flexible - final) in
      try! f := minorUnits final in
      Ret (Some {| discountMinorUnits := discount; finalMinorUnits := f |})
  end.

(** [/^\d+(?:\.\d{1,4})?$/] and the value in ten-thousandths *)
Definition percent_units (s : string) : option Z :=
  let '(whole, fraction) := split_dot s in
  guard? all_chars is_digit whole && (1 <=? str_length whole) in
  let? f := (match fraction with
             | None => Some EmptyString
             | Some f => guard? fraction_digits 1 f in Some f
             end) in
  Some (digits_value whole * 10000 + digits_value (pad_end 4 f)).

(** The percentage is given by its text [String(percent)]; a text of the pattern
    has the value of the number where the bounds, 50 and 200, are concerned. *)
Definition applyBookingPriceMarkup (amount percent : string) : exn string :=
  let units :=
    let? u := percent_units (unsigned percent) in
    guard? (if negative percent then u <=? 500000 else u <=? 2000000) in
    Some (if negative percent then - u else u) in
  match units with
  | None => Throw "Invalid channel markup."
  | Some units =>
      try! n := roundRatioHalfUp (BigInt amount * (1000000 + units)) 1000000 in
      try! text := minorUnits n in
      match formatBookingPriceMinorUnits (VString text) with
      | Some t => Ret t
      | None => Throw "TypeError"
      end
  end.

(** ** Rounding *)

Lemma round_half_up n d : 0 <= n -> 0 < d ->
  let q := if d <=? Z.rem n d * 2 then Z.quot n d + 1 else Z.quot n d in
  0 <= q /\ 2 * Z.abs (d * q - n) <= d /\ (2 * Z.abs (d * q - n) = d -> n < d * q).
Proof.
  intros Hn Hd. cbv zeta. pose proof (Z.quot_rem' n d). pose proof (Z.rem_bound_pos n d Hn Hd).
  pose proof (Z.quot_pos n d Hn Hd). destruct (Z.leb_spec d (Z.rem n d * 2)); nia.
Qed.

Lemma bounded_minor_units n : 0 <= n <= BOOKING_PRICE_MAX_MINOR_UNITS -> boundedMinorUnits n = Ret n.
Proof. intros Hn. unfold boundedMinorUnits. rewrite (proj2 (Z.ltb_ge _ _)), (proj2 (Z.ltb_ge _ _)) by lia. done. Qed.

(** The non-refundable discount splits a night without loss: for every amount and
    every discount of the source it succeeds, the two parts add up to the amount,
    and the final part is the discounted amount to the nearest minor unit, halves
    up. *)
Theorem booking_discount_splits s d : minor_units_text s = true -> 1 <= d <= 50 ->
  exists final discount,
    applyBookingPricePercentageDiscount (VString s) (VInt d) =
      Ret (Some {| discountMinorUnits := Z_to_string discount; finalMinorUnits := Z_to_string final |}) /\
    discount + final = BigInt s /\ 0 <= discount /\ 0 <= final /\
    2 * Z.abs (100 * final - BigInt s * (100 - d)) <= 100 /\
    (2 * Z.abs (100 * final - BigInt s * (100 - d)) = 100 -> BigInt s * (100 - d) < 100 * final).
Proof.
  intros Hs Hd. pose proof Hs as Hs'. unfold minor_units_text in Hs'. rewrite andb_true_iff, Z.leb_le in Hs'.
  destruct Hs' as [Hc Hm]. apply canonical_decimal_value in Hc as [H0 _].
  destruct (round_half_up (BigInt s * (100 - d)) 100 ltac:(nia) ltac:(lia)) as (Hq0 & Hq & Htie).
  set (q := if _ <=? _ then _ else _) in *.
  assert (Hle : q <= BigInt s) by nia.
  exists q, (BigInt s - q). split; [|split_and!; lia || done].
  unfold applyBookingPricePercentageDiscount. cbn [as_string]. rewrite Hs.
  rewrite (proj2 (as_integer_Some (VInt d) 1 50 d)).
  2: { split; [done|]. split; [|lia]. unfold safe_integer, MAX_SAFE_INTEGER. lia. }
  unfold roundRatioHalfUp. fold q. unfold minorUnits. clearbody q.
  repeat (rewrite bounded_minor_units by lia; cbn [exn_bind]). done.
Qed.

(** ** Printed amounts *)

Lemma last_two s : 2 <= str_length s -> exists w a b, s = w +:+ String a (String b EmptyString).
Proof.
  induction s as [|c s IH]; [unfold str_length; cbn; lia|]. rewrite str_length_cons. intros Hs.
  destruct s as [|d [|e s]]; [unfold str_length in Hs; cbn in Hs; lia | by exists EmptyString, c, d|].
  destruct IH as (w & a & b & E); [unfold str_length; cbn; lia|]. exists (String c w), a, b. by rewrite E.
Qed.

Lemma with_point_app w a b :
  with_point (w +:+ String a (String b EmptyString)) = w +:+ String "." (String a (String b EmptyString)).
Proof.
  unfold with_point. rewrite string_length_app. cbn [String.length]. rewrite Nat.add_sub.
  by rewrite substring_prefix, substring_suffix.
Qed.

(** The canonical text of an amount, padded to three digits: a whole part without
    leading zeros, and two digits. *)
Lemma padded_shape s : canonical_decimal s = true ->
  exists w a b, pad_start 3 s = w +:+ String a (String b EmptyString) /\ canonical_decimal w = true /\
    is_digit a = true /\ is_digit b = true /\ str_length w <= Z.max 1 (str_length s - 2).
Proof.
  intros Hs. assert (Hd : all_chars is_digit s = true).
  { unfold canonical_decimal in Hs. apply orb_true_iff in Hs as [->%String.eqb_eq|[_ H]%andb_true_iff]; done. }
  unfold pad_start. destruct s as [|c [|d [|e s]]]; [done | | |].
  - cbn [all_chars] in Hd. rewrite andb_true_iff in Hd. destruct Hd as [Hc _].
    exists "0", "0"%char, c. split_and!; done || lia.
  - cbn [all_chars] in Hd. rewrite !andb_true_iff in Hd. destruct Hd as (Hc & Hd & _).
    exists "0", c, d. split_and!; done || lia.
  - set (t := String d (String e s)) in *.
    destruct (last_two t) as (w & a & b & E); [unfold t; rewrite !str_length_cons; pose proof (str_length_nonneg s); lia|].
    assert (Hc : starts_nonzero (String c t) = true).
    { unfold canonical_decimal in Hs. apply orb_true_iff in Hs as [H|[H _]%andb_true_iff]; [|done].
      apply String.eqb_eq in H. by injection H. }
    change (3 - String.length (String c t))%nat with 0%nat. clearbody t. subst t.
    change (String c (w +:+ ?r)) with (String c w +:+ r) in *. rewrite all_chars_app in Hd.
    apply andb_true_iff in Hd as [Hw Hab]. cbn [all_chars] in Hab. rewrite !andb_true_iff in Hab.
    exists (String c w), a, b. split_and!; try tauto.
    + unfold canonical_decimal, positive_decimal. rewrite Hw.
      change (starts_nonzero (String c w) = true) in Hc. rewrite Hc. apply orb_true_r.
    + rewrite str_length_app, !str_length_cons. change (str_length "") with 0. lia.
Qed.

(** An amount printed for a guest reads back as the amount: whole units and two
    decimals, no digit lost. *)
Theorem booking_amounts_read_back s : minor_units_text s = true -> str_length s <= 15 ->
  exists t, formatBookingPriceMinorUnits (VString s) = Some t /\
    roundBookingPriceDecimalToMinorUnits (VString t) = Some s.
Proof.
  intros Hs Hlen. unfold formatBookingPriceMinorUnits. cbn [as_string]. rewrite Hs. eexists. split; [done|].
  unfold minor_units_text in Hs. rewrite andb_true_iff, Z.leb_le in Hs. destruct Hs as [Hc Hm].
  destruct (canonical_digits s Hc) as [Hd _]. destruct (canonical_decimal_value s Hc) as [_ Hprint].
  destruct (padded_shape s Hc) as (w & a & b & E & Hw & Ha & Hb & Hl). pose proof (pad_start_value 3 s) as Hv.
  rewrite digits_BigInt in Hprint, Hm by done. rewrite <- Hv in Hprint, Hm. rewrite E in *.
  destruct (canonical_digits w Hw) as [Hwd _]. rewrite with_point_app.
  unfold roundBookingPriceDecimalToMinorUnits, DECIMAL_PATTERN. cbn [as_string].
  rewrite split_dot_digits, Hw, (proj2 (Z.leb_le _ _)) by (done || lia). cbn [all_chars andb]. rewrite Ha, Hb.
  set (t := String a (String b EmptyString)) in *. assert (Ht : all_chars is_digit t = true) by (cbn; by rewrite Ha, Hb).
  change (1 <=? str_length t) with true. change (str_length t <=? 18) with true. cbn [andb].
  change (pad_end 3 t) with (t +:+ "0"). change (substring 0 2 (t +:+ "0")) with t.
  change (char_at 2 (t +:+ "0")) with "0"%char. change (5 <=? digit_val "0") with false. cbv iota.
  rewrite digits_fold_app, digits_fold_shift in Hprint, Hm. change (10 ^ str_length t) with 100 in *.
  rewrite !digits_BigInt by done. rewrite (proj2 (Z.leb_le _ _)) by done. by rewrite Hprint.
Qed.
