(* ===== verification/OtaCommission.v ===== *)
(** * Commission rules of sales channels

    packages/domain-finance/src/otaCommissionRules.ts: the rate and the window of a
    rule, and the rule that applies to a channel at an instant. *)

From S2P Require Import Prelude JsValue JsonText CalendarDates Money FolioDecimals.

(** ** Data *)

Inductive FinanceOtaChannel := booking_com | airbnb | expedia | agoda | other_ota.

#[export] Instance FinanceOtaChannel_eq_dec : EqDecision FinanceOtaChannel.
Proof. solve_decision. Defined.

Record FinanceOtaCommissionRule := {
  ruleId : string;
  rulePropertyId : string;
  ruleChannel : FinanceOtaChannel;
  percentageRate : string;
  effectiveFrom : string;
  effectiveTo : option string;
  ruleRevision : Z
}.

Record CommissionQuery := { queryPropertyId : string; queryChannel : FinanceOtaChannel; effectiveAt : string }.

Inductive FinanceOtaCommissionRuleResolution :=
| applied (rule : FinanceOtaCommissionRule)
| missing (query : CommissionQuery).

(** ** Rates *)

(** [/^(?:0|[1-9]\d?)(?:\.\d{1,4})?$|^100(?:\.0{1,4})?$/u] *)
Definition OTA_COMMISSION_RATE (s : string) : bool :=
  let '(whole, fraction) := split_dot s in
  canonical_decimal whole && (str_length whole <=? 2) &&
    match fraction with Some f => fraction_digits 1 f | None => true end ||
  String.eqb whole "100" &&
    match fraction with
    | Some f => all_chars (is_char "0") f && (1 <=? str_length f) && (str_length f <=? 4)
    | None => true
    end.

Definition normalizeFinanceOtaCommissionRate (s : string) : option string :=
  if OTA_COMMISSION_RATE s then
    let '(whole, fraction) := split_dot s in
    Some (whole +:+ "." +:+ pad_end 4 (default EmptyString fraction))
  else None.

(** ** Instants *)

(** [(?:\.(\d{1,3}))?] and the text after it *)
Definition fraction_and_zone (s : string) : option (string * string) :=
  match s with
  | String c r =>
      if is_char "." c then
        let '(fraction, zone) := span_digits r in
        guard? (1 <=? str_length fraction) && (str_length fraction <=? 3) in
        Some (fraction, zone)
      else Some (EmptyString, s)
  | EmptyString => None
  end.

(** [Z|[+-]\d{2}:\d{2}], as minutes east, with hours up to 23 and minutes up to 59 *)
Definition zone_minutes (s : string) : option Z :=
  match s with
  | String sg (String h1 (String h2 (String c (String m1 (String m2 EmptyString))))) =>
      let hours := 10 * digit_val h1 + digit_val h2 in
      let minutes := 10 * digit_val m1 + digit_val m2 in
      guard? (is_char "+" sg || is_char "-" sg) && is_digit h1 && is_digit h2 && is_char ":" c && is_digit m1 &&
        is_digit m2 && (hours <=? 23) && (minutes <=? 59) in
      Some ((if is_char "-" sg then -1 else 1) * (hours * 60 + minutes))
  | _ => if String.eqb s "Z" then Some 0 else None
  end.

(** The wall clock of an [OFFSET_INSTANT], which prints back its seconds, and its
    distance from UTC *)
Definition wall_and_zone (s : string) : option (Z * Z) :=
  let? (head, rest) := split_at 19 s in
  let? (fraction, zone) := fraction_and_zone rest in
  let? offset := zone_minutes zone in
  let? wall := parse_instant (head +:+ "." +:+ pad_end 3 fraction +:+ "Z") in
  guard? String.eqb (substring 0 19 (to_iso_string wall)) head in
  Some (wall, offset).

Definition timestamp (s : string) : exn Z :=
  match wall_and_zone s with
  | Some (wall, offset) => Ret (wall - offset * 60000)
  | None => Throw "Invalid OTA commission rule timestamp"
  end.

Definition normalizeFinanceOtaCommissionInstant (s : string) : option string :=
  match timestamp s with
  | Ret t => Some (to_iso_string t)
  | Throw _ => None
  end.

(** ** Resolution *)

(** [l.filter(f)] with a function that may throw *)
Fixpoint exn_filter {A} (f : A -> exn bool) (l : list A) : exn (list A) :=
  match l with
  | [] => Ret []
  | x :: r =>
      try! keep := f x in
      try! rest := exn_filter f r in
      Ret (if keep then x :: rest else rest)
  end.

Definition rule_applies (query : CommissionQuery) (at_ : Z) (r : FinanceOtaCommissionRule) : exn bool :=
  if negb (String.eqb (rulePropertyId r) (queryPropertyId query)) || negb (bool_decide (ruleChannel r = queryChannel query))
  then Ret false
  else
    try! from := timestamp (effectiveFrom r) in
    try! to := match effectiveTo r with None => Ret None | Some s => try! t := timestamp s in Ret (Some t) end in
    if negb (bool_decide (normalizeFinanceOtaCommissionRate (percentageRate r) = Some (percentageRate r))) ||
       (ruleRevision r <? 1) || match to with Some t => t <=? from | None => false end
    then Throw "Invalid OTA commission rule evidence"
    else Ret ((from <=? at_) && match to with Some t => at_ <? t | None => true end).

Definition resolveFinanceOtaCommissionRule (rules : list FinanceOtaCommissionRule) (query : CommissionQuery)
    : exn FinanceOtaCommissionRuleResolution :=
  try! at_ := timestamp (effectiveAt query) in
  try! matches := exn_filter (rule_applies query at_) rules in
  match matches with
  | [] => Ret (missing query)
  | [r] => Ret (applied r)
  | _ => Throw "Overlapping OTA commission rule evidence"
  end.

(** ** Windows *)

(** The start and the end of a rule, where both can be read *)
Definition window_of (r : FinanceOtaCommissionRule) : option (Z * option Z) :=
  match timestamp (effectiveFrom r), effectiveTo r with
  | Ret from, None => Some (from, None)
  | Ret from, Some s => match timestamp s with Ret to => Some (from, Some to) | Throw _ => None end
  | Throw _, _ => None
  end.

Definition nonempty (w : Z * option Z) : Prop := match snd w with Some to => fst w < to | None => True end.
Definition in_window (at_ : Z) (w : Z * option Z) : Prop := fst w <= at_ /\ match snd w with Some to => at_ < to | None => True end.

Definition in_scope (query : CommissionQuery) (r : FinanceOtaCommissionRule) : Prop :=
  rulePropertyId r = queryPropertyId query /\ ruleChannel r = queryChannel query.

Definition rule_ok (r : FinanceOtaCommissionRule) : Prop :=
  normalizeFinanceOtaCommissionRate (percentageRate r) = Some (percentageRate r) /\ 1 <= ruleRevision r /\
  exists w, window_of r = Some w /\ nonempty w.

Definition covers (query : CommissionQuery) (at_ : Z) (r : FinanceOtaCommissionRule) : Prop :=
  in_scope query r /\ exists w, window_of r = Some w /\ in_window at_ w.

Lemma rule_applies_spec query at_ r : (in_scope query r -> rule_ok r) ->
  exists b, rule_applies query at_ r = Ret b /\ (b = true <-> covers query at_ r).
Proof.
  intros Hok. unfold rule_applies. destruct (String.eqb_spec (rulePropertyId r) (queryPropertyId query)) as [Ep|Ep].
  2: { exists false. split; [done|]. split; [done|]. by intros [[? _] _]. }
  destruct (bool_decide_reflect (ruleChannel r = queryChannel query)) as [Ec|Ec].
  2: { exists false. split; [done|]. split; [done|]. by intros [[_ ?] _]. }
  destruct (Hok (conj Ep Ec)) as (Hn & Hr & w & Hw & Hne). cbn [negb orb].
  assert (Hc : covers query at_ r <-> in_window at_ w).
  { unfold covers. split; [intros (_ & w' & Hw' & Hin); congruence | intros; split; [done | by exists w]]. }
  unfold window_of in Hw. destruct (timestamp (effectiveFrom r)) as [from|]; [|done]. cbn [exn_bind].
  rewrite (bool_decide_eq_true_2 _ Hn), (proj2 (Z.ltb_ge (ruleRevision r) 1)) by lia. cbn [negb orb].
  destruct (effectiveTo r) as [s|]; [destruct (timestamp s) as [to|]; [|done]|]; injection Hw as <-; cbn [exn_bind].
  - unfold nonempty in Hne. cbn in Hne. rewrite (proj2 (Z.leb_gt to from)) by done. eexists. split; [done|].
    rewrite Hc, andb_true_iff, Z.leb_le, Z.ltb_lt. done.
  - eexists. split; [done|]. rewrite Hc, andb_true_iff, Z.leb_le. unfold in_window. cbn. tauto.
Qed.

(** A filter by a decided property keeps exactly the positions where it holds. *)
Lemma exn_filter_decided {A} (f : A -> exn bool) (P : A -> Prop) l :
  (forall x, x ∈ l -> exists b, f x = Ret b /\ (b = true <-> P x)) ->
  exists k, exn_filter f l = Ret k /\
    (k = [] -> forall x, x ∈ l -> ~ P x) /\
    (forall x, k = [x] -> exists i, l !! i = Some x /\ P x /\ forall j y, l !! j = Some y -> P y -> j = i) /\
    (forall x y r, k = x :: y :: r -> exists i j, i <> j /\ l !! i = Some x /\ l !! j = Some y /\ P x /\ P y).
Proof.
  induction l as [|x l IH]; intros Hf.
  { exists []. split; [done|]. split; [by intros _ x ?%elem_of_nil|]. split; by intros. }
  destruct (Hf x ltac:(by left)) as (b & Hx & Hb). destruct IH as (k & Hk & H0 & H1 & H2); [intros y Hy; apply Hf; by right|].
  cbn [exn_filter]. rewrite Hx, Hk. cbn [exn_bind]. eexists. split; [done|]. destruct b.
  - apply proj1 in Hb. specialize (Hb eq_refl). split; [done|]. split.
    + intros z [= -> ->]. exists 0%nat. split_and!; [done | done|]. intros [|j] y Hj Hy; [done|].
      exfalso. apply (H0 eq_refl y); [by eapply list_elem_of_lookup_2 | done].
    + intros z y r [= <- ->]. destruct r as [|z r].
      * destruct (H1 y eq_refl) as (i & Hi & Hy & _). by exists 0%nat, (S i).
      * destruct (H2 y z r eq_refl) as (i & j & _ & Hi & _ & Hy & _). by exists 0%nat, (S i).
  - assert (Hnx : ~ P x) by (rewrite <- Hb; done). split; [|split].
    + intros -> y [->|Hy]%elem_of_cons; [done | by apply H0].
    + intros z ->. destruct (H1 z eq_refl) as (i & Hi & Hz & Hu). exists (S i). split_and!; [done | done|].
      intros [|j] y Hj Hy; [cbn in Hj; congruence | f_equal; by apply (Hu j y)].
    + intros y z r ->. destruct (H2 y z r eq_refl) as (i & j & Hij & Hi & Hj & Hy & Hz). exists (S i), (S j).
      split_and!; [congruence | done..].
Qed.

(** The commission rule of a channel is decided by the windows: when the rules of
    the property and channel are valid evidence, the one whose window, its end
    excluded, contains the instant applies and no other does; the rate is missing
    exactly when none does, and the only error is that two of them do. *)
Theorem commission_rule_decides rules query at_ :
  timestamp (effectiveAt query) = Ret at_ -> (forall r, r ∈ rules -> in_scope query r -> rule_ok r) ->
  match resolveFinanceOtaCommissionRule rules query with
  | Ret (applied r) => exists i, rules !! i = Some r /\ covers query at_ r /\
      forall j r', rules !! j = Some r' -> covers query at_ r' -> j = i
  | Ret (missing q) => q = query /\ forall r, r ∈ rules -> ~ covers query at_ r
  | Throw e => e = "Overlapping OTA commission rule evidence" /\
      exists i j r r', i <> j /\ rules !! i = Some r /\ rules !! j = Some r' /\ covers query at_ r /\ covers query at_ r'
  end.
Proof.
  intros Ht Hok. unfold resolveFinanceOtaCommissionRule. rewrite Ht. cbn [exn_bind].
  destruct (exn_filter_decided (rule_applies query at_) (covers query at_) rules) as (k & -> & H0 & H1 & H2).
  { intros r Hr. apply rule_applies_spec. by apply Hok. }
  cbn [exn_bind]. destruct k as [|r [|r' k]].
  - split; [done | by apply H0].
  - by apply H1.
  - split; [done|]. destruct (H2 r r' k eq_refl) as (i & j & H). by exists i, j, r, r'.
Qed.

(** ** Rates *)

Lemma zeros_padded f : all_chars (is_char "0") f = true -> str_length f <= 4 -> pad_end 4 f = "0000".
Proof.
  destruct f as [|c0 [|c1 [|c2 [|c3 [|c4 f]]]]]; cbn [all_chars]; rewrite ?andb_true_iff; intros Hz Hl.
  6: { unfold str_length in Hl. cbn in Hl. lia. }
  all: destruct_and?; repeat match goal with H : is_char _ _ = true |- _ => apply Ascii.eqb_eq in H; subst end; done.
Qed.

(** A rate is at most a hundred percent, and normal rates are written in one way. *)
Lemma commission_rate_normal s q : normalizeFinanceOtaCommissionRate s = Some q ->
  normalizeFinanceOtaCommissionRate q = Some q /\ 0 <= scaled q <= 1000000.
Proof.
  unfold normalizeFinanceOtaCommissionRate at 1. destruct (OTA_COMMISSION_RATE s) eqn:E; [|done].
  unfold OTA_COMMISSION_RATE in E. destruct (split_dot s) as [w o]. intros Hq. apply (inj Some) in Hq as <-.
  apply orb_true_iff in E as [E|E].
  - rewrite !andb_true_iff, Z.leb_le in E. destruct E as [[Hw Hl] Ho]. destruct (canonical_digits w Hw) as [Hd Hp].
    set (f := pad_end 4 (default EmptyString o)).
    assert (Hf : all_chars is_digit f = true /\ str_length f = 4).
    { unfold f. destruct o as [g|]; [|done]. unfold fraction_digits in Ho. rewrite !andb_true_iff, !Z.leb_le in Ho.
      destruct Ho as [[Hg Hg1] Hg4]. split; [by apply pad_end_digits | by rewrite (pad_end_length 4)]. }
    destruct Hf as [Hf H4]. unfold normalizeFinanceOtaCommissionRate, OTA_COMMISSION_RATE.
    change (w +:+ "." +:+ f) with (w +:+ String "." f). rewrite split_dot_digits by done. cbn [default from_option Datatypes.id].
    unfold fraction_digits. rewrite Hw, Hf, H4, (proj2 (Z.leb_le _ _) Hl), (pad_full 4) by done. cbn [andb orb Z.leb].
    split; [done|]. unfold scaled. rewrite remove_dot_digits by done.
    assert (Ha : all_chars is_digit (w +:+ f) = true) by (by rewrite all_chars_app, Hd, Hf). rewrite digits_BigInt by done.
    pose proof (digits_fold_bound _ Ha) as Hb. rewrite str_length_app, H4 in Hb.
    pose proof (Z.pow_le_mono_r 10 (str_length w + 4) 6 ltac:(lia) ltac:(lia)). lia.
  - apply andb_true_iff in E as [->%String.eqb_eq Ho].
    assert (Ef : pad_end 4 (default EmptyString o) = "0000").
    { destruct o as [g|]; [|done]. rewrite !andb_true_iff, !Z.leb_le in Ho. apply zeros_padded; tauto. }
    rewrite Ef. split; [reflexivity | vm_compute; split; congruence].
Qed.

(** ** Instants *)

Lemma fraction_and_zone_print k : 0 <= k < 1000 -> fraction_and_zone (String "." (pad3 k +:+ "Z")) = Some (pad3 k, "Z").
Proof.
  intros Hk. unfold fraction_and_zone. change (is_char "." ".") with true. cbv iota. cbv [pad3 pad2 String.append].
  cbn [span_digits]. rewrite !is_digit_char by div_lia. done.
Qed.

Lemma commission_timestamp_print t : four_digit_instant t -> timestamp (to_iso_string t) = Ret t.
Proof.
  intros Ht. pose proof (parse_instant_print t Ht) as Hp. destruct (iso_string_parts t Ht) as (head & k & Hk & Hl & E).
  unfold timestamp, wall_and_zone. rewrite E, <- Hl, split_at_app. cbn [mbind option_bind].
  rewrite fraction_and_zone_print by done. cbn [mbind option_bind]. change (zone_minutes "Z") with (Some 0).
  cbn [mbind option_bind]. rewrite (pad_full 3) by done. change ("." +:+ pad3 k +:+ "Z") with (String "." (pad3 k +:+ "Z")).
  rewrite <- E, Hp. cbn [mbind option_bind]. rewrite E, substring_prefix, String.eqb_refl. by rewrite Z.sub_0_r.
Qed.

(** Normalizing the instant of a rule keeps the instant and changes nothing the
    second time: what is stored is read back as the same moment, in UTC. *)
Theorem commission_instant_reads_back s t : timestamp s = Ret t -> four_digit_instant t ->
  exists u, normalizeFinanceOtaCommissionInstant s = Some u /\ timestamp u = Ret t /\
    normalizeFinanceOtaCommissionInstant u = Some u.
Proof.
  intros Hs Ht. exists (to_iso_string t). unfold normalizeFinanceOtaCommissionInstant. by rewrite Hs, commission_timestamp_print.
Qed.
