(* ===== verification/ConversionFunnel.v ===== *)
(** * The conversion funnel

    packages/domain-booking/src/conversionFunnel.ts: the report of how far the
    visits of a booking page went. The report keeps one small state machine per
    session and shared counters, in one pass over the events of all sessions. *)

From S2P Require Import Prelude JsValue.
From Stdlib Require Import SpecFloat.

(** ** Data *)

Inductive FunnelStage :=
| page_visit
| rate_selected
| addons_step_passed
| details_completed
| complete_booking_clicked
| payment_authorized
| booking_completed.

#[export] Instance FunnelStage_eq_dec : EqDecision FunnelStage.
Proof. solve_decision. Defined.

Definition FUNNEL_STAGES : list FunnelStage :=
  [page_visit; rate_selected; addons_step_passed; details_completed; complete_booking_clicked; payment_authorized;
   booking_completed].

Definition FUNNEL_PAYMENT_METHODS : list string := ["card"; "bank_transfer"; "pay_at_property"; "xendit"; "paypal"].

(** ** Events of the public endpoint

    What an event of a type may carry, besides its version and sequence. *)

Definition FUNNEL_VIA : list string := ["agency_page"].
Definition FUNNEL_STEPS : list string := ["rooms"; "extras"; "details"; "payment"].
Definition FUNNEL_ERROR_REASONS : list string :=
  ["price_expired"; "price_refused"; "pricing_failed"; "booking_unavailable"; "booking_uncertain"; "payment_failed"].
Definition FUNNEL_ERROR_CODES : list string :=
  ["QUOTE_REFRESH_REQUIRED"; "PRICING_UNAVAILABLE"; "PRICING_RETIRED"; "PROMO_CODES_UNAVAILABLE"; "ADDONS_UNAVAILABLE";
   "MANUAL_PAYMENT_TOO_SOON"; "MANUAL_PAYMENT_UNAVAILABLE"; "CARD_PAYMENT_UNAVAILABLE"; "REQUEST_ACCEPTANCE_UNAVAILABLE"].

Record Rule := { ruleKey : string; valid : jsval -> bool; isOptional : bool }.

Definition value_of (values : list string) (v : jsval) : bool :=
  match v with VString s => includes values s | _ => false end.

Definition flag (v : jsval) : bool := match v with VBool _ => true | _ => false end.

Definition required (key : string) (test : jsval -> bool) : Rule := {| ruleKey := key; valid := test; isOptional := false |}.

(** [/^[\w-]{1,64}$/] *)
Definition room_type_id (v : jsval) : bool :=
  match v with
  | VString s =>
      all_chars (fun c => is_digit c || char_between "a" "z" c || char_between "A" "Z" c || is_char "_" c || is_char "-" c) s &&
      (1 <=? str_length s) && (str_length s <=? 64)
  | _ => false
  end.

Definition FUNNEL_EVENT_RULES : list (string * list Rule) :=
  [("page_visit", []);
   ("room_viewed", [required "roomTypeId" room_type_id]);
   ("rate_selected", [required "entry" (value_of ["room_card"; "rooms_form"])]);
   ("step_viewed", [required "step" (value_of FUNNEL_STEPS)]);
   ("addons_step_passed", [required "extrasShown" flag; required "extrasChosen" flag]);
   ("details_completed", []);
   ("complete_booking_clicked",
      [required "paymentMethod" (value_of FUNNEL_PAYMENT_METHODS); required "mode" (value_of ["instant"; "request"])]);
   ("payment_authorized", [required "paymentMethod" (value_of ["card"])]);
   ("booking_completed",
      [required "paymentMethod" (value_of FUNNEL_PAYMENT_METHODS);
       required "outcome" (value_of ["confirmed"; "requested"; "awaiting_payment"])]);
   ("booking_error",
      [required "step" (value_of FUNNEL_STEPS); required "reason" (value_of FUNNEL_ERROR_REASONS);
       {| ruleKey := "code"; valid := value_of FUNNEL_ERROR_CODES; isOptional := true |}])].

(** [/^[0-9a-f]{8}-[0-9a-f]{4}-[0-9a-f]{4}-[0-9a-f]{4}-[0-9a-f]{12}$/i] *)
Definition isFunnelId (v : jsval) : bool :=
  match v with
  | VString s =>
      matches (replicate 8 is_hex ++ [is_char "-"] ++ replicate 4 is_hex ++ [is_char "-"] ++ replicate 4 is_hex ++
               [is_char "-"] ++ replicate 4 is_hex ++ [is_char "-"] ++ replicate 12 is_hex) s
  | _ => false
  end.

Definition member : Type := jskey * (propkind * jsval).

Definition named (names : list string) (m : member) : bool := existsb (fun k => key_is k (fst m)) names.

(** [const { ...names, ...properties } = value]: the other own enumerable members *)
Definition rest_of (names : list string) (v : jsval) : list member :=
  omap (fun m : member => if pk_enumerable (fst (snd m)) && negb (named names m) then Some (fst m, (plain_prop, snd (snd m))) else None)
    (props_of v).

Definition object (members : list member) : jsval := VObject ProtoObject members.

Definition follows (rules : list Rule) (v : jsval) : bool :=
  forallb (fun key => existsb (fun r => String.eqb (ruleKey r) key) rules) (keys_of v) &&
  forallb (fun r => if has_own v (ruleKey r) then valid r (get v (ruleKey r)) else isOptional r) rules.

Definition parseFunnelEventMetadata (eventType : string) (metadata : jsval) : option jsval :=
  let? rules := map_get FUNNEL_EVENT_RULES eventType in
  guard? is_object metadata in
  guard? match get metadata "funnelVersion" with VInt n => n =? 1 | _ => false end in
  let? sequence := as_integer (get metadata "funnelSequence") 1 MAX_SAFE_INTEGER in
  let properties := rest_of ["funnelVersion"; "funnelSequence"] metadata in
  let via := get (object properties) "via" in
  let properties := List.filter (fun m => negb (named ["via"] m)) properties in
  guard? is_undefined via || value_of FUNNEL_VIA via in
  guard? follows rules (object properties) in
  Some (object (properties ++ (if is_undefined via then [] else [(KString "via", (plain_prop, via))]) ++
                [(KString "funnelVersion", (plain_prop, VInt 1)); (KString "funnelSequence", (plain_prop, VInt sequence))])).

(** *** What is accepted is accepted again *)

Lemma lookup_prop_app k (l r : list member) : lookup_prop k (l ++ r) = match lookup_prop k l with Some d => Some d | None => lookup_prop k r end.
Proof. induction l as [|[k' d] l IH]; [done|]. cbn [app lookup_prop]. by destruct (key_is k k'). Qed.

Lemma lookup_prop_free k (l : list member) : Forall (fun m => key_is k (fst m) = false) l -> lookup_prop k l = None.
Proof. induction 1 as [|[k' d] l Hk _ IH]; [done|]. cbn [lookup_prop fst] in *. by rewrite Hk. Qed.

Definition kept (names : list string) (m : member) : Prop := fst (snd m) = plain_prop /\ named names m = false.

Lemma rest_of_kept names v : Forall (kept names) (rest_of names v).
Proof.
  unfold rest_of. induction (props_of v) as [|[k [kind w]] l IH]; cbn [omap list_omap]; [constructor|].
  cbn [fst snd]. destruct (pk_enumerable kind && negb (named names (k, (kind, w)))) eqn:E; [|done].
  constructor; [|done]. apply andb_true_iff in E as [_ E%negb_true_iff]. by split.
Qed.

Lemma rest_of_object names l r : Forall (kept names) l -> Forall (fun m => named names m = true) r ->
  rest_of names (object (l ++ r)) = l.
Proof.
  intros Hl Hr. unfold rest_of, object. cbn [props_of]. induction Hl as [|[k [kind w]] l [Hk Hn] _ IH].
  - cbn [app]. induction Hr as [|m r Hm _ IH]; [done|]. cbn [omap list_omap]. by rewrite Hm, andb_false_r.
  - cbn [app omap list_omap]. cbn [fst snd] in *. subst kind. rewrite Hn. cbn [pk_enumerable plain_prop negb andb]. f_equal. exact IH.
Qed.

Lemma named_false names m k : named names m = false -> k ∈ names -> key_is k (fst m) = false.
Proof. intros H Hk. unfold named in H. exact (proj1 (existsb_none_iff _ _) H k Hk). Qed.

Lemma event_metadata_again t m r : parseFunnelEventMetadata t m = Some r -> parseFunnelEventMetadata t r = Some r.
Proof.
  unfold parseFunnelEventMetadata at 1. destruct (map_get FUNNEL_EVENT_RULES t) as [rules|] eqn:Er; [|done].
  destruct (is_object m); [|done]. destruct (match get m "funnelVersion" with VInt n => n =? 1 | _ => false end); [|done].
  destruct (as_integer (get m "funnelSequence") 1 MAX_SAFE_INTEGER) as [n|] eqn:En; [|done]. cbv zeta.
  set (names := ["funnelVersion"; "funnelSequence"]). pose proof (rest_of_kept names m) as Hk.
  set (all := rest_of names m) in *. clearbody all. set (via := get (object all) "via"). clearbody via.
  set (props := List.filter (fun x => negb (named ["via"] x)) all).
  destruct (is_undefined via || value_of FUNNEL_VIA via) eqn:Ev; [|done]. destruct (follows rules (object props)) eqn:Ef; [|done].
  intros H. apply (inj Some) in H as <-. apply as_integer_reparse in En.
  assert (Hp : Forall (kept names) props).
  { apply Forall_forall. intros x [Hx _]%elem_of_bfilter. rewrite Forall_forall in Hk. by apply Hk. }
  assert (Hv : Forall (fun x => key_is "via" (fst x) = false) props).
  { apply Forall_forall. intros x [_ Hx%negb_true_iff]%elem_of_bfilter. apply (named_false _ _ _ Hx). by left. }
  set (tail := if is_undefined via then [] else [(KString "via", (plain_prop, via))]).
  assert (Ht : Forall (kept names) tail) by (unfold tail; destruct (is_undefined via); repeat constructor).
  assert (Hfree : forall k, k ∈ names -> lookup_prop k (props ++ tail) = None).
  { intros k Hkn. apply lookup_prop_free, Forall_app. split.
    - eapply Forall_impl; [exact Hp|]. intros x [_ Hx]. by apply (named_false _ _ _ Hx).
    - eapply Forall_impl; [exact Ht|]. intros x [_ Hx]. by apply (named_false _ _ _ Hx). }
  set (end_ := [(KString "funnelVersion", (plain_prop, VInt 1)); (KString "funnelSequence", (plain_prop, VInt n))]).
  rewrite app_assoc. unfold parseFunnelEventMetadata. rewrite Er. change (is_object (object ((props ++ tail) ++ end_))) with true. cbv iota.
  assert (Eg : forall k, k ∈ names -> get (object ((props ++ tail) ++ end_)) k = get (object end_) k).
  { intros k Hkn. unfold get, own_prop, object. cbn [props_of]. by rewrite lookup_prop_app, Hfree. }
  rewrite !Eg by (unfold names; rewrite !elem_of_cons; auto).
  change (get (object end_) "funnelVersion") with (VInt 1). change (get (object end_) "funnelSequence") with (VInt n).
  cbv beta iota. change (1 =? 1) with true. cbv iota. rewrite En. fold names. rewrite rest_of_object by (first [by apply Forall_app | repeat constructor]).
  assert (Eb : get (object (props ++ tail)) "via" = via).
  { unfold get, own_prop, object. cbn [props_of]. rewrite lookup_prop_app, (lookup_prop_free "via" props) by done.
    unfold tail. by destruct via. }
  assert (Ep : List.filter (fun x => negb (named ["via"] x)) (props ++ tail) = props).
  { rewrite List.filter_app. replace (List.filter (fun x => negb (named ["via"] x)) tail) with (@nil member).
    - rewrite app_nil_r. apply filter_all. eapply Forall_impl; [exact Hv|]. intros x Hx. unfold named. cbn [existsb]. by rewrite Hx.
    - unfold tail. by destruct (is_undefined via). }
  cbv zeta. match goal with |- context [get (object ?x) "via"] => change x with (props ++ tail) end.
  rewrite Eb, Ep, Ev, Ef. by rewrite app_assoc.
Qed.

(** ** Stored events *)

(** The sequence of an event that was stored is an integer. *)
Record BookingFunnelEvent := {
  sessionId : string;
  sequence : Z;
  stage : FunnelStage;
  paymentMethod : option string
}.

Record FunnelSession := {
  next : nat;
  method : option string;
  authorized : bool;
  completed : bool;
  lastSequence : Z
}.

Definition new_session : FunnelSession :=
  {| next := 0; method := None; authorized := false; completed := false; lastSequence := 0 |}.

(** The two maps of counters *)
Record Counters := { counts : FunnelStage -> Z; methods : string -> Z }.

Definition no_counts : Counters := {| counts := fun _ => 0; methods := fun _ => 0 |}.

Definition add_count (s : FunnelStage) (d : Z) (c : Counters) : Counters :=
  {| counts := fun s' => if bool_decide (s = s') then counts c s' + d else counts c s'; methods := methods c |}.

Definition add_method (m : string) (d : Z) (c : Counters) : Counters :=
  {| counts := counts c; methods := fun m' => if String.eqb m m' then methods c m' + d else methods c m' |}.

Definition stages_of (addonsEnabled : bool) : list FunnelStage :=
  List.filter (fun s => addonsEnabled || negb (bool_decide (s = addons_step_passed))) FUNNEL_STAGES.

(** The stages before a booking is clicked, which a session passes in their order *)
Fixpoint slice_before (end_ : FunnelStage) (l : list FunnelStage) : list FunnelStage :=
  match l with
  | [] => []
  | s :: rest => if bool_decide (s = end_) then [] else s :: slice_before end_ rest
  end.

Definition prefix_of (addonsEnabled : bool) : list FunnelStage :=
  slice_before complete_booking_clicked (stages_of addonsEnabled).

(** ** One event *)

Definition seen (n : Z) (s : FunnelSession) : FunnelSession :=
  {| next := next s; method := method s; authorized := authorized s; completed := completed s; lastSequence := n |}.

Definition passed (s : FunnelSession) : FunnelSession :=
  {| next := S (next s); method := method s; authorized := authorized s; completed := completed s;
     lastSequence := lastSequence s |}.

Definition with_method (m : string) (s : FunnelSession) : FunnelSession :=
  {| next := next s; method := Some m; authorized := false; completed := completed s; lastSequence := lastSequence s |}.

Definition with_authorized (s : FunnelSession) : FunnelSession :=
  {| next := next s; method := method s; authorized := true; completed := completed s; lastSequence := lastSequence s |}.

Definition with_completed (s : FunnelSession) : FunnelSession :=
  {| next := next s; method := method s; authorized := authorized s; completed := true; lastSequence := lastSequence s |}.

(** The method of a click, of the methods that are counted *)
Definition clicked_method (e : BookingFunnelEvent) : option string :=
  let? m := paymentMethod e in
  guard? bool_decide (stage e = complete_booking_clicked) && includes FUNNEL_PAYMENT_METHODS m in
  Some m.

(** A click with a method: the first one counts the booking, a later one moves it to
    another method and takes back an authorization. *)
Definition click (m : string) (c : Counters) (s : FunnelSession) : Counters * FunnelSession :=
  match method s with
  | Some m' =>
      if String.eqb m' m then (c, s)
      else
        let c := add_method m' (-1) c in
        let c := if authorized s then add_count payment_authorized (-1) c else c in
        (add_method m 1 c, with_method m s)
  | None => (add_method m 1 (add_count complete_booking_clicked 1 c), with_method m s)
  end.

(** A later event of the method that was clicked *)
Definition pay (e : BookingFunnelEvent) (c : Counters) (s : FunnelSession) : Counters * FunnelSession :=
  match method s with
  | Some m =>
      if negb (bool_decide (paymentMethod e = Some m)) then (c, s)
      else if bool_decide (stage e = payment_authorized) && String.eqb m "card" && negb (authorized s)
      then (add_count payment_authorized 1 c, with_authorized s)
      else if bool_decide (stage e = booking_completed) && (negb (String.eqb m "card") || authorized s)
      then (add_count booking_completed 1 c, with_completed s)
      else (c, s)
  | None => (c, s)
  end.

Definition session_event (prefix : list FunnelStage) (e : BookingFunnelEvent) (c : Counters) (s : FunnelSession)
    : Counters * FunnelSession :=
  if sequence e <=? lastSequence s then (c, s)
  else
    let s := seen (sequence e) s in
    match prefix !! next s with
    | Some expected =>
        if bool_decide (stage e = expected) then (add_count (stage e) 1 c, passed s) else (c, s)
    | None =>
        if completed s then (c, s)
        else match clicked_method e with Some m => click m c s | None => pay e c s end
    end.

Record FunnelState := { counters : Counters; sessions : list (string * FunnelSession) }.

Definition countable_event (e : BookingFunnelEvent) : bool :=
  negb (String.eqb (sessionId e) EmptyString) && safe_integer (sequence e) && (1 <=? sequence e).

(** The body of the loop *)
Definition funnel_event (prefix : list FunnelStage) (st : FunnelState) (e : BookingFunnelEvent) : FunnelState :=
  if countable_event e then
    let s := default new_session (map_get (sessions st) (sessionId e)) in
    let '(c, s) := session_event prefix e (counters st) s in
    {| counters := c; sessions := map_set (sessions st) (sessionId e) s |}
  else st.

Definition by_sequence (events : list BookingFunnelEvent) : list BookingFunnelEvent :=
  sort_by (fun a b => sequence a - sequence b) events.

Definition run_funnel (addonsEnabled : bool) (events : list BookingFunnelEvent) : FunnelState :=
  foldl (funnel_event (prefix_of addonsEnabled)) {| counters := no_counts; sessions := [] |} (by_sequence events).

(** ** The report

    Shares are binary64 numbers, computed by the standard's operations. *)

Definition float_of (z : Z) : spec_float := binary_normalize 53 1024 z 0 false.
Definition float_div : spec_float -> spec_float -> spec_float := SFdiv 53 1024.
Definition float_mul : spec_float -> spec_float -> spec_float := SFmul 53 1024.
Definition float_sub : spec_float -> spec_float -> spec_float := SFsub 53 1024.

(** [Math.round] of a finite number that is not negative: its value is [m * 2 ^ e]. *)
Definition math_round (x : spec_float) : Z :=
  match x with
  | S754_finite false m e => if 0 <=? e then Zpos m * 2 ^ e else (2 * Zpos m + 2 ^ (- e)) / 2 ^ (1 - e)
  | _ => 0
  end.

Definition percent (count total : Z) : option spec_float :=
  if total =? 0 then None
  else Some (float_div (float_of (math_round (float_mul (float_div (float_of count) (float_of total)) (float_of 1000))))
               (float_of 10)).

Record FunnelStep := {
  stepStage : FunnelStage;
  stepCount : Z;
  percentOfVisits : option spec_float;
  conversionPercent : option spec_float;
  previousCount : Z
}.

Record BookingConversionFunnel := {
  steps : list FunnelStep;
  paymentMethods : list (string * Z);
  biggestDrop : option FunnelStage
}.

(** What a stage is compared with: card payments with the clicks that chose a card,
    bookings with the payments authorized and the clicks that need none. *)
Definition previous_count (c : Counters) (before : FunnelStage) (s : FunnelStage) : Z :=
  match s with
  | payment_authorized => methods c "card"
  | booking_completed => counts c payment_authorized + counts c complete_booking_clicked - methods c "card"
  | _ => counts c before
  end.

Definition loss_of (count previous : Z) : spec_float :=
  if previous =? 0 then float_of 0 else float_sub (float_of 1) (float_div (float_of count) (float_of previous)).

(** The stages after [before], with the first of the largest losses; the loss of the
    first stage is not looked at. *)
Fixpoint report (c : Counters) (before : FunnelStage) (first : bool) (ss : list FunnelStage)
    (drop : option FunnelStage) (largest : spec_float) : list FunnelStep * option FunnelStage :=
  match ss with
  | [] => ([], drop)
  | s :: rest =>
      let count := counts c s in
      let previous := previous_count c before s in
      let loss := loss_of count previous in
      let larger := negb first && SFltb largest loss in
      let '(steps, last) := report c s false rest (if larger then Some s else drop) (if larger then loss else largest) in
      ({| stepStage := s; stepCount := count; percentOfVisits := percent count (counts c page_visit);
          conversionPercent := percent count previous; previousCount := previous |} :: steps, last)
  end.

Definition report_of (addonsEnabled : bool) (c : Counters) : BookingConversionFunnel :=
  let '(steps, drop) := report c page_visit true (stages_of addonsEnabled) None (float_of 0) in
  {| steps := steps;
     paymentMethods := List.filter (fun '(_, count) => 0 <? count) ((fun m => (m, methods c m)) <$> FUNNEL_PAYMENT_METHODS);
     biggestDrop := drop |}.

Definition buildBookingConversionFunnel (events : list BookingFunnelEvent) (addonsEnabled : bool) : BookingConversionFunnel :=
  report_of addonsEnabled (counters (run_funnel addonsEnabled events)).

(** ** What a session reached *)

Definition reached (prefix : list FunnelStage) (s : FunnelSession) (st : FunnelStage) : bool :=
  match st with
  | complete_booking_clicked => match method s with Some _ => true | None => false end
  | payment_authorized => authorized s
  | booking_completed => completed s
  | _ => bool_decide (st ∈ take (next s) prefix)
  end.

Definition chose (m : string) (s : FunnelSession) : bool :=
  match method s with Some m' => String.eqb m' m | None => false end.

(** The events of a session one by one, without the counters *)
Definition advance (prefix : list FunnelStage) (s : FunnelSession) (e : BookingFunnelEvent) : FunnelSession :=
  snd (session_event prefix e no_counts s).

Definition replay (prefix : list FunnelStage) (events : list BookingFunnelEvent) : FunnelSession :=
  foldl (advance prefix) new_session events.

Definition one (b : bool) : Z := if b then 1 else 0.

Record session_ok (prefix : list FunnelStage) (s : FunnelSession) : Prop := {
  so_next : (next s <= length prefix)%nat;
  so_method : forall m, method s = Some m -> m ∈ FUNNEL_PAYMENT_METHODS /\ next s = length prefix;
  so_authorized : authorized s = true -> method s = Some "card";
  so_completed : completed s = true -> exists m, method s = Some m /\ (m = "card" -> authorized s = true)
}.

Lemma new_session_ok prefix : session_ok prefix new_session.
Proof. split; [cbn; lia | done..]. Qed.

Lemma new_reached prefix st : reached prefix new_session st = false.
Proof. destruct st; cbn; try done; apply bool_decide_eq_false_2; by rewrite elem_of_nil. Qed.

(** The stages of a prefix are passed once, and are none of the last three. *)
Record prefix_ok (prefix : list FunnelStage) : Prop := {
  po_nodup : NoDup prefix;
  po_early : forall s, s ∈ prefix -> s <> complete_booking_clicked /\ s <> payment_authorized /\ s <> booking_completed
}.

Lemma prefix_of_ok b : prefix_ok (prefix_of b).
Proof.
  split.
  - apply (bool_decide_unpack _). destruct b; vm_compute; exact I.
  - intros s. destruct b; vm_compute prefix_of; rewrite !elem_of_cons, elem_of_nil; naive_solver.
Qed.

(** ** One event moves the counters as far as its session *)

(** The counters changed by what the session changed *)
Definition moved (prefix : list FunnelStage) (c c' : Counters) (s s' : FunnelSession) : Prop :=
  (forall st, counts c' st = counts c st + one (reached prefix s' st) - one (reached prefix s st)) /\
  (forall m, methods c' m = methods c m + one (chose m s') - one (chose m s)).

Lemma moved_refl prefix c s s' : method s' = method s -> authorized s' = authorized s -> completed s' = completed s ->
  next s' = next s -> moved prefix c c s s'.
Proof.
  intros Hm Ha Hc Hn. split; [intros st | intros m].
  - replace (reached prefix s' st) with (reached prefix s st) by (unfold reached; by rewrite Hm, Ha, Hc, Hn). lia.
  - unfold chose. rewrite Hm. lia.
Qed.

Section Session.
Context (prefix : list FunnelStage) (Hprefix : prefix_ok prefix).

Lemma reached_passed s st expected : prefix !! next s = Some expected ->
  one (reached prefix (passed s) st) = one (reached prefix s st) + one (bool_decide (expected = st)).
Proof.
  intros He. assert (Hin : expected ∈ prefix) by by eapply list_elem_of_lookup_2.
  destruct (po_early _ Hprefix _ Hin) as (H1 & H2 & H3).
  assert (Hnew : expected ∉ take (next s) prefix).
  { intros (i & Hi)%list_elem_of_lookup. apply lookup_take_Some in Hi as [Hi Hlt].
    pose proof (NoDup_lookup _ _ _ _ (po_nodup _ Hprefix) Hi He). lia. }
  assert (Htake : take (S (next s)) prefix = take (next s) prefix ++ [expected]) by by apply take_S_r.
  assert (Hgen : one (bool_decide (st ∈ take (S (next s)) prefix)) =
                 one (bool_decide (st ∈ take (next s) prefix)) + one (bool_decide (expected = st))).
  { rewrite Htake. destruct (decide (expected = st)) as [<-|Hne].
    - rewrite (bool_decide_eq_false_2 _ Hnew), !bool_decide_eq_true_2; [done | done|]. apply elem_of_app. right. by left.
    - rewrite (bool_decide_eq_false_2 (expected = st)) by done.
      rewrite (bool_decide_ext (st ∈ take (next s) prefix ++ [expected]) (st ∈ take (next s) prefix)); [cbn [one]; lia|].
      rewrite elem_of_app, list_elem_of_singleton. split; [by intros [? | ->] | by left]. }
  destruct st; cbn [reached passed next method authorized completed]; try exact Hgen;
    rewrite (bool_decide_eq_false_2 (expected = _)) by done; cbn [one]; lia.
Qed.

Lemma seen_ok n s : session_ok prefix s -> session_ok prefix (seen n s).
Proof. intros [? ? ? ?]. by split. Qed.

(** [seen] changes nothing that is counted. *)
Lemma moved_seen c c' s s' n : moved prefix c c' (seen n s) s' -> moved prefix c c' s s'.
Proof. intros [H1 H2]. split; [intros st; rewrite H1; by destruct st | intros m; by rewrite H2]. Qed.

Ltac count_cases st :=
  destruct st; cbn [reached with_method with_authorized with_completed method authorized completed next];
  repeat match goal with
  | |- context [bool_decide (?x = ?y :> FunnelStage)] =>
      first [rewrite (bool_decide_eq_true_2 (x = y)) by done | rewrite (bool_decide_eq_false_2 (x = y)) by done]
  end.

Lemma click_moves m c s c' s' : m ∈ FUNNEL_PAYMENT_METHODS -> session_ok prefix s -> next s = length prefix ->
  completed s = false -> click m c s = (c', s') -> moved prefix c c' s s' /\ session_ok prefix s'.
Proof.
  intros Hm Hok Hn Hc. unfold click. destruct (method s) as [m'|] eqn:Em.
  - destruct (String.eqb_spec m' m) as [->|Hne]; [intros [= <- <-]; split; [by apply moved_refl | done]|].
    intros [= <- <-]. split.
    + split.
      * intros st. destruct (authorized s) eqn:Ea; cbn [counts add_method add_count]; count_cases st; rewrite ?Em, ?Ea; cbn [one]; lia.
      * intros x. unfold chose. rewrite Em. cbn [method with_method].
        assert (E : methods (if authorized s then add_count payment_authorized (-1) (add_method m' (-1) c) else add_method m' (-1) c) x
          = if String.eqb m' x then methods c x - 1 else methods c x) by by destruct (authorized s).
        cbn [methods add_method]. cbn [methods add_method] in E. rewrite E.
        destruct (String.eqb_spec m x) as [->|]; destruct (String.eqb_spec m' x) as [->|]; cbn [one]; (done || lia).
    + split; cbn [next method authorized completed with_method]; [lia | by intros ? [= <-] | done | congruence].
  - intros [= <- <-]. assert (Ea : authorized s = false).
    { destruct (authorized s) eqn:Ea; [|done]. apply (so_authorized _ _ Hok) in Ea. congruence. }
    split.
    + split.
      * intros st. cbn [counts add_method add_count]. count_cases st; rewrite ?Em, ?Ea; cbn [one]; lia.
      * intros x. unfold chose. rewrite Em. cbn [methods add_method add_count method with_method].
        destruct (String.eqb_spec m x) as [<-|]; cbn [one]; lia.
    + split; cbn [next method authorized completed with_method]; [lia | by intros ? [= <-] | done | congruence].
Qed.

Lemma pay_moves e c s c' s' : session_ok prefix s -> completed s = false -> pay e c s = (c', s') ->
  moved prefix c c' s s' /\ session_ok prefix s'.
Proof.
  intros Hok Hc. unfold pay. destruct (method s) as [m|] eqn:Em; [|intros [= <- <-]; split; [by apply moved_refl | done]].
  destruct (negb _); [intros [= <- <-]; split; [by apply moved_refl | done]|].
  destruct (_ && negb (authorized s)) eqn:E1; [|destruct (bool_decide (stage e = booking_completed) && (negb (String.eqb m "card") || authorized s)) eqn:E2].
  - rewrite !andb_true_iff, negb_true_iff, String.eqb_eq in E1. destruct E1 as [[_ ->] Ea]. intros [= <- <-]. split.
    + split; [intros st; cbn [counts add_count]; count_cases st; rewrite ?Ea; cbn [one]; lia | intros x; cbn; unfold chose; cbn; lia].
    + destruct Hok as [? ? ? ?]. split; cbn [next method authorized completed with_authorized]; [done.. | congruence].
  - rewrite andb_true_iff, orb_true_iff, negb_true_iff, String.eqb_neq in E2. destruct E2 as [_ E2]. intros [= <- <-]. split.
    + split; [intros st; cbn [counts add_count]; count_cases st; rewrite ?Hc; cbn [one]; lia | intros x; cbn; unfold chose; cbn; lia].
    + destruct Hok as [? ? ? ?]. split; cbn [next method authorized completed with_completed]; [done.. |].
      intros _. exists m. split; [done|]. intros ->. by destruct E2.
  - intros [= <- <-]. split; [by apply moved_refl | done].
Qed.

Lemma clicked_method_Some e m : clicked_method e = Some m -> m ∈ FUNNEL_PAYMENT_METHODS.
Proof.
  unfold clicked_method. destruct (paymentMethod e) as [m'|]; [|done]. destruct (_ && _) eqn:E; [|done]. intros [= <-].
  apply andb_true_iff in E as [_ E]. by apply includes_elem.
Qed.

Lemma session_event_moves e c s c' s' : session_ok prefix s -> session_event prefix e c s = (c', s') ->
  moved prefix c c' s s' /\ session_ok prefix s'.
Proof.
  intros Hok. unfold session_event. destruct (sequence e <=? lastSequence s); [intros [= <- <-]; split; [by apply moved_refl | done]|].
  apply (seen_ok (sequence e)) in Hok. intros H.
  enough (moved prefix c c' (seen (sequence e) s) s' /\ session_ok prefix s') as [Hm ?] by (split; [by eapply moved_seen | done]).
  revert H Hok. generalize (seen (sequence e) s) as t. clear s. intros s H Hok.
  destruct (prefix !! next s) as [expected|] eqn:En.
  - pose proof (lookup_lt_Some _ _ _ En) as Hlt. destruct (bool_decide_reflect (stage e = expected)) as [Ee|_].
    2: { injection H as <- <-. split; [by apply moved_refl | done]. }
    injection H as <- <-. split.
    + split; [intros st | intros m].
      * rewrite (reached_passed s st expected) by done. rewrite Ee. cbn [counts add_count].
        destruct (bool_decide_reflect (expected = st)); cbn [one]; lia.
      * unfold chose. cbn [methods add_count method passed]. lia.
    + destruct Hok as [Hn Hm Ha Hc]. split; cbn [next method authorized completed passed]; [lia | | done | done].
      intros m Em. destruct (Hm m Em) as [_ ?]. lia.
  - destruct (completed s) eqn:Ec; [injection H as <- <-; split; [by apply moved_refl | done]|].
    assert (Hn : next s = length prefix) by (apply lookup_ge_None in En; pose proof (so_next _ _ Hok); lia).
    destruct (clicked_method e) as [m|] eqn:Em.
    + apply clicked_method_Some in Em. by eapply click_moves.
    + by eapply pay_moves.
Qed.

(** The session of an event does not depend on the counters. *)
Lemma session_event_advance e c s : snd (session_event prefix e c s) = advance prefix s e.
Proof.
  unfold advance, session_event. destruct (sequence e <=? lastSequence s); [done|].
  generalize (seen (sequence e) s) as t. intros t. destruct (prefix !! next t); [by destruct (bool_decide _)|].
  destruct (completed t); [done|]. destruct (clicked_method e) as [m|].
  - unfold click. destruct (method t) as [m'|]; [by destruct (String.eqb m' m) | done].
  - unfold pay. destruct (method t) as [m|]; [|done]. repeat (case_match; try done).
Qed.

Lemma advance_ok s e : session_ok prefix s -> session_ok prefix (advance prefix s e).
Proof.
  intros Hok. unfold advance. destruct (session_event prefix e no_counts s) as [c s'] eqn:E.
  by eapply session_event_moves in E as [_ ?].
Qed.

Lemma replay_ok events : session_ok prefix (replay prefix events).
Proof.
  unfold replay. generalize (new_session_ok prefix). generalize new_session as s.
  induction events as [|e events IH]; intros s Hs; [done|]. cbn [foldl]. by apply IH, advance_ok.
Qed.

(** ** The loop *)

(** The events of a session *)
Definition of_session (id : string) (events : list BookingFunnelEvent) : list BookingFunnelEvent :=
  List.filter (fun e => countable_event e && String.eqb (sessionId e) id) events.

(** The sessions in the order of their first event *)
Definition session_ids (events : list BookingFunnelEvent) : list string :=
  set_of (sessionId <$> List.filter countable_event events).

Definition replayed (events : list BookingFunnelEvent) : list (string * FunnelSession) :=
  (fun id => (id, replay prefix (of_session id events))) <$> session_ids events.

Definition sum_sessions (f : FunnelSession -> bool) (m : list (string * FunnelSession)) : Z :=
  sum_of (fun entry => one (f (snd entry))) m.

Lemma sum_sessions_set f m k v : f new_session = false ->
  sum_sessions f (map_set m k v) = sum_sessions f m + one (f v) - one (f (default new_session (map_get m k))).
Proof.
  intros Hf. unfold sum_sessions. induction m as [|[k' v'] m IH]; cbn [map_set map_get].
  - cbn [default]. rewrite Hf, sum_of_cons. cbn. lia.
  - destruct (String.eqb k' k); rewrite !sum_of_cons; cbn [snd default from_option Datatypes.id]; [lia|]. rewrite IH. lia.
Qed.

Definition start : FunnelState := {| counters := no_counts; sessions := [] |}.

Definition tallies (st : FunnelState) : Prop :=
  (forall s, counts (counters st) s = sum_sessions (fun x => reached prefix x s) (sessions st)) /\
  (forall m, methods (counters st) m = sum_sessions (chose m) (sessions st)) /\
  Forall (fun entry => session_ok prefix (snd entry)) (sessions st).

Lemma map_set_Forall (P : FunnelSession -> Prop) m k v : Forall (fun entry => P (snd entry)) m -> P v ->
  Forall (fun entry => P (snd entry)) (map_set m k v).
Proof.
  induction 1 as [|[k' v'] m Hv' Hm IH]; intros Hv; cbn [map_set]; [by repeat constructor|].
  destruct (String.eqb k' k); constructor; auto.
Qed.

Lemma map_get_Forall (P : FunnelSession -> Prop) m k : Forall (fun entry => P (snd entry)) m -> P new_session ->
  P (default new_session (map_get m k)).
Proof.
  intros Hm Hn. destruct (map_get m k) as [v|] eqn:E; [|done]. apply map_get_elem in E. rewrite Forall_forall in Hm.
  by apply (Hm _ E).
Qed.

Lemma funnel_event_tallies st e : tallies st -> tallies (funnel_event prefix st e).
Proof.
  intros (Hc & Hm & Hok). unfold funnel_event. destruct (countable_event e); [|done].
  set (s := default new_session (map_get (sessions st) (sessionId e))).
  assert (Hs : session_ok prefix s) by (apply map_get_Forall; [done | apply new_session_ok]).
  destruct (session_event prefix e (counters st) s) as [c s'] eqn:E. apply session_event_moves in E as [[Mc Mm] Hs']; [|done].
  split; [|split]; cbn [counters sessions].
  - intros x. rewrite sum_sessions_set by apply new_reached. rewrite Mc, Hc. done.
  - intros x. rewrite sum_sessions_set by done. rewrite Mm, Hm. done.
  - by apply map_set_Forall.
Qed.

Lemma loop_tallies events : tallies (foldl (funnel_event prefix) start events).
Proof.
  assert (H : tallies start) by (split; [done | split; [done | constructor]]). revert H. generalize start as st.
  induction events as [|e events IH]; intros st H; [done|]. cbn [foldl]. by apply IH, funnel_event_tallies.
Qed.

(** ** Sessions are replayed apart *)

Lemma set_of_snoc l x : set_of (l ++ [x]) = if includes l x then set_of l else set_of l ++ [x].
Proof.
  unfold set_of. assert (H : forall seen, first_occurrences seen (l ++ [x]) =
    if includes seen x || includes l x then first_occurrences seen l else first_occurrences seen l ++ [x]).
  { induction l as [|y l IH]; intros seen; cbn [app first_occurrences].
    - change (includes [] x) with false. rewrite orb_false_r. fold (includes seen x). by destruct (includes seen x).
    - change (includes (y :: l) x) with (String.eqb x y || includes l x). rewrite !IH. fold (includes seen y).
      change (includes (y :: seen) x) with (String.eqb x y || includes seen x). destruct (includes seen y) eqn:Ey.
      + destruct (String.eqb_spec x y) as [->|]; [by rewrite Ey | done].
      + by destruct (String.eqb x y), (includes seen x), (includes l x). }
  rewrite H. by destruct (includes l x).
Qed.

Lemma filter_snoc {A} (f : A -> bool) l x : List.filter f (l ++ [x]) = if f x then List.filter f l ++ [x] else List.filter f l.
Proof. rewrite List.filter_app. cbn [List.filter]. destruct (f x); [done | by rewrite app_nil_r]. Qed.

Lemma replayed_get events id : map_get (replayed events) id =
  if includes (session_ids events) id then Some (replay prefix (of_session id events)) else None.
Proof.
  unfold replayed. induction (session_ids events) as [|k ids IH]; [done|]. cbn [fmap list_fmap map_get].
  unfold includes. cbn [existsb]. fold (includes ids id). destruct (String.eqb_spec k id) as [->|Hne].
  - by rewrite String.eqb_refl.
  - rewrite IH. by rewrite (proj2 (String.eqb_neq id k)) by done.
Qed.

Lemma fmap_set (f g : string -> FunnelSession) ids k : NoDup ids -> (forall id, id <> k -> g id = f id) ->
  map_set ((fun id => (id, f id)) <$> ids) k (g k) =
  (fun id => (id, g id)) <$> (if includes ids k then ids else ids ++ [k]).
Proof.
  intros Hn Hfg. induction Hn as [|x ids Hx Hn IH]; [done|]. cbn [fmap list_fmap map_set].
  unfold includes. cbn [existsb]. fold (includes ids k). destruct (String.eqb_spec x k) as [->|Hne].
  - rewrite String.eqb_refl. cbn [orb]. cbn [fmap list_fmap]. f_equal. apply list_fmap_ext. intros i id Hi.
    rewrite Hfg; [done|]. intros ->. apply Hx. by eapply list_elem_of_lookup_2.
  - rewrite (proj2 (String.eqb_neq k x)) by done. cbn [orb]. change (fmap ?h ids) with (h <$> ids).
    change (map (fun id => (id, f id)) ids) with ((fun id => (id, f id)) <$> ids). rewrite IH.
    destruct (includes ids k); cbn [fmap list_fmap app]; by rewrite Hfg.
Qed.

Lemma of_session_other id e events : countable_event e && String.eqb (sessionId e) id = false ->
  of_session id (events ++ [e]) = of_session id events.
Proof. intros H. unfold of_session. by rewrite filter_snoc, H. Qed.

Lemma no_session id events : includes (session_ids events) id = false -> of_session id events = [].
Proof.
  intros Hi%includes_false. unfold session_ids in Hi. rewrite elem_of_set_of in Hi. unfold of_session.
  set (k := List.filter (fun e => countable_event e && String.eqb (sessionId e) id) events).
  destruct k as [|x l] eqn:E; [done|]. exfalso. apply Hi.
  assert (Hx : x ∈ k) by (rewrite E; by left). unfold k in Hx.
  apply elem_of_bfilter in Hx as [Hx [Hc He%String.eqb_eq]%andb_true_iff]. rewrite <- He.
  apply list_elem_of_fmap. exists x. split; [done|]. by apply elem_of_bfilter.
Qed.

Lemma replay_snoc events e : countable_event e = true ->
  replay prefix (of_session (sessionId e) (events ++ [e])) =
  advance prefix (default new_session (map_get (replayed events) (sessionId e))) e.
Proof.
  intros He. unfold of_session. rewrite filter_snoc, He, String.eqb_refl. cbn [andb]. unfold replay. rewrite foldl_app. cbn [foldl].
  fold (of_session (sessionId e) events). fold (replay prefix (of_session (sessionId e) events)). f_equal.
  rewrite replayed_get. destruct (includes (session_ids events) (sessionId e)) eqn:Ei; [done|]. by rewrite no_session.
Qed.

Lemma session_ids_snoc events e : session_ids (events ++ [e]) =
  if countable_event e && negb (includes (session_ids events) (sessionId e)) then session_ids events ++ [sessionId e]
  else session_ids events.
Proof.
  unfold session_ids. rewrite filter_snoc. destruct (countable_event e); [|done]. rewrite fmap_app. change (sessionId <$> [e]) with [sessionId e]. rewrite set_of_snoc.
  assert (Ei : includes (set_of (sessionId <$> List.filter countable_event events)) (sessionId e) =
               includes (sessionId <$> List.filter countable_event events) (sessionId e)).
  { apply eq_true_iff_eq. by rewrite !includes_elem, elem_of_set_of. }
  rewrite Ei. clear Ei. by case (includes (sessionId <$> List.filter countable_event events) (sessionId e)).
Qed.

Lemma loop_sessions events : sessions (foldl (funnel_event prefix) start events) = replayed events.
Proof.
  induction events as [|e events IH] using rev_ind; [done|]. rewrite foldl_app. cbn [foldl].
  revert IH. generalize (foldl (funnel_event prefix) start events) as st. intros st IH. unfold funnel_event.
  destruct (countable_event e) eqn:Ee.
  - rewrite IH. destruct (session_event prefix e _ _) as [c s'] eqn:E. cbn [sessions].
    apply (f_equal snd) in E. rewrite session_event_advance, <- replay_snoc in E by done. cbn [snd] in E. subst s'.
    unfold replayed.
    rewrite (fmap_set (fun id => replay prefix (of_session id events)) (fun id => replay prefix (of_session id (events ++ [e])))).
    + rewrite session_ids_snoc, Ee. cbn [andb]. by case (includes (session_ids events) (sessionId e)).
    + apply NoDup_set_of.
    + intros id Hid. rewrite of_session_other; [done|]. rewrite Ee. by apply String.eqb_neq.
  - rewrite IH. unfold replayed. rewrite session_ids_snoc, Ee. cbn [andb]. apply list_fmap_ext. intros i id _.
    by rewrite of_session_other by by rewrite Ee.
Qed.
End Session.

(** ** What the counters count *)

Lemma run_funnel_start b events : run_funnel b events = foldl (funnel_event (prefix_of b)) start (by_sequence events).
Proof. done. Qed.

Lemma run_tallies b events : tallies (prefix_of b) (run_funnel b events).
Proof. rewrite run_funnel_start. apply loop_tallies, prefix_of_ok. Qed.

Lemma run_sessions b events : sessions (run_funnel b events) = replayed (prefix_of b) (by_sequence events).
Proof. rewrite run_funnel_start. apply loop_sessions. Qed.

Lemma sum_of_count {A} (f : A -> bool) l : sum_of (fun x => one (f x)) l = Z.of_nat (length (List.filter f l)).
Proof.
  induction l as [|x l IH]; [done|]. rewrite sum_of_cons, IH. cbn [List.filter]. destruct (f x); cbn [one length]; lia.
Qed.

Lemma sum_replayed (f : FunnelSession -> bool) prefix events : sum_sessions f (replayed prefix events) =
  Z.of_nat (length (List.filter (fun id => f (replay prefix (of_session id events))) (session_ids events))).
Proof. unfold sum_sessions, replayed. rewrite sum_of_fmap. cbn [snd]. apply sum_of_count. Qed.

(** The session that some visitor's events, and no others, lead to *)
Definition session_of (b : bool) (events : list BookingFunnelEvent) (id : string) : FunnelSession :=
  replay (prefix_of b) (of_session id (by_sequence events)).

(** The sessions of a report: those with an event that counts *)
Definition visitors (events : list BookingFunnelEvent) : list string := session_ids (by_sequence events).

Lemma run_counts b events : let c := counters (run_funnel b events) in
  (forall s, counts c s = Z.of_nat (length (List.filter (fun id => reached (prefix_of b) (session_of b events id) s) (visitors events)))) /\
  (forall m, methods c m = Z.of_nat (length (List.filter (fun id => chose m (session_of b events id)) (visitors events)))).
Proof.
  destruct (run_tallies b events) as (Hc & Hm & _). rewrite run_sessions in Hc, Hm. split; intros x.
  - rewrite Hc. apply (sum_replayed (fun s => reached (prefix_of b) s x)).
  - rewrite Hm. apply (sum_replayed (chose x)).
Qed.

(** ** How far a session went *)

Definition increasing (events : list BookingFunnelEvent) : Prop :=
  StronglySorted (fun a b => sequence a < sequence b) events.

Lemma increasing_snoc events e : increasing (events ++ [e]) ->
  increasing events /\ Forall (fun x => sequence x < sequence e) events.
Proof.
  unfold increasing. induction events as [|x events IH]; cbn [app]; [repeat constructor|]. intros H.
  inversion H as [|? ? Hs Hf]. subst. destruct (IH Hs) as [H1 H2]. apply Forall_app in Hf as [Hf Hx].
  inversion Hx. subst. split; by constructor.
Qed.

Lemma session_event_last prefix c e s : lastSequence (snd (session_event prefix e c s)) = Z.max (lastSequence s) (sequence e).
Proof.
  unfold session_event. destruct (Z.leb_spec (sequence e) (lastSequence s)); [cbn [snd]; lia|].
  assert (H' : forall t, lastSequence t = sequence e -> lastSequence t = Z.max (lastSequence s) (sequence e)) by lia.
  apply H'. assert (Ht : lastSequence (seen (sequence e) s) = sequence e) by done. revert Ht.
  generalize (seen (sequence e) s) as t. intros t Ht. destruct (prefix !! next t); [by destruct (bool_decide _)|].
  destruct (completed t); [done|]. destruct (clicked_method e) as [m|].
  - unfold click. destruct (method t) as [m'|]; [by destruct (String.eqb m' m) | done].
  - unfold pay. destruct (method t) as [m|]; [|done]. repeat (case_match; try done).
Qed.

Lemma replay_last prefix events : Forall (fun e => 1 <= sequence e) events -> forall n,
  Forall (fun e => sequence e < n) events -> 0 < n -> lastSequence (replay prefix events) < n.
Proof.
  induction events as [|e events IH] using rev_ind; intros H1 n Hn H0; [done|].
  apply Forall_app in H1 as [H1 _], Hn as [Hn He]. inversion He. subst. unfold replay. rewrite foldl_app. cbn [foldl].
  unfold advance at 1. rewrite session_event_last. specialize (IH H1 n Hn H0). unfold replay in IH. lia.
Qed.

Lemma sublist_snoc_inv (l k : list FunnelStage) x y : l ++ [x] `sublist_of` k ++ [y] ->
  l ++ [x] `sublist_of` k \/ (x = y /\ l `sublist_of` k).
Proof.
  intros (l1 & l2 & E & H1 & H2)%sublist_app_r.
  apply sublist_cons_r in H2 as [->%sublist_nil_r|(l' & -> & ->%sublist_nil_r)].
  - left. rewrite app_nil_r in E. by rewrite E.
  - right. by apply app_inj_tail in E as [-> ->].
Qed.

Lemma advance_next prefix s e : lastSequence s < sequence e ->
  next (advance prefix s e) = match prefix !! next s with
                              | Some expected => if bool_decide (stage e = expected) then S (next s) else next s
                              | None => next s
                              end.
Proof.
  intros Hl. unfold advance, session_event. rewrite (proj2 (Z.leb_gt _ _) Hl). cbn [next seen].
  destruct (prefix !! next s); [by destruct (bool_decide _)|]. change (completed (seen (sequence e) s)) with (completed s).
  destruct (completed s); [done|]. destruct (clicked_method e) as [m|].
  - unfold click. cbn [method seen]. destruct (method s) as [m'|]; [by destruct (String.eqb m' m) | done].
  - unfold pay. cbn [method seen]. destruct (method s) as [m|]; [|done]. repeat (case_match; try done).
Qed.

(** A session has passed as many stages of the prefix as occur one after another
    among its events. *)
Lemma replay_next prefix events : increasing events -> Forall (fun e => 1 <= sequence e) events ->
  let n := next (replay prefix events) in
  (n <= length prefix)%nat /\ take n prefix `sublist_of` (stage <$> events) /\
  forall k, (k <= length prefix)%nat -> take k prefix `sublist_of` (stage <$> events) -> (k <= n)%nat.
Proof.
  cbv zeta. induction events as [|e events IH] using rev_ind; intros Hs H1.
  - cbn. split_and!; [lia | done |]. intros k Hk Hsub%sublist_nil_r. apply (f_equal length) in Hsub.
    rewrite length_take in Hsub. cbn in Hsub. lia.
  - apply increasing_snoc in Hs as [Hs Hlt]. apply Forall_app in H1 as [H1 He]. inversion He as [|? ? He1 _]. subst.
    destruct (IH Hs H1) as (Hn & Hsub & Hmax). pose proof (replay_last prefix events H1 (sequence e) Hlt ltac:(lia)) as Hl.
    rewrite fmap_app. change (stage <$> [e]) with [stage e].
    assert (Er : replay prefix (events ++ [e]) = advance prefix (replay prefix events) e) by (unfold replay; by rewrite foldl_app).
    rewrite Er. clear Er. revert Hn Hsub Hmax Hl. generalize (replay prefix events) as s. intros s Hn Hsub Hmax Hl.
    rewrite (advance_next _ _ _ Hl). destruct (prefix !! next s) as [expected|] eqn:En.
    + pose proof (lookup_lt_Some _ _ _ En) as Hlt'. destruct (bool_decide_reflect (stage e = expected)) as [<-|Hne].
      * split_and!; [lia | |].
        -- rewrite (take_S_r _ _ _ En). by apply sublist_app.
        -- intros k Hk Hk'. destruct (decide (k <= S (next s))%nat); [done|]. exfalso.
           destruct k as [|k]; [lia|]. destruct (lookup_lt_is_Some_2 prefix k ltac:(lia)) as [y Hy].
           rewrite (take_S_r _ _ _ Hy) in Hk'. apply sublist_snoc_inv in Hk' as [Hk'|[_ Hk']].
           ++ rewrite <- (take_S_r _ _ _ Hy) in Hk'. apply Hmax in Hk'; lia.
           ++ apply Hmax in Hk'; lia.
      * split_and!; [lia | by apply sublist_inserts_r |]. intros [|k] Hk Hk'; [lia|].
        destruct (lookup_lt_is_Some_2 prefix k ltac:(lia)) as [y Hy]. rewrite (take_S_r _ _ _ Hy) in Hk'.
        apply sublist_snoc_inv in Hk' as [Hk'|[-> Hk']].
        -- rewrite <- (take_S_r _ _ _ Hy) in Hk'. apply Hmax in Hk'; lia.
        -- apply Hmax in Hk' as Hk''; [|lia]. destruct (decide (k = next s)) as [->|]; [congruence | lia].
    + apply lookup_ge_None in En. split_and!; [lia | by apply sublist_inserts_r | lia].
Qed.

(** ** The sorted events of a session *)

Lemma by_sequence_sorted events : StronglySorted (fun a b => sequence a <= sequence b) (by_sequence events).
Proof.
  eapply StronglySorted_weaken with (R := fun a b => sequence a - sequence b <= 0); [intros x y; lia|].
  unfold by_sequence. apply sort_by_sorted; lia.
Qed.

Lemma filter_perm {A} (f : A -> bool) (l k : list A) : l ≡ₚ k -> List.filter f l ≡ₚ List.filter f k.
Proof.
  induction 1 as [|x l k _ IH|x y l|l k m _ IH1 _ IH2]; cbn [List.filter]; [done | by destruct (f x); rewrite IH | |].
  - destruct (f x), (f y); try done; constructor.
  - by rewrite IH1.
Qed.

(** No session has two events of one sequence. *)
Definition distinct_events (events : list BookingFunnelEvent) : Prop :=
  NoDup ((fun e => (sessionId e, sequence e)) <$> List.filter countable_event events).

Lemma of_session_distinct id events : distinct_events events -> NoDup (sequence <$> of_session id events).
Proof.
  unfold distinct_events, of_session. induction events as [|e events IH]; cbn [List.filter]; [constructor|].
  destruct (countable_event e) eqn:Ee; cbn [andb]; [|done]. cbn [fmap list_fmap]. intros Hn.
  inversion Hn as [|? ? He Hn']. subst. destruct (String.eqb_spec (sessionId e) id) as [<-|]; [|by apply IH].
  cbn [fmap list_fmap]. constructor; [|by apply IH]. intros (x & E & Hx)%list_elem_of_fmap.
  apply elem_of_bfilter in Hx as [Hx [Hc Hid%String.eqb_eq]%andb_true_iff]. apply He, list_elem_of_fmap. exists x.
  split; [by rewrite E, Hid|]. by apply elem_of_bfilter.
Qed.

Lemma distinct_perm events events' : events ≡ₚ events' -> distinct_events events -> distinct_events events'.
Proof. intros H. unfold distinct_events. by rewrite (filter_perm _ _ _ H). Qed.

Lemma of_session_increasing id events : distinct_events events -> increasing (of_session id (by_sequence events)).
Proof.
  intros Hd. apply (strictly_sorted sequence).
  - apply of_session_distinct. eapply distinct_perm; [|exact Hd]. symmetry. apply sort_by_perm.
  - apply filter_sorted, by_sequence_sorted.
Qed.

#[local] Instance before_antisymm : AntiSymm (=) (fun a b : BookingFunnelEvent => sequence a < sequence b).
Proof. intros x y Hx Hy. lia. Qed.

Lemma of_session_perm id events events' : distinct_events events -> events ≡ₚ events' ->
  of_session id (by_sequence events) = of_session id (by_sequence events').
Proof.
  intros Hd Hp. apply (StronglySorted_unique (fun a b => sequence a < sequence b)).
  - by apply of_session_increasing.
  - apply of_session_increasing. by eapply distinct_perm.
  - apply filter_perm. unfold by_sequence. by rewrite !sort_by_perm.
Qed.

Lemma of_session_positive id events : Forall (fun e => 1 <= sequence e) (of_session id events).
Proof.
  apply Forall_forall. intros e [_ [Hc _]%andb_true_iff]%elem_of_bfilter. unfold countable_event in Hc.
  rewrite !andb_true_iff, Z.leb_le in Hc. tauto.
Qed.

Lemma visitors_perm events events' : events ≡ₚ events' -> visitors events ≡ₚ visitors events'.
Proof.
  intros Hp. unfold visitors, session_ids. apply NoDup_Permutation; [apply NoDup_set_of..|]. intros x.
  rewrite !elem_of_set_of. unfold by_sequence. by rewrite (filter_perm _ _ _ (sort_by_perm _ events)), (filter_perm _ _ _ (sort_by_perm _ events')), (filter_perm _ _ _ Hp).
Qed.

(** ** Reports *)

Lemma report_ext c c' before first ss : (forall s, counts c s = counts c' s) -> (forall m, methods c m = methods c' m) ->
  forall drop largest, report c before first ss drop largest = report c' before first ss drop largest.
Proof.
  intros Hc Hm. revert before first. induction ss as [|s ss IH]; intros before first drop largest; [done|]. cbn [report].
  assert (Ep : previous_count c before s = previous_count c' before s) by (unfold previous_count; destruct s; by rewrite ?Hc, ?Hm).
  by rewrite Ep, !Hc, IH.
Qed.

Lemma report_of_ext b c c' : (forall s, counts c s = counts c' s) -> (forall m, methods c m = methods c' m) ->
  report_of b c = report_of b c'.
Proof.
  intros Hc Hm. unfold report_of. rewrite (report_ext c c') by done. destruct (report _ _ _ _ _ _) as [ss drop].
  f_equal. f_equal. apply list_fmap_ext. intros i m _. by rewrite Hm.
Qed.

(** C12: the one pass over the events of all sessions counts sessions: whatever the
    interleaving, each counter is the number of sessions whose own events, replayed
    alone, lead to that stage or method; and when the sequences of a session are
    distinct, a session leads past a stage of the page exactly when that stage and
    the ones before it occur in this order among its events. *)
Theorem funnel_counts_sessions b events : distinct_events events ->
  let c := counters (run_funnel b events) in
  let number f := Z.of_nat (length (List.filter (fun id => f (session_of b events id)) (visitors events))) in
  (forall s, counts c s = number (fun x => reached (prefix_of b) x s)) /\
  (forall m, methods c m = number (chose m)) /\
  forall id i s, prefix_of b !! i = Some s ->
    reached (prefix_of b) (session_of b events id) s = true <->
    take (S i) (prefix_of b) `sublist_of` (stage <$> of_session id (by_sequence events)).
Proof.
  intros Hd. destruct (run_counts b events) as [Hc Hm]. split; [exact Hc|]. split; [exact Hm|]. intros id i s Hi.
  pose proof (replay_next (prefix_of b) _ (of_session_increasing id events Hd) (of_session_positive id _)) as (Hn & Hsub & Hmax).
  fold (session_of b events id) in Hn, Hsub, Hmax. pose proof (lookup_lt_Some _ _ _ Hi) as Hlt.
  assert (Hr : reached (prefix_of b) (session_of b events id) s = true <-> s ∈ take (next (session_of b events id)) (prefix_of b)).
  { destruct (po_early _ (prefix_of_ok b) s) as (H1 & H2 & H3); [by eapply list_elem_of_lookup_2|].
    destruct s; try done; apply bool_decide_eq_true. }
  rewrite Hr. split.
  - intros (j & Hj)%list_elem_of_lookup. apply lookup_take_Some in Hj as [Hj Hjn].
    pose proof (NoDup_lookup _ _ _ _ (po_nodup _ (prefix_of_ok b)) Hi Hj) as <-. etransitivity; [|exact Hsub].
    replace (take (S i) (prefix_of b)) with (take (S i) (take (next (session_of b events id)) (prefix_of b)))
      by (rewrite take_take; f_equal; lia). apply sublist_take.
  - intros Hk. apply Hmax in Hk; [|lia]. apply list_elem_of_lookup. exists i. apply lookup_take_Some. split; [done | lia].
Qed.

(** The report does not depend on the order in which the events were read: any
    two orders of events, with distinct sequences within each session, make the same
    report, to the last share. *)
Theorem funnel_order_irrelevant b events events' : distinct_events events -> events ≡ₚ events' ->
  buildBookingConversionFunnel events b = buildBookingConversionFunnel events' b.
Proof.
  intros Hd Hp. unfold buildBookingConversionFunnel. destruct (run_counts b events) as [Hc Hm], (run_counts b events') as [Hc' Hm'].
  assert (Hs : forall id, session_of b events id = session_of b events' id).
  { intros id. unfold session_of. by rewrite (of_session_perm id events events'). }
  assert (Hn : forall f, length (List.filter (fun id => f (session_of b events id)) (visitors events)) =
                         length (List.filter (fun id => f (session_of b events' id)) (visitors events'))).
  { intros f. rewrite (filter_perm _ _ _ (visitors_perm _ _ Hp)). f_equal. apply List.filter_ext. intros id. by rewrite Hs. }
  apply report_of_ext.
  - intros s. rewrite Hc, Hc'. f_equal. apply (Hn (fun x => reached (prefix_of b) x s)).
  - intros m. rewrite Hm, Hm'. f_equal. apply (Hn (chose m)).
Qed.

(** ** The funnel narrows *)

Lemma sum_sessions_le (f g : FunnelSession -> Z) m : Forall (fun entry : string * FunnelSession => f (snd entry) <= g (snd entry)) m ->
  sum_of (fun entry => f (snd entry)) m <= sum_of (fun entry => g (snd entry)) m.
Proof. induction 1 as [|x m Hx _ IH]; [done|]. rewrite !sum_of_cons. lia. Qed.

Lemma reached_prefix prefix s i st : prefix_ok prefix -> prefix !! i = Some st ->
  reached prefix s st = true <-> (i < next s)%nat.
Proof.
  intros Hp Hi. destruct (po_early _ Hp st) as (H1 & H2 & H3); [by eapply list_elem_of_lookup_2|].
  assert (Hr : reached prefix s st = true <-> st ∈ take (next s) prefix) by (destruct st; try done; apply bool_decide_eq_true).
  rewrite Hr, list_elem_of_lookup. split.
  - intros (j & Hj). apply lookup_take_Some in Hj as [Hj Hjn].
    by pose proof (NoDup_lookup _ _ _ _ (po_nodup _ Hp) Hi Hj) as <-.
  - intros Hn. exists i. by apply lookup_take_Some.
Qed.

(** The comparisons between the counters of a report *)
Record narrowing (b : bool) (c : Counters) : Prop := {
  na_positive : forall s, 0 <= counts c s;
  na_methods : forall m, 0 <= methods c m;
  na_prefix : forall i j s t, (i <= j)%nat -> prefix_of b !! i = Some s -> prefix_of b !! j = Some t -> counts c t <= counts c s;
  na_clicked : forall i s, prefix_of b !! i = Some s -> counts c complete_booking_clicked <= counts c s;
  na_authorized : counts c payment_authorized <= methods c "card";
  na_card : methods c "card" <= counts c complete_booking_clicked;
  na_completed : counts c booking_completed <=
    counts c payment_authorized + counts c complete_booking_clicked - methods c "card";
  na_split : sum_of (methods c) FUNNEL_PAYMENT_METHODS = counts c complete_booking_clicked
}.

Lemma chose_method m s : chose m s = true <-> method s = Some m.
Proof. unfold chose. destruct (method s) as [m'|]; [|done]. rewrite String.eqb_eq. split; [by intros -> | by intros [= ->]]. Qed.

Lemma one_le (f g : bool) : (f = true -> g = true) -> one f <= one g.
Proof. intros H. destruct f; [by rewrite H | destruct g; cbn; lia]. Qed.

Lemma session_narrows prefix s : prefix_ok prefix -> session_ok prefix s ->
  (forall i j st t, (i <= j)%nat -> prefix !! i = Some st -> prefix !! j = Some t ->
     one (reached prefix s t) <= one (reached prefix s st)) /\
  (forall i st, prefix !! i = Some st -> one (reached prefix s complete_booking_clicked) <= one (reached prefix s st)) /\
  one (authorized s) <= one (chose "card" s) /\
  one (chose "card" s) <= one (reached prefix s complete_booking_clicked) /\
  one (completed s) <= one (authorized s) + one (reached prefix s complete_booking_clicked) - one (chose "card" s) /\
  sum_of (fun m => one (chose m s)) FUNNEL_PAYMENT_METHODS = one (reached prefix s complete_booking_clicked).
Proof.
  intros Hp [Hn Hm Ha Hc]. cbn [reached]. split_and!.
  - intros i j st t Hij Hi Hj. apply one_le. rewrite (reached_prefix _ _ _ _ Hp Hi), (reached_prefix _ _ _ _ Hp Hj). lia.
  - intros i st Hi. apply one_le. rewrite (reached_prefix _ _ _ _ Hp Hi). pose proof (lookup_lt_Some _ _ _ Hi) as Hlt.
    destruct (method s) as [m|]; [|done]. destruct (Hm m eq_refl) as [_ ->]. done.
  - apply one_le. intros H. by apply chose_method, Ha.
  - apply one_le. intros H%chose_method. by rewrite H.
  - destruct (completed s) eqn:Ec; cbn [one].
    + destruct (Hc eq_refl) as (m & Em & Hcard). rewrite Em. cbn [one].
      destruct (chose "card" s) eqn:Es; cbn [one]; [|destruct (authorized s); cbn [one]; lia].
      apply chose_method in Es. rewrite Hcard by congruence. cbn [one]. lia.
    + destruct (chose "card" s) eqn:Es; [apply chose_method in Es; rewrite Es|]; destruct (authorized s), (method s); cbn [one]; lia.
  - destruct (method s) as [m|] eqn:Em.
    + destruct (Hm m eq_refl) as [Hin _]. unfold FUNNEL_PAYMENT_METHODS in *. rewrite !elem_of_cons, elem_of_nil in Hin.
      unfold chose. rewrite Em. by destruct Hin as [->|[->|[->|[->|[->|[]]]]]].
    + unfold chose. by rewrite Em.
Qed.

Lemma sum_of_swap {A B} (f : A -> B -> Z) l k :
  sum_of (fun x => sum_of (fun y => f x y) k) l = sum_of (fun y => sum_of (fun x => f x y) l) k.
Proof.
  induction l as [|x l IH].
  { change (0 = sum_of (fun _ => 0) k). induction k as [|y k IHk]; [done|]. rewrite sum_of_cons. lia. }
  rewrite sum_of_cons, IH. clear IH.
  induction k as [|y k IHk]; [done|]. rewrite !sum_of_cons. lia.
Qed.

Lemma sum_of_linear {A} (f g h : A -> Z) l :
  sum_of (fun x => f x + g x - h x) l = sum_of f l + sum_of g l - sum_of h l.
Proof. induction l as [|x l IH]; [done|]. rewrite !sum_of_cons, IH. lia. Qed.

Lemma sum_of_nonneg {A} (f : A -> Z) l : (forall x, 0 <= f x) -> 0 <= sum_of f l.
Proof. intros H. induction l as [|x l IH]; [done|]. rewrite sum_of_cons. specialize (H x). lia. Qed.

Lemma run_narrows b events : narrowing b (counters (run_funnel b events)).
Proof.
  destruct (run_tallies b events) as (Hc & Hm & Hok). revert Hc Hm Hok. generalize (run_funnel b events) as st.
  intros [c m] Hc Hm Hok. cbn [counters sessions] in *. unfold sum_sessions in *. pose proof (prefix_of_ok b) as Hp.
  pose proof (fun s => session_narrows (prefix_of b) s Hp) as Hn.
  assert (Hone : forall f : bool, 0 <= one f) by (intros []; cbn; lia).
  split.
  - intros s. rewrite Hc. by apply sum_of_nonneg.
  - intros x. rewrite Hm. by apply sum_of_nonneg.
  - intros i j s t Hij Hi Hj. rewrite !Hc. apply (sum_sessions_le (fun x => one (reached _ x t)) (fun x => one (reached _ x s))).
    eapply Forall_impl; [exact Hok|]. intros x Hx. destruct (Hn _ Hx) as (H & _). by eapply H.
  - intros i s Hi. rewrite !Hc. apply (sum_sessions_le (fun x => one (reached _ x _)) (fun x => one (reached _ x s))).
    eapply Forall_impl; [exact Hok|]. intros x Hx. destruct (Hn _ Hx) as (_ & H & _). by eapply H.
  - rewrite Hc, Hm. apply (sum_sessions_le (fun x => one (reached _ x _)) (fun x => one (chose _ x))).
    eapply Forall_impl; [exact Hok|]. intros x Hx. by destruct (Hn _ Hx) as (_ & _ & H & _).
  - rewrite Hc, Hm. apply (sum_sessions_le (fun x => one (chose _ x)) (fun x => one (reached _ x _))).
    eapply Forall_impl; [exact Hok|]. intros x Hx. by destruct (Hn _ Hx) as (_ & _ & _ & H & _).
  - rewrite !Hc, Hm, <- sum_of_linear.
    apply (sum_sessions_le (fun x => one (completed x))
      (fun x => one (authorized x) + one (reached (prefix_of b) x complete_booking_clicked) - one (chose "card" x))).
    eapply Forall_impl; [exact Hok|]. intros x Hx. by destruct (Hn _ Hx) as (_ & _ & _ & _ & H & _).
  - rewrite Hc. rewrite (sum_of_ext (methods c) (fun x => sum_of (fun entry => one (chose x (snd entry))) m)) by (intros; apply Hm).
    rewrite <- (sum_of_swap (fun entry x => one (chose x (snd entry)))). apply sum_of_ext. intros x Hx.
    rewrite Forall_forall in Hok. by destruct (Hn _ (Hok x Hx)) as (_ & _ & _ & _ & _ & H).
Qed.

Definition narrow_step (visits : Z) (step : FunnelStep) : Prop :=
  0 <= stepCount step <= previousCount step /\ previousCount step <= visits.

Lemma report_step c before first s rest drop largest visits :
  0 <= counts c s <= previous_count c before s /\ previous_count c before s <= visits ->
  (forall d l, Forall (narrow_step visits) (fst (report c s false rest d l))) ->
  Forall (narrow_step visits) (fst (report c before first (s :: rest) drop largest)).
Proof.
  intros Hs Hr. cbn [report]. match goal with |- context [report c s false rest ?d ?l] =>
    specialize (Hr d l); destruct (report c s false rest d l) as [ss last] end. cbn [fst] in *. by constructor.
Qed.

Lemma report_narrows b events : let c := counters (run_funnel b events) in
  Forall (narrow_step (counts c page_visit)) (steps (buildBookingConversionFunnel events b)).
Proof.
  cbv zeta. unfold buildBookingConversionFunnel, report_of. pose proof (run_narrows b events) as [Hpos Hmp Hpre Hcl Hau Hca Hco _].
  set (c := counters (run_funnel b events)) in *. clearbody c. pose proof (Hmp "card") as Hcard.
  destruct (report c page_visit true (stages_of b) None (float_of 0)) as [ss drop] eqn:E. cbn [steps].
  change ss with (fst (ss, drop)). rewrite <- E. clear E.
  pose proof (Hcl 0%nat page_visit) as H0.
  pose proof (fun i => Hpre i (S i)) as Hs. pose proof (Hpos page_visit). pose proof (Hpos rate_selected).
  pose proof (Hpos addons_step_passed). pose proof (Hpos details_completed). pose proof (Hpos complete_booking_clicked).
  pose proof (Hpos payment_authorized). pose proof (Hpos booking_completed). clear Hpos Hpre. destruct b.
  - specialize (H0 eq_refl). pose proof (Hs 0%nat _ _ ltac:(lia) eq_refl eq_refl) as Hs0. pose proof (Hs 1%nat _ _ ltac:(lia) eq_refl eq_refl) as Hs1.
    pose proof (Hs 2%nat _ _ ltac:(lia) eq_refl eq_refl) as Hs2. pose proof (Hcl 3%nat _ eq_refl) as Hc3.
    repeat (apply report_step; [cbn [previous_count]; lia | intros ? ?]).
    constructor.
  - specialize (H0 eq_refl). pose proof (Hs 0%nat _ _ ltac:(lia) eq_refl eq_refl) as Hs0. pose proof (Hs 1%nat _ _ ltac:(lia) eq_refl eq_refl) as Hs1.
    pose proof (Hcl 2%nat _ eq_refl) as Hc2.
    repeat (apply report_step; [cbn [previous_count]; lia | intros ? ?]).
    constructor.
Qed.

Lemma sum_of_positive {A} (f : A -> Z) l : (forall x, 0 <= f x) ->
  sum_of snd (List.filter (fun '(_, n) => 0 <? n) ((fun x => (x, f x)) <$> l)) = sum_of f l.
Proof.
  intros Hf. induction l as [|x l IH]; [done|]. rewrite fmap_cons. cbn [List.filter]. rewrite sum_of_cons. specialize (Hf x).
  destruct (Z.ltb_spec 0 (f x)); [rewrite sum_of_cons; cbn [snd]|]; rewrite IH; lia.
Qed.

(** C26: the funnel narrows: no step of a report counts more sessions than the one it is
    compared with, nor that one more than the visits, no count is negative although
    an authorization or a choice of method can be taken back, and the payment
    methods of the report add up to the bookings clicked. *)
Theorem funnel_narrows b events : let report := buildBookingConversionFunnel events b in
  let c := counters (run_funnel b events) in
  Forall (fun step => 0 <= stepCount step <= previousCount step /\ previousCount step <= counts c page_visit) (steps report) /\
  sum_of snd (paymentMethods report) = counts c complete_booking_clicked.
Proof.
  split; [apply report_narrows|]. unfold buildBookingConversionFunnel, report_of. destruct (report _ _ _ _ _ _) as [ss drop].
  cbn [paymentMethods]. pose proof (run_narrows b events) as [_ Hm _ _ _ _ _ Hs]. by rewrite sum_of_positive.
Qed.
