(* ===== verification/CalendarStays.v ===== *)
(** * Stays a calendar can offer

    packages/domain-distribution/src/calendarStays.ts: for every arrival day the
    check-out days that some offer covers without a gap, computed backwards with one
    run length per offer, and the fewest nights shown for an arrival. *)

From S2P Require Import Prelude JsValue CalendarDates RoomAssignment AssignmentIntervals.

(** ** Data *)

Record CalendarStayOffer := { offerKey : string; offerMin : Z; offerMax : option Z }.

Record CalendarStayDay := {
  stayDate : string;
  hasAvailability : bool;
  dayOffers : option (list CalendarStayOffer)
}.

Record CalendarStays := {
  validCheckOutsByArrival : list (string * list string);
  minStayByArrival : list (string * Z)
}.

(** ** One arrival *)

(** The day number of [Date.parse(`${date}T00:00:00Z`)]: days that a month does not have
    carry over. Texts that are not a date are left to the engine; here they have none. *)
Definition stay_day (date : string) : option Z :=
  let? (y, m, d) := parse_ymd date in
  guard? (1 <=? m) && (m <=? 12) && (1 <=? d) && (d <=? 31) in
  Some (make_day y (m - 1) d).

(** The first ten characters of [toISOString]; in a year that it prints with a sign and
    six digits, [iso_date] cuts the text off as well. *)
Definition dateAfter (day nights : Z) : string := iso_date (day + nights).

Definition offers_of (arrival : CalendarStayDay) : list CalendarStayOffer :=
  if hasAvailability arrival then default [] (dayOffers arrival) else [].

(** [new Map(offers.map((offer) => [offer.key, 1 + (nextRuns.get(offer.key) ?? 0)]))] *)
Definition runs_of (offers : list CalendarStayOffer) (nextRuns : list (string * Z)) : list (string * Z) :=
  fold_left (fun runs o => map_set runs (offerKey o) (1 + default 0 (map_get nextRuns (offerKey o)))) offers [].

(** The nights an offer allows, as far as its run goes *)
Definition interval_of (runs : list (string * Z)) (o : CalendarStayOffer) : Z * Z :=
  let run := default 0 (map_get runs (offerKey o)) in
  (offerMin o, match offerMax o with Some maximum => Z.min maximum run | None => run end).

Definition intervals_of (offers : list CalendarStayOffer) (runs : list (string * Z)) : list (Z * Z) :=
  sort_by (fun a b => fst a - fst b) (List.filter (fun '(minimum, maximum) => minimum <=? maximum) (interval_of runs <$> offers)).

(** [for (let nights = first; nights <= last; nights++)] *)
Definition nights_from (first last : Z) : list Z := seqZ first (last - first + 1).

Definition union_interval (day : Z) (end_ : string) (acc : list string * Z) (interval : Z * Z) : list string * Z :=
  let '(valid, lastNight) := acc in
  let '(minimum, maximum) := interval in
  (valid ++ List.filter (fun checkout => str_le checkout end_)
              (dateAfter day <$> nights_from (Z.max minimum (lastNight + 1)) maximum),
   Z.max lastNight maximum).

Definition check_outs (day : Z) (end_ : string) (intervals : list (Z * Z)) : list string :=
  fst (fold_left (union_interval day end_) intervals ([], 0)).

(** [Math.min] of the minimum stays of a list that is not empty *)
Definition least_minimum (offer : CalendarStayOffer) (offers : list CalendarStayOffer) : Z :=
  foldr (fun o least => Z.min (offerMin o) least) (offerMin offer) offers.

(** The fewest nights; the first check-out is at midnight, so nothing is rounded. *)
Definition min_stay (day : Z) (offers : list CalendarStayOffer) (valid : list string) : option Z :=
  match offers with
  | [] => None
  | offer :: rest =>
      Some match valid with
           | first :: _ => date_parse first - day
           | [] => least_minimum offer rest
           end
  end.

(** ** The walk *)

Record StayWalk := { stays : CalendarStays; nextDate : string; nextRuns : list (string * Z) }.

(** [toISOString] throws on a day that is none. *)
Definition walk_arrival (end_ : string) (w : StayWalk) (arrival : CalendarStayDay) : exn StayWalk :=
  match stay_day (stayDate arrival) with
  | None => Throw "Invalid time value"
  | Some day =>
      let next := if negb (String.eqb (dateAfter day 1) (nextDate w)) then [] else nextRuns w in
      let offers := offers_of arrival in
      let runs := runs_of offers next in
      let valid := check_outs day end_ (intervals_of offers runs) in
      Ret {| stays :=
               {| validCheckOutsByArrival := map_set (validCheckOutsByArrival (stays w)) (stayDate arrival) valid;
                  minStayByArrival :=
                    match min_stay day offers valid with
                    | Some nights => map_set (minStayByArrival (stays w)) (stayDate arrival) nights
                    | None => minStayByArrival (stays w)
                    end |};
             nextDate := stayDate arrival; nextRuns := runs |}
  end.

Fixpoint walk_arrivals (end_ : string) (w : StayWalk) (arrivals : list CalendarStayDay) : exn StayWalk :=
  match arrivals with
  | [] => Ret w
  | arrival :: arrivals => try! w := walk_arrival end_ w arrival in walk_arrivals end_ w arrivals
  end.

Definition calendarStays `{Collation} (days : list CalendarStayDay) (end_ : string) : exn CalendarStays :=
  try! w := walk_arrivals end_
              {| stays := {| validCheckOutsByArrival := []; minStayByArrival := [] |}; nextDate := end_; nextRuns := [] |}
              (sort_by (fun a b => localeCompare (stayDate b) (stayDate a)) days) in
  Ret (stays w).

(** ** What an arrival may book *)

Definition day_of (d : CalendarStayDay) : Z := date_parse (stayDate d).

(** A day of the calendar whose next day has four digits of the year, too *)
Definition stay_day_ok (d : CalendarStayDay) : Prop :=
  validDate (stayDate d) = true /\ four_digit_day (day_of d + 1).

(** The offer is open on a night. *)
Definition serves (days : list CalendarStayDay) (offer : string) (night : Z) : Prop :=
  exists d, d ∈ days /\ day_of d = night /\ offer ∈ offerKey <$> offers_of d.

(** One offer of the arrival day allows the number of nights and is open on all of them. *)
Definition bookable (days : list CalendarStayDay) (arrival : CalendarStayDay) (nights : Z) : Prop :=
  1 <= nights /\ exists o, o ∈ offers_of arrival /\ offerMin o <= nights /\
    (forall maximum, offerMax o = Some maximum -> nights <= maximum) /\
    forall i, 0 <= i < nights -> serves days (offerKey o) (day_of arrival + i).

(** ** Unions of intervals *)

Definition union_nights (acc : list Z * Z) (interval : Z * Z) : list Z * Z :=
  let '(nights, lastNight) := acc in
  let '(minimum, maximum) := interval in
  (nights ++ nights_from (Z.max minimum (lastNight + 1)) maximum, Z.max lastNight maximum).

Lemma union_interval_nights day end_ intervals : forall nights last,
  fold_left (union_interval day end_) intervals (List.filter (fun c => str_le c end_) (dateAfter day <$> nights), last) =
  let '(nights', last') := fold_left union_nights intervals (nights, last) in
  (List.filter (fun c => str_le c end_) (dateAfter day <$> nights'), last').
Proof.
  induction intervals as [|[mn mx] intervals IH]; intros nights last; cbn [fold_left union_interval union_nights]; [done|].
  by rewrite <- List.filter_app, <- fmap_app, IH.
Qed.

Lemma elem_of_nights_from n first last : n ∈ nights_from first last <-> first <= n <= last.
Proof. unfold nights_from. rewrite elem_of_seqZ. lia. Qed.

Lemma nights_from_sorted first last : StronglySorted Z.lt (nights_from first last).
Proof.
  unfold nights_from. generalize (last - first + 1). intros len. destruct (Z.le_gt_cases 0 len) as [Hl|Hl]; [|rewrite seqZ_nil by lia; constructor].
  revert first. apply (natlike_ind (fun len => forall first, StronglySorted Z.lt (seqZ first len))); [|clear len Hl|done].
  - intros first. rewrite seqZ_nil by lia. constructor.
  - intros len Hl IH first. rewrite seqZ_cons by lia. rewrite Z.pred_succ. constructor; [apply IH|].
    apply Forall_forall. intros n Hn%elem_of_seqZ. lia.
Qed.

(** The nights seen so far are those of the intervals seen so far. *)
Record union_ok (seen : list (Z * Z)) (nights : list Z) (last : Z) : Prop := {
  uo_sorted : StronglySorted Z.lt nights;
  uo_last : 0 <= last /\ Forall (fun n => n <= last) nights;
  uo_nights : forall n, n ∈ nights <-> 1 <= n /\ exists mn mx, (mn, mx) ∈ seen /\ mn <= n <= mx;
  uo_reached : 0 < last -> exists mn, (mn, last) ∈ seen
}.

Lemma union_step seen nights last mn mx : union_ok seen nights last -> Forall (fun i => fst i <= mn) seen ->
  union_ok (seen ++ [(mn, mx)]) (nights ++ nights_from (Z.max mn (last + 1)) mx) (Z.max last mx).
Proof.
  intros [Hs [Hl Hb] Hn Hr] Hm. split.
  - apply StronglySorted_app. split_and!; [|done | apply nights_from_sorted]. intros x y Hx Hy%elem_of_nights_from.
    rewrite Forall_forall in Hb. specialize (Hb x Hx). cbn in Hb. lia.
  - split; [lia|]. apply Forall_app. split; [eapply Forall_impl; [exact Hb|]; cbn; lia|].
    apply Forall_forall. intros n H%elem_of_nights_from. lia.
  - intros n. rewrite elem_of_app, Hn, elem_of_nights_from. split.
    + intros [(H1 & a & b & Hin & Hab)|H]; (split; [lia|]).
      * exists a, b. split; [|done]. apply elem_of_app. by left.
      * exists mn, mx. split; [apply elem_of_app; right; by apply list_elem_of_singleton | lia].
    + intros (H1 & a & b & [Hin|[= -> ->]%list_elem_of_singleton]%elem_of_app & Hab); [left; split; [done|]; by exists a, b|].
      destruct (Z.le_gt_cases n last) as [Hle|Hgt]; [left | right; lia]. split; [done|].
      destruct Hr as [c Hc]; [lia|]. exists c, last. split; [done|]. rewrite Forall_forall in Hm. specialize (Hm _ Hc). cbn in Hm. lia.
  - intros H. destruct (Z.le_gt_cases mx last) as [Hle|Hgt].
    + rewrite Z.max_l by lia. destruct Hr as [c Hc]; [lia|]. exists c. apply elem_of_app. by left.
    + rewrite Z.max_r by lia. exists mn. apply elem_of_app. right. by apply list_elem_of_singleton.
Qed.

Lemma union_nights_spec intervals : forall seen nights last,
  union_ok seen nights last -> StronglySorted (fun a b => fst a <= fst b) (seen ++ intervals) ->
  let '(nights', last') := fold_left union_nights intervals (nights, last) in union_ok (seen ++ intervals) nights' last'.
Proof.
  induction intervals as [|[mn mx] intervals IH]; intros seen nights last Hu Hs; cbn [fold_left union_nights]; [by rewrite app_nil_r|].
  specialize (IH (seen ++ [(mn, mx)]) (nights ++ nights_from (Z.max mn (last + 1)) mx) (Z.max last mx)).
  rewrite <- app_assoc in IH. cbn [app] in IH. apply IH; [|done]. apply union_step; [done|].
  apply Forall_forall. intros i Hi. clear - Hi Hs. induction seen as [|j seen IH]; [by apply elem_of_nil in Hi|].
  cbn [app] in Hs. inversion Hs as [|? ? H1 H2]; subst. apply elem_of_cons in Hi as [->|Hi]; [|by apply IH].
  rewrite Forall_app, Forall_cons in H2. by destruct H2 as (_ & ? & _).
Qed.

Lemma elem_of_intervals offers runs mn mx : (mn, mx) ∈ intervals_of offers runs <->
  mn <= mx /\ exists o, o ∈ offers /\ interval_of runs o = (mn, mx).
Proof.
  unfold intervals_of. rewrite elem_of_sort_by, elem_of_bfilter, list_elem_of_fmap, Z.leb_le.
  split; intros H; [destruct H as ((o & E & Ho) & H)|destruct H as (H & o & Ho & E)].
  - split; [done|]. by exists o.
  - split; [|done]. by exists o.
Qed.

Lemma intervals_sorted offers runs : StronglySorted (fun a b => fst a <= fst b) (intervals_of offers runs).
Proof.
  unfold intervals_of, sort_by. erewrite (stable_sort_ext (fun _ => True) _ (fun a b => fst a <=? fst b));
    [apply stable_sort_measure | intros; lia | by apply Forall_true].
Qed.

(** The check-outs of an arrival are the nights its offers allow within their runs. *)
Lemma check_outs_nights day end_ offers runs : exists nights,
  check_outs day end_ (intervals_of offers runs) = List.filter (fun c => str_le c end_) (dateAfter day <$> nights) /\
  StronglySorted Z.lt nights /\
  forall n, n ∈ nights <-> 1 <= n /\ exists o, o ∈ offers /\ offerMin o <= n /\
    (forall maximum, offerMax o = Some maximum -> n <= maximum) /\ n <= default 0 (map_get runs (offerKey o)).
Proof.
  unfold check_outs. change (@nil string) with (List.filter (fun c => str_le c end_) (dateAfter day <$> @nil Z)).
  rewrite union_interval_nights. pose proof (union_nights_spec (intervals_of offers runs) [] [] 0) as H.
  destruct (fold_left union_nights _ _) as [nights last]. destruct H as [Hs _ Hn _]; [|apply intervals_sorted|].
  { split; [constructor | by split | | lia]. intros n. split; [by intros ?%elem_of_nil|]. intros (_ & mn & mx & Hin & _). by apply elem_of_nil in Hin. }
  exists nights. split_and!; [done..|]. intros n. rewrite Hn. apply and_iff_compat_l. cbn [app]. unfold interval_of in *. split.
  - intros (mn & mx & (Hle & o & Ho & [= <- <-])%elem_of_intervals & Hnn). exists o. split_and!; [done | lia | |].
    + intros m E. rewrite E in Hnn. lia.
    + destruct (offerMax o); lia.
  - intros (o & Ho & Hmin & Hmax & Hrun).
    set (run := default 0 (map_get runs (offerKey o))) in *.
    exists (offerMin o), (match offerMax o with Some m => Z.min m run | None => run end).
    assert (Hle : n <= match offerMax o with Some m => Z.min m run | None => run end).
    { destruct (offerMax o) as [m|]; [|done]. specialize (Hmax m eq_refl). lia. }
    split; [|lia]. apply elem_of_intervals. split; [lia|]. by exists o.
Qed.

(** ** Runs *)

Lemma runs_of_get offers next k :
  default 0 (map_get (runs_of offers next) k) = if decide (k ∈ offerKey <$> offers) then 1 + default 0 (map_get next k) else 0.
Proof.
  assert (H : forall m, map_get (fold_left (fun runs o => map_set runs (offerKey o) (1 + default 0 (map_get next (offerKey o)))) offers m) k =
    if decide (k ∈ offerKey <$> offers) then Some (1 + default 0 (map_get next k)) else map_get m k).
  { induction offers as [|o offers IH]; intros m; cbn [fold_left fmap list_fmap]; [by rewrite decide_False by apply not_elem_of_nil|].
    rewrite IH, map_get_set. change (list_fmap _ _ offerKey offers) with (offerKey <$> offers).
    destruct (decide (k ∈ offerKey <$> offers)) as [Hk|Hk]; [by rewrite decide_True by (by right)|].
    destruct (String.eqb_spec (offerKey o) k) as [<-|Hne]; [by rewrite decide_True by left|].
    rewrite decide_False; [done|]. intros [->|?]%elem_of_cons; [by apply Hne | done]. }
  unfold runs_of. rewrite H. by case_decide.
Qed.

(** The number of nights on which an offer is open from a night on *)
Definition run_length (days : list CalendarStayDay) (offer : string) (night run : Z) : Prop :=
  0 <= run /\ (forall i, 0 <= i < run -> serves days offer (night + i)) /\ ~ serves days offer (night + run).

Lemma serves_cons d days k n : serves (d :: days) k n <-> (day_of d = n /\ k ∈ offerKey <$> offers_of d) \/ serves days k n.
Proof.
  unfold serves. split.
  - intros (d' & [->|Hin]%elem_of_cons & H); [by left | right; by exists d'].
  - intros [H|(d' & Hin & H)]; [exists d; split; [by left | done] | exists d'; split; [by right | done]].
Qed.

Lemma serves_before days k n : Forall (fun d => n < day_of d) days -> ~ serves days k n.
Proof. intros Hd (d & Hin & Hn & _). rewrite Forall_forall in Hd. specialize (Hd d Hin). cbn in Hd. lia. Qed.

Lemma serves_later d days k n : day_of d < n -> serves (d :: days) k n <-> serves days k n.
Proof. intros H. rewrite serves_cons. split; [intros [[E _]|?]; [lia | done] | by right]. Qed.

Lemma run_length_cons d days k run : Forall (fun d' => day_of d < day_of d') days -> run_length days k (day_of d + 1) run ->
  run_length (d :: days) k (day_of d) (if decide (k ∈ offerKey <$> offers_of d) then 1 + run else 0).
Proof.
  intros Hd (H0 & Hs & Hn). case_decide as Hk.
  - split; [lia|]. split.
    + intros i Hi. destruct (Z.eq_dec i 0) as [->|Hi0]; [apply serves_cons; left; split; [lia | done]|].
      apply serves_later; [lia|]. replace (day_of d + i) with (day_of d + 1 + (i - 1)) by lia. apply Hs. lia.
    + rewrite serves_later by lia. by replace (day_of d + (1 + run)) with (day_of d + 1 + run) by lia.
  - split; [lia|]. split; [lia|]. rewrite Z.add_0_r, serves_cons. intros [[_ ?]|H]; [done|]. by eapply serves_before.
Qed.

Lemma run_length_reached days k n run nights : run_length days k n run -> 1 <= nights ->
  (forall i, 0 <= i < nights -> serves days k (n + i)) <-> nights <= run.
Proof.
  intros (H0 & Hs & Hn) H1. split; [|intros H i Hi; apply Hs; lia].
  intros H. destruct (Z.le_gt_cases nights run); [done|]. exfalso. apply Hn, H. lia.
Qed.

Lemma bookable_cons d days arrival n : day_of d < day_of arrival -> bookable (d :: days) arrival n <-> bookable days arrival n.
Proof.
  intros Hd. unfold bookable. apply and_iff_compat_l. split; intros (o & Ho & Hmin & Hmax & Hs); exists o; (split_and!; [done..|]);
    intros i Hi; specialize (Hs i Hi).
  - by rewrite serves_later in Hs by lia.
  - by rewrite serves_later by lia.
Qed.

(** ** The walk *)

(** What the walk has written about an arrival *)
Definition arrival_done (end_ : string) (days : list CalendarStayDay) (s : CalendarStays) (d : CalendarStayDay) : Prop :=
  exists nights, StronglySorted Z.lt nights /\ (forall n, n ∈ nights <-> bookable days d n) /\
    let valid := List.filter (fun c => str_le c end_) (dateAfter (day_of d) <$> nights) in
    map_get (validCheckOutsByArrival s) (stayDate d) = Some valid /\
    map_get (minStayByArrival s) (stayDate d) = min_stay (day_of d) (offers_of d) valid.

(** The walk has seen the days of [seen], the earliest first. *)
Record walk_ok (end_ : string) (seen : list CalendarStayDay) (w : StayWalk) : Prop := {
  wo_runs : forall day, Forall (fun d => day < day_of d) seen -> four_digit_day (day + 1) -> forall k,
    run_length seen k (day + 1)
      (default 0 (map_get (if negb (String.eqb (dateAfter day 1) (nextDate w)) then [] else nextRuns w) k));
  wo_done : Forall (arrival_done end_ seen (stays w)) seen;
  wo_keys : forall date, (date ∉ stayDate <$> seen) -> map_get (validCheckOutsByArrival (stays w)) date = None /\
    map_get (minStayByArrival (stays w)) date = None
}.

Lemma dateAfter_next day d : stay_day_ok d -> four_digit_day (day + 1) -> String.eqb (dateAfter day 1) (stayDate d) = (day + 1 =? day_of d).
Proof.
  intros [Hv _] H. change (pricingDate (VString (stayDate d)) = true) in Hv. apply eq_true_iff_eq. rewrite String.eqb_eq, Z.eqb_eq. unfold dateAfter, day_of. split.
  - intros <-. by rewrite date_parse_iso_date.
  - intros ->. by apply pricing_date_print.
Qed.

Lemma walk_started end_ : walk_ok end_ [] {| stays := {| validCheckOutsByArrival := []; minStayByArrival := [] |}; nextDate := end_; nextRuns := [] |}.
Proof.
  split; [|constructor|done]. intros day _ _ k. cbn [nextRuns]. destruct (negb _); (split_and!; [done | cbn; lia|]); by intros (d & ?%elem_of_nil & _).
Qed.

Lemma stay_day_date d : validDate (stayDate d) = true -> stay_day (stayDate d) = Some (day_of d).
Proof.
  intros Hd. change (pricingDate (VString (stayDate d)) = true) in Hd.
  apply pricingDate_spec in Hd as (y & m & n & E & Hy & Hv). injection E as E. pose proof (valid_civil_small _ _ _ Hv).
  unfold stay_day, day_of, date_parse. rewrite E, date_text_parse by lia. cbn [mbind option_bind].
  by rewrite !(proj2 (Z.leb_le _ _)) by lia.
Qed.

Lemma arrival_done_later end_ d days s s' a : Forall (fun d' => day_of d < day_of d') days -> a ∈ days ->
  map_get (validCheckOutsByArrival s') (stayDate a) = map_get (validCheckOutsByArrival s) (stayDate a) ->
  map_get (minStayByArrival s') (stayDate a) = map_get (minStayByArrival s) (stayDate a) ->
  arrival_done end_ days s a -> arrival_done end_ (d :: days) s' a.
Proof.
  intros Hd Ha E1 E2 (nights & Hs & Hn & H1 & H2). exists nights. rewrite E1, E2. split; [done|]. split; [|done].
  intros n. rewrite Hn. rewrite Forall_forall in Hd. by rewrite bookable_cons by by apply Hd.
Qed.

(** The nights that fit the offers and runs of the earliest day are those it may book. *)
Lemma bookable_first d days runs nights : Forall (fun d' => day_of d < day_of d') days ->
  (forall k, run_length days k (day_of d + 1) (default 0 (map_get runs k))) ->
  bookable (d :: days) d nights <-> 1 <= nights /\ exists o, o ∈ offers_of d /\ offerMin o <= nights /\
    (forall maximum, offerMax o = Some maximum -> nights <= maximum) /\
    nights <= default 0 (map_get (runs_of (offers_of d) runs) (offerKey o)).
Proof.
  intros Hd Hr. unfold bookable. assert (Hl : forall o, o ∈ offers_of d -> 1 <= nights ->
    (forall i, 0 <= i < nights -> serves (d :: days) (offerKey o) (day_of d + i)) <->
    nights <= default 0 (map_get (runs_of (offers_of d) runs) (offerKey o))).
  { intros o Ho H1. rewrite runs_of_get. apply run_length_reached; [by apply run_length_cons | done]. }
  split; intros (H1 & o & Ho & Hmin & Hmax & H); (split; [done|]); exists o; (split_and!; [done..|]); by apply Hl.
Qed.

Lemma walk_arrival_ok end_ seen w d : walk_ok end_ seen w -> stay_day_ok d -> Forall (fun d' => day_of d < day_of d') seen ->
  exists w', walk_arrival end_ w d = Ret w' /\ walk_ok end_ (d :: seen) w'.
Proof.
  intros [Hr Hdone Hk] Hd Hseen. pose proof Hd as [Hv H4]. unfold walk_arrival. rewrite (stay_day_date d Hv).
  specialize (Hr _ Hseen H4). set (next := if negb _ then [] else nextRuns w) in *.
  eexists. split; [reflexivity|].
  assert (Hfresh : stayDate d ∉ stayDate <$> seen).
  { intros (d' & E & Hin)%list_elem_of_fmap. rewrite Forall_forall in Hseen. specialize (Hseen d' Hin). unfold day_of in Hseen. rewrite E in Hseen. lia. }
  destruct (Hk _ Hfresh) as [Hk1 Hk2]. split; cbn [stays nextDate nextRuns validCheckOutsByArrival minStayByArrival].
  - intros day Hday H4' k. apply Forall_cons in Hday as [Hday Hdays]. rewrite dateAfter_next by done.
    destruct (Z.eqb_spec (day + 1) (day_of d)) as [->|Hne]; cbn [negb].
    + rewrite runs_of_get. by apply run_length_cons.
    + split; [done|]. split; [cbn; lia|]. cbn [map_get default from_option]. rewrite Z.add_0_r. apply serves_before.
      constructor; [lia|]. eapply Forall_impl; [exact Hseen|]. cbn. lia.
  - constructor.
    + destruct (check_outs_nights (day_of d) end_ (offers_of d) (runs_of (offers_of d) next)) as (nights & E & Hs & Hn).
      exists nights. split; [done|]. split; [|cbv zeta; split].
      * intros n. by rewrite Hn, bookable_first.
      * cbn. by rewrite map_get_set, String.eqb_refl, E.
      * cbn. rewrite <- E. destruct (min_stay _ _ _) as [m|]; [by rewrite map_get_set, String.eqb_refl | done].
    + apply Forall_forall. intros a Ha. rewrite Forall_forall in Hdone.
      assert (Hne : stayDate d <> stayDate a) by (intros E; apply Hfresh; rewrite E; by apply list_elem_of_fmap_2).
      apply String.eqb_neq in Hne. eapply arrival_done_later; [done..| | |by apply Hdone].
      * cbn. by rewrite map_get_set, Hne.
      * cbn. destruct (min_stay _ _ _); [by rewrite map_get_set, Hne | done].
  - intros date Hdate. cbn [fmap list_fmap] in Hdate. apply not_elem_of_cons in Hdate as [Hne Hdate].
    destruct (Hk date Hdate) as [H1 H2]. apply not_eq_sym, String.eqb_neq in Hne. rewrite map_get_set, Hne. split; [done|].
    destruct (min_stay _ _ _); [by rewrite map_get_set, Hne | done].
Qed.

Lemma walk_arrivals_ok end_ arrivals : forall seen w,
  walk_ok end_ seen w -> Forall stay_day_ok arrivals -> StronglySorted (fun a b => day_of b < day_of a) (reverse seen ++ arrivals) ->
  exists w', walk_arrivals end_ w arrivals = Ret w' /\ walk_ok end_ (reverse arrivals ++ seen) w'.
Proof.
  induction arrivals as [|d arrivals IH]; intros seen w Hw Hok Hs; cbn [walk_arrivals]; [by exists w|].
  apply Forall_cons in Hok as [Hd Hok].
  assert (Hseen : Forall (fun d' => day_of d < day_of d') seen).
  { apply Forall_forall. intros a Ha. apply elem_of_reverse in Ha. clear - Hs Ha. induction (reverse seen) as [|b l IH]; [by apply elem_of_nil in Ha|].
    cbn [app] in Hs. inversion Hs as [|? ? H1 H2]; subst. apply elem_of_cons in Ha as [->|Ha]; [|by apply IH].
    rewrite Forall_app, Forall_cons in H2. by destruct H2 as (_ & ? & _). }
  destruct (walk_arrival_ok _ _ _ _ Hw Hd Hseen) as (w1 & -> & Hw1). cbn [exn_bind].
  destruct (IH (d :: seen) w1 Hw1 Hok) as (w2 & E & Hw2); [by rewrite reverse_cons, <- app_assoc|].
  exists w2. split; [done|]. by rewrite reverse_cons, <- app_assoc.
Qed.

Lemma filter_end day end_ nights : List.filter (fun c => str_le c end_) (dateAfter day <$> nights) =
  dateAfter day <$> List.filter (fun n => str_le (dateAfter day n) end_) nights.
Proof. induction nights as [|n nights IH]; [done|]. cbn [fmap list_fmap List.filter]. destruct (str_le _ _); cbn [fmap list_fmap]; by rewrite <- IH. Qed.

Lemma bookable_date days d n : Forall stay_day_ok days -> bookable days d n -> four_digit_day (day_of d + n).
Proof.
  intros Hok (H1 & o & _ & _ & _ & H). destruct (H (n - 1)) as (d' & Hin & E & _); [lia|].
  rewrite Forall_forall in Hok. destruct (Hok d' Hin) as [_ H4]. by replace (day_of d + n) with (day_of d' + 1) by lia.
Qed.

Section Stays.
Context `{CollationLaws}.

Lemma arrivals_sorted days : Forall stay_day_ok days -> NoDup (stayDate <$> days) ->
  StronglySorted (fun a b => day_of b < day_of a) (sort_by (fun a b => localeCompare (stayDate b) (stayDate a)) days).
Proof.
  intros Hok Hnd. set (l := sort_by _ days). assert (Hp : l ≡ₚ days) by apply sort_by_perm.
  apply (StronglySorted_weaken (fun a b => - day_of a < - day_of b)); [intros; lia|]. apply strictly_sorted.
  - rewrite Hp. apply NoDup_fmap_1 with (f := fun x => iso_date (- x)).
    erewrite <- list_fmap_compose, list_fmap_ext; [exact Hnd|]. intros i d Hd%list_elem_of_lookup_2.
    rewrite Forall_forall in Hok. destruct (Hok d Hd) as [Hv _]. cbn. rewrite Z.opp_involutive. by apply pricing_date_print.
  - unfold l, sort_by. rewrite (stable_sort_ext (fun d => validDate (stayDate d) = true) _ (fun a b => - day_of a <=? - day_of b)).
    + apply (stable_sort_measure (fun d => - day_of d)).
    + intros a b Ha Hb. rewrite locale_le by done. unfold day_of. lia.
    + eapply Forall_impl; [exact Hok|]. by intros d [].
Qed.

(** C11: the stays shown for a calendar are exactly those its offers allow: for every arrival
    day the check-outs listed, in order and without repetition, are those of the stays
    that end by the last day and that one single offer of the arrival day allows and
    covers on every night, whatever the order of the days; the fewest nights shown are
    those of the shortest such stay or, if there is none, the least any offer asks for. *)
Theorem calendar_stays_exact days end_ : Forall stay_day_ok days -> NoDup (stayDate <$> days) ->
  exists r, calendarStays days end_ = Ret r /\ forall d, d ∈ days -> exists nights,
    StronglySorted Z.lt nights /\
    (forall n, n ∈ nights <-> bookable days d n /\ str_le (iso_date (day_of d + n)) end_ = true) /\
    map_get (validCheckOutsByArrival r) (stayDate d) = Some ((fun n => iso_date (day_of d + n)) <$> nights) /\
    map_get (minStayByArrival r) (stayDate d) =
      match offers_of d with
      | [] => None
      | o :: rest => Some match nights with shortest :: _ => shortest | [] => least_minimum o rest end
      end.
Proof.
  intros Hok Hnd. pose proof (arrivals_sorted days Hok Hnd) as Hs. set (l := sort_by _ days) in *.
  assert (Hp : l ≡ₚ days) by apply sort_by_perm. destruct (walk_arrivals_ok end_ l [] _ (walk_started end_)) as (w & E & [_ Hdone _]);
    [by rewrite Hp | done|]. rewrite app_nil_r in Hdone. exists (stays w). unfold calendarStays. fold l. rewrite E. split; [done|].
  intros d Hd. rewrite Forall_forall in Hdone. destruct (Hdone d) as (nights & Hsn & Hn & H1 & H2); [by rewrite elem_of_reverse, Hp|].
  rewrite filter_end in H1, H2. assert (Hb : forall n, bookable (reverse l) d n <-> bookable days d n).
  { intros n. unfold bookable, serves. setoid_rewrite elem_of_reverse. by setoid_rewrite Hp. }
  exists (List.filter (fun n => str_le (dateAfter (day_of d) n) end_) nights). split_and!; [by apply filter_sorted| |done|].
  - intros n. by rewrite elem_of_bfilter, Hn, Hb.
  - rewrite H2. unfold min_stay. destruct (offers_of d) as [|o rest]; [done|]. f_equal.
    destruct (List.filter _ nights) as [|n ns] eqn:Ef; [done|]. cbn [fmap list_fmap].
    assert (Hin : n ∈ n :: ns) by left. rewrite <- Ef in Hin. apply elem_of_bfilter in Hin as [Hin%Hn%Hb _].
    unfold dateAfter. rewrite date_parse_iso_date by (by eapply bookable_date). lia.
Qed.
End Stays.
