(* ===== verification/FinanceReporting.v ===== *)
(** * Finance reporting

    packages/domain-finance/src/financialReporting.ts: the queries, the periods a
    report compares, and the arithmetic of its metrics in ten-thousandths. *)

From S2P Require Import Prelude JsValue JsonText CalendarDates Money FolioDecimals.

Definition FINANCE_DASHBOARD_WINDOW_DAYS : Z := 14.

(** ** Data *)

Record FinanceRevenueQuery := { queryFrom : string; queryTo : string }.
Record FinanceProfitLossQuery := { year : Z }.
Record FinanceReportingRange := { from : string; to : string }.
Record FinanceReportingComparison := { current : FinanceReportingRange; comparison : FinanceReportingRange }.
Record FinanceReportingMoney := { amount : string; currency : string }.

Record FinanceReportingMoneyMetric := {
  value : FinanceReportingMoney;
  absoluteChange : FinanceReportingMoney;
  percentChange : option string
}.

Record FinanceReportingCountMetric := {
  countValue : Z;
  countChange : Z;
  countPercentChange : option string
}.

Record FinanceReportingRatioMetric := {
  ratioValue : string;
  ratioChange : string;
  ratioPercentChange : option string
}.

(** ** Dates *)

(** The date texts of the years 1000 to 9999; [toISOString] gives another text, or
    fails, on a day that does not exist. *)
Definition localDate (s : string) : bool :=
  match parse_ymd s with
  | Some (y, m, d) => (1000 <=? y) && valid_civil y m d
  | None => false
  end.

Definition malformed_date : string := "Finance reporting date is malformed".

(** Days stand for the [Date]s at midnight; [dateValue] is [date_parse]. *)
Definition dateValue (s : string) : Z := date_parse s.

(** [toISOString().slice(0, 10)], checked *)
Definition formatDate (day : Z) : exn string :=
  let formatted := iso_date day in
  if localDate formatted then Ret formatted else Throw malformed_date.

Definition shiftDate (day days : Z) : exn string := formatDate (day + days).

Definition utc_year (day : Z) : Z := let '(y, _, _) := civil_of_day day in y.
(** [getUTCMonth] counts from 0. *)
Definition utc_month (day : Z) : Z := let '(_, m, _) := civil_of_day day in m - 1.
Definition utc_date (day : Z) : Z := let '(_, _, d) := civil_of_day day in d.

(** ** Queries *)

Definition exactKeys (v : jsval) (keys : list string) : bool :=
  Nat.eqb (length (keys_of v)) (length keys) && forallb (has_own v) keys.

Definition as_local_date (v : jsval) : option string := let? s := as_string v in guard? localDate s in Some s.

Definition parseFinanceDashboardQuery (v : jsval) : option (option string) :=
  guard? is_object v in
  if Nat.eqb (length (keys_of v)) 0 then Some None
  else
    guard? exactKeys v ["asOf"] in
    let? s := as_local_date (get v "asOf") in
    Some (Some s).

Definition parseFinanceRevenueQuery (v : jsval) : option FinanceRevenueQuery :=
  guard? is_object v && exactKeys v ["from"; "to"] in
  let? f := as_local_date (get v "from") in
  let? t := as_local_date (get v "to") in
  guard? str_le f t in
  Some {| queryFrom := f; queryTo := t |}.

(** [/^[1-9]\d{3}$/] *)
Definition year_text (s : string) : bool := positive_decimal s && (str_length s =? 4).

Definition parseFinanceProfitLossQuery (v : jsval) : option FinanceProfitLossQuery :=
  guard? is_object v && exactKeys v ["year"] in
  let y :=
    match get v "year" with
    | VString s => if year_text s then VInt (digits_value s) else VString s
    | w => w
    end in
  let? y := as_integer y 1001 9999 in
  Some {| year := y |}.

(** ** Periods *)

Definition query_value (q : FinanceProfitLossQuery) : jsval := obj [("year", VInt (year q))].

Definition financeProfitLossPeriods (query : FinanceProfitLossQuery) (asOf : string) : exn FinanceReportingComparison :=
  let parsed := parseFinanceProfitLossQuery (query_value query) in
  if negb (localDate asOf) then Throw malformed_date
  else
    match parsed with
    | None => Throw "Finance profit and loss year is malformed"
    | Some q =>
        let asOfDate := dateValue asOf in
        if utc_year asOfDate <? year q then Throw "Finance profit and loss year is in the future"
        else
          try! to :=
            (if year q =? utc_year asOfDate
             then formatDate (date_utc (year q) (utc_month asOfDate) (utc_date asOfDate))
             else Ret (Z_to_string (year q) +:+ "-12-31")) in
          let toDate := dateValue to in
          let comparisonYear := year q - 1 in
          let comparisonDay := Z.min (utc_date toDate) (utc_date (date_utc comparisonYear (utc_month toDate + 1) 0)) in
          try! comparisonTo := formatDate (date_utc comparisonYear (utc_month toDate) comparisonDay) in
          Ret {| current := {| from := Z_to_string (year q) +:+ "-01-01"; to := to |};
                 comparison := {| from := Z_to_string comparisonYear +:+ "-01-01"; to := comparisonTo |} |}
    end.

Record DashboardPeriods := {
  today : FinanceReportingComparison;
  monthToDate : FinanceReportingComparison;
  daily : FinanceReportingRange
}.

Definition financeDashboardPeriods (asOf : string) : exn DashboardPeriods :=
  if negb (localDate asOf) then Throw malformed_date
  else
    let now := dateValue asOf in
    let y := utc_year now in
    let month := utc_month now in
    let day := utc_date now in
    try! todayComparison := shiftDate now (-7) in
    let priorMonth := date_utc y (month - 1) 1 in
    let priorMonthEnd := utc_date (date_utc y month 0) in
    let priorTo := date_utc (utc_year priorMonth) (utc_month priorMonth) (Z.min day priorMonthEnd) in
    try! monthFrom := formatDate (date_utc y month 1) in
    try! priorFrom := formatDate priorMonth in
    try! priorEnd := formatDate priorTo in
    try! dailyFrom := shiftDate now (1 - FINANCE_DASHBOARD_WINDOW_DAYS) in
    Ret {| today := {| current := {| from := asOf; to := asOf |};
                       comparison := {| from := todayComparison; to := todayComparison |} |};
           monthToDate := {| current := {| from := monthFrom; to := asOf |};
                             comparison := {| from := priorFrom; to := priorEnd |} |};
           daily := {| from := dailyFrom; to := asOf |} |}.

Definition revenue_query_value (q : FinanceRevenueQuery) : jsval :=
  obj [("from", VString (queryFrom q)); ("to", VString (queryTo q))].

(** Midnights in UTC are whole days apart: [Math.round] of the quotient is exact. *)
Definition financeRevenuePeriod (query : FinanceRevenueQuery) : exn FinanceReportingComparison :=
  match parseFinanceRevenueQuery (revenue_query_value query) with
  | None => Throw "Finance revenue range is malformed"
  | Some parsed =>
      let currentFrom := dateValue (queryFrom query) in
      let currentTo := dateValue (queryTo query) in
      let days := currentTo - currentFrom + 1 in
      let comparisonTo := currentFrom - 1 in
      try! f := shiftDate comparisonTo (1 - days) in
      try! t := formatDate comparisonTo in
      Ret {| current := {| from := queryFrom parsed; to := queryTo parsed |};
             comparison := {| from := f; to := t |} |}
  end.

(** ** Decimals *)

(** [/^-?(?:0|[1-9]\d{0,})(?:\.\d{1,4})?$/] *)
Definition reporting_decimal (s : string) : bool :=
  let '(whole, fraction) := split_dot (unsigned s) in
  canonical_decimal whole && match fraction with Some f => fraction_digits 1 f | None => true end.

Definition decimalUnits (s : string) : exn Z :=
  if reporting_decimal s then
    let '(whole, fraction) := split_dot (unsigned s) in
    let units := BigInt whole * 10000 + BigInt (pad_end 4 (default EmptyString fraction)) in
    Ret (if negative s then - units else units)
  else Throw "Finance reporting decimal is invalid".

Definition decimal (n : Z) : string :=
  sign_text (n <? 0) +:+ Z_to_string (Z.abs n / 10000) +:+ "." +:+ pad_start 4 (Z_to_string (Z.abs n mod 10000)).

Definition money (n : Z) (c : string) : FinanceReportingMoney := {| amount := decimal n; currency := c |}.

(** [BigInt] division truncates; the operands are not negative. *)
Definition roundDivide (n divisor : Z) : Z :=
  let sign := if xorb (n <? 0) (divisor <? 0) then -1 else 1 in
  let absoluteValue := if n <? 0 then - n else n in
  let absoluteDivisor := if divisor <? 0 then - divisor else divisor in
  sign * Z.quot (absoluteValue + Z.quot absoluteDivisor 2) absoluteDivisor.

Definition change (n prior : Z) : option string :=
  if prior =? 0 then None else Some (decimal (roundDivide ((n - prior) * 10000) prior)).

Definition fraction (numerator denominator : Z) : string := decimal (roundDivide (numerator * 10000) denominator).

Definition assertCount (n : Z) : exn unit :=
  if negb (safe_integer n) || (n <? 0) then Throw "Finance reporting count is invalid" else Ret tt.

(** ** Metrics *)

Definition normalizeFinanceReportingDecimal (s : string) : exn string := try! n := decimalUnits s in Ret (decimal n).

Definition divideFinanceReportingDecimal (s : string) (divisor : Z) : exn string :=
  if negb (safe_integer divisor) || (divisor <? 0) then Throw "Finance reporting divisor is invalid"
  else try! units := decimalUnits s in Ret (decimal (if divisor =? 0 then 0 else roundDivide units divisor)).

(** [/^[A-Z]{3}$/] *)
Definition currency_code (s : string) : bool := matches (replicate 3 (char_between "A" "Z")) s.

Definition financeReportingMoneyMetric (v c : string) (cur : string) : exn FinanceReportingMoneyMetric :=
  if negb (currency_code cur) then Throw "Finance reporting currency is invalid"
  else
    try! now := decimalUnits v in
    try! prior := decimalUnits c in
    Ret {| value := money now cur; absoluteChange := money (now - prior) cur; percentChange := change now prior |}.

Definition financeReportingCountMetric (v c : Z) : exn FinanceReportingCountMetric :=
  try! _ := assertCount v in
  try! _ := assertCount c in
  Ret {| countValue := v; countChange := v - c; countPercentChange := change v c |}.

Record Ratio := { numerator : Z; denominator : Z }.

Definition ratio (v : Ratio) : exn Ratio :=
  try! _ := assertCount (numerator v) in
  try! _ := assertCount (denominator v) in
  if denominator v <? numerator v then Throw "Finance reporting ratio is invalid"
  else Ret (if denominator v =? 0 then {| numerator := 0; denominator := 1 |} else v).

Definition financeReportingRatioMetric (v c : Ratio) : exn FinanceReportingRatioMetric :=
  try! now := ratio v in
  try! prior := ratio c in
  let difference := numerator now * denominator prior - numerator prior * denominator now in
  Ret {| ratioValue := fraction (numerator now) (denominator now);
         ratioChange := fraction difference (denominator now * denominator prior);
         ratioPercentChange :=
           if numerator prior =? 0 then None else Some (fraction difference (denominator now * numerator prior)) |}.

(** ** Printed decimals *)

Lemma fraction_digits_four f : all_chars is_digit f = true -> str_length f = 4 ->
  fraction_digits 1 f = true /\ pad_end 4 f = f.
Proof. intros Hf H4. unfold fraction_digits. rewrite Hf, H4. split; [done|]. by apply pad_full. Qed.

(** A printed decimal: a sign, a whole part and four digits. *)
Lemma decimal_text_shape n : exists w f, decimal n = decimal_of (n <? 0) w f /\
  canonical_decimal w = true /\ all_chars is_digit f = true /\ str_length f = 4 /\
  BigInt w * 10000 + BigInt f = Z.abs n.
Proof.
  pose proof (Z.mod_pos_bound (Z.abs n) 10000 ltac:(lia)) as Hm. pose proof (Z.div_pos (Z.abs n) 10000 ltac:(lia) ltac:(lia)) as Hq.
  exists (Z_to_string (Z.abs n / 10000)), (pad_start 4 (Z_to_string (Z.abs n mod 10000))).
  destruct (canonical_digits _ (print_canonical (Z.abs n mod 10000) ltac:(lia))) as [Hd _].
  split_and!; [done | by apply print_canonical | by apply pad_start_digits | |].
  - apply (pad_start_length 4). pose proof (print_length (Z.abs n mod 10000) 4 ltac:(lia) ltac:(lia)). lia.
  - rewrite (digits_BigInt (pad_start _ _)) by by apply pad_start_digits. rewrite pad_start_value, <- digits_BigInt by done.
    rewrite !print_value by lia. pose proof (Z.div_mod (Z.abs n) 10000). lia.
Qed.

Lemma unsigned_decimal neg w f : canonical_decimal w = true ->
  split_dot (unsigned (decimal_of neg w f)) = (w, Some f) /\ negative (decimal_of neg w f) = neg.
Proof.
  intros Hw. destruct (canonical_digits w Hw) as [Hd Hl].
  assert (E : exists c t, w +:+ String "." f = String c t /\ is_digit c = true).
  { destruct w as [|c w]; [unfold str_length in Hl; cbn in Hl; lia|]. cbn [all_chars] in Hd.
    apply andb_true_iff in Hd as [Hc _]. by exists c, (w +:+ String "." f). }
  unfold decimal_of. destruct neg; [by rewrite <- (split_dot_digits w f Hd)|].
  rewrite <- (split_dot_digits w f Hd). destruct E as (c & t & E & Hc). change (sign_text false +:+ ?x) with x.
  rewrite E. cbn [unsigned negative]. by rewrite (digit_not_char "-" c).
Qed.

Lemma decimal_units n : reporting_decimal (decimal n) = true /\ decimalUnits (decimal n) = Ret n.
Proof.
  destruct (decimal_text_shape n) as (w & f & -> & Hw & Hf & H4 & E). destruct (unsigned_decimal (n <? 0) w f Hw) as [Hs Hn].
  destruct (fraction_digits_four f Hf H4) as [H1 Hp]. assert (Hr : reporting_decimal (decimal_of (n <? 0) w f) = true).
  { unfold reporting_decimal. by rewrite Hs, Hw, H1. }
  split; [done|]. unfold decimalUnits. rewrite Hr, Hs, Hn. change (default EmptyString (Some f)) with f. rewrite Hp, E. f_equal.
  destruct (Z.ltb_spec n 0); lia.
Qed.

Lemma units_of_decimal n : decimalUnits (decimal n) = Ret n.
Proof. apply decimal_units. Qed.

Lemma decimal_inj n m : decimal n = decimal m -> n = m.
Proof. intros H. pose proof (units_of_decimal n) as Hn. rewrite H, units_of_decimal in Hn. by injection Hn. Qed.

Lemma normalize_decimal n : normalizeFinanceReportingDecimal (decimal n) = Ret (decimal n).
Proof. unfold normalizeFinanceReportingDecimal. by rewrite units_of_decimal. Qed.

(** ** Rounding *)

(** The nearest integer to the quotient, ties away from zero *)
Lemma roundDivide_nearest n d : d <> 0 -> let q := roundDivide n d in
  2 * Z.abs (d * q - n) <= Z.abs d /\ (2 * Z.abs (d * q - n) = Z.abs d -> Z.abs n < Z.abs (d * q)).
Proof.
  intros Hd. cbv zeta. unfold roundDivide.
  assert (En : (if n <? 0 then - n else n) = Z.abs n) by (destruct (Z.ltb_spec n 0); lia).
  assert (Ed : (if d <? 0 then - d else d) = Z.abs d) by (destruct (Z.ltb_spec d 0); lia).
  rewrite En, Ed. clear En Ed. rewrite !Z.quot_div_nonneg by (try apply Z.add_nonneg_nonneg; try apply Z.quot_pos; lia).
  pose proof (Z.div_mod (Z.abs d) 2 ltac:(lia)). pose proof (Z.mod_pos_bound (Z.abs d) 2 ltac:(lia)).
  set (x := Z.abs n + Z.abs d / 2). pose proof (Z.div_mod x (Z.abs d) ltac:(lia)).
  pose proof (Z.mod_pos_bound x (Z.abs d) ltac:(lia)). set (q := x / Z.abs d) in *.
  assert (Habs : Z.abs d * q - Z.abs n = Z.abs d / 2 - x mod Z.abs d) by (subst x; lia).
  assert (Hs : forall s, s = (if xorb (n <? 0) (d <? 0) then -1 else 1) ->
      Z.abs (d * (s * q) - n) = Z.abs (Z.abs d * q - Z.abs n) /\ Z.abs (d * (s * q)) = Z.abs (Z.abs d * q)).
  { intros s ->. destruct (Z.ltb_spec n 0), (Z.ltb_spec d 0); cbn [xorb]; lia. }
  specialize (Hs _ eq_refl) as [-> ->]. rewrite Habs. split; [lia|]. intros Hh. lia.
Qed.

Lemma roundDivide_pos n d : 0 <= n -> 0 < d -> roundDivide n d = (n + d / 2) / d.
Proof.
  intros Hn Hd. unfold roundDivide. rewrite !(proj2 (Z.ltb_ge _ 0)) by lia. cbn [xorb].
  pose proof (Z.div_pos d 2 ltac:(lia) ltac:(lia)). rewrite (Z.quot_div_nonneg d 2), Z.quot_div_nonneg by lia. lia.
Qed.

(** Shares of a whole grow with the part. *)
Lemma roundDivide_mono n m d : 0 < d -> 0 <= n <= m -> roundDivide n d <= roundDivide m d.
Proof. intros Hd Hn. rewrite !roundDivide_pos by lia. apply Z.div_le_mono; lia. Qed.

Lemma roundDivide_exact n d : 0 < d -> roundDivide (n * d) d = n.
Proof.
  intros Hd. destruct (roundDivide_nearest (n * d) d ltac:(lia)) as [H1 _]. set (q := roundDivide _ _) in *.
  replace (d * q - n * d) with (d * (q - n)) in H1 by lia. rewrite Z.abs_mul in H1. nia.
Qed.

(** * The periods of a report

    What the dates of packages/domain-finance/src/financialReporting.ts compare:
    the days before a range, the same part of the month or of the year before. *)

(** ** Dates of four digits *)

Definition report_day (n : Z) : Prop := day_from_year 1000 <= n < day_from_year 10000.

Lemma report_day_four_digit n : report_day n -> four_digit_day n.
Proof. unfold report_day, four_digit_day. pose proof (day_from_year_mono 0 1000 ltac:(lia)). lia. Qed.

Lemma localDate_spec s : localDate s = true <->
  exists y m d, s = date_text y m d /\ 1000 <= y <= 9999 /\ valid_civil y m d = true.
Proof.
  unfold localDate. split.
  - destruct (parse_ymd s) as [[[y m] d]|] eqn:E; [|done]. intros [Hy%Z.leb_le Hv]%andb_true_iff.
    apply parse_ymd_text in E as (-> & Hb & _ & _). exists y, m, d. split_and!; done || lia.
  - intros (y & m & d & -> & Hy & Hv). pose proof (valid_civil_small _ _ _ Hv).
    rewrite date_text_parse by lia. rewrite Hv, (proj2 (Z.leb_le _ _)) by lia. done.
Qed.

Lemma local_pricing_date s : localDate s = true -> pricingDate (VString s) = true.
Proof.
  rewrite localDate_spec, pricingDate_spec. intros (y & m & d & -> & Hy & Hv). exists y, m, d. split_and!; done || lia.
Qed.

Lemma local_date_day s : localDate s = true -> report_day (dateValue s) /\ iso_date (dateValue s) = s.
Proof.
  intros Hs. split; [|by apply pricing_date_print, local_pricing_date].
  apply localDate_spec in Hs as (y & m & d & -> & Hy & Hv). pose proof (valid_civil_small _ _ _ Hv).
  unfold report_day, dateValue, date_parse. rewrite date_text_parse by lia.
  pose proof (make_day_year_range y m d Hv). pose proof (day_from_year_mono 1000 y ltac:(lia)).
  pose proof (day_from_year_mono (y + 1) 10000 ltac:(lia)). lia.
Qed.

Lemma local_iso_date n : report_day n -> localDate (iso_date n) = true.
Proof.
  intros Hn. destruct (iso_date_text n (report_day_four_digit n Hn)) as (y & m & d & E & Hv & Hy & Hd & Ht & _).
  apply localDate_spec. exists y, m, d. split_and!; [done | | lia | done].
  pose proof (make_day_year_range y m d Hv) as Hr. rewrite Hd in Hr. unfold report_day in Hn.
  destruct (Z_lt_le_dec y 1000) as [Hlt|]; [|done]. pose proof (day_from_year_mono (y + 1) 1000 ltac:(lia)). lia.
Qed.

Lemma formatDate_day n : report_day n -> formatDate n = Ret (iso_date n).
Proof. intros Hn. unfold formatDate. by rewrite local_iso_date. Qed.

Lemma formatDate_early n : n < day_from_year 1000 -> formatDate n = Throw malformed_date.
Proof.
  intros Hn. unfold formatDate. destruct (localDate (iso_date n)) eqn:E; [|done]. exfalso.
  destruct (decide (day_from_year 0 <= n)) as [H0|H0].
  - assert (H4 : four_digit_day n) by (unfold four_digit_day; pose proof (day_from_year_mono 1000 10000 ltac:(lia)); lia).
    apply local_date_day in E as [[H _] _]. unfold dateValue in H. rewrite date_parse_iso_date in H by done. lia.
  - unfold iso_date in E. pose proof (make_day_of_civil n) as Hc. destruct (civil_of_day n) as [[y m] d]. destruct Hc as [Hv Hm].
    pose proof (make_day_year_range y m d Hv) as Hr. destruct (Z_lt_le_dec y 0) as [Hy|Hy].
    + rewrite (proj2 (Z.leb_gt 0 y)), (proj2 (Z.ltb_lt y 0)) in E by done. cbn [andb] in E. discriminate E.
    + pose proof (day_from_year_mono 0 y Hy). lia.
Qed.

(** ** The range before *)

Lemma parse_revenue_query f t : localDate f = true -> localDate t = true ->
  parseFinanceRevenueQuery (revenue_query_value {| queryFrom := f; queryTo := t |}) =
  if dateValue f <=? dateValue t then Some {| queryFrom := f; queryTo := t |} else None.
Proof.
  intros Hf Ht. unfold parseFinanceRevenueQuery, as_local_date. cbn -[str_le localDate]. rewrite Hf, Ht.
  replace (str_le f t) with (dateValue f <=? dateValue t); [by destruct (_ <=? _)|].
  unfold str_le, dateValue, Z.leb. by rewrite date_text_order by by apply local_pricing_date.
Qed.

(** A revenue report compares a range with the days directly before it, as many
    as the range has; it fails only if they begin before the year 1000. *)
Theorem revenue_period_precedes f t : localDate f = true -> localDate t = true -> dateValue f <= dateValue t ->
  let days := dateValue t - dateValue f + 1 in
  financeRevenuePeriod {| queryFrom := f; queryTo := t |} =
  if day_from_year 1000 <=? dateValue f - days
  then Ret {| current := {| from := f; to := t |};
              comparison := {| from := iso_date (dateValue f - days); to := iso_date (dateValue f - 1) |} |}
  else Throw malformed_date.
Proof.
  intros Hf Ht Hle. cbv zeta. unfold financeRevenuePeriod. rewrite parse_revenue_query, (proj2 (Z.leb_le _ _)) by done.
  cbn [queryFrom queryTo]. destruct (local_date_day f Hf) as [Hdf _], (local_date_day t Ht) as [Hdt _].
  unfold shiftDate, report_day in *.
  replace (dateValue f - 1 + (1 - (dateValue t - dateValue f + 1))) with (dateValue f - (dateValue t - dateValue f + 1)) by lia.
  destruct (Z.leb_spec (day_from_year 1000) (dateValue f - (dateValue t - dateValue f + 1))).
  - rewrite !formatDate_day by (unfold report_day; lia). done.
  - by rewrite formatDate_early.
Qed.

(** ** The year so far *)

Lemma year_digits y : 1000 <= y <= 9999 -> Z_to_string y = pad4 y.
Proof.
  intros Hy. assert (E : BigInt (pad4 y) = y /\ canonical_decimal (pad4 y) = true); [|destruct E as [E Hc]].
  - assert (Hd : all_chars is_digit (pad4 y) = true).
    { cbv [pad4 pad2 String.append all_chars]. rewrite !is_digit_char by div_lia. done. }
    split.
    + rewrite digits_BigInt by done. cbv [pad4 pad2 String.append]. cbn [digits_fold]. rewrite !digit_val_char by div_lia. div_lia.
    + unfold canonical_decimal, positive_decimal. rewrite Hd. cbv [pad4 pad2 String.append starts_nonzero].
      unfold char_between. rewrite code_digit_char by div_lia. change (code "1") with 49. change (code "9") with 57.
      rewrite !(proj2 (Z.leb_le _ _)) by div_lia. by rewrite orb_true_r.
  - by rewrite <- (proj2 (canonical_decimal_value _ Hc)), E.
Qed.

Lemma first_of_year y : 1000 <= y <= 9999 -> Z_to_string y +:+ "-01-01" = iso_date (day_from_year y).
Proof.
  intros Hy. rewrite year_digits by done.
  assert (E : day_from_year y = make_day y (1 - 1) 1) by (rewrite make_day_civil by lia; cbn; lia).
  by rewrite E, iso_date_make_day by (done || lia).
Qed.

Lemma valid_last_of_year y : valid_civil y 12 31 = true.
Proof. apply valid_civil_spec. split; [lia|]. by destruct (leap_year y). Qed.

Lemma last_of_year y : make_day y (12 - 1) 31 = day_from_year (y + 1) - 1.
Proof. rewrite make_day_civil by lia. rewrite day_from_year_succ. destruct (leap_year y); cbn; lia. Qed.

Lemma valid_clipped y y' m d : valid_civil y m d = true ->
  valid_civil y' m (Z.min d (days_in_month (leap_year y') m)) = true.
Proof.
  rewrite !valid_civil_spec. intros [Hm Hd]. split; [done|]. month_cases Hm; destruct (leap_year y'); cbn; lia.
Qed.

Lemma days_in_month_last y m : 1 <= m <= 12 -> valid_civil y m (days_in_month (leap_year y) m) = true.
Proof. intros Hm. apply valid_civil_spec. split; [done|]. month_cases Hm; destruct (leap_year y); cbn; lia. Qed.

(** The fields of a day given by year, month and day of month *)
Lemma utc_fields y m d : valid_civil y m d = true ->
  utc_year (make_day y (m - 1) d) = y /\ utc_month (make_day y (m - 1) d) = m - 1 /\ utc_date (make_day y (m - 1) d) = d.
Proof. intros Hv. unfold utc_year, utc_month, utc_date. by rewrite civil_of_make_day. Qed.

Lemma report_day_of y m d : 1000 <= y <= 9999 -> valid_civil y m d = true -> report_day (make_day y (m - 1) d).
Proof.
  intros Hy Hv. pose proof (make_day_year_range y m d Hv). unfold report_day.
  pose proof (day_from_year_mono 1000 y ltac:(lia)). pose proof (day_from_year_mono (y + 1) 10000 ltac:(lia)). lia.
Qed.

Lemma local_date_civil s : localDate s = true ->
  exists y m d, 1000 <= y <= 9999 /\ valid_civil y m d = true /\ dateValue s = make_day y (m - 1) d.
Proof.
  intros (y & m & d & -> & Hy & Hv)%localDate_spec. exists y, m, d. pose proof (valid_civil_small _ _ _ Hv).
  unfold dateValue, date_parse. by rewrite date_text_parse by lia.
Qed.

Lemma parse_query_value y : 1001 <= y <= 9999 -> parseFinanceProfitLossQuery (query_value {| year := y |}) = Some {| year := y |}.
Proof.
  intros Hy. unfold parseFinanceProfitLossQuery, query_value. cbn -[as_integer].
  by rewrite (proj2 (as_integer_Some (VInt y) 1001 9999 y)) by (unfold safe_integer, MAX_SAFE_INTEGER; rewrite andb_true_iff, !Z.leb_le; split_and!; done || lia).
Qed.

(** The end of the comparison, one year before a day of the year [y] *)
Lemma comparison_end y m d : 1001 <= y <= 9999 -> valid_civil y m d = true ->
  let day := Z.min d (utc_date (date_utc (y - 1) (m - 1 + 1) 0)) in
  formatDate (date_utc (y - 1) (m - 1) day) =
    Ret (iso_date (make_day (y - 1) (m - 1) (Z.min d (days_in_month (leap_year (y - 1)) m)))).
Proof.
  intros Hy Hv. cbv zeta. pose proof (valid_civil_small _ _ _ Hv) as [Hm _]. rewrite !date_utc_make_day by lia.
  replace (m - 1 + 1) with m by lia. rewrite last_of_month by done.
  destruct (utc_fields (y - 1) m _ (days_in_month_last (y - 1) m Hm)) as (_ & _ & ->).
  apply formatDate_day, report_day_of; [lia|]. by eapply valid_clipped.
Qed.

Lemma clipped_days y m d : valid_civil y m d = true ->
  Z.abs (make_day (y - 1) (m - 1) (Z.min d (days_in_month (leap_year (y - 1)) m)) - day_from_year (y - 1) -
         (make_day y (m - 1) d - day_from_year y)) <= 1.
Proof.
  intros [Hm Hd]%valid_civil_spec. rewrite !make_day_civil by done.
  month_cases Hm; destruct (leap_year y), (leap_year (y - 1)); cbn in *; lia.
Qed.

(** A statement of a year runs from 1 January to the day it is asked for, or to
    the end of a past year, and is compared with the same part of the year before:
    up to the same day of the same month, or the last of that month, at most one
    day more or less. *)
Lemma profit_loss_periods y asOf : localDate asOf = true -> 1001 <= y <= utc_year (dateValue asOf) ->
  exists m d, let T := make_day y (m - 1) d in
    let U := make_day (y - 1) (m - 1) (Z.min d (days_in_month (leap_year (y - 1)) m)) in
    financeProfitLossPeriods {| year := y |} asOf =
      Ret {| current := {| from := iso_date (day_from_year y); to := iso_date T |};
             comparison := {| from := iso_date (day_from_year (y - 1)); to := iso_date U |} |} /\
    valid_civil y m d = true /\ T = Z.min (dateValue asOf) (day_from_year (y + 1) - 1) /\
    Z.abs ((U - day_from_year (y - 1)) - (T - day_from_year y)) <= 1.
Proof.
  intros Ha Hy. destruct (local_date_civil asOf Ha) as (Y & M & D & HY & Hv & E). unfold financeProfitLossPeriods.
  rewrite E in Hy. destruct (utc_fields Y M D Hv) as (EY & EM & ED). rewrite EY in Hy.
  rewrite Ha, parse_query_value, E, EY, EM, ED by lia. cbn [negb year]. rewrite (proj2 (Z.ltb_ge _ _)) by lia.
  pose proof (make_day_year_range Y M D Hv) as Hrange. destruct (Z.eqb_spec y Y) as [->|Hn].
  - exists M, D. rewrite date_utc_make_day, formatDate_day by (by apply report_day_of || lia). cbn [exn_bind].
    unfold dateValue. rewrite date_parse_iso_date by by apply report_day_four_digit, report_day_of.
    rewrite EM, ED. rewrite comparison_end, !first_of_year by (done || lia). split_and!; [done | done | lia |]. by apply clipped_days.
  - exists 12, 31. cbn [exn_bind]. rewrite year_digits by lia. change (pad4 y +:+ "-12-31") with (date_text y 12 31).
    pose proof (valid_last_of_year y) as Hl. rewrite <- (iso_date_make_day y 12 31) by (done || lia).
    unfold dateValue. rewrite date_parse_iso_date by by (apply report_day_four_digit, report_day_of; [lia|]).
    destruct (utc_fields y 12 31 Hl) as (_ & -> & ->). rewrite comparison_end by (done || lia). cbn [exn_bind].
    rewrite <- (year_digits y), !first_of_year by lia. split_and!; [done | done | | by apply clipped_days].
    rewrite last_of_year. pose proof (day_from_year_mono (y + 1) Y ltac:(lia)). lia.
Qed.
