(* ===== verification/ProfitLoss.v ===== *)
(** * Profit and loss statements

    packages/domain-finance/src/financialReporting.ts (the response and the check
    that it reconciles) and apps/api/src/domains/financeProfitLossResponse.ts (its
    composition from revenue and expense facts). *)

From S2P Require Import Prelude JsValue JsonText CalendarDates Money FolioDecimals FinanceFolios FinanceReporting.

(** ** Categories *)

Definition FINANCE_PROFIT_LOSS_SYSTEM_CATEGORY_ROWS : list (string * string) :=
  [("ota_commission", "ota_commission"); ("staff", "staff"); ("utilities", "utilities");
   ("maintenance", "maintenance_supplies"); ("supplies", "maintenance_supplies");
   ("marketing", "marketing_platform"); ("platform_fees", "marketing_platform")].

Record Category := { id : string; systemKey : option string }.

(** [UUID.test(s)] with the [i] flag *)
Definition any_case_uuid (s : string) : bool := matches UUID (to_lower s).

(** The keys a category row stores are those of the table (migration 0067), not
    names that objects inherit. *)
Definition financeProfitLossExpenseCategoryRow (category : Category) : exn string :=
  match systemKey category with
  | Some key =>
      match map_get FINANCE_PROFIT_LOSS_SYSTEM_CATEGORY_ROWS key with
      | Some row => Ret row
      | None => Throw "Finance profit and loss system category is invalid"
      end
  | None =>
      if any_case_uuid (id category) then Ret ("custom:" +:+ to_lower (id category))
      else Throw "Finance profit and loss custom category id is malformed"
  end.

(** ** The response *)

Record FinanceReportingIncompleteEvidence := {
  evidenceCode : string;
  evidenceCount : Z;
  evidenceAmount : option FinanceReportingMoney;
  evidenceCurrency : option string
}.

Record ProfitLossMonth := {
  month : string;
  roomRevenue : FinanceReportingMoney;
  upsellRevenue : FinanceReportingMoney;
  monthRevenue : FinanceReportingMoney;
  expenses : FinanceReportingMoney;
  netProfit : FinanceReportingMoney;
  expenseCategories : list (string * FinanceReportingMoney)
}.

Record ProfitLossSummary := {
  revenueYtd : FinanceReportingMoneyMetric;
  expensesYtd : FinanceReportingMoneyMetric;
  netProfitYtd : FinanceReportingMoneyMetric
}.

Record FinanceProfitLossResponse := {
  contractVersion : string;
  propertyId : string;
  responseCurrency : string;
  timeZone : string;
  generatedAt : string;
  sourceFreshness : list (string * string);
  incompleteEvidence : list FinanceReportingIncompleteEvidence;
  summary : ProfitLossSummary;
  months : list ProfitLossMonth
}.

(** ** The check of a response *)

(** [/^-?(?:0|[1-9]\d{0,})\.\d{4}$/] *)
Definition four_decimals (s : string) : bool :=
  let '(whole, fraction) := split_dot (unsigned s) in
  canonical_decimal whole && match fraction with Some f => fraction_digits 4 f | None => false end.

Definition profitLossMoneyUnits (m : FinanceReportingMoney) (c : string) : exn Z :=
  if String.eqb (FinanceReporting.currency m) c && four_decimals (FinanceReporting.amount m)
  then decimalUnits (FinanceReporting.amount m)
  else Throw "Finance profit and loss money is invalid".

Record CheckedMetric := { checkedValue : Z; checkedChange : Z }.

Definition assertProfitLossMetric (m : FinanceReportingMoneyMetric) (c : string) : exn CheckedMetric :=
  try! now := profitLossMoneyUnits (value m) c in
  try! delta := profitLossMoneyUnits (absoluteChange m) c in
  if bool_decide (percentChange m = change now (now - delta)) then Ret {| checkedValue := now; checkedChange := delta |}
  else Throw "Finance profit and loss comparison is invalid".

Definition month_name (y i : Z) : string := Z_to_string y +:+ "-" +:+ pad_start 2 (Z_to_string i).

(** [Number(to.slice(5, 7))] *)
Definition month_number (s : string) : Z := digits_value (substring 5 2 s).

Definition expected_months (y : Z) (to : string) : list string := month_name y <$> seqZ 1 (month_number to).

Definition requiredRows : list string := snd <$> FINANCE_PROFIT_LOSS_SYSTEM_CATEGORY_ROWS.

Definition declared_rows (rows : list string) : list string := stable_sort str_le (set_of (requiredRows ++ rows)).

(** [/^custom:/] and a UUID in lower case *)
Definition custom_row (s : string) : bool :=
  match strip_prefix "custom:" s with Some u => matches UUID u | None => false end.

Record Totals := { totalRevenue : Z; totalExpenses : Z; totalProfit : Z }.

Definition category_units (m : ProfitLossMonth) (c row : string) : exn Z :=
  match map_get (expenseCategories m) row with
  | Some v => profitLossMoneyUnits v c
  | None => Throw "TypeError"
  end.

Definition check_month (c expected : string) (rows : list string) (m : ProfitLossMonth) (t : Totals) : exn Totals :=
  if negb (String.eqb (month m) expected) then Throw "Finance profit and loss months are invalid"
  else
    try! room := profitLossMoneyUnits (roomRevenue m) c in
    try! upsell := profitLossMoneyUnits (upsellRevenue m) c in
    try! revenue := profitLossMoneyUnits (monthRevenue m) c in
    try! spent := profitLossMoneyUnits (expenses m) c in
    try! net := profitLossMoneyUnits (netProfit m) c in
    let own := stable_sort str_le (expenseCategories m).*1 in
    if negb (String.eqb (join "," own) (join "," rows)) then Throw "Finance profit and loss category rows are invalid"
    else
      try! categories := exn_sum (category_units m c) own 0 in
      if negb (revenue =? room + upsell) || negb (spent =? categories) || negb (net =? revenue - spent)
      then Throw "Finance profit and loss month does not reconcile"
      else Ret {| totalRevenue := totalRevenue t + revenue; totalExpenses := totalExpenses t + spent;
                  totalProfit := totalProfit t + net |}.

Fixpoint check_months (c : string) (rows : list string) (ms : list ProfitLossMonth) (expected : list string) (t : Totals)
    : exn Totals :=
  match ms, expected with
  | m :: ms, e :: expected => try! t := check_month c e rows m t in check_months c rows ms expected t
  | _, _ => Ret t
  end.

Definition assertFinanceProfitLossResponse (response : FinanceProfitLossResponse) (query : FinanceProfitLossQuery)
    (asOf : string) (propertyCategoryRows : list string) : exn unit :=
  try! periods := financeProfitLossPeriods query asOf in
  let c := responseCurrency response in
  let expectedMonths := expected_months (year query) (to (current periods)) in
  if negb (currency_code c) || negb (Nat.eqb (length (months response)) (length expectedMonths))
  then Throw "Finance profit and loss response scope is invalid"
  else
    let expectedRows := declared_rows propertyCategoryRows in
    if negb (forallb (fun row => includes requiredRows row || custom_row row) propertyCategoryRows)
    then Throw "Finance profit and loss property categories are invalid"
    else
      try! t := check_months c expectedRows (months response) expectedMonths
                  {| totalRevenue := 0; totalExpenses := 0; totalProfit := 0 |} in
      try! revenue := assertProfitLossMetric (revenueYtd (summary response)) c in
      try! spent := assertProfitLossMetric (expensesYtd (summary response)) c in
      try! net := assertProfitLossMetric (netProfitYtd (summary response)) c in
      if negb (checkedValue revenue =? totalRevenue t) || negb (checkedValue spent =? totalExpenses t) ||
         negb (checkedValue net =? totalProfit t) || negb (checkedValue net =? checkedValue revenue - checkedValue spent) ||
         negb (checkedChange net =? checkedChange revenue - checkedChange spent)
      then Throw "Finance profit and loss YTD totals do not reconcile"
      else Ret tt.

(** * Composing a profit and loss statement

    apps/api/src/domains/financeProfitLossResponse.ts: months, categories and
    year-to-date figures from the facts of the two periods. *)

(** [canonicalTimeZone]: whether the zone catalogue of countries-and-timezones names
    the zone, not as an alias *)
Class ZoneCatalogue := canonicalTimeZone : string -> bool.

(** ** Data *)

Inductive Period := Current | Comparison.

Definition period_eqb (a b : Period) : bool :=
  match a, b with Current, Current | Comparison, Comparison => true | _, _ => false end.

Record RevenueFact := { factPeriod : Period; recognizedOn : string; factAmount : string }.

Record ExpenseFact := {
  expensePeriod : Period;
  incurredOn : string;
  categoryRow : string;
  expenseAmount : string
}.

Record FinanceProfitLossResponseInput := {
  inputPropertyId : string;
  inputCurrency : string;
  inputTimeZone : string;
  inputGeneratedAt : string;
  inputAsOf : string;
  inputQuery : FinanceProfitLossQuery;
  inputFreshness : option (list (string * string));
  inputEvidence : option (list FinanceReportingIncompleteEvidence);
  categoryRows : list string;
  roomFacts : list RevenueFact;
  upsellFacts : list RevenueFact;
  expenseFacts : list ExpenseFact
}.

(** ** Instants *)

(** [(?:\.\d{1,6})?Z]; the milliseconds are the first three digits. *)
Definition milliseconds (s : string) : option string :=
  if String.eqb s "Z" then Some "000"
  else
    let? r := strip_prefix "." s in
    let '(digits, rest) := span_digits r in
    guard? String.eqb rest "Z" && (1 <=? str_length digits) && (str_length digits <=? 6) in
    Some (substring 0 3 (pad_end 3 digits)).

(** [utc(s)], with [new Date(s).toISOString()] *)
Definition utc (s : string) : option string :=
  let? (head, rest) := split_at 19 s in
  let? ms := milliseconds rest in
  guard? negb (String.prefix "0000" head) in
  let? t := parse_instant (head +:+ "." +:+ ms +:+ "Z") in
  guard? String.eqb (substring 0 19 (to_iso_string t)) head in
  Some (to_iso_string t).

(** ** Sums *)

Definition units (s : string) : exn Z :=
  try! normalized := normalizeFinanceReportingDecimal s in
  let '(whole, fraction) := split_dot (unsigned normalized) in
  let result := BigInt whole * 10000 + BigInt (default EmptyString fraction) in
  Ret (if negative normalized then - result else result).

Definition in_month (name : option string) (date : string) : bool :=
  match name with Some m => String.prefix m date | None => true end.

Definition fact_units (f : RevenueFact) : exn Z := units (factAmount f).
Definition expense_units (f : ExpenseFact) : exn Z := units (expenseAmount f).

Definition sum (rows : list RevenueFact) (p : Period) (name : option string) : exn Z :=
  exn_sum fact_units (List.filter (fun f => period_eqb (factPeriod f) p && in_month name (recognizedOn f)) rows) 0.

Definition revenue (input : FinanceProfitLossResponseInput) (p : Period) : exn Z :=
  try! room := sum (roomFacts input) p None in
  try! upsell := sum (upsellFacts input) p None in
  Ret (room + upsell).

Definition expenseTotal (rows : list ExpenseFact) (p : Period) : exn Z :=
  exn_sum expense_units (List.filter (fun f => period_eqb (expensePeriod f) p) rows) 0.

(** ** Facts *)

Definition range_of_period (periods : FinanceReportingComparison) (p : Period) : FinanceReportingRange :=
  match p with Current => current periods | Comparison => comparison periods end.

Definition date_in (periods : FinanceReportingComparison) (p : Period) (date : string) : bool :=
  let r := range_of_period periods p in
  FinanceReporting.localDate date && negb (str_lt date (from r)) && negb (str_lt (to r) date).

Definition assertFactDate (date : string) (p : Period) (periods : FinanceReportingComparison) : exn unit :=
  if date_in periods p date then Ret tt else Throw "Finance profit and loss fact date is outside its period".

Definition assert_expense (rows : list string) (periods : FinanceReportingComparison) (f : ExpenseFact) : exn unit :=
  try! _ := assertFactDate (incurredOn f) (expensePeriod f) periods in
  if includes rows (categoryRow f) then Ret tt
  else Throw "Finance profit and loss expense category is undeclared".

Definition assertFacts (input : FinanceProfitLossResponseInput) (rows : list string)
    (periods : FinanceReportingComparison) : exn unit :=
  try! _ := exn_traverse (fun f => assertFactDate (recognizedOn f) (factPeriod f) periods)
              (roomFacts input ++ upsellFacts input) in
  try! _ := exn_traverse (assert_expense rows periods) (expenseFacts input) in
  Ret tt.

(** ** The composition *)

Definition category_expenses (input : FinanceProfitLossResponseInput) (name row : string) : exn (string * FinanceReportingMoney) :=
  try! n := exn_sum expense_units
              (List.filter (fun f => period_eqb (expensePeriod f) Current && String.prefix name (incurredOn f) &&
                                     String.eqb (categoryRow f) row) (expenseFacts input)) 0 in
  Ret (row, money n (inputCurrency input)).

Definition compose_month (input : FinanceProfitLossResponseInput) (rows : list string) (name : string)
    : exn ProfitLossMonth :=
  let c := inputCurrency input in
  try! room := sum (roomFacts input) Current (Some name) in
  try! upsell := sum (upsellFacts input) Current (Some name) in
  try! categories := exn_traverse (category_expenses input name) rows in
  try! spent := exn_sum (fun v => units (FinanceReporting.amount (snd v))) categories 0 in
  Ret {| month := name;
         roomRevenue := money room c;
         upsellRevenue := money upsell c;
         monthRevenue := money (room + upsell) c;
         expenses := money spent c;
         netProfit := money (room + upsell - spent) c;
         expenseCategories := categories |}.

Definition compose_summary (input : FinanceProfitLossResponseInput) : exn ProfitLossSummary :=
  let c := inputCurrency input in
  try! currentRevenue := revenue input Current in
  try! priorRevenue := revenue input Comparison in
  try! currentExpenses := expenseTotal (expenseFacts input) Current in
  try! priorExpenses := expenseTotal (expenseFacts input) Comparison in
  try! r := financeReportingMoneyMetric (decimal currentRevenue) (decimal priorRevenue) c in
  try! e := financeReportingMoneyMetric (decimal currentExpenses) (decimal priorExpenses) c in
  try! n := financeReportingMoneyMetric (decimal (currentRevenue - currentExpenses)) (decimal (priorRevenue - priorExpenses)) c in
  Ret {| revenueYtd := r; expensesYtd := e; netProfitYtd := n |}.

Section Composition.
Context `{ZoneCatalogue}.

Definition composeFinanceProfitLossResponse (input : FinanceProfitLossResponseInput) : exn FinanceProfitLossResponse :=
  match utc (inputGeneratedAt input) with
  | Some generated =>
      if negb (any_case_uuid (inputPropertyId input)) || negb (currency_code (inputCurrency input)) ||
         negb (canonicalTimeZone (inputTimeZone input))
      then Throw "Finance profit and loss response scope is invalid"
      else
        let rows := declared_rows (categoryRows input) in
        try! periods := financeProfitLossPeriods (inputQuery input) (inputAsOf input) in
        try! _ := assertFacts input rows periods in
        try! ms := exn_traverse (compose_month input rows)
                     (month_name (year (inputQuery input)) <$> seqZ 1 (month_number (to (current periods)))) in
        try! s := compose_summary input in
        let response := {|
          contractVersion := "pms-financials.v1";
          propertyId := to_lower (inputPropertyId input);
          responseCurrency := inputCurrency input;
          timeZone := inputTimeZone input;
          generatedAt := generated;
          sourceFreshness := default [] (inputFreshness input);
          incompleteEvidence := default [] (inputEvidence input);
          summary := s;
          months := ms
        |} in
        try! _ := assertFinanceProfitLossResponse response (inputQuery input) (inputAsOf input) rows in
        Ret response
  | None => Throw "Finance profit and loss response scope is invalid"
  end.

End Composition.
