(* ===== verification/ProfitLossGuarantees.v ===== *)
(** * What a profit and loss statement guarantees

    The facts of the year are split into months and categories without loss, so a
    composed statement always passes the check that it reconciles. *)

From S2P Require Import Prelude JsValue JsonText CalendarDates Money FolioDecimals FinanceFolios FinanceReporting ProfitLoss.

(** ** Units *)

(** The value of a decimal text in ten-thousandths *)
Definition unit_value (s : string) : Z := match decimalUnits s with Ret n => n | Throw _ => 0 end.

Lemma split_decimal n :
  let '(whole, fraction) := split_dot (unsigned (decimal n)) in
  (if negative (decimal n) then - (BigInt whole * 10000 + BigInt (default EmptyString fraction))
   else BigInt whole * 10000 + BigInt (default EmptyString fraction)) = n.
Proof.
  destruct (decimal_text_shape n) as (w & f & -> & Hw & Hf & H4 & E). destruct (unsigned_decimal (n <? 0) w f Hw) as [Hs Hn].
  rewrite Hs, Hn. change (default EmptyString (Some f)) with f. rewrite E. destruct (Z.ltb_spec n 0); lia.
Qed.

Lemma units_value s : reporting_decimal s = true -> units s = Ret (unit_value s).
Proof.
  intros Hs. unfold units, unit_value, normalizeFinanceReportingDecimal.
  destruct (decimalUnits s) as [n|e] eqn:E; [|unfold decimalUnits in E; rewrite Hs in E; by destruct (split_dot _)].
  cbn [exn_bind]. pose proof (split_decimal n) as Hd. destruct (split_dot _) as [w f]. by rewrite Hd.
Qed.

Lemma units_decimal n : units (decimal n) = Ret n.
Proof. rewrite units_value by apply decimal_units. unfold unit_value. by rewrite units_of_decimal. Qed.

Lemma money_units n c : profitLossMoneyUnits (money n c) c = Ret n.
Proof.
  unfold profitLossMoneyUnits, four_decimals, money. cbn [FinanceReporting.amount FinanceReporting.currency].
  rewrite String.eqb_refl, <- (units_of_decimal n).
  destruct (decimal_text_shape n) as (w & f & -> & Hw & Hf & H4 & E). destruct (unsigned_decimal (n <? 0) w f Hw) as [Hs _].
  rewrite Hs, Hw. unfold fraction_digits. by rewrite Hf, H4.
Qed.

Lemma metric_of a b c : currency_code c = true ->
  financeReportingMoneyMetric (decimal a) (decimal b) c =
  Ret {| value := money a c; absoluteChange := money (a - b) c; percentChange := change a b |}.
Proof. intros Hc. unfold financeReportingMoneyMetric. by rewrite Hc, !units_of_decimal. Qed.

Lemma metric_checked a b c :
  assertProfitLossMetric {| value := money a c; absoluteChange := money (a - b) c; percentChange := change a b |} c =
  Ret {| checkedValue := a; checkedChange := a - b |}.
Proof.
  unfold assertProfitLossMetric. cbn [value absoluteChange percentChange]. rewrite !money_units. cbn [exn_bind].
  replace (a - (a - b)) with b by lia. by rewrite bool_decide_eq_true_2.
Qed.

(** ** Sums over parts *)

Lemma sum_of_filter {A} (f : A -> Z) (P : A -> bool) l :
  sum_of f (List.filter P l) = sum_of (fun x => if P x then f x else 0) l.
Proof. induction l as [|x l IH]; [done|]. cbn [List.filter]. rewrite sum_of_cons, <- IH. destruct (P x); done || lia. Qed.

Lemma sum_of_zero {A} (f : A -> Z) l : (forall x, x ∈ l -> f x = 0) -> sum_of f l = 0.
Proof.
  induction l as [|x l IH]; intros H; [done|]. rewrite sum_of_cons, (H x), IH by set_solver. done.
Qed.

Lemma sum_of_plus {A} (f g : A -> Z) l : sum_of (fun x => f x + g x) l = sum_of f l + sum_of g l.
Proof. induction l as [|x l IH]; [done|]. rewrite !sum_of_cons, IH. lia. Qed.

Lemma sum_indicator {K} (hit : K -> bool) (ks : list K) k v :
  NoDup ks -> k ∈ ks -> (forall k', k' ∈ ks -> hit k' = true <-> k' = k) ->
  sum_of (fun k' => if hit k' then v else 0) ks = v.
Proof.
  induction ks as [|k0 ks IH]; intros Hnd Hk Hhit; [by apply elem_of_nil in Hk|]. apply NoDup_cons in Hnd as [H0 Hnd].
  rewrite sum_of_cons. destruct (hit k0) eqn:E.
  - apply Hhit in E as ->; [|by left]. rewrite sum_of_zero; [lia|]. intros x Hx.
    destruct (hit x) eqn:E; [|done]. apply Hhit in E as ->; [done | by right].
  - apply elem_of_cons in Hk as [->|Hk].
    + assert (hit k0 = true) by (apply Hhit; [by left | done]). congruence.
    + rewrite IH; [done..|]. intros k' Hk'. apply Hhit. by right.
Qed.

(** Parts that hold every element exactly once add up to the whole. *)
Lemma sum_of_parts {A K} (f : A -> Z) (hit : K -> A -> bool) (key : A -> K) (ks : list K) l :
  NoDup ks -> (forall x, x ∈ l -> key x ∈ ks /\ forall k, k ∈ ks -> hit k x = true <-> k = key x) ->
  sum_of (fun k => sum_of f (List.filter (hit k) l)) ks = sum_of f l.
Proof.
  intros Hnd. induction l as [|x l IH]; intros Hkey.
  - apply sum_of_zero. done.
  - rewrite sum_of_cons, <- IH by (intros y Hy; apply Hkey; by right).
    destruct (Hkey x) as [Hx Hhit]; [by left|].
    rewrite <- (sum_indicator (fun k => hit k x) ks (key x) (f x)) at 1 by done. rewrite <- sum_of_plus.
    apply sum_of_ext. intros k _. cbn [List.filter]. destruct (hit k x); done || (rewrite sum_of_cons; done) || lia.
Qed.

(** ** Months of dates *)

Lemma prefix_split p s : String.prefix p s = true <-> exists t, s = p +:+ t.
Proof.
  revert s. induction p as [|a p IH]; intros s; [by split; [exists s | destruct s]|].
  destruct s as [|b s]; [split; [done | by intros [t [=]]]|].
  cbn [String.prefix]. change (String a p +:+ ?t) with (String a (p +:+ t)).
  destruct (ascii_dec a b) as [->|Hab].
  - rewrite IH. split; intros [t Ht]; exists t; [by rewrite Ht | by injection Ht].
  - split; [done|]. intros [t Ht]. injection Ht as -> _. done.
Qed.

Lemma month_name_text y k : 1000 <= y <= 9999 -> 1 <= k <= 12 -> month_name y k = pad4 y +:+ String "-" (pad2 k).
Proof. intros Hy Hk. unfold month_name. rewrite year_digits by done. month_cases Hk; done. Qed.

Lemma month_of_date y k m d : 1000 <= y <= 9999 -> 1 <= k <= 12 -> valid_civil y m d = true ->
  String.prefix (month_name y k) (date_text y m d) = true <-> k = m.
Proof.
  intros Hy Hk Hv. pose proof (valid_civil_small _ _ _ Hv) as [Hm Hd]. rewrite month_name_text, prefix_split by done.
  rewrite date_text_month. split; [|intros ->; by eexists]. intros [t Ht].
  apply app_inj_length in Ht; [|done]. assert (E : date_text y k d = date_text y m d) by (rewrite !date_text_month, Ht; done).
  apply date_text_inj in E; [by injection E | lia..].
Qed.

Lemma month_number_date y m d : 0 <= y <= 9999 -> valid_civil y m d = true -> month_number (date_text y m d) = m.
Proof.
  intros Hy Hv. pose proof (valid_civil_small _ _ _ Hv) as [Hm _]. unfold month_number.
  change (substring 5 2 (date_text y m d)) with (pad2 m). month_cases Hm; done.
Qed.

(** A date of the year up to a day lies in one of its months so far. *)
Lemma date_in_year y m d s : 1000 <= y <= 9999 -> valid_civil y m d = true -> FinanceReporting.localDate s = true ->
  str_lt s (iso_date (day_from_year y)) = false -> str_lt (iso_date (make_day y (m - 1) d)) s = false ->
  exists m' d', s = date_text y m' d' /\ valid_civil y m' d' = true /\ m' <= m.
Proof.
  intros Hy Hv Hs Hfrom Hto. pose proof Hs as (y' & m' & d' & -> & Hy' & Hv')%localDate_spec.
  pose proof (make_day_year_range y m d Hv) as Hr. pose proof (make_day_year_range y' m' d' Hv') as Hr'.
  pose proof (valid_civil_small _ _ _ Hv') as [Hm' Hd'].
  assert (Hday : date_parse (date_text y' m' d') = make_day y' (m' - 1) d').
  { unfold date_parse. by rewrite date_text_parse by lia. }
  assert (Hfirst : report_day (day_from_year y)).
  { unfold report_day. pose proof (day_from_year_mono 1000 y ltac:(lia)). pose proof (day_from_year_succ y).
    pose proof (day_from_year_mono (y + 1) 10000 ltac:(lia)). destruct (leap_year y); lia. }
  pose proof (report_day_of y m d Hy Hv) as Hend.
  rewrite str_lt_dates in Hfrom, Hto by (by apply pricing_date_iso_date, report_day_four_digit || by apply local_pricing_date).
  rewrite Hday, date_parse_iso_date, Z.ltb_ge in Hfrom, Hto by by apply report_day_four_digit.
  assert (y' = y) as ->.
  { destruct (Z_lt_le_dec y' y) as [Hlt|Hge]; [pose proof (day_from_year_mono (y' + 1) y ltac:(lia)); lia|].
    destruct (Z_lt_le_dec y y') as [Hlt|Hle]; [pose proof (day_from_year_mono (y + 1) y' ltac:(lia)); lia | lia]. }
  exists m', d'. split_and!; [done | done |]. destruct (Z_le_gt_dec m' m) as [|Hgt]; [done|]. exfalso.
  pose proof (make_day_compare y m d y m' d' Hv Hv') as Hc. rewrite Z.compare_refl in Hc. cbn [then_compare] in Hc.
  rewrite (proj2 (Z.compare_lt_iff m m')) in Hc by lia. cbn [then_compare] in Hc. rewrite Z.compare_lt_iff in Hc. lia.
Qed.

(** ** Rows *)

Lemma sort_text_set (l k : list string) : NoDup l -> NoDup k -> (forall x, x ∈ l <-> x ∈ k) ->
  stable_sort str_le l = stable_sort str_le k.
Proof. intros Hl Hk H. apply (stable_sort_key_perm (fun x => x)); [by rewrite list_fmap_id | by apply NoDup_Permutation]. Qed.

Lemma declared_rows_spec rows : NoDup (declared_rows rows) /\
  forall x, x ∈ declared_rows rows <-> x ∈ requiredRows \/ x ∈ rows.
Proof.
  unfold declared_rows. split; [rewrite stable_sort_perm; apply NoDup_set_of|]. intros x.
  by rewrite elem_of_stable_sort, elem_of_set_of, elem_of_app.
Qed.

Lemma sort_declared rows : stable_sort str_le (declared_rows rows) = declared_rows rows.
Proof.
  destruct (declared_rows_spec rows) as [Hn _]. unfold declared_rows at 2.
  apply sort_text_set; [done | apply NoDup_set_of |]. intros x. unfold declared_rows. by rewrite elem_of_stable_sort.
Qed.

(** Declaring the rows that were declared changes nothing. *)
Lemma declared_again rows : declared_rows (declared_rows rows) = declared_rows rows.
Proof.
  transitivity (stable_sort str_le (declared_rows rows)); [|apply sort_declared]. unfold declared_rows at 1.
  destruct (declared_rows_spec rows) as [Hn Hx].
  apply sort_text_set; [apply NoDup_set_of | done |]. intros x. rewrite elem_of_set_of, elem_of_app, Hx. tauto.
Qed.

(** ** Figures of the facts *)

Definition fact_value (f : RevenueFact) : Z := unit_value (factAmount f).
Definition expense_value (f : ExpenseFact) : Z := unit_value (expenseAmount f).

Definition facts_value (rows : list RevenueFact) (p : Period) : Z :=
  sum_of fact_value (List.filter (fun f => period_eqb (factPeriod f) p) rows).

Definition revenue_value (input : FinanceProfitLossResponseInput) (p : Period) : Z :=
  facts_value (roomFacts input) p + facts_value (upsellFacts input) p.

Definition expense_total (input : FinanceProfitLossResponseInput) (p : Period) : Z :=
  sum_of expense_value (List.filter (fun f => period_eqb (expensePeriod f) p) (expenseFacts input)).

(** What the facts must be: dated in their periods, in decimals, and under a
    declared category, each a system row or a custom one *)
Record facts_ok (input : FinanceProfitLossResponseInput) (periods : FinanceReportingComparison) : Prop := {
  fo_revenue : Forall (fun f => date_in periods (factPeriod f) (recognizedOn f) = true /\
                                reporting_decimal (factAmount f) = true) (roomFacts input ++ upsellFacts input);
  fo_expenses : Forall (fun f => date_in periods (expensePeriod f) (incurredOn f) = true /\
                                 reporting_decimal (expenseAmount f) = true /\
                                 categoryRow f ∈ declared_rows (categoryRows input)) (expenseFacts input);
  fo_rows : Forall (fun row => includes requiredRows row = true \/ custom_row row = true) (categoryRows input)
}.

Section Figures.
Context (input : FinanceProfitLossResponseInput) (periods : FinanceReportingComparison) (Hok : facts_ok input periods).

Lemma fact_units_value f : f ∈ roomFacts input ++ upsellFacts input -> fact_units f = Ret (fact_value f).
Proof. intros Hf. apply units_value. pose proof (fo_revenue _ _ Hok) as H. rewrite Forall_forall in H. by apply H. Qed.

Lemma expense_units_value f : f ∈ expenseFacts input -> expense_units f = Ret (expense_value f).
Proof. intros Hf. apply units_value. pose proof (fo_expenses _ _ Hok) as H. rewrite Forall_forall in H. by apply H. Qed.

Lemma sum_value rows p name : rows ⊆ roomFacts input ++ upsellFacts input ->
  sum rows p name =
  Ret (sum_of fact_value (List.filter (fun f => period_eqb (factPeriod f) p && in_month name (recognizedOn f)) rows)).
Proof.
  intros Hrows. unfold sum. rewrite (exn_sum_Ret _ fact_value); [done|].
  intros f [Hf _]%elem_of_bfilter. by apply fact_units_value, Hrows.
Qed.

Lemma sum_value_all rows p : rows ⊆ roomFacts input ++ upsellFacts input -> sum rows p None = Ret (facts_value rows p).
Proof.
  intros Hrows. rewrite sum_value by done. unfold facts_value. do 2 f_equal.
  apply List.filter_ext. intros f. cbn [in_month]. apply andb_true_r.
Qed.

Lemma revenue_total p : revenue input p = Ret (revenue_value input p).
Proof. unfold revenue. rewrite !sum_value_all by set_solver. done. Qed.

Lemma expenses_total p : expenseTotal (expenseFacts input) p = Ret (expense_total input p).
Proof.
  unfold expenseTotal. rewrite (exn_sum_Ret _ expense_value); [done|].
  intros f [Hf _]%elem_of_bfilter. by apply expense_units_value.
Qed.
End Figures.

Lemma filter_filter {A} (f g : A -> bool) l : List.filter f (List.filter g l) = List.filter (fun x => g x && f x) l.
Proof.
  induction l as [|x l IH]; [done|]. cbn [List.filter]. destruct (g x); cbn [List.filter andb]; [|done].
  destruct (f x); by rewrite IH.
Qed.

Lemma paired_keys {A B} (f : A -> B) l : ((fun x => (x, f x)) <$> l).*1 = l.
Proof. induction l as [|x l IH]; [done|]. cbn [fmap list_fmap fst]. by rewrite IH. Qed.

(** ** The months of a statement *)

Section Months.
Context (input : FinanceProfitLossResponseInput) (periods : FinanceReportingComparison) (Hok : facts_ok input periods).
Context (y m d : Z) (Hy : 1000 <= y <= 9999) (Hv : valid_civil y m d = true).
Context (Hfrom : from (current periods) = iso_date (day_from_year y)).
Context (Hto : to (current periods) = iso_date (make_day y (m - 1) d)).

Let rows : list string := declared_rows (categoryRows input).
Let c : string := inputCurrency input.
Let names : list Z := seqZ 1 m.

Lemma statement_months : month_number (to (current periods)) = m.
Proof. rewrite Hto, iso_date_make_day by (done || lia). apply (month_number_date y m d); [lia | done]. Qed.

Lemma names_range k : k ∈ names <-> 1 <= k <= m.
Proof. unfold names. rewrite elem_of_seqZ. lia. Qed.

Lemma month_small k : k ∈ names -> 1 <= k <= 12.
Proof. rewrite names_range. pose proof (valid_civil_small _ _ _ Hv). lia. Qed.

Lemma date_month s : date_in periods Current s = true ->
  month_number s ∈ names /\ forall k, k ∈ names -> String.prefix (month_name y k) s = true <-> k = month_number s.
Proof.
  unfold date_in. cbn [range_of_period]. rewrite Hfrom, Hto, !andb_true_iff, !negb_true_iff. intros [[Hs H1] H2].
  destruct (date_in_year y m d s Hy Hv Hs H1 H2) as (m' & d' & -> & Hv' & Hm). rewrite (month_number_date y m' d') by (done || lia).
  pose proof (valid_civil_small _ _ _ Hv'). split; [apply names_range; lia|]. intros k Hk.
  apply month_of_date; [done | by apply month_small | done].
Qed.

Definition month_facts (l : list RevenueFact) (k : Z) : Z :=
  sum_of fact_value (List.filter (fun f => period_eqb (factPeriod f) Current && in_month (Some (month_name y k)) (recognizedOn f)) l).

Definition category_value (k : Z) (row : string) : Z :=
  sum_of expense_value (List.filter (fun f => period_eqb (expensePeriod f) Current && String.prefix (month_name y k) (incurredOn f) &&
                                              String.eqb (categoryRow f) row) (expenseFacts input)).

Definition month_expense (k : Z) : Z :=
  sum_of expense_value (List.filter (fun f => period_eqb (expensePeriod f) Current && String.prefix (month_name y k) (incurredOn f))
                          (expenseFacts input)).

(** The facts of the year so far are those of its months. *)
Lemma facts_by_month l : l ⊆ roomFacts input ++ upsellFacts input -> sum_of (month_facts l) names = facts_value l Current.
Proof.
  intros Hl. unfold facts_value. rewrite <- (sum_of_parts fact_value (fun k f => String.prefix (month_name y k) (recognizedOn f))
    (fun f => month_number (recognizedOn f)) names).
  - apply sum_of_ext. intros k _. unfold month_facts. by rewrite filter_filter.
  - apply NoDup_seqZ.
  - intros f [Hf Hp]%elem_of_bfilter. pose proof (fo_revenue _ _ Hok) as H. rewrite Forall_forall in H.
    destruct (H f (Hl f Hf)) as [Hd _]. destruct (factPeriod f); [|done]. by apply date_month.
Qed.

Lemma expenses_by_month : sum_of month_expense names = expense_total input Current.
Proof.
  unfold expense_total. rewrite <- (sum_of_parts expense_value (fun k f => String.prefix (month_name y k) (incurredOn f))
    (fun f => month_number (incurredOn f)) names).
  - apply sum_of_ext. intros k _. unfold month_expense. by rewrite filter_filter.
  - apply NoDup_seqZ.
  - intros f [Hf Hp]%elem_of_bfilter. pose proof (fo_expenses _ _ Hok) as H. rewrite Forall_forall in H.
    destruct (H f Hf) as [Hd _]. destruct (expensePeriod f); [|done]. by apply date_month.
Qed.

Lemma expenses_by_category k : sum_of (category_value k) rows = month_expense k.
Proof.
  unfold month_expense. destruct (declared_rows_spec (categoryRows input)) as [Hn _].
  rewrite <- (sum_of_parts expense_value (fun row f => String.eqb (categoryRow f) row) categoryRow rows).
  - apply sum_of_ext. intros row _. unfold category_value. by rewrite filter_filter.
  - done.
  - intros f [Hf _]%elem_of_bfilter. pose proof (fo_expenses _ _ Hok) as H. rewrite Forall_forall in H.
    destruct (H f Hf) as (_ & _ & Hr). split; [done|]. intros row _. rewrite String.eqb_eq. naive_solver.
Qed.

(** ** Composed months *)

Definition month_of (k : Z) : ProfitLossMonth :=
  let room := month_facts (roomFacts input) k in
  let upsell := month_facts (upsellFacts input) k in
  {| month := month_name y k;
     roomRevenue := money room c;
     upsellRevenue := money upsell c;
     monthRevenue := money (room + upsell) c;
     expenses := money (month_expense k) c;
     netProfit := money (room + upsell - month_expense k) c;
     expenseCategories := (fun row => (row, money (category_value k row) c)) <$> rows |}.

Lemma compose_month_of k : compose_month input rows (month_name y k) = Ret (month_of k).
Proof.
  unfold compose_month, month_of. rewrite !(sum_value input periods Hok) by set_solver. cbn [exn_bind].
  rewrite (exn_traverse_Ret _ (fun row => (row, money (category_value k row) c))).
  2: { intros row _. unfold category_expenses. rewrite (exn_sum_Ret _ expense_value); [done|].
       intros f [Hf _]%elem_of_bfilter. by apply (expense_units_value input periods Hok). }
  cbn [exn_bind]. rewrite (exn_sum_Ret _ (fun v => unit_value (FinanceReporting.amount (snd v)))).
  2: { intros v (row & -> & _)%list_elem_of_fmap. cbn [snd money FinanceReporting.amount].
       rewrite units_decimal. unfold unit_value. by rewrite units_of_decimal. }
  cbn [exn_bind]. assert (E : sum_of (fun v => unit_value (FinanceReporting.amount (snd v)))
      ((fun row => (row, money (category_value k row) c)) <$> rows) = month_expense k).
  { rewrite <- expenses_by_category. generalize rows as l. intros l. induction l as [|row l IH]; [done|].
    cbn [fmap list_fmap]. rewrite !sum_of_cons, IH. cbn [snd money FinanceReporting.amount]. unfold unit_value. by rewrite units_of_decimal. }
  by rewrite E, Z.add_0_l.
Qed.

Lemma category_units_of k row : row ∈ rows -> category_units (month_of k) c row = Ret (category_value k row).
Proof.
  intros Hr. unfold category_units, month_of. cbn [expenseCategories]. destruct (declared_rows_spec (categoryRows input)) as [Hn _].
  assert (E : map_get ((fun row => (row, money (category_value k row) c)) <$> rows) row = Some (money (category_value k row) c)).
  { apply map_get_spec; [by rewrite paired_keys|].
    apply list_elem_of_fmap. by exists row. }
  rewrite E. apply money_units.
Qed.

(** A composed month passes its check and is added to the totals. *)
Lemma check_month_of k t : check_month c (month_name y k) rows (month_of k) t =
  Ret {| totalRevenue := totalRevenue t + (month_facts (roomFacts input) k + month_facts (upsellFacts input) k);
         totalExpenses := totalExpenses t + month_expense k;
         totalProfit := totalProfit t + (month_facts (roomFacts input) k + month_facts (upsellFacts input) k - month_expense k) |}.
Proof.
  unfold check_month. cbn [month_of month roomRevenue upsellRevenue monthRevenue expenses netProfit]. rewrite String.eqb_refl.
  cbn [negb]. rewrite !money_units. cbn [exn_bind].
  assert (E : stable_sort str_le (expenseCategories (month_of k)).*1 = rows).
  { cbn [month_of expenseCategories]. rewrite paired_keys. apply sort_declared. }
  fold (month_of k). rewrite E, String.eqb_refl. cbn [negb].
  rewrite (exn_sum_Ret _ (category_value k)) by (intros row Hr; by apply category_units_of).
  cbn [exn_bind]. rewrite Z.add_0_l, expenses_by_category, !Z.eqb_refl. done.
Qed.

Lemma check_months_of ks t : check_months c rows (month_of <$> ks) (month_name y <$> ks) t =
  Ret {| totalRevenue := totalRevenue t + (sum_of (month_facts (roomFacts input)) ks + sum_of (month_facts (upsellFacts input)) ks);
         totalExpenses := totalExpenses t + sum_of month_expense ks;
         totalProfit := totalProfit t + (sum_of (month_facts (roomFacts input)) ks + sum_of (month_facts (upsellFacts input)) ks -
                                         sum_of month_expense ks) |}.
Proof.
  revert t. induction ks as [|k ks IH]; intros t; cbn [fmap list_fmap check_months].
  - destruct t. cbn. f_equal. f_equal; lia.
  - rewrite check_month_of. cbn [exn_bind]. rewrite IH. cbn [totalRevenue totalExpenses totalProfit]. rewrite !sum_of_cons.
    do 2 f_equal; lia.
Qed.

(** The year so far, from the facts *)
Definition summary_of : ProfitLossSummary :=
  let metric a b := {| value := money a c; absoluteChange := money (a - b) c; percentChange := change a b |} in
  {| revenueYtd := metric (revenue_value input Current) (revenue_value input Comparison);
     expensesYtd := metric (expense_total input Current) (expense_total input Comparison);
     netProfitYtd := metric (revenue_value input Current - expense_total input Current)
                            (revenue_value input Comparison - expense_total input Comparison) |}.

Lemma compose_summary_of : currency_code c = true -> compose_summary input = Ret summary_of.
Proof.
  intros Hc. unfold compose_summary. rewrite !(revenue_total input periods Hok), !(expenses_total input periods Hok). cbn [exn_bind].
  rewrite !metric_of by done. done.
Qed.

(** A response of these months and this summary reconciles. *)
Lemma reconciles (response : FinanceProfitLossResponse) (asOf : string) :
  currency_code c = true -> responseCurrency response = c ->
  financeProfitLossPeriods {| year := y |} asOf = Ret periods ->
  months response = month_of <$> names -> summary response = summary_of ->
  assertFinanceProfitLossResponse response {| year := y |} asOf rows = Ret tt.
Proof.
  intros Hc Hrc Hp Hm Hs. unfold assertFinanceProfitLossResponse. rewrite Hp. cbn [exn_bind year].
  unfold expected_months. rewrite statement_months, Hrc, Hc, Hm, Hs. fold names. rewrite !length_fmap, Nat.eqb_refl. cbn [negb orb].
  rewrite (proj2 (forallb_forall _ rows)).
  2: { intros row Hrow. apply list_elem_of_In in Hrow. destruct (declared_rows_spec (categoryRows input)) as [_ Hx].
       apply Hx in Hrow as [Hrow|Hrow]; [by rewrite (proj2 (includes_elem _ _))|].
       pose proof (fo_rows _ _ Hok) as Hr. rewrite Forall_forall in Hr. apply orb_true_iff. by apply Hr. }
  cbn [negb]. unfold rows at 1. rewrite declared_again. fold rows. rewrite check_months_of. cbn [exn_bind].
  cbn [summary_of revenueYtd expensesYtd netProfitYtd]. rewrite !metric_checked. cbn [exn_bind checkedValue checkedChange totalRevenue totalExpenses totalProfit].
  rewrite !facts_by_month, expenses_by_month by set_solver. unfold revenue_value.
  rewrite !(proj2 (Z.eqb_eq _ _)) by lia. done.
Qed.
End Months.

(** ** Statements *)

Lemma facts_accepted input periods : facts_ok input periods ->
  assertFacts input (declared_rows (categoryRows input)) periods = Ret tt.
Proof.
  intros [Hr He _]. unfold assertFacts. rewrite Forall_forall in Hr; rewrite Forall_forall in He. rewrite (exn_traverse_Ret _ (fun _ => tt)).
  2: { intros f Hf. unfold assertFactDate. by rewrite (proj1 (Hr f Hf)). }
  cbn [exn_bind]. rewrite (exn_traverse_Ret _ (fun _ => tt)); [done|].
  intros f Hf. destruct (He f Hf) as (Hd & _ & Hrow). unfold assert_expense, assertFactDate. rewrite Hd. cbn [exn_bind].
  by rewrite (proj2 (includes_elem _ _)).
Qed.

Lemma periods_civil query asOf periods : financeProfitLossPeriods query asOf = Ret periods ->
  exists m d, 1001 <= year query <= 9999 /\ valid_civil (year query) m d = true /\
    from (current periods) = iso_date (day_from_year (year query)) /\
    to (current periods) = iso_date (make_day (year query) (m - 1) d).
Proof.
  intros Hp. pose proof Hp as Hp'. unfold financeProfitLossPeriods in Hp'. destruct (FinanceReporting.localDate asOf) eqn:Ha; [|done].
  cbn [negb] in Hp'. destruct (parseFinanceProfitLossQuery (query_value query)) as [q|] eqn:Eq; [|done].
  assert (Hq : q = query /\ 1001 <= year query <= 9999).
  { unfold parseFinanceProfitLossQuery, query_value in Eq. cbn -[as_integer] in Eq.
    destruct (as_integer (VInt (year query)) 1001 9999) as [n|] eqn:En; [|done]. injection Eq as <-.
    apply as_integer_Some in En as ([= <-] & _ & Hn). destruct query. done. }
  destruct Hq as [-> Hy]. destruct (Z.ltb_spec (utc_year (dateValue asOf)) (year query)) as [|Hle]; [done|]. clear Hp'.
  destruct (profit_loss_periods (year query) asOf Ha ltac:(lia)) as (m & d & E & Hv & _). exists m, d.
  replace {| year := year query |} with query in E by by destruct query. rewrite Hp in E. injection E as ->. done.
Qed.

(** C19: a statement always reconciles: whenever the scope is valid and the facts lie
    in their periods, the composition passes its own check, and its year-to-date
    figures and the months add up to the facts. *)
Theorem statement_reconciles `{ZoneCatalogue} input periods generated :
  financeProfitLossPeriods (inputQuery input) (inputAsOf input) = Ret periods ->
  utc (inputGeneratedAt input) = Some generated -> any_case_uuid (inputPropertyId input) = true ->
  currency_code (inputCurrency input) = true -> canonicalTimeZone (inputTimeZone input) = true ->
  facts_ok input periods ->
  exists response, composeFinanceProfitLossResponse input = Ret response /\
    summary response = summary_of input /\
    Forall (fun m => FinanceReporting.currency (netProfit m) = inputCurrency input) (months response) /\
    sum_of (fun m => unit_value (FinanceReporting.amount (netProfit m))) (months response) =
      revenue_value input Current - expense_total input Current.
Proof.
  intros Hp Hu Hi Hc Hz Hok. destruct (periods_civil _ _ _ Hp) as (m & d & Hy & Hv & Hfrom & Hto).
  destruct (inputQuery input) as [y] eqn:Eq. cbn [year] in *.
  assert (Hy' : 1000 <= y <= 9999) by lia. set (ms := month_of input y <$> seqZ 1 m).
  unfold composeFinanceProfitLossResponse. rewrite Hu, Hi, Hc, Hz, Eq, Hp. cbn [negb orb exn_bind].
  rewrite (facts_accepted input periods Hok). cbn [exn_bind year]. rewrite (statement_months periods y m d Hy' Hv Hto).
  assert (Em : exn_traverse (compose_month input (declared_rows (categoryRows input))) (month_name y <$> seqZ 1 m) = Ret ms).
  { apply exn_traverse_over. intros k. by apply (compose_month_of input periods Hok y m d Hy' Hv Hfrom Hto). }
  rewrite Em, (compose_summary_of input periods Hok Hc). cbn [exn_bind].
  rewrite (reconciles input periods Hok y m d Hy' Hv Hfrom Hto _ (inputAsOf input) Hc) by done. cbn [exn_bind].
  eexists. split; [done|]. cbn [summary months]. split; [done|]. split; [by apply Forall_fmap, Forall_true|].
  rewrite <- (expenses_by_month input periods Hok y m d Hy' Hv Hfrom Hto). unfold revenue_value.
  rewrite <- !(facts_by_month input periods Hok y m d Hy' Hv Hfrom Hto) by set_solver.
  subst ms. clear. induction (seqZ 1 m) as [|k ks IH]; [done|]. cbn [fmap list_fmap]. rewrite !sum_of_cons, IH.
  cbn [month_of netProfit money FinanceReporting.amount]. unfold unit_value at 1. rewrite units_of_decimal. lia.
Qed.
