(* ===== verification/ProfitLossCsv.v ===== *)
(** * The profit and loss export

    packages/domain-finance/src/financialCsv.ts and financialProfitLossCsv.ts: the
    CSV document of a reconciled statement. *)

From S2P Require Import Prelude JsValue JsonText CalendarDates Money FolioDecimals FinanceFolios FolioCsv FinanceReporting ProfitLoss ProfitLossGuarantees.

(** [localDate(instant, timeZone)]: the calendar day of [Intl.DateTimeFormat], or
    [None] when the instant or the zone is invalid *)
Class LocalClock := local_day : string -> string -> option string.

(** ** Rows *)

(** [/^-?(?:0|[1-9]\d{0,})(?:\.\d{4})?$/] *)
Definition plain_decimal (s : string) : bool :=
  let '(whole, fraction) := split_dot (unsigned s) in
  canonical_decimal whole && match fraction with Some f => fraction_digits 4 f | None => true end.

Definition safe_cell (s : string) : string :=
  match s with
  | String c _ => if formula_start c && negb (plain_decimal s) then String "'" s else s
  | EmptyString => s
  end.

Definition financeCsvRow (values : list string) : string := csvRow (safe_cell <$> values).

Definition FINANCE_PROFIT_LOSS_CSV_COLUMNS : list string :=
  ["property_id"; "year"; "as_of"; "row_type"; "period"; "metric"; "category"; "value"; "currency";
   "absolute_change"; "percent_change"].

Record FinanceProfitLossCsvArtifact := {
  artifactProperty : string;
  artifactMoney : string;
  artifactAsOf : string;
  artifactGeneratedAt : string;
  artifactFilename : string;
  artifactRowCount : nat;
  artifactBody : string
}.

Section Rows.
Context (response : FinanceProfitLossResponse) (query : FinanceProfitLossQuery) (asOf : string).

(** [add(type, period, metric, category, value, change, percent)] *)
Definition csv_line (type period metric category v changed percent : string) : list string :=
  [propertyId response; Z_to_string (year query); asOf; type; period; metric; category; v; responseCurrency response;
   changed; percent].

Definition summary_row (key : string) (m : FinanceReportingMoneyMetric) : list string :=
  csv_line "summary" (Z_to_string (year query)) key "" (FinanceReporting.amount (value m))
    (FinanceReporting.amount (absoluteChange m)) (default EmptyString (percentChange m)).

Definition month_row (m : ProfitLossMonth) (key : string) (v : FinanceReportingMoney) : list string :=
  csv_line "month" (month m) key "" (FinanceReporting.amount v) "" "".

(** The category is one of the month's own keys. *)
Definition category_row (m : ProfitLossMonth) (category : string) : list string :=
  csv_line "expense_category" (month m) "expenses" category
    (match map_get (expenseCategories m) category with Some v => FinanceReporting.amount v | None => EmptyString end) "" "".

Definition month_rows (m : ProfitLossMonth) : list (list string) :=
  [month_row m "roomRevenue" (roomRevenue m); month_row m "upsellRevenue" (upsellRevenue m);
   month_row m "revenue" (monthRevenue m); month_row m "expenses" (expenses m); month_row m "netProfit" (netProfit m)] ++
  (category_row m <$> stable_sort str_le (expenseCategories m).*1).

Definition statement_rows : list (list string) :=
  [summary_row "revenueYtd" (revenueYtd (summary response)); summary_row "expensesYtd" (expensesYtd (summary response));
   summary_row "netProfitYtd" (netProfitYtd (summary response))] ++
  mjoin (month_rows <$> months response).
End Rows.

Definition ends_with_z (s : string) : bool := String.eqb (substring (String.length s - 1) 1 s) "Z".

(** An instant that does not parse has no local day. *)
Definition buildFinanceProfitLossCsvArtifact `{LocalClock} (property : string) (response : FinanceProfitLossResponse)
    (query : FinanceProfitLossQuery) (asOf : string) (categoryRows : list string) : exn FinanceProfitLossCsvArtifact :=
  match parseFinanceProfitLossQuery (query_value query) with
  | None => Throw "Profit and loss CSV scope is invalid"
  | Some _ =>
      if negb (matches UUID (propertyId response)) || negb (String.eqb (propertyId response) property) ||
         negb (String.eqb (contractVersion response) "pms-financials.v1") || negb (ends_with_z (generatedAt response)) ||
         negb (bool_decide (local_day (generatedAt response) (timeZone response) = Some asOf))
      then Throw "Profit and loss CSV scope is invalid"
      else
        try! _ := assertFinanceProfitLossResponse response query asOf categoryRows in
        let rows := statement_rows response query asOf in
        Ret {| artifactProperty := propertyId response;
               artifactMoney := responseCurrency response;
               artifactAsOf := asOf;
               artifactGeneratedAt := generatedAt response;
               artifactFilename := "pms-financials-profit-loss-" +:+ propertyId response +:+ "-" +:+ Z_to_string (year query) +:+
                                   "-" +:+ asOf +:+ ".csv";
               artifactRowCount := length rows;
               artifactBody := join crlf (financeCsvRow <$> FINANCE_PROFIT_LOSS_CSV_COLUMNS :: rows) +:+ crlf |}
  end.

(** * What the profit and loss export guarantees

    A response that passes the check reconciles month by month and over the year,
    and so do the figures its CSV document reads back as. *)

(** ** Checked responses *)

Definition money_value (m : FinanceReportingMoney) : Z := unit_value (FinanceReporting.amount m).

Definition category_money (m : ProfitLossMonth) (row : string) : Z :=
  match map_get (expenseCategories m) row with Some v => money_value v | None => 0 end.

Definition own_rows (m : ProfitLossMonth) : list string := stable_sort str_le (expenseCategories m).*1.

Record month_reconciles (m : ProfitLossMonth) : Prop := {
  mr_revenue : money_value (monthRevenue m) = money_value (roomRevenue m) + money_value (upsellRevenue m);
  mr_expenses : money_value (expenses m) = sum_of (category_money m) (own_rows m);
  mr_profit : money_value (netProfit m) = money_value (monthRevenue m) - money_value (expenses m);
  mr_decimals : Forall (fun v => four_decimals (FinanceReporting.amount v) = true)
    [roomRevenue m; upsellRevenue m; monthRevenue m; expenses m; netProfit m];
  mr_categories : Forall (fun row => exists v, map_get (expenseCategories m) row = Some v /\
                                     four_decimals (FinanceReporting.amount v) = true) (own_rows m)
}.

Record statement_reconciled (response : FinanceProfitLossResponse) : Prop := {
  sr_months : Forall month_reconciles (months response);
  sr_revenue : money_value (value (revenueYtd (summary response))) = sum_of (fun m => money_value (monthRevenue m)) (months response);
  sr_expenses : money_value (value (expensesYtd (summary response))) = sum_of (fun m => money_value (expenses m)) (months response);
  sr_profit : money_value (value (netProfitYtd (summary response))) = sum_of (fun m => money_value (netProfit m)) (months response);
  sr_decimals : Forall (fun m => four_decimals (FinanceReporting.amount (value m)) = true)
    [revenueYtd (summary response); expensesYtd (summary response); netProfitYtd (summary response)]
}.

Lemma checked_money m c n : profitLossMoneyUnits m c = Ret n ->
  money_value m = n /\ four_decimals (FinanceReporting.amount m) = true.
Proof.
  unfold profitLossMoneyUnits, money_value, unit_value. destruct (String.eqb _ c && four_decimals _) eqn:E; [|done].
  intros ->. apply andb_true_iff in E as [_ E]. done.
Qed.

Lemma exn_sum_inv {A} (f : A -> exn Z) (g : A -> Z) l total n :
  (forall x v, f x = Ret v -> g x = v) -> exn_sum f l total = Ret n -> n = total + sum_of g l.
Proof.
  intros Hg. revert total. induction l as [|x l IH]; intros total; cbn [exn_sum]; [intros [= <-]; cbn; lia|].
  intros (v & Hv & Hl)%exn_bind_Ret. apply IH in Hl as ->. rewrite sum_of_cons, (Hg x v Hv). lia.
Qed.

Lemma exn_sum_all {A} (f : A -> exn Z) l total n : exn_sum f l total = Ret n -> Forall (fun x => exists v, f x = Ret v) l.
Proof.
  revert total. induction l as [|x l IH]; intros total; cbn [exn_sum]; [constructor|].
  intros (v & Hv & Hl)%exn_bind_Ret. constructor; [by exists v | by eapply IH].
Qed.

#[local] Ltac unbind H := let n := fresh "n" in let E := fresh "E" in apply exn_bind_Ret in H as (n & E & H).

Lemma check_month_sound c e rows m t t' : check_month c e rows m t = Ret t' ->
  month_reconciles m /\ totalRevenue t' = totalRevenue t + money_value (monthRevenue m) /\
  totalExpenses t' = totalExpenses t + money_value (expenses m) /\ totalProfit t' = totalProfit t + money_value (netProfit m).
Proof.
  unfold check_month. destruct (negb (String.eqb (month m) e)); [done|]. intros H. do 5 unbind H.
  destruct (negb (String.eqb _ (join "," rows))); [done|]. unbind H.
  apply checked_money in E as [E D], E0 as [E0 D0], E1 as [E1 D1], E2 as [E2 D2], E3 as [E3 D3].
  pose proof (exn_sum_all _ _ _ _ E4) as Hall. apply (exn_sum_inv _ (category_money m)) in E4.
  2: { intros row v. unfold category_units, category_money. destruct (map_get _ row); [|done]. by intros [? _]%checked_money. }
  destruct (_ || _) eqn:Eb in H; [done|]. injection H as <-. cbn [totalRevenue totalExpenses totalProfit].
  bool_to_prop. split_and!; try lia. split; unfold own_rows; try lia; [by repeat constructor|].
  eapply Forall_impl; [exact Hall|]. intros row [v Hv]. unfold category_units in Hv.
  destruct (map_get _ row) as [w|]; [|done]. exists w. split; [done|]. by apply checked_money in Hv as [_ Hv].
Qed.

Lemma check_months_sound c rows ms : forall es t t', length ms = length es -> check_months c rows ms es t = Ret t' ->
  Forall month_reconciles ms /\ totalRevenue t' = totalRevenue t + sum_of (fun m => money_value (monthRevenue m)) ms /\
  totalExpenses t' = totalExpenses t + sum_of (fun m => money_value (expenses m)) ms /\
  totalProfit t' = totalProfit t + sum_of (fun m => money_value (netProfit m)) ms.
Proof.
  induction ms as [|m ms IH]; intros [|e es] t t' Hl; try discriminate Hl; cbn [check_months].
  - intros [= <-]. cbn. split_and!; [constructor | lia..].
  - intros (t1 & H1 & H2)%exn_bind_Ret. apply check_month_sound in H1 as (Hm & R1 & R2 & R3).
    apply IH in H2 as (Hms & S1 & S2 & S3); [|by injection Hl]. rewrite !sum_of_cons. split_and!; [by constructor | lia..].
Qed.

Lemma checked_metric m c r : assertProfitLossMetric m c = Ret r ->
  money_value (value m) = checkedValue r /\ four_decimals (FinanceReporting.amount (value m)) = true.
Proof.
  unfold assertProfitLossMetric. intros H. do 2 unbind H. apply checked_money in E as [<- E].
  by destruct (bool_decide _); [injection H as <-|].
Qed.

Lemma check_sound response query asOf rows : assertFinanceProfitLossResponse response query asOf rows = Ret tt ->
  statement_reconciled response.
Proof.
  unfold assertFinanceProfitLossResponse. intros H. unbind H.
  destruct (negb (currency_code _) || negb (Nat.eqb _ _)) eqn:Eb; [done|]. destruct (negb (forallb _ rows)); [done|].
  do 4 unbind H. apply orb_false_iff in Eb as [_ Hl]. rewrite negb_false_iff, Nat.eqb_eq in Hl.
  apply check_months_sound in E0 as (Hms & R1 & R2 & R3); [|done].
  apply checked_metric in E1 as [V1 D1], E2 as [V2 D2], E3 as [V3 D3]. destruct (_ || _) eqn:E4 in H; [done|].
  bool_to_prop. cbn [totalRevenue totalExpenses totalProfit] in *. split; try lia; [done|]. by repeat constructor.
Qed.

(** ** The rows of the document *)

Lemma four_plain s : four_decimals s = true -> safe_cell s = s.
Proof.
  unfold safe_cell, plain_decimal, four_decimals. destruct s as [|c s]; [done|]. destruct (split_dot _) as [w [f|]].
  - intros ->. by rewrite andb_false_r.
  - by rewrite andb_false_r.
Qed.

Definition cell (i : nat) (row : list string) : string := List.nth i row EmptyString.

Definition row_is (type metric : string) (row : list string) : bool :=
  String.eqb (cell 3 row) type && String.eqb (cell 5 row) metric.

(** The sum of the values of the rows of a type and a metric *)
Definition figures (rows : list (list string)) (type metric : string) : Z :=
  sum_of (fun row => unit_value (cell 7 row)) (List.filter (row_is type metric) rows).

Lemma figures_cons row rows type metric : figures (row :: rows) type metric =
  (if row_is type metric row then unit_value (cell 7 row) else 0) + figures rows type metric.
Proof. unfold figures. cbn [List.filter]. by destruct (row_is type metric row). Qed.

Lemma figures_app rows rows' type metric : figures (rows ++ rows') type metric = figures rows type metric + figures rows' type metric.
Proof. unfold figures. by rewrite List.filter_app, sum_of_app. Qed.

Definition printed (row : list string) : list string := safe_cell <$> row.

(** A finance document of rows, each with a cell, reads back as its heading and the
    printed rows. *)
Lemma finance_document columns rows : columns <> [] -> printed columns = columns -> Forall (fun row => row <> []) rows ->
  read_csv (join crlf (financeCsvRow <$> columns :: rows) +:+ crlf) = Some (columns :: (printed <$> rows)).
Proof.
  intros Hne Hc Hr. assert (E : forall l, financeCsvRow <$> l = csvRow <$> (printed <$> l)) by (intros l; by rewrite <- list_fmap_compose).
  rewrite E, fmap_cons, Hc. apply read_rows; [done|]. constructor; [done|]. apply Forall_fmap.
  eapply Forall_impl; [exact Hr|]. by intros [|??].
Qed.

Section Document.
Context (response : FinanceProfitLossResponse) (query : FinanceProfitLossQuery) (asOf : string).

Definition month_figure (type metric : string) (m : ProfitLossMonth) : Z :=
  if String.eqb type "month" then
    if String.eqb metric "roomRevenue" then money_value (roomRevenue m)
    else if String.eqb metric "upsellRevenue" then money_value (upsellRevenue m)
    else if String.eqb metric "revenue" then money_value (monthRevenue m)
    else if String.eqb metric "expenses" then money_value (expenses m)
    else if String.eqb metric "netProfit" then money_value (netProfit m) else 0
  else if String.eqb type "expense_category" && String.eqb metric "expenses" then sum_of (category_money m) (own_rows m) else 0.

Lemma category_figures m rows type metric :
  Forall (fun row => exists v, map_get (expenseCategories m) row = Some v /\ four_decimals (FinanceReporting.amount v) = true) rows ->
  figures (printed <$> (category_row response query asOf m <$> rows)) type metric =
  if String.eqb type "expense_category" && String.eqb metric "expenses" then sum_of (category_money m) rows else 0.
Proof.
  induction 1 as [|row rows (v & Hv & H4) _ IH]; [by destruct (_ && _)|]. rewrite !fmap_cons, figures_cons, IH.
  unfold row_is, printed, category_row, csv_line. cbn -[String.eqb safe_cell sum_of figures]. rewrite Hv, (four_plain (FinanceReporting.amount v)) by done.
  change (safe_cell "expense_category") with "expense_category". change (safe_cell "expenses") with "expenses".
  rewrite (String.eqb_sym "expense_category"), (String.eqb_sym "expenses").
  destruct (String.eqb type _ && String.eqb metric _); [|done]. rewrite sum_of_cons. unfold category_money at 2. by rewrite Hv.
Qed.

#[local] Ltac each_name :=
  repeat match goal with
  | |- context [String.eqb ?a ?b] => destruct (String.eqb_spec a b); [subst|]; cbn [andb]; try done
  end.

Lemma month_row_figure m key v rows type metric : four_decimals (FinanceReporting.amount v) = true -> safe_cell key = key ->
  figures (printed (month_row response query asOf m key v) :: rows) type metric =
  (if String.eqb "month" type && String.eqb key metric then money_value v else 0) + figures rows type metric.
Proof.
  intros H4 Hk. rewrite figures_cons. unfold row_is, printed, month_row, csv_line, cell.
  cbn -[String.eqb safe_cell figures]. by rewrite (four_plain _ H4), Hk.
Qed.

Lemma month_figures m type metric : month_reconciles m ->
  figures (printed <$> month_rows response query asOf m) type metric = month_figure type metric m.
Proof.
  intros [_ _ _ Hd Hc]. repeat (apply Forall_cons in Hd as [? Hd]). unfold month_rows. rewrite fmap_app, figures_app.
  rewrite category_figures by done. rewrite !fmap_cons, !month_row_figure by done. unfold figures at 1. cbn [fmap list_fmap List.filter].
  change (sum_of _ []) with 0. unfold month_figure. rewrite (String.eqb_sym "month").
  rewrite !(String.eqb_sym _ metric). destruct (String.eqb_spec type "month") as [->|]; cbn [andb].
  - change (String.eqb "month" "expense_category") with false. cbn [andb]. each_name; lia.
  - fold (own_rows m). destruct (String.eqb type "expense_category" && _); lia.
Qed.

Lemma months_figures ms type metric : Forall month_reconciles ms ->
  figures (printed <$> mjoin (month_rows response query asOf <$> ms)) type metric = sum_of (month_figure type metric) ms.
Proof.
  induction 1 as [|m ms Hm _ IH]; [done|]. rewrite fmap_cons.
  change (mjoin (?rows :: ?l)) with (rows ++ mjoin l). by rewrite fmap_app, figures_app, IH, month_figures, sum_of_cons.
Qed.

Lemma summary_row_figure m key rows type metric : four_decimals (FinanceReporting.amount (value m)) = true -> safe_cell key = key ->
  figures (printed (summary_row response query asOf key m) :: rows) type metric =
  (if String.eqb "summary" type && String.eqb key metric then money_value (value m) else 0) + figures rows type metric.
Proof.
  intros H4 Hk. rewrite figures_cons. unfold row_is, printed, summary_row, csv_line, cell.
  cbn -[String.eqb safe_cell figures]. by rewrite (four_plain _ H4), Hk.
Qed.
End Document.

(** ** The document *)

Lemma statement_figures response query asOf type metric : statement_reconciled response ->
  figures (printed <$> statement_rows response query asOf) type metric =
  (if String.eqb "summary" type && String.eqb "revenueYtd" metric then money_value (value (revenueYtd (summary response))) else 0) +
  (if String.eqb "summary" type && String.eqb "expensesYtd" metric then money_value (value (expensesYtd (summary response))) else 0) +
  (if String.eqb "summary" type && String.eqb "netProfitYtd" metric then money_value (value (netProfitYtd (summary response))) else 0) +
  sum_of (month_figure type metric) (months response).
Proof.
  intros [Hm _ _ _ Hd]. repeat (apply Forall_cons in Hd as [? Hd]). unfold statement_rows. rewrite fmap_app, figures_app.
  rewrite months_figures by done. rewrite !fmap_cons, !summary_row_figure by done. unfold figures. cbn [fmap list_fmap List.filter].
  change (sum_of _ []) with 0. lia.
Qed.

Lemma statement_rows_full response query asOf : Forall (fun row => row <> []) (statement_rows response query asOf).
Proof.
  unfold statement_rows. apply Forall_app. split; [by repeat constructor|]. apply Forall_forall.
  intros row (rows & Hrow & (m & -> & _)%list_elem_of_fmap)%list_elem_of_join. unfold month_rows in Hrow.
  apply elem_of_app in Hrow as [Hrow|(c & -> & _)%list_elem_of_fmap]; [|done].
  by repeat (apply elem_of_cons in Hrow as [->|Hrow]; [done|]); apply elem_of_nil in Hrow.
Qed.

(** C20: the exported statement adds up: read by the rules of quoted cells, the
    document is its heading and rows whose monthly revenue, expenses and profit sum
    to the year-to-date figures, revenue is rooms and extras, expenses are the sum
    over the categories, and profit is their difference. *)
Theorem profit_loss_export_adds_up `{LocalClock} property response query asOf rows a :
  buildFinanceProfitLossCsvArtifact property response query asOf rows = Ret a ->
  exists cells, read_csv (artifactBody a) = Some (FINANCE_PROFIT_LOSS_CSV_COLUMNS :: cells) /\
    length cells = artifactRowCount a /\
    figures cells "month" "revenue" = figures cells "summary" "revenueYtd" /\
    figures cells "month" "expenses" = figures cells "summary" "expensesYtd" /\
    figures cells "month" "netProfit" = figures cells "summary" "netProfitYtd" /\
    figures cells "month" "revenue" = figures cells "month" "roomRevenue" + figures cells "month" "upsellRevenue" /\
    figures cells "month" "expenses" = figures cells "expense_category" "expenses" /\
    figures cells "month" "netProfit" = figures cells "month" "revenue" - figures cells "month" "expenses".
Proof.
  unfold buildFinanceProfitLossCsvArtifact. destruct (parseFinanceProfitLossQuery _) as [q|]; [|done].
  destruct (_ || _); [done|]. intros ([] & Hc & Ha)%exn_bind_Ret. apply Ret_inj in Ha as <-. cbn [artifactBody artifactRowCount].
  apply check_sound in Hc. exists (printed <$> statement_rows response query asOf). rewrite length_fmap.
  split; [|split; [done|]].
  - apply finance_document; [done | done | apply statement_rows_full].
  - rewrite !statement_figures by done. destruct Hc as [Hm -> -> -> _]. cbn [String.eqb Ascii.eqb Bool.eqb andb].
    unfold month_figure. cbn [String.eqb Ascii.eqb Bool.eqb andb]. rewrite !Z.add_0_l, !Z.add_0_r.
    assert (E : forall f g : ProfitLossMonth -> Z, (forall m, month_reconciles m -> f m = g m) ->
        sum_of f (months response) = sum_of g (months response)).
    { intros f g Hfg. apply sum_of_ext. intros m Hin. rewrite Forall_forall in Hm. auto. }
    rewrite (sum_of_zero (fun _ => 0)) by done. split_and!; try lia.
    + rewrite <- sum_of_plus. apply E. intros m [Hr _ _ _ _]. done.
    + apply E. by intros m [].
    + rewrite (E _ (fun m => money_value (monthRevenue m) + - money_value (expenses m))) by (intros m [_ _ -> _ _]; lia).
      rewrite sum_of_plus. enough (sum_of (fun m => - money_value (expenses m)) (months response) =
        - sum_of (fun m => money_value (expenses m)) (months response)) by lia.
      clear. induction (months response) as [|m ms IH]; [done|]. rewrite !sum_of_cons. lia.
Qed.
