(* ===== verification/RevenueReport.v ===== *)
(** * Revenue reports

    apps/api/src/domains/financeRevenueResponse.ts: the revenue of a range by
    channel, direct source, kind of extra and room type, from the facts of two
    periods. *)

From S2P Require Import Prelude JsValue JsonText CalendarDates Money FolioDecimals FinanceFolios FinanceReporting ProfitLoss ProfitLossGuarantees ProfitLossCsv.

(** ** Facts *)

Record FinanceRevenueRoomFact := {
  roomPeriod : Period;
  roomRecognizedOn : string;
  channel : string;
  directSource : option string;
  roomTypeId : string;
  grossRoomAmount : string;
  otaCommissionAmount : string;
  occupiedRoomNights : Z;
  pricedOccupiedRoomNights : Z
}.

Inductive Ownership := property | partner.

Definition ownership_eqb (a b : Ownership) : bool :=
  match a, b with property, property | partner, partner => true | _, _ => false end.

Record FinanceRevenueAddonFact := {
  addonPeriod : Period;
  addonRecognizedOn : string;
  ownership : Ownership;
  revenueAmount : string
}.

(** What is known to be missing; [amount] and [currency] where they are known *)
Record Gap := {
  gapCode : string;
  gapCount : Z;
  gapAmount : option FinanceReportingMoney;
  gapCurrency : option string
}.

Record Bookings := { currentBookings : Z; comparisonBookings : Z }.

Record FinanceRevenueRoomFacts := {
  roomRows : list FinanceRevenueRoomFact;
  eligibleBookings : Bookings;
  roomFreshness : list (string * option string);
  roomGaps : list Gap
}.

Record FinanceRevenueAddonFacts := {
  addonRows : list FinanceRevenueAddonFact;
  fulfilledBookings : Bookings;
  addonFreshness : list (string * option string);
  addonGaps : list Gap
}.

Record FinanceRevenueResponseInput := {
  revenuePropertyId : string;
  revenueCurrency : string;
  revenueTimeZone : string;
  revenueGeneratedAt : string;
  revenueFreshness : list (string * option string);
  rooms : FinanceRevenueRoomFacts;
  addOns : FinanceRevenueAddonFacts
}.

(** ** The response *)

Record RevenueSummary := {
  grossRoom : FinanceReportingMoneyMetric;
  otaCommission : FinanceReportingMoneyMetric;
  netRoom : FinanceReportingMoneyMetric;
  upsell : FinanceReportingMoneyMetric;
  nights : FinanceReportingCountMetric;
  adr : FinanceReportingMoneyMetric;
  attachRate : FinanceReportingRatioMetric
}.

Record ChannelRevenue := {
  channelName : string;
  channelGross : FinanceReportingMoney;
  channelCommission : FinanceReportingMoney;
  channelNet : FinanceReportingMoney;
  channelShare : string
}.

Record SourceRevenue := { sourceName : string; sourceRevenue : FinanceReportingMoney; sourceShare : string }.
Record UpsellRevenue := { upsellOwnership : Ownership; ownershipRevenue : FinanceReportingMoney }.

Record RoomTypeRevenue := {
  reportedRoomType : string;
  roomTypeNights : Z;
  roomTypeRevenue : FinanceReportingMoney;
  roomTypeAdr : FinanceReportingMoney
}.

Record FinanceRevenueResponse := {
  revenueContract : string;
  reportPropertyId : string;
  reportCurrency : string;
  reportTimeZone : string;
  reportGeneratedAt : string;
  reportFreshness : list (string * string);
  reportEvidence : list FinanceReportingIncompleteEvidence;
  revenueSummary : RevenueSummary;
  channels : list ChannelRevenue;
  directSources : list SourceRevenue;
  upsells : list UpsellRevenue;
  roomTypes : list RoomTypeRevenue
}.

(** ** Sums *)

Definition sum_texts (values : list string) : exn string :=
  try! n := exn_sum units values 0 in Ret (decimal n).

Definition positive (n : Z) : Z := if 0 <? n then n else 0.

Definition share_of (part total : Z) : string :=
  decimal (if total =? 0 then 0 else roundDivide (part * 10000) total).

Definition rows_of (p : Period) (rows : list FinanceRevenueRoomFact) : list FinanceRevenueRoomFact :=
  List.filter (fun r => period_eqb (roomPeriod r) p) rows.

Definition addons_of (p : Period) (rows : list FinanceRevenueAddonFact) : list FinanceRevenueAddonFact :=
  List.filter (fun r => period_eqb (addonPeriod r) p) rows.

Record PeriodTotals := {
  totalGross : string;
  totalCommission : string;
  totalNet : string;
  totalUpsell : string;
  totalNights : Z;
  totalAdr : string
}.

Definition totals (input : FinanceRevenueResponseInput) (p : Period) : exn PeriodTotals :=
  let rs := rows_of p (roomRows (rooms input)) in
  try! gross := sum_texts (grossRoomAmount <$> rs) in
  try! commission := sum_texts (otaCommissionAmount <$> rs) in
  let occupied := Z.max 0 (sumZ (occupiedRoomNights <$> rs)) in
  let priced := Z.max 0 (sumZ (pricedOccupiedRoomNights <$> rs)) in
  try! g := units gross in
  try! c := units commission in
  try! u := sum_texts (revenueAmount <$> addons_of p (addonRows (addOns input))) in
  try! rate := divideFinanceReportingDecimal gross priced in
  Ret {| totalGross := gross; totalCommission := commission; totalNet := decimal (g - c); totalUpsell := u;
         totalNights := occupied; totalAdr := rate |}.

(** ** Groups *)

(** A [Map] filled row by row: a row is added to the value of its key. *)
Section Groups.
Context {R V : Type} (key : R -> string) (empty : V) (add : V -> R -> exn V).

Fixpoint group_rows (rows : list R) (grouped : list (string * V)) : exn (list (string * V)) :=
  match rows with
  | [] => Ret grouped
  | r :: rest =>
      try! v := add (default empty (map_get grouped (key r))) r in
      group_rows rest (map_set grouped (key r) v)
  end.
End Groups.

Section Composition.
Context `{Collation}.

(** [[...grouped].sort(([left], [right]) => left.localeCompare(right))] *)
Definition by_name {V} (grouped : list (string * V)) : list (string * V) :=
  sort_by (fun a b => localeCompare (fst a) (fst b)) grouped.

Record ChannelSums := { gross : Z; commission : Z }.

Definition add_channel (v : ChannelSums) (r : FinanceRevenueRoomFact) : exn ChannelSums :=
  try! g := units (grossRoomAmount r) in
  try! c := units (otaCommissionAmount r) in
  Ret {| gross := gross v + g; commission := commission v + c |}.

Definition group_channels (rows : list FinanceRevenueRoomFact) : exn (list (string * ChannelSums)) :=
  group_rows channel {| gross := 0; commission := 0 |} add_channel (rows_of Current rows) [].

Definition channel_row (total : Z) (c : string) (e : string * ChannelSums) : ChannelRevenue :=
  {| channelName := fst e;
     channelGross := money (gross (snd e)) c;
     channelCommission := money (commission (snd e)) c;
     channelNet := money (gross (snd e) - commission (snd e)) c;
     channelShare := share_of (positive (gross (snd e))) total |}.

Definition channels_of (rows : list FinanceRevenueRoomFact) (c : string) : exn (list ChannelRevenue) :=
  try! grouped := group_channels rows in
  let total := sumZ ((fun e => positive (gross (snd e))) <$> grouped) in
  Ret (channel_row total c <$> by_name grouped).

Definition source_text (r : FinanceRevenueRoomFact) : string := default EmptyString (directSource r).

Definition add_source (v : Z) (r : FinanceRevenueRoomFact) : exn Z := try! n := units (grossRoomAmount r) in Ret (v + n).

Definition is_direct (r : FinanceRevenueRoomFact) : bool :=
  period_eqb (roomPeriod r) Current && String.eqb (channel r) "direct" &&
  match directSource r with Some _ => true | None => false end.

Definition source_row (total : Z) (c : string) (e : string * Z) : SourceRevenue :=
  {| sourceName := fst e; sourceRevenue := money (snd e) c; sourceShare := share_of (positive (snd e)) total |}.

Definition direct_sources (rows : list FinanceRevenueRoomFact) (c : string) : exn (list SourceRevenue) :=
  try! grouped := group_rows source_text 0 add_source (List.filter is_direct rows) [] in
  let total := sumZ ((fun e => positive (snd e)) <$> grouped) in
  Ret (source_row total c <$> by_name grouped).

Definition upsell_row (rows : list FinanceRevenueAddonFact) (c : string) (o : Ownership) : exn UpsellRevenue :=
  try! n := exn_sum (fun r => units (revenueAmount r))
              (List.filter (fun r => period_eqb (addonPeriod r) Current && ownership_eqb (ownership r) o) rows) 0 in
  Ret {| upsellOwnership := o; ownershipRevenue := money n c |}.

Definition upsells_of (rows : list FinanceRevenueAddonFact) (c : string) : exn (list UpsellRevenue) :=
  exn_traverse (upsell_row rows c) [property; partner].

Record RoomSums := { sumRevenue : Z; sumNights : Z; sumPriced : Z }.

Definition add_room (v : RoomSums) (r : FinanceRevenueRoomFact) : exn RoomSums :=
  try! g := units (grossRoomAmount r) in
  Ret {| sumRevenue := sumRevenue v + g; sumNights := sumNights v + occupiedRoomNights r;
         sumPriced := sumPriced v + pricedOccupiedRoomNights r |}.

Definition group_rooms (rows : list FinanceRevenueRoomFact) : exn (list (string * RoomSums)) :=
  group_rows roomTypeId {| sumRevenue := 0; sumNights := 0; sumPriced := 0 |} add_room (rows_of Current rows) [].

Definition room_type_row (c : string) (e : string * RoomSums) : exn RoomTypeRevenue :=
  try! rate := divideFinanceReportingDecimal (decimal (sumRevenue (snd e))) (Z.max 0 (sumPriced (snd e))) in
  try! n := units rate in
  Ret {| reportedRoomType := fst e; roomTypeNights := sumNights (snd e); roomTypeRevenue := money (sumRevenue (snd e)) c;
         roomTypeAdr := money n c |}.

Definition room_types (rows : list FinanceRevenueRoomFact) (c : string) : exn (list RoomTypeRevenue * Z) :=
  try! grouped := group_rooms rows in
  let unavailable := Z.of_nat (length (List.filter (fun e => sumNights (snd e) <? 0) grouped)) in
  if negb (unavailable =? 0) then Ret ([], unavailable)
  else
    try! rows := exn_traverse (room_type_row c) (by_name grouped) in
    Ret (rows, 0).

(** ** Freshness and evidence *)

(** [{...a, ...b}] *)
Definition merge_fields (a b : list (string * option string)) : list (string * option string) :=
  fold_left (fun m e => map_set m (fst e) (snd e)) b a.

Definition known_fields (l : list (string * option string)) : list (string * string) :=
  omap (fun e => match snd e with Some v => Some (fst e, v) | None => None end) l.

Definition freshness (input : FinanceRevenueResponseInput) : list (string * string) :=
  known_fields (merge_fields (merge_fields (merge_fields [] (revenueFreshness input)) (roomFreshness (rooms input)))
                  (addonFreshness (addOns input))).

Definition incomplete (g : Gap) : FinanceReportingIncompleteEvidence :=
  match gapAmount g with
  | Some a => {| evidenceCode := gapCode g; evidenceCount := gapCount g; evidenceAmount := Some a; evidenceCurrency := None |}
  | None => {| evidenceCode := gapCode g; evidenceCount := gapCount g; evidenceAmount := None; evidenceCurrency := gapCurrency g |}
  end.

(** ** The composition *)

(** [/^[0-9a-f-]{36}$/i] *)
Definition property_text (s : string) : bool := matches (replicate 36 (fun c => is_lower_hex c || is_char "-" c)) (to_lower s).

(** The instant is given as [toISOString] prints it. *)
Definition composeFinanceRevenueResponse (input : FinanceRevenueResponseInput) : exn FinanceRevenueResponse :=
  let c := revenueCurrency input in
  match parse_instant (revenueGeneratedAt input) with
  | Some generated =>
      if negb (property_text (revenuePropertyId input)) || negb (currency_code c) ||
         String.eqb (trim (revenueTimeZone input)) EmptyString
      then Throw "Finance revenue response scope is invalid"
      else
        let rows := roomRows (rooms input) in
        try! now := totals input Current in
        try! prior := totals input Comparison in
        try! (typeRows, typeGap) := room_types rows c in
        try! g := financeReportingMoneyMetric (totalGross now) (totalGross prior) c in
        try! o := financeReportingMoneyMetric (totalCommission now) (totalCommission prior) c in
        try! n := financeReportingMoneyMetric (totalNet now) (totalNet prior) c in
        try! u := financeReportingMoneyMetric (totalUpsell now) (totalUpsell prior) c in
        try! count := financeReportingCountMetric (totalNights now) (totalNights prior) in
        try! rate := financeReportingMoneyMetric (totalAdr now) (totalAdr prior) c in
        try! attach := financeReportingRatioMetric
          {| numerator := currentBookings (fulfilledBookings (addOns input)); denominator := currentBookings (eligibleBookings (rooms input)) |}
          {| numerator := comparisonBookings (fulfilledBookings (addOns input)); denominator := comparisonBookings (eligibleBookings (rooms input)) |} in
        try! channelRows := channels_of rows c in
        try! sourceRows := direct_sources rows c in
        try! upsellRows := upsells_of (addonRows (addOns input)) c in
        Ret {| revenueContract := "pms-financials.v1";
               reportPropertyId := to_lower (revenuePropertyId input);
               reportCurrency := c;
               reportTimeZone := revenueTimeZone input;
               reportGeneratedAt := to_iso_string generated;
               reportFreshness := freshness input;
               reportEvidence := (incomplete <$> roomGaps (rooms input)) ++ (incomplete <$> addonGaps (addOns input)) ++
                 (if typeGap =? 0 then []
                  else [{| evidenceCode := "room_type_occupancy_unavailable"; evidenceCount := typeGap;
                           evidenceAmount := None; evidenceCurrency := None |}]);
               revenueSummary := {| grossRoom := g; otaCommission := o; netRoom := n; upsell := u; nights := count;
                                    adr := rate; attachRate := attach |};
               channels := channelRows; directSources := sourceRows; upsells := upsellRows; roomTypes := typeRows |}
  | None => Throw "Finance revenue response scope is invalid"
  end.

End Composition.

(** * What a revenue report guarantees

    Channels, extras and room types split the totals without loss, and the shares
    of the channels are the nearest parts of the whole. *)

(** ** Sums of ordered maps *)

Definition map_sum {V} (f : V -> Z) (m : list (string * V)) : Z := sum_of (fun e => f (snd e)) m.

Lemma map_sum_set {V} (f : V -> Z) m k v :
  map_sum f (map_set m k v) = map_sum f m + f v - match map_get m k with Some w => f w | None => 0 end.
Proof.
  unfold map_sum. induction m as [|[k0 v0] m IH]; cbn [map_set map_get]; [cbn; lia|].
  destruct (String.eqb k0 k); rewrite !sum_of_cons; cbn [snd]; [lia|]. rewrite IH. lia.
Qed.

Section Grouped.
Context {R V : Type} (key : R -> string) (empty : V) (add : V -> R -> exn V) (f : V -> Z) (g : R -> Z).
Context (Hempty : f empty = 0) (Hadd : forall v r v', add v r = Ret v' -> f v' = f v + g r).

(** The groups of the rows add up to the rows. *)
Lemma group_sum rows : forall m m', group_rows key empty add rows m = Ret m' -> map_sum f m' = map_sum f m + sum_of g rows.
Proof.
  induction rows as [|r rows IH]; intros m m'; cbn [group_rows]; [intros [= <-]; cbn; lia|].
  intros (v & Hv & Hm)%exn_bind_Ret. apply IH in Hm as ->. apply Hadd in Hv. rewrite map_sum_set, sum_of_cons, Hv.
  destruct (map_get m (key r)); cbn; lia.
Qed.

(** A key's group adds up the rows of that key. *)
Lemma group_get rows k : forall m m', group_rows key empty add rows m = Ret m' ->
  f (default empty (map_get m' k)) = f (default empty (map_get m k)) + sum_of g (List.filter (fun r => String.eqb (key r) k) rows).
Proof.
  induction rows as [|r rows IH]; intros m m'; cbn [group_rows List.filter]; [intros [= <-]; cbn; lia|].
  intros (v & Hv & Hm)%exn_bind_Ret. apply IH in Hm as ->. apply Hadd in Hv. rewrite map_get_set.
  destruct (String.eqb_spec (key r) k) as [<-|]; [|done]. rewrite sum_of_cons. change (default empty (Some v)) with v.
  rewrite Hv. lia.
Qed.

Lemma grouped_names rows : forall m m', group_rows key empty add rows m = Ret m' -> NoDup m.*1 ->
  NoDup m'.*1 /\ forall k, k ∈ m'.*1 <-> k ∈ m.*1 \/ k ∈ key <$> rows.
Proof.
  induction rows as [|r rows IH]; intros m m'; cbn [group_rows]; [intros [= <-] Hn; split; [done | set_solver]|].
  intros (v & _ & Hm)%exn_bind_Ret Hn. apply IH in Hm as [Hn' Hk]; [|by apply map_set_NoDup]. split; [done|].
  intros k. rewrite Hk, map_set_keys, fmap_cons. case_decide; set_solver.
Qed.

(** The groups are one per key of the rows, each with the sum of its rows. *)
Lemma groups_exact rows m : group_rows key empty add rows [] = Ret m ->
  NoDup m.*1 /\ (forall k, k ∈ m.*1 <-> k ∈ key <$> rows) /\
  Forall (fun e => f (snd e) = sum_of g (List.filter (fun r => String.eqb (key r) (fst e)) rows)) m.
Proof.
  intros Hm. destruct (grouped_names _ _ _ Hm (NoDup_nil_2 (A := string))) as [Hn Hk]. split_and!; [done| |].
  - intros k. rewrite Hk. set_solver.
  - apply Forall_forall. intros [k v] Hin. apply (map_get_spec _ _ _ Hn) in Hin as E.
    pose proof (group_get rows k _ _ Hm) as Hg. rewrite E in Hg. change (f v = f empty + sum_of g (List.filter (fun r => String.eqb (key r) k) rows)) in Hg.
    cbn [fst snd]. rewrite Hg, Hempty. lia.
Qed.
End Grouped.

Lemma sumZ_fmap {A} (f : A -> Z) l : sumZ (f <$> l) = sum_of f l.
Proof. induction l as [|x l IH]; [done|]. by rewrite fmap_cons, sumZ_cons, IH, sum_of_cons. Qed.

Lemma units_inv s n : units s = Ret n -> unit_value s = n.
Proof.
  intros H. pose proof H as H'. unfold units, normalizeFinanceReportingDecimal in H'.
  apply exn_bind_Ret in H' as (d & Hd & _). apply exn_bind_Ret in Hd as (m & Hm & _).
  assert (Hr : reporting_decimal s = true) by (unfold decimalUnits in Hm; by destruct (reporting_decimal s)).
  rewrite units_value in H by done. by apply Ret_inj.
Qed.

Lemma sum_texts_inv values s : sum_texts values = Ret s -> s = decimal (sum_of unit_value values).
Proof.
  intros (n & Hn & [= <-])%exn_bind_Ret. f_equal. apply (exn_sum_inv _ unit_value) in Hn; [lia|]. intros x v. apply units_inv.
Qed.

Lemma metric_value a b c m : financeReportingMoneyMetric (decimal a) (decimal b) c = Ret m -> value m = money a c.
Proof.
  unfold financeReportingMoneyMetric. destruct (negb (currency_code c)); [done|]. rewrite !units_of_decimal. by intros [= <-].
Qed.

Lemma money_value_money n c : money_value (money n c) = n.
Proof. unfold money_value, unit_value, money. cbn [FinanceReporting.amount]. by rewrite units_of_decimal. Qed.

Lemma unit_value_decimal n : unit_value (decimal n) = n.
Proof. unfold unit_value. by rewrite units_of_decimal. Qed.

Lemma sum_of_money {A} (f : A -> Z) c l : sum_of (fun x => money_value (money (f x) c)) l = sum_of f l.
Proof. apply sum_of_ext. intros x _. apply money_value_money. Qed.

(** ** Shares *)

Lemma share_bounds part total : 0 <= part <= total -> 0 <= unit_value (share_of part total) <= 10000.
Proof.
  intros H. unfold share_of. rewrite unit_value_decimal. destruct (Z.eqb_spec total 0); [lia|].
  pose proof (roundDivide_mono (0 * total) (part * 10000) total ltac:(lia) ltac:(lia)) as H0.
  pose proof (roundDivide_mono (part * 10000) (10000 * total) total ltac:(lia) ltac:(lia)) as H1.
  rewrite roundDivide_exact in H0, H1 by lia. lia.
Qed.

Lemma positive_spec n : 0 <= positive n.
Proof. unfold positive. destruct (Z.ltb_spec 0 n); lia. Qed.

Lemma part_of_sum {A} (f : A -> Z) l x : (forall y, y ∈ l -> 0 <= f y) -> x ∈ l -> f x <= sum_of f l.
Proof.
  induction l as [|y l IH]; intros Hf Hx; [by apply elem_of_nil in Hx|]. rewrite sum_of_cons.
  assert (Hl : 0 <= sum_of f l).
  { clear Hx IH. induction l as [|z l IH]; [done|]. rewrite sum_of_cons.
    pose proof (Hf z ltac:(set_solver)). specialize (IH ltac:(set_solver)). lia. }
  pose proof (Hf y ltac:(set_solver)). apply elem_of_cons in Hx as [->|Hx]; [lia|].
  specialize (IH ltac:(set_solver) Hx). lia.
Qed.

(** A share is the nearest ten-thousandth, with two nearest ones the greater. *)
Lemma share_nearest part total : 0 <= part -> 0 < total ->
  let q := unit_value (share_of part total) in
  2 * Z.abs (total * q - 10000 * part) <= total /\ (2 * Z.abs (total * q - 10000 * part) = total -> 10000 * part < total * q).
Proof.
  intros Hp Ht. unfold share_of. rewrite unit_value_decimal, (proj2 (Z.eqb_neq total 0)) by lia. cbv zeta.
  destruct (roundDivide_nearest (part * 10000) total ltac:(lia)) as [H1 H2]. 
  set (q := roundDivide _ _) in *. rewrite (Z.mul_comm part) in *. split; [lia|]. intros E.
  assert (0 <= q) by nia. lia.
Qed.

(** The rounded shares of parts differ from the whole by at most half a unit each. *)
Lemma shares_sum {A} (part : A -> Z) l total : 0 < total -> 
  2 * Z.abs (total * sum_of (fun x => unit_value (share_of (part x) total)) l - 10000 * sum_of part l) <= total * Z.of_nat (length l).
Proof.
  intros Ht. induction l as [|x l IH]; [cbn; lia|]. rewrite !sum_of_cons. cbn [length].
  unfold share_of at 1. rewrite unit_value_decimal, (proj2 (Z.eqb_neq total 0)) by lia.
  destruct (roundDivide_nearest (part x * 10000) total ltac:(lia)) as [Hn _]. nia.
Qed.

(** ** Totals *)

Definition gross_value (r : FinanceRevenueRoomFact) : Z := unit_value (grossRoomAmount r).
Definition commission_value (r : FinanceRevenueRoomFact) : Z := unit_value (otaCommissionAmount r).
Definition addon_value (r : FinanceRevenueAddonFact) : Z := unit_value (revenueAmount r).

#[local] Ltac unbind H := let n := fresh "n" in let E := fresh "E" in apply exn_bind_Ret in H as (n & E & H).

Lemma totals_inv input p t : totals input p = Ret t ->
  let rs := rows_of p (roomRows (rooms input)) in
  totalGross t = decimal (sum_of gross_value rs) /\ totalCommission t = decimal (sum_of commission_value rs) /\
  totalNet t = decimal (sum_of gross_value rs - sum_of commission_value rs) /\
  totalUpsell t = decimal (sum_of addon_value (addons_of p (addonRows (addOns input)))) /\
  totalNights t = Z.max 0 (sum_of occupiedRoomNights rs) /\ exists n, totalAdr t = decimal n.
Proof.
  unfold totals. intros H. do 6 unbind H. apply Ret_inj in H as <-.
  cbn [totalGross totalCommission totalNet totalUpsell totalNights totalAdr].
  apply sum_texts_inv in E as ->, E0 as ->, E3 as ->. apply units_inv in E1 as <-, E2 as <-. rewrite !unit_value_decimal, !sum_of_fmap, sumZ_fmap.
  split_and!; try done. unfold divideFinanceReportingDecimal in E4. destruct (_ || _); [done|]. unbind E4.
  apply Ret_inj in E4 as <-. by eexists.
Qed.

Section Report.
Context `{Collation}.

Lemma by_name_sum {V} (f : V -> Z) (grouped : list (string * V)) : sum_of (fun e => f (snd e)) (by_name grouped) = map_sum f grouped.
Proof. apply sum_of_perm, sort_by_perm. Qed.

Lemma add_channel_inv v x v' : add_channel v x = Ret v' ->
  gross v' = gross v + gross_value x /\ commission v' = commission v + commission_value x.
Proof.
  unfold add_channel. intros Ha. do 2 unbind Ha. apply Ret_inj in Ha as <-. apply units_inv in E as <-, E0 as <-. done.
Qed.

Lemma group_channels_inv rows grouped : group_channels rows = Ret grouped ->
  map_sum gross grouped = sum_of gross_value (rows_of Current rows) /\
  map_sum commission grouped = sum_of commission_value (rows_of Current rows).
Proof.
  intros Hg. set (empty := {| gross := 0; commission := 0 |}). split.
  - by rewrite (group_sum channel empty add_channel gross gross_value eq_refl (fun v r v' H => proj1 (add_channel_inv v r v' H)) _ [] _ Hg).
  - by rewrite (group_sum channel empty add_channel commission commission_value eq_refl (fun v r v' H => proj2 (add_channel_inv v r v' H)) _ [] _ Hg).
Qed.

Lemma channels_inv rows c chs : channels_of rows c = Ret chs ->
  let rs := rows_of Current rows in
  sum_of (fun e => money_value (channelGross e)) chs = sum_of gross_value rs /\
  sum_of (fun e => money_value (channelCommission e)) chs = sum_of commission_value rs /\
  sum_of (fun e => money_value (channelNet e)) chs = sum_of gross_value rs - sum_of commission_value rs /\
  Forall (fun e => 0 <= unit_value (channelShare e) <= 10000) chs /\
  (Exists (fun e => 0 < money_value (channelGross e)) chs ->
   2 * Z.abs (sum_of (fun e => unit_value (channelShare e)) chs - 10000) <= Z.of_nat (length chs)).
Proof.
  intros (grouped & Hg & Hc)%exn_bind_Ret. apply Ret_inj in Hc as <-. cbv zeta. set (total := sumZ _).
  destruct (group_channels_inv rows grouped Hg) as [Hgross Hcomm].
  assert (Htotal : total = sum_of (fun e => positive (gross (snd e))) (by_name grouped)).
  { unfold total. rewrite sumZ_fmap. symmetry. apply sum_of_perm, sort_by_perm. }
  rewrite !sum_of_fmap. unfold channel_row. cbn [channelGross channelCommission channelNet channelShare].
  rewrite (sum_of_money (fun e => gross (snd e))), (sum_of_money (fun e => commission (snd e))), (sum_of_money (fun e => gross (snd e) - commission (snd e))).
  rewrite <- Hgross, <- Hcomm, <- !by_name_sum.
  split_and!; [done | done | | |].
  - rewrite <- (Z.add_opp_r (sum_of _ _)). assert (E : forall l : list (string * ChannelSums),
      sum_of (fun e => gross (snd e) - commission (snd e)) l = sum_of (fun e => gross (snd e)) l + - sum_of (fun e => commission (snd e)) l).
    { induction l as [|e l IH]; [done|]. rewrite !sum_of_cons, IH. lia. }
    apply E.
  - apply Forall_fmap, Forall_forall. intros e He. cbn. apply share_bounds. split; [apply positive_spec|]. rewrite Htotal.
    apply (part_of_sum (fun e => positive (gross (snd e)))); [intros; apply positive_spec | done].
  - intros (e & He & Hpos)%Exists_exists. apply list_elem_of_fmap in He as (x & -> & Hx). cbn in Hpos. rewrite money_value_money in Hpos.
    assert (Ht : 0 < total).
    { rewrite Htotal. pose proof (part_of_sum (fun e => positive (gross (snd e))) (by_name grouped) x ltac:(intros; apply positive_spec) Hx) as Hp.
      cbn in Hp. unfold positive at 1 in Hp. rewrite (proj2 (Z.ltb_lt _ _)) in Hp by done. lia. }
    pose proof (shares_sum (fun e => positive (gross (snd e))) (by_name grouped) total Ht) as Hs. rewrite <- Htotal in Hs.
    rewrite length_fmap. set (q := sum_of (fun e => unit_value _) _) in *.
    replace (total * q - 10000 * total) with (total * (q - 10000)) in Hs by lia. rewrite Z.abs_mul in Hs. nia.
Qed.

Lemma upsell_row_inv rows c o u : upsell_row rows c o = Ret u ->
  money_value (ownershipRevenue u) = sum_of addon_value (List.filter (fun r => ownership_eqb (ownership r) o) (addons_of Current rows)).
Proof.
  unfold upsell_row. intros (n & Hn & Hu)%exn_bind_Ret. apply Ret_inj in Hu as <-. cbn [ownershipRevenue]. rewrite money_value_money.
  unfold addons_of. rewrite filter_filter. apply (exn_sum_inv _ addon_value) in Hn; [lia|]. intros x v. apply units_inv.
Qed.

Lemma upsells_inv rows c ups : upsells_of rows c = Ret ups ->
  sum_of (fun e => money_value (ownershipRevenue e)) ups = sum_of addon_value (addons_of Current rows).
Proof.
  intros Hu%exn_traverse_inv. inversion Hu as [|? u1 ? ? H1 Hu']; subst. inversion Hu' as [|? u2 ? ? H2 Hu'']; subst.
  inversion Hu''; subst. apply upsell_row_inv in H1, H2. rewrite !sum_of_cons, H1, H2. cbn [sum_of foldr]. rewrite Z.add_0_r.
  pose proof (sum_of_parts addon_value (fun o r => ownership_eqb (ownership r) o) ownership [property; partner]
    (addons_of Current rows)) as E. rewrite !sum_of_cons in E. cbn [sum_of foldr] in E. rewrite Z.add_0_r in E. apply E.
  - apply NoDup_cons. split; [|apply NoDup_singleton]. by intros ?%list_elem_of_singleton.
  - intros r _. split; [destruct (ownership r); set_solver|]. intros o _. by destruct (ownership r), o.
Qed.

Lemma add_room_inv v x v' : add_room v x = Ret v' ->
  sumRevenue v' = sumRevenue v + gross_value x /\ sumNights v' = sumNights v + occupiedRoomNights x.
Proof. unfold add_room. intros Ha. unbind Ha. apply Ret_inj in Ha as <-. by apply units_inv in E as <-. Qed.

Lemma group_rooms_inv rows grouped : group_rooms rows = Ret grouped ->
  map_sum sumRevenue grouped = sum_of gross_value (rows_of Current rows) /\
  map_sum sumNights grouped = sum_of occupiedRoomNights (rows_of Current rows).
Proof.
  intros Hg. set (empty := {| sumRevenue := 0; sumNights := 0; sumPriced := 0 |}). split.
  - by rewrite (group_sum roomTypeId empty add_room sumRevenue gross_value eq_refl (fun v r v' H => proj1 (add_room_inv v r v' H)) _ [] _ Hg).
  - by rewrite (group_sum roomTypeId empty add_room sumNights occupiedRoomNights eq_refl (fun v r v' H => proj2 (add_room_inv v r v' H)) _ [] _ Hg).
Qed.

Lemma room_type_rows c es rts : Forall2 (fun e rt => room_type_row c e = Ret rt) es rts ->
  sum_of (fun rt => money_value (roomTypeRevenue rt)) rts = sum_of (fun e => sumRevenue (snd e)) es /\
  sum_of roomTypeNights rts = sum_of (fun e => sumNights (snd e)) es.
Proof.
  induction 1 as [|e rt es rts He _ [IH1 IH2]]; [done|]. unfold room_type_row in He. do 2 unbind He. apply Ret_inj in He as <-.
  rewrite !sum_of_cons, IH1, IH2. cbn [roomTypeRevenue roomTypeNights]. by rewrite money_value_money.
Qed.

Lemma room_types_inv rows c rts gap : room_types rows c = Ret (rts, gap) -> gap = 0 ->
  sum_of (fun rt => money_value (roomTypeRevenue rt)) rts = sum_of gross_value (rows_of Current rows) /\
  sum_of roomTypeNights rts = sum_of occupiedRoomNights (rows_of Current rows) /\
  0 <= sum_of occupiedRoomNights (rows_of Current rows).
Proof.
  unfold room_types. intros (grouped & Hg & H0)%exn_bind_Ret Hgap. destruct (group_rooms_inv rows grouped Hg) as [Hr Hn].
  set (bad := List.filter _ grouped) in *. destruct (Z.eqb_spec (Z.of_nat (length bad)) 0) as [E|E]; cbn [negb] in H0.
  2: { apply Ret_inj in H0. injection H0 as _ H0. lia. }
  apply exn_bind_Ret in H0 as (rs & Hrs%exn_traverse_inv & H0). apply Ret_inj in H0. injection H0 as -> _.
  apply room_type_rows in Hrs as [-> ->]. rewrite !by_name_sum. split_and!; [done | done |]. rewrite <- Hn.
  assert (Hall : forall e, e ∈ grouped -> 0 <= sumNights (snd e)).
  { intros e He. destruct (Z_lt_le_dec (sumNights (snd e)) 0) as [Hlt|]; [|done]. exfalso.
    assert (Hb : e ∈ bad) by (apply elem_of_bfilter; split; [done | by apply Z.ltb_lt]).
    destruct bad; [by apply elem_of_nil in Hb | cbn in E; lia]. }
  clear -Hall. unfold map_sum. induction grouped as [|e l IH]; [done|]. rewrite sum_of_cons.
  pose proof (Hall e ltac:(by left)). specialize (IH ltac:(intros x Hx; apply Hall; by right)). lia.
Qed.

(** The channel's row of a report: what the current rows sold through it, and its share
    of what the channels with revenue sold, the nearest ten-thousandth of the whole. *)
Definition channel_exact (rows : list FinanceRevenueRoomFact) (whole : Z) (e : ChannelRevenue) : Prop :=
  let mine := List.filter (fun r => String.eqb (channel r) (channelName e)) rows in
  let part := Z.max 0 (sum_of gross_value mine) in
  let share := unit_value (channelShare e) in
  money_value (channelGross e) = sum_of gross_value mine /\
  money_value (channelCommission e) = sum_of commission_value mine /\
  money_value (channelNet e) = sum_of gross_value mine - sum_of commission_value mine /\
  (whole = 0 -> share = 0) /\
  (0 < whole -> 2 * Z.abs (whole * share - 10000 * part) <= whole /\
                (2 * Z.abs (whole * share - 10000 * part) = whole -> 10000 * part < whole * share)).

Lemma positive_max n : positive n = Z.max 0 n.
Proof. unfold positive. destruct (Z.ltb_spec 0 n); lia. Qed.

Lemma channels_exact rows c chs : channels_of rows c = Ret chs ->
  NoDup (channelName <$> chs) /\ (forall k, k ∈ channelName <$> chs <-> k ∈ channel <$> rows_of Current rows) /\
  Forall (channel_exact (rows_of Current rows) (sum_of (fun e => Z.max 0 (money_value (channelGross e))) chs)) chs.
Proof.
  intros (grouped & Hg & Hc)%exn_bind_Ret. apply Ret_inj in Hc as <-. set (total := sumZ _).
  set (empty := {| gross := 0; commission := 0 |}) in *.
  destruct (groups_exact channel empty add_channel gross gross_value eq_refl (fun v r v' H => proj1 (add_channel_inv v r v' H)) _ _ Hg)
    as (Hn & Hk & Hgross).
  destruct (groups_exact channel empty add_channel commission commission_value eq_refl (fun v r v' H => proj2 (add_channel_inv v r v' H)) _ _ Hg)
    as (_ & _ & Hcomm).
  assert (En : channelName <$> (channel_row total c <$> by_name grouped) ≡ₚ grouped.*1).
  { rewrite <- list_fmap_compose. apply fmap_Permutation, sort_by_perm. }
  split_and!; [by rewrite En | intros k; by rewrite En|].
  assert (Ew : sum_of (fun e => Z.max 0 (money_value (channelGross e))) (channel_row total c <$> by_name grouped) = total).
  { rewrite sum_of_fmap. unfold total. rewrite sumZ_fmap. transitivity (sum_of (fun e => positive (gross (snd e))) (by_name grouped)).
    - apply sum_of_ext. intros e _. cbn. by rewrite money_value_money, positive_max.
    - apply sum_of_perm, sort_by_perm. }
  rewrite Ew. apply Forall_fmap, Forall_forall. intros e He. unfold by_name in He. rewrite sort_by_perm in He. rewrite Forall_forall in Hgross, Hcomm.
  specialize (Hgross e He). specialize (Hcomm e He). unfold channel_exact, compose, channel_row.
  cbn [channelName channelGross channelCommission channelNet channelShare]. rewrite !money_value_money, <- Hgross, <- Hcomm.
  split_and!; [done..| |].
  - intros ->. unfold share_of. rewrite unit_value_decimal. done.
  - intros Ht. rewrite <- positive_max. apply share_nearest; [apply positive_spec | done].
Qed.

(** C21: a revenue report adds up: over the channels, gross, commission and net are the
    totals of the summary, net is gross less commission, the extras of both kinds
    are the extras of the summary, and the room types, where they are available,
    have its revenue and nights.  The channels are those of the current rows, each
    once, with the amounts of its own rows; the share of a channel is its gross, or
    nothing when that is negative, over the sum of those parts, to the nearest
    ten-thousandth and of two nearest the greater.  So the shares lie between nothing
    and all, and together are at most half a ten-thousandth off the whole for each
    channel. *)
Theorem revenue_report_adds_up input r : composeFinanceRevenueResponse input = Ret r ->
  let s := revenueSummary r in
  let rows := rows_of Current (roomRows (rooms input)) in
  let whole := sum_of (fun e => Z.max 0 (money_value (channelGross e))) (channels r) in
  sum_of (fun e => money_value (channelGross e)) (channels r) = money_value (value (grossRoom s)) /\
  sum_of (fun e => money_value (channelCommission e)) (channels r) = money_value (value (otaCommission s)) /\
  sum_of (fun e => money_value (channelNet e)) (channels r) = money_value (value (netRoom s)) /\
  money_value (value (netRoom s)) = money_value (value (grossRoom s)) - money_value (value (otaCommission s)) /\
  sum_of (fun e => money_value (ownershipRevenue e)) (upsells r) = money_value (value (upsell s)) /\
  (roomTypes r <> [] ->
   sum_of (fun e => money_value (roomTypeRevenue e)) (roomTypes r) = money_value (value (grossRoom s)) /\
   sum_of roomTypeNights (roomTypes r) = countValue (nights s)) /\
  NoDup (channelName <$> channels r) /\
  (forall name, name ∈ channelName <$> channels r <-> name ∈ channel <$> rows) /\
  Forall (channel_exact rows whole) (channels r) /\
  Forall (fun e => 0 <= unit_value (channelShare e) <= 10000) (channels r) /\
  (Exists (fun e => 0 < money_value (channelGross e)) (channels r) ->
   2 * Z.abs (sum_of (fun e => unit_value (channelShare e)) (channels r) - 10000) <= Z.of_nat (length (channels r))).
Proof.
  unfold composeFinanceRevenueResponse. destruct (parse_instant _) as [t|]; [|done]. destruct (_ || _); [done|].
  intros Hr. unbind Hr. unbind Hr. apply exn_bind_Ret in Hr as ([rts gap] & Ert & Hr). do 10 unbind Hr.
  apply Ret_inj in Hr as <-. cbv zeta.
  cbn [revenueSummary channels upsells roomTypes grossRoom otaCommission netRoom upsell nights].
  destruct (totals_inv _ _ _ E) as (T1 & T2 & T3 & T4 & T5 & _). destruct (totals_inv _ _ _ E0) as (P1 & P2 & P3 & P4 & P5 & _).
  rewrite T1, P1 in E1. rewrite T2, P2 in E2. rewrite T3, P3 in E3. rewrite T4, P4 in E4.
  apply metric_value in E1 as ->, E2 as ->, E3 as ->, E4 as ->. rewrite !money_value_money.
  destruct (channels_inv _ _ _ E8) as (C1 & C2 & C3 & C4 & C5).
  destruct (channels_exact _ _ _ E8) as (X1 & X2 & X3). split_and!; try done.
  - by apply upsells_inv in E10.
  - intros Hne. unfold financeReportingCountMetric in E5. do 2 unbind E5. apply Ret_inj in E5 as <-. cbn [countValue].
    assert (gap = 0) as Hgap.
    { unfold room_types in Ert. apply exn_bind_Ret in Ert as (grouped & _ & Ert). destruct (negb _).
      - apply Ret_inj in Ert. by injection Ert as <-.
      - apply exn_bind_Ret in Ert as (? & _ & Ert). apply Ret_inj in Ert. by injection Ert. }
    destruct (room_types_inv _ _ _ _ Ert Hgap) as (R1 & R2 & R3). split; [done|]. rewrite T5. lia.
Qed.
End Report.
