(* ===== verification/Dashboard.v ===== *)
(** * The finance dashboard

    apps/api/src/domains/financeDashboardResponse.ts: the cards, the daily figures
    and the upcoming expenses of a day, from the facts of its periods. *)

From S2P Require Import Prelude JsValue JsonText CalendarDates Money FolioDecimals FinanceFolios FolioCsv FinanceReporting ProfitLoss ProfitLossCsv RevenueReport.

(** ** Data *)

Record DailyExpense := { expenseDate : string; dailyAmount : string }.

Record UpcomingExpense := {
  upcomingDate : string;
  upcomingKind : string;
  upcomingAmount : string;
  upcomingPredicted : bool
}.

Record FinanceDashboardExpenseFacts := {
  currentTotal : string;
  comparisonTotal : string;
  dailyExpenses : list DailyExpense;
  upcomingExpenses : list UpcomingExpense;
  expenseFreshness : list (string * option string);
  expenseGaps : list Gap
}.

Record FinanceDashboardResponseInput := {
  dashboardPropertyId : string;
  dashboardCurrency : string;
  dashboardTimeZone : string;
  dashboardGeneratedAt : string;
  dashboardFreshness : list (string * option string);
  dashboardPeriods : DashboardPeriods;
  dashboardRooms : FinanceRevenueRoomFacts;
  dashboardAddOns : FinanceRevenueAddonFacts;
  dashboardExpenses : FinanceDashboardExpenseFacts
}.

Record Cards := {
  revenueToday : FinanceReportingMoneyMetric;
  revenueMtd : FinanceReportingMoneyMetric;
  expensesMtd : FinanceReportingMoneyMetric;
  profitMtd : FinanceReportingMoneyMetric
}.

Record DailyFigures := { dayDate : string; dayRevenue : FinanceReportingMoney; dayExpenses : FinanceReportingMoney }.

Record UpcomingItem := {
  itemDate : string;
  itemKind : string;
  itemAmount : FinanceReportingMoney;
  itemPredicted : bool
}.

Record FinanceDashboardResponse := {
  dashboardContract : string;
  responsePropertyId : string;
  dashboardMoney : string;
  responseTimeZone : string;
  responseGeneratedAt : string;
  responseFreshness : list (string * string);
  responseEvidence : list FinanceReportingIncompleteEvidence;
  cards : Cards;
  dailyFigures : list DailyFigures;
  upcoming : list UpcomingItem
}.

(** ** Periods *)

Definition same (left right : FinanceReportingRange) : bool :=
  String.eqb (from left) (from right) && String.eqb (to left) (to right).

Definition validPeriods (p : DashboardPeriods) : bool :=
  match financeDashboardPeriods (to (current (today p))) with
  | Ret expected =>
      same (current (today p)) (current (today expected)) &&
      same (comparison (today p)) (comparison (today expected)) &&
      same (current (monthToDate p)) (current (monthToDate expected)) &&
      same (comparison (monthToDate p)) (comparison (monthToDate expected)) &&
      same (daily p) (daily expected)
  | Throw _ => false
  end.

(** The loop over the midnights of a range, both ends included *)
Definition dates (r : FinanceReportingRange) : list string :=
  iso_date <$> seqZ (dateValue (from r)) (dateValue (to r) - dateValue (from r) + 1).

(** ** Sums *)

Definition in_range (r : FinanceReportingRange) (date : string) : bool :=
  str_le (from r) date && str_le date (to r).

Definition range_revenue (input : FinanceDashboardResponseInput) (r : FinanceReportingRange) : exn string :=
  try! room := exn_sum (fun x => units (grossRoomAmount x))
                 (List.filter (fun x => in_range r (roomRecognizedOn x)) (roomRows (dashboardRooms input))) 0 in
  try! addOn := exn_sum (fun x => units (revenueAmount x))
                  (List.filter (fun x => in_range r (addonRecognizedOn x)) (addonRows (dashboardAddOns input))) 0 in
  Ret (decimal (room + addOn)).

Record Compared := { comparedCurrent : string; comparedPrior : string }.

Definition comparisonRevenue (input : FinanceDashboardResponseInput) (p : FinanceReportingComparison) : exn Compared :=
  try! c := range_revenue input (current p) in
  try! k := range_revenue input (comparison p) in
  Ret {| comparedCurrent := c; comparedPrior := k |}.

Definition text_money (v c : string) : exn FinanceReportingMoney :=
  try! n := normalizeFinanceReportingDecimal v in
  Ret {| FinanceReporting.amount := n; FinanceReporting.currency := c |}.

Definition subtract (left right : string) : exn string :=
  try! a := units left in
  try! b := units right in
  Ret (decimal (a - b)).

Definition dashboard_freshness (input : FinanceDashboardResponseInput) : list (string * string) :=
  known_fields (merge_fields (merge_fields (merge_fields (merge_fields [] (dashboardFreshness input))
    (roomFreshness (dashboardRooms input))) (addonFreshness (dashboardAddOns input))) (expenseFreshness (dashboardExpenses input))).

(** ** The composition *)

Definition daily_figures (input : FinanceDashboardResponseInput) (row : DailyExpense) : exn DailyFigures :=
  let day := {| from := expenseDate row; to := expenseDate row |} in
  try! r := range_revenue input day in
  try! m := text_money r (dashboardCurrency input) in
  try! e := text_money (dailyAmount row) (dashboardCurrency input) in
  Ret {| dayDate := expenseDate row; dayRevenue := m; dayExpenses := e |}.

Definition upcoming_item (c : string) (row : UpcomingExpense) : exn UpcomingItem :=
  try! m := text_money (upcomingAmount row) c in
  Ret {| itemDate := upcomingDate row; itemKind := upcomingKind row; itemAmount := m; itemPredicted := upcomingPredicted row |}.

(** The instant is given as [toISOString] prints it. *)
Definition composeFinanceDashboardResponse (input : FinanceDashboardResponseInput) : exn FinanceDashboardResponse :=
  let c := dashboardCurrency input in
  match parse_instant (dashboardGeneratedAt input) with
  | Some generated =>
      if negb (any_case_uuid (dashboardPropertyId input)) || negb (currency_code c) ||
         String.eqb (trim (dashboardTimeZone input)) EmptyString
      then Throw "Finance Dashboard response scope is invalid"
      else if negb (validPeriods (dashboardPeriods input)) then Throw "Finance Dashboard response periods are invalid"
      else
        try! day := comparisonRevenue input (today (dashboardPeriods input)) in
        try! month := comparisonRevenue input (monthToDate (dashboardPeriods input)) in
        try! spent := normalizeFinanceReportingDecimal (currentTotal (dashboardExpenses input)) in
        try! spentBefore := normalizeFinanceReportingDecimal (comparisonTotal (dashboardExpenses input)) in
        if negb (bool_decide (expenseDate <$> dailyExpenses (dashboardExpenses input) = dates (daily (dashboardPeriods input))))
        then Throw "Finance Dashboard daily expense facts are incomplete"
        else
          try! t := financeReportingMoneyMetric (comparedCurrent day) (comparedPrior day) c in
          try! m := financeReportingMoneyMetric (comparedCurrent month) (comparedPrior month) c in
          try! e := financeReportingMoneyMetric spent spentBefore c in
          try! profit := subtract (comparedCurrent month) spent in
          try! profitBefore := subtract (comparedPrior month) spentBefore in
          try! p := financeReportingMoneyMetric profit profitBefore c in
          try! days := exn_traverse (daily_figures input) (dailyExpenses (dashboardExpenses input)) in
          try! items := exn_traverse (upcoming_item c) (upcomingExpenses (dashboardExpenses input)) in
          Ret {| dashboardContract := "pms-financials.v1";
                 responsePropertyId := to_lower (dashboardPropertyId input);
                 dashboardMoney := c;
                 responseTimeZone := dashboardTimeZone input;
                 responseGeneratedAt := to_iso_string generated;
                 responseFreshness := dashboard_freshness input;
                 responseEvidence := incomplete <$> (roomGaps (dashboardRooms input) ++ addonGaps (dashboardAddOns input) ++
                                                     expenseGaps (dashboardExpenses input));
                 cards := {| revenueToday := t; revenueMtd := m; expensesMtd := e; profitMtd := p |};
                 dailyFigures := days;
                 upcoming := items |}
  | None => Throw "Finance Dashboard response scope is invalid"
  end.

(** * The dashboard export

    packages/domain-finance/src/financialDashboardCsv.ts: the CSV document of a
    dashboard that is checked again. *)

Definition FINANCE_DASHBOARD_CSV_COLUMNS : list string :=
  ["property_id"; "as_of"; "row_type"; "date"; "metric"; "kind"; "value"; "currency"; "absolute_change"; "percent_change";
   "predicted"].

Record FinanceDashboardCsvArtifact := {
  csvProperty : string;
  csvMoney : string;
  csvAsOf : string;
  csvGeneratedAt : string;
  csvFilename : string;
  csvRowCount : nat;
  csvBody : string
}.

(** ** Checks *)

(** An instant of seconds and up to three more digits, [YYYY-MM-DDThh:mm:ss(.s)Z],
    that prints back its seconds *)
Definition utc_text (s : string) : bool :=
  match split_at 19 s with
  | Some (head, rest) =>
      match milliseconds rest with
      | Some ms =>
          (str_length rest <=? 5) &&
          match parse_instant (head +:+ "." +:+ ms +:+ "Z") with
          | Some t => String.eqb (substring 0 19 (to_iso_string t)) head
          | None => false
          end
      | None => false
      end
  | None => false
  end.

Definition label (s : string) : bool :=
  String.eqb (trim s) s && (0 <? str_length s) && (str_length s <=? 200).

Definition valid_money (m : FinanceReportingMoney) (c : string) : bool :=
  String.eqb (FinanceReporting.currency m) c && four_decimals (FinanceReporting.amount m).

Definition valid_percent (o : option string) : bool := match o with Some p => four_decimals p | None => true end.

Definition valid_metric (c : string) (m : FinanceReportingMoneyMetric) : bool :=
  valid_money (value m) c && valid_money (absoluteChange m) c && valid_percent (percentChange m).

Definition valid_day (c : string) (d : DailyFigures) (expected : string) : bool :=
  String.eqb (dayDate d) expected && valid_money (dayRevenue d) c && valid_money (dayExpenses d) c.

Fixpoint valid_days (c : string) (days : list DailyFigures) (expected : list string) : bool :=
  match days, expected with
  | [], [] => true
  | d :: days, e :: expected => valid_day c d e && valid_days c days expected
  | _, _ => false
  end.

(** The items, each not before the day [previous] *)
Fixpoint valid_items (c previous : string) (items : list UpcomingItem) : bool :=
  match items with
  | [] => true
  | i :: rest =>
      FinanceReporting.localDate (itemDate i) && str_le previous (itemDate i) && label (itemKind i) &&
      valid_money (itemAmount i) c && valid_items c (itemDate i) rest
  end.

(** The window of days, or a [TypeError] when the periods of the day fail *)
Definition validDashboard (response : FinanceDashboardResponse) (asOf : string) : exn bool :=
  let c := dashboardMoney response in
  try! periods := financeDashboardPeriods asOf in
  let start := dateValue (from (daily periods)) in
  Ret (forallb (valid_metric c)
         [revenueToday (cards response); revenueMtd (cards response); expensesMtd (cards response); profitMtd (cards response)] &&
       valid_days c (dailyFigures response) (iso_date <$> seqZ start FINANCE_DASHBOARD_WINDOW_DAYS) &&
       valid_items c asOf (upcoming response)).

(** ** The document *)

Section DashboardExport.
Context `{ZoneCatalogue, LocalClock}.

Definition exported_day (instant zone : string) (requested : option string) : option string :=
  guard? utc_text instant && canonicalTimeZone zone in
  let? day := local_day instant zone in
  let asOf := default day requested in
  guard? FinanceReporting.localDate asOf in
  Some asOf.

Definition dashboard_query (requested : option string) : jsval :=
  match requested with Some s => obj [("asOf", VString s)] | None => obj [] end.

Section Lines.
Context (response : FinanceDashboardResponse) (asOf : string).

(** [add(type, date, metric, kind, value, change, percent, predicted)] *)
Definition dashboard_line (type date metric kind v changed percent predicted : string) : list string :=
  [responsePropertyId response; asOf; type; date; metric; kind; v; dashboardMoney response; changed; percent; predicted].

Definition card_row (key : string) (m : FinanceReportingMoneyMetric) : list string :=
  dashboard_line "card" asOf key "" (FinanceReporting.amount (value m)) (FinanceReporting.amount (absoluteChange m))
    (default EmptyString (percentChange m)) "".

Definition day_rows (d : DailyFigures) : list (list string) :=
  [dashboard_line "daily" (dayDate d) "revenue" "" (FinanceReporting.amount (dayRevenue d)) "" "" "";
   dashboard_line "daily" (dayDate d) "expenses" "" (FinanceReporting.amount (dayExpenses d)) "" "" ""].

Definition item_row (i : UpcomingItem) : list string :=
  dashboard_line "upcoming" (itemDate i) "amount" (itemKind i) (FinanceReporting.amount (itemAmount i)) "" ""
    (if itemPredicted i then "true" else "false").

Definition dashboard_rows : list (list string) :=
  [card_row "revenueToday" (revenueToday (cards response)); card_row "revenueMtd" (revenueMtd (cards response));
   card_row "expensesMtd" (expensesMtd (cards response)); card_row "profitMtd" (profitMtd (cards response))] ++
  mjoin (day_rows <$> dailyFigures response) ++ (item_row <$> upcoming response).
End Lines.

Definition dashboard_invalid : string := "Dashboard CSV read contract is invalid".

Definition buildFinanceDashboardCsvArtifact (property : string) (response : FinanceDashboardResponse)
    (requested : option string) : exn FinanceDashboardCsvArtifact :=
  let asOf :=
    let? q := parseFinanceDashboardQuery (dashboard_query requested) in
    exported_day (responseGeneratedAt response) (responseTimeZone response) q in
  match asOf with
  | None => Throw dashboard_invalid
  | Some asOf =>
      if negb (matches UUID (responsePropertyId response)) || negb (String.eqb (responsePropertyId response) property) ||
         negb (String.eqb (dashboardContract response) "pms-financials.v1") || negb (currency_code (dashboardMoney response))
      then Throw dashboard_invalid
      else
        try! valid := validDashboard response asOf in
        if negb valid then Throw dashboard_invalid
        else
          let rows := dashboard_rows response asOf in
          Ret {| csvProperty := responsePropertyId response;
                 csvMoney := dashboardMoney response;
                 csvAsOf := asOf;
                 csvGeneratedAt := responseGeneratedAt response;
                 csvFilename := "pms-financials-dashboard-" +:+ responsePropertyId response +:+ "-" +:+ asOf +:+ ".csv";
                 csvRowCount := length rows;
                 csvBody := join crlf (financeCsvRow <$> FINANCE_DASHBOARD_CSV_COLUMNS :: rows) +:+ crlf |}
  end.
End DashboardExport.
