(* ===== verification/DashboardGuarantees.v ===== *)
(** * What a dashboard guarantees

    Every composed dashboard passes the check of its export, and the cards agree
    with each other and with the daily figures. *)

From S2P Require Import Prelude JsValue JsonText CalendarDates Money FolioDecimals FinanceFolios FolioCsv FinanceReporting ProfitLoss ProfitLossGuarantees ProfitLossCsv RevenueReport Dashboard.

#[local] Ltac unbind H := let n := fresh "n" in let E := fresh "E" in apply exn_bind_Ret in H as (n & E & H).

(** ** Checked texts *)

Lemma four_decimals_decimal n : four_decimals (decimal n) = true.
Proof.
  pose proof (money_units n "") as H. unfold profitLossMoneyUnits, money in H.
  cbn [FinanceReporting.amount FinanceReporting.currency] in H. rewrite String.eqb_refl in H. by destruct (four_decimals _).
Qed.

Lemma money_valid n c : valid_money (money n c) c = true.
Proof. unfold valid_money, money. cbn. by rewrite String.eqb_refl, four_decimals_decimal. Qed.

Lemma change_valid n k : valid_percent (change n k) = true.
Proof. unfold change. destruct (k =? 0); [done|]. apply four_decimals_decimal. Qed.

Lemma metric_valid a b c m : financeReportingMoneyMetric (decimal a) (decimal b) c = Ret m ->
  valid_metric c m = true /\ money_value (value m) = a /\ money_value (absoluteChange m) = a - b.
Proof.
  unfold financeReportingMoneyMetric. destruct (negb (currency_code c)); [done|]. rewrite !units_of_decimal. intros [= <-].
  unfold valid_metric. cbn [value absoluteChange percentChange]. rewrite !money_valid, change_valid, !money_value_money. done.
Qed.

Lemma normalized_inv s d : normalizeFinanceReportingDecimal s = Ret d -> d = decimal (unit_value s).
Proof.
  unfold normalizeFinanceReportingDecimal, unit_value. intros (n & -> & Hd)%exn_bind_Ret. by apply Ret_inj in Hd as <-.
Qed.

Lemma text_money_inv v c m : text_money v c = Ret m -> valid_money m c = true /\ money_value m = unit_value v.
Proof.
  unfold text_money. intros (d & ->%normalized_inv & Hm)%exn_bind_Ret. apply Ret_inj in Hm as <-.
  change {| FinanceReporting.amount := decimal (unit_value v); FinanceReporting.currency := c |} with (money (unit_value v) c).
  by rewrite money_valid, money_value_money.
Qed.

(** An instant of four-digit years is printed as the export reads instants. *)
Lemma milliseconds_print k : 0 <= k < 1000 -> milliseconds (String "." (pad3 k +:+ "Z")) = Some (pad3 k).
Proof.
  intros Hk. unfold milliseconds. cbv [pad3 pad2 String.append]. cbn [strip_prefix]. change (Ascii.eqb "." ".") with true. cbv iota.
  cbn [span_digits]. rewrite !is_digit_char by div_lia. done.
Qed.

Lemma utc_text_print t : four_digit_instant t -> utc_text (to_iso_string t) = true.
Proof.
  intros Ht. pose proof (parse_instant_print t Ht) as Hp. destruct (iso_string_parts t Ht) as (head & k & Hk & Hl & E).
  unfold utc_text. rewrite E, <- Hl, split_at_app, milliseconds_print by done.
  change (str_length (String "." (pad3 k +:+ "Z")) <=? 5) with true.
  cbn [andb]. change ("." +:+ ?x) with (String "." x). rewrite <- E, Hp, E, substring_prefix. apply String.eqb_refl.
Qed.

(** ** Periods *)

Lemma formatDate_inv n s : formatDate n = Ret s -> s = iso_date n /\ FinanceReporting.localDate s = true.
Proof. unfold formatDate. destruct (FinanceReporting.localDate (iso_date n)) eqn:E; [|done]. by intros [= <-]. Qed.

Lemma dashboard_window asOf p : financeDashboardPeriods asOf = Ret p ->
  FinanceReporting.localDate asOf = true /\ current (today p) = {| from := asOf; to := asOf |} /\
  daily p = {| from := iso_date (dateValue asOf - 13); to := asOf |} /\
  FinanceReporting.localDate (iso_date (dateValue asOf - 13)) = true.
Proof.
  unfold financeDashboardPeriods. destruct (FinanceReporting.localDate asOf) eqn:Ha; [|done]. cbn [negb]. intros H. do 5 unbind H.
  apply Ret_inj in H as <-. cbn [today current daily]. unfold shiftDate in E3.
  change (1 - FINANCE_DASHBOARD_WINDOW_DAYS) with (-13) in E3. replace (dateValue asOf + -13) with (dateValue asOf - 13) in E3 by lia.
  by apply formatDate_inv in E3 as [-> E3].
Qed.

Lemma same_eq a b : same a b = true -> a = b.
Proof. destruct a, b. unfold same. cbn. by intros [->%String.eqb_eq ->%String.eqb_eq]%andb_true_iff. Qed.

Lemma valid_periods_inv p : validPeriods p = true -> exists expected,
  financeDashboardPeriods (to (current (today p))) = Ret expected /\ today p = today expected /\
  monthToDate p = monthToDate expected /\ daily p = daily expected.
Proof.
  unfold validPeriods. destruct (financeDashboardPeriods _) as [e|]; [|done]. rewrite !andb_true_iff.
  intros [[[[H1 H2] H3] H4] H5]. apply same_eq in H1, H2, H3, H4, H5. exists e. destruct p as [[] [] ?], e as [[] [] ?].
  cbn in *. by subst.
Qed.

(** The window of a day: fourteen dates ending with it *)
Definition window (asOf : string) : list string := iso_date <$> seqZ (dateValue asOf - 13) 14.

Lemma window_dates asOf p : financeDashboardPeriods asOf = Ret p ->
  dates (daily p) = window asOf /\ dateValue (from (daily p)) = dateValue asOf - 13.
Proof.
  intros (_ & _ & -> & Hs)%dashboard_window. cbn [from]. destruct (local_date_day _ Hs) as [_ Hd].
  assert (E : dateValue (iso_date (dateValue asOf - 13)) = dateValue asOf - 13).
  { destruct (decide (four_digit_day (dateValue asOf - 13))) as [H4|H4]; [by apply date_parse_iso_date|]. exfalso.
    apply localDate_spec in Hs as (y & m & d & Ht & Hy & Hv). apply iso_date_text_inv in Ht; [|pose proof (valid_civil_small _ _ _ Hv); lia..].
    pose proof (make_day_of_civil (dateValue asOf - 13)) as Hc. rewrite Ht in Hc. destruct Hc as [_ Hc].
    pose proof (report_day_of y m d Hy Hv) as Hr. rewrite Hc in Hr. by apply H4, report_day_four_digit. }
  split; [|done]. unfold dates, window. cbn [from to]. rewrite E. do 2 f_equal. lia.
Qed.

Lemma valid_days_of input rows days : Forall2 (fun row d => daily_figures input row = Ret d) rows days ->
  valid_days (dashboardCurrency input) days (expenseDate <$> rows) = true.
Proof.
  induction 1 as [|row d rows days Hd _ IH]; [done|]. rewrite fmap_cons. cbn [valid_days]. rewrite IH, andb_true_r.
  unfold daily_figures in Hd. do 3 unbind Hd. apply Ret_inj in Hd as <-. unfold valid_day. cbn [dayDate dayRevenue dayExpenses].
  rewrite String.eqb_refl. apply text_money_inv in E0 as [-> _], E1 as [-> _]. done.
Qed.

(** The upcoming facts are dated in order, not before the day, and labelled. *)
Fixpoint upcoming_ok (previous : string) (rows : list UpcomingExpense) : bool :=
  match rows with
  | [] => true
  | r :: rest =>
      FinanceReporting.localDate (upcomingDate r) && str_le previous (upcomingDate r) && label (upcomingKind r) &&
      upcoming_ok (upcomingDate r) rest
  end.

Lemma valid_items_of c rows items : Forall2 (fun r i => upcoming_item c r = Ret i) rows items ->
  forall previous, valid_items c previous items = upcoming_ok previous rows.
Proof.
  induction 1 as [|r i rows items Hi _ IH]; intros previous; [done|]. cbn [upcoming_ok valid_items].
  unfold upcoming_item in Hi. unbind Hi. apply Ret_inj in Hi as <-.
  cbn [itemDate itemKind itemAmount]. apply text_money_inv in E as [-> _]. by rewrite IH, andb_true_r.
Qed.

(** ** Dashboards *)

Lemma range_revenue_inv input r s : range_revenue input r = Ret s -> exists n, s = decimal n.
Proof. unfold range_revenue. intros H. do 2 unbind H. apply Ret_inj in H as <-. by eexists. Qed.

Lemma compared_inv input p k : comparisonRevenue input p = Ret k -> range_revenue input (current p) = Ret (comparedCurrent k) /\
  exists a b, comparedCurrent k = decimal a /\ comparedPrior k = decimal b.
Proof.
  unfold comparisonRevenue. intros H. do 2 unbind H. apply Ret_inj in H as <-. cbn [comparedCurrent comparedPrior].
  split; [done|]. apply range_revenue_inv in E as [a ->], E0 as [b ->]. by exists a, b.
Qed.

Lemma subtract_inv a b s : subtract (decimal a) (decimal b) = Ret s -> s = decimal (a - b).
Proof. unfold subtract. rewrite !units_decimal. by intros [= <-]. Qed.

Lemma daily_revenue input rows days i d : Forall2 (fun row d => daily_figures input row = Ret d) rows days ->
  days !! i = Some d -> exists s, range_revenue input {| from := dayDate d; to := dayDate d |} = Ret s /\
    money_value (dayRevenue d) = unit_value s.
Proof.
  intros Hf Hd. destruct (Forall2_lookup_r _ _ _ _ _ Hf Hd) as (row & _ & Hrow). unfold daily_figures in Hrow.
  do 3 unbind Hrow. apply Ret_inj in Hrow as <-. cbn [dayDate dayRevenue]. apply text_money_inv in E0 as [_ E0]. by exists n.
Qed.

Lemma window_last asOf : FinanceReporting.localDate asOf = true -> window asOf !! 13%nat = Some asOf.
Proof.
  intros Ha. destruct (local_date_day asOf Ha) as [_ Hd]. unfold window. rewrite list_lookup_fmap, lookup_seqZ_lt by lia.
  cbn [fmap option_fmap option_map]. replace (dateValue asOf - 13 + Z.of_nat 13) with (dateValue asOf) by lia. by rewrite Hd.
Qed.

Lemma daily_dates input rows days : Forall2 (fun row d => daily_figures input row = Ret d) rows days ->
  dayDate <$> days = expenseDate <$> rows.
Proof.
  induction 1 as [|row d rows days Hd _ IH]; [done|]. rewrite !fmap_cons, IH. unfold daily_figures in Hd. do 3 unbind Hd.
  by apply Ret_inj in Hd as <-.
Qed.

Section Built.
Context `{ZoneCatalogue, LocalClock}.

Lemma dashboard_rows_full r asOf : Forall (fun row => row <> []) (dashboard_rows r asOf).
Proof.
  unfold dashboard_rows. apply Forall_app. split; [by repeat constructor|]. apply Forall_app. split; apply Forall_forall.
  - intros row (rows & Hrow & (d & -> & _)%list_elem_of_fmap)%list_elem_of_join. unfold day_rows in Hrow.
    by repeat (apply elem_of_cons in Hrow as [->|Hrow]; [done|]); apply elem_of_nil in Hrow.
  - by intros row (i & -> & _)%list_elem_of_fmap.
Qed.

(** What a dashboard has to be for the export of a day, once its property, contract and
    currency are in order *)
Lemma dashboard_built r asOf : matches UUID (responsePropertyId r) = true -> dashboardContract r = "pms-financials.v1" ->
  currency_code (dashboardMoney r) = true -> FinanceReporting.localDate asOf = true ->
  (exists a, buildFinanceDashboardCsvArtifact (responsePropertyId r) r (Some asOf) = Ret a) <->
  utc_text (responseGeneratedAt r) = true /\ canonicalTimeZone (responseTimeZone r) = true /\
  (exists day, local_day (responseGeneratedAt r) (responseTimeZone r) = Some day) /\ validDashboard r asOf = Ret true.
Proof.
  intros Hu Hc Hcur Ha. unfold buildFinanceDashboardCsvArtifact.
  assert (Eq : parseFinanceDashboardQuery (dashboard_query (Some asOf)) = Some (Some asOf)).
  { unfold parseFinanceDashboardQuery, dashboard_query, as_local_date. cbn -[FinanceReporting.localDate]. by rewrite Ha. }
  rewrite Eq. unfold exported_day. cbn [mbind option_bind]. rewrite Hu, Hc, Hcur, !String.eqb_refl. cbn [negb orb].
  destruct (utc_text _); cbn [andb]; [|split; [by intros [a Ea] | by intros ([=] & _)]].
  destruct (canonicalTimeZone _); [|split; [by intros [a Ea] | by intros (_ & [=] & _)]].
  destruct (local_day _ _) as [day|]; [|split; [by intros [a Ea] | by intros (_ & _ & [day [=]] & _)]].
  cbn [mbind option_bind]. change (default day (Some asOf)) with asOf. rewrite Ha. destruct (validDashboard r asOf) as [[]|e]; cbn [exn_bind negb].
  - split; [intros _; split_and!; [done | done | by exists day | done] | intros _; by eexists].
  - split; [by intros [a Ea] | by intros (_ & _ & _ & [=])].
  - split; [by intros [a Ea] | by intros (_ & _ & _ & [=])].
Qed.

(** What was exported reads back, one line for each counted row. *)
Lemma dashboard_reads_back property r asked a : buildFinanceDashboardCsvArtifact property r asked = Ret a ->
  exists cells, read_csv (csvBody a) = Some (FINANCE_DASHBOARD_CSV_COLUMNS :: cells) /\ length cells = csvRowCount a.
Proof.
  unfold buildFinanceDashboardCsvArtifact. cbv zeta. intros Ha. match type of Ha with match ?o with _ => _ end = _ => destruct o as [asOf|] end; [|done].
  destruct (_ || _); [done|]. apply exn_bind_Ret in Ha as ([] & _ & Ha); [|done]. apply Ret_inj in Ha as <-.
  exists (printed <$> dashboard_rows r asOf). cbn [csvBody csvRowCount]. rewrite length_fmap. split; [|done].
  apply finance_document; [done | done | apply dashboard_rows_full].
Qed.
End Built.

(** What decides whether a composed dashboard can be exported, which the composition
    does not ask: its instant prints as the format it is read in, as every instant of a
    year of four digits does ([utc_text_print]), its zone is canonical and has a day for
    the instant, and the upcoming facts are labelled and dated in order from the day on. *)
Definition dashboard_exportable `{ZoneCatalogue, LocalClock} (input : FinanceDashboardResponseInput) : Prop :=
  exists t day, parse_instant (dashboardGeneratedAt input) = Some t /\ utc_text (to_iso_string t) = true /\
    canonicalTimeZone (dashboardTimeZone input) = true /\
    local_day (to_iso_string t) (dashboardTimeZone input) = Some day /\
    upcoming_ok (to (current (today (dashboardPeriods input)))) (upcomingExpenses (dashboardExpenses input)) = true.

(** C22: a composed dashboard is consistent: profit is revenue less expenses, now and in
    its change, its fourteen days end with the day it is asked for and the revenue of
    that day is the card of the day.  Its export for that day is built exactly when what
    the composition leaves open holds: the instant prints as it is read, as in a year of
    four digits, the zone is canonical and has a local day then, and the upcoming facts
    are labelled and dated in order from that day on.  A document that was built reads
    back as the heading and the counted rows. *)
Theorem dashboard_exports `{ZoneCatalogue, LocalClock} input r :
  composeFinanceDashboardResponse input = Ret r ->
  let asOf := to (current (today (dashboardPeriods input))) in
  money_value (value (profitMtd (cards r))) =
    money_value (value (revenueMtd (cards r))) - money_value (value (expensesMtd (cards r))) /\
  money_value (absoluteChange (profitMtd (cards r))) =
    money_value (absoluteChange (revenueMtd (cards r))) - money_value (absoluteChange (expensesMtd (cards r))) /\
  dayDate <$> dailyFigures r = window asOf /\
  (exists d, dailyFigures r !! 13%nat = Some d /\ dayDate d = asOf /\
     money_value (dayRevenue d) = money_value (value (revenueToday (cards r)))) /\
  ((exists a, buildFinanceDashboardCsvArtifact (responsePropertyId r) r (Some asOf) = Ret a) <-> dashboard_exportable input) /\
  forall a, buildFinanceDashboardCsvArtifact (responsePropertyId r) r (Some asOf) = Ret a ->
    exists cells, read_csv (csvBody a) = Some (FINANCE_DASHBOARD_CSV_COLUMNS :: cells) /\ length cells = csvRowCount a.
Proof.
  intros Hr asOf. unfold composeFinanceDashboardResponse in Hr.
  destruct (parse_instant _) as [t|] eqn:Ht; [|done].
  destruct (negb _ || _ || _) eqn:Escope in Hr; [done|]. destruct (validPeriods (dashboardPeriods input)) eqn:Ep; [|done].
  cbn [negb] in Hr. do 4 unbind Hr. destruct (bool_decide (expenseDate <$> _ = _)) eqn:Edays in Hr; [|done].
  cbn [negb] in Hr. apply bool_decide_eq_true in Edays. do 8 unbind Hr. apply Ret_inj in Hr as <-.
  cbn [cards dailyFigures profitMtd revenueMtd expensesMtd revenueToday].
  destruct (valid_periods_inv _ Ep) as (expected & Hexp & Htoday & _ & Hdaily). fold asOf in Hexp.
  destruct (window_dates asOf expected Hexp) as [Hwin Hstart]. destruct (dashboard_window asOf expected Hexp) as (Ha & Hcur & _ & _).
  apply exn_traverse_inv in E9, E10. rewrite Hdaily, Hwin in Edays.
  destruct (compared_inv _ _ _ E) as (Hnow & a0 & b0 & Ea0 & Eb0). destruct (compared_inv _ _ _ E0) as (_ & a1 & b1 & Ea1 & Eb1).
  apply normalized_inv in E1, E2. rewrite Ea0, Eb0 in E3. rewrite Ea1, Eb1 in E4. rewrite E1, E2 in E5.
  rewrite Ea1, E1 in E6. rewrite Eb1, E2 in E7. apply subtract_inv in E6, E7. rewrite E6, E7 in E8.
  destruct (metric_valid _ _ _ _ E3) as (V3 & M3 & _), (metric_valid _ _ _ _ E4) as (V4 & M4 & C4).
  destruct (metric_valid _ _ _ _ E5) as (V5 & M5 & C5), (metric_valid _ _ _ _ E8) as (V8 & M8 & C8).
  pose proof (daily_dates _ _ _ E9) as Hdates. rewrite Edays in Hdates. split_and!; [lia | lia | done | | |].
  - assert (Hl : (dayDate <$> n9) !! 13%nat = Some asOf) by (rewrite Hdates; by apply window_last).
    rewrite list_lookup_fmap in Hl. destruct (n9 !! 13%nat) as [d|] eqn:Ed; [|done]. injection Hl as Hl. exists d. split_and!; [done | done |].
    destruct (daily_revenue _ _ _ _ _ E9 Ed) as (s & Hs & ->). rewrite Htoday, Hcur in Hnow. rewrite Hl in Hs. cbn [from to] in Hnow.
    rewrite Hs in Hnow. apply Ret_inj in Hnow as ->. by rewrite M3, Ea0, unit_value_decimal.
  - apply orb_false_iff in Escope as [[Hid Hcc]%orb_false_iff _]. rewrite negb_false_iff in Hid. rewrite negb_false_iff in Hcc.
    rewrite dashboard_built by done. unfold validDashboard, dashboard_exportable. fold asOf. rewrite Hexp, Ht.
    cbn [exn_bind cards revenueToday revenueMtd expensesMtd profitMtd dashboardMoney dailyFigures upcoming forallb
         responseGeneratedAt responseTimeZone].
    rewrite V3, V4, V5, V8, Hstart. change FINANCE_DASHBOARD_WINDOW_DAYS with 14. fold (window asOf). rewrite <- Edays.
    rewrite (valid_days_of input) by done. rewrite (valid_items_of _ _ _ E10). cbn [andb]. split.
    + intros (H1 & H2 & [day Hd] & [= H3]). by exists t, day.
    + intros (t' & day & [= <-] & H1 & H2 & Hd & H3). rewrite H3. split_and!; [done | done | by exists day | done].
  - intros a. apply dashboard_reads_back.
Qed.
