(* ===== verification/RevenueCsv.v ===== *)
(** * The revenue export

    packages/domain-finance/src/financialRevenueCsv.ts: the CSV document of a
    revenue report that is checked again. *)

From S2P Require Import Prelude JsValue JsonText CalendarDates Money FolioDecimals FinanceFolios FolioCsv FinanceReporting ProfitLoss ProfitLossGuarantees ProfitLossCsv RevenueReport Dashboard DashboardGuarantees.

Definition FINANCE_REVENUE_CSV_COLUMNS : list string :=
  ["property_id"; "from"; "to"; "row_type"; "dimension"; "metric"; "value"; "currency"; "absolute_change"; "percent_change"].

Record FinanceRevenueCsvArtifact := {
  revenueCsvProperty : string;
  revenueCsvMoney : string;
  revenueCsvFilters : FinanceRevenueQuery;
  revenueCsvGeneratedAt : string;
  revenueCsvFilename : string;
  revenueCsvRowCount : nat;
  revenueCsvBody : string
}.

(** ** Checks *)

(** [/^(?:0|1)\.\d{4}$/], at most one *)
Definition ratio_text (s : string) : bool :=
  let '(whole, fraction) := split_dot s in
  match fraction with
  | Some f => fraction_digits 4 f && (String.eqb whole "0" || (String.eqb whole "1" && String.eqb f "0000"))
  | None => false
  end.

Definition valid_count (n : Z) : bool := safe_integer n && (0 <=? n).

Definition valid_channel (c : string) (e : ChannelRevenue) : bool :=
  label (channelName e) && valid_money (channelGross e) c && valid_money (channelCommission e) c &&
  valid_money (channelNet e) c && ratio_text (channelShare e).

Definition valid_source (c : string) (e : SourceRevenue) : bool :=
  label (sourceName e) && valid_money (sourceRevenue e) c && ratio_text (sourceShare e).

(** The ownership is one of the two kinds by its type. *)
Definition valid_upsell (c : string) (e : UpsellRevenue) : bool := valid_money (ownershipRevenue e) c.

Definition valid_room_type (c : string) (e : RoomTypeRevenue) : bool :=
  matches UUID (reportedRoomType e) && valid_count (roomTypeNights e) && valid_money (roomTypeRevenue e) c &&
  valid_money (roomTypeAdr e) c.

Definition validRevenue (r : FinanceRevenueResponse) : bool :=
  let c := reportCurrency r in
  let s := revenueSummary r in
  forallb (valid_metric c) [grossRoom s; otaCommission s; netRoom s; upsell s; adr s] &&
  valid_count (countValue (nights s)) && safe_integer (countChange (nights s)) && valid_percent (countPercentChange (nights s)) &&
  ratio_text (ratioValue (attachRate s)) && four_decimals (ratioChange (attachRate s)) &&
  valid_percent (ratioPercentChange (attachRate s)) &&
  forallb (valid_channel c) (channels r) && forallb (valid_source c) (directSources r) &&
  forallb (valid_upsell c) (upsells r) && forallb (valid_room_type c) (roomTypes r).

(** ** The document *)

Section Lines.
Context (r : FinanceRevenueResponse) (filters : FinanceRevenueQuery).

(** [add(type, dimension, metric, value, currency, change, percent)] *)
Definition revenue_line (type dimension metric v money changed percent : string) : list string :=
  [reportPropertyId r; queryFrom filters; queryTo filters; type; dimension; metric; v; money; changed; percent].

Definition money_line (type dimension metric : string) (m : FinanceReportingMoney) : list string :=
  revenue_line type dimension metric (FinanceReporting.amount m) (reportCurrency r) "" "".

Definition metric_line (key : string) (m : FinanceReportingMoneyMetric) : list string :=
  revenue_line "summary" "" key (FinanceReporting.amount (value m)) (reportCurrency r)
    (FinanceReporting.amount (absoluteChange m)) (default EmptyString (percentChange m)).

Definition channel_lines (e : ChannelRevenue) : list (list string) :=
  [money_line "channel" (channelName e) "gross" (channelGross e);
   money_line "channel" (channelName e) "commission" (channelCommission e);
   money_line "channel" (channelName e) "net" (channelNet e);
   revenue_line "channel" (channelName e) "share" (channelShare e) "" "" ""].

Definition source_lines (e : SourceRevenue) : list (list string) :=
  [money_line "direct_source" (sourceName e) "revenue" (sourceRevenue e);
   revenue_line "direct_source" (sourceName e) "share" (sourceShare e) "" "" ""].

Definition ownership_text (o : Ownership) : string := match o with property => "property" | partner => "partner" end.

Definition upsell_line (e : UpsellRevenue) : list string :=
  money_line "upsell" (ownership_text (upsellOwnership e)) "revenue" (ownershipRevenue e).

Definition room_lines (e : RoomTypeRevenue) : list (list string) :=
  [revenue_line "room_type" (reportedRoomType e) "nights" (Z_to_string (roomTypeNights e)) "" "" "";
   money_line "room_type" (reportedRoomType e) "revenue" (roomTypeRevenue e);
   money_line "room_type" (reportedRoomType e) "adr" (roomTypeAdr e)].

Definition revenue_rows : list (list string) :=
  let s := revenueSummary r in
  [metric_line "grossRoom" (grossRoom s); metric_line "otaCommission" (otaCommission s); metric_line "netRoom" (netRoom s);
   metric_line "upsell" (upsell s); metric_line "adr" (adr s);
   revenue_line "summary" "" "nights" (Z_to_string (countValue (nights s))) "" (Z_to_string (countChange (nights s)))
     (default EmptyString (countPercentChange (nights s)));
   revenue_line "summary" "" "attachRate" (ratioValue (attachRate s)) "" (ratioChange (attachRate s))
     (default EmptyString (ratioPercentChange (attachRate s)))] ++
  mjoin (channel_lines <$> channels r) ++ mjoin (source_lines <$> directSources r) ++ (upsell_line <$> upsells r) ++
  mjoin (room_lines <$> roomTypes r).
End Lines.

Definition buildFinanceRevenueCsvArtifact `{ZoneCatalogue} (propertyId : string) (r : FinanceRevenueResponse)
    (query : FinanceRevenueQuery) : exn FinanceRevenueCsvArtifact :=
  match parseFinanceRevenueQuery (revenue_query_value query) with
  | None => Throw "Revenue CSV read contract is invalid"
  | Some filters =>
      if negb (matches UUID (reportPropertyId r)) || negb (String.eqb (reportPropertyId r) propertyId) ||
         negb (String.eqb (revenueContract r) "pms-financials.v1") || negb (currency_code (reportCurrency r)) ||
         negb (utc_text (reportGeneratedAt r)) || negb (canonicalTimeZone (reportTimeZone r)) || negb (validRevenue r)
      then Throw "Revenue CSV read contract is invalid"
      else
        let rows := revenue_rows r filters in
        Ret {| revenueCsvProperty := reportPropertyId r;
               revenueCsvMoney := reportCurrency r;
               revenueCsvFilters := filters;
               revenueCsvGeneratedAt := reportGeneratedAt r;
               revenueCsvFilename := "pms-financials-revenue-" +:+ reportPropertyId r +:+ "-" +:+ queryFrom filters +:+ "-" +:+
                                     queryTo filters +:+ ".csv";
               revenueCsvRowCount := length rows;
               revenueCsvBody := join crlf (financeCsvRow <$> FINANCE_REVENUE_CSV_COLUMNS :: rows) +:+ crlf |}
  end.

(** * Every revenue report can be exported

    The checks of the export hold of composed reports whose names are labels. *)

#[local] Ltac unbind H := let n := fresh "n" in let E := fresh "E" in apply exn_bind_Ret in H as (n & E & H).

(** ** Ratios *)

Lemma ratio_decimal n : 0 <= n <= 10000 -> ratio_text (decimal n) = true.
Proof.
  intros Hn. pose proof (four_decimals_decimal n) as H4. destruct (decide (n = 10000)) as [->|Hne]; [by vm_compute|].
  unfold four_decimals in H4. unfold ratio_text.
  assert (Hd : decimal n = "0" +:+ String "." (pad_start 4 (Z_to_string n))).
  { unfold decimal. rewrite (proj2 (Z.ltb_ge n 0)), Z.abs_eq, Z.div_small, Z.mod_small by lia. done. }
  rewrite Hd in *. rewrite (split_dot_digits "0" _ eq_refl) in *. change (unsigned ("0" +:+ ?t)) with ("0" +:+ t) in H4.
  rewrite (split_dot_digits "0" _ eq_refl) in H4. apply andb_true_iff in H4 as [_ ->]. done.
Qed.

Lemma share_ratio part total : 0 <= part <= total -> ratio_text (share_of part total) = true.
Proof.
  intros Hp. pose proof (share_bounds part total Hp) as Hb. unfold share_of in *. rewrite unit_value_decimal in Hb. by apply ratio_decimal.
Qed.

Lemma ratio_inv v r : ratio v = Ret r -> 0 <= numerator r <= denominator r /\ 0 < denominator r.
Proof.
  unfold ratio, assertCount. destruct (negb (safe_integer (numerator v)) || (numerator v <? 0)) eqn:E1; [done|].
  destruct (negb (safe_integer (denominator v)) || (denominator v <? 0)) eqn:E2; [done|]. cbn [exn_bind].
  destruct (Z.ltb_spec (denominator v) (numerator v)); [done|]. intros [= <-]. bool_to_prop.
  destruct (Z.eqb_spec (denominator v) 0); cbn; lia.
Qed.

Lemma ratio_metric_valid v c m : financeReportingRatioMetric v c = Ret m ->
  ratio_text (ratioValue m) = true /\ four_decimals (ratioChange m) = true /\ valid_percent (ratioPercentChange m) = true.
Proof.
  unfold financeReportingRatioMetric. intros H. do 2 unbind H. apply Ret_inj in H as <-. cbn [ratioValue ratioChange ratioPercentChange].
  apply ratio_inv in E as [Hn Hd]. split_and!.
  - pose proof (share_ratio (numerator n) (denominator n) Hn) as Hs. unfold share_of in Hs.
    by rewrite (proj2 (Z.eqb_neq (denominator n) 0)) in Hs by lia.
  - apply four_decimals_decimal.
  - destruct (numerator n0 =? 0); [done|]. apply four_decimals_decimal.
Qed.

Lemma count_metric_valid v c m : financeReportingCountMetric v c = Ret m ->
  valid_count (countValue m) = true /\ safe_integer (countChange m) = true /\ valid_percent (countPercentChange m) = true /\ countValue m = v.
Proof.
  unfold financeReportingCountMetric, assertCount. destruct (negb (safe_integer v) || (v <? 0)) eqn:E1; [done|].
  destruct (negb (safe_integer c) || (c <? 0)) eqn:E2; [done|]. intros [= <-]. cbn [countValue countChange countPercentChange].
  split_and!; try done; [| |apply change_valid].
  - unfold valid_count. apply orb_false_iff in E1 as [->%negb_false_iff Hv%Z.ltb_ge]. cbn. by apply Z.leb_le.
  - unfold safe_integer, MAX_SAFE_INTEGER in *. bool_to_prop. apply andb_true_iff. rewrite !Z.leb_le. lia.
Qed.

(** ** Keys of groups *)

Lemma group_keys {R V} (key : R -> string) (empty : V) (add : V -> R -> exn V) rows : forall m m',
  group_rows key empty add rows m = Ret m' -> forall k, k ∈ m'.*1 -> k ∈ m.*1 \/ k ∈ key <$> rows.
Proof.
  induction rows as [|r rows IH]; intros m m'; cbn [group_rows]; [intros [= <-]; by left|].
  intros (v & _ & Hm)%exn_bind_Ret k Hk. destruct (IH _ _ Hm k Hk) as [Hin|Hin].
  - rewrite map_set_keys in Hin. rewrite fmap_cons. case_decide; set_solver.
  - rewrite fmap_cons. set_solver.
Qed.

(** ** Rows *)

Definition exportable (r : FinanceRevenueRoomFact) : bool :=
  label (channel r) && matches UUID (roomTypeId r) &&
  match directSource r with Some s => label s | None => true end.

(** The room facts of the range name what the export can print. *)
Definition exportable_facts (rows : list FinanceRevenueRoomFact) : Prop :=
  forall r, r ∈ rows -> roomPeriod r = Current -> exportable r = true.

Lemma forallb_fmap {A B} (f : A -> B) (p : B -> bool) l : (forall x, x ∈ l -> p (f x) = true) -> forallb p (f <$> l) = true.
Proof.
  induction l as [|x l IH]; intros Hp; [done|]. rewrite fmap_cons. cbn [forallb]. rewrite Hp by by left. apply IH. intros y Hy. apply Hp. by right.
Qed.

Lemma exportable_row rows r : exportable_facts rows -> r ∈ rows_of Current rows -> exportable r = true.
Proof.
  intros Hf [Hr Hp]%elem_of_bfilter. apply Hf; [done|]. by destruct (roomPeriod r).
Qed.

Section Rows.
Context `{Collation} (rows : list FinanceRevenueRoomFact) (Hrows : exportable_facts rows) (c : string).

Lemma elem_of_by_name {V} (e : string * V) grouped : e ∈ by_name grouped <-> e ∈ grouped.
Proof. apply elem_of_Permutation_proper, sort_by_perm. Qed.

(** The keys of the sorted groups are keys of the rows. *)
Lemma by_name_key {V} (key : FinanceRevenueRoomFact -> string) (empty : V) add rs grouped e :
  group_rows key empty add rs [] = Ret grouped -> e ∈ by_name grouped -> exists r, r ∈ rs /\ fst e = key r.
Proof.
  intros Hg He%(elem_of_by_name e grouped).
  destruct (group_keys key empty add rs [] grouped Hg (fst e) (list_elem_of_fmap_2 fst _ _ He)) as [Hk|Hk];
    [by apply elem_of_nil in Hk|].
  apply list_elem_of_fmap in Hk as (r & -> & Hr). by exists r.
Qed.

Lemma channels_valid chs : channels_of rows c = Ret chs -> forallb (valid_channel c) chs = true.
Proof.
  intros (grouped & Hg & Hc)%exn_bind_Ret. apply Ret_inj in Hc as <-. apply forallb_fmap. intros e He.
  unfold valid_channel, channel_row. cbn [channelName channelGross channelCommission channelNet channelShare].
  rewrite !money_valid, share_ratio.
  - destruct (by_name_key _ _ _ _ _ e Hg He) as (r & Hr & ->). pose proof (exportable_row _ r Hrows Hr) as Hx.
    unfold exportable in Hx. by destruct (label (channel r)).
  - split; [apply positive_spec|]. rewrite sumZ_fmap. rewrite <- (sum_of_perm _ (by_name grouped) grouped) by apply sort_by_perm.
    apply (part_of_sum (fun e => positive (gross (snd e)))); [intros; apply positive_spec | done].
Qed.

Lemma sources_valid srcs : direct_sources rows c = Ret srcs -> forallb (valid_source c) srcs = true.
Proof.
  intros (grouped & Hg & Hc)%exn_bind_Ret. apply Ret_inj in Hc as <-. apply forallb_fmap. intros e He.
  unfold valid_source, source_row. cbn [sourceName sourceRevenue sourceShare]. rewrite !money_valid, share_ratio.
  - destruct (by_name_key _ _ _ _ _ e Hg He) as (r & [Hr Hd]%elem_of_bfilter & ->). unfold is_direct in Hd.
    apply andb_true_iff in Hd as [[Hp _]%andb_true_iff Hs]. pose proof (Hrows r Hr ltac:(by destruct (roomPeriod r))) as Hx.
    unfold exportable in Hx. unfold source_text. destruct (directSource r); [|done]. change (label s && true && true = true). by apply andb_true_iff in Hx as [_ ->].
  - split; [apply positive_spec|]. rewrite sumZ_fmap. rewrite <- (sum_of_perm _ (by_name grouped) grouped) by apply sort_by_perm.
    apply (part_of_sum (fun e => positive (snd e))); [intros; apply positive_spec | done].
Qed.

Lemma upsells_valid addons ups : upsells_of addons c = Ret ups -> forallb (valid_upsell c) ups = true.
Proof.
  intros Hu%exn_traverse_inv. induction Hu as [|o u os us Hu _ IH]; [done|]. cbn [forallb]. rewrite IH, andb_true_r.
  unfold upsell_row in Hu. unbind Hu. apply Ret_inj in Hu as <-. apply money_valid.
Qed.

Lemma room_types_valid rts gap total : room_types rows c = Ret (rts, gap) -> sum_of occupiedRoomNights (rows_of Current rows) <= total ->
  safe_integer total = true -> forallb (valid_room_type c) rts = true.
Proof.
  unfold room_types. intros (grouped & Hg & H0)%exn_bind_Ret Hle Hsafe. destruct (group_rooms_inv rows grouped Hg) as [_ Hn].
  set (bad := List.filter _ grouped) in *. destruct (Z.eqb_spec (Z.of_nat (length bad)) 0) as [E|E]; cbn [negb] in H0.
  2: { apply Ret_inj in H0. by injection H0 as <- _. }
  apply exn_bind_Ret in H0 as (rs & Hrs%exn_traverse_inv & H0). apply Ret_inj in H0. injection H0 as <- _.
  assert (Hpos : forall e, e ∈ by_name grouped -> 0 <= sumNights (snd e)).
  { intros e He. destruct (Z_lt_le_dec (sumNights (snd e)) 0) as [Hlt|]; [|done]. exfalso.
    assert (Hb : e ∈ bad). by (apply elem_of_bfilter; split; [by apply elem_of_by_name | by apply Z.ltb_lt]).
    destruct bad; [by apply elem_of_nil in Hb | cbn in E; lia]. }
  rewrite <- Hn, <- by_name_sum in Hle. apply forallb_forall. intros rt Hrt%list_elem_of_In.
  apply list_elem_of_lookup in Hrt as (i & Hi). destruct (Forall2_lookup_r _ _ _ _ _ Hrs Hi) as (e & He & Hrow).
  apply list_elem_of_lookup_2 in He. unfold room_type_row in Hrow. do 2 unbind Hrow. apply Ret_inj in Hrow as <-.
  unfold valid_room_type. cbn [reportedRoomType roomTypeNights roomTypeRevenue roomTypeAdr]. rewrite !money_valid, !andb_true_r.
  destruct (by_name_key _ _ _ _ _ e Hg He) as (r & Hr & ->). pose proof (exportable_row _ r Hrows Hr) as Hx.
  unfold exportable in Hx. apply andb_true_iff in Hx as [[_ ->]%andb_true_iff _]. cbn [andb]. unfold valid_count.
  pose proof (Hpos e He) as Hp0. pose proof (part_of_sum (fun e => sumNights (snd e)) (by_name grouped) e Hpos He) as Hp1. cbn in Hp1.
  unfold safe_integer, MAX_SAFE_INTEGER in *. bool_to_prop. rewrite !andb_true_iff, !Z.leb_le. lia.
Qed.
End Rows.

(** ** Reports *)

Lemma money_metric_valid a b c m n k : a = decimal n -> b = decimal k -> financeReportingMoneyMetric a b c = Ret m -> valid_metric c m = true.
Proof. intros -> ->. by intros (? & _)%metric_valid. Qed.

Lemma revenue_rows_full r filters : Forall (fun row => row <> []) (revenue_rows r filters).
Proof.
  unfold revenue_rows. apply Forall_app. split; [by repeat constructor|].
  assert (Hj : forall {A} (f : A -> list (list string)) l, (forall x, Forall (fun row => row <> []) (f x)) ->
    Forall (fun row : list string => row <> []) (mjoin (f <$> l))).
  { intros A f l Hf. apply Forall_forall. intros row (rows & Hrow & (x & -> & _)%list_elem_of_fmap)%list_elem_of_join.
    specialize (Hf x). rewrite Forall_forall in Hf. by apply Hf. }
  apply Forall_app. split; [apply Hj; intros; by repeat constructor|]. apply Forall_app. split; [apply Hj; intros; by repeat constructor|].
  apply Forall_app. split; [by apply Forall_fmap, Forall_true|]. apply Hj. intros. by repeat constructor.
Qed.

Lemma length_join_fmap {A B} (f : A -> list B) n l : (forall x, length (f x) = n) -> length (mjoin (f <$> l)) = (n * length l)%nat.
Proof.
  intros Hf. induction l as [|x l IH]; [cbn; lia|]. rewrite fmap_cons. change (mjoin (f x :: (f <$> l))) with (f x ++ mjoin (f <$> l)).
  rewrite length_app, Hf, IH. cbn [length]. lia.
Qed.

Lemma revenue_rows_length r filters : length (revenue_rows r filters) =
  (7 + 4 * length (channels r) + 2 * length (directSources r) + length (upsells r) + 3 * length (roomTypes r))%nat.
Proof.
  unfold revenue_rows. rewrite !length_app, (length_join_fmap _ 4), (length_join_fmap _ 2), (length_join_fmap _ 3), length_fmap by done.
  cbn [length]. lia.
Qed.

Lemma summary_valid `{Collation} input r : composeFinanceRevenueResponse input = Ret r -> exportable_facts (roomRows (rooms input)) ->
  validRevenue r = true.
Proof.
  intros Hr Hf. unfold composeFinanceRevenueResponse in Hr. destruct (parse_instant _) as [t|]; [|done]. destruct (_ || _); [done|].
  unbind Hr. unbind Hr. apply exn_bind_Ret in Hr as ([rts gap] & Ert & Hr). do 10 unbind Hr. apply Ret_inj in Hr as <-.
  destruct (totals_inv _ _ _ E) as (T1 & T2 & T3 & T4 & T5 & q & T6). destruct (totals_inv _ _ _ E0) as (P1 & P2 & P3 & P4 & P5 & q0 & P6).
  eapply money_metric_valid in E1; [|done..]. eapply money_metric_valid in E2; [|done..]. eapply money_metric_valid in E3; [|done..].
  eapply money_metric_valid in E4; [|done..]. eapply money_metric_valid in E6; [|done..].
  apply count_metric_valid in E5 as (N1 & N2 & N3 & N4). apply ratio_metric_valid in E7 as (A1 & A2 & A3).
  apply channels_valid in E8; [|done]. apply sources_valid in E9; [|done]. apply upsells_valid in E10.
  apply (room_types_valid _ Hf _ _ _ (countValue n5)) in Ert; [|rewrite N4, T5; lia|].
  2: { unfold valid_count in N1. by apply andb_true_iff in N1 as [-> _]. }
  unfold validRevenue. cbn [reportCurrency revenueSummary grossRoom otaCommission netRoom upsell nights adr attachRate channels directSources upsells roomTypes forallb].
  by rewrite E1, E2, E3, E4, E6, N1, N2, N3, A1, A2, A3, E8, E9, E10, Ert.
Qed.

(** A revenue report can always be exported: for a property with a UUID, a
    canonical zone and room facts whose channels, sources and room types can be
    printed, its figures pass every check, and the document reads back as a heading
    and the counted rows, four per channel, two per source, one per kind of extra
    and three per room type after the seven of the summary. *)
Theorem revenue_report_exports `{Collation, ZoneCatalogue} input r t f l :
  composeFinanceRevenueResponse input = Ret r -> parse_instant (revenueGeneratedAt input) = Some t -> four_digit_instant t ->
  canonicalTimeZone (revenueTimeZone input) = true -> any_case_uuid (revenuePropertyId input) = true ->
  exportable_facts (roomRows (rooms input)) ->
  FinanceReporting.localDate f = true -> FinanceReporting.localDate l = true -> dateValue f <= dateValue l ->
  exists a cells, buildFinanceRevenueCsvArtifact (reportPropertyId r) r {| queryFrom := f; queryTo := l |} = Ret a /\
    read_csv (revenueCsvBody a) = Some (FINANCE_REVENUE_CSV_COLUMNS :: cells) /\ length cells = revenueCsvRowCount a /\
    revenueCsvRowCount a =
      (7 + 4 * length (channels r) + 2 * length (directSources r) + length (upsells r) + 3 * length (roomTypes r))%nat.
Proof.
  intros Hr Ht H4 Hz Hu Hf Hfrom Hto Hle. pose proof (summary_valid _ _ Hr Hf) as Hv.
  unfold buildFinanceRevenueCsvArtifact. rewrite parse_revenue_query, (proj2 (Z.leb_le _ _)), Hv by done.
  assert (Hs : reportPropertyId r = to_lower (revenuePropertyId input) /\ revenueContract r = "pms-financials.v1" /\
    currency_code (reportCurrency r) = true /\ reportGeneratedAt r = to_iso_string t /\ reportTimeZone r = revenueTimeZone input).
  { unfold composeFinanceRevenueResponse in Hr. rewrite Ht in Hr. destruct (negb _ || _ || _) eqn:Es in Hr; [done|].
    unbind Hr. unbind Hr. apply exn_bind_Ret in Hr as ([? ?] & _ & Hr). do 10 unbind Hr. apply Ret_inj in Hr as <-.
    apply orb_false_iff in Es as [[_ Hc%negb_false_iff]%orb_false_iff _]. done. }
  destruct Hs as (Hid & -> & -> & -> & ->). rewrite Hz, utc_text_print, Hid by done.
  unfold any_case_uuid in Hu. rewrite Hu, !String.eqb_refl. cbn [negb orb]. eexists. exists (printed <$> revenue_rows r {| queryFrom := f; queryTo := l |}).
  split; [done|]. cbn [revenueCsvBody revenueCsvRowCount]. rewrite length_fmap. split_and!; [|done | apply revenue_rows_length].
  apply finance_document; [done | done | apply revenue_rows_full].
Qed.
