(* ===== verification/WorkedExamples.v ===== *)
(** * Concrete inputs

    One property with two rooms, its calendar, its inventory and a reservation,
    as the JSON values the code receives.  Every conditional property of the
    library is applied here to such an input, with its hypotheses evaluated. *)

From S2P Require Import Prelude JsValue JsonText CalendarDates OperatingSchedule OperatingCalendar InventoryPlanner ReservationLifecycle ReservationRows ReservationStore LaunchReadiness.

(** ** Inputs *)

Definition organization_id : string := "11111111-1111-4111-8111-111111111111".
Definition property_id : string := "22222222-2222-4222-8222-222222222222".
Definition room_a : string := "aaaaaaaa-aaaa-4aaa-8aaa-aaaaaaaaaaaa".
Definition room_b : string := "bbbbbbbb-bbbb-4bbb-8bbb-bbbbbbbbbbbb".
Definition receipt_id : string := "cccccccc-cccc-4ccc-8ccc-cccccccccccc".
Definition user_id : string := "dddddddd-dddd-4ddd-8ddd-dddddddddddd".

Definition summer : jsval := obj [("startsOn", VString "05-01"); ("endsOn", VString "09-30")].
Definition winter : jsval := obj [("startsOn", VString "12-15"); ("endsOn", VString "02-28")].

(** Two seasons; the second one wraps around the year. *)
Definition two_seasons : jsval :=
  obj [("mode", VString "recurring"); ("periods", arr [winter; summer])].
Definition whole_year : jsval := obj [("mode", VString "year_round"); ("periods", arr [])].

Definition limit_of (room : string) (n : Z) : jsval :=
  obj [("roomTypeId", VString room); ("expectedRoomFactsRevision", VInt 1);
       ("expectedRoomUnitsRevision", VInt 1); ("startingSellableLimitCount", VInt n)].

Definition sha : string := "0123456789abcdef0123456789abcdef0123456789abcdef0123456789abcdef".

Definition sample_command : jsval :=
  obj [("organizationId", VString organization_id); ("propertyId", VString property_id);
       ("expectedCalendarRevision", VInt 0); ("expectedPropertyProfileRevision", VInt 3);
       ("schedule", two_seasons); ("defaultMinimumStayNights", VInt 2);
       ("roomTypeLimits", arr [limit_of room_b 2; limit_of room_a 1]);
       ("impactConfirmation",
        obj [("contractVersion", VString impact_contract_version);
             ("proposalFingerprint", VString sha); ("sourceFingerprint", VString sha);
             ("token", VString "token"); ("issuedAt", VString "2026-03-01T10:00:00.000Z");
             ("expiresAt", VString "2026-03-01T10:15:00.000Z")]);
       ("idempotencyKey", VString "key-1");
       ("audit", obj [("actor", obj [("kind", VString "user"); ("userId", VString user_id)]);
                      ("requestId", VString "request-1"); ("correlationId", VNull);
                      ("requestedAt", VString "2026-03-01T10:01:00.000Z")])].

Definition profile_source : jsval :=
  obj [("ownerDomain", VString "hotel_catalog"); ("entityType", VString "property_profile");
       ("entityId", VString property_id); ("revision", VString "profile:3")].

Definition calendar_source (n : string) : jsval :=
  obj [("ownerDomain", VString "pms"); ("entityType", VString "pms_operating_calendar.v1");
       ("entityId", VString property_id); ("revision", VString n)].

Definition binding_of (room : string) (capacity limit : Z) : jsval :=
  obj [("roomTypeId", VString room); ("sourceRoomFactsRevision", VInt 1);
       ("sourceRoomUnitsRevision", VInt 1); ("physicalCapacityCount", VInt capacity);
       ("startingSellableLimitCount", VInt limit)].

Definition configuration_of (revision : Z) (text : string) (bindings : list jsval) : jsval :=
  obj [("contractVersion", VString contract_version); ("propertyId", VString property_id);
       ("calendarRevision", VInt revision); ("source", calendar_source text);
       ("sourceInputs", obj [("propertyProfile", profile_source);
                             ("propertyTimeZone", VString "Asia/Makassar");
                             ("roomBindings", arr bindings)]);
       ("schedule", whole_year); ("defaultMinimumStayNights", VInt 1);
       ("createdAt", VString "2026-03-01T10:00:00.000Z");
       ("updatedAt", VString "2026-03-01T10:00:00.000Z")].

Definition sample_configuration : jsval :=
  configuration_of 2 "calendar:2" [binding_of room_a 3 2; binding_of room_b 1 1].
Definition sample_previous : jsval :=
  configuration_of 1 "calendar:1" [binding_of room_a 3 2].

Definition sample_registry : TimeZoneRegistry := {|
  reg_ownerDomain := "hotel_catalog"; reg_registryVersion := VString "1";
  reg_isCanonicalIanaTimeZone := fun z => Some (String.eqb z "Asia/Makassar") |}.

Definition stored_day (date : string) (calendar : Z) (assigned available : Z) : jsval :=
  obj [("propertyId", VString property_id); ("roomTypeId", VString room_a);
       ("stayDate", VString date); ("calendarRevision", VInt calendar);
       ("inventoryRevision", VInt 4);
       ("sourceRevisions", obj [("generated", VInt calendar); ("channel", VInt 0);
         ("manual", VInt 0); ("block", VInt 0); ("booking", VInt 1)]);
       ("operatingStatus", VString "open"); ("physicalCapacityCount", VInt 3);
       ("generatedSellableLimitCount", VInt 2); ("channelSellableLimitCount", VNull);
       ("manualSellableLimitCount", VNull); ("effectiveSellableLimitCount", VInt 2);
       ("assignedCount", VInt assigned); ("blockedCount", VInt 0);
       ("linkedStopSell", VBool false); ("linkedSourceRevision", VInt 0);
       ("availableCount", VInt available)].

Definition horizon_of (from through : string) : jsval :=
  obj [("from", VString from); ("through", VString through)].

(** The second room was added at revision 2; the first one has two stored days. *)
Definition sample_input : jsval :=
  obj [("propertyId", VString property_id); ("configurationSource", calendar_source "calendar:2");
       ("configuration", sample_configuration);
       ("horizon", horizon_of "2028-02-28" "2028-02-29");
       ("currentDays", arr [stored_day "2028-02-28" 1 1 1; stored_day "2028-02-29" 1 0 2]);
       ("previousConfiguration", sample_previous)].

Definition sample_tail : jsval :=
  obj [("configuration", sample_configuration); ("previousConfiguration", sample_previous);
       ("horizon", horizon_of "2028-02-28" "2028-02-28");
       ("tailThrough", VString "2028-03-01");
       ("currentDays", arr [stored_day "2028-02-28" 1 1 1; stored_day "2028-02-29" 1 0 2;
                            stored_day "2028-03-01" 1 0 2])].

Definition watermark_of (date : string) : jsval :=
  obj [("propertyId", VString property_id); ("roomTypeId", VString room_a);
       ("stayDate", VString date); ("calendarRevision", VInt 2); ("inventoryRevision", VInt 5);
       ("sourceRevisions", obj [("generated", VInt 2); ("channel", VInt 0); ("manual", VInt 0);
         ("block", VInt 0); ("booking", VInt 1)])].

Definition sample_watermarks : jsval := arr [watermark_of "2028-02-28"; watermark_of "2028-02-29"].

Definition sample_offer : jsval :=
  obj [("quoteSessionId", VString "quote-1"); ("publicOfferKey", VString "offer-1")].

Definition sample_audit : jsval :=
  obj [("actor", obj [("kind", VString "system"); ("service", VString "booking")]);
       ("requestId", VString "request-2"); ("correlationId", VNull);
       ("requestedAt", VString "2028-01-10T08:00:00.000Z")].

Definition sample_receipt : jsval :=
  obj [("contractVersion", VString LIFECYCLE_VERSION); ("owner", VString "pms");
       ("receiptId", VString receipt_id)].

Definition sample_reserve : jsval :=
  obj [("contractVersion", VString LIFECYCLE_VERSION);
       ("organizationId", VString organization_id); ("propertyId", VString property_id);
       ("roomTypeId", VString room_a); ("checkIn", VString "2028-02-28");
       ("checkOut", VString "2028-03-01"); ("roomCount", VInt 1);
       ("offerCorrelation", sample_offer); ("configurationSource", calendar_source "calendar:2");
       ("expectedMaterializedRevision", VInt 2); ("inventoryWatermarks", sample_watermarks);
       ("idempotencyKey", VString "key-2"); ("audit", sample_audit)].

Definition sample_status (fields : list (string * jsval)) (revision : Z) (state : string) : jsval :=
  obj ([("receipt", sample_receipt); ("organizationId", VString organization_id);
        ("propertyId", VString property_id); ("roomTypeId", VString room_a);
        ("checkIn", VString "2028-02-28"); ("checkOut", VString "2028-03-01");
        ("roomCount", VInt 1); ("offerCorrelation", sample_offer);
        ("configurationSource", calendar_source "calendar:2");
        ("materializedRevision", VInt 2); ("reservationWatermarks", sample_watermarks);
        ("lifecycleRevision", VInt revision);
        ("reservedAt", VString "2028-01-10T08:00:00.000Z"); ("state", VString state)] ++ fields).

Definition reserved_status : jsval := sample_status [] 1 "reserved".
Definition released_status : jsval :=
  sample_status [("releasedAt", VString "2028-01-11T08:00:00.000Z")] 2 "released".

(** ** Schedules *)

Lemma schedule_parse_open_witness : exists s,
  parsePmsOperatingSchedule two_seasons = Some s /\
  schedule_open s "2027-01-10" = submitted_open two_seasons "01-10".
Proof.
  eexists. split; [vm_compute; reflexivity|].
  apply (schedule_parse_open two_seasons _ "2027-01-10"); vm_compute; reflexivity.
Defined.

Lemma schedule_parse_idempotent_witness : exists s,
  parsePmsOperatingSchedule two_seasons = Some s /\
  parsePmsOperatingSchedule (schedule_value s) = Some s.
Proof.
  eexists. split; [vm_compute; reflexivity|].
  apply (schedule_parse_idempotent two_seasons). vm_compute. reflexivity.
Defined.

Lemma schedule_parse_separated_witness : exists ps,
  parsePmsOperatingSchedule two_seasons = Some (Recurring ps) /\ Sorted (le_rel period_le) ps.
Proof.
  eexists. split; [vm_compute; reflexivity|].
  apply (schedule_parse_separated two_seasons). vm_compute. reflexivity.
Defined.

Lemma schedule_parse_complete_witness :
  (exists s, parsePmsOperatingSchedule two_seasons = Some s) <->
  apart [(348, 58); (120, 272)] /\
    exists i, is_day i /\ covered [(348, 58); (120, 272)] i = false.
Proof.
  apply (schedule_parse_complete two_seasons [winter; summer]);
    try (vm_compute; reflexivity). cbn. lia.
Defined.

Lemma schedule_open_leap_day_witness : exists s,
  parsePmsOperatingSchedule two_seasons = Some s /\
  schedule_open s "2028-02-29" = schedule_open s "2028-02-28" && schedule_open s "2028-03-01".
Proof.
  eexists. split; [vm_compute; reflexivity|].
  apply (schedule_open_leap_day two_seasons); vm_compute; reflexivity.
Defined.

(** ** The operating calendar *)

Lemma command_roundtrip_witness : exists c,
  parseUpsertPmsOperatingCalendarCommand sample_command = Some c /\
  parseUpsertPmsOperatingCalendarCommand (command_value c) = Some c.
Proof.
  eexists. split; [vm_compute; reflexivity|].
  apply (command_roundtrip sample_command). vm_compute. reflexivity.
Defined.

Lemma configuration_snapshot_sound_witness : exists c,
  parsePmsOperatingCalendarConfigurationSnapshot sample_registry sample_configuration = Some c /\
  snapshot_ok c.
Proof.
  eexists. split; [vm_compute; reflexivity|].
  apply (configuration_snapshot_sound sample_registry sample_configuration).
  vm_compute. reflexivity.
Defined.

Lemma source_revision_roundtrip_witness : exists s,
  createPmsOperatingCalendarSourceRevision (string_of_list_ascii (list_ascii_of_string
    "ABCDEFAB-1111-4111-8111-111111111111")) 12 = Ret s /\
  parsePmsOperatingCalendarSourceRevision (source_value s) = Some s /\
  calendarRevision (sr_revision s) = Some 12.
Proof.
  eexists. split; [vm_compute; reflexivity|].
  match goal with |- _ (source_value ?s) = _ /\ _ =>
    destruct (source_revision_roundtrip "ABCDEFAB-1111-4111-8111-111111111111" 12 s
                ltac:(vm_compute; reflexivity)) as (H1 & H2 & _) end.
  exact (conj H1 H2).
Defined.

Lemma stale_conflicts_canonical_witness :
  sortPmsOperatingCalendarStaleSourceConflicts
    [RoomCapacityUnavailable room_b; PropertyTimezoneMissing] =
  sortPmsOperatingCalendarStaleSourceConflicts
    [PropertyTimezoneMissing; RoomCapacityUnavailable room_b].
Proof. apply stale_conflicts_canonical. apply Permutation_swap. Defined.

Definition sample_stale_read : jsval :=
  obj [("configuration", sample_configuration); ("sourceStatus", VString "stale");
       ("sourceConflicts", arr [obj [("code", VString "room_facts_revision_conflict");
          ("roomTypeId", VString room_a); ("currentRevision", VInt 2)]])].

Definition sample_evidence : jsval :=
  obj [("status", VString "available");
       ("evidence", obj [("source", profile_source); ("timeZone", VString "Asia/Makassar")])].

Lemma current_read_roundtrip_witness : exists r,
  parsePmsOperatingCalendarCurrentReadResult sample_registry sample_stale_read = Some r /\
  parsePmsOperatingCalendarCurrentReadResult sample_registry (read_value r) = Some r.
Proof.
  eexists. split; [vm_compute; reflexivity|].
  apply (current_read_roundtrip sample_registry sample_stale_read). vm_compute. reflexivity.
Defined.

Lemma time_zone_conflict_spec_witness : exists current,
  resolvePmsOperatingCalendarTimeZoneConflict sample_registry sample_evidence "Asia/Tokyo" =
  Ret (Some (PropertyProfileRevisionConflict current)).
Proof.
  destruct (time_zone_conflict_spec sample_registry sample_evidence
    {| ev_source := {| ps_entityId := property_id; ps_revision := "profile:3" |};
       ev_timeZone := "Asia/Makassar" |} "Asia/Tokyo")
    as (current & _ & H); [vm_compute; reflexivity..|].
  exists current. exact H.
Defined.

(** ** Inventory *)

Definition sample_plan : PmsInventoryMaterializationPlan :=
  match planPmsInventoryMaterialization sample_input with
  | Ok plan => plan
  | Err _ => {| pm_outcome := Unchanged; pm_days := []; pm_changedDays := [];
                pm_coverage := {| cov_configurationSource := {| sr_entityId := ""; sr_revision := "" |};
                  cov_materializedRevision := 0; cov_coverageFrom := ""; cov_coverageThrough := "";
                  cov_roomTypeIds := []; cov_expectedDayCount := 0; cov_materializedDayCount := 0;
                  cov_gaps := [] |} |}
  end.

Example sample_plan_outcome :
  pm_outcome sample_plan = Rematerialized /\ length (pm_days sample_plan) = 4%nat /\
  (d_availableCount <$> pm_days sample_plan) = [1; 2; 1; 1].
Proof. vm_compute. done. Qed.

Lemma planned_days_consistent_witness : exists d, head (pm_days sample_plan) = Some d /\
  d_assignedCount d = 1 /\ 0 <= d_availableCount d.
Proof.
  eexists. split; [vm_compute; reflexivity|]. split; [reflexivity|].
  match goal with |- 0 <= d_availableCount ?d =>
    destruct (planned_days_consistent sample_input sample_plan d) as (cfg & b & _ & _ & _ & _ & H & _)
  end; [vm_compute; reflexivity | | exact H].
  apply (list_elem_of_lookup_2 _ 0). vm_compute. reflexivity.
Defined.

Lemma planned_days_cover_horizon_witness : exists cfg from n,
  parseConfiguration (get sample_input "configuration") = Some cfg /\
  ((fun d => (d_roomTypeId d, d_stayDate d)) <$> pm_days sample_plan) =
    pair_keys (rb_roomTypeId <$> si_roomBindings (cs_sourceInputs cfg)) (dates_from from n).
Proof.
  destruct (planned_days_cover_horizon sample_input sample_plan ltac:(vm_compute; reflexivity))
    as (cfg & from & n & H1 & _ & _ & _ & H2 & _).
  exists cfg, from, n. exact (conj H1 H2).
Defined.

Lemma planned_days_keep_owner_state_witness : exists current d,
  parseCurrentDay (stored_day "2028-02-29" 1 0 2) = Some current /\
  d ∈ pm_days sample_plan /\ owner_state d = owner_state current.
Proof.
  eexists.
  edestruct (planned_days_keep_owner_state sample_input sample_plan (stored_day "2028-02-29" 1 0 2))
    as (d & H1 & H2 & _);
    [vm_compute; reflexivity | apply (list_elem_of_lookup_2 _ 1); reflexivity
    | vm_compute; reflexivity|].
  exists d. split; [vm_compute; reflexivity|]. exact (conj H1 H2).
Defined.

Lemma replan_unchanged_witness : exists i,
  parse_planner_input sample_input = Ok i /\
  plan_parsed (with_days i (pm_days sample_plan)) =
  Ok {| pm_outcome := Unchanged; pm_days := pm_days sample_plan; pm_changedDays := [];
        pm_coverage := pm_coverage sample_plan |}.
Proof.
  eexists. split; [vm_compute; reflexivity|].
  eapply (replan_unchanged sample_input); vm_compute; reflexivity.
Defined.

Lemma tail_days_spec_witness : exists days,
  planPmsInventoryRoomAdditionTail sample_tail = Ok days /\
  (pair_of <$> days) = [(room_b, "2028-02-29"); (room_b, "2028-03-01")] /\
  exists cfg, parseConfiguration (get sample_tail "configuration") = Some cfg.
Proof.
  eexists. split; [vm_compute; reflexivity|]. split; [vm_compute; reflexivity|].
  destruct (tail_days_spec sample_tail _ ltac:(vm_compute; reflexivity)) as (cfg & p & a & t & H & _).
  exists cfg. exact H.
Defined.

(** ** Launch readiness *)

Definition sample_required : PmsInventoryRequiredCoverage :=
  {| rc_from := "2028-02-28"; rc_through := "2028-02-29" |}.

(** A stored day, generated and materialized for the given calendar revision *)
Definition launch_row (room date : string) (revision : Z) (limit : option Z) : inventory_day := {|
  id_propertyId := property_id; id_roomTypeId := room; id_stayDate := date;
  id_calendarRevision := Some revision; id_inventoryRevision := Some 1;
  id_generatedSourceRevision := Some revision; id_channelSourceRevision := Some 0;
  id_manualSourceRevision := Some 0; id_blockSourceRevision := Some 0;
  id_bookingSourceRevision := Some 0; id_status := "open"; id_totalCount := 3;
  id_generatedLimit := limit; id_channelLimit := None; id_manualLimit := None;
  id_effectiveLimit := limit; id_assignedCount := 0; id_blockedCount := 0;
  id_availableCount := default 0 limit; id_linkedStopSell := false; id_linkedSourceRevision := 0;
  id_rateGateOpen := Some true;
|}.

Definition launch_coverage : stored_coverage := {|
  lc_propertyId := property_id; lc_materializedRevision := 2; lc_coverageFrom := "2028-02-28";
  lc_coverageThrough := "2028-03-01"; lc_expectedDayCount := 6; lc_materializedDayCount := 6 |}.

(** Days outside the required range may be stale. *)
Definition launch_days (last : inventory_day) : list inventory_day :=
  [launch_row room_b "2028-02-28" 2 (Some 1); launch_row room_a "2028-02-28" 2 (Some 2);
   launch_row room_a "2028-03-01" 1 None; launch_row room_a "2028-02-29" 2 (Some 0); last].

Definition launch_answer (days : list inventory_day) (required : PmsInventoryRequiredCoverage) :=
  match parsePmsOperatingCalendarConfigurationSnapshot sample_registry sample_configuration with
  | Some cfg => readLaunchReadiness [launch_coverage] days cfg required
  | None => Ret None
  end.

Example launch_answers :
  launch_answer (launch_days (launch_row room_b "2028-02-29" 2 (Some 1))) sample_required =
    Ret (Some []) /\
  launch_answer (launch_days (launch_row room_b "2028-02-29" 1 (Some 1))) sample_required =
    Ret (Some [CoverageGap]) /\
  launch_answer (launch_days (launch_row room_b "2028-02-29" 2 (Some 2))) sample_required =
    Ret (Some [SellableLimitInvariantViolation]) /\
  launch_answer [] {| rc_from := "2028-02-29"; rc_through := "2028-02-28" |} = Ret None.
Proof. vm_compute. done. Qed.

Lemma launch_ready_exact_witness : exists cfg c f cn,
  parsePmsOperatingCalendarConfigurationSnapshot sample_registry sample_configuration = Some cfg /\
  isoDateTimestamp (VString "2028-02-28") = Some f /\
  lc_materializedDayCount c = cn * Z.of_nat (length (bindings_of cfg)) /\
  forall b, b ∈ bindings_of cfg -> exists d,
    d ∈ launch_days (launch_row room_b "2028-02-29" 2 (Some 1)) /\ materialized_day cfg b (f + 1) d.
Proof.
  destruct (parsePmsOperatingCalendarConfigurationSnapshot sample_registry sample_configuration)
    as [cfg|] eqn:E; [|by vm_compute in E].
  destruct (proj1 (launch_ready_exact sample_registry sample_configuration cfg [launch_coverage]
    (launch_days (launch_row room_b "2028-02-29" 2 (Some 1))) sample_required E))
    as (c & f & n & cf & cn & _ & Hf & Ht & _ & _ & _ & _ & _ & _ & _ & Hm & _ & Hall).
  - vm_compute in E. injection E as <-. vm_compute. reflexivity.
  - exists cfg, c, f, cn. split; [reflexivity|]. split; [exact Hf|]. split; [exact Hm|].
    intros b Hb. apply (Hall b (f + 1) Hb). clear - Hf Ht.
    assert (Hf' : isoDateTimestamp (VString (rc_from sample_required)) = Some 21242)
      by (vm_compute; reflexivity).
    assert (Ht' : isoDateTimestamp (VString (rc_through sample_required)) = Some 21243)
      by (vm_compute; reflexivity).
    rewrite Hf' in Hf. rewrite Ht' in Ht. injection Hf as <-. injection Ht as Ht. lia.
Defined.

(** ** Reservations *)

Lemma reserve_command_nights_witness : exists c,
  parsePmsInventoryReservationReserveCommand sample_reserve = Some c /\
  parsePmsInventoryReservationReserveCommand (reserve_command_value c) = Some c.
Proof.
  eexists. split; [vm_compute; reflexivity|].
  apply (reserve_command_nights sample_reserve). vm_compute. reflexivity.
Defined.

Lemma status_roundtrip_witness : exists s,
  parsePmsInventoryReservationStatus released_status = Some s /\
  parsePmsInventoryReservationStatus (status_value s) = Some s.
Proof.
  eexists. split; [vm_compute; reflexivity|].
  apply (status_roundtrip released_status). vm_compute. reflexivity.
Defined.

Definition already_released : jsval :=
  obj [("ok", VBool true); ("outcome", VString "already_released"); ("status", released_status);
       ("projectionRefreshIntent", VNull)].

Lemma reserve_result_roundtrip_witness : exists r,
  parsePmsInventoryReservationReserveResult already_released = Some r /\
  parsePmsInventoryReservationReserveResult (result_value r) = Some r.
Proof.
  eexists. split; [vm_compute; reflexivity|].
  apply (reserve_result_roundtrip already_released). vm_compute. reflexivity.
Defined.

Lemma release_result_roundtrip_witness : exists r,
  parsePmsInventoryReservationReleaseResult already_released = Some r /\
  parsePmsInventoryReservationReleaseResult (result_value r) = Some r.
Proof.
  eexists. split; [vm_compute; reflexivity|].
  apply (release_result_roundtrip already_released). vm_compute. reflexivity.
Defined.
