(* ===== verification/ReservationExamples.v ===== *)
(** * A property with reservations

    A store with two nights of one room type and the answers of the other owners
    about it; the guarantees of the reservation commands applied to a
    reservation, its repetition and its release. *)

From S2P Require Import Prelude JsValue JsonText CalendarDates OperatingSchedule OperatingCalendar InventoryPlanner ReservationLifecycle ReservationRows ReservationStore LinkedInventory ReservationRepository ReservationBooking ReservationRuns ReservationLedger ReservationBalance ReservationReadBack ReservationGuarantees QuoteReservation WorkedExamples.

Definition parsed_configuration : PmsOperatingCalendarConfigurationSnapshot :=
  Eval vm_compute in
  match parsePmsOperatingCalendarConfigurationSnapshot sample_registry sample_configuration with
  | Some c => c
  | None => {| cs_propertyId := ""; cs_calendarRevision := 0;
               cs_source := {| sr_entityId := ""; sr_revision := "" |};
               cs_sourceInputs := {| si_propertyProfile := {| ps_entityId := ""; ps_revision := "" |};
                                     si_propertyTimeZone := ""; si_roomBindings := [] |};
               cs_schedule := YearRound; cs_defaultMinimumStayNights := 0; cs_createdAt := "";
               cs_updatedAt := "" |}
  end.

Definition sample_environment : Environment := {|
  env_hash := fun s => s;
  env_registry := sample_registry;
  env_authorize := fun _ _ _ _ => true;
  env_immutableConfiguration := fun _ => Ret (Some parsed_configuration);
  env_profileEvidence := fun _ _ => Ret sample_evidence;
  env_currentConfiguration := fun _ => Ret (Some (ReadCurrent parsed_configuration));
  env_exactConfiguration := fun _ => Ret (Some parsed_configuration);
  env_roomCapacity := fun p r => Ret (Some
    {| cap_propertyId := p; cap_roomTypeId := r; cap_roomUnitsRevision := 1; cap_activeUnitCount := 3 |});
  env_lockedCalendar := fun _ _ => Ret (Some (ReadCurrent parsed_configuration));
  env_linkedWork := fun _ _ => Ret [];
  env_clock := fun _ => 1831280400000;
|}.

Definition stored_row (date : string) (assigned available : Z) : inventory_day := {|
  id_propertyId := property_id; id_roomTypeId := room_a; id_stayDate := date;
  id_calendarRevision := Some 2; id_inventoryRevision := Some 5; id_generatedSourceRevision := Some 2;
  id_channelSourceRevision := Some 0; id_manualSourceRevision := Some 0;
  id_blockSourceRevision := Some 0; id_bookingSourceRevision := Some 1; id_status := "open";
  id_totalCount := 3; id_generatedLimit := Some 2; id_channelLimit := None; id_manualLimit := None;
  id_effectiveLimit := Some 2; id_assignedCount := assigned; id_blockedCount := 0;
  id_availableCount := available; id_linkedStopSell := false; id_linkedSourceRevision := 0;
  id_rateGateOpen := Some true;
|}.

Definition sample_store : Store := {|
  catalog := {|
    room_types := [{| rt_propertyId := property_id; rt_roomTypeId := room_a; rt_active := true |}];
    room_type_closures := [];
    materialization_coverage := [{| co_organizationId := organization_id; co_propertyId := property_id;
      co_calendarRevision := 2; co_materializedRevision := 2; co_coverageFrom := "2028-01-01";
      co_coverageThrough := "2028-12-31" |}] |};
  inventory_days := [stored_row "2028-02-27" 1 1; stored_row "2028-02-28" 1 1; stored_row "2028-02-29" 0 2];
  ledger := {| reservation_receipts := []; reservation_statuses := []; reservation_watermarks := [] |};
  journal := {| idempotency_keys := []; domain_events := []; outbox_events := []; audit_events := [];
                next_id := 1 |};
|}.

Definition reserved_at : Z := 1831280400000.
Definition released_at : Z := 1831366800000.

Definition sample_release : jsval :=
  obj [("contractVersion", VString LIFECYCLE_VERSION); ("organizationId", VString organization_id);
       ("propertyId", VString property_id); ("receipt", sample_receipt);
       ("idempotencyKey", VString "key-3"); ("audit", sample_audit)].

(** The reserve command with another number of rooms *)
Definition other_reserve : jsval :=
  obj [("contractVersion", VString LIFECYCLE_VERSION);
       ("organizationId", VString organization_id); ("propertyId", VString property_id);
       ("roomTypeId", VString room_a); ("checkIn", VString "2028-02-28");
       ("checkOut", VString "2028-03-01"); ("roomCount", VInt 2);
       ("offerCorrelation", sample_offer); ("configurationSource", calendar_source "calendar:2");
       ("expectedMaterializedRevision", VInt 2); ("inventoryWatermarks", sample_watermarks);
       ("idempotencyKey", VString "key-2"); ("audit", sample_audit)].

Definition status_request : jsval :=
  obj [("organizationId", VString organization_id); ("propertyId", VString property_id);
       ("receipt", sample_receipt)].

Definition reserved_store : Store := Eval vm_compute in
  (reserveInventory sample_environment sample_reserve reserved_at receipt_id sample_store).2.
Definition released_store : Store := Eval vm_compute in
  (releaseInventory sample_environment sample_release released_at reserved_store).2.

Lemma sample_store_ok : store_ok sample_store.
Proof. constructor; [apply (bool_decide_unpack _); vm_compute; exact I | constructor..]. Qed.

Lemma reserved_store_ok : store_ok reserved_store.
Proof.
  constructor; [apply (bool_decide_unpack _); vm_compute; exact I..|].
  apply (bool_decide_unpack _). vm_compute. exact I.
Qed.

Lemma reserved_at_readable : four_digit_instant reserved_at.
Proof. split; vm_compute; congruence. Qed.
Lemma released_at_readable : four_digit_instant released_at.
Proof. split; vm_compute; congruence. Qed.

Lemma sample_steps : rtc command_step sample_store released_store.
Proof.
  apply rtc_l with reserved_store; [|apply rtc_once].
  - pose proof (step_reserve sample_store sample_environment sample_reserve reserved_at receipt_id) as H.
    vm_compute in H |- *. exact H.
  - pose proof (step_release reserved_store sample_environment sample_release released_at) as H.
    vm_compute in H |- *. exact H.
Qed.

Lemma commands_keep_balance_witness :
  store_ok released_store /\ balance released_store = balance sample_store.
Proof. apply commands_keep_balance; [exact sample_store_ok | exact sample_steps]. Defined.

Lemma terminal_statuses_stay_witness :
  (forall r, r ∈ reservation_receipts (ledger sample_store) ->
     r ∈ reservation_receipts (ledger released_store)) /\
  (forall t, t ∈ reservation_statuses (ledger sample_store) -> ss_lifecycleState t <> "reserved"%string ->
     t ∈ reservation_statuses (ledger released_store)).
Proof. apply terminal_statuses_stay; [exact sample_store_ok | exact sample_steps]. Defined.

Lemma reserve_books_every_night_witness : exists c,
  parsePmsInventoryReservationReserveCommand sample_reserve = Some c /\
  Forall2 (night_granted c) (inventory_days sample_store) (inventory_days reserved_store).
Proof.
  eexists. split; [vm_compute; reflexivity|].
  match goal with |- Forall2 (night_granted ?c) _ _ =>
    refine (proj2 (reserve_books_every_night sample_environment sample_reserve c reserved_at receipt_id
      sample_store _ _ reserved_store _ _ _)) end;
    [by destruct sample_store_ok | vm_compute; reflexivity..].
Defined.

Lemma release_returns_every_night_witness : exists status,
  Forall2 (night_returned status) (inventory_days reserved_store) (inventory_days released_store).
Proof.
  destruct (parsePmsInventoryReservationReleaseCommand sample_release) as [c|] eqn:E;
    [|vm_compute in E; discriminate].
  edestruct (release_returns_every_night sample_environment sample_release c released_at reserved_store)
    as (status & _ & _ & _ & H); [by destruct reserved_store_ok | exact E | vm_compute; reflexivity|].
  exists status. exact H.
Defined.

Lemma reserved_status_reads_back_witness : exists status,
  reserveInventory sample_environment sample_reserve reserved_at receipt_id sample_store =
    (Ret (LifecycleOk "reserved" status (Some "reservation_held"%string)), reserved_store) /\
  getInventoryReservationStatus sample_environment status_request reserved_store = Some status.
Proof.
  destruct (parsePmsInventoryReservationStatusRequest status_request) as [q|] eqn:E;
    [|vm_compute in E; discriminate].
  eexists. split; [vm_compute; reflexivity|].
  eapply (reserved_status_reads_back sample_environment sample_reserve reserved_at receipt_id sample_store);
    [exact sample_store_ok | exact reserved_at_readable | vm_compute; reflexivity | exact E
    | vm_compute in E; injection E as <-; reflexivity..].
Defined.

Lemma release_undoes_reservation_witness : assigned_rooms released_store = assigned_rooms sample_store.
Proof.
  destruct (parsePmsInventoryReservationReserveCommand sample_reserve) as [c|] eqn:E;
    [|vm_compute in E; discriminate].
  destruct (parsePmsInventoryReservationReleaseCommand sample_release) as [c'|] eqn:E';
    [|vm_compute in E'; discriminate].
  refine (proj1 (release_undoes_reservation sample_environment sample_reserve c reserved_at receipt_id
    sample_store _ _ reserved_store sample_environment sample_release c' released_at _ _ released_store
    sample_store_ok reserved_at_readable released_at_readable E _ E' _ _ _ _));
    try (vm_compute; reflexivity);
    (vm_compute in E, E'; injection E as <-; injection E' as <-; reflexivity).
Defined.

Lemma reserve_retry_answers_witness : exists status,
  reserveInventory sample_environment sample_reserve released_at user_id reserved_store =
  (Ret (LifecycleOk "already_reserved" status None), reserved_store).
Proof.
  eexists. eapply (reserve_retry_answers sample_environment sample_reserve reserved_at receipt_id
    sample_store); [exact sample_store_ok | exact reserved_at_readable | vm_compute; reflexivity].
Defined.

Lemma reserve_key_conflicts_witness :
  reserveInventory sample_environment other_reserve released_at user_id reserved_store =
  (Ret (failure "idempotency_key_conflict"), reserved_store).
Proof.
  destruct (parsePmsInventoryReservationReserveCommand sample_reserve) as [c|] eqn:E;
    [|vm_compute in E; discriminate].
  destruct (parsePmsInventoryReservationReserveCommand other_reserve) as [c2|] eqn:E2;
    [|vm_compute in E2; discriminate].
  eapply (reserve_key_conflicts sample_environment sample_reserve c reserved_at receipt_id sample_store
    _ _ reserved_store other_reserve c2);
    [exact sample_store_ok | exact reserved_at_readable | exact E | vm_compute; reflexivity | exact E2
    | reflexivity | | | | by intros ? ? _ _ H];
    vm_compute in E, E2; injection E as <-; injection E2 as <-; [reflexivity..|].
  vm_compute. congruence.
Defined.

Lemma validated_booking_is_accepted_witness : exists c days,
  parsePmsInventoryReservationReserveCommand sample_reserve = Some c /\
  applyBookingDelta days (rs_roomCount c) sample_store = Ret (tt, set_inventory sample_store
    (book_stay (rs_propertyId c) (rs_roomTypeId c) (rs_checkIn c) (rs_checkOut c) (rs_roomCount c)
       (inventory_days sample_store))).
Proof.
  eexists. eexists. split; [vm_compute; reflexivity|].
  refine (validated_booking_is_accepted sample_reserve _ _ 3 sample_store _ _ _ _ _);
    [by destruct sample_store_ok | vm_compute; reflexivity..].
Defined.

(** ** The rooms of a quote *)

#[local] Instance code_units : Collation := fun a b => match String.compare a b with Lt => -1 | Eq => 0 | Gt => 1 end.

Definition single_row (date : string) : inventory_day := {|
  id_propertyId := property_id; id_roomTypeId := room_b; id_stayDate := date;
  id_calendarRevision := Some 2; id_inventoryRevision := Some 5; id_generatedSourceRevision := Some 2;
  id_channelSourceRevision := Some 0; id_manualSourceRevision := Some 0;
  id_blockSourceRevision := Some 0; id_bookingSourceRevision := Some 1; id_status := "open";
  id_totalCount := 1; id_generatedLimit := Some 1; id_channelLimit := None; id_manualLimit := None;
  id_effectiveLimit := Some 1; id_assignedCount := 0; id_blockedCount := 0;
  id_availableCount := 1; id_linkedStopSell := false; id_linkedSourceRevision := 0;
  id_rateGateOpen := Some true;
|}.

(** The store with a second room type *)
Definition quote_store : Store := {|
  catalog := {|
    room_types := room_types (catalog sample_store) ++
      [{| rt_propertyId := property_id; rt_roomTypeId := room_b; rt_active := true |}];
    room_type_closures := []; materialization_coverage := materialization_coverage (catalog sample_store) |};
  inventory_days := inventory_days sample_store ++ [single_row "2028-02-28"; single_row "2028-02-29"];
  ledger := ledger sample_store; journal := journal sample_store |}.

Definition quote_of (rooms : list string) : QuoteInventory :=
  {| qi_organizationId := organization_id; qi_propertyId := property_id;
     qi_quoteId := "5f0c2a9e-1111-4222-8333-0123456789ab"; qi_checkIn := "2028-02-28"; qi_checkOut := "2028-03-01";
     qi_rooms := rooms |}.

Definition fresh_quote : Store -> exn unit := fun _ => Ret tt.
Definition new_receipt (room : string) : string :=
  if String.eqb room room_a then receipt_id else "dddddddd-dddd-4ddd-8ddd-dddddddddddd".

Definition quote_receipts : list PmsInventoryReservationReceipt :=
  [{| rc_receiptId := receipt_id |}; {| rc_receiptId := "dddddddd-dddd-4ddd-8ddd-dddddddddddd" |}].

Definition quoted_store : Store := Eval vm_compute in
  match reservePmsQuoteInventory sample_environment (quote_of [room_b; room_a]) fresh_quote new_receipt quote_store with
  | Ret (_, s) => s
  | Throw _ => sample_store
  end.

Lemma quote_store_ok : store_ok quote_store.
Proof. constructor; [apply (bool_decide_unpack _); vm_compute; exact I | constructor..]. Qed.

Lemma clock_readable : forall s, four_digit_instant (env_clock sample_environment s).
Proof. intros s. exact reserved_at_readable. Qed.

Example sold_out_rooms :
  reservePmsQuoteInventory sample_environment (quote_of [room_b; room_a; room_b]) fresh_quote new_receipt quote_store =
  Ret (rooms_sold_out [room_b], quote_store).
Proof. vm_compute. reflexivity. Qed.

Lemma quote_rooms_held_witness :
  store_ok quoted_store /\ balance quoted_store = balance quote_store /\ NoDup quote_receipts.
Proof.
  assert (H : reservePmsQuoteInventory sample_environment (quote_of [room_b; room_a]) fresh_quote new_receipt quote_store =
    Ret (bundled quote_receipts false, quoted_store)) by (vm_compute; reflexivity).
  destruct (quote_rooms_held sample_environment (quote_of [room_b; room_a]) fresh_quote new_receipt quote_store quote_receipts
              quoted_store clock_readable quote_store_ok H) as (H1 & H2 & H3 & _).
  exact (conj H1 (conj H2 H3)).
Defined.

Lemma quote_asked_again_witness :
  reservePmsQuoteInventory sample_environment (quote_of [room_b; room_a]) (fun _ => Throw "QuoteExpired") (fun _ => receipt_id)
    quoted_store = Ret (bundled quote_receipts true, quoted_store).
Proof.
  assert (H : reservePmsQuoteInventory sample_environment (quote_of [room_b; room_a]) fresh_quote new_receipt quote_store =
    Ret (bundled quote_receipts false, quoted_store)) by (vm_compute; reflexivity).
  exact (quote_asked_again sample_environment sample_environment (quote_of [room_b; room_a]) fresh_quote new_receipt
           (fun _ => Throw "QuoteExpired") (fun _ => receipt_id) quote_store quote_receipts quoted_store clock_readable
           quote_store_ok eq_refl H).
Defined.
