(* ===== verification/CancellationExamples.v ===== *)
(** * Cancellations at concrete inputs

    A stay of three rooms under different terms: what a cancellation on a given
    day refunds, what the policy page says that day, and the instances of the
    refund theorems there. *)

From S2P Require Import Prelude JsValue CalendarDates Money CancellationTerms CancellationPolicy BookedCancellation PolicyGuarantees.

(** The terms as the booking stores them *)
Definition stored_tier (days percent : Z) : jsval :=
  obj [("minDaysBeforeCheckIn", VInt days); ("refundPercent", VInt percent)].

Definition stored_partial : jsval :=
  obj [("kind", VString "flexible");
       ("terms", obj [("type", VString "free_until_days_before_arrival");
                      ("freeCancellationDeadlineDays", VInt 30);
                      ("afterDeadlinePenalty", VString "full_booking_amount");
                      ("noShowPenalty", VString "full_booking_amount");
                      ("flexibleCancellationType", VString "partial_refund");
                      ("partialRefundTiers", arr [stored_tier 7 33; stored_tier 30 75])])].

Definition stored_free : jsval :=
  obj [("kind", VString "flexible");
       ("terms", obj [("type", VString "free_until_days_before_arrival");
                      ("freeCancellationDeadlineDays", VInt 3);
                      ("afterDeadlinePenalty", VString "full_booking_amount");
                      ("noShowPenalty", VString "full_booking_amount")])].

Definition stored_non_refundable : jsval := obj [("kind", VString "non_refundable")].

(** The same terms as the page holds them *)
Definition partial_terms : FlexibleCancellationTerms :=
  {| freeCancellationDeadlineDays := 30; termsText := None;
     flexibleCancellationType := Some partial_refund; partialRefundCancelWindowDays := None;
     partialRefundAmountPercent := None;
     partialRefundTiers := Some [{| minDaysBeforeCheckIn := 7; refundPercent := 33 |};
                                 {| minDaysBeforeCheckIn := 30; refundPercent := 75 |}] |}.

Definition free_terms : FlexibleCancellationTerms :=
  {| freeCancellationDeadlineDays := 3; termsText := None; flexibleCancellationType := None;
     partialRefundCancelWindowDays := None; partialRefundAmountPercent := None;
     partialRefundTiers := None |}.

Definition booked_room (id : string) (stored : jsval) (price : string) : BookedCancellationRoom :=
  {| selectionId := id; roomTypeId := None; cancellation := stored; subtotalMinor := price |}.

(** The rooms' prices add up to 350.00; the guest accepted 344.35. *)
Definition booked_rooms : list BookedCancellationRoom :=
  [booked_room "r1" stored_partial "10001"; booked_room "r2" stored_free "12499";
   booked_room "r3" stored_non_refundable "12500"].

Definition page_room_of (name : string) (c : Cancellation) (price : string) : BookedStayRoom :=
  {| roomName := Some name; stayCancellation := c; staySubtotalMinor := price |}.

Definition page_stay : BookedStayCancellation :=
  {| stayCheckIn := "2026-08-20"; stayBookedOn := Some "2026-05-01"; stayTotalMinor := "34435";
     stayRooms := [page_room_of "Garden" (flexible_rate partial_terms) "10001";
                   page_room_of "Sea" (flexible_rate free_terms) "12499";
                   page_room_of "Sea" non_refundable_rate "12500"] |}.

Definition plain_mode : PolicyMode := {| request := false; card := true; bankTransfer := false |}.

(** Ten days before arrival: a third of the first room, all of the second. *)
Definition ten_days_out : option BookedCancellationOutcome :=
  resolveBookedCancellationOutcome "2026-08-20" "2026-08-10" "34435" booked_rooms.

Definition ten_days_outcome : BookedCancellationOutcome :=
  Eval vm_compute in default {| daysBeforeCheckIn := 0; outcomeTotalMinor := ""; refundMinor := "";
                                retainedMinor := ""; outcomeRooms := [] |} ten_days_out.

Example ten_days_refund :
  ten_days_out = Some ten_days_outcome /\
  refundMinor ten_days_outcome = "15544" /\ retainedMinor ten_days_outcome = "18891" /\
  baseMinor <$> outcomeRooms ten_days_outcome = ["9840"; "12297"; "12298"].
Proof. vm_compute. repeat split. Qed.

(** Text that is not a positive minor amount has no outcome. *)
Example zero_total_refused :
  resolveBookedCancellationOutcome "2026-08-20" "2026-08-10" "0" booked_rooms = None /\
  resolveBookedCancellationOutcome "2026-08-20" "2026-02-30" "34435" booked_rooms = None /\
  resolveBookedCancellationOutcome "2026-08-20" "2026-08-10" "34435" [] = None.
Proof. vm_compute. repeat split. Qed.

Example page_blocks :
  (fun b => (blockRooms b, block_due b)) <$> bookedPolicyBlocks page_stay "2026-08-10" plain_mode =
  [(["Garden"], 6593); (["Sea"], 0); (["Sea"], 12298)].
Proof. vm_compute. reflexivity. Qed.

Lemma same_rooms : Forall2 same_room booked_rooms (stayRooms page_stay).
Proof. repeat constructor; vm_compute; reflexivity. Qed.

(** ** The instances *)

Lemma refund_adds_up_witness :
  exists out, ten_days_out = Some out /\
    sumZ (refunded <$> outcomeRooms out) = BigInt (refundMinor out) /\
    BigInt (refundMinor out) + BigInt (retainedMinor out) = 34435.
Proof.
  exists ten_days_outcome. split; [vm_compute; reflexivity|].
  destruct (refund_adds_up "2026-08-20" "2026-08-10" "34435" booked_rooms ten_days_outcome)
    as (_ & _ & Hr & Ht & _); [vm_compute; reflexivity|].
  split; [exact Hr|]. rewrite Ht. vm_compute. reflexivity.
Defined.

Lemma rooms_share_fairly_witness :
  exists out o, ten_days_out = Some out /\ outcomeRooms out !! 2%nat = Some o /\
    34435 * 12500 - 35000 < base_of o * 35000 <= 34435 * 12500 + 35000.
Proof.
  exists ten_days_outcome, (List.last (outcomeRooms ten_days_outcome)
    {| outcomeSelectionId := ""; outcomeRoomTypeId := None;
       outcomeRule := {| rule := non_refundable; rulePercent := 0; matchedTierMinDays := None |};
       baseMinor := ""; roomRefundMinor := ""; roomRetainedMinor := "" |}).
  split; [vm_compute; reflexivity|]. split; [vm_compute; reflexivity|].
  eapply (rooms_share_fairly "2026-08-20" "2026-08-10" "34435" booked_rooms ten_days_outcome
    ltac:(vm_compute; reflexivity) 2%nat (booked_room "r3" stored_non_refundable "12500"));
    vm_compute; reflexivity.
Defined.

Lemma page_matches_refund_witness :
  exists out, ten_days_out = Some out /\
    sumZ (block_due <$> bookedPolicyBlocks page_stay "2026-08-10" plain_mode) = BigInt (retainedMinor out).
Proof.
  exists ten_days_outcome. split; [vm_compute; reflexivity|].
  apply (page_matches_refund page_stay "2026-08-10" plain_mode booked_rooms ten_days_outcome).
  - vm_compute. reflexivity.
  - exact same_rooms.
  - split; vm_compute; congruence.
  - reflexivity.
  - reflexivity.
Defined.
