(* ===== verification/AssignmentExamples.v ===== *)
(** * Room assignment and room combinations at concrete inputs

    The optimizer evaluated on small hotels and the search on a small family, and the
    instances of their theorems there.  The collation is the code unit order. *)

From S2P Require Import Prelude JsValue JsonText CalendarDates RoomSelection RoomCombination CombinationAllocation CombinationPlans CombinationGuarantees RoomAssignment AssignmentIntervals AssignmentSearch AssignmentComplete AssignmentGuarantees AssignmentReport.

#[local] Instance code_unit_collation : Collation := fun a b =>
  match String.compare a b with Lt => -1 | Eq => 0 | Gt => 1 end.

#[local] Instance code_unit_laws : CollationLaws.
Proof. split. intros a b _ _. unfold localeCompare, code_unit_collation. by destruct (String.compare a b). Qed.

Definition room_101 : Room := {| roomId := "101"; sortOrder := 1 |}.
Definition room_102 : Room := {| roomId := "102"; sortOrder := 2 |}.

Definition stay_of (id : string) (room : option string) (from until : string) (movable : bool) : Occupancy :=
  {| occupancyId := id; occupancyRoomId := room; stay := {| checkIn := from; checkOut := until |};
     movable := movable |}.

(** A block in room 101 and two stays, one not yet assigned *)
Definition small_hotel : list Occupancy :=
  [stay_of "block" (Some "101") "2026-03-01" "2026-03-04" false;
   stay_of "a" (Some "102") "2026-03-04" "2026-03-07" true;
   stay_of "b" None "2026-03-02" "2026-03-05" true].

Example small_hotel_optimized :
  optimizePmsRoomAssignments [room_102; room_101] small_hotel None =
  Ret (Some (Optimized
    [{| moveOccupancyId := "b"; fromRoomId := None; toRoomId := Some "102" |};
     {| moveOccupancyId := "a"; fromRoomId := Some "102"; toRoomId := Some "101" |}] 0 0 2 2)).
Proof. vm_compute. reflexivity. Qed.

(** Two blocks leave no room for a stay that spans both. *)
Definition fragmented_hotel : list Occupancy :=
  [stay_of "block-1" (Some "101") "2026-03-01" "2026-03-03" false;
   stay_of "block-2" (Some "102") "2026-03-05" "2026-03-08" false;
   stay_of "long" None "2026-03-01" "2026-03-08" true].

Example fragmented_infeasible :
  optimizePmsRoomAssignments [room_101; room_102] fragmented_hotel (Some 500) =
  Ret (Some (Infeasible ["long"])).
Proof. vm_compute. reflexivity. Qed.

(** Three stays of one night in two rooms *)
Example overbooked_infeasible :
  optimizePmsRoomAssignments [room_101; room_102]
    [stay_of "a" None "2026-03-01" "2026-03-02" true; stay_of "b" None "2026-03-01" "2026-03-03" true;
     stay_of "c" (Some "101") "2026-02-28" "2026-03-02" true] None =
  Ret (Some (Infeasible ["c"; "b"; "a"])).
Proof. vm_compute. reflexivity. Qed.

Example duplicate_rooms_throw :
  optimizePmsRoomAssignments [room_101; room_101] [] None =
  Throw "PMS assignment optimization rooms must be unique".
Proof. reflexivity. Qed.

Lemma clean_ids_dec ids :
  forallb (fun id => negb (String.eqb id "") && all_chars id_char id) ids = true -> Forall clean_id ids.
Proof.
  rewrite forallb_forall. intros H. apply Forall_forall. intros id Hid. apply list_elem_of_In in Hid.
  specialize (H id Hid). apply andb_true_iff in H as [H1 H2]. split; [|done].
  by apply negb_true_iff, String.eqb_neq in H1.
Qed.

Lemma optimizer_decides_witness :
  (exists result, Some (Infeasible ["long"]) = Some result /\
    match result with
    | Optimized moves _ _ _ _ => valid_placement [room_101; room_102] fragmented_hotel (room_after moves)
    | Infeasible _ => Forall clean_id (occupancyId <$> filter is_movable fragmented_hotel) ->
        forall p, ~ valid_placement [room_101; room_102] fragmented_hotel p
    | BudgetExhausted _ => True
    end) /\
  Forall clean_id (occupancyId <$> filter is_movable fragmented_hotel).
Proof.
  split.
  - apply (optimizer_decides [room_101; room_102] fragmented_hotel (Some 500)). vm_compute. reflexivity.
  - apply clean_ids_dec. vm_compute. reflexivity.
Defined.

(** Ids that hold a separator can collide in the memo.  With [|2:] in room 1 and with
    it in room 2 the key of the remaining stays reads [a,b,c|1:|2:|2:|3:]; the search
    fails with the stay in room 1, takes room 2 for the same state, and answers that
    the hotel is infeasible although every stay has a room. *)
Definition colliding_rooms : list Room :=
  [{| roomId := "1"; sortOrder := 1 |}; {| roomId := "2"; sortOrder := 2 |}; {| roomId := "3"; sortOrder := 3 |}].

Definition colliding_hotel : list Occupancy :=
  [stay_of "block-1" (Some "1") "2026-03-05" "2026-03-06" false;
   stay_of "block-3" (Some "3") "2026-03-01" "2026-03-03" false;
   stay_of "a" None "2026-03-02" "2026-03-05" true;
   stay_of "|2:" None "2026-03-01" "2026-03-03" true;
   stay_of "b" None "2026-03-03" "2026-03-06" true;
   stay_of "c" None "2026-03-03" "2026-03-06" true].

Definition colliding_plan (o : Occupancy) : option string :=
  if String.eqb (occupancyId o) "a" || String.eqb (occupancyId o) "block-1" then Some "1"
  else if String.eqb (occupancyId o) "c" || String.eqb (occupancyId o) "block-3" then Some "3"
  else Some "2".

(** The placement conditions, checked stay by stay *)
Definition placement_ok (rooms : list Room) (occs : list Occupancy) (p : Occupancy -> option string) : bool :=
  forallb (fun o =>
    existsb (fun r => bool_decide (p o = Some (roomId r))) rooms &&
    (movable o || bool_decide (p o = occupancyRoomId o)) &&
    forallb (fun o' => bool_decide (occupancyId o = occupancyId o') || negb (movable o) ||
      bool_decide (p o <> p o') || negb (overlaps (stay o) (stay o'))) occs) occs.

Lemma placement_ok_valid rooms occs p : placement_ok rooms occs p = true -> valid_placement rooms occs p.
Proof.
  unfold placement_ok. rewrite forallb_forall. intros H.
  assert (Hs : forall o, o ∈ occs -> _) by (intros o Ho; apply list_elem_of_In in Ho; exact (H o Ho)).
  clear H. split.
  - intros o Ho. specialize (Hs o Ho). apply andb_true_iff in Hs as [[Hs _]%andb_true_iff _].
    apply existsb_exists in Hs as (r & Hr & E%bool_decide_eq_true). exists r. by rewrite list_elem_of_In.
  - intros o Ho Hm. specialize (Hs o Ho). apply andb_true_iff in Hs as [[_ Hs]%andb_true_iff _].
    rewrite Hm in Hs. by apply bool_decide_eq_true in Hs.
  - intros o o' Ho Ho' Hne Hm Hp. specialize (Hs o Ho). apply andb_true_iff in Hs as [_ Hs].
    rewrite forallb_forall in Hs. specialize (Hs o' (proj1 (list_elem_of_In _ _) Ho')).
    rewrite (bool_decide_false _ Hne), Hm, Hp, (bool_decide_false (p o' <> p o')) in Hs by tauto.
    by apply negb_true_iff in Hs.
Qed.

Theorem colliding_ids_infeasible :
  optimizePmsRoomAssignments colliding_rooms colliding_hotel None =
    Ret (Some (Infeasible ["|2:"; "a"; "b"; "c"])) /\
  valid_placement colliding_rooms colliding_hotel colliding_plan.
Proof. split; [|apply placement_ok_valid]; vm_compute; reflexivity. Qed.
Lemma optimizer_report_witness :
  let after := relocate [{| moveOccupancyId := "b"; fromRoomId := None; toRoomId := Some "102" |};
     {| moveOccupancyId := "a"; fromRoomId := Some "102"; toRoomId := Some "101" |}] <$> small_hotel in
  0 = totalGapNights [room_102; room_101] small_hotel /\
  0 = totalGapNights [room_102; room_101] after /\
  2 = usedRoomCount [room_102; room_101] small_hotel /\
  2 = usedRoomCount [room_102; room_101] after /\
  (originalAssignmentIsFeasible [room_102; room_101] small_hotel = true -> 2 < 2 \/ 2 = 2 /\ 0 <= 0).
Proof.
  apply (optimizer_report [room_102; room_101] small_hotel None). vm_compute. reflexivity.
Defined.

Definition fragmented_state : SearchState :=
  {| schedules := initial_board [room_101; room_102] fragmented_hotel; assigned := ∅; count := 0;
     exhausted := false; seen := ∅ |}.

Lemma fragmented_unplaced : unplaced (filter is_movable fragmented_hotel) fragmented_state.
Proof.
  intros o _. split; [done|]. intros s Hs. cbn in Hs.
  apply elem_of_cons in Hs as [->|[->|[]%elem_of_nil]%elem_of_cons]; cbn; apply not_elem_of_nil.
Qed.

Lemma search_terminates_witness :
  (exists found st',
    searchPlacement 2 500 (filter is_movable fragmented_hotel) fragmented_state = Some (found, st') /\
    (forall fuel', (length (filter is_movable fragmented_hotel) < fuel')%nat ->
       searchPlacement fuel' 500 (filter is_movable fragmented_hotel) fragmented_state = Some (found, st')) /\
    (unplaced (filter is_movable fragmented_hotel) fragmented_state -> found = false ->
       schedules st' = schedules fragmented_state /\ assigned st' = assigned fragmented_state)) /\
  unplaced (filter is_movable fragmented_hotel) fragmented_state /\
  fst <$> searchPlacement 2 500 (filter is_movable fragmented_hotel) fragmented_state = Some false.
Proof.
  split; [|split; [apply fragmented_unplaced | vm_compute; reflexivity]].
  apply (search_terminates 2 500). vm_compute. repeat constructor.
Defined.

Lemma search_work_bounded_witness :
  exists found st',
    searchPlacement 2 (search_budget (Some 500) (filter is_movable fragmented_hotel) [room_101; room_102])
      (filter is_movable fragmented_hotel) fragmented_state = Some (found, st') /\
    500 <= search_budget (Some 500) (filter is_movable fragmented_hotel) [room_101; room_102] <= 100000 /\
    count st' <= search_budget (Some 500) (filter is_movable fragmented_hotel) [room_101; room_102] +
      Z.of_nat (length (filter is_movable fragmented_hotel)) * Z.of_nat (length [room_101; room_102]).
Proof.
  eexists _, _. split; [vm_compute; reflexivity|].
  eapply (search_work_bounded 2 (Some 500) [room_101; room_102] _ fragmented_state).
  - reflexivity.
  - apply (NoDup_singleton "long").
  - reflexivity.
  - reflexivity.
  - vm_compute. reflexivity.
Defined.

(** * Room combinations at concrete inputs

    A family of three adults and a child, two room types with one room each, and
    the instances of the search's theorems there. *)

Definition room_limits (adults_ children_ occupancy_ available : Z) : RoomLimits :=
  {| maxAdults := adults_; maxChildren := children_; maxOccupancy := occupancy_; availableRooms := available |}.

Definition candidate (id key : string) (l : RoomLimits) (price : Z) (methods : list string)
    : RoomCombinationCandidate :=
  {| candidateRoomTypeId := id; candidateOfferKey := key; limits := l; priceMinor := price;
     candidateCurrency := "EUR"; candidateMethods := methods; linkedGroupId := None |}.

Definition house : list RoomCombinationCandidate :=
  [candidate "a" "flex" (room_limits 2 2 3 1) 12000 ["card"; "cash"];
   candidate "b" "flex" (room_limits 2 1 2 1) 9000 ["cash"];
   candidate "a" "nr" (room_limits 2 2 3 1) 10000 ["cash"; "card"]].

Definition family : Party := {| partyAdults := 3; partyChildren := 1; partyRooms := 0 |}.

Definition no_limits : SearchLimits :=
  {| limitMaxWork := None; limitMaxOptions := None; limitMinRooms := None; limitMaxRooms := None |}.

Definition budget (n : Z) : SearchLimits :=
  {| limitMaxWork := Some n; limitMaxOptions := Some 5; limitMinRooms := Some 1; limitMaxRooms := Some 99 |}.

(** The cheapest rates of both room types, paid in cash *)
Definition both_rooms : RoomCombinationOption :=
  {| selection :=
       {| lines := [{| roomTypeId := "a"; publicOfferKey := "nr"; guests := [{| adults := 1; children := 1 |}] |};
                    {| roomTypeId := "b"; publicOfferKey := "flex"; guests := [{| adults := 2; children := 0 |}] |}] |};
     optionTotalMinor := 19000; optionCurrency := "EUR"; optionMethods := ["cash"] |}.

Definition family_answer : SearchResult :=
  Eval vm_compute in
    match searchRoomCombinations house family no_limits with Ret r => r | Throw _ => incomplete end.

Example family_search : searchRoomCombinations house family no_limits = Ret family_answer.
Proof. vm_compute. reflexivity. Qed.

Example family_first : complete family_answer = true /\ head (options family_answer) = Some both_rooms.
Proof. vm_compute. split; reflexivity. Qed.

(** One room type with room for everyone is preferred to a cheaper mix. *)
Example one_type_first :
  searchRoomCombinations
    [candidate "a" "flex" (room_limits 2 0 2 2) 200 ["card"]; candidate "b" "flex" (room_limits 2 0 2 1) 1 ["card"]]
    {| partyAdults := 4; partyChildren := 0; partyRooms := 0 |} no_limits =
  Ret {| complete := true;
         options := [{| selection := {| lines := [{| roomTypeId := "a"; publicOfferKey := "flex";
                          guests := [{| adults := 2; children := 0 |}; {| adults := 2; children := 0 |}] |}] |};
                        optionTotalMinor := 400; optionCurrency := "EUR"; optionMethods := ["card"] |}] |}.
Proof. vm_compute. reflexivity. Qed.

Example bad_party : searchRoomCombinations house {| partyAdults := 0; partyChildren := 1; partyRooms := 0 |} no_limits =
  Throw "Unsupported guest party".
Proof. reflexivity. Qed.

Example bad_limits : searchRoomCombinations house family
    {| limitMaxWork := None; limitMaxOptions := None; limitMinRooms := Some 3; limitMaxRooms := Some 2 |} =
  Throw "Invalid search limits".
Proof. reflexivity. Qed.

(** ** Selections *)

Definition selected_id : string := "0A1b2c3d-0000-4000-8000-00000000000F".

Definition raw_selection : jsval :=
  obj [("contractVersion", VString "booking-room-selection.v1");
       ("lines", arr [obj [("roomTypeId", VString selected_id); ("publicOfferKey", VString "flex");
                           ("guests", arr [obj [("adults", VInt 2); ("children", VInt 1)]]);
                           ("note", VString "ignored")]])].

Definition read_selection : BookingRoomSelection :=
  {| lines := [{| roomTypeId := to_lower selected_id; publicOfferKey := "flex";
                  guests := [{| adults := 2; children := 1 |}] |}] |}.

Example read_selection_ok : parseBookingRoomSelection raw_selection = Some read_selection.
Proof. vm_compute. reflexivity. Qed.

(** ** The theorems *)

Lemma room_selection_roundtrip_witness :
  parseBookingRoomSelection raw_selection = Some read_selection /\
  parseBookingRoomSelection (selection_value read_selection) = Some read_selection.
Proof.
  split; [exact read_selection_ok|]. destruct (room_selection_roundtrip raw_selection read_selection read_selection_ok) as [H _].
  exact H.
Defined.

Lemma allocate_decides_witness :
  allocation (room_limits 2 2 3 1) 2 3 3 [{| adults := 2; children := 1 |}; {| adults := 1; children := 2 |}] /\
  forall rs, ~ allocation (room_limits 2 2 3 1) 2 4 3 rs.
Proof.
  assert (Hl : limits_ok (room_limits 2 2 3 1)) by (split; cbn; lia). split.
  - pose proof (allocate_decides (room_limits 2 2 3 1) 2 3 3 Hl ltac:(lia) ltac:(lia)) as H. exact H.
  - pose proof (allocate_decides (room_limits 2 2 3 1) 2 4 3 Hl ltac:(lia) ltac:(lia)) as H. exact H.
Defined.

Lemma combination_options_sound_witness :
  partyAdults (bookingRoomSelectionParty (selection both_rooms)) = 3 /\
  partyChildren (bookingRoomSelectionParty (selection both_rooms)) = 1.
Proof.
  assert (Ho : both_rooms ∈ options family_answer) by (vm_compute; left).
  destruct (combination_options_sound house family no_limits family_answer both_rooms family_search
              (proj1 family_first) Ho) as (H1 & H2 & _). exact (conj H1 H2).
Defined.

Lemma combination_search_decides_witness :
  exists p, plan_for house family 1 99 p /\ 19000 <= sum_over choice_price p.
Proof.
  destruct (combination_search_decides house family no_limits family_answer family_search (proj1 family_first))
    as (Hnone & Hone & Hfirst).
  pose (p := [(candidate "a" "nr" (room_limits 2 2 3 1) 10000 ["cash"; "card"], [{| adults := 2; children := 1 |}]);
              (candidate "b" "flex" (room_limits 2 1 2 1) 9000 ["cash"], [{| adults := 1; children := 0 |}])]).
  assert (Hp : plan_for house family 1 99 p).
  { split; try (vm_compute; done). split.
    - repeat constructor; vm_compute; done.
    - vm_compute. repeat constructor; set_solver.
    - vm_compute. constructor.
    - exists "EUR". by repeat constructor.
    - exists "cash". repeat constructor; vm_compute; set_solver. }
  exists p. split; [exact Hp|]. apply (Hfirst p both_rooms (tail (options family_answer)) Hp); [by vm_compute|].
  right. intros p' Hp' Hl. specialize (Hone p' Hp' Hl). vm_compute in Hone. inversion Hone. done.
Defined.

Lemma search_budget_witness :
  exists cost, forall n, invalid_limits n 5 1 99 = false ->
    searchRoomCombinations house family (budget n) = Ret (if n <? cost then incomplete else family_answer).
Proof.
  destruct (CombinationGuarantees.search_budget house family 1 99 5 1000000 eq_refl eq_refl) as (cost & r & _ & _ & H).
  exists cost. assert (E : Ret (if 1000000 <? cost then incomplete else r) = Ret family_answer).
  { rewrite <- (H 1000000 eq_refl). vm_compute. reflexivity. }
  intros n Hn. unfold budget. rewrite (H n Hn). destruct (1000000 <? cost); [discriminate E|]. by injection E as ->.
Defined.
