(* ===== verification/PricingExamples.v ===== *)
(** * Prices at concrete inputs

    A room with a flexible rate, a non-refundable rate linked to it, dearer
    Saturdays and one dated price: what stays cost, and the instances of the
    pricing theorems there. *)

From S2P Require Import Prelude JsValue CalendarDates Money ReplacementPricing PricingConfiguration PricingCalculator PricingFacts PricingGuarantees PricingConversion.

(** A host that knows two currencies *)
#[export] Instance host_currencies : Currencies := {|
  currencies := fun c => String.eqb c "EUR" || String.eqb c "IDR";
  maximumFractionDigits := fun c => if String.eqb c "EUR" then Some 2 else if String.eqb c "IDR" then Some 0 else None
|}.

Example scales : pricingCurrencyScale "EUR" = Some 2 /\ pricingCurrencyScale "IDR" = Some 2 /\
  pricingCurrencyScale "XXX" = None.
Proof. repeat split; reflexivity. Qed.

(** ** A configuration *)

Definition restriction_rules (least : Z) : jsval :=
  obj [("minArrivalNights", VInt least); ("maxStayNights", VNull); ("closedToArrival", VBool false);
       ("closedToDeparture", VBool false); ("stopSell", VBool false)].

Definition own_restrictions : jsval :=
  obj [("kind", VString "own"); ("rules", restriction_rules 1); ("seasons", arr []);
       ("dates", arr [obj [("date", VString "2026-12-31"); ("rules", restriction_rules 3)]])].

Definition breakfast_meal : jsval :=
  obj [("kind", VString "breakfast");
       ("charge", obj [("kind", VString "person"); ("adultMinor", VString "1500");
                       ("childBandAmountsMinor", arr [VString "0"; VString "700"])])].

Definition occupancy_price : jsval :=
  obj [("mode", VString "occupancy"); ("amountsMinor", arr [VString "10000"; VString "13000"; VString "15500"])].

Definition flex_offer : jsval :=
  obj [("id", VString "flex"); ("termsRevision", VString "t1"); ("meal", breakfast_meal);
       ("price", obj [("kind", VString "independent");
          ("calendar", obj [("base", occupancy_price); ("months", arr []); ("seasons", arr []);
             ("weekdays", arr [obj [("day", VInt 5);
                ("adjustment", obj [("kind", VString "percentage"); ("basisPoints", VInt 333)])]]);
             ("dates", arr [])])]);
       ("restrictions", own_restrictions)].

Definition nr_offer : jsval :=
  obj [("id", VString "nr"); ("termsRevision", VString "t2"); ("meal", breakfast_meal);
       ("price", obj [("kind", VString "linked"); ("parentId", VString "flex");
          ("adjustment", obj [("kind", VString "percentage"); ("basisPoints", VInt (-1000))]);
          ("dateOverrides", arr [obj [("date", VString "2026-08-02");
             ("price", obj [("mode", VString "flat"); ("amountMinor", VString "9999")])]])]);
       ("restrictions", obj [("kind", VString "inherit")])].

Definition child_band (from_ through_ : Z) (minor_ : string) (counts : bool) : jsval :=
  obj [("fromAge", VInt from_); ("throughAge", VInt through_); ("nightlyMinor", VString minor_);
       ("countsTowardCapacity", VBool counts)].

Definition configuration : jsval :=
  obj [("version", VString "pricing.v2"); ("propertyId", VString "property"); ("roomTypeId", VString "room");
       ("revision", VInt 1); ("currency", VString "EUR");
       ("capacity", obj [("total", VInt 4); ("adults", VInt 3); ("children", VInt 2)]);
       ("children", obj [("adultFromAge", VInt 12);
                         ("bands", arr [child_band 0 2 "0" false; child_band 3 11 "2000" true])]);
       ("offers", arr [flex_offer; nr_offer])].

(** Two adults and a child of seven from Friday to Monday *)
Definition stay_request : jsval :=
  obj [("propertyId", VString "property"); ("roomTypeId", VString "room"); ("offerId", VString "nr");
       ("expectedRevision", VInt 1);
       ("expectedTermsRevisions", obj [("flex", VString "t1"); ("nr", VString "t2")]);
       ("checkIn", VString "2026-07-31"); ("checkOut", VString "2026-08-03");
       ("guests", obj [("adults", VInt 2); ("childAgesAtCheckIn", arr [VInt 7])])].

Definition config : PricingConfiguration :=
  Eval vm_compute in
    default {| propertyId := ""; roomTypeId := ""; revision := 0; currency := "";
               capacity := {| total := 0; capacityAdults := 0; capacityChildren := 0 |};
               children := {| adultFromAge := 0; bands := [] |}; offers := [] |}
      (parsePricingConfiguration configuration).

Example configuration_accepted : parsePricingConfiguration configuration = Some config.
Proof. vm_compute. reflexivity. Qed.

Definition empty_stay : PricedStay :=
  {| pricedEvidence := {| evPropertyId := ""; evRoomTypeId := ""; evOfferId := ""; evRevision := 0; evCurrency := "";
                          evGuests := {| guestAdults := 0; childAgesAtCheckIn := [] |}; evTermsRevisions := [] |};
     pricedNights := []; pricedRoomMinor := ""; pricedMealMinor := ""; pricedTotalMinor := "" |}.

Definition stay : PricedStay :=
  Eval vm_compute in
    match calculateReplacementRoomStay configuration stay_request with Some (Ok s) => s | _ => empty_stay end.

Example stay_priced : calculateReplacementRoomStay configuration stay_request = ok stay.
Proof. vm_compute. reflexivity. Qed.

(** Friday (130.00 + 20.00) - 10%, Saturday 3.33% dearer, Sunday at the dated
    price and the child's supplement; breakfast for two adults and a child *)
Example stay_figures :
  (fun n => (nightDate n, roomMinor n, PricingCalculator.mealMinor n, totalMinor n)) <$> pricedNights stay =
    [("2026-07-31", "13500", "3700", "17200"); ("2026-08-01", "13950", "3700", "17650");
     ("2026-08-02", "11999", "3700", "15699")] /\
  pricedTotalMinor stay = "50549".
Proof. vm_compute. split; reflexivity. Qed.

Example too_short : calculateReplacementRoomStay configuration
    (obj [("propertyId", VString "property"); ("roomTypeId", VString "room"); ("offerId", VString "flex");
          ("expectedRevision", VInt 1); ("expectedTermsRevisions", obj [("flex", VString "t1")]);
          ("checkIn", VString "2026-12-31"); ("checkOut", VString "2027-01-01");
          ("guests", obj [("adults", VInt 2); ("childAgesAtCheckIn", arr [])])]) = fail restriction.
Proof. vm_compute. reflexivity. Qed.

Example no_request : calculateReplacementRoomStay configuration VNull = fail invalid_request.
Proof. vm_compute. reflexivity. Qed.

Example no_configuration : calculateReplacementRoomStay VNull stay_request = fail invalid_configuration.
Proof. vm_compute. reflexivity. Qed.

(** ** The theorems *)

Lemma evaluation_total_witness :
  fine (calculateReplacementRoomStay configuration stay_request) /\
  fine (projectReplacementRoomNight configuration stay_request).
Proof. exact (evaluation_total configuration config stay_request configuration_accepted). Defined.

Lemma stay_adds_up_witness :
  Forall night_adds_up (pricedNights stay) /\
  BigInt (pricedTotalMinor stay) = BigInt (pricedRoomMinor stay) + BigInt (pricedMealMinor stay).
Proof.
  destruct (stay_adds_up configuration stay_request stay stay_priced)
    as (first & n & _ & _ & _ & _ & H1 & _ & _ & H2 & _).
  exact (conj H1 H2).
Defined.

Lemma stay_night_projection_witness :
  exists l, projectReplacementRoomNights configuration stay_request ["2026-07-31"; "2026-08-01"; "2026-08-02"] = ok <$> l /\
    night ∘ projectedNight <$> l = pricedNights stay.
Proof.
  destruct (stay_night_projection configuration stay_request stay stay_priced) as (l & H1 & H2 & _).
  exists l. split; [exact H1 | exact H2].
Defined.

Definition offers_read : list (string * PricingOffer) := offer_map (offers config).

Definition linked_offer : option PricingOffer := map_get offers_read "nr".

Lemma chain_pricing_reference_witness :
  exists selected walked, linked_offer = Some selected /\
    walk_chain 3 offers_read (get stay_request "expectedTermsRevisions") selected = ok walked /\
    night_amount 2 1 2000 20666 (rev walked) = reference_amount 2 1 2000 20666 walked /\
    reference_amount 2 1 2000 20666 walked =
      ok (13950, [{| sourceOfferId := "flex"; sourceKind := from_base |};
                  {| sourceOfferId := "flex"; sourceKind := from_weekday |};
                  {| sourceOfferId := "nr"; sourceKind := from_linked |}]).
Proof.
  assert (E : exists selected walked, linked_offer = Some selected /\
    walk_chain 3 offers_read (get stay_request "expectedTermsRevisions") selected = ok walked /\
    reference_amount 2 1 2000 20666 walked =
      ok (13950, [{| sourceOfferId := "flex"; sourceKind := from_base |};
                  {| sourceOfferId := "flex"; sourceKind := from_weekday |};
                  {| sourceOfferId := "nr"; sourceKind := from_linked |}])).
  { eexists _, _. split; [vm_compute; reflexivity|]. split; vm_compute; reflexivity. }
  destruct E as (selected & walked & Es & Ew & Er). exists selected, walked. split; [exact Es|]. split; [exact Ew|].
  split; [exact (chain_pricing_reference 2 1 2000 20666 3 offers_read _ selected walked Ew) | exact Er].
Defined.

(** A tie rounds up, here to a whole rupiah. *)
Lemma adjustment_rounds_witness :
  adjusted 15000 (percentage 333) (pricingAmountStep "EUR") = 15500 /\
  adjusted 1000100 (percentage (-5000)) (pricingAmountStep "IDR") = 500100 /\
  adjust 1000100 (percentage (-5000)) (pricingAmountStep "IDR") = ok 500100.
Proof.
  split; [vm_compute; reflexivity|]. split; [vm_compute; reflexivity|].
  destruct (adjustment_rounds 1000100 (percentage (-5000)) "IDR" ltac:(lia)) as [_ H].
  - cbn. unfold MAX_SAFE_INTEGER. lia.
  - exact H.
Defined.

(** ** Another currency *)

Definition rupiah_rate : jsval :=
  obj [("id", VString "fx"); ("from", VString "EUR"); ("to", VString "IDR"); ("numerator", VString "17500");
       ("denominator", VString "1"); ("observedAt", VString "2026-01-01T00:00:00.000Z");
       ("expiresAt", VString "2026-01-02T00:00:00.000Z")].

Definition rate_instant : jsval := VInt (instant_of "2026-01-01T12:00:00.000Z").

Definition rupiah_config : PricingConfiguration :=
  Eval vm_compute in default config (convertPricingConfigurationCurrency configuration rupiah_rate rate_instant).

Lemma conversion_sound_witness : exists c r,
  convertPricingConfigurationCurrency configuration rupiah_rate rate_instant = Some rupiah_config /\
  parsePricingConfiguration configuration = Some c /\ rate_holds rupiah_rate rate_instant r /\
  configuration_converted (converted_price r) (converted_delta r) c rupiah_config.
Proof.
  assert (E : convertPricingConfigurationCurrency configuration rupiah_rate rate_instant = Some rupiah_config)
    by (vm_compute; reflexivity).
  destruct (conversion_sound configuration rupiah_rate rate_instant rupiah_config E) as (c & r & H1 & H2 & _ & _ & _ & _ & H3 & _).
  exists c, r. exact (conj E (conj H1 (conj H2 H3))).
Defined.

Example rupiah_prices : currency rupiah_config = "IDR" /\ map (fun b => nightlyMinor b) (bands (children rupiah_config)) = ["0"; "35000000"] /\
  forallb (fun a => BigInt a mod 100 =? 0) (tariffs rupiah_config) = true.
Proof. vm_compute. repeat split. Qed.

Lemma complete_conversion_witness : exists old next r,
  traverse parsePricingConfiguration [configuration] = Some old /\
  traverse parsePricingConfiguration [configuration_value rupiah_config] = Some next /\
  validRate rupiah_rate rate_instant = Some r /\
  next ≡ₚ (fun c => map_configuration (converted_amount r) (rateTo r) (revision c + 1) c) <$> old.
Proof.
  assert (E : isCompletePricingCurrencyConversion [configuration] [configuration_value rupiah_config] rupiah_rate rate_instant = true)
    by (vm_compute; reflexivity).
  destruct (complete_conversion [configuration] [configuration_value rupiah_config] rupiah_rate rate_instant E)
    as (old & next & r & H1 & H2 & _ & H3 & H4).
  exists old, next, r. exact (conj H1 (conj H2 (conj H3 H4))).
Defined.
