(* ===== verification/AuthorizationExamples.v ===== *)
(** * Authorization at concrete inputs

    Members of one hotel group, their resolved permissions, and the instances of
    the authorization theorems there. *)

From S2P Require Import Prelude JsValue JsonText Identity Authorization AuthorizationGuarantees AccountTransfer.

Definition the_group : SelectedOrganization :=
  {| organizationId := "group-1"; organizationKind := hotel_group; organizationStatus := organization_active |}.

Definition hotel_one : LinkedResource :=
  {| linkedReference := property_reference "hotel-1"; relationship := owner; linkedStatus := resource_active |}.

Definition hotel_one_pms (status : ResourceStatus) : LinkedResource :=
  {| linkedReference := target_reference pms_target "hotel-1"; relationship := owner; linkedStatus := status |}.

Definition member (role : string) : RequestContext :=
  {| actor := {| internalUserId := "user-1"; actorStatus := user_active |};
     selectedOrganization := the_group;
     membership := {| membershipId := "member-1"; membershipStatus := membership_active; roleKey := role;
                      permissions := []; propertyAccess := None |};
     linkedResources := [hotel_one; hotel_one_pms resource_active]; entitlements := [] |}.

(** What the roles are granted by the database *)
Definition grants_of (kind : OrganizationKind) (role : string) : list PermissionKey :=
  role_defaults role ++ [manifest_read].

Definition scope_with (role mode : string) (overrides : jsval) : MembershipPropertyScope :=
  {| scopeMode := mode; scopeRoleKey := role; accessOrigin := "agency";
     assignedPropertyIds := arr [VString "hotel-1"; VString "hotel-2"]; permissionOverrides := overrides;
     productAccess := Some (VBool true, VBool false); roleDefinitionId := None; roleDefinition := None |}.

Definition finds (scope : MembershipPropertyScope) : option (RequestContext -> option MembershipPropertyScope) :=
  Some (fun _ => Some scope).

Definition more_calendar : jsval :=
  obj [("grant", arr [VString "pms.calendar.manage"]); ("deny", arr [VString "pms.room_status.read"])].

Definition audit : option (RequestContext -> list string -> exn unit) := Some (fun _ _ => Ret tt).

Definition housekeeper : RequestContext := member "housekeeping".
Definition cleaning : MembershipPropertyScope := scope_with "housekeeping" "assigned" more_calendar.

Definition housekeeper_access : MembershipPropertyAccess :=
  {| accessAll := false; accessRoleKey := "housekeeping"; accessPropertyIds := ["hotel-1"; "hotel-2"] |}.

Definition housekeeper_resolution : AuthorizationResolution :=
  {| resolvedPermissions := ["pms.dashboard.read"; "pms.calendar.read"; manifest_read; "pms.calendar.manage"];
     resolvedEntitlements := None; resolvedPropertyAccess := Some housekeeper_access |}.

Example housekeeper_resolved :
  createAuthorizationResolver grants_of None (finds cleaning) audit housekeeper = ([], Ret housekeeper_resolution).
Proof. vm_compute. reflexivity. Qed.

(** Guests' contacts are refused to housekeeping, and the refusal is audited. *)
Definition too_much : MembershipPropertyScope :=
  scope_with "housekeeping" "assigned" (obj [("grant", arr [VString "pms.guest_contact.read"]); ("deny", arr [])]).

Example too_much_refused :
  createAuthorizationResolver grants_of None (finds too_much) audit housekeeper =
    ([["forbidden_permission"]], Throw "AuthorizationResolutionError").
Proof. vm_compute. reflexivity. Qed.

Example foreign_scope_nothing :
  createAuthorizationResolver grants_of None (finds (scope_with "front_desk" "all" VNull)) audit housekeeper =
    ([], Ret nothing_allowed).
Proof. vm_compute. reflexivity. Qed.

Example owner_of_all_nothing :
  createAuthorizationResolver grants_of None (finds (scope_with "external_owner" "all" VNull)) audit
    (member "external_owner") = ([], Ret nothing_allowed).
Proof. vm_compute. reflexivity. Qed.

(** ** Properties and entitlements *)

Definition of_hotel (id : string) : PropertyAccessRequirement :=
  {| requiredPropertyId := id; targetResource := pms_target; requiredRelationships := None |}.

Example hotel_allowed : requirePropertyAccess (fun _ => Some cleaning) housekeeper (of_hotel "hotel-1") = Ret housekeeper.
Proof. vm_compute. reflexivity. Qed.

Example unlinked_refused : requirePropertyAccess (fun _ => Some cleaning) housekeeper (of_hotel "hotel-2") =
  Throw "The authenticated user is not authorized for this resource.".
Proof. vm_compute. reflexivity. Qed.

Definition pms_row (status : EntitlementStatus) (r : option ResourceReference) : ProductEntitlementRow :=
  {| rowProduct := pms; rowKey := "pms-core"; rowStatus := status; rowResource := r |}.

Definition use_pms : EntitlementRequirement :=
  {| requirementProduct := pms; requirementKey := "property-management";
     requirementResource := Some (target_reference pms_target "hotel-1") |}.

Definition entitled (rows : list ProductEntitlementRow) : bool :=
  hasActiveEntitlement (with_entitlements housekeeper (findEntitlementsForContext (fun _ => rows) housekeeper)) use_pms.

Example entitled_by_organization : entitled [pms_row entitlement_active None] = true.
Proof. reflexivity. Qed.

Example suspended_resource : entitled [pms_row entitlement_active None;
  pms_row entitlement_suspended (Some (target_reference pms_target "hotel-1"))] = false.
Proof. reflexivity. Qed.

(** ** Instances *)

Lemma cleaning_member : agency_member housekeeper cleaning ["hotel-1"; "hotel-2"].
Proof. split; try reflexivity; by right. Qed.

Lemma resolver_permissions_witness :
  createAuthorizationResolver grants_of None (finds cleaning) audit housekeeper = ([], Ret housekeeper_resolution) /\
  valid_configuration housekeeper (grants_of hotel_group "housekeeping") cleaning /\
  forall p, p ∈ resolvedPermissions housekeeper_resolution <->
    granted housekeeper (grants_of hotel_group "housekeeping") cleaning p /\ product_granted true false p.
Proof.
  assert (H : createAuthorizationResolver grants_of None (finds cleaning) audit housekeeper =
    ([], Ret housekeeper_resolution)) by (vm_compute; reflexivity).
  pose proof (resolver_permissions grants_of None (finds cleaning) audit housekeeper eq_refl) as Hr. rewrite H in Hr.
  destruct Hr as (_ & Hr & _). destruct (Hr cleaning ["hotel-1"; "hotel-2"] true false) as [Hv _ Hp _].
  - split; [reflexivity|]. split; [exact cleaning_member | reflexivity].
  - split; [exact H|]. split; [exact Hv | exact Hp].
Defined.

Lemma least_privilege_witness :
  exists scope ids, found_scope (finds cleaning) housekeeper = Some scope /\ agency_member housekeeper scope ids /\
    resolvedPropertyAccess housekeeper_resolution = Some (access_of scope ids) /\
    (roleKey (membership housekeeper) = "external_owner" -> accessAll (access_of scope ids) = false) /\
    (configured scope -> ~ account_administrator scope ->
     within_limits housekeeper scope (fun q => q ∈ resolvedPermissions housekeeper_resolution) "pms.calendar.manage") /\
    (~ configured scope \/ account_administrator scope ->
     "pms.calendar.manage" ∈ role_grants grants_of housekeeper) /\
    (account_administrator scope -> roleKey (membership housekeeper) = "hotel_owner").
Proof.
  apply (least_privilege grants_of None (finds cleaning) audit housekeeper [] housekeeper_resolution).
  - reflexivity.
  - vm_compute. reflexivity.
  - apply includes_elem. reflexivity.
Defined.

Lemma invalid_configuration_refused_witness :
  ["forbidden_permission"] <> [] /\
  createAuthorizationResolver grants_of None (finds too_much) audit housekeeper =
    ([["forbidden_permission"]], Throw "AuthorizationResolutionError").
Proof.
  exact (invalid_configuration_refused grants_of None (finds too_much) audit housekeeper too_much housekeeper_access
    ["forbidden_permission"] eq_refl eq_refl ltac:(vm_compute; reflexivity)).
Defined.

(** ** Account transfers *)

Definition member_id (digit : string) : string := "0000000" +:+ digit +:+ "-0000-1000-8000-000000000000".
Definition revision_of (digit : string) : string := String.concat "" (replicate 64 digit).

Definition staff_role : TeamRolePolicy :=
  {| securityClass := "staff"; baseRoleKey := "hotel_custom"; presetKey := None;
     defaultPermissions := arr [VString "pms.calendar.read"] |}.

Definition transfer_request : jsval :=
  obj [("targetMembershipId", VString (member_id "B"));
       ("expectedActorRevision", VString (revision_of "a")); ("expectedTargetRevision", VString (revision_of "b"));
       ("formerAdmin", obj
         [("roleDefinitionId", VString (member_id "3")); ("expectedRoleRevision", VString "7");
          ("propertyAccessMode", VString "assigned"); ("propertyIds", arr [VString (member_id "5"); VString (member_id "4")]);
          ("permissionOverrides", obj [("grant", arr [VString "pms.calendar.manage"]); ("deny", arr [])]);
          ("productAccess", obj [("pms", VBool true); ("booking", VBool false)])])].

Definition transfer_context : AdminTransferValidationContext :=
  {| transferOrganizationId := member_id "1"; actorMembershipId := member_id "A"; actorRevision := revision_of "a";
     currentTargetMembershipId := member_id "B"; targetRevision := revision_of "b";
     currentRole := {| currentPolicy := staff_role; currentRoleId := member_id "3";
                       currentRoleOrganizationId := member_id "1"; currentRoleRevision := "7" |};
     currentPropertyIds := [member_id "4"; member_id "5"; member_id "6"] |}.

Definition transfer_read : AdminTransferRequest :=
  {| targetMembershipId := member_id "b"; expectedActorRevision := revision_of "a";
     expectedTargetRevision := revision_of "b";
     formerAdmin := {| formerRoleDefinitionId := member_id "3"; expectedRoleRevision := "7"; allProperties := false;
                       formerPropertyIds := [member_id "4"; member_id "5"];
                       formerOverrides := {| grant := ["pms.calendar.manage"]; deny := [] |};
                       formerPms := true; formerBooking := false |} |}.

Example transfer_parsed : parseAdminTransferRequest transfer_request = Some transfer_read.
Proof. vm_compute. reflexivity. Qed.

Definition transfer_digest : string := adminTransferRequestDigest id transfer_read (member_id "1") (member_id "A").

Lemma transfer_sound_witness :
  validateAdminTransferRequest id transfer_request transfer_context = Ok (transfer_read, transfer_digest) /\
  asks_for transfer_request transfer_read /\
  targetMembershipId transfer_read <> to_lower (actorMembershipId transfer_context).
Proof.
  assert (H : validateAdminTransferRequest id transfer_request transfer_context = Ok (transfer_read, transfer_digest))
    by (vm_compute; reflexivity).
  destruct (transfer_sound id transfer_request transfer_context _ _ H) as (Ha & _ & Hne & _).
  split; [exact H|]. split; [exact Ha | exact Hne].
Defined.
