(* ===== verification/FolioExamples.v ===== *)
(** * Folios at concrete inputs

    A stay of two nights with an add-on and a discount: the command, its export,
    and the instances of the folio theorems there. *)

From S2P Require Import Prelude JsValue JsonText CalendarDates Money FolioDecimals FinanceFolios FolioCsv FolioGuarantees FolioWrites.

#[local] Instance text_collation : Collation := fun a b =>
  match String.compare a b with Lt => -1 | Eq => 0 | Gt => 1 end.
#[local] Instance text_collation_uuids : UuidCollation.
Proof. split. intros a b _ _. unfold localeCompare, text_collation. by destruct (String.compare a b). Qed.

Example half_rounds_up : roundedProduct "0.5000" "0.0001" = 1.
Proof. reflexivity. Qed.

Example half_rounds_down : roundedProduct "0.5000" "-0.0001" = -1.
Proof. reflexivity. Qed.

Example decimals_written : writeDecimal (VString "12.5") false false = Some "12.5000" /\
  writeDecimal (VString "-0.00") true true = Some "0.0000" /\ writeDecimal (VString "01") true true = None.
Proof. vm_compute. auto. Qed.

Definition folio_uuid (digit : string) : string := "0000000" +:+ digit +:+ "-0000-4000-8000-000000000000".

Definition raw_line (p : Z) (kind quantity amount : string) : jsval :=
  obj [("position", VInt p); ("kind", VString kind); ("description", VString ("=" +:+ kind));
       ("quantity", VString quantity);
       ("unitAmount", obj [("amount", VString amount); ("currency", VString "EUR")]);
       ("serviceOn", VString "2026-05-02");
       ("source", obj [("type", VString "stay"); ("id", VString "stay-1"); ("revision", VInt 1)])].

Definition raw_folio : jsval :=
  obj [("commandId", VString (folio_uuid "1")); ("idempotencyKey", VString "key");
       ("recipient", obj [("name", VString "Ada"); ("email", VNull)]);
       ("serviceFrom", VString "2026-05-01"); ("serviceTo", VString "2026-05-03");
       ("lines", arr [raw_line 2 "adjustment" "1" "-20"; raw_line 1 "room" "2" "120.50"]);
       ("paymentRefs", arr [obj [("paymentId", VString (folio_uuid "9"));
                                 ("amount", obj [("amount", VString "50"); ("currency", VString "EUR")])]])].

Definition euro (a : string) : FinanceFolioMoney := {| amount := a; moneyCurrency := "EUR" |}.

Definition read_line (p : Z) (k q a : string) : FinanceFolioLineWrite :=
  {| position := p; kind := k; description := "=" +:+ k; quantity := q; unitAmount := euro a;
     serviceOn := "2026-05-02"; source := {| sourceType := "stay"; sourceId := "stay-1"; sourceRevision := 1 |} |}.

Definition read_folio : FinanceFolioWrite :=
  {| commandId := folio_uuid "1"; idempotencyKey := "key"; expectedRevision := None; bookingId := None;
     writeRecipient := {| recipientName := "Ada"; recipientEmail := None |};
     serviceFrom := "2026-05-01"; serviceTo := "2026-05-03";
     lines := [read_line 1 "room" "2.0000" "120.5000"; read_line 2 "adjustment" "1.0000" "-20.0000"];
     paymentRefs := [{| paymentId := folio_uuid "9"; paymentAmount := euro "50.0000" |}] |}.

Example folio_parsed : parseFinanceFolioWrite raw_folio create = Some read_folio.
Proof. vm_compute. reflexivity. Qed.

Example folio_not_a_correction : parseFinanceFolioWrite raw_folio correct = None.
Proof. vm_compute. reflexivity. Qed.

(** ** The export *)

Definition line_of (digit : string) (w : FinanceFolioLineWrite) (total : string) : FinanceFolioLine :=
  {| lineId := folio_uuid digit; lineWrite := w; lineTotal := euro total |}.

Definition ready_folio : FinanceFolio :=
  {| folioId := folio_uuid "2"; folioPropertyId := folio_uuid "3"; folioBookingId := None; folioRevision := 1;
     state := "ready"; folioRecipient := {| recipientName := "@Ada"; recipientEmail := None |};
     folioFrom := "2026-05-01"; folioTo := "2026-05-03"; folioCurrency := "EUR";
     folioLines := [line_of "5" (read_line 2 "adjustment" "1.0000" "-20.0000") "-20.0000";
                    line_of "4" (read_line 1 "room" "2.0000" "120.5000") "241.0000"];
     folioTotal := euro "221.0000";
     folioPaymentRefs := [{| paymentId := folio_uuid "9"; paymentAmount := euro "50.0000" |}];
     sourceDigest := String.concat EmptyString (replicate 64 "a") |}.

Definition exported_rows_of : list (list string) :=
  Eval vm_compute in default [] (all_rows (folio_uuid "3") "EUR" [] [ready_folio]).

Definition artifact : FinanceFolioCsvArtifact :=
  Eval vm_compute in
    match buildFinanceFolioCsvArtifact (folio_uuid "3") "EUR" [ready_folio] with
    | Ret a => a
    | Throw _ => {| artifactPropertyId := ""; artifactCurrency := ""; filename := ""; rowCount := 0; body := "";
                    auditEvidence := [] |}
    end.

Example export_built : buildFinanceFolioCsvArtifact (folio_uuid "3") "EUR" [ready_folio] = Ret artifact.
Proof. vm_compute. reflexivity. Qed.

Example formula_guarded : cell 5 (hd [] exported_rows_of) = "'@Ada".
Proof. reflexivity. Qed.

Example foreign_folio_refused : buildFinanceFolioCsvArtifact (folio_uuid "4") "EUR" [ready_folio] =
  Throw "Folio CSV evidence violates the export contract".
Proof. vm_compute. reflexivity. Qed.

Definition raw_snapshot : jsval :=
  obj [("formatVersion", VString FINANCE_FOLIO_CSV_VERSION); ("propertyId", VString (folio_uuid "3"));
       ("currency", arr [VString "EUR"]); ("filters", obj [("state", VString "ready"); ("from", VString "2026-05-01")]);
       ("snapshotAt", VString "2026-05-04T10:00:00.000Z");
       ("manifest", arr [obj [("folioId", VString (folio_uuid "2")); ("revisionId", VString (folio_uuid "6"));
          ("revision", VInt 1); ("sourceDigest", VString (String.concat EmptyString (replicate 64 "a")))]])].

Definition read_snapshot : FinanceFolioExportSnapshot :=
  {| snapshotPropertyId := folio_uuid "3"; snapshotCurrency := "EUR";
     filters := {| filterFrom := Some "2026-05-01"; filterTo := None; filterSearch := None; filterSort := "createdAt_desc" |};
     snapshotAt := "2026-05-04T10:00:00.000Z";
     manifest := [{| selectedFolioId := folio_uuid "2"; selectedRevisionId := folio_uuid "6"; selectedRevision := 1;
                     selectedDigest := String.concat EmptyString (replicate 64 "a") |}] |}.

(** ** Instances *)

Lemma folio_write_sound_witness : parseFinanceFolioWrite raw_folio create = Some read_folio /\ folio_write_ok create read_folio.
Proof. split; [vm_compute; reflexivity | apply (folio_write_sound raw_folio); vm_compute; reflexivity]. Defined.

Lemma folio_write_amounts_witness : 0 <= sumZ (line_amount <$> lines read_folio) < 10 ^ 19.
Proof. exact (proj2 (folio_write_amounts raw_folio create read_folio ltac:(vm_compute; reflexivity))). Defined.

Lemma folio_write_reads_back_witness : parseFinanceFolioWrite (folio_write_value read_folio) create = Some read_folio.
Proof. apply (folio_write_reads_back raw_folio). vm_compute. reflexivity. Defined.

Lemma folio_csv_reads_back_witness : exists rows, read_csv (body artifact) = Some (FINANCE_FOLIO_CSV_COLUMNS :: rows) /\
  length rows = 2%nat.
Proof.
  destruct (folio_csv_reads_back (folio_uuid "3") "EUR" [ready_folio] artifact ltac:(vm_compute; reflexivity))
    as (rows & Hr & _ & _ & _ & Hn).
  exists rows. split; [exact Hr | exact Hn].
Defined.

Lemma folio_csv_adds_up_witness :
  sumZ ((fun row => scaled (cell 16 row)) <$> exported_rows_of) = sumZ ((fun f => scaled (amount (folioTotal f))) <$> [ready_folio]).
Proof.
  exact (proj1 (folio_csv_adds_up (folio_uuid "3") "EUR" [ready_folio] artifact exported_rows_of
    ltac:(vm_compute; reflexivity) ltac:(vm_compute; reflexivity))).
Defined.

Lemma folio_csv_no_formula_witness : Forall (Forall (fun text => formula text = true -> decimal text = true)) exported_rows_of.
Proof.
  apply (folio_csv_no_formula (folio_uuid "3") "EUR" [ready_folio] artifact); vm_compute; reflexivity.
Defined.

Lemma export_snapshot_reads_back_witness :
  parseFinanceFolioExportSnapshot raw_snapshot = Ret (Some read_snapshot) /\
  parseFinanceFolioExportSnapshot (snapshot_value read_snapshot) = Ret (Some read_snapshot).
Proof.
  split; [vm_compute; reflexivity|].
  exact (proj2 (proj2 (proj2 (export_snapshot_reads_back raw_snapshot read_snapshot ltac:(vm_compute; reflexivity))))).
Defined.
