(* ===== verification/BookingExamples.v ===== *)
(** * Payment windows, inventory rules, amounts, calendars and priced stays at concrete inputs *)

From S2P Require Import Prelude JsValue CalendarDates Money ReplacementPricing PricingConfiguration PublicPricing RoomAssignment AssignmentIntervals PaymentWindows InventoryRules BookingAmounts CalendarStays.

#[local] Instance text_collation : Collation := fun a b =>
  match String.compare a b with Lt => -1 | Eq => 0 | Gt => 1 end.

(** ** Payment windows *)

Definition raw_window (kind : string) (n : Z) (unit : string) : jsval :=
  obj [("kind", VString kind); ("amount", VInt n); ("unit", VString unit)].

(** Cards up to three days before arrival at the latest; at the property within one
    day: nothing in between. *)
Definition raw_windows : jsval :=
  obj [("card", raw_window "at_least" 3 "days"); ("pay_at_property", raw_window "within" 24 "hours");
       ("bank_transfer", VNull)].

Definition read_windows : PaymentMethodBookingWindows :=
  [("card", {| windowKind := at_least; windowAmount := 3; windowUnit := days |});
   ("pay_at_property", {| windowKind := within; windowAmount := 24; windowUnit := hours |})].

Example windows_read : parsePaymentMethodBookingWindows raw_windows = Ok read_windows.
Proof. vm_compute. reflexivity. Qed.

Example gap_of_two_days :
  paymentMethodGaps [card; pay_at_property] read_windows = [{| fromHours := 24; toHours := Some 72 |}].
Proof. vm_compute. reflexivity. Qed.

Example transfers_fill_the_gap :
  paymentMethodGaps WINDOWED_PAYMENT_METHODS read_windows = [{| fromHours := 24; toHours := Some 48 |}].
Proof. vm_compute. reflexivity. Qed.

Example late_transfers_refused :
  parsePaymentMethodBookingWindows (obj [("bank_transfer", raw_window "within" 2 "days")]) =
    Err (bank_transfer_window_too_short, Some "bank_transfer") /\
  parsePaymentMethodBookingWindows (obj [("paypal", VNull)]) = Err (invalid, Some "paypal") /\
  parsePaymentMethodBookingWindows (obj [("card", raw_window "at_least" 3 "hours")]) = Err (invalid, Some "card").
Proof. vm_compute. auto. Qed.

Lemma payment_gaps_exact_witness :
  Exists (in_gap (30 * HOUR_MS)) (paymentMethodGaps [card; pay_at_property] read_windows) <->
  ~ Exists (usable read_windows (30 * HOUR_MS)) [card; pay_at_property].
Proof.
  apply (payment_gaps_exact raw_windows read_windows [card; pay_at_property] (30 * HOUR_MS) windows_read).
  unfold HOUR_MS. lia.
Defined.

(** ** Inventory rules *)

Definition rule_uuid_text (digit : string) : string := "0000000" +:+ digit +:+ "-0000-4000-8000-00000000000a".

Definition raw_rule (i channel room start last : string) (week : list string) : jsval :=
  obj [("id", VString (rule_uuid_text i)); ("type", VString "close_out"); ("value", VNull);
       ("channelIds", arr [VString (rule_uuid_text channel)]); ("roomTypeIds", arr [VString (rule_uuid_text room)]);
       ("startDate", VString start); ("endDate", VString last); ("days", arr (VString <$> week))].

Definition raw_rules : jsval :=
  obj [("expectedOperationId", VNull);
       ("rules", arr [raw_rule "B" "1" "2" "2026-05-05" "2026-05-31" ["we"; "su"];
                      raw_rule "a" "1" "2" "2026-05-01" "2026-05-11" ["su"; "mo"]])].

Definition read_rule (i start last : string) (week : list string) : ChannexInventoryRule :=
  {| ruleId := rule_uuid_text i; ruleType := "close_out"; ruleValue := None; channelIds := [rule_uuid_text "1"];
     roomTypeIds := [rule_uuid_text "2"]; startDate := start; endDate := last; ruleDays := week |}.

Definition spring_rule : ChannexInventoryRule := read_rule "a" "2026-05-01" "2026-05-11" ["mo"; "su"].
Definition late_rule : ChannexInventoryRule := read_rule "b" "2026-05-05" "2026-05-31" ["su"; "we"].
Definition read_rules : ChannexInventoryRulesInput :=
  {| expectedOperationId := None; rules := [spring_rule; late_rule] |}.

Example rules_read : parseInventoryRules raw_rules = Some read_rules.
Proof. vm_compute. reflexivity. Qed.

(** 10 May 2026 is a Sunday. *)
Example rules_meet : inventoryRulesOverlap spring_rule late_rule = true.
Proof. vm_compute. reflexivity. Qed.

Example rules_apart :
  inventoryRulesOverlap spring_rule (read_rule "b" "2026-05-05" "2026-05-09" ["su"; "we"]) = false.
Proof. vm_compute. reflexivity. Qed.

Lemma rules_overlap_exact_witness :
  inventoryRulesOverlap spring_rule late_rule = true <->
  (exists c, c ∈ channelIds spring_rule /\ c ∈ channelIds late_rule) /\
  (exists t, t ∈ roomTypeIds spring_rule /\ t ∈ roomTypeIds late_rule) /\
  (exists day, on_day spring_rule day /\ on_day late_rule day).
Proof.
  apply (rules_overlap_exact raw_rules raw_rules read_rules read_rules spring_rule late_rule rules_read rules_read).
  - by left.
  - right. by left.
  - by vm_compute.
Defined.

(** ** Amounts *)

Example decimals_rounded :
  roundBookingPriceDecimalToMinorUnits (VString "12.345") = Some "1235" /\
  roundBookingPriceDecimalToMinorUnits (VString "0.004999") = Some "0" /\
  roundBookingPriceDecimalToMinorUnits (VString "01.00") = None /\
  roundBookingPriceDecimalToMinorUnits (VInt 12) = None.
Proof. vm_compute. auto. Qed.

Example markups :
  applyBookingPriceMarkup "10000" "12.5" = Ret "112.50" /\ applyBookingPriceMarkup "10000" "-50" = Ret "50.00" /\
  applyBookingPriceMarkup "10000" "-50.1" = Throw "Invalid channel markup." /\
  applyBookingPriceMarkup "9223372036854775807" "1" = Throw invalidInput.
Proof. vm_compute. auto. Qed.

Lemma booking_discount_splits_witness :
  minor_units_text "12345" = true /\
  exists final discount,
    applyBookingPricePercentageDiscount (VString "12345") (VInt 10) =
      Ret (Some {| discountMinorUnits := Z_to_string discount; finalMinorUnits := Z_to_string final |}) /\
    discount + final = BigInt "12345" /\ 0 <= discount /\ 0 <= final /\
    2 * Z.abs (100 * final - BigInt "12345" * (100 - 10)) <= 100 /\
    (2 * Z.abs (100 * final - BigInt "12345" * (100 - 10)) = 100 -> BigInt "12345" * (100 - 10) < 100 * final).
Proof. split; [reflexivity|]. apply (booking_discount_splits "12345" 10); [reflexivity | lia]. Defined.

Lemma booking_amounts_read_back_witness :
  exists t, formatBookingPriceMinorUnits (VString "5") = Some t /\
    roundBookingPriceDecimalToMinorUnits (VString t) = Some "5".
Proof. apply (booking_amounts_read_back "5"); [reflexivity | by vm_compute]. Defined.

(** ** Stays of a calendar *)

#[local] Instance text_laws : CollationLaws.
Proof. split. intros a b _ _. unfold localeCompare, text_collation. by destruct (String.compare a b). Qed.

Definition stay_offer (k : string) (least : Z) : CalendarStayOffer := {| offerKey := k; offerMin := least; offerMax := None |}.

(** One night at a short rate, or three at a long one that goes on *)
Definition march : list CalendarStayDay :=
  [{| stayDate := "2028-03-01"; hasAvailability := true; dayOffers := Some [stay_offer "short" 1; stay_offer "long" 3] |};
   {| stayDate := "2028-03-02"; hasAvailability := true; dayOffers := Some [stay_offer "long" 3] |};
   {| stayDate := "2028-03-03"; hasAvailability := true; dayOffers := Some [stay_offer "long" 3] |}].

Example march_stays : calendarStays march "2028-03-04" = Ret
  {| validCheckOutsByArrival := [("2028-03-03", []); ("2028-03-02", []); ("2028-03-01", ["2028-03-02"; "2028-03-04"])];
     minStayByArrival := [("2028-03-03", 3); ("2028-03-02", 3); ("2028-03-01", 1)] |}%string.
Proof. vm_compute. reflexivity. Qed.

Definition march_first : CalendarStayDay :=
  {| stayDate := "2028-03-01"; hasAvailability := true; dayOffers := Some [stay_offer "short" 1; stay_offer "long" 3] |}.

Lemma march_ok : Forall stay_day_ok march.
Proof. repeat apply List.Forall_cons; [..|constructor]; (split; [vm_compute; reflexivity | split; apply Z.leb_le || apply Z.ltb_lt; vm_compute; reflexivity]). Qed.

Lemma calendar_stays_exact_witness : exists r, calendarStays march "2028-03-04" = Ret r /\ exists nights,
  (forall n, n ∈ nights <-> bookable march march_first n /\ str_le (iso_date (day_of march_first + n)) "2028-03-04" = true) /\
  map_get (validCheckOutsByArrival r) "2028-03-01" = Some ((fun n => iso_date (day_of march_first + n)) <$> nights).
Proof.
  destruct (calendar_stays_exact march "2028-03-04" march_ok) as (r & Hr & H).
  - apply (bool_decide_unpack _). vm_compute. exact I.
  - destruct (H march_first) as (nights & _ & Hn & Hm & _); [by left|]. exists r. split; [exact Hr|]. exists nights. split; [exact Hn | exact Hm].
Defined.

(** ** Priced stays *)

#[local] Instance euros : Currencies := {|
  currencies := fun c => String.eqb c "EUR";
  maximumFractionDigits := fun c => if String.eqb c "EUR" then Some 2 else None
|}.

Definition raw_party (adults_ : Z) (ages : list Z) : jsval :=
  obj [("adults", VInt adults_); ("childAgesAtCheckIn", arr (VInt <$> ages))].

Definition raw_room (id offer : string) (party : jsval) : jsval :=
  obj [("selectionId", VString id); ("roomTypeId", VString "suite"); ("offerId", VString offer); ("guests", party)].

Definition raw_addon (dates : list string) : jsval :=
  obj [("id", VString "spa"); ("quantity", VInt 1); ("dates", arr (VString <$> dates))].

Definition raw_stay (rooms addons : list jsval) : jsval :=
  obj [("propertyId", VString "p"); ("checkIn", VString "2028-03-01"); ("checkOut", VString "2028-03-03");
       ("currency", VString "EUR"); ("rooms", arr rooms); ("addons", arr addons); ("promoCode", VNull)].

Definition one_way : jsval := raw_stay [raw_room "r1" "flex" (raw_party 2 [3; 9]); raw_room "r2" "fixed" (raw_party 1 [])]
  [raw_addon ["2028-03-01"; "2028-03-02"]].
Definition other_way : jsval := raw_stay [raw_room "r2" "fixed" (raw_party 1 []); raw_room "r1" "flex" (raw_party 2 [9; 3])]
  [raw_addon ["2028-03-02"; "2028-03-01"]].

Definition stay_read (v : jsval) : ReplacementStay :=
  default {| stayPropertyId := ""; stayCheckIn := ""; stayCheckOut := ""; stayCurrency := ""; stayRooms := [];
             stayAddons := []; stayPromoCode := None |} (parseReplacementStay v).

(** A digest of four characters, which collides *)
Definition short_digest (s : string) : string := substring 0 4 s.

Lemma stay_key_identifies_witness :
  parseReplacementStay one_way = Some (stay_read one_way) /\
  parseReplacementStay other_way = Some (stay_read other_way) /\
  same_stay (stay_read one_way) (stay_read other_way) /\
  replacementStayKey short_digest (stay_read one_way) = replacementStayKey short_digest (stay_read other_way).
Proof.
  assert (Ea : parseReplacementStay one_way = Some (stay_read one_way)) by (vm_compute; reflexivity).
  assert (Eb : parseReplacementStay other_way = Some (stay_read other_way)) by (vm_compute; reflexivity).
  destruct (stay_key_identifies one_way other_way _ _ Ea Eb) as [Htext Hkey].
  assert (Hs : same_stay (stay_read one_way) (stay_read other_way)) by (apply Htext; vm_compute; reflexivity).
  split; [exact Ea|]. split; [exact Eb|]. split; [exact Hs|]. exact (proj1 (Hkey short_digest) Hs).
Defined.

Definition price_line (id room kind_ amount_ : string) : ReplacementPricingLine :=
  {| lineId := id; lineSelection := Some room; lineKind := kind_; lineAmount := amount_ |}.

Definition offer_terms (offer : string) : ReplacementOfferTerms :=
  {| termsRoomTypeId := "suite"; termsOfferId := offer; termsRevision := "t1"; termsCancellation := keeps_all;
     termsPayment := pay_full; acceptedMethods := None |}.

Definition owners : PricingSourceRevisions :=
  {| rev_pms := "1"; rev_terms := "1"; rev_promotions := "1"; rev_addons := "1"; rev_charges := "1"; rev_finance := "1"; rev_fx := "1" |}.

Definition hours_text (s : string) : option Z := if String.eqb s "noon" then Some 12 else if String.eqb s "one" then Some 13 else None.

Definition noon_evidence : ReplacementPricingEvidence :=
  {| evidenceVersion := "pricing.v2"; requestKey := replacementStayKey (fun s => s) (stay_read one_way); evidenceRevisions := owners;
     evidenceCurrency := "EUR"; issuedAt := "noon"; expiresAt := "one";
     evidenceLines := [price_line "1" "r1" "room" "20000"; price_line "2" "r2" "room" "9000"; price_line "3" "r1" "discount" "1000"];
     PublicPricing.totalMinor := "28000"; dueNowMinor := "8000"; dueLaterMinor := "20000";
     evidenceTerms := [offer_terms "fixed"; offer_terms "flex"]; evidenceFx := []; paymentCapabilityEvidenceId := "c";
     mandatoryChargeEvidenceId := "m" |}.

Lemma current_evidence_adds_up_witness :
  sum_of signed_amount (evidenceLines noon_evidence) = 28000 /\
  exists l, l ∈ evidenceLines noon_evidence /\ lineSelection l = Some "r2"%string /\ 0 < BigInt (lineAmount l).
Proof.
  assert (E : replacementEvidenceStatus (fun s => s) hours_text noon_evidence (stay_read other_way) owners 12 = evidence_current)
    by (vm_compute; reflexivity).
  destruct (current_evidence_adds_up (fun s => s) hours_text noon_evidence (stay_read other_way) owners 12 E) as (H1 & _ & _ & _ & _ & H2 & _).
  split; [exact H1|]. destruct (H2 (default (Build_ReplacementRoom "" "" "" {| guestAdults := 1; childAgesAtCheckIn := [] |})
                                      (head (stayRooms (stay_read other_way))))) as (l & Hl & _ & Hs & Hp); [left|].
  exists l. exact (conj Hl (conj Hs Hp)).
Defined.

Example stay_bound : parseReplacementStay one_way = bindPublicPricingSelection
  (obj [("version", VString PUBLIC_PRICING_SELECTION_VERSION); ("checkIn", VString "2028-03-01"); ("checkOut", VString "2028-03-03");
        ("currency", VString "EUR");
        ("rooms", arr [obj [("selectionId", VString "r1"); ("publicOfferKey", VString "k1"); ("guests", raw_party 2 [3; 9])];
                       obj [("selectionId", VString "r2"); ("publicOfferKey", VString "k2"); ("guests", raw_party 1 [])]]);
        ("addons", arr [raw_addon ["2028-03-01"; "2028-03-02"]]); ("promoCode", VNull)]) "p"
  [{| bindingPropertyId := "p"; bindingOfferKey := "k1"; bindingRoomTypeId := "suite"; bindingOfferId := "flex" |};
   {| bindingPropertyId := "p"; bindingOfferKey := "k2"; bindingRoomTypeId := "suite"; bindingOfferId := "fixed" |};
   {| bindingPropertyId := "q"; bindingOfferKey := "k1"; bindingRoomTypeId := "cabin"; bindingOfferId := "flex" |}].
Proof. vm_compute. reflexivity. Qed.
