(* ===== verification/ReportingExamples.v ===== *)
(** * Reports at concrete inputs

    A hotel with two channels, an extra and two expenses: its statement of the year,
    its revenue report and its dashboard, and the instances of their theorems. *)

From S2P Require Import Prelude JsValue JsonText CalendarDates Money FolioDecimals FinanceFolios FolioCsv FinanceReporting ProfitLoss ProfitLossGuarantees ProfitLossCsv RevenueReport Dashboard DashboardGuarantees RevenueCsv.

(** ** The environment *)

#[local] Instance report_collation : Collation := fun a b =>
  match String.compare a b with Lt => -1 | Eq => 0 | Gt => 1 end.
#[local] Instance one_zone : ZoneCatalogue := fun zone => String.eqb zone "Etc/UTC".
#[local] Instance utc_clock : LocalClock := fun at_ zone =>
  if String.eqb zone "Etc/UTC" then
    match parse_instant at_ with Some t => Some (iso_date (t / DAY_MS)) | None => None end
  else None.

Definition report_hotel : string := "5F0C2A9E-1111-4222-8333-0123456789AB".
Definition report_instant : string := "2026-02-10T09:30:00.000Z".

(** ** Periods *)

Lemma revenue_period_precedes_witness :
  financeRevenuePeriod {| queryFrom := "2026-03-01"; queryTo := "2026-03-10" |} =
  Ret {| current := {| from := "2026-03-01"; to := "2026-03-10" |};
         comparison := {| from := "2026-02-19"; to := "2026-02-28" |} |}.
Proof.
  pose proof (revenue_period_precedes "2026-03-01" "2026-03-10" eq_refl eq_refl ltac:(vm_compute; congruence)) as H.
  vm_compute in H. exact H.
Defined.

(** ** A statement *)

Definition stay_income : RevenueFact := {| factPeriod := Current; recognizedOn := "2026-01-05"; factAmount := "300.0000" |}.
Definition spa_income : RevenueFact := {| factPeriod := Current; recognizedOn := "2026-02-02"; factAmount := "45.5" |}.
Definition earlier_income : RevenueFact := {| factPeriod := Comparison; recognizedOn := "2025-02-09"; factAmount := "100" |}.
Definition staff_cost : ExpenseFact :=
  {| expensePeriod := Current; incurredOn := "2026-02-03"; categoryRow := "staff"; expenseAmount := "120.2500" |}.

Definition statement_input : FinanceProfitLossResponseInput :=
  {| inputPropertyId := report_hotel; inputCurrency := "EUR"; inputTimeZone := "Etc/UTC"; inputGeneratedAt := report_instant;
     inputAsOf := "2026-02-10"; inputQuery := {| year := 2026 |}; inputFreshness := None; inputEvidence := None;
     categoryRows := ["staff"; "custom:" +:+ to_lower report_hotel]; roomFacts := [stay_income; earlier_income];
     upsellFacts := [spa_income]; expenseFacts := [staff_cost] |}.

Definition statement_periods : FinanceReportingComparison :=
  Eval vm_compute in match financeProfitLossPeriods {| year := 2026 |} "2026-02-10" with
                     | Ret p => p
                     | Throw _ => {| current := {| from := ""; to := "" |}; comparison := {| from := ""; to := "" |} |}
                     end.

Lemma statement_facts_ok : facts_ok statement_input statement_periods.
Proof.
  split; cbn [roomFacts upsellFacts expenseFacts categoryRows statement_input app].
  - repeat constructor.
  - apply Forall_singleton. split_and!; [reflexivity | reflexivity | apply (bool_decide_unpack _); vm_compute; exact I].
  - constructor; [left; reflexivity|]. apply Forall_singleton. right. vm_compute. reflexivity.
Qed.

Lemma statement_reconciles_witness : exists response, composeFinanceProfitLossResponse statement_input = Ret response /\
  sum_of (fun m => unit_value (FinanceReporting.amount (netProfit m))) (months response) = 2252500.
Proof.
  destruct (statement_reconciles statement_input statement_periods report_instant) as (r & Hr & _ & _ & Hs);
    [reflexivity | vm_compute; reflexivity | reflexivity | reflexivity | reflexivity | exact statement_facts_ok |].
  exists r. split; [exact Hr|]. rewrite Hs. vm_compute. reflexivity.
Defined.

Definition no_statement : FinanceProfitLossResponse :=
  let zero := money 0 "EUR" in
  let none := {| value := zero; absoluteChange := zero; percentChange := None |} in
  {| contractVersion := ""; propertyId := ""; responseCurrency := ""; timeZone := ""; generatedAt := "";
     sourceFreshness := []; incompleteEvidence := [];
     summary := {| revenueYtd := none; expensesYtd := none; netProfitYtd := none |}; months := [] |}.
Definition statement : FinanceProfitLossResponse :=
  Eval vm_compute in match composeFinanceProfitLossResponse statement_input with Ret r => r | Throw _ => no_statement end.

Definition exported_statement : exn FinanceProfitLossCsvArtifact :=
  buildFinanceProfitLossCsvArtifact (to_lower report_hotel) statement {| year := 2026 |} "2026-02-10" (categoryRows statement_input).
Definition statement_artifact : FinanceProfitLossCsvArtifact :=
  Eval vm_compute in match exported_statement with
                     | Ret a => a
                     | Throw _ => {| artifactProperty := ""; artifactMoney := ""; artifactAsOf := ""; artifactGeneratedAt := "";
                                     artifactFilename := ""; artifactRowCount := 0; artifactBody := "" |}
                     end.

Lemma profit_loss_export_adds_up_witness : artifactRowCount statement_artifact = 25%nat /\
  exists cells, read_csv (artifactBody statement_artifact) = Some (FINANCE_PROFIT_LOSS_CSV_COLUMNS :: cells) /\
    figures cells "month" "netProfit" = figures cells "summary" "netProfitYtd".
Proof.
  split; [vm_compute; reflexivity|].
  assert (Hb : exported_statement = Ret statement_artifact) by (vm_compute; reflexivity).
  destruct (profit_loss_export_adds_up _ _ _ _ _ _ Hb) as (cells & Hr & _ & _ & _ & Hn & _).
  exists cells. split; [exact Hr | exact Hn].
Defined.

(** ** A revenue report *)

Definition room_fact (p : Period) (day name : string) (source : option string) (type gross commission : string) (n : Z)
    : FinanceRevenueRoomFact :=
  {| roomPeriod := p; roomRecognizedOn := day; channel := name; directSource := source; roomTypeId := type;
     grossRoomAmount := gross; otaCommissionAmount := commission; occupiedRoomNights := n; pricedOccupiedRoomNights := n |}.

Definition double_room : string := "0f0c2a9e-1111-4222-8333-000000000001".
Definition single_room : string := "0f0c2a9e-1111-4222-8333-000000000002".

Definition sold_rooms : FinanceRevenueRoomFacts :=
  {| roomRows := [room_fact Current "2026-02-10" "direct" (Some "website") double_room "200.0000" "0" 2;
                  room_fact Current "2026-02-03" "booking.com" None double_room "100" "15" 1;
                  room_fact Current "2026-02-04" "booking.com" None single_room "33.3333" "5.0000" 1;
                  room_fact Comparison "2026-01-10" "direct" (Some "phone") single_room "50" "0" 1];
     eligibleBookings := {| currentBookings := 3; comparisonBookings := 1 |};
     roomFreshness := [("bookings", Some "2026-02-10T09:00:00.000Z")]; roomGaps := [] |}.

Definition sold_extras : FinanceRevenueAddonFacts :=
  {| addonRows := [{| addonPeriod := Current; addonRecognizedOn := "2026-02-05"; ownership := partner; revenueAmount := "20" |};
                   {| addonPeriod := Current; addonRecognizedOn := "2026-02-10"; ownership := property; revenueAmount := "5.5" |}];
     fulfilledBookings := {| currentBookings := 2; comparisonBookings := 0 |};
     addonFreshness := []; addonGaps := [] |}.

Definition revenue_input : FinanceRevenueResponseInput :=
  {| revenuePropertyId := report_hotel; revenueCurrency := "EUR"; revenueTimeZone := "Etc/UTC"; revenueGeneratedAt := report_instant;
     revenueFreshness := []; rooms := sold_rooms; addOns := sold_extras |}.

Definition no_summary : RevenueSummary :=
  let none := {| value := money 0 ""; absoluteChange := money 0 ""; percentChange := None |} in
  {| grossRoom := none; otaCommission := none; netRoom := none; upsell := none;
     nights := {| countValue := 0; countChange := 0; countPercentChange := None |}; adr := none;
     attachRate := {| ratioValue := ""; ratioChange := ""; ratioPercentChange := None |} |}.
Definition report : FinanceRevenueResponse :=
  Eval vm_compute in match composeFinanceRevenueResponse revenue_input with
                     | Ret r => r
                     | Throw _ => {| revenueContract := ""; reportPropertyId := ""; reportCurrency := ""; reportTimeZone := "";
                                     reportGeneratedAt := ""; reportFreshness := []; reportEvidence := [];
                                     revenueSummary := no_summary; channels := []; directSources := []; upsells := []; roomTypes := [] |}
                     end.

Example reported_channels : channelName <$> channels report = ["booking.com"; "direct"] /\
  channelShare <$> channels report = ["0.4000"; "0.6000"].
Proof. split; vm_compute; reflexivity. Qed.

Lemma revenue_report_adds_up_witness : composeFinanceRevenueResponse revenue_input = Ret report /\
  sum_of (fun e => money_value (channelGross e)) (channels report) = money_value (value (grossRoom (revenueSummary report))) /\
  sum_of roomTypeNights (roomTypes report) = countValue (nights (revenueSummary report)).
Proof.
  assert (Hr : composeFinanceRevenueResponse revenue_input = Ret report) by (vm_compute; reflexivity).
  destruct (revenue_report_adds_up revenue_input report Hr) as (Hg & _ & _ & _ & _ & Ht & _).
  split; [exact Hr|]. split; [exact Hg|]. apply Ht. vm_compute. congruence.
Defined.

Lemma report_instant_readable : exists t, parse_instant report_instant = Some t /\ four_digit_instant t.
Proof. exists 1770715800000. split; [vm_compute; reflexivity|]. split; vm_compute; congruence. Qed.

Lemma revenue_report_exports_witness : exists a cells,
  buildFinanceRevenueCsvArtifact (reportPropertyId report) report {| queryFrom := "2026-02-01"; queryTo := "2026-02-10" |} = Ret a /\
  read_csv (revenueCsvBody a) = Some (FINANCE_REVENUE_CSV_COLUMNS :: cells) /\ length cells = 25%nat.
Proof.
  destruct report_instant_readable as (t & Ht & H4).
  destruct (revenue_report_exports revenue_input report t "2026-02-01" "2026-02-10") as (a & cells & Hb & Hr & Hn & Hc);
    [vm_compute; reflexivity | exact Ht | exact H4 | reflexivity | vm_compute; reflexivity | | reflexivity | reflexivity |
     vm_compute; congruence |].
  - intros r Hr _. cbn [roomRows rooms revenue_input sold_rooms] in Hr.
    repeat (apply elem_of_cons in Hr as [->|Hr]; [vm_compute; reflexivity|]). by apply elem_of_nil in Hr.
  - exists a, cells. split; [exact Hb|]. split; [exact Hr|]. rewrite Hn, Hc. vm_compute. reflexivity.
Defined.

(** ** A dashboard *)

Definition asked_day : string := "2026-02-10".
Definition empty_range : FinanceReportingRange := {| from := ""; to := "" |}.
Definition empty_comparison : FinanceReportingComparison := {| current := empty_range; comparison := empty_range |}.
Definition asked_periods : DashboardPeriods :=
  Eval vm_compute in match financeDashboardPeriods asked_day with
                     | Ret p => p
                     | Throw _ => {| today := empty_comparison; monthToDate := empty_comparison; daily := empty_range |}
                     end.

Definition spent : FinanceDashboardExpenseFacts :=
  {| currentTotal := "120.25"; comparisonTotal := "80";
     dailyExpenses := (fun d => {| expenseDate := d; dailyAmount := if String.eqb d "2026-02-03" then "120.25" else "0" |}) <$> window asked_day;
     upcomingExpenses := [{| upcomingDate := "2026-02-12"; upcomingKind := "staff"; upcomingAmount := "60"; upcomingPredicted := true |}];
     expenseFreshness := []; expenseGaps := [] |}.

Definition dashboard_input : FinanceDashboardResponseInput :=
  {| dashboardPropertyId := report_hotel; dashboardCurrency := "EUR"; dashboardTimeZone := "Etc/UTC";
     dashboardGeneratedAt := report_instant; dashboardFreshness := []; dashboardPeriods := asked_periods;
     dashboardRooms := sold_rooms; dashboardAddOns := sold_extras; dashboardExpenses := spent |}.

Lemma dashboard_exports_witness : exists r a cells, composeFinanceDashboardResponse dashboard_input = Ret r /\
  money_value (value (profitMtd (cards r))) = 2385833 /\ dashboard_exportable dashboard_input /\
  buildFinanceDashboardCsvArtifact (responsePropertyId r) r (Some asked_day) = Ret a /\
  read_csv (csvBody a) = Some (FINANCE_DASHBOARD_CSV_COLUMNS :: cells).
Proof.
  destruct (composeFinanceDashboardResponse dashboard_input) as [r|e] eqn:Er; [|vm_compute in Er; discriminate Er].
  destruct report_instant_readable as (t & Ht & H4). pose proof Er as Hr. vm_compute in Er. injection Er as Er.
  destruct (dashboard_exports dashboard_input r Hr) as (Hp & _ & _ & _ & Hbuilt & Hback).
  assert (Hx : dashboard_exportable dashboard_input).
  { exists t, asked_day. split; [exact Ht|]. vm_compute in Ht. injection Ht as <-. vm_compute. tauto. }
  destruct (proj2 Hbuilt Hx) as [a Ha]. destruct (Hback a Ha) as (cells & Hread & _).
  exists r, a, cells. split; [reflexivity|]. rewrite Hp. split; [rewrite <- Er; vm_compute; reflexivity|].
  split; [exact Hx|]. split; [exact Ha | exact Hread].
Defined.
