(* ===== verification/FinanceExamples.v ===== *)
(** * Openings, expenses, commissions and funnels at concrete inputs

    The instances of the theorems on the automatic opening of a calendar, the
    commission rules of channels, expenses written by hand and generated, and
    the conversion funnel. *)

From S2P Require Import Prelude JsValue JsonText CalendarDates Money InventoryPlanner CalendarAutoOpen FolioDecimals FinanceFolios FolioCsv FolioGuarantees FinanceExpenses GeneratedExpenses OtaCommission ConversionFunnel.

(** ** Automatic opening *)

#[local] Instance utc_days : ZonedDays := fun t zone =>
  if String.eqb zone "UTC" then Some (iso_date (t / DAY_MS)) else None.
#[local] Instance no_dates : DateReader := fun _ => false.

Definition rolling_setting_value : jsval :=
  obj [("contractVersion", VString "pms-calendar-auto-open.v1"); ("propertyId", VString "hotel"); ("revision", VInt 3);
       ("updatedAt", VNull); ("enabled", VBool true); ("mode", VString "rolling"); ("rollingMonths", VInt 12);
       ("fixedEndMonth", VNull)].

Definition rolling_setting : PmsCalendarAutoOpenSetting :=
  {| settingPropertyId := "hotel"; settingRevision := 3; updatedAt := None;
     configuration := PMS_CALENDAR_AUTO_OPEN_DEFAULT_CONFIGURATION |}.

Definition noon : Z := instant_of "2027-02-28T12:00:00.000Z".

Example rolling_horizon : calculatePmsCalendarAutoOpenHorizon rolling_setting "UTC" (Some noon) =
  Ret {| horizonTimeZone := "UTC"; propertyLocalDate := "2027-02-28"; targetOpenThrough := Some "2028-02-29" |}.
Proof. vm_compute. reflexivity. Qed.

Lemma auto_open_horizon_bounded_witness :
  isPmsCalendarAutoOpenSetting rolling_setting_value = Some rolling_setting /\
  exists y' m', 1 <= m' <= 12 /\
    let target := make_day y' (m' - 1) (days_in_month (leap_year y') m') in
    calculatePmsCalendarAutoOpenHorizon rolling_setting "UTC" (Some noon) =
      Ret {| horizonTimeZone := "UTC"; propertyLocalDate := date_text 2027 2 28; targetOpenThrough := Some (iso_date target) |} /\
    target - make_day 2027 (2 - 1) 28 + 1 <= PMS_CALENDAR_AUTO_OPEN_MAX_HORIZON_DAYS.
Proof.
  assert (Hs : isPmsCalendarAutoOpenSetting rolling_setting_value = Some rolling_setting) by (vm_compute; reflexivity).
  assert (Hl : CalendarAutoOpen.localDate (Some noon) "UTC" = Ret (date_text 2027 2 28, (2027, 2))) by (vm_compute; reflexivity).
  split; [exact Hs|].
  destruct (auto_open_horizon_bounded rolling_setting_value rolling_setting "UTC" (Some noon) 2027 2 28 Hs eq_refl
              ltac:(lia) eq_refl Hl eq_refl) as (y' & m' & H1 & H2 & H3 & _).
  exists y', m'. exact (conj H1 (conj H2 H3)).
Defined.

Definition open_room (id : string) : AutoOpenRoom := {| openRoomTypeId := id; openRoomFacts := 1; openRoomUnits := 2 |}.

Definition open_source (rooms : list AutoOpenRoom) : PmsCalendarAutoOpenSource :=
  {| sourceSettingRevision := 3; sourceProfileRevision := 1; sourceTimeZone := "UTC"; sourceCalendarRevision := 1;
     sourceRooms := rooms; pricingCurrencyRevision := 1; flexibleRatePlans := []; optionalPricingRevision := 0 |}.

Lemma auto_open_fingerprint_witness :
  tells_apart (fun s => s) (json_text (open_source_value (open_source [open_room "a"; open_room "b"])))
    (json_text (open_source_value (open_source [open_room "a"; open_room "b"])))
    (reordered (open_source [open_room "b"; open_room "a"]) (open_source [open_room "a"; open_room "b"])).
Proof.
  apply (auto_open_fingerprint (fun s => s) (open_source [open_room "b"; open_room "a"])
           (open_source [open_room "a"; open_room "b"])); vm_compute; reflexivity.
Defined.

(** ** Commissions *)

Definition commission_rule (id from : string) (to : option string) : FinanceOtaCommissionRule :=
  {| ruleId := id; rulePropertyId := "hotel"; ruleChannel := airbnb; percentageRate := "15.0000"; effectiveFrom := from;
     effectiveTo := to; ruleRevision := 1 |}.

Definition winter_rule : FinanceOtaCommissionRule := commission_rule "winter" "2026-01-01T00:00:00Z" (Some "2026-04-01T02:00:00+02:00").
Definition summer_rule : FinanceOtaCommissionRule := commission_rule "summer" "2026-04-01T00:00:00Z" None.

Definition april_query : CommissionQuery :=
  {| queryPropertyId := "hotel"; queryChannel := airbnb; effectiveAt := "2026-04-01T00:00:00Z" |}.

Lemma winter_rule_ok : rule_ok winter_rule.
Proof. split; [reflexivity|]. split; [vm_compute; congruence|]. eexists. split; vm_compute; reflexivity. Qed.

Lemma summer_rule_ok : rule_ok summer_rule.
Proof. split; [reflexivity|]. split; [vm_compute; congruence|]. eexists. split; [vm_compute; reflexivity | exact I]. Qed.

Lemma commission_rule_decides_witness :
  exists i, [winter_rule; summer_rule] !! i = Some summer_rule /\ covers april_query (instant_of "2026-04-01T00:00:00.000Z") summer_rule /\
    forall j r', [winter_rule; summer_rule] !! j = Some r' ->
      covers april_query (instant_of "2026-04-01T00:00:00.000Z") r' -> j = i.
Proof.
  assert (Ht : OtaCommission.timestamp (effectiveAt april_query) = Ret (instant_of "2026-04-01T00:00:00.000Z"))
    by (vm_compute; reflexivity).
  pose proof (commission_rule_decides [winter_rule; summer_rule] april_query _ Ht) as H.
  assert (E : resolveFinanceOtaCommissionRule [winter_rule; summer_rule] april_query = Ret (applied summer_rule))
    by (vm_compute; reflexivity).
  rewrite E in H. apply H. intros r Hr _. apply elem_of_cons in Hr as [->|Hr]; [exact winter_rule_ok|].
  apply list_elem_of_singleton in Hr as ->. exact summer_rule_ok.
Defined.

Lemma commission_instant_reads_back_witness :
  exists u, normalizeFinanceOtaCommissionInstant "2026-04-01T02:00:00+02:00" = Some u /\
    OtaCommission.timestamp u = Ret (instant_of "2026-04-01T00:00:00.000Z") /\ normalizeFinanceOtaCommissionInstant u = Some u.
Proof.
  apply (commission_instant_reads_back "2026-04-01T02:00:00+02:00" (instant_of "2026-04-01T00:00:00.000Z")).
  - vm_compute. reflexivity.
  - vm_compute. repeat split; congruence.
Defined.

(** ** Expenses *)

Definition hotel_id : string := "5f0c2a9e-1111-4222-8333-0123456789ab".
Definition expense_id : string := "5f0c2a9e-1111-4222-8333-0123456789ac".
Definition category_id : string := "5f0c2a9e-1111-4222-8333-0123456789ad".

Definition laundry : FinanceExpenseCsvItem :=
  {| expenseId := expense_id; expenseCategory := category_id; categoryName := "=Laundry"; origin := "manual";
     incurredOn := "2026-02-03"; vendor := "Clean, Inc."; expenseAmount := {| moneyAmount := "120.2500"; moneyCode := "EUR" |};
     recurringRuleId := None; sourceKey := None; reversesExpenseId := None; expenseRevision := 1; paymentStatus := "unpaid";
     paidOn := None |}.

Definition laundry_export : FinanceExpenseCsvArtifact :=
  Eval vm_compute in match buildFinanceExpenseCsvArtifact hotel_id "EUR" [laundry] with
                     | Ret a => a
                     | Throw _ => {| expensesPropertyId := ""; expensesCurrency := ""; expensesFilename := "";
                                     expensesRowCount := 0; expensesBody := "" |}
                     end.

Lemma expense_csv_reads_back_witness :
  exists rows, read_csv (expensesBody laundry_export) = Some (FINANCE_EXPENSE_CSV_COLUMNS :: rows) /\
    rows = [expense_row hotel_id "EUR" laundry] /\
    sumZ ((fun row => scaled (cell 7 row)) <$> rows) = 1202500.
Proof.
  assert (E : buildFinanceExpenseCsvArtifact hotel_id "EUR" [laundry] = Ret laundry_export) by (vm_compute; reflexivity).
  destruct (expense_csv_reads_back hotel_id "EUR" [laundry] laundry_export E) as (rows & H1 & H2 & _ & _ & _ & H3).
  exists rows. exact (conj H1 (conj H2 H3)).
Defined.

(** ** Generated expenses *)

Definition generated_trail (reason : string) : jsval :=
  obj [("actor", obj [("kind", VString "system"); ("service", VString "finance-expense-automation")]);
       ("requestId", VString "request"); ("correlationId", VString "correlation"); ("causationId", VString hotel_id);
       ("jobId", VString expense_id); ("jobAttemptId", VString category_id); ("reasonCode", VString reason);
       ("requestedAt", VString "2026-02-03T04:05:06.000Z")].

Definition generated_command (act : string) (reverses : jsval) (reason : string) : jsval :=
  obj [("commandId", VString hotel_id); ("propertyId", VString hotel_id); ("categoryId", VString category_id);
       ("origin", VString "recurring"); ("action", VString act); ("incurredOn", VString "2026-02-01");
       ("vendor", VString "Landlord"); ("description", VNull);
       ("amount", obj [("amount", VString "900.5"); ("currency", VString "EUR")]); ("paymentStatus", VString "unpaid");
       ("paidOn", VNull); ("reversesExpenseId", reverses);
       ("source", obj [("kind", VString "recurring"); ("recurringRuleId", VString category_id); ("ruleRevision", VInt 2);
                       ("occurrenceOn", VString "2026-02-01")]);
       ("audit", generated_trail reason)].

Definition rent : jsval := generated_command "create" VNull "scheduled_generation".
Definition rent_correction : jsval := generated_command "correct" (VString expense_id) "source_correction".

Definition parsed_command (v : jsval) : FinanceGeneratedExpenseCommand :=
  default {| generatedCommandId := ""; generatedPropertyId := ""; generatedCategoryId := ""; change := Create;
             generatedOn := ""; generatedVendor := ""; description := None;
             generatedAmount := {| moneyAmount := ""; moneyCode := "" |}; generatedStatus := ""; generatedPaidOn := None;
             generatedSource := platform_fee "" "" "";
             audit := {| requestId := ""; correlationId := ""; causationId := ""; jobId := ""; jobAttemptId := "";
                         reasonCode := ""; requestedAt := "" |} |}
    (parseFinanceGeneratedExpenseCommand v).

Lemma generated_keys_identify_witness :
  let c := parsed_command rent in let c' := parsed_command rent_correction in
  (financeGeneratedExpenseSourceKey c = financeGeneratedExpenseSourceKey c' <->
     same_evidence (generatedSource c) (generatedSource c') /\ occurrence (generatedSource c) = occurrence (generatedSource c') /\
     change c = change c') /\
  (financeGeneratedExpenseJobKey c = financeGeneratedExpenseJobKey c' <->
     same_evidence (generatedSource c) (generatedSource c') /\ change c = change c' /\
     (change c = Create -> occurrence (generatedSource c) = occurrence (generatedSource c'))) /\
  trimmed 1 250 (financeGeneratedExpenseSourceKey c) = true.
Proof.
  assert (H : parseFinanceGeneratedExpenseCommand rent = Some (parsed_command rent)) by (vm_compute; reflexivity).
  assert (H' : parseFinanceGeneratedExpenseCommand rent_correction = Some (parsed_command rent_correction))
    by (vm_compute; reflexivity).
  exact (generated_keys_identify rent rent_correction (parsed_command rent) (parsed_command rent_correction) H H').
Defined.

Example rent_keys : financeGeneratedExpenseSourceKey (parsed_command rent) =
  "recurring_rule:" +:+ category_id +:+ ":occurrence:2026-02-01" /\
  financeGeneratedExpenseJobKey (parsed_command rent_correction) =
  "finance.generate-expense:recurring_rule:" +:+ category_id +:+ ":correct-" +:+ expense_id +:+ ":v1".
Proof. vm_compute. split; reflexivity. Qed.

Lemma generated_fingerprint_witness :
  parseFinanceGeneratedExpenseCommand (command_value (parsed_command rent)) = Some (parsed_command rent) /\
  tells_apart (fun s => s) (json_text (booked_value (parsed_command rent)))
    (json_text (booked_value (parsed_command rent_correction)))
    (parsed_command rent_correction = audited (parsed_command rent) (audit (parsed_command rent_correction))).
Proof.
  assert (H : parseFinanceGeneratedExpenseCommand rent = Some (parsed_command rent)) by (vm_compute; reflexivity).
  assert (H' : parseFinanceGeneratedExpenseCommand rent_correction = Some (parsed_command rent_correction))
    by (vm_compute; reflexivity).
  destruct (generated_fingerprint (fun s => s) rent rent_correction (parsed_command rent) (parsed_command rent_correction)
              H H') as (H1 & _ & _ & H2).
  exact (conj H1 H2).
Defined.

(** ** The funnel *)

Definition funnel_row (id : string) (n : Z) (s : FunnelStage) (m : option string) : BookingFunnelEvent :=
  {| sessionId := id; sequence := n; stage := s; paymentMethod := m |}.

Definition visits : list BookingFunnelEvent :=
  (funnel_row "b" 1 page_visit None) ::
  imap (fun i s => funnel_row "a" (Z.of_nat i + 1) s None) (prefix_of false) ++
  [funnel_row "a" 20 complete_booking_clicked (Some "card"); funnel_row "a" 21 payment_authorized (Some "card")].

Lemma visits_distinct : distinct_events visits.
Proof. apply (bool_decide_unpack _). vm_compute. exact I. Qed.

Lemma funnel_counts_sessions_witness :
  distinct_events visits /\ forall s, counts (counters (run_funnel false visits)) s =
    Z.of_nat (length (List.filter (fun id => reached (prefix_of false) (session_of false visits id) s) (visitors visits))).
Proof. exact (conj visits_distinct (proj1 (funnel_counts_sessions false visits visits_distinct))). Defined.

Example visits_counted : counts (counters (run_funnel false visits)) page_visit = 2 /\
  counts (counters (run_funnel false visits)) payment_authorized = 1.
Proof. vm_compute. split; reflexivity. Qed.

Lemma funnel_order_irrelevant_witness :
  buildBookingConversionFunnel visits false = buildBookingConversionFunnel (rev visits) false.
Proof. exact (funnel_order_irrelevant false visits (rev visits) visits_distinct (Permutation.Permutation_rev visits)). Defined.
